(* ===== verification/_CoqProject ===== *)
-Q . S2P
Prelude.v
Kmonad.v
Wp.v
Kstate.v
Spinlock.v
Sleep.v
Str.v
Kalloc.v
Disk.v
Dll.v
Cache.v
Bio.v
BioRun.v
Log.v
Blocks.v
Panics.v
FsEx.v
Balloc.v
Inode.v
Dinode.v
Icache.v
FileData.v
Itrunc.v
Dir.v
Namex.v
Pipe.v
Ide.v
Boot.v
Vm.v
VmLaws.v
BootLaws.v
MpLaws.v
VmFree.v
VmCopy.v
VmGrow.v
Quiet.v
Image.v
File.v
Proc.v
Fork.v
Init.v
Wait.v
ProcLaws.v
Sched.v
Syscall.v
Exec.v
ExecLaws.v
ExecLoad.v
ExecCorrect.v
ExecEx.v
Sysfile.v
Grep.v
Sh.v
ShLaws.v
ShRound.v
ShType.v
ShRun.v
Kbd.v
Console.v
ConsoleLaws.v
Devices.v
DevLaws.v
Segments.v
Start.v
StartLaws.v
Calm.v
StartMain.v
Printf.v
Labs.v
LabsLaws.v
Utils.v
UtilsLaws.v
SyscallLaws.v
Umalloc.v
UmallocLaws.v
Mkfs.v
MkfsLaws.v
MkfsImage.v
