(* ===== verification/Prelude.v ===== *)
(** * A verification of xv6 and its user programs

    The repository holds a teaching operating system (src/assignment1): a
    Unix-like kernel for several CPUs, the tool that makes its disk image, a
    shell and small user programs; beside it are short exercises (src/lab1 to
    src/lab9, src/stuff, src/temp).  This library models the kernel and its
    programs and proves what makes them correct.

    ** How the parts work together

    A user program enters the kernel by a trap (trap.c), which dispatches a
    system call (syscall.c) to sysproc.c, sysfile.c or exec.c.  These use
    processes and the scheduler (proc.c), address spaces (vm.c) made of pages
    (kalloc.c), and open files (file.c) that are pipes (pipe.c) or inodes
    (fs.c).  Inodes, directories and the block bitmap live in blocks that
    reach the disk in transactions (log.c) through the buffer cache (bio.c)
    and a driver (ide.c or memide.c).  All of it runs under spin locks
    (spinlock.c) and waits with sleep and wakeup (proc.c).

    ** How code is modelled

    Kernel code is a function in the monad [M] of Kmonad.v, from a state to an
    [outcome]: [Ok] with a result, [Panic] (the machine stops), [Blocked] (the
    process sleeps on a channel), [Spin] (it waits for a spin lock that is
    held), [Fault] (undefined behaviour in C) or [NoFuel] (a loop of the model
    reached its bound).  A component has its own state; a larger one runs it
    through a lens.  Machine integers are [Z] with their wrap-around written
    out ([u8], [u16], [u32], [i32]).  Memory is a function from addresses to
    bytes; the free list of pages and the page tables are stored in it as the
    code stores them.

    [wp m Q s] (Wp.v) says that [m], started in [s], returns with [Q], sleeps,
    or stops with one of the panics listed in [exhausted]: a table, the log, a
    directory or the disk is full.  It excludes every other panic, undefined
    behaviour, waiting for a lock, and loops that exceed their bound.  The
    bounds of loops are computed from the arguments (pages of a size, blocks
    of a range, entries of a table) or, for loops that run until a string or a
    file ends, given by the caller; theorems about such loops ask for a bound
    above the length of what is read, and show that this is enough.  [calm]
    (Calm.v) says that code neither sleeps nor stops with such a panic; with a
    [wp] it follows that the code returns.

    A process that sleeps gives up the CPU, so code after [sleep] is a
    separate definition ([sleep_tail], [resume_sched]); the two halves of
    [scheduler] likewise.  Interleaving of CPUs is modelled where it is the
    point: the instructions of [acquire] and [release] (Spinlock.v, [Smp]), the
    moves of processes between CPUs (ProcLaws.v) and the turns of the scheduler
    (Sched.v).

    ** The files

    - Prelude.v, Kmonad.v, Wp.v: integers, lists, the monad, [wp]; Kstate.v:
      CPU, locks and process table (param.h, proc.h, x86.h).
    - Spinlock.v (spinlock.c), Sleep.v ([sched], [sleep], [wakeup] of proc.c),
      Str.v (string.c and ulib.c), Kalloc.v (kalloc.c).
    - Disk.v (buf.h, memide.c): the class [Driver], what a driver promises to
      the buffer cache.  Ide.v (ide.c): the request queue against a model of
      the controller.
    - Dll.v, Cache.v, Bio.v, BioRun.v (bio.c): the LRU list and the coherence
      of cached blocks, over any [Driver].  Log.v (log.c).
    - Blocks.v: the class [Blocks] with its laws, what fs.c needs from bio.c
      and log.c, and the proof that they provide it.  FsEx.v: a small image.
    - Balloc.v, Inode.v, Dinode.v, Icache.v, FileData.v, Itrunc.v, Dir.v,
      Namex.v (fs.c): block bitmap, inode cache, contents of files, truncation
      and allocation of inodes, directories, the walk along a path.
    - Pipe.v (pipe.c), File.v (file.c, and the state [sys] of the whole kernel).
    - Boot.v, BootLaws.v, MpLaws.v (bootmain.c, mp.c): the loader of the kernel
      and the search for the processors of the machine.
    - Vm.v, VmLaws.v, VmFree.v, VmCopy.v, VmGrow.v, Image.v (vm.c): page tables,
      what the hardware translates with them, which pages an address space
      owns, the memory of a program while it is built.
    - Segments.v (the rest of vm.c, mmu.h, trap.c's tables): descriptors of
      segments and gates, [switchuvm].
    - Devices.v, DevLaws.v (picirq.c, ioapic.c, timer.c, uart.c, lapic.c): ports
      and registers of the devices against models of the chips.
    - Proc.v (proc.c), Fork.v, Init.v ([userinit]), Wait.v, ProcLaws.v, Sched.v:
      processes.
    - Syscall.v, SyscallLaws.v (syscall.c, sysproc.c), Sysfile.v (sysfile.c,
      trap.c); Exec.v, ExecLaws.v, ExecLoad.v, ExecCorrect.v, ExecEx.v (exec.c):
      the loader of programs, its parts, its correctness, an example.
    - Start.v, StartLaws.v, Calm.v, StartMain.v (main.c): [main], the start of
      the other processors, and the state when the first process runs.
    - Kbd.v (kbd.c), Console.v, ConsoleLaws.v (console.c, and [procdump] of
      proc.c).
    - Mkfs.v, MkfsLaws.v, MkfsImage.v (mkfs.c): the image builder.
    - Printf.v (printf.c), Umalloc.v, UmallocLaws.v (umalloc.c), Grep.v
      (grep.c), Sh.v, ShLaws.v, ShRound.v, ShType.v, ShRun.v (sh.c), Utils.v,
      UtilsLaws.v (the small programs): user level.
    - Labs.v, LabsLaws.v (lab2, lab3, lab4): exercises on streams, byte
      differences between files, counts of names.

    ** What is proved

    - Mutual exclusion of spin locks, no lost wakeup, no process on two CPUs,
      bounded waiting for the CPU.
    - The loader puts every segment of the kernel in memory and zeroes the
      rest; [main] then sets up memory, devices, interrupts and all processors
      and the scheduler switches to the first process ([main_correct]); the
      descriptors [switchuvm] builds are those the hardware needs to enter the
      kernel on the right stack.
    - The page allocator gives out no page twice; [allocuvm] grows an address
      space by zeroed pages of its own; [mappages] makes exactly the
      translations asked for; [freevm] gives back every page once; [copyuvm]
      copies a memory; [fork] makes a copy of the caller and [wait] gives back
      all a child had; [exec] is a reference loader over the files on the disk.
    - A commit of the log is atomic under a crash at any disk write; the
      buffer cache returns current contents and never evicts what is in use.
    - [balloc] gives out free blocks only; [writei] and [readi] are reads and
      writes of an array of bytes; directories are maps from names to inodes
      and [namex] follows them; the inode cache has one entry per inode; an
      unlinked file gives its blocks back with its last reference.
    - Pipes and the disk queue are first-in first-out; the console is a line
      editor; reference counts of files are exact; system call arguments are
      checked before use.
    - The image that mkfs writes is a file system in the kernel's own terms,
      with the files it was given.
    - The user allocator keeps blocks disjoint; grep's matcher is the usual
      meaning of its patterns; the shell's parser ends, builds trees that are
      well formed, and reads back every command of its grammar, and the shell
      starts the programs of the lines it reads with the descriptors they ask
      for; printed numbers read back; wc counts the whole input however it
      arrives; the differences bcmp prints turn one file into the other with
      bfix.

    Where a theorem has hypotheses, a lemma with the suffix [_witness] applies
    it to concrete data.  Where the code does something its authors cannot have
    meant, a lemma shows it ([deallocuvm_skips], [copyout_null],
    [setupkvm_leaks], [mkfs_image]) or the statement excludes the case.

    ** What is not modelled

    - Assembly (bootasm.S, entry.S, entryother.S, swtch.S, trapasm.S,
      vectors.S); a context switch is the hand-over between the two halves of
      [sched] and [scheduler].  Of entryother.S the use of the three words
      that [startothers] leaves for it is modelled ([entryother_run]).
    - Test programs (usertests.c, forktest.c, stressfs.c).
    - Of the exercises: the programs made of calls to the host system
      (esplsh.c, del2.c, runprog.c, dir.c), tables of glyphs (font.c), and
      programs that print or ask for numbers (ascart.c, elfheader.c and the
      like).
    - The list of processes that Ctrl-P prints is modelled ([procdump]) but not
      as a step of the line editor; messages of mp.c and ioapic.c about tables
      they do not expect are left out.  A processor that [startothers] starts
      runs to its scheduler while the first one waits; what they do at the
      same time afterwards is the subject of ProcLaws.v and Sched.v.
    - Timing, caches and weak memory; DMA and device errors beyond what the
      drivers test for. *)

From stdpp Require Export base list gmap strings.
From Stdlib Require Export ZArith Lia Ascii.

#[export] Set Default Goal Selector "!".
#[global] Open Scope Z_scope.

(** * Machine integers

    A [w]-bit unsigned integer is a [Z] in [0, 2^w); the wrap-around of C's
    unsigned arithmetic is written out with [u8], [u16], [u32].  [i32] and
    [i16] reinterpret the low bits as two's complement. *)
Definition u8 (x : Z) : Z := x mod 256.
Definition u16 (x : Z) : Z := x mod 65536.
Definition u32 (x : Z) : Z := x mod 4294967296.

Definition i8 (x : Z) : Z :=
  let y := u8 x in if y <? 128 then y else y - 256.
Definition i16 (x : Z) : Z :=
  let y := u16 x in if y <? 32768 then y else y - 65536.
Definition i32 (x : Z) : Z :=
  let y := u32 x in if y <? 2147483648 then y else y - 4294967296.

(** The C truth value of an integer. *)
Definition nz (x : Z) : bool := negb (x =? 0).
Definition b2z (b : bool) : Z := if b then 1 else 0.

Create HintDb kdb discriminated.
Create HintDb klen.

Ltac zify_div := Z.div_mod_to_equations.

(** Split every conjunction and existential of the context. *)
Ltac deexs :=
  repeat match goal with
  | H : ∃ _, _ |- _ => destruct H
  | H : _ ∧ _ |- _ => destruct H
  end.

(** Case analysis on the boolean comparisons of [Z] and [nat] in view. *)
Ltac bdestr :=
  repeat match goal with
  | H : context [?a =? ?b] |- _ => destruct (Z.eqb_spec a b)
  | |- context [?a =? ?b] => destruct (Z.eqb_spec a b)
  | H : context [?a <? ?b] |- _ => destruct (Z.ltb_spec a b)
  | |- context [?a <? ?b] => destruct (Z.ltb_spec a b)
  | H : context [?a <=? ?b] |- _ => destruct (Z.leb_spec a b)
  | |- context [?a <=? ?b] => destruct (Z.leb_spec a b)
  end.

Lemma u32_small x : 0 ≤ x < 4294967296 → u32 x = x.
Proof. intros; unfold u32; rewrite Z.mod_small; lia. Qed.

Lemma u32_range x : 0 ≤ u32 x < 4294967296.
Proof. unfold u32; apply Z.mod_pos_bound; lia. Qed.

Lemma u32_idemp x : u32 (u32 x) = u32 x.
Proof. unfold u32; rewrite Z.mod_mod; lia. Qed.

Lemma u32_add_idemp_l x y : u32 (u32 x + y) = u32 (x + y).
Proof. unfold u32; rewrite Zplus_mod_idemp_l; done. Qed.

Lemma u8_range x : 0 ≤ u8 x < 256.
Proof. unfold u8; apply Z.mod_pos_bound; lia. Qed.

Lemma u8_small x : 0 ≤ x < 256 → u8 x = x.
Proof. intros; unfold u8; rewrite Z.mod_small; lia. Qed.

Lemma i32_small x : -2147483648 ≤ x < 2147483648 → i32 x = x.
Proof.
  intros; unfold i32, u32.
  destruct (decide (0 ≤ x)).
  - rewrite Z.mod_small by lia. bdestr; lia.
  - replace (x mod 4294967296) with (x + 4294967296).
    { bdestr; lia. }
    rewrite <- (Z.mod_small (x + 4294967296) 4294967296) by lia.
    rewrite <- (Z_mod_plus_full x 1 4294967296). f_equal; lia.
Qed.

Lemma i16_small x : -32768 ≤ x < 32768 → i16 x = x.
Proof.
  intros; unfold i16, u16.
  destruct (decide (0 ≤ x)).
  - rewrite Z.mod_small by lia. bdestr; lia.
  - replace (x mod 65536) with (x + 65536).
    { bdestr; lia. }
    rewrite <- (Z.mod_small (x + 65536) 65536) by lia.
    rewrite <- (Z_mod_plus_full x 1 65536). f_equal; lia.
Qed.

(** * Byte arrays

    A C array of bytes that lives inside a structure is a [list Z].
    [bget_at]/[splice] are the reads and the [memmove]-style overwrites at
    an offset that stay inside the array. *)
Definition slice (off n : nat) (l : list Z) : list Z := take n (drop off l).

Definition splice (off : nat) (new l : list Z) : list Z :=
  take off l ++ new ++ drop (off + length new) l.

Lemma length_splice off new (l : list Z) :
  (off + length new ≤ length l)%nat → length (splice off new l) = length l.
Proof.
  intros. unfold splice. rewrite !length_app, length_take, length_drop. lia.
Qed.

Lemma length_slice off n (l : list Z) :
  (off + n ≤ length l)%nat → length (slice off n l) = n.
Proof. intros. unfold slice. rewrite length_take, length_drop. lia. Qed.

Lemma lookup_splice_new off new (l : list Z) i :
  (off + length new ≤ length l)%nat →
  (off ≤ i < off + length new)%nat →
  splice off new l !! i = new !! (i - off)%nat.
Proof.
  intros Hl Hi. unfold splice.
  rewrite lookup_app_r; rewrite length_take; [|lia].
  rewrite lookup_app_l; [f_equal; lia|lia].
Qed.

Lemma lookup_splice_old off new (l : list Z) i :
  (off + length new ≤ length l)%nat →
  (i < off ∨ off + length new ≤ i)%nat →
  splice off new l !! i = l !! i.
Proof.
  intros Hl [Hi|Hi]; unfold splice.
  - rewrite lookup_app_l; [|rewrite length_take; lia].
    by rewrite lookup_take_lt.
  - rewrite lookup_app_r; rewrite length_take; [|lia].
    rewrite lookup_app_r; [|lia].
    rewrite lookup_drop. f_equal. lia.
Qed.

Lemma lookup_slice off n (l : list Z) i :
  (i < n)%nat → slice off n l !! i = l !! (off + i)%nat.
Proof. intros. unfold slice. by rewrite lookup_take_lt, lookup_drop. Qed.

(** Reading back what was written at the same place. *)
Lemma slice_splice_same off n new (l : list Z) :
  n = length new → (off + n ≤ length l)%nat → slice off n (splice off new l) = new.
Proof.
  intros -> Hl. apply list_eq. intros i.
  destruct (decide (i < length new)%nat).
  - rewrite lookup_slice by done. rewrite lookup_splice_new by lia. f_equal; lia.
  - rewrite !lookup_ge_None_2; [done|lia|].
    rewrite length_slice; [lia|]. by rewrite length_splice.
Qed.

(** A write leaves a disjoint range alone. *)
Lemma slice_splice_disjoint off n off' new (l : list Z) :
  (off' + length new ≤ length l)%nat →
  (off + n ≤ off' ∨ off' + length new ≤ off)%nat →
  slice off n (splice off' new l) = slice off n l.
Proof.
  intros Hl Hd. apply list_eq. intros i.
  destruct (decide (i < n)%nat).
  - rewrite !lookup_slice by done. apply lookup_splice_old; [done|]. lia.
  - unfold slice. rewrite !lookup_ge_None_2; rewrite ?length_take; try done; lia.
Qed.

(** * Little-endian words inside byte arrays *)
Fixpoint le_decode (bs : list Z) : Z :=
  match bs with
  | [] => 0
  | b :: bs => b + 256 * le_decode bs
  end.

Fixpoint le_encode (n : nat) (x : Z) : list Z :=
  match n with
  | O => []
  | S n => x mod 256 :: le_encode n (x / 256)
  end.

Definition is_byte (b : Z) : Prop := 0 ≤ b < 256.
Definition is_bytes (l : list Z) : Prop := Forall is_byte l.

Lemma length_le_encode n x : length (le_encode n x) = n.
Proof. revert x; induction n; intros; simpl; auto. Qed.

Lemma le_encode_bytes n x : is_bytes (le_encode n x).
Proof.
  revert x; induction n; intros x; simpl; constructor; [|apply IHn].
  apply Z.mod_pos_bound; lia.
Qed.

Lemma le_decode_encode n x : le_decode (le_encode n x) = x mod 256 ^ Z.of_nat n.
Proof.
  revert x; induction n; intros x.
  - simpl. by rewrite Z.mod_1_r.
  - rewrite Nat2Z.inj_succ, Z.pow_succ_r by lia.
    cbn [le_encode le_decode]. rewrite IHn.
    rewrite Z.rem_mul_r; [done|lia|apply Z.pow_pos_nonneg; lia].
Qed.

Lemma le_decode_range bs :
  is_bytes bs → 0 ≤ le_decode bs < 256 ^ Z.of_nat (length bs).
Proof.
  induction 1 as [|b bs Hb _ IH]; [simpl; lia|].
  rewrite length_cons, Nat2Z.inj_succ, Z.pow_succ_r by lia. cbn [le_decode].
  unfold is_byte in Hb. nia.
Qed.

Lemma le_encode_decode bs : is_bytes bs → le_encode (length bs) (le_decode bs) = bs.
Proof.
  induction 1 as [|b bs Hb _ IH]; [done|]. unfold is_byte in Hb. simpl.
  replace ((b + 256 * le_decode bs) mod 256) with b.
  - replace ((b + 256 * le_decode bs) / 256) with (le_decode bs); [by rewrite IH|].
    rewrite Z.mul_comm, Z.div_add by lia. rewrite Z.div_small; lia.
  - rewrite Z.mul_comm, Z.mod_add by lia. rewrite Z.mod_small; lia.
Qed.

(** A 32-bit and a 16-bit field at a byte offset of an array. *)
Definition get_u32 (off : nat) (d : list Z) : Z := le_decode (slice off 4 d).
Definition put_u32 (off : nat) (x : Z) (d : list Z) : list Z :=
  splice off (le_encode 4 x) d.
Definition get_u16 (off : nat) (d : list Z) : Z := le_decode (slice off 2 d).
Definition put_u16 (off : nat) (x : Z) (d : list Z) : list Z :=
  splice off (le_encode 2 x) d.

Lemma length_put_u32 off x d :
  (off + 4 ≤ length d)%nat → length (put_u32 off x d) = length d.
Proof. intros. unfold put_u32. rewrite length_splice; by rewrite ?length_le_encode. Qed.

Lemma length_put_u16 off x d :
  (off + 2 ≤ length d)%nat → length (put_u16 off x d) = length d.
Proof. intros. unfold put_u16. rewrite length_splice; by rewrite ?length_le_encode. Qed.

Lemma get_put_u32 off x d :
  (off + 4 ≤ length d)%nat → get_u32 off (put_u32 off x d) = u32 x.
Proof.
  intros. unfold get_u32, put_u32.
  rewrite slice_splice_same by (rewrite ?length_le_encode; done).
  by rewrite le_decode_encode.
Qed.

Lemma get_put_u32_ne off off' x d :
  (off' + 4 ≤ length d)%nat → (off + 4 ≤ off' ∨ off' + 4 ≤ off)%nat →
  get_u32 off (put_u32 off' x d) = get_u32 off d.
Proof.
  intros. unfold get_u32, put_u32.
  rewrite slice_splice_disjoint; rewrite ?length_le_encode; auto.
Qed.

Lemma get_put_u16 off x d :
  (off + 2 ≤ length d)%nat → get_u16 off (put_u16 off x d) = u16 x.
Proof.
  intros. unfold get_u16, put_u16.
  rewrite slice_splice_same by (rewrite ?length_le_encode; done).
  by rewrite le_decode_encode.
Qed.

(** Fields that do not overlap do not see each other's writes. *)
Lemma get_u16_put_u16_ne off off' x d :
  (off' + 2 ≤ length d)%nat → (off + 2 ≤ off' ∨ off' + 2 ≤ off)%nat →
  get_u16 off (put_u16 off' x d) = get_u16 off d.
Proof.
  intros. unfold get_u16, put_u16. rewrite slice_splice_disjoint; rewrite ?length_le_encode; auto.
Qed.
Lemma get_u16_put_u32_ne off off' x d :
  (off' + 4 ≤ length d)%nat → (off + 2 ≤ off' ∨ off' + 4 ≤ off)%nat →
  get_u16 off (put_u32 off' x d) = get_u16 off d.
Proof.
  intros. unfold get_u16, put_u32. rewrite slice_splice_disjoint; rewrite ?length_le_encode; auto.
Qed.
Lemma get_u32_put_u16_ne off off' x d :
  (off' + 2 ≤ length d)%nat → (off + 4 ≤ off' ∨ off' + 2 ≤ off)%nat →
  get_u32 off (put_u16 off' x d) = get_u32 off d.
Proof.
  intros. unfold get_u32, put_u16. rewrite slice_splice_disjoint; rewrite ?length_le_encode; auto.
Qed.

Lemma i16_u16 x : -32768 ≤ x < 32768 → i16 (u16 x) = x.
Proof. intros. unfold i16, u16. rewrite Z.mod_mod by lia. by apply i16_small. Qed.

#[export] Hint Resolve u32_range u8_range le_encode_bytes : kdb.
#[export] Hint Rewrite length_le_encode @length_take @length_drop @length_app
  @length_insert @length_replicate @length_cons @length_nil : klen.

(** * Lists *)

Lemma last_index_lookup {A} (l : list A) x y :
  (l ++ [x]) !! length l = Some y → y = x.
Proof. rewrite lookup_app_r, Nat.sub_diag by lia. by intros [= ->]. Qed.

Lemma NoDup_lookup_ne {A} (l : list A) i j x y :
  NoDup l → l !! i = Some x → l !! j = Some y → i ≠ j → x ≠ y.
Proof. intros Hn Hi Hj Hij ->. apply Hij. eapply NoDup_lookup; eauto. Qed.

Lemma list_alter_Some {A} (f : A → A) (l : list A) i j y :
  alter f i l !! j = Some y → (j = i ∧ ∃ x, l !! i = Some x ∧ y = f x) ∨ (j ≠ i ∧ l !! j = Some y).
Proof.
  rewrite list_lookup_alter. case_decide as Hij; [subst|auto].
  intros (x&->&Hx)%fmap_Some. left. eauto.
Qed.

(** * Characters *)

(** The code of a character and the bytes of a string constant. *)
Definition zc (a : ascii) : Z := Z.of_N (N_of_ascii a).
Definition zs (s : string) : list Z := zc <$> String.list_ascii_of_string s.
Arguments zc _%_char.
Arguments zs _%_string.
