(* ===== verification/Kmonad.v ===== *)
(** The kernel monad: state passing with the ways a kernel path can end.

    Kernel code is a function from a state to an [outcome].  Besides a normal
    return there is [Panic] (the call of [panic] in console.c, which halts the
    machine), [Blocked] (the running process has called [sched] from [sleep]
    and waits on a channel), [Spin] (the CPU spins on a lock held elsewhere),
    [Fault] (an access outside an object: undefined behaviour in C) and
    [NoFuel] (a loop of the model ran out of its bound; theorems about loops
    show it does not happen). *)
From S2P Require Import Prelude.

(** The spin locks of the kernel, by the object that contains them. *)
Inductive lockid :=
| LPtable | LBcache | LLog | LIcache | LFtable | LKmem | LIde | LCons | LInput
| LTicks | LPipe (p : Z).

(** The sleep channels: addresses of kernel objects. *)
Inductive chan :=
| CNone | CBuf (b : nat) | CLog | CInode (i : nat) | CProc (p : nat)
| CPipeRead (p : Z) | CPipeWrite (p : Z) | CInput | CTicks.

#[export] Instance lockid_eq_dec : EqDecision lockid.
Proof. solve_decision. Defined.
#[export] Instance chan_eq_dec : EqDecision chan.
Proof. solve_decision. Defined.

Definition lockid_code (l : lockid) : Z + nat :=
  match l with
  | LPtable => inr 0%nat | LBcache => inr 1%nat | LLog => inr 2%nat
  | LIcache => inr 3%nat | LFtable => inr 4%nat | LKmem => inr 5%nat
  | LIde => inr 6%nat | LCons => inr 7%nat | LInput => inr 8%nat
  | LTicks => inr 9%nat | LPipe p => inl p
  end.
Definition lockid_decode (c : Z + nat) : lockid :=
  match c with
  | inl p => LPipe p
  | inr 0%nat => LPtable | inr 1%nat => LBcache | inr 2%nat => LLog
  | inr 3%nat => LIcache | inr 4%nat => LFtable | inr 5%nat => LKmem
  | inr 6%nat => LIde | inr 7%nat => LCons | inr 8%nat => LInput
  | inr _ => LTicks
  end.
#[export] Instance lockid_countable : Countable lockid.
Proof. apply (inj_countable' lockid_code lockid_decode). by intros []. Defined.

Inductive outcome (S A : Type) : Type :=
| Ok (a : A) (s : S)
| Panic (msg : string) (s : S)
| Blocked (c : chan) (s : S)
| Spin (l : lockid) (s : S)
| Fault (s : S)
| NoFuel.
Arguments Ok {S A} _ _.
Arguments Panic {S A} _ _.
Arguments Blocked {S A} _ _.
Arguments Spin {S A} _ _.
Arguments Fault {S A} _.
Arguments NoFuel {S A}.

Definition M (S A : Type) : Type := S → outcome S A.

#[export] Instance M_ret S : MRet (M S) := λ A a s, Ok a s.
#[export] Instance M_bind S : MBind (M S) := λ A B k m s,
  match m s with
  | Ok a s' => k a s'
  | Panic msg s' => Panic msg s'
  | Blocked c s' => Blocked c s'
  | Spin l s' => Spin l s'
  | Fault s' => Fault s'
  | NoFuel => NoFuel
  end.

Definition gets {S A} (f : S → A) : M S A := λ s, Ok (f s) s.
Definition modify {S} (f : S → S) : M S unit := λ s, Ok tt (f s).
Definition panic {S A} (msg : string) : M S A := λ s, Panic msg s.
Definition blocked {S A} (c : chan) : M S A := λ s, Blocked c s.
Definition spin {S A} (l : lockid) : M S A := λ s, Spin l s.
Definition fault {S A} : M S A := λ s, Fault s.
Definition nofuel {S A} : M S A := λ _, NoFuel.

(** [if(c) m] and a read that faults when the object does not exist. *)
Definition when {S} (c : bool) (m : M S unit) : M S unit :=
  if c then m else mret tt.
Definition deref {S A} (f : S → option A) : M S A := λ s,
  match f s with Some a => Ok a s | None => Fault s end.

(** A bounded loop: [body x] either continues with a new loop state or
    leaves the loop with a value. *)
Fixpoint loop {S A B} (fuel : nat) (body : A → M S (A + B)) (x : A) : M S B :=
  match fuel with
  | O => nofuel
  | S fuel =>
      r ← body x;
      match r with
      | inl x' => loop fuel body x'
      | inr y => mret y
      end
  end.

(** A loop over a fixed range of objects. *)
Fixpoint for_each {S A} (l : list A) (f : A → M S unit) : M S unit :=
  match l with
  | [] => mret tt
  | x :: l => f x;; for_each l f
  end.

(** Running code of a component inside a larger state. *)
Record lens (S T : Type) := Lens { lget : S → T; lset : T → S → S }.
Arguments Lens {S T} _ _.
Arguments lget {S T} _ _.
Arguments lset {S T} _ _ _.

Class LensLaws {S T} (L : lens S T) : Prop := {
  lget_lset : ∀ t s, lget L (lset L t s) = t;
  lset_lget : ∀ s, lset L (lget L s) s = s;
  lset_lset : ∀ t t' s, lset L t (lset L t' s) = lset L t s
}.

Definition zoom {S T A} (L : lens S T) (m : M T A) : M S A := λ s,
  match m (lget L s) with
  | Ok a t => Ok a (lset L t s)
  | Panic msg t => Panic msg (lset L t s)
  | Blocked c t => Blocked c (lset L t s)
  | Spin l t => Spin l (lset L t s)
  | Fault t => Fault (lset L t s)
  | NoFuel => NoFuel
  end.

Definition lens_comp {S T U} (L : lens S T) (K : lens T U) : lens S U :=
  Lens (λ s, lget K (lget L s)) (λ u s, lset L (lset K u (lget L s)) s).

#[export] Instance lens_comp_laws {S T U} (L : lens S T) (K : lens T U) :
  LensLaws L → LensLaws K → LensLaws (lens_comp L K).
Proof.
  intros [L1 L2 L3] [K1 K2 K3]; split; intros; simpl.
  - by rewrite L1, K1.
  - by rewrite K2, L2.
  - by rewrite L1, L3, K3.
Qed.

(** * Inversion of runs that return *)

Lemma bind_ok {S A B} (m : M S A) (k : A → M S B) s b s2 :
  (m ≫= k) s = Ok b s2 ↔ ∃ a s1, m s = Ok a s1 ∧ k a s1 = Ok b s2.
Proof.
  unfold mbind, M_bind. destruct (m s); split; intros; deexs; try congruence; eauto.
Qed.

Lemma bind_run {S A B} (m : M S A) (k : A → M S B) s a s1 :
  m s = Ok a s1 → (m ≫= k) s = k a s1.
Proof. unfold mbind, M_bind. by intros ->. Qed.

Lemma bind_panic {S A B} (m : M S A) (k : A → M S B) s msg s1 :
  m s = Panic msg s1 → (m ≫= k) s = Panic msg s1.
Proof. unfold mbind, M_bind. by intros ->. Qed.

Lemma bind_assoc {S A B C} (m : M S A) (k : A → M S B) (h : B → M S C) s :
  ((m ≫= k) ≫= h) s = (m ≫= (λ x, k x ≫= h)) s.
Proof. unfold mbind, M_bind. by destruct (m s). Qed.

Lemma ret_ok {S A} (a b : A) (s s' : S) : mret (M:=M S) a s = Ok b s' ↔ a = b ∧ s = s'.
Proof. unfold mret, M_ret. split; [by intros [= -> ->]|by intros [-> ->]]. Qed.
Lemma gets_ok {S A} (f : S → A) s b s' : gets f s = Ok b s' ↔ f s = b ∧ s = s'.
Proof. unfold gets. split; [by intros [= -> ->]|by intros [-> ->]]. Qed.
Lemma modify_ok {S} (f : S → S) s b s' : modify f s = Ok b s' ↔ b = tt ∧ f s = s'.
Proof. unfold modify. split; [by intros [= <- ->]|by intros [-> ->]]. Qed.
Lemma deref_ok {S A} (f : S → option A) s b s' :
  deref f s = Ok b s' ↔ f s = Some b ∧ s = s'.
Proof.
  unfold deref. destruct (f s); split; [by intros [= -> ->]|by intros [[= ->] ->]|done|].
  by intros [??].
Qed.
Lemma zoom_ok {S T A} (L : lens S T) (m : M T A) s a s' :
  zoom L m s = Ok a s' ↔ ∃ t, m (lget L s) = Ok a t ∧ s' = lset L t s.
Proof.
  unfold zoom. destruct (m (lget L s)); split; intros; deexs; try congruence; eauto.
  simplify_eq. eauto.
Qed.
Lemma when_ok {S} c (m : M S unit) s b s' :
  when c m s = Ok b s' ↔ (c = true ∧ m s = Ok b s') ∨ (c = false ∧ s = s').
Proof.
  unfold when. destruct c; rewrite ?ret_ok; destruct b; naive_solver.
Qed.

(** Unfold a hypothesis [m s = Ok a s'] into the runs of its steps. *)
Ltac minv1 H :=
  match type of H with
  | (mbind _ _) _ = Ok _ _ =>
      let a := fresh "a" in let s := fresh "s" in let H1 := fresh "Hm" in
      let H2 := fresh "Hk" in
      apply bind_ok in H as (a & s & H1 & H2); minv1 H1; minv1 H2
  | mret _ _ = Ok _ _ => apply ret_ok in H; destruct H as [??]; simplify_eq
  | gets _ _ = Ok _ _ => apply gets_ok in H; destruct H as [??]; simplify_eq
  | modify _ _ = Ok _ _ => apply modify_ok in H; destruct H as [??]; simplify_eq
  | deref _ _ = Ok _ _ => apply deref_ok in H; destruct H as [? ?]; simplify_eq
  | panic _ _ = Ok _ _ => discriminate H
  | fault _ = Ok _ _ => discriminate H
  | blocked _ _ = Ok _ _ => discriminate H
  | spin _ _ = Ok _ _ => discriminate H
  | nofuel _ = Ok _ _ => discriminate H
  | Panic _ _ = Ok _ _ => discriminate H
  | Fault _ = Ok _ _ => discriminate H
  | Ok _ _ = Ok _ _ => simplify_eq H; intros; subst
  | zoom _ _ _ = Ok _ _ =>
      let t := fresh "t" in let H1 := fresh "Hz" in
      apply zoom_ok in H as (t & H1 & ?); minv1 H1; subst
  | _ => idtac
  end.
Ltac minv H := minv1 H; simpl in *.

(** Evaluate a goal [(x ← m; k) s = r] one step from [m s = Ok a s']. *)
Ltac mrun E := rewrite (bind_run _ _ _ _ _ E).

(** * Rules for bounded loops *)

Lemma loop_next {S A B} (body : A → M S (A + B)) fuel x s x' s' :
  body x s = Ok (inl x') s' → loop (Datatypes.S fuel) body x s = loop fuel body x' s'.
Proof. intros H. cbn [loop]. by mrun H. Qed.
Lemma loop_done {S A B} (body : A → M S (A + B)) fuel x s y s' :
  body x s = Ok (inr y) s' → loop (Datatypes.S fuel) body x s = Ok y s'.
Proof. intros H. cbn [loop]. by mrun H. Qed.

(** [loop] reaches the exit of its body when a measure decreases on every
    turn that continues; the invariant holds at the exit. *)
Lemma loop_run {S A B} (body : A → M S (A + B)) (I : A → S → Prop)
    (Q : B → S → Prop) (meas : A → S → nat) :
  (∀ x s, I x s →
    (∃ x' s', body x s = Ok (inl x') s' ∧ I x' s' ∧ (meas x' s' < meas x s)%nat) ∨
    (∃ y s', body x s = Ok (inr y) s' ∧ Q y s')) →
  ∀ fuel x s, I x s → (meas x s < fuel)%nat →
  ∃ y s', loop fuel body x s = Ok y s' ∧ Q y s'.
Proof.
  intros Hb fuel. induction fuel as [|fuel IH]; intros x s HI Hf; [lia|].
  cbn [loop]. destruct (Hb x s HI) as [(x'&s'&E&HI'&Hm)|(y&s'&E&HQ)]; mrun E.
  - apply IH; [done|lia].
  - eauto.
Qed.

(** Partial correctness of a loop that has returned. *)
Lemma loop_inv {S A B} (body : A → M S (A + B)) (I : A → S → Prop) :
  (∀ x s x' s', I x s → body x s = Ok (inl x') s' → I x' s') →
  ∀ fuel x s y s2, I x s → loop fuel body x s = Ok y s2 →
  ∃ x1 s1, I x1 s1 ∧ body x1 s1 = Ok (inr y) s2.
Proof.
  intros Hb fuel. induction fuel as [|fuel IH]; intros x s y s2 HI Hl; [discriminate Hl|].
  cbn [loop] in Hl. apply bind_ok in Hl as ([x'|y']&s1&E&Hl).
  - eapply IH; [|exact Hl]. eapply Hb; eauto.
  - apply ret_ok in Hl as [-> ->]. eauto.
Qed.
