(* ===== verification/Wp.v ===== *)
(** Weakest preconditions for kernel code.

    [wp m Q s]: run from [s], the code either returns with [Q], or goes to
    sleep, or stops with one of the panics listed in [exhausted]: the kernel
    has run out of buffers, blocks, inodes, log or directory space, or the
    caller writes a block while no transaction is open.  No other panic
    happens, no lock is waited for, no undefined behaviour is reached
    ([Fault]) and no loop of the model runs out of its bound ([NoFuel]). *)
From S2P Require Import Prelude Kmonad.

(** The panics that tell that a table, the log, a directory or the disk is
    full, and the one for a write outside of a transaction. *)
Definition exhausted (msg : string) : bool :=
  existsb (String.eqb msg) ["bget: no buffers"; "balloc: out of blocks"; "iget: no inodes";
    "ialloc: no inodes"; "too big a transaction"; "dirlink"; "write outside of trans"].

Definition wp {S A} (m : M S A) (Q : A → S → Prop) (s : S) : Prop :=
  match m s with
  | Ok a s' => Q a s'
  | Panic msg _ => exhausted msg = true
  | Blocked _ _ => True
  | Spin _ _ | Fault _ | NoFuel => False
  end.

Section Wp.
Context {S : Type}.

Lemma wp_ret {A} (a : A) (Q : A → S → Prop) s : Q a s → wp (mret a) Q s.
Proof. done. Qed.

Lemma wp_bind {A B} (m : M S A) (k : A → M S B) Q s :
  wp m (λ a, wp (k a) Q) s → wp (m ≫= k) Q s.
Proof. unfold wp, mbind, M_bind. by destruct (m s). Qed.

Lemma wp_mono {A} (m : M S A) (Q Q' : A → S → Prop) s :
  wp m Q s → (∀ a s', Q a s' → Q' a s') → wp m Q' s.
Proof. unfold wp. intros Hm HQ. destruct (m s); auto. Qed.

Lemma wp_and {A} (m : M S A) (Q Q' : A → S → Prop) s :
  wp m Q s → wp m Q' s → wp m (λ a s', Q a s' ∧ Q' a s') s.
Proof. unfold wp. by destruct (m s). Qed.

Lemma wp_gets {A} (f : S → A) (Q : A → S → Prop) s : Q (f s) s → wp (gets f) Q s.
Proof. done. Qed.
Lemma wp_modify (f : S → S) (Q : unit → S → Prop) s : Q tt (f s) → wp (modify f) Q s.
Proof. done. Qed.
Lemma wp_panic {A} msg (Q : A → S → Prop) s : exhausted msg = true → wp (panic msg) Q s.
Proof. done. Qed.
Lemma wp_deref {A} (f : S → option A) (Q : A → S → Prop) s a :
  f s = Some a → Q a s → wp (deref f) Q s.
Proof. unfold wp, deref. by intros ->. Qed.
Lemma wp_when (c : bool) (m : M S unit) (Q : unit → S → Prop) s :
  (c = true → wp m Q s) → (c = false → Q tt s) → wp (when c m) Q s.
Proof. unfold when. destruct c; intros H1 H2; [auto|apply wp_ret; auto]. Qed.

Lemma wp_unit (m : M S unit) (Q : unit → S → Prop) s : wp (m;; mret tt) Q s → wp m Q s.
Proof. unfold wp, mbind, M_bind, mret, M_ret. by destruct (m s) as [[]| | | | |]. Qed.

(** A run that is known. *)
Lemma wp_run {A} (m : M S A) (Q : A → S → Prop) s a s' : m s = Ok a s' → Q a s' → wp m Q s.
Proof. unfold wp. by intros ->. Qed.
Lemma wp_ok {A} (m : M S A) (Q : A → S → Prop) s a s' : wp m Q s → m s = Ok a s' → Q a s'.
Proof. unfold wp. intros Hw E. by rewrite E in Hw. Qed.

Lemma wp_for_each {A} (l : list A) (f : A → M S unit) (I : nat → S → Prop) s :
  I 0%nat s →
  (∀ i x s, l !! i = Some x → I i s → wp (f x) (λ _, I (Datatypes.S i)) s) →
  wp (for_each l f) (λ _, I (length l)) s.
Proof.
  revert I s. induction l as [|x l IH]; intros I s H0 Hs; [by apply wp_ret|].
  apply wp_bind. eapply wp_mono; [by apply (Hs 0%nat x)|]. intros [] s1 H1.
  apply (IH (λ i, I (Datatypes.S i))); [done|]. intros i y s2 Hi. by apply (Hs (Datatypes.S i)).
Qed.

(** A bounded loop with a measure: the bound is enough. *)
Lemma wp_loop {A B} (body : A → M S (A + B)) (I : A → S → Prop) (Q : B → S → Prop)
    (meas : A → nat) :
  (∀ x s, I x s → wp (body x) (λ r s', match r with
     | inl x' => I x' s' ∧ (meas x' < meas x)%nat
     | inr y => Q y s'
     end) s) →
  ∀ fuel x s, I x s → (meas x < fuel)%nat → wp (loop fuel body x) Q s.
Proof.
  intros Hb fuel. induction fuel as [|fuel IH]; intros x s HI Hm; [lia|]. cbn [loop].
  apply wp_bind. eapply wp_mono; [by apply Hb|]. intros [x'|y] s' Hr.
  - destruct Hr as [HI' Hm']. apply IH; [done|lia].
  - by apply wp_ret.
Qed.
End Wp.

Lemma wp_zoom {S T A} (L : lens S T) (m : M T A) (Q : A → S → Prop) s :
  wp m (λ a t, Q a (lset L t s)) (lget L s) → wp (zoom L m) Q s.
Proof. unfold wp, zoom. by destruct (m (lget L s)). Qed.

Ltac wstep :=
  match goal with
  | |- wp (mbind _ _) _ _ => apply wp_bind
  | |- wp (mret _) _ _ => apply wp_ret
  | |- wp (gets _) _ _ => apply wp_gets
  | |- wp (modify _) _ _ => apply wp_modify
  | |- wp (panic _) _ _ => apply wp_panic; reflexivity
  | |- wp (zoom _ _) _ _ => apply wp_zoom
  | |- wp (if ?c then _ else _) _ _ => let E := fresh "E" in destruct c eqn:E
  | |- wp (match ?c with _ => _ end) _ _ => let E := fresh "E" in destruct c eqn:E
  end.
