(* ===== verification/Kstate.v ===== *)
(** The state shared by every kernel component: the executing CPU, the spin
    locks and the process table (proc.h, spinlock.h, x86.h, param.h). *)
From S2P Require Import Prelude Kmonad.

(** param.h *)
Definition NPROC : nat := 64.
Definition KSTACKSIZE : Z := 4096.
Definition NOFILE : nat := 16.
Definition NFILE : nat := 100.
Definition NBUF : nat := 10.
Definition NINODE : nat := 50.
Definition NDEV : Z := 10.
Definition ROOTDEV : Z := 1.
Definition MAXARG : nat := 32.
Definition LOGSIZE : Z := 10.

(** [struct spinlock].  [pcs] and [name], which only debugging output reads,
    are left out. *)
Record spinlock := Spinlock {
  lk_locked : Z;             (* Is the lock held? *)
  lk_cpu : option nat        (* The cpu holding the lock. *)
}.
Definition lk_free : spinlock := Spinlock 0 None.

#[export] Instance spinlock_eq_dec : EqDecision spinlock.
Proof. solve_decision. Defined.

(** The part of [struct cpu] the kernel code reads and writes, with the
    interrupt flag [FL_IF] of the eflags register. *)
Record cpu := Cpu {
  cpu_id : nat;
  cpu_if : bool;             (* eflags & FL_IF *)
  cpu_ncli : Z;              (* Depth of pushcli nesting. *)
  cpu_intena : bool;         (* Were interrupts enabled before pushcli? *)
  cpu_proc : option nat      (* The currently-running process. *)
}.

Definition set_cpu_id v (r : cpu) : cpu :=
  Cpu v (cpu_if r) (cpu_ncli r) (cpu_intena r) (cpu_proc r).
Definition set_cpu_if v (r : cpu) : cpu :=
  Cpu (cpu_id r) v (cpu_ncli r) (cpu_intena r) (cpu_proc r).
Definition set_cpu_ncli v (r : cpu) : cpu :=
  Cpu (cpu_id r) (cpu_if r) v (cpu_intena r) (cpu_proc r).
Definition set_cpu_intena v (r : cpu) : cpu :=
  Cpu (cpu_id r) (cpu_if r) (cpu_ncli r) v (cpu_proc r).
Definition set_cpu_proc v (r : cpu) : cpu :=
  Cpu (cpu_id r) (cpu_if r) (cpu_ncli r) (cpu_intena r) v.

Inductive procstate := UNUSED | EMBRYO | SLEEPING | RUNNABLE | RUNNING | ZOMBIE.
#[export] Instance procstate_eq_dec : EqDecision procstate.
Proof. solve_decision. Defined.

(** [struct trapframe] (x86.h), without its padding. *)
Record trapframe := Trapframe {
  tf_edi : Z; tf_esi : Z; tf_ebp : Z; tf_oesp : Z; tf_ebx : Z; tf_edx : Z;
  tf_ecx : Z; tf_eax : Z;
  tf_gs : Z; tf_fs : Z; tf_es : Z; tf_ds : Z; tf_trapno : Z;
  tf_err : Z; tf_eip : Z; tf_cs : Z; tf_eflags : Z; tf_esp : Z; tf_ss : Z
}.
Definition set_tf_edi v (r : trapframe) : trapframe :=
  Trapframe v (tf_esi r) (tf_ebp r) (tf_oesp r) (tf_ebx r) (tf_edx r) (tf_ecx r)
    (tf_eax r) (tf_gs r) (tf_fs r) (tf_es r) (tf_ds r) (tf_trapno r) (tf_err r) (tf_eip
    r) (tf_cs r) (tf_eflags r) (tf_esp r) (tf_ss r).
Definition set_tf_esi v (r : trapframe) : trapframe :=
  Trapframe (tf_edi r) v (tf_ebp r) (tf_oesp r) (tf_ebx r) (tf_edx r) (tf_ecx r)
    (tf_eax r) (tf_gs r) (tf_fs r) (tf_es r) (tf_ds r) (tf_trapno r) (tf_err r) (tf_eip
    r) (tf_cs r) (tf_eflags r) (tf_esp r) (tf_ss r).
Definition set_tf_ebp v (r : trapframe) : trapframe :=
  Trapframe (tf_edi r) (tf_esi r) v (tf_oesp r) (tf_ebx r) (tf_edx r) (tf_ecx r)
    (tf_eax r) (tf_gs r) (tf_fs r) (tf_es r) (tf_ds r) (tf_trapno r) (tf_err r) (tf_eip
    r) (tf_cs r) (tf_eflags r) (tf_esp r) (tf_ss r).
Definition set_tf_oesp v (r : trapframe) : trapframe :=
  Trapframe (tf_edi r) (tf_esi r) (tf_ebp r) v (tf_ebx r) (tf_edx r) (tf_ecx r) (tf_eax
    r) (tf_gs r) (tf_fs r) (tf_es r) (tf_ds r) (tf_trapno r) (tf_err r) (tf_eip r)
    (tf_cs r) (tf_eflags r) (tf_esp r) (tf_ss r).
Definition set_tf_ebx v (r : trapframe) : trapframe :=
  Trapframe (tf_edi r) (tf_esi r) (tf_ebp r) (tf_oesp r) v (tf_edx r) (tf_ecx r)
    (tf_eax r) (tf_gs r) (tf_fs r) (tf_es r) (tf_ds r) (tf_trapno r) (tf_err r) (tf_eip
    r) (tf_cs r) (tf_eflags r) (tf_esp r) (tf_ss r).
Definition set_tf_edx v (r : trapframe) : trapframe :=
  Trapframe (tf_edi r) (tf_esi r) (tf_ebp r) (tf_oesp r) (tf_ebx r) v (tf_ecx r)
    (tf_eax r) (tf_gs r) (tf_fs r) (tf_es r) (tf_ds r) (tf_trapno r) (tf_err r) (tf_eip
    r) (tf_cs r) (tf_eflags r) (tf_esp r) (tf_ss r).
Definition set_tf_ecx v (r : trapframe) : trapframe :=
  Trapframe (tf_edi r) (tf_esi r) (tf_ebp r) (tf_oesp r) (tf_ebx r) (tf_edx r) v
    (tf_eax r) (tf_gs r) (tf_fs r) (tf_es r) (tf_ds r) (tf_trapno r) (tf_err r) (tf_eip
    r) (tf_cs r) (tf_eflags r) (tf_esp r) (tf_ss r).
Definition set_tf_eax v (r : trapframe) : trapframe :=
  Trapframe (tf_edi r) (tf_esi r) (tf_ebp r) (tf_oesp r) (tf_ebx r) (tf_edx r) (tf_ecx
    r) v (tf_gs r) (tf_fs r) (tf_es r) (tf_ds r) (tf_trapno r) (tf_err r) (tf_eip r)
    (tf_cs r) (tf_eflags r) (tf_esp r) (tf_ss r).
Definition set_tf_gs v (r : trapframe) : trapframe :=
  Trapframe (tf_edi r) (tf_esi r) (tf_ebp r) (tf_oesp r) (tf_ebx r) (tf_edx r) (tf_ecx
    r) (tf_eax r) v (tf_fs r) (tf_es r) (tf_ds r) (tf_trapno r) (tf_err r) (tf_eip r)
    (tf_cs r) (tf_eflags r) (tf_esp r) (tf_ss r).
Definition set_tf_fs v (r : trapframe) : trapframe :=
  Trapframe (tf_edi r) (tf_esi r) (tf_ebp r) (tf_oesp r) (tf_ebx r) (tf_edx r) (tf_ecx
    r) (tf_eax r) (tf_gs r) v (tf_es r) (tf_ds r) (tf_trapno r) (tf_err r) (tf_eip r)
    (tf_cs r) (tf_eflags r) (tf_esp r) (tf_ss r).
Definition set_tf_es v (r : trapframe) : trapframe :=
  Trapframe (tf_edi r) (tf_esi r) (tf_ebp r) (tf_oesp r) (tf_ebx r) (tf_edx r) (tf_ecx
    r) (tf_eax r) (tf_gs r) (tf_fs r) v (tf_ds r) (tf_trapno r) (tf_err r) (tf_eip r)
    (tf_cs r) (tf_eflags r) (tf_esp r) (tf_ss r).
Definition set_tf_ds v (r : trapframe) : trapframe :=
  Trapframe (tf_edi r) (tf_esi r) (tf_ebp r) (tf_oesp r) (tf_ebx r) (tf_edx r) (tf_ecx
    r) (tf_eax r) (tf_gs r) (tf_fs r) (tf_es r) v (tf_trapno r) (tf_err r) (tf_eip r)
    (tf_cs r) (tf_eflags r) (tf_esp r) (tf_ss r).
Definition set_tf_trapno v (r : trapframe) : trapframe :=
  Trapframe (tf_edi r) (tf_esi r) (tf_ebp r) (tf_oesp r) (tf_ebx r) (tf_edx r) (tf_ecx
    r) (tf_eax r) (tf_gs r) (tf_fs r) (tf_es r) (tf_ds r) v (tf_err r) (tf_eip r)
    (tf_cs r) (tf_eflags r) (tf_esp r) (tf_ss r).
Definition set_tf_err v (r : trapframe) : trapframe :=
  Trapframe (tf_edi r) (tf_esi r) (tf_ebp r) (tf_oesp r) (tf_ebx r) (tf_edx r) (tf_ecx
    r) (tf_eax r) (tf_gs r) (tf_fs r) (tf_es r) (tf_ds r) (tf_trapno r) v (tf_eip r)
    (tf_cs r) (tf_eflags r) (tf_esp r) (tf_ss r).
Definition set_tf_eip v (r : trapframe) : trapframe :=
  Trapframe (tf_edi r) (tf_esi r) (tf_ebp r) (tf_oesp r) (tf_ebx r) (tf_edx r) (tf_ecx
    r) (tf_eax r) (tf_gs r) (tf_fs r) (tf_es r) (tf_ds r) (tf_trapno r) (tf_err r) v
    (tf_cs r) (tf_eflags r) (tf_esp r) (tf_ss r).
Definition set_tf_cs v (r : trapframe) : trapframe :=
  Trapframe (tf_edi r) (tf_esi r) (tf_ebp r) (tf_oesp r) (tf_ebx r) (tf_edx r) (tf_ecx
    r) (tf_eax r) (tf_gs r) (tf_fs r) (tf_es r) (tf_ds r) (tf_trapno r) (tf_err r)
    (tf_eip r) v (tf_eflags r) (tf_esp r) (tf_ss r).
Definition set_tf_eflags v (r : trapframe) : trapframe :=
  Trapframe (tf_edi r) (tf_esi r) (tf_ebp r) (tf_oesp r) (tf_ebx r) (tf_edx r) (tf_ecx
    r) (tf_eax r) (tf_gs r) (tf_fs r) (tf_es r) (tf_ds r) (tf_trapno r) (tf_err r)
    (tf_eip r) (tf_cs r) v (tf_esp r) (tf_ss r).
Definition set_tf_esp v (r : trapframe) : trapframe :=
  Trapframe (tf_edi r) (tf_esi r) (tf_ebp r) (tf_oesp r) (tf_ebx r) (tf_edx r) (tf_ecx
    r) (tf_eax r) (tf_gs r) (tf_fs r) (tf_es r) (tf_ds r) (tf_trapno r) (tf_err r)
    (tf_eip r) (tf_cs r) (tf_eflags r) v (tf_ss r).
Definition set_tf_ss v (r : trapframe) : trapframe :=
  Trapframe (tf_edi r) (tf_esi r) (tf_ebp r) (tf_oesp r) (tf_ebx r) (tf_edx r) (tf_ecx
    r) (tf_eax r) (tf_gs r) (tf_fs r) (tf_es r) (tf_ds r) (tf_trapno r) (tf_err r)
    (tf_eip r) (tf_cs r) (tf_eflags r) (tf_esp r) v.
Definition tf_zero : trapframe :=
  Trapframe 0 0 0 0 0 0 0 0 0 0 0 0 0 0 0 0 0 0 0.

(** [struct context]: callee-saved registers of a switched-out process. *)
Record context := Context_ {
  cx_edi : Z; cx_esi : Z; cx_ebx : Z; cx_ebp : Z; cx_eip : Z
}.
Definition cx_zero : context := Context_ 0 0 0 0 0.

(** [struct proc].  Pointers to table entries are indices; [pgdir] and
    [kstack] are kernel addresses. *)
Record proc := Proc {
  p_sz : Z;                        (* Size of process memory (bytes) *)
  p_pgdir : Z;                     (* Page table *)
  p_kstack : Z;                    (* Bottom of kernel stack *)
  p_state : procstate;
  p_pid : Z;
  p_parent : option nat;
  p_tf : trapframe;
  p_context : context;
  p_chan : chan;                   (* If not CNone, sleeping on chan *)
  p_killed : bool;
  p_ofile : list (option nat);     (* Open files *)
  p_cwd : option nat;              (* Current directory *)
  p_name : list Z;                 (* Process name (debugging) *)
  p_signal : Z;
  p_sigArr : list Z                (* signal handlers *)
}.

Definition proc_zero : proc :=
  Proc 0 0 0 UNUSED 0 None tf_zero cx_zero CNone false (replicate NOFILE None) None
    (replicate 16 0) 0 (replicate 32 0).

Definition set_p_sz v (r : proc) : proc :=
  Proc v (p_pgdir r) (p_kstack r) (p_state r) (p_pid r) (p_parent r) (p_tf r)
    (p_context r) (p_chan r) (p_killed r) (p_ofile r) (p_cwd r) (p_name r) (p_signal r)
    (p_sigArr r).
Definition set_p_pgdir v (r : proc) : proc :=
  Proc (p_sz r) v (p_kstack r) (p_state r) (p_pid r) (p_parent r) (p_tf r) (p_context
    r) (p_chan r) (p_killed r) (p_ofile r) (p_cwd r) (p_name r) (p_signal r) (p_sigArr
    r).
Definition set_p_kstack v (r : proc) : proc :=
  Proc (p_sz r) (p_pgdir r) v (p_state r) (p_pid r) (p_parent r) (p_tf r) (p_context r)
    (p_chan r) (p_killed r) (p_ofile r) (p_cwd r) (p_name r) (p_signal r) (p_sigArr r).
Definition set_p_state v (r : proc) : proc :=
  Proc (p_sz r) (p_pgdir r) (p_kstack r) v (p_pid r) (p_parent r) (p_tf r) (p_context
    r) (p_chan r) (p_killed r) (p_ofile r) (p_cwd r) (p_name r) (p_signal r) (p_sigArr
    r).
Definition set_p_pid v (r : proc) : proc :=
  Proc (p_sz r) (p_pgdir r) (p_kstack r) (p_state r) v (p_parent r) (p_tf r) (p_context
    r) (p_chan r) (p_killed r) (p_ofile r) (p_cwd r) (p_name r) (p_signal r) (p_sigArr
    r).
Definition set_p_parent v (r : proc) : proc :=
  Proc (p_sz r) (p_pgdir r) (p_kstack r) (p_state r) (p_pid r) v (p_tf r) (p_context r)
    (p_chan r) (p_killed r) (p_ofile r) (p_cwd r) (p_name r) (p_signal r) (p_sigArr r).
Definition set_p_tf v (r : proc) : proc :=
  Proc (p_sz r) (p_pgdir r) (p_kstack r) (p_state r) (p_pid r) (p_parent r) v
    (p_context r) (p_chan r) (p_killed r) (p_ofile r) (p_cwd r) (p_name r) (p_signal r)
    (p_sigArr r).
Definition set_p_context v (r : proc) : proc :=
  Proc (p_sz r) (p_pgdir r) (p_kstack r) (p_state r) (p_pid r) (p_parent r) (p_tf r) v
    (p_chan r) (p_killed r) (p_ofile r) (p_cwd r) (p_name r) (p_signal r) (p_sigArr r).
Definition set_p_chan v (r : proc) : proc :=
  Proc (p_sz r) (p_pgdir r) (p_kstack r) (p_state r) (p_pid r) (p_parent r) (p_tf r)
    (p_context r) v (p_killed r) (p_ofile r) (p_cwd r) (p_name r) (p_signal r)
    (p_sigArr r).
Definition set_p_killed v (r : proc) : proc :=
  Proc (p_sz r) (p_pgdir r) (p_kstack r) (p_state r) (p_pid r) (p_parent r) (p_tf r)
    (p_context r) (p_chan r) v (p_ofile r) (p_cwd r) (p_name r) (p_signal r) (p_sigArr
    r).
Definition set_p_ofile v (r : proc) : proc :=
  Proc (p_sz r) (p_pgdir r) (p_kstack r) (p_state r) (p_pid r) (p_parent r) (p_tf r)
    (p_context r) (p_chan r) (p_killed r) v (p_cwd r) (p_name r) (p_signal r) (p_sigArr
    r).
Definition set_p_cwd v (r : proc) : proc :=
  Proc (p_sz r) (p_pgdir r) (p_kstack r) (p_state r) (p_pid r) (p_parent r) (p_tf r)
    (p_context r) (p_chan r) (p_killed r) (p_ofile r) v (p_name r) (p_signal r)
    (p_sigArr r).
Definition set_p_name v (r : proc) : proc :=
  Proc (p_sz r) (p_pgdir r) (p_kstack r) (p_state r) (p_pid r) (p_parent r) (p_tf r)
    (p_context r) (p_chan r) (p_killed r) (p_ofile r) (p_cwd r) v (p_signal r)
    (p_sigArr r).
Definition set_p_signal v (r : proc) : proc :=
  Proc (p_sz r) (p_pgdir r) (p_kstack r) (p_state r) (p_pid r) (p_parent r) (p_tf r)
    (p_context r) (p_chan r) (p_killed r) (p_ofile r) (p_cwd r) (p_name r) v (p_sigArr
    r).
Definition set_p_sigArr v (r : proc) : proc :=
  Proc (p_sz r) (p_pgdir r) (p_kstack r) (p_state r) (p_pid r) (p_parent r) (p_tf r)
    (p_context r) (p_chan r) (p_killed r) (p_ofile r) (p_cwd r) (p_name r) (p_signal r)
    v.

(** The shared kernel state. *)
Record kst := Kst {
  k_cpu : cpu;                     (* the executing CPU *)
  k_locks : gmap lockid spinlock;
  k_procs : list proc              (* ptable.proc *)
}.

Definition set_k_cpu v (r : kst) : kst :=
  Kst v (k_locks r) (k_procs r).
Definition set_k_locks v (r : kst) : kst :=
  Kst (k_cpu r) v (k_procs r).
Definition set_k_procs v (r : kst) : kst :=
  Kst (k_cpu r) (k_locks r) v.

(** Global data starts zeroed: a lock that was never written is free. *)
Definition lock_of (l : lockid) (s : kst) : spinlock := default lk_free (k_locks s !! l).
Definition set_lock (l : lockid) (v : spinlock) (s : kst) : kst :=
  set_k_locks (<[l := v]> (k_locks s)) s.
