(* ===== verification/Spinlock.v ===== *)
(** Mutual exclusion spin locks (spinlock.c).

    The first part models the functions of spinlock.c as run by one CPU; the
    second ([Module Smp]) interleaves the instructions of [acquire] and
    [release] of several CPUs on one lock. *)
From S2P Require Import Prelude Kmonad Kstate.

(** ** The functions of spinlock.c *)

Definition initlock (l : lockid) : M kst unit := modify (set_lock l lk_free).

Definition holding (l : lockid) : M kst bool := gets (λ s,
  nz (lk_locked (lock_of l s)) &&
  bool_decide (lk_cpu (lock_of l s) = Some (cpu_id (k_cpu s)))).

Definition upd_cpu (f : cpu → cpu) (s : kst) : kst := set_k_cpu (f (k_cpu s)) s.
Definition cli : M kst unit := modify (upd_cpu (set_cpu_if false)).
Definition sti : M kst unit := modify (upd_cpu (set_cpu_if true)).

Definition pushcli : M kst unit :=
  eflags ← gets (λ s, cpu_if (k_cpu s));
  cli;;
  n ← gets (λ s, cpu_ncli (k_cpu s));
  modify (upd_cpu (set_cpu_ncli (n + 1)));;
  when (n =? 0) (modify (upd_cpu (set_cpu_intena eflags))).

Definition popcli : M kst unit :=
  eflags ← gets (λ s, cpu_if (k_cpu s));
  if eflags : bool then panic "popcli - interruptible" else
  n ← gets (λ s, cpu_ncli (k_cpu s) - 1);
  modify (upd_cpu (set_cpu_ncli n));;
  if n <? 0 then panic "popcli" else
  intena ← gets (λ s, cpu_intena (k_cpu s));
  when ((n =? 0) && intena) sti.

(** The atomic exchange on the lock word. *)
Definition xchg (l : lockid) (v : Z) : M kst Z :=
  old ← gets (λ s, lk_locked (lock_of l s));
  modify (λ s, set_lock l (Spinlock v (lk_cpu (lock_of l s))) s);;
  mret old.

Definition set_owner (l : lockid) (c : option nat) : M kst unit :=
  modify (λ s, set_lock l (Spinlock (lk_locked (lock_of l s)) c) s).

(** [while(xchg(&lk->locked, 1) != 0) ;] either gets the lock at once or
    spins: no step of this CPU alone ends the loop. *)
Definition acquire (l : lockid) : M kst unit :=
  pushcli;;
  h ← holding l;
  if h : bool then panic "acquire" else
  old ← xchg l 1;
  if nz old then spin l else
  id ← gets (λ s, cpu_id (k_cpu s));
  set_owner l (Some id).

Definition release (l : lockid) : M kst unit :=
  h ← holding l;
  if negb h then panic "release" else
  set_owner l None;;
  xchg l 0;;
  popcli.

(** [getcallerpcs(v, pcs)]: [rd] reads a word of kernel memory. *)
Definition KERNBASE : Z := 0x80000000.
Fixpoint walk_ebp (n : nat) (rd : Z → Z) (ebp : Z) : list Z :=
  match n with
  | O => []
  | S n =>
      if (ebp =? 0) || (ebp <? KERNBASE) || (ebp =? 0xffffffff)
      then replicate (S n) 0
      else rd (u32 (ebp + 4)) :: walk_ebp n rd (rd ebp)
  end.
Definition getcallerpcs (rd : Z → Z) (v : Z) : list Z := walk_ebp 10 rd (u32 (v - 8)).

(** ** What one CPU sees *)

(** Interrupts are off while a [pushcli] is pending, and otherwise
    [intena] agrees with the flag. *)
Definition cpu_ok (c : cpu) : Prop :=
  0 ≤ cpu_ncli c ∧
  (cpu_ncli c = 0 → cpu_intena c = cpu_if c) ∧
  (0 < cpu_ncli c → cpu_if c = false).
Definition kst_ok (s : kst) : Prop := cpu_ok (k_cpu s).

Definition is_free (l : lockid) (s : kst) : Prop := k_locks s !! l = Some lk_free.

(** The states after [acquire] of a free lock and after [release]. *)
Definition cpu_push (c : cpu) : cpu :=
  Cpu (cpu_id c) false (cpu_ncli c + 1)
    (if cpu_ncli c =? 0 then cpu_if c else cpu_intena c) (cpu_proc c).
Definition cpu_pop (c : cpu) : cpu :=
  Cpu (cpu_id c) ((cpu_ncli c - 1 =? 0) && cpu_intena c) (cpu_ncli c - 1)
    (cpu_intena c) (cpu_proc c).
Definition held_by (c : cpu) : spinlock := Spinlock 1 (Some (cpu_id c)).
Definition acq (l : lockid) (s : kst) : kst :=
  Kst (cpu_push (k_cpu s)) (<[l := held_by (k_cpu s)]> (k_locks s)) (k_procs s).
Definition rel (l : lockid) (s : kst) : kst :=
  Kst (cpu_pop (k_cpu s)) (<[l := lk_free]> (k_locks s)) (k_procs s).

Lemma pushcli_run s : pushcli s = Ok tt (upd_cpu cpu_push s).
Proof.
  destruct s as [[id fi n ie p] lks ps]. 
  unfold pushcli, mbind, M_bind, when, upd_cpu, cpu_push; simpl. by destruct (n =? 0).
Qed.

Lemma popcli_run s :
  cpu_if (k_cpu s) = false → 0 < cpu_ncli (k_cpu s) →
  popcli s = Ok tt (upd_cpu cpu_pop s).
Proof.
  destruct s as [[id fi n ie p] lks ps]; simpl. intros -> Hn.
  unfold popcli, mbind, M_bind, when, upd_cpu, cpu_pop; simpl.
  destruct (Z.ltb_spec (n - 1) 0); [lia|]. by destruct (n - 1 =? 0), ie.
Qed.

Lemma lock_of_insert l v s : lock_of l (set_lock l v s) = v.
Proof. unfold lock_of, set_lock; simpl. by rewrite lookup_insert_eq. Qed.

Lemma lock_of_free l s : is_free l s → lock_of l s = lk_free.
Proof. unfold is_free, lock_of. by intros ->. Qed.

Lemma xchg_run l v s :
  xchg l v s = Ok (lk_locked (lock_of l s)) (set_lock l (Spinlock v (lk_cpu (lock_of l s))) s).
Proof. done. Qed.

Lemma set_lock_twice l v w s : set_lock l v (set_lock l w s) = set_lock l v s.
Proof. unfold set_lock, set_k_locks; simpl. by rewrite insert_insert_eq. Qed.

Lemma set_owner_run l c s :
  set_owner l c s = Ok tt (set_lock l (Spinlock (lk_locked (lock_of l s)) c) s).
Proof. done. Qed.

Lemma acquire_run l s : is_free l s → acquire l s = Ok tt (acq l s).
Proof.
  intros Hf. unfold acquire. mrun (pushcli_run s).
  assert (Hl : lock_of l (upd_cpu cpu_push s) = lk_free) by by apply lock_of_free.
  erewrite bind_run by reflexivity. rewrite Hl. cbn [lk_free lk_locked nz Z.eqb negb andb].
  mrun (xchg_run l 1 (upd_cpu cpu_push s)). rewrite Hl. cbn [lk_free lk_locked lk_cpu nz Z.eqb negb].
  erewrite bind_run by reflexivity.
  rewrite set_owner_run, lock_of_insert, set_lock_twice. done.
Qed.

Lemma acquire_spin l s :
  nz (lk_locked (lock_of l s)) = true →
  lk_cpu (lock_of l s) ≠ Some (cpu_id (k_cpu s)) →
  ∃ s', acquire l s = Spin l s'.
Proof.
  intros Hl Hc. unfold acquire. mrun (pushcli_run s).
  erewrite bind_run by reflexivity.
  change (lock_of l (upd_cpu cpu_push s)) with (lock_of l s). rewrite Hl; simpl.
  rewrite bool_decide_false by done.
  mrun (xchg_run l 1 (upd_cpu cpu_push s)).
  change (lock_of l (upd_cpu cpu_push s)) with (lock_of l s). rewrite Hl. eexists. reflexivity.
Qed.

Lemma acquire_twice l s : k_locks s !! l = Some (held_by (k_cpu s)) →
  acquire l s = Panic "acquire" (upd_cpu cpu_push s).
Proof.
  intros Hl. unfold acquire. mrun (pushcli_run s).
  erewrite bind_run by reflexivity.
  change (lock_of l (upd_cpu cpu_push s)) with (lock_of l s).
  unfold lock_of. rewrite Hl; simpl. by rewrite bool_decide_true.
Qed.

Lemma release_run l s :
  k_locks s !! l = Some (held_by (k_cpu s)) →
  cpu_if (k_cpu s) = false → 0 < cpu_ncli (k_cpu s) →
  release l s = Ok tt (rel l s).
Proof.
  intros Hl Hi Hn. unfold release.
  assert (Hh : lock_of l s = held_by (k_cpu s)) by (unfold lock_of; by rewrite Hl).
  erewrite bind_run by reflexivity. rewrite Hh; simpl. rewrite bool_decide_true by done.
  cbn [negb]. mrun (set_owner_run l None s).
  mrun (xchg_run l 0 (set_lock l (Spinlock (lk_locked (lock_of l s)) None) s)).
  rewrite lock_of_insert, set_lock_twice. by rewrite popcli_run.
Qed.

Lemma release_not_held l s :
  lk_cpu (lock_of l s) ≠ Some (cpu_id (k_cpu s)) → release l s = Panic "release" s.
Proof.
  intros Hc. unfold release. erewrite bind_run by reflexivity.
  rewrite (bool_decide_false _ Hc), andb_false_r. done.
Qed.

Lemma pop_push c : cpu_ok c → cpu_pop (cpu_push c) = c.
Proof.
  destruct c as [id fi n ie p]. intros (H0&H1&H2). unfold cpu_pop, cpu_push; simpl in *.
  rewrite Z.add_simpl_r. destruct (Z.eqb_spec n 0) as [->|]; simpl.
  - by rewrite <- H1 by done.
  - rewrite H2 by lia. done.
Qed.

Lemma acq_ok l s : kst_ok s → kst_ok (acq l s).
Proof. intros (H0&H1&H2). split_and!; simpl; [lia|lia|done]. Qed.

Lemma acq_free_ne l l' s : l ≠ l' → is_free l' s → is_free l' (acq l s).
Proof. intros. unfold is_free; simpl. by rewrite lookup_insert_ne. Qed.

(** After [acquire] of a free lock the CPU holds it, with interrupts off. *)
Lemma acq_held l s : kst_ok s →
  k_locks (acq l s) !! l = Some (held_by (k_cpu (acq l s))) ∧
  cpu_if (k_cpu (acq l s)) = false ∧ 0 < cpu_ncli (k_cpu (acq l s)).
Proof. intros (H0&_). simpl. rewrite lookup_insert_eq. split_and!; [done|done|lia]. Qed.

(** Releasing undoes acquiring, whatever happened to the process table. *)
Lemma rel_acq l s ps : kst_ok s → is_free l s →
  rel l (set_k_procs ps (acq l s)) = set_k_procs ps s.
Proof.
  intros Hok Hf. destruct s as [c lks ps0]. unfold rel, acq, set_k_procs; simpl.
  rewrite pop_push by done. f_equal. rewrite insert_insert_eq. by apply insert_id.
Qed.

Lemma release_acq l s ps : kst_ok s → is_free l s →
  release l (set_k_procs ps (acq l s)) = Ok tt (set_k_procs ps s).
Proof.
  intros Hok Hf. destruct (acq_held l s Hok) as (H1&H2&H3).
  rewrite release_run by done. by rewrite rel_acq.
Qed.

Lemma set_k_procs_id s : set_k_procs (k_procs s) s = s.
Proof. by destruct s. Qed.

Lemma release_acq' l s : kst_ok s → is_free l s → release l (acq l s) = Ok tt s.
Proof.
  intros Hok Hf. rewrite <- (set_k_procs_id (acq l s)). rewrite release_acq by done.
  simpl. by rewrite set_k_procs_id.
Qed.

#[export] Hint Resolve acq_ok acq_free_ne : kdb.

(** ** Several CPUs on one lock

    Each CPU repeats [acquire(lk); ...; release(lk)].  A step is one access
    to the lock by one CPU; the constructors of [pc] name the access the CPU
    makes next. *)
Module Smp.

Inductive pc :=
| Out        (* before [acquire], after [release] *)
| AChk       (* acquire: if(holding(lk)) panic("acquire") *)
| ATry       (* acquire: while(xchg(&lk->locked, 1) != 0) *)
| AGot       (* acquire: lk->cpu = cpu *)
| Crit       (* between [acquire] and [release] *)
| RChk       (* release: if(!holding(lk)) panic("release") *)
| RClr       (* release: lk->cpu = 0 *)
| RXchg      (* release: xchg(&lk->locked, 0) *)
| RPop       (* release: popcli() *)
| Dead.      (* panicked *)

#[global] Instance pc_eq_dec : EqDecision pc.
Proof. solve_decision. Defined.

Record smp := Mk { pcs : list pc; lk : spinlock }.

Definition holds (i : nat) (l : spinlock) : bool :=
  nz (lk_locked l) && bool_decide (lk_cpu l = Some i).

(** The effect of the next lock access of CPU [i]. *)
Definition access (i : nat) (p : pc) (l : spinlock) : option (pc * spinlock) :=
  match p with
  | Out => Some (AChk, l)
  | AChk => Some (if holds i l then Dead else ATry, l)
  | ATry => Some (if nz (lk_locked l) then ATry else AGot, Spinlock 1 (lk_cpu l))
  | AGot => Some (Crit, Spinlock (lk_locked l) (Some i))
  | Crit => Some (RChk, l)
  | RChk => Some (if holds i l then RClr else Dead, l)
  | RClr => Some (RXchg, Spinlock (lk_locked l) None)
  | RXchg => Some (RPop, Spinlock 0 (lk_cpu l))
  | RPop => Some (Out, l)
  | Dead => None
  end.

Inductive step : smp → smp → Prop :=
| step_cpu i p p' l' s :
    pcs s !! i = Some p → access i p (lk s) = Some (p', l') →
    step s (Mk (<[i := p']> (pcs s)) l').

Definition init (n : nat) : smp := Mk (replicate n Out) lk_free.
Definition reachable (n : nat) (s : smp) : Prop := rtc step (init n) s.

(** The program points between the successful exchange and the exchange
    that gives the lock back. *)
Definition inside (p : pc) : bool :=
  match p with AGot | Crit | RChk | RClr | RXchg => true | _ => false end.
Definition owner (p : pc) : bool :=
  match p with Crit | RChk | RClr => true | _ => false end.

Definition inv (s : smp) : Prop :=
  (∀ i p, pcs s !! i = Some p → p ≠ Dead) ∧
  (∀ i p, pcs s !! i = Some p → inside p → lk_locked (lk s) = 1) ∧
  (∀ i j p q, pcs s !! i = Some p → pcs s !! j = Some q → inside p → inside q → i = j) ∧
  (lk_locked (lk s) ≠ 0 → ∃ i p, pcs s !! i = Some p ∧ inside p) ∧
  (∀ i p, pcs s !! i = Some p → owner p → lk_cpu (lk s) = Some i) ∧
  (∀ i, lk_cpu (lk s) = Some i → ∃ p, pcs s !! i = Some p ∧ owner p).

Lemma lookup_upd (l : list pc) i j p q r :
  l !! i = Some r → <[i := p]> l !! j = Some q →
  (i = j ∧ q = p) ∨ (i ≠ j ∧ l !! j = Some q).
Proof.
  intros Hi. destruct (decide (i = j)) as [<-|Hne].
  - rewrite list_lookup_insert_eq by (by eapply lookup_lt_Some). intros [= <-]. auto.
  - rewrite list_lookup_insert_ne by done. auto.
Qed.

Lemma upd_same (l : list pc) i p r : l !! i = Some r → <[i := p]> l !! i = Some p.
Proof. intros. apply list_lookup_insert_eq. by eapply lookup_lt_Some. Qed.

(** Keep the witness of an existential when CPU [i] moves. *)
Lemma upd_keep (l : list pc) (f : pc → bool) i p r j q :
  l !! i = Some r → (f r = true → f p = true) → l !! j = Some q → f q →
  ∃ q', <[i := p]> l !! j = Some q' ∧ f q'.
Proof.
  intros Hi Hf Hj Hq. destruct (decide (i = j)) as [<-|Hne].
  - exists p. split; [by eapply upd_same|]. simplify_eq. apply Is_true_true, Hf.
    by apply Is_true_true.
  - exists q. by rewrite list_lookup_insert_ne.
Qed.

Lemma holds_true i l : holds i l = true ↔ lk_locked l ≠ 0 ∧ lk_cpu l = Some i.
Proof.
  unfold holds, nz. rewrite andb_true_iff, negb_true_iff, Z.eqb_neq, bool_decide_eq_true.
  done.
Qed.

(** The two checks of the code never fail, so a step is one of six moves. *)
Lemma access_cases s i p p' l' :
  inv s → pcs s !! i = Some p → access i p (lk s) = Some (p', l') →
  (inside p = inside p' ∧ owner p = owner p' ∧ l' = lk s ∧ p' ≠ Dead) ∨
  (p = ATry ∧ p' = ATry ∧ l' = Spinlock 1 (lk_cpu (lk s)) ∧ lk_locked (lk s) ≠ 0) ∨
  (p = ATry ∧ p' = AGot ∧ l' = Spinlock 1 (lk_cpu (lk s)) ∧ lk_locked (lk s) = 0) ∨
  (p = AGot ∧ p' = Crit ∧ l' = Spinlock (lk_locked (lk s)) (Some i)) ∨
  (p = RClr ∧ p' = RXchg ∧ l' = Spinlock (lk_locked (lk s)) None) ∨
  (p = RXchg ∧ p' = RPop ∧ l' = Spinlock 0 (lk_cpu (lk s))).
Proof.
  intros (I1&I2&I3&I4&I5&I6) Hi Ha. destruct p; simplify_eq/=; try by auto 10.
  - (* AChk *) destruct (holds i (lk s)) eqn:Hh; [|by auto].
    apply holds_true in Hh as [_ Hc]. destruct (I6 _ Hc) as (q&Hq&Ho). by simplify_eq.
  - (* ATry *) unfold nz. destruct (Z.eqb_spec (lk_locked (lk s)) 0); simpl; auto 10.
  - (* RChk *) destruct (holds i (lk s)) eqn:Hh; [by auto|].
    assert (Hh' : holds i (lk s) = true); [|congruence].
    apply holds_true. rewrite (I2 i RChk) by done. by rewrite (I5 i RChk).
Qed.

(** A move that keeps the lock word, the owner and the two zones. *)
Lemma inv_neutral s i p p' l' :
  inv s → pcs s !! i = Some p → inside p = inside p' → owner p = owner p' →
  p' ≠ Dead → lk_cpu l' = lk_cpu (lk s) →
  (lk_locked l' = lk_locked (lk s) ∨ (lk_locked (lk s) ≠ 0 ∧ lk_locked l' = 1)) →
  inv (Mk (<[i := p']> (pcs s)) l').
Proof.
  intros (I1&I2&I3&I4&I5&I6) Hi Hin Ho Hd Hc Hl. split_and!; simpl.
  - intros j q Hj. destruct (lookup_upd _ _ _ _ _ _ Hi Hj) as [[-> ->]|[? ?]]; eauto.
  - intros j q Hj Hq. assert (lk_locked (lk s) = 1); [|lia].
    destruct (lookup_upd _ _ _ _ _ _ Hi Hj) as [[-> ->]|[? ?]]; [|by eauto].
    eapply I2; [exact Hi|]. by rewrite Hin.
  - intros j k q r Hj Hk Hq Hr.
    destruct (lookup_upd _ _ _ _ _ _ Hi Hj) as [[<- ->]|[? ?]],
      (lookup_upd _ _ _ _ _ _ Hi Hk) as [[<- ->]|[? ?]]; rewrite <- ?Hin in *; eauto.
  - intros Hl'. destruct I4 as (j&q&Hj&Hq); [lia|].
    exists j. eapply upd_keep; solve [eauto | congruence].
  - intros j q Hj Hq. rewrite Hc.
    destruct (lookup_upd _ _ _ _ _ _ Hi Hj) as [[<- ->]|[? ?]]; rewrite <- ?Ho in *; eauto.
  - intros j Hj. rewrite Hc in Hj. destruct (I6 _ Hj) as (q&Hq&Hoq).
    eapply upd_keep; solve [eauto | congruence].
Qed.

(** When no CPU other than [i] is inside, a move of [i] is checked on [i]. *)
Lemma inv_alone s i p p' l' :
  inv s → pcs s !! i = Some p →
  (∀ j q, j ≠ i → pcs s !! j = Some q → inside q = false) → p' ≠ Dead →
  (if inside p' then lk_locked l' = 1 else lk_locked l' = 0) →
  lk_cpu l' = (if owner p' then Some i else None) →
  inv (Mk (<[i := p']> (pcs s)) l').
Proof.
  intros (I1&I2&I3&I4&I5&I6) Hi Hal Hd Hl Hc.
  assert (Hown : ∀ q, owner q → inside q) by by intros [].
  assert (Hi' := upd_same _ _ p' _ Hi). split_and!; simpl.
  - intros j q Hj. destruct (lookup_upd _ _ _ _ _ _ Hi Hj) as [[-> ->]|[? ?]]; eauto.
  - intros j q Hj Hq. destruct (lookup_upd _ _ _ _ _ _ Hi Hj) as [[-> ->]|[? Hj']].
    + by destruct (inside p').
    + by rewrite (Hal j q) in Hq.
  - intros j k q r Hj Hk Hq Hr.
    destruct (lookup_upd _ _ _ _ _ _ Hi Hj) as [[<- ->]|[? Hj']];
      [|by rewrite (Hal j q) in Hq].
    destruct (lookup_upd _ _ _ _ _ _ Hi Hk) as [[<- ->]|[? Hk']]; [done|].
    by rewrite (Hal k r) in Hr.
  - intros Hl'. exists i, p'. split; [done|]. by destruct (inside p').
  - intros j q Hj Hq. destruct (lookup_upd _ _ _ _ _ _ Hi Hj) as [[<- ->]|[? Hj']].
    + rewrite Hc. by destruct (owner p').
    + apply Hown in Hq. by rewrite (Hal j q) in Hq.
  - intros j Hj. rewrite Hc in Hj. destruct (owner p') eqn:E; simplify_eq.
    exists p'. by rewrite E.
Qed.

Lemma inv_others s i p : inv s → pcs s !! i = Some p →
  (inside p ∨ lk_locked (lk s) = 0) →
  ∀ j q, j ≠ i → pcs s !! j = Some q → inside q = false.
Proof.
  intros (I1&I2&I3&I4&I5&I6) Hi Hp j q Hne Hj.
  destruct (inside q) eqn:E; [|done]. apply Is_true_true in E.
  destruct Hp as [Hp|Hz]; [destruct Hne; eauto|].
  pose proof (I2 j q Hj E). lia.
Qed.

Lemma inv_step s s' : inv s → step s s' → inv s'.
Proof.
  intros HI Hs. destruct Hs as [i p p' l' s1 Hi Ha].
  destruct (access_cases _ _ _ _ _ HI Hi Ha) as
    [(?&?&->&?)|[(->&->&->&?)|[(->&->&->&Hz)|[(->&->&->)|[(->&->&->)|(->&->&->)]]]]].
  - eapply inv_neutral; eauto.
  - eapply inv_neutral; eauto.
  - eapply inv_alone; [done|done|eapply inv_others; eauto|done|done|]. simpl.
    destruct HI as (_&I2&_&_&_&I6). destruct (lk_cpu (lk s1)) as [j|] eqn:Hj; [|done].
    destruct (I6 j eq_refl) as (q&Hq&Ho). exfalso.
    assert (Hin : inside q) by by destruct q. by rewrite (I2 j q) in Hz.
  - eapply inv_alone; [done|done|eapply inv_others; eauto|done| |done]. simpl.
    by eapply HI.
  - eapply inv_alone; [done|done|eapply inv_others; eauto|done| |done]. simpl.
    by eapply HI.
  - eapply inv_alone; [done|done|eapply inv_others; eauto|done|done|]. simpl.
    destruct HI as (_&_&I3&_&_&I6). destruct (lk_cpu (lk s1)) as [j|] eqn:Hj; [|done].
    destruct (I6 j eq_refl) as (q&Hq&Ho). exfalso.
    assert (Hin : inside q) by by destruct q.
    assert (i = j) as <- by (eapply I3; eauto; done). by simplify_eq.
Qed.

Lemma inv_init n : inv (init n).
Proof.
  split_and!; simpl; intros; try done;
    repeat match goal with H : replicate _ _ !! _ = Some _ |- _ =>
      apply lookup_replicate in H as [-> _] end; done.
Qed.

Lemma reachable_inv n s : reachable n s → inv s.
Proof.
  revert s. apply rtc_ind_r; eauto using inv_init, inv_step.
Qed.

(** C2: on any number of CPUs and in every interleaving of their accesses to
    the lock, at most one CPU is between [acquire] and [release], neither
    panic of spinlock.c fires, and the lock word is set only while some CPU is
    on its way through the critical section (the lock is never lost). *)
Theorem mutual_exclusion n s :
  reachable n s →
  (∀ i j, pcs s !! i = Some Crit → pcs s !! j = Some Crit → i = j) ∧
  (∀ i, pcs s !! i ≠ Some Dead) ∧
  (lk_locked (lk s) ≠ 0 → ∃ i p, pcs s !! i = Some p ∧ inside p).
Proof.
  intros Hr. destruct (reachable_inv n s Hr) as (I1&I2&I3&I4&I5&I6). split_and!; [|by intros i Hi; eapply I1|done].
  intros i j Hi Hj. by eapply I3.
Qed.

(** CPU 1 has entered the critical section, CPU 0 spins. *)
Definition busy_pair : smp := Mk [ATry; Crit] (Spinlock 1 (Some 1%nat)).

Lemma mutual_exclusion_witness :
  reachable 2 busy_pair ∧
  (∀ i j, pcs busy_pair !! i = Some Crit → pcs busy_pair !! j = Some Crit → i = j).
Proof.
  assert (Hr : reachable 2 busy_pair).
  { unfold reachable, busy_pair, init.
    eapply rtc_l; [eapply (step_cpu 1 Out); reflexivity|].
    eapply rtc_l; [eapply (step_cpu 1 AChk); reflexivity|].
    eapply rtc_l; [eapply (step_cpu 1 ATry); reflexivity|].
    eapply rtc_l; [eapply (step_cpu 1 AGot); reflexivity|].
    eapply rtc_l; [eapply (step_cpu 0 Out); reflexivity|].
    eapply rtc_l; [eapply (step_cpu 0 AChk); reflexivity|].
    apply rtc_refl. }
  split; [exact Hr|]. exact (proj1 (mutual_exclusion 2 busy_pair Hr)).
Defined.

End Smp.

(** A matched [acquire]/[release] pair on a free lock gives the CPU and the
    locks back exactly as they were (interrupt flag, nesting depth, saved
    [intena]), in between the lock is held by this CPU with interrupts off,
    a second [acquire] by the holder panics and another CPU spins. *)
Theorem acquire_release_roundtrip l s :
  kst_ok s → is_free l s →
  acquire l s = Ok tt (acq l s) ∧
  cpu_if (k_cpu (acq l s)) = false ∧
  acquire l (acq l s) = Panic "acquire" (upd_cpu cpu_push (acq l s)) ∧
  (∀ c, cpu_id c ≠ cpu_id (k_cpu s) →
     ∃ s', acquire l (set_k_cpu c (acq l s)) = Spin l s') ∧
  release l (acq l s) = Ok tt s.
Proof.
  intros Hok Hf. destruct (acq_held l s Hok) as (H1&H2&H3).
  split_and!; [by apply acquire_run|done|by apply acquire_twice| |by apply release_acq'].
  intros c Hc. apply acquire_spin; unfold lock_of; simpl; rewrite lookup_insert_eq; simpl;
    [done|]. congruence.
Qed.

Definition kst_boot : kst :=
  Kst (Cpu 0 true 0 true None) {[LKmem := lk_free; LPtable := lk_free]} [].

Lemma acquire_release_roundtrip_witness :
  kst_ok kst_boot ∧ is_free LKmem kst_boot ∧
  release LKmem (acq LKmem kst_boot) = Ok tt kst_boot.
Proof.
  assert (Hok : kst_ok kst_boot) by (split_and!; done).
  assert (Hf : is_free LKmem kst_boot) by reflexivity.
  split; [exact Hok|]. split; [exact Hf|].
  apply (acquire_release_roundtrip LKmem kst_boot Hok Hf).
Defined.
