(* ===== verification/Sleep.v ===== *)
(** Sleep and wakeup (the part of proc.c every other component calls):
    [sched], [sleep], [wakeup1], [wakeup]. *)
From S2P Require Import Prelude Kmonad Wp Kstate Spinlock.

(** [proc]: the process the CPU runs. *)
Definition curproc : M kst nat := deref (λ s, cpu_proc (k_cpu s)).

Definition upd_proc (i : nat) (f : proc → proc) (s : kst) : kst :=
  set_k_procs (alter f i (k_procs s)) s.

(** Enter the scheduler.  The context switch ends the run of the process
    here; [resume_sched] is what it does when the scheduler switches back. *)
Definition sched : M kst unit :=
  h ← holding LPtable;
  if negb h then panic "sched ptable.lock" else
  n ← gets (λ s, cpu_ncli (k_cpu s));
  if negb (n =? 1) then panic "sched locks" else
  i ← curproc;
  p ← deref (λ s, k_procs s !! i);
  if bool_decide (p_state p = RUNNING) then panic "sched running" else
  fi ← gets (λ s, cpu_if (k_cpu s));
  if fi : bool then panic "sched interruptible" else
  blocked (p_chan p).

(** [cpu->intena = intena] after [swtch] returns. *)
Definition resume_sched (intena : bool) : M kst unit :=
  modify (upd_cpu (set_cpu_intena intena)).

Definition sleep (c : chan) (lk : lockid) : M kst unit :=
  match_proc ← gets (λ s, cpu_proc (k_cpu s));
  match match_proc with
  | None => panic "sleep"
  | Some i =>
      when (negb (bool_decide (lk = LPtable))) (acquire LPtable;; release lk);;
      modify (upd_proc i (λ p, set_p_state SLEEPING (set_p_chan c p)));;
      sched
  end.

(** The code of [sleep] after [sched] has returned. *)
Definition sleep_tail (lk : lockid) (intena : bool) : M kst unit :=
  resume_sched intena;;
  i ← curproc;
  modify (upd_proc i (set_p_chan CNone));;
  when (negb (bool_decide (lk = LPtable))) (release LPtable;; acquire lk).

(** Wake up all processes sleeping on [c]; the ptable lock is held. *)
Definition wake_proc (c : chan) (p : proc) : proc :=
  if bool_decide (p_state p = SLEEPING) && bool_decide (p_chan p = c)
  then set_p_state RUNNABLE p else p.
Definition wakeup1 (c : chan) : M kst unit :=
  modify (λ s, set_k_procs (wake_proc c <$> k_procs s) s).

Definition wakeup (c : chan) : M kst unit :=
  acquire LPtable;; wakeup1 c;; release LPtable.

(** ** Facts used by the other components *)

Definition woken (c : chan) (s : kst) : kst :=
  set_k_procs (wake_proc c <$> k_procs s) s.

Lemma wakeup_run c s : kst_ok s → is_free LPtable s → wakeup c s = Ok tt (woken c s).
Proof.
  intros Hok Hf. unfold wakeup. mrun (acquire_run _ _ Hf).
  erewrite bind_run by reflexivity. by rewrite release_acq.
Qed.

(** Waking while another lock is held leaves that lock alone. *)
Lemma wakeup_acq_run l c s : l ≠ LPtable → kst_ok s → is_free LPtable s →
  wakeup c (acq l s) = Ok tt (set_k_procs (wake_proc c <$> k_procs s) (acq l s)).
Proof. intros. apply wakeup_run; auto with kdb. Qed.

Lemma woken_ok c s : kst_ok s → kst_ok (woken c s).
Proof. done. Qed.
Lemma woken_free c l s : is_free l s → is_free l (woken c s).
Proof. done. Qed.
#[export] Hint Resolve woken_ok woken_free : kdb.

Lemma upd_proc_free i f l s : is_free l s → is_free l (upd_proc i f s).
Proof. done. Qed.

(** The state in which [sleep] leaves the CPU to the scheduler. *)
Definition asleep (i : nat) (c : chan) (lk : lockid) (s : kst) : kst :=
  upd_proc i (λ p, set_p_state SLEEPING (set_p_chan c p)) (rel lk (acq LPtable s)).

Lemma sched_run i p s :
  k_locks s !! LPtable = Some (held_by (k_cpu s)) →
  cpu_ncli (k_cpu s) = 1 → cpu_proc (k_cpu s) = Some i → k_procs s !! i = Some p →
  p_state p ≠ RUNNING → cpu_if (k_cpu s) = false →
  sched s = Blocked (p_chan p) s.
Proof.
  intros Hl Hn Hp Hi Hs Hf. unfold sched.
  erewrite bind_run by reflexivity. unfold lock_of. rewrite Hl; simpl.
  rewrite bool_decide_true by done. cbn [negb]. erewrite bind_run by reflexivity.
  rewrite Hn. cbn. unfold mbind, M_bind, curproc, deref. rewrite Hp, Hi.
  rewrite bool_decide_false by done. unfold gets. by rewrite Hf.
Qed.

(** [sleep] on a lock held once, from a process with nothing else held. *)
Lemma sleep_run i p c lk s :
  lk ≠ LPtable → kst_ok s → cpu_ncli (k_cpu s) = 1 →
  k_locks s !! lk = Some (held_by (k_cpu s)) → is_free LPtable s →
  cpu_proc (k_cpu s) = Some i → k_procs s !! i = Some p →
  sleep c lk s = Blocked c (asleep i c lk s).
Proof.
  intros Hne Hok Hn Hl Hf Hc Hp. unfold sleep. erewrite bind_run by reflexivity.
  rewrite Hc. rewrite bool_decide_false by done. cbn [negb when].
  assert (E : (acquire LPtable;; release lk) s = Ok tt (rel lk (acq LPtable s))).
  { mrun (acquire_run _ _ Hf). apply release_run; simpl.
    - by rewrite lookup_insert_ne.
    - done.
    - lia. }
  mrun E. erewrite bind_run by reflexivity.
  erewrite sched_run with (i := i) (p := set_p_state SLEEPING (set_p_chan c p)); simpl.
  - done.
  - rewrite lookup_insert_ne by done. by rewrite lookup_insert_eq.
  - lia.
  - done.
  - rewrite list_lookup_alter, Hp. by case_decide.
  - done.
  - rewrite Hn; simpl. destruct Hok as (_&_&Hi). done.
Qed.

(** ** Sleeping is safe

    The CPU runs a process of the table that holds no lock; [sleep] under one
    lock then ends in [Blocked] and never returns by itself. *)
Definition k_run (s : kst) : Prop :=
  cpu_ncli (k_cpu s) = 0 ∧ ∃ i, cpu_proc (k_cpu s) = Some i ∧ is_Some (k_procs s !! i).

Lemma woken_run c s : k_run s → k_run (woken c s).
Proof.
  intros (Hn&i&Hi&Hp). split; [done|]. exists i. split; [done|]. simpl.
  by rewrite list_lookup_fmap, fmap_is_Some.
Qed.
#[export] Hint Resolve woken_run : kdb.

Lemma sleep_wp {A} c lk (Q : A → kst → Prop) s : lk ≠ LPtable → kst_ok s → is_free LPtable s → k_run s →
  wp (sleep c lk;; nofuel) Q (acq lk s).
Proof.
  intros Hne Hok Hf (Hn&i&Hc&p&Hp). destruct (acq_held lk s Hok) as (H1&H2&H3). apply wp_bind.
  unfold wp at 1. rewrite (sleep_run i p); [done|done|by apply acq_ok|cbn; lia|done|by apply acq_free_ne|done|done].
Qed.


(** Process 0 sleeps on the log channel while holding the log lock. *)
Definition sleeper : kst :=
  Kst (Cpu 0 false 1 true (Some 0%nat))
    {[LLog := Spinlock 1 (Some 0%nat); LPtable := lk_free]}
    [set_p_state RUNNING proc_zero].

