(* ===== verification/Str.v ===== *)
(** C strings and memory blocks: string.c (kernel) and ulib.c (user library).

    Memory is a map from addresses to bytes; pointers are integers.  Loops
    bounded by a count recurse on it; loops that run to a NUL take fuel. *)
From S2P Require Import Prelude.

Definition mem := Z → Z.
Definition upd (m : mem) (a v : Z) : mem := λ x, if x =? a then v else m x.

(** ** x86.h: the string instructions *)

Fixpoint stosb (cnt : nat) (m : mem) (addr data : Z) : mem :=
  match cnt with
  | O => m
  | S k => stosb k (upd m addr (u8 data)) (addr + 1) data
  end.

Definition store32 (m : mem) (a w : Z) : mem :=
  upd (upd (upd (upd m a (u8 w)) (a + 1) (u8 (Z.shiftr w 8)))
    (a + 2) (u8 (Z.shiftr w 16))) (a + 3) (u8 (Z.shiftr w 24)).

Fixpoint stosl (cnt : nat) (m : mem) (addr data : Z) : mem :=
  match cnt with
  | O => m
  | S k => stosl k (store32 m addr data) (addr + 4) data
  end.

(** ** string.c *)

Definition memset (m : mem) (dst c n : Z) : mem :=
  if (dst mod 4 =? 0) && (n mod 4 =? 0) then
    let c := Z.land c 255 in
    stosl (Z.to_nat (n / 4)) m dst
      (Z.lor (Z.lor (Z.lor (Z.shiftl c 24) (Z.shiftl c 16)) (Z.shiftl c 8)) c)
  else stosb (Z.to_nat n) m dst c.

Fixpoint memcmp_loop (n : nat) (m : mem) (s1 s2 : Z) : Z :=
  match n with
  | O => 0
  | S n => if negb (m s1 =? m s2) then m s1 - m s2
           else memcmp_loop n m (s1 + 1) (s2 + 1)
  end.
Definition memcmp (m : mem) (v1 v2 n : Z) : Z := memcmp_loop (Z.to_nat n) m v1 v2.

Fixpoint copy_down (n : nat) (m : mem) (d s : Z) : mem :=
  match n with
  | O => m
  | S n => copy_down n (upd m (d - 1) (m (s - 1))) (d - 1) (s - 1)
  end.
Fixpoint copy_up (n : nat) (m : mem) (d s : Z) : mem :=
  match n with
  | O => m
  | S n => copy_up n (upd m d (m s)) (d + 1) (s + 1)
  end.
Definition memmove (m : mem) (dst src n : Z) : mem :=
  if (src <? dst) && (dst <? src + n)
  then copy_down (Z.to_nat n) m (dst + n) (src + n)
  else copy_up (Z.to_nat n) m dst src.

Definition memcpy (m : mem) (dst src n : Z) : mem := memmove m dst src n.

Fixpoint strncmp_loop (n : nat) (m : mem) (p q : Z) : Z :=
  match n with
  | O => 0
  | S k =>
      if nz (m p) && (m p =? m q) then strncmp_loop k m (p + 1) (q + 1)
      else u8 (m p) - u8 (m q)
  end.
Definition strncmp (m : mem) (p q n : Z) : Z := strncmp_loop (Z.to_nat n) m p q.

(** The two loops of strncpy; the first returns what is left of [n]. *)
Fixpoint strncpy_copy (n : nat) (m : mem) (s t : Z) : mem * Z * nat :=
  match n with
  | O => (m, s, O)
  | S k =>
      let m' := upd m s (m t) in
      if nz (m t) then strncpy_copy k m' (s + 1) (t + 1) else (m', s + 1, k)
  end.
Fixpoint strncpy_pad (n : nat) (m : mem) (s : Z) : mem :=
  match n with
  | O => m
  | S k => strncpy_pad k (upd m s 0) (s + 1)
  end.
Definition strncpy (m : mem) (s t n : Z) : mem :=
  let '(m', s', k) := strncpy_copy (Z.to_nat n) m s t in strncpy_pad k m' s'.

(** The loop of safestrcpy is the first loop of strncpy with [n-1]. *)
Definition safestrcpy (m : mem) (s t n : Z) : mem :=
  if n <=? 0 then m else
  let '(m', s', _) := strncpy_copy (Z.to_nat (n - 1)) m s t in upd m' s' 0.

Fixpoint strlen_loop (fuel : nat) (m : mem) (s n : Z) : option Z :=
  match fuel with
  | O => None
  | S k => if nz (m (s + n)) then strlen_loop k m s (n + 1) else Some n
  end.
Definition strlen (fuel : nat) (m : mem) (s : Z) : option Z := strlen_loop fuel m s 0.

(** ** ulib.c *)
Module Ulib.

Fixpoint strcpy (fuel : nat) (m : mem) (s t : Z) : option mem :=
  match fuel with
  | O => None
  | S k =>
      let m' := upd m s (m t) in
      if nz (m t) then strcpy k m' (s + 1) (t + 1) else Some m'
  end.

Fixpoint strcmp (fuel : nat) (m : mem) (p q : Z) : option Z :=
  match fuel with
  | O => None
  | S k =>
      if nz (m p) && (m p =? m q) then strcmp k m (p + 1) (q + 1)
      else Some (u8 (m p) - u8 (m q))
  end.

Definition memset (m : mem) (dst c n : Z) : mem := stosb (Z.to_nat n) m dst c.

(** The result 0 (not found) is [Some 0]. *)
Fixpoint strchr (fuel : nat) (m : mem) (s c : Z) : option Z :=
  match fuel with
  | O => None
  | S k =>
      if nz (m s) then (if m s =? c then Some s else strchr k m (s + 1) c)
      else Some 0
  end.

(** [gets]: [inp] is what [read(0, &c, 1)] delivers, one byte per call;
    returns the bytes stored in [buf] before the final NUL, and the rest. *)
Fixpoint gets (max : nat) (inp : list Z) : list Z * list Z :=
  match max with
  | O | S O => ([], inp)
  | S k =>
      match inp with
      | [] => ([], [])
      | c :: inp' =>
          if (c =? 10) || (c =? 13) then ([c], inp')
          else let '(b, r) := gets k inp' in (c :: b, r)
      end
  end.

(** [atoi] on [int]: the accumulator wraps at 32 bits. *)
Fixpoint atoi_loop (fuel : nat) (m : mem) (s n : Z) : option Z :=
  match fuel with
  | O => None
  | S k =>
      if (48 <=? m s) && (m s <=? 57)
      then atoi_loop k m (s + 1) (i32 (n * 10 + m s - 48))
      else Some n
  end.
Definition atoi (fuel : nat) (m : mem) (s : Z) : option Z := atoi_loop fuel m s 0.

(** Always copies upwards. *)
Definition memmove (m : mem) (dst src n : Z) : mem := copy_up (Z.to_nat n) m dst src.

End Ulib.

(** ** Reference definitions *)

(** The bytes of a string up to its NUL, at most [n] of them. *)
Fixpoint cstr (n : nat) (m : mem) (p : Z) : list Z :=
  match n with
  | O => []
  | S k => if m p =? 0 then [] else m p :: cstr k m (p + 1)
  end.

(** What a block copy and a block fill must do to memory. *)
Definition copied (m : mem) (dst src n : Z) : mem := λ a,
  if (dst <=? a) && (a <? dst + n) then m (src + (a - dst)) else m a.
Definition filled (m : mem) (dst c n : Z) : mem := λ a,
  if (dst <=? a) && (a <? dst + n) then u8 c else m a.

(** ** Lemmas *)

Ltac mem_cases := unfold upd, copied, filled in *; bdestr; simpl in *.

Lemma upd_eq m a v : upd m a v a = v.
Proof. unfold upd. by rewrite Z.eqb_refl. Qed.
Lemma upd_ne m a b v : b ≠ a → upd m a v b = m b.
Proof. intros. unfold upd. by destruct (Z.eqb_spec b a). Qed.

Lemma stosb_spec cnt m addr data a :
  stosb cnt m addr data a = filled m addr data (Z.of_nat cnt) a.
Proof.
  revert m addr. induction cnt as [|k IH]; intros m addr.
  - unfold stosb. mem_cases; lia.
  - cbn [stosb]. rewrite IH, Nat2Z.inj_succ. mem_cases; try lia; done.
Qed.

Definition rep4 (c : Z) : Z :=
  Z.lor (Z.lor (Z.lor (Z.shiftl c 24) (Z.shiftl c 16)) (Z.shiftl c 8)) c.

(** Every byte of the replicated word is the fill byte. *)
Lemma rep4_byte c k : 0 ≤ c < 256 → 0 ≤ k < 4 → u8 (Z.shiftr (rep4 c) (8 * k)) = c.
Proof.
  intros Hc Hk. unfold u8. change 256 with (2 ^ 8). rewrite <- Z.land_ones by lia.
  apply Z.bits_inj'. intros i Hi. unfold rep4.
  rewrite Z.land_spec, Z.shiftr_spec, !Z.lor_spec, !Z.shiftl_spec by lia.
  destruct (Z.ltb_spec i 8).
  - rewrite Z.ones_spec_low, andb_true_r by lia.
    assert (Hhi : ∀ j, 8 ≤ j → Z.testbit c j = false).
    { intros j Hj. rewrite <- (Z.mod_small c (2 ^ 8)) by lia.
      apply Z.mod_pow2_bits_high. lia. }
    assert (Hlo : ∀ j, j < 0 → Z.testbit c j = false) by (intros; by apply Z.testbit_neg_r).
    assert (k = 0 ∨ k = 1 ∨ k = 2 ∨ k = 3) as [->|[->|[->| ->]]] by lia.
    + rewrite (Hlo (i + _ - 24)), (Hlo (i + _ - 16)), (Hlo (i + _ - 8)) by lia.
      simpl. f_equal. lia.
    + rewrite (Hlo (i + _ - 24)), (Hlo (i + _ - 16)), (Hhi (i + 8 * 1)) by lia.
      rewrite orb_false_r. simpl. f_equal. lia.
    + rewrite (Hlo (i + _ - 24)), (Hhi (i + _ - 8)), (Hhi (i + 8 * 2)) by lia.
      rewrite !orb_false_r. simpl. f_equal. lia.
    + rewrite (Hhi (i + _ - 16)), (Hhi (i + _ - 8)), (Hhi (i + 8 * 3)) by lia.
      rewrite !orb_false_r. f_equal. lia.
  - rewrite Z.ones_spec_high, andb_false_r by lia. symmetry.
    rewrite <- (Z.mod_small c (2 ^ 8)) by lia. apply Z.mod_pow2_bits_high. lia.
Qed.

Lemma store32_rep4 m a c x : 0 ≤ c < 256 → store32 m a (rep4 c) x = filled m a c 4 x.
Proof.
  intros Hc. unfold store32.
  pose proof (rep4_byte c 0 Hc ltac:(lia)) as H0. pose proof (rep4_byte c 1 Hc ltac:(lia)) as H1.
  pose proof (rep4_byte c 2 Hc ltac:(lia)) as H2. pose proof (rep4_byte c 3 Hc ltac:(lia)) as H3.
  change (8 * 0) with 0 in H0. change (8 * 1) with 8 in H1.
  change (8 * 2) with 16 in H2. change (8 * 3) with 24 in H3.
  rewrite Z.shiftr_0_r in H0. rewrite H0, H1, H2, H3.
  rewrite <- (u8_small c Hc). mem_cases; rewrite ?u8_small; lia.
Qed.

Lemma stosl_spec cnt m addr c a : 0 ≤ c < 256 →
  stosl cnt m addr (rep4 c) a = filled m addr c (4 * Z.of_nat cnt) a.
Proof.
  intros Hc. revert m addr. induction cnt as [|k IH]; intros m addr.
  - unfold stosl. mem_cases; lia.
  - cbn [stosl]. rewrite IH, Nat2Z.inj_succ. unfold filled at 1. rewrite store32_rep4 by done.
    mem_cases; try lia; done.
Qed.

Lemma memset_filled m dst c n a : 0 ≤ n → memset m dst c n a = filled m dst c n a.
Proof.
  intros Hn. unfold memset. destruct (Z.eqb_spec (dst mod 4) 0), (Z.eqb_spec (n mod 4) 0);
    cbn [andb].
  - change 255 with (Z.ones 8). rewrite Z.land_ones by lia. change (2 ^ 8) with 256.
    change (c mod 256) with (u8 c).
    fold (rep4 (u8 c)). rewrite stosl_spec by apply u8_range.
    replace (4 * Z.of_nat (Z.to_nat (n / 4))) with n.
    + unfold filled. by rewrite (u8_small (u8 c)) by apply u8_range.
    + rewrite Z2Nat.id by (apply Z.div_pos; lia). rewrite (Z.div_mod n 4) at 1 by lia. lia.
  - rewrite stosb_spec, Z2Nat.id by done. done.
  - rewrite stosb_spec, Z2Nat.id by done. done.
  - rewrite stosb_spec, Z2Nat.id by done. done.
Qed.

Lemma copy_up_spec n m d s a :
  (d ≤ s ∨ s + Z.of_nat n ≤ d) → copy_up n m d s a = copied m d s (Z.of_nat n) a.
Proof.
  revert m d s. induction n as [|n IH]; intros m d s Hov.
  - unfold copy_up. mem_cases; lia.
  - cbn [copy_up]. rewrite IH by lia. rewrite Nat2Z.inj_succ.
    mem_cases; try lia; try done; f_equal; lia.
Qed.

Lemma copy_down_spec n m d s a :
  s ≤ d → copy_down n m d s a =
  copied m (d - Z.of_nat n) (s - Z.of_nat n) (Z.of_nat n) a.
Proof.
  revert m d s. induction n as [|n IH]; intros m d s Hov.
  - unfold copy_down. mem_cases; lia.
  - cbn [copy_down]. rewrite IH by lia. rewrite Nat2Z.inj_succ.
    mem_cases; try lia; try done; f_equal; lia.
Qed.

(** The copy loop of strncpy and safestrcpy. *)
Lemma strncpy_copy_spec n : ∀ m s t m' s' k,
  (∀ i, 0 ≤ i < Z.of_nat n → ∀ j, 0 ≤ j < Z.of_nat n → s + i ≠ t + j) →
  strncpy_copy n m s t = (m', s', k) →
  let l := cstr n m t in
  (∀ j, (j < length l)%nat → m' (s + Z.of_nat j) = nth j l 0) ∧
  (∀ a, (a < s ∨ s' ≤ a) → m' a = m a) ∧
  (if decide (length l = n) then s' = s + Z.of_nat n ∧ k = O
   else s' = s + Z.of_nat (length l) + 1 ∧ (k + length l + 1 = n)%nat ∧ m' (s' - 1) = 0).
Proof.
  induction n as [|n IH]; intros m s t m' s' k Hd Hc; cbn [strncpy_copy cstr] in *.
  { simplify_eq. split_and!; simpl; [lia|done|]. split; [lia|done]. }
  unfold nz in Hc. destruct (Z.eqb_spec (m t) 0) as [Hz|Hz]; cbn [negb] in Hc.
  - simplify_eq. rewrite Hz. split_and!; simpl; [lia| |].
    + intros a Ha. rewrite upd_ne; [done|lia].
    + split_and!; [lia|lia|]. rewrite Z.add_simpl_r. apply upd_eq.
  - assert (Hcs : cstr n (upd m s (m t)) (t + 1) = cstr n m (t + 1)).
    { assert (Hd' : ∀ j, 0 ≤ j < Z.of_nat n → s ≠ t + 1 + j).
      { intros j Hj. specialize (Hd 0 ltac:(lia) (j + 1) ltac:(lia)). lia. }
      clear -Hd'. generalize (m t) as v. revert Hd'. generalize (t + 1) as u.
      induction n as [|n IH]; intros u Hd v; [done|].
      cbn [cstr]. rewrite upd_ne by (specialize (Hd 0 ltac:(lia)); lia).
      rewrite IH; [done|]. intros j Hj. specialize (Hd (j + 1) ltac:(lia)). lia. }
    apply IH in Hc; [|intros i Hi j Hj; specialize (Hd (i + 1) ltac:(lia) (j + 1) ltac:(lia)); lia].
    rewrite Hcs in Hc. destruct Hc as (H1&H2&H3). cbn zeta. split_and!.
    + intros [|j] Hj; cbn [length nth] in *.
      * rewrite Z.add_0_r, H2 by lia. apply upd_eq.
      * rewrite <- H1 by lia. f_equal. lia.
    + intros a Ha. rewrite H2.
      * apply upd_ne. destruct (decide (length (cstr n m (t + 1)) = n)); lia.
      * destruct (decide (length (cstr n m (t + 1)) = n)); lia.
    + cbn [length].
      destruct (decide (length (cstr n m (t + 1)) = n)), (decide (S (length (cstr n m (t + 1))) = S n));
        try lia; split_and!; solve [lia | apply H3].
Qed.

Lemma length_cstr n m p : (length (cstr n m p) ≤ n)%nat.
Proof. revert p; induction n; intros; cbn [cstr]; [done|]. destruct (m p =? 0); simpl; [lia|]. specialize (IHn (p + 1)). lia. Qed.

Lemma strncpy_pad_spec n m s a :
  strncpy_pad n m s a = if (s <=? a) && (a <? s + Z.of_nat n) then 0 else m a.
Proof.
  revert m s. induction n as [|n IH]; intros m s.
  - unfold strncpy_pad. bdestr; simpl; lia.
  - cbn [strncpy_pad]. rewrite IH, Nat2Z.inj_succ. mem_cases; try lia; done.
Qed.

Lemma cstr_short_zero n m p : length (cstr n m p) ≠ n →
  m (p + Z.of_nat (length (cstr n m p))) = 0.
Proof.
  revert p. induction n as [|n IH]; intros p; cbn [cstr]; [done|].
  destruct (Z.eqb_spec (m p) 0) as [Hz|Hz]; cbn [length].
  - by rewrite Z.add_0_r.
  - intros Hl. rewrite Nat2Z.inj_succ, <- (IH (p + 1)) by lia. f_equal. lia.
Qed.

Lemma strncmp_loop_zero n m p q :
  (∀ a, is_byte (m a)) →
  strncmp_loop n m p q = 0 ↔ cstr n m p = cstr n m q.
Proof.
  intros Hb. revert p q. induction n as [|n IH]; intros p q; [done|].
  cbn [strncmp_loop cstr]. unfold nz.
  destruct (Z.eqb_spec (m p) 0) as [Hp|Hp], (Z.eqb_spec (m p) (m q)) as [Hq|Hq]; cbn [negb andb];
    rewrite ?(u8_small (m p)), ?(u8_small (m q)) by apply Hb.
  - rewrite <- Hq, Hp. done.
  - destruct (Z.eqb_spec (m q) 0); [lia|]. split; [lia|done].
  - rewrite <- Hq. destruct (Z.eqb_spec (m p) 0); [done|]. rewrite IH.
    split; [by intros ->|by intros [= ?]].
  - destruct (Z.eqb_spec (m q) 0); split; try lia; try done. intros [= ?]. lia.
Qed.

(** [strncpy]: the [n] bytes written. *)
Lemma strncpy_inside m s t n j :
  0 < n → (∀ i j, 0 ≤ i < n → 0 ≤ j < n → s + i ≠ t + j) → 0 ≤ j < n →
  strncpy m s t n (s + j) = nth (Z.to_nat j) (cstr (Z.to_nat n) m t) 0.
Proof.
  intros Hn Hd Hj. unfold strncpy.
  destruct (strncpy_copy (Z.to_nat n) m s t) as [[m' s'] k] eqn:E.
  apply strncpy_copy_spec in E; [|intros; apply Hd; lia]. cbn zeta in E.
  destruct E as (H1&H2&H3). rewrite strncpy_pad_spec.
  set (l := cstr (Z.to_nat n) m t) in *.
  destruct (decide (length l = Z.to_nat n)) as [Hl|Hl].
  - destruct H3 as [-> ->]. rewrite (proj2 (Z.leb_gt _ _)) by lia. simpl.
    rewrite <- H1 by lia. f_equal. lia.
  - destruct H3 as (->&Hk&H0).
    pose proof (length_cstr (Z.to_nat n) m t) as Hle. fold l in Hle.
    destruct (decide (j < Z.of_nat (length l))) as [Hjl|Hjl].
    + rewrite (proj2 (Z.leb_gt _ _)) by lia. simpl. rewrite <- H1 by lia. f_equal. lia.
    + rewrite (nth_overflow l) by lia.
      destruct (decide (j = Z.of_nat (length l))) as [->|Hne].
      * rewrite (proj2 (Z.leb_gt _ _)) by lia. simpl. rewrite <- H0. f_equal. lia.
      * rewrite (proj2 (Z.leb_le _ _)), (proj2 (Z.ltb_lt _ _)) by lia. done.
Qed.

(** [strncpy]: nothing outside. *)
Lemma strncpy_outside m s t n a :
  (∀ i j, 0 ≤ i < n → 0 ≤ j < n → s + i ≠ t + j) → 0 ≤ n → (a < s ∨ s + n ≤ a) →
  strncpy m s t n a = m a.
Proof.
  intros Hd Hn Ha. unfold strncpy.
  destruct (strncpy_copy (Z.to_nat n) m s t) as [[m' s'] k] eqn:E.
  apply strncpy_copy_spec in E; [|intros; apply Hd; lia]. cbn zeta in E.
  destruct E as (H1&H2&H3). rewrite strncpy_pad_spec.
  case_decide; destruct_and!; bdestr; simpl; try (apply H2); lia.
Qed.

Lemma safestrcpy_inside m s t n j :
  0 < n → (∀ i j, 0 ≤ i < n → 0 ≤ j < n → s + i ≠ t + j) →
  (j ≤ length (cstr (Z.to_nat (n - 1)) m t))%nat →
  safestrcpy m s t n (s + Z.of_nat j) = nth j (cstr (Z.to_nat (n - 1)) m t) 0.
Proof.
  intros Hn Hd Hj. set (l := cstr (Z.to_nat (n - 1)) m t) in *. unfold safestrcpy.
  rewrite (proj2 (Z.leb_gt n 0)) by lia.
  destruct (strncpy_copy (Z.to_nat (n - 1)) m s t) as [[m' s'] k] eqn:E.
  apply strncpy_copy_spec in E; [|intros; apply Hd; lia]. cbn zeta in E. fold l in E.
  destruct E as (H1&H2&H3).
  destruct (decide (j < length l)%nat) as [Hjl|Hjl].
  - rewrite upd_ne by (case_decide; lia). by apply H1.
  - rewrite nth_overflow by lia. assert (j = length l) as -> by lia. case_decide as Hl.
    + destruct H3 as [-> _]. rewrite Hl. apply upd_eq.
    + destruct H3 as (->&_&H0). rewrite upd_ne by lia. rewrite <- H0. f_equal. lia.
Qed.

Lemma safestrcpy_outside m s t n a :
  0 < n → (∀ i j, 0 ≤ i < n → 0 ≤ j < n → s + i ≠ t + j) → (a < s ∨ s + n ≤ a) →
  safestrcpy m s t n a = m a.
Proof.
  intros Hn Hd Ha. unfold safestrcpy. rewrite (proj2 (Z.leb_gt n 0)) by lia.
  destruct (strncpy_copy (Z.to_nat (n - 1)) m s t) as [[m' s'] k] eqn:E.
  apply strncpy_copy_spec in E; [|intros; apply Hd; lia]. cbn zeta in E.
  destruct E as (H1&H2&H3). pose proof (length_cstr (Z.to_nat (n - 1)) m t) as Hle.
  rewrite upd_ne by (case_decide; lia). apply H2. case_decide; lia.
Qed.

(** [memmove] as one update. *)
Lemma memmove_copied m dst src n a :
  0 ≤ n → memmove m dst src n a = copied m dst src n a.
Proof.
  intros Hn. unfold memmove. destruct (Z.ltb_spec src dst), (Z.ltb_spec dst (src + n)); cbn [andb].
  - rewrite copy_down_spec by lia. rewrite Z2Nat.id by lia. mem_cases; try lia; try done; f_equal; lia.
  - rewrite copy_up_spec by lia. by rewrite Z2Nat.id by lia.
  - rewrite copy_up_spec by lia. by rewrite Z2Nat.id by lia.
  - rewrite copy_up_spec by lia. by rewrite Z2Nat.id by lia.
Qed.

(** ** Properties *)

(** Kernel [memmove] moves the old contents of the source range to the
    destination for every overlap of the two ranges, and changes nothing
    else. *)
Theorem memmove_correct m dst src n a :
  0 ≤ n → memmove m dst src n a = copied m dst src n a.
Proof. apply memmove_copied. Qed.

(** Move five bytes up by two, with overlap. *)
Lemma memmove_correct_witness :
  memmove (λ a, a) 102 100 5 105 = 103 ∧
  memmove (λ a, a) 102 100 5 105 = copied (λ a, a) 102 100 5 105.
Proof. split; [reflexivity|]. apply (memmove_correct (λ a, a) 102 100 5 105). lia. Defined.

(** The word-at-a-time fast path of kernel [memset] and its byte loop both
    implement the same block fill. *)
Theorem memset_correct m dst c n a :
  0 ≤ n → memset m dst c n a = filled m dst c n a ∧
          Ulib.memset m dst c n a = memset m dst c n a.
Proof.
  intros Hn. rewrite memset_filled by done. split; [done|].
  unfold Ulib.memset. by rewrite stosb_spec, Z2Nat.id.
Qed.

Lemma memset_correct_witness :
  memset (λ _, 7) 8 (-1) 8 15 = 255 ∧ memset (λ _, 7) 8 (-1) 8 15 = filled (λ _, 7) 8 (-1) 8 15.
Proof.
  split; [reflexivity|]. apply (memset_correct (λ _, 7) 8 (-1) 8 15). lia.
Defined.

(** [strncpy] writes exactly [n] bytes, the source string padded with NULs,
    and [safestrcpy] writes inside the same [n] bytes a NUL-terminated copy
    truncated to [n-1] characters (source and destination apart). *)
Theorem strncpy_safestrcpy_correct m s t n :
  0 < n → (∀ i j, 0 ≤ i < n → 0 ≤ j < n → s + i ≠ t + j) →
  (∀ j, 0 ≤ j < n → strncpy m s t n (s + j) = nth (Z.to_nat j) (cstr (Z.to_nat n) m t) 0) ∧
  (∀ a, (a < s ∨ s + n ≤ a) → strncpy m s t n a = m a) ∧
  (∀ j, (j ≤ length (cstr (Z.to_nat (n - 1)) m t))%nat →
     safestrcpy m s t n (s + Z.of_nat j) = nth j (cstr (Z.to_nat (n - 1)) m t) 0) ∧
  (∀ a, (a < s ∨ s + n ≤ a) → safestrcpy m s t n a = m a).
Proof.
  intros Hn Hd. split_and!; intros.
  - by apply strncpy_inside.
  - apply strncpy_outside; [done|lia|done].
  - by apply safestrcpy_inside.
  - by apply safestrcpy_outside.
Qed.

(** "abc" copied into a field of 2 and of 8 bytes. *)
Definition abc_mem : mem := λ a,
  if a =? 100 then 97 else if a =? 101 then 98 else if a =? 102 then 99 else
  if a =? 103 then 0 else 7.

Lemma strncpy_safestrcpy_correct_witness :
  strncpy abc_mem 200 100 8 207 = 0 ∧ safestrcpy abc_mem 200 100 2 201 = 0 ∧
  strncpy abc_mem 200 100 8 208 = abc_mem 208.
Proof.
  split; [reflexivity|]. split; [reflexivity|].
  assert (Hd : ∀ i j, 0 ≤ i < 8 → 0 ≤ j < 8 → 200 + i ≠ 100 + j) by lia.
  assert (Ha : 208 < 200 ∨ 200 + 8 ≤ 208) by lia.
  exact (proj1 (proj2 (strncpy_safestrcpy_correct abc_mem 200 100 8 eq_refl Hd)) 208 Ha).
Defined.
