(* ===== verification/Kalloc.v ===== *)
(** The physical page allocator (kalloc.c).

    Free pages form a linked list whose links are stored in the pages
    themselves; the model keeps the memory and the links in it. *)
From S2P Require Import Prelude Kmonad Kstate Spinlock Str.

Definition PGSIZE : Z := 4096.
Definition PHYSTOP : Z := 0xE000000.
Definition PGROUNDUP (sz : Z) : Z := Z.land (u32 (sz + PGSIZE - 1)) (Z.lnot (PGSIZE - 1)).
Definition PGROUNDDOWN (a : Z) : Z := Z.land a (Z.lnot (PGSIZE - 1)).
Definition v2p (a : Z) : Z := u32 (a - KERNBASE).
Definition p2v (a : Z) : Z := u32 (a + KERNBASE).

(** [kmem], with the memory the pages live in and the shared kernel state. *)
Record kmem := Kmem {
  km_k : kst;
  km_use_lock : bool;
  km_freelist : Z;
  km_mem : mem
}.
Definition set_km_k v (r : kmem) : kmem :=
  Kmem v (km_use_lock r) (km_freelist r) (km_mem r).
Definition set_km_use_lock v (r : kmem) : kmem :=
  Kmem (km_k r) v (km_freelist r) (km_mem r).
Definition set_km_freelist v (r : kmem) : kmem :=
  Kmem (km_k r) (km_use_lock r) v (km_mem r).
Definition set_km_mem v (r : kmem) : kmem :=
  Kmem (km_k r) (km_use_lock r) (km_freelist r) v.

Definition km_lens : lens kmem kst := Lens km_k set_km_k.

(** A 32-bit word of memory, as [r->next]. *)
Definition load32 (m : mem) (a : Z) : Z :=
  le_decode [m a; m (a + 1); m (a + 2); m (a + 3)].

Section Kalloc.
(** [end]: the first address after the kernel, set by the linker. *)
Context (kend : Z).

Definition bad_page (v : Z) : bool :=
  nz (u32 v mod PGSIZE) || (v <? kend) || (PHYSTOP <=? v2p v).

Definition kfree (v : Z) : M kmem unit :=
  if bad_page v then panic "kfree" else
  modify (λ s, set_km_mem (memset (km_mem s) v 1 PGSIZE) s);;
  use_lock ← gets km_use_lock;
  when use_lock (zoom km_lens (acquire LKmem));;
  modify (λ s, set_km_mem (store32 (km_mem s) v (km_freelist s)) s);;
  modify (set_km_freelist v);;
  when use_lock (zoom km_lens (release LKmem)).

Definition kalloc : M kmem Z :=
  use_lock ← gets km_use_lock;
  when use_lock (zoom km_lens (acquire LKmem));;
  r ← gets km_freelist;
  when (nz r) (modify (λ s, set_km_freelist (load32 (km_mem s) r) s));;
  when use_lock (zoom km_lens (release LKmem));;
  mret r.

(** [for(; p + PGSIZE <= vend; p += PGSIZE) kfree(p)] *)
Definition freerange (vstart vend : Z) : M kmem unit :=
  loop (S (Z.to_nat (vend / PGSIZE))) (λ p,
    if p + PGSIZE <=? vend then kfree p;; mret (inl (p + PGSIZE)) else mret (inr tt))
    (PGROUNDUP vstart).

Definition kinit1 (vstart vend : Z) : M kmem unit :=
  zoom km_lens (initlock LKmem);;
  modify (set_km_use_lock false);;
  freerange vstart vend.

Definition kinit2 (vstart vend : Z) : M kmem unit :=
  freerange vstart vend;;
  modify (set_km_use_lock true).

(** ** Representation *)

Definition page (v : Z) : Prop := 0 ≤ v < 4294967296 ∧ bad_page v = false.

(** The list of free pages hanging off [r]. *)
Fixpoint chain (m : mem) (r : Z) (l : list Z) : Prop :=
  match l with
  | [] => r = 0
  | v :: l => r = v ∧ chain m (load32 m v) l
  end.

Definition free_pages (s : kmem) (l : list Z) : Prop :=
  chain (km_mem s) (km_freelist s) l ∧ Forall page l ∧ NoDup l.

(** The lock and the CPU allow the allocator to run. *)
Definition km_ready (s : kmem) : Prop := kst_ok (km_k s) ∧ is_free LKmem (km_k s).

Lemma page_aligned v : page v → v mod PGSIZE = 0 ∧ v ≠ 0.
Proof.
  intros [Hr Hb]. unfold bad_page, nz in Hb.
  apply orb_false_iff in Hb as [Hb H3]. apply orb_false_iff in Hb as [H1 H2].
  apply negb_false_iff, Z.eqb_eq in H1. rewrite u32_small in H1 by done. split; [done|].
  intros ->. apply Z.leb_gt in H3. unfold v2p, u32, KERNBASE, PHYSTOP in H3.
  by vm_compute in H3.
Qed.

(** Distinct pages do not overlap. *)
Lemma page_disjoint v w i : page v → page w → v ≠ w → 0 ≤ i < PGSIZE →
  w + i < v ∨ v + PGSIZE ≤ w + i.
Proof.
  intros [Hv _]%page_aligned [Hw _]%page_aligned Hne Hi. unfold PGSIZE in *.
  Z.div_mod_to_equations. lia.
Qed.

Lemma load32_store32 m a w : load32 (store32 m a w) a = u32 w.
Proof.
  assert (E : le_encode 4 w = [u8 w; u8 (Z.shiftr w 8); u8 (Z.shiftr w 16); u8 (Z.shiftr w 24)]).
  { unfold u8. rewrite !Z.shiftr_div_pow2 by lia. cbn [le_encode].
    change (2 ^ 8) with 256. change (2 ^ 16) with (256 * 256). change (2 ^ 24) with (256 * 256 * 256).
    by rewrite <- !Z.div_div by lia. }
  unfold load32. transitivity (le_decode (le_encode 4 w)).
  - rewrite E. unfold store32. do 2 f_equal; [|f_equal; [|f_equal; [|f_equal]]];
      rewrite ?upd_ne by lia; by rewrite upd_eq.
  - by rewrite le_decode_encode.
Qed.

Lemma load32_ext m m' a :
  (∀ i, 0 ≤ i < 4 → m (a + i) = m' (a + i)) → load32 m a = load32 m' a.
Proof.
  intros H. unfold load32. rewrite <- (Z.add_0_r a) at 1 5. by rewrite !H by lia.
Qed.

(** Writes inside page [v] leave the links of other pages alone. *)
Lemma chain_ext m m' r l v : page v → Forall page l → v ∉ l →
  (∀ a, a < v ∨ v + PGSIZE ≤ a → m' a = m a) → chain m r l → chain m' r l.
Proof.
  intros Hv Hl. revert r. induction Hl as [|w l Hw _ IH]; intros r Hni Hm; simpl; [done|].
  intros [-> Hc]. split; [done|]. apply not_elem_of_cons in Hni as [Hne Hni].
  rewrite (load32_ext m' m); [by apply IH|]. intros i Hi. apply Hm.
  apply (page_disjoint v w i); [done..|unfold PGSIZE; lia].
Qed.

Lemma store32_outside m v w a : a < v ∨ v + PGSIZE ≤ a → store32 m v w a = m a.
Proof. intros. unfold store32, PGSIZE in *. by rewrite !upd_ne by lia. Qed.

Lemma memset_outside m v c a : a < v ∨ v + PGSIZE ≤ a → memset m v c PGSIZE a = m a.
Proof.
  intros. rewrite memset_filled by done. unfold filled. bdestr; simpl; lia.
Qed.

(** The memory after [kfree]. *)
Definition kfree_mem (v : Z) (s : kmem) : mem :=
  store32 (memset (km_mem s) v 1 PGSIZE) v (km_freelist s).

Lemma lock_kmem_run s :
  km_ready s →
  when (km_use_lock s) (zoom km_lens (acquire LKmem)) s =
    Ok tt (if km_use_lock s then set_km_k (acq LKmem (km_k s)) s else s).
Proof.
  intros [_ Hf]. unfold when, zoom. destruct (km_use_lock s); [|done].
  simpl. by rewrite acquire_run.
Qed.

Lemma unlock_kmem_run ul k f m :
  kst_ok k → is_free LKmem k →
  when ul (zoom km_lens (release LKmem)) (Kmem (if ul then acq LKmem k else k) ul f m) =
    Ok tt (Kmem k ul f m).
Proof.
  intros Hok Hf. unfold when, zoom. destruct ul; [|done].
  simpl. by rewrite release_acq'.
Qed.

Lemma kfree_run v s : page v → km_ready s →
  kfree v s = Ok tt (Kmem (km_k s) (km_use_lock s) v (kfree_mem v s)).
Proof.
  intros [Hr Hb] [Hok Hf]. unfold kfree. rewrite Hb. erewrite bind_run by reflexivity.
  erewrite bind_run by reflexivity. destruct s as [k ul fl m]; simpl.
  mrun (lock_kmem_run (Kmem k ul fl (memset m v 1 PGSIZE)) (conj Hok Hf)); simpl.
  do 2 (erewrite bind_run by reflexivity).
  replace (if ul then _ else _) with
    (Kmem (if ul then acq LKmem k else k) ul fl (memset m v 1 PGSIZE)) by by destruct ul.
  unfold set_km_freelist, set_km_mem; simpl. by apply unlock_kmem_run.
Qed.

Lemma kalloc_run s : km_ready s →
  kalloc s = Ok (km_freelist s)
    (Kmem (km_k s) (km_use_lock s)
      (if nz (km_freelist s) then load32 (km_mem s) (km_freelist s) else km_freelist s)
      (km_mem s)).
Proof.
  intros [Hok Hf]. unfold kalloc. destruct s as [k ul fl m]; simpl.
  erewrite bind_run by reflexivity. simpl.
  mrun (lock_kmem_run (Kmem k ul fl m) (conj Hok Hf)); simpl.
  replace (if ul then _ else _) with (Kmem (if ul then acq LKmem k else k) ul fl m)
    by by destruct ul.
  erewrite bind_run by reflexivity. simpl.
  erewrite bind_run with (s1 := Kmem (if ul then acq LKmem k else k) ul
    (if nz fl then load32 m fl else fl) m) (a := tt) by by destruct (nz fl).
  erewrite bind_run by by apply unlock_kmem_run. done.
Qed.

Lemma kfree_free_pages v s l : page v → v ∉ l → free_pages s l →
  free_pages (Kmem (km_k s) (km_use_lock s) v (kfree_mem v s)) (v :: l).
Proof.
  intros Hv Hni (Hc&Hp&Hn). split_and!; simpl.
  - split; [done|]. unfold kfree_mem. rewrite load32_store32, u32_small.
    + eapply chain_ext; [exact Hv|exact Hp|exact Hni| |exact Hc].
      intros a Ha. by rewrite store32_outside, memset_outside.
    + destruct l as [|w l]; simpl in Hc; [lia|]. destruct Hc as [-> _].
      apply Forall_cons in Hp as [[Hw _] _]. done.
  - by constructor.
  - by constructor.
Qed.

Lemma kalloc_free_pages s l : km_ready s → free_pages s l →
  match l with
  | [] => kalloc s = Ok 0 s
  | v :: l' => ∃ s', kalloc s = Ok v s' ∧ free_pages s' l' ∧ km_ready s' ∧ v ≠ 0
  end.
Proof.
  intros Hr (Hc&Hp&Hn). rewrite kalloc_run by done. destruct l as [|v l]; simpl in Hc.
  - destruct s; simpl in *. by subst.
  - destruct Hc as [-> Hc]. apply Forall_cons in Hp as [Hv Hp].
    destruct (page_aligned v Hv) as [_ Hz]. apply NoDup_cons in Hn as [_ Hn].
    unfold nz. rewrite (proj2 (Z.eqb_neq v 0) Hz). simpl. eexists. split; [done|].
    split; [by split_and!|done].
Qed.

Lemma PGROUNDDOWN_div a : PGROUNDDOWN a = a / PGSIZE * PGSIZE.
Proof.
  unfold PGROUNDDOWN. change (PGSIZE - 1) with (Z.ones 12). rewrite <- Z.ldiff_land.
  rewrite Z.ldiff_ones_r by lia. rewrite Z.shiftl_mul_pow2, Z.shiftr_div_pow2 by lia. done.
Qed.

Lemma PGROUNDUP_div a : 0 ≤ a < 4294963200 → PGROUNDUP a = (a + 4095) / PGSIZE * PGSIZE.
Proof.
  intros Ha. unfold PGROUNDUP. rewrite u32_small by (unfold PGSIZE; lia).
  change (Z.land ?x (Z.lnot (PGSIZE - 1))) with (PGROUNDDOWN x).
  rewrite PGROUNDDOWN_div. unfold PGSIZE. do 2 f_equal. lia.
Qed.

(** The pages [p], [p + PGSIZE], ... *)
Fixpoint pages_from (n : nat) (p : Z) : list Z :=
  match n with O => [] | S n => p :: pages_from n (p + PGSIZE) end.
Definition range_pages (vstart vend : Z) : list Z :=
  pages_from (Z.to_nat ((vend - PGROUNDUP vstart) / PGSIZE)) (PGROUNDUP vstart).

Lemma kfree_mem_outside v s a : ¬ v ≤ a < v + PGSIZE → kfree_mem v s a = km_mem s a.
Proof.
  intros Ha. unfold kfree_mem, store32. unfold PGSIZE in Ha. rewrite !upd_ne by lia. apply memset_outside. unfold PGSIZE. lia.
Qed.

Lemma pages_from_in n p v : v ∈ pages_from n p ↔ ∃ k, (k < n)%nat ∧ v = p + Z.of_nat k * PGSIZE.
Proof.
  revert p. induction n as [|n IH]; intros p; cbn [pages_from]; [split; [by intros ?%not_elem_of_nil|intros (k&?&_); lia]|].
  rewrite elem_of_cons, IH. split.
  - intros [->|(k&Hk&->)]; [exists 0%nat|exists (S k)]; (split; [lia|unfold PGSIZE; lia]).
  - intros ([|k]&Hk&->); [left|right; exists k; split]; unfold PGSIZE; lia.
Qed.
Lemma pages_from_nodup n p : NoDup (pages_from n p).
Proof.
  revert p. induction n as [|n IH]; intros p; constructor; [|apply IH]. rewrite pages_from_in. intros (k&_&E). unfold PGSIZE in E. lia.
Qed.
Lemma pages_from_length n p : length (pages_from n p) = n.
Proof. revert p. induction n as [|n IH]; intros p; cbn; [done|by rewrite IH]. Qed.

(** The pages of a range of memory. *)
Lemma range_pages_in a b v : PGROUNDUP a ≤ b → v ∈ range_pages a b ↔ PGROUNDUP a ≤ v ∧ v + PGSIZE ≤ b ∧ (v - PGROUNDUP a) mod PGSIZE = 0.
Proof.
  intros Hab. unfold range_pages. rewrite pages_from_in. set (p := PGROUNDUP a) in *. unfold PGSIZE. split.
  - intros (k&Hk&->). clearbody p. Z.div_mod_to_equations. lia.
  - intros (H1&H2&H3). exists (Z.to_nat ((v - p) / 4096)). clearbody p. Z.div_mod_to_equations. lia.
Qed.
Lemma range_pages_ok a b : 0 ≤ a < 4294963200 → kend ≤ a → PGROUNDUP a ≤ b → KERNBASE ≤ a → b ≤ KERNBASE + PHYSTOP →
  Forall page (range_pages a b) ∧ NoDup (range_pages a b).
Proof.
  intros Ha Hk Hab HK Hb. split; [|apply pages_from_nodup]. apply Forall_forall. intros v Hv.
  apply range_pages_in in Hv as (H1&H2&H3); [|done]. rewrite PGROUNDUP_div in * by done. unfold page, bad_page, v2p, KERNBASE, PHYSTOP, PGSIZE in *.
  assert (Hr : a ≤ v < 4294967296) by (Z.div_mod_to_equations; lia).
  rewrite !u32_small by lia. split; [lia|]. unfold nz.
  replace (v mod 4096) with 0 by (Z.div_mod_to_equations; lia). rewrite (proj2 (Z.ltb_ge v kend)) by lia.
  rewrite (proj2 (Z.leb_gt _ _)) by lia. done.
Qed.

Lemma freerange_loop fuel n p vend s l :
  (vend - p) / PGSIZE = Z.of_nat n → (n < fuel)%nat →
  Forall page (pages_from n p) → NoDup (pages_from n p ++ l) →
  km_ready s → free_pages s l →
  ∃ s', loop fuel (λ p, if p + PGSIZE <=? vend then kfree p;; mret (inl (p + PGSIZE))
                        else mret (inr tt)) p s = Ok tt s' ∧
    free_pages s' (rev (pages_from n p) ++ l) ∧ km_ready s' ∧
    km_k s' = km_k s ∧ km_use_lock s' = km_use_lock s ∧
    ∀ a, (∀ v, v ∈ pages_from n p → ¬ v ≤ a < v + PGSIZE) → km_mem s' a = km_mem s a.
Proof.
  revert fuel p s l. induction n as [|n IH]; intros fuel p s l Hn Hf Hp Hd Hr Hl;
    destruct fuel as [|fuel]; try lia; cbn [loop].
  - rewrite (proj2 (Z.leb_gt _ _)).
    + exists s. done.
    + unfold PGSIZE in *. Z.div_mod_to_equations. lia.
  - rewrite (proj2 (Z.leb_le _ _)) by (unfold PGSIZE in *; Z.div_mod_to_equations; lia).
    cbn [pages_from] in *. apply Forall_cons in Hp as [Hv Hp].
    rewrite <- app_comm_cons in Hd. apply NoDup_cons in Hd as [Hni Hd].
    assert (Hnl : p ∉ l) by set_solver.
    rewrite bind_assoc. mrun (kfree_run p s Hv Hr). erewrite bind_run by reflexivity.
    edestruct (IH fuel (p + PGSIZE) (Kmem (km_k s) (km_use_lock s) p (kfree_mem p s)) (p :: l))
      as (s'&E&H1&H2&H3&H4&H5); [|lia|done| |done|by apply kfree_free_pages|].
    + replace (vend - (p + PGSIZE)) with ((vend - p) + (-1) * PGSIZE) by lia.
      rewrite Z.div_add by done. lia.
    + apply (NoDup_Permutation_proper (p :: (pages_from n (p + PGSIZE) ++ l))).
      * apply Permutation_middle.
      * by constructor.
    + exists s'. split; [exact E|]. simpl. rewrite <- app_assoc. split_and!; try done. intros a Ha.
      rewrite H5 by (intros v Hv'; apply Ha; by right). cbn. apply kfree_mem_outside, Ha. by left.
Qed.

Lemma freerange_run vstart vend s l :
  0 ≤ vstart < 4294963200 → PGROUNDUP vstart ≤ vend →
  Forall page (range_pages vstart vend) → NoDup (range_pages vstart vend ++ l) →
  km_ready s → free_pages s l →
  ∃ s', freerange vstart vend s = Ok tt s' ∧
    free_pages s' (rev (range_pages vstart vend) ++ l) ∧ km_ready s' ∧
    km_k s' = km_k s ∧ km_use_lock s' = km_use_lock s ∧
    ∀ a, (∀ v, v ∈ range_pages vstart vend → ¬ v ≤ a < v + PGSIZE) → km_mem s' a = km_mem s a.
Proof.
  intros Hs He Hp Hd Hr Hl. unfold freerange. apply freerange_loop; try done.
  - rewrite Z2Nat.id; [done|]. apply Z.div_pos; [lia|done].
  - assert (0 ≤ PGROUNDUP vstart).
    { rewrite PGROUNDUP_div by done. unfold PGSIZE. Z.div_mod_to_equations. lia. }
    apply Nat.lt_succ_r, Z2Nat.inj_le; try (apply Z.div_pos; unfold PGSIZE; lia).
    apply Z.div_le_mono; unfold PGSIZE; lia.
Qed.

(** ** The allocator and its clients

    [o] is the list of pages handed out and not given back. *)
Inductive client : kmem * list Z → kmem * list Z → Prop :=
| client_alloc s o r s' : kalloc s = Ok r s' → r ≠ 0 → client (s, o) (s', r :: o)
| client_nomem s o s' : kalloc s = Ok 0 s' → client (s, o) (s', o)
| client_free s o1 v o2 s' :
    kfree v s = Ok tt s' → client (s, o1 ++ v :: o2) (s', o1 ++ o2).

Definition client_inv (total : list Z) (so : kmem * list Z) : Prop :=
  ∃ l, km_ready so.1 ∧ free_pages so.1 l ∧ so.2 ++ l ≡ₚ total.

Lemma client_step total so so' : NoDup total → Forall page total →
  client_inv total so → client so so' → client_inv total so'.
Proof.
  intros Hnd Hpg (l&Hr&Hl&Hp) Hs. destruct Hs as [s o r s' E Hz|s o s' E|s o1 v o2 s' E];
    simpl in *.
  - pose proof (kalloc_free_pages s l Hr Hl) as Hk. destruct l as [|v l]; [congruence|].
    destruct Hk as (s1&E1&Hl1&Hr1&_). rewrite E in E1. simplify_eq.
    exists l. split_and!; [done|done|]. simpl. rewrite <- Hp. by rewrite Permutation_middle.
  - pose proof (kalloc_free_pages s l Hr Hl) as Hk. destruct l as [|v l].
    + exists []. rewrite E in Hk. by simplify_eq.
    + destruct Hk as (s1&E1&_&_&Hz). rewrite E in E1. by simplify_eq.
  - assert (Hv : page v).
    { rewrite <- Hp in Hpg. rewrite !Forall_app, Forall_cons in Hpg. by destruct Hpg as [[_ [? _]] _]. }
    assert (Hni : v ∉ l).
    { rewrite <- Hp in Hnd. rewrite <- app_assoc, <- app_comm_cons, <- Permutation_middle in Hnd.
      apply NoDup_cons in Hnd as [Hni _]. set_solver. }
    rewrite kfree_run in E by done. simplify_eq. exists (v :: l).
    split_and!; [done|by apply kfree_free_pages|]. simpl. rewrite <- Hp.
    rewrite <- !app_assoc. simpl. by rewrite <- !Permutation_middle.
Qed.

(** C3: after any sequence of allocations and frees by its clients, the pages
    handed out are pairwise distinct and disjoint from the free list, every
    page the allocator was given is in exactly one of the two, and the next
    [kalloc] returns (a page nobody holds, or 0 exactly when none is left). *)
Theorem kalloc_never_aliases s0 total s o :
  NoDup total → Forall page total → km_ready s0 → free_pages s0 total →
  rtc client (s0, []) (s, o) →
  ∃ l, free_pages s l ∧ o ++ l ≡ₚ total ∧ NoDup (o ++ l) ∧
    ∃ r s', kalloc s = Ok r s' ∧ (if decide (l = []) then r = 0 else r ∈ l ∧ r ∉ o).
Proof.
  intros Hnd Hpg Hr0 Hl0 Hrtc.
  assert (Hi : client_inv total (s, o)).
  { revert Hrtc. generalize (s, o). apply rtc_ind_r; [by exists total|].
    intros y z _ Hyz HI. by eapply client_step. }
  destruct Hi as (l&Hr&Hl&Hp). exists l.
  assert (Hnd' : NoDup (o ++ l)) by by rewrite Hp. split_and!; [done|done|done|].
  pose proof (kalloc_free_pages s l Hr Hl) as Hk. destruct l as [|v l].
  - exists 0, s. done.
  - destruct Hk as (s'&E&_). exists v, s'. split; [done|]. simpl.
    apply NoDup_app in Hnd' as (_&Hd&_). split; [by left|]. intros Ho. apply (Hd v Ho). by left.
Qed.

(** [freerange] puts exactly the whole pages of the range on the free list,
    newest first, and [kfree] refuses every address that is not such a page
    (unaligned, inside the kernel image, or beyond physical memory). *)
Theorem freerange_correct vstart vend s l :
  0 ≤ vstart < 4294963200 → PGROUNDUP vstart ≤ vend →
  Forall page (range_pages vstart vend) → NoDup (range_pages vstart vend ++ l) →
  km_ready s → free_pages s l →
  (∃ s', freerange vstart vend s = Ok tt s' ∧
     free_pages s' (rev (range_pages vstart vend) ++ l)) ∧
  (∀ v, 0 ≤ v < 4294967296 → ¬ page v → kfree v s = Panic "kfree" s).
Proof.
  intros Hs He Hp Hd Hr Hl. split.
  - destruct (freerange_run vstart vend s l) as (s'&E&H1&_); try done. eauto.
  - intros v Hv Hnp. unfold kfree. destruct (bad_page v) eqn:E; [done|].
    by destruct Hnp.
Qed.
End Kalloc.

(** Two free pages above a kernel that ends at 0x80108000. *)
Definition km_boot : kmem := Kmem kst_boot true 0 (λ _, 0).
Definition kend_ex : Z := 0x80108000.

Definition two_pages : list Z := [0x8010a000; 0x80109000].

Lemma km_boot_ready : km_ready km_boot ∧ free_pages kend_ex km_boot [].
Proof.
  split; [split; [split_and!; done|done]|]. split_and!; [done|constructor|constructor].
Qed.

Lemma boot_range_pages : range_pages 0x80108001 0x8010b000 = [0x80109000; 0x8010a000].
Proof. by vm_compute. Qed.

Lemma boot_range :
  Forall (page kend_ex) (range_pages 0x80108001 0x8010b000) ∧
  NoDup (range_pages 0x80108001 0x8010b000 ++ []).
Proof.
  rewrite boot_range_pages. split.
  - repeat (apply Forall_cons; split; [split; [lia|by vm_compute]|]). apply Forall_nil_2.
  - apply NoDup_cons; split; [set_solver by lia|]. apply NoDup_cons; split; [set_solver|].
    apply NoDup_nil_2.
Qed.

Lemma freerange_correct_witness :
  ∃ s', freerange kend_ex 0x80108001 0x8010b000 km_boot = Ok tt s' ∧
    free_pages kend_ex s' two_pages.
Proof.
  destruct km_boot_ready as [Hr Hl]. destruct boot_range as [Hp Hd].
  destruct (freerange_correct kend_ex 0x80108001 0x8010b000 km_boot []
    ltac:(lia) ltac:(by vm_compute) Hp Hd Hr Hl) as [(s'&E&H) _].
  exists s'. rewrite boot_range_pages in H. split; [exact E|exact H].
Defined.

Lemma kalloc_never_aliases_witness :
  ∃ s0 s, rtc (client kend_ex) (s0, []) (s, [0x8010a000]) ∧
    ∃ l, free_pages kend_ex s l ∧ [0x8010a000] ++ l ≡ₚ two_pages.
Proof.
  destruct km_boot_ready as [Hr Hl]. destruct boot_range as [Hp Hd].
  destruct (freerange_run kend_ex 0x80108001 0x8010b000 km_boot []) as (s0&_&H1&H2&_);
    [lia|by vm_compute|done|done|done|done|].
  rewrite boot_range_pages in H1. change (rev _ ++ []) with two_pages in H1.
  destruct (kalloc_free_pages kend_ex s0 two_pages H2 H1) as (s&E&_&_&Hz).
  assert (Hs : rtc (client kend_ex) (s0, []) (s, [0x8010a000])).
  { eapply rtc_l; [by eapply client_alloc|]. apply rtc_refl. }
  exists s0, s. split; [exact Hs|].
  destruct (kalloc_never_aliases kend_ex s0 two_pages s [0x8010a000]
    (proj2 (proj2 H1)) (proj1 (proj2 H1)) H2 H1 Hs) as (l&H3&H4&_).
  exists l. split; [exact H3|exact H4].
Defined.
