(* ===== verification/Disk.v ===== *)
(** Disk buffers (buf.h), the interface of a disk driver, and the in-memory
    driver memide.c.

    The kernel links one of two drivers, ide.c or memide.c, which both export
    [iderw(b)]: "If B_DIRTY is set, write buf to disk, clear B_DIRTY, set
    B_VALID.  Else if B_VALID is not set, read buf from disk, set B_VALID".
    The class [Driver] is that contract; the buffer cache is proved against
    it and memide.c is proved to meet it. *)
From S2P Require Import Prelude Kmonad Kstate.

(** ** buf.h *)

Definition BSIZE : Z := 512.
Definition B_BUSY : Z := 1.
Definition B_VALID : Z := 2.
Definition B_DIRTY : Z := 4.

(** Buffers are named by their index in [bcache.buf]; index [NBUF] is the
    list head. *)
Record buf := Buf {
  b_flags : Z;
  b_dev : Z;
  b_sector : Z;
  b_prev : nat;                    (* LRU cache list *)
  b_next : nat;
  b_qnext : option nat;            (* disk queue *)
  b_data : list Z
}.
Definition set_b_flags v (r : buf) : buf :=
  Buf v (b_dev r) (b_sector r) (b_prev r) (b_next r) (b_qnext r) (b_data r).
Definition set_b_dev v (r : buf) : buf :=
  Buf (b_flags r) v (b_sector r) (b_prev r) (b_next r) (b_qnext r) (b_data r).
Definition set_b_sector v (r : buf) : buf :=
  Buf (b_flags r) (b_dev r) v (b_prev r) (b_next r) (b_qnext r) (b_data r).
Definition set_b_prev v (r : buf) : buf :=
  Buf (b_flags r) (b_dev r) (b_sector r) v (b_next r) (b_qnext r) (b_data r).
Definition set_b_next v (r : buf) : buf :=
  Buf (b_flags r) (b_dev r) (b_sector r) (b_prev r) v (b_qnext r) (b_data r).
Definition set_b_qnext v (r : buf) : buf :=
  Buf (b_flags r) (b_dev r) (b_sector r) (b_prev r) (b_next r) v (b_data r).
Definition set_b_data v (r : buf) : buf :=
  Buf (b_flags r) (b_dev r) (b_sector r) (b_prev r) (b_next r) (b_qnext r) v.

Definition has (fl f : Z) : bool := nz (Z.land fl f).
Definition setf (fl f : Z) : Z := Z.lor fl f.
Definition clrf (fl f : Z) : Z := Z.land fl (Z.lnot f).

(** Flag words are three bits wide; facts about them are checked by cases. *)
Definition flags_ok (fl : Z) : Prop := 0 ≤ fl < 8.

Lemma flags_cases (P : Z → Prop) :
  P 0 → P 1 → P 2 → P 3 → P 4 → P 5 → P 6 → P 7 → ∀ fl, flags_ok fl → P fl.
Proof.
  intros. assert (fl = 0 ∨ fl = 1 ∨ fl = 2 ∨ fl = 3 ∨ fl = 4 ∨ fl = 5 ∨ fl = 6 ∨ fl = 7)
    by (unfold flags_ok in *; lia). naive_solver.
Qed.

Ltac flag_cases fl H := revert H; revert fl; refine (flags_cases _ _ _ _ _ _ _ _ _);
  try done.

Lemma flags_ok_setf fl f : flags_ok fl → flags_ok f → flags_ok (setf fl f).
Proof. intros H1 H2. revert f H2. by flag_cases fl H1; intros f Hf; flag_cases f Hf. Qed.
Lemma flags_ok_clrf fl f : flags_ok fl → flags_ok f → flags_ok (clrf fl f).
Proof. intros H1 H2. revert f H2. by flag_cases fl H1; intros f Hf; flag_cases f Hf. Qed.
Lemma has_setf fl f g : flags_ok fl → f ∈ [B_BUSY; B_VALID; B_DIRTY] →
  g ∈ [B_BUSY; B_VALID; B_DIRTY] → has (setf fl f) g = (has fl g || (f =? g)).
Proof.
  intros Hf H1 H2. rewrite !list_elem_of_In in H1, H2. simpl in H1, H2.
  destruct H1 as [<-|[<-|[<-|[]]]], H2 as [<-|[<-|[<-|[]]]]; by flag_cases fl Hf.
Qed.
Lemma has_clrf fl f g : flags_ok fl → f ∈ [B_BUSY; B_VALID; B_DIRTY] →
  g ∈ [B_BUSY; B_VALID; B_DIRTY] → has (clrf fl f) g = (has fl g && negb (f =? g)).
Proof.
  intros Hf H1 H2. rewrite !list_elem_of_In in H1, H2. simpl in H1, H2.
  destruct H1 as [<-|[<-|[<-|[]]]], H2 as [<-|[<-|[<-|[]]]]; by flag_cases fl Hf.
Qed.

(** ** The driver contract *)

Class Driver (D : Type) := {
  drv_rw : buf → M D buf;                  (* iderw(b): the buffer it leaves *)
  dview : D → Z → Z → list Z;              (* contents of (dev, sector) *)
  dvalid : D → Z → Z → Prop                (* the disk has (dev, sector) *)
}.

Class DriverLaws (D : Type) `{Driver D} : Prop := {
  drv_write b d :
    flags_ok (b_flags b) → has (b_flags b) B_BUSY = true → has (b_flags b) B_DIRTY = true →
    dvalid d (b_dev b) (b_sector b) → length (b_data b) = 512%nat →
    ∃ d', drv_rw b d = Ok (set_b_flags (setf (clrf (b_flags b) B_DIRTY) B_VALID) b) d' ∧
      (∀ dev sec, dview d' dev sec =
         if (dev =? b_dev b) && (sec =? b_sector b) then b_data b else dview d dev sec) ∧
      (∀ dev sec, dvalid d' dev sec ↔ dvalid d dev sec);
  drv_read b d :
    flags_ok (b_flags b) → has (b_flags b) B_BUSY = true → has (b_flags b) B_DIRTY = false →
    has (b_flags b) B_VALID = false → dvalid d (b_dev b) (b_sector b) →
    drv_rw b d = Ok (set_b_flags (setf (b_flags b) B_VALID)
                      (set_b_data (dview d (b_dev b) (b_sector b)) b)) d;
  dview_length d dev sec : dvalid d dev sec → length (dview d dev sec) = 512%nat
}.

(** ** memide.c *)
Module Memide.

(** [disksize] and the image [memdisk]. *)
Record memide := Mk { disksize : Z; memdisk : list Z }.

Definition ideinit (img : list Z) : memide := Mk (Z.of_nat (length img) / 512) img.

Definition iderw (b : buf) : M memide buf := λ d,
  if negb (has (b_flags b) B_BUSY) then Panic "iderw: buf not busy" d else
  if Z.land (b_flags b) (Z.lor B_VALID B_DIRTY) =? B_VALID
  then Panic "iderw: nothing to do" d else
  if negb (b_dev b =? 1) then Panic "iderw: request not for disk 1" d else
  if disksize d <=? b_sector b then Panic "iderw: sector out of range" d else
  let p := Z.to_nat (b_sector b * 512) in
  if has (b_flags b) B_DIRTY then
    Ok (set_b_flags (setf (clrf (b_flags b) B_DIRTY) B_VALID) b)
       (Mk (disksize d) (splice p (b_data b) (memdisk d)))
  else
    Ok (set_b_flags (setf (b_flags b) B_VALID) (set_b_data (slice p 512 (memdisk d)) b)) d.

#[global] Instance driver : Driver memide := {
  drv_rw := iderw;
  dview d dev sec :=
    if (dev =? 1) && (0 <=? sec) && (sec <? disksize d)
    then slice (Z.to_nat (sec * 512)) 512 (memdisk d) else [];
  dvalid d dev sec := dev = 1 ∧ 0 ≤ sec < disksize d ∧
    disksize d = Z.of_nat (length (memdisk d)) / 512
}.

Lemma sector_room (d : memide) dev sec : dvalid d dev sec →
  (Z.to_nat (sec * 512) + 512 ≤ length (memdisk d))%nat.
Proof. intros (_&Hs&He). rewrite He in Hs. Z.div_mod_to_equations. lia. Qed.

(** A sector written is read back; other sectors are not touched. *)
Lemma splice_sector (l data : list Z) s t :
  0 ≤ s → 0 ≤ t → length data = 512%nat → (Z.to_nat (s * 512) + 512 ≤ length l)%nat →
  slice (Z.to_nat (t * 512)) 512 (splice (Z.to_nat (s * 512)) data l) =
    if t =? s then data else slice (Z.to_nat (t * 512)) 512 l.
Proof.
  intros Hs Ht Hd Hl. destruct (Z.eqb_spec t s) as [->|Hne].
  - by apply slice_splice_same; rewrite ?Hd.
  - apply slice_splice_disjoint; rewrite Hd; [done|]. lia.
Qed.

Lemma rw_dirty fl : flags_ok fl → has fl B_DIRTY = true →
  (Z.land fl (Z.lor B_VALID B_DIRTY) =? B_VALID) = false.
Proof. intros H. by flag_cases fl H. Qed.
Lemma rw_clean fl : flags_ok fl → has fl B_DIRTY = false → has fl B_VALID = false →
  (Z.land fl (Z.lor B_VALID B_DIRTY) =? B_VALID) = false.
Proof. intros H. by flag_cases fl H. Qed.

#[global] Instance driver_laws : DriverLaws memide.
Proof.
  split.
  - intros b d Hfl Hb Hd Hv Hl. pose proof (sector_room d _ _ Hv) as Hroom.
    destruct Hv as (Hdev&Hs&He). simpl. unfold iderw.
    rewrite Hb, (rw_dirty _ Hfl Hd), Hdev, (proj2 (Z.leb_gt _ _)), Hd by lia. cbn [negb Z.eqb Pos.eqb].
    eexists. split; [done|]. simpl. split.
    + intros dev sec. rewrite <- Hdev. destruct (Z.eqb_spec dev (b_dev b)); simpl;
        [|by bdestr]. destruct (Z.leb_spec 0 sec), (Z.ltb_spec sec (disksize d)); simpl;
        try (destruct (Z.eqb_spec sec (b_sector b)); [lia|done]).
      apply splice_sector; lia.
    + intros dev sec. by rewrite length_splice by lia.
  - intros b d Hfl Hb Hd Hv Hval. destruct Hval as (Hdev&Hs&He). simpl. unfold iderw.
    rewrite Hb, (rw_clean _ Hfl Hd Hv), Hdev, (proj2 (Z.leb_gt _ _)), Hd by lia.
    cbn [negb Z.eqb Pos.eqb andb].
    by rewrite (proj2 (Z.leb_le _ _)), (proj2 (Z.ltb_lt _ _)) by lia.
  - intros d dev sec Hv. pose proof (sector_room d _ _ Hv) as Hroom.
    destruct Hv as (->&Hs&He). simpl.
    rewrite (proj2 (Z.leb_le _ _)), (proj2 (Z.ltb_lt _ _)) by lia. simpl.
    by apply length_slice.
Qed.

End Memide.
