(* ===== verification/Dll.v ===== *)
(** Circular doubly linked lists with a head node, as the LRU list of the
    buffer cache: [f] and [g] are the [next] and [prev] fields. *)
From S2P Require Import Prelude.

Definition fset (f : nat → nat) (i v : nat) : nat → nat :=
  λ j, if decide (j = i) then v else f j.

Lemma fset_eq f i v : fset f i v i = v.
Proof. unfold fset. by rewrite decide_True. Qed.
Lemma fset_ne f i v j : j ≠ i → fset f i v j = f j.
Proof. intros. unfold fset. by rewrite decide_False. Qed.

(** Following [f] from [x] visits exactly [l], and [g] points back. *)
Fixpoint links (f g : nat → nat) (x : nat) (l : list nat) : Prop :=
  match l with
  | [] => True
  | y :: l => f x = y ∧ g y = x ∧ links f g y l
  end.

Definition dll (f g : nat → nat) (h : nat) (l : list nat) : Prop :=
  links f g h (l ++ [h]) ∧ NoDup (h :: l).

Lemma links_app f g x l y l' :
  links f g x (l ++ y :: l') ↔ links f g x (l ++ [y]) ∧ links f g y l'.
Proof. revert x. induction l as [|z l IH]; intros x; simpl; [tauto|]. rewrite IH. tauto. Qed.

Lemma links_ext f g f' g' x l y :
  (∀ z, z ∈ x :: l → f' z = f z) → (∀ z, z ∈ l ++ [y] → g' z = g z) →
  links f g x (l ++ [y]) → links f' g' x (l ++ [y]).
Proof.
  revert x. induction l as [|w l IH]; intros x Hf Hg; simpl.
  - intros (?&?&_). rewrite Hf, Hg by set_solver. done.
  - intros (?&?&Hl). rewrite Hf, Hg by set_solver. split_and!; [done|done|].
    apply IH; [set_solver|set_solver|done].
Qed.

(** Unlink [b]: [b->next->prev = b->prev; b->prev->next = b->next]. *)
Lemma dll_remove f g h l1 b l2 :
  dll f g h (l1 ++ b :: l2) →
  dll (fset f (g b) (f b)) (fset g (f b) (g b)) h (l1 ++ l2).
Proof.
  intros [Hl Hn]. split.
  2:{ revert Hn. rewrite !NoDup_cons, !NoDup_app, NoDup_cons. set_solver. }
  rewrite <- app_assoc, <- app_comm_cons in Hl. apply links_app in Hl as [Hl1 Hl2].
  rewrite <- app_assoc.
  assert (Hn1 : NoDup (h :: l1) ∧ b ∉ h :: l1).
  { revert Hn. rewrite !NoDup_cons, NoDup_app, NoDup_cons. set_solver. }
  assert (Hn2 : NoDup (l2 ++ [h]) ∧ b ∉ l2 ++ [h] ∧ (∀ z, z ∈ h :: l1 → z ∉ l2)).
  { revert Hn. rewrite !NoDup_cons, !NoDup_app, NoDup_cons.
    intros (Hh&H1&H2&H3&H4). split_and!; [done|set_solver|apply NoDup_singleton|set_solver|set_solver]. }
  destruct Hn1 as [Hn1 Hb1], Hn2 as (Hn2&Hb2&Hd).
  (* the predecessor of b *)
  assert (Hp : ∃ l0 p, h :: l1 = l0 ++ [p] ∧ g b = p ∧ f p = b).
  { destruct l1 as [|q l1' _] using rev_ind.
    - exists [], h. simpl in Hl1. tauto.
    - exists (h :: l1'), q. rewrite <- app_assoc in Hl1. apply links_app in Hl1 as [_ Hq].
      simpl in Hq. tauto. }
  destruct Hp as (l0&p&Hl0&Hgb&Hfp). rewrite Hgb.
  assert (Hn' : ∃ n l3, l2 ++ [h] = n :: l3 ∧ f b = n ∧ links f g b (n :: l3)).
  { destruct (l2 ++ [h]) as [|n l3] eqn:E; [by destruct l2|].
    exists n, l3. simpl in Hl2 |- *. tauto. }
  destruct Hn' as (n&l3&E3&Hfb&Hl3). rewrite Hfb.
  assert (Hpin : p ∈ h :: l1) by (rewrite Hl0; set_solver).
  (* the part up to p, then p -> n, then the rest *)
  assert (HA : links (fset f p n) (fset g n p) h (l1 ++ [n])).
  { destruct l1 as [|q l1' _] using rev_ind.
    - assert (p = h) as -> by (by apply (app_inj_tail [] l0) in Hl0 as [_ ->]).
      simpl. unfold fset. rewrite !decide_True by done. done.
    - assert (p = q) as ->.
      { rewrite app_comm_cons in Hl0. by apply app_inj_tail in Hl0 as [_ ->]. }
      rewrite <- app_assoc in Hl1 |- *. apply links_app in Hl1 as [HB _]. apply links_app. split.
      + eapply links_ext; [| |exact HB].
        * intros z Hz. unfold fset. rewrite decide_False; [done|].
          intros ->. revert Hn1. rewrite app_comm_cons, NoDup_app. set_solver.
        * intros z Hz. unfold fset. rewrite decide_False; [done|]. intros ->.
          assert (n ∈ l2 ++ [h]) by (rewrite E3; set_solver).
          revert Hn1. rewrite NoDup_cons. set_solver.
      + simpl. unfold fset. rewrite !decide_True by done. done. }
  rewrite E3. apply links_app. split; [exact HA|].
  simpl in Hl3. destruct Hl3 as (_&_&Hl3).
  destruct l3 as [|w l3' _] using rev_ind; [done|].
  eapply links_ext; [| |exact Hl3].
  - intros z Hz. unfold fset. rewrite decide_False; [done|]. intros ->.
    rewrite app_comm_cons in E3. apply app_inj_tail in E3 as [E3 _]. apply (Hd p Hpin).
    by rewrite E3.
  - intros z Hz. unfold fset. rewrite decide_False; [done|]. intros ->.
    rewrite E3 in Hn2. apply NoDup_cons in Hn2 as [? _]. done.
Qed.

(** Link [b] behind the head: [b->next = head.next; b->prev = &head;
    head.next->prev = b; head.next = b]. *)
Lemma dll_insert f g h b l :
  dll f g h l → b ∉ h :: l →
  dll (fset (fset f b (f h)) h b) (fset (fset g b h) (f h) b) h (b :: l).
Proof.
  intros [Hl Hn] Hb. apply not_elem_of_cons in Hb as [Hbh Hb]. split.
  2:{ apply NoDup_cons in Hn as [Hh Hn]. rewrite !NoDup_cons. set_solver. }
  assert (Hne : ∃ n l3, l ++ [h] = n :: l3 ∧ f h = n).
  { destruct (l ++ [h]) as [|n l3] eqn:E; [by destruct l|]. exists n, l3.
    simpl in Hl. tauto. }
  destruct Hne as (n&l3&E&Hfh). rewrite Hfh.
  assert (Hnb : n ≠ b) by (intros ->; assert (b ∈ l ++ [h]) by (rewrite E; set_solver); set_solver).
  rewrite <- app_comm_cons, E. rewrite E in Hl. simpl in Hl |- *.
  destruct Hl as (_&_&Hl).
  split_and!; [apply fset_eq|by rewrite fset_ne, fset_eq| |apply fset_eq|].
  { rewrite fset_ne by done. apply fset_eq. }
  destruct l3 as [|w l3' _] using rev_ind; [done|].
  rewrite app_comm_cons in E. apply app_inj_tail in E as [-> ->].
  apply NoDup_cons in Hn as [Hh Hn].
  eapply links_ext; [| |exact Hl].
  - intros z Hz. unfold fset. rewrite !decide_False; [done|set_solver|set_solver].
  - intros z Hz. unfold fset. rewrite !decide_False; [done|set_solver|].
    intros ->. apply NoDup_cons in Hn as [? _]. set_solver.
Qed.

(** Traversals: the node after the visited prefix. *)
Lemma dll_next f g h l1 x l2 : dll f g h (l1 ++ x :: l2) → f x = hd h l2.
Proof.
  intros [Hl _]. rewrite <- app_assoc, <- app_comm_cons in Hl. apply links_app in Hl as [_ Hl].
  destruct l2; simpl in *; tauto.
Qed.
Lemma dll_prev f g h l1 x l2 : dll f g h (l1 ++ x :: l2) → g x = List.last l1 h.
Proof.
  intros [Hl _]. rewrite <- app_assoc, <- app_comm_cons in Hl. apply links_app in Hl as [Hl _].
  destruct l1 as [|q l1' _] using rev_ind; [simpl in *; tauto|].
  rewrite List.last_last. rewrite <- app_assoc in Hl. apply links_app in Hl as [_ Hl].
  simpl in Hl; tauto.
Qed.
Lemma dll_first f g h l : dll f g h l → f h = hd h l.
Proof. intros [Hl _]. destruct l; simpl in *; tauto. Qed.
Lemma dll_last f g h l : dll f g h l → g h = List.last l h.
Proof.
  intros [Hl _]. destruct l as [|q l' _] using rev_ind; [simpl in *; tauto|].
  rewrite List.last_last. rewrite <- app_assoc in Hl. apply links_app in Hl as [_ Hl].
  simpl in Hl; tauto.
Qed.

Lemma dll_ext f g f' g' h l :
  (∀ z, z ∈ h :: l → f' z = f z) → (∀ z, z ∈ h :: l → g' z = g z) →
  dll f g h l → dll f' g' h l.
Proof.
  intros Hf Hg [Hl Hn]. split; [|done]. eapply links_ext; [exact Hf| |exact Hl].
  intros z Hz. apply Hg. set_solver.
Qed.
