(* ===== verification/Cache.v ===== *)
(** Cache coherence: what the contents of the buffers mean, apart from how
    the LRU list links them.  A state is a list of buffer contents over the
    disk of a driver; the moves are the ones bio.c and its callers make. *)
From S2P Require Import Prelude Kmonad Kstate Disk.

(** The contents of a [struct buf]. *)
Record bcore := Core { c_flags : Z; c_dev : Z; c_sector : Z; c_data : list Z }.
Definition core (b : buf) : bcore := Core (b_flags b) (b_dev b) (b_sector b) (b_data b).

Definition c_busy (c : bcore) : bool := has (c_flags c) B_BUSY.
Definition c_valid (c : bcore) : bool := has (c_flags c) B_VALID.
Definition c_dirty (c : bcore) : bool := has (c_flags c) B_DIRTY.
Definition c_is (dev sec : Z) (c : bcore) : bool := (c_dev c =? dev) && (c_sector c =? sec).

(** [bcache] buffers start with this device number, which no disk has. *)
Definition NODEV : Z := 0xffffffff.

Section Cache.
Context {D : Type} `{DriverLaws D}.
Implicit Types (cs : list bcore) (d : D) (X : nat → Prop).

(** [X i]: buffer [i] is being modified by its holder, so its data may
    differ from the disk without being marked dirty. *)
Record coh X cs d : Prop := {
  coh_X : ∀ i c, cs !! i = Some c → X i → c_busy c = true;
  coh_flags : ∀ i c, cs !! i = Some c → flags_ok (c_flags c);
  coh_len : ∀ i c, cs !! i = Some c → c_valid c = true → length (c_data c) = 512%nat;
  coh_key : ∀ i j c c', cs !! i = Some c → cs !! j = Some c' → c_dev c ≠ NODEV →
    c_dev c = c_dev c' → c_sector c = c_sector c' → i = j;
  coh_dirty : ∀ i c, cs !! i = Some c → c_dirty c = true → c_valid c = true;
  coh_real : ∀ i c, cs !! i = Some c → c_valid c = true →
    c_dev c ≠ NODEV ∧ dvalid d (c_dev c) (c_sector c);
  coh_disk : ∀ i c, cs !! i = Some c → c_valid c = true → c_dirty c = false → ¬ X i →
    c_data c = dview d (c_dev c) (c_sector c)
}.

(** What the kernel sees as the contents of a sector: the cached copy if
    there is a valid one, else the disk. *)
Definition cview cs d (dev sec : Z) : list Z :=
  match list_find (λ c, Is_true (c_is dev sec c && c_valid c)) cs with
  | Some (_, c) => c_data c
  | None => dview d dev sec
  end.

Lemma c_is_true dev sec c : c_is dev sec c = true ↔ c_dev c = dev ∧ c_sector c = sec.
Proof. unfold c_is. by rewrite andb_true_iff, !Z.eqb_eq. Qed.

Lemma cview_hit X cs d i c : coh X cs d → cs !! i = Some c → c_valid c = true →
  cview cs d (c_dev c) (c_sector c) = c_data c.
Proof.
  intros HI Hi Hv. unfold cview. destruct (list_find _ cs) as [[j c']|] eqn:E.
  - apply list_find_Some in E as (Hj&Hc&_).
    apply Is_true_true, andb_true_iff in Hc as [Hk _]. apply c_is_true in Hk as [H1 H2].
    assert (i = j) as <- by (eapply (coh_key X cs d HI i j); eauto; by eapply (coh_real X)).
    by simplify_eq.
  - apply list_find_None in E. eapply Forall_lookup_1 in E; [|exact Hi]. destruct E.
    apply Is_true_true, andb_true_iff. split; [|done]. by apply c_is_true.
Qed.

Lemma cview_miss cs d dev sec :
  (∀ i c, cs !! i = Some c → c_valid c = true → c_is dev sec c = false) →
  cview cs d dev sec = dview d dev sec.
Proof.
  intros Hn. unfold cview. destruct (list_find _ cs) as [[j c']|] eqn:E; [|done].
  apply list_find_Some in E as (Hj&Hc&_). apply Is_true_true, andb_true_iff in Hc as [Hk Hv].
  by rewrite (Hn j c') in Hk.
Qed.

Lemma cview_cases cs d dev sec :
  (∃ i c, cs !! i = Some c ∧ c_valid c = true ∧ c_is dev sec c = true ∧
     cview cs d dev sec = c_data c) ∨
  ((∀ i c, cs !! i = Some c → c_valid c = true → c_is dev sec c = false) ∧
   cview cs d dev sec = dview d dev sec).
Proof.
  destruct (list_find (λ c, Is_true (c_is dev sec c && c_valid c)) cs) as [[j c]|] eqn:E.
  - left. exists j, c. pose proof E as E'. apply list_find_Some in E as (Hj&Hc&_).
    apply Is_true_true, andb_true_iff in Hc as [Hk Hv]. unfold cview. by rewrite E'.
  - right. assert (Hn : ∀ i c, cs !! i = Some c → c_valid c = true → c_is dev sec c = false).
    { intros i c Hi Hv. apply list_find_None in E. eapply Forall_lookup_1 in E; [|exact Hi].
      destruct (c_is dev sec c) eqn:Hk; [|done]. destruct E. cbv beta.
      by rewrite Hv. }
    split; [done|]. by apply cview_miss.
Qed.

Lemma lookup_ins cs i j c c0 :
  <[i := c]> cs !! j = Some c0 → (j = i ∧ c0 = c ∧ is_Some (cs !! i)) ∨ (j ≠ i ∧ cs !! j = Some c0).
Proof.
  intros Hj. apply list_lookup_insert_Some in Hj as [(->&->&Hl)|[Hne Hj]]; [left|by right; auto].
  split_and!; [done|done|]. by apply lookup_lt_is_Some_2.
Qed.

(** ** A change of one buffer

    Everything follows from the facts about the new contents [c']: it keeps
    the key of [c], or takes a key nobody has. *)
Lemma coh_insert X X' cs d i c c' :
  coh X cs d → cs !! i = Some c →
  (∀ j, j ≠ i → (X' j ↔ X j)) →
  flags_ok (c_flags c') →
  (c_valid c' = true → length (c_data c') = 512%nat ∧ c_dev c' ≠ NODEV ∧
     dvalid d (c_dev c') (c_sector c')) →
  ((c_dev c' = c_dev c ∧ c_sector c' = c_sector c) ∨
   ∀ j cj, cs !! j = Some cj → c_is (c_dev c') (c_sector c') cj = false) →
  (c_dirty c' = true → c_valid c' = true) →
  (X' i → c_busy c' = true) →
  (c_valid c' = true → c_dirty c' = false → ¬ X' i →
     c_data c' = dview d (c_dev c') (c_sector c')) →
  coh X' (<[i := c']> cs) d.
Proof.
  intros HI Hi HX Hf Hv Hk Hd HXb Hc.
  assert (Hkey : ∀ j cj, j ≠ i → cs !! j = Some cj → c_dev c' ≠ NODEV ∨ c_dev cj ≠ NODEV →
    c_dev c' = c_dev cj → c_sector c' = c_sector cj → False).
  { intros j cj Hne Hj Hnd H1 H2. destruct Hk as [[K1 K2]|Hk].
    - apply Hne. eapply (coh_key X cs d HI j i); eauto; [|congruence|congruence].
      destruct Hnd; congruence.
    - specialize (Hk j cj Hj). apply not_true_iff_false in Hk. apply Hk. by apply c_is_true. }
  split.
  - intros j cj Hj Hx. apply lookup_ins in Hj as [(->&->&_)|[Hne Hj]]; [by apply HXb|].
    apply HX in Hx; [|done]. by eapply (coh_X X cs d HI).
  - intros j cj Hj. apply lookup_ins in Hj as [(->&->&_)|[Hne Hj]]; [done|].
    by eapply (coh_flags X cs d HI).
  - intros j cj Hj Hvj. apply lookup_ins in Hj as [(->&->&_)|[Hne Hj]]; [by apply Hv|].
    by eapply (coh_len X cs d HI).
  - intros j k cj ck Hj Hkk Hnd H1 H2.
    apply lookup_ins in Hj as [(->&->&_)|[Hne Hj]];
      apply lookup_ins in Hkk as [(->&->&_)|[Hne' Hkk]]; [done| | |].
    + exfalso. by eapply (Hkey k ck); eauto.
    + exfalso. eapply (Hkey j cj); eauto.
    + by eapply (coh_key X cs d HI).
  - intros j cj Hj Hdj. apply lookup_ins in Hj as [(->&->&_)|[Hne Hj]]; [by apply Hd|].
    by eapply (coh_dirty X cs d HI).
  - intros j cj Hj Hvj. apply lookup_ins in Hj as [(->&->&_)|[Hne Hj]]; [by apply Hv|].
    by eapply (coh_real X cs d HI).
  - intros j cj Hj Hvj Hdj Hx. apply lookup_ins in Hj as [(->&->&_)|[Hne Hj]]; [by apply Hc|].
    rewrite HX in Hx by done. by eapply (coh_disk X cs d HI).
Qed.

(** The view after a change of one buffer that stays with its sector. *)
Lemma cview_insert X X' cs d i c c' dev sec :
  coh X cs d → coh X' (<[i := c']> cs) d → cs !! i = Some c →
  c_dev c' = c_dev c → c_sector c' = c_sector c →
  (c_valid c' = true) → (c_valid c = false → c_data c' = dview d (c_dev c) (c_sector c)) →
  cview (<[i := c']> cs) d dev sec =
    if c_is dev sec c' then c_data c' else cview cs d dev sec.
Proof.
  intros HI HI' Hi Hkd Hks Hv Hr.
  assert (Hi' : <[i := c']> cs !! i = Some c') by (apply list_lookup_insert_eq; by eapply lookup_lt_Some).
  destruct (c_is dev sec c') eqn:E.
  { apply c_is_true in E as [<- <-]. by eapply cview_hit. }
  assert (Hne : c_is dev sec c = false) by (unfold c_is in *; by rewrite <- Hkd, <- Hks).
  destruct (cview_cases cs d dev sec) as [(j&cj&Hj&Hvj&Hkj&->)|[Hn ->]].
  - apply c_is_true in Hkj as [<- <-].
    assert (i ≠ j).
    { intros <-. simplify_eq. unfold c_is in Hne. by rewrite !Z.eqb_refl in Hne. }
    eapply cview_hit; [exact HI'| |done]. by rewrite list_lookup_insert_ne.
  - apply cview_miss. intros j cj Hj Hvj. apply lookup_ins in Hj as [(->&->&_)|[Hnij Hj]]; [done|].
    by eapply Hn.
Qed.

(** The view does not depend on the busy and dirty flags. *)
Lemma cview_flags X X' cs d i c c' dev sec :
  coh X cs d → coh X' (<[i := c']> cs) d → cs !! i = Some c →
  c_dev c' = c_dev c → c_sector c' = c_sector c → c_valid c' = c_valid c →
  c_data c' = c_data c →
  cview (<[i := c']> cs) d dev sec = cview cs d dev sec.
Proof.
  intros HI HI' Hi Hkd Hks Hv Hdt.
  assert (Hi' : <[i := c']> cs !! i = Some c') by (apply list_lookup_insert_eq; by eapply lookup_lt_Some).
  destruct (cview_cases cs d dev sec) as [(j&cj&Hj&Hvj&Hkj&->)|[Hn ->]].
  - apply c_is_true in Hkj as [<- <-]. destruct (decide (j = i)) as [->|Hne].
    + simplify_eq. rewrite <- Hkd, <- Hks, <- Hdt. eapply cview_hit; [exact HI'|done|congruence].
    + eapply cview_hit; [exact HI'| |done]. by rewrite list_lookup_insert_ne.
  - apply cview_miss. intros j cj Hj Hvj. apply lookup_ins in Hj as [(->&->&_)|[Hnij Hj]].
    + rewrite Hv in Hvj. specialize (Hn i c Hi Hvj). unfold c_is in *. by rewrite Hkd, Hks.
    + by eapply Hn.
Qed.

(** Recycling an idle buffer does not change the view. *)
Lemma cview_recycle X X' cs d i c c' dev sec :
  coh X cs d → coh X' (<[i := c']> cs) d → cs !! i = Some c →
  c_busy c = false → c_dirty c = false → c_valid c' = false →
  cview (<[i := c']> cs) d dev sec = cview cs d dev sec.
Proof.
  intros HI HI' Hi Hb Hd Hv.
  assert (HX : ¬ X i) by (intros HX; by rewrite (coh_X X cs d HI i c Hi HX) in Hb).
  destruct (cview_cases cs d dev sec) as [(j&cj&Hj&Hvj&Hkj&->)|[Hn ->]].
  - apply c_is_true in Hkj as [<- <-]. destruct (decide (j = i)) as [->|Hne].
    + simplify_eq. rewrite (coh_disk X cs d HI i c Hi Hvj Hd HX). apply cview_miss.
      intros j cj Hj' Hvj'. apply lookup_ins in Hj' as [(->&->&_)|[Hnij Hj']]; [congruence|].
      apply not_true_iff_false. intros [K1 K2]%c_is_true. apply Hnij.
      eapply (coh_key X cs d HI j i); eauto. apply (coh_real X cs d HI j cj Hj' Hvj').
    + eapply cview_hit; [exact HI'| |done]. by rewrite list_lookup_insert_ne.
  - apply cview_miss. intros j cj Hj Hvj. apply lookup_ins in Hj as [(->&->&_)|[Hnij Hj]];
      [congruence|]. by eapply Hn.
Qed.

(** ** The moves *)

Definition cflags (f : Z → Z) (c : bcore) : bcore :=
  Core (f (c_flags c)) (c_dev c) (c_sector c) (c_data c).
Definition cdata (dt : list Z) (c : bcore) : bcore :=
  Core (c_flags c) (c_dev c) (c_sector c) dt.
Definition busied := cflags (λ f, setf f B_BUSY).
Definition dirtied := cflags (λ f, setf f B_DIRTY).
Definition released := cflags (λ f, clrf f B_BUSY).
Definition validated := cflags (λ f, setf f B_VALID).
Definition flushed := cflags (λ f, setf (clrf (setf f B_DIRTY) B_DIRTY) B_VALID).

Lemma flag_facts c : flags_ok (c_flags c) →
  (flags_ok (c_flags (busied c)) ∧ c_busy (busied c) = true ∧
   c_valid (busied c) = c_valid c ∧ c_dirty (busied c) = c_dirty c) ∧
  (flags_ok (c_flags (dirtied c)) ∧ c_busy (dirtied c) = c_busy c ∧
   c_valid (dirtied c) = c_valid c ∧ c_dirty (dirtied c) = true) ∧
  (flags_ok (c_flags (released c)) ∧ c_busy (released c) = false ∧
   c_valid (released c) = c_valid c ∧ c_dirty (released c) = c_dirty c) ∧
  (flags_ok (c_flags (validated c)) ∧ c_busy (validated c) = c_busy c ∧
   c_valid (validated c) = true ∧ c_dirty (validated c) = c_dirty c) ∧
  (flags_ok (c_flags (flushed c)) ∧ c_busy (flushed c) = c_busy c ∧
   c_valid (flushed c) = true ∧ c_dirty (flushed c) = false).
Proof.
  destruct c as [fl dv sc dt]. intros Hf. unfold c_busy, c_valid, c_dirty, flags_ok in *.
  unfold busied, dirtied, released, validated, flushed, cflags. cbn [c_flags] in *.
  revert fl Hf. refine (flags_cases _ _ _ _ _ _ _ _ _); vm_compute; intuition congruence.
Qed.

Definition Xdel (X : nat → Prop) (i j : nat) : Prop := X j ∧ j ≠ i.
Definition Xadd (X : nat → Prop) (i j : nat) : Prop := X j ∨ j = i.

Section Moves.
Variables (X : nat → Prop) (cs : list bcore) (d : D) (i : nat) (c : bcore).
Hypotheses (HI : coh X cs d) (Hi : cs !! i = Some c).

Let Hfl : flags_ok (c_flags c).
Proof. by eapply (coh_flags X cs d HI). Qed.

Let Hff := flag_facts c Hfl.

(** A change of flags that keeps the buffer valid as it was. *)
Lemma coh_flagchange (X' : nat → Prop) (c' : bcore) :
  c_dev c' = c_dev c → c_sector c' = c_sector c → c_data c' = c_data c →
  (∀ j, j ≠ i → (X' j ↔ X j)) → flags_ok (c_flags c') → c_valid c' = c_valid c →
  (c_dirty c' = true → c_valid c = true) → (X' i → c_busy c' = true) →
  (c_dirty c' = false → ¬ X' i → c_dirty c = false ∧ ¬ X i) →
  coh X' (<[i := c']> cs) d.
Proof.
  intros H1 H2 H3 HX Hf Hv Hd HXb Hc.
  eapply coh_insert; [exact HI|exact Hi|exact HX|exact Hf| |by left| |exact HXb|].
  - intros Hv'. rewrite H1, H2, H3. split.
    + apply (coh_len X cs d HI i c Hi). congruence.
    + apply (coh_real X cs d HI i c Hi). congruence.
  - intros Hd'. rewrite Hv. auto.
  - intros Hv' Hd' HX'. rewrite H1, H2, H3. destruct (Hc Hd' HX').
    apply (coh_disk X cs d HI i c Hi); [congruence|done|done].
Qed.

Lemma coh_busied : coh X (<[i := busied c]> cs) d.
Proof.
  destruct Hff as ((F1&F2&F3&F4)&_). apply coh_flagchange; try done.
  - rewrite F4. apply (coh_dirty X cs d HI i c Hi).
  - rewrite F4. done.
Qed.

Lemma coh_dirtied : c_busy c = true → c_valid c = true →
  coh (Xdel X i) (<[i := dirtied c]> cs) d.
Proof.
  intros Hb Hv. destruct Hff as (_&(F1&F2&F3&F4)&_). apply coh_flagchange; try done.
  - unfold Xdel. tauto.
  - rewrite F2. done.
  - congruence.
Qed.

Lemma coh_released : ¬ X i → coh X (<[i := released c]> cs) d.
Proof.
  intros HX. destruct Hff as (_&_&(F1&F2&F3&F4)&_). apply coh_flagchange; try done.
  - rewrite F4. apply (coh_dirty X cs d HI i c Hi).
  - rewrite F4. done.
Qed.

(** The holder changes the data of its buffer. *)
Lemma coh_cdata dt : c_busy c = true → length dt = 512%nat →
  coh (Xadd X i) (<[i := cdata dt c]> cs) d.
Proof.
  intros Hb Hl. eapply coh_insert; [exact HI|exact Hi|..]; simpl; try done.
  - unfold Xadd. naive_solver.
  - intros Hv. split; [done|]. by apply (coh_real X cs d HI i c Hi).
  - by left.
  - apply (coh_dirty X cs d HI i c Hi).
  - intros _ _ Hx. destruct Hx. by right.
Qed.

(** A fresh buffer for a sector that is not cached. *)
Lemma coh_recycled dev sec : 
  (∀ j cj, cs !! j = Some cj → c_is dev sec cj = false) →
  coh X (<[i := Core B_BUSY dev sec (c_data c)]> cs) d.
Proof.
  intros Hn. eapply coh_insert; [exact HI|exact Hi|..]; simpl; try done.
  by right.
Qed.

(** Reading the sector of a busy buffer that is not valid yet. *)
Lemma coh_filled : c_busy c = true → c_valid c = false →
  c_dev c ≠ NODEV → dvalid d (c_dev c) (c_sector c) →
  coh X (<[i := validated (cdata (dview d (c_dev c) (c_sector c)) c)]> cs) d.
Proof.
  intros Hb Hv Hnd Hdv. destruct Hff as (_&_&_&(F1&F2&F3&F4)&_).
  eapply coh_insert; [exact HI|exact Hi|..]; simpl; try done.
  - intros _. split_and!; [by apply dview_length|done|done].
  - by left.
  - intros _. by rewrite <- Hb.
Qed.

(** Writing the buffer back changes the disk at its sector only. *)
Section Flush.
Variable d' : D.
Hypothesis Hview : ∀ dev sec, dview d' dev sec =
  if (dev =? c_dev c) && (sec =? c_sector c) then c_data c else dview d dev sec.
Hypothesis Hvalid : ∀ dev sec, dvalid d' dev sec ↔ dvalid d dev sec.
Hypothesis Hcv : c_valid c = true.

Lemma flush_other j cj : cs !! j = Some cj → c_valid cj = true → j ≠ i →
  dview d' (c_dev cj) (c_sector cj) = dview d (c_dev cj) (c_sector cj).
Proof.
  intros Hj Hvj Hne. rewrite Hview.
  destruct (Z.eqb_spec (c_dev cj) (c_dev c)), (Z.eqb_spec (c_sector cj) (c_sector c)); try done.
  destruct Hne. eapply (coh_key X cs d HI j i); eauto. by eapply (coh_real X cs d HI).
Qed.

Lemma coh_flushed : coh (Xdel X i) (<[i := flushed c]> cs) d'.
Proof.
  destruct Hff as (_&_&_&_&(F1&F2&F3&F4)). unfold Xdel.
  assert (Hself : c_data c = dview d' (c_dev c) (c_sector c)) by by rewrite Hview, !Z.eqb_refl.
  split.
  - intros j cj Hj [Hx Hne]. apply lookup_ins in Hj as [(->&_)|[_ Hj]]; [done|].
    by eapply (coh_X X cs d HI).
  - intros j cj Hj. apply lookup_ins in Hj as [(->&->&_)|[_ Hj]]; [done|].
    by eapply (coh_flags X cs d HI).
  - intros j cj Hj Hvj. apply lookup_ins in Hj as [(->&->&_)|[_ Hj]]; [|by eapply (coh_len X cs d HI)].
    by apply (coh_len X cs d HI i c Hi).
  - intros j k cj ck Hj Hk.
    apply lookup_ins in Hj as [(->&->&_)|[_ Hj]]; apply lookup_ins in Hk as [(->&->&_)|[_ Hk]];
      simpl; by eapply (coh_key X cs d HI).
  - intros j cj Hj Hdj. apply lookup_ins in Hj as [(->&->&_)|[_ Hj]]; [done|].
    by eapply (coh_dirty X cs d HI).
  - intros j cj Hj Hvj. rewrite Hvalid. apply lookup_ins in Hj as [(->&->&_)|[_ Hj]].
    + by apply (coh_real X cs d HI i c Hi).
    + by eapply (coh_real X cs d HI).
  - intros j cj Hj Hvj Hdj Hx. apply lookup_ins in Hj as [(->&->&_)|[Hne Hj]]; [done|].
    rewrite (flush_other j cj) by done. apply (coh_disk X cs d HI j cj Hj Hvj Hdj). tauto.
Qed.

Lemma cview_flushed dev sec :
  cview (<[i := flushed c]> cs) d' dev sec = cview cs d dev sec.
Proof.
  pose proof coh_flushed as HI'.
  assert (Hi' : <[i := flushed c]> cs !! i = Some (flushed c))
    by (apply list_lookup_insert_eq; by eapply lookup_lt_Some).
  assert (Hfv : c_valid (flushed c) = true) by apply Hff.
  destruct (cview_cases cs d dev sec) as [(j&cj&Hj&Hvj&Hkj&->)|[Hn ->]].
  - apply c_is_true in Hkj as [<- <-]. destruct (decide (j = i)) as [->|Hne].
    + simplify_eq. by apply (cview_hit _ _ _ _ _ HI' Hi' Hfv).
    + eapply cview_hit; [exact HI'| |done]. by rewrite list_lookup_insert_ne.
  - rewrite cview_miss.
    + rewrite Hview. specialize (Hn i c Hi Hcv). unfold c_is in Hn.
      by rewrite (Z.eqb_sym dev), (Z.eqb_sym sec), Hn.
    + intros j cj Hj Hvj. apply lookup_ins in Hj as [(->&->&_)|[_ Hj]]; [|by eapply Hn].
      by apply (Hn i c Hi Hcv).
Qed.
End Flush.
End Moves.
End Cache.
