(* ===== verification/Bio.v ===== *)
(** The buffer cache (bio.c).

    Buffers are the entries of [bcache.buf]; entry [NBUF] is [bcache.head].
    The model keeps the [prev]/[next] links of the LRU list as the code does,
    over any disk driver ([Driver]).  [bc_hist] is a ghost record of the disk
    writes, in order; no code reads it. *)
From S2P Require Import Prelude Kmonad Kstate Spinlock Sleep Disk Dll Cache.

Record bcache (D : Type) := Bcache {
  bc_k : kst;
  bc_buf : list buf;
  bc_drv : D;
  bc_hist : list (Z * Z * list Z)
}.
Arguments Bcache {D} _ _ _ _.
Arguments bc_k {D} _.
Arguments bc_buf {D} _.
Arguments bc_drv {D} _.
Arguments bc_hist {D} _.

Definition set_bc_k {D} (v : kst) (s : bcache D) := Bcache v (bc_buf s) (bc_drv s) (bc_hist s).
Definition set_bc_buf {D} (v : list buf) (s : bcache D) := Bcache (bc_k s) v (bc_drv s) (bc_hist s).
Definition set_bc_drv {D} (v : D) (s : bcache D) := Bcache (bc_k s) (bc_buf s) v (bc_hist s).
Definition set_bc_hist {D} (v : list (Z * Z * list Z)) (s : bcache D) := Bcache (bc_k s) (bc_buf s) (bc_drv s) v.

Definition bc_k_lens {D} : lens (bcache D) kst := Lens bc_k set_bc_k.
Definition bc_drv_lens {D} : lens (bcache D) D := Lens bc_drv set_bc_drv.

Section Bio.
Context {D : Type} `{DriverLaws D}.

Definition kz {A} (m : M kst A) : M (bcache D) A := zoom bc_k_lens m.

(** [&bcache.head] *)
Definition head : nat := NBUF.

Definition node (i : nat) : M (bcache D) buf := deref (λ s, bc_buf s !! i).
Definition upd_node (i : nat) (f : buf → buf) : M (bcache D) unit :=
  modify (λ s, set_bc_buf (alter f i (bc_buf s)) s).

Definition binit_buf (b : nat) : M (bcache D) unit :=
  h ← node head;
  upd_node b (set_b_next (b_next h));;
  upd_node b (set_b_prev head);;
  upd_node b (set_b_dev NODEV);;
  upd_node (b_next h) (set_b_prev b);;
  upd_node head (set_b_next b).

Definition binit : M (bcache D) unit :=
  kz (initlock LBcache);;
  upd_node head (set_b_prev head);;
  upd_node head (set_b_next head);;
  for_each (seq 0 NBUF) binit_buf.

(** Is the sector already cached?  Walk the list from most recently used. *)
Fixpoint bget_cached (fuel : nat) (dev sector : Z) (b : nat) : M (bcache D) (option nat) :=
  match fuel with
  | O => nofuel
  | S fuel =>
      if decide (b = head) then mret None else
      bb ← node b;
      if (b_dev bb =? dev) && (b_sector bb =? sector) then mret (Some b)
      else bget_cached fuel dev sector (b_next bb)
  end.

(** Recycle some non-busy and clean buffer, least recently used first. *)
Fixpoint bget_recycle (fuel : nat) (b : nat) : M (bcache D) (option nat) :=
  match fuel with
  | O => nofuel
  | S fuel =>
      if decide (b = head) then mret None else
      bb ← node b;
      if (Z.land (b_flags bb) B_BUSY =? 0) && (Z.land (b_flags bb) B_DIRTY =? 0)
      then mret (Some b)
      else bget_recycle fuel (b_prev bb)
  end.

(** From the label [loop], with the cache lock held.  When [sleep] returns
    the process re-acquires the lock and starts again here. *)
Definition bget_loop (dev sector : Z) : M (bcache D) nat :=
  h ← node head;
  r ← bget_cached (S NBUF) dev sector (b_next h);
  match r with
  | Some b =>
      bb ← node b;
      if negb (has (b_flags bb) B_BUSY) then
        upd_node b (λ x, set_b_flags (setf (b_flags x) B_BUSY) x);;
        kz (release LBcache);;
        mret b
      else kz (sleep (CBuf b) LBcache);; nofuel
  | None =>
      r ← bget_recycle (S NBUF) (b_prev h);
      match r with
      | Some b =>
          upd_node b (λ x, set_b_flags B_BUSY (set_b_sector sector (set_b_dev dev x)));;
          kz (release LBcache);;
          mret b
      | None => panic "bget: no buffers"
      end
  end.

Definition bget (dev sector : Z) : M (bcache D) nat :=
  kz (acquire LBcache);;
  bget_loop dev sector.

(** The driver call on a buffer of the cache. *)
Definition iderw (b : nat) : M (bcache D) unit :=
  bb ← node b;
  bb' ← zoom bc_drv_lens (drv_rw bb);
  when (has (b_flags bb) B_DIRTY)
    (modify (λ s, set_bc_hist (bc_hist s ++ [(b_dev bb, b_sector bb, b_data bb)]) s));;
  upd_node b (λ _, bb').

Definition bread (dev sector : Z) : M (bcache D) nat :=
  b ← bget dev sector;
  bb ← node b;
  when (negb (has (b_flags bb) B_VALID)) (iderw b);;
  mret b.

Definition bwrite (b : nat) : M (bcache D) unit :=
  bb ← node b;
  if Z.land (b_flags bb) B_BUSY =? 0 then panic "bwrite" else
  upd_node b (λ x, set_b_flags (setf (b_flags x) B_DIRTY) x);;
  iderw b.

Definition brelse (b : nat) : M (bcache D) unit :=
  bb ← node b;
  if Z.land (b_flags bb) B_BUSY =? 0 then panic "brelse" else
  kz (acquire LBcache);;
  bb ← node b;
  upd_node (b_next bb) (set_b_prev (b_prev bb));;
  bb ← node b;
  upd_node (b_prev bb) (set_b_next (b_next bb));;
  h ← node head;
  upd_node b (set_b_next (b_next h));;
  upd_node b (set_b_prev head);;
  h ← node head;
  upd_node (b_next h) (set_b_prev b);;
  upd_node head (set_b_next b);;
  upd_node b (λ x, set_b_flags (clrf (b_flags x) B_BUSY) x);;
  kz (wakeup (CBuf b));;
  kz (release LBcache).

(** What a caller of [bread] does to the data of its buffer. *)
Definition buf_data (b : nat) : M (bcache D) (list Z) :=
  bb ← node b; mret (b_data bb).
Definition set_buf_data (b : nat) (d : list Z) : M (bcache D) unit :=
  upd_node b (set_b_data d).

(** ** The invariant of the cache *)

Definition nx (l : list buf) (i : nat) : nat :=
  match l !! i with Some b => b_next b | None => i end.
Definition pv (l : list buf) (i : nat) : nat :=
  match l !! i with Some b => b_prev b | None => i end.

(** The LRU order, most recently used first. *)
Definition lru (s : bcache D) (l : list nat) : Prop :=
  dll (nx (bc_buf s)) (pv (bc_buf s)) head l ∧ l ≡ₚ seq 0 NBUF.

(** The contents of the buffers. *)
Definition bufs (s : bcache D) : list bcore := core <$> take NBUF (bc_buf s).

Record bc_inv (X : nat → Prop) (s : bcache D) : Prop := {
  inv_len : length (bc_buf s) = S NBUF;
  inv_lru : ∃ l, lru s l;
  inv_coh : coh X (bufs s) (bc_drv s)
}.

Definition bc_ready (s : bcache D) : Prop :=
  kst_ok (bc_k s) ∧ is_free LBcache (bc_k s) ∧ is_free LPtable (bc_k s).

(** The contents of a sector as the kernel sees it. *)
Definition view (s : bcache D) (dev sec : Z) : list Z :=
  cview (bufs s) (bc_drv s) dev sec.

(** ** Running the list walks *)

Definition key_at (s : bcache D) (dev sec : Z) (i : nat) : bool :=
  match bc_buf s !! i with
  | Some b => (b_dev b =? dev) && (b_sector b =? sec)
  | None => false
  end.
Definition idle_at (s : bcache D) (i : nat) : bool :=
  match bc_buf s !! i with
  | Some b => negb (has (b_flags b) B_BUSY) && negb (has (b_flags b) B_DIRTY)
  | None => false
  end.

Lemma lru_node s l i : length (bc_buf s) = S NBUF → lru s l → i ∈ l →
  ∃ b, bc_buf s !! i = Some b ∧ (i < NBUF)%nat ∧ i ≠ head.
Proof.
  intros Hlen [_ Hp] Hi. rewrite Hp in Hi. apply elem_of_seq in Hi.
  destruct (lookup_lt_is_Some_2 (bc_buf s) i) as [b Hb]; [lia|].
  exists b. unfold head. split_and!; [done|lia|lia].
Qed.

Lemma node_run i b s : bc_buf s !! i = Some b → node i s = Ok b s.
Proof. unfold node, deref. by intros ->. Qed.

Lemma bget_cached_run fuel dev sec l1 l2 s :
  length (bc_buf s) = S NBUF → lru s (l1 ++ l2) → (length l2 < fuel)%nat →
  bget_cached fuel dev sec (hd head l2) s = Ok (List.find (key_at s dev sec) l2) s.
Proof.
  intros Hlen. revert l1 fuel. induction l2 as [|x l2 IH]; intros l1 fuel Hl Hf;
    (destruct fuel as [|fuel]; [simpl in Hf; lia|]); cbn [bget_cached hd List.find].
  - by rewrite decide_True.
  - destruct (lru_node s _ x Hlen Hl) as (b&Hb&Hx&Hne); [set_solver|].
    rewrite decide_False by done. mrun (node_run x b s Hb).
    unfold key_at at 1. rewrite Hb. destruct ((b_dev b =? dev) && (b_sector b =? sec)); [done|].
    replace (b_next b) with (hd head l2).
    + apply (IH (l1 ++ [x])); [by rewrite <- app_assoc|simpl in Hf; lia].
    + destruct Hl as [Hd _]. apply dll_next in Hd. unfold nx in Hd. by rewrite Hb in Hd.
Qed.

Lemma land_eqb0 fl f : (Z.land fl f =? 0) = negb (has fl f).
Proof. unfold has, nz. by rewrite negb_involutive. Qed.

Lemma bget_recycle_run fuel l1 l2 s :
  length (bc_buf s) = S NBUF → lru s (rev l1 ++ l2) → (length l1 < fuel)%nat →
  bget_recycle fuel (hd head l1) s = Ok (List.find (idle_at s) l1) s.
Proof.
  intros Hlen. revert l2 fuel. induction l1 as [|x l1 IH]; intros l2 fuel Hl Hf;
    (destruct fuel as [|fuel]; [simpl in Hf; lia|]); cbn [bget_recycle hd List.find].
  - by rewrite decide_True.
  - cbn [rev] in Hl. destruct (lru_node s _ x Hlen Hl) as (b&Hb&Hx&Hne); [set_solver|].
    rewrite decide_False by done. mrun (node_run x b s Hb).
    unfold idle_at at 1. rewrite Hb, !land_eqb0.
    destruct (negb (has (b_flags b) B_BUSY) && negb (has (b_flags b) B_DIRTY)); [done|].
    rewrite <- app_assoc in Hl. replace (b_prev b) with (hd head l1).
    + apply (IH (x :: l2)); [done|simpl in Hf; lia].
    + destruct Hl as [Hd _]. apply dll_prev in Hd. unfold pv in Hd. rewrite Hb in Hd.
      rewrite Hd. destruct l1; [done|]. simpl. by rewrite List.last_last.
Qed.

(** ** Locks *)

Lemma bc_acquire_run s : bc_ready s →
  kz (acquire LBcache) s = Ok tt (set_bc_k (acq LBcache (bc_k s)) s).
Proof. intros (_&Hf&_). unfold kz, zoom; simpl. by rewrite acquire_run. Qed.

Lemma bc_release_run k bufs d h : kst_ok k → is_free LBcache k →
  kz (release LBcache) (Bcache (acq LBcache k) bufs d h) = Ok tt (Bcache k bufs d h).
Proof. intros. unfold kz, zoom; simpl. by rewrite release_acq'. Qed.

Lemma lru_walks s l : length (bc_buf s) = S NBUF → lru s l →
  ∃ h, bc_buf s !! head = Some h ∧ b_next h = hd head l ∧ b_prev h = hd head (rev l).
Proof.
  intros Hlen [Hd _]. destruct (lookup_lt_is_Some_2 (bc_buf s) head) as [h Hh];
    [rewrite Hlen; unfold head; lia|].
  exists h. split; [done|]. pose proof (dll_first _ _ _ _ Hd) as H1.
  pose proof (dll_last _ _ _ _ Hd) as H2. unfold nx, pv in H1, H2. rewrite Hh in H1, H2.
  split; [done|]. rewrite H2. destruct l as [|x l _] using rev_ind; [done|].
  by rewrite List.last_last, rev_app_distr.
Qed.

(** Every way [bget] can end, with the buffer it picks. *)
Lemma bget_run dev sec s l : bc_ready s → length (bc_buf s) = S NBUF → lru s l →
  bget dev sec s =
    match List.find (key_at s dev sec) l with
    | Some b =>
        match bc_buf s !! b with
        | Some bb =>
            if has (b_flags bb) B_BUSY
            then (kz (sleep (CBuf b) LBcache);; nofuel) (set_bc_k (acq LBcache (bc_k s)) s)
            else Ok b (set_bc_buf (alter (λ x, set_b_flags (setf (b_flags x) B_BUSY) x) b
                                     (bc_buf s)) s)
        | None => Fault s
        end
    | None =>
        match List.find (idle_at s) (rev l) with
        | Some b => Ok b (set_bc_buf (alter (λ x, set_b_flags B_BUSY (set_b_sector sec
                                              (set_b_dev dev x))) b (bc_buf s)) s)
        | None => Panic "bget: no buffers" (set_bc_k (acq LBcache (bc_k s)) s)
        end
    end.
Proof.
  intros (Hok&Hf&Hp) Hlen Hl. unfold bget. mrun (bc_acquire_run s (conj Hok (conj Hf Hp))).
  destruct s as [k bufs d hist]. unfold set_bc_k in *; simpl in *.
  destruct (lru_walks (Bcache k bufs d hist) l Hlen Hl) as (h&Hh&Hn&Hv). cbn [bc_buf] in Hh. unfold bget_loop.
  erewrite bind_run by by apply node_run. rewrite Hn, Hv.
  assert (Hll : length l = NBUF) by (destruct Hl as [_ ->]; apply length_seq).
  set (s1 := Bcache (acq LBcache k) bufs d hist).
  assert (Hc := bget_cached_run (S NBUF) dev sec [] l s1 Hlen Hl ltac:(lia)). mrun Hc.
  change (key_at s1 dev sec) with (key_at (Bcache k bufs d hist) dev sec).
  destruct (List.find _ l) as [b|] eqn:Hfind.
  - apply List.find_some in Hfind as [Hin _]. apply list_elem_of_In in Hin.
    destruct (lru_node (Bcache k bufs d hist) l b Hlen Hl Hin) as (bb&Hbb&Hlt&_). cbn [bc_buf] in Hbb. rewrite Hbb.
    erewrite bind_run by by apply node_run.
    destruct (has (b_flags bb) B_BUSY); cbn [negb]; [done|].
    erewrite bind_run by reflexivity. unfold set_bc_buf; simpl.
    erewrite bind_run by by apply bc_release_run. done.
  - assert (Hr := bget_recycle_run (S NBUF) (rev l) [] s1 Hlen).
    rewrite rev_involutive, app_nil_r, length_rev in Hr. mrun (Hr Hl ltac:(lia)).
    change (idle_at s1) with (idle_at (Bcache k bufs d hist)).
    destruct (List.find _ (rev l)) as [b|] eqn:Hfind2; [|done].
    erewrite bind_run by reflexivity. unfold set_bc_buf; simpl.
    erewrite bind_run by by apply bc_release_run. done.
Qed.

(** ** What each operation does to the contents *)

Lemma bufs_lookup s i b : bc_buf s !! i = Some b → (i < NBUF)%nat → bufs s !! i = Some (core b).
Proof. intros Hb Hi. unfold bufs. by rewrite list_lookup_fmap, lookup_take_lt, Hb. Qed.

Lemma bufs_lookup_inv s i c : bufs s !! i = Some c →
  ∃ b, bc_buf s !! i = Some b ∧ core b = c ∧ (i < NBUF)%nat.
Proof.
  unfold bufs. rewrite list_lookup_fmap, fmap_Some. intros (b&Hb&->).
  apply lookup_take_Some in Hb as [Hb Hi]. eauto.
Qed.

Lemma bufs_alter f i b s : bc_buf s !! i = Some b → (i < NBUF)%nat →
  bufs (set_bc_buf (alter f i (bc_buf s)) s) = <[i := core (f b)]> (bufs s).
Proof.
  intros Hb Hi. apply list_eq. intros j. unfold bufs; cbn [bc_buf set_bc_buf].
  rewrite !list_lookup_fmap. destruct (decide (j = i)) as [->|Hne].
  - rewrite lookup_take_lt, list_lookup_alter, decide_True, Hb by done.
    rewrite list_lookup_insert_eq; [done|]. rewrite length_fmap, length_take.
    apply lookup_lt_Some in Hb. lia.
  - rewrite list_lookup_insert_ne, list_lookup_fmap by done. f_equal.
    destruct (decide (j < NBUF)%nat).
    + rewrite !lookup_take_lt, list_lookup_alter, decide_False by done. done.
    + by rewrite !lookup_take_ge by lia.
Qed.

Lemma nx_alter f i l j : (∀ b, b_next (f b) = b_next b) → nx (alter f i l) j = nx l j.
Proof.
  intros Hf. unfold nx. rewrite list_lookup_alter. case_decide; [subst|done].
  destruct (l !! j); simpl; [by rewrite Hf|done].
Qed.
Lemma pv_alter f i l j : (∀ b, b_prev (f b) = b_prev b) → pv (alter f i l) j = pv l j.
Proof.
  intros Hf. unfold pv. rewrite list_lookup_alter. case_decide; [subst|done].
  destruct (l !! j); simpl; [by rewrite Hf|done].
Qed.

Lemma lru_alter f i l s :
  (∀ b, b_next (f b) = b_next b) → (∀ b, b_prev (f b) = b_prev b) →
  lru s l → lru (set_bc_buf (alter f i (bc_buf s)) s) l.
Proof.
  intros H1 H2 [Hd Hp]. split; [|done]. eapply dll_ext; [| |exact Hd]; intros; simpl.
  - by rewrite nx_alter.
  - by rewrite pv_alter.
Qed.

(** The state with the contents of one buffer replaced. *)
Lemma inv_alter X X' f i b s :
  bc_inv X s → (∀ b, b_next (f b) = b_next b) → (∀ b, b_prev (f b) = b_prev b) →
  bc_buf s !! i = Some b → (i < NBUF)%nat →
  coh X' (<[i := core (f b)]> (bufs s)) (bc_drv s) →
  bc_inv X' (set_bc_buf (alter f i (bc_buf s)) s).
Proof.
  intros [Hlen [l Hl] Hc] H1 H2 Hb Hi Hc'. split.
  - simpl. by rewrite length_alter.
  - exists l. by apply lru_alter.
  - by rewrite (bufs_alter f i b).
Qed.

(** Fields of the cache state that an operation leaves alone. *)
Definition same_env (s s' : bcache D) : Prop :=
  bc_k s' = bc_k s ∧ bc_drv s' = bc_drv s ∧ bc_hist s' = bc_hist s.

Definition same_view (s s' : bcache D) : Prop := ∀ dev sec, view s' dev sec = view s dev sec.

Lemma bget_ok X dev sec s b s' :
  bc_inv X s → bc_ready s → bget dev sec s = Ok b s' →
  ∃ c c', bufs s !! b = Some c ∧ c_busy c = false ∧ bufs s' = <[b := c']> (bufs s) ∧
    same_env s s' ∧ bc_inv X s' ∧ same_view s s' ∧ c_busy c' = true ∧
    c_dev c' = dev ∧ c_sector c' = sec ∧
    (c' = busied c ∨ (c_valid c' = false ∧ c_dirty c = false ∧
       ∀ j cj, bufs s !! j = Some cj → c_is dev sec cj = false)).
Proof.
  intros HI Hr E. pose proof HI as [Hlen [l Hl] Hc]. rewrite (bget_run dev sec s l Hr Hlen Hl) in E.
  destruct (List.find (key_at s dev sec) l) as [i|] eqn:Hf1.
  - apply List.find_some in Hf1 as [Hin Hk]. apply list_elem_of_In in Hin.
    destruct (lru_node s l i Hlen Hl Hin) as (bb&Hbb&Hlt&_). rewrite Hbb in E.
    unfold key_at in Hk. rewrite Hbb in Hk.
    destruct (has (b_flags bb) B_BUSY) eqn:Hbusy; [by minv E|]. simplify_eq.
    assert (Hi := bufs_lookup s b bb Hbb Hlt). exists (core bb), (busied (core bb)).
    assert (Hb' := bufs_alter (λ x, set_b_flags (setf (b_flags x) B_BUSY) x) b bb s Hbb Hlt).
    change (core _) with (busied (core bb)) in Hb'.
    assert (HC := coh_busied X _ _ b _ Hc Hi).
    apply andb_true_iff in Hk as [K1 K2]. apply Z.eqb_eq in K1, K2.
    assert (Hff := flag_facts (core bb) (coh_flags X _ _ Hc b _ Hi)).
    split_and!; try done; [by apply (inv_alter X X _ b bb)| | |by left].
    + intros dv sc. unfold view. rewrite Hb'. cbn [bc_drv set_bc_buf].
      eapply cview_flags; eauto; apply Hff.
    + apply Hff.
  - destruct (List.find (idle_at s) (rev l)) as [i|] eqn:Hf2; [|done]. simplify_eq.
    apply List.find_some in Hf2 as [Hin Hk]. apply in_rev, list_elem_of_In in Hin.
    destruct (lru_node s l b Hlen Hl Hin) as (bb&Hbb&Hlt&_).
    unfold idle_at in Hk. rewrite Hbb in Hk. apply andb_true_iff in Hk as [K1 K2].
    apply negb_true_iff in K1, K2.
    assert (Hi := bufs_lookup s b bb Hbb Hlt).
    assert (Hn : ∀ j cj, bufs s !! j = Some cj → c_is dev sec cj = false).
    { intros j cj Hj. apply bufs_lookup_inv in Hj as (bj&Hbj&<-&Hjlt).
      assert (Hjl : j ∈ l) by (destruct Hl as [_ ->]; apply elem_of_seq; lia).
      apply list_elem_of_In in Hjl. pose proof (List.find_none _ _ Hf1 j Hjl) as Hkj.
      unfold key_at in Hkj. by rewrite Hbj in Hkj. }
    assert (HC := coh_recycled X _ _ b _ Hc Hi dev sec Hn).
    assert (Hb' := bufs_alter (λ x, set_b_flags B_BUSY (set_b_sector sec (set_b_dev dev x)))
      b bb s Hbb Hlt).
    exists (core bb), (Core B_BUSY dev sec (b_data bb)).
    split_and!; try done; [by apply (inv_alter X X _ b bb)| |by right].
    intros dv sc. unfold view. rewrite Hb'. cbn [bc_drv set_bc_buf].
    by eapply (cview_recycle X X).
Qed.

(** ** bread *)

Section Read.
Variables (X : nat → Prop) (s : bcache D) (b : nat) (bb : buf).
Hypotheses (HI : bc_inv X s) (Hbb : bc_buf s !! b = Some bb) (Hlt : (b < NBUF)%nat).
Hypotheses (Hbusy : c_busy (core bb) = true) (Hval : c_valid (core bb) = false).
Hypotheses (Hnd : b_dev bb ≠ NODEV) (Hdv : dvalid (bc_drv s) (b_dev bb) (b_sector bb)).

Let c1 := validated (cdata (dview (bc_drv s) (b_dev bb) (b_sector bb)) (core bb)).
Let Hi : bufs s !! b = Some (core bb) := bufs_lookup s b bb Hbb Hlt.

Lemma read_clean : c_dirty (core bb) = false.
Proof.
  apply not_true_iff_false. intros Hd.
  pose proof (coh_dirty X _ _ (inv_coh X s HI) b _ Hi Hd). congruence.
Qed.

(** Filling a buffer from the disk does not change the view. *)
Lemma read_view dv sc :
  coh X (<[b := c1]> (bufs s)) (bc_drv s) →
  cview (<[b := c1]> (bufs s)) (bc_drv s) dv sc = view s dv sc.
Proof.
  intros HC. assert (HI0 := inv_coh X s HI).
  assert (Hff := flag_facts (core bb) (coh_flags X _ _ HI0 b _ Hi)).
  rewrite (cview_insert X X _ _ b _ _ dv sc HI0 HC Hi); [|done|done|apply Hff|done].
  destruct (c_is dv sc _) eqn:Hk1; [|done]. apply c_is_true in Hk1 as [<- <-]. simpl.
  symmetry. apply cview_miss. intros j cj Hj Hvj. apply not_true_iff_false.
  intros [K1 K2]%c_is_true.
  assert (j = b) as ->; [|simplify_eq; congruence].
  eapply (coh_key X _ _ HI0 j b); eauto. by eapply (coh_real X _ _ HI0).
Qed.

Lemma iderw_read_run :
  ∃ s', iderw b s = Ok tt s' ∧ same_env s s' ∧ bc_inv X s' ∧ same_view s s' ∧
    bufs s' = <[b := c1]> (bufs s).
Proof.
  pose proof HI as [Hlen Hl Hc]. assert (Hfl := coh_flags X _ _ Hc b _ Hi).
  assert (Hrd := drv_read bb (bc_drv s) Hfl Hbusy read_clean Hval Hdv).
  set (nb := set_b_flags _ _) in Hrd.
  assert (Hb' := bufs_alter (λ _, nb) b bb s Hbb Hlt). change (core nb) with c1 in Hb'.
  assert (HC := coh_filled X _ _ b _ Hc Hi Hbusy Hval Hnd Hdv).
  exists (set_bc_buf (alter (λ _, nb) b (bc_buf s)) s). split_and!; [|done| | |done].
  - unfold iderw. mrun (node_run b bb s Hbb).
    erewrite bind_run by (unfold zoom; simpl; by rewrite Hrd).
    change (has (b_flags bb) B_DIRTY) with (c_dirty (core bb)). rewrite read_clean.
    erewrite bind_run by reflexivity. by destruct s.
  - destruct Hl as [l [Hd Hp]]. split; simpl; [by rewrite length_alter| |].
    + exists l. split; [|done]. eapply dll_ext; [| |exact Hd]; intros z _; simpl;
        unfold nx, pv; rewrite list_lookup_alter; case_decide; try done; subst; by rewrite Hbb.
    + by rewrite Hb'.
  - intros dv sc. unfold view at 1. rewrite Hb'. by apply read_view.
Qed.
End Read.

Lemma bread_split dev sec s b s' : bread dev sec s = Ok b s' →
  ∃ s1 bb, bget dev sec s = Ok b s1 ∧ bc_buf s1 !! b = Some bb ∧
    (if c_valid (core bb) then s' = s1 else iderw b s1 = Ok tt s').
Proof.
  intros E. unfold bread in E. apply bind_ok in E as (b1&s1&Eg&E).
  apply bind_ok in E as (bb&s2&En&E). unfold node in En. apply deref_ok in En as [Hbb <-].
  apply bind_ok in E as ([]&s3&Ew&E). apply ret_ok in E as [<- <-].
  exists s1, bb. split_and!; [done|done|]. apply when_ok in Ew.
  change (has (b_flags bb) B_VALID) with (c_valid (core bb)) in Ew.
  destruct (c_valid (core bb)); destruct Ew as [[? ?]|[? ?]]; done.
Qed.

Lemma bread_ok X dev sec s b s' :
  bc_inv X s → bc_ready s → dev ≠ NODEV → dvalid (bc_drv s) dev sec →
  bread dev sec s = Ok b s' →
  ∃ c c', bufs s !! b = Some c ∧ c_busy c = false ∧ bufs s' = <[b := c']> (bufs s) ∧
    same_env s s' ∧ bc_inv X s' ∧ same_view s s' ∧
    c_busy c' = true ∧ c_valid c' = true ∧ c_dirty c' = c_dirty c ∧
    c_dev c' = dev ∧ c_sector c' = sec ∧ c_data c' = view s dev sec ∧
    (c_dirty c = true → c' = busied c).
Proof.
  intros HI Hr Hnd Hdv E. apply bread_split in E as (s1&bb&Eg&Hbb&E).
  destruct (bget_ok X dev sec s b s1 HI Hr Eg) as
    (c&c1&Hc&Hcb&Hb1&(Hk&Hd&Hh)&HI1&Hv1&Hbusy&Hdev&Hsec&Hcase).
  assert (Hi1 : bufs s1 !! b = Some c1)
    by (rewrite Hb1; apply list_lookup_insert_eq; by eapply lookup_lt_Some).
  destruct (bufs_lookup_inv s1 b c1 Hi1) as (bb'&Hbb'&<-&Hlt). simplify_eq.
  assert (HI1c := inv_coh X s1 HI1).
  assert (Hff := flag_facts c (coh_flags X _ _ (inv_coh X s HI) b c Hc)).
  assert (Hff1 := flag_facts (core bb) (coh_flags X _ _ HI1c b _ Hi1)).
  assert (Hdirty : c_dirty (core bb) = c_dirty c).
  { destruct Hcase as [->|(Hv&->&_)]; [apply Hff|]. apply not_true_iff_false. intros Hdd.
    by rewrite (coh_dirty X _ _ HI1c b _ Hi1 Hdd) in Hv. }
  assert (Hdb : c_dirty c = true → core bb = busied c)
    by (intros Hdc; destruct Hcase as [?|(_&?&_)]; [done|congruence]).
  destruct (c_valid (core bb)) eqn:Hval.
  - subst s'. exists c, (core bb). split_and!; try done.
    rewrite <- (Hv1 _ _). symmetry. by apply (cview_hit X _ _ b _ HI1c).
  - destruct (iderw_read_run X s1 b bb HI1 Hbb Hlt Hbusy Hval) as (s3&E3&He3&HI3&Hsv&Hb3);
      [done|by rewrite Hd|].
    rewrite E3 in E. simplify_eq. destruct He3 as (Hk3&Hd3&Hh3).
    eexists c, _. rewrite Hb3, Hb1, list_insert_insert_eq.
    split_and!; try done; try apply Hff1; try (by simpl; congruence).
    + split_and!; congruence.
    + by transitivity (c_busy (core bb)); [apply Hff1|].
    + by transitivity (c_dirty (core bb)); [apply Hff1|].
    + rewrite <- Hv1, <- Hsv. symmetry.
      apply (cview_hit X (bufs s') (bc_drv s') b (validated (cdata _ (core bb)))
        (inv_coh X s' HI3)).
      * rewrite Hb3. apply list_lookup_insert_eq. by eapply lookup_lt_Some.
      * apply Hff1.
    + intros Hdc. exfalso. rewrite (Hdb Hdc) in Hval.
      assert (c_valid (busied c) = c_valid c) as Hvv by apply Hff.
      rewrite Hvv, (coh_dirty X _ _ (inv_coh X s HI) b c Hc Hdc) in Hval. done.
Qed.

(** ** bwrite *)

Lemma bwrite_run X s b c :
  bc_inv X s → bufs s !! b = Some c → c_busy c = true → c_valid c = true →
  ∃ s', bwrite b s = Ok tt s' ∧ bc_inv (Xdel X b) s' ∧ same_view s s' ∧
    bufs s' = <[b := flushed c]> (bufs s) ∧ bc_k s' = bc_k s ∧
    bc_hist s' = bc_hist s ++ [(c_dev c, c_sector c, c_data c)] ∧
    (∀ dev sec, dview (bc_drv s') dev sec =
       if (dev =? c_dev c) && (sec =? c_sector c) then c_data c
       else dview (bc_drv s) dev sec) ∧
    (∀ dev sec, dvalid (bc_drv s') dev sec ↔ dvalid (bc_drv s) dev sec).
Proof.
  intros HI Hc Hbusy Hval. pose proof HI as [Hlen [l Hl] Hcoh].
  destruct (bufs_lookup_inv s b c Hc) as (bb&Hbb&<-&Hlt).
  assert (Hfl := coh_flags X _ _ Hcoh b _ Hc).
  assert (Hff := flag_facts (core bb) Hfl).
  set (bd := set_b_flags (setf (b_flags bb) B_DIRTY) bb).
  destruct (drv_write bd (bc_drv s)) as (d'&Ed&Hview&Hvalid).
  { apply Hff. } { rewrite <- Hbusy. apply Hff. } { apply Hff. }
  { by apply (coh_real X _ _ Hcoh b _ Hc). } { by apply (coh_len X _ _ Hcoh b _ Hc). }
  set (nb := set_b_flags _ bd) in Ed.
  set (h' := bc_hist s ++ [(b_dev bb, b_sector bb, b_data bb)]).
  set (s1 := Bcache (bc_k s) (alter (λ _, nb) b (bc_buf s)) d' h').
  assert (Hb' : bufs s1 = <[b := flushed (core bb)]> (bufs s))
    by exact (bufs_alter (λ _, nb) b bb s Hbb Hlt).
  assert (HC := coh_flushed X _ _ b _ Hcoh Hc d' Hview Hvalid Hval).
  exists s1. split_and!; try done.
  - unfold bwrite. mrun (node_run b bb s Hbb). rewrite land_eqb0.
    change (has (b_flags bb) B_BUSY) with (c_busy (core bb)). rewrite Hbusy; cbn [negb].
    erewrite bind_run by reflexivity. unfold iderw.
    erewrite bind_run by (apply node_run; simpl; rewrite list_lookup_alter, decide_True, Hbb; done).
    erewrite bind_run by (unfold zoom; simpl; fold bd; by rewrite Ed).
    erewrite bind_run.
    2:{ unfold when. replace (has _ B_DIRTY) with true; [reflexivity|]. symmetry. apply Hff. }
    unfold upd_node, modify, s1, h', set_bc_buf, set_bc_hist, set_bc_drv; simpl. do 2 f_equal.
    apply list_eq. intros j. rewrite !list_lookup_alter. repeat case_decide; try done.
    subst. by rewrite Hbb.
  - split; simpl; [by rewrite length_alter| |by rewrite Hb'].
    exists l. destruct Hl as [Hd Hp]. split; [|done].
    eapply dll_ext; [| |exact Hd]; intros z _; simpl; unfold nx, pv;
      rewrite list_lookup_alter; case_decide; try done; subst; by rewrite Hbb.
  - intros dv sc. unfold view. rewrite Hb'. by apply (cview_flushed X).
Qed.

(** ** brelse *)

Lemma nx_set_next v i l j : (i < length l)%nat → nx (alter (set_b_next v) i l) j = fset (nx l) i v j.
Proof.
  intros Hi. unfold nx, fset. rewrite list_lookup_alter. repeat case_decide; try done; subst.
  destruct (lookup_lt_is_Some_2 l j Hi) as [b ->]. done.
Qed.
Lemma pv_set_prev v i l j : (i < length l)%nat → pv (alter (set_b_prev v) i l) j = fset (pv l) i v j.
Proof.
  intros Hi. unfold pv, fset. rewrite list_lookup_alter. repeat case_decide; try done; subst.
  destruct (lookup_lt_is_Some_2 l j Hi) as [b ->]. done.
Qed.

(** The six pointer assignments of [brelse], on the nodes. *)
Definition relink (b : nat) (L : list buf) : list buf :=
  let L1 := alter (set_b_prev (pv L b)) (nx L b) L in
  let L2 := alter (set_b_next (nx L1 b)) (pv L1 b) L1 in
  let L3 := alter (set_b_next (nx L2 head)) b L2 in
  let L4 := alter (set_b_prev head) b L3 in
  let L5 := alter (set_b_prev b) (nx L4 head) L4 in
  alter (set_b_next b) head L5.

Lemma relink_core b L : core <$> relink b L = core <$> L.
Proof.
  assert (Ha : ∀ f i (L : list buf), (∀ x, core (f x) = core x) → core <$> alter f i L = core <$> L).
  { intros f i L0 Hf. apply list_eq. intros j. rewrite !list_lookup_fmap, list_lookup_alter.
    case_decide; [|done]. subst. destruct (L0 !! j); simpl; [by rewrite Hf|done]. }
  unfold relink. by rewrite !Ha.
Qed.

Lemma length_relink b L : length (relink b L) = length L.
Proof. unfold relink. by rewrite !length_alter. Qed.

Lemma relink_dll b L l1 l2 :
  length L = S NBUF → dll (nx L) (pv L) head (l1 ++ b :: l2) →
  (∀ x, x ∈ l1 ++ b :: l2 → (x < NBUF)%nat) →
  dll (nx (relink b L)) (pv (relink b L)) head (b :: l1 ++ l2).
Proof.
  intros Hlen Hd Hlt.
  assert (Hh : (head < length L)%nat) by (rewrite Hlen; unfold head; lia).
  assert (Hb : (b < length L)%nat) by (rewrite Hlen; specialize (Hlt b); set_solver by lia).
  assert (Hin : ∀ x, x ∈ head :: l1 ++ b :: l2 → (x < length L)%nat).
  { intros x [->|Hx]%elem_of_cons; [done|]. rewrite Hlen. specialize (Hlt x Hx). lia. }
  assert (Hnd : NoDup (head :: l1 ++ b :: l2)) by apply Hd.
  assert (Hnx : nx L b ≠ b ∧ nx L b ∈ head :: l1 ++ b :: l2).
  { rewrite (dll_next _ _ _ _ _ _ Hd). revert Hnd. rewrite NoDup_cons, NoDup_app, NoDup_cons.
    intros (H1&_&_&H2&_). destruct l2 as [|y l2]; simpl; set_solver. }
  assert (Hpv : pv L b ∈ head :: l1 ++ b :: l2).
  { rewrite (dll_prev _ _ _ _ _ _ Hd). destruct l1 as [|y l1' _] using rev_ind; [by left|].
    rewrite List.last_last. set_solver. }
  destruct Hnx as [Hnxb Hnxin].
  assert (Hd1 := dll_remove _ _ _ _ _ _ Hd).
  set (f1 := fset (nx L) (pv L b) (nx L b)) in Hd1. set (g1 := fset (pv L) (nx L b) (pv L b)) in Hd1.
  assert (Hbn : b ∉ head :: l1 ++ l2).
  { revert Hnd. rewrite NoDup_cons, NoDup_app, NoDup_cons. set_solver. }
  assert (Hd2 := dll_insert _ _ _ _ _ Hd1 Hbn).
  unfold relink. set (L1 := alter (set_b_prev (pv L b)) (nx L b) L).
  assert (E1n : ∀ j, nx L1 j = nx L j) by (intros j; unfold L1; by rewrite nx_alter).
  assert (E1p : ∀ j, pv L1 j = g1 j) by (intros j; unfold L1; rewrite pv_set_prev; auto).
  assert (Eb : pv L1 b = pv L b) by (rewrite E1p; unfold g1; by rewrite fset_ne).
  rewrite Eb, E1n. set (L2 := alter (set_b_next (nx L b)) (pv L b) L1).
  assert (E2n : ∀ j, nx L2 j = f1 j).
  { intros j. unfold L2. rewrite nx_set_next by (unfold L1; rewrite length_alter; auto).
    unfold f1, fset. case_decide; [done|]. apply E1n. }
  assert (E2p : ∀ j, pv L2 j = g1 j) by (intros j; unfold L2; rewrite pv_alter; auto).
  assert (Hl2 : length L2 = length L) by (unfold L2, L1; by rewrite !length_alter).
  set (L4 := alter (set_b_prev head) b (alter (set_b_next (nx L2 head)) b L2)).
  assert (Hbh : head ≠ b) by set_solver.
  assert (E4n : ∀ j, nx L4 j = fset f1 b (f1 head) j).
  { intros j. unfold L4. rewrite nx_alter by done. rewrite nx_set_next by lia.
    unfold fset. case_decide; by rewrite E2n. }
  assert (E4p : ∀ j, pv L4 j = fset g1 b head j).
  { intros j. unfold L4. rewrite pv_set_prev by (rewrite length_alter; lia).
    unfold fset. case_decide; [done|]. rewrite pv_alter by done. apply E2p. }
  assert (E4h : nx L4 head = f1 head) by (rewrite E4n; by rewrite fset_ne).
  assert (Hfh : (f1 head < length L)%nat).
  { apply Hin. rewrite (dll_first _ _ _ _ Hd1). destruct (l1 ++ l2) as [|y l] eqn:E; [by left|].
    simpl. assert (y ∈ l1 ++ l2) by (rewrite E; by left). set_solver. }
  assert (Hl4 : length L4 = length L) by (unfold L4; rewrite !length_alter; done).
  eapply dll_ext; [| |exact Hd2]; intros z _.
  - rewrite nx_set_next by (rewrite length_alter; lia). unfold fset at 1 2.
    case_decide; [done|]. rewrite nx_alter by done. apply E4n.
  - rewrite pv_alter by done. rewrite pv_set_prev by lia. rewrite E4h. unfold fset at 1 2.
    case_decide; [done|]. apply E4p.
Qed.

Lemma node_fields i s : (i < length (bc_buf s))%nat →
  ∃ x, node i s = Ok x s ∧ b_next x = nx (bc_buf s) i ∧ b_prev x = pv (bc_buf s) i.
Proof.
  intros Hi. destruct (lookup_lt_is_Some_2 _ _ Hi) as [x Hx]. exists x.
  rewrite (node_run i x s Hx). unfold nx, pv. by rewrite Hx.
Qed.

(** One step of [brelse] that reads a node and updates the list. *)
Ltac relink_step i :=
  match goal with |- (mbind _ (node _)) ?s = _ =>
    let x := fresh "x" in let E := fresh "E" in let En := fresh "En" in
    let Ep := fresh "Ep" in
    destruct (node_fields i s) as (x&E&En&Ep);
      [cbn [bc_buf set_bc_buf]; rewrite ?length_alter; lia|];
    mrun E; rewrite ?En, ?Ep; clear E En Ep x; erewrite bind_run by reflexivity
  end.

(** The links after [brelse], the busy flag still set and the lock held. *)
Lemma brelse_links b k L d h {A} (m : M (bcache D) A) :
  length L = S NBUF → (b < NBUF)%nat →
  (bb ← node b;
   upd_node (b_next bb) (set_b_prev (b_prev bb));;
   bb ← node b;
   upd_node (b_prev bb) (set_b_next (b_next bb));;
   h ← node head;
   upd_node b (set_b_next (b_next h));;
   upd_node b (set_b_prev head);;
   h ← node head;
   upd_node (b_next h) (set_b_prev b);;
   upd_node head (set_b_next b);;
   m) (Bcache k L d h) = m (Bcache k (relink b L) d h).
Proof.
  intros Hlen Hb. assert (Hh : (head < S NBUF)%nat) by (unfold head; lia).
  relink_step b. relink_step b. relink_step head. erewrite bind_run by reflexivity.
  relink_step head. erewrite bind_run by reflexivity. done.
Qed.

Lemma brelse_run X s b c :
  bc_inv X s → bc_ready s → bufs s !! b = Some c → c_busy c = true → ¬ X b →
  ∃ s', brelse b s = Ok tt s' ∧ bc_inv X s' ∧ same_view s s' ∧
    bufs s' = <[b := released c]> (bufs s) ∧ bc_k s' = woken (CBuf b) (bc_k s) ∧
    bc_drv s' = bc_drv s ∧ bc_hist s' = bc_hist s ∧
    (∀ l1 l2, lru s (l1 ++ b :: l2) → lru s' (b :: l1 ++ l2)).
Proof.
  intros HI (Hok&Hf&Hp) Hc Hbusy HX. pose proof HI as [Hlen [l Hl] Hcoh].
  destruct (bufs_lookup_inv s b c Hc) as (bb&Hbb&<-&Hlt).
  destruct s as [k L d h]. cbn [bc_buf bc_drv bc_k bc_hist] in *.
  set (g := λ x, set_b_flags (clrf (b_flags x) B_BUSY) x).
  set (L' := alter g b (relink b L)).
  set (s' := Bcache (woken (CBuf b) k) L' d h).
  destruct (lookup_lt_is_Some_2 (relink b L) b) as [rb Hrb]; [rewrite length_relink; lia|].
  assert (Hrc : core rb = core bb).
  { assert (Heq : (core <$> relink b L) !! b = (core <$> L) !! b) by by rewrite relink_core.
    rewrite !list_lookup_fmap, Hrb, Hbb in Heq. by apply (inj Some) in Heq. }
  assert (Hb' : bufs s' = <[b := released (core bb)]> (bufs (Bcache k L d h))).
  { unfold s', L'. rewrite <- Hrc.
    transitivity (<[b := core (g rb)]> (bufs (Bcache (woken (CBuf b) k) (relink b L) d h))).
    - exact (bufs_alter g b rb (Bcache (woken (CBuf b) k) (relink b L) d h) Hrb Hlt).
    - f_equal. unfold bufs; cbn [bc_buf]. by rewrite !fmap_take, relink_core. }
  assert (HC := coh_released X _ _ b _ Hcoh Hc HX).
  assert (Hlru : ∀ l1 l2, lru (Bcache k L d h) (l1 ++ b :: l2) → lru s' (b :: l1 ++ l2)).
  { intros l1 l2 [Hd Hpm]. split; cbn [bc_buf].
    - eapply dll_ext; [| |apply (relink_dll b L l1 l2 Hlen Hd)].
      + intros z _. unfold s', L'; cbn [bc_buf]. by rewrite nx_alter.
      + intros z _. unfold s', L'; cbn [bc_buf]. by rewrite pv_alter.
      + intros x Hx. rewrite Hpm in Hx. apply elem_of_seq in Hx. lia.
    - rewrite <- Hpm. by rewrite Permutation_middle. }
  exists s'. split_and!; try done.
  - unfold brelse. mrun (node_run b bb (Bcache k L d h) Hbb). rewrite land_eqb0.
    change (has (b_flags bb) B_BUSY) with (c_busy (core bb)). rewrite Hbusy; cbn [negb].
    mrun (bc_acquire_run (Bcache k L d h) (conj Hok (conj Hf Hp))).
    unfold set_bc_k; cbn [bc_k bc_buf bc_drv bc_hist].
    rewrite brelse_links by done. erewrite bind_run by reflexivity.
    erewrite bind_run by (unfold kz, zoom; simpl; by rewrite wakeup_acq_run).
    unfold kz, zoom; simpl. by rewrite release_acq.
  - split; [| |by rewrite Hb'].
    + cbn [bc_buf s']. unfold L'. by rewrite length_alter, length_relink.
    + destruct Hl as [Hd Hpm]. assert (Hbl : b ∈ l) by (rewrite Hpm; apply elem_of_seq; lia).
      apply list_elem_of_split in Hbl as (l1&l2&->). exists (b :: l1 ++ l2). by apply Hlru.
  - intros dv sc. unfold view. rewrite Hb'. cbn [bc_drv s'].
    assert (Hff := flag_facts (core bb) (coh_flags X _ _ Hcoh b _ Hc)).
    eapply cview_flags; eauto; apply Hff.
Qed.

(** ** Initialization *)

(** Global data is zeroed before [binit] runs. *)
Definition buf_zero : buf := Buf 0 0 0 0 0 None (replicate 512 0).
Definition bc_zero (k : kst) (d : D) : bcache D :=
  Bcache k (replicate (S NBUF) buf_zero) d [].

(** The nodes [binit] leaves: buffer 9 first, buffer 0 last. *)
Definition binit_nodes : list buf :=
  ((λ i, Buf 0 NODEV 0 (if decide (i = 9)%nat then head else S i)
           (if decide (i = 0)%nat then head else pred i) None (replicate 512 0)) <$> seq 0 NBUF)
  ++ [Buf 0 0 0 0 9 None (replicate 512 0)].

Lemma binit_run k d :
  binit (bc_zero k d) = Ok tt (Bcache (set_lock LBcache lk_free k) binit_nodes d []).
Proof. reflexivity. Qed.

Definition no_mods : nat → Prop := λ _, False.

Lemma binit_dll : dll (nx binit_nodes) (pv binit_nodes) head (rev (seq 0 NBUF)).
Proof.
  split; [vm_compute; tauto|]. apply NoDup_ListNoDup.
  repeat constructor; vm_compute; intuition congruence.
Qed.

Lemma binit_inv k d :
  bc_inv no_mods (Bcache (set_lock LBcache lk_free k) binit_nodes d []).
Proof.
  split; [done| |].
  - exists (rev (seq 0 NBUF)). split; [apply binit_dll|]. by rewrite <- Permutation_rev.
  - assert (Hc : ∀ i c, bufs (Bcache (set_lock LBcache lk_free k) binit_nodes d []) !! i = Some c →
      c = Core 0 NODEV 0 (replicate 512 0)).
    { intros i c. unfold bufs; cbn [bc_buf].
      rewrite list_lookup_fmap, fmap_Some. intros (b&Hb&->).
      apply lookup_take_Some in Hb as [Hb Hi]. unfold binit_nodes in Hb.
      rewrite lookup_app_l in Hb by (rewrite length_fmap, length_seq; done).
      rewrite list_lookup_fmap, fmap_Some in Hb. destruct Hb as (j&_&->). done. }
    split; intros *; (intros Hi; apply Hc in Hi as ->; done).
Qed.

(** ** Properties *)

(** C39: every way [bget] ends.  A cached sector is handed out if it is not
    busy, else the caller sleeps on that buffer with the cache lock released;
    an uncached one takes the least recently used buffer that is neither busy
    nor dirty; without such a buffer the kernel panics.  The lock is released
    on both returning paths. *)
Theorem bget_cases dev sec s l :
  bc_ready s → bc_inv no_mods s → lru s l →
  (∃ b, List.find (key_at s dev sec) l = Some b ∧
     if has (default 0 (b_flags <$> bc_buf s !! b)) B_BUSY
     then ∀ i p, cpu_ncli (k_cpu (bc_k s)) = 0 → cpu_proc (k_cpu (bc_k s)) = Some i →
            k_procs (bc_k s) !! i = Some p →
            ∃ s', bget dev sec s = Blocked (CBuf b) s' ∧ is_free LBcache (bc_k s')
     else ∃ s', bget dev sec s = Ok b s' ∧ bc_k s' = bc_k s ∧ bc_inv no_mods s') ∨
  (List.find (key_at s dev sec) l = None ∧
     match List.find (idle_at s) (rev l) with
     | Some b => ∃ s', bget dev sec s = Ok b s' ∧ bc_k s' = bc_k s ∧ bc_inv no_mods s'
     | None => ∃ s', bget dev sec s = Panic "bget: no buffers" s'
     end).
Proof.
  intros Hr HI Hl. assert (Hrun := bget_run dev sec s l Hr (inv_len _ _ HI) Hl).
  assert (Hok : ∀ b s', bget dev sec s = Ok b s' → bc_k s' = bc_k s ∧ bc_inv no_mods s').
  { intros b s' E. destruct (bget_ok _ _ _ _ _ _ HI Hr E) as (c&c'&_&_&_&(Hk&_)&HI'&_). done. }
  destruct (List.find (key_at s dev sec) l) as [b|] eqn:Hf.
  - left. exists b. split; [done|]. apply List.find_some in Hf as [Hin _].
    apply list_elem_of_In in Hin.
    destruct (lru_node s l b (inv_len _ _ HI) Hl Hin) as (bb&Hbb&_). rewrite Hbb in Hrun |- *.
    change (default 0 (b_flags <$> Some bb)) with (b_flags bb).
    destruct (has (b_flags bb) B_BUSY);
      [|eexists; split; [exact Hrun|eapply Hok; exact Hrun]].
    intros i p Hn Hp Hi. destruct Hr as (Hk1&Hk2&Hk3).
    assert (Hs : sleep (CBuf b) LBcache (acq LBcache (bc_k s)) =
      Blocked (CBuf b) (asleep i (CBuf b) LBcache (acq LBcache (bc_k s)))).
    { eapply sleep_run; eauto with kdb; simpl; [by rewrite Hn|by rewrite lookup_insert_eq]. }
    eexists. rewrite Hrun. unfold mbind, M_bind, kz, zoom; simpl. rewrite Hs. split; [done|].
    unfold is_free; simpl. by rewrite lookup_insert_eq.
  - right. split; [done|]. destruct (List.find (idle_at s) (rev l)) as [b|]; eexists;
      [split; [exact Hrun|eapply Hok; exact Hrun]|exact Hrun].
Qed.

(** C11: [bread] returns a buffer locked for the caller that holds the current
    contents of the sector (the latest cached write if there is one, else the
    disk), without changing what any sector contains; it keeps the cache
    invariant, under which no sector is cached twice. *)
Theorem bread_correct X dev sec s b s' :
  bc_inv X s → bc_ready s → dev ≠ NODEV → dvalid (bc_drv s) dev sec →
  bread dev sec s = Ok b s' →
  (∃ c, bufs s' !! b = Some c ∧ c_busy c = true ∧ c_valid c = true ∧
     c_dev c = dev ∧ c_sector c = sec ∧ c_data c = view s dev sec ∧
     length (c_data c) = 512%nat) ∧
  (∀ dv sc, view s' dv sc = view s dv sc) ∧ bc_inv X s' ∧
  (∀ i j c c', bufs s' !! i = Some c → bufs s' !! j = Some c' → c_valid c = true →
     c_dev c = c_dev c' → c_sector c = c_sector c' → i = j).
Proof.
  intros HI Hr Hnd Hdv E.
  destruct (bread_ok X dev sec s b s' HI Hr Hnd Hdv E) as
    (c&c'&Hc&_&Hb&_&HI'&Hv&H1&H2&_&H3&H4&H5&_).
  assert (Hi : bufs s' !! b = Some c')
    by (rewrite Hb; apply list_lookup_insert_eq; by eapply lookup_lt_Some).
  assert (HC := inv_coh X s' HI'). split_and!; [|done|done|].
  - exists c'. split_and!; try done. by apply (coh_len X _ _ HC b).
  - intros i j c1 c2 Hi1 Hj Hv1 K1 K2. eapply (coh_key X _ _ HC i j); eauto.
    by apply (coh_real X _ _ HC i c1 Hi1 Hv1).
Qed.

(** C12: [bwrite] of a locked buffer returns, makes the disk hold the buffer's
    data and changes no other sector; [brelse] then unlocks the buffer, makes
    it the most recently used one and wakes its waiters, and the contents of
    every sector as seen through the cache stay the same. *)
Theorem bwrite_brelse_correct X s b c :
  bc_inv X s → bc_ready s → bufs s !! b = Some c → c_busy c = true → c_valid c = true →
  ∃ s1 s2, bwrite b s = Ok tt s1 ∧ brelse b s1 = Ok tt s2 ∧
    dview (bc_drv s2) (c_dev c) (c_sector c) = c_data c ∧
    (∀ dev sec, (dev, sec) ≠ (c_dev c, c_sector c) →
       dview (bc_drv s2) dev sec = dview (bc_drv s) dev sec) ∧
    (∀ dev sec, view s2 dev sec = view s dev sec) ∧
    bc_inv (Xdel X b) s2 ∧ bc_k s2 = woken (CBuf b) (bc_k s) ∧
    (∃ l, lru s2 (b :: l)) ∧
    (∃ c2, bufs s2 !! b = Some c2 ∧ c_busy c2 = false ∧ c_dirty c2 = false ∧
       c_data c2 = c_data c).
Proof.
  intros HI Hr Hc Hbusy Hval.
  destruct (bwrite_run X s b c HI Hc Hbusy Hval) as (s1&E1&HI1&Hv1&Hb1&Hk1&_&Hd1&_).
  assert (Hff := flag_facts c (coh_flags X _ _ (inv_coh X s HI) b c Hc)).
  assert (Hi1 : bufs s1 !! b = Some (flushed c))
    by (rewrite Hb1; apply list_lookup_insert_eq; by eapply lookup_lt_Some).
  destruct (brelse_run (Xdel X b) s1 b (flushed c)) as (s2&E2&HI2&Hv2&Hb2&Hk2&Hd2&_&Hlru);
    [done|by unfold bc_ready; rewrite Hk1|done| |by intros [_ ?]|].
  { by transitivity (c_busy c); [apply Hff|]. }
  assert (Hff1 := flag_facts (flushed c) (coh_flags _ _ _ (inv_coh _ s1 HI1) b _ Hi1)).
  exists s1, s2. rewrite Hd2, Hk2, Hk1. split_and!; try done.
  - by rewrite Hd1, !Z.eqb_refl.
  - intros dev sec Hne. rewrite Hd1. destruct (Z.eqb_spec dev (c_dev c)), (Z.eqb_spec sec (c_sector c));
      simpl; try done. congruence.
  - intros dev sec. by rewrite Hv2, Hv1.
  - destruct (inv_lru _ _ HI1) as [l Hl]. assert (Hbl : b ∈ l).
    { destruct Hl as [_ ->]. apply bufs_lookup_inv in Hi1 as (_&_&_&?). apply elem_of_seq. lia. }
    apply list_elem_of_split in Hbl as (l1&l2&->). exists (l1 ++ l2). by apply Hlru.
  - exists (released (flushed c)). rewrite Hb2. split_and!; [|apply Hff1| |done].
    + apply list_lookup_insert_eq. by eapply lookup_lt_Some.
    + transitivity (c_dirty (flushed c)); [apply Hff1|apply Hff].
Qed.
End Bio.

(** ** The cache over a four-sector memory disk *)

Definition ex_k : kst :=
  Kst (Cpu 0 true 0 true (Some 0%nat))
    {[LBcache := lk_free; LPtable := lk_free; LLog := lk_free; LIcache := lk_free;
      LFtable := lk_free; LKmem := lk_free]}
    [set_p_state RUNNING proc_zero].
Definition ex_bc : bcache Memide.memide :=
  Bcache (set_lock LBcache lk_free ex_k) binit_nodes (Memide.ideinit (replicate 2048 7)) [].

Lemma ex_bc_inv : bc_inv no_mods ex_bc.
Proof. apply binit_inv. Qed.
Lemma ex_bc_ready : bc_ready ex_bc.
Proof. split_and!; try done; split_and!; done. Qed.
Lemma ex_bc_lru : lru ex_bc (rev (seq 0 NBUF)).
Proof. split; [apply binit_dll|]. by rewrite <- Permutation_rev. Qed.
Lemma ex_bc_valid : dvalid (bc_drv ex_bc) 1 2.
Proof. split_and!; vm_compute; congruence. Qed.

Lemma bget_cases_witness :
  List.find (key_at ex_bc 1 2) (rev (seq 0 NBUF)) = None ∧
  ∃ s', bget 1 2 ex_bc = Ok 0%nat s' ∧ bc_k s' = bc_k ex_bc.
Proof.
  split; [reflexivity|].
  destruct (bget_cases 1 2 ex_bc _ ex_bc_ready ex_bc_inv ex_bc_lru) as [(b&Hb&_)|[_ H]].
  - discriminate Hb.
  - change (List.find _ _) with (Some 0%nat) in H. destruct H as (s'&H1&H2&_).
    exists s'. split; [exact H1|exact H2].
Defined.

Lemma bread_correct_witness :
  ∃ b s' c, bread 1 2 ex_bc = Ok b s' ∧ bufs s' !! b = Some c ∧
    c_data c = view ex_bc 1 2.
Proof.
  destruct (bread 1 2 ex_bc) as [b s'|msg s'|ch s'|lk s'|s'|] eqn:E;
    [|vm_compute in E; discriminate E..].
  destruct (bread_correct no_mods 1 2 ex_bc b s' ex_bc_inv ex_bc_ready ltac:(done)
    ex_bc_valid E) as [(c&H1&_&_&_&_&H2&_) _].
  exists b, s', c. split; [reflexivity|]. split; [exact H1|exact H2].
Defined.

Lemma bwrite_brelse_correct_witness :
  ∃ b s, bread 1 2 ex_bc = Ok b s ∧ ∃ s1 s2, bwrite b s = Ok tt s1 ∧ brelse b s1 = Ok tt s2.
Proof.
  destruct (bread 1 2 ex_bc) as [b s|msg s'|ch s'|lk s'|s'|] eqn:E;
    [|vm_compute in E; discriminate E..].
  exists b, s. split; [reflexivity|].
  destruct (bread_ok no_mods 1 2 ex_bc b s ex_bc_inv ex_bc_ready ltac:(done)
    ex_bc_valid E) as (c&c'&Hc&_&Hb&(Hk&_)&HI&_&H1&H2&_).
  assert (Hi : bufs s !! b = Some c')
    by (rewrite Hb; apply list_lookup_insert_eq; by eapply lookup_lt_Some).
  assert (Hr : bc_ready s) by (unfold bc_ready; rewrite Hk; apply ex_bc_ready).
  destruct (bwrite_brelse_correct no_mods s b c' HI Hr Hi H1 H2) as (s1&s2&E1&E2&_).
  exists s1, s2. split; [exact E1|exact E2].
Defined.
