(* ===== verification/BioRun.v ===== *)
(** Runs of the buffer cache that return, and the effect of a whole
    read-modify-write cycle on the disk: the lemmas log.c and fs.c build on. *)
From S2P Require Import Prelude Kmonad Wp Kstate Spinlock Sleep Disk Dll Cache Bio.

(** The number of elements of a list that satisfy a test. *)
Definition cnt {A} (P : A → bool) (l : list A) : nat := length (List.filter P l).

Lemma cnt_insert {A} (P : A → bool) l i (x y : A) : l !! i = Some x →
  (cnt P (<[i := y]> l) + (if P x then 1 else 0) = cnt P l + (if P y then 1 else 0))%nat.
Proof.
  unfold cnt. revert i. induction l as [|z l IH]; intros [|i] Hi; simplify_eq/=.
  - destruct (P x), (P y); simpl; lia.
  - specialize (IH i Hi). destruct (P z); simpl; lia.
Qed.

Lemma cnt_pos {A} (P : A → bool) l : (0 < cnt P l)%nat → ∃ i x, l !! i = Some x ∧ P x = true.
Proof.
  unfold cnt. destruct (List.filter P l) as [|x r] eqn:E; simpl; [lia|]. intros _.
  assert (Hx : In x (List.filter P l)) by (rewrite E; by left).
  apply filter_In in Hx as [Hx HP]. apply list_elem_of_In, list_elem_of_lookup in Hx as [i Hi].
  eauto.
Qed.

Lemma cnt_some {A} (P : A → bool) l i x : l !! i = Some x → P x = true → (0 < cnt P l)%nat.
Proof.
  intros Hi HP. unfold cnt. assert (Hx : In x (List.filter P l)).
  { apply filter_In. split; [|done]. apply list_elem_of_In. by eapply list_elem_of_lookup_2. }
  destruct (List.filter P l); [done|simpl; lia].
Qed.

Definition c_idle (c : bcore) : bool := negb (c_busy c) && negb (c_dirty c).

(** Waking up processes is all that a cycle does to the rest of the kernel. *)
Definition wakes (cs : list chan) (k : kst) : kst := foldl (λ k c, woken c k) k cs.

Lemma wakes_ok cs k : kst_ok k → kst_ok (wakes cs k).
Proof. revert k. induction cs; intros k Hk; simpl; auto with kdb. Qed.
Lemma wakes_free cs l k : is_free l k → is_free l (wakes cs k).
Proof. revert k. induction cs; intros k Hk; simpl; auto with kdb. Qed.
Lemma wakes_run cs k : k_run k → k_run (wakes cs k).
Proof. revert k. induction cs; intros k Hk; simpl; auto with kdb. Qed.
Lemma wakes_app cs1 cs2 k : wakes (cs1 ++ cs2) k = wakes cs2 (wakes cs1 k).
Proof. unfold wakes. by rewrite foldl_app. Qed.
#[export] Hint Resolve wakes_ok wakes_free wakes_run : kdb.

(** ** Sectors written, in order *)
Definition sect := (Z * Z * list Z)%type.

Definition apply_w (f : Z → Z → list Z) (w : sect) : Z → Z → list Z :=
  λ dev sec, if (dev =? w.1.1) && (sec =? w.1.2) then w.2 else f dev sec.
Definition apply_ws (ws : list sect) (f : Z → Z → list Z) : Z → Z → list Z :=
  foldl apply_w f ws.

Lemma apply_ws_app ws1 ws2 f : apply_ws (ws1 ++ ws2) f = apply_ws ws2 (apply_ws ws1 f).
Proof. unfold apply_ws. by rewrite foldl_app. Qed.

Lemma apply_w_ext w f g dev sec :
  f dev sec = g dev sec → apply_w f w dev sec = apply_w g w dev sec.
Proof. unfold apply_w. by intros ->. Qed.

Lemma apply_ws_ext ws f g dev sec :
  f dev sec = g dev sec → apply_ws ws f dev sec = apply_ws ws g dev sec.
Proof.
  revert f g. induction ws as [|w ws IH]; intros f g Hfg; [done|].
  simpl. apply IH. by apply apply_w_ext.
Qed.

(** A sector no write names keeps its contents. *)
Lemma apply_ws_out ws f dev sec :
  (dev, sec) ∉ ws.*1 → apply_ws ws f dev sec = f dev sec.
Proof.
  revert f. induction ws as [|[[a b] d] ws IH]; intros f Hn; [done|].
  simpl in *. rewrite IH by set_solver. unfold apply_w; simpl.
  destruct (Z.eqb_spec dev a), (Z.eqb_spec sec b); try done. set_solver.
Qed.

(** With distinct sectors, each gets what is written to it. *)
Lemma apply_ws_in ws f dev sec d :
  NoDup (ws.*1) → (dev, sec, d) ∈ ws → apply_ws ws f dev sec = d.
Proof.
  revert f. induction ws as [|w ws IH]; intros f Hn Hin; [set_solver|].
  simpl in Hn. apply NoDup_cons in Hn as [Hw Hn]. simpl.
  apply elem_of_cons in Hin as [<-|Hin]; [|by apply IH].
  rewrite apply_ws_out by done. unfold apply_w; simpl. by rewrite !Z.eqb_refl.
Qed.

Section BioRun.
Context {D : Type} `{DriverLaws D}.
Implicit Types (s : bcache D) (X : nat → Prop).

(** How many buffers [bget] could recycle. *)
Definition room s : nat := cnt c_idle (bufs s).
Definition unlocked s (dev sec : Z) : Prop :=
  ∀ i c, bufs s !! i = Some c → c_is dev sec c = true → c_busy c = false.
Definition cached s (dev sec : Z) : Prop :=
  ∃ i c, bufs s !! i = Some c ∧ c_is dev sec c = true.

Lemma bget_returns X dev sec s : bc_inv X s → bc_ready s →
  unlocked s dev sec → cached s dev sec ∨ (0 < room s)%nat →
  ∃ b s', bget dev sec s = Ok b s'.
Proof.
  intros HI Hr Hu Hc. pose proof HI as [Hlen [l Hl] _].
  rewrite (bget_run dev sec s l Hr Hlen Hl).
  assert (Hin : ∀ i c, bufs s !! i = Some c → ∃ b, bc_buf s !! i = Some b ∧ core b = c ∧ In i l).
  { intros i c Hi. apply bufs_lookup_inv in Hi as (b&Hb&Hbc&Hlt). exists b.
    split_and!; [done|done|]. apply list_elem_of_In. destruct Hl as [_ ->].
    apply elem_of_seq. lia. }
  destruct (List.find (key_at s dev sec) l) as [i|] eqn:Hf.
  - apply List.find_some in Hf as [Hi Hk]. apply list_elem_of_In in Hi.
    destruct (lru_node s l i Hlen Hl Hi) as (bb&Hbb&Hlt&_). rewrite Hbb.
    unfold key_at in Hk. rewrite Hbb in Hk.
    assert (Hnb : c_busy (core bb) = false)
      by (apply (Hu i (core bb)); [by apply bufs_lookup|exact Hk]).
    unfold c_busy, core in Hnb; simpl in Hnb. rewrite Hnb. eauto.
  - destruct Hc as [(i&c&Hi&Hk)|Hroom].
    + destruct (Hin i c Hi) as (b&Hb&<-&Hil). pose proof (List.find_none _ _ Hf i Hil) as Hkn.
      unfold key_at in Hkn. rewrite Hb in Hkn. unfold c_is in Hk. simpl in Hk. congruence.
    + destruct (cnt_pos _ _ Hroom) as (i&c&Hi&Hidle).
      destruct (Hin i c Hi) as (b&Hb&<-&Hil).
      destruct (List.find (idle_at s) (rev l)) as [j|] eqn:Hf2; [eauto|].
      pose proof (List.find_none _ _ Hf2 i) as Hn. rewrite <- in_rev in Hn.
      specialize (Hn Hil). unfold idle_at in Hn. rewrite Hb in Hn.
      unfold c_idle, c_busy, c_dirty in Hidle. simpl in Hidle. congruence.
Qed.

(** Once [bget] has a buffer, [bread] returns. *)
Lemma bread_after X dev sec s b s1 : bc_inv X s → bc_ready s →
  dev ≠ NODEV → dvalid (bc_drv s) dev sec → bget dev sec s = Ok b s1 →
  ∃ s', bread dev sec s = Ok b s'.
Proof.
  intros HI Hr Hnd Hdv E. destruct (bget_ok X dev sec s b s1 HI Hr E) as
    (c&c1&Hcb&_&Hb1&(Hk&Hd&Hh)&HI1&_&Hbusy&Hdev&Hsec&_).
  assert (Hi1 : bufs s1 !! b = Some c1)
    by (rewrite Hb1; apply list_lookup_insert_eq; by eapply lookup_lt_Some).
  destruct (bufs_lookup_inv s1 b c1 Hi1) as (bb&Hbb&<-&Hlt).
  unfold bread. mrun E. mrun (node_run b bb s1 Hbb).
  change (has (b_flags bb) B_VALID) with (c_valid (core bb)).
  destruct (c_valid (core bb)) eqn:Hv; [eexists; reflexivity|].
  simpl in Hdev, Hsec. subst dev sec. rewrite <- Hd in Hdv.
  destruct (iderw_read_run X s1 b bb HI1 Hbb Hlt Hbusy Hv Hnd Hdv) as (s2&E2&_).
  exists s2. cbn [negb when]. by mrun E2.
Qed.

Lemma bread_run X dev sec s : bc_inv X s → bc_ready s →
  dev ≠ NODEV → dvalid (bc_drv s) dev sec →
  unlocked s dev sec → cached s dev sec ∨ (0 < room s)%nat →
  ∃ b s', bread dev sec s = Ok b s'.
Proof.
  intros HI Hr Hnd Hdv Hu Hc. destruct (bget_returns X dev sec s HI Hr Hu Hc) as (b&s1&E).
  exists b. by eapply bread_after.
Qed.

(** [bread] returns, sleeps or panics; it never goes wrong. *)
Lemma bread_safe X dev sec s : bc_inv X s → bc_ready s → k_run (bc_k s) →
  dev ≠ NODEV → dvalid (bc_drv s) dev sec →
  wp (bread dev sec) (λ b s', bread dev sec s = Ok b s') s.
Proof.
  intros HI Hr Hrun Hnd Hdv.
  assert (Hg : wp (bget dev sec) (λ b s', bget dev sec s = Ok b s') s).
  { pose proof HI as [Hlen [l Hl] _]. pose proof (bget_run dev sec s l Hr Hlen Hl) as E.
    unfold wp at 1. destruct (List.find (key_at s dev sec) l) as [b|] eqn:Hf.
    - apply List.find_some in Hf as [Hi _]. apply list_elem_of_In in Hi.
      destruct (lru_node s l b Hlen Hl Hi) as (bb&Hbb&_). rewrite Hbb in E.
      destruct (has (b_flags bb) B_BUSY); [|by rewrite E].
      assert (Hs : wp (kz (sleep (CBuf b) LBcache);; nofuel) (λ (_ : nat) _, False)
        (set_bc_k (acq LBcache (bc_k s)) s)).
      { destruct Hr as (?&?&?).
        assert (Hw := sleep_wp (A := nat) (CBuf b) LBcache (λ _ _, False) (bc_k s)
          ltac:(done) ltac:(done) ltac:(done) Hrun).
        unfold wp, kz, zoom, mbind, M_bind in *; simpl in *. by destruct (sleep _ _ _). }
      rewrite E. unfold wp in Hs.
      match type of Hs with match ?x with _ => _ end => destruct x end; done.
    - destruct (List.find (idle_at s) (rev l)); by rewrite E. }
  unfold wp in Hg. destruct (bget dev sec s) as [b s1| | | | |] eqn:Eg; try done.
  2-3: unfold wp, bread, mbind, M_bind; by rewrite Eg.
  destruct (bread_after X dev sec s b s1 HI Hr Hnd Hdv Eg) as [s2 E2]. by eapply wp_run.
Qed.

Lemma bread_had_room X dev sec s b s' : bc_inv X s → bc_ready s → bread dev sec s = Ok b s' →
  cached s dev sec ∨ (0 < room s)%nat.
Proof.
  intros HI Hr E. apply bread_split in E as (s1&bb&Eg&_).
  destruct (bget_ok X dev sec s b s1 HI Hr Eg) as
    (c&c1&Hc&Hcb&_&_&_&_&_&Hdev&Hsec&[Heq|(_&Hd&_)]).
  - left. exists b, c. split; [done|]. apply c_is_true. by rewrite Heq in Hdev, Hsec.
  - right. eapply cnt_some; [exact Hc|]. unfold c_idle. by rewrite Hcb, Hd.
Qed.

(** ** The effect of finished cycles

    [wrote X s s' ws]: from [s] to [s'] the sectors [ws] were written, in
    that order; buffers held by others, and dirty buffers of other sectors,
    are as they were, and no buffer stays locked. *)
Record wrote X s s' (ws : list sect) : Prop := {
  wr_inv : bc_inv X s';
  wr_ready : bc_ready s';
  wr_k : ∃ cs, bc_k s' = wakes cs (bc_k s);
  wr_hist : bc_hist s' = bc_hist s ++ ws;
  wr_dview : ∀ dev sec, dview (bc_drv s') dev sec = apply_ws ws (dview (bc_drv s)) dev sec;
  wr_view : ∀ dev sec, view s' dev sec = apply_ws ws (view s) dev sec;
  wr_dvalid : ∀ dev sec, dvalid (bc_drv s') dev sec ↔ dvalid (bc_drv s) dev sec;
  wr_room : (room s ≤ room s')%nat;
  wr_busy : ∀ i c, bufs s' !! i = Some c → c_busy c = true → bufs s !! i = Some c;
  wr_kept : ∀ i c, bufs s !! i = Some c →
    c_busy c = true ∨ (c_dirty c = true ∧ (c_dev c, c_sector c) ∉ ws.*1) → bufs s' !! i = Some c
}.

Lemma wrote_refl X s : bc_inv X s → bc_ready s → wrote X s s [].
Proof. intros HI Hr. split; try done. - by exists []. - by rewrite app_nil_r. Qed.

Lemma wrote_trans X s1 s2 s3 ws1 ws2 :
  wrote X s1 s2 ws1 → wrote X s2 s3 ws2 → wrote X s1 s3 (ws1 ++ ws2).
Proof.
  intros [I1 R1 [k1 K1] H1 D1 V1 A1 O1 B1 P1] [I2 R2 [k2 K2] H2 D2 V2 A2 O2 B2 P2]. split; auto.
  - exists (k1 ++ k2). by rewrite wakes_app, K2, K1.
  - by rewrite H2, H1, app_assoc.
  - intros. rewrite apply_ws_app, D2. by apply apply_ws_ext.
  - intros. rewrite apply_ws_app, V2. by apply apply_ws_ext.
  - intros. by rewrite A2.
  - lia.
  - intros i c Hi Hc. rewrite fmap_app in Hc. apply P2.
    + apply P1; [done|]. set_solver.
    + set_solver.
Qed.

Lemma wrote_unlocked X s s' ws dev sec :
  wrote X s s' ws → unlocked s dev sec → unlocked s' dev sec.
Proof.
  intros Hw Hu i c Hi Hk. apply not_true_iff_false. intros Hb.
  assert (Hi0 := wr_busy _ _ _ _ Hw i c Hi Hb). by rewrite (Hu i c Hi0 Hk) in Hb.
Qed.

(** What a cycle may do to a buffer that nobody held. *)
Definition settled (ws : list sect) (c c' : bcore) : Prop :=
  c_busy c = false ∧ c_busy c' = false ∧
  (c' = c ∨ (c_dirty c' = false ∧ (c_dirty c = true → (c_dev c, c_sector c) ∈ ws.*1))).

Definition touched (ws : list sect) (cs cs' : list bcore) : Prop :=
  length cs' = length cs ∧
  ∀ i c c', cs !! i = Some c → cs' !! i = Some c' → c' = c ∨ settled ws c c'.

Lemma cnt_mono {A} (P : A → bool) (l l' : list A) : length l' = length l →
  (∀ i x y, l !! i = Some x → l' !! i = Some y → P x = true → P y = true) →
  (cnt P l ≤ cnt P l')%nat.
Proof.
  unfold cnt. revert l'. induction l as [|x l IH]; intros [|y l'] Hl Hp; simplify_eq/=; [done|].
  assert (Hz := Hp 0%nat x y eq_refl eq_refl).
  assert (Hi := IH l' Hl (λ i, Hp (S i))).
  destruct (P x), (P y); simpl; lia.
Qed.

Lemma touched_facts ws s s' : touched ws (bufs s) (bufs s') →
  (room s ≤ room s')%nat ∧
  (∀ i c, bufs s' !! i = Some c → c_busy c = true → bufs s !! i = Some c) ∧
  (∀ i c, bufs s !! i = Some c →
    c_busy c = true ∨ (c_dirty c = true ∧ (c_dev c, c_sector c) ∉ ws.*1) → bufs s' !! i = Some c).
Proof.
  intros [Hl Ht]. split_and!.
  - apply cnt_mono; [done|]. intros i c c' Hi Hi' Hid.
    destruct (Ht i c c' Hi Hi') as [->|(Hb&Hb'&[->|[Hd' _]])]; [done|done|].
    unfold c_idle. by rewrite Hb', Hd'.
  - intros i c' Hi' Hb. destruct (lookup_lt_is_Some_2 (bufs s) i) as [c Hi];
      [rewrite <- Hl; by eapply lookup_lt_Some|].
    destruct (Ht i c c' Hi Hi') as [->|(_&Hb'&_)]; [done|congruence].
  - intros i c Hi Hc. destruct (lookup_lt_is_Some_2 (bufs s') i) as [c' Hi'];
      [rewrite Hl; by eapply lookup_lt_Some|].
    destruct (Ht i c c' Hi Hi') as [->|(Hb&_&[->|[_ Hd]])]; [done|done|].
    destruct Hc as [?|[? []]]; [congruence|auto].
Qed.

Lemma set_buf_data_run X s b c dt :
  bc_inv X s → bufs s !! b = Some c → c_busy c = true → c_valid c = true →
  length dt = 512%nat →
  ∃ s', set_buf_data b dt s = Ok tt s' ∧ bc_inv (Xadd X b) s' ∧ same_env s s' ∧
    bufs s' = <[b := cdata dt c]> (bufs s) ∧
    ∀ dev sec, view s' dev sec = apply_w (view s) (c_dev c, c_sector c, dt) dev sec.
Proof.
  intros HI Hc Hb Hv Hl. destruct (bufs_lookup_inv s b c Hc) as (bb&Hbb&<-&Hlt).
  assert (HC := coh_cdata X _ _ b _ (inv_coh X s HI) Hc dt Hb Hl).
  assert (Hb' := bufs_alter (set_b_data dt) b bb s Hbb Hlt).
  eexists. split; [reflexivity|]. split_and!; [|done| |].
  - by apply (inv_alter X (Xadd X b) _ b bb).
  - exact Hb'.
  - intros dev sec. unfold view at 1. rewrite Hb'.
    change (core (set_b_data dt bb)) with (cdata dt (core bb)). cbn [bc_drv set_bc_buf].
    rewrite (cview_insert X (Xadd X b) _ _ b (core bb) (cdata dt (core bb)) dev sec
      (inv_coh X s HI) HC Hc) by (done || congruence).
    unfold apply_w, c_is; simpl. by rewrite (Z.eqb_sym dev), (Z.eqb_sym sec).
Qed.

Lemma buf_data_run s b c : bufs s !! b = Some c → buf_data b s = Ok (c_data c) s.
Proof.
  intros Hc. destruct (bufs_lookup_inv s b c Hc) as (bb&Hbb&<-&Hlt).
  unfold buf_data. by mrun (node_run b bb s Hbb).
Qed.

(** A locked buffer is given new data, written and released. *)
Lemma put_run X s b c dt :
  bc_inv X s → bufs s !! b = Some c → c_busy c = true → c_valid c = true →
  ¬ X b → length dt = 512%nat →
  ∃ s1 s2, set_buf_data b dt s = Ok tt s1 ∧ bwrite b s1 = Ok tt s2 ∧
    bc_inv X s2 ∧ bc_k s2 = bc_k s ∧
    bufs s2 = <[b := flushed (cdata dt c)]> (bufs s) ∧
    bc_hist s2 = bc_hist s ++ [(c_dev c, c_sector c, dt)] ∧
    (∀ dev sec, dview (bc_drv s2) dev sec =
       apply_w (dview (bc_drv s)) (c_dev c, c_sector c, dt) dev sec) ∧
    (∀ dev sec, view s2 dev sec = apply_w (view s) (c_dev c, c_sector c, dt) dev sec) ∧
    (∀ dev sec, dvalid (bc_drv s2) dev sec ↔ dvalid (bc_drv s) dev sec).
Proof.
  intros HI Hc Hb Hv HX Hl.
  destruct (set_buf_data_run X s b c dt HI Hc Hb Hv Hl) as (s1&E1&HI1&(K1&D1&Hh1)&B1&V1).
  assert (Hc1 : bufs s1 !! b = Some (cdata dt c))
    by (rewrite B1; apply list_lookup_insert_eq; by eapply lookup_lt_Some).
  destruct (bwrite_run (Xadd X b) s1 b (cdata dt c) HI1 Hc1 Hb Hv) as
    (s2&E2&HI2&V2&B2&K2&Hh2&D2&A2).
  exists s1, s2. rewrite D1 in D2, A2. split_and!; try done.
  - destruct HI2 as [L2 R2 C2]. split; [done|done|].
    assert (Hc2 : bufs s2 !! b = Some (flushed (cdata dt c)))
      by (rewrite B2; apply list_lookup_insert_eq; by eapply lookup_lt_Some).
    assert (HXX : ∀ j, Xdel (Xadd X b) b j ↔ X j) by (unfold Xdel, Xadd; naive_solver).
    destruct C2 as [c1 c2 c3 c4 c5 c6 c7]. split; try done.
    + intros i ci Hi Hx. apply (c1 i ci Hi). by apply HXX.
    + intros i ci Hi Hvi Hdi Hx. apply (c7 i ci Hi Hvi Hdi). by rewrite HXX.
  - congruence.
  - by rewrite B2, B1, list_insert_insert_eq.
  - by rewrite Hh2, Hh1.
  - intros. by rewrite V2, V1.
Qed.

Lemma released_busied c : flags_ok (c_flags c) → c_busy c = false → released (busied c) = c.
Proof.
  destruct c as [fl dv sc dt]. unfold released, busied, cflags, c_busy, flags_ok; simpl.
  intros Hf Hb. f_equal. revert Hb. revert fl Hf.
  refine (flags_cases _ _ _ _ _ _ _ _ _); by vm_compute.
Qed.

(** A buffer taken by [bread] and put back unchanged, or written. *)
Lemma settled_flush ws c c' dt : flags_ok (c_flags c') → c_busy c = false →
  (c_dirty c = true → (c_dev c, c_sector c) ∈ ws.*1) →
  settled ws c (released (flushed (cdata dt c'))).
Proof.
  intros Hf Hb Hd. assert (Hff := flag_facts (cdata dt c') Hf).
  assert (Hff2 := flag_facts (flushed (cdata dt c')) ltac:(apply Hff)).
  split_and!; [done|apply Hff2|]. right. split; [|done].
  transitivity (c_dirty (flushed (cdata dt c'))); [apply Hff2|apply Hff].
Qed.

(** [bread] of the sector can return at once. *)
Definition gettable s (dev sec : Z) : Prop :=
  dev ≠ NODEV ∧ dvalid (bc_drv s) dev sec ∧ unlocked s dev sec ∧
  (cached s dev sec ∨ (0 < room s)%nat).

(** [s1] is [s] with buffer [b] taken for the sector: [c] before, [c'] now. *)
Record taken X s dev sec b c c' s1 : Prop := {
  tk_before : bufs s !! b = Some c;
  tk_free : c_busy c = false;
  tk_bufs : bufs s1 = <[b := c']> (bufs s);
  tk_env : same_env s s1;
  tk_inv : bc_inv X s1;
  tk_view : same_view s s1;
  tk_busy : c_busy c' = true;
  tk_valid : c_valid c' = true;
  tk_dev : c_dev c' = dev;
  tk_sec : c_sector c' = sec;
  tk_data : c_data c' = view s dev sec;
  tk_clean : c_dirty c = false → c_dirty c' = false;
  tk_dirty : c_dirty c = true → c' = busied c;
  tk_X : ¬ X b
}.

Lemma take_run X dev sec s : bc_inv X s → bc_ready s → gettable s dev sec →
  ∃ b c c' s1, bread dev sec s = Ok b s1 ∧ taken X s dev sec b c c' s1.
Proof.
  intros HI Hr (Hnd&Hdv&Hu&Hg). destruct (bread_run X dev sec s HI Hr Hnd Hdv Hu Hg) as (b&s1&E).
  destruct (bread_ok X dev sec s b s1 HI Hr Hnd Hdv E) as
    (c&c'&Hc&Hcb&Hb&He&HI'&Hv&F1&F2&F3&F4&F5&F6&F7).
  exists b, c, c', s1. split; [done|]. split; try done; [congruence|].
  intros HX. by rewrite (coh_X X _ _ (inv_coh X s HI) b c Hc HX) in Hcb.
Qed.

Lemma taken_now X s dev sec b c c' s1 : taken X s dev sec b c c' s1 → bufs s1 !! b = Some c'.
Proof.
  intros Ht. rewrite (tk_bufs _ _ _ _ _ _ _ _ Ht). apply list_lookup_insert_eq.
  eapply lookup_lt_Some. apply Ht.
Qed.

Lemma taken_ready X s dev sec b c c' s1 : taken X s dev sec b c c' s1 → bc_ready s → bc_ready s1.
Proof. intros Ht Hr. unfold bc_ready. by rewrite (proj1 (tk_env _ _ _ _ _ _ _ _ Ht)). Qed.

Lemma touched_insert ws cs i c c' : cs !! i = Some c → settled ws c c' →
  touched ws cs (<[i := c']> cs).
Proof.
  intros Hi Hs. split; [by rewrite length_insert|]. intros j x y Hx Hy.
  apply lookup_ins in Hy as [(->&->&_)|[_ Hy]]; simplify_eq; auto.
Qed.

(** Reading a sector. *)
Lemma read_cycle X s dev sec : bc_inv X s → bc_ready s → gettable s dev sec →
  ∃ b s1 s2, bread dev sec s = Ok b s1 ∧ buf_data b s1 = Ok (view s dev sec) s1 ∧
    brelse b s1 = Ok tt s2 ∧ wrote X s s2 [].
Proof.
  intros HI Hr Hg. destruct (take_run X dev sec s HI Hr Hg) as (b&c&c'&s1&E1&Ht).
  assert (Hi1 := taken_now _ _ _ _ _ _ _ _ Ht). pose proof Ht as [T1 T2 T3 (K&Dr&Hh) T5 T6 T7 T8 T9 T10 T11 T12 T13 T14].
  destruct (brelse_run X s1 b c') as (s2&E2&I2&V2&B2&K2&D2&H2&_); try done.
  { by eapply taken_ready. }
  exists b, s1, s2. split_and!; [done|by rewrite (buf_data_run s1 b c' Hi1), T11|done|].
  assert (Hto : touched [] (bufs s) (bufs s2)).
  { rewrite B2, T3, list_insert_insert_eq. eapply touched_insert; [done|].
    assert (Hfl := coh_flags X _ _ (inv_coh X s HI) b c T1).
    assert (Hff := flag_facts c' (coh_flags X _ _ (inv_coh X s1 T5) b c' Hi1)).
    split_and!; [done|apply Hff|]. destruct (c_dirty c) eqn:Hd.
    - left. rewrite T13 by done. by apply released_busied.
    - right. split; [|done]. transitivity (c_dirty c'); [apply Hff|auto]. }
  destruct (touched_facts _ _ _ Hto) as (F1&F2&F3). split; try done.
  - destruct Hr as (?&?&?). unfold bc_ready. rewrite K2, K. split_and!; auto with kdb.
  - exists [CBuf b]. by rewrite K2, K.
  - by rewrite H2, Hh, app_nil_r.
  - intros. by rewrite D2, Dr.
  - intros. by rewrite V2, T6.
  - intros. by rewrite D2, Dr.
Qed.

(** Reading a sector, changing it and writing it. *)
Lemma write_cycle X s dev sec dt :
  bc_inv X s → bc_ready s → gettable s dev sec → length dt = 512%nat →
  ∃ b s1 s2 s3 s4, bread dev sec s = Ok b s1 ∧ buf_data b s1 = Ok (view s dev sec) s1 ∧
    set_buf_data b dt s1 = Ok tt s2 ∧ bwrite b s2 = Ok tt s3 ∧ brelse b s3 = Ok tt s4 ∧
    (∀ i x, bufs s !! i = Some x → c_busy x = true → bufs s1 !! i = Some x) ∧
    wrote X s s4 [(dev, sec, dt)].
Proof.
  intros HI Hr Hg Hl. destruct (take_run X dev sec s HI Hr Hg) as (b&c&c'&s1&E1&Ht).
  assert (Hi1 := taken_now _ _ _ _ _ _ _ _ Ht).
  pose proof Ht as [T1 T2 T3 (K&Dr&Hh) T5 T6 T7 T8 T9 T10 T11 T12 T13 T14].
  destruct (put_run X s1 b c' dt T5 Hi1 T7 T8 T14 Hl) as
    (s2&s3&E2&E3&I3&K3&B3&Hh3&D3&V3&A3).
  assert (Hi3 : bufs s3 !! b = Some (flushed (cdata dt c')))
    by (rewrite B3; apply list_lookup_insert_eq; by eapply lookup_lt_Some).
  assert (Hfl := coh_flags X _ _ (inv_coh X s1 T5) b c' Hi1).
  assert (Hff := flag_facts (cdata dt c') Hfl).
  destruct (brelse_run X s3 b (flushed (cdata dt c')) I3) as (s4&E4&I4&V4&B4&K4&D4&H4&_); [|exact Hi3| |done|].
  { unfold bc_ready. rewrite K3. by eapply taken_ready. }
  { transitivity (c_busy (cdata dt c')); [apply Hff|done]. }
  exists b, s1, s2, s3, s4. split_and!; try done; [by rewrite (buf_data_run s1 b c' Hi1), T11| |].
  { intros i x Hi Hx. rewrite T3, list_lookup_insert_ne; [done|]. intros <-. congruence. }
  assert (Hto : touched [(dev, sec, dt)] (bufs s) (bufs s4)).
  { rewrite B4, B3, T3, !list_insert_insert_eq. eapply touched_insert; [done|].
    apply settled_flush; [done|done|]. intros Hd. simpl. rewrite T13 in T9, T10 by done.
    simpl in T9, T10. rewrite T9, T10. by apply list_elem_of_singleton. }
  destruct (touched_facts _ _ _ Hto) as (F1&F2&F3). split; try done.
  - destruct Hr as (?&?&?). unfold bc_ready. rewrite K4, K3, K. split_and!; auto with kdb.
  - exists [CBuf b]. by rewrite K4, K3, K.
  - by rewrite H4, Hh3, Hh, T9, T10.
  - intros. rewrite D4, D3, T9, T10, Dr. done.
  - intros. rewrite V4, V3, T9, T10. by apply apply_w_ext.
  - intros. by rewrite D4, A3, Dr.
Qed.

(** While one buffer is held a second one can be had: its sector is cached
    dirty, so it was not recycled, or there was room for two. *)
Definition dirty_cached s (dev sec : Z) : Prop :=
  ∃ i c, bufs s !! i = Some c ∧ c_is dev sec c = true ∧ c_dirty c = true.

Lemma gettable_second X s dev l sec b c c' s1 :
  taken X s dev l b c c' s1 → l ≠ sec → dev ≠ NODEV → dvalid (bc_drv s) dev sec →
  unlocked s dev sec → dirty_cached s dev sec ∨ (1 < room s)%nat →
  gettable s1 dev sec.
Proof.
  intros Ht Hne Hnd Hdv Hu Hc. assert (Hi1 := taken_now _ _ _ _ _ _ _ _ Ht).
  pose proof Ht as [T1 T2 T3 (K&Dr&Hh) T5 T6 T7 T8 T9 T10 T11 T12 T13 T14].
  assert (Hkn : c_is dev sec c' = false).
  { apply not_true_iff_false. intros [_ ?]%c_is_true. congruence. }
  split_and!; [done|by rewrite Dr| |].
  - intros i x Hi Hk. rewrite T3 in Hi. apply lookup_ins in Hi as [(->&->&_)|[_ Hi]]; [congruence|].
    by apply (Hu i x).
  - destruct Hc as [(i&x&Hi&Hk&Hd)|Hroom].
    + left. exists i, x. split; [|done]. rewrite T3.
      rewrite list_lookup_insert_ne; [done|]. intros ->. rewrite T1 in Hi.
      injection Hi as <-. rewrite (T13 Hd) in Hkn. change (c_is dev sec c = false) in Hkn. congruence.
    + right. unfold room in *. rewrite T3. pose proof (cnt_insert c_idle (bufs s) b c c' T1) as Hcnt.
      destruct (c_idle c), (c_idle c'); lia.
Qed.

(** Copying one sector onto another, with both buffers held. *)
Lemma copy_cycle X s dev l sec :
  bc_inv X s → bc_ready s → gettable s dev l → l ≠ sec →
  dvalid (bc_drv s) dev sec → unlocked s dev sec →
  dirty_cached s dev sec ∨ (1 < room s)%nat →
  ∃ bl bd s1 s2 s3 s4 s5 s6, bread dev l s = Ok bl s1 ∧ bread dev sec s1 = Ok bd s2 ∧
    buf_data bl s2 = Ok (view s dev l) s2 ∧ set_buf_data bd (view s dev l) s2 = Ok tt s3 ∧
    bwrite bd s3 = Ok tt s4 ∧ brelse bl s4 = Ok tt s5 ∧ brelse bd s5 = Ok tt s6 ∧
    wrote X s s6 [(dev, sec, view s dev l)].
Proof.
  intros HI Hr Hg Hne Hdv Hu Hc. pose proof Hg as (Hnd&Hdvl&_).
  destruct (take_run X dev l s HI Hr Hg) as (bl&cl&cl'&s1&E1&Ht).
  assert (Hg2 := gettable_second _ _ _ _ _ _ _ _ _ Ht Hne Hnd Hdv Hu Hc).
  assert (Hi1 := taken_now _ _ _ _ _ _ _ _ Ht). assert (Hr1 := taken_ready _ _ _ _ _ _ _ _ Ht Hr).
  pose proof Ht as [T1 T2 T3 (K&Dr&Hh) T5 T6 T7 T8 T9 T10 T11 T12 T13 T14].
  destruct (take_run X dev sec s1 T5 Hr1 Hg2) as (bd&cd&cd'&s2&E2&Ht2).
  assert (Hi2 := taken_now _ _ _ _ _ _ _ _ Ht2). assert (Hr2 := taken_ready _ _ _ _ _ _ _ _ Ht2 Hr1).
  pose proof Ht2 as [U1 U2 U3 (K2&Dr2&Hh2) U5 U6 U7 U8 U9 U10 U11 U12 U13 U14].
  assert (Hbb : bl ≠ bd) by (intros ->; rewrite Hi1 in U1; congruence).
  assert (Hl2 : bufs s2 !! bl = Some cl') by (rewrite U3, list_lookup_insert_ne by done; done).
  assert (Hlen : length (view s dev l) = 512%nat).
  { rewrite <- T11. by apply (coh_len X _ _ (inv_coh X s1 T5) bl cl' Hi1). }
  set (dt := view s dev l) in *.
  destruct (put_run X s2 bd cd' dt U5 Hi2 U7 U8 U14 Hlen) as (s3&s4&E3&E4&I4&K4&B4&Hh4&D4&V4&A4).
  assert (Hl4 : bufs s4 !! bl = Some cl') by (rewrite B4, list_lookup_insert_ne by done; done).
  assert (Hr4 : bc_ready s4) by (unfold bc_ready; by rewrite K4).
  destruct (brelse_run X s4 bl cl' I4 Hr4 Hl4 T7 T14) as (s5&E5&I5&V5&B5&K5&D5&H5&_).
  assert (Hd5 : bufs s5 !! bd = Some (flushed (cdata dt cd'))).
  { rewrite B5, list_lookup_insert_ne by done. rewrite B4. apply list_lookup_insert_eq.
    by eapply lookup_lt_Some. }
  assert (Hfd := coh_flags X _ _ (inv_coh X s2 U5) bd cd' Hi2).
  assert (Hff := flag_facts (cdata dt cd') Hfd).
  assert (Hr5 : bc_ready s5).
  { destruct Hr4 as (?&?&?). unfold bc_ready. rewrite K5. split_and!; auto with kdb. }
  destruct (brelse_run X s5 bd (flushed (cdata dt cd')) I5 Hr5 Hd5) as
    (s6&E6&I6&V6&B6&K6&D6&H6&_); [by transitivity (c_busy (cdata dt cd')); [apply Hff|]|done|].
  exists bl, bd, s1, s2, s3, s4, s5, s6.
  split_and!; try done; [by rewrite (buf_data_run s2 bl cl' Hl2), T11|].
  assert (Hto : touched [(dev, sec, dt)] (bufs s) (bufs s6)).
  { split; [by rewrite B6, B5, B4, U3, T3, !length_insert|]. intros i x y Hx Hy.
    rewrite B6 in Hy. apply lookup_ins in Hy as [(->&->&_)|[Hn1 Hy]].
    - right. rewrite T3, list_lookup_insert_ne, Hx in U1 by done. injection U1 as <-.
      apply settled_flush; [done|done|]. intros Hd. rewrite U13 in U9, U10 by done.
      simpl in *. rewrite U9, U10. by apply list_elem_of_singleton.
    - rewrite B5 in Hy. apply lookup_ins in Hy as [(->&->&_)|[Hn2 Hy]].
      + right. rewrite T1 in Hx. injection Hx as <-. assert (Hffl := flag_facts cl' (coh_flags X _ _ (inv_coh X s1 T5) bl cl' Hi1)).
        split_and!; [done|apply Hffl|]. destruct (c_dirty cl) eqn:Hd.
        * left. rewrite T13 by done.
          apply released_busied; [|done]. by apply (coh_flags X _ _ (inv_coh X s HI) bl).
        * right. split; [|done]. transitivity (c_dirty cl'); [apply Hffl|auto].
      + left. rewrite B4, list_lookup_insert_ne, U3, list_lookup_insert_ne, T3,
          list_lookup_insert_ne in Hy by done. congruence. }
  destruct (touched_facts _ _ _ Hto) as (F1&F2&F3). split; try done.
  - destruct Hr5 as (?&?&?). unfold bc_ready. rewrite K6. split_and!; auto with kdb.
  - exists [CBuf bl; CBuf bd]. by rewrite K6, K5, K4, K2, K.
  - by rewrite H6, H5, Hh4, Hh2, Hh, U9, U10.
  - intros. by rewrite D6, D5, D4, U9, U10, Dr2, Dr.
  - intros. rewrite V6, V5, V4, U9, U10. apply apply_w_ext. by rewrite U6, T6.
  - intros. by rewrite D6, D5, A4, Dr2, Dr.
Qed.
End BioRun.
