(* ===== verification/Log.v ===== *)
(** The write-ahead log (log.c) and the super block (fs.h, [readsb]). *)
From S2P Require Import Prelude Kmonad Kstate Spinlock Sleep Disk Cache Bio BioRun.

(** ** fs.h: the super block *)
Record superblock := Superblock {
  sb_size : Z;        (* Size of file system image (blocks) *)
  sb_nblocks : Z;     (* Number of data blocks *)
  sb_ninodes : Z;     (* Number of inodes *)
  sb_nlog : Z         (* Number of log blocks *)
}.
Definition superblock_of (d : list Z) : superblock :=
  Superblock (get_u32 0 d) (get_u32 4 d) (get_u32 8 d) (get_u32 12 d).

(** [struct log] over the buffer cache; [lh] is [lg_n] and [lg_sector]. *)
Record log (D : Type) := Log {
  lg_bc : bcache D;
  lg_start : Z;
  lg_size : Z;
  lg_busy : bool;                  (* a transaction is active *)
  lg_dev : Z;
  lg_n : Z;
  lg_sector : list Z
}.
Arguments Log {D} _ _ _ _ _ _ _.
Arguments lg_bc {D} _.
Arguments lg_start {D} _.
Arguments lg_size {D} _.
Arguments lg_busy {D} _.
Arguments lg_dev {D} _.
Arguments lg_n {D} _.
Arguments lg_sector {D} _.

Definition set_lg_bc {D} (v : bcache D) (s : log D) :=
  Log v (lg_start s) (lg_size s) (lg_busy s) (lg_dev s) (lg_n s) (lg_sector s).
Definition set_lg_place {D} (start size dev : Z) (s : log D) :=
  Log (lg_bc s) start size (lg_busy s) dev (lg_n s) (lg_sector s).
Definition set_lg_busy {D} (v : bool) (s : log D) :=
  Log (lg_bc s) (lg_start s) (lg_size s) v (lg_dev s) (lg_n s) (lg_sector s).
Definition set_lg_n {D} (v : Z) (s : log D) :=
  Log (lg_bc s) (lg_start s) (lg_size s) (lg_busy s) (lg_dev s) v (lg_sector s).
Definition set_lg_sector {D} (v : list Z) (s : log D) :=
  Log (lg_bc s) (lg_start s) (lg_size s) (lg_busy s) (lg_dev s) (lg_n s) v.

Definition lg_bc_lens {D} : lens (log D) (bcache D) := Lens lg_bc set_lg_bc.
Definition lg_k_lens {D} : lens (log D) kst := lens_comp lg_bc_lens bc_k_lens.

Section Log.
Context {D : Type} `{DriverLaws D}.

Definition bio {A} (m : M (bcache D) A) : M (log D) A := zoom lg_bc_lens m.
Definition lkz {A} (m : M kst A) : M (log D) A := zoom lg_k_lens m.

(** fs.c: Read the super block. *)
Definition readsb (dev : Z) : M (bcache D) superblock :=
  bp ← bread dev 1;
  d ← buf_data bp;
  brelse bp;;
  mret (superblock_of d).

(** The on-disk header block: [int n] and [int sector[LOGSIZE]].  A sector
    number is an [int] in the log and a [uint] in a buffer. *)
Definition hdr_n (d : list Z) : Z := i32 (get_u32 0 d).
Definition hdr_sector (i : nat) (d : list Z) : Z := i32 (get_u32 (4 + 4 * i) d).
Fixpoint hdr_put (i : nat) (secs : list Z) (d : list Z) : list Z :=
  match secs with
  | [] => d
  | x :: secs => hdr_put (S i) secs (put_u32 (4 + 4 * i) x d)
  end.

(** Copy committed blocks from log to their home location. *)
Definition install_block (tail : nat) : M (log D) unit :=
  dev ← gets lg_dev;
  start ← gets lg_start;
  lbuf ← bio (bread dev (u32 (start + Z.of_nat tail + 1)));
  sec ← deref (λ s, lg_sector s !! tail);
  dbuf ← bio (bread dev (u32 sec));
  d ← bio (buf_data lbuf);
  bio (set_buf_data dbuf d);;
  bio (bwrite dbuf);;
  bio (brelse lbuf);;
  bio (brelse dbuf).

Definition install_trans : M (log D) unit :=
  n ← gets lg_n;
  for_each (seq 0 (Z.to_nat n)) install_block.

(** [log.lh.sector[i] = x]; outside the array it is undefined. *)
Definition set_sector (i : nat) (x : Z) : M (log D) unit := λ s,
  if decide (i < length (lg_sector s))%nat
  then Ok tt (set_lg_sector (<[i := x]> (lg_sector s)) s) else Fault s.

(** Read the log header from disk into the in-memory log header. *)
Definition read_head : M (log D) unit :=
  dev ← gets lg_dev;
  start ← gets lg_start;
  buf ← bio (bread dev (u32 start));
  d ← bio (buf_data buf);
  modify (set_lg_n (hdr_n d));;
  for_each (seq 0 (Z.to_nat (hdr_n d))) (λ i, set_sector i (hdr_sector i d));;
  bio (brelse buf).

(** Write in-memory log header to disk. *)
Definition write_head : M (log D) unit :=
  dev ← gets lg_dev;
  start ← gets lg_start;
  buf ← bio (bread dev (u32 start));
  d ← bio (buf_data buf);
  n ← gets lg_n;
  secs ← deref (λ s, if decide (n ≤ Z.of_nat (length (lg_sector s)))
                     then Some (take (Z.to_nat n) (lg_sector s)) else None);
  bio (set_buf_data buf (hdr_put 0 secs (put_u32 0 n d)));;
  bio (bwrite buf);;
  bio (brelse buf).

Definition recover_from_log : M (log D) unit :=
  read_head;;
  install_trans;;
  modify (set_lg_n 0);;
  write_head.

Definition initlog : M (log D) unit :=
  if BSIZE <=? 4 + 4 * LOGSIZE then panic "initlog: too big logheader" else
  lkz (initlock LLog);;
  sb ← bio (readsb ROOTDEV);
  modify (set_lg_place (i32 (sb_size sb - sb_nlog sb)) (i32 (sb_nlog sb)) ROOTDEV);;
  recover_from_log.

(** [while(log.busy) sleep(...)]: woken up, the process tests again. *)
Definition begin_trans : M (log D) unit :=
  lkz (acquire LLog);;
  busy ← gets lg_busy;
  if busy : bool then lkz (sleep CLog LLog);; nofuel else
  modify (set_lg_busy true);;
  lkz (release LLog).

Definition commit_trans : M (log D) unit :=
  n ← gets lg_n;
  when (0 <? n)
    (write_head;;
     install_trans;;
     modify (set_lg_n 0);;
     write_head);;
  lkz (acquire LLog);;
  modify (set_lg_busy false);;
  lkz (wakeup CLog);;
  lkz (release LLog).

(** The index of a sector among the first [n], or [n] (log absorption). *)
Fixpoint log_index (n : nat) (secs : list Z) (sec : Z) : nat :=
  match n, secs with
  | S n, x :: secs => if u32 x =? sec then O else S (log_index n secs sec)
  | _, _ => O
  end.

Definition log_write (b : nat) : M (log D) unit :=
  n ← gets lg_n;
  size ← gets lg_size;
  if (LOGSIZE <=? n) || (size - 1 <=? n) then panic "too big a transaction" else
  busy ← gets lg_busy;
  if negb busy then panic "write outside of trans" else
  bb ← bio (node b);
  secs ← gets lg_sector;
  let i := log_index (Z.to_nat n) secs (b_sector bb) in
  set_sector i (i32 (b_sector bb));;
  start ← gets lg_start;
  lbuf ← bio (bread (b_dev bb) (u32 (start + Z.of_nat i + 1)));
  d ← bio (buf_data b);
  bio (set_buf_data lbuf d);;
  bio (bwrite lbuf);;
  bio (brelse lbuf);;
  when (Z.of_nat i =? n) (modify (set_lg_n (n + 1)));;
  bio (upd_node b (λ x, set_b_flags (setf (b_flags x) B_DIRTY) x)).

(** ** Running the pieces *)
Implicit Types (s : log D) (bc : bcache D).

Lemma bio_run {A} (m : M (bcache D) A) s a bc :
  m (lg_bc s) = Ok a bc → bio m s = Ok a (set_lg_bc bc s).
Proof. intros E. unfold bio, zoom; simpl. by rewrite E. Qed.

Lemma lkz_run {A} (m : M kst A) s a k :
  m (bc_k (lg_bc s)) = Ok a k → lkz m s = Ok a (set_lg_bc (set_bc_k k (lg_bc s)) s).
Proof. intros E. unfold lkz, zoom; simpl. by rewrite E. Qed.

Lemma set_lg_bc_same s : set_lg_bc (lg_bc s) s = s.
Proof. by destruct s. Qed.

(** The header with [n] and its sectors in place. *)
Definition hdr (n : Z) (secs d : list Z) : list Z := hdr_put 0 secs (put_u32 0 n d).

Lemma length_hdr_put i secs d : (4 + 4 * (i + length secs) ≤ length d)%nat →
  length (hdr_put i secs d) = length d.
Proof.
  revert i d. induction secs as [|x secs IH]; intros i d Hl; [done|]. simpl in *.
  rewrite IH; rewrite length_put_u32; lia.
Qed.

Lemma length_hdr n secs d : (4 + 4 * length secs ≤ length d)%nat →
  length (hdr n secs d) = length d.
Proof. intros Hl. unfold hdr. rewrite length_hdr_put; rewrite length_put_u32; lia. Qed.

Lemma hdr_put_out i secs d off : (4 + 4 * (i + length secs) ≤ length d)%nat →
  (off + 4 ≤ 4 + 4 * i)%nat → get_u32 off (hdr_put i secs d) = get_u32 off d.
Proof.
  revert i d. induction secs as [|x secs IH]; intros i d Hl Ho; [done|]. simpl in *.
  rewrite IH; [|rewrite length_put_u32; lia|lia]. rewrite get_put_u32_ne; [done|lia|lia].
Qed.

Lemma hdr_put_in i secs d j x : (4 + 4 * (i + length secs) ≤ length d)%nat →
  secs !! j = Some x → get_u32 (4 + 4 * (i + j)) (hdr_put i secs d) = u32 x.
Proof.
  revert i d j. induction secs as [|y secs IH]; intros i d [|j] Hl Hj; try done;
    cbn [hdr_put length lookup list_lookup] in *; simplify_eq.
  - rewrite hdr_put_out; [|rewrite length_put_u32; lia|lia].
    replace (i + 0)%nat with i by lia. apply get_put_u32. lia.
  - replace (i + S j)%nat with (S i + j)%nat by lia. apply IH; [|done]. rewrite length_put_u32; lia.
Qed.

Definition is_i32 (x : Z) : Prop := 0 ≤ x < 2147483648.

Lemma hdr_n_hdr n secs d : is_i32 n → (4 + 4 * length secs ≤ length d)%nat →
  hdr_n (hdr n secs d) = n.
Proof.
  unfold is_i32. intros Hn Hl. unfold hdr_n, hdr. rewrite hdr_put_out; [|rewrite length_put_u32; lia|lia].
  rewrite get_put_u32 by lia. rewrite u32_small by lia. apply i32_small. lia.
Qed.

Lemma hdr_sector_hdr n secs d i x : (4 + 4 * length secs ≤ length d)%nat →
  secs !! i = Some x → is_i32 x → hdr_sector i (hdr n secs d) = x.
Proof.
  unfold is_i32. intros Hl Hi Hx. unfold hdr_sector, hdr.
  rewrite (hdr_put_in 0 secs _ i x); [|rewrite length_put_u32; lia|done].
  rewrite u32_small by lia. apply i32_small. lia.
Qed.

(** ** Where the log is *)

(** The log region: header at [start], data blocks behind it. *)
Definition in_log s (sec : Z) : Prop := lg_start s ≤ sec < lg_start s + lg_size s.

(** The sectors of the current transaction. *)
Definition trans s : list Z := take (Z.to_nat (lg_n s)) (lg_sector s).

Record log_ok s : Prop := {
  lo_dev : lg_dev s ≠ NODEV;
  lo_start : 0 ≤ lg_start s ∧ 0 < lg_size s ∧ lg_start s + lg_size s < 2147483648;
  lo_len : length (lg_sector s) = Z.to_nat LOGSIZE;
  lo_n : 0 ≤ lg_n s ≤ LOGSIZE ∧ lg_n s < lg_size s;
  lo_log : ∀ sec, in_log s sec →
    dvalid (bc_drv (lg_bc s)) (lg_dev s) sec ∧ unlocked (lg_bc s) (lg_dev s) sec;
  lo_home : ∀ sec, sec ∈ trans s → is_i32 sec ∧ ¬ in_log s sec ∧
    dvalid (bc_drv (lg_bc s)) (lg_dev s) sec;
  lo_nodup : NoDup (trans s)
}.

Lemma length_trans s : log_ok s → length (trans s) = Z.to_nat (lg_n s).
Proof. intros [_ _ Hl Hn _ _ _]. unfold trans. rewrite length_take, Hl. lia. Qed.

(** Cycles on the log or on home blocks keep the layout. *)
Lemma log_ok_wrote X s bc ws : log_ok s → wrote X (lg_bc s) bc ws → log_ok (set_lg_bc bc s).
Proof.
  intros [L1 L2 L3 L4 L5 L6 L7] Hw. split; try done.
  - intros sec Hs. destruct (L5 sec Hs) as [Hv Hu]. split; simpl.
    + by apply (wr_dvalid _ _ _ _ Hw).
    + by eapply wrote_unlocked.
  - intros sec Hs. destruct (L6 sec Hs) as (Hi&Hl&Hv). split_and!; [done|done|]; simpl.
    by apply (wr_dvalid _ _ _ _ Hw).
Qed.

Lemma log_gettable s sec : log_ok s → in_log s sec → (0 < room (lg_bc s))%nat →
  gettable (lg_bc s) (lg_dev s) sec.
Proof. intros Ho Hs Hr. destruct (lo_log s Ho sec Hs). split_and!; [apply Ho|done|done|by right]. Qed.

Lemma view_length X bc dev sec : bc_inv X bc → dvalid (bc_drv bc) dev sec →
  length (view bc dev sec) = 512%nat.
Proof.
  intros HI Hv. unfold view. destruct (cview_cases (bufs bc) (bc_drv bc) dev sec) as
    [(i&c&Hi&Hcv&_&->)|[_ ->]]; [|by apply dview_length].
  by apply (coh_len X _ _ (inv_coh X bc HI) i c Hi).
Qed.

Lemma u32_int x : is_i32 x → u32 x = x.
Proof. unfold is_i32. intros. apply u32_small. lia. Qed.

Lemma in_log_int s sec : log_ok s → in_log s sec → is_i32 sec.
Proof. intros Ho. unfold in_log, is_i32. pose proof (lo_start s Ho). lia. Qed.

Lemma in_log_block s (i : nat) : log_ok s → Z.of_nat i < lg_n s → in_log s (lg_start s + Z.of_nat i + 1).
Proof. intros Ho Hi. pose proof (lo_n s Ho). unfold in_log. lia. Qed.

Lemma in_log_start s : log_ok s → in_log s (lg_start s).
Proof. intros Ho. pose proof (lo_start s Ho). unfold in_log. lia. Qed.

Lemma write_head_run X s : log_ok s → bc_inv X (lg_bc s) → bc_ready (lg_bc s) →
  (0 < room (lg_bc s))%nat →
  ∃ bc, write_head s = Ok tt (set_lg_bc bc s) ∧
    wrote X (lg_bc s) bc [(lg_dev s, lg_start s,
      hdr (lg_n s) (trans s) (view (lg_bc s) (lg_dev s) (lg_start s)))].
Proof.
  intros Ho HI Hr Hroom. assert (Hs := in_log_start s Ho).
  assert (Hg := log_gettable s _ Ho Hs Hroom).
  set (d := view (lg_bc s) (lg_dev s) (lg_start s)).
  assert (Hd : length d = 512%nat) by (eapply view_length; [exact HI|apply Hg]).
  assert (Hlt := length_trans s Ho). pose proof (lo_n s Ho) as Hn. unfold LOGSIZE in Hn.
  assert (Hl : length (hdr (lg_n s) (trans s) d) = 512%nat) by (rewrite length_hdr; lia).
  destruct (write_cycle X _ _ _ _ HI Hr Hg Hl) as (b&s1&s2&s3&s4&E1&E2&E3&E4&E5&_&Hw).
  exists s4. split; [|done]. unfold write_head.
  do 2 (erewrite bind_run by reflexivity). rewrite (u32_int (lg_start s)) by by eapply in_log_int.
  erewrite bind_run by by apply bio_run. erewrite bind_run by by apply bio_run. simpl.
  erewrite bind_run by reflexivity. erewrite bind_run.
  2:{ unfold deref; simpl. rewrite (lo_len s Ho), decide_True by (unfold LOGSIZE; lia). reflexivity. }
  erewrite bind_run by (apply bio_run; exact E3). erewrite bind_run by by apply bio_run.
  eapply eq_trans; [by apply bio_run|reflexivity].
Qed.

(** What [install_trans] writes: each logged block to its home sector. *)
Definition installs s (v : Z → Z → list Z) (k : nat) (secs : list Z) : list sect :=
  imap (λ i sec, (lg_dev s, sec, v (lg_dev s) (lg_start s + Z.of_nat (k + i) + 1))) secs.

Lemma installs_cons s v k x secs : installs s v k (x :: secs) =
  (lg_dev s, x, v (lg_dev s) (lg_start s + Z.of_nat k + 1)) :: installs s v (S k) secs.
Proof.
  unfold installs. simpl. f_equal; [by rewrite Nat.add_0_r|]. apply imap_ext. intros i y _. simpl.
  do 3 f_equal. lia.
Qed.

Lemma installs_keys s v k secs : (installs s v k secs).*1 = (λ sec, (lg_dev s, sec)) <$> secs.
Proof.
  revert k. induction secs as [|x secs IH]; intros k; [done|]. rewrite installs_cons.
  cbn [fmap list_fmap fst]. f_equal. apply IH.
Qed.

Lemma installs_ext s v v' k secs :
  (∀ i, (i < k + length secs)%nat → v (lg_dev s) (lg_start s + Z.of_nat i + 1) =
     v' (lg_dev s) (lg_start s + Z.of_nat i + 1)) →
  installs s v k secs = installs s v' k secs.
Proof.
  intros Hv. unfold installs. apply imap_ext. intros i x Hi. apply lookup_lt_Some in Hi.
  f_equal. apply Hv. lia.
Qed.

(** Nobody holds the home blocks, and each is in the cache, dirty, or there
    is room to fetch it. *)
Record homes_ready bc (dev : Z) (secs : list Z) : Prop := {
  hr_room : (0 < room bc)%nat;
  hr_get : (1 < room bc)%nat ∨ ∀ sec, sec ∈ secs → dirty_cached bc dev sec;
  hr_unlocked : ∀ sec, sec ∈ secs → unlocked bc dev sec
}.

Lemma homes_ready_sub bc dev secs secs' :
  homes_ready bc dev secs → secs' ⊆ secs → homes_ready bc dev secs'.
Proof.
  intros [H1 H2 H3] Hs. split; [done| |].
  - destruct H2 as [?|H2]; [by left|right]. intros y Hy. apply H2. set_solver.
  - intros y Hy. apply H3. set_solver.
Qed.

Lemma homes_ready_wrote X bc bc' ws dev secs : wrote X bc bc' ws →
  (∀ sec, sec ∈ secs → (dev, sec) ∉ ws.*1) →
  homes_ready bc dev secs → homes_ready bc' dev secs.
Proof.
  intros Hw Hn [H1 H2 H3]. pose proof (wr_room _ _ _ _ Hw). split; [lia| |].
  2:{ intros sec Hs. eapply wrote_unlocked; eauto. }
  destruct H2 as [H2|H2]; [left; lia|]. right. intros sec Hs.
  destruct (H2 sec Hs) as (i&c&Hi&Hk&Hd). exists i, c. split; [|done].
  apply (wr_kept _ _ _ _ Hw); [done|]. right. split; [done|].
  apply c_is_true in Hk as [-> ->]. by apply Hn.
Qed.

Lemma install_block_run X s (k : nat) sec : log_ok s → bc_inv X (lg_bc s) → bc_ready (lg_bc s) →
  trans s !! k = Some sec → homes_ready (lg_bc s) (lg_dev s) [sec] →
  ∃ bc, install_block k s = Ok tt (set_lg_bc bc s) ∧ wrote X (lg_bc s) bc
    [(lg_dev s, sec, view (lg_bc s) (lg_dev s) (lg_start s + Z.of_nat k + 1))].
Proof.
  intros Ho HI Hr Hk [Hroom Hh Hu].
  assert (Hkn : Z.of_nat k < lg_n s).
  { apply lookup_lt_Some in Hk. rewrite length_trans in Hk by done. lia. }
  assert (Hl := in_log_block s k Ho Hkn).
  destruct (lo_home s Ho sec) as (Hi&Hnl&Hv); [by eapply list_elem_of_lookup_2|].
  destruct (copy_cycle X _ (lg_dev s) (lg_start s + Z.of_nat k + 1) sec HI Hr) as
    (bl&bd&s1&s2&s3&s4&s5&s6&E1&E2&E3&E4&E5&E6&E7&Hw); try done.
  { by apply log_gettable. } { intros <-. by destruct Hnl. } { apply Hu. by left. }
  { destruct Hh as [?|Hh]; [by right|left]. apply Hh. by left. }
  exists s6. split; [|done]. unfold install_block.
  do 2 (erewrite bind_run by reflexivity).
  rewrite (u32_int (lg_start s + _ + 1)) by by eapply in_log_int.
  erewrite bind_run by by apply bio_run. erewrite bind_run.
  2:{ unfold deref; simpl. unfold trans in Hk. apply lookup_take_Some in Hk as [Hk _].
      rewrite Hk. reflexivity. }
  rewrite (u32_int sec) by done.
  do 4 (erewrite bind_run by (apply bio_run; eassumption)). simpl.
  erewrite bind_run by (apply bio_run; eassumption). simpl. eapply eq_trans; [by apply bio_run|reflexivity].
Qed.

(** The log blocks are not home blocks, so installing does not change them. *)
Lemma installs_log_view s v w secs sec : log_ok s → (∀ x, x ∈ secs → ¬ in_log s x) →
  in_log s sec → ∀ k, apply_ws (installs s v k secs) w (lg_dev s) sec = w (lg_dev s) sec.
Proof.
  intros Ho Hn Hs k. apply apply_ws_out. rewrite installs_keys, list_elem_of_fmap.
  intros (y&Heq&Hy). simplify_eq. by apply (Hn y).
Qed.

Lemma install_loop X secs k s : log_ok s → bc_inv X (lg_bc s) → bc_ready (lg_bc s) →
  drop k (trans s) = secs → homes_ready (lg_bc s) (lg_dev s) secs →
  ∃ bc, for_each (seq k (length secs)) install_block s = Ok tt (set_lg_bc bc s) ∧
    wrote X (lg_bc s) bc (installs s (view (lg_bc s)) k secs).
Proof.
  revert k s. induction secs as [|x secs IH]; intros k s Ho HI Hr Hd Hh.
  { exists (lg_bc s). split; [by destruct s|]. by apply wrote_refl. }
  assert (Hx : trans s !! k = Some x).
  { rewrite <- (Nat.add_0_r k), <- lookup_drop, Hd. done. }
  assert (Hnd : NoDup (x :: secs)) by (rewrite <- Hd; eapply sublist_NoDup; [apply lo_nodup; exact Ho|apply sublist_drop]).
  apply NoDup_cons in Hnd as [Hnx Hnd].
  destruct (install_block_run X s k x) as (bc1&E1&W1); try done.
  { eapply homes_ready_sub; [exact Hh|]. set_solver. }
  set (s1 := set_lg_bc bc1 s).
  assert (Ho1 := log_ok_wrote _ _ _ _ Ho W1).
  destruct (IH (S k) s1) as (bc2&E2&W2); try done.
  - apply W1.
  - apply W1.
  - change (trans s1) with (trans s). rewrite <- Nat.add_1_r, <- drop_drop, Hd. done.
  - eapply homes_ready_wrote; [exact W1| |].
    + intros y Hy. simpl. rewrite list_elem_of_singleton. intros [= ->]. done.
    + eapply homes_ready_sub; [exact Hh|]. set_solver.
  - exists bc2. split.
    + simpl. mrun E1. exact E2.
    + rewrite installs_cons. change (?a :: ?b) with ([a] ++ b).
      eapply wrote_trans; [exact W1|].
      rewrite (installs_ext s _ (view (lg_bc s1))); [exact W2|]. intros i Hi. simpl.
      rewrite (wr_view _ _ _ _ W1). symmetry. apply apply_ws_out.
      simpl. rewrite list_elem_of_singleton. intros [= Heq].
      assert (Hlen : (k + length (x :: secs) = length (trans s))%nat).
      { rewrite <- Hd, length_drop. apply lookup_lt_Some in Hx. lia. }
      rewrite length_trans in Hlen by done. simpl in Hlen.
      destruct (lo_home s Ho x) as (_&Hnl&_); [by eapply list_elem_of_lookup_2|].
      apply Hnl. rewrite <- Heq. apply in_log_block; [done|lia].
Qed.

Lemma install_trans_run X s : log_ok s → bc_inv X (lg_bc s) → bc_ready (lg_bc s) →
  homes_ready (lg_bc s) (lg_dev s) (trans s) →
  ∃ bc, install_trans s = Ok tt (set_lg_bc bc s) ∧
    wrote X (lg_bc s) bc (installs s (view (lg_bc s)) 0 (trans s)).
Proof.
  intros Ho HI Hr Hh. destruct (install_loop X (trans s) 0 s Ho HI Hr eq_refl Hh) as (bc&E&W).
  exists bc. split; [|done]. unfold install_trans. erewrite bind_run by reflexivity.
  by rewrite <- (length_trans s Ho).
Qed.

(** ** Recovery *)

Definition hdr_secs (d : list Z) : list Z :=
  (λ i, hdr_sector i d) <$> seq 0 (Z.to_nat (hdr_n d)).

Lemma read_sectors_run d m k s : (k + m ≤ length (lg_sector s))%nat →
  for_each (seq k m) (λ i, set_sector i (hdr_sector i d)) s =
  Ok tt (set_lg_sector (take k (lg_sector s) ++ ((λ i, hdr_sector i d) <$> seq k m) ++
                        drop (k + m) (lg_sector s)) s).
Proof.
  revert k s. induction m as [|m IH]; intros k s Hl; simpl.
  { rewrite Nat.add_0_r. unfold mret, M_ret. f_equal. destruct s; unfold set_lg_sector; simpl.
    by rewrite take_drop. }
  unfold mbind, M_bind, set_sector at 1. rewrite decide_True by lia. rewrite IH.
  - f_equal. unfold set_lg_sector; simpl. f_equal.
    rewrite (take_S_r _ k (hdr_sector k d)) by (apply list_lookup_insert_eq; lia).
    rewrite take_insert_ge, drop_insert_lt by lia. rewrite <- app_assoc. simpl.
    do 4 f_equal. lia.
  - simpl. rewrite length_insert. lia.
Qed.

Lemma read_head_run X s : log_ok s → bc_inv X (lg_bc s) → bc_ready (lg_bc s) →
  (0 < room (lg_bc s))%nat →
  let d := view (lg_bc s) (lg_dev s) (lg_start s) in
  0 ≤ hdr_n d ≤ LOGSIZE →
  ∃ bc, read_head s = Ok tt (set_lg_sector (hdr_secs d ++ drop (Z.to_nat (hdr_n d)) (lg_sector s))
                              (set_lg_n (hdr_n d) (set_lg_bc bc s))) ∧
    wrote X (lg_bc s) bc [].
Proof.
  intros Ho HI Hr Hroom d Hn. assert (Hs := in_log_start s Ho).
  destruct (read_cycle X _ _ _ HI Hr (log_gettable s _ Ho Hs Hroom)) as (b&s1&s2&E1&E2&E3&W).
  exists s2. split; [|done]. unfold read_head.
  do 2 (erewrite bind_run by reflexivity). rewrite (u32_int (lg_start s)) by by eapply in_log_int.
  erewrite bind_run by by apply bio_run. erewrite bind_run by by apply bio_run. simpl. fold d.
  erewrite bind_run by reflexivity. erewrite bind_run.
  2:{ apply read_sectors_run. simpl. rewrite (lo_len s Ho). lia. }
  eapply eq_trans; [by apply bio_run|reflexivity].
Qed.

(** The header on disk describes a transaction that can be installed. *)
Record hdr_good s (d : list Z) : Prop := {
  hg_n : 0 ≤ hdr_n d ≤ LOGSIZE ∧ hdr_n d < lg_size s;
  hg_home : ∀ sec, sec ∈ hdr_secs d → is_i32 sec ∧ ¬ in_log s sec ∧
    dvalid (bc_drv (lg_bc s)) (lg_dev s) sec;
  hg_nodup : NoDup (hdr_secs d)
}.

Lemma length_hdr_secs d : length (hdr_secs d) = Z.to_nat (hdr_n d).
Proof. unfold hdr_secs. by rewrite length_fmap, length_seq. Qed.

Lemma log_ok_head X s bc d : log_ok s → hdr_good s d → wrote X (lg_bc s) bc [] →
  let s1 := set_lg_sector (hdr_secs d ++ drop (Z.to_nat (hdr_n d)) (lg_sector s))
              (set_lg_n (hdr_n d) (set_lg_bc bc s)) in
  log_ok s1 ∧ trans s1 = hdr_secs d.
Proof.
  intros Ho [G1 G2 G3] W s1.
  assert (Ht : trans s1 = hdr_secs d).
  { unfold trans, s1; simpl. by rewrite take_app_le, <- length_hdr_secs, take_ge
      by (rewrite ?length_hdr_secs; lia). }
  split; [|done]. destruct (log_ok_wrote _ _ _ _ Ho W) as [L1 L2 L3 L4 L5 L6 L7].
  split; try done; rewrite ?Ht; try done.
  - unfold s1; simpl. rewrite length_app, length_drop, length_hdr_secs, (lo_len s Ho). lia.
  - intros sec Hs. destruct (G2 sec Hs) as (?&?&?). split_and!; try done; unfold s1; simpl.
    by apply (wr_dvalid _ _ _ _ W).
Qed.

Lemma log_ok_clear s : log_ok s → log_ok (set_lg_n 0 s).
Proof.
  intros [L1 L2 L3 L4 L5 L6 L7]. split; try done; simpl; try (unfold LOGSIZE; lia).
  - intros sec. unfold trans; simpl. by rewrite take_0, elem_of_nil.
  - unfold trans; simpl. rewrite take_0. constructor.
Qed.

(** Installing what [log] holds and clearing the header. *)
Lemma install_clear_run X s : log_ok s → bc_inv X (lg_bc s) → bc_ready (lg_bc s) →
  homes_ready (lg_bc s) (lg_dev s) (trans s) →
  ∃ bc, (install_trans;; modify (set_lg_n 0);; write_head) s = Ok tt (set_lg_n 0 (set_lg_bc bc s)) ∧
    wrote X (lg_bc s) bc (installs s (view (lg_bc s)) 0 (trans s) ++
      [(lg_dev s, lg_start s, hdr 0 [] (view (lg_bc s) (lg_dev s) (lg_start s)))]).
Proof.
  intros Ho HI Hr Hh. destruct (install_trans_run X s Ho HI Hr Hh) as (bc1&E1&W1).
  set (s1 := set_lg_n 0 (set_lg_bc bc1 s)).
  assert (Ho1 : log_ok s1) by (apply log_ok_clear; by eapply log_ok_wrote).
  destruct (write_head_run X s1 Ho1) as (bc2&E2&W2); [apply W1|apply W1| |].
  { destruct Hh as [? _ _]. pose proof (wr_room _ _ _ _ W1). simpl. lia. }
  exists bc2. split; [mrun E1; by erewrite bind_run by reflexivity|].
  eapply wrote_trans; [exact W1|].
  assert (Ht : trans s1 = []) by (unfold trans, s1; simpl; by rewrite take_0).
  assert (Hv : view bc1 (lg_dev s) (lg_start s) = view (lg_bc s) (lg_dev s) (lg_start s)).
  { rewrite (wr_view _ _ _ _ W1). apply installs_log_view; [done| |by apply in_log_start].
    intros x Hx. by apply (lo_home s Ho). }
  rewrite Ht in W2. simpl in W2. by rewrite Hv in W2.
Qed.

Lemma recover_run X s : log_ok s → bc_inv X (lg_bc s) → bc_ready (lg_bc s) →
  let d := view (lg_bc s) (lg_dev s) (lg_start s) in
  hdr_good s d → homes_ready (lg_bc s) (lg_dev s) (hdr_secs d) →
  ∃ s2, recover_from_log s = Ok tt s2 ∧ lg_n s2 = 0 ∧ lg_busy s2 = lg_busy s ∧
    wrote X (lg_bc s) (lg_bc s2) (installs s (view (lg_bc s)) 0 (hdr_secs d) ++
      [(lg_dev s, lg_start s, hdr 0 [] d)]).
Proof.
  intros Ho HI Hr d Hg Hh.
  destruct (read_head_run X s Ho HI Hr) as (bc1&E1&W1); [apply Hh|apply Hg|].
  destruct (log_ok_head X s bc1 d Ho Hg W1) as [Ho1 Ht1]. fold d in E1.
  set (s1 := set_lg_sector _ _) in E1, Ho1, Ht1.
  destruct (install_clear_run X s1 Ho1) as (bc2&E2&W2); [apply W1|apply W1| |].
  { rewrite Ht1. eapply homes_ready_wrote; [exact W1| |exact Hh]. set_solver. }
  exists (set_lg_n 0 (set_lg_bc bc2 s1)). split_and!; [|done|done|].
  - unfold recover_from_log. mrun E1. exact E2.
  - rewrite Ht1 in W2. simpl in W2. rewrite <- (app_nil_l (installs _ _ _ _ ++ _)).
    eapply wrote_trans; [exact W1|].
    rewrite (installs_ext s _ (view bc1)); [|intros; by rewrite (wr_view _ _ _ _ W1)].
    rewrite (wr_view _ _ _ _ W1) in W2. exact W2.
Qed.

(** ** Commit *)

Lemma commit_run X s : log_ok s → bc_inv X (lg_bc s) → bc_ready (lg_bc s) →
  is_free LLog (bc_k (lg_bc s)) → 0 < lg_n s →
  homes_ready (lg_bc s) (lg_dev s) (trans s) →
  let h := view (lg_bc s) (lg_dev s) (lg_start s) in
  let h1 := hdr (lg_n s) (trans s) h in
  ∃ bc, commit_trans s =
      Ok tt (set_lg_busy false (set_lg_n 0
        (set_lg_bc (set_bc_k (woken CLog (bc_k bc)) bc) s))) ∧
    wrote X (lg_bc s) bc ((lg_dev s, lg_start s, h1) ::
      installs s (view (lg_bc s)) 0 (trans s) ++ [(lg_dev s, lg_start s, hdr 0 [] h1)]).
Proof.
  intros Ho HI Hr Hf Hn Hh h h1.
  destruct (write_head_run X s Ho HI Hr) as (bc1&E1&W1); [apply Hh|]. fold h in W1. fold h1 in W1.
  set (s1 := set_lg_bc bc1 s). assert (Ho1 := log_ok_wrote _ _ _ _ Ho W1).
  assert (Hst := in_log_start s Ho).
  destruct (install_clear_run X s1 Ho1) as (bc2&E2&W2); [apply W1|apply W1| |].
  { eapply homes_ready_wrote; [exact W1| |exact Hh]. intros sec Hs. simpl.
    rewrite list_elem_of_singleton. intros [= ->]. by destruct (lo_home s Ho _ Hs) as (_&[]&_). }
  assert (Hw : wrote X (lg_bc s) bc2 ((lg_dev s, lg_start s, h1) ::
      installs s (view (lg_bc s)) 0 (trans s) ++ [(lg_dev s, lg_start s, hdr 0 [] h1)])).
  { rewrite <- (app_nil_l (installs _ _ _ _ ++ _)), app_comm_cons.
    eapply wrote_trans; [exact W1|].
    rewrite (wr_view _ _ _ _ W1) in W2. change (lg_dev s1) with (lg_dev s) in W2.
    change (lg_start s1) with (lg_start s) in W2. unfold apply_ws, apply_w in W2; simpl in W2.
    rewrite !Z.eqb_refl in W2. simpl in W2.
    rewrite (installs_ext s _ (view bc1)); [exact W2|]. intros i Hi. symmetry.
    rewrite (wr_view _ _ _ _ W1). apply apply_ws_out. simpl. rewrite list_elem_of_singleton.
    intros [= Heq]. lia. }
  exists bc2. split; [|done]. unfold commit_trans. erewrite bind_run by reflexivity.
  rewrite (proj2 (Z.ltb_lt _ _)) by lia. cbn [when]. erewrite bind_run by (mrun E1; exact E2).
  destruct (wr_k _ _ _ _ Hw) as [cs Hk]. destruct (wr_ready _ _ _ _ Hw) as (R1&R2&R3).
  assert (Hf2 : is_free LLog (bc_k bc2)) by (rewrite Hk; auto with kdb).
  erewrite bind_run by (apply lkz_run; by apply acquire_run). simpl.
  erewrite bind_run by reflexivity.
  erewrite bind_run by (apply lkz_run; simpl; by apply wakeup_acq_run). simpl.
  eapply eq_trans; [apply lkz_run; simpl; by apply release_acq|]. done.
Qed.

(** ** Logging a block *)

Lemma log_index_spec n secs sec : (n ≤ length secs)%nat → Forall is_i32 (take n secs) →
  let i := log_index n secs sec in
  take n secs !! i = Some sec ∨ (i = n ∧ sec ∉ take n secs).
Proof.
  revert secs. induction n as [|n IH]; intros [|x secs] Hl Hf; simpl in *; try lia.
  - right. split; [done|]. apply not_elem_of_nil.
  - right. split; [done|]. apply not_elem_of_nil.
  - apply Forall_cons in Hf as [Hx Hf]. rewrite u32_int by done.
    destruct (Z.eqb_spec x sec) as [->|Hne]; [by left|].
    destruct (IH secs ltac:(lia) Hf) as [?|[-> Hn]]; [by left|right]. split; [done|]. set_solver.
Qed.

(** Between [log_write]s and the commit the log blocks on disk hold the
    transaction's contents of the home blocks; [logged_but] says so except
    for the sector whose buffer is being changed. *)
Definition logged_but s (sec0 : Z) : Prop := ∀ (i : nat) sec, trans s !! i = Some sec →
  sec ≠ sec0 →
  let blk := lg_start s + Z.of_nat i + 1 in
  dview (bc_drv (lg_bc s)) (lg_dev s) blk = view (lg_bc s) (lg_dev s) sec ∧
  view (lg_bc s) (lg_dev s) blk = view (lg_bc s) (lg_dev s) sec.
Definition logged s : Prop := ∀ (i : nat) sec, trans s !! i = Some sec →
  let blk := lg_start s + Z.of_nat i + 1 in
  dview (bc_drv (lg_bc s)) (lg_dev s) blk = view (lg_bc s) (lg_dev s) sec ∧
  view (lg_bc s) (lg_dev s) blk = view (lg_bc s) (lg_dev s) sec.

(** A held buffer is marked dirty. *)
Lemma dirty_run X bc b c : bc_inv X bc → bufs bc !! b = Some c →
  c_busy c = true → c_valid c = true →
  ∃ bc1, upd_node b (λ x, set_b_flags (setf (b_flags x) B_DIRTY) x) bc = Ok tt bc1 ∧
    bc_inv (Xdel X b) bc1 ∧ same_env bc bc1 ∧ same_view bc bc1 ∧
    bufs bc1 = <[b := dirtied c]> (bufs bc).
Proof.
  intros HI Hc Hb Hv. destruct (bufs_lookup_inv bc b c Hc) as (bb&Hbb&<-&Hlt).
  assert (HC := coh_dirtied X _ _ b _ (inv_coh X bc HI) Hc Hb Hv).
  assert (Hff := flag_facts (core bb) (coh_flags X _ _ (inv_coh X bc HI) b _ Hc)).
  set (f := λ x, set_b_flags (setf (b_flags x) B_DIRTY) x).
  assert (Hb1 := bufs_alter f b bb bc Hbb Hlt). change (core (f bb)) with (dirtied (core bb)) in Hb1.
  set (bc1 := set_bc_buf (alter f b (bc_buf bc)) bc) in Hb1.
  exists bc1. split_and!; try done; [by apply (inv_alter X _ f b bb)|].
  intros dv sc. unfold view. rewrite Hb1. change (bc_drv bc1) with (bc_drv bc).
  apply (cview_flags X (Xdel X b) _ _ b (core bb)); try done; [apply (inv_coh X bc HI)|apply Hff].
Qed.

Section LogWrite.
Variables (X : nat → Prop) (s : log D) (b : nat) (c : bcore).
Let sec := c_sector c.
Hypotheses (Ho : log_ok s) (HI : bc_inv X (lg_bc s)) (Hr : bc_ready (lg_bc s)).
Hypotheses (Hc : bufs (lg_bc s) !! b = Some c) (Hb : c_busy c = true) (Hv : c_valid c = true).
Hypotheses (Hdev : c_dev c = lg_dev s) (Hsec : is_i32 sec) (Hnl : ¬ in_log s sec).
Hypotheses (Hbusy : lg_busy s = true) (Hn1 : lg_n s < LOGSIZE) (Hn2 : lg_n s < lg_size s - 1).

Let i := log_index (Z.to_nat (lg_n s)) (lg_sector s) sec.
Let n' := if Z.of_nat i =? lg_n s then lg_n s + 1 else lg_n s.
Let secs' := <[i := sec]> (lg_sector s).

Lemma log_write_index : (Z.of_nat i < lg_n s ∧ trans s !! i = Some sec) ∨
  (Z.of_nat i = lg_n s ∧ sec ∉ trans s).
Proof.
  pose proof (lo_n s Ho) as Hn. pose proof (lo_len s Ho) as Hl. pose proof (length_trans s Ho) as Ht.
  destruct (log_index_spec (Z.to_nat (lg_n s)) (lg_sector s) sec) as [Hi|[Hi Hni]].
  - rewrite Hl. lia.
  - apply Forall_forall. intros x Hx. by apply (lo_home s Ho).
  - left. split; [|exact Hi]. apply lookup_lt_Some in Hi. fold (trans s) in Hi. lia.
  - right. split; [unfold i; lia|exact Hni].
Qed.

Lemma log_write_block : in_log s (lg_start s + Z.of_nat i + 1).
Proof. pose proof (lo_n s Ho). unfold in_log. destruct log_write_index as [[? _]|[? _]]; lia. Qed.

(** The part of [log_write] before the log block is read. *)
Lemma log_write_start : log_write b s =
  (lbuf ← bio (bread (lg_dev s) (lg_start s + Z.of_nat i + 1));
   d ← bio (buf_data b);
   bio (set_buf_data lbuf d);;
   bio (bwrite lbuf);;
   bio (brelse lbuf);;
   when (Z.of_nat i =? lg_n s) (modify (set_lg_n (lg_n s + 1)));;
   bio (upd_node b (λ x, set_b_flags (setf (b_flags x) B_DIRTY) x))) (set_lg_sector secs' s).
Proof.
  pose proof (lo_n s Ho) as Hn. pose proof (lo_len s Ho) as Hl.
  destruct (bufs_lookup_inv _ b c Hc) as (bb&Hbb&Hcore&Hlt).
  assert (Eb : b_sector bb = sec ∧ b_dev bb = lg_dev s) by (rewrite <- Hdev; unfold sec; by rewrite <- Hcore).
  destruct Eb as [Eb1 Eb2].
  assert (Hin : Z.of_nat i ≤ lg_n s) by (destruct log_write_index; lia).
  unfold log_write. do 2 (erewrite bind_run by reflexivity).
  rewrite (proj2 (Z.leb_gt _ _)), (proj2 (Z.leb_gt _ _)) by lia. cbn [orb].
  erewrite bind_run by reflexivity. rewrite Hbusy. cbn [negb].
  erewrite bind_run by (apply bio_run; by apply node_run).
  rewrite set_lg_bc_same. erewrite bind_run by reflexivity.
  rewrite Eb1, Eb2. fold i. erewrite bind_run.
  2:{ unfold set_sector; simpl. rewrite decide_True by (rewrite Hl; lia). reflexivity. }
  rewrite (i32_small sec) by (unfold is_i32 in Hsec; lia). fold secs'.
  erewrite bind_run by reflexivity. cbn [lg_start set_lg_sector].
  rewrite u32_int by (eapply in_log_int; [exact Ho|apply log_write_block]). done.
Qed.

Lemma log_write_run :
  cached (lg_bc s) (lg_dev s) (lg_start s + Z.of_nat i + 1) ∨ (0 < room (lg_bc s))%nat →
  ∃ bc1 bc2,
  log_write b s = Ok tt (set_lg_bc bc2 (set_lg_n n' (set_lg_sector secs' s))) ∧
  wrote X (lg_bc s) bc1 [(lg_dev s, lg_start s + Z.of_nat i + 1, c_data c)] ∧
  bufs bc1 !! b = Some c ∧ bc_inv (Xdel X b) bc2 ∧ same_env bc1 bc2 ∧ same_view bc1 bc2 ∧
  bufs bc2 = <[b := dirtied c]> (bufs bc1).
Proof.
  intros Hget. destruct (lo_log s Ho _ log_write_block) as [Lv Lu].
  assert (Hdl : length (c_data c) = 512%nat) by by apply (coh_len X _ _ (inv_coh X _ HI) b).
  assert (Hg : gettable (lg_bc s) (lg_dev s) (lg_start s + Z.of_nat i + 1))
    by (split_and!; try done; apply Ho).
  destruct (write_cycle X _ (lg_dev s) _ (c_data c) HI Hr Hg Hdl) as
    (lb&s1&s2&s3&s4&E1&_&E3&E4&E5&Hk1&W).
  assert (Hc4 : bufs s4 !! b = Some c) by (apply (wr_kept _ _ _ _ W); [done|by left]).
  destruct (dirty_run X s4 b c) as (s5&E6&I5&N5&V5&B5); try done; [apply W|].
  exists s4, s5. split_and!; try done. rewrite log_write_start.
  erewrite bind_run by (apply bio_run; exact E1).
  erewrite bind_run by (apply bio_run; simpl; by apply buf_data_run, Hk1).
  erewrite bind_run by (apply bio_run; simpl; exact E3).
  erewrite bind_run by (apply bio_run; simpl; exact E4).
  erewrite bind_run by (apply bio_run; simpl; exact E5).
  unfold n'. destruct (Z.of_nat i =? lg_n s); cbn [when]; erewrite bind_run by reflexivity;
    (eapply eq_trans; [apply bio_run; exact E6|reflexivity]).
Qed.

Let s' bc := set_lg_bc bc (set_lg_n n' (set_lg_sector secs' s)).

Lemma log_write_trans bc :
  trans (s' bc) = if decide (sec ∈ trans s) then trans s else trans s ++ [sec].
Proof.
  pose proof (lo_n s Ho) as Hn. pose proof (lo_len s Ho) as Hl. unfold LOGSIZE in *.
  unfold trans at 1, s', n'; simpl. unfold secs'.
  destruct log_write_index as [[Hi Hs]|[Hi Hs]].
  - rewrite decide_True by by eapply list_elem_of_lookup_2.
    rewrite (proj2 (Z.eqb_neq _ _)) by lia. rewrite take_insert_lt by lia.
    fold (trans s). by apply list_insert_id.
  - rewrite decide_False by done. rewrite (proj2 (Z.eqb_eq _ _)) by lia.
    replace (Z.to_nat (lg_n s + 1)) with (S i) by lia.
    rewrite (take_S_r _ i sec) by (apply list_lookup_insert_eq; rewrite Hl; lia).
    rewrite take_insert_ge by lia. f_equal. unfold trans. f_equal. lia.
Qed.

Lemma log_write_at (j : nat) x bc : trans (s' bc) !! j = Some x →
  (j = i ∧ x = sec) ∨ (j ≠ i ∧ x ≠ sec ∧ trans s !! j = Some x).
Proof.
  pose proof (length_trans s Ho) as Hl. pose proof (lo_n s Ho) as Hn.
  rewrite log_write_trans. destruct log_write_index as [[Hi Hs]|[Hi Hs]].
  - rewrite decide_True by by eapply list_elem_of_lookup_2. intros Hj.
    destruct (decide (j = i)) as [->|Hne]; [left; split; congruence|right]. split_and!; [done| |done].
    intros ->. apply Hne. by eapply (NoDup_lookup _ _ _ _ (lo_nodup s Ho)).
  - rewrite decide_False by done. intros [Hj|[Hj1 Hj2]]%lookup_app_Some.
    + right. split_and!; [|intros ->; apply Hs; by eapply list_elem_of_lookup_2|done].
      apply lookup_lt_Some in Hj. lia.
    + left. apply list_lookup_singleton_Some in Hj2 as [? <-]. split; [lia|done].
Qed.

Lemma log_write_ok bc1 bc2 c' :
  wrote X (lg_bc s) bc1 [(lg_dev s, lg_start s + Z.of_nat i + 1, c_data c)] →
  bufs bc2 = <[b := c']> (bufs bc1) → c_sector c' = sec → bc_drv bc2 = bc_drv bc1 →
  log_ok (s' bc2).
Proof.
  intros W Hb2 Hs2 Hd2. pose proof (lo_n s Ho) as Hn. pose proof (lo_len s Ho) as Hl.
  assert (Hdv : ∀ sc, dvalid (bc_drv (lg_bc s)) (lg_dev s) sc → dvalid (bc_drv bc2) (lg_dev s) sc).
  { intros sc Hsc. rewrite Hd2. by apply (wr_dvalid _ _ _ _ W). }
  split; try apply Ho.
  - unfold s', secs'; simpl. by rewrite length_insert.
  - unfold s', n'; simpl. unfold LOGSIZE in *. bdestr; lia.
  - intros sc Hs. destruct (lo_log s Ho sc Hs) as [Hvs Hu]. split; [by apply Hdv|].
    intros j x Hj Hk. simpl in Hj, Hk. rewrite Hb2 in Hj.
    apply lookup_ins in Hj as [(->&->&_)|[_ Hj]].
    + apply c_is_true in Hk as [_ Hk]. rewrite Hs2 in Hk. by subst.
    + by apply (wrote_unlocked _ _ _ _ _ _ W Hu j x).
  - intros sc Hs. apply list_elem_of_lookup in Hs as [j Hj].
    destruct (log_write_at j sc bc2 Hj) as [[_ ->]|(_&_&Ht)].
    + split_and!; [done|done|]. apply Hdv. rewrite <- Hdev.
      by apply (coh_real X _ _ (inv_coh X _ HI) b c).
    + destruct (lo_home s Ho sc) as (?&?&?); [by eapply list_elem_of_lookup_2|]. auto.
  - rewrite log_write_trans. case_decide; [apply Ho|]. apply NoDup_app. split_and!.
    + apply Ho.
    + intros x Hx. rewrite list_elem_of_singleton. by intros ->.
    + apply NoDup_singleton.
Qed.

(** What the kernel and the disk hold after the block is logged. *)
Lemma log_write_view bc1 bc2 :
  wrote X (lg_bc s) bc1 [(lg_dev s, lg_start s + Z.of_nat i + 1, c_data c)] →
  same_env bc1 bc2 → same_view bc1 bc2 →
  (∀ sc, sc ≠ lg_start s + Z.of_nat i + 1 →
    view bc2 (lg_dev s) sc = view (lg_bc s) (lg_dev s) sc ∧
    dview (bc_drv bc2) (lg_dev s) sc = dview (bc_drv (lg_bc s)) (lg_dev s) sc) ∧
  (view bc2 (lg_dev s) (lg_start s + Z.of_nat i + 1) = c_data c ∧
   dview (bc_drv bc2) (lg_dev s) (lg_start s + Z.of_nat i + 1) = c_data c).
Proof.
  intros W (_&D2&_) V2. split.
  - intros sc Hne. rewrite V2, (wr_view _ _ _ _ W), D2, (wr_dview _ _ _ _ W).
    rewrite !apply_ws_out; [done|simpl; rewrite list_elem_of_singleton; congruence..].
  - rewrite V2, (wr_view _ _ _ _ W), D2, (wr_dview _ _ _ _ W). unfold apply_ws, apply_w; simpl.
    by rewrite !Z.eqb_refl.
Qed.

(** Every sector that was logged still is, and the one just written is too. *)
Lemma log_write_logged bc1 bc2 (Keep : Z → Prop) :
  wrote X (lg_bc s) bc1 [(lg_dev s, lg_start s + Z.of_nat i + 1, c_data c)] →
  same_env bc1 bc2 → same_view bc1 bc2 →
  (∀ j x, trans s !! j = Some x → Keep x → x ≠ sec →
     dview (bc_drv (lg_bc s)) (lg_dev s) (lg_start s + Z.of_nat j + 1) = view (lg_bc s) (lg_dev s) x ∧
     view (lg_bc s) (lg_dev s) (lg_start s + Z.of_nat j + 1) = view (lg_bc s) (lg_dev s) x) →
  ∀ j x, trans (s' bc2) !! j = Some x → x = sec ∨ Keep x →
    dview (bc_drv bc2) (lg_dev s) (lg_start s + Z.of_nat j + 1) = view bc2 (lg_dev s) x ∧
    view bc2 (lg_dev s) (lg_start s + Z.of_nat j + 1) = view bc2 (lg_dev s) x.
Proof.
  intros W N2 V2 Hlg j x Hj Hx. destruct (log_write_view bc1 bc2 W N2 V2) as [Hvo Hvi].
  assert (Hvs : view (lg_bc s) (lg_dev s) sec = c_data c).
  { rewrite <- Hdev. by apply (cview_hit X _ _ b c (inv_coh X _ HI)). }
  assert (Hne : ∀ y, ¬ in_log s y → y ≠ lg_start s + Z.of_nat i + 1).
  { intros y Hy ->. by apply Hy, log_write_block. }
  destruct (log_write_at j x bc2 Hj) as [[-> ->]|(Hji&Hxs&Ht)].
  - destruct Hvi as [-> ->]. rewrite (proj1 (Hvo sec (Hne sec Hnl))). by rewrite Hvs.
  - destruct Hx as [?|Hk]; [done|]. destruct (Hlg j x Ht Hk Hxs) as [L1 L2].
    destruct (Hvo (lg_start s + Z.of_nat j + 1)) as [-> ->]; [lia|].
    rewrite (proj1 (Hvo x (Hne x ltac:(apply (lo_home s Ho); by eapply list_elem_of_lookup_2)))). done.
Qed.
End LogWrite.

Lemma bc_inv_ext (X X' : nat → Prop) bc : (∀ i, X i ↔ X' i) → bc_inv X bc → bc_inv X' bc.
Proof.
  intros HX [L R [c1 c2 c3 c4 c5 c6 c7]]. split; [done|done|]. split; try done.
  - intros i ci Hi Hx. apply (c1 i ci Hi). by apply HX.
  - intros i ci Hi Hv Hd Hx. apply (c7 i ci Hi Hv Hd). by rewrite HX.
Qed.

(** C10: [log_write] followed by [brelse], on a locked buffer with new data,
    inside a transaction that is not full: the log block of the sector on
    disk gets the data (a sector already in the transaction keeps its slot),
    the sector joins the transaction, the buffer stays cached as dirty, no
    sector outside the log changes on disk, and what the kernel reads is as
    before, so that [logged] holds again. *)
Theorem log_write_correct X s b c :
  log_ok s → logged_but s (c_sector c) → bc_inv X (lg_bc s) → (∀ j, X j → j = b) →
  bc_ready (lg_bc s) → bufs (lg_bc s) !! b = Some c → c_busy c = true → c_valid c = true →
  c_dev c = lg_dev s → is_i32 (c_sector c) → ¬ in_log s (c_sector c) →
  lg_busy s = true → lg_n s < LOGSIZE → lg_n s < lg_size s - 1 → (0 < room (lg_bc s))%nat →
  ∃ s', (log_write b;; bio (brelse b)) s = Ok tt s' ∧
    log_ok s' ∧ logged s' ∧ bc_inv no_mods (lg_bc s') ∧ bc_ready (lg_bc s') ∧
    trans s' = (if decide (c_sector c ∈ trans s) then trans s else trans s ++ [c_sector c]) ∧
    dirty_cached (lg_bc s') (lg_dev s) (c_sector c) ∧
    (∀ sec, ¬ in_log s sec → view (lg_bc s') (lg_dev s) sec = view (lg_bc s) (lg_dev s) sec) ∧
    (∀ sec, ¬ in_log s sec ∨ sec = lg_start s →
       dview (bc_drv (lg_bc s')) (lg_dev s) sec = dview (bc_drv (lg_bc s)) (lg_dev s) sec).
Proof.
  intros Ho Hlg HI HX Hr Hc Hb Hv Hdev Hsec Hnl Hbusy Hn1 Hn2 Hroom.
  destruct (log_write_run X s b c) as (bc1&bc2&E&W&Hc1&I2&N2&V2&B2); try done; [by right|].
  destruct (log_write_view X s c bc1 bc2) as [Hvo Hvi]; try done.
  assert (Hff := flag_facts c (coh_flags X _ _ (inv_coh X _ HI) b c Hc)).
  assert (Hff2 := flag_facts (dirtied c) ltac:(apply Hff)).
  assert (Hc2 : bufs bc2 !! b = Some (dirtied c))
    by (rewrite B2; apply list_lookup_insert_eq; by eapply lookup_lt_Some).
  assert (Hr2 : bc_ready bc2) by (unfold bc_ready; rewrite (proj1 N2); apply W).
  destruct (brelse_run (Xdel X b) bc2 b (dirtied c) I2 Hr2 Hc2) as (bc3&E3&I3&V3&B3&K3&D3&_).
  { transitivity (c_busy c); [apply Hff|done]. } { by intros [_ ?]. }
  rewrite B2, list_insert_insert_eq in B3. pose proof N2 as (_&D2&_). rewrite D2 in D3.
  eexists. split; [mrun E; eapply eq_trans; [apply bio_run; exact E3|reflexivity]|].
  split_and!; simpl; try done.
  - eapply log_write_ok with (X := X) (b := b) (c := c) (bc1 := bc1)
      (c' := released (dirtied c)); done.
  - intros j x Hj. simpl. rewrite D3, <- D2, !V3.
    eapply (log_write_logged X s b c) with (bc1 := bc1) (bc2 := bc2) (Keep := λ _, True); try done.
    + intros j' x' Ht _ Hx. by apply Hlg.
    + by right.
  - eapply bc_inv_ext; [|exact I3]. intros k. unfold Xdel, no_mods. naive_solver.
  - destruct Hr2 as (?&?&?). unfold bc_ready. rewrite K3. split_and!; auto with kdb.
  - by apply (log_write_trans s c Ho).
  - exists b, (released (dirtied c)). rewrite B3. split_and!.
    + apply list_lookup_insert_eq. by eapply lookup_lt_Some.
    + by apply c_is_true.
    + transitivity (c_dirty (dirtied c)); [apply Hff2|apply Hff].
  - intros sec Hsc. rewrite V3. apply Hvo. intros ->. by apply Hsc, (log_write_block s c Ho).
  - intros sec Hsc. rewrite D3, <- D2. apply Hvo. intros ->. destruct Hsc as [Hsc|Hsc]; [|lia].
    by apply Hsc, (log_write_block s c Ho).
Qed.

(** ** Crashes *)

Lemma apply_installs s f sec : log_ok s → logged s →
  apply_ws (installs s (view (lg_bc s)) 0 (trans s)) f (lg_dev s) sec =
    if decide (sec ∈ trans s) then view (lg_bc s) (lg_dev s) sec else f (lg_dev s) sec.
Proof.
  intros Ho Hlg. case_decide as Hin.
  - apply list_elem_of_lookup in Hin as [i Hi]. destruct (Hlg i sec Hi) as [_ Hv].
    apply apply_ws_in.
    + rewrite installs_keys. apply NoDup_fmap_2; [by intros ?? [= ->]|apply Ho].
    + rewrite <- Hv. unfold installs. apply elem_of_lookup_imap. exists i, sec. done.
  - apply apply_ws_out. rewrite installs_keys, list_elem_of_fmap. intros (y&[= <-]&Hy). done.
Qed.

(** The cache after a reboot: nothing cached, nothing held. *)
Record fresh bc : Prop := {
  fr_inv : bc_inv no_mods bc;
  fr_ready : bc_ready bc;
  fr_empty : ∀ i c, bufs bc !! i = Some c →
    c_valid c = false ∧ c_busy c = false ∧ c_dirty c = false
}.

Lemma fresh_view bc dev sec : fresh bc → view bc dev sec = dview (bc_drv bc) dev sec.
Proof.
  intros Hf. apply cview_miss. intros i c Hi Hv. destruct (fr_empty bc Hf i c Hi). congruence.
Qed.
Lemma fresh_unlocked bc dev sec : fresh bc → unlocked bc dev sec.
Proof. intros Hf i c Hi _. by apply (fr_empty bc Hf i c Hi). Qed.
Lemma fresh_room bc : fresh bc → room bc = NBUF.
Proof.
  intros Hf. assert (Hl : length (bufs bc) = NBUF).
  { unfold bufs. rewrite length_fmap, length_take, (inv_len _ _ (fr_inv bc Hf)). lia. }
  rewrite <- Hl. unfold room, cnt. f_equal. generalize (fr_empty bc Hf). generalize (bufs bc).
  induction l as [|c l IH]; intros He; [done|]. simpl.
  destruct (He 0%nat c eq_refl) as (_&Hb&Hd). unfold c_idle at 1. rewrite Hb, Hd. simpl.
  f_equal. apply IH. intros i. apply (He (S i)).
Qed.

Lemma readsb_run X bc dev : bc_inv X bc → bc_ready bc → gettable bc dev 1 →
  ∃ bc', readsb dev bc = Ok (superblock_of (view bc dev 1)) bc' ∧ wrote X bc bc' [].
Proof.
  intros HI Hr Hg. destruct (read_cycle X bc dev 1 HI Hr Hg) as (b&s1&s2&E1&E2&E3&W).
  exists s2. split; [|done]. unfold readsb. mrun E1. mrun E2. by mrun E3.
Qed.

(** What the super block says about the place of the log. *)
Definition sb_place (d : list Z) : Z * Z :=
  (i32 (sb_size (superblock_of d) - sb_nlog (superblock_of d)), i32 (sb_nlog (superblock_of d))).

(** A machine that boots on a disk with contents [disk]. *)
Record rebooted (disk : Z → Z → list Z) (valid : Z → Z → Prop) (bt : log D) : Prop := {
  rb_fresh : fresh (lg_bc bt);
  rb_disk : ∀ dev sec, dview (bc_drv (lg_bc bt)) dev sec = disk dev sec;
  rb_valid : ∀ dev sec, dvalid (bc_drv (lg_bc bt)) dev sec ↔ valid dev sec;
  rb_n : lg_n bt = 0;
  rb_len : length (lg_sector bt) = Z.to_nat LOGSIZE
}.

Definition with_place (pl : Z * Z) s : log D := set_lg_place pl.1 pl.2 ROOTDEV s.

(** [initlog] on a disk whose header is good replays its transaction. *)
Lemma initlog_run disk valid bt start size :
  rebooted disk valid bt → sb_place (disk ROOTDEV 1) = (start, size) →
  0 ≤ start → 0 < size → start + size < 2147483648 →
  valid ROOTDEV 1 → (∀ sec, start ≤ sec < start + size → valid ROOTDEV sec) →
  let d := disk ROOTDEV start in
  0 ≤ hdr_n d ≤ LOGSIZE → hdr_n d < size → NoDup (hdr_secs d) →
  (∀ sec, sec ∈ hdr_secs d → is_i32 sec ∧ ¬ (start ≤ sec < start + size) ∧ valid ROOTDEV sec) →
  ∃ s2, initlog bt = Ok tt s2 ∧ lg_n s2 = 0 ∧
    ∀ dev sec, dview (bc_drv (lg_bc s2)) dev sec =
      apply_ws (installs (with_place (start, size) bt) disk 0 (hdr_secs d) ++
                [(ROOTDEV, start, hdr 0 [] d)]) disk dev sec.
Proof.
  intros [Hfr Hdisk Hval Hn Hlen] Hpl Hs0 Hsz Hs31 Hv1 Hvl d Hdn Hdn2 Hnd Hhome.
  set (bc0 := set_bc_k (set_lock LLog lk_free (bc_k (lg_bc bt))) (lg_bc bt)).
  assert (Hfr0 : fresh bc0).
  { destruct Hfr as [[F1 F2 F3] (R1&R2&R3) F4]. split; [by split| |done].
    split_and!; try done; unfold is_free; simpl; by rewrite lookup_insert_ne. }
  assert (Hg : ∀ sec, valid ROOTDEV sec → gettable bc0 ROOTDEV sec).
  { intros sec Hv. split_and!; [done|by apply Hval|by apply fresh_unlocked|right].
    rewrite fresh_room by done. unfold NBUF. lia. }
  destruct (readsb_run no_mods bc0 ROOTDEV) as (bc1&E1&W1); [apply Hfr0|apply Hfr0|by apply Hg|].
  assert (Hv0 : ∀ dev sec, view bc0 dev sec = disk dev sec)
    by (intros; rewrite fresh_view by done; apply Hdisk).
  rewrite Hv0 in E1.
  set (s1 := set_lg_bc bc1 (with_place (start, size) bt)).
  assert (Ht1 : trans s1 = []) by (unfold trans, s1; simpl; by rewrite Hn).
  assert (Hu1 : ∀ sec, unlocked bc1 ROOTDEV sec).
  { intros sec. eapply wrote_unlocked; [exact W1|]. by apply fresh_unlocked. }
  assert (Hva1 : ∀ sec, valid ROOTDEV sec → dvalid (bc_drv bc1) ROOTDEV sec).
  { intros sec Hv. apply (wr_dvalid _ _ _ _ W1). by apply Hval. }
  assert (Ho1 : log_ok s1).
  { split; rewrite ?Ht1; simpl; try done.
    - rewrite Hn. unfold LOGSIZE. lia.
    - intros sec Hs. split; [|by apply Hu1]. apply Hva1, Hvl, Hs.
    - intros sec Hs. by apply elem_of_nil in Hs.
    - constructor. }
  assert (Hvw1 : ∀ dev sec, view bc1 dev sec = disk dev sec)
    by (intros; rewrite (wr_view _ _ _ _ W1); apply Hv0).
  destruct (recover_run no_mods s1 Ho1) as (s2&E2&N2&_&W2); [apply W1|apply W1| | |].
  - simpl. rewrite Hvw1. fold d. split; [simpl; lia| |done].
    intros sec Hs. destruct (Hhome sec Hs) as (?&?&?). split_and!; try done; auto.
  - pose proof (wr_room _ _ _ _ W1) as Hrm. rewrite fresh_room in Hrm by done.
    unfold NBUF in Hrm. split; [simpl; lia|left; simpl; lia|auto].
  - exists s2. split_and!; [|done|].
    + unfold initlog. change (BSIZE <=? 4 + 4 * LOGSIZE) with false. cbv iota.
      erewrite bind_run by (apply lkz_run; reflexivity). fold bc0.
      erewrite bind_run by (apply bio_run; exact E1). erewrite bind_run by reflexivity.
      assert (Hp1 : i32 (sb_size (superblock_of (disk ROOTDEV 1)) -
        sb_nlog (superblock_of (disk ROOTDEV 1))) = start) by exact (f_equal fst Hpl).
      assert (Hp2 : i32 (sb_nlog (superblock_of (disk ROOTDEV 1))) = size) by exact (f_equal snd Hpl).
      rewrite Hp1, Hp2. exact E2.
    + intros dev sec. rewrite (wr_dview _ _ _ _ W2). simpl. rewrite Hvw1. fold d.
      rewrite (installs_ext s1 _ disk) by (intros; apply Hvw1).
      apply apply_ws_ext. rewrite (wr_dview _ _ _ _ W1). apply Hdisk.
Qed.

(** The disk contents when the machine stops after [k] writes of the commit,
    and the header found there. *)
Section Crash.
Variable s : log D.
Hypotheses (Ho : log_ok s) (Hlg : logged s) (HI : bc_inv no_mods (lg_bc s)).
Hypothesis Hempty : hdr_n (dview (bc_drv (lg_bc s)) (lg_dev s) (lg_start s)) = 0.

Let old := dview (bc_drv (lg_bc s)).
Let h := view (lg_bc s) (lg_dev s) (lg_start s).
Let h1 := hdr (lg_n s) (trans s) h.
Let inst := installs s (view (lg_bc s)) 0 (trans s).
Definition commit_writes : list sect :=
  (lg_dev s, lg_start s, h1) :: inst ++ [(lg_dev s, lg_start s, hdr 0 [] h1)].
Definition disk_at (k : nat) : Z → Z → list Z := apply_ws (take k commit_writes) old.

Lemma len_h1 : (4 + 4 * length (trans s) ≤ length h)%nat ∧ length h1 = 512%nat.
Proof.
  assert (Hh : length h = 512%nat).
  { eapply view_length; [exact HI|]. apply (lo_log s Ho), in_log_start, Ho. }
  assert (Hl := length_trans s Ho). pose proof (lo_n s Ho) as Hn. unfold LOGSIZE in Hn.
  split; [lia|]. unfold h1. rewrite length_hdr; lia.
Qed.

Lemma h1_n : hdr_n h1 = lg_n s.
Proof.
  apply hdr_n_hdr; [|apply len_h1]. pose proof (lo_n s Ho). unfold is_i32, LOGSIZE in *. lia.
Qed.

Lemma h1_secs : hdr_secs h1 = trans s.
Proof.
  assert (Hl := length_trans s Ho).
  apply list_eq. intros i. unfold hdr_secs. rewrite list_lookup_fmap, h1_n, <- Hl.
  destruct (trans s !! i) as [x|] eqn:Hx.
  - assert (Hlt := lookup_lt_Some _ _ _ Hx). rewrite lookup_seq_lt by done. simpl.
    f_equal. eapply hdr_sector_hdr; [apply len_h1|exact Hx|].
    apply (lo_home s Ho). by eapply list_elem_of_lookup_2.
  - apply lookup_ge_None in Hx. by rewrite lookup_seq_ge.
Qed.

Lemma h2_n : hdr_n (hdr 0 [] h1) = 0.
Proof. apply hdr_n_hdr; [done|]. pose proof len_h1. simpl. lia. Qed.

(** The three phases of the commit. *)
Lemma disk_phase k : (k ≤ length commit_writes)%nat →
  (k = 0%nat ∧ disk_at k = old) ∨
  (∃ j, disk_at k = apply_ws (take j inst) (apply_w old (lg_dev s, lg_start s, h1)) ∧ (0 < k)%nat) ∨
  (disk_at k = apply_w (apply_ws inst (apply_w old (lg_dev s, lg_start s, h1)))
                 (lg_dev s, lg_start s, hdr 0 [] h1) ∧ (0 < k)%nat).
Proof.
  intros Hk. unfold disk_at, commit_writes. destruct k as [|k]; [by left|right].
  cbn [take]. unfold commit_writes in Hk. simpl in Hk. rewrite length_app in Hk. simpl in Hk.
  destruct (decide (k ≤ length inst)%nat).
  - left. exists k. rewrite take_app_le by done. split; [done|lia].
  - right. rewrite take_ge by (rewrite length_app; simpl; lia). simpl. rewrite apply_ws_app.
    split; [done|lia].
Qed.

Lemma in_log_ne sec : ¬ in_log s sec → sec ≠ lg_start s.
Proof. intros Hn ->. by apply Hn, in_log_start. Qed.

Lemma header_write f d sec : ¬ in_log s sec →
  apply_w f (lg_dev s, lg_start s, d) (lg_dev s) sec = f (lg_dev s) sec.
Proof.
  intros Hn. unfold apply_w; simpl. apply in_log_ne in Hn.
  destruct (Z.eqb_spec sec (lg_start s)); [done|]. by rewrite andb_false_r.
Qed.

(** Writes of the commit to home sectors leave log sectors alone. *)
Lemma take_inst_out j f sec : (sec ∉ trans s) → apply_ws (take j inst) f (lg_dev s) sec = f (lg_dev s) sec.
Proof.
  intros Hn. apply apply_ws_out. rewrite fmap_take. unfold inst. rewrite installs_keys.
  intros Hin. apply list_elem_of_lookup in Hin as [i Hi]. apply lookup_take_Some in Hi as [Hi _].
  rewrite list_lookup_fmap, fmap_Some in Hi. destruct Hi as (y&Hy&[= <-]).
  apply Hn. by eapply list_elem_of_lookup_2.
Qed.

Lemma log_not_home sec : in_log s sec → sec ∉ trans s.
Proof. intros Hs Hin. by destruct (lo_home s Ho sec Hin) as (_&[]&_). Qed.


Hypothesis Hdev : lg_dev s = ROOTDEV.
Hypothesis Hpl : sb_place (old ROOTDEV 1) = (lg_start s, lg_size s).
Hypotheses (H1log : ¬ in_log s 1) (H1tr : 1 ∉ trans s).
Let valid := dvalid (bc_drv (lg_bc s)).
Hypothesis Hv1 : valid ROOTDEV 1.

(** What the committed transaction makes of a sector. *)
Definition after_commit (sec : Z) : list Z :=
  if decide (sec ∈ trans s) then view (lg_bc s) (lg_dev s) sec else old (lg_dev s) sec.

(** Recovery on a disk whose header names no blocks. *)
Lemma recover_empty disk bt : rebooted disk valid bt →
  disk ROOTDEV 1 = old ROOTDEV 1 → hdr_n (disk ROOTDEV (lg_start s)) = 0 →
  ∃ s2, initlog bt = Ok tt s2 ∧ lg_n s2 = 0 ∧ ∀ sec, ¬ in_log s sec →
    dview (bc_drv (lg_bc s2)) ROOTDEV sec = disk ROOTDEV sec.
Proof.
  intros Hb Hd1 Hn0. pose proof (lo_start s Ho) as (S1&S2&S3).
  assert (Hsecs : hdr_secs (disk ROOTDEV (lg_start s)) = []) by (unfold hdr_secs; by rewrite Hn0).
  destruct (initlog_run disk valid bt (lg_start s) (lg_size s) Hb) as (s2&E&N&Hv);
    rewrite ?Hd1, ?Hn0, ?Hsecs; try done.
  - intros sec Hs. rewrite <- Hdev. by apply (lo_log s Ho).
  - constructor.
  - intros sec Hin. by apply elem_of_nil in Hin.
  - exists s2. split_and!; [done|done|]. intros sec Hsec. rewrite Hv, Hsecs. simpl.
    rewrite <- Hdev. by apply header_write.
Qed.

(** Recovery on a disk that holds the commit record. *)
Lemma recover_full disk bt : rebooted disk valid bt →
  disk ROOTDEV 1 = old ROOTDEV 1 → disk ROOTDEV (lg_start s) = h1 →
  (∀ sec, in_log s sec → sec ≠ lg_start s → disk ROOTDEV sec = old ROOTDEV sec) →
  ∃ s2, initlog bt = Ok tt s2 ∧ lg_n s2 = 0 ∧ ∀ sec, ¬ in_log s sec →
    dview (bc_drv (lg_bc s2)) ROOTDEV sec =
      if decide (sec ∈ trans s) then view (lg_bc s) (lg_dev s) sec else disk ROOTDEV sec.
Proof.
  intros Hb Hd1 Hh1 Hlog. pose proof (lo_start s Ho) as (S1&S2&S3).
  pose proof (lo_n s Ho) as (N1&N2).
  destruct (initlog_run disk valid bt (lg_start s) (lg_size s) Hb) as (s2&E&N&Hv);
    rewrite ?Hd1, ?Hh1, ?h1_secs, ?h1_n; try done.
  - intros sec Hs. rewrite <- Hdev. by apply (lo_log s Ho).
  - apply Ho.
  - intros sec Hin. rewrite <- Hdev. destruct (lo_home s Ho sec Hin) as (?&?&?). done.
  - exists s2. split_and!; [done|done|]. intros sec Hsec. rewrite Hv, Hh1, h1_secs, apply_ws_app.
    simpl. rewrite <- Hdev. rewrite header_write by done.
    replace (installs _ disk 0 (trans s)) with inst; [by apply apply_installs|].
    unfold inst, installs; simpl. apply imap_ext. intros i x Hi. simpl. rewrite Hdev. f_equal.
    assert (Hlt := lookup_lt_Some _ _ _ Hi). rewrite length_trans in Hlt by done.
    rewrite Hlog; [|by apply in_log_block; [|lia]|lia].
    destruct (Hlg i x Hi) as [K1 K2]. unfold old. rewrite <- Hdev. congruence.
Qed.

Lemma recover_at k bt : (k ≤ length commit_writes)%nat → rebooted (disk_at k) valid bt →
  ∃ s2, initlog bt = Ok tt s2 ∧ lg_n s2 = 0 ∧ ∀ sec, ¬ in_log s sec →
    dview (bc_drv (lg_bc s2)) ROOTDEV sec =
      if decide (k = 0%nat) then old ROOTDEV sec else after_commit sec.
Proof.
  intros Hk Hb. assert (Hst := in_log_start s Ho).
  assert (Hhd : ∀ j f d, apply_ws (take j inst) (apply_w f (lg_dev s, lg_start s, d)) (lg_dev s) (lg_start s) = d).
  { intros j f d. rewrite take_inst_out by by apply log_not_home. unfold apply_w; simpl.
    by rewrite !Z.eqb_refl. }
  destruct (disk_phase k Hk) as [(->&Hd)|[(j&Hd&Hk0)|(Hd&Hk0)]]; rewrite Hd in Hb.
  - apply recover_empty; [done|done|]. unfold old. by rewrite <- Hdev.
  - destruct (recover_full _ bt Hb) as (s2&E&N&Hv).
    + rewrite <- Hdev, take_inst_out by done. by apply header_write.
    + rewrite <- Hdev. apply Hhd.
    + intros sec Hs Hne. rewrite <- Hdev, take_inst_out by by apply log_not_home.
      unfold apply_w; simpl. destruct (Z.eqb_spec sec (lg_start s)); [done|]. by rewrite andb_false_r.
    + exists s2. split_and!; [done|done|]. intros sec Hsec. rewrite Hv by done.
      destruct (decide (k = 0%nat)); [lia|].
      unfold after_commit. case_decide; [done|]. rewrite <- Hdev, take_inst_out by done.
      by apply header_write.
  - destruct (recover_empty _ bt Hb) as (s2&E&N&Hv).
    + rewrite <- Hdev, header_write by done. unfold inst. rewrite apply_installs by done.
      rewrite decide_False by done. by apply header_write.
    + rewrite <- Hdev. unfold apply_w at 1; simpl. rewrite !Z.eqb_refl. apply h2_n.
    + exists s2. split_and!; [done|done|]. intros sec Hsec. rewrite Hv by done.
      destruct (decide (k = 0%nat)); [lia|].
      rewrite <- Hdev, header_write by done. unfold inst. rewrite apply_installs by done.
      unfold after_commit. case_decide; [done|]. by apply header_write.
Qed.
End Crash.

(** C1: crash atomicity of the log.  [commit_trans] returns and writes the
    header, the home blocks and the cleared header, in this order.  If the
    machine stops after any number [k] of these writes, then booting on the
    disk as it is then and running [initlog] gives, at every sector outside
    the log, the contents of before the transaction if [k = 0] and those of
    after the whole transaction otherwise; the log is empty afterwards. *)
Theorem commit_crash_atomic s :
  log_ok s → logged s → bc_inv no_mods (lg_bc s) → bc_ready (lg_bc s) →
  is_free LLog (bc_k (lg_bc s)) → 0 < lg_n s →
  homes_ready (lg_bc s) (lg_dev s) (trans s) → lg_dev s = ROOTDEV →
  let old := dview (bc_drv (lg_bc s)) in
  let valid := dvalid (bc_drv (lg_bc s)) in
  hdr_n (old ROOTDEV (lg_start s)) = 0 →
  sb_place (old ROOTDEV 1) = (lg_start s, lg_size s) →
  ¬ in_log s 1 → 1 ∉ trans s → valid ROOTDEV 1 →
  ∃ s' ws, commit_trans s = Ok tt s' ∧ lg_n s' = 0 ∧ lg_busy s' = false ∧
    bc_hist (lg_bc s') = bc_hist (lg_bc s) ++ ws ∧
    (∀ dev sec, dview (bc_drv (lg_bc s')) dev sec = apply_ws ws old dev sec) ∧
    ∀ k bt, (k ≤ length ws)%nat → rebooted (apply_ws (take k ws) old) valid bt →
      ∃ s2, initlog bt = Ok tt s2 ∧ lg_n s2 = 0 ∧
        ∀ sec, ¬ in_log s sec → dview (bc_drv (lg_bc s2)) ROOTDEV sec =
          if decide (k = 0%nat) then old ROOTDEV sec else after_commit s sec.
Proof.
  intros Ho Hlg HI Hr Hf Hn Hh Hdev old valid Hn0 Hpl H1 H2 Hv1.
  destruct (commit_run no_mods s Ho HI Hr Hf Hn Hh) as (bc&E&W).
  exists (set_lg_busy false (set_lg_n 0 (set_lg_bc (set_bc_k (woken CLog (bc_k bc)) bc) s))).
  exists (commit_writes s). split_and!; try done.
  - apply (wr_hist _ _ _ _ W).
  - apply (wr_dview _ _ _ _ W).
  - intros k bt Hk Hb. apply recover_at; try done. unfold old in Hn0. by rewrite Hdev.
Qed.

(** One transaction at a time.  [begin_trans] marks the log busy when it
    is not; when it is, the caller gives up the log lock and sleeps on the
    log, which stays with its transaction.  [log_write] panics outside a
    transaction and when the transaction is full, and changes nothing. *)
Theorem begin_trans_exclusive s :
  kst_ok (bc_k (lg_bc s)) → is_free LLog (bc_k (lg_bc s)) → is_free LPtable (bc_k (lg_bc s)) →
  (lg_busy s = false → begin_trans s = Ok tt (set_lg_busy true s)) ∧
  (lg_busy s = true → ∀ i p, cpu_ncli (k_cpu (bc_k (lg_bc s))) = 0 →
     cpu_proc (k_cpu (bc_k (lg_bc s))) = Some i → k_procs (bc_k (lg_bc s)) !! i = Some p →
     ∃ s' p', begin_trans s = Blocked CLog s' ∧ lg_busy s' = true ∧ lg_n s' = lg_n s ∧
       is_free LLog (bc_k (lg_bc s')) ∧ k_procs (bc_k (lg_bc s')) !! i = Some p' ∧
       p_state p' = SLEEPING ∧ p_chan p' = CLog) ∧
  (∀ b, LOGSIZE ≤ lg_n s ∨ lg_size s - 1 ≤ lg_n s →
     log_write b s = Panic "too big a transaction" s) ∧
  (∀ b, lg_n s < LOGSIZE → lg_n s < lg_size s - 1 → lg_busy s = false →
     log_write b s = Panic "write outside of trans" s).
Proof.
  intros Hok Hf Hp. split_and!.
  - intros Hb. unfold begin_trans. erewrite bind_run by (apply lkz_run; by apply acquire_run).
    erewrite bind_run by reflexivity. simpl. rewrite Hb. erewrite bind_run by reflexivity.
    eapply eq_trans; [apply lkz_run; simpl; by apply release_acq'|]. simpl.
    unfold set_lg_busy, set_lg_bc, set_bc_k; simpl. by destruct s as [[]].
  - intros Hb i p Hn Hc Hi.
    assert (Hs : sleep CLog LLog (acq LLog (bc_k (lg_bc s))) =
      Blocked CLog (asleep i CLog LLog (acq LLog (bc_k (lg_bc s))))).
    { eapply sleep_run; eauto with kdb; simpl; [by rewrite Hn|by rewrite lookup_insert_eq]. }
    eexists _, _. split_and!.
    + unfold begin_trans. erewrite bind_run by (apply lkz_run; by apply acquire_run).
      erewrite bind_run by reflexivity. simpl. rewrite Hb. unfold mbind, M_bind, lkz, zoom; simpl.
      rewrite Hs. reflexivity.
    + done.
    + done.
    + unfold is_free; simpl. by rewrite lookup_insert_eq.
    + simpl. rewrite list_lookup_alter, Hi, decide_True by done. reflexivity.
    + done.
    + done.
  - intros b Hfull. unfold log_write. do 2 (erewrite bind_run by reflexivity).
    replace ((LOGSIZE <=? lg_n s) || (lg_size s - 1 <=? lg_n s)) with true; [done|].
    symmetry. apply orb_true_iff. rewrite !Z.leb_le. done.
  - intros b H1 H2 Hb. unfold log_write. do 2 (erewrite bind_run by reflexivity).
    rewrite (proj2 (Z.leb_gt _ _)), (proj2 (Z.leb_gt _ _)) by lia. simpl.
    erewrite bind_run by reflexivity. by rewrite Hb.
Qed.
End Log.

(** ** A log on a six-sector memory disk

    Super block in sector 1, home block in sector 2, the log in sectors
    3 to 5.  [ex_log fl n blk]: buffer 0 holds sector 2 with flags [fl] and
    fresh data, which log block 4 has on disk if [blk]. *)
Definition ex_sb : list Z := [6;0;0;0; 0;0;0;0; 0;0;0;0; 3;0;0;0] ++ replicate 496 0.
Definition ex_img (blk : bool) : list Z :=
  replicate 512 0 ++ ex_sb ++ replicate 1024 0 ++ replicate 512 (if blk then 9 else 0) ++
  replicate 512 0.
Definition ex_buf0 (fl : Z) (b : buf) : buf :=
  Buf fl 1 2 (b_prev b) (b_next b) None (replicate 512 9).
Definition ex_lbc (fl : Z) (blk : bool) : bcache Memide.memide :=
  Bcache ex_k (alter (ex_buf0 fl) 0%nat binit_nodes) (Memide.ideinit (ex_img blk)) [].
Definition ex_log (fl n : Z) (blk : bool) : log Memide.memide :=
  Log (ex_lbc fl blk) 3 3 true 1 n (2 :: replicate 9 0).

Lemma ex_valid fl blk sec : 0 ≤ sec < 6 → dvalid (bc_drv (ex_lbc fl blk)) 1 sec.
Proof. intros. split_and!; [done|lia|destruct blk; change (sec < 6); lia|by destruct blk]. Qed.

Lemma ex_lbc_inv fl blk (X : nat → Prop) :
  fl = 3 ∧ X 0%nat ∨ fl = 6 ∧ (∀ j, ¬ X j) → (∀ j, X j → j = 0%nat) → bc_inv X (ex_lbc fl blk).
Proof.
  intros Hfl HX.
  assert (HI0 := binit_inv ex_k (Memide.ideinit (ex_img blk))).
  set (bc0 := Bcache ex_k binit_nodes (Memide.ideinit (ex_img blk)) []).
  assert (HI : bc_inv no_mods bc0) by (destruct HI0 as [A B C]; by split).
  assert (Hn0 : bc_buf bc0 !! 0%nat = Some (Buf 0 NODEV 0 1 10 None (replicate 512 0))) by done.
  change (ex_lbc fl blk) with (set_bc_buf (alter (ex_buf0 fl) 0%nat (bc_buf bc0)) bc0).
  eapply inv_alter; [exact HI|done|done|exact Hn0|unfold NBUF; lia|].
  eapply coh_insert; [apply (inv_coh _ _ HI)|apply (bufs_lookup bc0 0%nat _ Hn0); unfold NBUF; lia|..]; simpl.
  - intros j Hj. split; [|done]. intros Hx. by apply HX in Hx.
  - destruct Hfl as [[-> _]|[-> _]]; unfold flags_ok; simpl; lia.
  - intros _. split_and!; [done|done|done|lia|by destruct blk|by destruct blk].
  - right. intros j cj Hj. apply bufs_lookup_inv in Hj as (bb&Hbb&<-&Hlt). cbn [bc_buf bc0] in Hbb.
    unfold binit_nodes in Hbb. rewrite lookup_app_l in Hbb by (rewrite length_fmap, length_seq; done).
    rewrite list_lookup_fmap, fmap_Some in Hbb. by destruct Hbb as (k&_&->).
  - destruct Hfl as [[-> _]|[-> _]]; done.
  - destruct Hfl as [[-> _]|[-> Hx]]; [done|]. intros Hx0. by apply Hx in Hx0.
  - destruct Hfl as [[-> Hx]|[-> _]]; [|done]. intros _ _ []. done.
Qed.

Lemma ex_lbc_bufs fl blk i c : bufs (ex_lbc fl blk) !! i = Some c →
  (i = 0%nat ∧ c = Core fl 1 2 (replicate 512 9)) ∨ c_busy c = false ∧ c_dev c = NODEV.
Proof.
  intros Hi. destruct i as [|i]; [left|right].
  - split; [done|]. by injection Hi as <-.
  - do 9 (destruct i as [|i]; [by injection Hi as <-|]). done.
Qed.

Lemma ex_log_ok fl n blk : fl = 3 ∧ n = 0 ∨ fl = 6 ∧ n = 1 → log_ok (ex_log fl n blk).
Proof.
  intros Hfn. split; simpl; try done; try (unfold LOGSIZE; lia).
  - intros sec Hs. unfold in_log in Hs; simpl in Hs. split; [apply (ex_valid fl blk); lia|].
    intros i c Hi Hk. apply c_is_true in Hk as [K1 K2].
    destruct (ex_lbc_bufs _ _ _ _ Hi) as [[-> ->]|[? ?]]; [|done]. simpl in K2. lia.
  - intros sec Hs. destruct Hfn as [[-> ->]|[-> ->]]; [by apply elem_of_nil in Hs|].
    apply list_elem_of_singleton in Hs as ->. split; [done|]. split; [|apply (ex_valid 6 blk); lia].
    unfold in_log; simpl. lia.
  - destruct Hfn as [[-> ->]|[-> ->]]; [constructor|apply NoDup_singleton].
Qed.

Lemma ex_lbc_ready fl blk : bc_ready (ex_lbc fl blk).
Proof. split_and!; try done; split_and!; done. Qed.

Lemma commit_crash_atomic_witness :
  ∃ s' ws, commit_trans (ex_log 6 1 true) = Ok tt s' ∧ lg_n s' = 0 ∧
    bc_hist (lg_bc s') = [] ++ ws.
Proof.
  destruct (commit_crash_atomic (ex_log 6 1 true)) as (s'&ws&E&N&_&Hh&_).
  - apply ex_log_ok. by right.
  - intros i sec Hi. change (trans (ex_log 6 1 true)) with [2] in Hi.
    apply list_lookup_singleton_Some in Hi as [-> <-]. vm_compute. done.
  - apply ex_lbc_inv; [right; split; [done|by intros j []]|by intros j []].
  - apply ex_lbc_ready.
  - done.
  - done.
  - split; [vm_compute; lia|left; vm_compute; lia|]. intros sec Hs.
    apply list_elem_of_singleton in Hs as ->. intros i c Hi _.
    by destruct (ex_lbc_bufs _ _ _ _ Hi) as [[-> ->]|[? ?]].
  - done.
  - vm_compute. done.
  - vm_compute. done.
  - unfold in_log; simpl. lia.
  - change (trans (ex_log 6 1 true)) with [2]. by rewrite list_elem_of_singleton.
  - apply (ex_valid 6 true). lia.
  - exists s', ws. split; [exact E|]. split; [exact N|exact Hh].
Defined.

Lemma log_write_correct_witness :
  ∃ s', (log_write 0;; bio (brelse 0)) (ex_log 3 0 false) = Ok tt s' ∧ trans s' = [2].
Proof.
  destruct (log_write_correct (λ j, j = 0%nat) (ex_log 3 0 false) 0%nat
    (Core 3 1 2 (replicate 512 9))) as (s'&E&_&_&_&_&Ht&_).
  - apply ex_log_ok. by left.
  - intros i sec Hi. change (trans (ex_log 3 0 false)) with (@nil Z) in Hi. done.
  - apply ex_lbc_inv; [left; by split|done].
  - done.
  - apply ex_lbc_ready.
  - reflexivity.
  - reflexivity.
  - reflexivity.
  - reflexivity.
  - unfold is_i32; simpl. lia.
  - unfold in_log; simpl. lia.
  - reflexivity.
  - reflexivity.
  - reflexivity.
  - vm_compute. lia.
  - exists s'. split; [exact E|exact Ht].
Defined.

Lemma begin_trans_exclusive_witness :
  ∃ s', begin_trans (ex_log 6 0 true) = Blocked CLog s' ∧ is_free LLog (bc_k (lg_bc s')).
Proof.
  destruct (begin_trans_exclusive (ex_log 6 0 true)) as (_&Hb&_); try done.
  destruct (Hb eq_refl 0%nat (set_p_state RUNNING proc_zero) eq_refl eq_refl eq_refl) as
    (s'&p'&E&_&_&Hf&_).
  exists s'. split; [exact E|exact Hf].
Defined.
