(* ===== verification/Blocks.v ===== *)
(** What the file system needs from the layers below it: locked block
    buffers inside a transaction.

    The class [Blocks] has the operations of bio.c and log.c that fs.c calls;
    [BlockLaws] is what they promise.  fs.c is proved against this interface,
    and [log_block_laws] shows that the log over the buffer cache meets it. *)
From S2P Require Import Prelude Kmonad Wp Kstate Spinlock Sleep Disk Cache Bio BioRun Log.

Class Blocks (S : Type) := {
  bl_k : lens S kst;                        (* the rest of the kernel *)
  bl_bread : Z → Z → M S nat;
  bl_brelse : nat → M S unit;
  bl_log_write : nat → M S unit;
  bl_data : nat → M S (list Z);             (* bp->data *)
  bl_set : nat → list Z → M S unit          (* ... as assigned by the caller *)
}.

(** What every path of the file system finds when it takes a lock: between
    its critical sections it holds no spin lock. *)
Definition k_ready (k : kst) : Prop :=
  kst_ok k ∧ is_free LBcache k ∧ is_free LPtable k ∧ k_run k ∧
  is_free LIcache k ∧ is_free LFtable k.

Lemma k_ready_woken c k : k_ready k → k_ready (woken c k).
Proof. intros (?&?&?&?&?&?). split_and!; auto with kdb. Qed.
Lemma k_ready_wakes cs k : k_ready k → k_ready (wakes cs k).
Proof. intros (?&?&?&?&?&?). split_and!; auto with kdb. Qed.
#[export] Hint Resolve k_ready_woken k_ready_wakes : kdb.

(** The kernel state [k'] is [k] after some wakeups. *)
Definition waked (k k' : kst) : Prop := ∃ cs, k' = wakes cs k.
#[global] Instance waked_preorder : PreOrder waked.
Proof.
  split; [intros k; by exists []|]. intros k1 k2 k3 [cs1 ->] [cs2 ->]. exists (cs1 ++ cs2). by rewrite wakes_app.
Qed.
Lemma waked_woken c k : waked k (woken c k).
Proof. by exists [c]. Qed.
Lemma waked_ready k k' : waked k k' → k_ready k → k_ready k'.
Proof. intros [cs ->]. auto with kdb. Qed.

(** Contents of blocks with one replaced. *)
Definition vupd (V : Z → Z → list Z) (dev sec : Z) (d : list Z) : Z → Z → list Z :=
  apply_w V (dev, sec, d).

Lemma vupd_same V dev sec d : vupd V dev sec d dev sec = d.
Proof. unfold vupd, apply_w; simpl. by rewrite !Z.eqb_refl. Qed.
Lemma vupd_ne V dev sec d dv sc : (dv, sc) ≠ (dev, sec) → vupd V dev sec d dv sc = V dv sc.
Proof.
  intros Hne. unfold vupd, apply_w; simpl.
  destruct (Z.eqb_spec dv dev), (Z.eqb_spec sc sec); simpl; try done. congruence.
Qed.

(** [bl_inv P V X H s]: [P] are the usable blocks and [V] their contents as
    the kernel sees them; the caller holds the buffers of [H], each with its
    block, and has changed those of [X] without logging them yet. *)
Class BlockLaws (S : Type) `{Blocks S} := {
  bl_inv : (Z → Z → Prop) → (Z → Z → list Z) → gset nat → gmap nat (Z * Z) → S → Prop;
  bl_lens :: LensLaws bl_k;
  bl_ready P V X H s : bl_inv P V X H s → k_ready (lget bl_k s);
  bl_woken P V X H s c : bl_inv P V X H s → bl_inv P V X H (lset bl_k (woken c (lget bl_k s)) s);
  bl_len P V X H s dev sec : bl_inv P V X H s → P dev sec → length (V dev sec) = 512%nat;
  bl_held P V X H s b dev sec : bl_inv P V X H s → H !! b = Some (dev, sec) → P dev sec;
  bl_mods P V X H s b : bl_inv P V X H s → b ∈ X → is_Some (H !! b);
  bl_ext P V V' X H s : (∀ dev sec, P dev sec → V dev sec = V' dev sec) →
    bl_inv P V X H s → bl_inv P V' X H s;
  bl_bread_wp P V X H s dev sec : bl_inv P V X H s → P dev sec →
    wp (bl_bread dev sec) (λ b s', H !! b = None ∧ (∀ b', H !! b' ≠ Some (dev, sec)) ∧
      bl_inv P V X (<[b := (dev, sec)]> H) s') s;
  bl_data_wp P V X H s b dev sec : bl_inv P V X H s → H !! b = Some (dev, sec) →
    wp (bl_data b) (λ d s', d = V dev sec ∧ s' = s) s;
  bl_set_wp P V X H s b dev sec d : bl_inv P V X H s → H !! b = Some (dev, sec) →
    length d = 512%nat →
    wp (bl_set b d) (λ _ s', bl_inv P (vupd V dev sec d) (X ∪ {[b]}) H s') s;
  bl_log_write_wp P V X H s b dev sec : bl_inv P V X H s → H !! b = Some (dev, sec) →
    wp (bl_log_write b) (λ _ s', bl_inv P V (X ∖ {[b]}) H s') s;
  bl_brelse_wp P V X H s b dev sec : bl_inv P V X H s → H !! b = Some (dev, sec) → b ∉ X →
    wp (bl_brelse b) (λ _ s', bl_inv P V X (delete b H) s') s
}.

(** Besides, the operations on blocks change nothing of the rest of the kernel
    but that they wake processes. *)
Class BlockWakes (S : Type) `{BlockLaws S} := {
  bw_bread P V X H s dev sec : bl_inv P V X H s → P dev sec →
    wp (bl_bread dev sec) (λ _ s', waked (lget bl_k s) (lget bl_k s')) s;
  bw_set P V X H s b dev sec d : bl_inv P V X H s → H !! b = Some (dev, sec) → length d = 512%nat →
    wp (bl_set b d) (λ _ s', waked (lget bl_k s) (lget bl_k s')) s;
  bw_log_write P V X H s b dev sec : bl_inv P V X H s → H !! b = Some (dev, sec) →
    wp (bl_log_write b) (λ _ s', waked (lget bl_k s) (lget bl_k s')) s;
  bw_brelse P V X H s b dev sec : bl_inv P V X H s → H !! b = Some (dev, sec) → b ∉ X →
    wp (bl_brelse b) (λ _ s', waked (lget bl_k s) (lget bl_k s')) s
}.

(** Hence all that is proved with the laws also holds with the kernel state
    compared to an earlier one, [k0]. *)
Section Since.
Context {S : Type} `{BlockWakes S}.
Variable k0 : kst.

Definition since_inv (P : Z → Z → Prop) (V : Z → Z → list Z) (X : gset nat) (Hd : gmap nat (Z * Z)) (s : S) : Prop :=
  bl_inv P V X Hd s ∧ waked k0 (lget bl_k s).

Lemma since_wp {A} (m : M S A) (Q : A → S → Prop) s : waked k0 (lget bl_k s) →
  wp m Q s → wp m (λ _ s', waked (lget bl_k s) (lget bl_k s')) s → wp m (λ a s', Q a s' ∧ waked k0 (lget bl_k s')) s.
Proof.
  intros Hk Hm Hw. eapply wp_mono; [exact (wp_and _ _ _ _ Hm Hw)|]. intros a s' [HQ Hk']. split; [done|]. by etransitivity.
Qed.

Definition since_laws : BlockLaws S.
Proof.
  refine {| bl_inv := since_inv |}.
  - intros P V X Hd s [Hi _]. by eapply bl_ready.
  - intros P V X Hd s c [Hi Hk]. split; [by apply bl_woken|]. rewrite lget_lset. etransitivity; [exact Hk|apply waked_woken].
  - intros P V X Hd s dev sec [Hi _]. by eapply bl_len.
  - intros P V X Hd s b dev sec [Hi _]. by eapply bl_held.
  - intros P V X Hd s b [Hi _]. by eapply bl_mods.
  - intros P V V' X Hd s He [Hi Hk]. split; [|done]. by eapply bl_ext.
  - intros P V X Hd s dev sec [Hi Hk] HP. eapply wp_mono; [by apply since_wp, bw_bread with (P := P) (V := V) (X := X) (H := Hd); [|apply bl_bread_wp|..]|].
    intros b s' [(G1&G2&G3) Hk']. by split_and!.
  - intros P V X Hd s b dev sec [Hi Hk] Hb. by eapply bl_data_wp.
  - intros P V X Hd s b dev sec d [Hi Hk] Hb Hl. eapply wp_mono; [eapply since_wp; [done|by eapply bl_set_wp|by eapply bw_set]|]. done.
  - intros P V X Hd s b dev sec [Hi Hk] Hb. eapply wp_mono; [eapply since_wp; [done|by eapply bl_log_write_wp|by eapply bw_log_write]|]. done.
  - intros P V X Hd s b dev sec [Hi Hk] Hb HX. eapply wp_mono; [eapply since_wp; [done|by eapply bl_brelse_wp|by eapply bw_brelse]|]. done.
Defined.
End Since.

(** ** Using the interface *)
Section Use.
Context {S : Type} `{BlockLaws S}.
Implicit Types (P : Z → Z → Prop) (V : Z → Z → list Z) (X : gset nat) (Hd : gmap nat (Z * Z)).

(** A buffer is taken, and the caller goes on. *)
Lemma get_wp {A} P V X Hd s dev sec (k : nat → M S A) Q : bl_inv P V X Hd s → P dev sec →
  (∀ b s', Hd !! b = None → b ∉ X → (∀ b', Hd !! b' ≠ Some (dev, sec)) →
     bl_inv P V X (<[b := (dev, sec)]> Hd) s' → wp (k b) Q s') →
  wp (b ← bl_bread dev sec; k b) Q s.
Proof.
  intros Hi HP Hk. apply wp_bind. eapply wp_mono; [by eapply bl_bread_wp|].
  intros b s' (Hb&Hn&Hi'). apply Hk; try done. intros HX.
  destruct (bl_mods _ _ _ _ _ _ Hi HX) as [e He]. congruence.
Qed.

Lemma data_wp {A} P V X Hd s b dev sec (k : list Z → M S A) Q :
  bl_inv P V X Hd s → Hd !! b = Some (dev, sec) → wp (k (V dev sec)) Q s →
  wp (d ← bl_data b; k d) Q s.
Proof.
  intros Hi Hb Hk. apply wp_bind. eapply wp_mono; [by eapply bl_data_wp|].
  by intros d s' [-> ->].
Qed.

(** Put back without a change. *)
Lemma put_wp {A} P V X Hd s b e (k : M S A) Q :
  bl_inv P V X (<[b := e]> Hd) s → Hd !! b = None → b ∉ X →
  (∀ s', bl_inv P V X Hd s' → wp k Q s') → wp (bl_brelse b;; k) Q s.
Proof.
  intros Hi Hb HX Hk. destruct e as [dev sec]. apply wp_bind.
  eapply wp_mono; [eapply bl_brelse_wp; [done|by apply lookup_insert_eq|done]|].
  intros [] s' Hi'. rewrite delete_insert_id in Hi' by done. by apply Hk.
Qed.

(** Change the block, log it, put it back. *)
Lemma log_put_wp {A} P V X Hd s b dev sec d (k : M S A) Q :
  bl_inv P V X (<[b := (dev, sec)]> Hd) s → Hd !! b = None → b ∉ X → length d = 512%nat →
  (∀ s', bl_inv P (vupd V dev sec d) X Hd s' → wp k Q s') →
  wp (bl_set b d;; bl_log_write b;; bl_brelse b;; k) Q s.
Proof.
  intros Hi Hb HX Hl Hk. apply wp_bind.
  eapply wp_mono; [eapply bl_set_wp; [done|by apply lookup_insert_eq|done]|].
  intros [] s1 H1. apply wp_bind.
  eapply wp_mono; [eapply bl_log_write_wp; [exact H1|by apply lookup_insert_eq]|].
  intros [] s2 H2. replace ((X ∪ {[b]}) ∖ {[b]}) with X in H2 by set_solver.
  by eapply put_wp.
Qed.

Lemma log_put_end_wp P V X Hd s b dev sec d (Q : unit → S → Prop) :
  bl_inv P V X (<[b := (dev, sec)]> Hd) s → Hd !! b = None → b ∉ X → length d = 512%nat →
  (∀ s', bl_inv P (vupd V dev sec d) X Hd s' → Q tt s') →
  wp (bl_set b d;; bl_log_write b;; bl_brelse b) Q s.
Proof.
  intros Hi Hb HX Hl Hk.
  assert (Hw := log_put_wp P V X Hd s b dev sec d (mret tt) Q Hi Hb HX Hl Hk).
  unfold wp, mbind, M_bind, mret, M_ret in *. destruct (bl_set b d s); try done.
  destruct (bl_log_write b _); try done. by destruct (bl_brelse b _) as [[]| | | | |].
Qed.
End Use.

(** ** The log as a block layer *)
Section LogBlocks.
Context {D : Type} `{DriverLaws D}.

#[global] Instance log_blocks : Blocks (log D) := {
  bl_k := lg_k_lens;
  bl_bread dev sec := bio (bread dev sec);
  bl_brelse b := bio (brelse b);
  bl_log_write := log_write;
  bl_data b := bio (buf_data b);
  bl_set b d := bio (set_buf_data b d)
}.

Implicit Types (X : gset nat) (Hd : gmap nat (Z * Z)) (s : log D) (bc : bcache D).

(** The transaction in progress, apart from buffers changed and not logged. *)
Definition log_sound X Hd s : Prop := ∀ (i : nat) sec, trans s !! i = Some sec →
  (∀ b, b ∈ X → Hd !! b ≠ Some (lg_dev s, sec)) →
  dview (bc_drv (lg_bc s)) (lg_dev s) (lg_start s + Z.of_nat i + 1) = view (lg_bc s) (lg_dev s) sec ∧
  view (lg_bc s) (lg_dev s) (lg_start s + Z.of_nat i + 1) = view (lg_bc s) (lg_dev s) sec.

Definition in_X X : nat → Prop := λ i, i ∈ X.

Record log_inv (P : Z → Z → Prop) (V : Z → Z → list Z) X Hd s : Prop := {
  li_ok : log_ok s;
  li_sound : log_sound X Hd s;
  li_bc : bc_inv (in_X X) (lg_bc s);
  li_k : k_ready (bc_k (lg_bc s));
  li_P : ∀ dev sec, P dev sec → dev = lg_dev s ∧ is_i32 sec ∧ ¬ in_log s sec ∧
    dvalid (bc_drv (lg_bc s)) dev sec ∧ view (lg_bc s) dev sec = V dev sec;
  li_H : ∀ b dev sec, Hd !! b = Some (dev, sec) → P dev sec ∧ ∃ c, bufs (lg_bc s) !! b = Some c ∧
    c_busy c = true ∧ c_valid c = true ∧ c_dev c = dev ∧ c_sector c = sec;
  li_X : ∀ b, b ∈ X → is_Some (Hd !! b)
}.

Lemma li_ready P V X Hd s : log_inv P V X Hd s → bc_ready (lg_bc s).
Proof. intros [_ _ _ (?&?&?&?&?&?) _ _ _]. split_and!; done. Qed.

(** The parts of the invariant that only see the view, the disk and locks. *)
Lemma log_ok_same s bc : log_ok s →
  (∀ dev sec, dvalid (bc_drv bc) dev sec ↔ dvalid (bc_drv (lg_bc s)) dev sec) →
  (∀ sec, in_log s sec → unlocked (lg_bc s) (lg_dev s) sec → unlocked bc (lg_dev s) sec) →
  log_ok (set_lg_bc bc s).
Proof.
  intros [L1 L2 L3 L4 L5 L6 L7] Hv Hu. split; try done.
  - intros sec Hs. destruct (L5 sec Hs). split; [by apply Hv|by apply Hu].
  - intros sec Hs. destruct (L6 sec Hs) as (?&?&?). split_and!; try done. by apply Hv.
Qed.

(** Changing one buffer that is not of the log region. *)
Lemma unlocked_insert s bc b c sec : bufs bc = <[b := c]> (bufs (lg_bc s)) →
  c_sector c ≠ sec → unlocked (lg_bc s) (lg_dev s) sec → unlocked bc (lg_dev s) sec.
Proof.
  intros Hb Hne Hu i x Hi Hk. rewrite Hb in Hi. apply lookup_ins in Hi as [(->&->&_)|[_ Hi]].
  - apply c_is_true in Hk as [_ Hk]. done.
  - by apply (Hu i x).
Qed.

Lemma log_sound_view X X' Hd Hd' s bc :
  log_sound X Hd s → (∀ dev sec, view bc dev sec = view (lg_bc s) dev sec) →
  (∀ dev sec, dview (bc_drv bc) dev sec = dview (bc_drv (lg_bc s)) dev sec) →
  (∀ b e, b ∈ X → Hd !! b = Some e → b ∈ X' ∧ Hd' !! b = Some e) →
  log_sound X' Hd' (set_lg_bc bc s).
Proof.
  intros Hs Hv Hdv Hsub i sec Hi Hn. simpl. rewrite Hdv, !Hv. apply Hs; [done|].
  intros b Hb He. destruct (Hsub b _ Hb He) as [Hb' He']. by apply (Hn b Hb').
Qed.

Lemma log_bread_wp P V X Hd s dev sec : log_inv P V X Hd s → P dev sec →
  wp (bio (bread dev sec)) (λ b s', Hd !! b = None ∧ (∀ b', Hd !! b' ≠ Some (dev, sec)) ∧
      log_inv P V X (<[b := (dev, sec)]> Hd) s' ∧ waked (bc_k (lg_bc s)) (bc_k (lg_bc s'))) s.
Proof.
  intros Hi HP. assert (Hr := li_ready _ _ _ _ _ Hi). pose proof Hi as [Lo Ls Lb Lk LP LH LX].
  destruct (LP dev sec HP) as (->&Hint&Hnl&Hdv&Hv). assert (Hnd : lg_dev s ≠ NODEV) by apply Lo.
  apply wp_zoom. eapply wp_mono; [eapply bread_safe; [exact Lb|done|apply Lk|done|done]|].
  cbn [lget lset lg_bc_lens]. intros b bc E.
    destruct (bread_ok (in_X X) _ _ _ _ _ Lb Hr Hnd Hdv E) as
      (c&c'&Hc&Hcb&Hb&(K&Dr&Hh)&I'&Hv'&F1&F2&F3&F4&F5&F6&F7).
    assert (Hc' : bufs bc !! b = Some c')
      by (rewrite Hb; apply list_lookup_insert_eq; by eapply lookup_lt_Some).
    assert (HbN : Hd !! b = None).
    { destruct (Hd !! b) as [[dv sc]|] eqn:Eh; [|done].
      destruct (LH b dv sc Eh) as (_&cx&Hcx&Hbx&_). rewrite Hc in Hcx. injection Hcx as <-. congruence. }
    split_and!; [done| | |simpl; rewrite K; by exists []].
    + intros b' Eh. destruct (LH b' _ _ Eh) as (_&cx&Hcx&Hbx&Hvx&Hdx&Hsx).
      assert (Hne : b' ≠ b) by (intros ->; congruence).
      assert (Hcx' : bufs bc !! b' = Some cx) by (rewrite Hb, list_lookup_insert_ne; done).
      apply Hne. eapply (coh_key _ _ _ (inv_coh _ _ I') b' b); eauto; congruence.
    + split; simpl; try done.
      * apply log_ok_same; [done|by rewrite Dr|]. intros sc Hsc. eapply unlocked_insert; [exact Hb|].
        intros <-. by rewrite F5 in Hsc.
      * eapply log_sound_view; [exact Ls|done|by intros; rewrite Dr|]. intros b' e Hb' He.
        split; [done|]. rewrite lookup_insert_ne; [done|]. congruence.
      * by rewrite K.
      * intros dv sc HPs. destruct (LP dv sc HPs) as (?&?&?&?&?). rewrite Dr, Hv'. done.
      * intros b' dv sc [[<- [= <- <-]]|[Hne Eh]]%lookup_insert_Some.
        -- split; [done|]. exists c'. done.
        -- destruct (LH b' dv sc Eh) as (?&cx&Hcx&?). split; [done|]. exists cx.
           split; [|done]. rewrite Hb, list_lookup_insert_ne; done.
      * intros b' Hb'. apply lookup_insert_is_Some. destruct (decide (b = b')); [by left|right; auto].
Qed.

Lemma log_data_wp P V X Hd s b dev sec : log_inv P V X Hd s → Hd !! b = Some (dev, sec) →
  wp (bio (buf_data b)) (λ d s', d = V dev sec ∧ s' = s) s.
Proof.
  intros [Lo Ls Lb Lk LP LH LX] Hb. destruct (LH b dev sec Hb) as (HP&c&Hc&Hcb&Hcv&Hcd&Hcs).
  eapply wp_run; [apply bio_run; by apply buf_data_run|]. rewrite set_lg_bc_same. split; [|done].
  destruct (LP dev sec HP) as (_&_&_&_&<-). subst dev sec.
  symmetry. by apply (cview_hit _ _ _ b c (inv_coh _ _ Lb)).
Qed.

Lemma log_set_wp P V X Hd s b dev sec d : log_inv P V X Hd s → Hd !! b = Some (dev, sec) →
  length d = 512%nat →
  wp (bio (set_buf_data b d)) (λ _ s', log_inv P (vupd V dev sec d) (X ∪ {[b]}) Hd s' ∧ waked (bc_k (lg_bc s)) (bc_k (lg_bc s'))) s.
Proof.
  intros [Lo Ls Lb Lk LP LH LX] Hb Hl. destruct (LH b dev sec Hb) as (HP&c&Hc&Hcb&Hcv&Hcd&Hcs).
  destruct (set_buf_data_run _ _ b c d Lb Hc Hcb Hcv Hl) as (bc&E&I'&(K&Dr&_)&B&Hv).
  destruct (LP dev sec HP) as (Hdev&Hint&Hnl&_).
  eapply wp_run; [by apply bio_run|]. split; [|simpl; rewrite K; by exists []]. split; simpl; try done.
  - apply log_ok_same; [done|by rewrite Dr|]. intros sc Hsc. eapply unlocked_insert; [exact B|].
    simpl. by intros <-; rewrite Hcs in Hsc.
  - intros i sc Hi Hn. simpl in *.
    assert (Hne : sc ≠ sec).
    { intros ->. apply (Hn b); [set_solver|]. by rewrite <- Hdev. }
    destruct (Ls i sc Hi) as [S1 S2].
    { intros b' Hb'. apply Hn. set_solver. }
    assert (Hkeep : ∀ x, x ≠ sec → view bc (lg_dev s) x = view (lg_bc s) (lg_dev s) x).
    { intros x Hx. rewrite Hv. unfold apply_w; simpl. rewrite Hcs.
      destruct (Z.eqb_spec x sec); [done|]. by rewrite andb_false_r. }
    rewrite Dr, (Hkeep sc Hne), Hkeep; [done|]. intros Heq. apply Hnl. rewrite <- Heq.
    apply in_log_block; [done|]. apply lookup_lt_Some in Hi. unfold trans in Hi.
    rewrite length_take in Hi. simpl in Hi. lia.
  - eapply bc_inv_ext; [|exact I']. intros i. unfold Xadd, in_X. set_solver.
  - by rewrite K.
  - intros dv sc HPs. destruct (LP dv sc HPs) as (?&?&?&?&Hvs). rewrite Dr.
    split_and!; try done. rewrite Hv, Hcd, Hcs. unfold vupd. by apply apply_w_ext.
  - intros b' dv sc Hb'. destruct (LH b' dv sc Hb') as (HP'&cx&Hcx&Hbx&Hvx&Hdx&Hsx).
    split; [done|]. destruct (decide (b' = b)) as [->|Hne].
    + simplify_eq. eexists. rewrite B. split; [apply list_lookup_insert_eq; by eapply lookup_lt_Some|].
      done.
    + exists cx. rewrite B, list_lookup_insert_ne; done.
  - intros b' Hb'. apply elem_of_union in Hb' as [?|?%elem_of_singleton]; [auto|]. subst. by rewrite Hb.
Qed.

Lemma log_log_write_wp P V X Hd s b dev sec : log_inv P V X Hd s → Hd !! b = Some (dev, sec) →
  wp (log_write b) (λ _ s', log_inv P V (X ∖ {[b]}) Hd s' ∧ waked (bc_k (lg_bc s)) (bc_k (lg_bc s'))) s.
Proof.
  intros Hi Hb. assert (Hr := li_ready _ _ _ _ _ Hi). pose proof Hi as [Lo Ls Lb Lk LP LH LX].
  destruct (LH b dev sec Hb) as (HP&c&Hc&Hcb&Hcv&Hcd&Hcs).
  destruct (LP dev sec HP) as (Hdev&Hint&Hnl&_). subst dev sec.
  destruct (decide (LOGSIZE ≤ lg_n s ∨ lg_size s - 1 ≤ lg_n s)) as [Hfull|Hroom].
  { unfold wp, log_write. do 2 (erewrite bind_run by reflexivity).
    replace ((LOGSIZE <=? lg_n s) || (lg_size s - 1 <=? lg_n s)) with true; [done|].
    symmetry. apply orb_true_iff. by rewrite !Z.leb_le. }
  destruct (lg_busy s) eqn:Hbusy.
  2:{ unfold wp, log_write. do 2 (erewrite bind_run by reflexivity).
      destruct (_ || _); [done|]. erewrite bind_run by reflexivity. by rewrite Hbusy. }
  assert (Hblk := log_write_block s c Lo ltac:(lia) ltac:(lia)). destruct (lo_log s Lo _ Hblk) as [Lv Lu].
  set (i := log_index _ _ _) in Hblk, Lv, Lu.
  assert (Hst : _) by (apply (log_write_start s b c); try done; lia). fold i in Hst.
  assert (Hsafe := bread_safe (in_X X) (lg_dev s) (lg_start s + Z.of_nat i + 1) (lg_bc s) Lb Hr
    ltac:(apply Lk) ltac:(apply Lo) Lv). unfold wp in Hsafe.
  destruct (bread (lg_dev s) (lg_start s + Z.of_nat i + 1) (lg_bc s)) as [lb bc0| | | |bc0|] eqn:Eb;
    try done.
  2-3: unfold wp; rewrite Hst; unfold mbind, M_bind, bio, zoom; simpl; by rewrite Eb.
  clear Hsafe Hst. assert (Hgr := bread_had_room _ _ _ _ _ _ Lb Hr Eb).
  destruct (log_write_run (in_X X) s b c) as (bc1&bc2&E&W&Hc1&I2&N2&V2&B2); try done; try lia.
  eapply wp_run; [exact E|].
  destruct (log_write_view (in_X X) s c bc1 bc2) as [Hvo _]; try done.
  assert (Hff := flag_facts c (coh_flags _ _ _ (inv_coh _ _ Lb) b c Hc)).
  pose proof N2 as (K2&D2&_). split; [|simpl; rewrite K2; apply (wr_k _ _ _ _ W)]. split; simpl; try done.
  - eapply log_write_ok with (X := in_X X) (b := b) (c := c) (bc1 := bc1) (c' := dirtied c);
      try done; lia.
  - intros j x Hj Hn. simpl in Hn |- *.
    eapply (log_write_logged (in_X X) s b c) with (bc1 := bc1) (bc2 := bc2)
      (Keep := λ x, ∀ b', b' ∈ X → Hd !! b' ≠ Some (lg_dev s, x)); try done; try lia.
    + intros j' x' Ht Hk _. by apply Ls.
    + destruct (decide (x = c_sector c)); [by left|right]. intros b' Hb' He.
      apply (Hn b'); [|done]. apply elem_of_difference. split; [done|].
      intros ->%elem_of_singleton. congruence.
  - eapply bc_inv_ext; [|exact I2]. intros k. unfold Xdel, in_X.
    rewrite elem_of_difference, elem_of_singleton. done.
  - rewrite K2. destruct (wr_k _ _ _ _ W) as [cs ->]. auto with kdb.
  - intros dv sc HPs. destruct (LP dv sc HPs) as (->&?&Hni&?&Hvs). split_and!; try done.
    + rewrite D2. by apply (wr_dvalid _ _ _ _ W).
    + rewrite (proj1 (Hvo sc ltac:(intros ->; done))). done.
  - intros b' dv sc Hb'. destruct (LH b' dv sc Hb') as (HP'&cx&Hcx&Hbx&Hvx&Hdx&Hsx).
    split; [done|]. destruct (decide (b' = b)) as [->|Hne].
    + rewrite Hcx in Hc. injection Hc as ->. exists (dirtied c). rewrite B2. split_and!; try done.
      * apply list_lookup_insert_eq. by eapply lookup_lt_Some.
      * transitivity (c_busy c); [apply Hff|done].
      * transitivity (c_valid c); [apply Hff|done].
    + exists cx. rewrite B2, list_lookup_insert_ne by done.
      split; [|done]. apply (wr_kept _ _ _ _ W); [done|by left].
  - intros b' [Hb' _]%elem_of_difference. auto.
Qed.

Lemma log_brelse_wp P V X Hd s b dev sec : log_inv P V X Hd s → Hd !! b = Some (dev, sec) →
  b ∉ X → wp (bio (brelse b)) (λ _ s', log_inv P V X (delete b Hd) s' ∧ waked (bc_k (lg_bc s)) (bc_k (lg_bc s'))) s.
Proof.
  intros Hi Hb HX. assert (Hr := li_ready _ _ _ _ _ Hi). pose proof Hi as [Lo Ls Lb Lk LP LH LX].
  destruct (LH b dev sec Hb) as (HP&c&Hc&Hcb&Hcv&Hcd&Hcs).
  destruct (LP dev sec HP) as (Hdev&Hint&Hnl&_).
  destruct (brelse_run (in_X X) (lg_bc s) b c Lb Hr Hc Hcb HX) as (bc&E&I'&Hv&B&K&Dr&_).
  eapply wp_run; [by apply bio_run|]. split; [|simpl; rewrite K; apply waked_woken]. split; simpl; try done.
  - apply log_ok_same; [done|by rewrite Dr|]. intros sc Hsc. eapply unlocked_insert; [exact B|].
    simpl. by intros <-; rewrite Hcs in Hsc.
  - eapply log_sound_view; [exact Ls|done|by intros; rewrite Dr|]. intros b' e Hb' He.
    split; [done|]. rewrite lookup_delete_ne; [done|]. congruence.
  - rewrite K. auto with kdb.
  - intros dv sc HPs. destruct (LP dv sc HPs) as (?&?&?&?&?). rewrite Dr, Hv. done.
  - intros b' dv sc [Hne Hb']%lookup_delete_Some. destruct (LH b' dv sc Hb') as (HP'&cx&Hcx&?).
    split; [done|]. exists cx. rewrite B, list_lookup_insert_ne; done.
  - intros b' Hb'. rewrite lookup_delete_ne; [auto|]. congruence.
Qed.

#[global] Instance log_block_laws : BlockLaws (log D).
Proof.
  refine {| bl_inv := log_inv |}.
  - split; intros; [done|by destruct s as [[]]|done].
  - intros P V X Hd s Hi. apply (li_k _ _ _ _ _ Hi).
  - intros P V X Hd s c [Lo Ls Lb Lk LP LH LX]. split; try done; [..|apply k_ready_woken, Lk].
    + destruct Lo as [L1 L2 L3 L4 L5 L6 L7]. by split.
    + destruct Lb as [B1 B2 B3]. by split.
  - intros P V X Hd s dev sec [Lo Ls Lb Lk LP LH LX] HP. destruct (LP dev sec HP) as (_&_&_&?&<-).
    by eapply view_length.
  - intros P V X Hd s b dev sec [Lo Ls Lb Lk LP LH LX] Hb. by apply (LH b).
  - intros P V X Hd s b [Lo Ls Lb Lk LP LH LX] Hb. auto.
  - intros P V V' X Hd s Hext [Lo Ls Lb Lk LP LH LX]. split; try done.
    intros dev sec HP. destruct (LP dev sec HP) as (?&?&?&?&?). rewrite <- Hext by done. done.
  - intros. eapply wp_mono; [by apply log_bread_wp|]. by intros b s' (?&?&?&_).
  - intros. by eapply log_data_wp.
  - intros. eapply wp_mono; [by apply log_set_wp|]. by intros b' s' [? _].
  - intros. eapply wp_mono; [by eapply log_log_write_wp|]. by intros b' s' [? _].
  - intros. eapply wp_mono; [by eapply log_brelse_wp|]. by intros b' s' [? _].
Defined.

#[global] Instance log_block_wakes : BlockWakes (log D).
Proof.
  split; intros.
  - eapply wp_mono; [by eapply log_bread_wp|]. by intros b s' (_&_&_&?).
  - eapply wp_mono; [by eapply log_set_wp|]. by intros b' s' [_ ?].
  - eapply wp_mono; [by eapply log_log_write_wp|]. by intros b' s' [_ ?].
  - eapply wp_mono; [by eapply log_brelse_wp|]. by intros b' s' [_ ?].
Qed.

End LogBlocks.
