(* ===== verification/Panics.v ===== *)
(** Panics that a component cannot raise.

    [wp] allows the panics of [exhausted] everywhere.  Here it is shown which
    of them come from which component: the block layer (bio.c, log.c and the
    disk driver) never stops with a panic of fs.c, so that a panic of
    [ialloc] says what the code of [ialloc] found. *)
From S2P Require Import Prelude Kmonad Wp Kstate Spinlock Sleep Disk Cache Bio BioRun Log Blocks.

(** Whatever state it runs in, the code never stops with the panic [msg]. *)
Definition never {S A} (msg : string) (m : M S A) : Prop := ∀ s s', m s ≠ Panic msg s'.

Section Never.
Context {S : Type} (msg : string).

Lemma never_bind {A B} (m : M S A) (k : A → M S B) : never msg m → (∀ a, never msg (k a)) → never msg (m ≫= k).
Proof.
  intros Hm Hk s s'. unfold mbind, M_bind. specialize (Hm s). destruct (m s) eqn:E; try done.
  - apply Hk.
  - intros [= ->]. by apply (Hm s0).
Qed.
Lemma never_panic {A} msg' : msg' ≠ msg → never msg (panic (S := S) (A := A) msg').
Proof. intros Hne s s' [= E]. done. Qed.
Lemma never_deref {A} (f : S → option A) : never msg (deref f).
Proof. intros s s'. unfold deref. by destruct (f s). Qed.
Lemma never_when (c : bool) (m : M S unit) : never msg m → never msg (when c m).
Proof. by destruct c. Qed.
Lemma never_loop {A B} n (f : A → M S (A + B)) : (∀ x, never msg (f x)) → ∀ x, never msg (loop n f x).
Proof.
  intros Hf. induction n as [|n IH]; intros x; cbn [loop]; [done|].
  apply never_bind; [apply Hf|]. intros [y|y]; [apply IH|done].
Qed.
Lemma never_each {A} (l : list A) (f : A → M S unit) : (∀ x, never msg (f x)) → never msg (for_each l f).
Proof. intros Hf. induction l as [|x l IH]; cbn; [done|]. by apply never_bind. Qed.
End Never.

Lemma never_zoom {S T A} msg (L : lens S T) (m : M T A) : never msg m → never msg (zoom L m).
Proof.
  intros Hm s s'. unfold zoom. specialize (Hm (lget L s)). destruct (m (lget L s)) eqn:E; try done.
  intros [= -> _]. by apply (Hm s0).
Qed.

(** [wp] without one of its panics. *)
Definition wpn {S A} (msg : string) (m : M S A) (Q : A → S → Prop) (s : S) : Prop :=
  wp m Q s ∧ ∀ s', m s ≠ Panic msg s'.

Lemma wpn_bind {S A B} msg (m : M S A) (k : A → M S B) Q s :
  wpn msg m (λ a, wpn msg (k a) Q) s → wpn msg (m ≫= k) Q s.
Proof.
  intros [Hw Hn]. unfold wpn, wp, mbind, M_bind in *. destruct (m s); try done. split; [done|].
  intros s' [= -> ->]. by apply (Hn s').
Qed.
Lemma wpn_loop {S A B} msg (body : A → M S (A + B)) (I : A → S → Prop) (Q : B → S → Prop) (meas : A → nat) :
  (∀ x s, I x s → wpn msg (body x) (λ r s', match r with
     | inl x' => I x' s' ∧ (meas x' < meas x)%nat
     | inr y => Q y s'
     end) s) →
  ∀ fuel x s, I x s → (meas x < fuel)%nat → wpn msg (loop fuel body x) Q s.
Proof.
  intros Hb fuel. induction fuel as [|fuel IH]; intros x s HI Hm; [lia|]. cbn [loop].
  apply wpn_bind. destruct (Hb x s HI) as [Hw Hn]. split; [|done]. eapply wp_mono; [exact Hw|]. intros [x'|y] s' Hr.
  - destruct Hr as [HI' Hm']. apply IH; [done|lia].
  - split; [by apply wp_ret|done].
Qed.

Create HintDb never discriminated.
#[export] Hint Constants Opaque : never.
Ltac never_step :=
  lazymatch goal with
  | |- never _ (_ ≫= _) => apply never_bind; [|intros ?]
  | |- never _ (mret _) => done
  | |- never _ (gets _) => done
  | |- never _ (modify _) => done
  | |- never _ fault => done
  | |- never _ nofuel => done
  | |- never _ (spin _) => done
  | |- never _ (blocked _) => done
  | |- never _ (deref _) => apply never_deref
  | |- never _ (panic _) => apply never_panic; solve [discriminate | intros <-; discriminate]
  | |- never _ (when _ _) => apply never_when
  | |- never _ (zoom _ _) => apply never_zoom
  | |- never _ (loop _ _ _) => apply never_loop; intros ?
  | |- never _ (for_each _ _) => apply never_each; intros ?
  | |- never _ (match ?x with _ => _ end) => destruct x
  | |- never _ _ => solve [eauto with never nocore]
  end.
Ltac never_by := intros; repeat never_step.

(** The panics of fs.c itself: no operation on blocks stops with one of them. *)
Definition fs_panic (msg : string) : bool :=
  existsb (String.eqb msg) ["balloc: out of blocks"; "iget: no inodes"; "ialloc: no inodes"; "dirlink"].
Class BlockPanics (S : Type) `{Blocks S} : Prop := {
  bp_bread msg dev sec : fs_panic msg = true → never msg (bl_bread dev sec);
  bp_brelse msg b : fs_panic msg = true → never msg (bl_brelse b);
  bp_log_write msg b : fs_panic msg = true → never msg (bl_log_write b);
  bp_data msg b : fs_panic msg = true → never msg (bl_data b);
  bp_set msg b d : fs_panic msg = true → never msg (bl_set b d)
}.

(** ** The log over the buffer cache *)

(** The log raises no panic of fs.c if the disk driver raises none. *)
Lemma never_acquire msg l : fs_panic msg = true → never msg (acquire l).
Proof. intros Hm. unfold acquire, pushcli, cli, holding, xchg, set_owner. never_by. Qed.
Lemma never_release msg l : fs_panic msg = true → never msg (release l).
Proof. intros Hm. unfold release, popcli, sti, holding, xchg, set_owner. never_by. Qed.
#[export] Hint Resolve never_acquire never_release : never.
Lemma never_sleep msg c l : fs_panic msg = true → never msg (sleep c l).
Proof. intros Hm. unfold sleep, sched, curproc, holding. never_by. Qed.
Lemma never_wakeup msg c : fs_panic msg = true → never msg (wakeup c).
Proof. intros Hm. unfold wakeup, wakeup1. never_by. Qed.
#[export] Hint Resolve never_sleep never_wakeup : never.

(** A disk driver without such panics, and memide.c. *)
Class DriverPanics (D : Type) `{Driver D} : Prop := drv_panics : ∀ msg b, fs_panic msg = true → never msg (drv_rw b).

#[export] Instance memide_panics : DriverPanics Memide.memide.
Proof.
  intros msg b Hm s s'. simpl. unfold Memide.iderw.
  repeat match goal with |- (if ?c then _ else _) ≠ _ => destruct c end; try done; intros [= <- _]; discriminate Hm.
Qed.

Section LogPanics.
Context {D : Type} `{DriverPanics D}.

Lemma never_cached msg n dev sec : ∀ b, never msg (bget_cached (D := D) n dev sec b).
Proof. induction n as [|n IH]; intros b; cbn [bget_cached]; unfold node; never_by; apply IH. Qed.
Lemma never_recycle msg n : ∀ b, never msg (bget_recycle (D := D) n b).
Proof. induction n as [|n IH]; intros b; cbn [bget_recycle]; unfold node; never_by; apply IH. Qed.
Lemma never_rw msg b : fs_panic msg = true → never msg (drv_rw (D := D) b).
Proof. apply drv_panics. Qed.
Hint Resolve never_cached never_recycle never_rw : never.

Lemma never_bread msg dev sec : fs_panic msg = true → never msg (bread (D := D) dev sec).
Proof. unfold bread, bget, bget_loop, iderw, upd_node, node, kz. never_by. Qed.
Lemma never_brelse msg b : fs_panic msg = true → never msg (brelse (D := D) b).
Proof. unfold brelse, upd_node, node, kz. never_by. Qed.
Lemma never_bwrite msg b : fs_panic msg = true → never msg (bwrite (D := D) b).
Proof. unfold bwrite, iderw, upd_node, node. never_by. Qed.
Lemma never_set_sector msg i x : never msg (set_sector (D := D) i x).
Proof. intros s s'. unfold set_sector. by case_decide. Qed.
Hint Resolve never_bread never_brelse never_bwrite never_set_sector : never.
Lemma never_log_write msg b : fs_panic msg = true → never msg (log_write (D := D) b).
Proof. unfold log_write, bio, buf_data, set_buf_data, node, upd_node. never_by. Qed.
Hint Resolve never_log_write : never.

#[global] Instance log_panics : BlockPanics (log D).
Proof. split; intros; cbn; unfold bio, buf_data, set_buf_data, upd_node, node; never_by. Qed.
End LogPanics.
