(* ===== verification/FsEx.v ===== *)
(** A small file system image, on which the theorems about fs.c and
    sysfile.c are exercised.

    Twelve blocks: 1 is the super block, 2 holds inodes 0 to 7, 4 is the
    bitmap, 5 to 8 are data blocks (6, 7 and 8 free), 9 to 11 the log.  Inode
    1 is the root directory with the entries ".", ".." and "a"; inode 2 is
    the empty file "a". *)
From S2P Require Import Prelude Kmonad Wp Kstate Spinlock Sleep Disk Cache Bio BioRun Log Blocks.

Definition pad (n : nat) (l : list Z) : list Z := l ++ replicate (n - length l) 0.

Definition ex_dinode (type nlink size addr0 : Z) : list Z :=
  pad 64 (le_encode 2 type ++ le_encode 2 0 ++ le_encode 2 0 ++ le_encode 2 nlink ++
          le_encode 4 size ++ le_encode 4 addr0).
Definition ex_dirent (inum : Z) (name : list Z) : list Z := le_encode 2 inum ++ pad 14 name.

Definition ex_super : list Z :=
  pad 512 (le_encode 4 12 ++ le_encode 4 4 ++ le_encode 4 8 ++ le_encode 4 3).
Definition ex_inodes : list Z :=
  pad 512 (ex_dinode 0 0 0 0 ++ ex_dinode 1 1 48 5 ++ ex_dinode 2 1 0 0).
Definition ex_bitmap : list Z := pad 512 [0x3f; 0x0e].
Definition ex_root : list Z :=
  pad 512 (ex_dirent 1 [46] ++ ex_dirent 1 [46; 46] ++ ex_dirent 2 [97]).
Definition ex_fs_img : list Z :=
  replicate 512 0 ++ ex_super ++ ex_inodes ++ replicate 512 0 ++ ex_bitmap ++ ex_root ++
  replicate 3072 0.

(** ** Images with the log from block 9 on *)

(** The state after [initlog] on the image [img] with a log of [n] blocks, and
    an empty cache. *)
Definition log_on (k : kst) (img : list Z) (n : Z) : log Memide.memide :=
  Log (Bcache k binit_nodes (Memide.ideinit img) []) 9 n true 1 0 (replicate 10 0).

Definition ex_P (dev sec : Z) : Prop := dev = 1 ∧ 1 ≤ sec < 9.

Section Image.
Context (k : kst) (img : list Z) (n : Z).
Hypothesis Hk : k_ready k.
Hypothesis Hn : 3 ≤ n ≤ 20.
Hypothesis Himg : Z.of_nat (length img) = 512 * (9 + n).
Notation log_on k img := (log_on k img n).

Lemma log_on_valid sec : 0 ≤ sec < 9 + n → dvalid (bc_drv (lg_bc (log_on k img))) 1 sec.
Proof using Himg.
  intros. split; [done|]. split; [|done]. change (0 ≤ sec < Z.of_nat (length img) / 512).
  by rewrite Himg, Z.mul_comm, Z.div_mul by done.
Qed.

Lemma log_on_empty i c : bufs (lg_bc (log_on k img)) !! i = Some c →
  c_valid c = false ∧ c_busy c = false ∧ c_dirty c = false.
Proof.
  intros Hi. apply bufs_lookup_inv in Hi as (bb&Hbb&<-&Hlt). cbn [bc_buf lg_bc log_on] in Hbb.
  unfold binit_nodes in Hbb. rewrite lookup_app_l in Hbb by (rewrite length_fmap, length_seq; done).
  rewrite list_lookup_fmap, fmap_Some in Hbb. by destruct Hbb as (j&_&->).
Qed.

Lemma log_on_inv : bl_inv ex_P (dview (bc_drv (lg_bc (log_on k img)))) ∅ ∅ (log_on k img).
Proof using Hk Hn Himg.
  assert (HI : bc_inv no_mods (lg_bc (log_on k img))).
  { destruct (binit_inv k (Memide.ideinit img)) as [A B C]. by split. }
  split.
  - split; try done.
    + cbn. lia.
    + split; [done|cbn; lia].
    + intros sec Hs. unfold in_log in Hs; simpl in Hs. split; [apply log_on_valid; lia|].
      intros i c Hi _. by apply (log_on_empty i c Hi).
    + intros sec Hs. by apply elem_of_nil in Hs.
    + constructor.
  - intros i sec Hi. done.
  - eapply bc_inv_ext; [|exact HI]. unfold in_X, no_mods. set_solver.
  - exact Hk.
  - intros dev sec [-> Hs]. split; [done|]. split; [unfold is_i32; lia|].
    split; [unfold in_log; simpl; lia|]. split; [apply log_on_valid; lia|].
    apply cview_miss. intros i c Hi Hv. destruct (log_on_empty i c Hi). congruence.
  - intros b dev sec Hb. by rewrite lookup_empty in Hb.
  - intros b Hb. set_solver.
Qed.
End Image.

Definition ex_fs_log : log Memide.memide := log_on ex_k ex_fs_img 3.
Definition ex_V : Z → Z → list Z := dview (bc_drv (lg_bc ex_fs_log)).

Lemma ex_k_ready : k_ready ex_k.
Proof.
  split; [split_and!; done|]. split; [done|]. split; [done|]. split; [|done]. split; [done|]. by exists 0%nat.
Qed.

Lemma ex_fs_inv : bl_inv ex_P ex_V ∅ ∅ ex_fs_log.
Proof. apply log_on_inv; [apply ex_k_ready|lia|by vm_compute]. Qed.

(** The same blocks with a log of ten. *)
Definition ex_big_log : log Memide.memide := log_on ex_k (ex_fs_img ++ replicate 3584 0) 10.

Lemma ex_big_inv : bl_inv ex_P ex_V ∅ ∅ ex_big_log.
Proof.
  eapply bl_ext; [|apply log_on_inv; [apply ex_k_ready|lia|by vm_compute]]. intros dev sec [-> Hs].
  assert (sec = 1 ∨ sec = 2 ∨ sec = 3 ∨ sec = 4 ∨ sec = 5 ∨ sec = 6 ∨ sec = 7 ∨ sec = 8) as Hc by lia.
  destruct Hc as [->|[->|[->|[->|[->|[->|[->| ->]]]]]]]; vm_compute; reflexivity.
Qed.
