(* ===== verification/Balloc.v ===== *)
(** The block allocator of fs.c: [readsb], [bzero], [balloc], [bfree]. *)
From S2P Require Import Prelude Kmonad Wp Kstate Spinlock Sleep Disk Log Blocks FsEx.

(** fs.h: the layout of the disk.  [sizeof(struct dinode)] is 64. *)
Definition IPB : Z := BSIZE / 64.
Definition IBLOCK (i : Z) : Z := i / IPB + 2.
Definition BPB : Z := BSIZE * 8.
Definition BBLOCK (b ninodes : Z) : Z := b / BPB + ninodes / IPB + 3.

(** [p[i]] on a byte array of a buffer. *)
Definition byte_at (d : list Z) (i : Z) : Z := nth (Z.to_nat i) d 0.
Definition set_byte (d : list Z) (i v : Z) : list Z := <[Z.to_nat i := u8 v]> d.

(** [1 << (bi % 8)] and the test of [balloc] and [bfree]. *)
Definition bit_mask (bi : Z) : Z := Z.shiftl 1 (bi mod 8).
Definition bit_clear (d : list Z) (bi : Z) : bool :=
  Z.land (byte_at d (bi / 8)) (bit_mask bi) =? 0.

(** The inner loop of [balloc]: the first clear bit of a bitmap block. *)
Fixpoint scan_bits (n : nat) (d : list Z) (b size bi : Z) : option Z :=
  match n with
  | O => None
  | S n =>
      if u32 (b + bi) <? size then
        if bit_clear d bi then Some bi else scan_bits n d b size (bi + 1)
      else None
  end.

Section Balloc.
Context {B : Type} {BB : Blocks B} {BL : BlockLaws B}.

(** Read the super block. *)
Definition fs_readsb (dev : Z) : M B superblock :=
  bp ← bl_bread dev 1;
  d ← bl_data bp;
  bl_brelse bp;;
  mret (superblock_of d).

(** Zero a block. *)
Definition bzero (dev bno : Z) : M B unit :=
  bp ← bl_bread dev (u32 bno);
  bl_set bp (replicate (Z.to_nat BSIZE) 0);;
  bl_log_write bp;;
  bl_brelse bp.

(** One turn of the outer loop of [balloc]: the bitmap block for [b]. *)
Definition balloc_block (dev : Z) (sb : superblock) (b : Z) : M B (Z + Z) :=
  if u32 b <? sb_size sb then
    bp ← bl_bread dev (u32 (BBLOCK b (sb_ninodes sb)));
    d ← bl_data bp;
    match scan_bits (Z.to_nat BPB) d b (sb_size sb) 0 with
    | Some bi =>
        bl_set bp (set_byte d (bi / 8) (Z.lor (byte_at d (bi / 8)) (bit_mask bi)));;
        bl_log_write bp;;
        bl_brelse bp;;
        bzero dev (b + bi);;
        mret (inr (u32 (b + bi)))
    | None => bl_brelse bp;; mret (inl (b + BPB))
    end
  else panic "balloc: out of blocks".

(** Allocate a zeroed disk block. *)
Definition balloc (dev : Z) : M B Z :=
  sb ← fs_readsb dev;
  loop (S (Z.to_nat (sb_size sb / BPB + 1))) (balloc_block dev sb) 0.

(** Free a disk block. *)
Definition bfree (dev b : Z) : M B unit :=
  sb ← fs_readsb dev;
  bp ← bl_bread dev (u32 (BBLOCK b (sb_ninodes sb)));
  let bi := b mod BPB in
  d ← bl_data bp;
  if bit_clear d bi then panic "freeing free block" else
  bl_set bp (set_byte d (bi / 8) (Z.land (byte_at d (bi / 8)) (Z.lnot (bit_mask bi))));;
  bl_log_write bp;;
  bl_brelse bp.

(** ** The bitmap *)

(** Bit [bi] of a bitmap block. *)
Definition bit (d : list Z) (bi : Z) : bool := Z.testbit (byte_at d (bi / 8)) (bi mod 8).

Lemma bit_clear_bit d bi : bit_clear d bi = negb (bit d bi).
Proof.
  unfold bit_clear, bit, bit_mask. set (x := byte_at _ _). set (k := bi mod 8).
  assert (Hk : 0 ≤ k) by (apply Z.mod_pos_bound; lia).
  destruct (Z.testbit x k) eqn:E.
  - apply Z.eqb_neq. intros Hz. assert (Hb := Z.land_spec x (Z.shiftl 1 k) k).
    rewrite Hz, Z.bits_0, E, Z.shiftl_spec, Z.sub_diag in Hb by lia. done.
  - apply Z.eqb_eq. apply Z.bits_inj'. intros n Hn. rewrite Z.land_spec, Z.bits_0.
    destruct (decide (n = k)) as [->|Hne]; [by rewrite E|].
    rewrite Z.shiftl_spec by lia. destruct (decide (n < k)).
    + by rewrite (Z.testbit_neg_r _ (n - k)), andb_false_r by lia.
    + rewrite (Z.bits_above_log2 1 (n - k)), andb_false_r; [done|lia|]. change (Z.log2 1) with 0. lia.
Qed.

Lemma u8_testbit x k : 0 ≤ k < 8 → Z.testbit (u8 x) k = Z.testbit x k.
Proof. intros. unfold u8. change 256 with (2 ^ 8). apply Z.mod_pow2_bits_low. lia. Qed.

Lemma byte_set_byte d i j v : 0 ≤ i → 0 ≤ j → (Z.to_nat i < length d)%nat →
  byte_at (set_byte d i v) j = if j =? i then u8 v else byte_at d j.
Proof.
  intros Hi Hj Hl. unfold byte_at, set_byte. rewrite !nth_lookup.
  destruct (Z.eqb_spec j i) as [->|Hne].
  - by rewrite list_lookup_insert_eq.
  - rewrite list_lookup_insert_ne by lia. done.
Qed.

Lemma mask_testbit bi k : 0 ≤ k < 8 → Z.testbit (bit_mask bi) k = (k =? bi mod 8).
Proof.
  intros Hk. unfold bit_mask. assert (0 ≤ bi mod 8) by (apply Z.mod_pos_bound; lia).
  rewrite Z.shiftl_1_l, Z.pow2_bits_eqb by lia. apply Z.eqb_sym.
Qed.

Section Bits.
Variables (d : list Z) (bi bj : Z).
Hypotheses (Hd : length d = 512%nat) (Hbi : 0 ≤ bi < BPB) (Hbj : 0 ≤ bj < BPB).

Lemma bit_byte_pos : 0 ≤ bi / 8 ∧ 0 ≤ bj / 8 ∧ (Z.to_nat (bi / 8) < length d)%nat ∧
  0 ≤ bj mod 8 < 8 ∧ (bj =? bi) = (bj / 8 =? bi / 8) && (bj mod 8 =? bi mod 8).
Proof.
  unfold BPB, BSIZE in *. pose proof (Z.div_mod bi 8). pose proof (Z.div_mod bj 8).
  pose proof (Z.mod_pos_bound bi 8). pose proof (Z.mod_pos_bound bj 8).
  split_and!; lia.
Qed.

Lemma bit_set : bit (set_byte d (bi / 8) (Z.lor (byte_at d (bi / 8)) (bit_mask bi))) bj =
  bit d bj || (bj =? bi).
Proof.
  destruct bit_byte_pos as (P1&P2&P3&P4&P5). unfold bit. rewrite byte_set_byte, P5 by done.
  destruct (Z.eqb_spec (bj / 8) (bi / 8)) as [->|]; simpl; [|by rewrite orb_false_r].
  by rewrite u8_testbit, Z.lor_spec, mask_testbit by done.
Qed.

Lemma bit_reset : bit (set_byte d (bi / 8) (Z.land (byte_at d (bi / 8)) (Z.lnot (bit_mask bi)))) bj =
  bit d bj && negb (bj =? bi).
Proof.
  destruct bit_byte_pos as (P1&P2&P3&P4&P5). unfold bit. rewrite byte_set_byte, P5 by done.
  destruct (Z.eqb_spec (bj / 8) (bi / 8)) as [->|]; simpl; [|by rewrite andb_true_r].
  by rewrite u8_testbit, Z.land_spec, Z.lnot_spec, mask_testbit by (done || lia).
Qed.
End Bits.

Lemma length_set_byte d i v : length (set_byte d i v) = length d.
Proof. apply length_insert. Qed.

Lemma scan_bits_some n d b size bi r : scan_bits n d b size bi = Some r →
  bi ≤ r < bi + Z.of_nat n ∧ u32 (b + r) < size ∧ bit d r = false ∧
  ∀ j, bi ≤ j < r → bit d j = true.
Proof.
  revert bi. induction n as [|n IH]; intros bi Hs; simpl in Hs; [done|].
  destruct (Z.ltb_spec (u32 (b + bi)) size); [|done]. rewrite bit_clear_bit in Hs.
  destruct (bit d bi) eqn:Hb; simpl in Hs.
  - destruct (IH _ Hs) as (H1&H2&H3&H4). split_and!; try done; try lia. intros j Hj.
    destruct (decide (j = bi)) as [->|]; [done|]. apply H4. lia.
  - injection Hs as ->. split_and!; try done; lia.
Qed.

Lemma scan_bits_none n d b size bi : 0 ≤ b + bi → b + bi + Z.of_nat n < 4294967296 →
  scan_bits n d b size bi = None →
  ∀ j, bi ≤ j < bi + Z.of_nat n → b + j < size → bit d j = true.
Proof.
  revert bi. induction n as [|n IH]; intros bi H0 Hl Hs j Hj Hsz; [lia|]. simpl in Hs.
  rewrite u32_small in Hs by lia. destruct (Z.ltb_spec (b + bi) size); [|lia].
  rewrite bit_clear_bit in Hs. destruct (bit d bi) eqn:Hb; simpl in Hs; [|done].
  destruct (decide (j = bi)) as [->|]; [done|]. apply (IH (bi + 1)); try done; lia.
Qed.

(** ** What the allocator promises *)

(** Is block [b] marked in use? *)
Definition in_use (V : Z → Z → list Z) (dev : Z) (sb : superblock) (b : Z) : bool :=
  bit (V dev (BBLOCK b (sb_ninodes sb))) (b mod BPB).

(** A file system that the allocator can work on: the super block is
    readable, so are the bitmap blocks, and every free block is a usable
    block behind the metadata. *)
Record fs_geom (P : Z → Z → Prop) (V : Z → Z → list Z) (dev : Z) (sb : superblock) : Prop := {
  fg_sb : superblock_of (V dev 1) = sb;
  fg_P1 : P dev 1;
  fg_size : 0 < sb_size sb < 2147483648;
  fg_ninodes : 0 ≤ sb_ninodes sb < 2147483648;
  fg_map : ∀ b, 0 ≤ b < sb_size sb → P dev (BBLOCK b (sb_ninodes sb));
  fg_free : ∀ b, 0 ≤ b < sb_size sb → in_use V dev sb b = false →
    P dev b ∧ BBLOCK (sb_size sb - 1) (sb_ninodes sb) < b
}.

Lemma BBLOCK_mono b b' n : b ≤ b' → BBLOCK b n ≤ BBLOCK b' n.
Proof.
  intros. unfold BBLOCK, BPB, BSIZE. change (512 * 8) with 4096.
  pose proof (Z.div_le_mono b b' 4096). lia.
Qed.

Lemma BBLOCK_range b n : 0 ≤ b < 2147483648 → 0 ≤ n < 2147483648 → 2 < BBLOCK b n < 4294967296.
Proof.
  intros. unfold BBLOCK, BPB, IPB, BSIZE. change (512 / 64) with 8. change (512 * 8) with 4096.
  Z.div_mod_to_equations. lia.
Qed.

(** The contents after block [b] is allocated. *)
Definition allocated (V : Z → Z → list Z) (dev : Z) (sb : superblock) (b : Z) : Z → Z → list Z :=
  let bb := BBLOCK b (sb_ninodes sb) in
  let bi := b mod BPB in
  let d := V dev bb in
  vupd (vupd V dev bb (set_byte d (bi / 8) (Z.lor (byte_at d (bi / 8)) (bit_mask bi))))
    dev b (replicate 512 0).
Definition freed (V : Z → Z → list Z) (dev : Z) (sb : superblock) (b : Z) : Z → Z → list Z :=
  let bb := BBLOCK b (sb_ninodes sb) in
  let bi := b mod BPB in
  let d := V dev bb in
  vupd V dev bb (set_byte d (bi / 8) (Z.land (byte_at d (bi / 8)) (Z.lnot (bit_mask bi)))).

Lemma BBLOCK_plus b r n : b mod BPB = 0 → 0 ≤ r < BPB →
  BBLOCK (b + r) n = BBLOCK b n ∧ (b + r) mod BPB = r.
Proof.
  unfold BBLOCK, BPB, BSIZE. change (512 * 8) with 4096. intros. Z.div_mod_to_equations. lia.
Qed.

Lemma same_bit b b' n : (b' =? b) = (BBLOCK b' n =? BBLOCK b n) && (b' mod BPB =? b mod BPB).
Proof.
  unfold BBLOCK, BPB, BSIZE. change (512 * 8) with 4096.
  pose proof (Z.div_mod b 4096 ltac:(lia)). pose proof (Z.div_mod b' 4096 ltac:(lia)).
  destruct (Z.eqb_spec b' b) as [->|Hne]; [by rewrite !Z.eqb_refl|]. symmetry.
  apply andb_false_iff. rewrite !Z.eqb_neq. lia.
Qed.

Lemma BPB_mod b : 0 ≤ b mod BPB < BPB.
Proof. unfold BPB, BSIZE. apply Z.mod_pos_bound. lia. Qed.

Section Views.
Variables (P : Z → Z → Prop) (V : Z → Z → list Z) (dev : Z) (sb : superblock) (b : Z).
Hypotheses (Hg : fs_geom P V dev sb) (Hb : 0 ≤ b < sb_size sb).
Hypothesis Hlen : ∀ sec, P dev sec → length (V dev sec) = 512%nat.

Lemma bitmap_len b' : 0 ≤ b' < sb_size sb → length (V dev (BBLOCK b' (sb_ninodes sb))) = 512%nat.
Proof. intros Hb'. apply Hlen. by apply Hg. Qed.

(** Allocation marks [b], and no other block, ... *)
Lemma allocated_use b' : in_use V dev sb b = false → 0 ≤ b' < sb_size sb →
  in_use (allocated V dev sb b) dev sb b' = in_use V dev sb b' || (b' =? b).
Proof.
  intros Hf Hb'. destruct (fg_free _ _ _ _ Hg b Hb Hf) as [_ Hlt].
  assert (Hne : BBLOCK b' (sb_ninodes sb) < b)
    by (pose proof (BBLOCK_mono b' (sb_size sb - 1) (sb_ninodes sb)); lia).
  unfold in_use, allocated. rewrite vupd_ne by (intros [= Heq]; lia).
  rewrite (same_bit b b' (sb_ninodes sb)).
  destruct (Z.eqb_spec (BBLOCK b' (sb_ninodes sb)) (BBLOCK b (sb_ninodes sb))) as [->|Hnb]; simpl.
  - rewrite vupd_same, bit_set; [done|by apply bitmap_len|apply BPB_mod..].
  - rewrite vupd_ne by (intros [= ?]; done). by rewrite orb_false_r.
Qed.

(** ... zeroes it, and changes nothing else but its bitmap block. *)
Lemma allocated_zero : allocated V dev sb b dev b = replicate 512 0.
Proof. apply vupd_same. Qed.
Lemma allocated_other sec : sec ≠ b → sec ≠ BBLOCK b (sb_ninodes sb) →
  allocated V dev sb b dev sec = V dev sec.
Proof. intros H1 H2. unfold allocated. rewrite !vupd_ne; [done|congruence..]. Qed.

Lemma freed_use b' : 0 ≤ b' < sb_size sb →
  in_use (freed V dev sb b) dev sb b' = in_use V dev sb b' && negb (b' =? b).
Proof.
  intros Hb'. unfold in_use, freed. rewrite (same_bit b b' (sb_ninodes sb)).
  destruct (Z.eqb_spec (BBLOCK b' (sb_ninodes sb)) (BBLOCK b (sb_ninodes sb))) as [->|Hnb]; simpl.
  - rewrite vupd_same, bit_reset; [done|by apply bitmap_len|apply BPB_mod..].
  - rewrite vupd_ne by (intros [= ?]; done). by rewrite andb_true_r.
Qed.
Lemma freed_other sec : sec ≠ BBLOCK b (sb_ninodes sb) → freed V dev sb b dev sec = V dev sec.
Proof. intros H1. unfold freed. rewrite !vupd_ne; [done|congruence..]. Qed.
End Views.

(** ** Runs *)
Implicit Types (P : Z → Z → Prop) (V : Z → Z → list Z) (X : gset nat) (Hd : gmap nat (Z * Z)) (s : B).

Lemma fs_readsb_wp P V X Hd s dev : bl_inv P V X Hd s → P dev 1 →
  wp (fs_readsb dev) (λ sb s', sb = superblock_of (V dev 1) ∧ bl_inv P V X Hd s') s.
Proof.
  intros Hi HP. unfold fs_readsb. eapply get_wp; [done..|]. intros b s1 Hb HX _ H1.
  eapply data_wp; [exact H1|apply lookup_insert_eq|].
  eapply put_wp; [exact H1|done|done|]. intros s2 H2. by apply wp_ret.
Qed.

Lemma bzero_wp P V X Hd s dev b : bl_inv P V X Hd s → P dev b → 0 ≤ b < 4294967296 →
  wp (bzero dev b) (λ _ s', bl_inv P (vupd V dev b (replicate 512 0)) X Hd s') s.
Proof.
  intros Hi HP Hb. unfold bzero. rewrite u32_small by done.
  eapply get_wp; [done..|]. intros bp s1 Hbp HX _ H1.
  eapply log_put_end_wp; [exact H1|done|done|done|done].
Qed.

Lemma balloc_wp P V X Hd s dev sb : bl_inv P V X Hd s → fs_geom P V dev sb →
  wp (balloc dev) (λ b s', 0 ≤ b < sb_size sb ∧ in_use V dev sb b = false ∧
    bl_inv P (allocated V dev sb b) X Hd s') s.
Proof.
  intros Hi Hg. pose proof Hg as [Gsb GP1 Gsz Gni Gmap Gfree].
  unfold balloc. apply wp_bind. eapply wp_mono; [by eapply fs_readsb_wp|].
  intros sb' s0 [-> Hi0]. rewrite Gsb.
  eapply (wp_loop _ (λ b s, bl_inv P V X Hd s ∧ 0 ≤ b ≤ sb_size sb + BPB ∧ b mod BPB = 0) _
    (λ b, Z.to_nat (sb_size sb / BPB + 1 - b / BPB))).
  2:{ split_and!; [done|lia|unfold BPB, BSIZE; lia|done]. }
  2:{ change (0 / BPB) with 0. lia. }
  clear s0 Hi0. intros b s0 (Hi0&Hb&Hmod). unfold balloc_block.
  assert (HB : BPB = 4096) by done. rewrite u32_small by lia.
  destruct (Z.ltb_spec b (sb_size sb)); [|done].
  pose proof (BBLOCK_range b (sb_ninodes sb)). rewrite u32_small by lia.
  eapply get_wp; [exact Hi0|apply Gmap; lia|]. intros bp s1 Hbp HX _ H1.
  eapply data_wp; [exact H1|apply lookup_insert_eq|].
  set (d := V dev (BBLOCK b (sb_ninodes sb))).
  assert (Hdl : length d = 512%nat) by (eapply bl_len; [exact Hi|apply Gmap; lia]).
  destruct (scan_bits _ d b (sb_size sb) 0) as [r|] eqn:Es.
  - apply scan_bits_some in Es as (Hr&Hru&Hbit&_). rewrite u32_small in Hru by lia.
    destruct (BBLOCK_plus b r (sb_ninodes sb)) as [EB Em]; [done|lia|].
    assert (Hfree : in_use V dev sb (b + r) = false) by (unfold in_use; by rewrite EB, Em).
    destruct (Gfree (b + r) ltac:(lia) Hfree) as [HPr _].
    eapply log_put_wp; [exact H1|done|done|by rewrite length_set_byte|]. intros s2 H2.
    apply wp_bind. eapply wp_mono; [eapply bzero_wp; [exact H2|done|lia]|].
    intros [] s3 H3. apply wp_ret. rewrite u32_small by lia. split_and!; [lia|lia|done|].
    unfold allocated. rewrite EB, Em. exact H3.
  - eapply put_wp; [exact H1|done|done|]. intros s2 H2. apply wp_ret.
    rewrite HB in *. split_and!; [done|lia|lia|Z.div_mod_to_equations; lia|].
    Z.div_mod_to_equations; lia.
Qed.

Lemma bfree_wp P V X Hd s dev sb b : bl_inv P V X Hd s → fs_geom P V dev sb →
  0 ≤ b < sb_size sb → in_use V dev sb b = true →
  wp (bfree dev b) (λ _ s', bl_inv P (freed V dev sb b) X Hd s') s.
Proof.
  intros Hi Hg Hb Hu. pose proof Hg as [Gsb GP1 Gsz Gni Gmap Gfree].
  unfold bfree. apply wp_bind. eapply wp_mono; [by eapply fs_readsb_wp|].
  intros sb' s0 [-> Hi0]. rewrite Gsb. pose proof (BBLOCK_range b (sb_ninodes sb)).
  rewrite u32_small by lia. eapply get_wp; [exact Hi0|by apply Gmap|]. intros bp s1 Hbp HX _ H1.
  eapply data_wp; [exact H1|apply lookup_insert_eq|]. rewrite bit_clear_bit.
  change (bit (V dev (BBLOCK b (sb_ninodes sb))) (b mod BPB)) with (in_use V dev sb b).
  rewrite Hu. cbn [negb].
  eapply log_put_end_wp; [exact H1|done|done| |done].
  rewrite length_set_byte. eapply bl_len; [exact Hi|by apply Gmap].
Qed.

(** [balloc] returns a block inside the file system that was marked free,
    marks it and no other block in use, zeroes it and changes no block but
    this one and its bitmap block; a block it has returned is not returned
    again before it is freed, since it is then in use. *)
Theorem balloc_correct P V X Hd s dev sb :
  bl_inv P V X Hd s → fs_geom P V dev sb →
  wp (balloc dev) (λ b s', 0 ≤ b < sb_size sb ∧ in_use V dev sb b = false ∧
    bl_inv P (allocated V dev sb b) X Hd s' ∧
    (∀ b', 0 ≤ b' < sb_size sb →
       in_use (allocated V dev sb b) dev sb b' = in_use V dev sb b' || (b' =? b)) ∧
    allocated V dev sb b dev b = replicate 512 0 ∧
    (∀ sec, sec ≠ b → sec ≠ BBLOCK b (sb_ninodes sb) →
       allocated V dev sb b dev sec = V dev sec)) s.
Proof.
  intros Hi Hg. eapply wp_mono; [by eapply balloc_wp|]. intros b s' (Hb&Hf&Hi').
  assert (Hlen : ∀ sec, P dev sec → length (V dev sec) = 512%nat)
    by (intros sec HP; by eapply bl_len).
  split_and!; try done; try lia.
  - intros b' Hb'. by eapply allocated_use.
  - apply allocated_zero.
  - intros. by apply allocated_other.
Qed.

(** [bfree] of a block in use clears its bit and no other and changes nothing
    but the bitmap block. *)
Theorem bfree_correct P V X Hd s dev sb b :
  bl_inv P V X Hd s → fs_geom P V dev sb → 0 ≤ b < sb_size sb → in_use V dev sb b = true →
  wp (bfree dev b) (λ _ s', bl_inv P (freed V dev sb b) X Hd s' ∧
    (∀ b', 0 ≤ b' < sb_size sb →
       in_use (freed V dev sb b) dev sb b' = in_use V dev sb b' && negb (b' =? b)) ∧
    (∀ sec, sec ≠ BBLOCK b (sb_ninodes sb) → freed V dev sb b dev sec = V dev sec)) s.
Proof.
  intros Hi Hg Hb Hu. eapply wp_mono; [by eapply bfree_wp|]. intros [] s' Hi'.
  assert (Hlen : ∀ sec, P dev sec → length (V dev sec) = 512%nat)
    by (intros sec HP; by eapply bl_len).
  split_and!; try done.
  - intros b' Hb'. by eapply freed_use.
  - intros. by apply freed_other.
Qed.
End Balloc.

(** ** On the example file system *)
Definition ex_sb12 : superblock := Superblock 12 4 8 3.

(** Blocks below 12, one by one. *)
Lemma below_12 (Q : Z → Prop) : (∀ i, In i (seq 0 12) → Q (Z.of_nat i)) → ∀ b, 0 ≤ b < 12 → Q b.
Proof.
  intros HQ b Hb. rewrite <- (Z2Nat.id b) by lia. apply HQ. apply in_seq. lia.
Qed.

Lemma ex_geom : fs_geom ex_P ex_V 1 ex_sb12.
Proof.
  split; [reflexivity|by split|done|done| |].
  - intros b Hb. simpl in Hb. revert b Hb. refine (below_12 _ _). intros i Hi.
    repeat (destruct Hi as [<-|Hi]; [vm_compute; intuition congruence|]). done.
  - intros b Hb. simpl in Hb. revert b Hb. refine (below_12 _ _). intros i Hi.
    repeat (destruct Hi as [<-|Hi]; [vm_compute; intuition congruence|]). done.
Qed.

Lemma balloc_correct_witness :
  ∃ s', balloc 1 ex_fs_log = Ok 6 s' ∧ in_use ex_V 1 ex_sb12 6 = false ∧
    in_use (allocated ex_V 1 ex_sb12 6) 1 ex_sb12 6 = true.
Proof.
  assert (Hw := balloc_correct ex_P ex_V ∅ ∅ ex_fs_log 1 ex_sb12 ex_fs_inv ex_geom).
  destruct (balloc 1 ex_fs_log) as [b s'| | | | |] eqn:E; [|vm_compute in E; discriminate E..].
  assert (Hb : match balloc 1 ex_fs_log with Ok b _ => b | _ => 0 end = 6) by (vm_compute; reflexivity).
  rewrite E in Hb. subst b. exists s'. split; [reflexivity|].
  destruct (wp_ok _ _ _ _ _ Hw E) as (_&Hf&_&Hu&_). split; [exact Hf|].
  rewrite Hu by (simpl; lia). by rewrite Hf.
Defined.

Lemma bfree_correct_witness :
  ∃ s', bfree 1 5 ex_fs_log = Ok tt s' ∧ in_use (freed ex_V 1 ex_sb12 5) 1 ex_sb12 5 = false.
Proof.
  assert (Hw := bfree_correct ex_P ex_V ∅ ∅ ex_fs_log 1 ex_sb12 5 ex_fs_inv ex_geom ltac:(simpl; lia) eq_refl).
  destruct (bfree 1 5 ex_fs_log) as [[] s'| | | | |] eqn:E; [|vm_compute in E; discriminate E..].
  exists s'. split; [reflexivity|]. destruct (wp_ok _ _ _ _ _ Hw E) as (_&Hu&_).
  rewrite Hu by (simpl; lia). by rewrite andb_false_r.
Defined.
