(* ===== verification/Inode.v ===== *)
(** Inodes (fs.c, file.h, fs.h): the inode cache and the contents of files. *)
From S2P Require Import Prelude Kmonad Wp Kstate Spinlock Sleep Disk Log Blocks FsEx Balloc.

(** ** fs.h, stat.h, file.h *)
Definition NDIRECT : Z := 12.
Definition NINDIRECT : Z := BSIZE / 4.
Definition MAXFILE : Z := NDIRECT + NINDIRECT.
Definition T_DIR : Z := 1.
Definition T_FILE : Z := 2.
Definition T_DEV : Z := 3.
Definition I_BUSY : Z := 1.
Definition I_VALID : Z := 2.

(** The fields that [struct inode] shares with [struct dinode]. *)
Record dinode := Dinode {
  di_type : Z; di_major : Z; di_minor : Z; di_nlink : Z; di_size : Z;
  di_addrs : list Z
}.

(** In-memory copy of an inode. *)
Record inode := Inode {
  i_dev : Z;
  i_inum : Z;
  i_ref : Z;
  i_flags : Z;
  i_d : dinode                     (* copy of disk inode *)
}.
Definition i_type (ip : inode) : Z := di_type (i_d ip).
Definition i_major (ip : inode) : Z := di_major (i_d ip).
Definition i_minor (ip : inode) : Z := di_minor (i_d ip).
Definition i_nlink (ip : inode) : Z := di_nlink (i_d ip).
Definition i_size (ip : inode) : Z := di_size (i_d ip).
Definition i_addrs (ip : inode) : list Z := di_addrs (i_d ip).

Definition set_di_type v (d : dinode) : dinode :=
  Dinode v (di_major d) (di_minor d) (di_nlink d) (di_size d) (di_addrs d).
Definition set_di_majmin v w (d : dinode) : dinode :=
  Dinode (di_type d) v w (di_nlink d) (di_size d) (di_addrs d).
Definition set_di_nlink v (d : dinode) : dinode :=
  Dinode (di_type d) (di_major d) (di_minor d) v (di_size d) (di_addrs d).
Definition set_di_size v (d : dinode) : dinode :=
  Dinode (di_type d) (di_major d) (di_minor d) (di_nlink d) v (di_addrs d).
Definition set_di_addrs v (d : dinode) : dinode :=
  Dinode (di_type d) (di_major d) (di_minor d) (di_nlink d) (di_size d) v.

Definition set_i_key dev inum (ip : inode) : inode :=
  Inode dev inum (i_ref ip) (i_flags ip) (i_d ip).
Definition set_i_ref v (ip : inode) : inode :=
  Inode (i_dev ip) (i_inum ip) v (i_flags ip) (i_d ip).
Definition set_i_flags v (ip : inode) : inode :=
  Inode (i_dev ip) (i_inum ip) (i_ref ip) v (i_d ip).
Definition set_i_d v (ip : inode) : inode :=
  Inode (i_dev ip) (i_inum ip) (i_ref ip) (i_flags ip) v.
Definition upd_i_d (f : dinode → dinode) (ip : inode) : inode := set_i_d (f (i_d ip)) ip.

(** The [struct dinode] at [bp->data], indexed by [inum%IPB]: 64 bytes each, four shorts, the
    size, and NDIRECT+1 block addresses. *)
Definition dinode_off (inum : Z) : nat := Z.to_nat (inum mod IPB) * 64.
Definition dinode_get (inum : Z) (d : list Z) : dinode :=
  let o := dinode_off inum in
  Dinode (i16 (get_u16 o d)) (i16 (get_u16 (o + 2) d)) (i16 (get_u16 (o + 4) d))
    (i16 (get_u16 (o + 6) d)) (get_u32 (o + 8) d)
    ((λ j, get_u32 (o + 12 + 4 * j) d) <$> seq 0 13).
Fixpoint put_addrs (o : nat) (addrs : list Z) (d : list Z) : list Z :=
  match addrs with
  | [] => d
  | a :: addrs => put_addrs (o + 4) addrs (put_u32 o a d)
  end.
Definition dinode_put (inum : Z) (x : dinode) (d : list Z) : list Z :=
  let o := dinode_off inum in
  put_addrs (o + 12) (di_addrs x)
    (put_u32 (o + 8) (di_size x) (put_u16 (o + 6) (di_nlink x) (put_u16 (o + 4) (di_minor x)
    (put_u16 (o + 2) (di_major x) (put_u16 o (di_type x) d))))).

(** ** The state of the file system *)
Record fs (B : Type) := Fs { fs_bl : B; fs_inode : list inode }.
Arguments Fs {B} _ _.
Arguments fs_bl {B} _.
Arguments fs_inode {B} _.
Definition fs_lens {B} : lens (fs B) B := Lens fs_bl (λ b s, Fs b (fs_inode s)).

(** The device table, filled in by the console: [read] gives the result and
    the bytes stored at [dst]. *)
Class Devsw (B : Type) := {
  devsw_read : Z → option (nat → Z → M (fs B) (Z * list Z));
  devsw_write : Z → option (nat → list Z → Z → M (fs B) Z)
}.

(** The scan of [iget]: a used entry with this key, else the first empty one. *)
Fixpoint iget_scan (l : list inode) (i : nat) (dev inum : Z) (empty : option nat)
  : (nat + option nat) :=
  match l with
  | [] => inr empty
  | ip :: l =>
      if (0 <? i_ref ip) && (i_dev ip =? dev) && (i_inum ip =? inum) then inl i
      else iget_scan l (S i) dev inum
             (match empty with
              | None => if i_ref ip =? 0 then Some i else None
              | Some _ => empty
              end)
  end.

Section Inode.
Context {B : Type} {BB : Blocks B} {BL : BlockLaws B} {DV : Devsw B}.

Definition bl {A} (m : M B A) : M (fs B) A := zoom fs_lens m.
Definition ik {A} (m : M kst A) : M (fs B) A := bl (zoom bl_k m).
Definition inode_at (i : nat) : M (fs B) inode := deref (λ s, fs_inode s !! i).
Definition upd_inode (i : nat) (f : inode → inode) : M (fs B) unit :=
  modify (λ s, Fs (fs_bl s) (alter f i (fs_inode s))).

Definition iinit : M (fs B) unit := ik (initlock LIcache).

(** Find the inode with number [inum] on device [dev] and return the
    in-memory copy. *)
Definition iget (dev inum : Z) : M (fs B) nat :=
  ik (acquire LIcache);;
  l ← gets fs_inode;
  match iget_scan l 0 dev inum None with
  | inl i =>
      upd_inode i (λ ip, set_i_ref (i_ref ip + 1) ip);;
      ik (release LIcache);;
      mret i
  | inr None => panic "iget: no inodes"
  | inr (Some i) =>
      upd_inode i (λ ip, set_i_flags 0 (set_i_ref 1 (set_i_key dev inum ip)));;
      ik (release LIcache);;
      mret i
  end.

(** One turn of the loop of [ialloc]. *)
Definition ialloc_try (dev type : Z) (sb : superblock) (inum : Z) : M (fs B) (Z + nat) :=
  if inum <? sb_ninodes sb then
    bp ← bl (bl_bread dev (IBLOCK inum));
    d ← bl (bl_data bp);
    if di_type (dinode_get inum d) =? 0 then
      bl (bl_set bp (dinode_put inum (Dinode type 0 0 0 0 (replicate 13 0)) d));;
      bl (bl_log_write bp);;
      bl (bl_brelse bp);;
      i ← iget dev inum;
      mret (inr i)
    else bl (bl_brelse bp);; mret (inl (inum + 1))
  else panic "ialloc: no inodes".

(** Allocate a new inode with the given type on device [dev]. *)
Definition ialloc (dev type : Z) : M (fs B) nat :=
  sb ← bl (fs_readsb dev);
  loop (S (Z.to_nat (sb_ninodes sb))) (ialloc_try dev type sb) 1.

(** Copy a modified in-memory inode to disk. *)
Definition iupdate (i : nat) : M (fs B) unit :=
  ip ← inode_at i;
  bp ← bl (bl_bread (i_dev ip) (IBLOCK (i_inum ip)));
  d ← bl (bl_data bp);
  bl (bl_set bp (dinode_put (i_inum ip) (i_d ip) d));;
  bl (bl_log_write bp);;
  bl (bl_brelse bp).

(** Increment reference count. *)
Definition idup (i : nat) : M (fs B) nat :=
  ik (acquire LIcache);;
  upd_inode i (λ ip, set_i_ref (i_ref ip + 1) ip);;
  ik (release LIcache);;
  mret i.

(** Lock the given inode.  Woken up, the process tests [I_BUSY] again. *)
Definition ilock (i : nat) : M (fs B) unit :=
  ip ← inode_at i;
  if i_ref ip <? 1 then panic "ilock" else
  ik (acquire LIcache);;
  ip ← inode_at i;
  if has (i_flags ip) I_BUSY then ik (sleep (CInode i) LIcache);; nofuel else
  upd_inode i (λ ip, set_i_flags (setf (i_flags ip) I_BUSY) ip);;
  ik (release LIcache);;
  ip ← inode_at i;
  when (negb (has (i_flags ip) I_VALID))
    (bp ← bl (bl_bread (i_dev ip) (IBLOCK (i_inum ip)));
     d ← bl (bl_data bp);
     upd_inode i (set_i_d (dinode_get (i_inum ip) d));;
     bl (bl_brelse bp);;
     upd_inode i (λ ip, set_i_flags (setf (i_flags ip) I_VALID) ip);;
     ip ← inode_at i;
     when (i_type ip =? 0) (panic "ilock: no type")).

Definition iunlock (i : nat) : M (fs B) unit :=
  ip ← inode_at i;
  if negb (has (i_flags ip) I_BUSY) || (i_ref ip <? 1) then panic "iunlock" else
  ik (acquire LIcache);;
  upd_inode i (λ ip, set_i_flags (clrf (i_flags ip) I_BUSY) ip);;
  ik (wakeup (CInode i));;
  ik (release LIcache).

(** ** Inode content *)

Definition addr_at (ip : inode) (n : Z) : Z := nth (Z.to_nat n) (i_addrs ip) 0.
Definition set_addr (n a : Z) : inode → inode :=
  upd_i_d (λ d, set_di_addrs (<[Z.to_nat n := a]> (di_addrs d)) d).

(** [ip->addrs[n]], allocating a block if there is none. *)
Definition addr_or_alloc (i : nat) (n : Z) : M (fs B) Z :=
  ip ← inode_at i;
  let addr := addr_at ip n in
  if addr =? 0 then
    a ← bl (balloc (i_dev ip));
    upd_inode i (set_addr n a);;
    mret a
  else mret addr.

(** Return the disk block address of the nth block; allocate if needed. *)
Definition bmap (i : nat) (bn : Z) : M (fs B) Z :=
  if bn <? NDIRECT then addr_or_alloc i bn
  else
    let bn := u32 (bn - NDIRECT) in
    if bn <? NINDIRECT then
      addr ← addr_or_alloc i NDIRECT;
      ip ← inode_at i;
      bp ← bl (bl_bread (i_dev ip) addr);
      d ← bl (bl_data bp);
      let a := get_u32 (4 * Z.to_nat bn) d in
      if a =? 0 then
        a ← bl (balloc (i_dev ip));
        bl (bl_set bp (put_u32 (4 * Z.to_nat bn) a d));;
        bl (bl_log_write bp);;
        bl (bl_brelse bp);;
        mret a
      else bl (bl_brelse bp);; mret a
    else panic "bmap: out of range".

Definition trunc_direct (i j : nat) : M (fs B) unit :=
  ip ← inode_at i;
  when (nz (addr_at ip (Z.of_nat j)))
    (bl (bfree (i_dev ip) (addr_at ip (Z.of_nat j)));;
     upd_inode i (set_addr (Z.of_nat j) 0)).

(** Truncate inode (discard contents). *)
Definition itrunc (i : nat) : M (fs B) unit :=
  for_each (seq 0 (Z.to_nat NDIRECT)) (trunc_direct i);;
  ip ← inode_at i;
  when (nz (addr_at ip NDIRECT))
    (bp ← bl (bl_bread (i_dev ip) (addr_at ip NDIRECT));
     d ← bl (bl_data bp);
     for_each (seq 0 (Z.to_nat NINDIRECT)) (λ j,
       let a := get_u32 (4 * j) d in
       when (nz a) (bl (bfree (i_dev ip) a)));;
     bl (bl_brelse bp);;
     bl (bfree (i_dev ip) (addr_at ip NDIRECT));;
     upd_inode i (set_addr NDIRECT 0));;
  upd_inode i (upd_i_d (set_di_size 0));;
  iupdate i.

(** Drop a reference to an in-memory inode; free it on disk when that was
    the last reference and it has no links. *)
Definition iput (i : nat) : M (fs B) unit :=
  ik (acquire LIcache);;
  ip ← inode_at i;
  when ((i_ref ip =? 1) && has (i_flags ip) I_VALID && (i_nlink ip =? 0))
    (if has (i_flags ip) I_BUSY then panic "iput busy" else
     upd_inode i (λ ip, set_i_flags (setf (i_flags ip) I_BUSY) ip);;
     ik (release LIcache);;
     itrunc i;;
     upd_inode i (upd_i_d (set_di_type 0));;
     iupdate i;;
     ik (acquire LIcache);;
     upd_inode i (set_i_flags 0);;
     ik (wakeup (CInode i)));;
  upd_inode i (λ ip, set_i_ref (i_ref ip - 1) ip);;
  ik (release LIcache).

Definition iunlockput (i : nat) : M (fs B) unit := iunlock i;; iput i.

(** [struct stat] as [stati] fills it: type, dev, ino, nlink, size. *)
Record stat := Stat { st_type : Z; st_dev : Z; st_ino : Z; st_nlink : Z; st_size : Z }.
Definition stati (i : nat) : M (fs B) stat :=
  ip ← inode_at i;
  mret (Stat (i_type ip) (i32 (i_dev ip)) (i_inum ip) (i_nlink ip) (i_size ip)).

(** One turn of the loop of [readi]: [tot], [off] and the bytes so far. *)
Definition readi_step (i : nat) (n : Z) (st : Z * Z * list Z) : M (fs B) (Z * Z * list Z + list Z) :=
  let '(tot, off, acc) := st in
  if tot <? n then
    ip ← inode_at i;
    addr ← bmap i (off / BSIZE);
    bp ← bl (bl_bread (i_dev ip) addr);
    let m := Z.min (u32 (n - tot)) (u32 (BSIZE - off mod BSIZE)) in
    d ← bl (bl_data bp);
    let chunk := slice (Z.to_nat (off mod BSIZE)) (Z.to_nat m) d in
    bl (bl_brelse bp);;
    mret (inl (u32 (tot + m), u32 (off + m), acc ++ chunk))
  else mret (inr acc).

(** Read data from inode: the result and the bytes stored at [dst]. *)
Definition readi (i : nat) (off n : Z) : M (fs B) (Z * list Z) :=
  ip ← inode_at i;
  if i_type ip =? T_DEV then
    if (i_major ip <? 0) || (NDEV <=? i_major ip) then mret (-1, []) else
    match devsw_read (i_major ip) with
    | None => mret (-1, [])
    | Some rd => rd i n
    end
  else
  if (i_size ip <? off) || (u32 (off + n) <? off) then mret (-1, []) else
  let n := if i_size ip <? u32 (off + n) then u32 (i_size ip - off) else n in
  bytes ← loop (S (Z.to_nat n)) (readi_step i n) (0, off, []);
  mret (i32 n, bytes).

Definition writei_step (i : nat) (src : list Z) (n : Z) (st : Z * Z) : M (fs B) (Z * Z + Z) :=
  let '(tot, off) := st in
  if tot <? n then
    ip ← inode_at i;
    addr ← bmap i (off / BSIZE);
    bp ← bl (bl_bread (i_dev ip) addr);
    let m := Z.min (u32 (n - tot)) (u32 (BSIZE - off mod BSIZE)) in
    d ← bl (bl_data bp);
    bl (bl_set bp (splice (Z.to_nat (off mod BSIZE)) (slice (Z.to_nat tot) (Z.to_nat m) src) d));;
    bl (bl_log_write bp);;
    bl (bl_brelse bp);;
    mret (inl (u32 (tot + m), u32 (off + m)))
  else mret (inr off).

(** Write [n] bytes of [src] to inode. *)
Definition writei (i : nat) (src : list Z) (off n : Z) : M (fs B) Z :=
  ip ← inode_at i;
  if i_type ip =? T_DEV then
    if (i_major ip <? 0) || (NDEV <=? i_major ip) then mret (-1) else
    match devsw_write (i_major ip) with
    | None => mret (-1)
    | Some wr => wr i src n
    end
  else
  if (i_size ip <? off) || (u32 (off + n) <? off) then mret (-1) else
  if MAXFILE * BSIZE <? u32 (off + n) then mret (-1) else
  off ← loop (S (Z.to_nat n)) (writei_step i src n) (0, off);
  ip ← inode_at i;
  when ((0 <? n) && (i_size ip <? off))
    (upd_inode i (upd_i_d (set_di_size off));;
     iupdate i);;
  mret (i32 n).

End Inode.
