(* ===== verification/Dinode.v ===== *)
(** The on-disk inode: writing one and reading it back. *)
From S2P Require Import Prelude Kmonad Disk Log Balloc Inode.

(** The values that the fields of a [struct dinode] can hold. *)
Record dinode_ok (x : dinode) : Prop := {
  dk_type : -32768 ≤ di_type x < 32768;
  dk_major : -32768 ≤ di_major x < 32768;
  dk_minor : -32768 ≤ di_minor x < 32768;
  dk_nlink : -32768 ≤ di_nlink x < 32768;
  dk_size : 0 ≤ di_size x < 4294967296;
  dk_addrs : length (di_addrs x) = 13%nat ∧ Forall (λ a, 0 ≤ a < 4294967296) (di_addrs x)
}.

Lemma length_put_addrs o addrs d : (o + 4 * length addrs ≤ length d)%nat →
  length (put_addrs o addrs d) = length d.
Proof.
  revert o d. induction addrs as [|a addrs IH]; intros o d Hl; [done|]. cbn [put_addrs length] in *.
  rewrite IH; rewrite length_put_u32; lia.
Qed.

Lemma put_addrs_u16 o addrs d off : (o + 4 * length addrs ≤ length d)%nat →
  (off + 2 ≤ o ∨ o + 4 * length addrs ≤ off)%nat →
  get_u16 off (put_addrs o addrs d) = get_u16 off d.
Proof.
  revert o d. induction addrs as [|a addrs IH]; intros o d Hl Ho; [done|]. cbn [put_addrs length] in *.
  rewrite IH; [|rewrite length_put_u32; lia|lia]. apply get_u16_put_u32_ne; lia.
Qed.

Lemma put_addrs_u32 o addrs d off : (o + 4 * length addrs ≤ length d)%nat →
  (off + 4 ≤ o ∨ o + 4 * length addrs ≤ off)%nat →
  get_u32 off (put_addrs o addrs d) = get_u32 off d.
Proof.
  revert o d. induction addrs as [|a addrs IH]; intros o d Hl Ho; [done|]. cbn [put_addrs length] in *.
  rewrite IH; [|rewrite length_put_u32; lia|lia]. apply get_put_u32_ne; lia.
Qed.

Lemma put_addrs_at o addrs d j a : (o + 4 * length addrs ≤ length d)%nat →
  addrs !! j = Some a → get_u32 (o + 4 * j) (put_addrs o addrs d) = u32 a.
Proof.
  revert o d j. induction addrs as [|a' addrs IH]; intros o d [|j] Hl Hj; try done;
    cbn [put_addrs length lookup list_lookup] in *.
  - injection Hj as ->. rewrite put_addrs_u32; [|rewrite length_put_u32; lia|lia].
    replace (o + 4 * 0)%nat with o by lia. apply get_put_u32. lia.
  - replace (o + 4 * S j)%nat with (o + 4 + 4 * j)%nat by lia.
    apply IH; [rewrite length_put_u32; lia|done].
Qed.

Lemma dinode_off_room inum : (dinode_off inum + 64 ≤ 512)%nat.
Proof.
  unfold dinode_off, IPB, BSIZE. change (512 / 64) with 8.
  pose proof (Z.mod_pos_bound inum 8 ltac:(lia)). lia.
Qed.

Section Put.
Variables (inum : Z) (x : dinode) (d : list Z).
Hypotheses (Hx : dinode_ok x) (Hd : length d = 512%nat).
Let o := dinode_off inum.

(** The block with the four shorts and the size written. *)
Let d1 := put_u16 o (di_type x) d.
Let d2 := put_u16 (o + 2) (di_major x) d1.
Let d3 := put_u16 (o + 4) (di_minor x) d2.
Let d4 := put_u16 (o + 6) (di_nlink x) d3.
Let d5 := put_u32 (o + 8) (di_size x) d4.

Lemma put_lens : (o + 64 ≤ 512)%nat ∧ length d1 = 512%nat ∧ length d2 = 512%nat ∧
  length d3 = 512%nat ∧ length d4 = 512%nat ∧ length d5 = 512%nat ∧ length (di_addrs x) = 13%nat.
Proof.
  assert (Ho := dinode_off_room inum). fold o in Ho. destruct (dk_addrs x Hx) as [Ha _].
  assert (L1 : length d1 = 512%nat) by (unfold d1; rewrite length_put_u16; lia).
  assert (L2 : length d2 = 512%nat) by (unfold d2; rewrite length_put_u16; lia).
  assert (L3 : length d3 = 512%nat) by (unfold d3; rewrite length_put_u16; lia).
  assert (L4 : length d4 = 512%nat) by (unfold d4; rewrite length_put_u16; lia).
  split_and!; try done. unfold d5. rewrite length_put_u32; lia.
Qed.

Lemma length_dinode_put : length (dinode_put inum x d) = 512%nat.
Proof.
  destruct put_lens as (L0&L1&L2&L3&L4&L5&La). unfold dinode_put. fold o d1 d2 d3 d4 d5.
  rewrite length_put_addrs; lia.
Qed.

Lemma dinode_put_u16_out off : (off + 2 ≤ o ∨ o + 64 ≤ off)%nat →
  get_u16 off (dinode_put inum x d) = get_u16 off d.
Proof.
  intros Hoff. destruct put_lens as (L0&L1&L2&L3&L4&L5&La). unfold dinode_put.
  fold o d1 d2 d3 d4 d5. rewrite put_addrs_u16 by lia.
  unfold d5. rewrite get_u16_put_u32_ne by lia. unfold d4. rewrite get_u16_put_u16_ne by lia.
  unfold d3. rewrite get_u16_put_u16_ne by lia. unfold d2. rewrite get_u16_put_u16_ne by lia.
  unfold d1. apply get_u16_put_u16_ne; lia.
Qed.

Lemma dinode_put_u32_out off : (off + 4 ≤ o ∨ o + 64 ≤ off)%nat →
  get_u32 off (dinode_put inum x d) = get_u32 off d.
Proof.
  intros Hoff. destruct put_lens as (L0&L1&L2&L3&L4&L5&La). unfold dinode_put.
  fold o d1 d2 d3 d4 d5. rewrite put_addrs_u32 by lia.
  unfold d5. rewrite get_put_u32_ne by lia. unfold d4. rewrite get_u32_put_u16_ne by lia.
  unfold d3. rewrite get_u32_put_u16_ne by lia. unfold d2. rewrite get_u32_put_u16_ne by lia.
  unfold d1. apply get_u32_put_u16_ne; lia.
Qed.

Lemma dinode_put_same : dinode_get inum (dinode_put inum x d) = x.
Proof.
  destruct put_lens as (L0&L1&L2&L3&L4&L5&La). unfold dinode_get, dinode_put.
  fold o d1 d2 d3 d4 d5. pose proof Hx as [K1 K2 K3 K4 K5 [_ K6]].
  transitivity (Dinode (di_type x) (di_major x) (di_minor x) (di_nlink x) (di_size x) (di_addrs x));
    [|by destruct x].
  rewrite !put_addrs_u16, put_addrs_u32 by lia. f_equal.
  - unfold d5. rewrite get_u16_put_u32_ne by lia. unfold d4. rewrite get_u16_put_u16_ne by lia.
    unfold d3. rewrite get_u16_put_u16_ne by lia. unfold d2. rewrite get_u16_put_u16_ne by lia.
    unfold d1. rewrite get_put_u16 by lia. by apply i16_u16.
  - unfold d5. rewrite get_u16_put_u32_ne by lia. unfold d4. rewrite get_u16_put_u16_ne by lia.
    unfold d3. rewrite get_u16_put_u16_ne by lia. unfold d2. rewrite get_put_u16 by lia. by apply i16_u16.
  - unfold d5. rewrite get_u16_put_u32_ne by lia. unfold d4. rewrite get_u16_put_u16_ne by lia.
    unfold d3. rewrite get_put_u16 by lia. by apply i16_u16.
  - unfold d5. rewrite get_u16_put_u32_ne by lia. unfold d4. rewrite get_put_u16 by lia. by apply i16_u16.
  - unfold d5. rewrite get_put_u32 by lia. by apply u32_small.
  - apply list_eq. intros j. destruct (decide (j < 13)%nat) as [Hj|Hj].
    + rewrite list_lookup_fmap, lookup_seq_lt by done.
      destruct (lookup_lt_is_Some_2 (di_addrs x) j) as [a Ha]; [lia|]. rewrite Ha.
      cbn [fmap option_fmap option_map]. f_equal. cbn [Nat.add]. rewrite (put_addrs_at _ _ _ _ a) by (done || lia).
      apply u32_small. by eapply (Forall_lookup_1 _ _ _ _ K6 Ha).
    + rewrite !lookup_ge_None_2; [done|lia|rewrite length_fmap, length_seq; lia].
Qed.

Lemma dinode_put_other inum' : inum' mod IPB ≠ inum mod IPB →
  dinode_get inum' (dinode_put inum x d) = dinode_get inum' d.
Proof.
  intros Hne. assert (Ho' := dinode_off_room inum'). assert (Ho := dinode_off_room inum). fold o in Ho.
  assert (Hdis : (dinode_off inum' + 64 ≤ o ∨ o + 64 ≤ dinode_off inum')%nat).
  { unfold o, dinode_off, IPB, BSIZE in *. change (512 / 64) with 8 in *.
    pose proof (Z.mod_pos_bound inum 8 ltac:(lia)). pose proof (Z.mod_pos_bound inum' 8 ltac:(lia)). lia. }
  unfold dinode_get. rewrite !dinode_put_u16_out, dinode_put_u32_out by lia. f_equal.
  apply list_fmap_ext. intros i j Hj. apply lookup_seq in Hj as [-> Hj].
  apply dinode_put_u32_out. lia.
Qed.
End Put.
