(* ===== verification/Icache.v ===== *)
(** The inode cache: reference counts, inode locks, and the copy of the disk
    inode ([iget], [idup], [iput], [ilock], [iunlock], [iupdate]). *)
From S2P Require Import Prelude Kmonad Wp Kstate Spinlock Sleep Disk Log Blocks FsEx Balloc Inode Dinode.

Section Icache.
Context {B : Type} {BB : Blocks B} {BL : BlockLaws B} {DV : Devsw B}.
Implicit Types (P : Z → Z → Prop) (V : Z → Z → list Z) (X : gset nat) (Hd : gmap nat (Z * Z)).
Implicit Types (b : B) (l : list inode) (s : fs B).

(** ** Critical sections of [icache.lock] *)

Definition kof b : kst := lget bl_k b.
Definition with_k (k : kst) b : B := lset bl_k k b.

Lemma with_k_self b : with_k (kof b) b = b.
Proof. apply lset_lget. Qed.

Lemma wp_ik {A} (m : M kst A) (Q : A → fs B → Prop) b l a k : m (kof b) = Ok a k →
  Q a (Fs (with_k k b) l) → wp (ik m) Q (Fs b l).
Proof. intros E HQ. unfold kof in E. unfold ik, bl, wp, zoom; simpl. by rewrite E. Qed.

Lemma wp_bl {A} (m : M B A) (Q : A → fs B → Prop) b l :
  wp m (λ a b', Q a (Fs b' l)) b → wp (bl m) Q (Fs b l).
Proof. intros Hm. apply wp_zoom. exact Hm. Qed.

Lemma acquire_i_wp {A} (m : M (fs B) A) Q b l : is_free LIcache (kof b) →
  wp m Q (Fs (with_k (acq LIcache (kof b)) b) l) →
  wp (ik (acquire LIcache);; m) Q (Fs b l).
Proof. intros Hf Hm. apply wp_bind. eapply wp_ik; [by apply acquire_run|done]. Qed.

Lemma wakeup_i_wp {A} c (m : M (fs B) A) Q b l k : kst_ok k → is_free LPtable k →
  wp m Q (Fs (with_k (acq LIcache (woken c k)) b) l) →
  wp (ik (wakeup c);; m) Q (Fs (with_k (acq LIcache k) b) l).
Proof.
  intros Hok Hf Hm. apply wp_bind. eapply wp_ik.
  - unfold kof, with_k. rewrite lget_lset. by apply wakeup_acq_run.
  - unfold with_k. rewrite lset_lset. exact Hm.
Qed.

Lemma release_i_wp {A} (m : M (fs B) A) Q b l k : kst_ok k → is_free LIcache k →
  wp m Q (Fs (with_k k b) l) → wp (ik (release LIcache);; m) Q (Fs (with_k (acq LIcache k) b) l).
Proof.
  intros Hok Hf Hm. apply wp_bind. eapply wp_ik.
  - unfold kof, with_k. rewrite lget_lset. by apply release_acq'.
  - unfold with_k. by rewrite lset_lset.
Qed.

Lemma release_i_end b l k (Q : unit → fs B → Prop) : kst_ok k → is_free LIcache k →
  Q tt (Fs (with_k k b) l) → wp (ik (release LIcache)) Q (Fs (with_k (acq LIcache k) b) l).
Proof. intros. apply wp_unit. by apply release_i_wp, wp_ret. Qed.

Lemma inode_at_wp {A} i ip (m : inode → M (fs B) A) Q b l : l !! i = Some ip →
  wp (m ip) Q (Fs b l) → wp (ip ← inode_at i; m ip) Q (Fs b l).
Proof. intros Hi Hm. apply wp_bind. by eapply wp_deref. Qed.

Lemma alter_insert (f : inode → inode) i l ip : l !! i = Some ip → alter f i l = <[i := f ip]> l.
Proof.
  intros Hi. apply list_eq. intros j. rewrite list_lookup_alter.
  destruct (decide (i = j)) as [<-|Hne].
  - rewrite Hi, list_lookup_insert_eq; [done|]. by eapply lookup_lt_Some.
  - by rewrite list_lookup_insert_ne.
Qed.

(** ** The cache invariant *)
Record icache_ok l : Prop := {
  ic_len : length l = NINODE;
  ic_ref : ∀ i ip, l !! i = Some ip → 0 ≤ i_ref ip;
  ic_flags : ∀ i ip, l !! i = Some ip → 0 ≤ i_flags ip < 4;
  ic_key : ∀ i j ip jp, l !! i = Some ip → l !! j = Some jp → 0 < i_ref ip → 0 < i_ref jp →
    i_dev ip = i_dev jp → i_inum ip = i_inum jp → i = j
}.

Definition is_key (dev inum : Z) (ip : inode) : Prop :=
  0 < i_ref ip ∧ i_dev ip = dev ∧ i_inum ip = inum.

Lemma iget_scan_spec l k dev inum e :
  match iget_scan l k dev inum e with
  | inl i => ∃ ip, (k ≤ i)%nat ∧ l !! (i - k)%nat = Some ip ∧ is_key dev inum ip
  | inr r => (∀ j ip, l !! j = Some ip → ¬ is_key dev inum ip) ∧
      match e with
      | Some _ => r = e
      | None => match r with
          | Some i => ∃ ip, (k ≤ i)%nat ∧ l !! (i - k)%nat = Some ip ∧ i_ref ip = 0
          | None => ∀ j ip, l !! j = Some ip → i_ref ip ≠ 0
          end
      end
  end.
Proof.
  revert k e. induction l as [|x l IH]; intros k e; simpl.
  { split; [done|]. by destruct e. }
  destruct ((0 <? i_ref x) && (i_dev x =? dev) && (i_inum x =? inum)) eqn:Hk.
  { exists x. rewrite Nat.sub_diag. split_and!; [done|done|]. unfold is_key. lia. }
  assert (Hx : ¬ is_key dev inum x) by (unfold is_key; lia).
  specialize (IH (S k) (match e with None => if i_ref x =? 0 then Some k else None | Some _ => e end)).
  destruct (iget_scan l (S k) dev inum _) as [i|r].
  - destruct IH as (ip&Hi&Hl&Hip). exists ip. split_and!; [lia| |done].
    replace (i - k)%nat with (S (i - S k)) by lia. done.
  - destruct IH as [Hn Hr]. split; [intros [|j] ip Hj; [by injection Hj as <-|by eapply Hn]|].
    destruct e as [e|]; [done|]. destruct (Z.eqb_spec (i_ref x) 0) as [Hz|Hz].
    + subst r. exists x. rewrite Nat.sub_diag. done.
    + destruct r as [i|].
      * destruct Hr as (ip&Hi&Hl&Hip). exists ip. split_and!; [lia| |done].
        replace (i - k)%nat with (S (i - S k)) by lia. done.
      * intros [|j] ip Hj; [by injection Hj as <-|by eapply Hr].
Qed.

(** Changing one entry while the keys of used entries stay distinct. *)
Lemma icache_alter l i ip f : icache_ok l → l !! i = Some ip →
  0 ≤ i_ref (f ip) → 0 ≤ i_flags (f ip) < 4 →
  (0 < i_ref (f ip) → (0 < i_ref ip ∧ i_dev (f ip) = i_dev ip ∧ i_inum (f ip) = i_inum ip) ∨
     (∀ j jp, l !! j = Some jp → ¬ is_key (i_dev (f ip)) (i_inum (f ip)) jp)) →
  icache_ok (alter f i l).
Proof.
  intros [L1 L2 L3 L4] Hi Hr Hf Hk. split.
  - by rewrite length_alter.
  - intros j jp Hj. apply list_alter_Some in Hj as [(->&y&Hy&->)|[_ Hj]]; [|by eapply L2].
    by simplify_eq.
  - intros j jp Hj. apply list_alter_Some in Hj as [(->&y&Hy&->)|[_ Hj]]; [|by eapply L3].
    by simplify_eq.
  - assert (Hc : ∀ j jp, l !! j = Some jp → j ≠ i → 0 < i_ref (f ip) → 0 < i_ref jp →
      i_dev (f ip) = i_dev jp → i_inum (f ip) = i_inum jp → False).
    { intros j jp Hj Hne R1 R2 K1 K2. destruct (Hk R1) as [(R&D1&D2)|Hn].
      - apply Hne. eapply (L4 j i jp ip); eauto; congruence.
      - apply (Hn j jp Hj). by split_and!. }
    intros j k jp kp Hj Hkk R1 R2 K1 K2.
    apply list_alter_Some in Hj as [(->&y&Hy&->)|[Hne Hj]];
      apply list_alter_Some in Hkk as [(->&z&Hz&->)|[Hne' Hkk]]; simplify_eq; try done.
    + exfalso. by eapply (Hc k kp).
    + exfalso. by eapply (Hc j jp).
    + by eapply L4.
Qed.

(** [l'] is the cache [l] after [iget] of inode [inum] gave entry [i]. *)
Definition got l l' (i : nat) (dev inum : Z) : Prop := ∃ ip, l !! i = Some ip ∧
  (∀ j, j ≠ i → l' !! j = l !! j) ∧
  ((is_key dev inum ip ∧ l' !! i = Some (set_i_ref (i_ref ip + 1) ip)) ∨
   ((∀ j jp, l !! j = Some jp → ¬ is_key dev inum jp) ∧ i_ref ip = 0 ∧
    l' !! i = Some (Inode dev inum 1 0 (i_d ip)))).

Lemma iget_free_wp b l dev inum (Q : nat → fs B → Prop) :
  kst_ok (kof b) → is_free LIcache (kof b) → icache_ok l →
  (∀ i l', icache_ok l' → got l l' i dev inum → Q i (Fs b l')) →
  wp (iget dev inum) Q (Fs b l).
Proof.
  intros Hok Hf Hc HQ. unfold iget. apply acquire_i_wp; [done|]. apply wp_bind, wp_gets. cbn [fs_inode].
  assert (Hs := iget_scan_spec l 0 dev inum None).
  destruct (iget_scan l 0 dev inum None) as [i|[i|]]; [| |by apply wp_panic].
  - destruct Hs as (ip&_&Hip&Hk). rewrite Nat.sub_0_r in Hip.
    apply wp_bind, wp_modify. cbn [fs_bl fs_inode]. apply release_i_wp; [done|done|].
    rewrite with_k_self. apply wp_ret. apply HQ; [|exists ip; split_and!; [done| |]].
    + eapply icache_alter; [done|done|..]; simpl.
      * destruct Hk. lia.
      * by eapply ic_flags.
      * intros _. left. by destruct Hk.
    + intros j Hj. by rewrite list_lookup_alter, decide_False.
    + left. by rewrite list_lookup_alter, decide_True, Hip.
  - destruct Hs as [Hn (ip&_&Hip&Hr)]. rewrite Nat.sub_0_r in Hip.
    apply wp_bind, wp_modify. cbn [fs_bl fs_inode]. apply release_i_wp; [done|done|].
    rewrite with_k_self. apply wp_ret. apply HQ; [|exists ip; split_and!; [done| |]].
    + eapply icache_alter; [done|done|..]; simpl; [lia|lia|]. by right.
    + intros j Hj. by rewrite list_lookup_alter, decide_False.
    + right. by rewrite list_lookup_alter, decide_True, Hip.
Qed.

Lemma iget_wp P V X Hd b l dev inum (Q : nat → fs B → Prop) :
  bl_inv P V X Hd b → icache_ok l →
  (∀ i l', icache_ok l' → got l l' i dev inum → Q i (Fs b l')) →
  wp (iget dev inum) Q (Fs b l).
Proof. intros Hi. destruct (bl_ready _ _ _ _ _ Hi) as (Hok&_&_&_&Hf&_). by apply iget_free_wp. Qed.

(** C26: [iget] returns an entry for exactly the inode asked for: the cached one
    with its count raised by one, or, when none is cached, an unused entry
    that now counts one reference and is marked not valid.  Other entries and
    the disk are left alone, and no inode ever has two entries in use. *)
Theorem iget_correct P V X Hd b l dev inum :
  bl_inv P V X Hd b → icache_ok l →
  wp (iget dev inum) (λ i s', fs_bl s' = b ∧ icache_ok (fs_inode s') ∧
    got l (fs_inode s') i dev inum) (Fs b l).
Proof. intros. by eapply iget_wp. Qed.

(** [iput] of a reference that is not the last one to an unlinked inode. *)
Lemma iput_wp P V X Hd b l i ip (Q : unit → fs B → Prop) :
  bl_inv P V X Hd b → l !! i = Some ip →
  ((i_ref ip =? 1) && has (i_flags ip) I_VALID && (i_nlink ip =? 0)) = false →
  Q tt (Fs b (<[i := set_i_ref (i_ref ip - 1) ip]> l)) →
  wp (iput i) Q (Fs b l).
Proof.
  intros Hi Hip Hc HQ. destruct (bl_ready _ _ _ _ _ Hi) as (Hok&_&_&_&Hf&_).
  unfold iput. apply acquire_i_wp; [done|]. apply wp_bind. eapply wp_deref; [done|].
  rewrite Hc. apply wp_bind, wp_ret. apply wp_bind, wp_modify. cbn [fs_bl fs_inode].
  rewrite (alter_insert _ i l ip) by done.
  apply release_i_end; [done|done|]. by rewrite with_k_self.
Qed.

Lemma acquire_i_run b l : is_free LIcache (kof b) →
  ik (acquire LIcache) (Fs b l) = Ok tt (Fs (with_k (acq LIcache (kof b)) b) l).
Proof.
  intros Hf. assert (E := acquire_run LIcache (kof b) Hf). unfold kof in E.
  unfold ik, bl, zoom; simpl. by rewrite E.
Qed.
Lemma release_i_run b l : kst_ok (kof b) → is_free LIcache (kof b) →
  ik (release LIcache) (Fs (with_k (acq LIcache (kof b)) b) l) = Ok tt (Fs b l).
Proof.
  intros Hok Hf. unfold ik, bl, zoom, with_k; simpl. rewrite lget_lset, release_acq' by done.
  rewrite lset_lset. f_equal. f_equal. apply with_k_self.
Qed.
Lemma idup_run b l i : kst_ok (kof b) → is_free LIcache (kof b) →
  idup i (Fs b l) = Ok i (Fs b (alter (λ ip, set_i_ref (i_ref ip + 1) ip) i l)).
Proof.
  intros Hok Hf. unfold idup. mrun (acquire_i_run b l Hf). erewrite bind_run by reflexivity. cbn [fs_bl fs_inode].
  by mrun (release_i_run b (alter (λ ip, set_i_ref (i_ref ip + 1) ip) i l) Hok Hf).
Qed.

(** A reference that is duplicated and dropped again leaves the inode
    cache, the disk and the rest of the kernel as they were; the inode is not
    freed even if it has no links. *)
Theorem idup_iput P V X Hd b l i ip :
  bl_inv P V X Hd b → l !! i = Some ip → 1 ≤ i_ref ip →
  (idup i ≫= iput) (Fs b l) = Ok tt (Fs b l).
Proof.
  intros Hi Hip Hr. destruct (bl_ready _ _ _ _ _ Hi) as (Hok&_&_&_&Hf&_).
  set (l1 := alter (λ ip, set_i_ref (i_ref ip + 1) ip) i l).
  assert (Hl1 : l1 !! i = Some (set_i_ref (i_ref ip + 1) ip))
    by (unfold l1; by rewrite list_lookup_alter, decide_True, Hip).
  mrun (idup_run b l i Hok Hf). fold l1. unfold iput. mrun (acquire_i_run b l1 Hf). erewrite bind_run.
  2:{ unfold inode_at, deref; simpl. by rewrite Hl1. }
  cbn [i_ref set_i_ref]. rewrite (proj2 (Z.eqb_neq _ _)) by lia. cbn [andb when].
  erewrite bind_run by reflexivity. erewrite bind_run by reflexivity. cbn [fs_bl fs_inode].
  rewrite release_i_run by done. do 2 f_equal. apply list_eq. intros j. unfold l1. rewrite !list_lookup_alter.
  destruct (decide (i = j)) as [<-|Hne]; [|done]. rewrite Hip. simpl.
  destruct (decide (i = i)); [|done]. unfold set_i_ref; simpl.
  replace (i_ref ip + 1 - 1) with (i_ref ip) by lia. by destruct ip.
Qed.

(** ** Locking an inode *)

Lemma upd_inode_wp {A} i f ip (m : M (fs B) A) Q b l : l !! i = Some ip →
  wp m Q (Fs b (<[i := f ip]> l)) → wp (upd_inode i f;; m) Q (Fs b l).
Proof.
  intros Hi Hm. apply wp_bind, wp_modify. cbn [fs_bl fs_inode]. by rewrite (alter_insert f i l ip).
Qed.

Lemma insert_at (i : nat) (ip x : inode) l : l !! i = Some ip → <[i := x]> l !! i = Some x.
Proof. intros Hi. apply list_lookup_insert_eq. by eapply lookup_lt_Some. Qed.

(** The entry after [ilock]: locked and valid. *)
Definition locked_inode V (ip : inode) : inode :=
  Inode (i_dev ip) (i_inum ip) (i_ref ip) (Z.lor I_BUSY I_VALID)
    (if has (i_flags ip) I_VALID then i_d ip
     else dinode_get (i_inum ip) (V (i_dev ip) (IBLOCK (i_inum ip)))).

Lemma iflags_cases (Q : Z → Prop) : Q 0 → Q 1 → Q 2 → Q 3 → ∀ fl, 0 ≤ fl < 4 → Q fl.
Proof.
  intros. assert (fl = 0 ∨ fl = 1 ∨ fl = 2 ∨ fl = 3) by lia. naive_solver.
Qed.

(** The inode is in use: in the cache with a reference, and allocated. *)
Definition live V (ip : inode) : Prop := 1 ≤ i_ref ip ∧ i_type (locked_inode V ip) ≠ 0.

Lemma ilock_wp P V X Hd b l i ip (Q : unit → fs B → Prop) :
  bl_inv P V X Hd b → l !! i = Some ip → 0 ≤ i_flags ip < 4 → live V ip →
  P (i_dev ip) (IBLOCK (i_inum ip)) →
  (∀ b', bl_inv P V X Hd b' → has (i_flags ip) I_BUSY = false →
     Q tt (Fs b' (<[i := locked_inode V ip]> l))) →
  wp (ilock i) Q (Fs b l).
Proof.
  intros Hi Hip Hfl [Href Hty] HP HQ. destruct (bl_ready _ _ _ _ _ Hi) as (Hok&_&Hpt&Hrun&Hf&_).
  unfold ilock. eapply inode_at_wp; [done|]. destruct (Z.ltb_spec (i_ref ip) 1); [lia|].
  apply acquire_i_wp; [done|]. eapply inode_at_wp; [done|].
  destruct (has (i_flags ip) I_BUSY) eqn:Hb.
  { assert (Hw := sleep_wp (A := unit) (CInode i) LIcache (λ _ _, False) (kof b)
      ltac:(done) Hok Hpt Hrun).
    unfold wp, ik, bl, zoom, mbind, M_bind in *. simpl. unfold with_k. rewrite lget_lset.
    by destruct (sleep _ _ _). }
  eapply upd_inode_wp; [done|]. apply release_i_wp; [done|done|]. rewrite with_k_self.
  set (ip1 := set_i_flags (setf (i_flags ip) I_BUSY) ip).
  assert (Hl1 : <[i := ip1]> l !! i = Some ip1) by by eapply insert_at.
  eapply inode_at_wp; [exact Hl1|].
  assert (Hv1 : has (i_flags ip1) I_VALID = has (i_flags ip) I_VALID).
  { unfold ip1; simpl. revert Hfl. generalize (i_flags ip). refine (iflags_cases _ _ _ _ _); done. }
  assert (Hf1 : setf (setf (i_flags ip) I_BUSY) I_VALID = Z.lor I_BUSY I_VALID).
  { revert Hfl. generalize (i_flags ip). refine (iflags_cases _ _ _ _ _); done. }
  rewrite Hv1. destruct (has (i_flags ip) I_VALID) eqn:Hv; apply wp_when; intros Hn; try done.
  - assert (E : locked_inode V ip = ip1).
    { unfold locked_inode. rewrite Hv. unfold ip1, set_i_flags. f_equal.
      revert Hfl Hv. generalize (i_flags ip). refine (iflags_cases _ _ _ _ _); done. }
    specialize (HQ b Hi eq_refl). by rewrite E in HQ.
  - assert (E : locked_inode V ip = set_i_flags (setf (i_flags ip1) I_VALID)
        (set_i_d (dinode_get (i_inum ip) (V (i_dev ip) (IBLOCK (i_inum ip)))) ip1)).
    { unfold locked_inode. rewrite Hv. unfold ip1, set_i_flags, set_i_d; simpl. by rewrite Hf1. }
    apply wp_bind, wp_bl. change (i_dev ip1) with (i_dev ip). change (i_inum ip1) with (i_inum ip).
    eapply wp_mono; [by eapply bl_bread_wp|]. intros bp b1 (Hbp&_&H1).
    apply wp_bind, wp_bl. eapply wp_mono; [eapply bl_data_wp; [exact H1|apply lookup_insert_eq]|].
    intros d b2 [-> ->]. eapply upd_inode_wp; [exact Hl1|]. rewrite list_insert_insert_eq.
    apply wp_bind, wp_bl. eapply wp_mono.
    { eapply bl_brelse_wp; [exact H1|apply lookup_insert_eq|]. intros HX.
      destruct (bl_mods _ _ _ _ _ _ Hi HX). congruence. }
    intros [] b2 H2. rewrite delete_insert_id in H2 by done.
    eapply upd_inode_wp; [by eapply insert_at|]. rewrite list_insert_insert_eq.
    eapply inode_at_wp; [by eapply insert_at|]. apply wp_when; intros Ht.
    { apply Z.eqb_eq in Ht. rewrite E in Hty. done. }
    specialize (HQ b2 H2 eq_refl). rewrite E in HQ. exact HQ.
Qed.

Lemma iupdate_wp P V X Hd b l i ip (Q : unit → fs B → Prop) :
  bl_inv P V X Hd b → l !! i = Some ip → dinode_ok (i_d ip) →
  P (i_dev ip) (IBLOCK (i_inum ip)) →
  (∀ b', bl_inv P (vupd V (i_dev ip) (IBLOCK (i_inum ip))
       (dinode_put (i_inum ip) (i_d ip) (V (i_dev ip) (IBLOCK (i_inum ip))))) X Hd b' →
     Q tt (Fs b' l)) →
  wp (iupdate i) Q (Fs b l).
Proof.
  intros Hi Hip Hdk HP HQ. unfold iupdate. eapply inode_at_wp; [done|].
  apply wp_bind, wp_bl. eapply wp_mono; [by eapply bl_bread_wp|]. intros bp b1 (Hbp&_&H1).
  apply wp_bind, wp_bl. eapply wp_mono; [eapply bl_data_wp; [exact H1|apply lookup_insert_eq]|].
  intros d b2 [-> ->].
  assert (HX : bp ∉ X) by (intros HX; destruct (bl_mods _ _ _ _ _ _ Hi HX); congruence).
  assert (Hl : length (V (i_dev ip) (IBLOCK (i_inum ip))) = 512%nat) by by eapply bl_len.
  assert (Hw := log_put_end_wp P V X Hd b1 bp (i_dev ip) (IBLOCK (i_inum ip))
    (dinode_put (i_inum ip) (i_d ip) (V (i_dev ip) (IBLOCK (i_inum ip))))
    (λ _ b', bl_inv P (vupd V (i_dev ip) (IBLOCK (i_inum ip))
       (dinode_put (i_inum ip) (i_d ip) (V (i_dev ip) (IBLOCK (i_inum ip))))) X Hd b') H1 Hbp HX
    (length_dinode_put _ _ _ Hdk Hl) (λ _ H, H)).
  unfold wp, bl, zoom, mbind, M_bind in *. simpl in *.
  destruct (bl_set bp _ b1) as [[] t1| | | | |]; try done. simpl in *.
  destruct (bl_log_write bp t1) as [[] t2| | | | |]; try done. simpl in *.
  destruct (bl_brelse bp t2) as [[] t3| | | | |]; try done. by apply HQ.
Qed.

(** [ilock] returns only when nobody held the inode; the entry is then
    locked, and holds the contents of the disk inode if it was not already
    valid.  A process that finds the inode locked goes to sleep. *)
Theorem ilock_correct P V X Hd b l i ip :
  bl_inv P V X Hd b → l !! i = Some ip → 0 ≤ i_flags ip < 4 → live V ip →
  P (i_dev ip) (IBLOCK (i_inum ip)) →
  wp (ilock i) (λ _ s', has (i_flags ip) I_BUSY = false ∧
    fs_inode s' = <[i := locked_inode V ip]> l ∧ bl_inv P V X Hd (fs_bl s')) (Fs b l).
Proof. intros Hi Hip Hfl Hlv HP. eapply ilock_wp; [done..|]. intros b' Hi' Hb. done. Qed.

(** An inode written with [iupdate] and read again with [ilock] into a
    cache entry that has been recycled in between is the same inode; the
    other inodes of its block are not changed. *)
Theorem iupdate_ilock P V X Hd b l i ip junk :
  bl_inv P V X Hd b → l !! i = Some ip → dinode_ok (i_d ip) →
  1 ≤ i_ref ip → i_type ip ≠ 0 → P (i_dev ip) (IBLOCK (i_inum ip)) →
  wp (iupdate i;; upd_inode i (λ ip, set_i_flags 0 (set_i_d junk ip));; ilock i)
    (λ _ s', (∃ ip', fs_inode s' !! i = Some ip' ∧ i_d ip' = i_d ip ∧ i_dev ip' = i_dev ip ∧
                i_inum ip' = i_inum ip) ∧
       ∃ V', bl_inv P V' X Hd (fs_bl s') ∧
         ∀ inum', IBLOCK inum' = IBLOCK (i_inum ip) → inum' mod IPB ≠ i_inum ip mod IPB →
           dinode_get inum' (V' (i_dev ip) (IBLOCK inum')) =
           dinode_get inum' (V (i_dev ip) (IBLOCK inum'))) (Fs b l).
Proof.
  intros Hi Hip Hdk Href Hty HP. apply wp_bind. eapply iupdate_wp; [done..|]. intros b1 H1.
  assert (Hl : length (V (i_dev ip) (IBLOCK (i_inum ip))) = 512%nat) by by eapply bl_len.
  eapply upd_inode_wp; [exact Hip|].
  eapply ilock_wp; [exact H1|by eapply insert_at|simpl; lia| |done|].
  { split; [done|]. match goal with |- i_type ?x ≠ 0 => assert (E : i_d x = i_d ip) end.
    { simpl. rewrite vupd_same. by apply dinode_put_same. }
    unfold i_type. by rewrite E. }
  intros b2 H2 _.
  rewrite list_insert_insert_eq. split.
  - eexists. split; [by eapply insert_at|]. split_and!; [|done|done]. simpl.
    rewrite vupd_same. by apply dinode_put_same.
  - eexists. split; [exact H2|]. intros inum' HB Hne. rewrite HB, vupd_same.
    by apply dinode_put_other.
Qed.
End Icache.

(** ** On the example file system: the root inode is cached, not yet valid *)
Definition di_zero : dinode := Dinode 0 0 0 0 0 (replicate 13 0).
Definition ex_icache : list inode :=
  Inode 1 1 1 0 di_zero :: replicate 49 (Inode 0 0 0 0 di_zero).
Definition ex_fs : fs (log Memide.memide) := Fs ex_fs_log ex_icache.

Lemma ex_icache_at i ip : ex_icache !! i = Some ip →
  (i = 0%nat ∧ ip = Inode 1 1 1 0 di_zero) ∨ ip = Inode 0 0 0 0 di_zero.
Proof.
  intros Hi. destruct i as [|i]; [injection Hi as <-; by left|].
  change (replicate 49 (Inode 0 0 0 0 di_zero) !! i = Some ip) in Hi.
  apply lookup_replicate in Hi as [-> _]. by right.
Qed.

Lemma ex_icache_ok : icache_ok ex_icache.
Proof.
  split; [done| | |].
  - intros i ip Hi. destruct (ex_icache_at i ip Hi) as [[_ ->]| ->]; simpl; lia.
  - intros i ip Hi. destruct (ex_icache_at i ip Hi) as [[_ ->]| ->]; simpl; lia.
  - intros i j ip jp Hi Hj. destruct (ex_icache_at i ip Hi) as [[-> ->]| ->],
      (ex_icache_at j jp Hj) as [[-> ->]| ->]; simpl; try lia.
Qed.

Lemma iget_correct_witness :
  ∃ s', iget 1 2 ex_fs = Ok 1%nat s' ∧ icache_ok (fs_inode s') ∧
    fs_inode s' !! 1%nat = Some (Inode 1 2 1 0 di_zero).
Proof.
  assert (Hw := iget_correct ex_P ex_V ∅ ∅ ex_fs_log ex_icache 1 2 ex_fs_inv ex_icache_ok).
  destruct (iget 1 2 ex_fs) as [i s'| | | | |] eqn:E; [|vm_compute in E; discriminate E..].
  destruct (wp_ok _ _ _ _ _ Hw E) as (_&Hok&ip&Hip&_&Hs).
  assert (i = 1%nat) as ->.
  { assert (Hb : match iget 1 2 ex_fs with Ok i _ => i | _ => 0%nat end = 1%nat) by (vm_compute; reflexivity).
    by rewrite E in Hb. }
  destruct Hs as [[Hk _]|(_&_&Hs)].
  - destruct (ex_icache_at _ _ Hip) as [[? _]| ->]; [done|]. by destruct Hk.
  - exists s'. destruct (ex_icache_at _ _ Hip) as [[? _]| ->]; [done|].
    split; [reflexivity|]. split; [exact Hok|exact Hs].
Defined.

Lemma idup_iput_witness : (idup 0 ≫= iput) ex_fs = Ok tt ex_fs.
Proof.
  apply (idup_iput ex_P ex_V ∅ ∅ ex_fs_log ex_icache 0 (Inode 1 1 1 0 di_zero)).
  - exact ex_fs_inv.
  - reflexivity.
  - simpl. lia.
Defined.

Lemma ilock_correct_witness :
  ∃ s' ip, ilock 0 ex_fs = Ok tt s' ∧ fs_inode s' !! 0%nat = Some ip ∧ i_size ip = 48.
Proof.
  assert (Hw := ilock_correct ex_P ex_V ∅ ∅ ex_fs_log ex_icache 0 (Inode 1 1 1 0 di_zero)
    ex_fs_inv eq_refl ltac:(simpl; lia) ltac:(by split) ltac:(by split)).
  destruct (ilock 0 ex_fs) as [[] s'| | | | |] eqn:E; [|vm_compute in E; discriminate E..].
  destruct (wp_ok _ _ _ _ _ Hw E) as (_&Hl&_).
  exists s', (locked_inode ex_V (Inode 1 1 1 0 di_zero)). split; [reflexivity|].
  split; [rewrite Hl; reflexivity|vm_compute; reflexivity].
Defined.

Lemma iupdate_ilock_witness :
  ∃ s' ip, (iupdate 0;; upd_inode 0 (λ ip, set_i_flags 0 (set_i_d di_zero ip));; ilock 0)
      (Fs ex_fs_log [Inode 1 1 1 3 (Dinode 1 0 0 1 48 (5 :: replicate 12 0))]) = Ok tt s' ∧
    fs_inode s' !! 0%nat = Some ip ∧ i_size ip = 48.
Proof.
  set (ip0 := Inode 1 1 1 3 (Dinode 1 0 0 1 48 (5 :: replicate 12 0))).
  assert (Hdk : dinode_ok (i_d ip0)).
  { split; simpl; try lia. split; [done|]. repeat constructor; lia. }
  assert (Hw := iupdate_ilock ex_P ex_V ∅ ∅ ex_fs_log [ip0] 0 ip0 di_zero
    ex_fs_inv eq_refl Hdk ltac:(simpl; lia) ltac:(by simpl) ltac:(by split)).
  destruct ((iupdate 0;; upd_inode 0 (λ ip, set_i_flags 0 (set_i_d di_zero ip));; ilock 0)
    (Fs ex_fs_log [ip0])) as [[] s'| | | | |] eqn:E; [|vm_compute in E; discriminate E..].
  destruct (wp_ok _ _ _ _ _ Hw E) as ((ip&Hip&Hd&_)&_).
  exists s', ip. split; [reflexivity|]. split; [exact Hip|]. unfold i_size. by rewrite Hd.
Defined.
