(* ===== verification/FileData.v ===== *)
(** The contents of files: [bmap], [readi], [writei] (fs.c). *)
From S2P Require Import Prelude Kmonad Wp Kstate Spinlock Sleep Disk Log Blocks FsEx Balloc Inode Dinode Icache.

Section FileData.
Context {B : Type} {BB : Blocks B} {BL : BlockLaws B} {DV : Devsw B}.
Variables (P : Z → Z → Prop) (dev : Z) (sb : superblock).
Implicit Types (V : Z → Z → list Z) (X : gset nat) (Hd : gmap nat (Z * Z)).
Implicit Types (b : B) (l : list inode) (s : fs B) (ip : inode).

(** The last block of the bitmap; data blocks are behind it. *)
Definition bend : Z := BBLOCK (sb_size sb - 1) (sb_ninodes sb).

(** A data block that is in use. *)
Definition good V (a : Z) : Prop := P dev a ∧ bend < a < sb_size sb ∧ in_use V dev sb a = true.

(** The block that holds block [n] of a file; 0 if there is none. *)
Definition fblock V ip (n : Z) : Z :=
  if n <? NDIRECT then addr_at ip n
  else if addr_at ip NDIRECT =? 0 then 0
  else get_u32 (4 * Z.to_nat (n - NDIRECT)) (V dev (addr_at ip NDIRECT)).

(** A file's blocks are data blocks in use, all different. *)
Record file_ok V ip : Prop := {
  fo_dev : i_dev ip = dev;
  fo_addrs : length (i_addrs ip) = 13%nat;
  fo_blk : ∀ n, 0 ≤ n < MAXFILE → fblock V ip n ≠ 0 → good V (fblock V ip n);
  fo_ind : addr_at ip NDIRECT ≠ 0 → good V (addr_at ip NDIRECT);
  fo_inj : ∀ n m, 0 ≤ n < MAXFILE → 0 ≤ m < MAXFILE → fblock V ip n ≠ 0 →
    fblock V ip n = fblock V ip m → n = m;
  fo_sep : ∀ n, 0 ≤ n < MAXFILE → fblock V ip n ≠ 0 → fblock V ip n ≠ addr_at ip NDIRECT
}.

(** ** Writes to data blocks and allocation, seen from the bitmap *)

Lemma in_use_data V a d c : bend < a → 0 ≤ c < sb_size sb →
  in_use (vupd V dev a d) dev sb c = in_use V dev sb c.
Proof.
  intros Ha Hc. unfold in_use. rewrite vupd_ne; [done|]. intros [= Heq].
  pose proof (BBLOCK_mono c (sb_size sb - 1) (sb_ninodes sb)). unfold bend in Ha. lia.
Qed.

Section Geom.
Variable V : Z → Z → list Z.
Hypothesis Hg : fs_geom P V dev sb.
Hypothesis Hlen : ∀ sec, P dev sec → length (V dev sec) = 512%nat.

Lemma bend_pos : 2 < bend.
Proof.
  pose proof (fg_size _ _ _ _ Hg). pose proof (fg_ninodes _ _ _ _ Hg).
  apply BBLOCK_range; lia.
Qed.

Lemma geom_data a d : bend < a → fs_geom P (vupd V dev a d) dev sb.
Proof.
  intros Ha. pose proof bend_pos. destruct Hg as [G1 G2 G3 G4 G5 G6]. split; try done.
  - rewrite vupd_ne; [done|]. intros [= Heq]. lia.
  - intros c Hc Hu. rewrite in_use_data in Hu by done. by apply G6.
Qed.

Lemma geom_alloc a : 0 ≤ a < sb_size sb → in_use V dev sb a = false →
  fs_geom P (allocated V dev sb a) dev sb.
Proof.
  intros Ha Hu. destruct (fg_free _ _ _ _ Hg a Ha Hu) as [HPa Hlt]. pose proof bend_pos.
  pose proof Hg as [G1 G2 G3 G4 G5 G6]. split; try done.
  - rewrite allocated_other; [done|fold bend in Hlt; lia|].
    pose proof (BBLOCK_range a (sb_ninodes sb)). lia.
  - intros c Hc Hcu. rewrite (allocated_use P V dev sb a Hg Ha Hlen c Hu Hc) in Hcu.
    apply orb_false_iff in Hcu as [Hcu _]. by apply G6.
Qed.

(** A fresh block is none of the blocks in use. *)
Lemma fresh_ne a c : in_use V dev sb a = false → good V c → a ≠ c.
Proof. intros Ha (_&_&Hc) ->. congruence. Qed.

Lemma good_map_ne c a : 0 ≤ a < sb_size sb → bend < c → c ≠ BBLOCK a (sb_ninodes sb).
Proof.
  intros Ha Hc ->. pose proof (BBLOCK_mono a (sb_size sb - 1) (sb_ninodes sb)). unfold bend in Hc. lia.
Qed.

Lemma alloc_keeps a c : 0 ≤ a < sb_size sb → in_use V dev sb a = false → good V c →
  allocated V dev sb a dev c = V dev c ∧ good (allocated V dev sb a) c.
Proof.
  intros Ha Hu Hc. pose proof Hc as (HPc&Hr&Huc). assert (Hne := fresh_ne a c Hu Hc).
  split; [apply allocated_other; [done|apply good_map_ne; lia]|].
  split_and!; [done|lia|lia|]. pose proof bend_pos.
  rewrite (allocated_use P V dev sb a Hg Ha Hlen c Hu) by lia. by rewrite Huc.
Qed.

Lemma alloc_good a : 0 ≤ a < sb_size sb → in_use V dev sb a = false →
  good (allocated V dev sb a) a ∧ a ≠ 0.
Proof.
  intros Ha Hu. destruct (fg_free _ _ _ _ Hg a Ha Hu) as [HPa Hlt]. pose proof bend_pos.
  fold bend in Hlt. split; [|lia]. split_and!; [done|lia|lia|].
  rewrite (allocated_use P V dev sb a Hg Ha Hlen a Hu) by lia. by rewrite Z.eqb_refl, orb_true_r.
Qed.

Lemma good_data a c d : bend < a → good V c → good (vupd V dev a d) c.
Proof.
  intros Ha (H1&H2&H3). pose proof bend_pos. split_and!; [done|lia|lia|]. rewrite in_use_data; [done|done|lia].
Qed.
End Geom.

(** ** Adding a block to a file *)

(** [V'], [ip'] are [V], [ip] with blocks added to the file: the old blocks
    and what they hold are kept, and so is every other block in use. *)
Record grow V ip V' ip' : Prop := {
  gr_geom : fs_geom P V' dev sb;
  gr_ok : file_ok V' ip';
  gr_old : ∀ n, 0 ≤ n < MAXFILE → fblock V ip n ≠ 0 →
    fblock V' ip' n = fblock V ip n ∧ V' dev (fblock V ip n) = V dev (fblock V ip n);
  gr_same : ∃ addrs, ip' = upd_i_d (set_di_addrs addrs) ip;
  gr_frame : ∀ c, good V c → c ≠ addr_at ip NDIRECT → V' dev c = V dev c ∧ good V' c;
  gr_ind : addr_at ip' NDIRECT = addr_at ip NDIRECT ∨
    (addr_at ip NDIRECT = 0 ∧ ∀ c, good V c → c ≠ addr_at ip' NDIRECT);
  gr_new : ∀ n, 0 ≤ n < MAXFILE → fblock V' ip' n ≠ 0 →
    fblock V' ip' n = fblock V ip n ∨ ∀ c, good V c → c ≠ fblock V' ip' n;
  gr_meta : ∀ c, c < sb_ninodes sb / IPB + 3 → V' dev c = V dev c
}.

Lemma grow_refl V ip : fs_geom P V dev sb → file_ok V ip → grow V ip V ip.
Proof.
  intros Hg Ho. split; try done; [|by left|by left]. exists (i_addrs ip). by destruct ip as [? ? ? ? []].
Qed.

Lemma grow_trans V ip V1 ip1 V2 ip2 : file_ok V ip →
  grow V ip V1 ip1 → grow V1 ip1 V2 ip2 → grow V ip V2 ip2.
Proof.
  intros Ho [G1 O1 K1 [a1 S1] F1 I1 N1 M1] [G2 O2 K2 [a2 S2] F2 I2 N2 M2].
  assert (Hsep : ∀ c, good V c → c ≠ addr_at ip NDIRECT → c ≠ addr_at ip1 NDIRECT).
  { intros c Hc Hne. destruct I1 as [->|[_ I1]]; [done|by apply I1]. }
  split; try done.
  - intros n Hn Hz. destruct (K1 n Hn Hz) as [E1 D1].
    destruct (K2 n Hn) as [E2 D2]; [by rewrite E1|]. rewrite E2, E1 in *. split; [done|].
    by rewrite D2.
  - exists a2. subst. done.
  - intros c Hc Hne. destruct (F1 c Hc Hne) as [E1 Hc1].
    destruct (F2 c Hc1 (Hsep c Hc Hne)) as [E2 Hc2]. split; [congruence|done].
  - destruct I2 as [->|[Hz I2]]; [done|]. destruct I1 as [I1|[Hz1 I1]].
    + right. split; [congruence|]. intros c Hc. apply I2. apply F1; [done|].
      intros ->. destruct Hc as (_&Hc&_). rewrite I1 in Hz. pose proof (bend_pos V1 G1). lia.
    + right. split; [done|]. intros c Hc Heq.
      assert (Hne : c ≠ addr_at ip NDIRECT).
      { intros ->. destruct Hc as (_&Hc&_). pose proof (bend_pos V1 G1). lia. }
      destruct (F1 c Hc Hne) as [_ Hc1]. by apply (I2 c Hc1).
  - intros n Hn Hz. destruct (N2 n Hn Hz) as [E2|N2'].
    + rewrite E2. apply N1; [done|]. by rewrite <- E2.
    + right. intros c Hc. apply N2'. destruct (decide (c = addr_at ip NDIRECT)) as [->|Hne].
      * assert (Hnz : addr_at ip NDIRECT ≠ 0).
        { destruct Hc as (_&Hc&_). pose proof (bend_pos V1 G1). lia. }
        destruct I1 as [I1|[? _]]; [|done]. rewrite <- I1. apply O1. congruence.
      * by apply F1.
  - intros c Hc. rewrite M2, M1; done.
Qed.

Lemma addr_set_addr n a m ip : length (i_addrs ip) = 13%nat → 0 ≤ n < 13 → 0 ≤ m →
  addr_at (set_addr n a ip) m = if m =? n then a else addr_at ip m.
Proof.
  intros Hl Hn Hm. unfold addr_at, set_addr, i_addrs in *. simpl. rewrite !nth_lookup.
  destruct (Z.eqb_spec m n) as [->|Hne].
  - rewrite list_lookup_insert_eq; [done|lia].
  - rewrite list_lookup_insert_ne by lia. done.
Qed.

(** The file with block [a], so far of no one, as its block [n]. *)
Lemma add_block V ip V1 ip1 n a : file_ok V ip →
  i_dev ip1 = dev → length (i_addrs ip1) = 13%nat →
  addr_at ip1 NDIRECT = addr_at ip NDIRECT → 0 ≤ n < MAXFILE →
  (∀ m, 0 ≤ m < MAXFILE → fblock V1 ip1 m = if m =? n then a else fblock V ip m) →
  (∀ c, good V c → good V1 c) → good V1 a → a ≠ 0 → (∀ c, good V c → a ≠ c) →
  file_ok V1 ip1.
Proof.
  intros [O1 O2 O3 O4 O5 O6] Hdev Hl Hi Hn Hf Hk Ha Ha0 Hfr. split; try done.
  - intros m Hm. rewrite Hf by done. destruct (Z.eqb_spec m n); [done|]. auto.
  - rewrite Hi. auto.
  - intros m k Hm Hk'. rewrite !Hf by done. destruct (Z.eqb_spec m n) as [->|], (Z.eqb_spec k n) as [->|]; auto.
    + intros _ Heq. destruct (decide (fblock V ip k = 0)); [congruence|].
      exfalso. by apply (Hfr (fblock V ip k)); [apply O3|].
    + intros Hz Heq. exfalso. by apply (Hfr (fblock V ip m)); [apply O3|].
  - intros m Hm. rewrite Hf, Hi by done. destruct (Z.eqb_spec m n); [|auto].
    intros _ Heq. apply (Hfr a); [|done]. rewrite Heq. apply O4. congruence.
Qed.

Section Grow.
Variables (V : Z → Z → list Z) (ip : inode) (a : Z).
Hypotheses (Hg : fs_geom P V dev sb) (Ho : file_ok V ip).
Hypothesis Hlen : ∀ sec, P dev sec → length (V dev sec) = 512%nat.
Hypotheses (Ha : 0 ≤ a < sb_size sb) (Hu : in_use V dev sb a = false).
Let V1 := allocated V dev sb a.

Lemma alloc_facts : good V1 a ∧ a ≠ 0 ∧ (∀ c, good V c → a ≠ c) ∧
  (∀ c, good V c → V1 dev c = V dev c ∧ good V1 c) ∧ fs_geom P V1 dev sb ∧
  (∀ c, c < sb_ninodes sb / IPB + 3 → V1 dev c = V dev c).
Proof.
  destruct (alloc_good V Hg Hlen a Ha Hu) as [H1 H2]. split_and!; try done.
  - intros c. by apply fresh_ne.
  - intros c. by apply alloc_keeps.
  - by apply geom_alloc.
  - intros c Hc. destruct H1 as (_&H1&_). apply allocated_other.
    + unfold bend, BBLOCK, BPB, BSIZE in H1. pose proof (Z.div_pos (sb_size sb - 1) (512 * 8)). lia.
    + unfold BBLOCK, BPB, BSIZE. pose proof (Z.div_pos a (512 * 8)). lia.
Qed.

(** A direct block. *)
Lemma grow_direct n : 0 ≤ n < NDIRECT → addr_at ip n = 0 → grow V ip V1 (set_addr n a ip).
Proof.
  intros Hn Hz. destruct alloc_facts as (A1&A2&A3&A4&A5&A6). pose proof Ho as [O1 O2 O3 O4 O5 O6].
  unfold NDIRECT in Hn.
  assert (Hadr : ∀ m, 0 ≤ m → addr_at (set_addr n a ip) m = if m =? n then a else addr_at ip m)
    by (intros; apply addr_set_addr; (done || lia)).
  assert (Hi : addr_at (set_addr n a ip) NDIRECT = addr_at ip NDIRECT)
    by (rewrite Hadr by (unfold NDIRECT; lia); unfold NDIRECT; bdestr; [lia|done]).
  assert (Hf : ∀ m, 0 ≤ m < MAXFILE →
    fblock V1 (set_addr n a ip) m = if m =? n then a else fblock V ip m).
  { intros m Hm. unfold fblock. rewrite Hi. destruct (Z.ltb_spec m NDIRECT).
    - rewrite Hadr by lia. done.
    - unfold NDIRECT in *. rewrite (proj2 (Z.eqb_neq m n)) by lia.
      destruct (Z.eqb_spec (addr_at ip 12) 0); [done|]. by rewrite (proj1 (A4 _ (O4 n0))). }
  split; try done.
  - eapply (add_block V ip V1 _ n a); try done.
    + unfold set_addr, i_addrs; simpl. by rewrite length_insert.
    + unfold MAXFILE, NDIRECT, NINDIRECT, BSIZE. change (512 / 4) with 128. lia.
    + intros c Hc. by apply A4.
  - intros m Hm Hmz. rewrite Hf by done. destruct (Z.eqb_spec m n) as [->|].
    + unfold fblock in Hmz. rewrite (proj2 (Z.ltb_lt _ _)) in Hmz by (unfold NDIRECT; lia). done.
    + split; [done|]. by apply A4, O3.
  - by eexists.
  - intros c Hc _. by apply A4.
  - left. exact Hi.
  - intros m Hm. rewrite Hf by done. destruct (Z.eqb_spec m n); [|by left].
    intros _. right. intros c Hc Heq. by apply (A3 c).
Qed.

(** The indirect block. *)
Lemma grow_indirect : addr_at ip NDIRECT = 0 → grow V ip V1 (set_addr NDIRECT a ip).
Proof.
  intros Hz. destruct alloc_facts as (A1&A2&A3&A4&A5&A6). pose proof Ho as [O1 O2 O3 O4 O5 O6].
  assert (Hadr : ∀ m, 0 ≤ m → addr_at (set_addr NDIRECT a ip) m =
    if m =? NDIRECT then a else addr_at ip m)
    by (intros; apply addr_set_addr; (done || unfold NDIRECT; lia)).
  assert (Hi : addr_at (set_addr NDIRECT a ip) NDIRECT = a) by (rewrite Hadr; done).
  assert (Hzero : ∀ o, get_u32 o (replicate 512 0) = 0).
  { intros o. unfold get_u32, slice. rewrite drop_replicate, take_replicate.
    generalize (4 `min` (512 - o))%nat. induction n as [|n IH]; simpl; [done|]. by rewrite IH. }
  assert (Hf : ∀ m, 0 ≤ m < MAXFILE → fblock V1 (set_addr NDIRECT a ip) m = fblock V ip m).
  { intros m Hm. unfold fblock. rewrite Hi, Hz. simpl. destruct (Z.ltb_spec m NDIRECT).
    - rewrite Hadr by lia. rewrite (proj2 (Z.eqb_neq _ _)) by lia. done.
    - rewrite (proj2 (Z.eqb_neq a 0)) by done. unfold V1. by rewrite allocated_zero. }
  split; try done.
  - split; try done.
    + unfold set_addr, i_addrs; simpl. by rewrite length_insert.
    + intros m Hm. rewrite Hf by done. intros Hmz. by apply A4, O3.
    + by rewrite Hi.
    + intros m k Hm Hk. rewrite !Hf by done. by apply O5.
    + intros m Hm. rewrite Hf, Hi by done. intros Hmz Heq. by apply (A3 (fblock V ip m)); [apply O3|].
  - intros m Hm Hmz. rewrite Hf by done. split; [done|]. by apply A4, O3.
  - by eexists.
  - intros c Hc _. by apply A4.
  - right. split; [done|]. rewrite Hi. intros c Hc Heq. by apply (A3 c).
  - intros m Hm. rewrite Hf by done. by left.
Qed.

(** An entry of the indirect block. *)
Lemma grow_entry bn : 0 ≤ bn < NINDIRECT → addr_at ip NDIRECT ≠ 0 →
  fblock V ip (bn + NDIRECT) = 0 →
  grow V ip (vupd V1 dev (addr_at ip NDIRECT)
    (put_u32 (4 * Z.to_nat bn) a (V dev (addr_at ip NDIRECT)))) ip.
Proof.
  intros Hbn Hnz Hz. destruct alloc_facts as (A1&A2&A3&A4&A5&A6). pose proof Ho as [O1 O2 O3 O4 O5 O6].
  set (ia := addr_at ip NDIRECT) in *. set (d := V dev ia).
  assert (Hbn' : 0 ≤ bn < 128) by exact Hbn.
  assert (Hia := O4 Hnz). pose proof Hia as (HPia&Hbia&_).
  assert (Hdl : length d = 512%nat) by by apply Hlen.
  set (V2 := vupd V1 dev ia _).
  assert (Hgv : ∀ c, good V1 c → good V2 c) by (intros c Hc; eapply good_data; [exact A5|lia|done]).
  assert (Hv2 : ∀ c, c ≠ ia → V2 dev c = V1 dev c) by (intros c Hc; unfold V2; rewrite vupd_ne; congruence).
  assert (Hf : ∀ m, 0 ≤ m < MAXFILE →
    fblock V2 ip m = if m =? bn + NDIRECT then a else fblock V ip m).
  { intros m Hm. unfold fblock. fold ia. unfold NDIRECT in *. destruct (Z.ltb_spec m 12).
    - rewrite (proj2 (Z.eqb_neq m _)) by lia. done.
    - rewrite (proj2 (Z.eqb_neq ia 0)) by done. unfold V2. rewrite vupd_same.
      destruct (Z.eqb_spec m (bn + 12)) as [->|Hne].
      + replace (bn + 12 - 12) with bn by lia. rewrite get_put_u32 by lia.
        apply u32_small. pose proof (fg_size _ _ _ _ Hg). lia.
      + rewrite get_put_u32_ne; [done|lia|]. lia. }
  assert (Hmf : 0 ≤ bn + NDIRECT < MAXFILE)
    by (unfold MAXFILE, NDIRECT, NINDIRECT, BSIZE; change (512 / 4) with 128; lia).
  split; try done.
  - by apply geom_data; [|lia].
  - eapply (add_block V ip V2 ip _ a); try done.
    + intros c Hc. by apply Hgv, A4.
    + by apply Hgv.
  - intros m Hm Hmz. rewrite Hf by done. destruct (Z.eqb_spec m (bn + NDIRECT)) as [->|]; [done|].
    split; [done|]. rewrite Hv2 by by apply O6. by apply A4, O3.
  - exists (i_addrs ip). by destruct ip as [? ? ? ? []].
  - intros c Hc Hne. rewrite Hv2 by done. destruct (A4 c Hc). split; [done|by apply Hgv].
  - by left.
  - intros m Hm. rewrite Hf by done. destruct (Z.eqb_spec m (bn + NDIRECT)); [|by left].
    intros _. right. intros c Hc Heq. by apply (A3 c).
  - intros c Hc. rewrite Hv2; [by apply A6|]. intros ->.
    unfold bend, BBLOCK, BPB, BSIZE in Hbia. pose proof (fg_size _ _ _ _ Hg).
    pose proof (Z.div_pos (sb_size sb - 1) (512 * 8)). lia.
Qed.
End Grow.

(** ** [bmap] *)

Lemma same_dev V ip V' ip' : grow V ip V' ip' → i_dev ip' = i_dev ip.
Proof. intros G. by destruct (gr_same _ _ _ _ G) as [addrs ->]. Qed.

Lemma addr_or_alloc_wp V X Hd b l i ip n (Q : Z → fs B → Prop) :
  bl_inv P V X Hd b → l !! i = Some ip → fs_geom P V dev sb → file_ok V ip →
  0 ≤ n ≤ NDIRECT →
  (∀ b' V' ip', bl_inv P V' X Hd b' → grow V ip V' ip' → addr_at ip' n ≠ 0 →
     (addr_at ip n ≠ 0 → V' = V ∧ ip' = ip) →
     Q (addr_at ip' n) (Fs b' (<[i := ip']> l))) →
  wp (addr_or_alloc i n) Q (Fs b l).
Proof.
  intros Hi Hip Hg Ho Hn HQ. unfold addr_or_alloc. eapply inode_at_wp; [done|].
  assert (Hlen : ∀ sec, P dev sec → length (V dev sec) = 512%nat) by (intros; by eapply bl_len).
  destruct (Z.eqb_spec (addr_at ip n) 0) as [Hz|Hz].
  - rewrite (fo_dev _ _ Ho). apply wp_bind, wp_bl. eapply wp_mono; [by eapply balloc_wp|].
    intros a b1 (Ha&Hu&H1). eapply upd_inode_wp; [done|]. apply wp_ret.
    assert (Hadr : addr_at (set_addr n a ip) n = a).
    { rewrite addr_set_addr; [by rewrite Z.eqb_refl|apply Ho|unfold NDIRECT in Hn; lia|lia]. }
    assert (Hgr : grow V ip (allocated V dev sb a) (set_addr n a ip)).
    { destruct (decide (n = NDIRECT)) as [->|]; [by apply grow_indirect|apply grow_direct; (done || lia)]. }
    rewrite <- Hadr at 1. apply (HQ b1 _ _ H1 Hgr); [|done]. rewrite Hadr.
    by destruct (alloc_good V Hg Hlen a Ha Hu).
  - apply wp_ret. specialize (HQ b V ip Hi (grow_refl V ip Hg Ho) Hz (λ _, conj eq_refl eq_refl)).
    by rewrite list_insert_id in HQ.
Qed.

Lemma bmap_wp V X Hd b l i ip n (Q : Z → fs B → Prop) :
  bl_inv P V X Hd b → l !! i = Some ip → fs_geom P V dev sb → file_ok V ip →
  0 ≤ n < MAXFILE →
  (∀ b' V' ip', bl_inv P V' X Hd b' → grow V ip V' ip' → fblock V' ip' n ≠ 0 →
     (fblock V ip n ≠ 0 → V' = V ∧ ip' = ip) →
     Q (fblock V' ip' n) (Fs b' (<[i := ip']> l))) →
  wp (bmap i n) Q (Fs b l).
Proof.
  intros Hi Hip Hg Ho Hn HQ. unfold bmap.
  assert (Hn' : 0 ≤ n < 140) by exact Hn.
  destruct (Z.ltb_spec n NDIRECT) as [Hlt|Hge].
  { eapply addr_or_alloc_wp; [done..|lia|]. intros b' V' ip' H' Hgr Hnz Hsame.
    assert (Hf : ∀ V ip, fblock V ip n = addr_at ip n)
      by (intros; unfold fblock; by rewrite (proj2 (Z.ltb_lt _ _))).
    specialize (HQ b' V' ip' H' Hgr). rewrite !Hf in HQ. auto. }
  unfold NDIRECT in Hge. change NDIRECT with 12. rewrite (u32_small (n - 12)) by lia.
  change NINDIRECT with 128. destruct (Z.ltb_spec (n - 12) 128); [|lia].
  apply wp_bind. eapply addr_or_alloc_wp; [done..|unfold NDIRECT; lia|].
  intros b1 V1 ip1 H1 G1 Hnz Hsame. change NDIRECT with 12 in *.
  assert (Hip1 : <[i := ip1]> l !! i = Some ip1) by by eapply insert_at.
  eapply inode_at_wp; [exact Hip1|].
  pose proof (gr_ok _ _ _ _ G1) as Ho1. pose proof (gr_geom _ _ _ _ G1) as Hg1.
  rewrite (fo_dev _ _ Ho1). set (ia := addr_at ip1 12) in *.
  destruct (fo_ind _ _ Ho1 Hnz) as (HPia&_&_). change NDIRECT with 12 in HPia. fold ia in HPia.
  apply wp_bind, wp_bl. eapply wp_mono; [by eapply bl_bread_wp|]. intros bp b2 (Hbp&Hnoh&H2).
  assert (HX : bp ∉ X) by (intros HX; destruct (bl_mods _ _ _ _ _ _ Hi HX); congruence).
  apply wp_bind, wp_bl. eapply wp_mono; [eapply bl_data_wp; [exact H2|apply lookup_insert_eq]|].
  intros d b3 [-> ->].
  assert (Hfb : ∀ V, fblock V ip1 n = get_u32 (4 * Z.to_nat (n - 12)) (V dev ia)).
  { intros V0. unfold fblock. change NDIRECT with 12. fold ia.
    rewrite (proj2 (Z.ltb_ge _ _)) by lia. by rewrite (proj2 (Z.eqb_neq ia 0)). }
  rewrite <- Hfb.
  assert (Hsame' : fblock V ip n ≠ 0 → V1 = V ∧ ip1 = ip).
  { intros Hz. apply Hsame. intros Hz12. apply Hz. unfold fblock. change NDIRECT with 12.
    rewrite (proj2 (Z.ltb_ge _ _)) by lia. by rewrite Hz12. }
  destruct (Z.eqb_spec (fblock V1 ip1 n) 0) as [Hz|Hz].
  - assert (Hlen1 : ∀ sec, P dev sec → length (V1 dev sec) = 512%nat) by (intros; by eapply bl_len).
    apply wp_bind, wp_bl. eapply wp_mono; [by eapply balloc_wp|]. intros a b3 (Ha&Hu&H3).
    assert (Gr := grow_entry V1 ip1 a Hg1 Ho1 Hlen1 Ha Hu (n - 12) ltac:(change NINDIRECT with 128; lia) Hnz).
    change NDIRECT with 12 in Gr. fold ia in Gr. replace (n - 12 + 12) with n in Gr by lia.
    specialize (Gr Hz). set (d := put_u32 _ a _) in Gr.
    set (V2 := vupd (allocated V1 dev sb a) dev ia d) in Gr.
    assert (Hdl : length d = 512%nat).
    { unfold d. rewrite length_put_u32; rewrite Hlen1 by done; lia. }
    assert (Hfa : fblock V2 ip1 n = a).
    { rewrite Hfb. unfold V2, d. rewrite vupd_same, get_put_u32 by (rewrite Hlen1 by done; lia).
      apply u32_small. pose proof (fg_size _ _ _ _ Hg1). lia. }
    assert (Hw := log_put_wp P _ X Hd b3 bp dev ia d (mret a)
      (λ r b', r = a ∧ bl_inv P V2 X Hd b') H3 Hbp HX Hdl (λ t Ht, wp_ret _ _ _ (conj eq_refl Ht))).
    assert (Hq : ∀ b', bl_inv P V2 X Hd b' → Q a (Fs b' (<[i := ip1]> l))).
    { intros b' H'. specialize (HQ b' V2 ip1 H'). rewrite Hfa in HQ. apply HQ.
      - by eapply grow_trans.
      - by destruct (alloc_good V1 Hg1 Hlen1 a Ha Hu).
      - intros Hz0. exfalso. destruct (Hsame' Hz0) as [-> ->]. done. }
    clear -Hw Hq. fold d. unfold wp, bl, zoom, mbind, M_bind in *. simpl in *.
    destruct (bl_set bp d b3) as [[] t1| | | | |]; try done. simpl in *.
    destruct (bl_log_write bp t1) as [[] t2| | | | |]; try done. simpl in *.
    destruct (bl_brelse bp t2) as [[] t3| | | | |]; try done. simpl in *. apply Hq, Hw.
  - apply wp_bind, wp_bl. eapply wp_mono; [eapply bl_brelse_wp; [exact H2|apply lookup_insert_eq|done]|].
    intros [] b3 H3. rewrite delete_insert_id in H3 by done. apply wp_ret.
    apply HQ; try done.
Qed.

(** ** The bytes of a file *)

Definition file_byte V ip (k : Z) : Z :=
  nth (Z.to_nat (k mod BSIZE)) (V dev (fblock V ip (k / BSIZE))) 0.
Definition file_bytes V ip (off n : Z) : list Z :=
  (λ j, file_byte V ip (off + Z.of_nat j)) <$> seq 0 (Z.to_nat n).

(** No holes below the size, and the size is one a file can have. *)
Record mapped V ip : Prop := {
  mp_size : 0 ≤ i_size ip ≤ MAXFILE * BSIZE;
  mp_blk : ∀ k, 0 ≤ k < i_size ip → fblock V ip (k / BSIZE) ≠ 0
}.

Lemma length_file_bytes V ip off n : length (file_bytes V ip off n) = Z.to_nat n.
Proof. unfold file_bytes. by rewrite length_fmap, length_seq. Qed.

Lemma file_bytes_app V ip off n m : 0 ≤ n → 0 ≤ m →
  file_bytes V ip off (n + m) = file_bytes V ip off n ++ file_bytes V ip (off + n) m.
Proof.
  intros Hn Hm. unfold file_bytes. rewrite Z2Nat.inj_add, seq_app, fmap_app by done. f_equal.
  apply list_eq. intros j. rewrite !list_lookup_fmap.
  destruct (decide (j < Z.to_nat m)%nat).
  - rewrite !lookup_seq_lt by lia. simpl. do 2 f_equal. lia.
  - by rewrite !lookup_seq_ge by lia.
Qed.

(** The part of a block from offset [k] on. *)
Lemma file_bytes_chunk V ip k m : 0 ≤ k → 0 ≤ m → k mod BSIZE + m ≤ BSIZE →
  length (V dev (fblock V ip (k / BSIZE))) = 512%nat →
  slice (Z.to_nat (k mod BSIZE)) (Z.to_nat m) (V dev (fblock V ip (k / BSIZE))) = file_bytes V ip k m.
Proof.
  unfold BSIZE. intros Hk Hm Hr Hl. pose proof (Z.mod_pos_bound k 512 ltac:(lia)).
  apply list_eq. intros j. destruct (decide (j < Z.to_nat m)%nat) as [Hj|Hj].
  - rewrite lookup_slice by done. unfold file_bytes. rewrite list_lookup_fmap, lookup_seq_lt by done.
    cbn [fmap option_fmap option_map]. unfold file_byte, BSIZE.
    replace ((k + Z.of_nat (0 + j)) / 512) with (k / 512) by (Z.div_mod_to_equations; lia).
    replace (Z.to_nat ((k + Z.of_nat (0 + j)) mod 512)) with (Z.to_nat (k mod 512) + j)%nat
      by (Z.div_mod_to_equations; lia).
    rewrite nth_lookup. destruct (lookup_lt_is_Some_2 (V dev (fblock V ip (k / 512)))
      (Z.to_nat (k mod 512) + j)) as [x Hx]; [lia|]. by rewrite Hx.
  - rewrite !lookup_ge_None_2; [done|rewrite length_file_bytes; lia|rewrite length_slice; lia].
Qed.

Lemma block_range k : 0 ≤ k < MAXFILE * BSIZE → 0 ≤ k / BSIZE < MAXFILE.
Proof.
  change (MAXFILE * BSIZE) with 71680. change MAXFILE with 140. unfold BSIZE. intros.
  Z.div_mod_to_equations. lia.
Qed.

(** [min(n - tot, BSIZE - off%BSIZE)] *)
Lemma chunk_len n tot off : 0 ≤ tot < n → n < 4294967296 →
  let m := Z.min (u32 (n - tot)) (u32 (BSIZE - off mod BSIZE)) in
  0 < m ≤ n - tot ∧ off mod BSIZE + m ≤ BSIZE.
Proof.
  unfold BSIZE. intros Ht Hn. pose proof (Z.mod_pos_bound off 512 ltac:(lia)).
  rewrite !u32_small by lia. lia.
Qed.

Lemma readi_step_wp V X Hd b l i ip off n tot acc (Q : Z * Z * list Z + list Z → fs B → Prop) :
  bl_inv P V X Hd b → l !! i = Some ip → fs_geom P V dev sb → file_ok V ip → mapped V ip →
  0 ≤ off → off + n ≤ i_size ip → 0 ≤ tot < n →
  (∀ b' m, bl_inv P V X Hd b' → 0 < m ≤ n - tot →
     Q (inl (tot + m, off + tot + m, acc ++ file_bytes V ip (off + tot) m)) (Fs b' l)) →
  wp (readi_step i n (tot, off + tot, acc)) Q (Fs b l).
Proof.
  intros Hi Hip Hg Ho [Ms Mb] Hoff Hend Htot HQ. unfold readi_step.
  change (MAXFILE * BSIZE) with 71680 in Ms.
  rewrite (proj2 (Z.ltb_lt _ _)) by lia. eapply inode_at_wp; [done|]. apply wp_bind.
  assert (Hbn : 0 ≤ (off + tot) / BSIZE < MAXFILE)
    by (apply block_range; change (MAXFILE * BSIZE) with 71680; lia).
  eapply bmap_wp; [done..|]. intros b1 V1 ip1 H1 _ Hnz Hsame.
  destruct (Hsame (Mb (off + tot) ltac:(lia))) as [-> ->]. clear Hsame.
  rewrite list_insert_id by done. rewrite (fo_dev _ _ Ho).
  destruct (fo_blk _ _ Ho _ Hbn Hnz) as (HPa&_&_).
  apply wp_bind, wp_bl. eapply wp_mono; [by eapply bl_bread_wp|]. intros bp b2 (Hbp&_&H2).
  apply wp_bind, wp_bl. eapply wp_mono; [eapply bl_data_wp; [exact H2|apply lookup_insert_eq]|].
  intros d b3 [-> ->]. apply wp_bind, wp_bl.
  eapply wp_mono; [eapply bl_brelse_wp; [exact H2|apply lookup_insert_eq|]|].
  { intros HX. destruct (bl_mods _ _ _ _ _ _ Hi HX). congruence. }
  intros [] b3 H3. rewrite delete_insert_id in H3 by done. apply wp_ret.
  destruct (chunk_len n tot (off + tot)) as [Hm1 Hm2]; [lia|lia|].
  set (m := Z.min _ _) in *. rewrite !(u32_small (_ + m)) by lia.
  rewrite file_bytes_chunk; [by apply HQ|lia|lia|done|by eapply bl_len].
Qed.

Lemma readi_wp V X Hd b l i ip off n :
  bl_inv P V X Hd b → l !! i = Some ip → fs_geom P V dev sb → file_ok V ip → mapped V ip →
  i_type ip ≠ T_DEV → 0 ≤ off < 4294967296 → 0 ≤ n < 4294967296 →
  wp (readi i off n) (λ r s', fs_inode s' = l ∧ bl_inv P V X Hd (fs_bl s') ∧
    r = if (i_size ip <? off) || (4294967296 <=? off + n) then (-1, [])
        else let m := Z.min n (i_size ip - off) in (m, file_bytes V ip off m)) (Fs b l).
Proof.
  intros Hi Hip Hg Ho Hm Ht Hoff Hn. unfold readi. eapply inode_at_wp; [done|].
  rewrite (proj2 (Z.eqb_neq _ _)) by done. pose proof (mp_size _ _ Hm) as Hsz.
  change (MAXFILE * BSIZE) with 71680 in Hsz.
  assert (Hw : (u32 (off + n) <? off) = (4294967296 <=? off + n)).
  { unfold u32. destruct (Z.leb_spec 4294967296 (off + n)).
    - apply Z.ltb_lt. rewrite <- (Z_mod_plus_full _ (-1)), Z.mod_small; lia.
    - apply Z.ltb_ge. rewrite Z.mod_small; lia. }
  rewrite Hw. destruct ((i_size ip <? off) || (4294967296 <=? off + n)) eqn:Hbad; [by apply wp_ret|].
  apply orb_false_iff in Hbad as [Hb1 Hb2]. apply Z.ltb_ge in Hb1. apply Z.leb_gt in Hb2.
  rewrite (u32_small (off + n)) by lia.
  set (n' := if _ <? _ then _ else _).
  assert (Hn' : n' = Z.min n (i_size ip - off)).
  { unfold n'. destruct (Z.ltb_spec (i_size ip) (off + n)); [rewrite u32_small|]; lia. }
  clearbody n'. subst n'. set (m := Z.min n (i_size ip - off)).
  apply wp_bind. eapply wp_mono.
  { eapply (wp_loop _ (λ st s, fs_inode s = l ∧ bl_inv P V X Hd (fs_bl s) ∧
      ∃ tot, st = (tot, off + tot, file_bytes V ip off tot) ∧ 0 ≤ tot ≤ m)
      (λ bytes s, bytes = file_bytes V ip off m ∧ fs_inode s = l ∧ bl_inv P V X Hd (fs_bl s))
      (λ st, Z.to_nat (m - st.1.1))).
    - intros st [b1 l1] (Hl&H1&tot&->&Htot). simpl in Hl, H1. subst l1.
      destruct (decide (tot < m)) as [Hlt|Hge].
      + eapply readi_step_wp; [exact H1|done..|lia|lia|lia|]. intros b2 k H2 Hk. simpl.
        split; [|lia]. split_and!; [done|done|]. exists (tot + k). split; [|lia].
        rewrite file_bytes_app by lia. f_equal. f_equal. lia.
      + unfold readi_step. rewrite (proj2 (Z.ltb_ge _ _)) by lia. apply wp_ret.
        by replace m with tot by lia.
    - split_and!; [done|done|]. exists 0. rewrite Z.add_0_r. split; [done|lia].
    - simpl. lia. }
  intros bytes s' (->&Hl&H'). apply wp_ret. rewrite i32_small by lia. done.
Qed.

(** [readi] on a regular file or a directory returns exactly the bytes of
    the file from [off] on, as many as asked for and as the size allows, or
    -1 when [off] is behind the end or the range wraps around; it changes
    neither the inode nor any block. *)
Theorem readi_correct V X Hd b l i ip off n :
  bl_inv P V X Hd b → l !! i = Some ip → fs_geom P V dev sb → file_ok V ip → mapped V ip →
  i_type ip ≠ T_DEV → 0 ≤ off < 4294967296 → 0 ≤ n < 4294967296 →
  wp (readi i off n) (λ r s', fs_inode s' = l ∧ bl_inv P V X Hd (fs_bl s') ∧
    r = if (i_size ip <? off) || (4294967296 <=? off + n) then (-1, [])
        else let m := Z.min n (i_size ip - off) in (m, file_bytes V ip off m)) (Fs b l).
Proof. apply readi_wp. Qed.

(** ** Writing *)

Lemma nth_splice off new (l : list Z) i : (off + length new ≤ length l)%nat → (i < length l)%nat →
  nth i (splice off new l) 0 =
    if decide (off ≤ i < off + length new)%nat then nth (i - off) new 0 else nth i l 0.
Proof.
  intros Hl Hi. rewrite !nth_lookup. case_decide.
  - by rewrite lookup_splice_new.
  - by rewrite lookup_splice_old by lia.
Qed.

(** Overwriting one block of the file. *)
Lemma write_block V ip n d : fs_geom P V dev sb → file_ok V ip → 0 ≤ n < MAXFILE →
  fblock V ip n ≠ 0 →
  let V' := vupd V dev (fblock V ip n) d in
  fs_geom P V' dev sb ∧ file_ok V' ip ∧ (∀ m, 0 ≤ m < MAXFILE → fblock V' ip m = fblock V ip m) ∧
  (∀ c, good V c → good V' c).
Proof.
  intros Hg Ho Hn Hz V'. pose proof Ho as [O1 O2 O3 O4 O5 O6].
  destruct (O3 n Hn Hz) as (HPa&Hr&Hua).
  assert (Hgd : ∀ c, good V c → good V' c) by (intros c Hc; eapply good_data; [done|lia|done]).
  assert (Hf : ∀ m, 0 ≤ m < MAXFILE → fblock V' ip m = fblock V ip m).
  { intros m Hm. unfold fblock. destruct (m <? NDIRECT); [done|].
    destruct (Z.eqb_spec (addr_at ip NDIRECT) 0); [done|]. unfold V'. rewrite vupd_ne; [done|].
    intros [= Heq]. by apply (O6 n Hn Hz). }
  split_and!; try done.
  - apply geom_data; [done|lia].
  - split; try done.
    + intros m Hm. rewrite Hf by done. auto.
    + auto.
    + intros m k Hm Hk. rewrite !Hf by done. auto.
    + intros m Hm. rewrite Hf by done. auto.
Qed.

(** The file after the first [tot] bytes of [src] are written at [off]. *)
Record progress V ip V' ip' (off tot : Z) (src : list Z) : Prop := {
  pr_geom : fs_geom P V' dev sb;
  pr_ok : file_ok V' ip';
  pr_same : ∃ addrs, ip' = upd_i_d (set_di_addrs addrs) ip;
  pr_blk : ∀ k, 0 ≤ k < Z.max (i_size ip) (off + tot) → fblock V' ip' (k / BSIZE) ≠ 0;
  pr_byte : ∀ k, 0 ≤ k < Z.max (i_size ip) (off + tot) → file_byte V' ip' k =
    if (off <=? k) && (k <? off + tot) then nth (Z.to_nat (k - off)) src 0 else file_byte V ip k;
  pr_frame : ∀ c, good V c → c ≠ addr_at ip NDIRECT → (∀ n, 0 ≤ n < MAXFILE → c ≠ fblock V ip n) →
    V' dev c = V dev c ∧ good V' c ∧ c ≠ addr_at ip' NDIRECT ∧
    ∀ n, 0 ≤ n < MAXFILE → c ≠ fblock V' ip' n;
  pr_meta : ∀ c, c < sb_ninodes sb / IPB + 3 → V' dev c = V dev c
}.

Lemma progress_start V ip off src : fs_geom P V dev sb → file_ok V ip → mapped V ip →
  off ≤ i_size ip → progress V ip V ip off 0 src.
Proof.
  intros Hg Ho [Ms Mb] Hoff. split; try done.
  - exists (i_addrs ip). by destruct ip as [? ? ? ? []].
  - intros k Hk. apply Mb. lia.
  - intros k Hk. rewrite Z.add_0_r. destruct (Z.leb_spec off k), (Z.ltb_spec k off); try lia; done.
Qed.

(** [grow] does not change the bytes that are there. *)
Lemma grow_byte V ip V' ip' k : grow V ip V' ip' → 0 ≤ k < MAXFILE * BSIZE →
  fblock V ip (k / BSIZE) ≠ 0 → file_byte V' ip' k = file_byte V ip k.
Proof.
  intros Hgr Hk Hz. destruct (gr_old _ _ _ _ Hgr (k / BSIZE) (block_range k Hk) Hz) as [E1 E2].
  unfold file_byte. by rewrite E1, E2.
Qed.

Section Step.
Variables (V V1 V2 : Z → Z → list Z) (ip ip1 ip2 : inode) (off tot m n : Z) (src : list Z).
Hypotheses (Hpr : progress V ip V1 ip1 off tot src) (Hgr : grow V1 ip1 V2 ip2).
Hypotheses (Hoff : 0 ≤ off) (Htot : 0 ≤ tot) (Hm : 0 < m) (Hsz : i_size ip ≤ MAXFILE * BSIZE).
Hypotheses (Hend : off + tot + m ≤ MAXFILE * BSIZE) (Hfit : (off + tot) mod BSIZE + m ≤ BSIZE).
Hypotheses (Hn : n = (off + tot) / BSIZE) (Hnz : fblock V2 ip2 n ≠ 0).
Hypothesis Hlen : length (V2 dev (fblock V2 ip2 n)) = 512%nat.
Hypothesis Hsrc : (Z.to_nat (tot + m) ≤ length src)%nat.

Let blk := fblock V2 ip2 n.
Let chunk := slice (Z.to_nat tot) (Z.to_nat m) src.
Let d := splice (Z.to_nat ((off + tot) mod BSIZE)) chunk (V2 dev blk).
Let V3 := vupd V2 dev blk d.

Lemma len_chunk : length chunk = Z.to_nat m.
Proof. unfold chunk. rewrite length_slice; lia. Qed.

Lemma block_of k : 0 ≤ k → off + tot ≤ k < off + tot + m → k / BSIZE = n.
Proof. rewrite Hn. clear -Hfit Hm. unfold BSIZE in *. intros. Z.div_mod_to_equations. lia. Qed.

Lemma n_range : 0 ≤ n < MAXFILE.
Proof. rewrite Hn. apply block_range. lia. Qed.

Lemma step_fblock q : 0 ≤ q < MAXFILE → fblock V3 ip2 q = fblock V2 ip2 q.
Proof.
  intros Hq. by apply (write_block V2 ip2 n d (gr_geom _ _ _ _ Hgr) (gr_ok _ _ _ _ Hgr) n_range Hnz).
Qed.

Lemma step_byte k : 0 ≤ k < Z.max (i_size ip) (off + (tot + m)) →
  fblock V3 ip2 (k / BSIZE) ≠ 0 ∧ file_byte V3 ip2 k =
    if (off <=? k) && (k <? off + (tot + m)) then nth (Z.to_nat (k - off)) src 0 else file_byte V ip k.
Proof.
  intros Hk. assert (Hkr : 0 ≤ k < MAXFILE * BSIZE) by lia.
  assert (Hq := block_range k Hkr). rewrite step_fblock by done.
  destruct (decide (off + tot ≤ k < off + tot + m)) as [Hin|Hout].
  - rewrite (block_of k) by lia. split; [done|].
    destruct (Z.leb_spec off k), (Z.ltb_spec k (off + (tot + m))); try lia. simpl.
    unfold file_byte. rewrite step_fblock, (block_of k) by lia. unfold V3. rewrite vupd_same.
    pose proof len_chunk as Hlc. unfold d. fold blk in Hlen.
    assert (Hko : Z.to_nat (k mod BSIZE) =
      (Z.to_nat ((off + tot) mod BSIZE) + Z.to_nat (k - off - tot))%nat).
    { clear -Hin Hfit Hoff Htot. unfold BSIZE in *. Z.div_mod_to_equations. lia. }
    assert (Hmo : 0 ≤ (off + tot) mod BSIZE) by (apply Z.mod_pos_bound; done).
    unfold BSIZE in *.
    rewrite nth_splice by lia. rewrite decide_True by lia.
    unfold chunk. rewrite !nth_lookup, lookup_slice by lia. do 2 f_equal. lia.
  - assert (Hk1 : 0 ≤ k < Z.max (i_size ip) (off + tot)) by lia.
    assert (Hz1 := pr_blk _ _ _ _ _ _ _ Hpr k Hk1).
    destruct (gr_old _ _ _ _ Hgr _ Hq Hz1) as [E1 E2].
    split; [by rewrite E1|].
    replace ((off <=? k) && (k <? off + (tot + m))) with ((off <=? k) && (k <? off + tot))
      by (bdestr; simpl; lia || done).
    rewrite <- (pr_byte _ _ _ _ _ _ _ Hpr k Hk1), <- (grow_byte _ _ _ _ k Hgr Hkr Hz1).
    unfold file_byte. rewrite step_fblock by done. unfold V3.
    destruct (decide (k / BSIZE = n)) as [Hqn|Hqn].
    + rewrite Hqn. fold blk. rewrite vupd_same. pose proof len_chunk as Hlc.
      pose proof (Z.mod_pos_bound k BSIZE ltac:(done)). pose proof (Z.mod_pos_bound (off + tot) BSIZE ltac:(done)).
      unfold d. fold blk in Hlen. unfold BSIZE in *. rewrite nth_splice by lia.
      rewrite decide_False; [done|].
      clear -Hout Hqn Hn Hlc Hm Hkr Hoff Htot. intros Hc. apply Hout. Z.div_mod_to_equations. lia.
    + rewrite vupd_ne; [done|]. intros [= Heq]. apply Hqn.
      apply (fo_inj _ _ (gr_ok _ _ _ _ Hgr)); [done|apply n_range|by rewrite E1|done].
Qed.

Lemma progress_step : progress V ip V3 ip2 off (tot + m) src.
Proof.
  destruct (write_block V2 ip2 n d (gr_geom _ _ _ _ Hgr) (gr_ok _ _ _ _ Hgr) n_range Hnz) as
    (W1&W2&W3&W4). fold blk V3 in W1, W2, W3, W4.
  split; try done.
  - destruct (gr_same _ _ _ _ Hgr) as [a2 ->]. destruct (pr_same _ _ _ _ _ _ _ Hpr) as [a1 ->].
    by exists a2.
  - intros k Hk. by apply step_byte.
  - intros k Hk. by apply step_byte.
  - intros c Hc Hni Hnf.
    destruct (pr_frame _ _ _ _ _ _ _ Hpr c Hc Hni Hnf) as (F1&F2&F3&F4).
    destruct (gr_frame _ _ _ _ Hgr c F2 F3) as [F5 F6].
    assert (F7 : ∀ q, 0 ≤ q < MAXFILE → c ≠ fblock V2 ip2 q).
    { intros q Hq Heq. destruct (decide (fblock V2 ip2 q = 0)) as [Hz|Hz].
      - destruct F2 as (_&F2&_). pose proof (bend_pos V1 (pr_geom _ _ _ _ _ _ _ Hpr)). lia.
      - destruct (gr_new _ _ _ _ Hgr q Hq Hz) as [E|Hfr]; [by apply (F4 q); [|congruence]|].
        by apply (Hfr c). }
    split_and!.
    + unfold V3. rewrite vupd_ne; [congruence|]. intros [= Heq]. by apply (F7 n n_range).
    + by apply W4.
    + destruct (gr_ind _ _ _ _ Hgr) as [->|[_ Hfr]]; [done|by apply Hfr].
    + intros q Hq. rewrite W3 by done. by apply F7.
  - intros c Hc. unfold V3. rewrite vupd_ne.
    + by rewrite (gr_meta _ _ _ _ Hgr), (pr_meta _ _ _ _ _ _ _ Hpr).
    + intros [= Heq]. destruct (fo_blk _ _ (gr_ok _ _ _ _ Hgr) n n_range Hnz) as (_&Hb&_).
      fold blk in Hb. unfold bend, BBLOCK, BPB, BSIZE in Hb.
      pose proof (fg_size _ _ _ _ W1). pose proof (Z.div_pos (sb_size sb - 1) (512 * 8)). lia.
Qed.
End Step.

Lemma writei_step_wp V V1 X Hd b l i ip ip1 src off n tot (Q : Z * Z + Z → fs B → Prop) :
  progress V ip V1 ip1 off tot src → bl_inv P V1 X Hd b → l !! i = Some ip1 →
  i_size ip ≤ MAXFILE * BSIZE →
  0 ≤ off → off + n ≤ MAXFILE * BSIZE → 0 ≤ tot < n → length src = Z.to_nat n →
  (∀ b' V' ip' m, progress V ip V' ip' off (tot + m) src → bl_inv P V' X Hd b' →
     0 < m ≤ n - tot → Q (inl (tot + m, off + tot + m)) (Fs b' (<[i := ip']> l))) →
  wp (writei_step i src n (tot, off + tot)) Q (Fs b l).
Proof.
  intros Hpr Hi Hip Hsz Hoff Hend Htot Hsrc HQ. unfold writei_step.
  assert (Hend' : off + n ≤ 71680) by exact Hend.
  rewrite (proj2 (Z.ltb_lt _ _)) by lia. eapply inode_at_wp; [done|]. apply wp_bind.
  assert (Hbn : 0 ≤ (off + tot) / BSIZE < MAXFILE) by (apply block_range; lia).
  eapply bmap_wp; [exact Hi|done|apply Hpr|apply Hpr|done|]. intros b1 V2 ip2 H1 Hgr Hnz _.
  rewrite (fo_dev _ _ (pr_ok _ _ _ _ _ _ _ Hpr)).
  destruct (fo_blk _ _ (gr_ok _ _ _ _ Hgr) _ Hbn Hnz) as (HPa&_&_).
  set (blk := fblock V2 ip2 _) in *.
  assert (Hl2 : length (V2 dev blk) = 512%nat) by by eapply bl_len.
  apply wp_bind, wp_bl. eapply wp_mono; [by eapply bl_bread_wp|]. intros bp b2 (Hbp&_&H2).
  assert (HX : bp ∉ X) by (intros HX; destruct (bl_mods _ _ _ _ _ _ Hi HX); congruence).
  apply wp_bind, wp_bl. eapply wp_mono; [eapply bl_data_wp; [exact H2|apply lookup_insert_eq]|].
  intros d0 b3 [-> ->].
  destruct (chunk_len n tot (off + tot)) as [Hm1 Hm2]; [lia|lia|].
  set (m := Z.min _ _) in *. set (d := splice _ _ _).
  assert (Hmo : 0 ≤ (off + tot) mod BSIZE) by (apply Z.mod_pos_bound; done).
  assert (Hdl : length d = 512%nat).
  { unfold d. rewrite length_splice; [done|]. rewrite length_slice by lia. unfold BSIZE in *. lia. }
  assert (Hps := progress_step V V1 V2 ip ip1 ip2 off tot m ((off + tot) / BSIZE) src Hpr Hgr
    Hoff ltac:(lia) ltac:(lia) Hsz ltac:(lia) Hm2 eq_refl Hnz Hl2 ltac:(lia)).
  fold blk d in Hps.
  assert (Hw := log_put_wp P V2 X Hd b2 bp dev blk d (mret tt)
    (λ _ b', bl_inv P (vupd V2 dev blk d) X Hd b') H2 Hbp HX Hdl (λ t Ht, wp_ret _ _ _ Ht)).
  assert (Hq : ∀ b', bl_inv P (vupd V2 dev blk d) X Hd b' →
    Q (inl (u32 (tot + m), u32 (off + tot + m))) (Fs b' (<[i := ip2]> l))).
  { intros b' H'. rewrite !u32_small by lia. by eapply HQ. }
  clear -Hw Hq. unfold wp, bl, zoom, mbind, M_bind in *. simpl in *.
  destruct (bl_set bp d b2) as [[] t1| | | | |]; try done. simpl in *.
  destruct (bl_log_write bp t1) as [[] t2| | | | |]; try done. simpl in *.
  destruct (bl_brelse bp t2) as [[] t3| | | | |]; try done. simpl in *. by apply Hq.
Qed.

(** Writing an inode block changes neither the bitmap nor any data block. *)
Lemma inode_block_write V c d ip : fs_geom P V dev sb → 1 < c < sb_ninodes sb / IPB + 3 →
  file_ok V ip → fs_geom P (vupd V dev c d) dev sb ∧ file_ok (vupd V dev c d) ip ∧
  (∀ q, 0 ≤ q < MAXFILE → fblock (vupd V dev c d) ip q = fblock V ip q) ∧
  (∀ a, good V a → vupd V dev c d dev a = V dev a ∧ good (vupd V dev c d) a).
Proof.
  intros Hg Hc Ho. pose proof Hg as [G1 G2 G3 G4 G5 G6]. pose proof Ho as [O1 O2 O3 O4 O5 O6].
  assert (HB : ∀ a, 0 ≤ a → c < BBLOCK a (sb_ninodes sb)).
  { intros a Ha. unfold BBLOCK, BPB, BSIZE. pose proof (Z.div_pos a (512 * 8)). lia. }
  assert (Hu : ∀ a, 0 ≤ a < sb_size sb → in_use (vupd V dev c d) dev sb a = in_use V dev sb a).
  { intros a Ha. unfold in_use. rewrite vupd_ne; [done|]. intros [= Heq]. pose proof (HB a). lia. }
  assert (Hgd : ∀ a, good V a → vupd V dev c d dev a = V dev a ∧ good (vupd V dev c d) a).
  { intros a (A1&A2&A3). assert (Hca : c < a) by (pose proof (HB (sb_size sb - 1)); unfold bend in A2; lia).
    split; [rewrite vupd_ne; [done|]; intros [= ?]; lia|].
    split_and!; [done|lia|lia|]. pose proof (bend_pos V Hg). rewrite Hu; [done|lia]. }
  assert (Hf : ∀ q, 0 ≤ q < MAXFILE → fblock (vupd V dev c d) ip q = fblock V ip q).
  { intros q Hq. unfold fblock. destruct (q <? NDIRECT); [done|].
    destruct (Z.eqb_spec (addr_at ip NDIRECT) 0); [done|]. by rewrite (proj1 (Hgd _ (O4 n))). }
  split_and!; try done.
  - split; try done.
    + rewrite vupd_ne; [done|]. intros [= ?]. lia.
    + intros a Ha Hua. rewrite Hu in Hua by done. auto.
  - split; try done.
    + intros q Hq. rewrite Hf by done. intros Hz. by apply Hgd, O3.
    + intros Hz. by apply Hgd, O4.
    + intros q r Hq Hr. rewrite !Hf by done. auto.
    + intros q Hq. rewrite Hf by done. auto.
Qed.

Lemma file_ok_size V ip z : file_ok V ip → file_ok V (upd_i_d (set_di_size z) ip).
Proof. intros [O1 O2 O3 O4 O5 O6]. by split. Qed.

(** The inode of a file fits the disk format. *)
Lemma file_dinode_ok V ip : fs_geom P V dev sb → file_ok V ip → 
  -32768 ≤ i_type ip < 32768 → -32768 ≤ i_major ip < 32768 → -32768 ≤ i_minor ip < 32768 →
  -32768 ≤ i_nlink ip < 32768 → 0 ≤ i_size ip < 4294967296 → dinode_ok (i_d ip).
Proof.
  intros Hg [O1 O2 O3 O4 O5 O6] H1 H2 H3 H4 H5. split; try done. split; [exact O2|].
  apply Forall_lookup. intros j a Hj. assert (Hlt := lookup_lt_Some _ _ _ Hj).
  fold (i_addrs ip) in Hj, Hlt. rewrite O2 in Hlt.
  assert (Ha : addr_at ip (Z.of_nat j) = a).
  { unfold addr_at. rewrite Nat2Z.id, nth_lookup, Hj. done. }
  destruct (decide (a = 0)) as [->|Hnz]; [lia|].
  pose proof (fg_size _ _ _ _ Hg) as Hs. pose proof (bend_pos V Hg) as Hbp.
  destruct (decide (j = 12)%nat) as [->|Hne].
  - destruct (O4 ltac:(rewrite <- Ha in Hnz; exact Hnz)) as (_&Hr&_).
    change (addr_at ip NDIRECT) with (addr_at ip (Z.of_nat 12)) in Hr. rewrite Ha in Hr. lia.
  - assert (Hf : fblock V ip (Z.of_nat j) = a).
    { unfold fblock. rewrite (proj2 (Z.ltb_lt _ _)) by (unfold NDIRECT; lia). done. }
    destruct (O3 (Z.of_nat j)) as (_&Hr&_); [change MAXFILE with 140; lia|congruence|].
    rewrite Hf in Hr. lia.
Qed.

(** The file after a whole [writei]. *)
Record written V ip V' ip' (off n : Z) (src : list Z) : Prop := {
  wi_geom : fs_geom P V' dev sb;
  wi_ok : file_ok V' ip';
  wi_mapped : mapped V' ip';
  wi_same : ∃ addrs, ip' = upd_i_d (λ d, set_di_size (Z.max (i_size ip) (off + n)) (set_di_addrs addrs d)) ip;
  wi_byte : ∀ k, 0 ≤ k < i_size ip' → file_byte V' ip' k =
    if (off <=? k) && (k <? off + n) then nth (Z.to_nat (k - off)) src 0 else file_byte V ip k;
  wi_frame : ∀ c, good V c → c ≠ addr_at ip NDIRECT → (∀ q, 0 ≤ q < MAXFILE → c ≠ fblock V ip q) →
    V' dev c = V dev c ∧ good V' c;
  wi_disk : i_size ip < off + n → dinode_get (i_inum ip) (V' dev (IBLOCK (i_inum ip))) = i_d ip'
}.

(** What [writei] needs of the inode: it can be written back. *)
Record inode_fits ip : Prop := {
  if_inum : 0 ≤ i_inum ip < sb_ninodes sb;
  if_P : P dev (IBLOCK (i_inum ip));
  if_type : -32768 ≤ i_type ip < 32768;
  if_major : -32768 ≤ i_major ip < 32768;
  if_minor : -32768 ≤ i_minor ip < 32768;
  if_nlink : -32768 ≤ i_nlink ip < 32768
}.

Lemma IBLOCK_range inum : 0 ≤ inum < sb_ninodes sb → 1 < IBLOCK inum < sb_ninodes sb / IPB + 3.
Proof.
  unfold IBLOCK, IPB, BSIZE. change (512 / 64) with 8. intros. Z.div_mod_to_equations. lia.
Qed.

Lemma progress_written V ip V1 ip1 off n src : progress V ip V1 ip1 off n src →
  mapped V ip → 0 ≤ off → 0 ≤ n → off + n ≤ MAXFILE * BSIZE → off ≤ i_size ip →
  i_size ip1 = i_size ip ∧
  (off + n ≤ i_size ip → written V ip V1 ip1 off n src).
Proof.
  intros [R1 R2 [a R3] R4 R5 R6 R7] [Ms Mb] Hoff Hn Hend Hos. split; [by subst|]. intros Hle.
  assert (Hmax : Z.max (i_size ip) (off + n) = i_size ip) by lia. rewrite Hmax in *.
  split; try done.
  - split; subst; simpl; [done|]. intros k Hk. by apply R4.
  - exists a. subst ip1. rewrite Hmax. by destruct ip as [? ? ? ? []].
  - intros k Hk. apply R5. by subst.
  - intros c H1 H2 H3. by destruct (R6 c H1 H2 H3) as (?&?&_).
  - intros; lia.
Qed.

(** The size is raised and the inode written back. *)
Lemma progress_extended V ip V1 ip1 off n src : progress V ip V1 ip1 off n src →
  mapped V ip → inode_fits ip → 0 ≤ off → 0 ≤ n → off + n ≤ MAXFILE * BSIZE →
  i_size ip < off + n → (∀ sec, P dev sec → length (V1 dev sec) = 512%nat) →
  let ip2 := upd_i_d (set_di_size (off + n)) ip1 in
  dinode_ok (i_d ip2) ∧ IBLOCK (i_inum ip2) = IBLOCK (i_inum ip) ∧
  written V ip (vupd V1 dev (IBLOCK (i_inum ip)) (dinode_put (i_inum ip) (i_d ip2)
    (V1 dev (IBLOCK (i_inum ip))))) ip2 off n src.
Proof.
  intros [R1 R2 [a R3] R4 R5 R6 R7] [Ms Mb] [F1 F2 F3 F4 F5 F6] Hoff Hn Hend Hlt Hlen ip2.
  assert (Hend' : off + n ≤ 71680) by exact Hend.
  assert (Ho2 : file_ok V1 ip2) by by apply file_ok_size.
  assert (Hdk : dinode_ok (i_d ip2)).
  { apply (file_dinode_ok V1 ip2 R1 Ho2); subst ip2 ip1; try done. unfold i_size; simpl. lia. }
  split; [done|]. split; [by subst ip2 ip1|].
  set (c := IBLOCK (i_inum ip)). set (d := dinode_put _ _ _). set (V2 := vupd V1 dev c d).
  assert (Hc := IBLOCK_range _ F1). fold c in Hc.
  destruct (inode_block_write V1 c d ip2 R1 Hc Ho2) as (W1&W2&W3&W4). fold V2 in W1, W2, W3, W4.
  assert (Hmax : Z.max (i_size ip) (off + n) = off + n) by lia. rewrite Hmax in *.
  assert (Hblk : ∀ k, 0 ≤ k < off + n → 0 ≤ k / BSIZE < MAXFILE)
    by (intros; apply block_range; lia).
  assert (Hf2 : ∀ q, fblock V1 ip2 q = fblock V1 ip1 q) by done.
  split; try done.
  - split; [subst ip2; unfold i_size; simpl; change (MAXFILE * BSIZE) with 71680; lia|].
    intros k Hk. change (i_size ip2) with (off + n) in Hk. rewrite W3 by auto. rewrite Hf2. by apply R4.
  - exists a. rewrite Hmax. unfold ip2. subst ip1. done.
  - intros k Hk. change (i_size ip2) with (off + n) in Hk.
    rewrite <- R5 by done. unfold file_byte. rewrite W3 by auto. rewrite Hf2.
    rewrite (proj1 (W4 _ (fo_blk _ _ R2 _ (Hblk k Hk) (R4 k Hk)))). done.
  - intros x H1 H2 H3. destruct (R6 x H1 H2 H3) as (E&G&_). destruct (W4 x G). split; [congruence|done].
  - intros _. unfold V2. rewrite vupd_same. apply dinode_put_same; [done|]. by apply Hlen.
Qed.

(** When [writei] refuses. *)
Definition writei_bad ip (off n : Z) : bool :=
  (i_size ip <? off) || (4294967296 <=? off + n) || (MAXFILE * BSIZE <? off + n).

Lemma writei_wp V X Hd b l i ip src off n (Q : Z → fs B → Prop) :
  bl_inv P V X Hd b → l !! i = Some ip → fs_geom P V dev sb → file_ok V ip → mapped V ip →
  inode_fits ip → i_type ip ≠ T_DEV → 0 ≤ off < 4294967296 → 0 ≤ n < 4294967296 →
  length src = Z.to_nat n →
  (writei_bad ip off n = true → Q (-1) (Fs b l)) →
  (∀ b' V' ip', writei_bad ip off n = false → bl_inv P V' X Hd b' →
     written V ip V' ip' off n src → Q n (Fs b' (<[i := ip']> l))) →
  wp (writei i src off n) Q (Fs b l).
Proof.
  intros Hi Hip Hg Ho Hm Hfit Ht Hoff Hn Hsrc Hbad HQ. unfold writei. eapply inode_at_wp; [done|].
  rewrite (proj2 (Z.eqb_neq _ _)) by done. pose proof (mp_size _ _ Hm) as Hsz.
  assert (Hw : (u32 (off + n) <? off) = (4294967296 <=? off + n)).
  { unfold u32. destruct (Z.leb_spec 4294967296 (off + n)).
    - apply Z.ltb_lt. rewrite <- (Z_mod_plus_full _ (-1)), Z.mod_small; lia.
    - apply Z.ltb_ge. rewrite Z.mod_small; lia. }
  rewrite Hw. unfold writei_bad in *.
  destruct ((i_size ip <? off) || (4294967296 <=? off + n)) eqn:Hb0; [apply wp_ret; auto|].
  pose proof Hb0 as Hb0'. apply orb_false_iff in Hb0' as [Hb1 Hb2]. apply Z.ltb_ge in Hb1. apply Z.leb_gt in Hb2.
  rewrite (u32_small (off + n)) by lia.
  destruct (MAXFILE * BSIZE <? off + n) eqn:Hb3; [apply wp_ret; auto|]. pose proof Hb3 as Hb3'.
  apply Z.ltb_ge in Hb3'. simpl in HQ.
  assert (Hend : off + n ≤ 71680) by exact Hb3'.
  apply wp_bind. eapply wp_mono.
  { eapply (wp_loop _ (λ st s, ∃ V1 ip1 tot, st = (tot, off + tot) ∧ 0 ≤ tot ≤ n ∧
        progress V ip V1 ip1 off tot src ∧ bl_inv P V1 X Hd (fs_bl s) ∧ fs_inode s = <[i := ip1]> l)
      (λ off' s, off' = off + n ∧ ∃ V1 ip1, progress V ip V1 ip1 off n src ∧
        bl_inv P V1 X Hd (fs_bl s) ∧ fs_inode s = <[i := ip1]> l)
      (λ st, Z.to_nat (n - st.1))).
    - intros st [b1 l1] (V1&ip1&tot&->&Htot&Hpr&H1&Hl). simpl in H1, Hl. subst l1.
      destruct (decide (tot < n)) as [Hlt|Hge].
      + eapply writei_step_wp; [exact Hpr|exact H1|by eapply insert_at|apply Hsz|lia|done|lia|done|].
        intros b2 V2 ip2 m Hp2 H2 Hm2. simpl. split; [|lia]. exists V2, ip2, (tot + m).
        rewrite list_insert_insert_eq. split_and!; try done; try lia. f_equal. lia.
      + unfold writei_step. rewrite (proj2 (Z.ltb_ge _ _)) by lia. apply wp_ret.
        replace n with tot by lia. split; [done|]. by exists V1, ip1.
    - exists V, ip, 0. rewrite Z.add_0_r. split_and!; try done; try lia; [by apply progress_start|].
      simpl. by rewrite list_insert_id.
    - simpl. lia. }
  intros off' [b1 l1] (->&V1&ip1&Hpr&H1&Hl). simpl in H1, Hl. subst l1.
  assert (Hlen1 : ∀ sec, P dev sec → length (V1 dev sec) = 512%nat) by (intros; by eapply bl_len).
  eapply inode_at_wp; [by eapply insert_at|].
  destruct (progress_written _ _ _ _ _ _ _ Hpr Hm ltac:(lia) ltac:(lia) Hb3' Hb1) as [Hs1 Hwr].
  rewrite Hs1, i32_small by lia. apply wp_bind, wp_when.
  - intros Hx. apply andb_true_iff in Hx as [Hx1 Hx2]. apply Z.ltb_lt in Hx1, Hx2.
    destruct (progress_extended _ _ _ _ _ _ _ Hpr Hm Hfit ltac:(lia) ltac:(lia) Hb3' Hx2 Hlen1) as
      (Hdk&Hib&Hwx). eapply upd_inode_wp; [by eapply insert_at|]. rewrite list_insert_insert_eq.
    set (ip2 := upd_i_d _ ip1) in *.
    assert (Hd2 : i_dev ip2 = dev) by apply (fo_dev _ _ (wi_ok _ _ _ _ _ _ _ Hwx)).
    assert (Hi2 : i_inum ip2 = i_inum ip) by (destruct (wi_same _ _ _ _ _ _ _ Hwx) as [a' ->]; done).
    eapply iupdate_wp; [exact H1|by eapply insert_at|exact Hdk|rewrite Hd2, Hib; apply Hfit|].
    rewrite Hd2, Hi2. intros b2 H2. apply wp_ret. by eapply HQ.
  - intros Hx. apply wp_ret. eapply HQ; [done|exact H1|]. apply Hwr.
    destruct (Z.ltb_spec 0 n), (Z.ltb_spec (i_size ip) (off + n)); simpl in Hx; try done; lia.
Qed.

(** C4: [writei] writes all of [src] at [off]: afterwards the file has the
    bytes of [src] there and its old bytes elsewhere, its size is raised to
    the end of the write if needed and then also stored on disk, new blocks
    come from the free ones, and no block of another file changes.  A write
    behind the end, past the largest file or with a range that wraps around
    returns -1 and changes nothing. *)
Theorem writei_correct V X Hd b l i ip src off n :
  bl_inv P V X Hd b → l !! i = Some ip → fs_geom P V dev sb → file_ok V ip → mapped V ip →
  inode_fits ip → i_type ip ≠ T_DEV → 0 ≤ off < 4294967296 → 0 ≤ n < 4294967296 →
  length src = Z.to_nat n →
  wp (writei i src off n) (λ r s',
    if writei_bad ip off n then r = -1 ∧ s' = Fs b l
    else r = n ∧ ∃ V' ip', fs_inode s' = <[i := ip']> l ∧ bl_inv P V' X Hd (fs_bl s') ∧
      written V ip V' ip' off n src) (Fs b l).
Proof.
  intros. eapply writei_wp; [done..| |].
  - by intros ->.
  - intros b' V' ip' -> Hi' Hw. split; [done|]. by exists V', ip'.
Qed.

(** Reading back what was written.  After [writei] has accepted a write,
    [readi] of the same range returns exactly the bytes written. *)
Theorem writei_readi V X Hd b l i ip src off n :
  bl_inv P V X Hd b → l !! i = Some ip → fs_geom P V dev sb → file_ok V ip → mapped V ip →
  inode_fits ip → i_type ip ≠ T_DEV → 0 ≤ off < 4294967296 → 0 ≤ n < 4294967296 →
  length src = Z.to_nat n → writei_bad ip off n = false →
  wp (writei i src off n;; readi i off n) (λ r _, r = (n, src)) (Fs b l).
Proof.
  intros Hi Hip Hg Ho Hm Hfit Ht Hoff Hn Hsrc Hok. apply wp_bind.
  eapply writei_wp; [done..|congruence|]. intros b' V' ip' _ Hi' [W1 W2 W3 [a W4] W5 W6 W7].
  assert (Hs' : i_size ip' = Z.max (i_size ip) (off + n)) by by rewrite W4.
  unfold writei_bad in Hok. apply orb_false_iff in Hok as [[Hb1 Hb2]%orb_false_iff Hb3].
  apply Z.ltb_ge in Hb1, Hb3. apply Z.leb_gt in Hb2.
  eapply wp_mono; [eapply readi_wp; [exact Hi'|by eapply insert_at|exact W1|exact W2|exact W3| |done|done]|].
  { by rewrite W4. }
  intros r s' (_&_&->). rewrite Hs'. rewrite (proj2 (Z.ltb_ge _ _)), (proj2 (Z.leb_gt _ _)) by lia.
  cbn [orb]. replace (Z.min n _) with n by lia. f_equal.
  apply list_eq. intros j. destruct (decide (j < Z.to_nat n)%nat) as [Hj|Hj].
  - unfold file_bytes. rewrite list_lookup_fmap, lookup_seq_lt by done.
    cbn [fmap option_fmap option_map]. rewrite W5 by lia.
    destruct (Z.leb_spec off (off + Z.of_nat (0 + j))), (Z.ltb_spec (off + Z.of_nat (0 + j)) (off + n)); try lia.
    cbn [andb]. rewrite nth_lookup. destruct (lookup_lt_is_Some_2 src j) as [x Hx]; [lia|].
    replace (Z.to_nat (off + Z.of_nat (0 + j) - off)) with j by lia. by rewrite Hx.
  - rewrite !lookup_ge_None_2; [done|lia|rewrite length_file_bytes; lia].
Qed.
End FileData.

(** ** The root directory of the example image *)

#[export] Instance ex_devsw : Devsw (log Memide.memide) :=
  {| devsw_read := λ _, None; devsw_write := λ _, None |}.

Definition ex_root_ip : inode := Inode 1 1 1 3 (Dinode 1 0 0 1 48 (5 :: replicate 12 0)).

Lemma ex_root_fblock n : 0 ≤ n → fblock 1 ex_V ex_root_ip n = if n =? 0 then 5 else 0.
Proof.
  intros Hn. unfold fblock. change (addr_at ex_root_ip NDIRECT) with 0. cbn [Z.eqb].
  destruct (Z.ltb_spec n NDIRECT) as [Hlt|Hge]; [|rewrite (proj2 (Z.eqb_neq _ _)); [done|unfold NDIRECT in *; lia]].
  unfold NDIRECT in Hlt. revert n Hn Hlt.
  assert (Hall : ∀ i, In i (seq 0 12) → addr_at ex_root_ip (Z.of_nat i) = if Z.of_nat i =? 0 then 5 else 0).
  { intros i Hi. repeat (destruct Hi as [<-|Hi]; [reflexivity|]). done. }
  intros n Hn Hlt. rewrite <- (Z2Nat.id n) by lia. apply Hall, in_seq. lia.
Qed.

Lemma ex_root_good : good ex_P 1 ex_sb12 ex_V 5.
Proof. split; [by split|]. split; [split; reflexivity|]. vm_compute. reflexivity. Qed.

Lemma ex_root_ok : file_ok ex_P 1 ex_sb12 ex_V ex_root_ip.
Proof.
  split; try done.
  - intros n Hn. rewrite ex_root_fblock by lia. case_match; [intros _; exact ex_root_good|done].
  - intros n m Hn Hm. rewrite !ex_root_fblock by lia.
    destruct (Z.eqb_spec n 0), (Z.eqb_spec m 0); try done. congruence.
Qed.

Lemma ex_root_mapped : mapped 1 ex_V ex_root_ip.
Proof.
  split; [split; discriminate|]. intros k Hk. change (i_size ex_root_ip) with 48 in Hk.
  rewrite Z.div_small by (unfold BSIZE; lia). by rewrite ex_root_fblock.
Qed.

Lemma ex_root_fits : inode_fits ex_P 1 ex_sb12 ex_root_ip.
Proof. split; [| |..]; by repeat split. Qed.

Lemma readi_correct_witness :
  ∃ s', readi 0 32 16 (Fs ex_fs_log [ex_root_ip]) = Ok (16, ex_dirent 2 [97]) s' ∧
    file_bytes 1 ex_V ex_root_ip 32 16 = ex_dirent 2 [97].
Proof.
  assert (Hw := readi_correct ex_P 1 ex_sb12 ex_V ∅ ∅ ex_fs_log [ex_root_ip] 0 ex_root_ip 32 16
    ex_fs_inv eq_refl ex_geom ex_root_ok ex_root_mapped ltac:(done) ltac:(lia) ltac:(lia)).
  assert (Hb : file_bytes 1 ex_V ex_root_ip 32 16 = ex_dirent 2 [97]) by (vm_compute; reflexivity).
  destruct (readi 0 32 16 (Fs ex_fs_log [ex_root_ip])) as [r s'| | | | |] eqn:E;
    [|vm_compute in E; discriminate E..].
  destruct (wp_ok _ _ _ _ _ Hw E) as (_&_&->). exists s'. split; [|exact Hb].
  change (Ok (16, file_bytes 1 ex_V ex_root_ip 32 16) s' = Ok (16, ex_dirent 2 [97]) s').
  by rewrite Hb.
Defined.

Lemma writei_correct_witness :
  ∃ s' ip', writei 0 [7; 8; 9] 48 3 (Fs ex_fs_log [ex_root_ip]) = Ok 3 s' ∧
    fs_inode s' = [ip'] ∧ i_size ip' = 51.
Proof.
  assert (Hw := writei_correct ex_P 1 ex_sb12 ex_V ∅ ∅ ex_fs_log [ex_root_ip] 0 ex_root_ip [7; 8; 9] 48 3
    ex_fs_inv eq_refl ex_geom ex_root_ok ex_root_mapped ex_root_fits ltac:(done) ltac:(lia) ltac:(lia) eq_refl).
  destruct (writei 0 [7; 8; 9] 48 3 (Fs ex_fs_log [ex_root_ip])) as [r s'| | | | |] eqn:E;
    [|vm_compute in E; discriminate E..].
  destruct (wp_ok _ _ _ _ _ Hw E) as (->&V'&ip'&Hl&_&Hwr). exists s', ip'.
  split; [reflexivity|]. split; [exact Hl|]. destruct (wi_same _ _ _ _ _ _ _ _ _ _ Hwr) as [a ->]. done.
Defined.

Lemma writei_readi_witness :
  ∃ s', (writei 0 [7; 8; 9] 48 3;; readi 0 48 3) (Fs ex_fs_log [ex_root_ip]) = Ok (3, [7; 8; 9]) s'.
Proof.
  assert (Hw := writei_readi ex_P 1 ex_sb12 ex_V ∅ ∅ ex_fs_log [ex_root_ip] 0 ex_root_ip [7; 8; 9] 48 3
    ex_fs_inv eq_refl ex_geom ex_root_ok ex_root_mapped ex_root_fits ltac:(done) ltac:(lia) ltac:(lia)
    eq_refl eq_refl).
  destruct ((writei 0 [7; 8; 9] 48 3;; readi 0 48 3) (Fs ex_fs_log [ex_root_ip])) as [r s'| | | | |] eqn:E;
    [|vm_compute in E; discriminate E..].
  rewrite (wp_ok _ _ _ _ _ Hw E). by exists s'.
Defined.
