(* ===== verification/Itrunc.v ===== *)
(** The life of inodes on the disk (fs.c): [ialloc], [itrunc], and [iput] of
    the last reference to a file without links. *)
From S2P Require Import Prelude Kmonad Wp Kstate Spinlock Sleep Disk Cache Bio BioRun Log Blocks Panics FsEx Balloc Inode Dinode Icache FileData.

Section Itrunc.
Context {B : Type} {BB : Blocks B} {BL : BlockLaws B} {DV : Devsw B}.
Variables (P : Z → Z → Prop) (dev : Z) (sb : superblock).
Implicit Types (V : Z → Z → list Z) (X : gset nat) (Hd : gmap nat (Z * Z)).
Implicit Types (b : B) (l : list inode) (s : fs B) (ip : inode).
Notation good := (good P dev sb).
Notation bend := (bend sb).

(** ** Freeing several blocks *)

(** [V'] is [V] with the blocks of [fl] marked free, and the rest of the bitmap
    and all other blocks as before. *)
Record frees V (fl : list Z) V' : Prop := {
  fr_geom : fs_geom P V' dev sb;
  fr_use : ∀ c, 0 ≤ c < sb_size sb → in_use V' dev sb c = in_use V dev sb c && negb (bool_decide (c ∈ fl));
  fr_other : ∀ c, (∀ a, 0 ≤ a < sb_size sb → c ≠ BBLOCK a (sb_ninodes sb)) → V' dev c = V dev c
}.

Lemma frees_nil V : fs_geom P V dev sb → frees V [] V.
Proof.
  intros Hg. split; [done| |done]. intros c Hc. rewrite bool_decide_false by apply not_elem_of_nil. by rewrite andb_true_r.
Qed.

(** Data blocks and inode blocks are no blocks of the bitmap. *)
Lemma data_no_map c a : bend < c → 0 ≤ a < sb_size sb → c ≠ BBLOCK a (sb_ninodes sb).
Proof. intros Hc Ha. by apply good_map_ne. Qed.
Lemma meta_no_map c a : c < sb_ninodes sb / IPB + 3 → 0 ≤ a < sb_size sb → c ≠ BBLOCK a (sb_ninodes sb).
Proof. intros Hc Ha. unfold BBLOCK, BPB, BSIZE. change (512 * 8) with 4096. Z.div_mod_to_equations. lia. Qed.
Lemma frees_data V fl V' c : frees V fl V' → bend < c → V' dev c = V dev c.
Proof. intros Hf Hc. apply (fr_other _ _ _ Hf). intros a Ha. by apply data_no_map. Qed.
Lemma frees_meta V fl V' c : frees V fl V' → c < sb_ninodes sb / IPB + 3 → V' dev c = V dev c.
Proof. intros Hf Hc. apply (fr_other _ _ _ Hf). intros a Ha. by apply meta_no_map. Qed.

Lemma frees_step V fl V' a : frees V fl V' → (∀ sec, P dev sec → length (V' dev sec) = 512%nat) →
  good V a → a ∉ fl → frees V (a :: fl) (freed V' dev sb a) ∧ in_use V' dev sb a = true.
Proof.
  intros [F1 F2 F3] Hlen (Ga&Gr&Gu) Hn. pose proof (bend_pos _ _ _ _ F1) as Hbp. assert (Ha : 0 ≤ a < sb_size sb) by lia.
  assert (Hua : in_use V' dev sb a = true) by (rewrite F2, Gu, bool_decide_false by done; done).
  split; [|done]. assert (Huse : ∀ c, 0 ≤ c < sb_size sb → in_use (freed V' dev sb a) dev sb c = in_use V' dev sb c && negb (c =? a)).
  { intros c Hc. by apply (freed_use P). }
  pose proof F1 as [G1 G2 G3 G4 G5 G6]. split.
  - split; try done.
    + rewrite freed_other; [done|]. pose proof (BBLOCK_range a (sb_ninodes sb)). lia.
    + intros c Hc Hcu. rewrite Huse in Hcu by done. destruct (Z.eqb_spec c a) as [->|].
      * split; [done|]. unfold FileData.bend in Gr. lia.
      * rewrite andb_true_r in Hcu. by apply G6.
  - intros c Hc. rewrite Huse, F2 by done. rewrite <- andb_assoc. f_equal.
    destruct (Z.eqb_spec c a) as [->|Hne]; [rewrite (bool_decide_true (a ∈ a :: fl)) by left; by rewrite andb_false_r|].
    rewrite andb_true_r. f_equal. apply bool_decide_ext. rewrite elem_of_cons. naive_solver.
  - intros c Hc. rewrite freed_other by by apply Hc. by apply F3.
Qed.

Lemma bfree_frees V fl V' X Hd b a (Q : unit → B → Prop) : frees V fl V' → bl_inv P V' X Hd b → good V a → a ∉ fl →
  (∀ b', frees V (a :: fl) (freed V' dev sb a) → bl_inv P (freed V' dev sb a) X Hd b' → Q tt b') → wp (bfree dev a) Q b.
Proof.
  intros Hf Hi Ha Hn HQ. assert (Hlen : ∀ sec, P dev sec → length (V' dev sec) = 512%nat) by (intros; by eapply bl_len).
  destruct (frees_step V fl V' a Hf Hlen Ha Hn) as [Hf' Hu]. pose proof (bend_pos _ _ _ _ (fr_geom _ _ _ Hf)).
  destruct Ha as (_&Hr&_). eapply wp_mono; [eapply bfree_wp; [exact Hi|apply Hf|lia|done]|]. intros [] b' Hb'. by apply HQ.
Qed.

(** ** [itrunc] *)

(** The inode with the first [j] addresses cleared. *)
Definition cleared ip (j : nat) : inode :=
  upd_i_d (λ d, set_di_addrs (replicate j 0 ++ drop j (di_addrs d)) d) ip.

Lemma cleared_addr ip j k : length (i_addrs ip) = 13%nat → (j ≤ k < 13)%nat → addr_at (cleared ip j) (Z.of_nat k) = addr_at ip (Z.of_nat k).
Proof.
  intros Hl Hk. unfold addr_at, i_addrs in *. cbn. rewrite !Nat2Z.id, app_nth2 by (rewrite length_replicate; lia). rewrite length_replicate.
  rewrite !nth_lookup, lookup_drop. do 2 f_equal. lia.
Qed.
Lemma cleared_next ip j : length (i_addrs ip) = 13%nat → (j < 13)%nat →
  set_addr (Z.of_nat j) 0 (cleared ip j) = cleared ip (S j).
Proof.
  intros Hl Hj. destruct ip as [dv n r f [t ma mi nl sz ad]]. unfold i_addrs in Hl. cbn in Hl.
  enough (E0 : <[j := 0]> (replicate j 0 ++ drop j ad) = replicate (S j) 0 ++ drop (S j) ad).
  { unfold set_addr, cleared, upd_i_d, set_di_addrs. cbn -[replicate drop]. by rewrite Nat2Z.id, E0. }
  rewrite insert_app_r_alt by (rewrite length_replicate; lia). rewrite length_replicate, Nat.sub_diag.
  destruct (drop j ad) as [|x r'] eqn:E; [apply (f_equal length) in E; rewrite length_drop in E; cbn in E; lia|].
  replace (S j) with (j + 1)%nat by lia. rewrite replicate_add, <- app_assoc, <- drop_drop, E. done.
Qed.
Lemma cleared_skip ip j : length (i_addrs ip) = 13%nat → (j < 13)%nat → addr_at ip (Z.of_nat j) = 0 → cleared ip j = cleared ip (S j).
Proof.
  intros Hl Hj Hz. rewrite <- (cleared_next ip j) by done. destruct ip as [dv n r f [t ma mi nl sz ad]]. unfold i_addrs, addr_at, i_addrs in *. cbn in *.
  enough (E0 : <[j := 0]> (replicate j 0 ++ drop j ad) = replicate j 0 ++ drop j ad).
  { unfold set_addr, cleared, upd_i_d, set_di_addrs. cbn -[replicate drop]. by rewrite Nat2Z.id, E0. }
  rewrite Nat2Z.id in Hz. apply list_insert_id.
  rewrite lookup_app_r by (rewrite length_replicate; lia). rewrite length_replicate, lookup_drop.
  replace (j + (j - j))%nat with j by lia. rewrite nth_lookup in Hz. destruct (ad !! j) eqn:E; [cbn in Hz; by subst|].
  apply lookup_ge_None in E. lia.
Qed.

(** [fl] are the first [j] blocks of the file. *)
Definition covers V ip (j : Z) (fl : list Z) : Prop :=
  ∀ c, c ∈ fl ↔ c ≠ 0 ∧ ∃ n, 0 ≤ n < j ∧ c = fblock dev V ip n.

Lemma covers_nil V ip : covers V ip 0 [].
Proof. intros c. rewrite elem_of_nil. split; [done|]. intros (_&n&Hn&_). lia. Qed.
Lemma covers_skip V ip j fl : 0 ≤ j → covers V ip j fl → fblock dev V ip j = 0 → covers V ip (j + 1) fl.
Proof.
  intros Hj Hc Hz c. rewrite (Hc c). split; intros (H0&n&Hn&->); (split; [done|]); exists n; (split; [|done]); [lia|].
  destruct (decide (n = j)) as [->|]; [done|lia].
Qed.
Lemma covers_step V ip j fl : 0 ≤ j < MAXFILE → file_ok P dev sb V ip → covers V ip j fl → fblock dev V ip j ≠ 0 →
  covers V ip (j + 1) (fblock dev V ip j :: fl) ∧ fblock dev V ip j ∉ fl.
Proof.
  intros Hj Ho Hc Hz. split.
  - intros c. rewrite elem_of_cons, (Hc c). split.
    + intros [->|(H0&n&Hn&->)]; (split; [done|]); [exists j|exists n]; (split; [lia|done]).
    + intros (H0&n&Hn&->). destruct (decide (n = j)) as [->|]; [by left|right]. split; [done|]. exists n. split; [lia|done].
  - intros (_&n&Hn&E)%(Hc _). assert (j = n) by (apply (fo_inj _ _ _ _ _ Ho); [lia|lia|done|done]). lia.
Qed.

(** [V'] and [fl] after the first [j] blocks are freed. *)
Definition freeing V ip (j : Z) V' (fl : list Z) : Prop := frees V fl V' ∧ covers V ip j fl.

Lemma free_block V ip j V' fl X Hd b (Q : unit → B → Prop) : 0 ≤ j < MAXFILE → file_ok P dev sb V ip →
  freeing V ip j V' fl → bl_inv P V' X Hd b →
  (∀ V2 fl2 b', freeing V ip (j + 1) V2 fl2 → bl_inv P V2 X Hd b' → Q tt b') →
  wp (when (nz (fblock dev V ip j)) (bfree dev (fblock dev V ip j))) Q b.
Proof.
  intros Hj Ho [Hf Hc] Hi HQ. unfold nz. destruct (Z.eqb_spec (fblock dev V ip j) 0) as [Hz|Hz]; cbn [negb when].
  - apply wp_ret. eapply HQ; [split; [exact Hf|]|exact Hi]. apply covers_skip; [lia|done..].
  - destruct (covers_step _ _ _ _ Hj Ho Hc Hz) as [Hc' Hn].
    eapply bfree_frees; [exact Hf|exact Hi|by apply (fo_blk _ _ _ _ _ Ho)|done|]. intros b' Hf' Hi'. by eapply HQ.
Qed.

Lemma trunc_direct_wp V ip j V' fl X Hd b l i (Q : unit → fs B → Prop) : (j < 12)%nat → file_ok P dev sb V ip → (i < length l)%nat →
  freeing V ip (Z.of_nat j) V' fl → bl_inv P V' X Hd b →
  (∀ V2 fl2 b', freeing V ip (Z.of_nat (S j)) V2 fl2 → bl_inv P V2 X Hd b' → Q tt (Fs b' (<[i := cleared ip (S j)]> l))) →
  wp (trunc_direct i j) Q (Fs b (<[i := cleared ip j]> l)).
Proof.
  intros Hj Ho Hi Hfr Hb HQ. pose proof (fo_addrs _ _ _ _ _ Ho) as Hl. pose proof (fo_dev _ _ _ _ _ Ho) as Hdv.
  unfold trunc_direct. eapply inode_at_wp; [by apply list_lookup_insert_eq|].
  rewrite (cleared_addr ip j j) by lia. change (i_dev (cleared ip j)) with (i_dev ip). rewrite Hdv.
  assert (Ef : fblock dev V ip (Z.of_nat j) = addr_at ip (Z.of_nat j)).
  { unfold fblock. rewrite (proj2 (Z.ltb_lt _ _)); [done|unfold NDIRECT; lia]. }
  replace (Z.of_nat (S j)) with (Z.of_nat j + 1) in HQ by lia. assert (Hm : 0 ≤ Z.of_nat j < MAXFILE) by (change MAXFILE with 140; lia).
  pose proof (free_block V ip (Z.of_nat j) V' fl X Hd b) as Hw. rewrite Ef in Hw. unfold nz in *.
  destruct (Z.eqb_spec (addr_at ip (Z.of_nat j)) 0) as [Hz|Hz]; cbn [negb when] in *.
  - apply wp_ret. rewrite (cleared_skip ip j Hl ltac:(lia) Hz). eapply HQ; [|exact Hb]. destruct Hfr as [Hf Hc].
    split; [exact Hf|]. apply covers_skip; [lia|done|by rewrite Ef].
  - apply wp_bind, wp_bl. apply Hw; [done..|]. intros V2 fl2 b' Hf2 Hb2. apply wp_modify. cbn [fs_bl fs_inode].
    rewrite (alter_insert _ i _ (cleared ip j)) by (by apply list_lookup_insert_eq). rewrite list_insert_insert_eq, cleared_next by lia.
    by eapply HQ.
Qed.

(** The blocks of the indirect block, which is held in buffer [bp]. *)
Lemma trunc_indirect_wp V ip V' fl X Hd b l (Q : unit → fs B → Prop) : file_ok P dev sb V ip → addr_at ip NDIRECT ≠ 0 →
  freeing V ip NDIRECT V' fl → bl_inv P V' X Hd b →
  (∀ V2 fl2 b', freeing V ip MAXFILE V2 fl2 → bl_inv P V2 X Hd b' → Q tt (Fs b' l)) →
  wp (for_each (seq 0 (Z.to_nat NINDIRECT)) (λ j,
    let a := get_u32 (4 * j) (V dev (addr_at ip NDIRECT)) in when (nz a) (bl (bfree dev a)))) Q (Fs b l).
Proof.
  intros Ho Hz Hfr Hb HQ. eapply wp_mono.
  - apply (wp_for_each _ _ (λ j s, fs_inode s = l ∧ ∃ V2 fl2, freeing V ip (NDIRECT + Z.of_nat j) V2 fl2 ∧ bl_inv P V2 X Hd (fs_bl s))).
    + split; [done|]. exists V', fl. by rewrite Z.add_0_r.
    + intros j x [b1 l1] Hx [Hl1 (V2&fl2&Hf2&Hb2)]. cbn [fs_inode fs_bl] in *. subst l1. apply lookup_seq in Hx as [-> Hj].
      cbn zeta. assert (Ef : fblock dev V ip (NDIRECT + Z.of_nat j) = get_u32 (4 * (0 + j)) (V dev (addr_at ip NDIRECT))).
      { unfold fblock. rewrite (proj2 (Z.ltb_ge _ _)), (proj2 (Z.eqb_neq _ _)) by (unfold NDIRECT in *; lia || done).
        do 2 f_equal. unfold NDIRECT. lia. }
      rewrite <- Ef. assert (Hm : 0 ≤ NDIRECT + Z.of_nat j < MAXFILE).
      { change (Z.to_nat NINDIRECT) with 128%nat in Hj. change MAXFILE with 140. unfold NDIRECT. lia. }
      pose proof (free_block V ip (NDIRECT + Z.of_nat j) V2 fl2 X Hd b1 (λ _ b', ∃ V2 fl2,
        freeing V ip (NDIRECT + Z.of_nat (S j)) V2 fl2 ∧ bl_inv P V2 X Hd b') Hm Ho Hf2 Hb2) as Hw.
      assert (HQ' : ∀ V3 fl3 b', freeing V ip (NDIRECT + Z.of_nat j + 1) V3 fl3 → bl_inv P V3 X Hd b' →
        ∃ V2 fl2, freeing V ip (NDIRECT + Z.of_nat (S j)) V2 fl2 ∧ bl_inv P V2 X Hd b').
      { intros V3 fl3 b' H3 Hb3. exists V3, fl3. by replace (NDIRECT + Z.of_nat (S j)) with (NDIRECT + Z.of_nat j + 1) by lia. }
      specialize (Hw HQ'). unfold nz in *. destruct (fblock dev V ip (NDIRECT + Z.of_nat j) =? 0); cbn [negb when] in *.
      * apply wp_ret. split; [done|]. exact Hw.
      * apply wp_bl. eapply wp_mono; [exact Hw|]. intros [] b' Hb'. by split.
  - rewrite length_seq. intros [] [b1 l1] [Hl1 (V2&fl2&Hf2&Hb2)]. cbn [fs_inode fs_bl] in *. subst l1. by eapply HQ.
Qed.

(** ** The file after [itrunc] *)

(** The blocks of a file. *)
Definition owns V ip (c : Z) : Prop := c ≠ 0 ∧ (c = addr_at ip NDIRECT ∨ ∃ n, 0 ≤ n < MAXFILE ∧ c = fblock dev V ip n).

Definition emptied (d : dinode) : dinode := Dinode (di_type d) (di_major d) (di_minor d) (di_nlink d) 0 (replicate 13 0).

(** [V'] is [V] without the file [ip], of which the inode [d] is left. *)
Record truncated V ip (d : dinode) V' : Prop := {
  tc_geom : fs_geom P V' dev sb;
  tc_use : ∀ c, 0 ≤ c < sb_size sb → in_use V' dev sb c = true ↔ in_use V dev sb c = true ∧ ¬ owns V ip c;
  tc_data : ∀ c, bend < c → V' dev c = V dev c;
  tc_inode : dinode_get (i_inum ip) (V' dev (IBLOCK (i_inum ip))) = d;
  tc_others : ∀ n, 0 ≤ n < sb_ninodes sb → n ≠ i_inum ip →
    dinode_get n (V' dev (IBLOCK n)) = dinode_get n (V dev (IBLOCK n))
}.

(** Writing the inode back. *)
Lemma inode_same_slot n m : 0 ≤ n → 0 ≤ m → IBLOCK n = IBLOCK m → n mod IPB = m mod IPB → n = m.
Proof. unfold IBLOCK, IPB, BSIZE. change (512 / 64) with 8. intros. Z.div_mod_to_equations. lia. Qed.

Lemma write_inode V1 n d : fs_geom P V1 dev sb → (∀ sec, P dev sec → length (V1 dev sec) = 512%nat) → 0 ≤ n < sb_ninodes sb →
  P dev (IBLOCK n) → dinode_ok d →
  let V2 := vupd V1 dev (IBLOCK n) (dinode_put n d (V1 dev (IBLOCK n))) in
  fs_geom P V2 dev sb ∧ (∀ c, 0 ≤ c < sb_size sb → in_use V2 dev sb c = in_use V1 dev sb c) ∧
  (∀ c, bend < c → V2 dev c = V1 dev c) ∧ dinode_get n (V2 dev (IBLOCK n)) = d ∧
  ∀ m, 0 ≤ m < sb_ninodes sb → m ≠ n → dinode_get m (V2 dev (IBLOCK m)) = dinode_get m (V1 dev (IBLOCK m)).
Proof.
  intros Hg Hlen Hn HP Hd V2. assert (Hib : 1 < IBLOCK n < sb_ninodes sb / IPB + 3) by by eapply IBLOCK_range.
  assert (Huse : ∀ c, 0 ≤ c < sb_size sb → in_use V2 dev sb c = in_use V1 dev sb c).
  { intros c Hc. unfold in_use, V2. rewrite vupd_ne; [done|]. intros [= E]. apply (meta_no_map (IBLOCK n) c); [lia|done|congruence]. }
  split_and!; [|done|..].
  - pose proof Hg as [G1 G2 G3 G4 G5 G6]. split; try done.
    + unfold V2. rewrite vupd_ne; [done|]. intros [= E]. lia.
    + intros c Hc. rewrite Huse by done. by apply G6.
  - intros c Hc. unfold V2. rewrite vupd_ne; [done|]. intros [= E].
    pose proof (fg_size _ _ _ _ Hg). assert (IBLOCK n < bend); [|lia].
    unfold FileData.bend, BBLOCK, BPB, BSIZE in *. change (512 * 8) with 4096. Z.div_mod_to_equations. lia.
  - unfold V2. rewrite vupd_same. apply dinode_put_same; [done|by apply Hlen].
  - intros m Hm Hne. unfold V2. destruct (decide (IBLOCK m = IBLOCK n)) as [E|E]; [|rewrite vupd_ne; [done|congruence]].
    rewrite E, vupd_same. apply dinode_put_other; [done|by apply Hlen|]. intros Hs. apply Hne. apply inode_same_slot; lia || done.
Qed.

(** All blocks of the file are free. *)
Definition all_freed V ip V' : Prop := ∃ fl, frees V fl V' ∧ ∀ c, c ∈ fl ↔ owns V ip c.

Lemma cleared_0 ip : cleared ip 0 = ip.
Proof. by destruct ip as [? ? ? ? []]. Qed.
Lemma cleared_all ip : length (i_addrs ip) = 13%nat → upd_i_d (set_di_size 0) (cleared ip 13) = set_i_d (emptied (i_d ip)) ip.
Proof.
  destruct ip as [dv n r f [t ma mi nl sz ad]]. unfold i_addrs. cbn [i_d di_addrs]. intros Hl.
  unfold upd_i_d, cleared, set_di_size, set_i_d, emptied. cbn -[replicate drop]. rewrite drop_ge by lia. by rewrite app_nil_r.
Qed.

Lemma no_indirect V ip V' fl : addr_at ip NDIRECT = 0 → freeing V ip NDIRECT V' fl → all_freed V ip V'.
Proof.
  intros Hz [Hf Hc]. exists fl. split; [done|]. intros c. rewrite (Hc c). split.
  - intros (H0&n&Hn&->). split; [done|]. right. exists n. split; [|done]. change MAXFILE with 140. unfold NDIRECT in Hn. lia.
  - intros (H0&[->|(n&Hn&->)]); [by rewrite Hz in H0|]. split; [done|]. exists n. split; [|done].
    split; [lia|]. apply Z.nle_gt. intros Hge. apply H0. unfold fblock. rewrite (proj2 (Z.ltb_ge _ _)) by lia. by rewrite Hz.
Qed.
Lemma with_indirect V ip V' fl : file_ok P dev sb V ip → addr_at ip NDIRECT ≠ 0 → freeing V ip MAXFILE V' fl →
  addr_at ip NDIRECT ∉ fl ∧ ∀ V2, frees V (addr_at ip NDIRECT :: fl) V2 → all_freed V ip V2.
Proof.
  intros Ho Hz [Hf Hc]. split.
  - intros (_&n&Hn&E)%(Hc _). apply (fo_sep _ _ _ _ _ Ho n Hn); congruence.
  - intros V2 H2. exists (addr_at ip NDIRECT :: fl). split; [done|]. intros c. rewrite elem_of_cons, (Hc c). unfold owns. naive_solver.
Qed.

Lemma trunc_blocks V X Hd b l i ip (k : M (fs B) unit) (Q : unit → fs B → Prop) : bl_inv P V X Hd b → l !! i = Some ip →
  fs_geom P V dev sb → file_ok P dev sb V ip →
  (∀ V' b', all_freed V ip V' → bl_inv P V' X Hd b' → wp k Q (Fs b' (<[i := cleared ip 13]> l))) →
  wp (for_each (seq 0 (Z.to_nat NDIRECT)) (trunc_direct i);;
      ip ← inode_at i;
      when (nz (addr_at ip NDIRECT))
        (bp ← bl (bl_bread (i_dev ip) (addr_at ip NDIRECT));
         d ← bl (bl_data bp);
         for_each (seq 0 (Z.to_nat NINDIRECT)) (λ j,
           let a := get_u32 (4 * j) d in
           when (nz a) (bl (bfree (i_dev ip) a)));;
         bl (bl_brelse bp);;
         bl (bfree (i_dev ip) (addr_at ip NDIRECT));;
         upd_inode i (set_addr NDIRECT 0));; k) Q (Fs b l).
Proof.
  intros Hi Hip Hg Ho HQ. pose proof (lookup_lt_Some _ _ _ Hip) as Hil. pose proof (fo_dev _ _ _ _ _ Ho) as Hdv.
  pose proof (fo_addrs _ _ _ _ _ Ho) as Hl. apply wp_bind. eapply wp_mono.
  { apply (wp_for_each _ _ (λ j s, (j ≤ 12)%nat ∧ fs_inode s = <[i := cleared ip j]> l ∧ ∃ V2 fl2, freeing V ip (Z.of_nat j) V2 fl2 ∧ bl_inv P V2 X Hd (fs_bl s))).
    - split; [lia|]. rewrite cleared_0, list_insert_id by done. split; [done|]. exists V, []. split; [|done]. split; [by apply frees_nil|apply covers_nil].
    - intros j x [b1 l1] Hx (_&Hl1&V2&fl2&Hf2&Hb2). cbn [fs_inode fs_bl] in *. subst l1. apply lookup_seq in Hx as [-> Hj].
      change (Z.to_nat NDIRECT) with 12%nat in Hj. cbn [Nat.add]. eapply trunc_direct_wp; [lia|exact Ho|done|exact Hf2|exact Hb2|].
      intros V3 fl3 b' H3 Hb3. split; [lia|]. split; [done|]. by exists V3, fl3. }
  rewrite length_seq. intros [] [b1 l1] (_&Hl1&V1&fl1&Hf1&Hb1). cbn [fs_inode fs_bl] in *. subst l1.
  change (Z.to_nat NDIRECT) with 12%nat in *. change (Z.of_nat 12) with NDIRECT in *.
  eapply inode_at_wp; [by apply list_lookup_insert_eq|]. change (addr_at (cleared ip 12) NDIRECT) with (addr_at (cleared ip 12) (Z.of_nat 12)).
  rewrite cleared_addr by lia. change (Z.of_nat 12) with NDIRECT. change (i_dev (cleared ip 12)) with (i_dev ip). rewrite Hdv.
  unfold nz. destruct (Z.eqb_spec (addr_at ip NDIRECT) 0) as [Hz|Hz]; cbn [negb when].
  { apply wp_bind, wp_ret. rewrite (cleared_skip ip 12) by (lia || done). eapply HQ; [by eapply no_indirect|exact Hb1]. }
  pose proof (fo_ind _ _ _ _ _ Ho Hz) as Hgood. pose proof Hgood as (HP&Hr&_).
  apply wp_bind, wp_bind, wp_bl. eapply wp_mono; [by eapply bl_bread_wp|]. intros bp b2 (Hbp&_&Hb2).
  apply wp_bind, wp_bl. eapply wp_mono; [eapply bl_data_wp; [exact Hb2|apply lookup_insert_eq]|]. intros d b3 [-> ->].
  rewrite (frees_data _ _ _ _ (proj1 Hf1) (proj1 Hr)). apply wp_bind.
  eapply trunc_indirect_wp; [exact Ho|exact Hz|exact Hf1|exact Hb2|]. intros V2 fl2 b4 Hf2 Hb4.
  destruct (with_indirect _ _ _ _ Ho Hz Hf2) as [Hni Hall].
  apply wp_bind, wp_bl. eapply wp_mono.
  { eapply bl_brelse_wp; [exact Hb4|apply lookup_insert_eq|]. intros HX. destruct (bl_mods _ _ _ _ _ _ Hi HX). congruence. }
  intros [] b5 Hb5. rewrite delete_insert_id in Hb5 by done. apply wp_bind, wp_bl.
  eapply bfree_frees; [apply Hf2|exact Hb5|exact Hgood|exact Hni|]. intros b6 Hf6 Hb6. apply wp_modify. cbn [fs_bl fs_inode].
  rewrite (alter_insert _ i _ (cleared ip 12)) by (by apply list_lookup_insert_eq). rewrite list_insert_insert_eq.
  change NDIRECT with (Z.of_nat 12). rewrite cleared_next by lia. eapply HQ; [by apply Hall|exact Hb6].
Qed.

Lemma emptied_ok ip : inode_fits P dev sb ip → dinode_ok (emptied (i_d ip)).
Proof.
  intros [F1 F2 F3 F4 F5 F6]. split; try done. cbn -[replicate]. split; [done|]. apply Forall_replicate. lia.
Qed.

(** The inode is written to the disk. *)
Lemma freed_written V ip V1 d : all_freed V ip V1 → (∀ sec, P dev sec → length (V1 dev sec) = 512%nat) →
  inode_fits P dev sb ip → dinode_ok d →
  truncated V ip d (vupd V1 dev (IBLOCK (i_inum ip)) (dinode_put (i_inum ip) d (V1 dev (IBLOCK (i_inum ip))))).
Proof.
  intros (fl&Hf&Hfl) Hlen [F1 F2 _ _ _ _] Hd.
  destruct (write_inode V1 (i_inum ip) d (fr_geom _ _ _ Hf) Hlen F1 F2 Hd) as (W1&W2&W3&W4&W5). split; [done| | |done|].
  - intros c Hc. rewrite W2, (fr_use _ _ _ Hf) by done. rewrite andb_true_iff, negb_true_iff, bool_decide_eq_false, Hfl. done.
  - intros c Hc. rewrite W3 by done. by eapply frees_data.
  - intros n Hn Hne. rewrite W5 by done. f_equal. eapply frees_meta; [exact Hf|]. by eapply IBLOCK_range.
Qed.
Lemma truncated_written V ip d0 V1 d : truncated V ip d0 V1 → (∀ sec, P dev sec → length (V1 dev sec) = 512%nat) →
  inode_fits P dev sb ip → dinode_ok d →
  truncated V ip d (vupd V1 dev (IBLOCK (i_inum ip)) (dinode_put (i_inum ip) d (V1 dev (IBLOCK (i_inum ip))))).
Proof.
  intros [T1 T2 T3 T4 T5] Hlen [F1 F2 _ _ _ _] Hd.
  destruct (write_inode V1 (i_inum ip) d T1 Hlen F1 F2 Hd) as (W1&W2&W3&W4&W5). split; [done| | |done|].
  - intros c Hc. rewrite W2 by done. by apply T2.
  - intros c Hc. rewrite W3 by done. by apply T3.
  - intros n Hn Hne. rewrite W5 by done. by apply T5.
Qed.

Lemma itrunc_wp V X Hd b l i ip (Q : unit → fs B → Prop) : bl_inv P V X Hd b → l !! i = Some ip →
  fs_geom P V dev sb → file_ok P dev sb V ip → inode_fits P dev sb ip →
  (∀ V' b', truncated V ip (emptied (i_d ip)) V' → bl_inv P V' X Hd b' →
     Q tt (Fs b' (<[i := set_i_d (emptied (i_d ip)) ip]> l))) →
  wp (itrunc i) Q (Fs b l).
Proof.
  intros Hi Hip Hg Ho Hfit HQ. pose proof (lookup_lt_Some _ _ _ Hip) as Hil. unfold itrunc.
  eapply trunc_blocks; [done..|]. intros V1 b1 Hf1 Hb1.
  eapply upd_inode_wp; [by apply list_lookup_insert_eq|]. rewrite list_insert_insert_eq, cleared_all by apply Ho.
  assert (Hlen : ∀ sec, P dev sec → length (V1 dev sec) = 512%nat) by (intros; by eapply bl_len).
  pose proof (emptied_ok ip Hfit) as Hdk. pose proof (fo_dev _ _ _ _ _ Ho) as Hdv.
  eapply iupdate_wp; [exact Hb1|by apply list_lookup_insert_eq|exact Hdk|cbn; rewrite Hdv; apply Hfit|]. cbn [i_dev i_inum i_d set_i_d]. rewrite Hdv.
  intros b2 Hb2. eapply HQ; [|exact Hb2]. by apply freed_written.
Qed.

(** ** The last reference *)

(** C27: [iput] of the last reference to an inode without links deletes the
    file: all its data blocks and its indirect block are free again, and only
    they; the inode on the disk is free (type 0) and empty; the contents of
    data blocks and all other inodes are as before, and the entry of the cache
    can be used again. *)
Theorem iput_deletes V X Hd b l i ip : bl_inv P V X Hd b → l !! i = Some ip → i_ref ip = 1 → i_flags ip = I_VALID → i_nlink ip = 0 →
  fs_geom P V dev sb → file_ok P dev sb V ip → inode_fits P dev sb ip →
  wp (iput i) (λ _ s', ∃ V' d, bl_inv P V' X Hd (fs_bl s') ∧ truncated V ip d V' ∧ di_type d = 0 ∧ di_size d = 0 ∧
    fs_inode s' = <[i := Inode dev (i_inum ip) 0 0 d]> l) (Fs b l).
Proof.
  intros Hi Hip Hr Hfl Hnl Hg Ho Hfit. destruct (bl_ready _ _ _ _ _ Hi) as (Hok&_&_&_&Hf&_).
  pose proof (lookup_lt_Some _ _ _ Hip) as Hil. pose proof (fo_dev _ _ _ _ _ Ho) as Hdv.
  unfold iput. apply acquire_i_wp; [done|]. eapply inode_at_wp; [done|]. rewrite Hr, Hfl, Hnl.
  change ((1 =? 1) && has I_VALID I_VALID && (0 =? 0)) with true. change (has I_VALID I_BUSY) with false. cbn [when].
  apply wp_bind. eapply upd_inode_wp; [done|]. apply release_i_wp; [done|done|]. rewrite with_k_self.
  set (ip1 := set_i_flags _ ip). apply wp_bind.
  assert (Ho1 : file_ok P dev sb V ip1) by (destruct Ho; by split).
  assert (Hfit1 : inode_fits P dev sb ip1) by (destruct Hfit; by split).
  eapply itrunc_wp; [exact Hi|by apply list_lookup_insert_eq|exact Hg|exact Ho1|exact Hfit1|]. intros V1 b1 Ht1 Hb1.
  rewrite list_insert_insert_eq. eapply upd_inode_wp; [by apply list_lookup_insert_eq|]. rewrite list_insert_insert_eq.
  set (d := set_di_type 0 (emptied (i_d ip1))). change (upd_i_d _ (set_i_d _ ip1)) with (set_i_d d ip1).
  assert (Hdk : dinode_ok d) by (destruct (emptied_ok ip1 Hfit1); split; try done; cbn; lia).
  assert (Hlen : ∀ sec, P dev sec → length (V1 dev sec) = 512%nat) by (intros; by eapply bl_len).
  apply wp_bind. eapply iupdate_wp; [exact Hb1|by apply list_lookup_insert_eq|exact Hdk|cbn; rewrite Hdv; apply Hfit|].
  change (i_dev (set_i_d d ip1)) with (i_dev ip). change (i_inum (set_i_d d ip1)) with (i_inum ip). change (i_d (set_i_d d ip1)) with d.
  rewrite Hdv. intros b2 Hb2.
  pose proof (truncated_written V ip1 _ V1 d Ht1 Hlen Hfit1 Hdk) as Ht2. change (i_inum ip1) with (i_inum ip) in Ht2.
  destruct (bl_ready _ _ _ _ _ Hb2) as (Hok2&_&Hpt2&_&Hf2&_).
  apply acquire_i_wp; [done|]. eapply upd_inode_wp; [by apply list_lookup_insert_eq|]. rewrite list_insert_insert_eq.
  apply wp_unit, wakeup_i_wp; [done|done|]. apply wp_ret.
  eapply upd_inode_wp; [by apply list_lookup_insert_eq|]. rewrite list_insert_insert_eq.
  apply release_i_end; [by apply woken_ok|by apply woken_free|]. eexists _, d. split; [apply bl_woken; exact Hb2|].
  split; [|split; [done|split; [done|]]].
  - destruct Ht2 as [T1 T2 T3 T4 T5]. by split.
  - unfold set_i_ref, ip1. cbn [i_ref i_dev i_inum i_d i_flags set_i_flags set_i_d fs_inode]. rewrite Hr, Hdv. done.
Qed.

(** ** New inodes *)

Definition new_inode (type : Z) : dinode := Dinode type 0 0 0 0 (replicate 13 0).

(** [V'] is [V] with the inode [n] allocated: the first one that was free. *)
Record allocates V (type n : Z) V' : Prop := {
  ac_free : 0 < n < sb_ninodes sb ∧ di_type (dinode_get n (V dev (IBLOCK n))) = 0;
  ac_first : ∀ m, 0 < m < n → di_type (dinode_get m (V dev (IBLOCK m))) ≠ 0;
  ac_geom : fs_geom P V' dev sb;
  ac_use : ∀ c, 0 ≤ c < sb_size sb → in_use V' dev sb c = in_use V dev sb c;
  ac_data : ∀ c, bend < c → V' dev c = V dev c;
  ac_inode : dinode_get n (V' dev (IBLOCK n)) = new_inode type;
  ac_others : ∀ m, 0 ≤ m < sb_ninodes sb → m ≠ n → dinode_get m (V' dev (IBLOCK m)) = dinode_get m (V dev (IBLOCK m))
}.

(** One turn of the loop, at an inode that is free and at one in use. *)
Lemma ialloc_take V X Hd b l type n (Q : (Z + nat) → fs B → Prop) : bl_inv P V X Hd b → icache_ok l → fs_geom P V dev sb →
  0 < n < sb_ninodes sb → P dev (IBLOCK n) → -32768 ≤ type < 32768 → di_type (dinode_get n (V dev (IBLOCK n))) = 0 →
  (∀ m, 0 < m < n → di_type (dinode_get m (V dev (IBLOCK m))) ≠ 0) →
  (∀ i V' b' l', allocates V type n V' → bl_inv P V' X Hd b' → icache_ok l' → got l l' i dev n → Q (inr i) (Fs b' l')) →
  wp (ialloc_try dev type sb n) Q (Fs b l).
Proof.
  intros Hi Hc Hg Hn HPn Hty Hz Hfirst HQ. unfold ialloc_try. rewrite (proj2 (Z.ltb_lt _ _)) by lia.
  apply wp_bind, wp_bl. eapply wp_mono; [by eapply bl_bread_wp|]. intros bp b1 (Hbp&_&H1).
  apply wp_bind, wp_bl. eapply wp_mono; [eapply bl_data_wp; [exact H1|apply lookup_insert_eq]|]. intros d b2 [-> ->].
  assert (HX : bp ∉ X) by (intros HX; destruct (bl_mods _ _ _ _ _ _ Hi HX); congruence).
  assert (Hlen : ∀ sec, P dev sec → length (V dev sec) = 512%nat) by (intros; by eapply bl_len).
  rewrite Hz. cbn [Z.eqb].
  assert (Hdk : dinode_ok (new_inode type)) by (split; cbn -[replicate]; [lia..|split; [done|apply Forall_replicate; lia]]).
  destruct (write_inode V n (new_inode type) Hg Hlen ltac:(lia) HPn Hdk) as (W1&W2&W3&W4&W5).
  apply wp_bind, wp_bl. eapply wp_mono; [eapply bl_set_wp; [exact H1|apply lookup_insert_eq|by apply length_dinode_put; [|apply Hlen]]|].
  intros [] b2 H2. apply wp_bind, wp_bl. eapply wp_mono; [eapply bl_log_write_wp; [exact H2|apply lookup_insert_eq]|].
  intros [] b3 H3. replace ((X ∪ {[bp]}) ∖ {[bp]}) with X in H3 by set_solver.
  apply wp_bind, wp_bl. eapply wp_mono; [eapply bl_brelse_wp; [exact H3|apply lookup_insert_eq|done]|].
  intros [] b4 H4. rewrite delete_insert_id in H4 by done.
  apply wp_bind. eapply iget_wp; [exact H4|exact Hc|]. intros i l' Hc' Hgot. apply wp_ret.
  eapply HQ; [|exact H4|exact Hc'|exact Hgot]. split; done.
Qed.
Lemma ialloc_skip V X Hd b l type n (Q : (Z + nat) → fs B → Prop) : bl_inv P V X Hd b →
  n < sb_ninodes sb → P dev (IBLOCK n) → di_type (dinode_get n (V dev (IBLOCK n))) ≠ 0 →
  (∀ b', bl_inv P V X Hd b' → Q (inl (n + 1)) (Fs b' l)) → wp (ialloc_try dev type sb n) Q (Fs b l).
Proof.
  intros Hi Hn HPn Hz HQ. unfold ialloc_try. rewrite (proj2 (Z.ltb_lt _ _)) by lia.
  apply wp_bind, wp_bl. eapply wp_mono; [by eapply bl_bread_wp|]. intros bp b1 (Hbp&_&H1).
  apply wp_bind, wp_bl. eapply wp_mono; [eapply bl_data_wp; [exact H1|apply lookup_insert_eq]|]. intros d b2 [-> ->].
  assert (HX : bp ∉ X) by (intros HX; destruct (bl_mods _ _ _ _ _ _ Hi HX); congruence).
  destruct (Z.eqb_spec (di_type (dinode_get n (V dev (IBLOCK n)))) 0) as [?|_]; [done|]. apply wp_bind, wp_bl.
  eapply wp_mono; [eapply bl_brelse_wp; [exact H1|apply lookup_insert_eq|done]|].
  intros [] b4 H4. rewrite delete_insert_id in H4 by done. apply wp_ret. by apply HQ.
Qed.

(** The scan has passed only inodes in use. *)
Definition scanned V X Hd l (n : Z) (s : fs B) : Prop :=
  fs_inode s = l ∧ bl_inv P V X Hd (fs_bl s) ∧ 0 < n ∧
  ∀ m, 0 < m < n → di_type (dinode_get m (V dev (IBLOCK m))) ≠ 0.
Lemma scanned_next V X Hd l n b' : scanned V X Hd l n (Fs b' l) → di_type (dinode_get n (V dev (IBLOCK n))) ≠ 0 →
  scanned V X Hd l (n + 1) (Fs b' l).
Proof.
  intros (?&?&?&Hf) Hz. split_and!; [done|done|lia|]. intros m Hm.
  destruct (decide (m = n)) as [->|]; [done|]. apply Hf. lia.
Qed.

Lemma ialloc_wp V X Hd b l type (Q : nat → fs B → Prop) : bl_inv P V X Hd b → icache_ok l → fs_geom P V dev sb →
  (∀ n, 0 < n < sb_ninodes sb → P dev (IBLOCK n)) → -32768 ≤ type < 32768 →
  (∀ i n V' b' l', allocates V type n V' → bl_inv P V' X Hd b' → icache_ok l' → got l l' i dev n → Q i (Fs b' l')) →
  wp (ialloc dev type) Q (Fs b l).
Proof.
  intros Hi Hc Hg HP Hty HQ. pose proof Hg as [Gsb GP1 Gsz Gni _ _]. unfold ialloc. apply wp_bind, wp_bl.
  eapply wp_mono; [by eapply fs_readsb_wp|]. intros sb' b0 [-> Hi0]. rewrite Gsb.
  eapply (wp_loop _ (scanned V X Hd l) Q (λ n, Z.to_nat (sb_ninodes sb - n))).
  2:{ split_and!; [done|done|lia|lia]. }
  2:{ lia. }
  clear b b0 Hi Hi0. intros n [b l1] Hs. pose proof Hs as (Hl1&Hi&Hn&Hfirst). cbn [fs_inode fs_bl] in *. subst l1.
  destruct (Z.ltb_spec n (sb_ninodes sb)) as [Hlt|Hge].
  2:{ unfold ialloc_try. by rewrite (proj2 (Z.ltb_ge _ _)). }
  assert (HPn : P dev (IBLOCK n)) by (apply HP; lia).
  destruct (Z.eq_dec (di_type (dinode_get n (V dev (IBLOCK n)))) 0) as [Hz|Hz].
  - eapply ialloc_take; try done. intros i V' b' l' A1 A2 A3 A4. by eapply HQ.
  - eapply ialloc_skip; try done. intros b' Hb'. split; [|lia]. apply scanned_next; [|done]. by split_and!.
Qed.

(** ** The panic of [ialloc] *)

Context {BP : BlockPanics B}.
Notation NOINODES := "ialloc: no inodes".

Lemma never_iget n : never NOINODES (iget dev n).
Proof using All.
  unfold iget, upd_inode, inode_at, ik, bl. never_by; first [by apply never_acquire | by apply never_release].
Qed.
Lemma never_try type n : n < sb_ninodes sb → never NOINODES (ialloc_try dev type sb n).
Proof using All.
  intros Hn. unfold ialloc_try. rewrite (proj2 (Z.ltb_lt _ _)) by lia. unfold bl.
  never_by; first [by apply bp_bread | by apply bp_data | by apply bp_set |
    by apply bp_log_write | by apply bp_brelse | by apply never_iget].
Qed.
Lemma never_readsb : never NOINODES (bl (fs_readsb dev)).
Proof using All.
  unfold fs_readsb, bl. never_by; first [by apply bp_bread | by apply bp_data | by apply bp_brelse].
Qed.

(** It does not come while an inode is free. *)
Lemma ialloc_free V X Hd b l type n0 : bl_inv P V X Hd b → icache_ok l → fs_geom P V dev sb →
  (∀ n, 0 < n < sb_ninodes sb → P dev (IBLOCK n)) → -32768 ≤ type < 32768 →
  0 < n0 < sb_ninodes sb → di_type (dinode_get n0 (V dev (IBLOCK n0))) = 0 →
  wpn NOINODES (ialloc dev type) (λ _ _, True) (Fs b l).
Proof using All.
  intros Hi Hc Hg HP Hty Hn0 Hz0. pose proof Hg as [Gsb GP1 Gsz Gni _ _]. unfold ialloc. apply wpn_bind.
  split; [|apply never_readsb]. apply wp_bl. eapply wp_mono; [by eapply fs_readsb_wp|]. intros sb' b0 [-> Hi0]. rewrite Gsb.
  eapply (wpn_loop _ _ (λ n s, scanned V X Hd l n s ∧ n ≤ n0) _ (λ n, Z.to_nat (sb_ninodes sb - n))).
  2:{ split; [|lia]. split_and!; [done|done|lia|lia]. }
  2:{ lia. }
  clear b b0 Hi Hi0. intros n [b l1] [Hs Hle]. pose proof Hs as (Hl1&Hi&Hn&Hfirst). cbn [fs_inode fs_bl] in *. subst l1.
  split; [|apply never_try; lia]. assert (HPn : P dev (IBLOCK n)) by (apply HP; lia).
  destruct (Z.eq_dec (di_type (dinode_get n (V dev (IBLOCK n)))) 0) as [Hz|Hz].
  - eapply ialloc_take; try done. lia.
  - eapply ialloc_skip; try done; [lia|]. intros b' Hb'. assert (n ≠ n0) by congruence.
    split; [|lia]. split; [|lia]. apply scanned_next; [|done]. by split_and!.
Qed.


(** On a full disk the loop reads all inodes and stops with it; on the way no
    other panic of fs.c comes. *)
Definition full_end {A} (r : outcome (fs B) A) : Prop :=
  match r with
  | Panic msg _ => msg = NOINODES ∨ (exhausted msg = true ∧ fs_panic msg = false)
  | Blocked _ _ => True
  | _ => False
  end.
Lemma full_bl {A C} (m : M B A) (k : A → M (fs B) C) Q b l : wp m Q b →
  (∀ msg, fs_panic msg = true → never msg m) → (∀ a b', Q a b' → full_end (k a (Fs b' l))) →
  full_end ((bl m ≫= k) (Fs b l)).
Proof using All.
  intros Hw Hn Hk. unfold mbind, M_bind, bl, zoom, wp in *. cbn [lget lset fs_lens fs_bl].
  specialize (Hn). destruct (m b) as [a b'|msg b'| | | |] eqn:E; try done; [by apply Hk|].
  right. split; [done|]. apply not_true_is_false. intros Hp. by apply (Hn msg Hp b b').
Qed.

Lemma ialloc_full V X Hd b l type : bl_inv P V X Hd b → fs_geom P V dev sb →
  (∀ n, 0 < n < sb_ninodes sb → P dev (IBLOCK n)) →
  (∀ n, 0 < n < sb_ninodes sb → di_type (dinode_get n (V dev (IBLOCK n))) ≠ 0) →
  full_end (ialloc dev type (Fs b l)).
Proof using All.
  intros Hi Hg HP Hfull. pose proof Hg as [Gsb GP1 Gsz Gni _ _]. unfold ialloc.
  eapply full_bl; [by eapply fs_readsb_wp|intros msg Hm; unfold fs_readsb; never_by;
    first [by apply bp_bread | by apply bp_data | by apply bp_brelse]|].
  intros sb' b0 [-> Hi0]. rewrite Gsb. clear b Hi.
  assert (Hgo : ∀ fuel n b, 0 < n → (Z.to_nat (sb_ninodes sb - n) < fuel)%nat → bl_inv P V X Hd b →
    full_end (loop fuel (ialloc_try dev type sb) n (Fs b l))).
  2:{ apply Hgo; [lia|lia|done]. }
  induction fuel as [|fuel IH]; intros n b Hn Hf Hb; [lia|]. cbn [loop]. unfold ialloc_try.
  destruct (Z.ltb_spec n (sb_ninodes sb)) as [Hlt|Hge]; [|by left].
  assert (HPn : P dev (IBLOCK n)) by (apply HP; lia). unfold full_end. rewrite bind_assoc. fold (@full_end nat).
  eapply full_bl; [by eapply bl_bread_wp|by intros; apply bp_bread|]. intros bp b1 (Hbp&_&H1).
  unfold full_end. rewrite bind_assoc. fold (@full_end nat).
  eapply full_bl; [eapply bl_data_wp; [exact H1|apply lookup_insert_eq]|by intros; apply bp_data|]. intros d b2 [-> ->].
  assert (HX : bp ∉ X) by (intros HX; destruct (bl_mods _ _ _ _ _ _ Hb HX); congruence).
  destruct (Z.eqb_spec (di_type (dinode_get n (V dev (IBLOCK n)))) 0) as [?|_]; [by destruct (Hfull n)|].
  unfold full_end. rewrite bind_assoc. fold (@full_end nat).
  eapply full_bl; [eapply bl_brelse_wp; [exact H1|apply lookup_insert_eq|done]|by intros; apply bp_brelse|].
  intros [] b4 H4. rewrite delete_insert_id in H4 by done. erewrite bind_run by reflexivity. apply IH; [lia|lia|done].
Qed.

(** C28: on a disk with a free inode, [ialloc] returns an entry of the cache for
    the first free inode, which is now of the given type, empty and without
    links; no other inode, no bit of the bitmap and no data block changes; and
    it does not stop with "ialloc: no inodes".  On a disk without a free inode
    it does not return: unless it goes to sleep for a buffer or the block layer
    gives up first, it stops with that panic. *)
Theorem ialloc_correct V X Hd b l type : bl_inv P V X Hd b → icache_ok l → fs_geom P V dev sb →
  (∀ n, 0 < n < sb_ninodes sb → P dev (IBLOCK n)) → -32768 ≤ type < 32768 →
  ((∃ n, 0 < n < sb_ninodes sb ∧ di_type (dinode_get n (V dev (IBLOCK n))) = 0) →
   wp (ialloc dev type) (λ i s', ∃ n V', allocates V type n V' ∧ bl_inv P V' X Hd (fs_bl s') ∧ icache_ok (fs_inode s') ∧
     got l (fs_inode s') i dev n) (Fs b l) ∧
   ∀ s', ialloc dev type (Fs b l) ≠ Panic NOINODES s') ∧
  ((∀ n, 0 < n < sb_ninodes sb → di_type (dinode_get n (V dev (IBLOCK n))) ≠ 0) →
   match ialloc dev type (Fs b l) with
   | Panic msg _ => msg = NOINODES ∨ (exhausted msg = true ∧ fs_panic msg = false)
   | Blocked _ _ => True
   | _ => False
   end).
Proof using All.
  intros Hi Hc Hg HP Hty. split.
  - intros (n0&Hn0&Hz0). split.
    + eapply ialloc_wp; [done..|]. intros i n V' b' l' A1 A2 A3 A4. by exists n, V'.
    + by eapply ialloc_free.
  - intros Hfull. eapply ialloc_full; done.
Qed.
End Itrunc.

(** ** On the example image *)

(** The file "a" after its name was removed: no blocks, no links. *)
Definition ex_gone : inode := Inode 1 1 1 I_VALID (Dinode 1 0 0 0 48 (5 :: replicate 12 0)).

Lemma ex_gone_ok : file_ok ex_P 1 ex_sb12 ex_V ex_gone.
Proof. destruct ex_root_ok as [F1 F2 F3 F4 F5 F6]. by split. Qed.

(** Block 5 is free again. *)
Lemma iput_deletes_witness : ∃ V' d s', iput 0 (Fs ex_big_log [ex_gone]) = Ok tt s' ∧ in_use V' 1 ex_sb12 5 = false ∧ di_type d = 0 ∧
  fs_inode s' = [Inode 1 1 0 0 d].
Proof.
  assert (Hw := iput_deletes ex_P 1 ex_sb12 ex_V ∅ ∅ ex_big_log [ex_gone] 0 ex_gone ex_big_inv eq_refl eq_refl eq_refl eq_refl
    ex_geom ex_gone_ok ltac:(split; by repeat split)).
  destruct (iput 0 (Fs ex_big_log [ex_gone])) as [[] s'| | | | |] eqn:E; [|vm_compute in E; discriminate E..].
  destruct (wp_ok _ _ _ _ _ Hw E) as (V'&d&_&Ht&Hty&_&Hl). exists V', d, s'. split; [reflexivity|]. split; [|split; [exact Hty|exact Hl]].
  apply not_true_is_false. intros Hu. apply (tc_use _ _ _ _ _ _ _ Ht) in Hu; [|cbn; lia]. apply (proj2 Hu). split; [lia|].
  right. exists 0. split; [|reflexivity]. split; [lia|reflexivity].
Defined.

(** The same image with all inodes in use. *)
Definition ex_full_log : log Memide.memide := log_on ex_k (replicate 512 0 ++ ex_super ++
  pad 512 (ex_dinode 0 0 0 0 ++ ex_dinode 1 1 48 5 ++ concat (replicate 6 (ex_dinode 2 1 0 0))) ++
  replicate 512 0 ++ ex_bitmap ++ ex_root ++ replicate 3072 0) 3.
Definition ex_full_V : Z → Z → list Z := dview (bc_drv (lg_bc ex_full_log)).

Lemma ex_full_inv : bl_inv ex_P ex_full_V ∅ ∅ ex_full_log.
Proof. apply log_on_inv; [apply ex_k_ready|lia|by vm_compute]. Qed.
Lemma ex_full_geom : fs_geom ex_P ex_full_V 1 ex_sb12.
Proof.
  split; [reflexivity|by split|done|done| |].
  all: intros b Hb; simpl in Hb; revert b Hb; refine (below_12 _ _); intros i Hi.
  all: repeat (destruct Hi as [<-|Hi]; [vm_compute; intuition congruence|]); done.
Qed.
Lemma ex_iblock n : 0 < n < sb_ninodes ex_sb12 → ex_P 1 (IBLOCK n).
Proof.
  intros Hn. split; [reflexivity|]. change (sb_ninodes ex_sb12) with 8 in Hn. unfold IBLOCK, IPB, BSIZE.
  change (512 / 64) with 8. rewrite Z.div_small by lia. lia.
Qed.
Lemma ex_full_used n : 0 < n < sb_ninodes ex_sb12 → di_type (dinode_get n (ex_full_V 1 (IBLOCK n))) ≠ 0.
Proof.
  intros Hn. change (sb_ninodes ex_sb12) with 8 in Hn.
  assert (n = 1 ∨ n = 2 ∨ n = 3 ∨ n = 4 ∨ n = 5 ∨ n = 6 ∨ n = 7) as Hc by lia.
  destruct Hc as [->|[->|[->|[->|[->|[->| ->]]]]]]; by vm_compute.
Qed.

(** Inode 3 is allocated; on the full disk the panic comes. *)
Lemma ialloc_correct_witness :
  (∃ s', ialloc 1 T_FILE (Fs ex_fs_log ex_icache) = Ok 1%nat s' ∧ icache_ok (fs_inode s') ∧
    fs_inode s' !! 1%nat = Some (Inode 1 3 1 0 di_zero)) ∧
  ∃ msg s', ialloc 1 T_FILE (Fs ex_full_log ex_icache) = Panic msg s' ∧ msg = "ialloc: no inodes".
Proof.
  split.
  - destruct (ialloc_correct ex_P 1 ex_sb12 ex_V ∅ ∅ ex_fs_log ex_icache T_FILE ex_fs_inv ex_icache_ok ex_geom
      ex_iblock ltac:(unfold T_FILE; lia)) as [Hw _].
    specialize (Hw ltac:(exists 3; split; [split; reflexivity|vm_compute; reflexivity])) as [Hw _].
    assert (Hb : match ialloc 1 T_FILE (Fs ex_fs_log ex_icache) with Ok i s => (i, fs_inode s !! 1%nat) | _ => (0%nat, None) end =
      (1%nat, Some (Inode 1 3 1 0 di_zero))) by (vm_compute; reflexivity).
    destruct (ialloc 1 T_FILE (Fs ex_fs_log ex_icache)) as [i s'| | | | |] eqn:E; try discriminate Hb.
    destruct (wp_ok _ _ _ _ _ Hw E) as (n&V'&_&_&Hc&_). exists s'. injection Hb as -> Hs. split; [reflexivity|]. split; [exact Hc|exact Hs].
  - destruct (ialloc_correct ex_P 1 ex_sb12 ex_full_V ∅ ∅ ex_full_log ex_icache T_FILE ex_full_inv ex_icache_ok ex_full_geom
      ex_iblock ltac:(unfold T_FILE; lia)) as [_ Hw].
    specialize (Hw ex_full_used).
    assert (Hb : match ialloc 1 T_FILE (Fs ex_full_log ex_icache) with Panic _ _ => true | _ => false end = true) by (vm_compute; reflexivity).
    assert (Hb2 : match ialloc 1 T_FILE (Fs ex_full_log ex_icache) with Panic msg _ => exhausted msg && negb (fs_panic msg) | _ => false end = false)
      by (vm_compute; reflexivity).
    destruct (ialloc 1 T_FILE (Fs ex_full_log ex_icache)) as [|msg s'| | | |]; try discriminate Hb.
    exists msg, s'. split; [reflexivity|]. destruct Hw as [Hw|[H1 H2]]; [exact Hw|]. rewrite H1, H2 in Hb2. discriminate Hb2.
Defined.
