(* ===== verification/Dir.v ===== *)
(** Directories and paths (fs.c): [namecmp], [dirlookup], [dirlink],
    [skipelem], [namex], [namei], [nameiparent]. *)
From S2P Require Import Prelude Kmonad Wp Kstate Spinlock Sleep Str Disk Log Blocks FsEx Balloc Inode Dinode Icache FileData.

Definition DIRSIZ : Z := 14.
Definition ROOTINO : Z := 1.

(** [sizeof(struct dirent)]; its fields. *)
Definition DESIZE : Z := 16.
Definition de_inum (de : list Z) : Z := get_u16 0 de.
Definition de_name (de : list Z) : list Z := drop 2 de.

(** A memory that holds two arrays, for calls of the string routines on
    arrays that live in different objects. *)
Definition two (s t : list Z) : mem := λ a,
  if a <? 4096 then nth (Z.to_nat a) s 0 else nth (Z.to_nat (a - 4096)) t 0.

Definition namecmp (s t : list Z) : Z := strncmp (two s t) 0 4096 DIRSIZ.

(** The entry [dirlink] writes: [strncpy(de.name, name, DIRSIZ); de.inum = inum]. *)
Definition new_dirent (name : list Z) (inum : Z) (de : list Z) : list Z :=
  let m := strncpy (two (de_name de) name) 0 4096 DIRSIZ in
  put_u16 0 inum (splice 2 ((λ j, m (Z.of_nat j)) <$> seq 0 (Z.to_nat DIRSIZ)) de).

(** ** Paths

    A path or a name is the bytes of its string before the NUL; reading at
    the end gives the NUL. *)
Definition SLASH : Z := 47.

Fixpoint skip_slashes (path : list Z) : list Z :=
  match path with
  | c :: rest => if c =? SLASH then skip_slashes rest else path
  | [] => []
  end.

(** The characters up to a slash or the end, and the rest. *)
Fixpoint span_elem (path : list Z) : list Z * list Z :=
  match path with
  | c :: rest =>
      if (c =? SLASH) || (c =? 0) then ([], path)
      else let '(s, r) := span_elem rest in (c :: s, r)
  | [] => ([], [])
  end.

(** [skipelem]: the rest of the path and the array [name]. *)
Definition skipelem (path name : list Z) : option (list Z * list Z) :=
  let path := skip_slashes path in
  if hd 0 path =? 0 then None else
  let '(s, path) := span_elem path in
  let len := Z.of_nat (length s) in
  let name :=
    if DIRSIZ <=? len then splice 0 (take (Z.to_nat DIRSIZ) s) name
    else <[length s := 0]> (splice 0 s name) in
  Some (skip_slashes path, name).

(** ** Names *)

(** The name an array of [n] bytes holds. *)
Fixpoint cname (n : nat) (l : list Z) : list Z :=
  match n, l with
  | S n, c :: l => if c =? 0 then [] else c :: cname n l
  | _, _ => []
  end.

Lemma cname_cstr n m p (l : list Z) :
  (∀ j, (j < n)%nat → m (p + Z.of_nat j) = nth j l 0) → cstr n m p = cname n l.
Proof.
  revert p l. induction n as [|n IH]; intros p l Hl; [done|]. cbn [cstr cname].
  assert (H0 := Hl 0%nat ltac:(lia)). rewrite Z.add_0_r in H0. destruct l as [|c l]; simpl in H0.
  - by rewrite H0.
  - rewrite H0. destruct (c =? 0); [done|]. f_equal. apply IH. intros j Hj.
    specialize (Hl (S j) ltac:(lia)). simpl in Hl. rewrite <- Hl. f_equal. lia.
Qed.

Lemma two_l s t n : (n ≤ 4096)%nat → cstr n (two s t) 0 = cname n s.
Proof.
  intros Hn. apply cname_cstr. intros j Hj. unfold two. bdestr; [|lia]. f_equal. lia.
Qed.
Lemma two_r s t n : cstr n (two s t) 4096 = cname n t.
Proof.
  apply cname_cstr. intros j Hj. unfold two. bdestr; [lia|]. f_equal. lia.
Qed.

Lemma nth_byte l j : is_bytes l → is_byte (nth j l 0).
Proof.
  intros Hl. rewrite nth_lookup. destruct (l !! j) as [x|] eqn:E; simpl; [|unfold is_byte; lia].
  by eapply (Forall_lookup_1 _ _ _ _ Hl).
Qed.

Lemma check_bytes l : forallb (λ c, (0 <=? c) && (c <? 256)) l = true → is_bytes l.
Proof.
  induction l as [|c l IH]; simpl; [constructor|]. intros [Hc Hl]%andb_true_iff.
  constructor; [unfold is_byte; lia|by apply IH].
Qed.

Lemma namecmp_zero s t : is_bytes s → is_bytes t →
  namecmp s t = 0 ↔ cname 14 s = cname 14 t.
Proof.
  intros Hs Ht. unfold namecmp, strncmp, DIRSIZ. change (Z.to_nat 14) with 14%nat.
  rewrite strncmp_loop_zero.
  - rewrite two_l, two_r by lia. done.
  - intros a. unfold two. case_match; by apply nth_byte.
Qed.

Lemma cname_idem n l : cname n (cname n l) = cname n l.
Proof.
  revert l. induction n as [|n IH]; intros [|c l]; [done..|]. cbn [cname].
  destruct (c =? 0) eqn:E; [done|]. cbn [cname]. by rewrite E, IH.
Qed.
Lemma cname_pad n l k : cname n (l ++ replicate k 0) = cname n l.
Proof.
  revert l. induction n as [|n IH]; intros l; [done|]. destruct l as [|c l].
  - by destruct k.
  - cbn [cname app]. by rewrite IH.
Qed.
Lemma length_cname n l : (length (cname n l) ≤ n)%nat.
Proof.
  revert l. induction n as [|n IH]; intros [|c l]; simpl; try lia. case_match; simpl; [lia|].
  specialize (IH l). lia.
Qed.
Lemma cname_bytes n l : is_bytes l → is_bytes (cname n l).
Proof.
  revert l. induction n as [|n IH]; intros [|c l] Hl; try constructor.
  simpl. apply Forall_cons in Hl as [Hc Hl]. case_match; [constructor|]. constructor; auto. by apply IH.
Qed.

(** The array [strncpy] leaves: the name, padded with NULs. *)
Lemma strncpy_name (old name : list Z) :
  (λ j, strncpy (two old name) 0 4096 DIRSIZ (Z.of_nat j)) <$> seq 0 (Z.to_nat DIRSIZ) =
  cname 14 name ++ replicate (14 - length (cname 14 name)) 0.
Proof.
  pose proof (length_cname 14 name). unfold DIRSIZ. change (Z.to_nat 14) with 14%nat.
  apply list_eq. intros j. rewrite list_lookup_fmap. destruct (decide (j < 14)%nat) as [Hj|Hj].
  - rewrite lookup_seq_lt by done. cbn [fmap option_fmap option_map Nat.add].
    assert (E := strncpy_inside (two old name) 0 4096 14 (Z.of_nat j)). rewrite Z.add_0_l in E.
    rewrite E by lia. rewrite Nat2Z.id. change (Z.to_nat 14) with 14%nat. rewrite two_r.
    rewrite nth_lookup. destruct (decide (j < length (cname 14 name))%nat) as [Hl|Hl].
    + rewrite lookup_app_l by done. destruct (lookup_lt_is_Some_2 _ _ Hl) as [x ->]. done.
    + rewrite lookup_app_r by lia. rewrite lookup_replicate_2 by lia.
      by rewrite lookup_ge_None_2 by lia.
  - rewrite lookup_seq_ge by lia. rewrite lookup_ge_None_2; [done|].
    rewrite length_app, length_replicate. lia.
Qed.

Lemma new_dirent_eq name inum de : length de = 16%nat →
  new_dirent name inum de =
  le_encode 2 inum ++ cname 14 name ++ replicate (14 - length (cname 14 name)) 0.
Proof.
  intros Hl. unfold new_dirent. rewrite strncpy_name. pose proof (length_cname 14 name).
  set (nm := _ ++ replicate _ 0).
  assert (Hnm : length nm = 14%nat) by (unfold nm; rewrite length_app, length_replicate; lia).
  unfold put_u16, splice. rewrite Hnm, length_le_encode. rewrite take_0.
  rewrite drop_app_ge by (rewrite length_take; lia). rewrite length_take.
  replace (0 + 2 - 2 `min` length de)%nat with 0%nat by lia. rewrite drop_0.
  rewrite (drop_ge de) by lia. by rewrite app_nil_r.
Qed.

Lemma new_dirent_inum name inum de : length de = 16%nat →
  de_inum (new_dirent name inum de) = u16 inum.
Proof.
  intros Hl. rewrite new_dirent_eq by done. unfold de_inum, get_u16, slice.
  rewrite drop_0, take_app_length' by done. by rewrite le_decode_encode.
Qed.
Lemma new_dirent_name name inum de : length de = 16%nat →
  cname 14 (de_name (new_dirent name inum de)) = cname 14 name.
Proof.
  intros Hl. rewrite new_dirent_eq by done. unfold de_name. rewrite drop_app_length' by done.
  by rewrite cname_pad, cname_idem.
Qed.
Lemma length_new_dirent name inum de : length de = 16%nat →
  length (new_dirent name inum de) = 16%nat.
Proof.
  intros Hl. rewrite new_dirent_eq by done. pose proof (length_cname 14 name).
  rewrite !length_app, length_replicate, length_le_encode. lia.
Qed.
Lemma new_dirent_bytes name inum de : length de = 16%nat → is_bytes name →
  is_bytes (new_dirent name inum de).
Proof.
  intros Hl Hn. rewrite new_dirent_eq by done. apply Forall_app. split; [apply le_encode_bytes|].
  apply Forall_app. split; [by apply cname_bytes|]. apply Forall_replicate. unfold is_byte. lia.
Qed.

(** ** Path elements *)

(** Reference: the elements of a path, by splitting at slashes. *)
Fixpoint split_slash (p : list Z) : list (list Z) :=
  match p with
  | [] => [[]]
  | c :: p =>
      if c =? SLASH then [] :: split_slash p
      else match split_slash p with
           | e :: es => (c :: e) :: es
           | [] => [[c]]
           end
  end.
Definition elems (p : list Z) : list (list Z) := filter (λ e, e ≠ []) (split_slash p).

Lemma elems_skip p : elems (skip_slashes p) = elems p.
Proof.
  unfold elems. induction p as [|c p IH]; [done|]. cbn [skip_slashes split_slash].
  destruct (c =? SLASH) eqn:E; [by rewrite IH|]. cbn [split_slash]. by rewrite E.
Qed.

Lemma skip_slashes_hd p : hd 0 (skip_slashes p) ≠ SLASH.
Proof.
  induction p as [|c p IH]; [done|]. cbn [skip_slashes]. destruct (Z.eqb_spec c SLASH); done.
Qed.
Lemma skip_slashes_suffix p : skip_slashes p `suffix_of` p.
Proof.
  induction p as [|c p IH]; [done|]. cbn [skip_slashes]. case_match; [|done].
  by apply suffix_cons_r.
Qed.

(** A NUL-terminated string: no NUL before its end. *)
Definition is_str (p : list Z) : Prop := Forall (λ c, c ≠ 0) p.

Lemma span_elem_spec p s r : is_str p → span_elem p = (s, r) →
  p = s ++ r ∧ elems p = (if decide (s = []) then elems r else s :: elems r) ∧
  is_str s ∧ (r = [] ∨ hd 0 r = SLASH).
Proof.
  intros Hp. revert s r.
  assert (Hw : ∀ s r, span_elem p = (s, r) → p = s ++ r ∧ is_str s ∧
    ∃ es, split_slash p = s :: es ∧ elems r = filter (λ e, e ≠ []) es ∧ (r = [] ∨ hd 0 r = SLASH)).
  { induction Hp as [|c p Hc Hp IH]; intros s r; cbn [span_elem split_slash].
    - intros [= <- <-]. split_and!; [done|constructor|]. exists []. split_and!; try done; auto.
    - rewrite (proj2 (Z.eqb_neq c 0)), orb_false_r by done.
      destruct (Z.eqb_spec c SLASH) as [->|Hcs].
      + intros [= <- <-]. split_and!; [done|constructor|]. eexists. split_and!; [done|done|by right].
      + destruct (span_elem p) as [s' r'] eqn:E. intros [= <- <-].
        destruct (IH s' r' eq_refl) as (->&Hs&es&->&He&Hr). split_and!; [done|by constructor|].
        by exists es. }
  intros s r E. destruct (Hw s r E) as (H1&H2&es&H3&H4&H5). split_and!; try done.
  unfold elems at 1. rewrite H3, filter_cons, H4. repeat case_decide; done.
Qed.

Lemma cname_str n s l : is_str s → cname n (s ++ l) = take n (s ++ cname (n - length s) l).
Proof.
  intros Hs. revert n. induction Hs as [|c s Hc Hs IH]; intros n.
  - simpl. rewrite Nat.sub_0_r. symmetry. apply take_ge, length_cname.
  - destruct n as [|n]; [done|]. cbn [cname app]. rewrite (proj2 (Z.eqb_neq _ _)) by done.
    cbn [take length]. by rewrite IH.
Qed.

(** What [skipelem] leaves in the array [name]. *)
Lemma skipelem_name s name : is_str s → length name = 14%nat →
  let name' := if DIRSIZ <=? Z.of_nat (length s) then splice 0 (take (Z.to_nat DIRSIZ) s) name
               else <[length s := 0]> (splice 0 s name) in
  length name' = 14%nat ∧ cname 14 name' = take 14 s.
Proof.
  intros Hs Hn. unfold DIRSIZ. change (Z.to_nat 14) with 14%nat. cbn zeta.
  destruct (Z.leb_spec 14 (Z.of_nat (length s))) as [Hl|Hl].
  - split; [rewrite length_splice; [done|rewrite length_take; lia]|]. unfold splice.
    rewrite take_0, length_take, drop_ge, app_nil_r by lia. cbn [app].
    replace (take 14 s) with (take 14 s ++ []) at 1 by apply app_nil_r.
    rewrite cname_str by (by apply Forall_take). rewrite length_take.
    replace (14 - 14 `min` length s)%nat with 0%nat by lia. cbn [cname].
    rewrite app_nil_r, take_take. f_equal.
  - split; [rewrite length_insert, length_splice; lia|]. unfold splice. rewrite take_0. cbn [app].
    rewrite insert_app_r_alt, Nat.sub_diag by lia. cbn [Nat.add].
    destruct (drop (length s) name) as [|c d] eqn:E.
    { apply (f_equal length) in E. rewrite length_drop in E. simpl in E. lia. }
    cbn [insert list_insert]. rewrite cname_str by done.
    destruct (14 - length s)%nat eqn:E'; [lia|]. cbn [cname Z.eqb]. by rewrite app_nil_r.
Qed.

(** [skipelem] takes the elements of a path from the front, one per call:
    it returns 0 exactly when there is none left; else [name] holds the first
    one (cut to 14 bytes), the result has the others and does not start with
    a slash, so [*path == 0] says that the element was the last one. *)
Theorem skipelem_correct path name : is_str path → length name = 14%nat →
  match skipelem path name with
  | None => elems path = []
  | Some (rest, name') => ∃ e, elems path = e :: elems rest ∧ length name' = 14%nat ∧
      cname 14 name' = take 14 e ∧ is_str rest ∧ (length rest < length path)%nat ∧
      hd 0 rest ≠ SLASH ∧ (hd 0 rest = 0 ↔ elems rest = [])
  end.
Proof.
  intros Hp Hn. unfold skipelem. destruct (skip_slashes_suffix path) as [pre Hpre].
  assert (Hs : is_str (skip_slashes path)).
  { unfold is_str in *. rewrite Hpre in Hp. by apply Forall_app in Hp as [_ ?]. }
  rewrite <- (elems_skip path). assert (Hhd := skip_slashes_hd path).
  assert (Hlen : (length (skip_slashes path) ≤ length path)%nat)
    by (apply (f_equal length) in Hpre; rewrite length_app in Hpre; lia).
  clear Hpre. set (p := skip_slashes path) in *. clearbody p.
  destruct p as [|c p]; [done|]. simpl in Hhd.
  assert (Hc : c ≠ 0) by by inversion Hs. cbn [hd]. rewrite (proj2 (Z.eqb_neq _ _)) by done.
  destruct (span_elem (c :: p)) as [s r] eqn:E. pose proof E as E0.
  apply span_elem_spec in E as (Heq&He&Hs'&Hr); [|done].
  assert (s ≠ []) as Hne.
  { intros ->. cbn [span_elem] in E0. rewrite !(proj2 (Z.eqb_neq _ _)) in E0 by done. simpl in E0.
    by destruct (span_elem p). }
  rewrite decide_False in He by done. exists s. rewrite elems_skip.
  destruct (skipelem_name s name Hs' Hn) as [H1 H2].
  destruct (skip_slashes_suffix r) as [pre' Hpre'].
  assert (Hsr : is_str (skip_slashes r)).
  { unfold is_str in *. rewrite Heq, Hpre' in Hs. apply Forall_app in Hs as [_ Hs]. by apply Forall_app in Hs as [_ ?]. }
  split_and!; try done.
  - apply (f_equal length) in Hpre', Heq. rewrite length_app in Hpre', Heq.
    destruct s; [done|]. simpl in *. lia.
  - apply skip_slashes_hd.
  - rewrite <- (elems_skip r). pose proof (skip_slashes_hd r) as Hh.
    destruct (skip_slashes r) as [|x q]; [done|]. simpl in Hh |- *. split.
    + intros ->. inversion Hsr. done.
    + intros Hel. exfalso. unfold elems in Hel. cbn [split_slash] in Hel.
      rewrite (proj2 (Z.eqb_neq _ _)) in Hel by done. by destruct (split_slash q).
Qed.

Section Dir.
Context {B : Type} {BB : Blocks B} {BL : BlockLaws B} {DV : Devsw B}.

(** One turn of the loop of [dirlookup]. *)
Definition dirlookup_step (i : nat) (name : list Z) (off : Z)
  : M (fs B) (Z + option (nat * Z)) :=
  dp ← inode_at i;
  if off <? i_size dp then
    '(r, de) ← readi i off DESIZE;
    if negb (r =? DESIZE) then panic "dirlink read" else
    if de_inum de =? 0 then mret (inl (u32 (off + DESIZE))) else
    if namecmp name (de_name de) =? 0 then
      j ← iget (i_dev dp) (de_inum de);
      mret (inr (Some (j, off)))
    else mret (inl (u32 (off + DESIZE)))
  else mret (inr None).

(** Look for a directory entry: the inode and the offset of the entry. *)
Definition dirlookup (i : nat) (name : list Z) : M (fs B) (option (nat * Z)) :=
  dp ← inode_at i;
  if negb (i_type dp =? T_DIR) then panic "dirlookup not DIR" else
  loop (S (S (Z.to_nat (i_size dp / DESIZE)))) (dirlookup_step i name) 0.

(** One turn of the search for an empty entry; [off] is an [int]. *)
Definition dirlink_step (i : nat) (st : Z * list Z) : M (fs B) (Z * list Z + Z * list Z) :=
  let '(off, de) := st in
  dp ← inode_at i;
  if u32 off <? i_size dp then
    '(r, de) ← readi i (u32 off) DESIZE;
    if negb (r =? DESIZE) then panic "dirlink read" else
    if de_inum de =? 0 then mret (inr (off, de))
    else mret (inl (i32 (off + DESIZE), de))
  else mret (inr (off, de)).

(** Write a new directory entry (name, inum) into the directory [i]. *)
Definition dirlink (i : nat) (name : list Z) (inum : Z) : M (fs B) Z :=
  r ← dirlookup i name;
  match r with
  | Some (j, _) => iput j;; mret (-1)
  | None =>
      dp ← inode_at i;
      '(off, de) ← loop (S (S (Z.to_nat (i_size dp / DESIZE)))) (dirlink_step i)
                     (0, replicate 16 0);
      r ← writei i (new_dirent name inum de) (u32 off) DESIZE;
      if negb (r =? DESIZE) then panic "dirlink" else mret 0
  end.

(** One turn of the loop of [namex]: [ip], [path] and the array [name]. *)
Definition namex_step (nameiparent : bool) (st : nat * list Z * list Z)
  : M (fs B) (nat * list Z * list Z + option nat * list Z) :=
  let '(ip, path, name) := st in
  match skipelem path name with
  | None =>
      if nameiparent then iput ip;; mret (inr (None, name))
      else mret (inr (Some ip, name))
  | Some (path, name) =>
      ilock ip;;
      d ← inode_at ip;
      if negb (i_type d =? T_DIR) then iunlockput ip;; mret (inr (None, name)) else
      if nameiparent && (hd 0 path =? 0) then iunlock ip;; mret (inr (Some ip, name)) else
      next ← dirlookup ip name;
      match next with
      | None => iunlockput ip;; mret (inr (None, name))
      | Some (next, _) => iunlockput ip;; mret (inl (next, path, name))
      end
  end.

Definition cwd : M (fs B) nat :=
  p ← ik curproc;
  ik (deref (λ k, k_procs k !! p ≫= p_cwd)).

(** Look up and return the inode for a path name, and the array [name]. *)
Definition namex (path : list Z) (nameiparent : bool) (name : list Z)
  : M (fs B) (option nat * list Z) :=
  ip ← (if hd 0 path =? SLASH then iget ROOTDEV ROOTINO else c ← cwd; idup c);
  loop (S (length path)) (namex_step nameiparent) (ip, path, name).

(** The array [name] of [namei] is not initialised; nothing reads it before
    [skipelem] has written it. *)
Definition namei (path : list Z) : M (fs B) (option nat) :=
  '(r, _) ← namex path false (replicate 14 0);
  mret r.
Definition nameiparent (path name : list Z) : M (fs B) (option nat * list Z) :=
  namex path true name.
End Dir.

Section DirLaws.
Context {B : Type} {BB : Blocks B} {BL : BlockLaws B} {DV : Devsw B}.
Variables (P : Z → Z → Prop) (dev : Z) (sb : superblock).
Implicit Types (V : Z → Z → list Z) (X : gset nat) (Hd : gmap nat (Z * Z)).
Implicit Types (b : B) (l : list inode) (s : fs B) (ip : inode).

(** The entries of a directory, and what it means that entry [k] has a name. *)
Definition dirent_at V ip (k : Z) : list Z := file_bytes dev V ip (DESIZE * k) DESIZE.
Definition named V ip (name : list Z) (k : Z) : Prop :=
  de_inum (dirent_at V ip k) ≠ 0 ∧ cname 14 (de_name (dirent_at V ip k)) = cname 14 name.

(** A directory that [dirlookup] can read: whole entries, made of bytes. *)
Record dir_ok V ip : Prop := {
  do_geom : fs_geom P V dev sb;
  do_file : file_ok P dev sb V ip;
  do_mapped : mapped dev V ip;
  do_type : i_type ip = T_DIR;
  do_size : i_size ip mod DESIZE = 0;
  do_bytes : ∀ k, 0 ≤ k < i_size ip / DESIZE → is_bytes (dirent_at V ip k)
}.

Lemma dir_size V ip : dir_ok V ip → i_size ip = DESIZE * (i_size ip / DESIZE) ∧ 0 ≤ i_size ip ≤ 71680.
Proof.
  intros Hd. pose proof (do_size _ _ Hd). pose proof (mp_size _ _ _ (do_mapped _ _ Hd)) as Hs.
  change (MAXFILE * BSIZE) with 71680 in Hs. unfold DESIZE in *. split; [|lia].
  Z.div_mod_to_equations. lia.
Qed.

(** Reading one entry. *)
Lemma read_dirent V X Hd b l i ip k (Q : Z * list Z → fs B → Prop) :
  bl_inv P V X Hd b → l !! i = Some ip → dir_ok V ip → 0 ≤ k < i_size ip / DESIZE →
  (∀ b', bl_inv P V X Hd b' → Q (DESIZE, dirent_at V ip k) (Fs b' l)) →
  wp (readi i (DESIZE * k) DESIZE) Q (Fs b l).
Proof.
  intros Hi Hip Hdir Hk HQ. destruct (dir_size V ip Hdir) as [Hs Hr]. unfold DESIZE in *.
  eapply wp_mono.
  { eapply readi_wp; [exact Hi|exact Hip|apply Hdir|apply Hdir|apply Hdir| | |]; [|lia|lia].
    by rewrite (do_type _ _ Hdir). }
  intros r [b' l'] (Hl&H'&->). simpl in Hl, H'. subst l'.
  rewrite (proj2 (Z.ltb_ge _ _)), (proj2 (Z.leb_gt _ _)) by lia. cbn [orb].
  replace (Z.min 16 (i_size ip - 16 * k)) with 16 by lia. by apply HQ.
Qed.

Lemma dirlookup_wp V X Hd b l i ip name (Q : option (nat * Z) → fs B → Prop) :
  bl_inv P V X Hd b → icache_ok l → l !! i = Some ip → dir_ok V ip → is_bytes name →
  (∀ b', bl_inv P V X Hd b' → (∀ k, 0 ≤ k < i_size ip / DESIZE → ¬ named V ip name k) →
     Q None (Fs b' l)) →
  (∀ b' l' j k, bl_inv P V X Hd b' → icache_ok l' → 0 ≤ k < i_size ip / DESIZE →
     named V ip name k → (∀ k', 0 ≤ k' < k → ¬ named V ip name k') →
     got l l' j dev (de_inum (dirent_at V ip k)) → Q (Some (j, DESIZE * k)) (Fs b' l')) →
  wp (dirlookup i name) Q (Fs b l).
Proof.
  intros Hi Hc Hip Hdir Hname HN HS. unfold dirlookup. eapply inode_at_wp; [done|].
  rewrite (do_type _ _ Hdir). cbn [negb Z.eqb T_DIR].
  destruct (dir_size V ip Hdir) as [Hs Hr]. set (n := i_size ip / DESIZE) in *. unfold DESIZE in Hs.
  eapply (wp_loop _ (λ off s, ∃ k, off = DESIZE * k ∧ 0 ≤ k ≤ n ∧ fs_inode s = l ∧
      bl_inv P V X Hd (fs_bl s) ∧ ∀ k', 0 ≤ k' < k → ¬ named V ip name k') Q
    (λ off, Z.to_nat (DESIZE * n + 1 - off) / 16)%nat).
  - intros off [b1 l1] (k&->&Hk&Hl&H1&Hno). simpl in Hl, H1. subst l1. unfold dirlookup_step.
    eapply inode_at_wp; [done|]. unfold DESIZE at 1. rewrite Hs.
    destruct (Z.ltb_spec (16 * k) (16 * n)) as [Hlt|Hge].
    2:{ apply wp_ret. replace k with n in * by lia. by apply HN. }
    apply wp_bind. eapply read_dirent; [done..|unfold n in *; lia|]. intros b2 H2.
    rewrite Z.eqb_refl. cbn [negb]. set (de := dirent_at V ip k).
    assert (Hnext : ¬ named V ip name k → wp (S := fs B) (mret (inl (u32 (DESIZE * k + DESIZE))))
      (λ r s', match r with
       | inl x' => (∃ k, x' = DESIZE * k ∧ 0 ≤ k ≤ n ∧ fs_inode s' = l ∧
           bl_inv P V X Hd (fs_bl s') ∧ ∀ k', 0 ≤ k' < k → ¬ named V ip name k') ∧
           (Z.to_nat (DESIZE * n + 1 - x') / 16 < Z.to_nat (DESIZE * n + 1 - DESIZE * k) / 16)%nat
       | inr y => Q y s' end) (Fs b2 l)).
    { intros Hnot. apply wp_ret. unfold DESIZE in *. rewrite u32_small by lia. split.
      - exists (k + 1). split_and!; [lia|lia|lia|done|done|]. intros k' Hk'.
        destruct (decide (k' = k)) as [->|]; [done|]. apply Hno. lia.
      - replace (Z.to_nat (16 * n + 1 - 16 * k)) with (Z.to_nat (16 * n + 1 - (16 * k + 16)) + 1 * 16)%nat by lia.
        rewrite Nat.div_add by lia. lia. }
    destruct (Z.eqb_spec (de_inum de) 0) as [Hz|Hz].
    { apply Hnext. intros [Hnz _]. done. }
    assert (Hbde : is_bytes (de_name de))
      by (apply Forall_drop, (do_bytes _ _ Hdir); unfold n in *; lia).
    destruct (Z.eqb_spec (namecmp name (de_name de)) 0) as [He|He].
    + apply namecmp_zero in He; [|done..]. apply wp_bind. rewrite (fo_dev _ _ _ _ _ (do_file _ _ Hdir)).
      eapply iget_wp; [exact H2|done|]. intros j l' Hl' Hgot. apply wp_ret.
      apply HS; try done. lia.
    + apply Hnext. intros [_ Hn]. apply He, namecmp_zero; [done..|]. done.
  - exists 0. split_and!; [done|lia|unfold n; apply Z.div_pos; unfold DESIZE; lia|done|done|lia].
  - rewrite Z.sub_0_r. fold n. unfold DESIZE.
    assert (Z.to_nat (16 * n + 1) / 16 < S (S (Z.to_nat n)))%nat; [|done].
    apply Nat.Div0.div_lt_upper_bound. lia.
Qed.

(** [dirlookup] returns the inode of the first entry with the name, and
    its offset, or 0 exactly when no entry has it.  It changes no block, and
    the cache only by the reference it returns. *)
Theorem dirlookup_correct V X Hd b l i ip name :
  bl_inv P V X Hd b → icache_ok l → l !! i = Some ip → dir_ok V ip → is_bytes name →
  wp (dirlookup i name) (λ r s', bl_inv P V X Hd (fs_bl s') ∧ icache_ok (fs_inode s') ∧
    match r with
    | None => fs_inode s' = l ∧ ∀ k, 0 ≤ k < i_size ip / DESIZE → ¬ named V ip name k
    | Some (j, off) => ∃ k, off = DESIZE * k ∧ 0 ≤ k < i_size ip / DESIZE ∧ named V ip name k ∧
        (∀ k', 0 ≤ k' < k → ¬ named V ip name k') ∧
        got l (fs_inode s') j dev (de_inum (dirent_at V ip k))
    end) (Fs b l).
Proof.
  intros Hi Hc Hip Hdir Hn. eapply dirlookup_wp; [done..| |].
  - intros b' H' Hno. done.
  - intros b' l' j k H' Hl' Hk Hnm Hno Hg. split_and!; [done|done|]. by exists k.
Qed.

(** ** Adding an entry *)

(** Dropping the reference [iget] gave. *)
Lemma got_iput V X Hd b l l' j inum (Q : unit → fs B → Prop) :
  bl_inv P V X Hd b → icache_ok l → icache_ok l' → got l l' j dev inum →
  (∀ l2, icache_ok l2 → (∀ i ip, l !! i = Some ip → 0 < i_ref ip → l2 !! i = Some ip) →
     Q tt (Fs b l2)) →
  wp (iput j) Q (Fs b l').
Proof.
  intros Hi Hc Hc' (ip&Hip&Hoth&Hg) HQ.
  assert (∃ jp, l' !! j = Some jp ∧ 0 < i_ref jp ∧
    ((i_ref jp =? 1) && has (i_flags jp) I_VALID && (i_nlink jp =? 0)) = false ∧
    (0 < i_ref ip → set_i_ref (i_ref jp - 1) jp = ip)) as (jp&Hjp&Hr&Hcond&Hback).
  { destruct Hg as [[(Hr&_) Hg]|(_&Hr&Hg)]; eexists; (split; [exact Hg|]); simpl.
    - split_and!; [lia|rewrite (proj2 (Z.eqb_neq _ _)) by lia; done|]. intros _.
      unfold set_i_ref; simpl. replace (i_ref ip + 1 - 1) with (i_ref ip) by lia. by destruct ip.
    - split_and!; [lia|done|lia]. }
  eapply iput_wp; [done..|]. apply HQ.
  - rewrite <- (alter_insert (λ x, set_i_ref (i_ref x - 1) x) j l' jp) by done.
    eapply icache_alter; [done..| | |]; simpl; [lia|by eapply ic_flags|]. intros _. left. lia.
  - intros i x Hx Hxr. destruct (decide (i = j)) as [->|Hne].
    + simplify_eq. rewrite (insert_at j jp) by done. f_equal. auto.
    + rewrite list_lookup_insert_ne by done. by rewrite Hoth.
Qed.

(** The loop that looks for an empty entry. *)
Lemma dirlink_loop V X Hd b l i ip (Q : Z * list Z → fs B → Prop) :
  bl_inv P V X Hd b → l !! i = Some ip → dir_ok V ip →
  (∀ b' k de, bl_inv P V X Hd b' → length de = 16%nat → 0 ≤ k ≤ i_size ip / DESIZE →
     (k < i_size ip / DESIZE → de_inum (dirent_at V ip k) = 0) → Q (DESIZE * k, de) (Fs b' l)) →
  wp (loop (S (S (Z.to_nat (i_size ip / DESIZE)))) (dirlink_step i) (0, replicate 16 0)) Q (Fs b l).
Proof.
  intros Hi Hip Hdir HQ. destruct (dir_size V ip Hdir) as [Hs Hr].
  set (n := i_size ip / DESIZE) in *. unfold DESIZE in Hs.
  eapply (wp_loop _ (λ st s, ∃ k, st.1 = DESIZE * k ∧ length st.2 = 16%nat ∧ 0 ≤ k ≤ n ∧
      fs_inode s = l ∧ bl_inv P V X Hd (fs_bl s)) Q
    (λ st, Z.to_nat (DESIZE * n + 1 - st.1) / 16)%nat).
  - intros [off de] [b1 l1] (k&Hoff&Hde&Hk&Hl&H1). simpl in Hoff, Hde, Hl, H1. subst l1 off.
    unfold dirlink_step. eapply inode_at_wp; [done|]. unfold DESIZE at 1.
    rewrite (u32_small (16 * k)), Hs by lia.
    destruct (Z.ltb_spec (16 * k) (16 * n)) as [Hlt|Hge].
    2:{ apply wp_ret. apply HQ; try done. lia. }
    rewrite (u32_small (DESIZE * k)) by (unfold DESIZE; lia).
    apply wp_bind. eapply read_dirent; [done..|unfold n in *; lia|]. intros b2 H2.
    rewrite Z.eqb_refl. cbn [negb].
    assert (Hl16 : length (dirent_at V ip k) = 16%nat) by apply length_file_bytes.
    destruct (Z.eqb_spec (de_inum (dirent_at V ip k)) 0) as [Hz|Hz].
    { apply wp_ret. by apply HQ. }
    apply wp_ret. unfold DESIZE in *. rewrite i32_small by lia. split; [exists (k + 1)|].
    + simpl. split_and!; try done; lia.
    + cbn [fst]. replace (Z.to_nat (16 * n + 1 - 16 * k)) with (Z.to_nat (16 * n + 1 - (16 * k + 16)) + 1 * 16)%nat by lia.
      rewrite Nat.div_add by lia. lia.
  - exists 0. split_and!; try done; [unfold n; apply Z.div_pos; unfold DESIZE; lia].
  - simpl fst. rewrite Z.sub_0_r. unfold DESIZE.
    assert (Z.to_nat (16 * n + 1) / 16 < S (S (Z.to_nat n)))%nat; [|done].
    apply Nat.Div0.div_lt_upper_bound. lia.
Qed.

(** The directory after the write of an entry. *)
Lemma dirent_written V ip V' ip' k de : dir_ok V ip → length de = 16%nat → is_bytes de →
  0 ≤ k ≤ i_size ip / DESIZE → written P dev sb V ip V' ip' (DESIZE * k) DESIZE de →
  dir_ok V' ip' ∧ i_size ip' / DESIZE = Z.max (i_size ip / DESIZE) (k + 1) ∧
  ∀ j, 0 ≤ j < i_size ip' / DESIZE →
    dirent_at V' ip' j = if j =? k then de else dirent_at V ip j.
Proof.
  intros Hdir Hde Hb Hk [W1 W2 W3 [a W4] W5 W6 W7]. destruct (dir_size V ip Hdir) as [Hs Hr].
  assert (Hsz : i_size ip' = DESIZE * Z.max (i_size ip / DESIZE) (k + 1)).
  { rewrite W4. unfold i_size at 1; simpl. unfold DESIZE in *. lia. }
  assert (Hn : i_size ip' / DESIZE = Z.max (i_size ip / DESIZE) (k + 1)).
  { rewrite Hsz, Z.mul_comm. by apply Z.div_mul. }
  assert (Hent : ∀ j, 0 ≤ j < i_size ip' / DESIZE →
    dirent_at V' ip' j = if j =? k then de else dirent_at V ip j).
  { intros j Hj. rewrite Hn in Hj. unfold dirent_at, file_bytes, DESIZE in *. apply list_eq. intros m.
    rewrite list_lookup_fmap. destruct (decide (m < 16)%nat) as [Hm|Hm].
    - rewrite lookup_seq_lt by lia. cbn [fmap option_fmap option_map]. rewrite W5 by lia.
      destruct (Z.eqb_spec j k) as [->|Hne].
      + rewrite (proj2 (Z.leb_le _ _)), (proj2 (Z.ltb_lt _ _)) by lia. cbn [andb]. rewrite nth_lookup.
        destruct (lookup_lt_is_Some_2 de m) as [x Hx]; [lia|].
        replace (Z.to_nat (16 * k + Z.of_nat (0 + m) - 16 * k)) with m by lia. by rewrite Hx.
      + rewrite list_lookup_fmap, lookup_seq_lt by lia. cbn [fmap option_fmap option_map].
        destruct (Z.leb_spec (16 * k) (16 * j + Z.of_nat (0 + m))),
          (Z.ltb_spec (16 * j + Z.of_nat (0 + m)) (16 * k + 16)); try lia; done.
    - rewrite lookup_seq_ge by lia. simpl. symmetry. apply lookup_ge_None_2.
      destruct (j =? k); [lia|]. change (length (file_bytes dev V ip (16 * j) 16) ≤ m)%nat.
      rewrite length_file_bytes. lia. }
  split_and!; [|done|done]. split; try done.
  - rewrite W4. exact (do_type _ _ Hdir).
  - rewrite Hsz, Z.mul_comm. by apply Z.mod_mul.
  - intros j Hj. rewrite Hent by done. destruct (Z.eqb_spec j k); [done|].
    apply (do_bytes _ _ Hdir). rewrite Hn in Hj. lia.
Qed.

(** What a successful [dirlink] makes of the directory: entry [k], an empty
    one or the first behind the end, is the new one; the others are kept. *)
Record linked V ip V' ip' (name : list Z) (inum k : Z) : Prop := {
  ln_dir : dir_ok V' ip';
  ln_slot : 0 ≤ k ≤ i_size ip / DESIZE;
  ln_free : k < i_size ip / DESIZE → de_inum (dirent_at V ip k) = 0;
  ln_size : i_size ip' / DESIZE = Z.max (i_size ip / DESIZE) (k + 1);
  ln_inum : de_inum (dirent_at V' ip' k) = u16 inum;
  ln_name : cname 14 (de_name (dirent_at V' ip' k)) = cname 14 name;
  ln_other : ∀ j, 0 ≤ j < i_size ip' / DESIZE → j ≠ k → dirent_at V' ip' j = dirent_at V ip j;
  ln_frame : ∀ c, good P dev sb V c → c ≠ addr_at ip NDIRECT →
    (∀ q, 0 ≤ q < MAXFILE → c ≠ fblock dev V ip q) → V' dev c = V dev c ∧ good P dev sb V' c;
  ln_same : ∃ addrs, ip' = upd_i_d (λ d, set_di_size (DESIZE * Z.max (i_size ip / DESIZE) (k + 1))
    (set_di_addrs addrs d)) ip
}.

Lemma dirlink_wp V X Hd b l i ip name inum (Q : Z → fs B → Prop) :
  bl_inv P V X Hd b → icache_ok l → l !! i = Some ip → dir_ok V ip →
  inode_fits P dev sb ip → is_bytes name →
  (∀ b' l' k, bl_inv P V X Hd b' → icache_ok l' → 0 ≤ k < i_size ip / DESIZE → named V ip name k →
     (∀ j jp, l !! j = Some jp → 0 < i_ref jp → l' !! j = Some jp) → Q (-1) (Fs b' l')) →
  (∀ b' V' ip' k, (∀ k, 0 ≤ k < i_size ip / DESIZE → ¬ named V ip name k) →
     bl_inv P V' X Hd b' → linked V ip V' ip' name inum k → Q 0 (Fs b' (<[i := ip']> l))) →
  wp (dirlink i name inum) Q (Fs b l).
Proof.
  intros Hi Hc Hip Hdir Hfit Hname HF HS. unfold dirlink. apply wp_bind.
  eapply dirlookup_wp; [done..| |].
  2:{ intros b1 l1 j k H1 Hc1 Hk Hnm _ Hg. apply wp_bind. eapply got_iput; [exact H1|exact Hc|done|done|].
      intros l2 Hc2 Hkeep. apply wp_ret. by eapply HF. }
  intros b1 H1 Hno. eapply inode_at_wp; [done|]. apply wp_bind.
  eapply dirlink_loop; [exact H1|done|done|]. intros b2 k de H2 Hde Hk Hfree.
  destruct (dir_size V ip Hdir) as [Hs Hr]. apply wp_bind.
  rewrite u32_small by (unfold DESIZE in *; lia).
  eapply writei_wp; [exact H2|exact Hip|apply Hdir|apply Hdir|apply Hdir|done| | | | | |].
  - by rewrite (do_type _ _ Hdir).
  - unfold DESIZE in *. lia.
  - unfold DESIZE. lia.
  - by rewrite length_new_dirent.
  - intros _. by apply wp_panic.
  - intros b' V' ip' _ H' Hw. rewrite Z.eqb_refl. cbn [negb]. apply wp_ret.
    destruct (dirent_written V ip V' ip' k _ Hdir (length_new_dirent name inum de Hde)
      (new_dirent_bytes name inum de Hde Hname) Hk Hw) as (Hd'&Hn'&Hent).
    assert (Hk' : 0 ≤ k < i_size ip' / DESIZE) by (rewrite Hn'; lia).
    assert (Hek := Hent k Hk'). rewrite Z.eqb_refl in Hek.
    apply (HS b' V' ip' k Hno H'). split; try done.
    + rewrite Hek. by apply new_dirent_inum.
    + rewrite Hek. by apply new_dirent_name.
    + intros j Hj Hne. rewrite Hent by done. by destruct (Z.eqb_spec j k).
    + apply Hw.
    + destruct (wi_same _ _ _ _ _ _ _ _ _ _ Hw) as [a ->]. exists a.
      replace (DESIZE * Z.max _ _) with (Z.max (i_size ip) (DESIZE * k + DESIZE)); [done|].
      unfold DESIZE in *. lia.
Qed.

(** C29: [dirlink] returns -1 and changes no block when the name is there;
    else it writes the entry into the first free slot or behind the last
    entry, keeps all other entries and every block of other files.  (A
    directory that cannot grow ends in the panic of the source.) *)
Theorem dirlink_correct V X Hd b l i ip name inum :
  bl_inv P V X Hd b → icache_ok l → l !! i = Some ip → dir_ok V ip →
  inode_fits P dev sb ip → is_bytes name →
  wp (dirlink i name inum) (λ r s',
    (r = -1 ∧ bl_inv P V X Hd (fs_bl s') ∧ icache_ok (fs_inode s') ∧
     (∃ k, 0 ≤ k < i_size ip / DESIZE ∧ named V ip name k) ∧
     (∀ j jp, l !! j = Some jp → 0 < i_ref jp → fs_inode s' !! j = Some jp)) ∨
    (r = 0 ∧ (∀ k, 0 ≤ k < i_size ip / DESIZE → ¬ named V ip name k) ∧
     ∃ V' ip' k, fs_inode s' = <[i := ip']> l ∧ bl_inv P V' X Hd (fs_bl s') ∧
       linked V ip V' ip' name inum k)) (Fs b l).
Proof.
  intros. eapply dirlink_wp; [done..| |].
  - intros b' l' k ? ? ? ? ?. left. split_and!; eauto.
  - intros b' V' ip' k ? ? ?. right. split_and!; [done|done|]. by exists V', ip', k.
Qed.

Lemma linked_icache V ip V' ip' name inum k l i : icache_ok l → l !! i = Some ip →
  linked V ip V' ip' name inum k → icache_ok (<[i := ip']> l).
Proof.
  intros Hc Hip [_ _ _ _ _ _ _ _ [a ->]].
  rewrite <- (alter_insert (upd_i_d (λ d, set_di_size (DESIZE * Z.max (i_size ip / DESIZE) (k + 1))
    (set_di_addrs a d))) i l ip) by done.
  eapply icache_alter; [done..| | |]; simpl; [by eapply ic_ref|by eapply ic_flags|]. intros Hr. left. done.
Qed.

(** A new name that [dirlink] adds is found by [dirlookup], with the
    inode number given. *)
Theorem dirlink_dirlookup V X Hd b l i ip name inum :
  bl_inv P V X Hd b → icache_ok l → l !! i = Some ip → dir_ok V ip →
  inode_fits P dev sb ip → is_bytes name → 0 < inum < 65536 →
  (∀ k, 0 ≤ k < i_size ip / DESIZE → ¬ named V ip name k) →
  wp (r ← dirlink i name inum; f ← dirlookup i name; mret (r, f)) (λ rf s',
    rf.1 = 0 ∧ ∃ j off l1, rf.2 = Some (j, off) ∧ got l1 (fs_inode s') j dev inum) (Fs b l).
Proof.
  intros Hi Hc Hip Hdir Hfit Hname Hinum Hnew. apply wp_bind.
  eapply dirlink_wp; [done..| |].
  - intros b1 l1 k H1 Hc1 Hk Hnm. by destruct (Hnew k Hk).
  - intros b1 V1 ip1 k _ H1 Hln. apply wp_bind.
    eapply dirlookup_wp; [exact H1|by eapply linked_icache|by eapply insert_at|apply Hln|done| |].
    + intros b2 H2 Hno2. exfalso. apply (Hno2 k); [rewrite (ln_size _ _ _ _ _ _ _ Hln); destruct Hln; lia|].
      split; [rewrite (ln_inum _ _ _ _ _ _ _ Hln)|by eapply ln_name].
      unfold u16. rewrite Z.mod_small by lia. lia.
    + intros b2 l2 j k2 H2 Hc2 Hk2 Hnm2 _ Hg. apply wp_ret. split; [done|]. cbn [fst snd].
      exists j, (DESIZE * k2), (<[i := ip1]> l). split; [done|].
      destruct (decide (k2 = k)) as [->|Hne].
      * rewrite (ln_inum _ _ _ _ _ _ _ Hln) in Hg. unfold u16 in Hg. by rewrite Z.mod_small in Hg by lia.
      * exfalso. assert (Hold := ln_other _ _ _ _ _ _ _ Hln k2 Hk2 Hne).
        unfold named in Hnm2. rewrite Hold in Hnm2. apply (Hnew k2); [|done].
        rewrite (ln_size _ _ _ _ _ _ _ Hln) in Hk2. pose proof (ln_slot _ _ _ _ _ _ _ Hln). lia.
Qed.
End DirLaws.

(** ** On the example image *)

Lemma skipelem_correct_witness :
  (** "//a//bb" *)
  skipelem [47; 47; 97; 47; 47; 98; 98] (replicate 14 1) =
    Some ([98; 98], [97; 0] ++ replicate 12 1) ∧
  elems [47; 47; 97; 47; 47; 98; 98] = [97] :: elems [98; 98].
Proof.
  assert (Hw := skipelem_correct [47; 47; 97; 47; 47; 98; 98] (replicate 14 1)
    ltac:(repeat constructor; lia) eq_refl).
  split; [reflexivity|]. cbn in Hw. destruct Hw as (e&He&_). exact eq_refl.
Defined.

Lemma ex_root_dir : dir_ok ex_P 1 ex_sb12 ex_V ex_root_ip.
Proof.
  split; [exact ex_geom|exact ex_root_ok|exact ex_root_mapped|done|done|].
  intros k Hk. assert (k = 0 ∨ k = 1 ∨ k = 2) as Hk' by (change (i_size ex_root_ip / DESIZE) with 3 in Hk; lia).
  destruct Hk' as [->|[->| ->]]; apply check_bytes; vm_compute; reflexivity.
Qed.

Definition ex_dcache : list inode := ex_root_ip :: replicate 49 (Inode 0 0 0 0 di_zero).

Lemma ex_dcache_ok : icache_ok ex_dcache.
Proof.
  assert (Hat : ∀ i ip, ex_dcache !! i = Some ip → i = 0%nat ∧ ip = ex_root_ip ∨ i_ref ip = 0 ∧ i_flags ip = 0).
  { intros [|i] ip Hi; [injection Hi as <-; by left|]. right. apply lookup_replicate in Hi as [-> _]. done. }
  split; [done| | |].
  - intros i ip Hi. destruct (Hat i ip Hi) as [[_ ->]|[-> _]]; [by vm_compute|done].
  - intros i ip Hi. destruct (Hat i ip Hi) as [[_ ->]|[_ ->]]; [by vm_compute|done].
  - intros i j ip jp Hi Hj. destruct (Hat i ip Hi) as [[-> ->]|[Hr _]], (Hat j jp Hj) as [[-> ->]|[Hr' _]]; try done; lia.
Qed.

Lemma ex_no_b k : 0 ≤ k < i_size ex_root_ip / DESIZE → ¬ named 1 ex_V ex_root_ip [98] k.
Proof.
  intros Hk [_ Hn]. assert (k = 0 ∨ k = 1 ∨ k = 2) as Hk'
    by (change (i_size ex_root_ip / DESIZE) with 3 in Hk; lia).
  destruct Hk' as [->|[->| ->]]; vm_compute in Hn; discriminate Hn.
Qed.

Lemma dirlookup_correct_witness :
  ∃ s', dirlookup 0 [97] (Fs ex_fs_log ex_dcache) = Ok (Some (1%nat, 32)) s' ∧ icache_ok (fs_inode s').
Proof.
  assert (Hw := dirlookup_correct ex_P 1 ex_sb12 ex_V ∅ ∅ ex_fs_log ex_dcache 0 ex_root_ip [97]
    ex_fs_inv ex_dcache_ok eq_refl ex_root_dir (check_bytes [97] eq_refl)).
  destruct (dirlookup 0 [97] (Fs ex_fs_log ex_dcache)) as [r s'| | | | |] eqn:E;
    [|vm_compute in E; discriminate E..].
  assert (Hb : match dirlookup 0 [97] (Fs ex_fs_log ex_dcache) with Ok r _ => r | _ => None end =
    Some (1%nat, 32)) by (vm_compute; reflexivity).
  rewrite E in Hb. subst r. destruct (wp_ok _ _ _ _ _ Hw E) as (_&Hc&_). exists s'. split; [reflexivity|exact Hc].
Defined.

Lemma dirlink_correct_witness :
  ∃ s' V' ip' k, dirlink 0 [98] 2 (Fs ex_fs_log ex_dcache) = Ok 0 s' ∧
    linked ex_P 1 ex_sb12 ex_V ex_root_ip V' ip' [98] 2 k.
Proof.
  assert (Hw := dirlink_correct ex_P 1 ex_sb12 ex_V ∅ ∅ ex_fs_log ex_dcache 0 ex_root_ip [98] 2
    ex_fs_inv ex_dcache_ok eq_refl ex_root_dir ex_root_fits (check_bytes [98] eq_refl)).
  destruct (dirlink 0 [98] 2 (Fs ex_fs_log ex_dcache)) as [r s'| | | | |] eqn:E;
    [|vm_compute in E; discriminate E..].
  destruct (wp_ok _ _ _ _ _ Hw E) as [(_&_&_&(k&Hk&Hn)&_)|(->&_&V'&ip'&k&_&_&Hl)].
  - by destruct (ex_no_b k Hk).
  - exists s', V', ip', k. split; [reflexivity|exact Hl].
Defined.

Lemma dirlink_dirlookup_witness :
  ∃ s' j off, (r ← dirlink 0 [98] 2; f ← dirlookup 0 [98]; mret (r, f)) (Fs ex_fs_log ex_dcache) =
    Ok (0, Some (j, off)) s'.
Proof.
  assert (Hw := dirlink_dirlookup ex_P 1 ex_sb12 ex_V ∅ ∅ ex_fs_log ex_dcache 0 ex_root_ip [98] 2
    ex_fs_inv ex_dcache_ok eq_refl ex_root_dir ex_root_fits (check_bytes [98] eq_refl)
    ltac:(lia) ex_no_b).
  destruct ((r ← dirlink 0 [98] 2; f ← dirlookup 0 [98]; mret (r, f)) (Fs ex_fs_log ex_dcache))
    as [[r f] s'| | | | |] eqn:E; [|vm_compute in E; discriminate E..].
  destruct (wp_ok _ _ _ _ _ Hw E) as (Hr&j&off&l1&Hf&_). simpl in Hr, Hf. subst r f.
  by exists s', j, off.
Defined.
