(* ===== verification/Namex.v ===== *)
(** Path resolution (fs.c): [namex], [namei] and [nameiparent] against a walk
    of the directory tree on the disk, with the references they take and drop
    in the inode cache. *)
From S2P Require Import Prelude Kmonad Wp Kstate Spinlock Sleep Str Disk Log Blocks FsEx Balloc Inode Dinode Icache FileData Dir.

Section Namex.
Context {B : Type} {BB : Blocks B} {BL : BlockLaws B} {DV : Devsw B}.
Variables (P : Z → Z → Prop) (dev : Z) (sb : superblock).
Implicit Types (V : Z → Z → list Z) (X : gset nat) (Hd : gmap nat (Z * Z)).
Implicit Types (b : B) (l : list inode) (s : fs B) (ip : inode).

(** ** The tree on the disk *)

(** Inode [inum] as the disk has it. *)
Definition dnode V (inum : Z) : inode :=
  Inode dev inum 1 3 (dinode_get inum (V dev (IBLOCK inum))).
Definition is_dir V (inum : Z) : bool := i_type (dnode V inum) =? T_DIR.

(** Entry [k] of the directory has the name [e], of which 14 bytes count. *)
Definition entry_is V (inum : Z) (e : list Z) (k : nat) : Prop :=
  de_inum (dirent_at dev V (dnode V inum) (Z.of_nat k)) ≠ 0 ∧
  cname 14 (de_name (dirent_at dev V (dnode V inum) (Z.of_nat k))) = take 14 e.
#[global] Instance entry_is_dec V inum e k : Decision (entry_is V inum e k).
Proof. unfold entry_is. apply _. Defined.

(** The inode a directory gives for a name: that of the first such entry. *)
Definition entry_of V (inum : Z) (e : list Z) : option Z :=
  (λ r, de_inum (dirent_at dev V (dnode V inum) (Z.of_nat r.2))) <$>
    list_find (entry_is V inum e) (seq 0 (Z.to_nat (i_size (dnode V inum) / DESIZE))).

(** Reference: where a list of path elements leads. *)
Fixpoint walk V (inum : Z) (es : list (list Z)) : option Z :=
  match es with
  | [] => Some inum
  | e :: es => if is_dir V inum then entry_of V inum e ≫= λ n, walk V n es else None
  end.

(** ... and which directory, and what name, the last element stands for. *)
Fixpoint walk_parent V (inum : Z) (es : list (list Z)) : option (Z * list Z) :=
  match es with
  | [] => None
  | e :: es =>
      if is_dir V inum then
        match es with
        | [] => Some (inum, e)
        | _ => entry_of V inum e ≫= λ n, walk_parent V n es
        end
      else None
  end.

Definition resolve (par : bool) V (inum : Z) (es : list (list Z)) : option (Z * list Z) :=
  if par then walk_parent V inum es else (λ n, (n, [])) <$> walk V inum es.

(** An inode that is allocated and has links. *)
Record alive V (inum : Z) : Prop := {
  al_inum : 0 < inum < sb_ninodes sb;
  al_P : P dev (IBLOCK inum);
  al_type : i_type (dnode V inum) ≠ 0;
  al_nlink : i_nlink (dnode V inum) ≠ 0
}.

(** Directories can be read, and their entries lead to such inodes. *)
Record tree V : Prop := {
  tr_dir : ∀ inum, alive V inum → is_dir V inum = true → dir_ok P dev sb V (dnode V inum);
  tr_entry : ∀ inum k, alive V inum → is_dir V inum = true →
    0 ≤ k < i_size (dnode V inum) / DESIZE →
    de_inum (dirent_at dev V (dnode V inum) k) ≠ 0 →
    alive V (de_inum (dirent_at dev V (dnode V inum) k))
}.

(** ** The cache *)

(** Copies of live inodes are those of the disk. *)
Definition synced V l : Prop := ∀ i ip, l !! i = Some ip → 0 < i_ref ip → i_dev ip = dev →
  alive V (i_inum ip) → has (i_flags ip) I_VALID = true → i_d ip = i_d (dnode V (i_inum ip)).

(** The references to inode [n]. *)
Definition ref_of (n : Z) ip : Z := if (i_dev ip =? dev) && (i_inum ip =? n) then i_ref ip else 0.
Definition refs l (n : Z) : Z := foldr (λ ip acc, ref_of n ip + acc) 0 l.

Lemma refs_insert l i ip x n : l !! i = Some ip →
  refs (<[i := x]> l) n = refs l n - ref_of n ip + ref_of n x.
Proof.
  revert i. induction l as [|y l IH]; intros [|i] Hi; simplify_eq/=; [unfold refs; simpl; lia|].
  unfold refs in *. simpl. rewrite IH by done. lia.
Qed.

(** The state of a path walk: from the cache [l0], with one reference more,
    to the inode given. *)
Record walking V X Hd l0 (o : option Z) s : Prop := {
  wk_inv : bl_inv P V X Hd (fs_bl s);
  wk_ok : icache_ok (fs_inode s);
  wk_sync : synced V (fs_inode s);
  wk_refs : ∀ n, refs (fs_inode s) n = refs l0 n + (if decide (o = Some n) then 1 else 0)
}.

Definition at_key l (i : nat) (inum : Z) : Prop := ∃ ip, l !! i = Some ip ∧ is_key dev inum ip.

(** A new value for an entry of the same inode. *)
Lemma cache_put V l i ip x : icache_ok l → synced V l → l !! i = Some ip → is_key dev (i_inum x) ip →
  i_dev x = dev → 0 ≤ i_ref x → 0 ≤ i_flags x < 4 →
  (0 < i_ref x → alive V (i_inum x) → has (i_flags x) I_VALID = true → i_d x = i_d (dnode V (i_inum x))) →
  icache_ok (<[i := x]> l) ∧ synced V (<[i := x]> l) ∧
  ∀ n, refs (<[i := x]> l) n = refs l n + (if decide (n = i_inum x) then i_ref x - i_ref ip else 0).
Proof.
  intros Hc Hs Hi (Hr&Hdev&Hin) Hdx Hrx Hfx Hv. split_and!.
  - rewrite <- (alter_insert (λ _, x) i l ip) by done. eapply icache_alter; [done..|].
    intros _. left. split_and!; [done|congruence|congruence].
  - intros j jp Hj. apply list_lookup_insert_Some in Hj as [(<-&<-&_)|[_ Hj]]; [by intros ???; apply Hv|].
    by apply (Hs j jp).
  - intros n. rewrite (refs_insert l i ip x n Hi). unfold ref_of. rewrite Hdev, Hdx, Z.eqb_refl, Hin.
    case_decide as Hn; [subst n; rewrite Z.eqb_refl; simpl; lia|]. rewrite (proj2 (Z.eqb_neq _ _)) by congruence. simpl. lia.
Qed.

(** [iget] adds a reference. *)
Lemma got_refs V l l' j inum : icache_ok l → synced V l → got l l' j dev inum →
  synced V l' ∧ at_key l' j inum ∧ ∀ n, refs l' n = refs l n + (if decide (n = inum) then 1 else 0).
Proof.
  intros Hc Hs (ip&Hip&Hoth&Hg).
  assert (∃ x, l' = <[j := x]> l ∧ is_key dev inum x ∧ i_ref x = i_ref ip + 1 ∧
    (is_key dev inum ip ∧ i_d x = i_d ip ∧ i_flags x = i_flags ip ∨ i_ref ip = 0 ∧ i_flags x = 0))
    as (x&->&(Hrx&Hdx&Hnx)&Hrr&Hx).
  { assert (He : ∀ x, l' !! j = Some x → l' = <[j := x]> l).
    { intros x Hx. apply list_eq. intros k. destruct (decide (k = j)) as [->|Hne].
      - by rewrite (insert_at j ip).
      - by rewrite list_lookup_insert_ne, Hoth. }
    destruct Hg as [[(Hr&Hd1&Hd2) Hg]|(_&Hr&Hg)]; eexists; (split; [by apply He|]); unfold is_key; simpl.
    - split_and!; [lia|done..|]. left. split_and!; done.
    - split_and!; try done; [lia|]. by right. }
  split_and!.
  - intros i y Hy. apply list_lookup_insert_Some in Hy as [(<-&<-&_)|[_ Hy]]; [|by apply (Hs i y)].
    intros _ _ Ha Hv. destruct Hx as [((Hr&Hd1&Hd2)&E1&E2)|[_ E]]; [|by rewrite E in Hv].
    rewrite E1. rewrite Hnx in Ha |- *. rewrite <- Hd2 in Ha |- *. apply (Hs j ip); try done. congruence.
  - exists x. split; [by eapply insert_at|]. by split_and!.
  - intros n. rewrite (refs_insert l j ip x n Hip). unfold ref_of. rewrite Hdx, Hnx, Z.eqb_refl. cbn [andb].
    destruct Hx as [((Hr&Hd1&Hd2)&_)|[Hr _]].
    + rewrite Hd1, Hd2, Z.eqb_refl. cbn [andb]. destruct (decide (n = inum)) as [->|Hne].
      * rewrite Z.eqb_refl. lia.
      * rewrite (proj2 (Z.eqb_neq _ _)) by congruence. lia.
    + destruct (decide (n = inum)) as [->|Hne].
      * rewrite Z.eqb_refl. case_match; lia.
      * rewrite (proj2 (Z.eqb_neq inum n)) by congruence. case_match; lia.
Qed.

(** ** The inode operations during a walk *)

Lemma iunlock_wp V X Hd b l i ip (Q : unit → fs B → Prop) :
  bl_inv P V X Hd b → l !! i = Some ip → has (i_flags ip) I_BUSY = true → 1 ≤ i_ref ip →
  (∀ b', bl_inv P V X Hd b' → Q tt (Fs b' (<[i := set_i_flags (clrf (i_flags ip) I_BUSY) ip]> l))) →
  wp (iunlock i) Q (Fs b l).
Proof.
  intros Hi Hip Hb Hr HQ. pose proof (bl_ready _ _ _ _ _ Hi) as Hk. destruct Hk as (Hok&_&Hpt&_&Hf&_).
  unfold iunlock. eapply inode_at_wp; [done|]. rewrite Hb, (proj2 (Z.ltb_ge _ _)) by lia. cbn [negb orb].
  apply acquire_i_wp; [done|]. eapply upd_inode_wp; [done|].
  apply wakeup_i_wp; [done..|]. apply release_i_end; [by auto with kdb|by auto with kdb|].
  apply HQ. by apply bl_woken.
Qed.

(** The lock is taken; the entry is the inode of the disk. *)
Lemma walk_ilock V X Hd l0 s i inum (Q : unit → fs B → Prop) : alive V inum →
  walking V X Hd l0 (Some inum) s → at_key (fs_inode s) i inum →
  (∀ s' r, walking V X Hd l0 (Some inum) s' → 0 < r →
     fs_inode s' !! i = Some (Inode dev inum r 3 (i_d (dnode V inum))) → Q tt s') →
  wp (ilock i) Q s.
Proof.
  intros Ha [H1 H2 H3 H4] (ip&Hip&Hk) HQ. destruct s as [b l]. simpl in *. pose proof Hk as (Hr&Hdev&Hin).
  assert (E : locked_inode V ip = Inode dev inum (i_ref ip) 3 (i_d (dnode V inum))).
  { unfold locked_inode. rewrite Hdev, Hin. f_equal. case_match; [|done].
    rewrite <- Hin. apply (H3 i ip); try done. by rewrite Hin. }
  eapply ilock_wp; [exact H1|exact Hip|by eapply ic_flags|..].
  - split; [lia|]. rewrite E. exact (al_type _ _ Ha).
  - rewrite Hdev, Hin. exact (al_P _ _ Ha).
  - intros b' Hb' _. rewrite E.
    destruct (cache_put V l i ip (Inode dev inum (i_ref ip) 3 (i_d (dnode V inum)))) as (C1&C2&C3);
      try done; simpl; [lia|].
    apply (HQ _ (i_ref ip)); [|done|by eapply insert_at]. split; simpl; [done..|].
    intros n. rewrite C3, <- H4. cbn [i_inum i_ref]. case_decide; lia.
Qed.

(** The lock is dropped, and the reference kept. *)
Lemma walk_iunlock V X Hd l0 o s i inum r (Q : unit → fs B → Prop) :
  walking V X Hd l0 o s → 0 < r →
  fs_inode s !! i = Some (Inode dev inum r 3 (i_d (dnode V inum))) →
  (∀ s', walking V X Hd l0 o s' →
     fs_inode s' !! i = Some (Inode dev inum r 2 (i_d (dnode V inum))) →
     (∀ j, j ≠ i → fs_inode s' !! j = fs_inode s !! j) → Q tt s') →
  wp (iunlock i) Q s.
Proof.
  intros [H1 H2 H3 H4] Hr Hip HQ. destruct s as [b l]. simpl in *.
  eapply iunlock_wp; [exact H1|exact Hip|done|simpl; lia|]. intros b' Hb'.
  change (clrf (i_flags _) I_BUSY) with 2. unfold set_i_flags; simpl.
  destruct (cache_put V l i _ (Inode dev inum r 2 (i_d (dnode V inum))) H2 H3 Hip) as (C1&C2&C3);
    try done; simpl; [lia|].
  apply HQ; simpl; [|by eapply insert_at|intros j Hj; by apply list_lookup_insert_ne].
  split; simpl; [done..|]. intros n. rewrite C3, <- H4. simpl. case_decide; lia.
Qed.

(** A reference is dropped: [o] is what is still held. *)
Lemma walk_iput V X Hd l0 o s i inum (Q : unit → fs B → Prop) : alive V inum →
  bl_inv P V X Hd (fs_bl s) → icache_ok (fs_inode s) → synced V (fs_inode s) →
  (∀ n, refs (fs_inode s) n = refs l0 n + (if decide (n = inum) then 1 else 0) + (if decide (o = Some n) then 1 else 0)) →
  at_key (fs_inode s) i inum →
  (∀ s' ip, walking V X Hd l0 o s' → fs_inode s !! i = Some ip →
     fs_inode s' = <[i := set_i_ref (i_ref ip - 1) ip]> (fs_inode s) → Q tt s') →
  wp (iput i) Q s.
Proof.
  intros Ha H1 H2 H3 H4 (ip&Hip&Hk) HQ. destruct s as [b l]. simpl in *. pose proof Hk as (Hr&Hdev&Hin).
  eapply iput_wp; [exact H1|exact Hip| |].
  - apply andb_false_iff. destruct (has (i_flags ip) I_VALID) eqn:Hv; [right|left; apply andb_false_r].
    apply Z.eqb_neq. unfold i_nlink. rewrite (H3 i ip), Hin by (try done; by rewrite Hin). exact (al_nlink _ _ Ha).
  - destruct (cache_put V l i ip (set_i_ref (i_ref ip - 1) ip)) as (C1&C2&C3); try done; simpl.
    + lia.
    + by eapply ic_flags.
    + intros _ Ha' Hv. apply (H3 i ip); done.
    + apply (HQ _ ip); [|done|done]. split; simpl; [done..|]. intros n. rewrite C3, H4.
      change (i_inum (set_i_ref _ ip)) with (i_inum ip). change (i_ref (set_i_ref ?r ip)) with r.
      rewrite Hin. repeat case_decide; try done; try lia.
Qed.

(** [iunlockput] of the directory that was searched: [o] is what is still
    held, in entry [j]. *)
Lemma walk_iunlockput V X Hd l0 o s i inum r (Q : unit → fs B → Prop) : alive V inum → 0 < r →
  bl_inv P V X Hd (fs_bl s) → icache_ok (fs_inode s) → synced V (fs_inode s) →
  (∀ n, refs (fs_inode s) n = refs l0 n + (if decide (n = inum) then 1 else 0) + (if decide (o = Some n) then 1 else 0)) →
  fs_inode s !! i = Some (Inode dev inum r 3 (i_d (dnode V inum))) →
  (∀ s', walking V X Hd l0 o s' → (∀ n j, at_key (fs_inode s) j n → (j = i → 2 ≤ r) → at_key (fs_inode s') j n) → Q tt s') →
  wp (iunlockput i) Q s.
Proof.
  intros Ha Hr H1 H2 H3 H4 Hip HQ. destruct s as [b l]. simpl in *. unfold iunlockput. apply wp_bind.
  eapply iunlock_wp; [exact H1|exact Hip|done|simpl; lia|]. intros b' Hb'.
  change (clrf (i_flags _) I_BUSY) with 2. unfold set_i_flags; simpl.
  set (x := Inode dev inum r 2 (i_d (dnode V inum))).
  destruct (cache_put V l i _ x H2 H3 Hip) as (C1&C2&C3); try done; simpl; [lia|].
  assert (Hx : <[i := x]> l !! i = Some x) by by eapply insert_at.
  eapply (walk_iput V X Hd l0 o _ i inum); try done; simpl.
  - intros n. rewrite C3, H4. simpl. repeat case_decide; lia.
  - by exists x.
  - intros s' ip Hw Hi Hs. apply HQ; [done|]. intros n j (jp&Hj&Hk) H2r.
    change (<[i := x]> l !! i = Some ip) in Hi. rewrite Hx in Hi. injection Hi as <-. rewrite Hs. destruct (decide (j = i)) as [->|Hne].
    + rewrite list_insert_insert_eq. rewrite Hip in Hj. injection Hj as <-. destruct Hk as (_&_&Hk). simpl in Hk. subst n.
      eexists. split; [by eapply insert_at|]. specialize (H2r eq_refl). split_and!; try done. simpl. lia.
    + exists jp. rewrite !list_lookup_insert_ne by done. done.
Qed.

(** ** One element of a path *)

Lemma dir_ok_same V ip ip' : i_dev ip = i_dev ip' → i_d ip = i_d ip' → dir_ok P dev sb V ip → dir_ok P dev sb V ip'.
Proof.
  destruct ip as [d n r f x], ip' as [d' n' r' f' x']. simpl. intros <- <- [H1 [F1 F2 F3 F4 F5 F6] [M1 M2] H4 H5 H6].
  split; try done; by split.
Qed.

Lemma entry_found V inum e k : (k < Z.to_nat (i_size (dnode V inum) / DESIZE))%nat → entry_is V inum e k →
  (∀ k', (k' < k)%nat → ¬ entry_is V inum e k') →
  entry_of V inum e = Some (de_inum (dirent_at dev V (dnode V inum) (Z.of_nat k))).
Proof.
  intros Hk He Hn. unfold entry_of. assert (list_find (entry_is V inum e) (seq 0 (Z.to_nat (i_size (dnode V inum) / DESIZE))) = Some (k, k)) as ->; [|done].
  apply list_find_Some. split_and!; [by rewrite lookup_seq_lt|done|].
  intros j y Hj Hlt. rewrite lookup_seq_lt in Hj by lia. injection Hj as <-. by apply Hn.
Qed.
Lemma entry_none V inum e : (∀ k, (k < Z.to_nat (i_size (dnode V inum) / DESIZE))%nat → ¬ entry_is V inum e k) →
  entry_of V inum e = None.
Proof.
  intros Hn. unfold entry_of. assert (list_find (entry_is V inum e) (seq 0 (Z.to_nat (i_size (dnode V inum) / DESIZE))) = None) as ->; [|done].
  apply list_find_None, Forall_forall. intros k Hk%elem_of_seq. apply Hn. lia.
Qed.

(** The search for one element, from the locked directory to the next inode. *)
Lemma walk_lookup V X Hd l0 s i inum r e name (Q : option (nat * Z) → fs B → Prop) :
  tree V → alive V inum → is_dir V inum = true → is_bytes name → cname 14 name = take 14 e →
  walking V X Hd l0 (Some inum) s → 0 < r →
  fs_inode s !! i = Some (Inode dev inum r 3 (i_d (dnode V inum))) →
  (∀ s', entry_of V inum e = None → walking V X Hd l0 (Some inum) s' →
     fs_inode s' !! i = Some (Inode dev inum r 3 (i_d (dnode V inum))) → Q None s') →
  (∀ s' j k n, entry_of V inum e = Some n → alive V n → bl_inv P V X Hd (fs_bl s') →
     icache_ok (fs_inode s') → synced V (fs_inode s') →
     (∀ m, refs (fs_inode s') m = refs l0 m + (if decide (m = inum) then 1 else 0) + (if decide (Some n = Some m) then 1 else 0)) →
     at_key (fs_inode s') j n →
     (∃ r', fs_inode s' !! i = Some (Inode dev inum r' 3 (i_d (dnode V inum))) ∧ 0 < r' ∧ (j = i → 2 ≤ r')) →
     Q (Some (j, k)) s') →
  wp (dirlookup i name) Q s.
Proof.
  intros Ht Ha Hdir Hnb Hne [H1 H2 H3 H4] Hr Hip HN HS. destruct s as [b l]. cbn [fs_bl fs_inode] in *.
  set (x := Inode dev inum r 3 (i_d (dnode V inum))) in *.
  assert (Hok : dir_ok P dev sb V x) by (eapply dir_ok_same; [| |by apply (tr_dir _ Ht inum)]; done).
  assert (Hnm : ∀ k, 0 ≤ k → named dev V x name k ↔ entry_is V inum e (Z.to_nat k)).
  { intros k Hk. unfold entry_is, named. by rewrite Z2Nat.id, Hne by done. }
  eapply dirlookup_wp; [exact H1|exact H2|exact Hip|exact Hok|done|..].
  - intros b' Hb' Hno. apply HN; [|by split|done]. apply entry_none. intros k Hk He.
    apply (Hno (Z.of_nat k)); [change (i_size x) with (i_size (dnode V inum)); lia|].
    apply Hnm; [lia|]. by rewrite Nat2Z.id.
  - intros b' l' j k Hb' Hl' Hk Hn Hfirst Hg. change (i_size x) with (i_size (dnode V inum)) in Hk.
    change (dirent_at dev V x k) with (dirent_at dev V (dnode V inum) k) in Hg.
    destruct (got_refs V l l' j _ H2 H3 Hg) as (G1&G2&G3). pose proof Hn as [Hnz _].
    apply (HS _ j (DESIZE * k) (de_inum (dirent_at dev V (dnode V inum) k))); try done.
    + replace k with (Z.of_nat (Z.to_nat k)) at 1 by lia. apply entry_found; [lia|apply Hnm; [lia|done]|].
      intros k' Hk' He. apply (Hfirst (Z.of_nat k')); [lia|]. apply Hnm; [lia|]. by rewrite Nat2Z.id.
    + by apply (tr_entry _ Ht).
    + intros m. rewrite G3, H4. repeat case_decide; first [lia|congruence].
    + destruct Hg as (ip&Hj&Hoth&Hg). destruct (decide (j = i)) as [->|Hji].
      * rewrite Hip in Hj. injection Hj as <-. destruct Hg as [[_ Hg]|(_&Hz&_)]; [|simpl in Hz; lia].
        exists (r + 1). split_and!; [exact Hg|lia|lia].
      * exists r. by rewrite Hoth.
Qed.

Lemma skipelem_bytes path name rest name' : skipelem path name = Some (rest, name') →
  is_bytes path → is_bytes name → is_bytes rest ∧ is_bytes name'.
Proof.
  unfold skipelem. case_match; [done|]. destruct (span_elem (skip_slashes path)) as [s r] eqn:E.
  intros [= <- <-] Hp Hn.
  assert (Hspan : ∀ p q t, span_elem p = (q, t) → is_bytes p → is_bytes q ∧ is_bytes t).
  { clear. induction p as [|c p IH]; intros s r; cbn [span_elem]; [by intros [= <- <-]|].
    case_match; [by intros [= <- <-] ?; split; [constructor|]|].
    destruct (span_elem p) as [s' r'] eqn:E. intros [= <- <-] [Hc Hp]%Forall_cons.
    destruct (IH _ _ eq_refl Hp) as [H1 H2]. split; [by constructor|done]. }
  assert (Hsuf : ∀ p, is_bytes p → is_bytes (skip_slashes p)).
  { intros p Hb. destruct (skip_slashes_suffix p) as [pre Hpre]. unfold is_bytes in *. rewrite Hpre in Hb.
    by apply Forall_app in Hb as [_ ?]. }
  destruct (Hspan _ _ _ E (Hsuf _ Hp)) as [Hs Hr]. split; [by apply Hsuf|].
  assert (Hsp : ∀ q, is_bytes q → is_bytes (splice 0 q name)).
  { intros q Hl. unfold splice. apply Forall_app. split; [apply Forall_take, Hn|]. apply Forall_app. split; [done|apply Forall_drop, Hn]. }
  case_match; [apply Hsp, Forall_take, Hs|]. apply Forall_insert; [by apply Hsp|unfold is_byte; lia].
Qed.

(** ** The walk *)

(** What [namex] returns for [o], and the cache it leaves. *)
Definition arrived V X Hd l0 (par : bool) (o : option (Z * list Z)) (r : option nat * list Z) s : Prop :=
  walking V X Hd l0 (fst <$> o) s ∧
  match o with
  | None => r.1 = None
  | Some (n, e) => ∃ i, r.1 = Some i ∧ at_key (fs_inode s) i n ∧
      (par = true → length r.2 = 14%nat ∧ cname 14 r.2 = take 14 e)
  end.

Lemma namex_step_wp V X Hd l0 par i path name inum s :
  tree V → alive V inum → is_str path → is_bytes path → is_bytes name → length name = 14%nat →
  walking V X Hd l0 (Some inum) s → at_key (fs_inode s) i inum →
  wp (namex_step par (i, path, name)) (λ r s', match r with
    | inl (i', path', name') => ∃ n, alive V n ∧ resolve par V inum (elems path) = resolve par V n (elems path') ∧
        is_str path' ∧ is_bytes path' ∧ is_bytes name' ∧ length name' = 14%nat ∧
        walking V X Hd l0 (Some n) s' ∧ at_key (fs_inode s') i' n ∧ (length path' < length path)%nat
    | inr y => arrived V X Hd l0 par (resolve par V inum (elems path)) y s'
    end) s.
Proof.
  intros Ht Ha Hstr Hpb Hnb Hlen Hw Hat. unfold namex_step.
  assert (Hsk := skipelem_correct path name Hstr Hlen).
  destruct (skipelem path name) as [[rest name']|] eqn:Esk.
  2:{ rewrite Hsk. destruct par; cbn [resolve walk walk_parent].
      - apply wp_bind. destruct Hw as [W1 W2 W3 W4]. eapply (walk_iput V X Hd l0 None s i inum); [done..| |done|].
        + intros n. rewrite W4. repeat case_decide; first [lia|congruence].
        + intros s' ip Hw' _ _. apply wp_ret. by split.
      - apply wp_ret. split; [done|]. by exists i. }
  destruct Hsk as (e&He&Hl'&Hn'&Hrs&Hlt&_&Hlast). destruct (skipelem_bytes _ _ _ _ Esk Hpb Hnb) as [Hrb Hnb'].
  apply wp_bind. eapply walk_ilock; [exact Ha|exact Hw|exact Hat|]. intros s1 r Hw1 Hr Hi1.
  destruct s1 as [b1 l1]. eapply inode_at_wp; [exact Hi1|].
  change (i_type (Inode dev inum r 3 (i_d (dnode V inum))) =? T_DIR) with (is_dir V inum). rewrite He.
  assert (Hres : is_dir V inum = false → resolve par V inum (e :: elems rest) = None).
  { intros E. unfold resolve. cbn [walk walk_parent]. rewrite E. by destruct par. }
  assert (Hput : ∀ m, refs l1 m = refs l0 m + (if decide (m = inum) then 1 else 0) + (if decide (None = Some m) then 1 else 0)).
  { intros m. pose proof (wk_refs _ _ _ _ _ _ Hw1 m) as E. cbn [fs_inode] in E. rewrite E. repeat case_decide; first [lia|congruence]. }
  destruct (is_dir V inum) eqn:Hdir; cbn [negb].
  2:{ apply wp_bind. eapply (walk_iunlockput V X Hd l0 None); try done; try apply Hw1.
      intros s2 Hw2 _. apply wp_ret. rewrite Hres by done. by split. }
  destruct (par && (hd 0 rest =? 0)) eqn:Epar.
  { apply andb_true_iff in Epar as [-> Hz]. apply Z.eqb_eq in Hz. rewrite (proj1 Hlast Hz).
    cbn [resolve walk_parent]. rewrite Hdir. apply wp_bind.
    eapply walk_iunlock; [exact Hw1|exact Hr|exact Hi1|]. intros s2 Hw2 Hi2 _. apply wp_ret. split; [done|].
    exists i. split_and!; [done| |done]. eexists. split; [exact Hi2|]. by split_and!. }
  assert (Hnext : resolve par V inum (e :: elems rest) = entry_of V inum e ≫= λ n, resolve par V n (elems rest)).
  { unfold resolve. cbn [walk walk_parent]. rewrite Hdir. destruct par; [|by destruct (entry_of V inum e)].
    apply andb_false_iff in Epar as [?|Hz]; [done|]. apply Z.eqb_neq in Hz.
    destruct (elems rest) eqn:Er; [|done]. by destruct Hz; apply Hlast. }
  rewrite Hnext. apply wp_bind. eapply walk_lookup; [exact Ht|exact Ha|exact Hdir|exact Hnb'|exact Hn'|exact Hw1|exact Hr|exact Hi1|..].
  - intros s2 Hno Hw2 Hi2. rewrite Hno. cbn [mbind option_bind]. apply wp_bind.
    eapply (walk_iunlockput V X Hd l0 None); [exact Ha|exact Hr|apply Hw2..| |exact Hi2|].
    + intros m. rewrite (wk_refs _ _ _ _ _ _ Hw2 m). repeat case_decide; first [lia|congruence].
    + intros s3 Hw3 _. apply wp_ret. by split.
  - intros s2 j k n Hn Han B1 B2 B3 B4 B5 (r'&Hi2&Hr'&Hj). rewrite Hn. cbn [mbind option_bind]. apply wp_bind.
    eapply (walk_iunlockput V X Hd l0 (Some n)); [exact Ha|exact Hr'|done..|exact Hi2|].
    intros s3 Hw3 Hk. apply wp_ret. exists n. split_and!; try done. by apply Hk.
Qed.

(** The loop, for any start. *)
Lemma namex_loop V X Hd l0 par i path name inum s :
  tree V → alive V inum → is_str path → is_bytes path → is_bytes name → length name = 14%nat →
  walking V X Hd l0 (Some inum) s → at_key (fs_inode s) i inum →
  wp (loop (S (length path)) (namex_step par) (i, path, name))
    (arrived V X Hd l0 par (resolve par V inum (elems path))) s.
Proof.
  intros Ht Ha Hstr Hpb Hnb Hlen Hw Hat. set (o := resolve par V inum (elems path)).
  eapply (wp_loop _ (λ st s, ∃ n, alive V n ∧ resolve par V n (elems st.1.2) = o ∧ is_str st.1.2 ∧ is_bytes st.1.2 ∧
      is_bytes st.2 ∧ length st.2 = 14%nat ∧ walking V X Hd l0 (Some n) s ∧ at_key (fs_inode s) st.1.1 n)
    _ (λ st, length st.1.2)).
  - intros [[i1 p1] n1] s1 (n&An&Hn&S1&S2&S3&S4&S5&S6). cbn [fst snd] in *.
    eapply wp_mono; [by apply (namex_step_wp V X Hd l0 par i1 p1 n1 n)|]. intros [[[i2 p2] n2]|y] s2.
    + intros (m&Am&Em&T1&T2&T3&T4&T5&T6&T7). split; [|done]. exists m. split_and!; try done. cbn [fst snd]. congruence.
    + by rewrite Hn.
  - exists inum. by split_and!.
  - cbn [fst snd]. lia.
Qed.

(** ** The start of the walk *)

Definition starts b l (path : list Z) (inum : Z) : Prop :=
  if hd 0 path =? SLASH then inum = ROOTINO
  else ∃ p pr c, cpu_proc (k_cpu (kof b)) = Some p ∧ k_procs (kof b) !! p = Some pr ∧
    p_cwd pr = Some c ∧ at_key l c inum.

Lemma start_wp V X Hd b l path inum (Q : nat → fs B → Prop) : dev = ROOTDEV →
  bl_inv P V X Hd b → icache_ok l → synced V l → starts b l path inum →
  (∀ i s', walking V X Hd l (Some inum) s' → at_key (fs_inode s') i inum → Q i s') →
  wp (if hd 0 path =? SLASH then iget ROOTDEV ROOTINO else c ← cwd; idup c) Q (Fs b l).
Proof.
  intros Hdev Hi Hc Hs Hst HQ. unfold starts in Hst. destruct (hd 0 path =? SLASH).
  - subst inum. eapply iget_wp; [exact Hi|done|]. intros i l' Hl' Hg. rewrite <- Hdev in Hg.
    destruct (got_refs V l l' i ROOTINO Hc Hs Hg) as (G1&G2&G3).
    apply HQ; [|done]. split; try done. intros n. cbn [fs_inode]. rewrite G3. repeat case_decide; first [lia|congruence].
  - destruct Hst as (p&pr&c&Hp&Hpr&Hcw&ip&Hip&Hk). pose proof Hk as (Hr&Hd1&Hd2).
    destruct (bl_ready _ _ _ _ _ Hi) as (Hok&_&_&_&Hf&_).
    assert (Ec : cwd (Fs b l) = Ok c (Fs b l)).
    { unfold cwd, curproc, ik, bl, zoom, mbind, M_bind, deref. cbn [fs_bl lget fs_lens fs_inode lset]. unfold kof in *.
      rewrite Hp, lset_lget. simpl. rewrite Hpr. simpl. by rewrite Hcw, lset_lget. }
    apply wp_bind. eapply wp_run; [exact Ec|]. eapply wp_run; [by apply idup_run|].
    rewrite (alter_insert _ c l ip Hip).
    destruct (cache_put V l c ip (set_i_ref (i_ref ip + 1) ip)) as (C1&C2&C3); try done; simpl.
    + lia.
    + by eapply ic_flags.
    + intros _ Ha' Hv. by apply (Hs c ip).
    + apply HQ.
      * split; try done. intros n. cbn [fs_inode]. rewrite C3. change (i_inum (set_i_ref _ ip)) with (i_inum ip).
        change (i_ref (set_i_ref ?r ip)) with r. rewrite Hd2. repeat case_decide; first [lia|congruence].
      * exists (set_i_ref (i_ref ip + 1) ip). split; [by eapply insert_at|]. unfold is_key. simpl. split_and!; [lia|done..].
Qed.

(** C7: path names mean what the directories on the disk say.  From the root
    for a path with a leading slash, else from the working directory, [namex]
    follows the elements of the path (14 bytes of each count; repeated slashes
    do not) and returns the inode they lead to, or with [nameiparent] the
    directory of the last element and its name; it returns 0 exactly when an
    element is missing, a directory is expected and not there, or the parent
    of an empty path is asked for.  It ends within its bound, changes no
    block, and every reference to an inode it takes is dropped again but the
    one to the inode returned. *)
Theorem namex_correct V X Hd b l par path name inum : dev = ROOTDEV →
  bl_inv P V X Hd b → icache_ok l → synced V l → tree V →
  starts b l path inum → alive V inum →
  is_str path → is_bytes path → is_bytes name → length name = 14%nat →
  wp (namex path par name) (arrived V X Hd l par (resolve par V inum (elems path))) (Fs b l).
Proof.
  intros Hdev Hi Hc Hs Ht Hst Ha Hstr Hpb Hnb Hlen. unfold namex. apply wp_bind.
  eapply start_wp; [done..|]. intros i s' Hw Hat. by apply namex_loop.
Qed.
End Namex.

(** ** On the example image *)

Lemma ex_alive inum : alive ex_P 1 ex_sb12 ex_V inum → inum = 1 ∨ inum = 2.
Proof.
  intros [H1 _ H3 _]. change (sb_ninodes ex_sb12) with 8 in H1.
  assert (inum = 1 ∨ inum = 2 ∨ inum = 3 ∨ inum = 4 ∨ inum = 5 ∨ inum = 6 ∨ inum = 7) as Hc by lia.
  destruct Hc as [->|[->|[->|[->|[->|[->| ->]]]]]]; auto; by destruct H3.
Qed.
Lemma ex_alive_1 : alive ex_P 1 ex_sb12 ex_V 1.
Proof. split; [done|done|vm_compute; discriminate|vm_compute; discriminate]. Qed.
Lemma ex_alive_2 : alive ex_P 1 ex_sb12 ex_V 2.
Proof. split; [done|done|vm_compute; discriminate|vm_compute; discriminate]. Qed.
Lemma ex_dnode_1 : dnode 1 ex_V 1 = ex_root_ip.
Proof. vm_compute. reflexivity. Qed.

Lemma ex_tree : tree ex_P 1 ex_sb12 ex_V.
Proof.
  split.
  - intros inum [->| ->]%ex_alive Hd; [rewrite ex_dnode_1; exact ex_root_dir|vm_compute in Hd; discriminate Hd].
  - intros inum k [->| ->]%ex_alive Hd; [|vm_compute in Hd; discriminate Hd]. rewrite ex_dnode_1. intros Hk _.
    change (i_size ex_root_ip / DESIZE) with 3 in Hk. assert (k = 0 ∨ k = 1 ∨ k = 2) as Hk' by lia.
    destruct Hk' as [->|[->| ->]]; [exact ex_alive_1|exact ex_alive_1|exact ex_alive_2].
Qed.

Lemma ex_icache_synced : synced ex_P 1 ex_sb12 ex_V ex_icache.
Proof.
  intros i ip Hi _ _ _ Hv. destruct (ex_icache_at i ip Hi) as [[_ ->]| ->]; discriminate Hv.
Qed.

(** "/a" and "//a/b" on the example image. *)
Lemma namex_correct_witness :
  (∃ s' i, namex [47; 97] false (replicate 14 0) (Fs ex_fs_log ex_icache) = Ok (Some i, [97] ++ replicate 13 0) s' ∧
    at_key 1 (fs_inode s') i 2 ∧ refs 1 (fs_inode s') 1 = refs 1 ex_icache 1) ∧
  (∃ s' r, namex [47; 47; 97; 47; 98] false (replicate 14 0) (Fs ex_fs_log ex_icache) = Ok (None, r) s' ∧
    refs 1 (fs_inode s') 2 = refs 1 ex_icache 2).
Proof.
  assert (Hb : ∀ p, forallb (λ c, (0 <? c) && (c <? 256)) p = true → is_str p ∧ is_bytes p).
  { intros p Hp. rewrite forallb_forall in Hp. split; apply Forall_forall; intros c Hc;
      specialize (Hp c (proj1 (list_elem_of_In _ _) Hc)); [lia|unfold is_byte; lia]. }
  assert (Hn : is_bytes (replicate 14 0)) by (by apply check_bytes).
  split.
  - destruct (Hb [47; 97] eq_refl) as [H1 H2].
    assert (Hw := namex_correct ex_P 1 ex_sb12 ex_V ∅ ∅ ex_fs_log ex_icache false [47; 97] (replicate 14 0) 1 eq_refl
      ex_fs_inv ex_icache_ok ex_icache_synced ex_tree eq_refl ex_alive_1 H1 H2 Hn eq_refl).
    destruct (namex [47; 97] false (replicate 14 0) (Fs ex_fs_log ex_icache)) as [[r nm] s'| | | | |] eqn:E;
      [|vm_compute in E; discriminate E..].
    assert (En : nm = [97] ++ replicate 13 0).
    { assert (Hx : match namex [47; 97] false (replicate 14 0) (Fs ex_fs_log ex_icache) with Ok r _ => r.2 | _ => [] end =
        [97] ++ replicate 13 0) by (vm_compute; reflexivity). by rewrite E in Hx. }
    assert (Er : resolve 1 false ex_V 1 (elems [47; 97]) = Some (2, [])) by (vm_compute; reflexivity).
    apply (wp_ok _ _ _ _ _ Hw) in E. rewrite Er in E. destruct E as [Hk (i&Hi&Hat&_)]. simpl in Hi. subst r nm.
    exists s', i. split_and!; [reflexivity|exact Hat|]. rewrite (wk_refs _ _ _ _ _ _ _ _ _ Hk 1). done.
  - destruct (Hb [47; 47; 97; 47; 98] eq_refl) as [H1 H2].
    assert (Hw := namex_correct ex_P 1 ex_sb12 ex_V ∅ ∅ ex_fs_log ex_icache false [47; 47; 97; 47; 98] (replicate 14 0) 1 eq_refl
      ex_fs_inv ex_icache_ok ex_icache_synced ex_tree eq_refl ex_alive_1 H1 H2 Hn eq_refl).
    destruct (namex [47; 47; 97; 47; 98] false (replicate 14 0) (Fs ex_fs_log ex_icache)) as [[r nm] s'| | | | |] eqn:E;
      [|vm_compute in E; discriminate E..].
    assert (Er : resolve 1 false ex_V 1 (elems [47; 47; 97; 47; 98]) = None) by (vm_compute; reflexivity).
    apply (wp_ok _ _ _ _ _ Hw) in E. rewrite Er in E. destruct E as [Hk Hr]. simpl in Hr. subst r.
    exists s', nm. split; [reflexivity|]. rewrite (wk_refs _ _ _ _ _ _ _ _ _ Hk 2). done.
Defined.
