(* ===== verification/Pipe.v ===== *)
(** Pipes (pipe.c).  [pipealloc], which also allocates files, is in File.v.

    A [struct pipe] lives in a page of its own; the state maps the address of
    the page to the pipe.  [nread] and [nwrite] are unsigned counters that
    wrap around; the ring index is the counter modulo [PIPESIZE]. *)
From S2P Require Import Prelude Kmonad Wp Kstate Spinlock Sleep Str Kalloc.

Definition PIPESIZE : Z := 512.

Record pipe := Pipe {
  pp_data : list Z;
  pp_nread : Z;              (* number of bytes read *)
  pp_nwrite : Z;             (* number of bytes written *)
  pp_readopen : bool;        (* read fd is still open *)
  pp_writeopen : bool        (* write fd is still open *)
}.
Definition set_pp_readopen v (p : pipe) : pipe :=
  Pipe (pp_data p) (pp_nread p) (pp_nwrite p) v (pp_writeopen p).
Definition set_pp_writeopen v (p : pipe) : pipe :=
  Pipe (pp_data p) (pp_nread p) (pp_nwrite p) (pp_readopen p) v.

Record pst := Pst { ps_km : kmem; ps_pipes : gmap Z pipe }.
Definition pst_km : lens pst kmem := Lens ps_km (λ m s, Pst m (ps_pipes s)).
Definition pst_k : lens pst kst := lens_comp pst_km km_lens.

Definition pk {A} (m : M kst A) : M pst A := zoom pst_k m.
Definition pipe_at (p : Z) : M pst pipe := deref (λ s, ps_pipes s !! p).
Definition upd_pipe (p : Z) (f : pipe → pipe) : M pst unit :=
  modify (λ s, Pst (ps_km s) (alter f p (ps_pipes s))).

(** [proc->killed] *)
Definition killed : M kst bool :=
  i ← curproc;
  p ← deref (λ s, k_procs s !! i);
  mret (p_killed p).

Section Pipe.
Context (kend : Z).

Definition pipeclose (p : Z) (writable : bool) : M pst unit :=
  pk (acquire (LPipe p));;
  (if writable then
     upd_pipe p (set_pp_writeopen false);; pk (wakeup (CPipeRead p))
   else
     upd_pipe p (set_pp_readopen false);; pk (wakeup (CPipeWrite p)));;
  pp ← pipe_at p;
  if negb (pp_readopen pp) && negb (pp_writeopen pp) then
    pk (release (LPipe p));;
    modify (λ s, Pst (ps_km s) (delete p (ps_pipes s)));;
    zoom pst_km (kfree kend p)
  else pk (release (LPipe p)).
End Pipe.

(** [p->data[p->nwrite++ % PIPESIZE] = c] *)
Definition put_byte (c : Z) (p : pipe) : pipe :=
  Pipe (<[Z.to_nat (pp_nwrite p mod PIPESIZE) := c]> (pp_data p)) (pp_nread p)
    (u32 (pp_nwrite p + 1)) (pp_readopen p) (pp_writeopen p).
(** [p->data[p->nread++ % PIPESIZE]] *)
Definition next_byte (p : pipe) : Z := nth (Z.to_nat (pp_nread p mod PIPESIZE)) (pp_data p) 0.
Definition advance (p : pipe) : pipe :=
  Pipe (pp_data p) (u32 (pp_nread p + 1)) (pp_nwrite p) (pp_readopen p) (pp_writeopen p).

(** One turn of the loop of [pipewrite].  A writer that was woken up tests
    again whether the pipe is full. *)
Definition pipewrite_step (p : Z) (src : list Z) (n i : Z) : M pst (Z + Z) :=
  if i <? n then
    pp ← pipe_at p;
    if pp_nwrite pp =? u32 (pp_nread pp + PIPESIZE) then
      k ← (if negb (pp_readopen pp) then mret true else pk killed);
      if k : bool then pk (release (LPipe p));; mret (inr (-1)) else
      pk (wakeup (CPipeRead p));;
      pk (sleep (CPipeWrite p) (LPipe p));;
      nofuel
    else
      upd_pipe p (put_byte (nth (Z.to_nat i) src 0));;
      mret (inl (i + 1))
  else
    pk (wakeup (CPipeRead p));;
    pk (release (LPipe p));;
    mret (inr n).

Definition pipewrite (p : Z) (src : list Z) (n : Z) : M pst Z :=
  pk (acquire (LPipe p));;
  loop (S (Z.to_nat n)) (pipewrite_step p src n) 0.

(** One turn of the copy loop of [piperead]: [i] and the bytes so far. *)
Definition piperead_step (p : Z) (n : Z) (st : Z * list Z) : M pst (Z * list Z + Z * list Z) :=
  let '(i, acc) := st in
  if i <? n then
    pp ← pipe_at p;
    if pp_nread pp =? pp_nwrite pp then mret (inr (i, acc)) else
    upd_pipe p advance;;
    mret (inl (i + 1, acc ++ [next_byte pp]))
  else mret (inr (i, acc)).

(** The result and the bytes stored at [addr]. *)
Definition piperead (p : Z) (n : Z) : M pst (Z * list Z) :=
  pk (acquire (LPipe p));;
  pp ← pipe_at p;
  if (pp_nread pp =? pp_nwrite pp) && pp_writeopen pp then
    k ← pk killed;
    if k : bool then pk (release (LPipe p));; mret (-1, []) else
    pk (sleep (CPipeRead p) (LPipe p));;
    nofuel
  else
    r ← loop (S (Z.to_nat n)) (piperead_step p n) (0, []);
    pk (wakeup (CPipeWrite p));;
    pk (release (LPipe p));;
    mret r.

(** ** The queue a pipe holds *)

Definition count (p : pipe) : Z := u32 (pp_nwrite p - pp_nread p).
Definition contents (p : pipe) : list Z :=
  (λ j, nth (Z.to_nat ((pp_nread p + Z.of_nat j) mod PIPESIZE)) (pp_data p) 0)
    <$> seq 0 (Z.to_nat (count p)).

Record pipe_ok (p : pipe) : Prop := {
  pk_data : length (pp_data p) = 512%nat;
  pk_nread : 0 ≤ pp_nread p < 4294967296;
  pk_nwrite : 0 ≤ pp_nwrite p < 4294967296;
  pk_count : count p ≤ PIPESIZE
}.

Lemma length_contents p : length (contents p) = Z.to_nat (count p).
Proof. unfold contents. by rewrite length_fmap, length_seq. Qed.

Lemma count_range p : 0 ≤ count p.
Proof. unfold count. pose proof (u32_range (pp_nwrite p - pp_nread p)). lia. Qed.

Lemma full_iff p : pipe_ok p → (pp_nwrite p =? u32 (pp_nread p + PIPESIZE)) = (count p =? PIPESIZE).
Proof.
  intros [_ Hr Hw Hc]. unfold count, u32, PIPESIZE in *. apply eq_bool_prop_intro.
  rewrite !Is_true_true, !Z.eqb_eq. split; intros He; Z.div_mod_to_equations; lia.
Qed.
Lemma empty_iff p : pipe_ok p → (pp_nread p =? pp_nwrite p) = (count p =? 0).
Proof.
  intros [_ Hr Hw Hc]. unfold count, u32, PIPESIZE in *. apply eq_bool_prop_intro.
  rewrite !Is_true_true, !Z.eqb_eq. split; intros He; Z.div_mod_to_equations; lia.
Qed.

(** The counters modulo the ring: 512 divides 2^32. *)
Lemma u32_ring x : u32 x mod PIPESIZE = x mod PIPESIZE.
Proof. unfold u32, PIPESIZE. Z.div_mod_to_equations. lia. Qed.

Lemma count_put c p : pipe_ok p → count p < PIPESIZE → count (put_byte c p) = count p + 1.
Proof.
  intros [_ Hr Hw Hc] Hl. unfold count in *. cbn [put_byte pp_nread pp_nwrite]. unfold u32, PIPESIZE in *.
  rewrite Zminus_mod_idemp_l. Z.div_mod_to_equations. lia.
Qed.
Lemma count_advance p : pipe_ok p → 0 < count p → count (advance p) = count p - 1.
Proof.
  intros [_ Hr Hw Hc] Hl. unfold count in *. cbn [advance pp_nread pp_nwrite]. unfold u32, PIPESIZE in *.
  rewrite Zminus_mod_idemp_r. Z.div_mod_to_equations. lia.
Qed.

Lemma put_byte_ok c p : pipe_ok p → count p < PIPESIZE →
  pipe_ok (put_byte c p) ∧ contents (put_byte c p) = contents p ++ [c].
Proof.
  intros Hp Hl. pose proof Hp as [Hd Hr Hw Hc]. pose proof (count_range p) as H0.
  assert (Hcp := count_put c p Hp Hl). split.
  - split; [simpl; by rewrite length_insert|done|apply u32_range|rewrite Hcp; lia].
  - unfold contents at 1. rewrite Hcp, Z2Nat.inj_add by lia. change (Z.to_nat 1) with 1%nat.
    rewrite seq_app, fmap_app. f_equal.
    + apply list_fmap_ext. intros j x [-> Hj]%lookup_seq. cbn [put_byte pp_data pp_nread].
      rewrite !nth_lookup, list_lookup_insert_ne; [done|].
      unfold count, u32, PIPESIZE in *. intros Heq. apply Z2Nat.inj in Heq; Z.div_mod_to_equations; lia.
    + cbn [seq fmap list_fmap put_byte pp_data pp_nread]. f_equal. rewrite nth_lookup.
      replace (Z.to_nat ((pp_nread p + Z.of_nat (0 + Z.to_nat (count p))) mod PIPESIZE))
        with (Z.to_nat (pp_nwrite p mod PIPESIZE)).
      * rewrite list_lookup_insert_eq; [done|]. rewrite Hd.
        pose proof (Z.mod_pos_bound (pp_nwrite p) PIPESIZE). unfold PIPESIZE in *. lia.
      * f_equal. replace (Z.of_nat (0 + Z.to_nat (count p))) with (count p) by lia.
        unfold count, u32, PIPESIZE in *. Z.div_mod_to_equations. lia.
Qed.

Lemma advance_ok p : pipe_ok p → 0 < count p →
  pipe_ok (advance p) ∧ contents p = next_byte p :: contents (advance p).
Proof.
  intros Hp Hl. pose proof Hp as [Hd Hr Hw Hc]. assert (Hcp := count_advance p Hp Hl). split.
  - split; [done|apply u32_range|done|lia].
  - unfold contents at 1. replace (Z.to_nat (count p)) with (S (Z.to_nat (count p - 1))) by lia.
    cbn [seq fmap list_fmap]. f_equal.
    + unfold next_byte. do 3 f_equal. lia.
    + unfold contents. rewrite Hcp, <- seq_shift, <- list_fmap_compose.
      apply list_fmap_ext. intros j x _. cbn [advance pp_data pp_nread compose]. do 2 f_equal.
      unfold u32, PIPESIZE. Z.div_mod_to_equations. lia.
Qed.

(** ** Runs of [pipewrite] and [piperead] *)

Definition pushed (p : pipe) (l : list Z) : pipe := fold_left (λ p c, put_byte c p) l p.

Lemma pushed_ok l p : pipe_ok p → count p + Z.of_nat (length l) ≤ PIPESIZE →
  pipe_ok (pushed p l) ∧ contents (pushed p l) = contents p ++ l ∧
  pp_readopen (pushed p l) = pp_readopen p ∧ pp_writeopen (pushed p l) = pp_writeopen p ∧
  count (pushed p l) = count p + Z.of_nat (length l).
Proof.
  revert p. induction l as [|c l IH]; intros p Hp Hl; [rewrite app_nil_r; simpl; split_and!; (done || lia)|].
  rewrite length_cons in *. destruct (put_byte_ok c p Hp) as [H1 H2]; [lia|].
  assert (Hc := count_put c p Hp ltac:(lia)).
  destruct (IH (put_byte c p) H1) as (H3&H4&H5&H6&H7); [lia|]. cbn [pushed fold_left].
  split_and!; [done| |done|done|].
  - change (contents (pushed (put_byte c p) l) = contents p ++ c :: l).
    rewrite H4, H2, <- app_assoc. done.
  - change (count (pushed (put_byte c p) l) = count p + Z.of_nat (S (length l))). lia.
Qed.

Definition popped (p : pipe) (n : nat) : pipe := Nat.iter n advance p.

Lemma popped_ok n p : pipe_ok p → (n ≤ length (contents p))%nat →
  pipe_ok (popped p n) ∧ contents (popped p n) = drop n (contents p) ∧
  pp_readopen (popped p n) = pp_readopen p ∧ pp_writeopen (popped p n) = pp_writeopen p.
Proof.
  intros Hp. induction n as [|n IH]; intros Hn; [done|].
  destruct IH as (H1&H2&H3&H4); [lia|]. cbn [popped Nat.iter nat_rect].
  change (nat_rect (λ _, pipe) p (λ _, advance) n) with (popped p n).
  assert (Hl : 0 < count (popped p n)).
  { pose proof (length_contents (popped p n)) as E. rewrite H2, length_drop in E. lia. }
  destruct (advance_ok _ H1 Hl) as [H5 H6]. split_and!; [done| |done|done].
  rewrite H2 in H6. rewrite <- Nat.add_1_r, <- drop_drop, H6. done.
Qed.

Section Runs.
Variables (p : Z) (i : nat) (pr : proc) (m : kmem) (ps : gmap Z pipe).
Let k := km_k m.
Hypotheses (Hok : kst_ok k) (Hfree : is_free (LPipe p) k) (Hpt : is_free LPtable k).
Hypotheses (Hncli : cpu_ncli (k_cpu k) = 0) (Hcur : cpu_proc (k_cpu k) = Some i).
Hypothesis Hpr : k_procs k !! i = Some pr.

(** The state with kernel state [k'] and the pipe [pp]. *)
Definition pst_with (k' : kst) (pp : pipe) : pst := Pst (set_km_k k' m) (<[p := pp]> ps).

Lemma pst_with_self pp : ps !! p = Some pp → pst_with k pp = Pst m ps.
Proof. intros Hp. unfold pst_with. rewrite insert_id by done. by destruct m. Qed.

Lemma pk_run {A} (c : M kst A) k1 k2 pp a : c k1 = Ok a k2 → pk c (pst_with k1 pp) = Ok a (pst_with k2 pp).
Proof. intros E. unfold pk, zoom; simpl. by rewrite E. Qed.
Lemma pk_blocked (c : M kst unit) k1 k2 pp ch : c k1 = Blocked ch k2 →
  pk c (pst_with k1 pp) = Blocked ch (pst_with k2 pp).
Proof. intros E. unfold pk, zoom; simpl. by rewrite E. Qed.
Lemma pipe_at_run k1 pp : pipe_at p (pst_with k1 pp) = Ok pp (pst_with k1 pp).
Proof. unfold pipe_at, deref; simpl. by rewrite lookup_insert_eq. Qed.
Lemma upd_pipe_run f k1 pp : upd_pipe p f (pst_with k1 pp) = Ok tt (pst_with k1 (f pp)).
Proof.
  unfold upd_pipe, modify, pst_with; simpl. by rewrite alter_insert_eq.
Qed.
Lemma killed_run k1 ps1 : cpu_proc (k_cpu k1) = Some i → k_procs k1 = ps1 → ps1 !! i = Some pr →
  killed k1 = Ok (p_killed pr) k1.
Proof.
  intros H1 H2 H3. unfold killed, curproc, mbind, M_bind, deref. rewrite H1, H2, H3. done.
Qed.

(** The sleeping state: readers or writers woken, lock given up. *)
Definition slept (c : chan) (k1 : kst) : kst := asleep i c (LPipe p) (acq (LPipe p) k1).

Lemma sleep_pipe_run c pp k1 pr1 : kst_ok k1 → is_free (LPipe p) k1 → is_free LPtable k1 →
  cpu_ncli (k_cpu k1) = 0 → cpu_proc (k_cpu k1) = Some i → k_procs k1 !! i = Some pr1 →
  pk (sleep c (LPipe p)) (pst_with (acq (LPipe p) k1) pp) = Blocked c (pst_with (slept c k1) pp).
Proof.
  intros H1 H2 H3 H4 H5 H6. apply pk_blocked. eapply sleep_run; simpl; try done.
  - by apply acq_ok.
  - lia.
  - by rewrite lookup_insert_eq.
  - by apply acq_free_ne.
Qed.

Lemma wakeup_pipe_run c pp : pk (wakeup c) (pst_with (acq (LPipe p) k) pp) =
  Ok tt (pst_with (acq (LPipe p) (woken c k)) pp).
Proof. apply pk_run. by rewrite wakeup_acq_run. Qed.

Lemma woken_proc c : k_procs (woken c k) !! i = Some (wake_proc c pr).
Proof. simpl. by rewrite list_lookup_fmap, Hpr. Qed.

(** What [pipewrite] does with [l] still to write. *)
Definition write_outcome (n : Z) (pp : pipe) (l : list Z) : outcome pst Z :=
  if Z.of_nat (length l) <=? PIPESIZE - count pp then
    Ok n (pst_with (woken (CPipeRead p) k) (pushed pp l))
  else
    let pp' := pushed pp (take (Z.to_nat (PIPESIZE - count pp)) l) in
    if negb (pp_readopen pp) || p_killed pr then Ok (-1) (pst_with k pp')
    else Blocked (CPipeWrite p) (pst_with (slept (CPipeWrite p) (woken (CPipeRead p) k)) pp').

Lemma write_full n j pp src : pipe_ok pp → 0 ≤ j < n → count pp = PIPESIZE →
  pipewrite_step p src n j (pst_with (acq (LPipe p) k) pp) =
  if negb (pp_readopen pp) || p_killed pr then Ok (inr (-1)) (pst_with k pp)
  else Blocked (CPipeWrite p) (pst_with (slept (CPipeWrite p) (woken (CPipeRead p) k)) pp).
Proof.
  intros Hp Hj Hc. unfold pipewrite_step. rewrite (proj2 (Z.ltb_lt _ _)) by lia.
  mrun (pipe_at_run (acq (LPipe p) k) pp). rewrite full_iff, Hc, Z.eqb_refl by done.
  assert (Hrel : pk (release (LPipe p)) (pst_with (acq (LPipe p) k) pp) = Ok tt (pst_with k pp))
    by (apply pk_run; by apply release_acq').
  destruct (pp_readopen pp) eqn:Hro; cbn [negb orb].
  - assert (Hk : pk killed (pst_with (acq (LPipe p) k) pp) = Ok (p_killed pr) (pst_with (acq (LPipe p) k) pp))
      by (apply pk_run; by eapply killed_run).
    mrun Hk. destruct (p_killed pr); cbv iota; [by mrun Hrel|].
    mrun (wakeup_pipe_run (CPipeRead p) pp). unfold mbind, M_bind.
    rewrite (sleep_pipe_run _ _ _ (wake_proc (CPipeRead p) pr)); try done. apply woken_proc.
  - erewrite bind_run by reflexivity. cbv iota. by mrun Hrel.
Qed.

Lemma write_end n pp src :
  pipewrite_step p src n n (pst_with (acq (LPipe p) k) pp) =
  Ok (inr n) (pst_with (woken (CPipeRead p) k) pp).
Proof.
  unfold pipewrite_step. rewrite Z.ltb_irrefl. mrun (wakeup_pipe_run (CPipeRead p) pp).
  assert (Hrel : pk (release (LPipe p)) (pst_with (acq (LPipe p) (woken (CPipeRead p) k)) pp) =
    Ok tt (pst_with (woken (CPipeRead p) k) pp)) by (apply pk_run; by apply release_acq').
  by mrun Hrel.
Qed.

Lemma write_put n j pp src c : pipe_ok pp → 0 ≤ j < n → count pp ≠ PIPESIZE →
  src !! Z.to_nat j = Some c → ∀ k1,
  pipewrite_step p src n j (pst_with k1 pp) = Ok (inl (j + 1)) (pst_with k1 (put_byte c pp)).
Proof.
  intros Hp Hj Hc Hs k1. unfold pipewrite_step. rewrite (proj2 (Z.ltb_lt _ _)) by lia.
  mrun (pipe_at_run k1 pp). rewrite full_iff by done. rewrite (proj2 (Z.eqb_neq _ _)) by done.
  rewrite nth_lookup, Hs. by mrun (upd_pipe_run (put_byte (default 0 (Some c))) k1 pp).
Qed.

Lemma write_loop_run src n : 0 ≤ n → length src = Z.to_nat n → ∀ l j fuel pp, pipe_ok pp →
  0 ≤ j → l = drop (Z.to_nat j) src → Z.of_nat (length l) = n - j → (length l < fuel)%nat →
  loop fuel (pipewrite_step p src n) j (pst_with (acq (LPipe p) k) pp) = write_outcome n pp l.
Proof.
  intros Hn Hsrc l. induction l as [|c l IH]; intros j fuel pp Hp Hj Hl Hlen Hf;
    (destruct fuel as [|fuel]; [lia|]); pose proof (pk_count _ Hp) as Hcl; cbn [loop].
  - simpl in Hlen. replace j with n by lia. mrun (write_end n pp src).
    unfold write_outcome. rewrite (proj2 (Z.leb_le _ _)) by (simpl; lia). done.
  - rewrite length_cons in *. destruct (decide (count pp = PIPESIZE)) as [Hc|Hc].
    { unfold mbind, M_bind. rewrite write_full by (done || lia). unfold write_outcome. rewrite length_cons.
      rewrite (proj2 (Z.leb_gt _ _)) by lia. rewrite Hc, Z.sub_diag. by destruct (_ || _). }
    assert (Hcj : src !! Z.to_nat j = Some c).
    { rewrite <- (Nat.add_0_r (Z.to_nat j)), <- lookup_drop, <- Hl. done. }
    mrun (write_put n j pp src c Hp ltac:(lia) Hc Hcj (acq (LPipe p) k)).
    destruct (put_byte_ok c pp Hp) as [H1 _]; [lia|]. rewrite IH; try done; try lia.
    2:{ rewrite Z2Nat.inj_add by lia. rewrite <- drop_drop, <- Hl. done. }
    unfold write_outcome. rewrite count_put by (done || lia). rewrite length_cons.
    replace (Z.of_nat (length l) <=? PIPESIZE - (count pp + 1))
      with (Z.of_nat (S (length l)) <=? PIPESIZE - count pp) by (bdestr; lia).
    destruct (_ <=? _); [done|].
    replace (Z.to_nat (PIPESIZE - count pp)) with (S (Z.to_nat (PIPESIZE - (count pp + 1)))) by lia.
    done.
Qed.

Lemma pipewrite_run src n pp : ps !! p = Some pp → pipe_ok pp → 0 ≤ n → length src = Z.to_nat n →
  pipewrite p src n (Pst m ps) = write_outcome n pp src.
Proof.
  intros Hps Hp Hn Hsrc. rewrite <- (pst_with_self pp Hps). unfold pipewrite.
  erewrite bind_run by (apply pk_run, acquire_run; done).
  apply write_loop_run; try done; lia.
Qed.

Lemma read_loop_run n k1 fuel : ∀ j acc pp, pipe_ok pp → 0 ≤ j → (Z.to_nat (n - j) < fuel)%nat →
  let d := (Z.to_nat (n - j) `min` length (contents pp))%nat in
  loop fuel (piperead_step p n) (j, acc) (pst_with k1 pp) =
  Ok (j + Z.of_nat d, acc ++ take d (contents pp)) (pst_with k1 (popped pp d)).
Proof.
  induction fuel as [|fuel IH]; intros j acc pp Hp Hj Hf; [lia|]. cbn [loop]. cbn zeta.
  pose proof (length_contents pp) as Hlc. pose proof (count_range pp).
  destruct (Z.ltb_spec j n) as [Hlt|Hge].
  2:{ replace (Z.to_nat (n - j)) with 0%nat by lia. erewrite bind_run.
      2:{ unfold piperead_step. rewrite (proj2 (Z.ltb_ge _ _)) by lia. reflexivity. }
      simpl. rewrite Z.add_0_r, app_nil_r. done. }
  destruct (decide (count pp = 0)) as [Hz|Hz].
  { rewrite Hlc, Hz, Nat.min_0_r. erewrite bind_run.
    2:{ unfold piperead_step. rewrite (proj2 (Z.ltb_lt _ _)) by lia. mrun (pipe_at_run k1 pp).
        rewrite empty_iff, Hz by done. reflexivity. }
    simpl. rewrite Z.add_0_r, app_nil_r. done. }
  destruct (advance_ok pp Hp) as [H1 H2]; [lia|]. erewrite bind_run.
  2:{ unfold piperead_step. rewrite (proj2 (Z.ltb_lt _ _)) by lia. mrun (pipe_at_run k1 pp).
      rewrite empty_iff by done. rewrite (proj2 (Z.eqb_neq _ _)) by done.
      mrun (upd_pipe_run advance k1 pp). reflexivity. }
  cbv iota. rewrite (IH (j + 1) (acc ++ [next_byte pp]) (advance pp)) by (done || lia).
  rewrite H2, length_cons. replace (Z.to_nat (n - j)) with (S (Z.to_nat (n - (j + 1)))) by lia.
  cbn [Nat.min take]. set (d := (_ `min` _)%nat). f_equal.
  - f_equal; [lia|]. by rewrite <- app_assoc.
  - f_equal. unfold popped. by rewrite Nat.iter_succ_r.
Qed.

(** What [piperead] does. *)
Definition read_outcome (n : Z) (pp : pipe) : outcome pst (Z * list Z) :=
  if (count pp =? 0) && pp_writeopen pp then
    if p_killed pr then Ok (-1, []) (pst_with k pp)
    else Blocked (CPipeRead p) (pst_with (slept (CPipeRead p) k) pp)
  else
    let d := (Z.to_nat n `min` length (contents pp))%nat in
    Ok (Z.of_nat d, take d (contents pp)) (pst_with (woken (CPipeWrite p) k) (popped pp d)).

Lemma piperead_run n pp : ps !! p = Some pp → pipe_ok pp →
  piperead p n (Pst m ps) = read_outcome n pp.
Proof.
  intros Hps Hp. rewrite <- (pst_with_self pp Hps). unfold piperead, read_outcome.
  erewrite bind_run by (apply pk_run, acquire_run; done).
  mrun (pipe_at_run (acq (LPipe p) k) pp). rewrite empty_iff by done.
  destruct ((count pp =? 0) && pp_writeopen pp).
  - assert (Hk : pk killed (pst_with (acq (LPipe p) k) pp) = Ok (p_killed pr) (pst_with (acq (LPipe p) k) pp))
      by (apply pk_run; by eapply killed_run).
    mrun Hk. destruct (p_killed pr); cbv iota.
    + erewrite bind_run by (apply pk_run, release_acq'; done). done.
    + unfold mbind, M_bind. by rewrite (sleep_pipe_run _ _ k pr).
  - mrun (read_loop_run n (acq (LPipe p) k) (S (Z.to_nat n)) 0 [] pp Hp ltac:(lia) ltac:(lia)).
    erewrite bind_run by apply wakeup_pipe_run.
    erewrite bind_run by (apply pk_run, release_acq'; done).
    rewrite Z.add_0_l, Z.sub_0_r. done.
Qed.
End Runs.

(** A process [i] of the table runs, with no lock held, and the locks a pipe
    operation takes are free. *)
Record pipe_ready (p : Z) (i : nat) (pr : proc) (m : kmem) : Prop := {
  pr_ok : kst_ok (km_k m);
  pr_pipe : is_free (LPipe p) (km_k m);
  pr_ptable : is_free LPtable (km_k m);
  pr_ncli : cpu_ncli (k_cpu (km_k m)) = 0;
  pr_cur : cpu_proc (k_cpu (km_k m)) = Some i;
  pr_proc : k_procs (km_k m) !! i = Some pr
}.

(** What a call of [pipewrite] or [piperead] does, in every case.  A write
    that fits is appended and the readers are woken; else the pipe is filled
    up and the writer gives up with -1 (no reader left, or killed) or wakes
    the readers and sleeps.  A read of an empty pipe that has a writer sleeps
    (or returns -1 if killed); else it takes the oldest bytes, at most [n],
    and wakes the writers.  In all cases the pipe's lock is free again. *)
Theorem pipewrite_piperead_cases p i pr m ps pp src n :
  pipe_ready p i pr m → ps !! p = Some pp → pipe_ok pp → 0 ≤ n → length src = Z.to_nat n →
  (if Z.of_nat (length (contents pp)) + n <=? PIPESIZE then
     ∃ pp', pipewrite p src n (Pst m ps) =
       Ok n (pst_with p m ps (woken (CPipeRead p) (km_k m)) pp') ∧
       pipe_ok pp' ∧ contents pp' = contents pp ++ src
   else
     ∃ pp', pipe_ok pp' ∧ length (contents pp') = 512%nat ∧
       contents pp' = contents pp ++ take (512 - length (contents pp)) src ∧
       pipewrite p src n (Pst m ps) =
         if negb (pp_readopen pp) || p_killed pr then Ok (-1) (pst_with p m ps (km_k m) pp')
         else Blocked (CPipeWrite p)
           (pst_with p m ps (slept p i (CPipeWrite p) (woken (CPipeRead p) (km_k m))) pp')) ∧
  piperead p n (Pst m ps) =
    (if (count pp =? 0) && pp_writeopen pp then
       if p_killed pr then Ok (-1, []) (pst_with p m ps (km_k m) pp)
       else Blocked (CPipeRead p) (pst_with p m ps (slept p i (CPipeRead p) (km_k m)) pp)
     else
       let d := (Z.to_nat n `min` length (contents pp))%nat in
       Ok (Z.of_nat d, take d (contents pp))
         (pst_with p m ps (woken (CPipeWrite p) (km_k m)) (popped pp d))) ∧
  is_free (LPipe p) (slept p i (CPipeRead p) (km_k m)).
Proof.
  intros [R1 R2 R3 R4 R5 R6] Hps Hp Hn Hsrc. pose proof (length_contents pp) as Hl.
  pose proof (count_range pp). pose proof (pk_count _ Hp) as Hc. split_and!.
  - rewrite (pipewrite_run p i pr m ps R1 R2 R3 R4 R5 R6 src n pp) by done. unfold write_outcome.
    rewrite Hl, Hsrc, !Z2Nat.id by lia.
    replace (count pp + n <=? PIPESIZE) with (n <=? PIPESIZE - count pp) by (bdestr; lia).
    destruct (Z.leb_spec n (PIPESIZE - count pp)).
    + destruct (pushed_ok src pp Hp) as (H1&H2&_); [lia|]. by exists (pushed pp src).
    + set (l := take (Z.to_nat (PIPESIZE - count pp)) src). assert (Hll : Z.of_nat (length l) = PIPESIZE - count pp)
        by (unfold l; rewrite length_take; lia).
      destruct (pushed_ok l pp Hp) as (H1&H2&_&_&H3); [lia|]. exists (pushed pp l).
      split_and!; [done| | |done].
      * rewrite length_contents, H3, Hll. unfold PIPESIZE. lia.
      * rewrite H2. unfold l, PIPESIZE. do 2 f_equal. lia.
  - by rewrite (piperead_run p i pr m ps R1 R2 R3 R4 R5 R6 n pp).
  - unfold is_free; simpl. by rewrite lookup_insert_eq.
Qed.

(** ** Histories of one pipe *)

(** The state a run leaves, whether it returns or sleeps. *)
Definition after {A} (o : outcome pst A) : option pst :=
  match o with Ok _ s | Blocked _ s => Some s | _ => None end.

(** How many bytes a run added: the advance of [nwrite]. *)
Definition added (pp pp' : pipe) : nat := Z.to_nat (u32 (pp_nwrite pp' - pp_nwrite pp)).

(** [history p w r pp]: runs of [pipewrite] and [piperead] by any processes,
    in any order and from any kernel states that let them run, have written
    the bytes [w], read the bytes [r], and left the pipe as [pp]. *)
Inductive history (p : Z) : list Z → list Z → pipe → Prop :=
| h_new pp : pipe_ok pp → contents pp = [] → history p [] [] pp
| h_write w r pp pp' i pr m ps src n s' :
    history p w r pp → pipe_ready p i pr m → ps !! p = Some pp →
    0 ≤ n → length src = Z.to_nat n →
    after (pipewrite p src n (Pst m ps)) = Some s' → ps_pipes s' !! p = Some pp' →
    history p (w ++ take (added pp pp') src) r pp'
| h_read w r pp pp' i pr m ps n c bytes s' :
    history p w r pp → pipe_ready p i pr m → ps !! p = Some pp →
    piperead p n (Pst m ps) = Ok (c, bytes) s' → ps_pipes s' !! p = Some pp' →
    history p w (r ++ bytes) pp'
| h_read_blocked w r pp pp' i pr m ps n ch s' :
    history p w r pp → pipe_ready p i pr m → ps !! p = Some pp →
    piperead p n (Pst m ps) = Blocked ch s' → ps_pipes s' !! p = Some pp' →
    history p w r pp'.

Lemma added_pushed pp l : pipe_ok pp → count pp + Z.of_nat (length l) ≤ PIPESIZE →
  added pp (pushed pp l) = length l.
Proof.
  intros Hp Hl. unfold added.
  assert (E : ∀ l pp, pp_nwrite (pushed pp l) = if decide (l = []) then pp_nwrite pp
    else u32 (pp_nwrite pp + Z.of_nat (length l))).
  { clear. induction l as [|c l IH]; intros pp; [done|]. cbn [pushed fold_left].
    change (fold_left _ l (put_byte c pp)) with (pushed (put_byte c pp) l). rewrite IH.
    rewrite length_cons. cbn [put_byte pp_nwrite]. destruct (decide (l = [])) as [->|].
    - by rewrite decide_False.
    - rewrite decide_False by done. rewrite u32_add_idemp_l. f_equal. lia. }
  rewrite E. case_decide as He; [subst; rewrite Z.sub_diag; done|]. pose proof (count_range pp).
  unfold PIPESIZE, u32 in *. rewrite Zminus_mod_idemp_l.
  replace (pp_nwrite pp + Z.of_nat (length l) - pp_nwrite pp) with (Z.of_nat (length l)) by lia.
  rewrite Z.mod_small by lia. lia.
Qed.

(** C16: a pipe is a queue: in every history the bytes read so far, followed by
    the bytes in the pipe, are exactly the bytes written, in order; the pipe
    never holds more than its 512 bytes. *)
Theorem pipe_fifo p w r pp : history p w r pp →
  w = r ++ contents pp ∧ pipe_ok pp ∧ (length (contents pp) ≤ 512)%nat.
Proof.
  assert (Hlen : ∀ pp, pipe_ok pp → (length (contents pp) ≤ 512)%nat).
  { intros q Hq. rewrite length_contents. pose proof (pk_count _ Hq). unfold PIPESIZE in *. lia. }
  intros Hh. assert (Hm : w = r ++ contents pp ∧ pipe_ok pp); [|destruct Hm; split_and!; auto].
  induction Hh as [pp Hp Hc|w r pp pp' i pr m ps src n s' _ [-> Hp] [R1 R2 R3 R4 R5 R6] Hps Hn Hsrc Hr Hp'
    |w r pp pp' i pr m ps n c bytes s' _ [-> Hp] [R1 R2 R3 R4 R5 R6] Hps Hr Hp'
    |w r pp pp' i pr m ps n ch s' _ [-> Hp] [R1 R2 R3 R4 R5 R6] Hps Hr Hp'].
  - by rewrite Hc.
  - rewrite (pipewrite_run p i pr m ps R1 R2 R3 R4 R5 R6 src n pp) in Hr by done.
    unfold write_outcome in Hr. pose proof (pk_count _ Hp). pose proof (count_range pp).
    assert (∃ l, pp' = pushed pp l ∧ l = take (length l) src ∧
      count pp + Z.of_nat (length l) ≤ PIPESIZE) as (l&->&Hl&Hcl).
    { destruct (Z.leb_spec (Z.of_nat (length src)) (PIPESIZE - count pp)).
      - injection Hr as <-. simpl in Hp'. rewrite lookup_insert_eq in Hp'. injection Hp' as <-.
        exists src. split_and!; [done|by rewrite take_ge|lia].
      - set (l := take _ src) in Hr. assert (pp' = pushed pp l) as ->.
        { destruct (_ || _) in Hr; injection Hr as <-; simpl in Hp'; rewrite lookup_insert_eq in Hp'; congruence. }
        exists l. split_and!; [done| |unfold l; rewrite length_take; lia].
        unfold l. rewrite length_take. replace (_ `min` _)%nat with (Z.to_nat (PIPESIZE - count pp)) by lia. done. }
    destruct (pushed_ok l pp Hp Hcl) as (H1&H2&_). rewrite added_pushed by done.
    rewrite <- Hl, H2, <- app_assoc. done.
  - rewrite (piperead_run p i pr m ps R1 R2 R3 R4 R5 R6 n pp) in Hr by done. unfold read_outcome in Hr.
    destruct ((count pp =? 0) && pp_writeopen pp).
    + destruct (p_killed pr); [|done]. injection Hr as <- <- <-. simpl in Hp'.
      rewrite lookup_insert_eq in Hp'. injection Hp' as <-. by rewrite app_nil_r.
    + injection Hr as <- <- <-. simpl in Hp'. rewrite lookup_insert_eq in Hp'. injection Hp' as <-.
      destruct (popped_ok (Z.to_nat n `min` length (contents pp)) pp Hp) as (H1&H2&_); [lia|].
      rewrite H2, <- app_assoc, take_drop. done.
  - rewrite (piperead_run p i pr m ps R1 R2 R3 R4 R5 R6 n pp) in Hr by done. unfold read_outcome in Hr.
    destruct ((count pp =? 0) && pp_writeopen pp); [|done]. destruct (p_killed pr); [done|].
    injection Hr as <- <-. simpl in Hp'. rewrite lookup_insert_eq in Hp'. injection Hp' as <-. done.
Qed.

(** ** An example: write three bytes, read two *)

Definition ex_pipe_k : kst :=
  Kst (Cpu 0 true 0 true (Some 0%nat)) {[LPipe 4096 := lk_free; LPtable := lk_free]}
    [set_p_state RUNNING proc_zero].
Definition ex_pipe_m : kmem := Kmem ex_pipe_k true 0 (λ _, 0).
(** The counters are about to wrap around. *)
Definition ex_pipe0 : pipe := Pipe (replicate 512 0) 4294967295 4294967295 true true.

Lemma ex_pipe_ready : pipe_ready 4096 0 (set_p_state RUNNING proc_zero) ex_pipe_m.
Proof. by split. Qed.
Lemma ex_pipe0_ok : pipe_ok ex_pipe0.
Proof. split; (done || by vm_compute). Qed.

Lemma pipewrite_piperead_cases_witness :
  ∃ pp', pipewrite 4096 [7; 8; 9] 3 (Pst ex_pipe_m {[4096 := ex_pipe0]}) =
    Ok 3 (pst_with 4096 ex_pipe_m {[4096 := ex_pipe0]} (woken (CPipeRead 4096) ex_pipe_k) pp') ∧
    contents pp' = [7; 8; 9].
Proof.
  destruct (pipewrite_piperead_cases 4096 0 _ ex_pipe_m {[4096 := ex_pipe0]} ex_pipe0 [7; 8; 9] 3
    ex_pipe_ready (lookup_singleton_eq _ _) ex_pipe0_ok ltac:(lia) eq_refl) as [(pp'&E&_&Hc) _].
  exists pp'. split; [exact E|exact Hc].
Defined.

Lemma ex_history : history 4096 [7; 8; 9] [7; 8] (popped (pushed ex_pipe0 [7; 8; 9]) 2).
Proof.
  destruct (pushed_ok [7; 8; 9] ex_pipe0 ex_pipe0_ok) as (Hpo&_); [by vm_compute|].
  pose proof ex_pipe_ready as [R1 R2 R3 R4 R5 R6].
  eapply (h_read 4096 [7; 8; 9] [] (pushed ex_pipe0 [7; 8; 9]) _ 0 _ ex_pipe_m
    {[4096 := pushed ex_pipe0 [7; 8; 9]]} 2 2); [|exact ex_pipe_ready|apply lookup_singleton_eq| |].
  - change [7; 8; 9] with ([] ++ take (added ex_pipe0 (pushed ex_pipe0 [7; 8; 9])) [7; 8; 9]) at 1.
    eapply (h_write 4096 [] [] ex_pipe0 _ 0 _ ex_pipe_m {[4096 := ex_pipe0]} [7; 8; 9] 3);
      [|exact ex_pipe_ready|apply lookup_singleton_eq|lia|reflexivity| |].
    + apply h_new; [exact ex_pipe0_ok|reflexivity].
    + rewrite (pipewrite_run _ _ _ _ _ R1 R2 R3 R4 R5 R6 _ _ ex_pipe0);
        [reflexivity|apply lookup_singleton_eq|exact ex_pipe0_ok|lia|reflexivity].
    + apply lookup_insert_eq.
  - rewrite (piperead_run _ _ _ _ _ R1 R2 R3 R4 R5 R6 _ (pushed ex_pipe0 [7; 8; 9]));
      [reflexivity|apply lookup_singleton_eq|exact Hpo].
  - apply lookup_insert_eq.
Qed.

Lemma pipe_fifo_witness : contents (popped (pushed ex_pipe0 [7; 8; 9]) 2) = [9].
Proof.
  apply (app_inv_head [7; 8]). symmetry. exact (proj1 (pipe_fifo _ _ _ _ ex_history)).
Defined.
