(* ===== verification/Ide.v ===== *)
(** The IDE disk driver (ide.c): a queue of requests, the first of which the
    controller works on, and the interrupt that ends it. *)
From S2P Require Import Prelude Kmonad Wp Kstate Spinlock Sleep Disk.

Definition IDE_BSY : Z := 0x80.
Definition IDE_DRDY : Z := 0x40.
Definition IDE_DF : Z := 0x20.
Definition IDE_ERR : Z := 0x01.
Definition IDE_CMD_READ : Z := 0x20.
Definition IDE_CMD_WRITE : Z := 0x30.

(** ** The controller

    The PIO protocol of an ATA controller as the driver uses it: the registers
    0x1f2 to 0x1f6 hold the sector count, the 28-bit sector number and the
    drive; a write of 0x1f7 is a command, which clears the error bit; the data
    port transfers the sector the registers name.  [at_busy] is how often a
    status read still finds the controller busy, [at_err] that the command in
    progress has failed. *)
Record ata := Ata {
  at_regs : Z → Z;
  at_cmd : Z;
  at_disk : Z → Z → list Z;       (* drive, sector *)
  at_busy : nat;
  at_err : bool
}.

Definition at_sector (h : ata) : Z :=
  at_regs h 0x1f3 + 256 * at_regs h 0x1f4 + 65536 * at_regs h 0x1f5
    + 16777216 * (at_regs h 0x1f6 mod 16).
Definition at_drive (h : ata) : Z := (at_regs h 0x1f6 / 16) mod 2.

Definition outb (port v : Z) (h : ata) : ata :=
  if port =? 0x1f7 then Ata (at_regs h) v (at_disk h) (at_busy h) false
  else Ata (λ p, if p =? port then u8 v else at_regs h p) (at_cmd h) (at_disk h) (at_busy h) (at_err h).
Definition inb (port : Z) (h : ata) : Z * ata :=
  if port =? 0x1f7 then
    match at_busy h with
    | O => (if at_err h then Z.lor IDE_DRDY IDE_ERR else IDE_DRDY, h)
    | S n => (IDE_BSY, Ata (at_regs h) (at_cmd h) (at_disk h) n (at_err h))
    end
  else (at_regs h port, h).
(** The data port: [outsl] after a write command, [insl] after a read. *)
Definition outsl (data : list Z) (h : ata) : ata :=
  if at_cmd h =? IDE_CMD_WRITE then
    Ata (at_regs h) (at_cmd h)
      (λ d s, if (d =? at_drive h) && (s =? at_sector h) then data else at_disk h d s)
      (at_busy h) (at_err h)
  else h.
Definition insl (h : ata) : list Z := at_disk h (at_drive h) (at_sector h).

(** ** The driver *)

Record ide := Ide {
  id_k : kst;
  id_ata : ata;
  id_buf : list buf;
  id_queue : option nat;          (* idequeue *)
  id_disk1 : bool                 (* havedisk1 *)
}.
Definition id_lens : lens ide kst :=
  Lens id_k (λ k s, Ide k (id_ata s) (id_buf s) (id_queue s) (id_disk1 s)).
Definition dk {A} (m : M kst A) : M ide A := zoom id_lens m.

Definition io_out (port v : Z) : M ide unit := modify (λ s,
  Ide (id_k s) (outb port v (id_ata s)) (id_buf s) (id_queue s) (id_disk1 s)).
Definition io_in (port : Z) : M ide Z := λ s,
  let '(v, h) := inb port (id_ata s) in
  Ok v (Ide (id_k s) h (id_buf s) (id_queue s) (id_disk1 s)).
Definition io_outsl (data : list Z) : M ide unit := modify (λ s,
  Ide (id_k s) (outsl data (id_ata s)) (id_buf s) (id_queue s) (id_disk1 s)).
Definition buf_at (b : nat) : M ide buf := deref (λ s, id_buf s !! b).
Definition upd_buf (b : nat) (f : buf → buf) : M ide unit := modify (λ s,
  Ide (id_k s) (id_ata s) (alter f b (id_buf s)) (id_queue s) (id_disk1 s)).
Definition set_queue (q : option nat) : M ide unit := modify (λ s,
  Ide (id_k s) (id_ata s) (id_buf s) q (id_disk1 s)).

(** Wait for IDE disk to become ready; the bound is the busy time left. *)
Definition idewait (checkerr : bool) : M ide Z :=
  n ← gets (λ s, at_busy (id_ata s));
  r ← loop (S n) (λ _, r ← io_in 0x1f7;
    if negb (Z.land r (Z.lor IDE_BSY IDE_DRDY) =? IDE_DRDY) then mret (inl tt) else mret (inr r)) tt;
  if checkerr && nz (Z.land r (Z.lor IDE_DF IDE_ERR)) then mret (-1) else mret 0.

Definition ideinit : M ide unit :=
  dk (initlock LIde);;
  idewait false;;
  (* Check if disk 1 is present *)
  io_out 0x1f6 (Z.lor 0xe0 (Z.shiftl 1 4));;
  present ← loop 1001 (λ i,
    if i <? 1000 then
      r ← io_in 0x1f7;
      if nz r then mret (inr true) else mret (inl (i + 1))
    else mret (inr false)) 0;
  when present (modify (λ s, Ide (id_k s) (id_ata s) (id_buf s) (id_queue s) true));;
  (* Switch back to disk 0. *)
  io_out 0x1f6 (Z.lor 0xe0 (Z.shiftl 0 4)).

(** Start the request for [b]. *)
Definition idestart (b : option nat) : M ide unit :=
  match b with
  | None => panic "idestart"
  | Some b =>
      bb ← buf_at b;
      let sector := b_sector bb in
      idewait false;;
      io_out 0x3f6 0;;  (* generate interrupt *)
      io_out 0x1f2 1;;  (* number of sectors *)
      io_out 0x1f3 (Z.land sector 0xff);;
      io_out 0x1f4 (Z.land (Z.shiftr sector 8) 0xff);;
      io_out 0x1f5 (Z.land (Z.shiftr sector 16) 0xff);;
      io_out 0x1f6 (Z.lor (Z.lor 0xe0 (Z.shiftl (Z.land (b_dev bb) 1) 4))
                      (Z.land (Z.shiftr sector 24) 0x0f));;
      if has (b_flags bb) B_DIRTY then
        io_out 0x1f7 IDE_CMD_WRITE;;
        io_outsl (b_data bb)
      else io_out 0x1f7 IDE_CMD_READ
  end.

(** Interrupt handler. *)
Definition ideintr : M ide unit :=
  dk (acquire LIde);;
  q ← gets id_queue;
  match q with
  | None => dk (release LIde)
  | Some b =>
      bb ← buf_at b;
      set_queue (b_qnext bb);;
      (if negb (has (b_flags bb) B_DIRTY) then
         r ← idewait true;
         if 0 <=? r then
           h ← gets id_ata;
           upd_buf b (set_b_data (insl h))
         else mret tt
       else mret tt);;
      upd_buf b (λ bb, set_b_flags (clrf (setf (b_flags bb) B_VALID) B_DIRTY) bb);;
      dk (wakeup (CBuf b));;
      q ← gets id_queue;
      (match q with None => mret tt | Some _ => idestart q end);;
      dk (release LIde)
  end.

(** The walk along [qnext] to the last buffer of the queue. *)
Definition queue_walk (fuel : nat) (q : nat) : M ide nat :=
  loop fuel (λ q, bb ← buf_at q;
    match b_qnext bb with Some q' => mret (inl q') | None => mret (inr q) end) q.

(** Append [b] to [idequeue]. *)
Definition enqueue (b : nat) : M ide unit :=
  upd_buf b (set_b_qnext None);;
  q ← gets id_queue;
  match q with
  | None => set_queue (Some b)
  | Some q0 =>
      n ← gets (λ s, length (id_buf s));
      last ← queue_walk (S n) q0;
      upd_buf last (set_b_qnext (Some b))
  end.

(** [while((b->flags & (B_VALID|B_DIRTY)) != B_VALID) sleep(b, &idelock)] and
    the release; a process that was woken up runs it again. *)
Definition iderw_wait (b : nat) : M ide unit :=
  bb ← buf_at b;
  if negb (Z.land (b_flags bb) (Z.lor B_VALID B_DIRTY) =? B_VALID) then
    dk (sleep (CBuf b) LIde);; nofuel
  else dk (release LIde).

(** Sync buf with disk. *)
Definition iderw (b : nat) : M ide unit :=
  bb ← buf_at b;
  if negb (has (b_flags bb) B_BUSY) then panic "iderw: buf not busy" else
  if Z.land (b_flags bb) (Z.lor B_VALID B_DIRTY) =? B_VALID then panic "iderw: nothing to do" else
  d1 ← gets id_disk1;
  if nz (b_dev bb) && negb d1 then panic "iderw: ide disk 1 not present" else
  dk (acquire LIde);;
  enqueue b;;
  q ← gets id_queue;
  when (bool_decide (q = Some b)) (idestart (Some b));;
  iderw_wait b.

(** ** The controller is programmed for a buffer *)

Definition programmed (h : ata) (bb : buf) : Prop :=
  at_sector h = b_sector bb ∧ at_drive h = Z.land (b_dev bb) 1 ∧
  if has (b_flags bb) B_DIRTY then
    at_cmd h = IDE_CMD_WRITE ∧ (at_err h = false → at_disk h (Z.land (b_dev bb) 1) (b_sector bb) = b_data bb)
  else at_cmd h = IDE_CMD_READ.

(** The disk after a request has been started. *)
Definition started (bb : buf) (disk : Z → Z → list Z) (d sec : Z) : list Z :=
  if has (b_flags bb) B_DIRTY && (d =? Z.land (b_dev bb) 1) && (sec =? b_sector bb)
  then b_data bb else disk d sec.

Lemma land_dev x : Z.land x 1 = 0 ∨ Z.land x 1 = 1.
Proof.
  assert (E : Z.land x 1 = x mod 2) by exact (Z.land_ones x 1 ltac:(lia)). rewrite E.
  pose proof (Z.mod_pos_bound x 2). lia.
Qed.

(** The drive/head register. *)
Lemma head_reg d n : d = 0 ∨ d = 1 → 0 ≤ n < 16 →
  let v := u8 (Z.lor (Z.lor 0xe0 (Z.shiftl d 4)) n) in v mod 16 = n ∧ (v / 16) mod 2 = d.
Proof.
  intros Hd Hn.
  assert (Hall : forallb (λ i, let v := u8 (Z.lor (Z.lor 0xe0 (Z.shiftl d 4)) (Z.of_nat i)) in
    (v mod 16 =? Z.of_nat i) && ((v / 16) mod 2 =? d)) (seq 0 16) = true)
    by (destruct Hd as [->| ->]; vm_compute; reflexivity).
  rewrite forallb_forall in Hall. specialize (Hall (Z.to_nat n)). rewrite Z2Nat.id in Hall by lia.
  cbn zeta in *. apply andb_true_iff in Hall as [H1 H2]; [|apply in_seq; lia].
  apply Z.eqb_eq in H1, H2. done.
Qed.

Lemma land_ones_mod x n : 0 ≤ n → Z.land x (2 ^ n - 1) = x mod 2 ^ n.
Proof. intros. rewrite <- Z.land_ones by done. f_equal. rewrite Z.ones_equiv. lia. Qed.

Definition with_ata (h : ata) (s : ide) : ide :=
  Ide (id_k s) h (id_buf s) (id_queue s) (id_disk1 s).

Lemma io_out_run p v s : io_out p v s = Ok tt (with_ata (outb p v (id_ata s)) s).
Proof. done. Qed.

Definition calm (h : ata) : ata := Ata (at_regs h) (at_cmd h) (at_disk h) 0 (at_err h).

Lemma idewait_run c s :
  idewait c s = Ok (if c && at_err (id_ata s) then -1 else 0) (with_ata (calm (id_ata s)) s).
Proof.
  unfold idewait. erewrite bind_run by reflexivity. destruct s as [k [rg cm dk n er] bf q d1].
  cbn [id_ata at_busy at_err] in *. unfold with_ata, calm; cbn.
  erewrite bind_run.
  2:{ instantiate (1 := Ide k (Ata rg cm dk 0 er) bf q d1).
      instantiate (1 := if er then Z.lor IDE_DRDY IDE_ERR else IDE_DRDY).
      induction n as [|n IH]; [by destruct er|]. cbn [loop]. erewrite bind_run by reflexivity. exact IH. }
  by destruct c, er.
Qed.

(** Starting a request programs its sector and drive, whatever they are. *)
Lemma idestart_run b bb s : id_buf s !! b = Some bb → 0 ≤ b_sector bb < 2 ^ 28 →
  ∃ h, idestart (Some b) s = Ok tt (with_ata h s) ∧ programmed h bb ∧ at_err h = false ∧
    ∀ d sec, at_disk h d sec = started bb (at_disk (id_ata s)) d sec.
Proof.
  intros Hb Hs. unfold idestart. erewrite bind_run by (unfold buf_at, deref; by rewrite Hb).
  mrun (idewait_run false s).
  set (h0 := calm (id_ata s)). set (x := b_sector bb) in *.
  set (v := Z.lor (Z.lor 0xe0 _) _).
  set (h := outb 0x1f6 v (outb 0x1f5 (Z.land (Z.shiftr x 16) 0xff)
    (outb 0x1f4 (Z.land (Z.shiftr x 8) 0xff) (outb 0x1f3 (Z.land x 0xff) (outb 0x1f2 1 (outb 0x3f6 0 h0)))))).
  assert (Hsec : at_sector h = x ∧ at_drive h = Z.land (b_dev bb) 1).
  { change 0xff with (2 ^ 8 - 1) in *. unfold at_sector, at_drive, h; cbn.
    rewrite !land_ones_mod, !Z.shiftr_div_pow2 by lia. unfold u8 at 1 2 3.
    assert (Hn : Z.land (Z.shiftr x 24) 0x0f = x / 2 ^ 24).
    { change 0x0f with (2 ^ 4 - 1). rewrite land_ones_mod, Z.shiftr_div_pow2 by lia.
      apply Z.mod_small. change (2 ^ 28) with 268435456 in Hs. change (2 ^ 24) with 16777216.
      change (2 ^ 4) with 16. Z.div_mod_to_equations. lia. }
    assert (Hr : 0 ≤ x / 2 ^ 24 < 16).
    { change (2 ^ 28) with 268435456 in Hs. change (2 ^ 24) with 16777216. Z.div_mod_to_equations. lia. }
    destruct (head_reg (Z.land (b_dev bb) 1) (x / 2 ^ 24) (land_dev _) Hr) as [H1 H2].
    unfold v. rewrite Hn, H1. split; [|exact H2].
    change (2 ^ 8) with 256. change (2 ^ 16) with 65536. change (2 ^ 24) with 16777216.
    rewrite !Z.mod_mod by lia. Z.div_mod_to_equations. lia. }
  destruct Hsec as [Hsec Hdrv].
  erewrite bind_run by apply io_out_run. erewrite bind_run by apply io_out_run.
  erewrite bind_run by apply io_out_run. erewrite bind_run by apply io_out_run.
  erewrite bind_run by apply io_out_run. erewrite bind_run by apply io_out_run.
  unfold programmed, started. destruct (has (b_flags bb) B_DIRTY) eqn:Hd.
  - set (h1 := outb 0x1f7 IDE_CMD_WRITE h). exists (outsl (b_data bb) h1). split; [reflexivity|].
    assert (E1 : at_sector h1 = x) by exact Hsec.
    assert (E2 : at_drive h1 = Z.land (b_dev bb) 1) by exact Hdrv.
    assert (Eo : outsl (b_data bb) h1 = Ata (at_regs h1) IDE_CMD_WRITE (λ d s,
      if (d =? at_drive h1) && (s =? at_sector h1) then b_data bb else at_disk h1 d s)
      (at_busy h1) false) by reflexivity.
    rewrite Eo, E1, E2. split_and!; try done. intros _. cbn [at_disk]. by rewrite !Z.eqb_refl.
  - exists (outb 0x1f7 IDE_CMD_READ h). split; [reflexivity|]. split_and!; done.
Qed.

(** ** The queue *)

Definition nx (bufs : list buf) (b : nat) : option nat := bufs !! b ≫= b_qnext.
Fixpoint qchain (bufs : list buf) (q : option nat) (l : list nat) : Prop :=
  match l with
  | [] => q = None
  | b :: l => q = Some b ∧ is_Some (bufs !! b) ∧ qchain bufs (nx bufs b) l
  end.

Lemma qchain_ext bufs bufs' l q : qchain bufs q l →
  (∀ b, b ∈ l → nx bufs' b = nx bufs b ∧ (is_Some (bufs !! b) → is_Some (bufs' !! b))) →
  qchain bufs' q l.
Proof.
  revert q. induction l as [|b l IH]; intros q; [done|]. intros (->&Hb&Hc) He.
  destruct (He b) as [E1 E2]; [by left|]. split_and!; [done|auto|]. rewrite E1. apply IH; [done|].
  intros b' Hb'. apply He. by right.
Qed.

Lemma alter_other (f : buf → buf) (x y : nat) (bufs : list buf) : x ≠ y → alter f x bufs !! y = bufs !! y.
Proof. intros. by rewrite list_lookup_alter, decide_False. Qed.
Lemma alter_self (f : buf → buf) (x : nat) (bufs : list buf) bb : bufs !! x = Some bb → alter f x bufs !! x = Some (f bb).
Proof. intros E. by rewrite list_lookup_alter, decide_True, E. Qed.

Lemma qchain_alter f x bufs q l : x ∉ l → qchain bufs q l → qchain (alter f x bufs) q l.
Proof.
  intros Hx Hc. eapply qchain_ext; [done|]. intros b Hb.
  assert (x ≠ b) by (intros ->; done). unfold nx. by rewrite alter_other.
Qed.

Lemma qchain_snoc bufs q l x b : qchain bufs q (l ++ [x]) → NoDup (l ++ [x]) → b ∉ l ++ [x] →
  is_Some (bufs !! b) → nx bufs b = None →
  qchain (alter (set_b_qnext (Some b)) x bufs) q ((l ++ [x]) ++ [b]).
Proof.
  revert q. induction l as [|y l IH]; intros q Hc Hnd Hb He Hn.
  - destruct Hc as (->&[bx Hx]&_). assert (x ≠ b) by (intros ->; set_solver).
    split_and!; [done| |]. { rewrite (alter_self _ _ _ _ Hx). eauto. }
    unfold nx at 1. rewrite (alter_self _ _ _ _ Hx). cbn [mbind option_bind set_b_qnext b_qnext].
    split_and!; [done|by rewrite alter_other|]. unfold nx. rewrite alter_other by done. done.
  - destruct Hc as (->&Hy&Hc). inversion Hnd as [|? ? Hnin Hnd']; subst.
    assert (x ≠ y) by (intros ->; set_solver).
    split_and!; [done|by rewrite alter_other|]. unfold nx at 1. rewrite alter_other by done.
    fold (nx bufs y). apply IH; [done|done|set_solver|done|done].
Qed.

Definition with_bufs (bf : list buf) (s : ide) : ide :=
  Ide (id_k s) (id_ata s) bf (id_queue s) (id_disk1 s).

Lemma queue_walk_run s l x q fuel : qchain (id_buf s) (Some q) (l ++ [x]) →
  (length l < fuel)%nat → queue_walk fuel q s = Ok x s.
Proof.
  revert q fuel. induction l as [|y l IH]; intros q fuel Hc Hf; (destruct fuel as [|fuel]; [lia|]);
    destruct Hc as ([= ->]&[bb Hbb]&Hc); unfold queue_walk; cbn [loop].
  - erewrite bind_run.
    2:{ unfold buf_at, deref, mbind, M_bind. rewrite Hbb. cbn in Hc. unfold nx in Hc.
        rewrite Hbb in Hc. cbn in Hc. rewrite Hc. reflexivity. }
    done.
  - change (qchain (id_buf s) (nx (id_buf s) y) (l ++ [x])) in Hc.
    assert (Hz : ∃ z, nx (id_buf s) y = Some z) by (destruct l; destruct Hc; eauto).
    destruct Hz as [z Hz]. rewrite Hz in Hc.
    erewrite bind_run.
    2:{ unfold buf_at, deref, mbind, M_bind. rewrite Hbb. unfold nx in Hz.
        rewrite Hbb in Hz. cbn in Hz. rewrite Hz. reflexivity. }
    cbv iota. cbn [length] in Hf. apply (IH z fuel Hc). lia.
Qed.

(** Two tables of buffers that differ in [qnext] only. *)
Definition same_bufs (bf bf' : list buf) : Prop :=
  length bf' = length bf ∧ ∀ b, set_b_qnext None <$> bf' !! b = set_b_qnext None <$> bf !! b.

Lemma same_bufs_alter v x bf : same_bufs bf (alter (set_b_qnext v) x bf).
Proof.
  split; [apply length_alter|]. intros b. rewrite list_lookup_alter. case_decide; [subst|done].
  by destruct (bf !! b).
Qed.
Lemma same_bufs_trans a b c : same_bufs a b → same_bufs b c → same_bufs a c.
Proof. intros [L1 E1] [L2 E2]. split; [congruence|]. intros x. by rewrite E2, E1. Qed.
Lemma same_bufs_at bf bf' b bb : same_bufs bf bf' → bf !! b = Some bb →
  ∃ v, bf' !! b = Some (set_b_qnext v bb).
Proof.
  intros [_ E] Hb. specialize (E b). rewrite Hb in E. destruct (bf' !! b) as [bb'|]; [|done].
  injection E as E. exists (b_qnext bb'). f_equal. destruct bb, bb'; unfold set_b_qnext in *; simpl in *.
  congruence.
Qed.

Lemma enqueue_run s l b : qchain (id_buf s) (id_queue s) l → NoDup l → b ∉ l →
  is_Some (id_buf s !! b) → (length l ≤ length (id_buf s))%nat →
  ∃ s', enqueue b s = Ok tt s' ∧ qchain (id_buf s') (id_queue s') (l ++ [b]) ∧
    same_bufs (id_buf s) (id_buf s') ∧ id_k s' = id_k s ∧ id_ata s' = id_ata s ∧
    id_disk1 s' = id_disk1 s.
Proof.
  intros Hc Hnd Hb [bb Hbb] Hlen. unfold enqueue. erewrite bind_run by reflexivity.
  erewrite bind_run by reflexivity. cbn [id_queue].
  set (bf := alter (set_b_qnext None) b (id_buf s)).
  assert (Hc1 : qchain bf (id_queue s) l) by by apply qchain_alter.
  assert (Hbf : bf !! b = Some (set_b_qnext None bb)) by by apply alter_self.
  assert (Hnx : nx bf b = None) by (unfold nx; by rewrite Hbf).
  destruct l as [|y l _] using rev_ind.
  - cbn in Hc. rewrite Hc. eexists. split; [reflexivity|]. cbn. split_and!; try done; eauto.
    apply same_bufs_alter.
  - destruct (id_queue s) as [q0|] eqn:Hq.
    2:{ destruct l; simpl in Hc; destruct Hc; done. }
    erewrite bind_run by reflexivity. rewrite length_app in Hlen. cbn [length] in Hlen.
    erewrite bind_run.
    2:{ eapply (queue_walk_run _ l y); [exact Hc1|]. cbn [id_buf]. unfold bf. rewrite length_alter. lia. }
    eexists. split; [reflexivity|]. cbn. split_and!; try done.
    + by apply qchain_snoc.
    + eapply same_bufs_trans; apply same_bufs_alter.
Qed.

(** ** The driver's contract *)

(** A request: a locked buffer that is to be written or is not yet read. *)
Definition pending (bb : buf) : Prop :=
  flags_ok (b_flags bb) ∧ has (b_flags bb) B_BUSY = true ∧
  (Z.land (b_flags bb) (Z.lor B_VALID B_DIRTY) =? B_VALID) = false ∧ 0 ≤ b_sector bb < 2 ^ 28.

(** The queue is [l]: all its buffers are pending, and the controller works
    on the first one. *)
Record ide_inv (l : list nat) (s : ide) : Prop := {
  iv_chain : qchain (id_buf s) (id_queue s) l;
  iv_nodup : NoDup l;
  iv_pend : ∀ b, b ∈ l → ∃ bb, id_buf s !! b = Some bb ∧ pending bb;
  iv_head : ∀ b bb, head l = Some b → id_buf s !! b = Some bb → programmed (id_ata s) bb
}.

(** The buffer as the interrupt leaves it: after a failed read the data are
    what they were. *)
Definition completed (h : ata) (bb : buf) : buf :=
  let bb := if has (b_flags bb) B_DIRTY || at_err h then bb
            else set_b_data (at_disk h (Z.land (b_dev bb) 1) (b_sector bb)) bb in
  set_b_flags (clrf (setf (b_flags bb) B_VALID) B_DIRTY) bb.

Lemma inv_length l s : ide_inv l s → (length l ≤ length (id_buf s))%nat.
Proof.
  intros [_ Hnd Hp _]. rewrite <- (length_seq (length (id_buf s)) 0).
  apply submseteq_length, NoDup_submseteq; [done|]. intros b Hb. apply elem_of_seq.
  destruct (Hp b Hb) as (bb&Hbb&_). apply lookup_lt_Some in Hbb. lia.
Qed.

Lemma pending_q v bb : pending (set_b_qnext v bb) ↔ pending bb.
Proof. done. Qed.
Lemma programmed_q h v bb : programmed h (set_b_qnext v bb) ↔ programmed h bb.
Proof. done. Qed.

Lemma iderw_correct l s b bb i pr :
  ide_inv l s → b ∉ l → id_buf s !! b = Some bb → pending bb →
  (b_dev bb = 0 ∨ id_disk1 s = true) →
  kst_ok (id_k s) → is_free LIde (id_k s) → is_free LPtable (id_k s) →
  cpu_ncli (k_cpu (id_k s)) = 0 → cpu_proc (k_cpu (id_k s)) = Some i → k_procs (id_k s) !! i = Some pr →
  ∃ s', iderw b s = Blocked (CBuf b) s' ∧ ide_inv (l ++ [b]) s' ∧
    same_bufs (id_buf s) (id_buf s') ∧
    id_k s' = asleep i (CBuf b) LIde (acq LIde (id_k s)) ∧
    (∀ d sec, at_disk (id_ata s') d sec =
       if bool_decide (l = []) then started bb (at_disk (id_ata s)) d sec else at_disk (id_ata s) d sec).
Proof.
  intros Hinv Hbl Hb Hpend Hdev Hok Hfi Hfp Hn Hcur Hpr.
  pose proof Hinv as [Hc Hnd Hp Hh]. pose proof Hpend as (Hfl&Hbusy&Hnv&Hsec).
  unfold iderw. erewrite bind_run by (unfold buf_at, deref; by rewrite Hb).
  rewrite Hbusy, Hnv. cbn [negb]. erewrite bind_run by reflexivity.
  replace (nz (b_dev bb) && negb (id_disk1 s)) with false
    by (destruct Hdev as [-> | ->]; [done|by rewrite andb_false_r]).
  set (s1 := Ide (acq LIde (id_k s)) (id_ata s) (id_buf s) (id_queue s) (id_disk1 s)).
  assert (E1 : dk (acquire LIde) s = Ok tt s1).
  { unfold dk, zoom; cbn [id_lens lget lset]. by rewrite acquire_run. }
  mrun E1. destruct (enqueue_run s1 l b) as (s2&E2&Hc2&Hsb&Hk2&Ha2&Hd2);
    [exact Hc|exact Hnd|exact Hbl|by exists bb|by apply (inv_length l s)|].
  change (id_ata s2 = id_ata s) in Ha2. mrun E2. erewrite bind_run by reflexivity.
  assert (Hq : bool_decide (id_queue s2 = Some b) = bool_decide (l = [])).
  { apply bool_decide_ext. destruct l as [|y l]; destruct Hc2 as [-> _]; [done|].
    split; [|done]. intros [= ->]. set_solver. }
  rewrite Hq. destruct (same_bufs_at _ _ _ _ Hsb Hb) as [v Hv].
  assert (Hnv2 : ∀ h, iderw_wait b (with_ata h s2) = Blocked (CBuf b)
    (Ide (asleep i (CBuf b) LIde (acq LIde (id_k s))) h (id_buf s2) (id_queue s2) (id_disk1 s2))).
  { intros h. unfold iderw_wait. erewrite bind_run by (unfold buf_at, deref; cbn; by rewrite Hv).
    cbn [set_b_qnext b_flags]. rewrite Hnv. cbn [negb]. unfold mbind, M_bind, dk, zoom; cbn.
    rewrite Hk2. cbn [s1 id_k]. erewrite sleep_run; try done; cbn.
    - by apply acq_ok.
    - lia.
    - by rewrite lookup_insert_eq.
    - by apply acq_free_ne. }
  assert (Hpend2 : ∀ x, x ∈ l ++ [b] → ∃ bb, id_buf s2 !! x = Some bb ∧ pending bb).
  { intros x Hx. apply elem_of_app in Hx as [Hx| ->%list_elem_of_singleton].
    - destruct (Hp x Hx) as (bx&Hbx&Hpx). destruct (same_bufs_at _ _ _ _ Hsb Hbx) as [w Hw].
      exists (set_b_qnext w bx). by split.
    - exists (set_b_qnext v bb). by split. }
  assert (Hnd2 : NoDup (l ++ [b])).
  { apply NoDup_app. split_and!; [done|set_solver|apply NoDup_singleton]. }
  destruct (decide (l = [])) as [->|Hl].
  - rewrite bool_decide_true by done. cbn [when].
    destruct (idestart_run b _ s2 Hv Hsec) as (h&E3&Hprog&He3&Hdisk).
    mrun E3. rewrite Hnv2. eexists. split; [reflexivity|]. split_and!; try done.
    + split; try done. cbn. intros x bx [= <-] Hbx. by simplify_eq.
    + intros d sec. cbn [id_ata]. rewrite Hdisk, Ha2. done.
  - rewrite bool_decide_false by done. cbn [when]. erewrite bind_run by reflexivity.
    assert (Es : s2 = with_ata (id_ata s) s2) by (rewrite <- Ha2; by destruct s2).
    rewrite Es, Hnv2. eexists. split; [reflexivity|]. split_and!; try done.
    split; try done. cbn. intros x bx Hx Hbx. destruct l as [|y l]; [done|]. injection Hx as <-.
    destruct (Hp y) as (by0&Hby&_); [by left|]. destruct (same_bufs_at _ _ _ _ Hsb Hby) as [w Hw].
    simplify_eq. apply programmed_q. by apply (Hh y).
Qed.

Lemma ideintr_correct l s b bb :
  ide_inv (b :: l) s → id_buf s !! b = Some bb →
  kst_ok (id_k s) → is_free LIde (id_k s) → is_free LPtable (id_k s) →
  ∃ s', ideintr s = Ok tt s' ∧ ide_inv l s' ∧ id_k s' = woken (CBuf b) (id_k s) ∧
    id_buf s' = <[b := completed (id_ata s) bb]> (id_buf s) ∧
    (has (b_flags bb) B_DIRTY = true → at_err (id_ata s) = false →
       at_disk (id_ata s) (Z.land (b_dev bb) 1) (b_sector bb) = b_data bb) ∧
    (∀ d sec, at_disk (id_ata s') d sec =
       match head l ≫= (λ n, id_buf s !! n) with
       | Some nb => started nb (at_disk (id_ata s)) d sec
       | None => at_disk (id_ata s) d sec
       end).
Proof.
  intros Hinv Hb Hok Hfi Hfp. pose proof Hinv as [(Hq&_&Hc) Hnd Hp Hh].
  inversion Hnd as [|? ? Hnin Hnd']; subst. pose proof (Hh b bb eq_refl Hb) as (Hsec&Hdrv&Hcmd).
  unfold ideintr.
  set (s1 := Ide (acq LIde (id_k s)) (id_ata s) (id_buf s) (id_queue s) (id_disk1 s)).
  assert (E1 : dk (acquire LIde) s = Ok tt s1).
  { unfold dk, zoom; cbn [id_lens lget lset]. by rewrite acquire_run. }
  mrun E1. erewrite bind_run by reflexivity. cbn [s1 id_queue]. rewrite Hq.
  erewrite bind_run by (unfold buf_at, deref; cbn; by rewrite Hb).
  erewrite bind_run by reflexivity.
  assert (∃ h, (if negb (has (b_flags bb) B_DIRTY) then
         r ← idewait true; if 0 <=? r then h ← gets id_ata; upd_buf b (set_b_data (insl h)) else mret tt
       else mret tt) (Ide (acq LIde (id_k s)) (id_ata s) (id_buf s) (b_qnext bb) (id_disk1 s)) =
    Ok tt (Ide (acq LIde (id_k s)) h (<[b := if has (b_flags bb) B_DIRTY || at_err (id_ata s) then bb
      else set_b_data (at_disk (id_ata s) (Z.land (b_dev bb) 1) (b_sector bb)) bb]> (id_buf s))
      (b_qnext bb) (id_disk1 s)) ∧ at_disk h = at_disk (id_ata s))
    as (h&E2&Hh1).
  { destruct (has (b_flags bb) B_DIRTY) eqn:Hd; cbn [negb].
    - exists (id_ata s). split; [|done]. by rewrite list_insert_id.
    - exists (calm (id_ata s)). split; [|done]. erewrite bind_run by by apply idewait_run.
      cbn [id_ata andb orb]. destruct (at_err (id_ata s)) eqn:He.
      { cbn. by rewrite list_insert_id. }
      cbn [Z.leb Z.compare]. erewrite bind_run by reflexivity. unfold upd_buf, modify.
      f_equal. unfold with_ata; cbn. f_equal.
      rewrite <- Hsec, <- Hdrv. change (insl (calm (id_ata s))) with (insl (id_ata s)). unfold insl.
      apply list_eq. intros x. rewrite list_lookup_alter. destruct (decide (b = x)) as [<-|].
      + rewrite Hb, list_lookup_insert_eq; [done|]. by eapply lookup_lt_Some.
      + by rewrite list_lookup_insert_ne. }
  mrun E2. erewrite bind_run by reflexivity. cbn [id_k id_ata id_buf id_queue id_disk1].
  set (bf := alter _ b _).
  assert (Hbf : bf = <[b := completed (id_ata s) bb]> (id_buf s)).
  { apply list_eq. intros x. unfold bf. rewrite list_lookup_alter. assert (Hlt := lookup_lt_Some _ _ _ Hb).
    destruct (decide (b = x)) as [<-|]; rewrite ?list_lookup_insert_eq, ?list_lookup_insert_ne by done; done. }
  clearbody bf. subst bf.
  set (s2 := Ide (acq LIde (woken (CBuf b) (id_k s))) h (<[b := completed (id_ata s) bb]> (id_buf s))
    (b_qnext bb) (id_disk1 s)).
  erewrite bind_run.
  2:{ instantiate (1 := s2). unfold dk, zoom; cbn. by rewrite wakeup_acq_run. }
  erewrite bind_run by reflexivity. cbn [s2 id_queue].
  assert (Hnx : nx (id_buf s) b = b_qnext bb) by (unfold nx; by rewrite Hb). rewrite Hnx in Hc.
  assert (Hoth : ∀ x, x ∈ l → id_buf s2 !! x = id_buf s !! x).
  { intros x Hx. cbn. apply list_lookup_insert_ne. intros ->. done. }
  assert (Hrel : ∀ h', dk (release LIde) (with_ata h' s2) = Ok tt
    (Ide (woken (CBuf b) (id_k s)) h' (id_buf s2) (b_qnext bb) (id_disk1 s))).
  { intros h'. unfold dk, zoom; cbn. by rewrite release_acq'. }
  assert (Hc2 : qchain (id_buf s2) (b_qnext bb) l).
  { eapply qchain_ext; [exact Hc|]. intros x Hx. unfold nx. by rewrite Hoth. }
  assert (Hp2 : ∀ x, x ∈ l → ∃ bx, id_buf s2 !! x = Some bx ∧ pending bx).
  { intros x Hx. rewrite Hoth by done. apply Hp. by right. }
  assert (Hdirty : has (b_flags bb) B_DIRTY = true → at_err (id_ata s) = false →
    at_disk (id_ata s) (Z.land (b_dev bb) 1) (b_sector bb) = b_data bb)
    by (intros Hd; rewrite Hd in Hcmd; apply Hcmd).
  destruct l as [|n l].
  - cbn in Hc. rewrite Hc. erewrite bind_run by reflexivity.
    change s2 with (with_ata h s2). rewrite Hrel. eexists. split; [reflexivity|].
    rewrite Hc in Hc2. split_and!; try done. intros d sec. cbn. by rewrite Hh1.
  - destruct Hc as [Hc0 Hc]. rewrite Hc0.
    destruct (Hp2 n) as (bn&Hbn&Hpn); [by left|]. pose proof Hpn as (_&_&_&Hsn).
    destruct (idestart_run n bn s2 Hbn Hsn) as (h3&E3&Hprog&He3&Hdisk).
    mrun E3. rewrite Hrel.
    eexists. split; [reflexivity|]. split_and!; try done.
    + split; try done. cbn. intros x bx [= <-] Hbx. cbn in Hbn. by simplify_eq.
    + intros d sec. cbn. rewrite Hoth in Hbn by by left. rewrite Hbn, Hdisk. cbn. unfold started.
      by rewrite Hh1.
Qed.

(** ** Any interleaving of requests and interrupts *)

(** The controller works on its command: it may get ready, and the command may
    fail.  The error stays until the next command; a failed write can leave
    anything in its sector. *)
Definition device_step (active : bool) (h h' : ata) : Prop :=
  at_regs h' = at_regs h ∧ at_cmd h' = at_cmd h ∧ (at_err h = true → at_err h' = true) ∧
  ∀ d sec, at_disk h' d sec = at_disk h d sec ∨
    (active = true ∧ at_err h' = true ∧ at_cmd h = IDE_CMD_WRITE ∧ d = at_drive h ∧ sec = at_sector h).

(** [ide_run subm comp s]: [subm] are the buffers passed to [iderw] so far,
    in order, [comp] those whose request an interrupt has ended.  Between
    the driver's steps the controller may take a step, and the kernel may
    change its own state and every buffer that is not queued. *)
Inductive ide_run : list nat → list nat → ide → Prop :=
| ir_init s : id_queue s = None → ide_run [] [] s
| ir_device subm comp s h :
    ide_run subm comp s → device_step (bool_decide (id_queue s ≠ None)) (id_ata s) h →
    ide_run subm comp (with_ata h s)
| ir_kernel subm comp s s' :
    ide_run subm comp s → id_ata s' = id_ata s → id_queue s' = id_queue s →
    length (id_buf s') = length (id_buf s) →
    (∀ b, b ∈ drop (length comp) subm → id_buf s' !! b = id_buf s !! b) →
    ide_run subm comp s'
| ir_submit subm comp s b bb s' :
    ide_run subm comp s → id_buf s !! b = Some bb → pending bb →
    b ∉ drop (length comp) subm → (b_dev bb = 0 ∨ id_disk1 s = true) →
    (∃ i pr, kst_ok (id_k s) ∧ is_free LIde (id_k s) ∧ is_free LPtable (id_k s) ∧
       cpu_ncli (k_cpu (id_k s)) = 0 ∧ cpu_proc (k_cpu (id_k s)) = Some i ∧
       k_procs (id_k s) !! i = Some pr) →
    iderw b s = Blocked (CBuf b) s' → ide_run (subm ++ [b]) comp s'
| ir_intr subm comp s b s' :
    ide_run subm comp s → id_queue s = Some b →
    kst_ok (id_k s) → is_free LIde (id_k s) → is_free LPtable (id_k s) →
    ideintr s = Ok tt s' → ide_run subm (comp ++ [b]) s'.

Lemma device_programmed a h h' bb : device_step a h h' → programmed h bb → programmed h' bb.
Proof.
  intros (D1&D2&D3&D4) (P1&P2&P3). unfold programmed, at_sector, at_drive in *. rewrite D1, D2. split_and!; try done.
  destruct (has (b_flags bb) B_DIRTY); [|done]. destruct P3 as [P3 P4]. split; [done|]. intros He.
  destruct (D4 (Z.land (b_dev bb) 1) (b_sector bb)) as [->|(_&He'&_)]; [|congruence].
  apply P4. destruct (at_err h); [|done]. rewrite D3 in He; done.
Qed.

Lemma ide_run_inv subm comp s : ide_run subm comp s →
  ∃ l, subm = comp ++ l ∧ ide_inv l s.
Proof.
  induction 1 as [s Hq|subm comp s h _ (l&->&I) (D1&D2&D3&D4)|subm comp s s' _ (l&->&I) Ha Hq Hlen Hb
    |subm comp s b bb s' _ (l&->&I) Hb Hp Hnin Hd (i&pr&?&?&?&?&?&?) Hrun
    |subm comp s b s' _ (l&->&I) Hq Hok Hfi Hfp Hrun].
  - exists []. split; [done|]. split; try done; [constructor|]. intros b Hb. by apply elem_of_nil in Hb.
  - exists l. split; [done|]. destruct I as [I1 I2 I3 I4]. split; try done. intros b bb Hb Hbb.
    eapply device_programmed; [by split_and!|by eapply I4].
  - exists l. split; [done|]. rewrite drop_app_length in Hb. destruct I as [I1 I2 I3 I4]. split.
    + rewrite Hq. eapply qchain_ext; [exact I1|]. intros x Hx. unfold nx. by rewrite Hb.
    + done.
    + intros x Hx. rewrite Hb by done. auto.
    + rewrite Ha. intros x bx Hx. rewrite Hb; [by apply I4|]. destruct l; [done|]. injection Hx as <-. by left.
  - rewrite drop_app_length in Hnin.
    destruct (iderw_correct l s b bb i pr) as (s2&E&I'&_); try done. rewrite E in Hrun.
    injection Hrun as <-. exists (l ++ [b]). by rewrite app_assoc.
  - destruct l as [|x l]; [destruct I as [I1 _ _ _]; cbn in I1; congruence|].
    assert (x = b) as -> by (destruct I as [[I1 _] _ _ _]; congruence).
    destruct (iv_pend _ _ I b) as (bb&Hb&_); [by left|].
    destruct (ideintr_correct l s b bb) as (s2&E&I'&_); try done. rewrite E in Hrun.
    injection Hrun as <-. exists l. by rewrite <- app_assoc.
Qed.

(** C17: requests are served in the order of the calls of [iderw], none is lost
    or served twice, in every interleaving of calls, interrupts and steps of
    the controller, errors included.  The next interrupt ends the oldest
    request: its buffer becomes valid and clean, its waiters are woken, and the
    controller starts on the next request.  Unless the controller reports an
    error, a read has put the contents of its sector into the buffer, and after
    a write the sector holds the data of the buffer.  After an error the buffer
    becomes valid and clean all the same (ide.c does not pass the error on): a
    read leaves the old data in it, and about the sector of a write nothing is
    known. *)
Theorem ide_fifo subm comp s : ide_run subm comp s →
  ∃ l, subm = comp ++ l ∧ ide_inv l s ∧
    ∀ b l', l = b :: l' → kst_ok (id_k s) → is_free LIde (id_k s) → is_free LPtable (id_k s) →
    ∃ bb s', id_buf s !! b = Some bb ∧ ideintr s = Ok tt s' ∧ ide_inv l' s' ∧
      id_buf s' = <[b := completed (id_ata s) bb]> (id_buf s) ∧
      b_flags (completed (id_ata s) bb) = clrf (setf (b_flags bb) B_VALID) B_DIRTY ∧
      (has (b_flags bb) B_DIRTY = false → b_data (completed (id_ata s) bb) =
         if at_err (id_ata s) then b_data bb else at_disk (id_ata s) (Z.land (b_dev bb) 1) (b_sector bb)) ∧
      (has (b_flags bb) B_DIRTY = true → at_err (id_ata s) = false →
         at_disk (id_ata s) (Z.land (b_dev bb) 1) (b_sector bb) = b_data bb) ∧
      id_k s' = woken (CBuf b) (id_k s).
Proof.
  intros Hr. destruct (ide_run_inv _ _ _ Hr) as (l&->&I). exists l. split; [done|]. split; [done|].
  intros b l' -> Hok Hfi Hfp. destruct (iv_pend _ _ I b) as (bb&Hb&_); [by left|].
  destruct (ideintr_correct l' s b bb) as (s'&E&I'&Hk&Hbf&Hd&_); try done.
  exists bb, s'. split_and!; try done.
  - unfold completed. by destruct (_ || _).
  - intros Hr0. unfold completed. rewrite Hr0. cbn [orb]. by destruct (at_err (id_ata s)).
Qed.

(** A read of sector 0x12345 on disk 0, submitted on an idle controller. *)
Definition ex_ide : ide :=
  Ide (Kst (Cpu 0 true 0 true (Some 0%nat)) {[LIde := lk_free; LPtable := lk_free]}
         [set_p_state RUNNING proc_zero])
    (Ata (λ _, 0) 0 (λ d s, replicate 512 (s mod 256)) 3 false)
    [Buf B_BUSY 0 0x12345 0 0 None (replicate 512 0)] None false.

Definition ex_ide1 : ide := match iderw 0 ex_ide with Blocked _ s => s | _ => ex_ide end.

(** The scheduler has switched back; the locks are free again. *)
Definition ex_ide2 : ide :=
  Ide (Kst (Cpu 0 true 0 true None) {[LIde := lk_free; LPtable := lk_free]} (k_procs (id_k ex_ide1)))
    (id_ata ex_ide1) (id_buf ex_ide1) (id_queue ex_ide1) (id_disk1 ex_ide1).

Lemma ex_ide_submit : iderw 0 ex_ide = Blocked (CBuf 0) ex_ide1.
Proof.
  assert (Hx : ∃ s', iderw 0 ex_ide = Blocked (CBuf 0) s').
  { destruct (iderw_correct [] ex_ide 0 (Buf B_BUSY 0 0x12345 0 0 None (replicate 512 0)) 0
      (set_p_state RUNNING proc_zero)) as (s'&E&_); cycle -1; [by exists s'|..]; try done.
    - split; try done; [constructor|]. intros b Hb. by apply elem_of_nil in Hb.
    - set_solver.
    - by left. }
  destruct Hx as [s' E]. unfold ex_ide1. rewrite E. reflexivity.
Qed.

Lemma ex_ide_run : ide_run [0%nat] [] ex_ide2.
Proof.
  eapply (ir_kernel _ _ ex_ide1); [|reflexivity..|intros; reflexivity].
  change [0%nat] with ([] ++ [0%nat]).
  eapply (ir_submit [] [] ex_ide 0 (Buf B_BUSY 0 0x12345 0 0 None (replicate 512 0)));
    [|done|done|set_solver|by left| |exact ex_ide_submit].
  - by apply ir_init.
  - exists 0%nat, (set_p_state RUNNING proc_zero). done.
Qed.

(** The same request after the controller has failed. *)
Definition ex_ide3 : ide := with_ata (Ata (at_regs (id_ata ex_ide2)) (at_cmd (id_ata ex_ide2))
  (at_disk (id_ata ex_ide2)) 2 true) ex_ide2.
Lemma ex_ide_fail : ide_run [0%nat] [] ex_ide3.
Proof. apply ir_device; [exact ex_ide_run|]. split_and!; [done..|]. intros d sec. by left. Qed.

Lemma ex_ide3_same : id_k ex_ide3 = id_k ex_ide2 ∧ id_buf ex_ide3 = id_buf ex_ide2 ∧ at_err (id_ata ex_ide3) = true.
Proof. unfold ex_ide3, with_ata. cbn [id_k id_buf id_ata at_err]. by split_and!. Qed.

Lemma ex_ide2_ready : kst_ok (id_k ex_ide2) ∧ is_free LIde (id_k ex_ide2) ∧ is_free LPtable (id_k ex_ide2).
Proof. unfold ex_ide2. cbn [id_k]. split_and!; [by split_and!|reflexivity|reflexivity]. Qed.

Definition ex_bb : buf := Buf B_BUSY 0 0x12345 0 0 None (replicate 512 0).
Lemma ex_ide2_buf : id_buf ex_ide2 !! 0%nat = Some ex_bb.
Proof. vm_compute. reflexivity. Qed.
Lemma ex_ide2_data : (if at_err (id_ata ex_ide2) then b_data ex_bb
  else at_disk (id_ata ex_ide2) (Z.land (b_dev ex_bb) 1) (b_sector ex_bb)) = replicate 512 0x45.
Proof. vm_compute. reflexivity. Qed.

Lemma ide_fifo_witness :
  (∃ bb s', ideintr ex_ide2 = Ok tt s' ∧ id_buf s' !! 0%nat = Some bb ∧ has (b_flags bb) B_VALID = true ∧
    b_data bb = replicate 512 0x45) ∧
  ∃ bb s', ideintr ex_ide3 = Ok tt s' ∧ id_buf s' !! 0%nat = Some bb ∧ has (b_flags bb) B_VALID = true ∧
    b_data bb = b_data ex_bb.
Proof.
  destruct ex_ide2_ready as (R1&R2&R3). assert (Hlt := lookup_lt_Some _ _ _ ex_ide2_buf). split.
  - destruct (ide_fifo _ _ _ ex_ide_run) as (l&Hl&_&Hnext).
    destruct (Hnext 0%nat [] (eq_sym Hl) R1 R2 R3) as (bb&s'&Hb&E&_&Hbf&Hfl&Hrd&_).
    rewrite ex_ide2_buf in Hb. apply (inj Some) in Hb. subst bb. rewrite ex_ide2_data in Hrd.
    exists (completed (id_ata ex_ide2) ex_bb), s'. split; [exact E|]. rewrite Hbf. split; [|split].
    + exact (list_lookup_insert_eq _ _ _ Hlt).
    + rewrite Hfl. reflexivity.
    + exact (Hrd eq_refl).
  - destruct ex_ide3_same as (Ek&Eb&Ee).
    destruct (ide_fifo _ _ _ ex_ide_fail) as (l&Hl&_&Hnext). rewrite Ek, Eb, Ee in Hnext.
    destruct (Hnext 0%nat [] (eq_sym Hl) R1 R2 R3) as (bb&s'&Hb&E&_&Hbf&Hfl&Hrd&_).
    rewrite ex_ide2_buf in Hb. apply (inj Some) in Hb. subst bb.
    exists (completed (id_ata ex_ide3) ex_bb), s'. split; [exact E|]. rewrite Hbf. split; [|split].
    + exact (list_lookup_insert_eq _ _ _ Hlt).
    + rewrite Hfl. reflexivity.
    + exact (Hrd eq_refl).
Defined.
