(* ===== verification/Boot.v ===== *)
(** Booting: the boot loader (bootmain.c), the search for the description of
    the processors (mp.c, mp.h).

    The boot loader drives the disk controller of Ide.v and writes to
    physical memory.  mp.c reads tables that the firmware left in memory. *)
From S2P Require Import Prelude Kmonad Wp Kstate Spinlock Str Kalloc Ide.

(** ** bootmain.c *)

Module Boot.

Definition SECTSIZE : Z := 512.
Definition ELF_MAGIC : Z := 0x464C457F.

Record boot := Boot_ { bt_ata : ata; bt_mem : mem }.

Definition out (port v : Z) : M boot unit := modify (λ s, Boot_ (outb port v (bt_ata s)) (bt_mem s)).
Definition inp (port : Z) : M boot Z := λ s,
  let '(v, h) := inb port (bt_ata s) in Ok v (Boot_ h (bt_mem s)).

(** Wait for disk ready; the bound is the busy time left. *)
Definition waitdisk : M boot unit :=
  n ← gets (λ s, at_busy (bt_ata s));
  loop (S n) (λ _, r ← inp 0x1F7;
    if negb (Z.land r 0xC0 =? 0x40) then mret (inl tt) else mret (inr tt)) tt.

(** Bytes put into memory from [dst] on. *)
Definition put_bytes (m : mem) (dst : Z) (l : list Z) : mem := λ a,
  if (dst <=? a) && (a <? dst + Z.of_nat (length l)) then nth (Z.to_nat (a - dst)) l 0 else m a.

(** Read a single sector at [offset] into [dst]. *)
Definition readsect (dst offset : Z) : M boot unit :=
  waitdisk;;
  out 0x1F2 1;;
  out 0x1F3 offset;;
  out 0x1F4 (Z.shiftr offset 8);;
  out 0x1F5 (Z.shiftr offset 16);;
  out 0x1F6 (Z.lor (Z.shiftr offset 24) 0xE0);;
  out 0x1F7 0x20;;
  waitdisk;;
  modify (λ s, Boot_ (bt_ata s) (put_bytes (bt_mem s) dst (insl (bt_ata s)))).

(** One turn of the loop of [readseg]: [pa] and [offset]. *)
Definition readseg_step (epa : Z) (st : Z * Z) : M boot (Z * Z + unit) :=
  let '(pa, offset) := st in
  if pa <? epa then
    readsect pa offset;;
    mret (inl (u32 (pa + SECTSIZE), u32 (offset + 1)))
  else mret (inr tt).

(** Read [count] bytes at [offset] from kernel into physical address [pa]. *)
Definition readseg (pa count offset : Z) : M boot unit :=
  let epa := u32 (pa + count) in
  let pa := u32 (pa - offset mod SECTSIZE) in
  loop (S (S (Z.to_nat (u32 (epa - pa) / SECTSIZE)))) (readseg_step epa) (pa, u32 (offset / SECTSIZE + 1)).

Definition rd16 (a : Z) : M boot Z := gets (λ s, bt_mem s a + 256 * bt_mem s (a + 1)).
Definition rd32 (a : Z) : M boot Z := gets (λ s, load32 (bt_mem s) a).

(** One turn of the loop over the program headers. *)
Definition load_step (eph ph : Z) : M boot (Z + unit) :=
  if ph <? eph then
    pa ← rd32 (ph + 12);
    filesz ← rd32 (ph + 16);
    off ← rd32 (ph + 4);
    readseg pa filesz off;;
    memsz ← rd32 (ph + 20);
    filesz ← rd32 (ph + 16);
    when (filesz <? memsz)
      (modify (λ s, Boot_ (bt_ata s) (stosb (Z.to_nat (memsz - filesz)) (bt_mem s) (u32 (pa + filesz)) 0)));;
    mret (inl (ph + 32))
  else mret (inr tt).

(** The entry point that is called; [None]: not an ELF file. *)
Definition bootmain : M boot (option Z) :=
  let elf := 0x10000 in
  readseg elf 4096 0;;
  magic ← rd32 elf;
  if negb (magic =? ELF_MAGIC) then mret None else
  phoff ← rd32 (elf + 28);
  phnum ← rd16 (elf + 44);
  let ph := u32 (elf + phoff) in
  loop (S (Z.to_nat phnum)) (load_step (ph + 32 * phnum)) ph;;
  entry ← rd32 (elf + 24);
  mret (Some entry).
End Boot.

(** ** mp.c *)

Module Mp.

Definition NCPU : nat := 8.
Definition MPBOOT : Z := 2.
(** Sizes of [struct mp], [mpconf], [mpproc] and [mpioapic]. *)
Definition MPSIZE : Z := 16.
Definition MPCONFSIZE : Z := 44.
Definition MPPROCSIZE : Z := 20.
Definition MPIOAPICSIZE : Z := 8.

(** The globals of mp.c, the bytes written to ports, and the memory. *)
Record mpst := Mpst {
  mp_mem : mem;
  mp_ismp : bool;
  mp_ncpu : Z;
  mp_bcpu : Z;                     (* bcpu - cpus *)
  mp_ids : list Z;                 (* cpus[i].id *)
  mp_ioapicid : Z;
  mp_lapic : Z;
  mp_ports : list (Z * Z)
}.
Definition set_ismp v (s : mpst) : mpst :=
  Mpst (mp_mem s) v (mp_ncpu s) (mp_bcpu s) (mp_ids s) (mp_ioapicid s) (mp_lapic s) (mp_ports s).
Definition set_ncpu v (s : mpst) : mpst :=
  Mpst (mp_mem s) (mp_ismp s) v (mp_bcpu s) (mp_ids s) (mp_ioapicid s) (mp_lapic s) (mp_ports s).
Definition set_bcpu v (s : mpst) : mpst :=
  Mpst (mp_mem s) (mp_ismp s) (mp_ncpu s) v (mp_ids s) (mp_ioapicid s) (mp_lapic s) (mp_ports s).
Definition set_ids v (s : mpst) : mpst :=
  Mpst (mp_mem s) (mp_ismp s) (mp_ncpu s) (mp_bcpu s) v (mp_ioapicid s) (mp_lapic s) (mp_ports s).
Definition set_ioapicid v (s : mpst) : mpst :=
  Mpst (mp_mem s) (mp_ismp s) (mp_ncpu s) (mp_bcpu s) (mp_ids s) v (mp_lapic s) (mp_ports s).
Definition set_lapic v (s : mpst) : mpst :=
  Mpst (mp_mem s) (mp_ismp s) (mp_ncpu s) (mp_bcpu s) (mp_ids s) (mp_ioapicid s) v (mp_ports s).
Definition set_ports v (s : mpst) : mpst :=
  Mpst (mp_mem s) (mp_ismp s) (mp_ncpu s) (mp_bcpu s) (mp_ids s) (mp_ioapicid s) (mp_lapic s) v.

Definition mpbcpu : M mpst Z := gets mp_bcpu.

(** The loop of [sum]; the result is a byte. *)
Fixpoint sum_loop (m : mem) (a : Z) (n : nat) (acc : Z) : Z :=
  match n with
  | O => u8 acc
  | S n => sum_loop m (a + 1) n (i32 (acc + m a))
  end.
Definition sum (m : mem) (a len : Z) : Z := sum_loop m a (Z.to_nat len) 0.

Definition mem_is (m : mem) (a : Z) (s : string) : bool :=
  bool_decide ((λ i, m (a + Z.of_nat i)) <$> seq 0 4 = zs s).

(** Look for an MP structure at [n] places from [p] on. *)
Fixpoint mpscan (m : mem) (p : Z) (n : nat) : option Z :=
  match n with
  | O => None
  | S n => if mem_is m p "_MP_" && (sum m p MPSIZE =? 0) then Some p else mpscan m (p + MPSIZE) n
  end.
Definition mpsearch1 (m : mem) (a len : Z) : option Z := mpscan m (p2v a) (Z.to_nat (len / MPSIZE)).

Definition mpsearch (m : mem) : option Z :=
  let bda := p2v 0x400 in
  let p := Z.shiftl (Z.lor (Z.shiftl (m (bda + 0x0F)) 8) (m (bda + 0x0E))) 4 in
  match
    if nz p then mpsearch1 m p 1024
    else mpsearch1 m (u32 (Z.lor (Z.shiftl (m (bda + 0x14)) 8) (m (bda + 0x13)) * 1024 - 1024)) 1024
  with
  | Some mp => Some mp
  | None => mpsearch1 m 0xF0000 0x10000
  end.

Definition conf_length (m : mem) (conf : Z) : Z := m (conf + 4) + 256 * m (conf + 5).

(** The MP structure and the configuration table. *)
Definition mpconfig (m : mem) : option (Z * Z) :=
  mp ← mpsearch m;
  let physaddr := load32 m (mp + 4) in
  if physaddr =? 0 then None else
  let conf := p2v physaddr in
  if negb (mem_is m conf "PCMP") then None else
  if negb (m (conf + 6) =? 1) && negb (m (conf + 6) =? 4) then None else
  if negb (sum m conf (conf_length m conf) =? 0) then None else
  Some (mp, conf).

(** One turn of the loop of [mpinit]; [cprintf] is left out. *)
Definition mpinit_step (e p : Z) : M mpst (Z + unit) :=
  if p <? e then
    m ← gets mp_mem;
    let t := m p in
    if t =? 0 then
      ncpu ← gets mp_ncpu;
      when (negb (ncpu =? m (p + 1))) (modify (set_ismp false));;
      when (nz (Z.land (m (p + 3)) MPBOOT)) (modify (set_bcpu ncpu));;
      if (Z.of_nat NCPU <=? ncpu) then fault else
      modify (λ s, set_ids (<[Z.to_nat ncpu := ncpu]> (mp_ids s)) s);;
      modify (set_ncpu (ncpu + 1));;
      mret (inl (p + MPPROCSIZE))
    else if t =? 2 then
      modify (set_ioapicid (m (p + 1)));;
      mret (inl (p + MPIOAPICSIZE))
    else if (t =? 1) || (t =? 3) || (t =? 4) then mret (inl (p + 8))
    else
      modify (set_ismp false);;
      mret (inl p)
  else mret (inr tt).

(** The value read from port 0x23 is [imcr]. *)
Definition mpinit (fuel : nat) (imcr : Z) : M mpst unit :=
  modify (set_bcpu 0);;
  m ← gets mp_mem;
  match mpconfig m with
  | None => mret tt
  | Some (mp, conf) =>
      modify (set_ismp true);;
      modify (set_lapic (load32 m (conf + 36)));;
      loop fuel (mpinit_step (conf + conf_length m conf)) (conf + MPCONFSIZE);;
      ismp ← gets mp_ismp;
      if negb ismp then
        modify (set_ncpu 1);;
        modify (set_lapic 0);;
        modify (set_ioapicid 0)
      else
        when (nz (m (mp + 12)))
          (modify (λ s, set_ports (mp_ports s ++ [(0x22, 0x70); (0x23, Z.lor imcr 1)]) s))
  end.
End Mp.
