(* ===== verification/Vm.v ===== *)
(** Page tables (vm.c, mmu.h).

    A page directory and its page tables are pages of the kernel's memory, as
    kalloc.c hands them out; the model reads and writes their 32-bit entries
    in the byte memory of Kalloc.v.  [mmu] is the translation the hardware
    makes with them. *)
From S2P Require Import Prelude Kmonad Wp Kstate Spinlock Str Kalloc.

(** ** mmu.h and memlayout.h *)
Definition NPDENTRIES : Z := 1024.
Definition NPTENTRIES : Z := 1024.
Definition PTXSHIFT : Z := 12.
Definition PDXSHIFT : Z := 22.
Definition PDX (va : Z) : Z := Z.land (Z.shiftr (u32 va) PDXSHIFT) 0x3FF.
Definition PTX (va : Z) : Z := Z.land (Z.shiftr (u32 va) PTXSHIFT) 0x3FF.
Definition PTE_P : Z := 1.
Definition PTE_W : Z := 2.
Definition PTE_U : Z := 4.
Definition PTE_ADDR (pte : Z) : Z := Z.land (u32 pte) (Z.lnot 0xFFF).
Definition EXTMEM : Z := 0x100000.
Definition DEVSPACE : Z := 0xFE000000.
Definition KERNLINK : Z := KERNBASE + EXTMEM.

Definition flag (pte f : Z) : bool := nz (Z.land pte f).

(** One entry of the table [kmap]. *)
Record kmap := Kmap { km_virt : Z; km_phys_start : Z; km_phys_end : Z; km_perm : Z }.

Section Vm.
(** The addresses [end] and [data], set by the linker. *)
Context (kend kdata : Z).

Definition kmap_table : list kmap :=
  [Kmap KERNBASE 0 EXTMEM PTE_W;                       (* I/O space *)
   Kmap KERNLINK (v2p KERNLINK) (v2p kdata) 0;         (* kernel text+rodata *)
   Kmap kdata (v2p kdata) PHYSTOP PTE_W;               (* kernel data, memory *)
   Kmap DEVSPACE DEVSPACE 0 PTE_W].                    (* more devices *)

Definition read32 (a : Z) : M kmem Z := gets (λ s, load32 (km_mem s) a).
Definition write32 (a v : Z) : M kmem unit :=
  modify (λ s, set_km_mem (store32 (km_mem s) a v) s).
Definition kmemset (a c n : Z) : M kmem unit :=
  modify (λ s, set_km_mem (memset (km_mem s) a c n) s).
Definition kmemmove (dst src n : Z) : M kmem unit :=
  modify (λ s, set_km_mem (memmove (km_mem s) dst src n) s).
(** [memmove] from a buffer outside the page memory. *)
Definition kstore (dst : Z) (src : list Z) : M kmem unit :=
  modify (λ s, set_km_mem (λ a,
    if (dst <=? a) && (a <? dst + Z.of_nat (length src)) then nth (Z.to_nat (a - dst)) src 0
    else km_mem s a) s).

(** Return the address of the PTE in page table [pgdir] that corresponds to
    virtual address [va]; 0 if there is none. *)
Definition walkpgdir (pgdir va : Z) (alloc : bool) : M kmem Z :=
  let pde := pgdir + 4 * PDX va in
  e ← read32 pde;
  if flag e PTE_P then mret (p2v (PTE_ADDR e) + 4 * PTX va)
  else if negb alloc then mret 0 else
    pgtab ← kalloc;
    if pgtab =? 0 then mret 0 else
    kmemset pgtab 0 PGSIZE;;
    write32 pde (Z.lor (Z.lor (Z.lor (v2p pgtab) PTE_P) PTE_W) PTE_U);;
    mret (pgtab + 4 * PTX va).

(** One turn of the loop of [mappages]: [a] and [pa]. *)
Definition mappages_step (pgdir last perm : Z) (st : Z * Z) : M kmem (Z * Z + Z) :=
  let '(a, pa) := st in
  pte ← walkpgdir pgdir a true;
  if pte =? 0 then mret (inr (-1)) else
  e ← read32 pte;
  if flag e PTE_P then panic "remap" else
  write32 pte (Z.lor (Z.lor pa perm) PTE_P);;
  if a =? last then mret (inr 0) else mret (inl (u32 (a + PGSIZE), u32 (pa + PGSIZE))).

Definition mappages (pgdir va size pa perm : Z) : M kmem Z :=
  let a := PGROUNDDOWN va in
  let last := PGROUNDDOWN (u32 (va + size - 1)) in
  loop (S (Z.to_nat (u32 (last - a) / PGSIZE))) (mappages_step pgdir last perm) (a, pa).

(** Map the entries of [kmap]; false when memory has run out. *)
Fixpoint map_kernel (pgdir : Z) (l : list kmap) : M kmem bool :=
  match l with
  | [] => mret true
  | k :: l =>
      r ← mappages pgdir (km_virt k) (u32 (km_phys_end k - km_phys_start k)) (km_phys_start k) (km_perm k);
      if r <? 0 then mret false else map_kernel pgdir l
  end.

Definition setupkvm : M kmem Z :=
  pgdir ← kalloc;
  if pgdir =? 0 then mret 0 else
  kmemset pgdir 0 PGSIZE;;
  if DEVSPACE <? p2v PHYSTOP then panic "PHYSTOP too high" else
  ok ← map_kernel pgdir kmap_table;
  mret (if ok : bool then pgdir else 0).

(** Load the initcode into address 0 of [pgdir]. *)
Definition inituvm (pgdir : Z) (init : list Z) : M kmem unit :=
  if PGSIZE <=? Z.of_nat (length init) then panic "inituvm: more than a page" else
  m ← kalloc;
  kmemset m 0 PGSIZE;;
  mappages pgdir 0 PGSIZE (v2p m) (Z.lor PTE_W PTE_U);;
  kstore m init.

(** One turn of the loop of [deallocuvm]. *)
Definition deallocuvm_step (pgdir oldsz a : Z) : M kmem (Z + unit) :=
  if a <? oldsz then
    pte ← walkpgdir pgdir a false;
    if pte =? 0 then mret (inl (u32 (a + (NPTENTRIES - 1) * PGSIZE + PGSIZE))) else
    e ← read32 pte;
    if flag e PTE_P then
      let pa := PTE_ADDR e in
      if pa =? 0 then panic "kfree" else
      kfree kend (p2v pa);;
      write32 pte 0;;
      mret (inl (u32 (a + PGSIZE)))
    else mret (inl (u32 (a + PGSIZE)))
  else mret (inr tt).

(** Deallocate user pages to bring the process size from [oldsz] to [newsz]. *)
Definition deallocuvm (pgdir oldsz newsz : Z) : M kmem Z :=
  if oldsz <=? newsz then mret oldsz else
  loop (S (S (Z.to_nat (oldsz / PGSIZE)))) (deallocuvm_step pgdir oldsz) (PGROUNDUP newsz);;
  mret newsz.

(** One turn of the loop of [allocuvm].  The result of [mappages] is not
    looked at. *)
Definition allocuvm_step (pgdir oldsz newsz a : Z) : M kmem (Z + Z) :=
  if a <? newsz then
    m ← kalloc;
    if m =? 0 then
      deallocuvm pgdir newsz oldsz;;
      mret (inr 0)
    else
      kmemset m 0 PGSIZE;;
      mappages pgdir a PGSIZE (v2p m) (Z.lor PTE_W PTE_U);;
      mret (inl (u32 (a + PGSIZE)))
  else mret (inr newsz).

(** Allocate page tables and physical memory to grow process from [oldsz] to
    [newsz]; the new size or 0. *)
Definition allocuvm (pgdir oldsz newsz : Z) : M kmem Z :=
  if KERNBASE <=? newsz then mret 0 else
  if newsz <? oldsz then mret oldsz else
  loop (S (S (Z.to_nat (newsz / PGSIZE)))) (allocuvm_step pgdir oldsz newsz) (PGROUNDUP oldsz).

(** Free a page table and all the physical memory pages in the user part. *)
Definition freevm (pgdir : Z) : M kmem unit :=
  if pgdir =? 0 then panic "freevm: no pgdir" else
  deallocuvm pgdir KERNBASE 0;;
  for_each (seq 0 (Z.to_nat NPDENTRIES)) (λ i,
    e ← read32 (pgdir + 4 * Z.of_nat i);
    when (flag e PTE_P) (kfree kend (p2v (PTE_ADDR e))));;
  kfree kend pgdir.

(** Clear PTE_U on a page. *)
Definition clearpteu (pgdir uva : Z) : M kmem unit :=
  pte ← walkpgdir pgdir uva false;
  if pte =? 0 then panic "clearpteu" else
  e ← read32 pte;
  write32 pte (Z.land e (Z.lnot PTE_U)).

(** One turn of the loop of [copyuvm]; [None] is [goto bad]. *)
Definition copyuvm_step (pgdir d sz i : Z) : M kmem (Z + bool) :=
  if i <? sz then
    pte ← walkpgdir pgdir i false;
    if pte =? 0 then panic "copyuvm: pte should exist" else
    e ← read32 pte;
    if negb (flag e PTE_P) then panic "copyuvm: page not present" else
    let pa := PTE_ADDR e in
    m ← kalloc;
    if m =? 0 then mret (inr false) else
    kmemmove m (p2v pa) PGSIZE;;
    r ← mappages d i PGSIZE (v2p m) (Z.lor PTE_W PTE_U);
    if r <? 0 then mret (inr false) else mret (inl (u32 (i + PGSIZE)))
  else mret (inr true).

(** Given a parent process's page table, create a copy of it for a child. *)
Definition copyuvm (pgdir sz : Z) : M kmem Z :=
  d ← setupkvm;
  if d =? 0 then mret 0 else
  ok ← loop (S (S (Z.to_nat (sz / PGSIZE)))) (copyuvm_step pgdir d sz) 0;
  if ok : bool then mret d else freevm d;; mret 0.

(** Map user virtual address to kernel address.  The entry is read without a
    test that there is one. *)
Definition uva2ka (pgdir uva : Z) : M kmem Z :=
  pte ← walkpgdir pgdir uva false;
  if pte =? 0 then fault else
  e ← read32 pte;
  if negb (flag e PTE_P) then mret 0 else
  if negb (flag e PTE_U) then mret 0 else
  mret (p2v (PTE_ADDR e)).

(** One turn of the loop of [copyout]: what is left to copy and [va]. *)
Definition copyout_step (pgdir : Z) (st : list Z * Z) : M kmem (list Z * Z + Z) :=
  let '(buf, va) := st in
  let len := Z.of_nat (length buf) in
  if 0 <? len then
    let va0 := PGROUNDDOWN va in
    pa0 ← uva2ka pgdir va0;
    if pa0 =? 0 then mret (inr (-1)) else
    let n := Z.min (PGSIZE - (va - va0)) len in
    kstore (pa0 + (va - va0)) (take (Z.to_nat n) buf);;
    mret (inl (drop (Z.to_nat n) buf, u32 (va0 + PGSIZE)))
  else mret (inr 0).

(** Copy the bytes of [buf] to user address [va] in page table [pgdir]. *)
Definition copyout (pgdir va : Z) (buf : list Z) : M kmem Z :=
  loop (S (S (length buf))) (copyout_step pgdir) (buf, va).

(** ** The hardware's translation *)

(** The entry the MMU finds for [va], and the physical address. *)
Definition mmu_pte (m : mem) (pgdir va : Z) : option Z :=
  let pde := load32 m (pgdir + 4 * PDX va) in
  if flag pde PTE_P then
    let pte := load32 m (p2v (PTE_ADDR pde) + 4 * PTX va) in
    if flag pte PTE_P then Some pte else None
  else None.
Definition mmu (m : mem) (pgdir va : Z) : option Z :=
  pte ← mmu_pte m pgdir va; Some (PTE_ADDR pte + u32 va mod PGSIZE).
End Vm.
