(* ===== verification/VmLaws.v ===== *)
(** Page tables are what the hardware reads: [walkpgdir] and [mappages] make
    exactly the translations asked for, in memory that nobody else uses. *)
From S2P Require Import Prelude Kmonad Wp Kstate Spinlock Str Kalloc Vm.

(** ** The bit fields as arithmetic *)

Lemma PTE_ADDR_div e : PTE_ADDR e = u32 e / PGSIZE * PGSIZE.
Proof. unfold PTE_ADDR. change 0xFFF with (PGSIZE - 1). apply PGROUNDDOWN_div. Qed.

Lemma flag_P e : flag e PTE_P = Z.odd e.
Proof.
  unfold flag, PTE_P, nz. replace (Z.land e 1) with (e mod 2) by (symmetry; exact (Z.land_ones e 1 ltac:(lia))).
  rewrite Zmod_odd. by destruct (Z.odd e).
Qed.

Lemma field_div va k : 0 ≤ k → Z.land (Z.shiftr (u32 va) k) 0x3FF = u32 va / 2 ^ k mod 1024.
Proof.
  intros Hk. change 0x3FF with (Z.ones 10). rewrite Z.land_ones, Z.shiftr_div_pow2 by lia. done.
Qed.
Lemma PDX_div va : PDX va = u32 va / 4194304.
Proof.
  unfold PDX, PDXSHIFT. rewrite field_div by lia. change (2 ^ 22) with 4194304.
  apply Z.mod_small. pose proof (u32_range va). Z.div_mod_to_equations. lia.
Qed.
Lemma PTX_div va : PTX va = u32 va / PGSIZE mod 1024.
Proof. unfold PTX, PTXSHIFT. by rewrite field_div by lia. Qed.

Lemma PDX_range va : 0 ≤ PDX va < 1024.
Proof. rewrite PDX_div. pose proof (u32_range va). Z.div_mod_to_equations. lia. Qed.
Lemma PTX_range va : 0 ≤ PTX va < 1024.
Proof. rewrite PTX_div. apply Z.mod_pos_bound. lia. Qed.

(** The two indices determine the virtual page. *)
Lemma same_page x y : 0 ≤ x < 4294967296 → 0 ≤ y < 4294967296 →
  PDX x = PDX y → PTX x = PTX y → x / PGSIZE = y / PGSIZE.
Proof.
  intros Hx Hy. rewrite !PDX_div, !PTX_div, !u32_small by done. unfold PGSIZE.
  Z.div_mod_to_equations. lia.
Qed.
Lemma page_index x y : 0 ≤ x < 4294967296 → 0 ≤ y < 4294967296 →
  x / PGSIZE = y / PGSIZE → PDX x = PDX y ∧ PTX x = PTX y.
Proof.
  intros Hx Hy. rewrite !PDX_div, !PTX_div, !u32_small by done. unfold PGSIZE.
  Z.div_mod_to_equations. lia.
Qed.

Lemma lor_aligned x f : x mod PGSIZE = 0 → 0 ≤ f < PGSIZE → Z.lor x f = x + f.
Proof.
  intros Hx Hf. rewrite <- Z.add_nocarry_lor; [done|].
  apply Z.bits_inj'. intros i Hi. rewrite Z.land_spec, Z.bits_0.
  change PGSIZE with (2 ^ 12) in *. destruct (decide (i < 12)).
  - rewrite <- (Z.mod_pow2_bits_low x 12 i) by lia. by rewrite Hx, Z.bits_0.
  - rewrite <- (Z.mod_small f (2 ^ 12)) by done. rewrite Z.mod_pow2_bits_high by lia. by rewrite andb_false_r.
Qed.

Lemma load32_range m a : (∀ x, is_byte (m x)) → 0 ≤ load32 m a < 4294967296.
Proof.
  intros Hb. unfold load32. pose proof (le_decode_range [m a; m (a + 1); m (a + 2); m (a + 3)]) as Hr.
  apply Hr. repeat constructor; apply Hb.
Qed.

Lemma load32_store32_ne m a b w : a + 4 ≤ b ∨ b + 4 ≤ a → load32 (store32 m b w) a = load32 m a.
Proof.
  intros Hd. apply load32_ext. intros i Hi. unfold store32. rewrite !upd_ne by lia. done.
Qed.

Lemma load32_zero m v a : v ≤ a → a + 4 ≤ v + PGSIZE → load32 (memset m v 0 PGSIZE) a = 0.
Proof.
  intros H1 H2. unfold load32. rewrite !memset_filled by done. unfold filled, PGSIZE in *.
  bdestr; try lia. done.
Qed.

Section Laws.
Context (kend : Z).
Notation page := (page kend).
Notation free_pages := (free_pages kend).

(** ** The page tables of a directory *)

Definition pde (m : mem) (pgdir i : Z) : Z := load32 m (pgdir + 4 * i).
Definition present (m : mem) (pgdir i : Z) : bool := flag (pde m pgdir i) PTE_P.
Definition tab (m : mem) (pgdir i : Z) : Z := p2v (PTE_ADDR (pde m pgdir i)).

(** The directory and its tables are pages of their own, none of them free. *)
Record pt_ok (m : mem) (pgdir : Z) (free : list Z) : Prop := {
  pt_dir : page pgdir ∧ pgdir ∉ free;
  pt_tab : ∀ i, 0 ≤ i < 1024 → present m pgdir i = true →
    page (tab m pgdir i) ∧ tab m pgdir i ∉ free ∧ tab m pgdir i ≠ pgdir;
  pt_inj : ∀ i j, 0 ≤ i < 1024 → 0 ≤ j < 1024 → present m pgdir i = true →
    present m pgdir j = true → tab m pgdir i = tab m pgdir j → i = j
}.

Lemma mmu_pte_eq m pgdir va : mmu_pte m pgdir va =
  if present m pgdir (PDX va) then
    let e := load32 m (tab m pgdir (PDX va) + 4 * PTX va) in
    if flag e PTE_P then Some e else None
  else None.
Proof. done. Qed.

(** Address [a] lies in page [v]. *)
Definition in_page (v a : Z) : Prop := v ≤ a < v + PGSIZE.

Lemma page_sep v w a b : page v → page w → v ≠ w → in_page v a → a + 4 ≤ v + PGSIZE →
  in_page w b → b + 4 ≤ w + PGSIZE → a + 4 ≤ b ∨ b + 4 ≤ a.
Proof.
  intros Hv Hw Hne Ha Ha' Hb Hb'. unfold in_page, PGSIZE in *.
  destruct (page_disjoint kend v w (b - w) Hv Hw Hne) as [H|H]; unfold PGSIZE in *; try lia.
  destruct (page_disjoint kend v w (b + 3 - w) Hv Hw Hne) as [H'|H']; unfold PGSIZE in *; lia.
Qed.

Lemma slot_in v i : 0 ≤ i < 1024 → in_page v (v + 4 * i) ∧ v + 4 * i + 4 ≤ v + PGSIZE.
Proof. unfold in_page, PGSIZE. lia. Qed.

(** A write to a slot of another page is not seen. *)
Lemma read_other v w i j m x : page v → page w → v ≠ w → 0 ≤ i < 1024 → 0 ≤ j < 1024 →
  load32 (store32 m (w + 4 * j) x) (v + 4 * i) = load32 m (v + 4 * i).
Proof.
  intros Hv Hw Hne Hi Hj. apply load32_store32_ne.
  destruct (slot_in v i Hi), (slot_in w j Hj). by eapply (page_sep v w).
Qed.
Lemma read_other_slot v i j m x : i ≠ j →
  load32 (store32 m (v + 4 * j) x) (v + 4 * i) = load32 m (v + 4 * i).
Proof. intros. apply load32_store32_ne. lia. Qed.

(** Writing an entry of a table changes one translation. *)
Lemma write_pte m pgdir l va e : pt_ok m pgdir l → present m pgdir (PDX va) = true →
  0 ≤ va < 4294967296 → 0 ≤ e < 4294967296 →
  let m' := store32 m (tab m pgdir (PDX va) + 4 * PTX va) e in
  pt_ok m' pgdir l ∧
  (∀ i, 0 ≤ i < 1024 → pde m' pgdir i = pde m pgdir i) ∧
  (∀ x, 0 ≤ x < 4294967296 → mmu_pte m' pgdir x =
     if x / PGSIZE =? va / PGSIZE then (if flag e PTE_P then Some e else None) else mmu_pte m pgdir x).
Proof.
  intros [[Hd Hdf] Ht Hi] Hp Hva He m'. destruct (Ht _ (PDX_range va) Hp) as (T1&T2&T3).
  set (t := tab m pgdir (PDX va)) in *.
  assert (Hpde : ∀ i, 0 ≤ i < 1024 → pde m' pgdir i = pde m pgdir i).
  { intros i Hir. unfold m', pde. apply read_other; try done. apply PTX_range. }
  assert (Hpr : ∀ i, 0 ≤ i < 1024 → present m' pgdir i = present m pgdir i)
    by (intros; unfold present; by rewrite Hpde).
  assert (Htb : ∀ i, 0 ≤ i < 1024 → tab m' pgdir i = tab m pgdir i)
    by (intros; unfold tab; by rewrite Hpde).
  split; [|split; [done|]].
  - split; [done| |].
    + intros i Hir. rewrite Hpr, Htb by done. by apply Ht.
    + intros i j Hir Hjr. rewrite !Hpr, !Htb by done. by apply Hi.
  - intros x Hx. rewrite !mmu_pte_eq, Hpr, Htb by apply PDX_range.
    destruct (Z.eqb_spec (x / PGSIZE) (va / PGSIZE)) as [E|E].
    + destruct (page_index x va Hx Hva E) as [-> ->]. rewrite Hp. cbn zeta. fold t.
      unfold m'. by rewrite load32_store32, u32_small by done.
    + destruct (present m pgdir (PDX x)) eqn:Hpx; [|done].
      assert (Hl : load32 m' (tab m pgdir (PDX x) + 4 * PTX x) = load32 m (tab m pgdir (PDX x) + 4 * PTX x)).
      { unfold m'. destruct (decide (PDX x = PDX va)) as [Ep|Ep].
        - rewrite Ep. fold t. apply read_other_slot. intros Et. apply E. by apply same_page.
        - apply read_other; try apply PTX_range; [by apply Ht; [apply PDX_range|]|done|].
          intros Et. apply Ep. apply Hi; try apply PDX_range; done. }
      by rewrite Hl.
Qed.

(** ** A new page table *)

Lemma v2p_facts v : page v → v2p v mod PGSIZE = 0 ∧ 0 ≤ v2p v ≤ 4294963200 ∧ p2v (v2p v) = v.
Proof.
  intros Hp. pose proof (page_aligned kend v Hp) as [Ha _]. destruct Hp as [Hr _].
  unfold v2p, p2v, KERNBASE, u32, PGSIZE in *. Z.div_mod_to_equations. lia.
Qed.

Lemma new_pde v : page v →
  let e := Z.lor (Z.lor (Z.lor (v2p v) PTE_P) PTE_W) PTE_U in
  0 ≤ e < 4294967296 ∧ flag e PTE_P = true ∧ p2v (PTE_ADDR e) = v.
Proof.
  intros Hv. destruct (v2p_facts v Hv) as (H1&H2&H3).
  assert (E : Z.lor (Z.lor (Z.lor (v2p v) PTE_P) PTE_W) PTE_U = v2p v + 7).
  { rewrite <- !Z.lor_assoc. change (Z.lor PTE_P (Z.lor PTE_W PTE_U)) with 7.
    apply lor_aligned; [done|unfold PGSIZE; lia]. }
  cbn zeta. rewrite E. split; [lia|]. split.
  - rewrite flag_P. replace (v2p v) with (PGSIZE * (v2p v / PGSIZE))
      by (unfold PGSIZE in *; Z.div_mod_to_equations; lia).
    rewrite Z.odd_add, Z.odd_mul. done.
  - rewrite PTE_ADDR_div, u32_small by lia. rewrite <- H3 at 2. f_equal.
    unfold PGSIZE in *. Z.div_mod_to_equations. lia.
Qed.

(** Where page-table code may write: the directory, its tables, and the free
    pages it may take. *)
Definition pt_area (m : mem) (pgdir : Z) (free : list Z) (a : Z) : Prop :=
  in_page pgdir a ∨ (∃ v, v ∈ free ∧ in_page v a) ∨
  ∃ i, 0 ≤ i < 1024 ∧ present m pgdir i = true ∧ in_page (tab m pgdir i) a.

Lemma walkpgdir_alloc s l pgdir va :
  km_ready s → free_pages s l → pt_ok (km_mem s) pgdir l →
  (l = [] ∧ walkpgdir pgdir va true s = Ok 0 s) ∨
  ∃ s' l', walkpgdir pgdir va true s = Ok (tab (km_mem s') pgdir (PDX va) + 4 * PTX va) s' ∧
    km_ready s' ∧ km_k s' = km_k s ∧ free_pages s' l' ∧ pt_ok (km_mem s') pgdir l' ∧
    present (km_mem s') pgdir (PDX va) = true ∧
    (∀ x, mmu_pte (km_mem s') pgdir x = mmu_pte (km_mem s) pgdir x) ∧
    (∀ a, pt_area (km_mem s') pgdir l' a ↔ pt_area (km_mem s) pgdir l a) ∧
    (∀ a, ¬ pt_area (km_mem s) pgdir l a → km_mem s' a = km_mem s a) ∧
    (∀ i, 0 ≤ i < 1024 → present (km_mem s') pgdir i = true → present (km_mem s) pgdir i = true ∨ i = PDX va).
Proof.
  intros Hr Hf Hpt. unfold walkpgdir. erewrite bind_run by reflexivity.
  change (load32 (km_mem s) (pgdir + 4 * PDX va)) with (pde (km_mem s) pgdir (PDX va)).
  change (flag (pde (km_mem s) pgdir (PDX va)) PTE_P) with (present (km_mem s) pgdir (PDX va)).
  destruct (present (km_mem s) pgdir (PDX va)) eqn:Hp.
  { right. exists s, l. split_and!; try done. by left. }
  cbn [negb]. pose proof Hf as (Hc&Hpg&Hnd). rewrite (bind_run _ _ _ _ _ (kalloc_run s Hr)).
  destruct l as [|v l].
  { left. split; [done|]. cbn in Hc. rewrite Hc. cbn. destruct s; cbn in *. by subst. }
  right. destruct Hc as [Hfl Hc]. rewrite Hfl. apply Forall_cons in Hpg as [Hv Hpg].
  apply NoDup_cons in Hnd as [Hvl Hnd]. destruct (page_aligned kend v Hv) as [_ Hz].
  rewrite (proj2 (Z.eqb_neq v 0)) by done. unfold nz. rewrite (proj2 (Z.eqb_neq v 0)) by done. cbn [negb].
  erewrite bind_run by reflexivity. erewrite bind_run by reflexivity.
  destruct Hpt as [[Hd Hdf] Ht Hi]. apply not_elem_of_cons in Hdf as [Hdv Hdl].
  destruct (new_pde v Hv) as (E1&E2&E3). set (e := Z.lor _ PTE_U) in *.
  set (m := km_mem s) in *. set (m1 := memset m v 0 PGSIZE). set (m2 := store32 m1 (pgdir + 4 * PDX va) e).
  set (s' := set_km_mem _ _). assert (Hm2 : km_mem s' = m2) by reflexivity.
  pose proof (PDX_range va) as HP.
  assert (Hm1d : ∀ w i, page w → w ≠ v → 0 ≤ i < 1024 → load32 m1 (w + 4 * i) = load32 m (w + 4 * i)).
  { intros w i Hw Hne Hir. apply load32_ext. intros k Hk. unfold m1. apply memset_outside.
    replace (w + 4 * i + k) with (w + (4 * i + k)) by lia. apply (page_disjoint kend v w); try done.
    unfold PGSIZE. lia. }
  assert (Hpde : ∀ i, 0 ≤ i < 1024 → pde m2 pgdir i = if i =? PDX va then e else pde m pgdir i).
  { intros i Hir. unfold pde, m2. destruct (Z.eqb_spec i (PDX va)) as [->|Hne].
    - by rewrite load32_store32, u32_small.
    - rewrite read_other_slot by done. by apply Hm1d. }
  assert (Hpr : ∀ i, 0 ≤ i < 1024 → present m2 pgdir i = (i =? PDX va) || present m pgdir i).
  { intros i Hir. unfold present. rewrite Hpde by done. by destruct (i =? PDX va). }
  assert (Htb : ∀ i, 0 ≤ i < 1024 → tab m2 pgdir i = if i =? PDX va then v else tab m pgdir i).
  { intros i Hir. unfold tab. rewrite Hpde by done. by destruct (i =? PDX va). }
  assert (Hent : ∀ w i, page w → w ≠ v → w ≠ pgdir → 0 ≤ i < 1024 → load32 m2 (w + 4 * i) = load32 m (w + 4 * i)).
  { intros w i Hw Hne Hne' Hir. unfold m2. rewrite read_other by done. by apply Hm1d. }
  exists s', l. rewrite Hm2. split_and!.
  - rewrite Htb by done. by rewrite Z.eqb_refl.
  - done.
  - done.
  - assert (Hc2 : chain m2 (load32 m v) l).
    { eapply (chain_ext kend m1 m2 _ _ pgdir); try done.
      { intros a Ha. unfold m2, store32. unfold PGSIZE in *. rewrite !upd_ne by lia. done. }
      eapply (chain_ext kend m m1 _ _ v); try done. intros a Ha. by apply memset_outside. }
    split_and!; done.
  - split; [done| |].
    + intros i Hir. rewrite Hpr, Htb by done. destruct (Z.eqb_spec i (PDX va)); cbn [orb].
      * intros _. split_and!; done.
      * intros Hpi. destruct (Ht i Hir Hpi) as (T1&T2&T3). apply not_elem_of_cons in T2 as [_ T2]. done.
    + intros i j Hir Hjr. rewrite !Hpr, !Htb by done.
      destruct (Z.eqb_spec i (PDX va)), (Z.eqb_spec j (PDX va)); cbn [orb]; subst; try done.
      * intros _ Hpj Ev. destruct (Ht j Hjr Hpj) as (_&T2&_). rewrite <- Ev in T2. set_solver.
      * intros Hpi _ Ev. destruct (Ht i Hir Hpi) as (_&T2&_). rewrite Ev in T2. set_solver.
      * by apply Hi.
  - rewrite Hpr by done. by rewrite Z.eqb_refl.
  - intros x. rewrite !mmu_pte_eq, Hpr, Htb by apply PDX_range.
    destruct (Z.eqb_spec (PDX x) (PDX va)) as [Ex|Ex]; cbn [orb].
    + rewrite Ex, Hp. cbn zeta. replace (load32 m2 (v + 4 * PTX x)) with 0; [done|].
      unfold m2. pose proof (PTX_range x). rewrite read_other by done. unfold m1.
      symmetry. apply load32_zero; unfold PGSIZE; lia.
    + destruct (present m pgdir (PDX x)) eqn:Hpx; [|done]. cbn zeta.
      destruct (Ht _ (PDX_range x) Hpx) as (T1&T2&T3). apply not_elem_of_cons in T2 as [T2 _].
      rewrite Hent; [done|done|done|done|apply PTX_range].
  - intros a. split; intros [Ha|[(w&Hw&Ha)|(i&Hir&Hpi&Ha)]]; try by left.
    + right. left. exists w. split; [by right|done].
    + rewrite Hpr in Hpi by done. rewrite Htb in Ha by done. destruct (Z.eqb_spec i (PDX va)).
      * right. left. exists v. split; [by left|done].
      * right. right. by exists i.
    + apply elem_of_cons in Hw as [->|Hw]; [|right; left; by exists w].
      right. right. exists (PDX va). by rewrite Hpr, Htb, Z.eqb_refl by done.
    + right. right. exists i. rewrite Hpr, Htb, Hpi, orb_true_r by done.
      destruct (Z.eqb_spec i (PDX va)); [congruence|done].
  - intros a Ha. unfold m2, store32. rewrite !upd_ne.
    + apply memset_outside. unfold in_page in *. destruct (decide (v ≤ a < v + PGSIZE)); [|lia].
      exfalso. apply Ha. right. left. exists v. split; [by left|done].
    + intros ->. apply Ha. left. unfold in_page, PGSIZE. lia.
    + intros ->. apply Ha. left. unfold in_page, PGSIZE. lia.
    + intros ->. apply Ha. left. unfold in_page, PGSIZE. lia.
    + intros ->. apply Ha. left. unfold in_page, PGSIZE. lia.
  - intros i Hir. rewrite Hpr by done. destruct (Z.eqb_spec i (PDX va)); auto.
Qed.

(** ** [mappages] *)

(** The entry [mappages] writes. *)
Lemma new_pte pa perm : pa mod PGSIZE = 0 → 0 ≤ pa ≤ 4294963200 → 0 ≤ perm < 8 →
  let e := Z.lor (Z.lor pa perm) PTE_P in
  0 ≤ e < 4294967296 ∧ flag e PTE_P = true ∧ e = pa + Z.lor perm PTE_P.
Proof.
  intros Ha Hpa Hperm. cbn zeta. rewrite <- Z.lor_assoc.
  assert (Hf : 0 ≤ Z.lor perm PTE_P < 8 ∧ Z.odd (Z.lor perm PTE_P) = true).
  { assert (perm = 0 ∨ perm = 1 ∨ perm = 2 ∨ perm = 3 ∨ perm = 4 ∨ perm = 5 ∨ perm = 6 ∨ perm = 7)
      as Hc by lia. repeat destruct Hc as [->|Hc]; [..|subst perm]; by vm_compute. }
  destruct Hf as [Hf1 Hf2]. rewrite lor_aligned; [|done|unfold PGSIZE; lia]. split; [lia|]. split; [|done].
  rewrite flag_P. replace pa with (PGSIZE * (pa / PGSIZE)) by (unfold PGSIZE in *; Z.div_mod_to_equations; lia).
  rewrite Z.odd_add, Z.odd_mul, Hf2. done.
Qed.

(** The translations [m'] are those of [m] with [n] pages from [va] on mapped
    to physical pages from [pa] on. *)
Definition maps (m m' : mem) (pgdir va pa perm n : Z) : Prop := ∀ x, 0 ≤ x < 4294967296 →
  mmu_pte m' pgdir x =
    let k := x / PGSIZE - va / PGSIZE in
    if (0 <=? k) && (k <? n) then Some (pa + k * PGSIZE + Z.lor perm PTE_P)
    else mmu_pte m pgdir x.

(** Number of virtual pages the range touches. *)
Definition npages (va size : Z) : Z := (va + size - 1) / PGSIZE - va / PGSIZE + 1.

(** No page of the range is mapped yet. *)
Definition unmapped (m : mem) (pgdir va n : Z) : Prop :=
  ∀ x, 0 ≤ x < 4294967296 → va / PGSIZE ≤ x / PGSIZE < va / PGSIZE + n → mmu_pte m pgdir x = None.

(** [s'] is [s] with [n] pages mapped. *)
Record mapped_to (s : kmem) (l : list Z) (pgdir va pa perm n : Z) (s' : kmem) (l' : list Z) : Prop := {
  mt_ready : km_ready s';
  mt_k : km_k s' = km_k s;
  mt_free : free_pages s' l';
  mt_pt : pt_ok (km_mem s') pgdir l';
  mt_maps : maps (km_mem s) (km_mem s') pgdir va pa perm n;
  mt_area : ∀ a, pt_area (km_mem s') pgdir l' a ↔ pt_area (km_mem s) pgdir l a;
  mt_frame : ∀ a, ¬ pt_area (km_mem s) pgdir l a → km_mem s' a = km_mem s a;
  mt_pde : ∀ i, 0 ≤ i < 1024 → present (km_mem s') pgdir i = true → present (km_mem s) pgdir i = true ∨
    (0 < n ∧ va / PGSIZE ≤ 1024 * i + 1023 ∧ 1024 * i < va / PGSIZE + n)
}.

Lemma mapped_to_refl s l pgdir va pa perm :
  km_ready s → free_pages s l → pt_ok (km_mem s) pgdir l → mapped_to s l pgdir va pa perm 0 s l.
Proof.
  intros. split; try done; [|by left]. intros x Hx. cbn zeta. by destruct (Z.leb_spec 0 (x / PGSIZE - va / PGSIZE)),
    (Z.ltb_spec (x / PGSIZE - va / PGSIZE) 0); try lia.
Qed.

Lemma mappages_step_wp s l pgdir va pa perm last j s1 l1 (Q : Z * Z + Z → kmem → Prop) :
  mapped_to s l pgdir va pa perm j s1 l1 → 0 ≤ j → va mod PGSIZE = 0 → 0 ≤ va →
  va + j * PGSIZE ≤ 4294963200 → pa mod PGSIZE = 0 → 0 ≤ pa → pa + j * PGSIZE ≤ 4294963200 →
  0 ≤ perm < 8 → unmapped (km_mem s) pgdir va (j + 1) →
  (∀ s2, l1 = [] → mapped_to s l pgdir va pa perm j s2 [] → Q (inr (-1)) s2) →
  (∀ s2 l2, mapped_to s l pgdir va pa perm (j + 1) s2 l2 →
     Q (if va + j * PGSIZE =? last then inr 0
        else inl (u32 (va + j * PGSIZE + PGSIZE), u32 (pa + j * PGSIZE + PGSIZE))) s2) →
  wp (mappages_step pgdir last perm (va + j * PGSIZE, pa + j * PGSIZE)) Q s1.
Proof.
  intros [M1 Mk M2 M3 M4 M5 M6 M7] Hj Ha Hva Hend Hpa Hpa0 Hpe Hperm Hun HE HS. unfold mappages_step.
  set (a := va + j * PGSIZE) in *. set (p := pa + j * PGSIZE) in *. apply wp_bind.
  assert (Hp : p mod PGSIZE = 0) by (unfold p; rewrite Z.mod_add by done; done).
  assert (Hp0 : 0 ≤ p ≤ 4294963200) by (unfold p, PGSIZE in *; lia).
  destruct (walkpgdir_alloc s1 l1 pgdir a M1 M2 M3) as [[-> E]|(s2&l2&E&W1&Wk&W2&W3&W4&W5&W6&W7&W8)].
  { eapply wp_run; [exact E|]. cbn. by apply HE. }
  eapply wp_run; [exact E|]. pose proof (pt_tab _ _ _ W3 _ (PDX_range a) W4) as (T1&T2&T3).
  pose proof (page_aligned kend _ T1) as [_ Hz]. pose proof (PTX_range a).
  set (t := tab (km_mem s2) pgdir (PDX a)) in *.
  rewrite (proj2 (Z.eqb_neq _ 0)) by (destruct T1; lia). apply wp_bind, wp_gets.
  assert (Har : 0 ≤ a < 4294967296) by (unfold a, PGSIZE in *; lia).
  assert (Hnone : mmu_pte (km_mem s2) pgdir a = None).
  { assert (Ea : a / PGSIZE = va / PGSIZE + j) by (unfold a; by rewrite Z.div_add by done).
    rewrite W5, M4 by done. cbn zeta. rewrite Ea.
    replace (va / PGSIZE + j - va / PGSIZE) with j by lia. rewrite Z.ltb_irrefl, andb_false_r.
    apply Hun; [done|]. rewrite Ea. lia. }
  rewrite mmu_pte_eq, W4 in Hnone. fold t in Hnone. cbn zeta in Hnone.
  destruct (flag _ PTE_P) eqn:Hfl; [done|]. clear Hnone. apply wp_bind, wp_modify.
  destruct (new_pte p perm Hp Hp0 Hperm) as (P1&P2&P3). set (e := Z.lor (Z.lor p perm) PTE_P) in *.
  destruct (write_pte (km_mem s2) pgdir l2 a e W3 W4 Har P1) as (Q1&Q2&Q3). rewrite P2 in Q3.
  fold t in Q1, Q2, Q3. set (m3 := store32 (km_mem s2) (t + 4 * PTX a) e) in *.
  assert (Hin : ∀ x, x < t + 4 * PTX a ∨ t + 4 * PTX a + 4 ≤ x → m3 x = km_mem s2 x).
  { intros x Hx. unfold m3, store32. by rewrite !upd_ne by lia. }
  assert (Hlt : ∀ x, in_page t x → pt_area (km_mem s2) pgdir l2 x).
  { intros x Hx. right. right. exists (PDX a). split; [apply PDX_range|done]. }
  assert (Hmt : mapped_to s l pgdir va pa perm (j + 1) (set_km_mem m3 s2) l2).
  { split; cbn; try done.
    - by rewrite Wk.
    - destruct W2 as (C1&C2&C3). split_and!; try done. cbn.
      eapply (chain_ext kend (km_mem s2) m3 _ _ t); try done. intros x Hx. apply Hin.
      unfold PGSIZE in *. lia.
    - intros x Hx. cbn zeta. rewrite Q3, W5, M4 by done. cbn zeta.
      replace (a / PGSIZE) with (va / PGSIZE + j) by (unfold a; by rewrite Z.div_add by done).
      destruct (Z.eqb_spec (x / PGSIZE) (va / PGSIZE + j)) as [Ex|Ex].
      + rewrite (proj2 (Z.leb_le _ _)), (proj2 (Z.ltb_lt _ _)) by lia. cbn [andb]. f_equal.
        rewrite P3. unfold p. lia.
      + destruct (Z.leb_spec 0 (x / PGSIZE - va / PGSIZE)); [|done]. cbn [andb].
        destruct (Z.ltb_spec (x / PGSIZE - va / PGSIZE) j), (Z.ltb_spec (x / PGSIZE - va / PGSIZE) (j + 1)); try lia; done.
    - intros x. rewrite <- M5, <- W6. unfold pt_area, present, tab.
      split; (intros [Hx|[Hx|(i&Hi&Hpi&Hx)]]; [by left|by right; left|]);
        right; right; exists i; rewrite Q2 in * by done; done.
    - intros x Hx. rewrite Hin.
      + rewrite W7; [by apply M6|]. intros Hc. apply Hx, M5, Hc.
      + destruct (decide (in_page t x)) as [Ht|Ht]; [|unfold in_page, PGSIZE in Ht; lia].
        exfalso. apply Hx, M5, W6. by apply Hlt.
    - intros i Hi. unfold present. rewrite Q2 by done. intros Hpi. destruct (W8 i Hi Hpi) as [H1| ->].
      + destruct (M7 i Hi H1) as [?|?]; [by left|right; lia].
      + right. rewrite PDX_div, u32_small by done. unfold a, PGSIZE in *. clear - Hj Ha. Z.div_mod_to_equations. lia. }
  specialize (HS _ _ Hmt). destruct (a =? last); by apply wp_ret.
Qed.

Lemma mappages_wp s l pgdir va size pa perm (Q : Z → kmem → Prop) :
  km_ready s → free_pages s l → pt_ok (km_mem s) pgdir l →
  0 ≤ va → 0 < size → va + size ≤ 4294967296 →
  pa mod PGSIZE = 0 → 0 ≤ pa → pa + npages va size * PGSIZE ≤ 4294967296 → 0 ≤ perm < 8 →
  unmapped (km_mem s) pgdir va (npages va size) →
  (∀ s' l', mapped_to s l pgdir va pa perm (npages va size) s' l' → Q 0 s') →
  (∀ s' j, 0 ≤ j < npages va size → mapped_to s l pgdir va pa perm j s' [] → Q (-1) s') →
  wp (mappages pgdir va size pa perm) Q s.
Proof.
  intros Hr Hf Hpt Hva Hsz Hend Hpa Hpa0 Hpe Hperm Hun HS HE. unfold mappages, npages in *.
  rewrite (u32_small (va + size - 1)) by lia. rewrite !PGROUNDDOWN_div.
  set (v0 := va / PGSIZE * PGSIZE). set (n := (va + size - 1) / PGSIZE - va / PGSIZE + 1) in *.
  assert (Hn : 1 ≤ n) by (unfold n, PGSIZE; Z.div_mod_to_equations; lia).
  assert (Hlast : (va + size - 1) / PGSIZE * PGSIZE = v0 + (n - 1) * PGSIZE) by (unfold v0, n; lia).
  rewrite Hlast. replace (v0 + (n - 1) * PGSIZE - v0) with ((n - 1) * PGSIZE) by lia.
  assert (Hv0 : 0 ≤ v0) by (unfold v0, PGSIZE; Z.div_mod_to_equations; lia).
  assert (Hvn : v0 + n * PGSIZE ≤ 4294967296) by (unfold v0, n, PGSIZE; Z.div_mod_to_equations; lia).
  rewrite u32_small by (unfold PGSIZE in *; lia). rewrite Z.div_mul by done.
  assert (Hal : v0 mod PGSIZE = 0) by (unfold v0; by apply Z.mod_mul).
  assert (Hvd : v0 / PGSIZE = va / PGSIZE) by (unfold v0; by rewrite Z.div_mul).
  assert (Hconv : ∀ j s' l', mapped_to s l pgdir v0 pa perm j s' l' → mapped_to s l pgdir va pa perm j s' l').
  { intros j s' l' [A1 A2 A3 A4 A5 A6 A7 A8]. split; try done; [unfold maps in *|]; by rewrite <- Hvd. }
  eapply (wp_loop _ (λ st s1, ∃ j l1, st = (v0 + j * PGSIZE, pa + j * PGSIZE) ∧ 0 ≤ j < n ∧
      mapped_to s l pgdir v0 pa perm j s1 l1) Q
    (λ st, Z.to_nat (n - 1 - (st.1 - v0) / PGSIZE))).
  - intros st s1 (j&l1&->&Hj&Hm). eapply mappages_step_wp; try done; try (unfold PGSIZE in *; lia).
    + intros x Hx Hk. apply Hun; [done|]. rewrite Hvd in Hk. lia.
    + intros s2 _ Hm2. apply (HE s2 j Hj). by apply Hconv.
    + intros s2 l2 Hm2. destruct (Z.eqb_spec (v0 + j * PGSIZE) (v0 + (n - 1) * PGSIZE)) as [El|El].
      * apply (HS s2 l2), Hconv. replace n with (j + 1); [done|]. unfold PGSIZE in *. lia.
      * assert (j ≠ n - 1) by (intros ->; done).
        rewrite !u32_small by (unfold PGSIZE in *; lia). split.
        -- exists (j + 1), l2. split_and!; [f_equal; lia|lia|lia|done].
        -- cbn [fst]. replace (v0 + j * PGSIZE + PGSIZE - v0) with ((j + 1) * PGSIZE) by lia.
           replace (v0 + j * PGSIZE - v0) with (j * PGSIZE) by lia. rewrite !Z.div_mul by done. lia.
  - exists 0, l. split_and!; [f_equal; lia|lia|lia|]. by apply mapped_to_refl.
  - cbn [fst]. rewrite Z.sub_diag, Zdiv_0_l, Z.sub_0_r. lia.
Qed.

(** [mappages] makes the hardware translate every page of the range to its
    physical page with the permissions asked for, if none of them is mapped
    yet, changes no other
    translation and no memory but page tables and pages taken from the free
    list, and fails with -1 only when that list is empty. *)
Theorem mappages_correct s l pgdir va size pa perm :
  km_ready s → free_pages s l → pt_ok (km_mem s) pgdir l →
  0 ≤ va → 0 < size → va + size ≤ 4294967296 →
  pa mod PGSIZE = 0 → 0 ≤ pa → pa + npages va size * PGSIZE ≤ 4294967296 → 0 ≤ perm < 8 →
  unmapped (km_mem s) pgdir va (npages va size) →
  wp (mappages pgdir va size pa perm) (λ r s', ∃ l' n, mapped_to s l pgdir va pa perm n s' l' ∧
    ((r = 0 ∧ n = npages va size) ∨ (r = -1 ∧ 0 ≤ n < npages va size ∧ l' = []))) s.
Proof.
  intros. eapply mappages_wp; try done.
  - intros s' l' Hm. exists l', (npages va size). auto.
  - intros s' j Hj Hm. exists [], j. auto.
Qed.
End Laws.

(** An empty directory at 0x80109000 and one free page. *)
Definition ex_vm : kmem := Kmem kst_boot true 0x8010a000 (λ _, 0).
Definition ex_pgdir : Z := 0x80109000.

Lemma ex_vm_ok : km_ready ex_vm ∧ free_pages kend_ex ex_vm [0x8010a000] ∧
  pt_ok kend_ex (km_mem ex_vm) ex_pgdir [0x8010a000].
Proof.
  assert (Hp : ∀ v, v = 0x8010a000 ∨ v = 0x80109000 → page kend_ex v).
  { intros v [->| ->]; (split; [lia|by vm_compute]). }
  split; [by split|]. split.
  - split_and!; [done| |].
    + constructor; [apply Hp; auto|constructor].
    + apply NoDup_singleton.
  - split; [split; [apply Hp; auto|]|done|done]. unfold ex_pgdir. set_solver by lia.
Qed.

Lemma mappages_correct_witness :
  ∃ s', mappages ex_pgdir 0x1000 0x1000 0x5000 6 ex_vm = Ok 0 s' ∧
    mmu_pte (km_mem s') ex_pgdir 0x1000 = Some 0x5007.
Proof.
  destruct ex_vm_ok as (Hr&Hf&Hpt).
  assert (Hw := mappages_correct kend_ex ex_vm _ ex_pgdir 0x1000 0x1000 0x5000 6 Hr Hf Hpt
    ltac:(lia) ltac:(lia) ltac:(lia) eq_refl ltac:(lia) ltac:(by vm_compute) ltac:(lia)
    ltac:(intros x Hx _; reflexivity)).
  assert (Hb : match mappages ex_pgdir 0x1000 0x1000 0x5000 6 ex_vm with Ok r _ => r | _ => 5 end = 0)
    by (vm_compute; reflexivity).
  destruct (mappages ex_pgdir 0x1000 0x1000 0x5000 6 ex_vm) as [r s'| | | | |] eqn:E; [|discriminate Hb..].
  subst r. destruct (wp_ok _ _ _ _ _ Hw E) as (l'&n&Hm&[[_ ->]|[? _]]); [|done].
  exists s'. split; [reflexivity|]. rewrite (mt_maps _ _ _ _ _ _ _ _ _ _ Hm) by lia. vm_compute. reflexivity.
Defined.

(** ** Two uses outside what the callers do *)

(** [deallocuvm] over a range whose first page has no page table skips 4 MB
    from that page, not to the next table: the page at 4 MB stays mapped
    although it is in the range. *)
Definition ex_hole : kmem := Kmem kst_boot true 0 (λ a,
  if a =? 0x80109004 then 0x07 else if a =? 0x80109005 then 0xa0 else if a =? 0x80109006 then 0x10 else
  if a =? 0x8010a000 then 0x07 else if a =? 0x8010a001 then 0xb0 else if a =? 0x8010a002 then 0x10 else 0).

Lemma deallocuvm_skips :
  mmu_pte (km_mem ex_hole) ex_pgdir 0x400000 = Some 0x10b007 ∧
  match deallocuvm kend_ex ex_pgdir 0x402000 0x1000 ex_hole with
  | Ok r s' => r = 0x1000 ∧ mmu_pte (km_mem s') ex_pgdir 0x400000 = Some 0x10b007
  | _ => False
  end.
Proof. vm_compute. done. Qed.

(** [copyout] to an address without a page table reads the entry at address 0. *)
Lemma copyout_null : match copyout ex_pgdir 0x1000 [7] ex_vm with Fault _ => True | _ => False end.
Proof. vm_compute. done. Qed.
