(* ===== verification/BootLaws.v ===== *)
(** The boot loader puts the kernel image in memory (bootmain.c), and the
    processor table is read to its end (mp.c). *)
From S2P Require Import Prelude Kmonad Wp Kstate Spinlock Str Kalloc Ide Vm VmLaws Boot.
Import Boot.

(** ** Reading sectors *)

(** How many sectors [readseg] reads, and where it starts. *)
Definition seg_start (pa off : Z) : Z := pa - off mod 512.
Definition seg_sectors (count off : Z) : Z := (off mod 512 + count + 511) / 512.

Lemma sectors_cover count r : 0 ≤ r < 512 → 0 ≤ count →
  let n := (r + count + 511) / 512 in
  512 * (n - 1) < r + count ≤ 512 * n ∧ 0 ≤ n ≤ (r + count) / 512 + 1.
Proof.
  intros. cbv zeta.
  pose proof (Z.div_mod (r + count + 511) 512 ltac:(lia)). pose proof (Z.mod_pos_bound (r + count + 511) 512 ltac:(lia)).
  pose proof (Z.div_mod (r + count) 512 ltac:(lia)). pose proof (Z.mod_pos_bound (r + count) 512 ltac:(lia)). lia.
Qed.

Lemma seg_cover pa count off : 0 ≤ count →
  let K := seg_sectors count off in let a0 := seg_start pa off in
  a0 + 512 * (K - 1) < pa + count ≤ a0 + 512 * K ∧ 0 ≤ K ≤ (pa + count - a0) / 512 + 1.
Proof.
  intros Hc. pose proof (sectors_cover count (off mod 512) (Z.mod_pos_bound off 512 ltac:(lia)) Hc) as H.
  cbv zeta in *. unfold seg_start, seg_sectors.
  replace (pa + count - (pa - off mod 512)) with (off mod 512 + count) by lia. lia.
Qed.

Section Load.
(** What drive 0 holds; the kernel image starts at sector 1. *)
Context (disk : Z → Z → list Z).
Hypothesis sectors : ∀ d n, length (disk d n) = 512%nat ∧ Forall is_byte (disk d n).

(** Byte [o] of the kernel image. *)
Definition image : mem := λ o, nth (Z.to_nat (o mod 512)) (disk 0 (o / 512 + 1)) 0.

(** The controller works and has that disk. *)
Definition ready (h : ata) : Prop := at_err h = false ∧ at_disk h = disk.

Lemma image_byte o : is_byte (image o).
Proof using sectors.
  unfold image. destruct (sectors 0 (o / 512 + 1)) as [E F]. rewrite Forall_forall in F. apply F.
  apply list_elem_of_In, nth_In. rewrite E. pose proof (Z.mod_pos_bound o 512). lia.
Qed.

Lemma waitdisk_run s : at_err (bt_ata s) = false →
  waitdisk s = Ok tt (Boot_ (calm (bt_ata s)) (bt_mem s)).
Proof.
  intros He. unfold waitdisk. erewrite bind_run by reflexivity.
  destruct s as [[rg cm dk n er] m]. cbn [bt_ata at_busy at_err bt_mem] in *. subst er. unfold calm; cbn.
  induction n as [|n IH]; [done|]. cbn [loop]. erewrite bind_run by reflexivity. exact IH.
Qed.

(** The registers name the sector, whatever they held before. *)
Lemma sector_regs h off : 0 ≤ off < 2 ^ 28 →
  let h' := outb 0x1f7 0x20 (outb 0x1F6 (Z.lor (Z.shiftr off 24) 0xE0) (outb 0x1F5 (Z.shiftr off 16)
    (outb 0x1F4 (Z.shiftr off 8) (outb 0x1F3 off (outb 0x1F2 1 h))))) in
  at_sector h' = off ∧ at_drive h' = 0.
Proof.
  intros Ho h'. unfold at_sector, at_drive, h'; cbn. rewrite !Z.shiftr_div_pow2 by lia.
  assert (Hr : 0 ≤ off / 2 ^ 24 < 16).
  { change (2 ^ 28) with 268435456 in Ho. change (2 ^ 24) with 16777216. Z.div_mod_to_equations. lia. }
  rewrite (Z.lor_comm _ 0xE0).
  destruct (head_reg 0 (off / 2 ^ 24) (or_introl eq_refl) Hr) as [H1 H2].
  change (Z.lor 0xe0 (Z.shiftl 0 4)) with 0xE0 in *. rewrite H1. split; [|exact H2].
  unfold u8. change (2 ^ 8) with 256. change (2 ^ 16) with 65536. change (2 ^ 24) with 16777216.
  Z.div_mod_to_equations. lia.
Qed.

Lemma readsect_run s dst off : ready (bt_ata s) → 0 ≤ off < 2 ^ 28 →
  ∃ h, ready h ∧ readsect dst off s = Ok tt (Boot_ h (put_bytes (bt_mem s) dst (disk 0 off))).
Proof.
  intros [He Hd] Ho. unfold readsect. mrun (waitdisk_run s He).
  set (h0 := calm (bt_ata s)). do 6 erewrite bind_run by reflexivity. cbn [bt_ata bt_mem].
  destruct (sector_regs h0 off Ho) as [E1 E2]. cbv zeta in E1, E2.
  set (h := outb 0x1F7 _ _) in *.
  assert (He' : at_err h = false) by reflexivity.
  erewrite bind_run by (apply waitdisk_run; exact He'). exists (calm h). split; [by split|].
  unfold modify. cbn [bt_ata bt_mem]. do 3 f_equal. unfold insl.
  change (at_drive (calm h)) with (at_drive h). change (at_sector (calm h)) with (at_sector h).
  change (at_disk (calm h)) with (at_disk h). rewrite E1, E2.
  change (at_disk h) with (at_disk (bt_ata s)). by rewrite Hd.
Qed.

(** Memory with [n] bytes of the image, from offset [o] on, at [a0]. *)
Definition loaded (m : mem) (a0 n o : Z) : mem := λ a,
  if (a0 <=? a) && (a <? a0 + n) then image (o + (a - a0)) else m a.

Lemma loaded_sector m a0 k o a : o mod 512 = 0 → 0 ≤ k →
  put_bytes (loaded m a0 (512 * k) o) (a0 + 512 * k) (disk 0 (o / 512 + 1 + k)) a
  = loaded m a0 (512 * (k + 1)) o a.
Proof using sectors.
  intros Ho Hk. unfold put_bytes, loaded. destruct (sectors 0 (o / 512 + 1 + k)) as [-> _].
  change (Z.of_nat 512) with 512.
  assert (E : 0 ≤ a - (a0 + 512 * k) < 512 →
    image (o + (a - a0)) = nth (Z.to_nat (a - (a0 + 512 * k))) (disk 0 (o / 512 + 1 + k)) 0).
  { intros Ha. unfold image. replace ((o + (a - a0)) mod 512) with (a - (a0 + 512 * k))
      by (Z.div_mod_to_equations; lia).
    replace ((o + (a - a0)) / 512 + 1) with (o / 512 + 1 + k) by (Z.div_mod_to_equations; lia). done. }
  bdestr; simpl; try lia; try done; symmetry; apply E; lia.
Qed.

Lemma readseg_loop a0 o epa K fuel k m s : o mod 512 = 0 →
  ready (bt_ata s) → (∀ a, bt_mem s a = loaded m a0 (512 * k) o a) →
  0 ≤ k ≤ K → 0 ≤ a0 → a0 + 512 * (K - 1) < epa ≤ a0 + 512 * K → epa + 512 ≤ 4294967296 →
  0 ≤ o < 4294967296 → (Z.to_nat (K - k) < fuel)%nat →
  ∃ h mm, ready h ∧ (∀ a, mm a = loaded m a0 (512 * K) o a) ∧
    loop fuel (readseg_step epa) (a0 + 512 * k, o / 512 + 1 + k) s = Ok tt (Boot_ h mm).
Proof using sectors.
  revert k s. induction fuel as [|fuel IH]; intros k s Ho Hh Hm Hk Ha He Hw Hr Hf; [lia|].
  assert (Hq : 0 ≤ o / 512 ≤ 8388608) by (Z.div_mod_to_equations; lia).
  destruct (decide (a0 + 512 * k < epa)) as [Hlt|Hge].
  - destruct (readsect_run s (a0 + 512 * k) (o / 512 + 1 + k) Hh) as (h&Hh'&E).
    { change (2 ^ 28) with 268435456. lia. }
    erewrite loop_next by (unfold readseg_step; rewrite (proj2 (Z.ltb_lt _ _) Hlt); mrun E; reflexivity).
    replace (u32 (a0 + 512 * k + SECTSIZE)) with (a0 + 512 * (k + 1))
      by (unfold SECTSIZE; rewrite u32_small; lia).
    replace (u32 (o / 512 + 1 + k + 1)) with (o / 512 + 1 + (k + 1)) by (rewrite u32_small; lia).
    apply IH; cbn [bt_ata bt_mem]; try done; try lia. intros a.
    rewrite <- (loaded_sector m a0 k o a) by lia. unfold put_bytes. bdestr; simpl; auto.
  - exists (bt_ata s), (bt_mem s). replace K with k by lia. split_and!; try done.
    apply loop_done. unfold readseg_step. rewrite (proj2 (Z.ltb_ge _ _)) by lia. by destruct s.
Qed.

(** [readseg] copies whole sectors of the image: the bytes asked for, those
    before them in the first sector and those after them in the last. *)
Lemma readseg_run s pa count off : ready (bt_ata s) →
  off mod 512 ≤ pa → 0 ≤ count → pa + count + 512 ≤ 4294967296 → 0 ≤ off < 4294967296 →
  ∃ h m, ready h ∧ readseg pa count off s = Ok tt (Boot_ h m) ∧
    ∀ a, m a = loaded (bt_mem s) (seg_start pa off) (512 * seg_sectors count off) (off - off mod 512) a.
Proof using sectors.
  intros Hh Hp Hc Hw Ho. pose proof (Z.mod_pos_bound off 512 ltac:(lia)) as Hm.
  set (o := off - off mod 512). set (a0 := seg_start pa off).
  assert (Ho' : o mod 512 = 0) by (unfold o; Z.div_mod_to_equations; lia).
  assert (Eq : o / 512 = off / 512) by (unfold o; Z.div_mod_to_equations; lia).
  assert (Hq : 0 ≤ off / 512 ≤ 8388608) by (Z.div_mod_to_equations; lia).
  pose proof (seg_cover pa count off Hc) as Hk. cbv zeta in Hk. change (seg_start pa off) with a0 in Hk.
  unfold readseg, SECTSIZE. rewrite !(u32_small (pa + _)), (u32_small (pa - _)), (u32_small (off / 512 + 1)) by lia.
  change (pa - off mod 512) with a0.
  destruct (readseg_loop a0 o (pa + count) (seg_sectors count off)
    (S (S (Z.to_nat (u32 (pa + count - a0) / 512)))) 0 (bt_mem s) s) as (h&m&Hh'&Hm'&E); try done; try lia.
  - intros a. unfold loaded. bdestr; simpl; done || lia.
  - unfold a0, seg_start. lia.
  - pose proof (Z.mod_le off 512). unfold o. lia.
  - assert (0 ≤ pa + count - a0) by (unfold a0, seg_start; lia).
    rewrite u32_small by (unfold a0, seg_start; lia).
    apply Nat2Z.inj_lt. rewrite !Nat2Z.inj_succ, !Z2Nat.id; [lia|apply Z.div_pos; lia|lia].
  - exists h, m. split_and!; try done. rewrite <- E, Eq.
    by change (512 * 0) with 0; rewrite !Z.add_0_r.
Qed.

(** ** The program headers *)

(** Field at [d] of program header [i] of the image. *)
Definition phdr (i d : Z) : Z := load32 image (load32 image 28 + 32 * i + d).
Definition p_off i := phdr i 4.
Definition p_paddr i := phdr i 12.
Definition p_filesz i := phdr i 16.
Definition p_memsz i := phdr i 20.
Definition p_num : Z := image 44 + 256 * image 45.
Definition p_extent i := Z.max (p_filesz i) (p_memsz i).

(** The memory that loading segment [i] writes to. *)
Definition p_begin i := seg_start (p_paddr i) (p_off i).
Definition p_end i := Z.max (p_paddr i + p_extent i) (p_begin i + 512 * seg_sectors (p_filesz i) (p_off i)).
Definition touches i a : Prop := p_begin i ≤ a < p_end i.

(** An image that the loader can load: its program headers are in its first
    page, no segment is written over that page or outside of the address
    space, and the segments come in increasing order. *)
Record loadable : Prop := Loadable {
  ld_magic : load32 image 0 = ELF_MAGIC;
  ld_head : load32 image 28 + 32 * p_num ≤ 4096;
  ld_fits : ∀ i, 0 ≤ i < p_num → 0 ≤ p_begin i ∧ p_paddr i + p_extent i + 512 ≤ 4294967296;
  ld_clear : ∀ i, 0 ≤ i < p_num → p_end i ≤ 0x10000 ∨ 0x11000 ≤ p_begin i;
  ld_order : ∀ i j, 0 ≤ i < j → j < p_num → p_paddr i + p_extent i ≤ p_begin j
}.

(** Segment [i] is in memory: its bytes of the file, then zeros. *)
Definition present (m : mem) (i : Z) : Prop := ∀ k, 0 ≤ k < p_extent i →
  m (p_paddr i + k) = if k <? p_filesz i then image (p_off i + k) else 0.

(** The first page of the image is in memory. *)
Definition header (m : mem) : Prop := ∀ a, 0 ≤ a < 4096 → m (0x10000 + a) = image a.

Lemma image32 a : 0 ≤ load32 image a < 4294967296.
Proof using sectors. apply load32_range, image_byte. Qed.

Lemma header32 m a : header m → 0 ≤ a → a + 4 ≤ 4096 → load32 m (0x10000 + a) = load32 image a.
Proof.
  intros Hm H0 H1. unfold load32. rewrite <- !Z.add_assoc. by rewrite !Hm by lia.
Qed.

Lemma begin_paddr i : p_begin i ≤ p_paddr i.
Proof. unfold p_begin, seg_start. pose proof (Z.mod_pos_bound (p_off i) 512). lia. Qed.

(** Memory after segment [i] has been loaded. *)
Definition load_seg (m : mem) (i : Z) : mem := λ a,
  if (p_paddr i + p_filesz i <=? a) && (a <? p_paddr i + p_memsz i) then 0
  else loaded m (p_begin i) (512 * seg_sectors (p_filesz i) (p_off i)) (p_off i - p_off i mod 512) a.

Lemma load_seg_frame m i a : 0 ≤ p_filesz i → ¬ touches i a → load_seg m i a = m a.
Proof.
  unfold touches, p_end, p_extent, load_seg, loaded. intros H0 H. pose proof (begin_paddr i).
  bdestr; simpl; lia || done.
Qed.

Lemma load_seg_present m i : 0 ≤ p_filesz i → present (load_seg m i) i.
Proof.
  intros H0 k Hk. unfold p_extent in Hk. pose proof (begin_paddr i).
  pose proof (seg_cover (p_paddr i) (p_filesz i) (p_off i) H0) as Hc. cbv zeta in Hc.
  fold (p_begin i) in Hc. unfold load_seg, loaded.
  replace (p_off i - p_off i mod 512 + (p_paddr i + k - p_begin i)) with (p_off i + k)
    by (unfold p_begin, seg_start; lia).
  bdestr; simpl; lia || done.
Qed.

Section Image.
Hypothesis ok : loadable.

(** The address of program header [i] once the first page is in memory. *)
Definition ph_at (i : Z) : Z := 0x10000 + load32 image 28 + 32 * i.

Lemma phdr_read m i d : header m → 0 ≤ i < p_num → 0 ≤ d → d + 4 ≤ 32 →
  load32 m (ph_at i + d) = phdr i d.
Proof using ok sectors.
  intros Hm Hi H0 H1. pose proof (ld_head ok). pose proof (image32 28). unfold ph_at, phdr.
  rewrite <- !Z.add_assoc. by rewrite header32 by (done || lia).
Qed.

Lemma header_frame m m' i : header m → 0 ≤ i < p_num →
  (∀ a, ¬ touches i a → m' a = m a) → header m'.
Proof using ok.
  intros Hm Hi Hf a Ha. rewrite Hf; [by apply Hm|]. pose proof (ld_clear ok i Hi). unfold touches. lia.
Qed.

Lemma load_step_run s i : ready (bt_ata s) → header (bt_mem s) → 0 ≤ i < p_num →
  ∃ h m, ready h ∧ (∀ a, m a = load_seg (bt_mem s) i a) ∧
    load_step (ph_at p_num) (ph_at i) s = Ok (inl (ph_at (i + 1))) (Boot_ h m).
Proof using ok sectors.
  intros Hh Hm Hi. unfold load_step. rewrite (proj2 (Z.ltb_lt _ _)) by (unfold ph_at; lia).
  do 3 erewrite bind_run by reflexivity. rewrite !phdr_read by (done || lia).
  fold (p_paddr i) (p_filesz i) (p_off i).
  pose proof (image32 (load32 image 28 + 32 * i + 16)) as Hfs. fold (phdr i 16) in Hfs. fold (p_filesz i) in Hfs.
  pose proof (image32 (load32 image 28 + 32 * i + 4)) as Ho. fold (phdr i 4) in Ho. fold (p_off i) in Ho.
  destruct (ld_fits ok i Hi) as [H0 H1]. unfold p_begin, seg_start, p_extent in H0, H1.
  destruct (readseg_run s (p_paddr i) (p_filesz i) (p_off i) Hh) as (h&m&Hh'&E&Em); try lia. mrun E.
  assert (Hm' : header m).
  { apply (header_frame (bt_mem s) m i); [done..|]. intros a Ha. rewrite Em. unfold loaded. fold (p_begin i).
    unfold touches, p_end in Ha. bdestr; simpl; lia || done. }
  do 2 erewrite bind_run by reflexivity. cbn [bt_mem]. rewrite !phdr_read by (done || lia).
  fold (p_memsz i) (p_filesz i). rewrite (u32_small (p_paddr i + p_filesz i))
    by (pose proof (Z.mod_pos_bound (p_off i) 512); lia).
  unfold when. destruct (Z.ltb_spec (p_filesz i) (p_memsz i)); erewrite bind_run by reflexivity; cbn [bt_ata bt_mem].
  - eexists h, _. split_and!; [done| |by replace (ph_at (i + 1)) with (ph_at i + 32) by (unfold ph_at; lia)].
    intros a. rewrite stosb_spec, Z2Nat.id by lia. unfold filled, load_seg. rewrite Em. fold (p_begin i).
    bdestr; simpl; lia || done.
  - exists h, m. split_and!; [done| |by replace (ph_at (i + 1)) with (ph_at i + 32) by (unfold ph_at; lia)].
    intros a. rewrite Em. unfold load_seg. fold (p_begin i). bdestr; simpl; lia || done.
Qed.

(** The memory after the first [i] segments. *)
Record progress (m0 : mem) (i : Z) (m : mem) : Prop := Progress {
  pr_header : header m;
  pr_present : ∀ j, 0 ≤ j < i → present m j;
  pr_frame : ∀ a, (∀ j, 0 ≤ j < i → ¬ touches j a) → m a = m0 a
}.

Lemma load_progress_step m0 i m m' : progress m0 i m → 0 ≤ i < p_num →
  (∀ a, m' a = load_seg m i a) → progress m0 (i + 1) m'.
Proof using ok sectors.
  intros [H1 H2 H3] Hi E.
  assert (Hf : 0 ≤ p_filesz i) by (pose proof (image32 (load32 image 28 + 32 * i + 16)); unfold p_filesz, phdr; lia).
  assert (Hfr : ∀ a, ¬ touches i a → m' a = m a) by (intros a Ha; rewrite E; by apply load_seg_frame).
  split.
  - by apply (header_frame m m' i).
  - intros j Hj k Hk. destruct (decide (j = i)) as [->|Hne].
    + rewrite E. by apply load_seg_present.
    + rewrite Hfr; [apply H2; lia|]. pose proof (ld_order ok j i). unfold touches. lia.
  - intros a Ha. rewrite Hfr by (apply Ha; lia). apply H3. intros j Hj. apply Ha. lia.
Qed.

Lemma load_loop m0 fuel i s : ready (bt_ata s) → progress m0 i (bt_mem s) → 0 ≤ i ≤ p_num →
  (Z.to_nat (p_num - i) < fuel)%nat →
  ∃ h m, ready h ∧ progress m0 p_num m ∧
    loop fuel (load_step (ph_at p_num)) (ph_at i) s = Ok tt (Boot_ h m).
Proof using ok sectors.
  revert i s. induction fuel as [|fuel IH]; intros i s Hh Hp Hi Hf; [lia|].
  destruct (decide (i = p_num)) as [->|Hne].
  - exists (bt_ata s), (bt_mem s). split_and!; try done. apply loop_done. unfold load_step.
    rewrite Z.ltb_irrefl. by destruct s.
  - destruct (load_step_run s i) as (h&m&Hh'&Em&E); [done|apply Hp|lia|].
    rewrite (loop_next _ _ _ _ _ _ E). apply IH; [done| |lia|lia].
    apply (load_progress_step m0 i (bt_mem s)); [done|lia|exact Em].
Qed.
End Image.

Lemma read_header s : ready (bt_ata s) → ∃ h m, ready h ∧ readseg 0x10000 4096 0 s = Ok tt (Boot_ h m) ∧
  header m ∧ ∀ a, a < 0x10000 ∨ 0x11000 ≤ a → m a = bt_mem s a.
Proof using sectors.
  intros Hh. destruct (readseg_run s 0x10000 4096 0 Hh) as (h&m&Hh'&E&Em); try (done || lia).
  exists h, m. split_and!; try done.
  - intros a Ha. rewrite Em. unfold loaded, seg_start.
    replace (512 * seg_sectors 4096 0) with 4096 by reflexivity. change (0 mod 512) with 0.
    replace (0 - 0 + (65536 + a - (65536 - 0))) with a by lia. bdestr; simpl; lia || done.
  - intros a Ha. rewrite Em. unfold loaded, seg_start.
    replace (512 * seg_sectors 4096 0) with 4096 by reflexivity. change (0 mod 512) with 0.
    bdestr; simpl; lia || done.
Qed.
End Load.

(** C23: the boot loader loads the kernel: from an image on drive 0 that it can
    load, it puts every segment at its physical address, the bytes of the file
    first and zeros up to the size in memory, changes no memory but the page
    of the header and the sectors around the segments, and goes to the entry
    point of the header.  An image without the ELF magic number is refused. *)
Theorem bootmain_correct disk s :
  (∀ d n, length (disk d n) = 512%nat ∧ Forall is_byte (disk d n)) → ready disk (bt_ata s) →
  (load32 (image disk) 0 ≠ ELF_MAGIC → ∃ s', bootmain s = Ok None s') ∧
  (loadable disk → ∃ s', bootmain s = Ok (Some (load32 (image disk) 24)) s' ∧
    (∀ i, 0 ≤ i < p_num disk → present disk (bt_mem s') i) ∧
    (∀ a, a < 0x10000 ∨ 0x11000 ≤ a → (∀ i, 0 ≤ i < p_num disk → ¬ touches disk i a) →
      bt_mem s' a = bt_mem s a)).
Proof.
  intros Hs Hh. destruct (read_header disk Hs s Hh) as (h&m&Hh'&E&Hm&Hfr).
  assert (E0 : load32 m 0x10000 = load32 (image disk) 0) by (apply (header32 disk m 0); [done|lia..]).
  split.
  - intros Hne. eexists. unfold bootmain. mrun E. erewrite bind_run by reflexivity. cbn [bt_mem].
    rewrite E0, (proj2 (Z.eqb_neq _ _) Hne). reflexivity.
  - intros ok. pose proof (ld_head disk ok) as Hhd. pose proof (image32 disk Hs 28) as H28.
    assert (Hn : 0 ≤ p_num disk).
    { pose proof (image_byte disk Hs 44). pose proof (image_byte disk Hs 45). unfold p_num, is_byte in *. lia. }
    destruct (load_loop disk Hs ok m (S (Z.to_nat (p_num disk))) 0 (Boot_ h m)) as (h1&m1&Hh1&[P1 P2 P3]&E1);
      [done| |lia|lia|].
    { split; [done|intros j ?; lia|done]. }
    exists (Boot_ h1 m1). split_and!; [|exact P2|].
    + unfold bootmain. mrun E. erewrite bind_run by reflexivity. cbn [bt_mem].
      rewrite E0, (ld_magic disk ok), Z.eqb_refl. cbn [negb].
      do 2 erewrite bind_run by reflexivity. cbn [bt_mem].
      change (65536 + 28) with (0x10000 + 28). rewrite (header32 disk m 28) by (done || lia).
      rewrite (u32_small (65536 + _)) by lia.
      rewrite (Hm 44) by lia. change (65536 + 44 + 1) with (65536 + 45). rewrite (Hm 45) by lia. fold (p_num disk).
      replace (65536 + load32 (image disk) 28) with (ph_at disk 0) by (unfold ph_at; lia).
      replace (ph_at disk 0 + 32 * p_num disk) with (ph_at disk (p_num disk)) by (unfold ph_at; lia).
      mrun E1. erewrite bind_run by reflexivity. cbn [bt_mem].
      by rewrite (header32 disk m1 24) by (done || lia).
    + intros a Ha Ht. cbn [bt_mem]. rewrite P3 by done. by apply Hfr.
Qed.

(** A kernel image with two segments. *)
Definition put32 (l : list Z) (a v : Z) : list Z := take (Z.to_nat a) l ++ le_encode 4 v ++ drop (Z.to_nat a + 4) l.
Definition demo_sector : list Z :=
  foldl (λ l '(a, v), put32 l a v) (replicate 512 0)
    [(0, ELF_MAGIC); (24, 0x10000c); (28, 52); (44, 2);
     (52 + 4, 4096); (52 + 12, 0x100000); (52 + 16, 600); (52 + 20, 1000);
     (84 + 4, 5000); (84 + 12, 0x102088); (84 + 16, 100); (84 + 20, 100)].
Definition demo_image (d n : Z) : list Z := if n =? 1 then demo_sector else replicate 512 (n mod 256).
Definition demo_ata : ata := Ata (λ _, 0) 0 demo_image 3 false.

Lemma demo_sectors d n : length (demo_image d n) = 512%nat ∧ Forall is_byte (demo_image d n).
Proof.
  unfold demo_image. destruct (n =? 1).
  - split; [vm_compute; reflexivity|]. apply (bool_decide_eq_true_1 _). vm_compute. reflexivity.
  - rewrite length_replicate. split; [done|]. apply Forall_replicate. unfold is_byte. pose proof (Z.mod_pos_bound n 256). lia.
Qed.

Lemma demo_loadable : loadable demo_image.
Proof.
  assert (En : p_num demo_image = 2) by (vm_compute; reflexivity).
  split; rewrite ?En.
  - vm_compute; reflexivity.
  - vm_compute; discriminate.
  - intros i Hi. assert (i = 0 ∨ i = 1) as [-> | ->] by lia; vm_compute; split; discriminate.
  - intros i Hi. assert (i = 0 ∨ i = 1) as [-> | ->] by lia; right; vm_compute; discriminate.
  - intros i j Hi Hj. assert (i = 0) as -> by lia. assert (j = 1) as -> by lia. vm_compute; discriminate.
Qed.

(** The two segments are at their places, the first padded with zeros. *)
Lemma bootmain_correct_witness : ∃ s',
  bootmain (Boot_ demo_ata (λ _, 7)) = Ok (Some 0x10000c) s' ∧
  bt_mem s' 0x100000 = 9 ∧ bt_mem s' 0x1002bc = 0 ∧ bt_mem s' 0x102088 = 10 ∧ bt_mem s' 0x7c00 = 7.
Proof.
  destruct (proj2 (bootmain_correct demo_image (Boot_ demo_ata (λ _, 7)) demo_sectors
    (conj eq_refl eq_refl)) demo_loadable) as (s'&E&P&F).
  assert (En : p_num demo_image = 2) by (vm_compute; reflexivity).
  exists s'. split_and!.
  - rewrite E. do 2 f_equal. 
  - exact (P 0 ltac:(lia) 0 ltac:(vm_compute; split; [discriminate|reflexivity])).
  - exact (P 0 ltac:(lia) 700 ltac:(vm_compute; split; [discriminate|reflexivity])).
  - exact (P 1 ltac:(lia) 0 ltac:(vm_compute; split; [discriminate|reflexivity])).
  - apply (F 0x7c00); [lia|]. intros i Hi.
    assert (i = 0 ∨ i = 1) as [-> | ->] by lia; intros [H _]; vm_compute in H; exact (H eq_refl).
Defined.
