(* ===== verification/MpLaws.v ===== *)
(** Reading the processor table of the firmware (mp.c). *)
From S2P Require Import Prelude Kmonad Wp Kstate Spinlock Str Kalloc Boot.
Import Mp.

(** ** Tables of known entries *)

Inductive entry := EProc (apicid flags : Z) | EIoapic (apicno : Z) | EOther (type : Z).

Definition entry_size (x : entry) : Z :=
  match x with EProc _ _ => MPPROCSIZE | EIoapic _ => MPIOAPICSIZE | EOther _ => 8 end.
Definition entry_at (m : mem) (p : Z) (x : entry) : Prop :=
  match x with
  | EProc a f => m p = 0 ∧ m (p + 1) = a ∧ m (p + 3) = f
  | EIoapic a => m p = 2 ∧ m (p + 1) = a
  | EOther t => m p = t ∧ (t = 1 ∨ t = 3 ∨ t = 4)
  end.

(** The entries [l] fill the table from [p] up to [e]. *)
Fixpoint table (m : mem) (e p : Z) (l : list entry) : Prop :=
  match l with
  | [] => e ≤ p
  | x :: l => p < e ∧ entry_at m p x ∧ table m e (p + entry_size x) l
  end.

(** What a table says: the processors, the boot processor (the last one that
    is flagged) and the I/O APIC (the last one listed). *)
Definition procs (l : list entry) : list (Z * Z) :=
  omap (λ x, match x with EProc a f => Some (a, f) | _ => None end) l.
Definition ioapic (dflt : Z) (l : list entry) : Z :=
  foldl (λ a x, match x with EIoapic b => b | _ => a end) dflt l.
Definition is_boot (p : Z * Z) : bool := nz (Z.land p.2 MPBOOT).
Fixpoint boot_cpu (dflt i : Z) (l : list (Z * Z)) : Z :=
  match l with [] => dflt | p :: l => boot_cpu (if is_boot p then i else dflt) (i + 1) l end.
(** The ids of the local APICs are 0, 1, 2, ... *)
Fixpoint consecutive (i : Z) (l : list (Z * Z)) : bool :=
  match l with [] => true | p :: l => (i =? p.1) && consecutive (i + 1) l end.

(** The ids written to [cpus], from number [i] on. *)
Fixpoint number (i n : nat) (ids : list Z) : list Z :=
  match n with O => ids | S n => number (S i) n (<[i := Z.of_nat i]> ids) end.

(** ** The loop over the table *)

(** The state after the entries [l]. *)
Definition scanned (l : list entry) (s : mpst) : mpst :=
  let n := length (procs l) in
  Mpst (mp_mem s) (mp_ismp s && consecutive (mp_ncpu s) (procs l)) (mp_ncpu s + Z.of_nat n)
    (boot_cpu (mp_bcpu s) (mp_ncpu s) (procs l)) (number (Z.to_nat (mp_ncpu s)) n (mp_ids s))
    (ioapic (mp_ioapicid s) l) (mp_lapic s) (mp_ports s).

Lemma step_proc e p a f s : p < e → entry_at (mp_mem s) p (EProc a f) → 0 ≤ mp_ncpu s < Z.of_nat NCPU →
  mpinit_step e p s = Ok (inl (p + MPPROCSIZE)) (scanned [EProc a f] s).
Proof.
  intros Hp (H0&H1&H3) Hn. unfold mpinit_step. rewrite (proj2 (Z.ltb_lt _ _) Hp).
  destruct s as [m mp n b ids io la po]; cbn [mp_mem mp_ncpu] in *.
  erewrite bind_run by reflexivity. cbn [mp_mem]. rewrite H0, H1, H3. cbn [Z.eqb].
  erewrite bind_run by reflexivity. cbn [mp_ncpu]. unfold scanned; cbn.
  rewrite andb_true_r. rewrite (proj2 (Z.leb_gt _ _)) by lia. rewrite Z2Nat.id by lia.
  change (is_boot (a, f)) with (nz (Z.land f MPBOOT)).
  destruct (n =? a); [rewrite andb_true_r|rewrite andb_false_r]; destruct (nz (Z.land f MPBOOT)); reflexivity.
Qed.

Lemma step_other e p x s : p < e → entry_at (mp_mem s) p x →
  (∀ a f, x ≠ EProc a f) →
  mpinit_step e p s = Ok (inl (p + entry_size x)) (scanned [x] s).
Proof.
  intros Hp Hx Hnp. unfold mpinit_step. rewrite (proj2 (Z.ltb_lt _ _) Hp).
  destruct s as [m mp n b ids io la po]; cbn [mp_mem] in *. erewrite bind_run by reflexivity. cbn [mp_mem].
  destruct x as [a f|a|t]; [by destruct (Hnp a f)| |].
  - destruct Hx as [-> ->]. unfold scanned; cbn. by rewrite andb_true_r, Z.add_0_r.
  - destruct Hx as [-> Ht]. unfold scanned; cbn. rewrite andb_true_r, Z.add_0_r. by destruct Ht as [->|[->| ->]].
Qed.

Lemma number_app i n k ids : number i (n + k) ids = number (i + n) k (number i n ids).
Proof.
  revert i ids. induction n as [|n IH]; intros i ids; cbn; [by rewrite Nat.add_0_r|].
  rewrite IH. f_equal. lia.
Qed.

Lemma scanned_cons x l s : 0 ≤ mp_ncpu s → scanned l (scanned [x] s) = scanned (x :: l) s.
Proof.
  intros H0. destruct x as [a f|a|t]; unfold scanned; cbn -[number Z.of_nat].
  - rewrite andb_true_r, andb_assoc. change (omap _ l) with (procs l). f_equal; [lia|].
    by replace (Z.to_nat (mp_ncpu s + Z.of_nat 1)) with (S (Z.to_nat (mp_ncpu s))) by lia.
  - rewrite andb_true_r, Z.add_0_r. done.
  - rewrite andb_true_r, Z.add_0_r. done.
Qed.

Lemma table_loop e l fuel p s : table (mp_mem s) e p l → 0 ≤ mp_ncpu s →
  mp_ncpu s + Z.of_nat (length (procs l)) ≤ Z.of_nat NCPU → (length l < fuel)%nat →
  loop fuel (mpinit_step e) p s = Ok tt (scanned l s).
Proof.
  revert p s fuel. induction l as [|x l IH]; intros p s fuel Ht H0 Hn Hf; (destruct fuel as [|fuel]; [cbn in Hf; lia|]).
  - apply loop_done. unfold mpinit_step. rewrite (proj2 (Z.ltb_ge _ _)) by exact Ht.
    destruct s. unfold scanned; cbn. by rewrite andb_true_r, Z.add_0_r.
  - destruct Ht as (Hp&Hx&Ht). assert (E : mpinit_step e p s = Ok (inl (p + entry_size x)) (scanned [x] s)).
    { destruct x as [a f|a|t]; [apply step_proc|apply step_other..]; try done. cbn -[NCPU] in Hn. lia. }
    rewrite (loop_next _ _ _ _ _ _ E), IH; [by rewrite scanned_cons|exact Ht| | |cbn in Hf; lia].
    + cbn. lia.
    + destruct x; cbn in Hn |- *; change (omap _ l) with (procs l) in *; lia.
Qed.

Lemma number_lookup i n ids k : (i ≤ k < i + n)%nat → (i + n ≤ length ids)%nat →
  number i n ids !! k = Some (Z.of_nat k).
Proof.
  revert i ids. induction n as [|n IH]; intros i ids Hk Hl; [lia|]. cbn.
  destruct (decide (k = i)) as [->|Hne]; [|apply IH; rewrite ?length_insert; lia].
  assert (G : ∀ n j (l : list Z), (i < j)%nat → number j n l !! i = l !! i).
  { clear. induction n as [|n IH]; intros j l Hj; cbn; [done|].
    rewrite IH by lia. by rewrite list_lookup_insert_ne by lia. }
  rewrite G by lia. by rewrite list_lookup_insert_eq by lia.
Qed.

(** The state at the end for a table with the entries [l]. *)
Definition concluded imcr (m : mem) (mp conf : Z) (l : list entry) (s : mpst) : mpst :=
  let s1 := scanned l (set_lapic (load32 m (conf + 36)) (set_ismp true (set_bcpu 0 s))) in
  if negb (mp_ismp s1) then set_ioapicid 0 (set_lapic 0 (set_ncpu 1 s1))
  else if nz (m (mp + 12)) then set_ports (mp_ports s1 ++ [(0x22, 0x70); (0x23, Z.lor imcr 1)]) s1 else s1.
Lemma mpinit_run fuel imcr s mp conf l : mpconfig (mp_mem s) = Some (mp, conf) →
  table (mp_mem s) (conf + conf_length (mp_mem s) conf) (conf + MPCONFSIZE) l →
  mp_ncpu s = 0 → (length (procs l) ≤ NCPU)%nat → (length l < fuel)%nat →
  mpinit fuel imcr s = Ok tt (concluded imcr (mp_mem s) mp conf l s).
Proof.
  intros Hc Ht H0 Hn Hf. unfold mpinit. do 2 erewrite bind_run by reflexivity. cbn [mp_mem set_bcpu].
  rewrite Hc. do 2 erewrite bind_run by reflexivity. unfold concluded. cbv zeta.
  set (s1 := set_lapic _ _). assert (E0 : mp_ncpu s1 = 0) by exact H0.
  erewrite bind_run by (apply (table_loop _ l); [exact Ht|lia|rewrite E0; lia|done]).
  erewrite bind_run by reflexivity. destruct (negb _); [done|]. unfold when. by destruct (nz _).
Qed.

(** [mpinit] reads the whole processor table: for a table of known entries
    with at most [NCPU] processors it ends, and when the local APICs are
    numbered 0, 1, 2, ... it has counted the processors, given each its
    number, and found the boot processor, the I/O APIC and the local APIC;
    otherwise it falls back to one processor.  Without a table only [bcpu] is
    set. *)
Theorem mpinit_correct fuel imcr s :
  (mpconfig (mp_mem s) = None → mpinit fuel imcr s = Ok tt (set_bcpu 0 s)) ∧
  (∀ mp conf l, mpconfig (mp_mem s) = Some (mp, conf) →
    table (mp_mem s) (conf + conf_length (mp_mem s) conf) (conf + MPCONFSIZE) l →
    mp_ncpu s = 0 → (length (procs l) ≤ NCPU)%nat → (length (mp_ids s) = NCPU) → (length l < fuel)%nat →
    ∃ s', mpinit fuel imcr s = Ok tt s' ∧ mp_ismp s' = consecutive 0 (procs l) ∧
      (∀ k, (k < length (procs l))%nat → mp_ids s' !! k = Some (Z.of_nat k)) ∧
      mp_bcpu s' = boot_cpu 0 0 (procs l) ∧
      (if consecutive 0 (procs l) then
         mp_ncpu s' = Z.of_nat (length (procs l)) ∧ mp_ioapicid s' = ioapic (mp_ioapicid s) l ∧
         mp_lapic s' = load32 (mp_mem s) (conf + 36)
       else mp_ncpu s' = 1 ∧ mp_ioapicid s' = 0 ∧ mp_lapic s' = 0)).
Proof.
  split.
  - intros Hc. unfold mpinit. do 2 erewrite bind_run by reflexivity. cbn [mp_mem set_bcpu]. by rewrite Hc.
  - intros mp conf l Hc Ht H0 Hn Hl Hf. rewrite (mpinit_run fuel imcr s mp conf l) by done.
    eexists. split; [reflexivity|]. unfold concluded. cbn. rewrite H0.
    assert (Hids : ∀ k, (k < length (procs l))%nat → number 0 (length (procs l)) (mp_ids s) !! k = Some (Z.of_nat k))
      by (intros; apply number_lookup; lia).
    destruct (consecutive 0 (procs l)) eqn:Hcs; cbn [negb]; [destruct (nz _)|]; cbn; rewrite ?H0, ?Hcs; done.
Qed.

(** ** Tables the code does not read to their end *)

(** After an entry of an unknown type the pointer stays where it is. *)
Lemma unknown_entry_hangs fuel e p s : p < e → 4 < mp_mem s p →
  loop fuel (mpinit_step e) p s = NoFuel.
Proof.
  revert s. induction fuel as [|fuel IH]; intros s Hp Ht; [done|].
  rewrite (loop_next _ fuel p s p (set_ismp false s)); [by apply IH|].
  unfold mpinit_step. rewrite (proj2 (Z.ltb_lt _ _) Hp). erewrite bind_run by reflexivity.
  rewrite !(proj2 (Z.eqb_neq _ _)) by lia. reflexivity.
Qed.

(** The processor after the last one of [cpus] is written beyond the array. *)
Lemma too_many_processors e p a f s : p < e → entry_at (mp_mem s) p (EProc a f) →
  mp_ncpu s = Z.of_nat NCPU → ∃ s', mpinit_step e p s = Fault s'.
Proof.
  intros Hp (H0&H1&H3) Hn. unfold mpinit_step. rewrite (proj2 (Z.ltb_lt _ _) Hp).
  erewrite bind_run by reflexivity. rewrite H0, H1, H3. cbn [Z.eqb]. erewrite bind_run by reflexivity.
  rewrite Hn. unfold when. destruct (negb _), (nz _); (do 2 erewrite bind_run by reflexivity); eexists; reflexivity.
Qed.

(** ** What is read of memory *)

(** The state over another memory. *)
Definition over_mem (m : mem) (s : mpst) : mpst :=
  Mpst m (mp_ismp s) (mp_ncpu s) (mp_bcpu s) (mp_ids s) (mp_ioapicid s) (mp_lapic s) (mp_ports s).

Section Low.
Context (top : Z) (m m' : mem).
Hypothesis Hm : ∀ a, a < top → m' a = m a.

Lemma mem_is_low a x : a + 4 ≤ top → mem_is m' a x = mem_is m a x.
Proof using Hm. intros Ha. unfold mem_is. cbn. by rewrite !Hm by lia. Qed.
Lemma sum_low n : ∀ a acc, a + Z.of_nat n ≤ top → sum_loop m' a n acc = sum_loop m a n acc.
Proof using Hm.
  induction n as [|n IH]; intros a acc Ha; [done|]. cbn [sum_loop]. rewrite Hm by lia. apply IH. lia.
Qed.
Lemma mpscan_low n : ∀ p, p + MPSIZE * Z.of_nat n ≤ top →
  mpscan m' p n = mpscan m p n ∧ ∀ q, mpscan m p n = Some q → q + MPSIZE ≤ top.
Proof using Hm.
  unfold MPSIZE. induction n as [|n IH]; intros p Hp; [done|]. cbn [mpscan]. unfold sum, MPSIZE.
  rewrite mem_is_low by lia. rewrite sum_low by (cbn; lia). destruct (mem_is m p "_MP_" && _).
  - split; [done|]. intros q [= <-]. lia.
  - apply IH. lia.
Qed.
Lemma mpsearch1_low a : p2v a + 1024 ≤ top → mpsearch1 m' a 1024 = mpsearch1 m a 1024 ∧ ∀ q, mpsearch1 m a 1024 = Some q → q + MPSIZE ≤ top.
Proof using Hm. intros Ha. apply mpscan_low. change (MPSIZE * _) with 1024. lia. Qed.

(** What the firmware left is below [top]: the area that the BIOS data names,
    and the configuration table. *)
Definition bios_area : Z :=
  let bda := p2v 0x400 in
  let p := Z.shiftl (Z.lor (Z.shiftl (m (bda + 0x0F)) 8) (m (bda + 0x0E))) 4 in
  p2v (if nz p then p else u32 (Z.lor (Z.shiftl (m (bda + 0x14)) 8) (m (bda + 0x13)) * 1024 - 1024)).
Record firmware_low : Prop := {
  fw_top : p2v 0x100000 ≤ top;
  fw_area : bios_area + 1024 ≤ top;
  fw_conf : ∀ mp, mpsearch m = Some mp → load32 m (mp + 4) ≠ 0 →
    let conf := p2v (load32 m (mp + 4)) in conf + MPCONFSIZE ≤ top ∧ conf + conf_length m conf + 4 ≤ top
}.

Lemma mpsearch_low : firmware_low → mpsearch m' = mpsearch m ∧ ∀ q, mpsearch m = Some q → q + MPSIZE ≤ top.
Proof using Hm.
  intros [H1 H2 _]. change (p2v 0x100000) with 0x80100000 in H1. unfold mpsearch, bios_area in *. change (p2v 0x400) with 0x80000400 in *. cbv zeta in *.
  rewrite !Hm by lia. set (p := Z.shiftl _ 4) in *.
  assert (Hr : mpsearch1 m' 0xF0000 0x10000 = mpsearch1 m 0xF0000 0x10000 ∧ ∀ q, mpsearch1 m 0xF0000 0x10000 = Some q → q + MPSIZE ≤ top).
  { apply mpscan_low. change (p2v 0xF0000) with 0x800F0000. change (Z.of_nat _) with 4096. unfold MPSIZE. lia. }
  destruct Hr as [Hr1 Hr2]. destruct (nz p).
  - destruct (mpsearch1_low _ H2) as [-> Hq]. destruct (mpsearch1 m p 1024) as [q|]; [|done]. split; [done|]. intros ? [= <-]. auto.
  - destruct (mpsearch1_low _ H2) as [-> Hq]. destruct (mpsearch1 m _ 1024) as [q|]; [|done]. split; [done|]. intros ? [= <-]. auto.
Qed.
Lemma mpconfig_low : firmware_low → mpconfig m' = mpconfig m ∧
  ∀ mp conf, mpconfig m = Some (mp, conf) → mp + MPSIZE ≤ top ∧ conf + MPCONFSIZE ≤ top ∧ conf + conf_length m conf + 4 ≤ top ∧
    conf_length m' conf = conf_length m conf.
Proof using Hm.
  intros Hf. destruct (mpsearch_low Hf) as [Es Hq]. unfold mpconfig. rewrite Es. pose proof (fw_conf Hf) as Hc.
  destruct (mpsearch m) as [mp|] eqn:Emp; [|done]. cbn [mbind option_bind]. specialize (Hq mp eq_refl). unfold MPSIZE in Hq.
  assert (El : load32 m' (mp + 4) = load32 m (mp + 4)) by (apply load32_ext; intros i Hi; apply Hm; lia).
  rewrite El. destruct (Z.eqb_spec (load32 m (mp + 4)) 0) as [_|Hne]; [done|]. destruct (Hc mp eq_refl Hne) as [C1 C2].
  set (conf := p2v _) in *. unfold MPCONFSIZE in *.
  assert (Ecl : conf_length m' conf = conf_length m conf) by (unfold conf_length; rewrite !Hm by lia; done).
  assert (Esm : sum m' conf (conf_length m conf) = sum m conf (conf_length m conf)).
  { destruct (decide (0 ≤ conf_length m conf)); [apply sum_low; lia|]. unfold sum. by replace (Z.to_nat _) with 0%nat by lia. }
  rewrite Ecl, Esm, mem_is_low, !Hm by lia. split; [done|].
  destruct (negb (mem_is m conf "PCMP")); [done|]. destruct (negb _ && negb _); [done|]. destruct (negb _); [done|].
  intros ? ? [= <- <-]. done.
Qed.

Lemma step_low e p s r s1 : mp_mem s = m → e + 4 ≤ top → mpinit_step e p s = Ok r s1 →
  mp_mem s1 = m ∧ mpinit_step e p (over_mem m' s) = Ok r (over_mem m' s1).
Proof using Hm.
  intros <- He. unfold mpinit_step. destruct (Z.ltb_spec p e) as [Hp|Hp]; [|by intros [= <- <-]].
  unfold mbind, M_bind, gets. cbn [mp_mem over_mem]. rewrite !Hm by lia. clear Hm.
  destruct (_ =? 0); [|destruct (_ =? 2); [by intros [= <- <-]|destruct (_ || _); by intros [= <- <-]]].
  cbn [mp_ncpu over_mem]. unfold when, mret, M_ret, modify, fault.
  destruct (negb _), (nz _), (_ <=? _); try done; by intros [= <- <-].
Qed.
Lemma loop_low fuel : ∀ e p s s1, mp_mem s = m → e + 4 ≤ top → loop fuel (mpinit_step e) p s = Ok tt s1 →
  mp_mem s1 = m ∧ loop fuel (mpinit_step e) p (over_mem m' s) = Ok tt (over_mem m' s1).
Proof using Hm.
  induction fuel as [|fuel IH]; intros e p s s1 Hs He; [done|]. cbn [loop]. unfold mbind, M_bind.
  destruct (mpinit_step e p s) as [[q|[]] s2| | | | |] eqn:E; try done; destruct (step_low e p s _ _ Hs He E) as [H2 E2]; rewrite E2.
  - by apply IH.
  - by intros [= <-].
Qed.

(** [mpinit] reads nothing from [top] on. *)
Lemma mpinit_low fuel imcr s s1 : firmware_low → mp_mem s = m → mpinit fuel imcr s = Ok tt s1 →
  mp_mem s1 = m ∧ mpinit fuel imcr (over_mem m' s) = Ok tt (over_mem m' s1).
Proof using Hm.
  intros Hf Hs. unfold mpinit. rewrite !(bind_run (modify _) _ _ _ _ eq_refl), !(bind_run (gets _) _ _ _ _ eq_refl).
  cbn [mp_mem set_bcpu over_mem]. rewrite Hs. destruct (mpconfig_low Hf) as [-> Hc].
  destruct (mpconfig m) as [[mp conf]|]; [|by intros [= <-]]. destruct (Hc _ _ eq_refl) as (C1&C2&C3&->). unfold MPSIZE, MPCONFSIZE in *.
  assert (El : load32 m' (conf + 36) = load32 m (conf + 36)) by (apply load32_ext; intros i Hi; apply Hm; lia).
  assert (Ei : m' (mp + 12) = m (mp + 12)) by (apply Hm; lia).
  rewrite !(bind_run (modify _) _ _ _ _ eq_refl), El, Ei. set (k := λ _ : unit, _).
  match goal with |- (_ ≫= k) ?x = _ → _ => set (s2 := x) end. intros Hrun.
  destruct (loop fuel (mpinit_step (conf + conf_length m conf)) (conf + 44) s2) as [[] s3| | | | |] eqn:E;
    unfold mbind, M_bind in Hrun; rewrite E in Hrun; try done.
  destruct (loop_low fuel _ _ s2 s3 Hs C3 E) as [H3 E3]. erewrite bind_run by exact E3. revert Hrun. unfold k.
  rewrite !(bind_run (gets _) _ _ _ _ eq_refl). cbn [mp_ismp over_mem]. unfold when.
  destruct (negb _); [|destruct (nz _)]; intros [= <-]; by rewrite <- H3.
Qed.
End Low.

(** A firmware table with two processors, a bus and an I/O APIC. *)
Definition demo_conf : list Z :=
  zs "PCMP" ++ [100; 0; 4; 0x69] ++ replicate 28 0 ++ le_encode 4 0xFEE00000 ++ replicate 4 0 ++
  ([0; 0; 20; 3] ++ replicate 16 0) ++ ([0; 1; 20; 1] ++ replicate 16 0) ++
  [1; 0; 73; 83; 65; 0; 0; 0] ++ [2; 2; 17; 1; 0; 0; 0; 0].
Definition demo_mp : list Z := zs "_MP_" ++ le_encode 4 0xF1000 ++ [1; 4; 1; 0; 0x80; 0; 0; 0].
Definition demo_rom : mem := λ a,
  if a =? p2v 0x40F then 0x9F
  else if (p2v 0xF0000 <=? a) && (a <? p2v 0xF0010) then nth (Z.to_nat (a - p2v 0xF0000)) demo_mp 0
  else if (p2v 0xF1000 <=? a) && (a <? p2v 0xF1000 + 200) then nth (Z.to_nat (a - p2v 0xF1000)) demo_conf 0
  else 0.
Definition demo_mpst : mpst := Mpst demo_rom false 0 0 (replicate 8 0) 0 0 [].
Definition demo_entries : list entry := [EProc 0 3; EProc 1 1; EOther 1; EIoapic 2].

(** Two processors are found, the first of them the boot processor. *)
Lemma mpinit_correct_witness : ∃ s', mpinit 5 0 demo_mpst = Ok tt s' ∧ mp_ismp s' = true ∧
  mp_ncpu s' = 2 ∧ mp_bcpu s' = 0 ∧ mp_ids s' !! 1%nat = Some 1 ∧ mp_ioapicid s' = 2 ∧ mp_lapic s' = 0xFEE00000.
Proof.
  assert (E : mpconfig demo_rom = Some (p2v 0xF0000, p2v 0xF1000)) by (vm_compute; reflexivity).
  destruct (proj2 (mpinit_correct 5 0 demo_mpst) _ _ demo_entries E) as (s'&H1&H2&H3&H4&H5&H6&H7).
  - clear E. vm_compute. repeat split; first [left; reflexivity|discriminate].
  - reflexivity.
  - vm_compute. lia.
  - reflexivity.
  - vm_compute. lia.
  - exists s'. split; [exact H1|]. split; [exact H2|]. split; [exact H5|]. split; [exact H4|].
    split; [apply (H3 1%nat); vm_compute; lia|]. split; [exact H6|]. rewrite H7. vm_compute. reflexivity.
Defined.
