(* ===== verification/VmFree.v ===== *)
(** Address spaces of processes: which pages belong to one, and that [freevm]
    gives all of them back (vm.c). *)
From S2P Require Import Prelude Kmonad Wp Kstate Spinlock Str Kalloc Vm VmLaws.

(** Two statements in a row, as one. *)
Lemma wp_seq2 {S A} (m1 m2 : M S unit) (k : M S A) Q s : wp (m1;; (m2;; k)) Q s = wp ((m1;; m2);; k) Q s.
Proof. unfold wp. by rewrite bind_assoc. Qed.

Section Free.
Context (kend : Z).
Notation page := (page kend).
Notation pt_ok := (pt_ok kend).
Notation free_pages := (free_pages kend).
Implicit Types (m : mem) (d : Z) (l : list Z).

(** The kernel address of the page that an entry maps. *)
Definition upage (e : Z) : Z := p2v (PTE_ADDR e).

(** A page table whose user half maps pages of its own: none of them is free,
    part of the page table, or mapped twice. *)
Record uspace m d l : Prop := {
  us_pt : pt_ok m d l;
  us_page : ∀ x e, 0 ≤ x < KERNBASE → mmu_pte m d x = Some e →
    PTE_ADDR e ≠ 0 ∧ page (upage e) ∧ upage e ∉ l ∧ upage e ≠ d ∧
    ∀ i, 0 ≤ i < 1024 → present m d i = true → tab m d i ≠ upage e;
  us_inj : ∀ x y e e', 0 ≤ x < KERNBASE → 0 ≤ y < KERNBASE → mmu_pte m d x = Some e → mmu_pte m d y = Some e' →
    upage e = upage e' → x / PGSIZE = y / PGSIZE
}.

(** The pages of the address space. *)
Definition pt_page m d (v : Z) : Prop :=
  v = d ∨ ∃ i, 0 ≤ i < 1024 ∧ present m d i = true ∧ v = tab m d i.
Definition user_page m d (v : Z) : Prop :=
  ∃ x e, 0 ≤ x < KERNBASE ∧ mmu_pte m d x = Some e ∧ v = upage e.

(** ** Memory that a page table does not see *)

Lemma page_apart v w a : page v → page w → v ≠ w → in_page w a → a < v ∨ v + PGSIZE ≤ a.
Proof.
  intros Hv Hw Hne Ha. unfold in_page in Ha.
  destruct (page_disjoint kend v w (a - w) Hv Hw Hne ltac:(lia)); lia.
Qed.

Lemma load_same m m' v i : (∀ a, in_page v a → m' a = m a) → 0 ≤ i < 1024 → load32 m' (v + 4 * i) = load32 m (v + 4 * i).
Proof.
  intros He Hi. apply load32_ext. intros k Hk. apply He. unfold in_page, PGSIZE. lia.
Qed.

Section Same.
Variables (m m' : mem) (d : Z).
Hypothesis He : ∀ v a, pt_page m d v → in_page v a → m' a = m a.

Lemma same_pde i : 0 ≤ i < 1024 → pde m' d i = pde m d i.
Proof. intros Hi. apply load_same; [|done]. intros a. apply He. by left. Qed.
Lemma same_present i : 0 ≤ i < 1024 → present m' d i = present m d i.
Proof. intros Hi. unfold present. by rewrite same_pde. Qed.
Lemma same_tab i : 0 ≤ i < 1024 → tab m' d i = tab m d i.
Proof. intros Hi. unfold tab. by rewrite same_pde. Qed.
Lemma same_mmu x : mmu_pte m' d x = mmu_pte m d x.
Proof.
  rewrite !mmu_pte_eq, same_present, same_tab by apply PDX_range.
  destruct (present m d (PDX x)) eqn:Hp; [|done]. cbn zeta.
  rewrite (load_same m m'); [done| |apply PTX_range]. intros a. apply He. right.
  exists (PDX x). split; [apply PDX_range|done].
Qed.

Lemma same_pt l l' : pt_ok m d l → d ∉ l' →
  (∀ i, 0 ≤ i < 1024 → present m d i = true → tab m d i ∉ l') → pt_ok m' d l'.
Proof.
  intros [[Hd _] Ht Hi] Hd' Hl'. split.
  - done.
  - intros i Hir. rewrite same_present, same_tab by done. intros Hp. destruct (Ht i Hir Hp) as (?&?&?).
    split_and!; [done|by apply Hl'|done].
  - intros i j Hir Hjr. rewrite !same_present, !same_tab by done. by apply Hi.
Qed.
End Same.

Lemma pt_page_page m d l v : pt_ok m d l → pt_page m d v → page v ∧ v ∉ l.
Proof. intros [[Hd Hdl] Ht _] [->|(i&Hi&Hp&->)]; [done|]. by destruct (Ht i Hi Hp) as (?&?&?). Qed.

(** ** Unmapping one page *)

Lemma user_not_pt m d l x e : uspace m d l → 0 ≤ x < KERNBASE → mmu_pte m d x = Some e → ¬ pt_page m d (upage e).
Proof.
  intros Hu Hx He. destruct (us_page _ _ _ Hu x e Hx He) as (_&_&_&Hd&Ht).
  intros [Hv|(i&Hi&Hp&Hv)]; [done|]. by apply (Ht i Hi Hp).
Qed.

Lemma mmu_some m d x e : mmu_pte m d x = Some e →
  present m d (PDX x) = true ∧ load32 m (tab m d (PDX x) + 4 * PTX x) = e ∧ flag e PTE_P = true.
Proof.
  rewrite mmu_pte_eq. destruct (present m d (PDX x)); [|done]. cbn zeta.
  destruct (flag _ PTE_P) eqn:Hf; [|done]. by intros [= <-].
Qed.

(** [s'] is [s] with the page of [x], [v], unmapped and freed. *)
Record unmapped_page (s : kmem) (l : list Z) (d x v : Z) (s' : kmem) : Prop := {
  up_ready : km_ready s';
  up_k : km_k s' = km_k s;
  up_free : free_pages s' (v :: l);
  up_space : uspace (km_mem s') d (v :: l);
  up_pde : ∀ i, 0 ≤ i < 1024 → pde (km_mem s') d i = pde (km_mem s) d i;
  up_mmu : ∀ y, 0 ≤ y < 4294967296 → mmu_pte (km_mem s') d y =
    if y / PGSIZE =? x / PGSIZE then None else mmu_pte (km_mem s) d y;
  up_frame : ∀ a, ¬ in_page v a → ¬ in_page (tab (km_mem s) d (PDX x)) a → km_mem s' a = km_mem s a
}.

Lemma free_one s l d x e : km_ready s → free_pages s l → uspace (km_mem s) d l → 0 ≤ x < KERNBASE →
  mmu_pte (km_mem s) d x = Some e →
  ∃ s', (kfree kend (upage e);; write32 (tab (km_mem s) d (PDX x) + 4 * PTX x) 0) s = Ok tt s' ∧
    unmapped_page s l d x (upage e) s'.
Proof.
  intros Hr Hf Hu Hx He. destruct (us_page _ _ _ Hu x e Hx He) as (_&Hv&Hvl&Hvd&Hvt).
  destruct (mmu_some _ _ _ _ He) as (Hp&_&_). set (v := upage e) in *. pose proof (us_pt _ _ _ Hu) as Hpt.
  set (m1 := kfree_mem v s). set (s1 := Kmem (km_k s) (km_use_lock s) v m1).
  assert (Hf1 : free_pages s1 (v :: l)) by by apply kfree_free_pages.
  assert (Ho1 : ∀ a, ¬ in_page v a → m1 a = km_mem s a).
  { intros a Ha. unfold in_page in Ha. unfold m1, kfree_mem. rewrite store32_outside, memset_outside by lia. done. }
  assert (Hs1 : ∀ w a, pt_page (km_mem s) d w → in_page w a → m1 a = km_mem s a).
  { intros w a Hw Ha. apply Ho1. destruct (pt_page_page _ _ _ _ Hpt Hw) as [Hwp _].
    assert (Hne : v ≠ w) by (intros Hvw; apply (user_not_pt _ _ _ _ _ Hu Hx He); fold v; by rewrite Hvw).
    destruct (page_apart v w a Hv Hwp Hne Ha); unfold in_page; lia. }
  assert (Hpt1 : pt_ok m1 d (v :: l)).
  { eapply (same_pt (km_mem s)); [done|exact Hpt|apply not_elem_of_cons; split; [done|apply Hpt]|]. intros i Hi Hpi.
    destruct (pt_tab _ _ _ _ Hpt i Hi Hpi) as (_&?&_). apply not_elem_of_cons. split; [by apply Hvt|done]. }
  assert (Hp1 : present m1 d (PDX x) = true) by (rewrite (same_present (km_mem s)); [done|done|apply PDX_range]).
  assert (Ht1 : tab m1 d (PDX x) = tab (km_mem s) d (PDX x)) by (apply same_tab; [done|apply PDX_range]).
  destruct (write_pte kend m1 d (v :: l) x 0 Hpt1 Hp1) as (Q1&Q2&Q3); [unfold KERNBASE in Hx; lia|lia|].
  rewrite Ht1 in *. set (t := tab (km_mem s) d (PDX x)) in *. set (m2 := store32 m1 (t + 4 * PTX x) 0) in *.
  exists (set_km_mem m2 s1). split; [by mrun (kfree_run kend v s Hv Hr)|].
  assert (Hmmu : ∀ y, 0 ≤ y < 4294967296 → mmu_pte m2 d y = if y / PGSIZE =? x / PGSIZE then None else mmu_pte (km_mem s) d y).
  { intros y Hy. rewrite Q3 by done. by rewrite (same_mmu (km_mem s) m1 d Hs1). }
  assert (Hpr2 : ∀ i, 0 ≤ i < 1024 → present m2 d i = present (km_mem s) d i)
    by (intros i Hi; unfold present; rewrite Q2 by done; by rewrite (same_pde (km_mem s)) by done).
  assert (Htb2 : ∀ i, 0 ≤ i < 1024 → tab m2 d i = tab (km_mem s) d i)
    by (intros i Hi; unfold tab; rewrite Q2 by done; by rewrite (same_pde (km_mem s)) by done).
  destruct (pt_tab _ _ _ _ Hpt1 _ (PDX_range x) Hp1) as (T1&T2&_). rewrite Ht1 in T1, T2.
  pose proof (PTX_range x). assert (Hm2 : km_mem (set_km_mem m2 s1) = m2) by reflexivity.
  split; rewrite ?Hm2; try done.
  - destruct Hf1 as (C1&C2&C3). split_and!; try done. cbn in *.
    eapply (chain_ext kend m1 m2 _ (v :: l) t); try done. intros a Ha. unfold m2, store32, PGSIZE in *. by rewrite !upd_ne by lia.
  - split; [done| |].
    + intros y e' Hy He'. rewrite Hmmu in He' by (unfold KERNBASE in Hy; lia).
      destruct (Z.eqb_spec (y / PGSIZE) (x / PGSIZE)) as [|Hne]; [done|].
      destruct (us_page _ _ _ Hu y e' Hy He') as (U1&U2&U3&U4&U5). split_and!; try done.
      * apply not_elem_of_cons. split; [|done]. intros Hv'. apply Hne. by eapply us_inj.
      * intros i Hi. rewrite Hpr2, Htb2 by done. by apply U5.
    + intros y z e1 e2 Hy Hz H1 H2. rewrite Hmmu in H1, H2 by (unfold KERNBASE in *; lia).
      destruct (y / PGSIZE =? x / PGSIZE); [done|]. destruct (z / PGSIZE =? x / PGSIZE); [done|].
      by eapply us_inj.
  - intros i Hi. rewrite Q2 by done. by apply (same_pde (km_mem s)).
  - intros a Ha Hat. rewrite <- Ho1 by done. unfold m2, store32. unfold in_page, PGSIZE in Hat.
    by rewrite !upd_ne by lia.
Qed.

(** ** [deallocuvm] *)

(** The user pages from [a0] up to [a]. *)
Definition user_in m d (a0 a v : Z) : Prop :=
  ∃ y e, 0 ≤ y < KERNBASE ∧ a0 ≤ y < a ∧ mmu_pte m d y = Some e ∧ v = upage e.

(** [s1] is [s] with the user pages from [a0] up to [a] unmapped and freed. *)
Record freed_upto (s : kmem) (l : list Z) (d a0 a : Z) (s1 : kmem) (l1 : list Z) : Prop := {
  fu_ready : km_ready s1;
  fu_k : km_k s1 = km_k s;
  fu_free : free_pages s1 l1;
  fu_space : uspace (km_mem s1) d l1;
  fu_pde : ∀ i, 0 ≤ i < 1024 → pde (km_mem s1) d i = pde (km_mem s) d i;
  fu_mmu : ∀ y, 0 ≤ y < 4294967296 → mmu_pte (km_mem s1) d y =
    if (a0 <=? y) && (y <? a) then None else mmu_pte (km_mem s) d y;
  fu_list : ∀ v, v ∈ l1 ↔ v ∈ l ∨ user_in (km_mem s) d a0 a v;
  fu_frame : ∀ b, (∀ v, pt_page (km_mem s) d v ∨ user_in (km_mem s) d a0 a v → ¬ in_page v b) → km_mem s1 b = km_mem s b
}.

Lemma freed_refl s l d a : km_ready s → free_pages s l → uspace (km_mem s) d l → freed_upto s l d a a s l.
Proof.
  intros Hr Hf Hu. split; try done.
  - intros y _. destruct (Z.leb_spec a y), (Z.ltb_spec y a); try lia; done.
  - intros v. split; [by left|]. intros [?|(y&e&_&?&_)]; [done|lia].
Qed.

Lemma same_pde_pt_page m m' d v : (∀ i, 0 ≤ i < 1024 → pde m' d i = pde m d i) → pt_page m' d v → pt_page m d v.
Proof.
  intros Hp [->|(i&Hi&Hpr&->)]; [by left|]. right. exists i. unfold present, tab in *.
  by rewrite Hp in Hpr |- * by done.
Qed.

(** Nothing is mapped between [a] and [b]. *)
Lemma freed_skip s l d a0 a b s1 l1 : freed_upto s l d a0 a s1 l1 → a0 ≤ a ≤ b →
  (∀ y, 0 ≤ y < 4294967296 → a ≤ y < b → mmu_pte (km_mem s) d y = None) → freed_upto s l d a0 b s1 l1.
Proof.
  intros [F1 F2 F3 F4 F5 F6 F7 F8] Hab Hn. split; try done.
  - intros y Hy. rewrite F6 by done. destruct (Z.leb_spec a0 y), (Z.ltb_spec y a), (Z.ltb_spec y b); try lia; try done.
    cbn [andb]. apply Hn; lia.
  - intros v. rewrite F7. split; intros [?|(y&e&Hy&Hr&He&Hv)]; [by left|right; exists y, e; split_and!; (done || lia)|by left|].
    destruct (decide (y < a)); [right; exists y, e; split_and!; (done || lia)|].
    rewrite Hn in He; [done|unfold KERNBASE in Hy; lia|lia].
  - intros b' Hb. apply F8. intros v [Hv|(y&e&Hy&Hr&Hv)]; apply Hb; [by left|]. right. exists y, e. split_and!; (apply Hv || lia).
Qed.

Lemma page_of a y : a mod PGSIZE = 0 → (y / PGSIZE =? a / PGSIZE) = (a <=? y) && (y <? a + PGSIZE).
Proof. intros Ha. unfold PGSIZE in *. bdestr; cbn; bdestr; Z.div_mod_to_equations; lia. Qed.

Lemma freed_page s l d a0 a s1 l1 e s2 : freed_upto s l d a0 a s1 l1 → a0 ≤ a → a mod PGSIZE = 0 →
  0 ≤ a < KERNBASE → mmu_pte (km_mem s1) d a = Some e → unmapped_page s1 l1 d a (upage e) s2 →
  freed_upto s l d a0 (a + PGSIZE) s2 (upage e :: l1).
Proof.
  intros [F1 F2 F3 F4 F5 F6 F7 F8] Ha0 Hal Ha He [U1 U2 U3 U4 U5 U6 U7].
  assert (He0 : mmu_pte (km_mem s) d a = Some e).
  { rewrite F6 in He by (unfold KERNBASE in Ha; lia). by destruct ((a0 <=? a) && (a <? a)). }
  split; try done; [by rewrite U2|by intros; rewrite U5, F5| | |].
  - intros y Hy. rewrite U6, F6, page_of by done. unfold PGSIZE in *.
    destruct (Z.leb_spec a y), (Z.ltb_spec y (a + 4096)), (Z.leb_spec a0 y), (Z.ltb_spec y a); try lia; done.
  - intros v. rewrite elem_of_cons, F7. split.
    + intros [->|[?|(y&e'&Hy&Hr&He'&Hv)]]; [|by left|].
      * right. exists a, e. unfold PGSIZE. split_and!; (done || lia).
      * right. exists y, e'. unfold PGSIZE. split_and!; (done || lia).
    + intros [?|(y&e'&Hy&Hr&He'&Hv)]; [by right; left|]. destruct (decide (y < a)).
      * right. right. exists y, e'. split_and!; (done || lia).
      * left. assert (Hpg : y / PGSIZE = a / PGSIZE) by (unfold PGSIZE in *; Z.div_mod_to_equations; lia).
        assert (Heq : mmu_pte (km_mem s) d y = mmu_pte (km_mem s) d a).
        { destruct (page_index y a ltac:(unfold KERNBASE in *; lia) ltac:(unfold KERNBASE in *; lia) Hpg) as [E1 E2].
          rewrite !mmu_pte_eq. by rewrite E1, E2. }
        rewrite He', He0 in Heq. injection Heq as ->. done.
  - intros b Hb. rewrite U7; [apply F8| |].
    + intros v [Hv|(y&e'&Hy&Hr&Hv)]; apply Hb; [by left|]. right. exists y, e'. unfold PGSIZE. split_and!; (apply Hv || lia).
    + apply Hb. right. exists a, e. unfold PGSIZE. split_and!; (done || lia).
    + apply Hb. left. right. destruct (mmu_some _ _ _ _ He) as (Hp&_&_). exists (PDX a).
      unfold present, tab in *. rewrite F5 in Hp |- * by apply PDX_range. split; [apply PDX_range|done].
Qed.

Lemma mega_step a : 0 ≤ a < KERNBASE → a mod PGSIZE = 0 →
  (a + PGSIZE) mod 4194304 = 0 ∨ PDX (a + PGSIZE) = PDX a.
Proof.
  intros Ha Hal. unfold KERNBASE, PGSIZE in *. rewrite !PDX_div, !u32_small by lia. Z.div_mod_to_equations. lia.
Qed.

(** [walkpgdir] without allocation only looks. *)
Lemma walk_run s d x : walkpgdir d x false s =
  Ok (if present (km_mem s) d (PDX x) then tab (km_mem s) d (PDX x) + 4 * PTX x else 0) s.
Proof.
  unfold walkpgdir. erewrite bind_run by reflexivity.
  change (flag (load32 (km_mem s) (d + 4 * PDX x)) PTE_P) with (present (km_mem s) d (PDX x)).
  by destruct (present (km_mem s) d (PDX x)).
Qed.
Lemma tab_slot m d l i k : pt_ok m d l → 0 ≤ i < 1024 → present m d i = true → 0 ≤ k → tab m d i + 4 * k ≠ 0.
Proof.
  intros Hpt Hi Hp Hk. destruct (pt_tab _ _ _ _ Hpt i Hi Hp) as (T1&_&_).
  pose proof (page_aligned kend _ T1) as [_ Hz]. destruct T1. lia.
Qed.

Lemma deallocuvm_step_wp s l d a0 oldsz a s1 l1 (Q : Z + unit → kmem → Prop) :
  freed_upto s l d a0 a s1 l1 → 0 ≤ a0 ≤ a → a mod PGSIZE = 0 → oldsz ≤ KERNBASE → a < oldsz →
  (a mod 4194304 = 0 ∨ present (km_mem s) d (PDX a) = true) →
  (∀ s2 l2 a', freed_upto s l d a0 a' s2 l2 → a < a' → a' mod PGSIZE = 0 →
     a' mod 4194304 = 0 ∨ present (km_mem s) d (PDX a') = true → Q (inl a') s2) →
  wp (deallocuvm_step kend d oldsz a) Q s1.
Proof.
  intros Hfu Ha0 Hal Hold Hlt Hmega HQ. unfold deallocuvm_step. rewrite (proj2 (Z.ltb_lt _ _)) by done.
  pose proof (fu_pde _ _ _ _ _ _ _ Hfu _ (PDX_range a)) as Epde.
  assert (Epr : present (km_mem s1) d (PDX a) = present (km_mem s) d (PDX a)) by (unfold present; by rewrite Epde).
  apply wp_bind. eapply wp_run; [apply walk_run|]. rewrite Epr.
  assert (Hold' : a < 2147483648) by (unfold KERNBASE in Hold; lia).
  destruct (present (km_mem s) d (PDX a)) eqn:Hp.
  - pose proof (fu_space _ _ _ _ _ _ _ Hfu) as Hu. pose proof (PTX_range a).
    rewrite (proj2 (Z.eqb_neq _ 0)) by (eapply tab_slot; [apply Hu|apply PDX_range|done|lia]).
    apply wp_bind, wp_gets. set (e := load32 _ _).
    assert (Hmm : mmu_pte (km_mem s1) d a = if flag e PTE_P then Some e else None) by (rewrite mmu_pte_eq, Epr; done).
    assert (Hnext : a < a + PGSIZE ∧ (a + PGSIZE) mod PGSIZE = 0 ∧
      ((a + PGSIZE) mod 4194304 = 0 ∨ present (km_mem s) d (PDX (a + PGSIZE)) = true)).
    { split_and!; [unfold PGSIZE; lia|unfold PGSIZE in *; Z.div_mod_to_equations; lia|].
      destruct (mega_step a) as [?| ->]; [unfold KERNBASE in *; lia|done|by left|by right]. }
    destruct Hnext as (Hn1&Hn2&Hn3). assert (Hu32 : u32 (a + PGSIZE) = a + PGSIZE) by (apply u32_small; unfold PGSIZE; lia).
    destruct (flag e PTE_P) eqn:Hfl.
    + destruct (us_page _ _ _ Hu a e ltac:(unfold KERNBASE in *; lia) Hmm) as (Hpa&_).
      rewrite (proj2 (Z.eqb_neq _ 0)) by done.
      destruct (free_one s1 l1 d a e) as (s2&E&Hup); [apply Hfu|apply Hfu|done|unfold KERNBASE in *; lia|done|].
      unfold upage in E. rewrite wp_seq2. eapply wp_bind, wp_run; [exact E|]. apply wp_ret. rewrite Hu32.
      eapply HQ; [eapply freed_page; (done || (unfold KERNBASE in *; lia))|done|done|done].
    + apply wp_ret. rewrite Hu32. eapply HQ; [|done|done|done]. eapply freed_skip; [exact Hfu|lia|].
      intros y Hy Hr. pose proof (fu_mmu _ _ _ _ _ _ _ Hfu y Hy) as Ey. rewrite (proj2 (Z.ltb_ge y a)), andb_false_r in Ey by lia.
      rewrite <- Ey. assert (Hpg : y / PGSIZE = a / PGSIZE) by (unfold PGSIZE in *; Z.div_mod_to_equations; lia).
      destruct (page_index y a Hy ltac:(lia) Hpg) as [E1 E2]. rewrite !mmu_pte_eq, E1, E2 in *. done.
  - destruct Hmega as [Hmega|?]; [|done]. cbn [Z.eqb]. apply wp_ret.
    assert (E : u32 (a + (NPTENTRIES - 1) * PGSIZE + PGSIZE) = a + 4194304) by (unfold NPTENTRIES, PGSIZE; rewrite u32_small; lia).
    rewrite E. assert (Hm4 : (a + 4194304) mod 4194304 = 0) by (Z.div_mod_to_equations; lia).
    eapply HQ; [|lia|unfold PGSIZE in *; Z.div_mod_to_equations; lia|by left].
    eapply freed_skip; [exact Hfu|lia|]. intros y Hy Hr. rewrite mmu_pte_eq.
    replace (PDX y) with (PDX a); [by rewrite Hp|]. rewrite !PDX_div, !u32_small by lia. Z.div_mod_to_equations. lia.
Qed.

Lemma deallocuvm_wp s l d oldsz newsz (Q : Z → kmem → Prop) :
  km_ready s → free_pages s l → uspace (km_mem s) d l → 0 ≤ newsz < oldsz → oldsz ≤ KERNBASE →
  let a0 := PGROUNDUP newsz in
  (a0 mod 4194304 = 0 ∨ present (km_mem s) d (PDX a0) = true) →
  (∀ s' l' a, freed_upto s l d a0 a s' l' → oldsz ≤ a → Q newsz s') →
  wp (deallocuvm kend d oldsz newsz) Q s.
Proof.
  intros Hr Hf Hu Hsz Hold a0 Hmega HQ. unfold deallocuvm. rewrite (proj2 (Z.leb_gt _ _)) by lia. apply wp_bind.
  assert (Ha0 : 0 ≤ a0 ∧ a0 mod PGSIZE = 0).
  { unfold a0. rewrite PGROUNDUP_div by (unfold KERNBASE, PGSIZE in *; lia). unfold PGSIZE. Z.div_mod_to_equations. lia. }
  eapply (wp_loop _ (λ a s1, ∃ l1, freed_upto s l d a0 a s1 l1 ∧ a0 ≤ a ∧ a mod PGSIZE = 0 ∧
      (a mod 4194304 = 0 ∨ present (km_mem s) d (PDX a) = true)) _
    (λ a, Z.to_nat ((oldsz + 4095 - a) / 4096))).
  - intros a s1 (l1&Hfu&Ha&Hal&Hm). destruct (Z.ltb_spec a oldsz) as [Hlt|Hge].
    + eapply deallocuvm_step_wp; try done; [lia|]. intros s2 l2 a' Hfu' Hlt' Hal' Hm'. split.
      * exists l2. split_and!; (done || lia).
      * unfold PGSIZE in *. Z.div_mod_to_equations. lia.
    + unfold deallocuvm_step. rewrite (proj2 (Z.ltb_ge _ _)) by done. apply wp_ret, wp_ret. by eapply HQ.
  - exists l. split_and!; [by apply freed_refl|lia|apply Ha0|done].
  - change PGSIZE with 4096. Z.div_mod_to_equations. lia.
Qed.

(** ** [freevm] *)

(** The pages from table [i] on are still in use, those before are free. *)
Record tables_freed (s : kmem) (l : list Z) (d : Z) (i : nat) (s1 : kmem) (l1 : list Z) : Prop := {
  tf_ready : km_ready s1;
  tf_k : km_k s1 = km_k s;
  tf_free : free_pages s1 l1;
  tf_dir : ∀ a, in_page d a → km_mem s1 a = km_mem s a;
  tf_list : ∀ v, v ∈ l1 ↔ v ∈ l ∨ ∃ j, 0 ≤ j < Z.of_nat i ∧ present (km_mem s) d j = true ∧ v = tab (km_mem s) d j;
  tf_frame : ∀ a, (∀ v, pt_page (km_mem s) d v → ¬ in_page v a) → km_mem s1 a = km_mem s a
}.

Lemma kfree_wp s l v (Q : unit → kmem → Prop) : km_ready s → free_pages s l → page v → v ∉ l →
  (∀ s', km_ready s' → km_k s' = km_k s → free_pages s' (v :: l) → (∀ a, ¬ in_page v a → km_mem s' a = km_mem s a) → Q tt s') →
  wp (kfree kend v) Q s.
Proof.
  intros Hr Hf Hv Hl HQ. eapply wp_run; [by apply kfree_run|]. apply HQ; [done|done|by apply kfree_free_pages|].
  intros a Ha. unfold in_page in Ha. cbn. unfold kfree_mem. rewrite store32_outside, memset_outside by lia. done.
Qed.

Lemma free_tables_wp s l d : km_ready s → free_pages s l → pt_ok (km_mem s) d l →
  wp (for_each (seq 0 (Z.to_nat NPDENTRIES)) (λ i, e ← read32 (d + 4 * Z.of_nat i);
        when (flag e PTE_P) (kfree kend (p2v (PTE_ADDR e)))))
    (λ _ s', ∃ l', tables_freed s l d 1024 s' l') s.
Proof.
  intros Hr Hf Hpt. change (Z.to_nat NPDENTRIES) with 1024%nat.
  apply (wp_for_each (seq 0 1024) _ (λ i s1, ∃ l1, tables_freed s l d i s1 l1)).
  - exists l. split; try done. intros v. split; [by left|]. intros [?|(j&?&_)]; [done|lia].
  - intros i x s1 Hi (l1&[T1 T2 T3 T4 T5 T6]). apply lookup_seq in Hi as [-> Hi]. cbn [Nat.add] in *.
    apply wp_bind, wp_gets. rewrite (load_same (km_mem s)) by (done || lia).
    change (load32 (km_mem s) (d + 4 * Z.of_nat i)) with (pde (km_mem s) d (Z.of_nat i)).
    change (flag _ PTE_P) with (present (km_mem s) d (Z.of_nat i)).
    change (p2v (PTE_ADDR _)) with (tab (km_mem s) d (Z.of_nat i)).
    apply wp_when; intros Hp.
    + destruct (pt_tab _ _ _ _ Hpt (Z.of_nat i) ltac:(lia) Hp) as (P1&P2&P3).
      eapply (kfree_wp s1 l1); [done|done|done| |].
      { rewrite T5. intros [?|(j&Hj&Hpj&Et)]; [done|].
        pose proof (pt_inj _ _ _ _ Hpt (Z.of_nat i) j ltac:(lia) ltac:(lia) Hp Hpj Et). lia. }
      intros s2 R1 R2 R3 R4. exists (tab (km_mem s) d (Z.of_nat i) :: l1). split; try done.
      * by rewrite R2.
      * intros a Ha. rewrite R4; [by apply T4|].
        destruct (page_apart _ d a P1 (proj1 (pt_dir _ _ _ _ Hpt)) P3 Ha); unfold in_page; lia.
      * intros v. rewrite elem_of_cons, T5. split.
        -- intros [->|[?|(j&?&?&?)]]; [|by left|]; right; [exists (Z.of_nat i)|exists j]; split_and!; (done || lia).
        -- intros [?|(j&Hj&Hpj&->)]; [by right; left|]. destruct (decide (j = Z.of_nat i)) as [->|]; [by left|].
           right. right. exists j. split_and!; (done || lia).
      * intros a Ha. rewrite R4; [by apply T6|]. apply Ha. right. exists (Z.of_nat i). split_and!; (done || lia).
    + exists l1. split; try done. intros v. rewrite T5. split; intros [?|(j&Hj&Hpj&->)]; [by left| |by left|].
      * right. exists j. split_and!; (done || lia).
      * right. exists j. split_and!; [lia| |done|done]. destruct (decide (j = Z.of_nat i)) as [->|]; [congruence|lia].
Qed.

Lemma freevm_wp s l d : km_ready s → free_pages s l → uspace (km_mem s) d l →
  wp (freevm kend d) (λ _ s', km_ready s' ∧ km_k s' = km_k s ∧
    (∃ l', free_pages s' l' ∧
      ∀ v, v ∈ l' ↔ v ∈ l ∨ pt_page (km_mem s) d v ∨ user_page (km_mem s) d v) ∧
    ∀ a, (∀ v, pt_page (km_mem s) d v ∨ user_page (km_mem s) d v → ¬ in_page v a) →
      km_mem s' a = km_mem s a) s.
Proof.
  intros Hr Hf Hu. pose proof (us_pt _ _ _ Hu) as Hpt. destruct (pt_dir _ _ _ _ Hpt) as [Hd Hdl].
  destruct (page_aligned kend d Hd) as [_ Hz]. unfold freevm. rewrite (proj2 (Z.eqb_neq _ 0)) by done. apply wp_bind.
  eapply (deallocuvm_wp s l d KERNBASE 0); [done|done|done|unfold KERNBASE; lia|lia|by left|].
  intros s1 l1 a [F1 F2 F3 F4 F5 F6 F7 F8] Ha. change (PGROUNDUP 0) with 0 in *.
  apply wp_bind. eapply wp_mono; [apply (free_tables_wp s1 l1 d); [done|done|apply F4]|].
  intros [] s2 (l2&[T1 T2 T3 T4 T5 T6]).
  assert (Hpg : ∀ v, pt_page (km_mem s1) d v ↔ pt_page (km_mem s) d v)
    by (intros v; split; apply same_pde_pt_page; intros; [|symmetry]; by apply F5).
  eapply (kfree_wp s2 l2); [done|done|done| |].
  { rewrite T5. intros [H1|(j&Hj&Hp&Et)]; [by apply (pt_dir _ _ _ _ (us_pt _ _ _ F4))|].
    by destruct (pt_tab _ _ _ _ (us_pt _ _ _ F4) j ltac:(lia) Hp) as (_&_&H3). }
  intros s3 R1 R2 R3 R4. split_and!; [done|congruence| |].
  - exists (d :: l2). split; [done|]. intros v. rewrite elem_of_cons, T5, F7. split.
    + intros [->|[[?|(y&e&Hy&_&He&->)]|(j&Hj&Hp&->)]]; [right; left; by left|by left| |].
      * right. right. by exists y, e.
      * right. left. apply Hpg. right. exists j. split_and!; (done || lia).
    + intros [?|[[->|Hp]|(y&e&Hy&He&->)]]; [by right; left; left|by left| |].
      * destruct (proj2 (Hpg v) (or_intror Hp)) as [->|(j&Hj&Hpj&->)]; [by left|]. right. right. exists j. split_and!; (done || lia).
      * right. left. right. exists y, e. split_and!; (done || unfold KERNBASE in *; lia).
  - intros b Hb. rewrite R4, T6; [apply F8; intros v [Hv|(y&e&Hy&_&He&->)]; apply Hb; [by left|right; by exists y, e]| |].
    + intros v Hv. apply Hb. left. by apply Hpg.
    + apply Hb. left. by left.
Qed.

(** C20: [freevm] gives back the memory of a process.  Every page that the user
    half of the page table maps, every page of the page table and the
    directory are afterwards on the free list, each of them once, nothing
    else is, and no other memory has changed. *)
Theorem freevm_correct s l d : km_ready s → free_pages s l → uspace (km_mem s) d l →
  wp (freevm kend d) (λ _ s', km_ready s' ∧ km_k s' = km_k s ∧
    (∃ l', free_pages s' l' ∧
      ∀ v, v ∈ l' ↔ v ∈ l ∨ pt_page (km_mem s) d v ∨ user_page (km_mem s) d v) ∧
    ∀ a, (∀ v, pt_page (km_mem s) d v ∨ user_page (km_mem s) d v → ¬ in_page v a) →
      km_mem s' a = km_mem s a) s.
Proof. apply freevm_wp. Qed.
End Free.

(** ** An example: one page of user memory, the first of table [k] *)

Section One.
Variables (k : Z) (m : mem) (l : list Z).
Hypothesis Hpde : ∀ i, 0 ≤ i < 1024 → pde m ex_pgdir i = if i =? k then 0x10a007 else 0.
Hypothesis Hpte : ∀ j, 0 ≤ j < 1024 → load32 m (0x8010a000 + 4 * j) = if j =? 0 then 0x10b007 else 0.
Hypothesis Hl : 0x80109000 ∉ l ∧ 0x8010a000 ∉ l ∧ 0x8010b000 ∉ l.

Lemma one_present i : 0 ≤ i < 1024 → present m ex_pgdir i = (i =? k).
Proof. intros Hi. unfold present. rewrite Hpde by done. by destruct (i =? k). Qed.
Lemma one_tab : 0 ≤ k < 1024 → tab m ex_pgdir k = 0x8010a000.
Proof. intros Hk. unfold tab. rewrite Hpde, Z.eqb_refl by done. by vm_compute. Qed.

Lemma one_mmu x : 0 ≤ x < 4294967296 → mmu_pte m ex_pgdir x = if x / PGSIZE =? k * 1024 then Some 0x10b007 else None.
Proof.
  intros Hx. rewrite mmu_pte_eq, one_present by apply PDX_range. pose proof (PDX_range x). pose proof (PTX_range x).
  assert (Hc : x / PGSIZE = PDX x * 1024 + PTX x)
    by (rewrite PDX_div, PTX_div, !u32_small by done; unfold PGSIZE; Z.div_mod_to_equations; lia).
  rewrite Hc. destruct (Z.eqb_spec (PDX x) k) as [Hk|Hne].
  - rewrite Hk, one_tab by lia. cbn zeta. rewrite Hpte by done.
    destruct (Z.eqb_spec (PTX x) 0), (Z.eqb_spec (k * 1024 + PTX x) (k * 1024)); try lia; done.
  - destruct (Z.eqb_spec (PDX x * 1024 + PTX x) (k * 1024)); [lia|done].
Qed.

Lemma one_space : uspace kend_ex m ex_pgdir l.
Proof.
  assert (Hp : ∀ v, v = 0x8010a000 ∨ v = 0x80109000 ∨ v = 0x8010b000 → page kend_ex v).
  { intros v [->|[->| ->]]; (split; [lia|by vm_compute]). }
  assert (Htab : ∀ i, 0 ≤ i < 1024 → present m ex_pgdir i = true → i = k).
  { intros i Hi. rewrite one_present by done. apply Z.eqb_eq. }
  assert (Hm : ∀ x e, 0 ≤ x < KERNBASE → mmu_pte m ex_pgdir x = Some e → x / PGSIZE = k * 1024 ∧ e = 0x10b007).
  { intros x e Hx. rewrite one_mmu by (unfold KERNBASE in Hx; lia). destruct (Z.eqb_spec (x / PGSIZE) (k * 1024)); [|done].
    by intros [= <-]. }
  assert (Hu : upage 0x10b007 = 0x8010b000) by by vm_compute. destruct Hl as (L1&L2&L3). split.
  - split; [split; [apply Hp; auto|done]| |].
    + intros i Hi Hpi. rewrite (Htab i Hi Hpi), one_tab by (by rewrite <- (Htab i Hi Hpi)). split_and!; [apply Hp; auto|done|done].
    + intros i j Hi Hj Hpi Hpj _. by rewrite (Htab i Hi Hpi), (Htab j Hj Hpj).
  - intros x e Hx He. destruct (Hm x e Hx He) as [_ ->]. rewrite Hu.
    split_and!; [done|apply Hp; auto|done|done|]. intros i Hi Hpi. by rewrite (Htab i Hi Hpi), one_tab by (by rewrite <- (Htab i Hi Hpi)).
  - intros x y e e' Hx Hy He He' _. destruct (Hm x e Hx He), (Hm y e' Hy He'). congruence.
Qed.
End One.

Lemma hole_pde i : 0 ≤ i < 1024 → pde (km_mem ex_hole) ex_pgdir i = if i =? 1 then 0x10a007 else 0.
Proof.
  intros Hi. destruct (Z.eqb_spec i 1) as [->|Hne]; [by vm_compute|].
  unfold pde, load32. cbn [km_mem ex_hole]. unfold ex_pgdir. repeat (rewrite (proj2 (Z.eqb_neq _ _)) by lia). done.
Qed.
Lemma hole_pte j : 0 ≤ j < 1024 → load32 (km_mem ex_hole) (0x8010a000 + 4 * j) = if j =? 0 then 0x10b007 else 0.
Proof.
  intros Hj. destruct (Z.eqb_spec j 0) as [->|Hne]; [by vm_compute|].
  unfold load32. cbn [km_mem ex_hole]. repeat (rewrite (proj2 (Z.eqb_neq _ _)) by lia). done.
Qed.
Lemma hole_mmu x : 0 ≤ x < 4294967296 →
  mmu_pte (km_mem ex_hole) ex_pgdir x = if x / PGSIZE =? 1 * 1024 then Some 0x10b007 else None.
Proof. apply one_mmu; [exact hole_pde|exact hole_pte]. Qed.

Lemma hole_space : km_ready ex_hole ∧ free_pages kend_ex ex_hole [] ∧ uspace kend_ex (km_mem ex_hole) ex_pgdir [].
Proof.
  split; [by split|]. split; [by split_and!; [|constructor|constructor]|].
  apply (one_space 1); [exact hole_pde|exact hole_pte|]. split_and!; apply not_elem_of_nil.
Qed.

Lemma freevm_correct_witness : ∃ s' l', freevm kend_ex ex_pgdir ex_hole = Ok tt s' ∧ free_pages kend_ex s' l' ∧
  0x8010b000 ∈ l' ∧ 0x8010a000 ∈ l' ∧ 0x80109000 ∈ l'.
Proof.
  destruct hole_space as (Hr&Hf&Hu).
  assert (Hw := freevm_correct kend_ex ex_hole [] ex_pgdir Hr Hf Hu).
  assert (Hb : match freevm kend_ex ex_pgdir ex_hole with Ok _ _ => true | _ => false end = true)
    by (vm_compute; reflexivity).
  destruct (freevm kend_ex ex_pgdir ex_hole) as [[] s'| | | | |] eqn:E; try discriminate Hb.
  destruct (wp_ok _ _ _ _ _ Hw E) as (_&_&(l'&Hl&Hin)&_). exists s', l'. split; [reflexivity|]. split; [exact Hl|].
  split_and!; apply Hin; right.
  - right. exists 0x400000, 0x10b007. split; [unfold KERNBASE; lia|]. split; vm_compute; reflexivity.
  - left. right. exists 1. split; [lia|]. split; vm_compute; reflexivity.
  - left. left. reflexivity.
Defined.
