(* ===== verification/VmCopy.v ===== *)
(** Building address spaces: [setupkvm] and [copyuvm] (vm.c), which fork uses
    to give the child a copy of the parent's memory. *)
From S2P Require Import Prelude Kmonad Wp Kstate Spinlock Str Kalloc Vm VmLaws VmFree.

Section Copy.
Context (kend kdata : Z).
Notation page := (page kend).
Notation pt_ok := (pt_ok kend).
Notation free_pages := (free_pages kend).
Notation uspace := (uspace kend).
Notation mapped_to := (mapped_to kend).
Implicit Types (m : mem) (d : Z) (l u : list Z) (s : kmem).

(** ** A page table under construction *)

(** [s] is [s0] with page table [d] made from pages that were free in [s0],
    of which [l] are left and [u] were given to the user. *)
Record child s0 l0 u d s l : Prop := {
  ch_ready : km_ready s;
  ch_k : km_k s = km_k s0;
  ch_free : free_pages s l;
  ch_pt : pt_ok (km_mem s) d l;
  ch_from : ∀ v, v ∈ l ∨ pt_page (km_mem s) d v → v ∈ l0;
  ch_all : ∀ v, v ∈ l0 → v ∈ l ∨ pt_page (km_mem s) d v ∨ v ∈ u;
  ch_frame : ∀ a, (∀ v, v ∈ l0 → ¬ in_page v a) → km_mem s a = km_mem s0 a
}.

Lemma in_page_eq v w : page v → page w → in_page w v → v = w.
Proof.
  intros Hv Hw Ha. destruct (decide (v = w)) as [|Hne]; [done|].
  destruct (page_apart kend v w v Hv Hw Hne Ha); unfold PGSIZE in *; lia.
Qed.

Lemma area_pages m d l a : pt_area m d l a ↔ ∃ v, (v ∈ l ∨ pt_page m d v) ∧ in_page v a.
Proof.
  split.
  - intros [Ha|[(v&Hv&Ha)|(i&Hi&Hp&Ha)]].
    + exists d. split; [right; by left|done].
    + exists v. split; [by left|done].
    + exists (tab m d i). split; [right; right; by exists i|done].
  - intros (v&[Hv|[->|(i&Hi&Hp&->)]]&Ha); [right; left; by exists v|by left|right; right; by exists i].
Qed.

(** The area determines the pages. *)
Lemma area_page s l d v : free_pages s l → pt_ok (km_mem s) d l → v ∈ l ∨ pt_page (km_mem s) d v → page v.
Proof.
  intros (_&Hp&_) Hpt [Hv|Hv]; [|by apply (pt_page_page kend _ _ _ _ Hpt Hv)]. rewrite Forall_forall in Hp. by apply Hp.
Qed.
Lemma area_sub s l d s' l' v : free_pages s l → pt_ok (km_mem s) d l → free_pages s' l' → pt_ok (km_mem s') d l' →
  (∀ a, pt_area (km_mem s') d l' a → pt_area (km_mem s) d l a) →
  v ∈ l' ∨ pt_page (km_mem s') d v → v ∈ l ∨ pt_page (km_mem s) d v.
Proof.
  intros Hf Hpt Hf' Hpt' Ha Hv. assert (Hpv : page v) by exact (area_page s' l' d v Hf' Hpt' Hv).
  assert (Hin : pt_area (km_mem s') d l' v) by (apply area_pages; exists v; split; [done|unfold in_page, PGSIZE; lia]).
  apply Ha, area_pages in Hin as (w&Hw&Hin). assert (Hpw : page w) by exact (area_page s l d w Hf Hpt Hw).
  by rewrite (in_page_eq v w).
Qed.

(** Mapping takes pages from the free list only. *)
Lemma mapped_sub s l d va pa perm n s' l' v : free_pages s l → pt_ok (km_mem s) d l → mapped_to s l d va pa perm n s' l' →
  v ∈ l' ∨ pt_page (km_mem s') d v ↔ v ∈ l ∨ pt_page (km_mem s) d v.
Proof.
  intros Hf Hpt Hm. pose proof (mt_area _ _ _ _ _ _ _ _ _ _ Hm) as Ha.
  pose proof (mt_free _ _ _ _ _ _ _ _ _ _ Hm) as Hf'. pose proof (mt_pt _ _ _ _ _ _ _ _ _ _ Hm) as Hpt'.
  split; intros Hv; [eapply (area_sub _ _ _ _ _ v Hf Hpt Hf' Hpt')|eapply (area_sub _ _ _ _ _ v Hf' Hpt' Hf Hpt)];
    try done; intros a; apply Ha.
Qed.

Lemma child_mapped s0 l0 u d s l va pa perm n s' l' : child s0 l0 u d s l → mapped_to s l d va pa perm n s' l' →
  child s0 l0 u d s' l'.
Proof.
  intros [C1 C2 C3 C4 C5 C7 C6] Hm. pose proof Hm as [M1 M2 M3 M4 M5 M6 M7 M8]. split; try done.
  - congruence.
  - intros v Hv. apply C5. by apply (mapped_sub _ _ _ _ _ _ _ _ _ v C3 C4 Hm).
  - intros v Hv. destruct (C7 v Hv) as [Hv'|[Hv'|]]; [| |by right; right].
    all: destruct (proj2 (mapped_sub _ _ _ _ _ _ _ _ _ v C3 C4 Hm)); auto.
  - intros a Ha. rewrite M7; [by apply C6|]. rewrite area_pages. intros (v&Hv&Hin). by apply (Ha v); [apply C5|].
Qed.

(** When the free list is empty, there were few free pages. *)
Lemma child_count s0 l0 u d s : NoDup l0 → child s0 l0 u d s [] → (length l0 ≤ 1025 + length u)%nat.
Proof.
  intros Hn C. set (ts := (λ i, tab (km_mem s) d (Z.of_nat i)) <$> seq 0 1024).
  replace (1025 + length u)%nat with (length (d :: ts ++ u))
    by (cbn [length]; unfold ts; rewrite length_app, length_fmap, length_seq; lia).
  apply submseteq_length, NoDup_submseteq; [done|]. intros v Hv.
  rewrite elem_of_cons, elem_of_app. destruct (ch_all _ _ _ _ _ _ C v Hv) as [?%not_elem_of_nil|[[->|(i&Hi&_&->)]|?]]; auto; [done|].
  right. left. unfold ts. apply list_elem_of_fmap. exists (Z.to_nat i). rewrite Z2Nat.id by lia.
  split; [done|]. apply elem_of_seq. lia.
Qed.

(** ** [setupkvm] *)

(** The ranges of a kernel map, in ascending order from [B] on. *)
Fixpoint kmaps_ok (B : Z) (ks : list kmap) : Prop :=
  match ks with
  | [] => True
  | k :: ks =>
      let n := u32 (km_phys_end k - km_phys_start k) in
      let c := npages (km_virt k) n in
      B ≤ km_virt k ∧ 0 < n ∧ km_virt k + n ≤ 4294967296 ∧ km_virt k mod PGSIZE = 0 ∧
      km_phys_start k mod PGSIZE = 0 ∧ 0 ≤ km_phys_start k ∧ km_phys_start k + c * PGSIZE ≤ 4294967296 ∧
      0 ≤ km_perm k < 8 ∧ (km_virt k + c * PGSIZE ≤ p2v PHYSTOP ∨ DEVSPACE ≤ km_virt k) ∧ kmaps_ok (km_virt k + c * PGSIZE) ks
  end.

(** The translations an entry of [kmap] asks for. *)
Definition kmap_in m d (k : kmap) : Prop := ∀ x,
  km_virt k ≤ x < km_virt k + npages (km_virt k) (u32 (km_phys_end k - km_phys_start k)) * PGSIZE →
  mmu_pte m d x = Some (km_phys_start k + (x / PGSIZE - km_virt k / PGSIZE) * PGSIZE + Z.lor (km_perm k) PTE_P).

(** There are tables for the memory and for the devices only. *)
Definition kernel_tables m d : Prop := ∀ i, 0 ≤ i < 1024 → present m d i = true → 512 ≤ i < 568 ∨ 1016 ≤ i.

(** The tables take few pages. *)
Lemma kernel_count s0 l0 u d s l : NoDup l0 → child s0 l0 u d s l → kernel_tables (km_mem s) d →
  (length l0 ≤ 65 + length u + length l)%nat.
Proof.
  intros Hn C Hk. set (ts := (λ i, tab (km_mem s) d (Z.of_nat i)) <$> (seq 512 56 ++ seq 1016 8)).
  replace (65 + length u + length l)%nat with (length (d :: ts ++ u ++ l))
    by (cbn [length]; unfold ts; rewrite !length_app, length_fmap, length_app, !length_seq; lia).
  apply submseteq_length, NoDup_submseteq; [done|]. intros v Hv.
  rewrite elem_of_cons, !elem_of_app. destruct (ch_all _ _ _ _ _ _ C v Hv) as [?|[[->|(i&Hi&Hp&->)]|?]]; auto.
  right. left. unfold ts. apply list_elem_of_fmap. exists (Z.to_nat i). rewrite Z2Nat.id by lia.
  split; [done|]. rewrite elem_of_app, !elem_of_seq. specialize (Hk i Hi Hp). lia.
Qed.
Lemma kernel_tables_mapped s l d k j s' l' : kernel_tables (km_mem s) d → KERNBASE ≤ km_virt k →
  km_virt k mod PGSIZE = 0 → j ≤ npages (km_virt k) (u32 (km_phys_end k - km_phys_start k)) →
  km_virt k + npages (km_virt k) (u32 (km_phys_end k - km_phys_start k)) * PGSIZE ≤ p2v PHYSTOP ∨ DEVSPACE ≤ km_virt k →
  mapped_to s l d (km_virt k) (km_phys_start k) (km_perm k) j s' l' → kernel_tables (km_mem s') d.
Proof.
  intros Hk HB Ha Hj Hr Hm i Hi Hp. destruct (mt_pde _ _ _ _ _ _ _ _ _ _ Hm i Hi Hp) as [Hp'|(_&H1&H2)]; [by apply Hk|].
  set (c := npages _ _) in *. change (p2v PHYSTOP) with 0x8E000000 in Hr. unfold DEVSPACE, KERNBASE, PGSIZE in *.
  clear - H1 H2 HB Ha Hj Hr Hi. Z.div_mod_to_equations. lia.
Qed.

(** Nothing is mapped below the kernel and from [B] on. *)
Definition kernel_below (B : Z) s d : Prop :=
  ∀ x, 0 ≤ x < 4294967296 → x < KERNBASE ∨ B ≤ x → mmu_pte (km_mem s) d x = None.

Lemma kmap_in_mapped s l d k va pa perm n s' l' : kmap_in (km_mem s) d k → 0 ≤ km_virt k →
  km_virt k + npages (km_virt k) (u32 (km_phys_end k - km_phys_start k)) * PGSIZE ≤ va → va mod PGSIZE = 0 → va ≤ 4294967296 →
  mapped_to s l d va pa perm n s' l' → kmap_in (km_mem s') d k.
Proof.
  intros Hk H0 Hv Ha Hw Hm x Hx. rewrite (mt_maps _ _ _ _ _ _ _ _ _ _ Hm) by lia. cbn zeta.
  destruct (Z.leb_spec 0 (x / PGSIZE - va / PGSIZE)) as [Hl|Hl]; [|cbn [andb]; by apply Hk].
  exfalso. unfold PGSIZE in *. Z.div_mod_to_equations. lia.
Qed.

Lemma map_kernel_wp s0 l0 u d ks : ∀ B ks0 s l (Q : bool → kmem → Prop), child s0 l0 u d s l → kernel_below B s d →
  KERNBASE ≤ B → kmaps_ok B ks → kernel_tables (km_mem s) d →
  Forall (λ k, kmap_in (km_mem s) d k ∧ 0 ≤ km_virt k ∧
    km_virt k + npages (km_virt k) (u32 (km_phys_end k - km_phys_start k)) * PGSIZE ≤ B) ks0 →
  (∀ s' l', child s0 l0 u d s' l' → kernel_tables (km_mem s') d → Forall (kmap_in (km_mem s') d) (ks0 ++ ks) →
     (∀ x, 0 ≤ x < KERNBASE → mmu_pte (km_mem s') d x = None) → Q true s') →
  (∀ s', child s0 l0 u d s' [] → kernel_tables (km_mem s') d → Q false s') →
  wp (map_kernel d ks) Q s.
Proof.
  induction ks as [|k ks IH]; intros B ks0 s l Q Hc Hb HB Hok Hkt Hks HT HF; cbn [map_kernel kmaps_ok] in *.
  { apply wp_ret. eapply HT; [done|done| |intros x Hx; apply Hb; [unfold KERNBASE in Hx|]; lia].
    rewrite app_nil_r. eapply Forall_impl; [exact Hks|]. by intros k (?&_). }
  destruct Hok as (O1&O2&O3&O4&O5&O6&O7&O8&O9&O10). set (n := u32 _) in *. set (c := npages _ _) in *.
  assert (Hva : 0 ≤ km_virt k) by (unfold KERNBASE in HB; lia).
  assert (Hc0 : 0 ≤ c) by (unfold c, npages, PGSIZE; Z.div_mod_to_equations; lia).
  assert (Hcw : km_virt k + c * PGSIZE ≤ 4294967296) by (unfold c, npages, PGSIZE in *; Z.div_mod_to_equations; lia).
  apply wp_bind. eapply mappages_wp; [apply Hc|apply Hc|apply Hc|lia|lia|lia|done|done|done|done| | |].
  - intros x Hx Hr. apply Hb; [done|]. right. unfold PGSIZE in *. Z.div_mod_to_equations. lia.
  - intros s' l' Hm. cbn [Z.ltb Z.compare]. assert (Hc' := child_mapped _ _ _ _ _ _ _ _ _ _ _ _ Hc Hm).
    assert (Hm_at := λ x Hx, mt_maps _ _ _ _ _ _ _ _ _ _ Hm x Hx). cbn zeta in Hm_at. fold c in Hm_at.
    eapply (IH _ (ks0 ++ [k])); [exact Hc'| | |exact O10| | | |done].
    + intros x Hx Hr. rewrite (Hm_at x Hx).
      assert (Hout : (0 <=? x / PGSIZE - km_virt k / PGSIZE) && (x / PGSIZE - km_virt k / PGSIZE <? c) = false).
      { apply andb_false_iff. unfold KERNBASE, PGSIZE in *. rewrite Z.leb_gt, Z.ltb_ge. Z.div_mod_to_equations. lia. }
      rewrite Hout. apply Hb; [done|]. unfold KERNBASE, PGSIZE in *. lia.
    + unfold PGSIZE. lia.
    + eapply (kernel_tables_mapped s l d k c); [done|lia|done|done|done|exact Hm].
    + apply Forall_app. split; [|apply Forall_singleton; split_and!; [|lia|done]].
      * eapply Forall_impl; [exact Hks|]. intros k' (K1&K2&K3).
        split_and!; [refine (kmap_in_mapped _ _ _ _ _ _ _ _ _ _ K1 K2 _ O4 _ Hm); lia|done|unfold PGSIZE in *; lia].
      * intros x Hx. fold n c in Hx. rewrite Hm_at by (unfold PGSIZE in *; lia). rewrite (proj2 (Z.leb_le _ _)), (proj2 (Z.ltb_lt _ _));
          [done|unfold PGSIZE in *; Z.div_mod_to_equations; lia..].
    + rewrite <- app_assoc. exact HT.
  - intros s' j Hj Hm. cbn [Z.ltb Z.compare]. apply wp_ret, HF; [by eapply child_mapped|].
    eapply (kernel_tables_mapped s l d k j); [done|lia|done|fold n c; lia|done|exact Hm].
Qed.

Lemma npages_mul a b : 0 < b → npages (4096 * a) (4096 * b) = b.
Proof. intros Hb. unfold npages, PGSIZE. Z.div_mod_to_equations. lia. Qed.

(** The linker puts the data of the kernel behind its text, on a page
    boundary, and [end] above the start of the kernel. *)
Hypothesis Hkdata : KERNLINK < kdata < p2v PHYSTOP ∧ kdata mod PGSIZE = 0.
Hypothesis Hkend : KERNBASE < kend.

Lemma kmap_table_ok : kmaps_ok KERNBASE (kmap_table kdata).
Proof.
  destruct Hkdata as [Hr Ha]. unfold kmap_table, KERNLINK, EXTMEM in *.
  change (p2v PHYSTOP) with 0x8E000000 in Hr. unfold PGSIZE in Ha. change (KERNBASE + 0x100000) with 0x80100000 in *.
  assert (Hq : ∃ q, kdata = 4096 * q) by (exists (kdata / 4096); Z.div_mod_to_equations; lia).
  destruct Hq as [q ->]. assert (Hq : 0x80100 < q < 0x8E000) by lia.
  assert (Ev : v2p (4096 * q) = 4096 * (q - 0x80000)) by (unfold v2p; rewrite u32_small; unfold KERNBASE; lia).
  assert (Hal : ∀ k, (4096 * k) mod PGSIZE = 0) by (intros; unfold PGSIZE; Z.div_mod_to_equations; lia).
  cbn [kmaps_ok km_virt km_phys_start km_phys_end km_perm]. rewrite Ev. change (v2p 0x80100000) with (4096 * 0x100).
  change (u32 (0x100000 - 0)) with (4096 * 0x100). change (u32 (0 - DEVSPACE)) with (4096 * 0x2000).
  change PHYSTOP with (4096 * 0xE000). change KERNBASE with (4096 * 0x80000). change 0x80100000 with (4096 * 0x80100).
  change DEVSPACE with (4096 * 0xFE000).
  assert (E1 : u32 (4096 * (q - 0x80000) - 4096 * 0x100) = 4096 * (q - 0x80100)) by (rewrite u32_small; lia).
  assert (E2 : u32 (4096 * 0xE000 - 4096 * (q - 0x80000)) = 4096 * (0x8E000 - q)) by (rewrite u32_small; lia).
  rewrite E1, E2, !npages_mul, !Hal by lia. change (p2v (4096 * 0xE000)) with 0x8E000000. unfold PGSIZE, PTE_W. split_and!; (lia || done).
Qed.

(** The kernel's part of an address space: physical memory from [KERNBASE] on,
    read-only where the text and the constants are, and the devices. *)
Definition kernel_space m d : Prop :=
  (∀ x, KERNBASE ≤ x < p2v PHYSTOP → mmu_pte m d x =
     Some (PGROUNDDOWN (x - KERNBASE) + (if (KERNLINK <=? x) && (x <? kdata) then PTE_P else Z.lor PTE_W PTE_P))) ∧
  ∀ x, DEVSPACE ≤ x < 4294967296 → mmu_pte m d x = Some (PGROUNDDOWN x + Z.lor PTE_W PTE_P).

Lemma kernel_space_maps m d : Forall (kmap_in m d) (kmap_table kdata) → kernel_space m d.
Proof using Hkdata.
  destruct Hkdata as [Hr Ha]. unfold kmap_table, KERNLINK, EXTMEM in *.
  change (p2v PHYSTOP) with 0x8E000000 in Hr. unfold PGSIZE in Ha. change (KERNBASE + 0x100000) with 0x80100000 in *.
  assert (Hq : ∃ q, kdata = 4096 * q) by (exists (kdata / 4096); Z.div_mod_to_equations; lia).
  destruct Hq as [q Eq]. unfold kernel_space, KERNLINK, EXTMEM. rewrite Eq in *. change (KERNBASE + 0x100000) with 0x80100000.
  assert (Hq : 0x80100 < q < 0x8E000) by lia.
  assert (Ev : v2p (4096 * q) = 4096 * (q - 0x80000)) by (unfold v2p; rewrite u32_small; unfold KERNBASE; lia).
  rewrite !Forall_cons. unfold kmap_in. cbn [km_virt km_phys_start km_phys_end km_perm]. rewrite Ev.
  change (v2p 0x80100000) with (4096 * 0x100). change (u32 (0x100000 - 0)) with (4096 * 0x100).
  change (u32 (0 - DEVSPACE)) with (4096 * 0x2000). change PHYSTOP with (4096 * 0xE000).
  assert (E1 : u32 (4096 * (q - 0x80000) - 4096 * 0x100) = 4096 * (q - 0x80100)) by (rewrite u32_small; lia).
  assert (E2 : u32 (4096 * 0xE000 - 4096 * (q - 0x80000)) = 4096 * (0x8E000 - q)) by (rewrite u32_small; lia).
  rewrite E1, E2. change (p2v (4096 * 0xE000)) with 0x8E000000. change KERNBASE with (4096 * 0x80000).
  change 0x80100000 with (4096 * 0x80100). change DEVSPACE with (4096 * 0xFE000). rewrite !npages_mul by lia.
  change (Z.lor 0 PTE_P) with 1. change (Z.lor PTE_W PTE_P) with 3. change PTE_P with 1. unfold PGSIZE.
  intros (M1&M2&M3&M4&_). split; intros x Hx; rewrite PGROUNDDOWN_div; unfold PGSIZE.
  - destruct (Z.leb_spec (4096 * 0x80100) x), (Z.ltb_spec x (4096 * q)); cbn [andb]; [rewrite M2|rewrite M3|rewrite M1|rewrite M1]; try lia;
      f_equal; clear M1 M2 M3 M4; Z.div_mod_to_equations; lia.
  - rewrite M4 by lia. f_equal. clear M1 M2 M3 M4. Z.div_mod_to_equations. lia.
Qed.

Lemma kernel_space_same m m' d : (∀ x, KERNBASE ≤ x < 4294967296 → mmu_pte m' d x = mmu_pte m d x) →
  kernel_space m d → kernel_space m' d.
Proof.
  unfold kernel_space. change (p2v PHYSTOP) with 0x8E000000. intros He [H1 H2]. split; intros x Hx; (rewrite He by (unfold KERNBASE, DEVSPACE in *; lia)); auto.
Qed.

(** A page that is taken off the free list and written. *)
Lemma take_page s l v : km_ready s → free_pages s (v :: l) →
  ∃ s', kalloc s = Ok v s' ∧ km_ready s' ∧ km_k s' = km_k s ∧ km_mem s' = km_mem s ∧
    page v ∧ v ∉ l ∧ v ≠ 0 ∧ km_use_lock s' = km_use_lock s ∧ free_pages s' l ∧
    ∀ m, (∀ a, ¬ in_page v a → m a = km_mem s a) → free_pages (set_km_mem m s') l.
Proof.
  intros Hr Hf. pose proof (kalloc_free_pages kend s (v :: l) Hr Hf) as (s'&E&Hf'&Hr'&Hz).
  pose proof E as E'. rewrite kalloc_run in E' by done. injection E' as Ev Es. exists s'.
  destruct Hf as (_&Hp&Hn). apply Forall_cons in Hp as [Hv Hp]. apply NoDup_cons in Hn as [Hni _].
  assert (Em : km_mem s' = km_mem s) by (by rewrite <- Es).
  split_and!; try done; [by rewrite <- Es|by rewrite <- Es|].
  intros m Hm. destruct Hf' as (C1&C2&C3). split_and!; [|done|done]. cbn.
  eapply (chain_ext kend (km_mem s') m _ _ v); try done. intros a Ha. rewrite Em. apply Hm. unfold in_page. lia.
Qed.

Lemma setupkvm_wp s l (Q : Z → kmem → Prop) : km_ready s → free_pages s l →
  (∀ s', km_ready s' → km_k s' = km_k s → free_pages s' [] → (length l ≤ 65)%nat →
     (∀ a, (∀ v, v ∈ l → ¬ in_page v a) → km_mem s' a = km_mem s a) → Q 0 s') →
  (∀ s' l' d, d ≠ 0 → child s l [] d s' l' → (∀ x, 0 ≤ x < KERNBASE → mmu_pte (km_mem s') d x = None) →
     kernel_tables (km_mem s') d → kernel_space (km_mem s') d → Q d s') →
  wp (setupkvm kdata) Q s.
Proof.
  intros Hr Hf HF HT. unfold setupkvm. apply wp_bind. destruct l as [|d l].
  { eapply wp_run; [exact (kalloc_free_pages kend s [] Hr Hf)|]. apply wp_ret. apply HF; try done. cbn. lia. }
  destruct (take_page s l d Hr Hf) as (s1&E&R1&R2&R3&Hd&Hni&Hz&_&_&Hfm). eapply wp_run; [exact E|].
  rewrite (proj2 (Z.eqb_neq _ 0)) by done. apply wp_bind, wp_modify. rewrite R3.
  set (m1 := memset (km_mem s) d 0 PGSIZE). set (s2 := set_km_mem m1 s1).
  assert (Hm1 : ∀ a, ¬ in_page d a → m1 a = km_mem s a)
    by (intros a Ha; apply memset_outside; unfold in_page in Ha; lia).
  assert (Hpr : ∀ i, 0 ≤ i < 1024 → present m1 d i = false).
  { intros i Hi. unfold present, pde, m1. rewrite load32_zero by (unfold PGSIZE; lia). done. }
  assert (Hpp : ∀ v, pt_page m1 d v → v = d).
  { intros v [->|(i&Hi&Hp&_)]; [done|]. by rewrite Hpr in Hp. }
  assert (Hc : child s (d :: l) [] d s2 l).
  { split; cbn; [done|done|by apply Hfm| | | |].
    - split; [done| |]; intros i; intros; rewrite Hpr in *; done.
    - intros v [?|Hv%Hpp]; [by right|subst; by left].
    - intros v [->|?]%elem_of_cons; [right; left; by left|by left].
    - intros a Ha. apply Hm1. apply Ha. by left. }
  change (DEVSPACE <? p2v PHYSTOP) with false. cbn iota. apply wp_bind.
  eapply (map_kernel_wp s (d :: l) [] d _ KERNBASE []); [exact Hc| |done|exact kmap_table_ok| |done| |].
  - intros x Hx _. rewrite mmu_pte_eq. cbn. by rewrite Hpr by apply PDX_range.
  - intros i Hi Hp. cbn in Hp. by rewrite Hpr in Hp.
  - intros s' l' Hc' Hkt Hks Hlow. apply wp_ret. eapply HT; try done. by apply kernel_space_maps.
  - intros s' Hc' Hkt. apply wp_ret. eapply HF; [apply Hc'|apply Hc'|apply Hc'| |apply Hc'].
    change 65%nat with (65 + length (@nil Z) + length (@nil Z))%nat. eapply kernel_count; [apply Hf|exact Hc'|done].
Qed.

(** ** One page more *)

Lemma uspace_same m m' d l l' : (∀ v a, pt_page m d v → in_page v a → m' a = m a) → (∀ v, v ∈ l' → v ∈ l) →
  uspace m d l → uspace m' d l'.
Proof.
  intros He Hl [[[Hd Hdl] Ht Hi] Hp Hinj]. split.
  - apply (same_pt kend m m' d He l l'); [by split|by intros ?%Hl|]. intros i Hir Hpi. destruct (Ht i Hir Hpi) as (_&H1&_).
    by intros ?%Hl.
  - intros x e Hx. rewrite (same_mmu m m' d He). intros Hm. destruct (Hp x e Hx Hm) as (P1&P2&P3&P4&P5).
    split_and!; try done; [by intros ?%Hl|]. intros i Hir. rewrite (same_present m m' d He), (same_tab m m' d He) by done. by apply P5.
  - intros x y e e' Hx Hy. rewrite !(same_mmu m m' d He). by apply Hinj.
Qed.

(** The entry for a page [v] of user memory. *)
Definition user_pte (v : Z) : Z := v2p v + 7.
Lemma user_pte_page v : page v → upage (user_pte v) = v ∧ PTE_ADDR (user_pte v) ≠ 0.
Proof.
  intros Hv. destruct (v2p_facts kend v Hv) as (H1&H2&H3).
  assert (E : PTE_ADDR (user_pte v) = v2p v).
  { unfold user_pte. rewrite PTE_ADDR_div, u32_small by lia. unfold PGSIZE in *. Z.div_mod_to_equations. lia. }
  unfold upage. rewrite E. split; [done|]. intros Hz. rewrite Hz in H3. destruct Hv as [_ Hb]. unfold bad_page in Hb.
  change (p2v 0) with KERNBASE in H3. subst v. rewrite (proj2 (Z.ltb_lt _ _)) in Hb by done.
  by rewrite orb_true_r in Hb.
Qed.

Lemma uspace_mapped s l d va v n s' l' : uspace (km_mem s) d l → free_pages s l →
  page v → v ∉ l → ¬ pt_page (km_mem s) d v → ¬ user_page (km_mem s) d v → n = 0 ∨ n = 1 →
  mapped_to s l d va (v2p v) (Z.lor PTE_W PTE_U) n s' l' → uspace (km_mem s') d l'.
Proof.
  intros Hu Hf Hv Hvl Hvp Hvu Hn Hm. destruct (user_pte_page v Hv) as [Ev Ez].
  assert (Hnew : ∀ w, page w → w ∉ l → ¬ pt_page (km_mem s) d w → w ∉ l' ∧ w ≠ d ∧
    ∀ i, 0 ≤ i < 1024 → present (km_mem s') d i = true → tab (km_mem s') d i ≠ w).
  { intros w Hw H1 H2. assert (Hno : ¬ (w ∈ l' ∨ pt_page (km_mem s') d w)).
    { intros Hc. destruct (proj1 (mapped_sub _ _ _ _ _ _ _ _ _ _ Hf (us_pt _ _ _ _ Hu) Hm) Hc); done. }
    split_and!; [by intros ?; apply Hno; left|intros ->; apply Hno; right; by left|].
    intros i Hi Hp Et. apply Hno. right. right. by exists i. }
  assert (Hcase : ∀ x e, 0 ≤ x < KERNBASE → mmu_pte (km_mem s') d x = Some e →
    (n = 1 ∧ x / PGSIZE = va / PGSIZE ∧ e = user_pte v) ∨ mmu_pte (km_mem s) d x = Some e).
  { intros x e Hx. rewrite (mt_maps _ _ _ _ _ _ _ _ _ _ Hm) by (unfold KERNBASE in Hx; lia). cbn zeta.
    destruct (Z.leb_spec 0 (x / PGSIZE - va / PGSIZE)), (Z.ltb_spec (x / PGSIZE - va / PGSIZE) n); cbn [andb]; auto.
    intros [= <-]. left. assert (Ek : x / PGSIZE - va / PGSIZE = 0) by lia. rewrite Ek.
    split_and!; [lia|lia|]. unfold user_pte. change (Z.lor (Z.lor PTE_W PTE_U) PTE_P) with 7. lia. }
  split; [apply Hm| |].
  - intros x e Hx He. destruct (Hcase x e Hx He) as [(_&_&->)|He'].
    + rewrite Ev. split; [done|]. split; [done|]. by apply Hnew.
    + destruct (us_page _ _ _ _ Hu x e Hx He') as (P1&P2&P3&P4&P5). split; [done|]. split; [done|].
      apply Hnew; [done|done|]. by eapply user_not_pt.
  - intros x y e e' Hx Hy He He' Eu. destruct (Hcase x e Hx He) as [(_&Ex&->)|H1], (Hcase y e' Hy He') as [(_&Ey&->)|H2].
    + congruence.
    + exfalso. apply Hvu. exists y, e'. by rewrite <- Eu.
    + exfalso. apply Hvu. exists x, e. by rewrite Eu.
    + by eapply (us_inj _ _ _ _ Hu).
Qed.

(** ** [copyuvm] *)

(** The page table [d] in [m'] maps, of user memory, exactly the pages below
    [n], each to a page with the bytes that the page table [p] maps there in
    [m]. *)
Definition copy_of (m : mem) (p : Z) (m' : mem) (d n : Z) : Prop := ∀ x, 0 ≤ x < KERNBASE →
  if x <? n then ∃ e v, mmu_pte m p x = Some e ∧ mmu_pte m' d x = Some (user_pte v) ∧ page v ∧
    ∀ k, 0 ≤ k < PGSIZE → m' (v + k) = m (upage e + k)
  else mmu_pte m' d x = None.

(** The child, when the pages below [i] have been copied. *)
Record copying s0 l0 u p d i s l : Prop := {
  cp_child : child s0 l0 u d s l;
  cp_space : uspace (km_mem s) d l;
  cp_user : ∀ v, user_page (km_mem s) d v → v ∈ l0;
  cp_copy : copy_of (km_mem s0) p (km_mem s) d i
}.

Lemma page_off v k : 0 ≤ k < PGSIZE → in_page v (v + k).
Proof. unfold in_page. lia. Qed.

Lemma copying_fresh s0 l0 u p d i s v l : copying s0 l0 u p d i s (v :: l) →
  ¬ pt_page (km_mem s) d v ∧ ¬ user_page (km_mem s) d v.
Proof.
  intros C. pose proof (cp_space _ _ _ _ _ _ _ _ C) as Cs. split.
  - intros Hw. destruct (pt_page_page kend _ _ _ _ (us_pt _ _ _ _ Cs) Hw) as [_ Hn]. apply Hn. by left.
  - intros (x&e&Hx&He&Ev). destruct (us_page _ _ _ _ Cs x e Hx He) as (_&_&Hn&_). apply Hn. rewrite <- Ev. by left.
Qed.

(** A page is taken and filled. *)
Lemma copying_take s0 l0 u p d i s v l s1 : copying s0 l0 u p d i s (v :: l) → km_ready s1 → km_k s1 = km_k s →
  free_pages s1 l → (∀ a, ¬ in_page v a → km_mem s1 a = km_mem s a) →
  copying s0 l0 (v :: u) p d i s1 l ∧ ¬ pt_page (km_mem s1) d v ∧ ¬ user_page (km_mem s1) d v ∧
  ∀ w, user_page (km_mem s) d w → user_page (km_mem s1) d w.
Proof.
  intros C R1 R2 R3 R4. destruct (copying_fresh _ _ _ _ _ _ _ _ _ C) as [Fp Fu]. revert C R1 R2 R3 R4.
  intros [[C1 C2 C3 C4 C5 C7 C6] Cs Cu Cc] R1 R2 R3 R4. destruct C3 as (_&Hpg&Hnd).
  apply Forall_cons in Hpg as [Hv _]. apply NoDup_cons in Hnd as [Hvl _].
  assert (Hpt : ∀ w a, pt_page (km_mem s) d w → in_page w a → km_mem s1 a = km_mem s a).
  { intros w a Hw Ha. apply R4. destruct (pt_page_page kend _ _ _ _ C4 Hw) as [Hwp Hwl].
    assert (Hne : v ≠ w) by (intros ->; apply Hwl; by left). destruct (page_apart kend v w a Hv Hwp Hne Ha); unfold in_page; lia. }
  assert (Hu : uspace (km_mem s1) d l) by (eapply uspace_same; [exact Hpt| |exact Cs]; intros w ?; by right).
  assert (Hmm : ∀ x, mmu_pte (km_mem s1) d x = mmu_pte (km_mem s) d x) by (intros x; by apply same_mmu).
  assert (Hpp : ∀ w, pt_page (km_mem s1) d w → pt_page (km_mem s) d w)
    by (intros w; apply same_pde_pt_page; intros j Hj; by apply same_pde).
  assert (Huu : ∀ w, user_page (km_mem s1) d w → user_page (km_mem s) d w)
    by (intros w (x&e&Hx&He&->); exists x, e; by rewrite <- Hmm).
  assert (Huk : ∀ w, user_page (km_mem s) d w → user_page (km_mem s1) d w)
    by (intros w (x&e&Hx&He&->); exists x, e; by rewrite Hmm).
  split; [|split_and!; auto]. split; [split| | |]; try done.
  - congruence.
  - apply Hu.
  - intros w [Hw|Hw]; apply C5; [left; by right|right; by apply Hpp].
  - intros w Hw. rewrite elem_of_cons. destruct (C7 w Hw) as [[->|?]%elem_of_cons|[[->|(j&Hj&Hp&->)]|?]]; auto.
    + right. left. by left.
    + right. left. right. exists j. rewrite !(same_present (km_mem s) (km_mem s1)), !(same_tab (km_mem s) (km_mem s1)) by done. done.
  - intros a Ha. rewrite R4; [by apply C6|]. apply Ha, C5. left. by left.
  - intros w Hw. by apply Cu, Huu.
  - intros x Hx. specialize (Cc x Hx). rewrite Hmm. destruct (x <? i); [|done].
    destruct Cc as (e&w&E1&E2&E3&E4). exists e, w. split_and!; try done. intros k Hk. rewrite R4; [by apply E4|].
    destruct (us_page _ _ _ _ Cs x _ Hx E2) as (_&_&Hwl&_). rewrite (proj1 (user_pte_page w E3)) in Hwl.
    assert (Hne : v ≠ w) by (intros ->; apply Hwl; by left).
    destruct (page_apart kend v w (w + k) Hv E3 Hne (page_off w k Hk)); unfold in_page; lia.
Qed.

(** The page [v], filled with the bytes of the parent's page, is mapped. *)
Lemma copying_map s0 l0 u p d i s l v e n s' l' : copying s0 l0 u p d i s l → 0 ≤ i < KERNBASE → i mod PGSIZE = 0 →
  page v → v ∈ l0 → v ∉ l → ¬ pt_page (km_mem s) d v → ¬ user_page (km_mem s) d v →
  mmu_pte (km_mem s0) p i = Some e → (∀ k, 0 ≤ k < PGSIZE → km_mem s (v + k) = km_mem s0 (upage e + k)) →
  n = 0 ∨ n = 1 → mapped_to s l d i (v2p v) (Z.lor PTE_W PTE_U) n s' l' →
  copying s0 l0 u p d (i + n * PGSIZE) s' l' ∧ (∀ w, user_page (km_mem s) d w → user_page (km_mem s') d w) ∧
  (n = 1 → user_page (km_mem s') d v).
Proof.
  intros [C Cs Cu Cc] Hi Hal Hv Hv0 Hvl Hvp Hvu He Hb Hn Hm.
  assert (Hmm : ∀ x, 0 ≤ x < KERNBASE → mmu_pte (km_mem s') d x =
    if (i <=? x) && (x <? i + n * PGSIZE) then Some (user_pte v) else mmu_pte (km_mem s) d x).
  { intros x Hx. rewrite (mt_maps _ _ _ _ _ _ _ _ _ _ Hm) by (unfold KERNBASE in Hx; lia). cbn zeta.
    unfold PGSIZE in *. assert (Hk : 0 ≤ x / 4096 - i / 4096 < n ↔ i ≤ x < i + n * 4096) by (Z.div_mod_to_equations; lia).
    destruct (Z.leb_spec 0 (x / 4096 - i / 4096)), (Z.ltb_spec (x / 4096 - i / 4096) n), (Z.leb_spec i x),
      (Z.ltb_spec x (i + n * 4096)); cbn [andb]; try done; try lia.
    unfold user_pte. change (Z.lor (Z.lor PTE_W PTE_U) PTE_P) with 7. f_equal. lia. }
  assert (Hfr : ∀ w k, page w → w ∉ l → ¬ pt_page (km_mem s) d w → 0 ≤ k < PGSIZE → km_mem s' (w + k) = km_mem s (w + k)).
  { intros w k Hw H1 H2 Hk. apply (mt_frame _ _ _ _ _ _ _ _ _ _ Hm). rewrite area_pages. intros (t&Ht&Ha).
    assert (Htp : page t).
    { destruct Ht as [Ht|Ht]; [|by apply (pt_page_page kend _ _ _ _ (ch_pt _ _ _ _ _ _ C) Ht)].
      destruct (ch_free _ _ _ _ _ _ C) as (_&Hf&_). rewrite Forall_forall in Hf. by apply Hf. }
    assert (Hne : w ≠ t) by (intros ->; by destruct Ht).
    destruct (page_apart kend w t _ Hw Htp Hne Ha); lia. }
  split; [|split].
  2:{ intros w (x&e'&Hx&He'&->). exists x, e'. split_and!; [lia|lia| |done]. rewrite Hmm by done.
      specialize (Cc x Hx). destruct (Z.ltb_spec x i); [|congruence]. by rewrite (proj2 (Z.leb_gt i x)) by lia. }
  2:{ intros ->. exists i, (user_pte v). split_and!; [lia|lia| |symmetry; apply (user_pte_page v Hv)]. rewrite Hmm by done.
      by rewrite (proj2 (Z.leb_le i i)), (proj2 (Z.ltb_lt i _)) by (unfold PGSIZE; lia). }
  split.
  - by eapply child_mapped.
  - eapply uspace_mapped; try done. apply C.
  - intros w (x&e'&Hx&He'&->). rewrite Hmm in He' by done. destruct ((i <=? x) && _).
    + injection He' as <-. by rewrite (proj1 (user_pte_page v Hv)).
    + apply Cu. by exists x, e'.
  - intros x Hx. rewrite Hmm by done. specialize (Cc x Hx).
    assert (Hpg : i ≤ x < i + n * PGSIZE → mmu_pte (km_mem s0) p x = Some e).
    { intros Hr. rewrite <- He. assert (Hp : x / PGSIZE = i / PGSIZE) by (unfold PGSIZE in *; Z.div_mod_to_equations; lia).
      destruct (page_index x i ltac:(unfold KERNBASE in *; lia) ltac:(unfold KERNBASE in *; lia) Hp) as [E1 E2].
      rewrite !mmu_pte_eq. by rewrite E1, E2. }
    destruct (Z.ltb_spec x i), (Z.leb_spec i x), (Z.ltb_spec x (i + n * PGSIZE)); cbn [andb]; try done; try (unfold PGSIZE in *; lia).
    + destruct Cc as (e'&w&E1&E2&E3&E4). exists e', w. split_and!; try done. intros k Hk. rewrite <- E4 by done.
      destruct (us_page _ _ _ _ Cs x _ Hx E2) as (_&_&Hwl&_). pose proof (user_not_pt kend _ _ _ _ _ Cs Hx E2) as Hwp.
      rewrite (proj1 (user_pte_page w E3)) in Hwl, Hwp. by apply Hfr.
    + exists e, v. split_and!; try done; [by apply Hpg|]. intros k Hk. by rewrite Hfr, Hb.
Qed.

Section Loop.
Variables (s0 : kmem) (l0 : list Z) (p sz : Z).
Hypothesis Hparent : uspace (km_mem s0) p l0.
Hypothesis Hsz : 0 ≤ sz ≤ KERNBASE.
Hypothesis Hmapped : ∀ x, 0 ≤ x < sz → ∃ e, mmu_pte (km_mem s0) p x = Some e.
Hypothesis Hl0 : Forall page l0.

(** The parent is not touched. *)
Lemma parent_mem u d s l w a : child s0 l0 u d s l → page w → w ∉ l0 → in_page w a → km_mem s a = km_mem s0 a.
Proof.
  intros C Hw Hwl Ha. apply (ch_frame _ _ _ _ _ _ C). intros v Hv Hva. rewrite Forall_forall in Hl0.
  assert (Hne : v ≠ w) by (intros ->; done).
  destruct (page_apart kend v w a (Hl0 v Hv) Hw Hne Ha); unfold in_page in Hva; lia.
Qed.
Lemma parent_pt u d s l w a : child s0 l0 u d s l → pt_page (km_mem s0) p w → in_page w a → km_mem s a = km_mem s0 a.
Proof. intros C Hw. destruct (pt_page_page kend _ _ _ _ (us_pt _ _ _ _ Hparent) Hw). by eapply parent_mem. Qed.

(** The entry of the parent for [i], as the loop finds it. *)
Lemma parent_walk u d s l i e : child s0 l0 u d s l → 0 ≤ i < KERNBASE → mmu_pte (km_mem s0) p i = Some e →
  ∃ pte, walkpgdir p i false s = Ok pte s ∧ pte ≠ 0 ∧ load32 (km_mem s) pte = e ∧ flag e PTE_P = true.
Proof.
  intros Cc Hi He.
  assert (Hsame : ∀ v a, pt_page (km_mem s0) p v → in_page v a → km_mem s a = km_mem s0 a) by (intros; by eapply parent_pt).
  assert (He' : mmu_pte (km_mem s) p i = Some e) by (by rewrite (same_mmu (km_mem s0) (km_mem s))).
  destruct (mmu_some _ _ _ _ He') as (Hp&Hld&Hfl). exists (tab (km_mem s) p (PDX i) + 4 * PTX i).
  assert (Hpt : pt_ok (km_mem s) p l0).
  { apply (same_pt kend (km_mem s0) _ _ Hsame l0); [apply Hparent|apply Hparent|]. intros j Hj Hpj.
    by destruct (pt_tab _ _ _ _ (us_pt _ _ _ _ Hparent) j Hj Hpj) as (_&?&_). }
  pose proof (PTX_range i). split_and!; [by rewrite walk_run, Hp| |done|done].
  eapply (tab_slot kend); [exact Hpt|apply PDX_range|done|lia].
Qed.

Lemma copyuvm_step_wp u d i s l (Q : Z + bool → kmem → Prop) : copying s0 l0 u p d i s l → 0 ≤ i < sz → i mod PGSIZE = 0 →
  (∀ v, v ∈ u → user_page (km_mem s) d v) →
  (∀ s' u' n w, copying s0 l0 u' p d n s' [] → (length u' ≤ S (length u))%nat →
     (∀ v, v ∈ u' → user_page (km_mem s') d v ∨ v = w) → Q (inr false) s') →
  (∀ s' l' v, copying s0 l0 (v :: u) p d (i + PGSIZE) s' l' → (∀ w, w ∈ v :: u → user_page (km_mem s') d w) →
     Q (inl (u32 (i + PGSIZE))) s') →
  wp (copyuvm_step p d sz i) Q s.
Proof.
  intros C Hi Hal HU HF HT. unfold copyuvm_step. rewrite (proj2 (Z.ltb_lt _ _)) by lia. pose proof (cp_child _ _ _ _ _ _ _ _ C) as Cc.
  destruct (Hmapped i Hi) as [e He]. assert (Hik : 0 ≤ i < KERNBASE) by lia.
  destruct (parent_walk u d s l i e Cc Hik He) as (pte&Hw&Hnz&Hld&Hfl). apply wp_bind. eapply wp_run; [exact Hw|].
  rewrite (proj2 (Z.eqb_neq pte 0)) by done.
  apply wp_bind, wp_gets. rewrite Hld, Hfl. cbn [negb]. apply wp_bind.
  destruct (us_page _ _ _ _ Hparent i e Hik He) as (_&Pp&Pl&_&_).
  pose proof (ch_ready _ _ _ _ _ _ Cc) as Hr. pose proof (ch_free _ _ _ _ _ _ Cc) as Hf.
  destruct l as [|v l]; [eapply wp_run; [exact (kalloc_free_pages kend s [] Hr Hf)|]; eapply wp_ret, (HF s u i 0); [exact C|lia|by auto]|].
  destruct (take_page s l v Hr Hf) as (s1&E&R1&R2&R3&Hv&Hvl&Hz&_&_&Hfm). eapply wp_run; [exact E|].
  rewrite (proj2 (Z.eqb_neq v 0)) by done. apply wp_bind, wp_modify. rewrite R3. set (s2 := set_km_mem _ s1).
  fold (upage e) in s2.
  assert (Hv0 : v ∈ l0) by (apply (ch_from _ _ _ _ _ _ Cc); left; by left).
  assert (Hm2 : ∀ a, km_mem s2 a = copied (km_mem s) v (upage e) PGSIZE a) by (intros a; by apply memmove_copied).
  assert (Hout : ∀ a, ¬ in_page v a → km_mem s2 a = km_mem s a).
  { intros a Ha. rewrite Hm2. unfold copied. unfold in_page in Ha. bdestr; cbn; bdestr; try done; lia. }
  destruct (copying_take s0 l0 u p d i s v l s2 C) as (C2&Fp&Fu&Fk); [done|done|apply (Hfm (km_mem s2) Hout)|exact Hout|].
  assert (Hbytes : ∀ k, 0 ≤ k < PGSIZE → km_mem s2 (v + k) = km_mem s0 (upage e + k)).
  { intros k Hk. rewrite Hm2. unfold copied. rewrite (proj2 (Z.leb_le _ _)), (proj2 (Z.ltb_lt _ _)) by lia. cbn [andb].
    replace (upage e + (v + k - v)) with (upage e + k) by lia. eapply parent_mem; [exact Cc|exact Pp|exact Pl|by apply page_off]. }
  assert (Hmap : ∀ n s' l', n = 0 ∨ n = 1 → mapped_to s2 l d i (v2p v) (Z.lor PTE_W PTE_U) n s' l' →
    copying s0 l0 (v :: u) p d (i + n * PGSIZE) s' l' ∧ (∀ w, w ∈ u → user_page (km_mem s') d w) ∧
    (n = 1 → user_page (km_mem s') d v)).
  { intros n s' l' Hn Hm. assert (Hc := copying_map s0 l0 (v :: u) p d i s2 l v e n s' l'). destruct Hc as (K1&K2&K3); try done.
    split_and!; [done| |done]. intros w Hwu. by apply K2, Fk, HU. }
  assert (En : npages i PGSIZE = 1) by (unfold npages, PGSIZE in *; Z.div_mod_to_equations; lia).
  destruct (v2p_facts kend v Hv) as (V1&V2&V3). pose proof (cp_child _ _ _ _ _ _ _ _ C2) as Cc2.
  apply wp_bind. eapply mappages_wp; rewrite ?En; [apply Cc2|apply Cc2|apply Cc2|lia|done|unfold KERNBASE, PGSIZE in *; lia|done|lia
    |unfold PGSIZE; lia|done| | |].
  - intros x Hx Hr'. assert (Hxi : i ≤ x < KERNBASE) by (unfold KERNBASE, PGSIZE in *; Z.div_mod_to_equations; lia).
    pose proof (cp_copy _ _ _ _ _ _ _ _ C2 x ltac:(lia)) as Hcx. by rewrite (proj2 (Z.ltb_ge _ _)) in Hcx by lia.
  - intros s' l' Hm. cbn [Z.ltb Z.compare]. apply wp_ret. apply (Hmap 1) in Hm as (K1&K2&K3); [|by right].
    rewrite Z.mul_1_l in K1. apply (HT s' l' v K1). intros w [->|Hwu]%elem_of_cons; [by apply K3|by apply K2].
  - intros s' j Hj Hm. cbn [Z.ltb Z.compare]. apply wp_ret. apply (Hmap j) in Hm as (K1&K2&_); [|left; lia].
    eapply (HF _ _ _ v); [exact K1|done|]. intros w [->|Hwu]%elem_of_cons; [by right|left; by apply K2].
Qed.

Lemma copy_loop_wp d s l (Q : bool → kmem → Prop) : copying s0 l0 [] p d 0 s l →
  (∀ s' u n w, copying s0 l0 u p d n s' [] → Z.of_nat (length u) ≤ PGROUNDUP sz / PGSIZE →
     (∀ v, v ∈ u → user_page (km_mem s') d v ∨ v = w) → Q false s') →
  (∀ s' l' u, copying s0 l0 u p d (PGROUNDUP sz) s' l' → Q true s') →
  wp (loop (S (S (Z.to_nat (sz / PGSIZE)))) (copyuvm_step p d sz) 0) Q s.
Proof.
  intros C HF HT. assert (Hr : PGROUNDUP sz = (sz + 4095) / PGSIZE * PGSIZE)
    by (apply PGROUNDUP_div; unfold KERNBASE, PGSIZE in *; lia).
  eapply (wp_loop _ (λ i s1, (∃ l1 u, copying s0 l0 u p d i s1 l1 ∧ Z.of_nat (length u) = i / PGSIZE ∧
    ∀ v, v ∈ u → user_page (km_mem s1) d v) ∧ 0 ≤ i ≤ PGROUNDUP sz ∧ i mod PGSIZE = 0) _
    (λ i, Z.to_nat ((sz + 4095 - i) / 4096))).
  - intros i s1 ((l1&u&C1&Hlen&HU)&Hi&Hal). destruct (Z.ltb_spec i sz) as [Hlt|Hge].
    + eapply (copyuvm_step_wp u d i s1 l1); [done|lia|done|done| |].
      { intros s2 u' n w C2 Hu Hw. apply (HF s2 u' n w C2); [|done]. rewrite Hr in Hi |- *. unfold PGSIZE in *. Z.div_mod_to_equations. lia. }
      intros s2 l2 v C2 HU2.
      rewrite u32_small by (unfold KERNBASE, PGSIZE in *; lia). split; [split_and!|].
      * exists l2, (v :: u). split_and!; [done| |done]. cbn [length]. unfold PGSIZE in *. Z.div_mod_to_equations. lia.
      * unfold PGSIZE; lia.
      * unfold PGSIZE in *. Z.div_mod_to_equations. lia.
      * unfold PGSIZE in *. Z.div_mod_to_equations. lia.
      * unfold PGSIZE in *. Z.div_mod_to_equations. lia.
    + unfold copyuvm_step. rewrite (proj2 (Z.ltb_ge _ _)) by done. apply wp_ret. apply (HT s1 l1 u).
      replace (PGROUNDUP sz) with i; [done|]. rewrite Hr in Hi |- *. unfold PGSIZE in *. Z.div_mod_to_equations. lia.
  - split_and!; [exists l, []; split_and!; [done|done|by intros v ?%not_elem_of_nil]|lia| |done]. rewrite Hr. unfold PGSIZE. Z.div_mod_to_equations. lia.
  - change PGSIZE with 4096. Z.div_mod_to_equations. lia.
Qed.
End Loop.

Lemma copyuvm_wp s l p sz : km_ready s → free_pages s l → uspace (km_mem s) p l → 0 ≤ sz ≤ KERNBASE →
  (∀ x, 0 ≤ x < sz → ∃ e, mmu_pte (km_mem s) p x = Some e) →
  wp (copyuvm kend kdata p sz) (λ d s', km_ready s' ∧ km_k s' = km_k s ∧
    (∃ l', free_pages s' l' ∧ (∀ v, v ∈ l' → v ∈ l) ∧
      (d = 0 → Z.of_nat (length l) ≤ 1025 + PGROUNDUP sz / PGSIZE ∧
         ((length l ≤ 65)%nat ∨ ∃ w, ∀ v, v ∈ l → v ∈ l' ∨ v = w)) ∧
      (d ≠ 0 → uspace (km_mem s') d l' ∧ copy_of (km_mem s) p (km_mem s') d (PGROUNDUP sz) ∧
        ∀ v, pt_page (km_mem s') d v ∨ user_page (km_mem s') d v → v ∈ l)) ∧
    ∀ a, (∀ v, v ∈ l → ¬ in_page v a) → km_mem s' a = km_mem s a) s.
Proof.
  intros Hr Hf Hu Hsz Hm. unfold copyuvm. apply wp_bind. eapply (setupkvm_wp s l); [done|done| |].
  { intros s1 R1 R2 R3 R4 R5. apply wp_ret. split_and!; [done|done| |done]. exists []. split_and!; try done; [by intros v ?%not_elem_of_nil|].
    intros _. split; [|by left]. assert (0 ≤ PGROUNDUP sz / PGSIZE); [|lia].
    rewrite PGROUNDUP_div by (unfold KERNBASE, PGSIZE in *; lia). unfold PGSIZE. Z.div_mod_to_equations. lia. }
  intros s1 l1 d Hd Hc Hn _ _. rewrite (proj2 (Z.eqb_neq d 0)) by done. apply wp_bind.
  assert (C : copying s l [] p d 0 s1 l1).
  { split; [done| | |].
    - split; [apply Hc| |]; intros x; intros; by rewrite Hn in * by done.
    - intros v (x&e&Hx&He&_). by rewrite Hn in He.
    - intros x Hx. rewrite (proj2 (Z.ltb_ge _ _)) by lia. by apply Hn. }
  eapply (copy_loop_wp s l p sz Hu Hsz Hm); [apply Hf|exact C| |].
  - intros s2 u n w0 C2 Hn2 Hw0. pose proof (cp_child _ _ _ _ _ _ _ _ C2) as Hch.
    pose proof (child_count _ _ _ _ _ (proj2 (proj2 Hf)) Hch) as Hlen. destruct Hch as [D1 D2 D3 D4 D5 D7 D6].
    apply wp_bind. eapply wp_mono; [apply (freevm_wp kend s2 [] d); [done|done|apply C2]|].
    intros [] s3 (F1&F2&(l3&F3&F4)&F5). apply wp_ret.
    assert (Hin : ∀ v, pt_page (km_mem s2) d v ∨ user_page (km_mem s2) d v → v ∈ l)
      by (intros v [Hv|Hv]; [apply D5; by right|by apply (cp_user _ _ _ _ _ _ _ _ C2)]).
    split_and!; [done|congruence| |].
    + exists l3. split_and!; [done| | |done].
      * intros v [Hv|Hv]%F4; [apply D5; by left|by apply Hin].
      * intros _. split; [lia|]. right. exists w0. intros v Hv. rewrite F4.
        destruct (D7 v Hv) as [?|[?|Hu0]]; [by auto|by auto|]. destruct (Hw0 v Hu0); auto.
    + intros a Ha. rewrite F5; [by apply D6|]. intros v Hv. apply Ha, Hin, Hv.
  - intros s2 l2 u C2. pose proof (cp_child _ _ _ _ _ _ _ _ C2) as [D1 D2 D3 D4 D5 _ D6]. apply wp_ret.
    split_and!; [done|done| |done]. exists l2. split_and!; [done|intros v Hv; apply D5; by left|done|]. intros _.
    split_and!; [apply C2|apply C2|]. intros v [Hv|Hv]; [apply D5; by right|by apply (cp_user _ _ _ _ _ _ _ _ C2)].
Qed.

(** C19: [copyuvm] gives a child a copy of the parent's memory.  When it
    returns a page directory, the child's user memory has exactly the pages
    of the parent up to the size given, readable and writable for the user,
    each in a page of its own with the parent's bytes.  It returns 0 only when
    not enough pages are free for the copy, a directory and 1024 tables.  In both cases the free list only shrinks, all
    pages of the child come from it, and no memory but what was free has
    changed, so that the parent and all other processes are as before. *)
Theorem copyuvm_correct s l p sz : km_ready s → free_pages s l → uspace (km_mem s) p l → 0 ≤ sz ≤ KERNBASE →
  (∀ x, 0 ≤ x < sz → ∃ e, mmu_pte (km_mem s) p x = Some e) →
  wp (copyuvm kend kdata p sz) (λ d s', km_ready s' ∧ km_k s' = km_k s ∧
    (∃ l', free_pages s' l' ∧ (∀ v, v ∈ l' → v ∈ l) ∧
      (d = 0 → Z.of_nat (length l) ≤ 1025 + PGROUNDUP sz / PGSIZE) ∧
      (d ≠ 0 → uspace (km_mem s') d l' ∧ copy_of (km_mem s) p (km_mem s') d (PGROUNDUP sz) ∧
        ∀ v, pt_page (km_mem s') d v ∨ user_page (km_mem s') d v → v ∈ l)) ∧
    ∀ a, (∀ v, v ∈ l → ¬ in_page v a) → km_mem s' a = km_mem s a) s.
Proof.
  intros Hr Hf Hu Hsz Hm. eapply wp_mono; [by apply copyuvm_wp|]. intros d s' (H1&H2&(l'&H3&H4&H5&H6)&H7).
  split_and!; [done|done| |done]. exists l'. split_and!; try done. intros Hd. by apply H5.
Qed.
End Copy.

(** ** An example: a process of one page, and [n] free pages *)

Definition ex_frees (n : nat) : list Z := map (λ i, 0x8010c000 + PGSIZE * Z.of_nat i) (seq 0 n).
(** The page table of [ex_hole], but for address 0, and the list of the free
    pages; the byte at address 5 of the process is 42. *)
Definition ex_mem (n : nat) : mem := λ a,
  if a =? 0x80109000 then 0x07 else if a =? 0x80109001 then 0xa0 else if a =? 0x80109002 then 0x10 else
  if a =? 0x8010a000 then 0x07 else if a =? 0x8010a001 then 0xb0 else if a =? 0x8010a002 then 0x10 else
  if a =? 0x8010b005 then 42 else
  if (0x8010c000 <=? a) && (a <? 0x8010b000 + PGSIZE * Z.of_nat n) && (a mod PGSIZE <? 4) then
    Z.shiftr (a - a mod PGSIZE + PGSIZE) (8 * (a mod PGSIZE)) mod 256
  else 0.

Fixpoint check_chain (m : mem) (r : Z) (l : list Z) : bool :=
  match l with [] => r =? 0 | v :: l => (r =? v) && check_chain m (load32 m v) l end.
Lemma check_chain_ok m l : ∀ r, check_chain m r l = true → chain m r l.
Proof.
  induction l as [|v l IH]; intros r; cbn [check_chain chain]; [apply Z.eqb_eq|].
  intros [Hr Hl]%andb_true_iff. split; [by apply Z.eqb_eq|by apply IH].
Qed.

Lemma ex_frees_pages n : (n ≤ 2000)%nat → Forall (page kend_ex) (ex_frees n) ∧ NoDup (ex_frees n).
Proof.
  intros Hn. split.
  - apply Forall_forall. intros v Hv. unfold ex_frees in Hv. apply list_elem_of_fmap in Hv as (i&->&Hi).
    apply elem_of_seq in Hi. unfold page, bad_page, v2p, kend_ex, PHYSTOP, KERNBASE, PGSIZE, nz.
    rewrite !u32_small by lia. split; [lia|]. rewrite (proj2 (Z.ltb_ge _ _)), (proj2 (Z.leb_gt _ _)) by lia.
    rewrite (proj2 (Z.eqb_eq _ _)); [done|]. Z.div_mod_to_equations. lia.
  - apply NoDup_fmap_2_strong; [|apply NoDup_seq]. intros i j _ _ Hij. unfold PGSIZE in Hij. lia.
Qed.

Lemma ex_mem_space n : uspace kend_ex (ex_mem n) ex_pgdir (ex_frees n) ∧
  ∀ x, 0 ≤ x < 4294967296 → mmu_pte (ex_mem n) ex_pgdir x = if x / PGSIZE =? 0 then Some 0x10b007 else None.
Proof.
  assert (Hpde : ∀ i, 0 ≤ i < 1024 → pde (ex_mem n) ex_pgdir i = if i =? 0 then 0x10a007 else 0).
  { intros i Hi. destruct (Z.eqb_spec i 0) as [->|Hne]; [by vm_compute|].
    unfold pde, load32, ex_mem, ex_pgdir.
    repeat (rewrite (proj2 (Z.eqb_neq _ _)) by lia). rewrite !(proj2 (Z.leb_gt _ _)) by lia. done. }
  assert (Hpte : ∀ j, 0 ≤ j < 1024 → load32 (ex_mem n) (0x8010a000 + 4 * j) = if j =? 0 then 0x10b007 else 0).
  { intros j Hj. destruct (Z.eqb_spec j 0) as [->|Hne]; [by vm_compute|].
    unfold load32, ex_mem.
    repeat (rewrite (proj2 (Z.eqb_neq _ _)) by lia). rewrite !(proj2 (Z.leb_gt _ _)) by lia. done. }
  split; [|intros x Hx; by apply (one_mmu 0)]. apply (one_space 0); [done|done|].
  assert (Hf : ∀ v, v ∈ ex_frees n → 0x8010c000 ≤ v).
  { intros v Hv. apply list_elem_of_fmap in Hv as (i&->&_). unfold PGSIZE. lia. }
  split_and!; intros Hv%Hf; lia.
Qed.

(** What a copy needs: the directory, 64 tables for the kernel, and a table
    and a page for the user. *)
Definition ex_free : list Z := ex_frees 67.
Definition ex_parent : kmem := Kmem kst_boot true 0x8010c000 (ex_mem 67).

Lemma ex_parent_free : km_ready ex_parent ∧ free_pages kend_ex ex_parent ex_free.
Proof.
  split; [by split|]. destruct (ex_frees_pages 67) as [Hp Hn]; [lia|]. split_and!; [|done..]. apply check_chain_ok. vm_compute. reflexivity.
Qed.

Lemma ex_parent_space : uspace kend_ex (km_mem ex_parent) ex_pgdir ex_free ∧
  ∀ x, 0 ≤ x < 4294967296 → mmu_pte (km_mem ex_parent) ex_pgdir x = if x / PGSIZE =? 0 then Some 0x10b007 else None.
Proof. apply ex_mem_space. Qed.

Lemma copyuvm_correct_witness :
  wp (copyuvm kend_ex 0x80107000 ex_pgdir 4096) (λ d s', ∃ l', free_pages kend_ex s' l' ∧ (d ≠ 0 →
    ∃ v, mmu_pte (km_mem s') d 5 = Some (v2p v + 7) ∧ v ∈ ex_free ∧ km_mem s' (v + 5) = 42)) ex_parent.
Proof.
  destruct ex_parent_free as [Hr Hf]. destruct ex_parent_space as [Hu Hm].
  assert (Hw := copyuvm_correct kend_ex 0x80107000 ltac:(vm_compute; done) ltac:(vm_compute; done)
    ex_parent ex_free ex_pgdir 4096 Hr Hf Hu ltac:(unfold KERNBASE; lia)).
  eapply wp_mono; [apply Hw|].
  - intros x Hx. exists 0x10b007. rewrite Hm by lia. rewrite Z.div_small by (unfold PGSIZE; lia). reflexivity.
  - intros d s' (_&_&(l'&H1&_&_&H2)&_). exists l'. split; [exact H1|]. intros Hd. destruct (H2 Hd) as (_&Hc&Hin).
    destruct (Hc 5 ltac:(unfold KERNBASE; lia)) as (e&v&E1&E2&E3&E4). exists v. split; [exact E2|]. split.
    + apply Hin. right. exists 5, (user_pte v). split; [unfold KERNBASE; lia|]. split; [exact E2|].
      symmetry. apply (user_pte_page kend_ex 0 ltac:(vm_compute; done) v E3).
    + rewrite E4 by (unfold PGSIZE; lia). vm_compute in E1. injection E1 as <-. vm_compute. reflexivity.
Defined.

(** [setupkvm] gives nothing back when memory runs out: with one free page it
    fails, and the page is lost. *)
Lemma setupkvm_leaks : match setupkvm 0x80107000 ex_vm with
  | Ok d s' => d = 0 ∧ km_freelist ex_vm = 0x8010a000 ∧ km_freelist s' = 0
  | _ => False
  end.
Proof. vm_compute. done. Qed.
