(* ===== verification/VmGrow.v ===== *)
(** Growing an address space: [allocuvm] (vm.c), which exec and sbrk use. *)
From S2P Require Import Prelude Kmonad Wp Kstate Spinlock Str Kalloc Vm VmLaws VmFree VmCopy.

Section Grow.
Context (kend : Z).
Hypothesis Hkend : KERNBASE < kend.
Notation page := (page kend).
Notation pt_ok := (pt_ok kend).
Notation free_pages := (free_pages kend).
Notation uspace := (uspace kend).
Notation mapped_to := (mapped_to kend).
Implicit Types (m : mem) (d : Z) (l u : list Z) (s : kmem).

(** The pages from [a0] up to [a] are mapped, each to a page of zeros. *)
Definition zero_pages m d (a0 a : Z) : Prop := ∀ x, 0 ≤ x < KERNBASE → a0 ≤ x < a → ∃ v,
  mmu_pte m d x = Some (user_pte v) ∧ page v ∧ ∀ k, 0 ≤ k < PGSIZE → m (v + k) = 0.

(** [s] is [s0] with the pages from [a0] up to [a] added to the page table
    [d]. *)
Record grown s0 l0 d (a0 a : Z) s l : Prop := {
  gr_ready : km_ready s;
  gr_k : km_k s = km_k s0;
  gr_free : free_pages s l;
  gr_space : uspace (km_mem s) d l;
  gr_old : ∀ x, 0 ≤ x < KERNBASE → ¬ (a0 ≤ x < a) → mmu_pte (km_mem s) d x = mmu_pte (km_mem s0) d x;
  gr_new : zero_pages (km_mem s) d a0 a;
  gr_from : ∀ v, v ∈ l ∨ pt_page (km_mem s) d v → v ∈ l0 ∨ pt_page (km_mem s0) d v;
  gr_frame : ∀ b, (∀ v, v ∈ l0 ∨ pt_page (km_mem s0) d v → ¬ in_page v b) → km_mem s b = km_mem s0 b
}.

Lemma grown_refl s l d a0 : km_ready s → free_pages s l → uspace (km_mem s) d l → grown s l d a0 a0 s l.
Proof. intros. split; try done. intros x _ Hx. lia. Qed.

(** Memory of pages that are neither free nor part of the page table. *)
Lemma grown_other s0 l0 d a0 a s l w k : grown s0 l0 d a0 a s l → free_pages s0 l0 → pt_ok (km_mem s0) d l0 →
  page w → w ∉ l0 → ¬ pt_page (km_mem s0) d w → 0 ≤ k < PGSIZE → km_mem s (w + k) = km_mem s0 (w + k).
Proof.
  intros G Hf Hpt Hw H1 H2 Hk. apply (gr_frame _ _ _ _ _ _ _ G). intros v Hv Ha.
  assert (Hpv : page v) by exact (area_page kend s0 l0 d v Hf Hpt Hv).
  assert (Hne : v ≠ w) by (intros ->; by destruct Hv).
  destruct (page_apart kend v w (w + k) Hpv Hw Hne (page_off w k Hk)); unfold in_page in Ha; lia.
Qed.

(** A page is taken and cleared. *)
Lemma grown_take s0 l0 d a0 a s v l s1 : grown s0 l0 d a0 a s (v :: l) → km_ready s1 → km_k s1 = km_k s →
  free_pages s1 l → (∀ b, ¬ in_page v b → km_mem s1 b = km_mem s b) →
  grown s0 l0 d a0 a s1 l ∧ ¬ pt_page (km_mem s1) d v ∧ ¬ user_page (km_mem s1) d v.
Proof.
  intros [G1 G2 G3 G4 G5 G6 G7 G8] R1 R2 R3 R4. destruct G3 as (_&Hpg&Hnd).
  apply Forall_cons in Hpg as [Hv _]. apply NoDup_cons in Hnd as [Hvl _].
  assert (Hpt : ∀ w b, pt_page (km_mem s) d w → in_page w b → km_mem s1 b = km_mem s b).
  { intros w b Hw Hb. apply R4. destruct (pt_page_page kend _ _ _ _ (us_pt _ _ _ _ G4) Hw) as [Hwp Hwl].
    assert (Hne : v ≠ w) by (intros ->; apply Hwl; by left). destruct (page_apart kend v w b Hv Hwp Hne Hb); unfold in_page; lia. }
  assert (Hu : uspace (km_mem s1) d l) by (eapply uspace_same; [exact Hpt| |exact G4]; intros w ?; by right).
  assert (Hmm : ∀ x, mmu_pte (km_mem s1) d x = mmu_pte (km_mem s) d x) by (intros x; by apply same_mmu).
  assert (Hpp : ∀ w, pt_page (km_mem s1) d w → pt_page (km_mem s) d w)
    by (intros w; apply same_pde_pt_page; intros j Hj; by apply same_pde).
  split; [split; try done|split].
  - congruence.
  - intros x Hx Hn. by rewrite Hmm, G5.
  - intros x Hx Hr. destruct (G6 x Hx Hr) as (w&E1&E2&E3). exists w. rewrite Hmm. split_and!; try done. intros k Hk.
    rewrite R4; [by apply E3|]. destruct (us_page _ _ _ _ G4 x _ Hx E1) as (_&_&Hwl&_).
    rewrite (proj1 (user_pte_page kend 0 Hkend w E2)) in Hwl.
    assert (Hne : v ≠ w) by (intros ->; apply Hwl; by left).
    destruct (page_apart kend v w (w + k) Hv E2 Hne (page_off w k Hk)); unfold in_page; lia.
  - intros w [Hw|Hw]; apply G7; [left; by right|right; by apply Hpp].
  - intros b Hb. rewrite R4; [by apply G8|]. apply Hb, G7. left. by left.
  - intros Hw%Hpp. destruct (pt_page_page kend _ _ _ _ (us_pt _ _ _ _ G4) Hw) as [_ Hn]. apply Hn. by left.
  - intros (x&e&Hx&He&Ev). rewrite Hmm in He. destruct (us_page _ _ _ _ G4 x e Hx He) as (_&_&Hn&_). apply Hn. rewrite <- Ev. by left.
Qed.

(** The translations after [n] pages, none or one, have been mapped at [a]. *)
Lemma one_mapped s l d a v n s' l' x : a mod PGSIZE = 0 → n = 0 ∨ n = 1 → 0 ≤ x < KERNBASE →
  mapped_to s l d a (v2p v) (Z.lor PTE_W PTE_U) n s' l' →
  mmu_pte (km_mem s') d x = if (a <=? x) && (x <? a + n * PGSIZE) then Some (user_pte v) else mmu_pte (km_mem s) d x.
Proof.
  intros Hal Hn Hx Hm. rewrite (mt_maps _ _ _ _ _ _ _ _ _ _ Hm) by (unfold KERNBASE in Hx; lia). cbn zeta.
  unfold PGSIZE in *. assert (Hk : 0 ≤ x / 4096 - a / 4096 < n ↔ a ≤ x < a + n * 4096) by (Z.div_mod_to_equations; lia).
  destruct (Z.leb_spec 0 (x / 4096 - a / 4096)), (Z.ltb_spec (x / 4096 - a / 4096) n), (Z.leb_spec a x),
    (Z.ltb_spec x (a + n * 4096)); cbn [andb]; try done; try lia.
  unfold user_pte. change (Z.lor (Z.lor PTE_W PTE_U) PTE_P) with 7. f_equal. lia.
Qed.

(** The page [v], which is cleared, is mapped at [a], or not for want of a
    page for the table. *)
Lemma grown_map s0 l0 d a0 a s l v n s' l' : grown s0 l0 d a0 a s l → 0 ≤ a0 ≤ a → a mod PGSIZE = 0 →
  page v → v ∉ l → ¬ pt_page (km_mem s) d v → ¬ user_page (km_mem s) d v →
  (∀ k, 0 ≤ k < PGSIZE → km_mem s (v + k) = 0) → n = 0 ∨ n = 1 →
  mapped_to s l d a (v2p v) (Z.lor PTE_W PTE_U) n s' l' → grown s0 l0 d a0 (a + n * PGSIZE) s' l'.
Proof.
  intros [G1 G2 G3 G4 G5 G6 G7 G8] Ha Hal Hv Hvl Hvp Hvu Hb Hn Hm.
  assert (Hmm := λ x Hx, one_mapped s l d a v n s' l' x Hal Hn Hx Hm).
  assert (Hfr : ∀ w k, page w → w ∉ l → ¬ pt_page (km_mem s) d w → 0 ≤ k < PGSIZE → km_mem s' (w + k) = km_mem s (w + k)).
  { intros w k Hw H1 H2 Hk. apply (mt_frame _ _ _ _ _ _ _ _ _ _ Hm). rewrite area_pages. intros (t&Ht&Hin).
    assert (Htp : page t) by exact (area_page kend s l d t G3 (us_pt _ _ _ _ G4) Ht).
    assert (Hne : w ≠ t) by (intros ->; by destruct Ht).
    destruct (page_apart kend w t _ Hw Htp Hne Hin); lia. }
  split; [apply Hm|rewrite <- G2; apply Hm|apply Hm| | | | |].
  - by eapply (uspace_mapped kend 0).
  - intros x Hx Hr. rewrite Hmm by done. unfold PGSIZE in *.
    destruct (Z.leb_spec a x), (Z.ltb_spec x (a + n * 4096)); cbn [andb]; try lia; apply G5; (done || lia).
  - intros x Hx Hr. rewrite Hmm by done. destruct (Z.leb_spec a x), (Z.ltb_spec x (a + n * PGSIZE)); cbn [andb]; try lia.
    + exists v. split_and!; try done. intros k Hk. by rewrite Hfr, Hb.
    + destruct (G6 x Hx) as (w&E1&E2&E3); [lia|]. exists w. split_and!; try done. intros k Hk. rewrite <- (E3 k Hk).
      destruct (us_page _ _ _ _ G4 x _ Hx E1) as (_&_&Hwl&_). pose proof (user_not_pt kend _ _ _ _ _ G4 Hx E1) as Hwp.
      rewrite (proj1 (user_pte_page kend 0 Hkend w E2)) in Hwl, Hwp. by apply Hfr.
  - intros w Hw. apply G7. by apply (mapped_sub kend _ _ _ _ _ _ _ _ _ w G3 (us_pt _ _ _ _ G4) Hm).
  - intros b Hb'. rewrite (mt_frame _ _ _ _ _ _ _ _ _ _ Hm); [by apply G8|]. rewrite area_pages. intros (t&Ht&Hin).
    by apply (Hb' t); [apply G7|].
Qed.

(** ** [allocuvm] *)

(** What was mapped below [a0] still is, and its bytes are the same. *)
Definition kept s0 d (a0 : Z) s : Prop := ∀ x e, 0 ≤ x < a0 → x < KERNBASE → mmu_pte (km_mem s0) d x = Some e →
  mmu_pte (km_mem s) d x = Some e ∧ ∀ k, 0 ≤ k < PGSIZE → km_mem s (upage e + k) = km_mem s0 (upage e + k).
(** Nothing is mapped from [a0] on. *)
Definition nothing_from m d (a0 : Z) : Prop := ∀ x, a0 ≤ x < KERNBASE → mmu_pte m d x = None.

Section Alloc.
Variables (s0 : kmem) (l0 : list Z) (d oldsz newsz : Z).
Hypothesis Hfree : free_pages s0 l0.
Hypothesis Hspace : uspace (km_mem s0) d l0.
Hypothesis Hsz : 0 ≤ oldsz ≤ newsz.
Hypothesis Hnew : newsz < KERNBASE.
Hypothesis Hmapped : ∀ x, 0 ≤ x < oldsz → ∃ e, mmu_pte (km_mem s0) d x = Some e.
Let a0 := PGROUNDUP oldsz.
Hypothesis Hnone : nothing_from (km_mem s0) d a0.

Lemma a0_facts : oldsz ≤ a0 < oldsz + PGSIZE ∧ a0 mod PGSIZE = 0 ∧ a0 ≤ PGROUNDUP newsz ∧
  newsz ≤ PGROUNDUP newsz < newsz + PGSIZE ∧ PGROUNDUP newsz ≤ KERNBASE ∧ PGROUNDUP newsz mod PGSIZE = 0.
Proof using Hsz Hnew.
  unfold a0. rewrite !PGROUNDUP_div by (unfold KERNBASE in *; lia). unfold PGSIZE, KERNBASE in *. clear -Hsz Hnew.
  Z.div_mod_to_equations. lia.
Qed.

Lemma grown_kept a s l : grown s0 l0 d a0 a s l → kept s0 d a0 s.
Proof using Hfree Hspace.
  intros G x e Hx Hk He. destruct (us_page _ _ _ _ Hspace x e ltac:(lia) He) as (_&P1&P2&_&_). split.
  - rewrite (gr_old _ _ _ _ _ _ _ G) by lia. done.
  - intros k Hk'. eapply grown_other; try done; [apply Hspace|]. eapply (user_not_pt kend); [done|split; [|exact Hk]; lia|done].
Qed.

(** The table of the first new page is there, unless a table begins there. *)
Lemma grown_present a s l : grown s0 l0 d a0 a s l → a0 mod 4194304 = 0 ∨ present (km_mem s) d (PDX a0) = true.
Proof using Hsz Hnew Hmapped.
  intros G. destruct a0_facts as (A1&A2&A3&A4&A5&_). destruct (decide (a0 mod 4194304 = 0)) as [|Hne]; [by left|right].
  assert (Ho : 0 < oldsz). { destruct (decide (oldsz = 0)) as [E|]; [|lia]. exfalso. apply Hne. unfold a0. by rewrite E. }
  destruct (Hmapped (oldsz - 1)) as [e He]; [lia|].
  rewrite <- (gr_old _ _ _ _ _ _ _ G) in He by lia. destruct (mmu_some _ _ _ _ He) as (Hp&_&_).
  replace (PDX a0) with (PDX (oldsz - 1)); [done|]. unfold KERNBASE, PGSIZE in *.
  rewrite !PDX_div, !u32_small by lia. clear -A1 A2 Hne Ho. Z.div_mod_to_equations. lia.
Qed.

(** The new pages are given back. *)
Definition restored s : Prop := km_ready s ∧ km_k s = km_k s0 ∧ kept s0 d a0 s ∧ nothing_from (km_mem s) d a0 ∧
  ∃ l, free_pages s l ∧ uspace (km_mem s) d l.

Lemma dealloc_back a s l (Q : Z → kmem → Prop) : grown s0 l0 d a0 a s l → a ≤ newsz → oldsz < newsz →
  (∀ s', restored s' → Q oldsz s') → wp (deallocuvm kend d newsz oldsz) Q s.
Proof using Hfree Hspace Hsz Hnew Hmapped Hnone.
  intros G Ha Hlt HQ. destruct a0_facts as (A1&A2&A3&A4&A5&_).
  eapply (deallocuvm_wp kend s l d newsz oldsz); [apply G|apply G|apply G|lia|lia|eapply grown_present; exact G|].
  fold a0. intros s' l' a' [F1 F2 F3 F4 F5 F6 F7 F8] Ha'. apply HQ. split_and!; [done|rewrite F2; apply G| | |by exists l'].
  - intros x e Hx Hk He. destruct (grown_kept a s l G x e Hx Hk He) as [K1 K2]. split.
    + rewrite F6 by (unfold KERNBASE in *; lia). rewrite (proj2 (Z.leb_gt a0 x)) by lia. done.
    + intros k Hk'. rewrite <- (K2 k Hk'). pose proof (gr_space _ _ _ _ _ _ _ G) as Gs.
      destruct (us_page _ _ _ _ Gs x e ltac:(lia) K1) as (_&P1&_&_&_). apply F8. intros v Hv Hin.
      assert (Hv' : page v ∧ v ≠ upage e).
      { destruct Hv as [Hv|(y&e'&Hy&Hr&He'&->)].
        - split; [by apply (pt_page_page kend _ _ _ _ (us_pt _ _ _ _ Gs) Hv)|]. intros ->.
          by apply (user_not_pt kend _ _ _ x e Gs ltac:(lia) K1).
        - destruct (us_page _ _ _ _ Gs y e' Hy He') as (_&P2&_). split; [done|]. intros Ee.
          pose proof (us_inj _ _ _ _ Gs y x e' e Hy ltac:(lia) He' K1 Ee) as Hpg.
          unfold PGSIZE in *. clear -Hpg Hr Hx A2. Z.div_mod_to_equations. lia. }
      destruct Hv' as [Hvp Hne]. destruct (page_apart kend v (upage e) _ Hvp P1 Hne (page_off _ k Hk')); unfold in_page in Hin; lia.
  - intros x Hx. rewrite F6 by (unfold KERNBASE in *; lia). rewrite (proj2 (Z.leb_le a0 x)) by lia.
    destruct (Z.ltb_spec x a'); cbn [andb]; [done|]. rewrite (gr_old _ _ _ _ _ _ _ G) by lia. by apply Hnone.
Qed.

(** The loop at [a]: the pages below [a] have been added, or all but the last
    of them and there is no free page. *)
Definition growing a s : Prop := ∃ l g, grown s0 l0 d a0 g s l ∧ a0 ≤ g ∧ (g = a ∨ g = a - PGSIZE ∧ l = []).

Lemma allocuvm_step_wp a s (Q : Z + Z → kmem → Prop) : growing a s → a mod PGSIZE = 0 → a0 ≤ a < newsz →
  (∀ s', restored s' → Q (inr 0) s') → (∀ s', growing (a + PGSIZE) s' → Q (inl (a + PGSIZE)) s') →
  wp (allocuvm_step kend d oldsz newsz a) Q s.
Proof using Hkend Hfree Hspace Hsz Hnew Hmapped Hnone.
  intros (l&g&G&Hg&Hc) Hal Ha HF HT. destruct a0_facts as (A1&A2&A3&A4&A5&_).
  unfold allocuvm_step. rewrite (proj2 (Z.ltb_lt _ _)) by lia. apply wp_bind.
  pose proof (gr_ready _ _ _ _ _ _ _ G) as Hr. pose proof (gr_free _ _ _ _ _ _ _ G) as Hf.
  destruct l as [|v l].
  - eapply wp_run; [exact (kalloc_free_pages kend s [] Hr Hf)|]. cbn [Z.eqb]. apply wp_bind.
    eapply (dealloc_back g); [exact G|unfold PGSIZE in *; lia|lia|]. intros s' Hs'. by apply wp_ret, HF.
  - destruct Hc as [->|[_ ?]]; [|done].
    destruct (take_page kend s l v Hr Hf) as (s1&E&R1&R2&R3&Hv&Hvl&Hz&_&_&Hfm). eapply wp_run; [exact E|].
    rewrite (proj2 (Z.eqb_neq v 0)) by done. apply wp_bind, wp_modify. rewrite R3. set (s2 := set_km_mem _ s1).
    assert (Hm2 : ∀ b, km_mem s2 b = filled (km_mem s) v 0 PGSIZE b) by (intros b; by apply memset_filled).
    assert (Hout : ∀ b, ¬ in_page v b → km_mem s2 b = km_mem s b).
    { intros b Hb. rewrite Hm2. unfold filled, in_page in *. bdestr; cbn; try done; lia. }
    destruct (grown_take s0 l0 d a0 a s v l s2 G) as (G2&Fp&Fu); [done|done|apply (Hfm (km_mem s2) Hout)|exact Hout|].
    assert (Hzero : ∀ k, 0 ≤ k < PGSIZE → km_mem s2 (v + k) = 0).
    { intros k Hk. rewrite Hm2. unfold filled. by rewrite (proj2 (Z.leb_le _ _)), (proj2 (Z.ltb_lt _ _)) by lia. }
    assert (Hmap : ∀ n s' l', n = 0 ∨ n = 1 → mapped_to s2 l d a (v2p v) (Z.lor PTE_W PTE_U) n s' l' →
      grown s0 l0 d a0 (a + n * PGSIZE) s' l') by (intros; eapply grown_map; try done; lia).
    assert (En : npages a PGSIZE = 1) by (unfold npages, PGSIZE in *; clear -Hal; Z.div_mod_to_equations; lia).
    destruct (v2p_facts kend v Hv) as (V1&V2&V3). rewrite (u32_small (a + PGSIZE)) by (unfold KERNBASE, PGSIZE in *; lia).
    apply wp_bind. eapply mappages_wp; rewrite ?En; [apply G2|apply G2|apply G2|lia|done|unfold KERNBASE, PGSIZE in *; lia|done|lia
      |unfold PGSIZE; lia|done| | |].
    + intros x Hx Hr'. assert (Hxi : a ≤ x < KERNBASE).
      { unfold KERNBASE, PGSIZE in *. clear -Hr' Hx Hal Ha Hnew A5. Z.div_mod_to_equations. lia. }
      rewrite (gr_old _ _ _ _ _ _ _ G2) by lia. apply Hnone. lia.
    + intros s' l' Hm. apply wp_ret, HT. exists l', (a + PGSIZE). apply (Hmap 1) in Hm; [|by right]. rewrite Z.mul_1_l in Hm.
      split_and!; [done|unfold PGSIZE; lia|by left].
    + intros s' j Hj Hm. apply wp_ret, HT. exists [], a. assert (j = 0) as -> by lia.
      apply (Hmap 0) in Hm; [|by left]. rewrite Z.mul_0_l, Z.add_0_r in Hm. split_and!; [done|lia|right; split; [lia|done]].
Qed.

Lemma allocuvm_wp : km_ready s0 → wp (allocuvm kend d oldsz newsz) (λ r s',
  (r = newsz ∧ ∃ l', grown s0 l0 d a0 (PGROUNDUP newsz) s' l') ∨
  (r = newsz ∧ grown s0 l0 d a0 (PGROUNDUP newsz - PGSIZE) s' [] ∧ a0 < PGROUNDUP newsz) ∨
  (r = 0 ∧ restored s')) s0.
Proof using Hkend Hfree Hspace Hsz Hnew Hmapped Hnone.
  intros Hr. destruct a0_facts as (A1&A2&A3&A4&A5&A6). unfold allocuvm.
  rewrite (proj2 (Z.leb_gt _ _)), (proj2 (Z.ltb_ge _ _)) by lia. fold a0.
  eapply (wp_loop _ (λ a s, growing a s ∧ a0 ≤ a ≤ PGROUNDUP newsz ∧ a mod PGSIZE = 0) _
    (λ a, Z.to_nat ((PGROUNDUP newsz - a) / PGSIZE))).
  - intros a s (Hg&Ha&Hal). destruct (decide (a < newsz)) as [Hlt|Hge].
    + apply allocuvm_step_wp; try done; [lia|by auto|]. intros s' Hg'.
      assert (Hb : a + PGSIZE ≤ PGROUNDUP newsz ∧ (a + PGSIZE) mod PGSIZE = 0 ∧
        (Z.to_nat ((PGROUNDUP newsz - (a + PGSIZE)) / PGSIZE) < Z.to_nat ((PGROUNDUP newsz - a) / PGSIZE))%nat).
      { unfold PGSIZE in *. clear -Hal Hlt A4 A6. Z.div_mod_to_equations. lia. }
      split; [split_and!; try done; unfold PGSIZE in *; lia|apply Hb].
    + unfold allocuvm_step. rewrite (proj2 (Z.ltb_ge _ _)) by lia. apply wp_ret.
      assert (a = PGROUNDUP newsz) as ->. { unfold PGSIZE in *. clear -Hal Hge A4 A6 Ha. Z.div_mod_to_equations. lia. }
      destruct Hg as (l&g&G&Hg&[->|[-> ->]]); [left; eauto|]. right. left. unfold PGSIZE in *. split_and!; [done|done|lia].
  - split; [|split; [lia|done]]. exists l0, a0. split_and!; [by apply grown_refl|lia|by left].
  - assert (Hm : (PGROUNDUP newsz - a0) / PGSIZE ≤ newsz / PGSIZE + 1).
    { unfold PGSIZE in *. clear -A1 A2 A4 Hsz. Z.div_mod_to_equations. lia. }
    lia.
Qed.
End Alloc.

(** C22: [allocuvm] grows the memory of a process: it returns the new size with
    every page from the old end to the new one mapped to a page of zeros of its
    own, or 0 with nothing added, or refuses a size in the kernel's half; in
    every case the process keeps its pages with their bytes, the address space
    stays well-formed, and on success no memory but free pages and page tables
    has changed.  When the last free page was needed for the last page of the
    process and none is left for the page table, the new size is returned
    although that last page is not mapped: the result of [mappages] is not
    looked at. *)
Theorem allocuvm_correct s l d oldsz newsz : km_ready s → free_pages s l → uspace (km_mem s) d l →
  0 ≤ oldsz ≤ newsz → (∀ x, 0 ≤ x < oldsz → ∃ e, mmu_pte (km_mem s) d x = Some e) →
  nothing_from (km_mem s) d (PGROUNDUP oldsz) →
  wp (allocuvm kend d oldsz newsz) (λ r s', km_ready s' ∧ km_k s' = km_k s ∧ kept s d (PGROUNDUP oldsz) s' ∧
    (∃ l', free_pages s' l' ∧ uspace (km_mem s') d l' ∧
      (r = newsz ∧ newsz < KERNBASE ∧
         zero_pages (km_mem s') d (PGROUNDUP oldsz) (PGROUNDUP newsz) ∧ nothing_from (km_mem s') d (PGROUNDUP newsz) ∧
         (∀ b, (∀ v, v ∈ l ∨ pt_page (km_mem s) d v → ¬ in_page v b) → km_mem s' b = km_mem s b) ∨
       r = newsz ∧ newsz < KERNBASE ∧ l' = [] ∧ PGROUNDUP oldsz < PGROUNDUP newsz ∧
         zero_pages (km_mem s') d (PGROUNDUP oldsz) (PGROUNDUP newsz - PGSIZE) ∧
         nothing_from (km_mem s') d (PGROUNDUP newsz - PGSIZE) ∨
       r = 0 ∧ nothing_from (km_mem s') d (PGROUNDUP oldsz)))) s.
Proof using Hkend.
  intros Hr Hf Hu Hsz Hmap Hno. destruct (decide (newsz < KERNBASE)) as [Hnew|Hnew].
  - eapply wp_mono; [by apply (allocuvm_wp s l)|].
    destruct (a0_facts oldsz newsz Hsz Hnew) as (A1&A2&A3&A4&A5&A6).
    assert (Hrest : ∀ a s' l', grown s l d (PGROUNDUP oldsz) a s' l' → PGROUNDUP oldsz ≤ a → nothing_from (km_mem s') d a).
    { intros a s' l' G Ha x Hx. rewrite (gr_old _ _ _ _ _ _ _ G) by lia. apply Hno. lia. }
    intros r s' [(->&l'&G)|[(->&G&Hlt)|(->&(H1&H2&H3&H4&l'&H5&H6))]].
    + split; [apply G|]. split; [apply G|]. split; [by eapply grown_kept|]. exists l'. split; [apply G|]. split; [apply G|].
      left. split_and!; try done; [apply G|by eapply Hrest|apply G].
    + split; [apply G|]. split; [apply G|]. split; [by eapply grown_kept|]. exists []. split; [apply G|]. split; [apply G|].
      right. left. split_and!; try done; [apply G|]. eapply Hrest; [exact G|]. unfold PGSIZE in *. clear -A2 A6 Hlt. Z.div_mod_to_equations. lia.
    + split_and!; try done. exists l'. split_and!; try done. right. by right.
  - unfold allocuvm. rewrite (proj2 (Z.leb_le _ _)) by lia. apply wp_ret. split_and!; try done. exists l. split_and!; try done.
    right. by right.
Qed.
End Grow.

(** A process of one page grows to two and keeps its first. *)
Lemma allocuvm_correct_witness :
  wp (allocuvm kend_ex ex_pgdir 4096 8000) (λ r s', (r = 8000 ∨ r = 0) ∧
    mmu_pte (km_mem s') ex_pgdir 5 = Some 0x10b007 ∧ km_mem s' 0x8010b005 = 42) ex_parent.
Proof.
  destruct ex_parent_free as [Hr Hf]. destruct ex_parent_space as [Hu Hm].
  eapply wp_mono; [apply (allocuvm_correct kend_ex ltac:(vm_compute; done) ex_parent ex_free ex_pgdir 4096 8000 Hr Hf Hu)|].
  - lia.
  - intros x Hx. exists 0x10b007. rewrite Hm by lia. rewrite Z.div_small by (unfold PGSIZE; lia). reflexivity.
  - intros x Hx. change (PGROUNDUP 4096) with 4096 in Hx. rewrite Hm by (unfold KERNBASE in *; lia).
    rewrite (proj2 (Z.eqb_neq _ _)); [done|]. unfold PGSIZE. Z.div_mod_to_equations. lia.
  - intros r s' (_&_&K&(l'&_&_&H)). split; [destruct H as [(->&_)|[(->&_)|(->&_)]]; auto|].
    destruct (K 5 0x10b007) as [K1 K2]; [vm_compute; split; [discriminate|reflexivity]|reflexivity|vm_compute; reflexivity|].
    split; [exact K1|]. specialize (K2 5 ltac:(vm_compute; split; [discriminate|reflexivity])). exact K2.
Defined.

(** With one free page and no page table the growth is reported, but nothing is
    mapped and the page is lost. *)
Lemma allocuvm_unmapped : match allocuvm kend_ex ex_pgdir 0 4096 ex_vm with
  | Ok r s' => r = 4096 ∧ mmu_pte (km_mem s') ex_pgdir 0 = None ∧ km_freelist s' = 0
  | _ => False
  end.
Proof. vm_compute. done. Qed.
