(* ===== verification/Quiet.v ===== *)
(** Code that never gives up: no panic of the kinds that [wp] allows
    ([exhausted]) and no sleep.  With a [wp] it means that the code returns.
    Locks, the page allocator and page tables are of this kind. *)
From S2P Require Import Prelude Kmonad Wp Kstate Spinlock Sleep Str Kalloc Vm.

(** From a state with [I], a return is to one with [J]. *)
Definition calm {S A} (I J : S → Prop) (m : M S A) : Prop := ∀ s, I s →
  match m s with
  | Ok _ s' => J s'
  | Panic msg _ => exhausted msg = false
  | Blocked _ _ => False
  | _ => True
  end.
Notation quiet := (calm (λ _, True) (λ _, True)).

Lemma calm_total {S A} I J (m : M S A) Q s : calm I J m → I s → wp m Q s → ∃ a s', m s = Ok a s' ∧ Q a s'.
Proof.
  intros Hc Hi. specialize (Hc s Hi). unfold wp. destruct (m s); try done; [eauto|]. congruence.
Qed.

Section Rules.
Context {S : Type}.
Implicit Types (I J K : S → Prop).

Lemma calm_bind {A B} I J K (m : M S A) (k : A → M S B) : calm I J m → (∀ a, calm J K (k a)) → calm I K (m ≫= k).
Proof. intros Hm Hk s Hs. specialize (Hm s Hs). unfold mbind, M_bind. destruct (m s); try done. by apply Hk. Qed.
Lemma calm_ret {A} I (a : A) : calm I I (mret a).
Proof. by intros s Hs. Qed.
Lemma calm_gets {A} I (f : S → A) : calm I I (gets f).
Proof. by intros s Hs. Qed.
Lemma calm_modify I f : (∀ s, I s → I (f s)) → calm I I (modify f).
Proof. intros H s Hs. by apply H. Qed.
Lemma calm_deref {A} I (f : S → option A) : calm I I (deref f).
Proof. intros s Hs. unfold deref. by destruct (f s). Qed.
Lemma calm_panic {A} I msg : exhausted msg = false → calm I I (panic (A := A) msg).
Proof. by intros H s Hs. Qed.
Lemma calm_fault {A} I : calm I I (fault (A := A)).
Proof. by intros s Hs. Qed.
Lemma calm_nofuel {A} I : calm I I (nofuel (A := A)).
Proof. by intros s Hs. Qed.
Lemma calm_spin {A} I l : calm I I (spin (A := A) l).
Proof. by intros s Hs. Qed.
Lemma calm_when I (b : bool) m : calm I I m → calm I I (when b m).
Proof. intros H. destruct b; [exact H|apply calm_ret]. Qed.
Lemma calm_loop {A B} I n (f : A → M S (A + B)) : (∀ x, calm I I (f x)) → ∀ x, calm I I (loop n f x).
Proof.
  intros Hf. induction n as [|n IH]; intros x; cbn [loop]; [apply calm_nofuel|].
  eapply calm_bind; [apply Hf|]. intros [y|y]; [apply IH|apply calm_ret].
Qed.
Lemma calm_each {A} I (l : list A) f : (∀ x, calm I I (f x)) → calm I I (for_each l f).
Proof. intros Hf. induction l as [|x l IH]; cbn; [apply calm_ret|]. eapply calm_bind; [apply Hf|]. by intros []. Qed.
End Rules.

(** Code of a component, where the rest of the state keeps [I]. *)
Lemma calm_zoom {S T A} I (L : lens S T) (m : M T A) : quiet m → (∀ t s, I s → I (lset L t s)) → calm I I (zoom L m).
Proof. intros Hm Hl s Hs. specialize (Hm (lget L s) Logic.I). unfold zoom. destruct (m _); try done. by apply Hl. Qed.

Create HintDb quiet discriminated.
#[export] Hint Constants Opaque : quiet.
(** One rule at a time; the invariant is kept by every step. *)
Ltac calm_step :=
  lazymatch goal with
  | |- calm _ _ (_ ≫= _) => eapply calm_bind; [|intros ?]
  | |- calm _ _ (mret _) => apply calm_ret
  | |- calm _ _ (gets _) => apply calm_gets
  | |- calm _ _ (modify _) => apply calm_modify; intros; solve [done | assumption]
  | |- calm _ _ (deref _) => apply calm_deref
  | |- calm _ _ fault => apply calm_fault
  | |- calm _ _ nofuel => apply calm_nofuel
  | |- calm _ _ (spin _) => apply calm_spin
  | |- calm _ _ (panic _) => apply calm_panic; reflexivity
  | |- calm _ _ (when _ _) => apply calm_when
  | |- calm _ _ (zoom _ _) => apply calm_zoom; [|intros; solve [done | assumption]]
  | |- calm _ _ (loop _ _ _) => apply calm_loop; intros ?; cbv beta
  | |- calm _ _ (for_each _ _) => apply calm_each; intros ?; cbv beta
  | |- calm _ _ (match ?x with _ => _ end) => destruct x
  | |- calm _ _ _ => solve [eauto with quiet nocore]
  end.
Ltac quiet_by := intros; repeat calm_step.

Lemma quiet_modify {S} (f : S → S) : quiet (modify f).
Proof. by apply calm_modify. Qed.
#[export] Hint Resolve quiet_modify calm_gets calm_ret calm_deref : quiet.

(** ** Locks, pages and page tables *)

Lemma quiet_acquire l : quiet (acquire l).
Proof. unfold acquire, pushcli, cli, holding, xchg, set_owner. quiet_by. Qed.
Lemma quiet_release l : quiet (release l).
Proof. unfold release, popcli, sti, holding, xchg, set_owner. quiet_by. Qed.
Lemma quiet_initlock l : quiet (initlock l).
Proof. unfold initlock. quiet_by. Qed.
#[export] Hint Resolve quiet_acquire quiet_release quiet_initlock : quiet.

Lemma quiet_kalloc : quiet kalloc.
Proof. unfold kalloc. quiet_by. Qed.
Lemma quiet_freerange kend a b : quiet (freerange kend a b).
Proof. unfold freerange, kfree. quiet_by. Qed.
#[export] Hint Resolve quiet_kalloc quiet_freerange : quiet.
Lemma quiet_kinit1 kend a b : quiet (kinit1 kend a b).
Proof. unfold kinit1. quiet_by. Qed.
Lemma quiet_kinit2 kend a b : quiet (kinit2 kend a b).
Proof. unfold kinit2. quiet_by. Qed.
#[export] Hint Resolve quiet_kinit1 quiet_kinit2 : quiet.
Lemma quiet_mappages d va n pa perm : quiet (mappages d va n pa perm).
Proof. unfold mappages, mappages_step, walkpgdir, read32, write32, kmemset. quiet_by. Qed.
#[export] Hint Resolve quiet_mappages : quiet.
Lemma quiet_map_kernel d l : quiet (map_kernel d l).
Proof. induction l as [|k l IH]; cbn [map_kernel]; quiet_by. Qed.
#[export] Hint Resolve quiet_map_kernel : quiet.
Lemma quiet_setupkvm kdata : quiet (setupkvm kdata).
Proof. unfold setupkvm, kmemset. quiet_by. Qed.
Lemma quiet_inituvm d init : quiet (inituvm d init).
Proof. unfold inituvm, kmemset, kstore. quiet_by. Qed.
#[export] Hint Resolve quiet_setupkvm quiet_inituvm : quiet.
