(* ===== verification/Image.v ===== *)
(** The memory of a new program: an address space under construction, page by
    page from the free list ([allocuvm]), filled through the kernel's view of
    its pages ([loaduvm], [copyout]), with an inaccessible page ([clearpteu]),
    and given back whole ([freevm]).  exec.c puts these together. *)
From S2P Require Import Prelude Kmonad Wp Kstate Spinlock Str Kalloc Vm VmLaws VmFree VmCopy VmGrow.

Section Image.
Context (kend : Z).
Hypothesis Hkend : KERNBASE < kend.
Notation page := (page kend).
Notation free_pages := (free_pages kend).
Notation uspace := (uspace kend).
Notation mapped_to := (mapped_to kend).
Notation child := (child kend).
Implicit Types (m : mem) (d n : Z) (l u : list Z) (s : kmem) (acc : Z → bool) (c : Z → Z).

(** In [s], the page table [d] maps the user addresses below [n]; [c] has
    their bytes, and user code may touch those of [acc].  All its pages are
    from the list [l0] of a memory [m0], [u] are those of the user, [l] are
    still free, and nothing else has changed since. *)
Record image (k0 : kst) (m0 : mem) (l0 u : list Z) (d n : Z) (acc : Z → bool) (c : Z → Z) (s : kmem) (l : list Z) : Prop := {
  im_child : child (Kmem k0 true 0 m0) l0 u d s l;
  im_space : uspace (km_mem s) d l;
  im_user : ∀ v, user_page (km_mem s) d v ↔ v ∈ u;
  im_sub : ∀ v, v ∈ u → v ∈ l0;
  im_size : n = PGSIZE * Z.of_nat (length u) ∧ n ≤ KERNBASE;
  im_see : ∀ x, 0 ≤ x < n → ∃ e, mmu_pte (km_mem s) d x = Some e ∧ 0 ≤ e < 4294967296 ∧ flag e PTE_U = acc x ∧
    km_mem s (upage e + x mod PGSIZE) = c x;
  im_none : nothing_from (km_mem s) d n
}.

Lemma image_ext k0 m0 l0 u d n acc acc' c c' s l : (∀ x, 0 ≤ x < n → acc' x = acc x ∧ c' x = c x) →
  image k0 m0 l0 u d n acc c s l → image k0 m0 l0 u d n acc' c' s l.
Proof.
  intros He [I1 I2 I3 I4 I5 I6 I7]. split; try done. intros x Hx. destruct (He x Hx) as [-> ->]. by apply I6.
Qed.

(** The rest of the kernel is not part of the image. *)
Lemma image_k k0 m0 l0 u d n acc c s l k : kst_ok k → is_free LKmem k →
  image k0 m0 l0 u d n acc c s l → image k m0 l0 u d n acc c (set_km_k k s) l.
Proof. intros K1 K2 [[C1 C2 C3 C4 C5 C6 C7] I2 I3 I4 I5 I6 I7]. by split; [split|..]. Qed.

(** A new page table. *)
Lemma image_start s0 l0 d s l acc c : child s0 l0 [] d s l → (∀ x, 0 ≤ x < KERNBASE → mmu_pte (km_mem s) d x = None) →
  image (km_k s0) (km_mem s0) l0 [] d 0 acc c s l.
Proof.
  intros C Hno. split; try done.
  - destruct C as [C1 C2 C3 C4 C5 C6 C7]. by split.
  - split; [apply C|intros x e Hx; by rewrite Hno|intros x y e e' Hx _; by rewrite Hno].
  - intros v. split; [|by intros ?%not_elem_of_nil]. intros (x&e&Hx&He&_). by rewrite Hno in He.
  - by intros v ?%not_elem_of_nil.
  - intros x Hx. lia.
Qed.

(** ** One page more *)

Lemma child_take s0 l0 u d s v l s1 : child s0 l0 u d s (v :: l) → km_ready s1 → km_k s1 = km_k s →
  free_pages s1 l → (∀ a, ¬ in_page v a → km_mem s1 a = km_mem s a) → child s0 l0 (v :: u) d s1 l ∧
  (∀ w, pt_page (km_mem s1) d w ↔ pt_page (km_mem s) d w) ∧ (∀ x, mmu_pte (km_mem s1) d x = mmu_pte (km_mem s) d x).
Proof.
  intros [C1 C2 C3 C4 C5 C7 C6] R1 R2 R3 R4. destruct C3 as (_&Hpg&Hnd).
  apply Forall_cons in Hpg as [Hv _]. apply NoDup_cons in Hnd as [Hvl _].
  assert (Hpt : ∀ w a, pt_page (km_mem s) d w → in_page w a → km_mem s1 a = km_mem s a).
  { intros w a Hw Ha. apply R4. destruct (pt_page_page kend _ _ _ _ C4 Hw) as [Hwp Hwl].
    assert (Hne : v ≠ w) by (intros ->; apply Hwl; by left). destruct (page_apart kend v w a Hv Hwp Hne Ha); unfold in_page; lia. }
  assert (Hpp : ∀ w, pt_page (km_mem s1) d w ↔ pt_page (km_mem s) d w).
  { intros w. split; apply same_pde_pt_page; intros j Hj; [|symmetry]; by apply same_pde. }
  split; [|split; [exact Hpp|intros x; by apply same_mmu]]. split; try done.
  - congruence.
  - apply (same_pt kend _ _ _ Hpt (v :: l)); [done| |].
    + intros Hd. apply (pt_dir _ _ _ _ C4). by right.
    + intros i Hi Hp Ht. destruct (pt_tab _ _ _ _ C4 i Hi Hp) as (_&Hn&_). apply Hn. by right.
  - intros w [Hw|Hw]; apply C5; [left; by right|right; by apply Hpp].
  - intros w Hw. rewrite elem_of_cons, Hpp. destruct (C7 w Hw) as [[->|?]%elem_of_cons|[?|?]]; auto.
  - intros a Ha. rewrite R4; [by apply C6|]. apply Ha, C5. left. by left.
Qed.

Lemma user_pte_flags v : page v → 0 ≤ user_pte v < 4294967296 ∧ flag (user_pte v) PTE_U = true.
Proof using Hkend.
  intros Hv. destruct (v2p_facts kend v Hv) as (H1&H2&_). unfold user_pte. split; [lia|].
  unfold flag, nz, PTE_U. apply negb_true_iff, Z.eqb_neq. intros H0.
  assert (Ht : Z.testbit (v2p v + 7) 2 = true).
  { replace (v2p v + 7) with (Z.lor (v2p v) 7) by (rewrite lor_aligned; unfold PGSIZE in *; (done || lia)).
    by rewrite Z.lor_spec, orb_true_r. }
  apply (f_equal (λ z, Z.testbit z 2)) in H0. by rewrite Z.land_spec, Ht in H0.
Qed.

(** The cleared page [v] is mapped behind the last one. *)
Lemma image_mapped k0 m0 l0 u d n acc c s v l s2 s' l' : image k0 m0 l0 u d n acc c s (v :: l) → n < KERNBASE →
  child (Kmem k0 true 0 m0) l0 (v :: u) d s2 l → (∀ x, mmu_pte (km_mem s2) d x = mmu_pte (km_mem s) d x) →
  (∀ b, ¬ in_page v b → km_mem s2 b = km_mem s b) → (∀ k, 0 ≤ k < PGSIZE → km_mem s2 (v + k) = 0) →
  uspace (km_mem s2) d l → ¬ pt_page (km_mem s2) d v → ¬ user_page (km_mem s2) d v →
  (∀ x, n ≤ x < n + PGSIZE → acc x = true ∧ c x = 0) →
  mapped_to s2 l d n (v2p v) (Z.lor PTE_W PTE_U) 1 s' l' → image k0 m0 l0 (v :: u) d (n + PGSIZE) acc c s' l'.
Proof.
  intros [I1 I2 I3 I4 [I5 I5'] I6 I7] Hn C Hmm Hout Hz Hu Hvp Hvu Hnew Hm.
  pose proof (ch_free _ _ _ _ _ _ _ I1) as (_&Hpg&Hnd). apply Forall_cons in Hpg as [Hv _]. apply NoDup_cons in Hnd as [Hvl _].
  destruct (user_pte_page kend 0 Hkend v Hv) as [Ev _].
  assert (Hal : n mod PGSIZE = 0) by (rewrite I5, Z.mul_comm; by apply Z.mod_mul).
  assert (H1 := λ x Hx, one_mapped kend s2 l d n v 1 s' l' x Hal (or_intror eq_refl) Hx Hm).
  assert (Hfr : ∀ w k, page w → w ∉ l → ¬ pt_page (km_mem s2) d w → 0 ≤ k < PGSIZE → km_mem s' (w + k) = km_mem s2 (w + k)).
  { intros w k Hw G1 G2 Hk. apply (mt_frame _ _ _ _ _ _ _ _ _ _ Hm). rewrite area_pages. intros (t&Ht&Hin).
    assert (Htp : page t) by exact (area_page kend s2 l d t (ch_free _ _ _ _ _ _ _ C) (us_pt _ _ _ _ Hu) Ht).
    assert (Hne : w ≠ t) by (intros ->; by destruct Ht). destruct (page_apart kend w t _ Hw Htp Hne Hin); lia. }
  assert (Hr : ∀ x, 0 ≤ x < KERNBASE → mmu_pte (km_mem s') d x =
    if (n <=? x) && (x <? n + PGSIZE) then Some (user_pte v) else mmu_pte (km_mem s) d x).
  { intros x Hx. rewrite H1 by done. rewrite Z.mul_1_l. by rewrite Hmm. }
  split.
  - by eapply child_mapped.
  - eapply (uspace_mapped kend 0); try done; [apply C|by right].
  - intros w. rewrite elem_of_cons, <- I3. split.
    + intros (x&e&Hx&He&->). rewrite Hr in He by done. destruct ((n <=? x) && _); [injection He as <-; by left|].
      right. by exists x, e.
    + intros [->|(x&e&Hx&He&->)]; [exists n, (user_pte v)|exists x, e]; (split; [unfold PGSIZE in *; lia|]); rewrite Hr by (unfold PGSIZE in *; lia).
      * rewrite (proj2 (Z.leb_le _ _)), (proj2 (Z.ltb_lt _ _)) by (unfold PGSIZE; lia). done.
      * destruct (Z.leb_spec n x); [|done]. rewrite I7 in He by lia. done.
  - intros w [->|Hw]%elem_of_cons; [|by apply I4]. apply (ch_from _ _ _ _ _ _ _ I1). left. by left.
  - cbn [length]. unfold KERNBASE, PGSIZE in *. lia.
  - intros x Hx. rewrite Hr by (unfold KERNBASE, PGSIZE in *; lia). destruct (Z.leb_spec n x), (Z.ltb_spec x (n + PGSIZE)); cbn [andb]; try lia.
    + exists (user_pte v). split; [done|]. destruct (Hnew x) as [-> ->]; [lia|]. rewrite Ev. destruct (user_pte_flags v Hv). split_and!; try done; try lia.
      * rewrite Hfr, Hz; (done || apply Z.mod_pos_bound; done).
    + destruct (I6 x) as (e&E1&E2&E3&E4); [lia|]. exists e. split_and!; try done; try apply E2. rewrite <- E4.
      assert (Hx' : 0 ≤ x < KERNBASE) by lia. destruct (us_page _ _ _ _ I2 x e Hx' E1) as (_&P1&P2&_).
      assert (Hk : 0 ≤ x mod PGSIZE < PGSIZE) by by apply Z.mod_pos_bound.
      assert (Hne : v ≠ upage e) by (intros ->; apply P2; by left).
      rewrite Hfr, Hout; try done.
      * destruct (page_apart kend v _ _ Hv P1 Hne (page_off _ _ Hk)); unfold in_page; lia.
      * intros ?; apply P2; by right.
      * rewrite <- Hmm in E1. by apply (user_not_pt kend _ _ _ _ _ Hu Hx' E1).
  - intros x Hx. rewrite Hr by (unfold PGSIZE in *; lia). destruct (Z.ltb_spec x (n + PGSIZE)); [lia|].
    rewrite andb_false_r. apply I7. unfold PGSIZE in *. lia.
Qed.

(** A page is taken and cleared, and mapped unless no page is left for a
    table. *)
Lemma image_take k0 m0 l0 u d n acc c s v l : image k0 m0 l0 u d n acc c s (v :: l) → n < KERNBASE →
  (∀ x, n ≤ x < n + PGSIZE → acc x = true ∧ c x = 0) →
  v ≠ 0 ∧ ∃ s1, kalloc s = Ok v s1 ∧
  wp (mappages d n PGSIZE (v2p v) (Z.lor PTE_W PTE_U)) (λ r s',
    (r = 0 ∧ (∀ x, KERNBASE ≤ x < 4294967296 → mmu_pte (km_mem s') d x = mmu_pte (km_mem s) d x) ∧
       ∃ l', image k0 m0 l0 (v :: u) d (n + PGSIZE) acc c s' l') ∨
    (child (Kmem k0 true 0 m0) l0 (v :: u) d s' [] ∧
       ∀ i, 0 ≤ i < 1024 → present (km_mem s') d i = true → present (km_mem s) d i = true))
    (set_km_mem (memset (km_mem s1) v 0 PGSIZE) s1).
Proof using Hkend.
  intros I Hn Hnew. pose proof I as [I1 I2 I3 I4 [I5 I5'] I6 I7].
  destruct (take_page kend s l v (ch_ready _ _ _ _ _ _ _ I1) (ch_free _ _ _ _ _ _ _ I1)) as (s1&E&R1&R2&R3&Hv&Hvl&Hz&_&_&Hfm).
  split; [done|]. exists s1. split; [exact E|]. rewrite R3. set (s2 := set_km_mem _ s1).
  assert (Hm2 : ∀ b, km_mem s2 b = filled (km_mem s) v 0 PGSIZE b) by (intros b; by apply memset_filled).
  assert (Hout : ∀ b, ¬ in_page v b → km_mem s2 b = km_mem s b).
  { intros b Hb. rewrite Hm2. unfold filled, in_page in *. bdestr; cbn; try done; lia. }
  assert (Hzero : ∀ k, 0 ≤ k < PGSIZE → km_mem s2 (v + k) = 0).
  { intros k Hk'. rewrite Hm2. unfold filled. by rewrite (proj2 (Z.leb_le _ _)), (proj2 (Z.ltb_lt _ _)) by lia. }
  destruct (child_take _ _ _ _ _ _ _ s2 I1 R1 R2 (Hfm _ Hout) Hout) as (C&Hpp&Hmm).
  assert (Hfp : ¬ pt_page (km_mem s2) d v).
  { rewrite Hpp. intros Hw. destruct (pt_page_page kend _ _ _ _ (us_pt _ _ _ _ I2) Hw) as [_ Hc]. apply Hc. by left. }
  assert (Hfu : ¬ user_page (km_mem s2) d v).
  { intros (x&e&Hx&He&Ev). rewrite Hmm in He. destruct (us_page _ _ _ _ I2 x e Hx He) as (_&_&Hc&_). apply Hc. rewrite <- Ev. by left. }
  assert (Hsame : ∀ w a, pt_page (km_mem s) d w → in_page w a → km_mem s2 a = km_mem s a).
  { intros w a Hw Ha. apply Hout. destruct (pt_page_page kend _ _ _ _ (us_pt _ _ _ _ I2) Hw) as [Hwp Hwl].
    assert (Hne : v ≠ w) by (intros ->; apply Hwl; by left). destruct (page_apart kend v w a Hv Hwp Hne Ha); unfold in_page; lia. }
  assert (Hu : uspace (km_mem s2) d l) by (eapply (uspace_same kend); [exact Hsame|intros w ?; by right|exact I2]).
  assert (Hal : n mod PGSIZE = 0) by (rewrite I5, Z.mul_comm; by apply Z.mod_mul).
  assert (En : npages n PGSIZE = 1) by (unfold npages, PGSIZE in *; clear -Hal; Z.div_mod_to_equations; lia).
  destruct (v2p_facts kend v Hv) as (V1&V2&V3).
  eapply mappages_wp; rewrite ?En; [exact R1|apply C|apply C|unfold PGSIZE in *; lia|done|unfold KERNBASE, PGSIZE in *; lia|done|lia
    |unfold PGSIZE; lia|done| | |].
  - intros x Hx Hr'. rewrite Hmm. apply I7. unfold KERNBASE, PGSIZE in *. clear -Hr' Hx Hal Hn. Z.div_mod_to_equations. lia.
  - intros s' l' Hm. left. split; [done|]. split; [|exists l'; by eapply image_mapped].
    intros x Hx. rewrite (mt_maps _ _ _ _ _ _ _ _ _ _ Hm), Hmm by (unfold KERNBASE in Hx; lia). cbn zeta.
    rewrite (proj2 (Z.ltb_ge _ 1)), andb_false_r; [done|]. unfold KERNBASE, PGSIZE in *. clear -Hx Hn Hal. Z.div_mod_to_equations. lia.
  - intros s' j Hj Hm. right. split; [by eapply child_mapped|]. intros i Hi Hp.
    destruct (mt_pde _ _ _ _ _ _ _ _ _ _ Hm i Hi Hp) as [Hp'|?]; [|lia]. by rewrite (same_present _ _ _ Hsame) in Hp'.
Qed.

Lemma image_step k0 m0 l0 u d n acc c s l oldsz newsz (Q : Z + Z → kmem → Prop) : image k0 m0 l0 u d n acc c s l → n < newsz →
  newsz ≤ KERNBASE → NoDup l0 → (1027 + length u ≤ length l0)%nat → (∀ x, n ≤ x < n + PGSIZE → acc x = true ∧ c x = 0) →
  (∀ v s' l', image k0 m0 l0 (v :: u) d (n + PGSIZE) acc c s' l' → Q (inl (n + PGSIZE)) s') →
  wp (allocuvm_step kend d oldsz newsz n) Q s.
Proof using Hkend.
  intros I Hn Hk Hnd Hroom Hnew HQ. pose proof (im_child _ _ _ _ _ _ _ _ _ _ I) as C.
  pose proof (im_size _ _ _ _ _ _ _ _ _ _ I) as [Hs _].
  unfold allocuvm_step. rewrite (proj2 (Z.ltb_lt _ _)) by lia. apply wp_bind.
  destruct l as [|v l]; [pose proof (child_count kend _ _ _ _ _ Hnd C); lia|].
  destruct (image_take _ _ _ _ _ _ _ _ _ _ _ I ltac:(lia) Hnew) as (Hz&s1&E&Hw).
  eapply wp_run; [exact E|]. rewrite (proj2 (Z.eqb_neq v 0)) by done. apply wp_bind, wp_modify, wp_bind.
  eapply wp_mono; [exact Hw|]. intros r s' [(_&_&l'&I')|[C' _]].
  - rewrite u32_small by (unfold KERNBASE, PGSIZE in *; lia). by apply wp_ret, (HQ v s' l').
  - pose proof (child_count kend _ _ _ _ _ Hnd C') as Hc. cbn [length] in Hc. lia.
Qed.

(** [allocuvm] with enough free pages. *)
Lemma image_alloc k0 m0 l0 u d n acc c s l oldsz newsz : image k0 m0 l0 u d n acc c s l → 0 ≤ oldsz ≤ newsz → n = PGROUNDUP oldsz →
  newsz < KERNBASE → NoDup l0 → 1026 + PGROUNDUP newsz / PGSIZE ≤ Z.of_nat (length l0) →
  (∀ x, n ≤ x → acc x = true ∧ c x = 0) →
  wp (allocuvm kend d oldsz newsz) (λ r s', r = newsz ∧ ∃ u' l', image k0 m0 l0 u' d (PGROUNDUP newsz) acc c s' l') s.
Proof using Hkend.
  intros I Hsz -> Hnew Hnd Hroom Hz. destruct (a0_facts oldsz newsz Hsz Hnew) as (A1&A2&A3&A4&A5&A6).
  unfold allocuvm. rewrite (proj2 (Z.leb_gt _ _)), (proj2 (Z.ltb_ge _ _)) by lia.
  eapply (wp_loop _ (λ a s, PGROUNDUP oldsz ≤ a ≤ PGROUNDUP newsz ∧ ∃ u' l', image k0 m0 l0 u' d a acc c s l') _
    (λ a, Z.to_nat ((PGROUNDUP newsz - a) / PGSIZE))).
  - intros a s1 (Ha&u'&l'&I'). pose proof (im_size _ _ _ _ _ _ _ _ _ _ I') as [Hs _].
    assert (Hal : a mod PGSIZE = 0) by (rewrite Hs, Z.mul_comm; by apply Z.mod_mul).
    destruct (decide (a < newsz)) as [Hlt|Hge].
    + assert (Hb : a + PGSIZE ≤ PGROUNDUP newsz ∧
        (Z.to_nat ((PGROUNDUP newsz - (a + PGSIZE)) / PGSIZE) < Z.to_nat ((PGROUNDUP newsz - a) / PGSIZE))%nat).
      { unfold PGSIZE in *. clear -Hal Hlt A4 A6. Z.div_mod_to_equations. lia. }
      eapply image_step; [exact I'|done|lia|done| |intros x Hx; apply Hz; lia|].
      { assert (Z.of_nat (length u') + 1 ≤ PGROUNDUP newsz / PGSIZE); [|lia]. apply Z.div_le_lower_bound; unfold PGSIZE in *; lia. }
      intros v s' l2 I2. split; [|apply Hb]. split; [unfold PGSIZE in *; lia|]. by exists (v :: u'), l2.
    + unfold allocuvm_step. rewrite (proj2 (Z.ltb_ge _ _)) by lia. apply wp_ret. split; [done|].
      assert (a = PGROUNDUP newsz) as ->. { unfold PGSIZE in *. clear -Hal Hge A4 A6 Ha. Z.div_mod_to_equations. lia. }
      by exists u', l'.
  - split; [lia|]. by exists u, l.
  - assert (Hm : (PGROUNDUP newsz - PGROUNDUP oldsz) / PGSIZE ≤ newsz / PGSIZE + 1).
    { unfold PGSIZE in *. clear -A1 A2 A4 Hsz. Z.div_mod_to_equations. lia. }
    lia.
Qed.

(** ** Writing to a page of the image *)

(** The bytes [bs] written over [c] from [va] on. *)
Definition over (va : Z) (bs : list Z) c : Z → Z := λ y,
  if (va <=? y) && (y <? va + Z.of_nat (length bs)) then nth (Z.to_nat (y - va)) bs 0 else c y.

Lemma mmu_page m d x y : 0 ≤ x < 4294967296 → 0 ≤ y < 4294967296 → x / PGSIZE = y / PGSIZE → mmu_pte m d x = mmu_pte m d y.
Proof. intros Hx Hy E. destruct (page_index x y Hx Hy E) as [E1 E2]. by rewrite !mmu_pte_eq, E1, E2. Qed.

(** A change inside one page of the user. *)
Lemma image_page k0 m0 l0 u d n acc c s l v m' : image k0 m0 l0 u d n acc c s l → v ∈ u → page v → v ∉ l → ¬ pt_page (km_mem s) d v →
  (∀ b, ¬ in_page v b → m' b = km_mem s b) →
  let s' := set_km_mem m' s in
  child (Kmem k0 true 0 m0) l0 u d s' l ∧ uspace m' d l ∧ (∀ x, mmu_pte m' d x = mmu_pte (km_mem s) d x).
Proof.
  intros [[C1 C2 C3 C4 C5 C7 C6] I2 I3 I4 _ _ _] Hvu Hv Hvl Hvp Hout s'.
  assert (Hpt : ∀ w a, pt_page (km_mem s) d w → in_page w a → m' a = km_mem s a).
  { intros w a Hw Ha. apply Hout. destruct (pt_page_page kend _ _ _ _ C4 Hw) as [Hwp Hwl].
    assert (Hne : v ≠ w) by (intros ->; done). destruct (page_apart kend v w a Hv Hwp Hne Ha); unfold in_page; lia. }
  assert (Hpp : ∀ w, pt_page m' d w ↔ pt_page (km_mem s) d w).
  { intros w. split; apply same_pde_pt_page; intros j Hj; [|symmetry]; by apply same_pde. }
  assert (Hu : uspace m' d l) by (eapply (uspace_same kend); [exact Hpt|done|exact I2]).
  split; [|split; [exact Hu|intros x; by apply same_mmu]]. split; cbn; try done.
  - destruct C3 as (F1&F2&F3). split_and!; try done. cbn. eapply (chain_ext kend (km_mem s) m' _ _ v); try done.
    intros a Ha. apply Hout. unfold in_page. lia.
  - apply Hu.
  - intros w. rewrite Hpp. apply C5.
  - intros w. rewrite Hpp. apply C7.
  - intros a Ha. rewrite Hout; [by apply C6|]. by apply Ha, I4.
Qed.

Lemma image_poke k0 m0 l0 u d n acc c s l a e off bs : image k0 m0 l0 u d n acc c s l → 0 ≤ a < n → a mod PGSIZE = 0 →
  mmu_pte (km_mem s) d a = Some e → 0 ≤ off → off + Z.of_nat (length bs) ≤ PGSIZE →
  wp (kstore (upage e + off) bs) (λ _ s', image k0 m0 l0 u d n acc (over (a + off) bs c) s' l ∧
    ∀ x, mmu_pte (km_mem s') d x = mmu_pte (km_mem s) d x) s.
Proof.
  intros I Ha Hal He Hoff Hlen. pose proof I as [_ I2 I3 I4 [I5 I5'] I6 I7].
  destruct (us_page _ _ _ _ I2 a e ltac:(lia) He) as (_&Hv&Hvl&_).
  assert (Hvp := user_not_pt kend _ _ _ a e I2 ltac:(lia) He).
  assert (Hvu : upage e ∈ u) by (apply I3; exists a, e; split; [lia|done]). apply wp_modify.
  set (m' := λ b, if (upage e + off <=? b) && (b <? upage e + off + Z.of_nat (length bs)) then _ else _). cbn beta in m'.
  assert (Hout : ∀ b, ¬ in_page (upage e) b → m' b = km_mem s b).
  { intros b Hb. unfold m', in_page in *. bdestr; cbn; try done; lia. }
  destruct (image_page _ _ _ _ _ _ _ _ _ _ _ m' I Hvu Hv Hvl Hvp Hout) as (C&Hu&Hmm). split; [|exact Hmm]. split; try done; cbn [km_mem set_km_mem].
  - intros w. rewrite <- I3. unfold user_page. split; intros (x&e'&Hx&He'&->); exists x, e'; rewrite Hmm in *; done.
  - intros y Hy. destruct (I6 y Hy) as (e'&E1&E2&E3&E4). exists e'. rewrite Hmm. split_and!; try done; try apply E2.
    assert (Hm : 0 ≤ y mod PGSIZE < PGSIZE) by by apply Z.mod_pos_bound. unfold m', over.
    destruct (decide (y / PGSIZE = a / PGSIZE)) as [Hp|Hp].
    + rewrite (mmu_page _ _ y a) in E1 by (unfold KERNBASE in *; (done || lia)). rewrite He in E1. injection E1 as <-.
      assert (Ey : y = a + y mod PGSIZE) by (unfold PGSIZE in *; clear -Hp Hal; Z.div_mod_to_equations; lia).
      rewrite E4. replace (y - (a + off)) with (upage e + y mod PGSIZE - (upage e + off)) by lia. bdestr; cbn; (done || lia).
    + assert (Hne : upage e' ≠ upage e) by (intros Eu; apply Hp; eapply (us_inj _ _ _ _ I2); [| |exact E1|exact He|done]; lia).
      destruct (us_page _ _ _ _ I2 y e' ltac:(lia) E1) as (_&Hw&_). rewrite E4.
      assert (Hfar : ¬ (a + off ≤ y < a + off + Z.of_nat (length bs))).
      { intros Hr. apply Hp. unfold PGSIZE in *. clear -Hr Hal Hoff Hlen. Z.div_mod_to_equations. lia. }
      destruct (page_apart kend _ _ _ Hv Hw (not_eq_sym Hne) (page_off _ _ Hm)); bdestr; cbn; (done || lia).
  - intros x Hx. rewrite Hmm. by apply I7.
Qed.

Lemma over_app va b1 b2 c y : over va (b1 ++ b2) c y = over (va + Z.of_nat (length b1)) b2 (over va b1 c) y.
Proof.
  unfold over. rewrite length_app, Nat2Z.inj_add.
  destruct (Z.leb_spec va y), (Z.ltb_spec y (va + (Z.of_nat (length b1) + Z.of_nat (length b2)))),
    (Z.leb_spec (va + Z.of_nat (length b1)) y), (Z.ltb_spec y (va + Z.of_nat (length b1) + Z.of_nat (length b2))),
    (Z.ltb_spec y (va + Z.of_nat (length b1))); cbn [andb]; try lia; try done.
  - rewrite app_nth2 by lia. f_equal. lia.
  - rewrite app_nth1 by lia. done.
Qed.

Lemma uva2ka_run k0 m0 l0 u d n acc c s l a : image k0 m0 l0 u d n acc c s l → 0 ≤ a < n →
  ∃ e, mmu_pte (km_mem s) d a = Some e ∧ uva2ka d a s = Ok (if acc a then upage e else 0) s ∧ upage e ≠ 0.
Proof.
  intros I Ha. destruct (im_see _ _ _ _ _ _ _ _ _ _ I a Ha) as (e&E1&E2&E3&_). exists e. split; [done|].
  pose proof (im_size _ _ _ _ _ _ _ _ _ _ I) as [_ Hn]. pose proof (im_space _ _ _ _ _ _ _ _ _ _ I) as Hu.
  destruct (us_page _ _ _ _ Hu a e ltac:(lia) E1) as (_&Hp&_). split; [|by apply (page_aligned kend)].
  destruct (mmu_some _ _ _ _ E1) as (Hpr&Hl&Hf). unfold uva2ka. erewrite bind_run by apply walk_run. rewrite Hpr.
  rewrite (proj2 (Z.eqb_neq _ 0)) by (eapply (tab_slot kend); [apply Hu|apply PDX_range|done|apply PTX_range]).
  erewrite bind_run by reflexivity. rewrite Hl, Hf, E3. by destruct (acc a).
Qed.

Lemma image_acc k0 m0 l0 u d n acc c s l x y : image k0 m0 l0 u d n acc c s l → 0 ≤ x < n → 0 ≤ y < n → x / PGSIZE = y / PGSIZE → acc x = acc y.
Proof.
  intros I Hx Hy E. pose proof (im_size _ _ _ _ _ _ _ _ _ _ I) as [_ Hn]. unfold KERNBASE in Hn.
  destruct (im_see _ _ _ _ _ _ _ _ _ _ I x Hx) as (e&E1&_&<-&_), (im_see _ _ _ _ _ _ _ _ _ _ I y Hy) as (e'&E1'&_&<-&_).
  rewrite (mmu_page _ _ x y) in E1 by (done || lia). congruence.
Qed.

(** Copying to the image succeeds exactly where user code may write. *)
Lemma image_copyout k0 m0 l0 u d n acc c s l va bs : image k0 m0 l0 u d n acc c s l → 0 ≤ va → va + Z.of_nat (length bs) ≤ n →
  wp (copyout d va bs) (λ r s',
    (r = 0 ∧ (∀ x, va ≤ x < va + Z.of_nat (length bs) → acc x = true) ∧ image k0 m0 l0 u d n acc (over va bs c) s' l) ∨
    (r = -1 ∧ (∃ x, va ≤ x < va + Z.of_nat (length bs) ∧ acc x = false) ∧ ∃ c', image k0 m0 l0 u d n acc c' s' l)) s.
Proof.
  intros I Hva Hend. unfold copyout. pose proof (im_size _ _ _ _ _ _ _ _ _ _ I) as [_ Hn]. unfold KERNBASE in Hn.
  eapply (wp_loop _ (λ st s1, ∃ k, (k ≤ length bs)%nat ∧ st.1 = drop k bs ∧ ((k < length bs)%nat → st.2 = va + Z.of_nat k) ∧
      (∀ x, va ≤ x < va + Z.of_nat k → acc x = true) ∧ image k0 m0 l0 u d n acc (over va (take k bs) c) s1 l) _ (λ st, length st.1)).
  - intros [bs1 va1] s1 (k&Hk&Hb&Hv&Hacc&I1). cbn [fst snd] in *. subst bs1. unfold copyout_step. rewrite length_drop.
    destruct (Z.ltb_spec 0 (Z.of_nat (length bs - k))) as [Hpos|Hz].
    2:{ apply wp_ret. left. replace k with (length bs) in * by lia. rewrite take_ge in I1 by lia. done. }
    rewrite Hv by lia. set (a := PGROUNDDOWN (va + Z.of_nat k)).
    assert (Ha : a mod PGSIZE = 0 ∧ a ≤ va + Z.of_nat k < a + PGSIZE ∧ 0 ≤ a).
    { unfold a. rewrite PGROUNDDOWN_div. unfold PGSIZE. clear -Hva. Z.div_mod_to_equations. lia. }
    destruct Ha as (Hal&Ha&Ha0). destruct (uva2ka_run _ _ _ _ _ _ _ _ _ _ a I1 ltac:(lia)) as (e&He&Er&Hez).
    apply wp_bind. eapply wp_run; [exact Er|].
    assert (Hsame : ∀ x, va + Z.of_nat k ≤ x < a + PGSIZE → x < n → acc x = acc a).
    { intros x Hx Hxn. eapply (image_acc _ _ _ _ _ _ _ _ _ _ x a I1); [lia|lia|]. unfold PGSIZE in *. clear -Hx Hal Ha. Z.div_mod_to_equations. lia. }
    destruct (acc a) eqn:Eacc.
    2:{ cbn [Z.eqb]. apply wp_ret. right. split; [done|]. split; [|by eexists].
        exists (va + Z.of_nat k). split; [lia|]. apply Hsame; lia. }
    rewrite (proj2 (Z.eqb_neq _ 0)) by done. set (j := Z.min _ _).
    assert (Hj : 0 < j ∧ j ≤ Z.of_nat (length bs - k) ∧ va + Z.of_nat k + j ≤ a + PGSIZE ∧ (j = Z.of_nat (length bs - k) ∨ va + Z.of_nat k + j = a + PGSIZE)).
    { unfold j, PGSIZE in *. lia. }
    assert (Hlj : length (take (Z.to_nat j) (drop k bs)) = Z.to_nat j) by (rewrite length_take, length_drop; lia).
    apply wp_bind. eapply wp_mono; [eapply image_poke; [exact I1|split; [exact Ha0|lia]|exact Hal|exact He|lia|rewrite Hlj; lia]|].
    intros [] s2 [I2 _]. apply wp_ret. cbn [fst snd]. split.
    + exists (k + Z.to_nat j)%nat. split; [lia|]. rewrite drop_drop. split; [done|]. split.
      { intros Hlt. rewrite u32_small by (unfold PGSIZE in *; lia). lia. }
      split.
      * intros x Hx. destruct (decide (x < va + Z.of_nat k)) as [|Hge]; [apply Hacc; lia|]. apply Hsame; lia.
      * eapply image_ext; [|exact I2]. intros x Hx. split; [done|]. rewrite <- take_take_drop, over_app, length_take, Nat.min_l by lia.
        by replace (a + (va + Z.of_nat k - a)) with (va + Z.of_nat k) by lia.
    + rewrite !length_drop. lia.
  - exists 0%nat. cbn [fst snd]. split_and!; [lia|done|intros _; lia|intros x Hx; exfalso; lia|]. eapply image_ext; [|exact I]. intros x Hx. split; [done|].
    unfold over. rewrite take_0. cbn [length]. bdestr; cbn; (done || lia).
  - cbn [fst]. lia.
Qed.

(** ** The inaccessible page *)

Lemma clear_U e : 0 ≤ e < 4294967296 → let e' := Z.land e (Z.lnot PTE_U) in
  0 ≤ e' < 4294967296 ∧ PTE_ADDR e' = PTE_ADDR e ∧ flag e' PTE_P = flag e PTE_P ∧ flag e' PTE_U = false.
Proof.
  intros He e'. assert (Hr : 0 ≤ e' < 4294967296).
  { assert (Hle : 0 ≤ e' ≤ e); [|lia]. apply Z.ldiff_le; [lia|]. unfold e'. rewrite Z.ldiff_land, (Z.land_comm e), <- Z.land_assoc.
    by rewrite Z.land_lnot_diag, Z.land_0_r. }
  split; [done|]. unfold PTE_ADDR, flag. rewrite !u32_small by done. unfold e'. rewrite <- !Z.land_assoc. split_and!; try done.
  by rewrite Z.land_0_r.
Qed.

Lemma image_guard k0 m0 l0 u d n acc c s l a : image k0 m0 l0 u d n acc c s l → 0 ≤ a < n →
  wp (clearpteu d a) (λ _ s', image k0 m0 l0 u d n (λ y, acc y && negb (y / PGSIZE =? a / PGSIZE)) c s' l) s.
Proof.
  intros I Ha. pose proof I as [[C1 C2 C3 C4 C5 C7 C6] I2 I3 I4 [I5 I5'] I6 I7]. unfold KERNBASE in I5'.
  destruct (I6 a Ha) as (e&E1&E2&_&_). destruct (mmu_some _ _ _ _ E1) as (Hpr&Hl&Hf).
  unfold clearpteu. apply wp_bind. eapply wp_run; [apply walk_run|]. rewrite Hpr.
  rewrite (proj2 (Z.eqb_neq _ 0)) by (eapply (tab_slot kend); [apply I2|apply PDX_range|done|apply PTX_range]).
  apply wp_bind, wp_gets, wp_modify. rewrite Hl. destruct (clear_U e E2) as (U1&U2&U3&U4). set (e' := Z.land e (Z.lnot PTE_U)) in *.
  destruct (write_pte kend _ d l a e' C4 Hpr ltac:(lia) U1) as (W1&W2&W3). rewrite U3, Hf in W3.
  destruct (pt_tab _ _ _ _ C4 _ (PDX_range a) Hpr) as (T1&T2&_). set (t := tab (km_mem s) d (PDX a)) in *.
  assert (Hupa : upage e' = upage e) by (unfold upage; by rewrite U2). set (m' := store32 _ _ e') in *.
  assert (Hout : ∀ b, ¬ in_page t b → m' b = km_mem s b).
  { intros b Hb. unfold m', store32. pose proof (PTX_range a). unfold in_page, PGSIZE in Hb. by rewrite !upd_ne by lia. }
  assert (Htp : pt_page (km_mem s) d t) by (right; exists (PDX a); split; [apply PDX_range|done]).
  assert (Hpp : ∀ w, pt_page m' d w ↔ pt_page (km_mem s) d w).
  { intros w. split; apply same_pde_pt_page; intros j Hj; [|symmetry]; by apply W2. }
  assert (Hold : ∀ x e1, 0 ≤ x < KERNBASE → mmu_pte m' d x = Some e1 → ∃ e2, mmu_pte (km_mem s) d x = Some e2 ∧ upage e1 = upage e2 ∧
    PTE_ADDR e1 = PTE_ADDR e2).
  { intros x e1 Hx. unfold KERNBASE in Hx. rewrite W3 by lia. destruct (Z.eqb_spec (x / PGSIZE) (a / PGSIZE)) as [Ep|_].
    - intros [= <-]. exists e. by rewrite (mmu_page _ _ x a) by (done || lia).
    - intros He1. by exists e1. }
  split; cbn [km_mem set_km_mem km_k]; try done.
  - split; cbn; try done.
    + destruct C3 as (F1&F2&F3). split_and!; try done. cbn. eapply (chain_ext kend (km_mem s) m' _ _ t); try done.
      intros b Hb. apply Hout. unfold in_page. lia.
    + intros w. rewrite Hpp. apply C5.
    + intros w. rewrite Hpp. apply C7.
    + intros b Hb. rewrite Hout; [by apply C6|]. apply Hb, C5. by right.
  - split; [done| |].
    + intros x e1 Hx He1. destruct (Hold x e1 Hx He1) as (e2&He2&->&->). destruct (us_page _ _ _ _ I2 x e2 Hx He2) as (P1&P2&P3&P4&P5).
      split_and!; try done. intros i Hi Hp. unfold present, tab in *. rewrite W2 in * by done. by apply P5.
    + intros x y e1 e2 Hx Hy He1 He2 Eu. destruct (Hold x e1 Hx He1) as (f1&G1&G2&_), (Hold y e2 Hy He2) as (f2&G3&G4&_).
      eapply (us_inj _ _ _ _ I2 x y f1 f2); try done. congruence.
  - intros w. rewrite <- I3. split.
    + intros (x&e1&Hx&He1&->). destruct (Hold x e1 Hx He1) as (e2&He2&->&_). by exists x, e2.
    + intros (x&e2&Hx&He2&->). unfold KERNBASE in Hx. exists x. rewrite W3 by lia. destruct (Z.eqb_spec (x / PGSIZE) (a / PGSIZE)) as [Ep|_].
      * exists e'. rewrite (mmu_page _ _ x a) in He2 by (done || lia). split_and!; try done; [lia| |]; try (unfold KERNBASE; lia). congruence.
      * by exists e2.
  - intros y Hy. destruct (I6 y Hy) as (e1&G1&G2&G3&G4). rewrite W3 by lia.
    assert (Hk : 0 ≤ y mod PGSIZE < PGSIZE) by by apply Z.mod_pos_bound.
    destruct (us_page _ _ _ _ I2 y e1 ltac:(unfold KERNBASE; lia) G1) as (_&Hw&_&_&Hne).
    assert (Hb : m' (upage e1 + y mod PGSIZE) = c y).
    { rewrite Hout; [done|]. assert (Hn1 : t ≠ upage e1) by (apply Hne; [apply PDX_range|done]).
      destruct (page_apart kend _ _ _ T1 Hw Hn1 (page_off _ _ Hk)); unfold in_page; lia. }
    destruct (Z.eqb_spec (y / PGSIZE) (a / PGSIZE)) as [Ep|_]; cbn [negb].
    + rewrite (mmu_page _ _ y a), E1 in G1 by (done || lia). injection G1 as <-. exists e'. rewrite Hupa, andb_false_r. split_and!; try done; lia.
    + exists e1. rewrite andb_true_r. split_and!; try done; lia.
  - intros x Hx. pose proof Hx as Hx'. unfold KERNBASE in Hx'. rewrite W3 by lia. destruct (Z.eqb_spec (x / PGSIZE) (a / PGSIZE)) as [Ep|_]; [|by apply I7].
    exfalso. rewrite I5 in *. unfold PGSIZE in *. clear -Ep Hx' Ha. Z.div_mod_to_equations. lia.
Qed.

(** ** Giving the image back *)
Lemma image_free k0 m0 l0 u d n acc c s l (Q : unit → kmem → Prop) : image k0 m0 l0 u d n acc c s l →
  (∀ s' l', km_ready s' → km_k s' = km_k s → free_pages s' l' → (∀ v, v ∈ l' ↔ v ∈ l0) →
     (∀ b, (∀ v, v ∈ l0 → ¬ in_page v b) → km_mem s' b = m0 b) → Q tt s') →
  wp (freevm kend d) Q s.
Proof.
  intros [[C1 C2 C3 C4 C5 C7 C6] I2 I3 I4 _ _ _] HQ. eapply wp_mono; [by apply (freevm_wp kend s l d)|].
  intros [] s' (R1&R2&(l'&R3&R4)&R5). apply (HQ s' l'); try done.
  - intros v. rewrite R4, I3. split; [intros [?|[?|?]]; auto|]. intros Hv. destruct (C7 v Hv) as [?|[?|?]]; auto.
  - intros b Hb. rewrite R5; [by apply C6|]. intros v Hv. apply Hb. destruct Hv as [Hv|Hv%I3]; auto.
Qed.

(** ** The finished image *)

(** What the program sees: the bytes [c] below [n], where [acc] allows. *)
Definition user_mem m d n acc c : Prop :=
  (∀ x, 0 ≤ x < n → ∃ e, mmu_pte m d x = Some e ∧ flag e PTE_U = acc x ∧ m (upage e + x mod PGSIZE) = c x) ∧
  nothing_from m d n.

(** The pages of an image are from [l0]. *)
Lemma image_pages k0 m0 l0 u d n acc c s l v : image k0 m0 l0 u d n acc c s l →
  pt_page (km_mem s) d v ∨ user_page (km_mem s) d v → v ∈ l0 ∧ v ∉ l ∧ page v.
Proof.
  intros [I1 I2 I3 I4 _ _ _] [Hv|Hv].
  - split; [apply (ch_from _ _ _ _ _ _ _ I1); by right|]. destruct (pt_page_page kend _ _ _ _ (us_pt _ _ _ _ I2) Hv). done.
  - split; [by apply I4, I3|]. destruct Hv as (x&e&Hx&He&->). by destruct (us_page _ _ _ _ I2 x e Hx He) as (_&?&?&_).
Qed.

(** It stays when memory elsewhere changes and other pages become free. *)
Lemma image_stays k0 m0 l0 u d n acc c s l m' l' : image k0 m0 l0 u d n acc c s l →
  (∀ v b, v ∈ l0 → in_page v b → m' b = km_mem s b) → (∀ v, v ∈ l' → v ∈ l ∨ v ∉ l0) →
  uspace m' d l' ∧ user_mem m' d n acc c ∧ (∀ v, pt_page m' d v ↔ pt_page (km_mem s) d v) ∧
  (∀ v, user_page m' d v ↔ user_page (km_mem s) d v).
Proof.
  intros I Hm Hl. assert (Hpg := λ v, image_pages k0 m0 l0 u d n acc c s l v I). pose proof I as [_ I2 _ _ [_ I5] I6 I7].
  assert (Hpt : ∀ w a, pt_page (km_mem s) d w → in_page w a → m' a = km_mem s a).
  { intros w a Hw Ha. apply (Hm w); [|done]. by apply Hpg; left. }
  assert (Hmm : ∀ x, mmu_pte m' d x = mmu_pte (km_mem s) d x) by (intros x; by apply same_mmu).
  assert (Hnl : ∀ v, pt_page (km_mem s) d v ∨ user_page (km_mem s) d v → v ∉ l').
  { intros v Hv Hin. destruct (Hpg v Hv) as (H1&H2&_), (Hl v Hin); done. }
  assert (Hup : ∀ x e, 0 ≤ x < KERNBASE → mmu_pte (km_mem s) d x = Some e → user_page (km_mem s) d (upage e)) by (intros x e Hx He; by exists x, e).
  split_and!.
  - destruct I2 as [Ipt Ip Ii]. split.
    + apply (same_pt kend _ _ _ Hpt l l' Ipt); [apply Hnl; left; by left|]. intros i Hi Hp. apply Hnl. left. right. by exists i.
    + intros x e Hx. rewrite Hmm. intros He. destruct (Ip x e Hx He) as (P1&P2&P3&P4&P5). split_and!; try done.
      * apply Hnl. right. by apply (Hup x).
      * intros i Hi. rewrite (same_present _ _ _ Hpt), (same_tab _ _ _ Hpt) by done. by apply P5.
    + intros x y e e' Hx Hy. rewrite !Hmm. by apply Ii.
  - split; [|intros x Hx; rewrite Hmm; by apply I7]. intros x Hx. destruct (I6 x Hx) as (e&E1&_&E2&E3). exists e.
    rewrite Hmm. split_and!; try done. rewrite <- E3. apply (Hm (upage e)); [|apply page_off; by apply Z.mod_pos_bound].
    apply Hpg. right. apply (Hup x); [lia|done].
  - intros w. split; apply same_pde_pt_page; intros j Hj; [|symmetry]; by apply same_pde.
  - intros w. split; intros (x&e&Hx&He&->); exists x, e; rewrite Hmm in *; done.
Qed.

(** Another address space is not touched while the image is built. *)
Lemma image_other k0 m0 l0 u d n acc c s l o : image k0 m0 l0 u d n acc c s l → uspace m0 o l0 → Forall page l0 →
  uspace (km_mem s) o l ∧ (∀ v, pt_page (km_mem s) o v ↔ pt_page m0 o v) ∧ (∀ v, user_page (km_mem s) o v ↔ user_page m0 o v) ∧
  (∀ v, pt_page m0 o v ∨ user_page m0 o v → v ∉ l0 ∧ page v).
Proof.
  intros [C _ _ _ _ _ _] Ho Hl0.
  assert (Hout : ∀ v, pt_page m0 o v ∨ user_page m0 o v → v ∉ l0 ∧ page v).
  { intros v [Hv|(x&e&Hx&He&->)].
    - by destruct (pt_page_page kend _ _ _ _ (us_pt _ _ _ _ Ho) Hv).
    - by destruct (us_page _ _ _ _ Ho x e Hx He) as (_&?&?&_). }
  assert (Hpt : ∀ w a, pt_page m0 o w → in_page w a → km_mem s a = m0 a).
  { intros w a Hw Ha. apply (ch_frame _ _ _ _ _ _ _ C). intros v Hv Hin. destruct (Hout w (or_introl Hw)) as [Hwl Hwp].
    rewrite Forall_forall in Hl0. assert (Hne : v ≠ w) by (intros ->; done).
    destruct (page_apart kend v w a (Hl0 v Hv) Hwp Hne Ha); unfold in_page in Hin; lia. }
  split_and!; try done.
  - eapply (uspace_same kend); [exact Hpt| |exact Ho]. intros v Hv. apply (ch_from _ _ _ _ _ _ _ C). by left.
  - intros w. split; apply same_pde_pt_page; intros j Hj; [|symmetry]; by apply same_pde.
  - intros w. split; intros (x&e&Hx&He&->); exists x, e; [rewrite (same_mmu _ _ _ Hpt) in He|rewrite (same_mmu _ _ _ Hpt)]; done.
Qed.
End Image.
