(* ===== verification/File.v ===== *)
(** The kernel above the file system: the state of the whole kernel, open
    files (file.c) and the allocation of pipes (pipe.c). *)
From S2P Require Import Prelude Kmonad Wp Kstate Spinlock Sleep Str Kalloc Disk Log Blocks FsEx Balloc Inode Icache FileData Pipe.

(** ** Files *)

Inductive ftype := FD_NONE | FD_PIPE | FD_INODE.
#[export] Instance ftype_eq_dec : EqDecision ftype.
Proof. solve_decision. Defined.

(** [struct file]; [f_pipe] is the address of the pipe, [f_ip] the index of
    the inode in [icache.inode]. *)
Record file := File {
  f_type : ftype;
  f_ref : Z;
  f_readable : bool;
  f_writable : bool;
  f_pipe : Z;
  f_ip : nat;
  f_off : Z
}.
Definition set_f_type v (f : file) : file :=
  File v (f_ref f) (f_readable f) (f_writable f) (f_pipe f) (f_ip f) (f_off f).
Definition set_f_ref v (f : file) : file :=
  File (f_type f) v (f_readable f) (f_writable f) (f_pipe f) (f_ip f) (f_off f).
Definition set_f_off v (f : file) : file :=
  File (f_type f) (f_ref f) (f_readable f) (f_writable f) (f_pipe f) (f_ip f) v.

(** ** The state of the kernel *)

Record sys (B : Type) := Sys {
  sy_fs : fs B;                    (* file system, and below it locks and processes *)
  sy_use_lock : bool;              (* kmem *)
  sy_freelist : Z;
  sy_mem : mem;
  sy_pipes : gmap Z pipe;
  sy_file : list file;             (* ftable.file *)
  sy_ticks : Z;
  sy_nextpid : Z;
  sy_initproc : option nat;
  sy_first : bool                  (* [first] of forkret *)
}.
Arguments Sys {B} _ _ _ _ _ _ _ _ _ _.
Arguments sy_fs {B} _.
Arguments sy_use_lock {B} _.
Arguments sy_freelist {B} _.
Arguments sy_mem {B} _.
Arguments sy_pipes {B} _.
Arguments sy_file {B} _.
Arguments sy_ticks {B} _.
Arguments sy_nextpid {B} _.
Arguments sy_initproc {B} _.
Arguments sy_first {B} _.

(** Transactions, as file.c and sysfile.c use them. *)
Class Trans (S : Type) := { bl_begin : M S unit; bl_commit : M S unit }.
#[export] Instance log_trans {D} {DD : Driver D} : Trans (log D) :=
  {| bl_begin := begin_trans; bl_commit := commit_trans |}.

Section Sys.
Context {B : Type} {BB : Blocks B} {BL : BlockLaws B} {BT : Trans B} {DV : Devsw B}.
Context (kend : Z).

Definition set_sy_fs (x : fs B) (s : sys B) : sys B :=
  Sys x (sy_use_lock s) (sy_freelist s) (sy_mem s) (sy_pipes s) (sy_file s) (sy_ticks s)
    (sy_nextpid s) (sy_initproc s) (sy_first s).
Definition set_sy_file (x : list file) (s : sys B) : sys B :=
  Sys (sy_fs s) (sy_use_lock s) (sy_freelist s) (sy_mem s) (sy_pipes s) x (sy_ticks s)
    (sy_nextpid s) (sy_initproc s) (sy_first s).
Definition set_sy_ticks (x : Z) (s : sys B) : sys B :=
  Sys (sy_fs s) (sy_use_lock s) (sy_freelist s) (sy_mem s) (sy_pipes s) (sy_file s) x
    (sy_nextpid s) (sy_initproc s) (sy_first s).
Definition set_sy_nextpid (x : Z) (s : sys B) : sys B :=
  Sys (sy_fs s) (sy_use_lock s) (sy_freelist s) (sy_mem s) (sy_pipes s) (sy_file s) (sy_ticks s)
    x (sy_initproc s) (sy_first s).
Definition set_sy_initproc (x : option nat) (s : sys B) : sys B :=
  Sys (sy_fs s) (sy_use_lock s) (sy_freelist s) (sy_mem s) (sy_pipes s) (sy_file s) (sy_ticks s)
    (sy_nextpid s) x (sy_first s).
Definition set_sy_first (x : bool) (s : sys B) : sys B :=
  Sys (sy_fs s) (sy_use_lock s) (sy_freelist s) (sy_mem s) (sy_pipes s) (sy_file s) (sy_ticks s)
    (sy_nextpid s) (sy_initproc s) x.

(** The components inside the kernel.  There is one [kst]; the page
    allocator and the pipes see the one of the file system. *)
Definition sys_fs : lens (sys B) (fs B) := Lens sy_fs set_sy_fs.
Definition sys_k : lens (sys B) kst := lens_comp sys_fs (lens_comp fs_lens bl_k).
Definition sys_km : lens (sys B) kmem :=
  Lens (λ s, Kmem (lget sys_k s) (sy_use_lock s) (sy_freelist s) (sy_mem s))
    (λ m s, Sys (Fs (lset bl_k (km_k m) (fs_bl (sy_fs s))) (fs_inode (sy_fs s)))
              (km_use_lock m) (km_freelist m) (km_mem m) (sy_pipes s) (sy_file s) (sy_ticks s)
              (sy_nextpid s) (sy_initproc s) (sy_first s)).
Definition sys_pst : lens (sys B) pst :=
  Lens (λ s, Pst (lget sys_km s) (sy_pipes s))
    (λ p s, let s := lset sys_km (ps_km p) s in
       Sys (sy_fs s) (sy_use_lock s) (sy_freelist s) (sy_mem s) (ps_pipes p) (sy_file s) (sy_ticks s)
         (sy_nextpid s) (sy_initproc s) (sy_first s)).

Definition fsz {A} (m : M (fs B) A) : M (sys B) A := zoom sys_fs m.
Definition sk {A} (m : M kst A) : M (sys B) A := zoom sys_k m.
Definition kmz {A} (m : M kmem A) : M (sys B) A := zoom sys_km m.
Definition pz {A} (m : M pst A) : M (sys B) A := zoom sys_pst m.
Definition begin_op : M (sys B) unit := fsz (bl bl_begin).
Definition commit_op : M (sys B) unit := fsz (bl bl_commit).

(** ** file.c *)

Definition file_at (f : nat) : M (sys B) file := deref (λ s, sy_file s !! f).
Definition upd_file (f : nat) (g : file → file) : M (sys B) unit :=
  modify (λ s, set_sy_file (alter g f (sy_file s)) s).

Definition fileinit : M (sys B) unit := sk (initlock LFtable).

(** The first entry with [ref == 0]. *)
Fixpoint free_file (l : list file) (i : nat) : option nat :=
  match l with
  | [] => None
  | f :: l => if f_ref f =? 0 then Some i else free_file l (S i)
  end.

(** Allocate a file structure. *)
Definition filealloc : M (sys B) (option nat) :=
  sk (acquire LFtable);;
  l ← gets sy_file;
  match free_file l 0 with
  | Some f => upd_file f (set_f_ref 1);; sk (release LFtable);; mret (Some f)
  | None => sk (release LFtable);; mret None
  end.

(** Increment ref count for file [f]. *)
Definition filedup (f : nat) : M (sys B) nat :=
  sk (acquire LFtable);;
  ff ← file_at f;
  if f_ref ff <? 1 then panic "filedup" else
  upd_file f (λ ff, set_f_ref (f_ref ff + 1) ff);;
  sk (release LFtable);;
  mret f.

(** Close file [f]: decrement ref count, close when it reaches 0. *)
Definition fileclose (f : nat) : M (sys B) unit :=
  sk (acquire LFtable);;
  ff ← file_at f;
  if f_ref ff <? 1 then panic "fileclose" else
  upd_file f (λ ff, set_f_ref (f_ref ff - 1) ff);;
  ff ← file_at f;
  if 0 <? f_ref ff then sk (release LFtable) else
  upd_file f (λ ff, set_f_type FD_NONE (set_f_ref 0 ff));;
  sk (release LFtable);;
  match f_type ff with
  | FD_PIPE => pz (pipeclose kend (f_pipe ff) (f_writable ff))
  | FD_INODE => begin_op;; fsz (iput (f_ip ff));; commit_op
  | FD_NONE => mret tt
  end.

(** Get metadata about file [f]. *)
Definition filestat (f : nat) : M (sys B) (Z * option stat) :=
  ff ← file_at f;
  match f_type ff with
  | FD_INODE =>
      fsz (ilock (f_ip ff));;
      st ← fsz (stati (f_ip ff));
      fsz (iunlock (f_ip ff));;
      mret (0, Some st)
  | _ => mret (-1, None)
  end.

(** Read from file [f]: the result and the bytes stored at [addr]. *)
Definition fileread (f : nat) (n : Z) : M (sys B) (Z * list Z) :=
  ff ← file_at f;
  if negb (f_readable ff) then mret (-1, []) else
  match f_type ff with
  | FD_PIPE => pz (piperead (f_pipe ff) n)
  | FD_INODE =>
      fsz (ilock (f_ip ff));;
      ff ← file_at f;
      r ← fsz (readi (f_ip ff) (f_off ff) (u32 n));
      when (0 <? r.1) (upd_file f (λ ff, set_f_off (u32 (f_off ff + r.1)) ff));;
      fsz (iunlock (f_ip ff));;
      mret r
  | FD_NONE => panic "fileread"
  end.

(** [((LOGSIZE-1-1-2) / 2) * 512] *)
Definition filewrite_max : Z := (LOGSIZE - 1 - 1 - 2) / 2 * 512.

(** One turn of the loop of [filewrite] on an inode: one transaction. *)
Definition filewrite_step (f : nat) (src : list Z) (n i : Z) : M (sys B) (Z + Z) :=
  if i <? n then
    let n1 := if filewrite_max <? n - i then filewrite_max else n - i in
    begin_op;;
    ff ← file_at f;
    fsz (ilock (f_ip ff));;
    ff ← file_at f;
    r ← fsz (writei (f_ip ff) (slice (Z.to_nat i) (Z.to_nat n1) src) (f_off ff) n1);
    when (0 <? r) (upd_file f (λ ff, set_f_off (u32 (f_off ff + r)) ff));;
    fsz (iunlock (f_ip ff));;
    commit_op;;
    if r <? 0 then mret (inr i) else
    if negb (r =? n1) then panic "short filewrite" else
    mret (inl (i + r))
  else mret (inr i).

(** Write [n] bytes of [src] to file [f]. *)
Definition filewrite (f : nat) (src : list Z) (n : Z) : M (sys B) Z :=
  ff ← file_at f;
  if negb (f_writable ff) then mret (-1) else
  match f_type ff with
  | FD_PIPE => pz (pipewrite (f_pipe ff) src n)
  | FD_INODE =>
      i ← loop (S (Z.to_nat n)) (filewrite_step f src n) 0;
      mret (if i =? n then n else -1)
  | FD_NONE => panic "filewrite"
  end.

(** ** pipealloc (pipe.c) *)

(** [bad:]: free what was allocated. *)
Definition pipealloc_bad (f0 f1 : option nat) : M (sys B) (Z * option nat * option nat) :=
  match f0 with Some f => fileclose f | None => mret tt end;;
  match f1 with Some f => fileclose f | None => mret tt end;;
  mret (-1, f0, f1).

(** The result, [*f0] and [*f1].  No [bad] path is taken with a pipe. *)
Definition pipealloc : M (sys B) (Z * option nat * option nat) :=
  f0 ← filealloc;
  match f0 with
  | None => pipealloc_bad None None
  | Some a =>
      f1 ← filealloc;
      match f1 with
      | None => pipealloc_bad (Some a) None
      | Some b =>
          p ← kmz kalloc;
          if p =? 0 then pipealloc_bad (Some a) (Some b) else
          modify (λ s, Sys (sy_fs s) (sy_use_lock s) (sy_freelist s) (sy_mem s)
            (<[p := Pipe ((λ j, sy_mem s (p + Z.of_nat j)) <$> seq 0 512) 0 0 true true]> (sy_pipes s))
            (sy_file s) (sy_ticks s) (sy_nextpid s) (sy_initproc s) (sy_first s));;
          sk (initlock (LPipe p));;
          upd_file a (λ f, File FD_PIPE (f_ref f) true false p (f_ip f) (f_off f));;
          upd_file b (λ f, File FD_PIPE (f_ref f) false true p (f_ip f) (f_off f));;
          mret (0, Some a, Some b)
      end
  end.

(** ** Reference counts *)

#[local] Instance sys_fs_laws : LensLaws sys_fs.
Proof. split; [done| |done]. by intros []. Qed.
#[local] Instance fs_lens_laws : LensLaws (@fs_lens B).
Proof. split; [done| |done]. by intros []. Qed.
#[local] Instance sys_k_laws : LensLaws sys_k.
Proof. apply lens_comp_laws; [apply _|]. apply lens_comp_laws; apply _. Qed.

Definition kern (s : sys B) : kst := lget sys_k s.
Definition with_kern (k : kst) (s : sys B) : sys B := lset sys_k k s.

Lemma sk_run {A} (m : M kst A) s a k : m (kern s) = Ok a k → sk m s = Ok a (with_kern k s).
Proof. intros E. unfold kern in E. unfold sk, zoom. by rewrite E. Qed.

(** A critical section of [ftable.lock] that changes the table only. *)
Lemma ftable_section {A} (l : list file) (a : A) s : kst_ok (kern s) → is_free LFtable (kern s) →
  (sk (release LFtable);; mret a) (set_sy_file l (with_kern (acq LFtable (kern s)) s)) =
  Ok a (set_sy_file l s).
Proof.
  intros Hok Hf. erewrite bind_run.
  2:{ apply sk_run. change (kern (set_sy_file l (with_kern (acq LFtable (kern s)) s)))
        with (kern (with_kern (acq LFtable (kern s)) s)). unfold kern at 1, with_kern.
      rewrite lget_lset. by apply release_acq'. }
  unfold mret, M_ret. f_equal.
  change (with_kern (kern s) (set_sy_file l (with_kern (acq LFtable (kern s)) s)))
    with (set_sy_file l (with_kern (kern s) (with_kern (acq LFtable (kern s)) s))).
  unfold with_kern. rewrite lset_lset. unfold kern. by rewrite lset_lget.
Qed.

Lemma ftable_release s l : kst_ok (kern s) → is_free LFtable (kern s) →
  sk (release LFtable) (set_sy_file l (with_kern (acq LFtable (kern s)) s)) = Ok tt (set_sy_file l s).
Proof.
  intros Hok Hf. pose proof (ftable_section l tt s Hok Hf) as E. unfold mbind, M_bind in E.
  destruct (sk (release LFtable) _) as [[] s'| | | | |]; try done.
Qed.

Lemma set_file_self s : set_sy_file (sy_file s) s = s.
Proof. by destruct s. Qed.
Lemma set_file_set l l' s : set_sy_file l (set_sy_file l' s) = set_sy_file l s.
Proof. done. Qed.
Lemma files_with_kern k s : sy_file (with_kern k s) = sy_file s.
Proof. done. Qed.

Lemma acquire_file_run s : is_free LFtable (kern s) →
  sk (acquire LFtable) s = Ok tt (with_kern (acq LFtable (kern s)) s).
Proof. intros. apply sk_run. by apply acquire_run. Qed.

Lemma upd_file_run f g s ff : sy_file s !! f = Some ff →
  upd_file f g s = Ok tt (set_sy_file (<[f := g ff]> (sy_file s)) s).
Proof.
  intros Hf. unfold upd_file, modify. f_equal. f_equal. apply list_eq. intros i.
  rewrite list_lookup_alter. destruct (decide (f = i)) as [<-|].
  - rewrite Hf, list_lookup_insert_eq; [done|]. by eapply lookup_lt_Some.
  - by rewrite list_lookup_insert_ne.
Qed.
Lemma file_at_run f ff s : sy_file s !! f = Some ff → file_at f s = Ok ff s.
Proof. intros Hf. unfold file_at, deref. by rewrite Hf. Qed.

Lemma free_file_spec l i : match free_file l i with
  | Some j => ∃ ff, (i ≤ j)%nat ∧ l !! (j - i)%nat = Some ff ∧ f_ref ff = 0
  | None => ∀ j ff, l !! j = Some ff → f_ref ff ≠ 0
  end.
Proof.
  revert i. induction l as [|x l IH]; intros i; cbn [free_file]; [done|].
  destruct (Z.eqb_spec (f_ref x) 0) as [Hz|Hz].
  - exists x. rewrite Nat.sub_diag. done.
  - specialize (IH (S i)). destruct (free_file l (S i)) as [j|].
    + destruct IH as (ff&Hj&Hl&Hr). exists ff. split_and!; [lia| |done].
      replace (j - i)%nat with (S (j - S i)) by lia. done.
    + intros [|j] ff Hj; [by injection Hj as <-|by eapply IH].
Qed.

Lemma filedup_run s f ff : kst_ok (kern s) → is_free LFtable (kern s) →
  sy_file s !! f = Some ff → 1 ≤ f_ref ff →
  filedup f s = Ok f (set_sy_file (<[f := set_f_ref (f_ref ff + 1) ff]> (sy_file s)) s).
Proof.
  intros Hok Hf Hl Hr. unfold filedup. mrun (acquire_file_run s Hf).
  erewrite bind_run by by apply file_at_run. rewrite (proj2 (Z.ltb_ge _ _)) by lia.
  erewrite bind_run by by apply upd_file_run. rewrite files_with_kern. by apply ftable_section.
Qed.

Lemma fileclose_run s f ff : kst_ok (kern s) → is_free LFtable (kern s) →
  sy_file s !! f = Some ff → 2 ≤ f_ref ff →
  fileclose f s = Ok tt (set_sy_file (<[f := set_f_ref (f_ref ff - 1) ff]> (sy_file s)) s).
Proof.
  intros Hok Hf Hl Hr. assert (Hlt := lookup_lt_Some _ _ _ Hl). unfold fileclose. mrun (acquire_file_run s Hf).
  erewrite bind_run by by apply file_at_run. rewrite (proj2 (Z.ltb_ge _ _)) by lia.
  erewrite bind_run by by apply upd_file_run.
  erewrite bind_run by (apply file_at_run; cbn; by apply list_lookup_insert_eq).
  cbn [f_ref set_f_ref]. rewrite (proj2 (Z.ltb_lt _ _)) by lia. by apply ftable_release.
Qed.

(** The last reference: the entry is free before the object is closed. *)
Definition close_object (ff : file) : M (sys B) unit :=
  match f_type ff with
  | FD_PIPE => pz (pipeclose kend (f_pipe ff) (f_writable ff))
  | FD_INODE => begin_op;; fsz (iput (f_ip ff));; commit_op
  | FD_NONE => mret tt
  end.

Lemma fileclose_last s f ff : kst_ok (kern s) → is_free LFtable (kern s) →
  sy_file s !! f = Some ff → f_ref ff = 1 →
  fileclose f s = close_object ff
    (set_sy_file (<[f := set_f_type FD_NONE (set_f_ref 0 ff)]> (sy_file s)) s).
Proof.
  intros Hok Hf Hl Hr. assert (Hlt := lookup_lt_Some _ _ _ Hl). unfold fileclose. mrun (acquire_file_run s Hf).
  erewrite bind_run by by apply file_at_run. rewrite Hr. cbn [Z.ltb Z.compare Pos.compare Pos.compare_cont].
  erewrite bind_run by by apply upd_file_run.
  erewrite bind_run by (apply file_at_run; cbn; by apply list_lookup_insert_eq).
  cbn [f_ref set_f_ref]. rewrite Hr. change (0 <? 1 - 1) with false. cbv iota.
  erewrite bind_run by (apply upd_file_run; cbn; by apply list_lookup_insert_eq).
  cbn [sy_file set_sy_file]. rewrite files_with_kern, list_insert_insert_eq.
  erewrite bind_run.
  2:{ rewrite set_file_set. by apply ftable_release. }
  unfold close_object. by destruct ff.
Qed.

(** C37: the file table counts references.  [filealloc] takes an entry with
    count 0, and fails only when there is none; duplicating and closing again
    leaves the kernel as it was; closing one of several references only
    lowers the count; closing the last one frees the entry and then closes
    the pipe end or drops the inode, once. *)
Theorem file_refcounts s f ff : kst_ok (kern s) → is_free LFtable (kern s) →
  sy_file s !! f = Some ff → 1 ≤ f_ref ff →
  (match filealloc s with
   | Ok (Some g) s' => ∃ gf, sy_file s !! g = Some gf ∧ f_ref gf = 0 ∧ g ≠ f ∧
       s' = set_sy_file (<[g := set_f_ref 1 gf]> (sy_file s)) s
   | Ok None s' => s' = s ∧ ∀ g gf, sy_file s !! g = Some gf → f_ref gf ≠ 0
   | _ => False
   end) ∧
  (filedup f ≫= fileclose) s = Ok tt s ∧
  fileclose f s =
    if 1 <? f_ref ff then Ok tt (set_sy_file (<[f := set_f_ref (f_ref ff - 1) ff]> (sy_file s)) s)
    else close_object ff (set_sy_file (<[f := set_f_type FD_NONE (set_f_ref 0 ff)]> (sy_file s)) s).
Proof.
  intros Hok Hf Hl Hr. assert (Hlt := lookup_lt_Some _ _ _ Hl). split_and!.
  - unfold filealloc. mrun (acquire_file_run s Hf). erewrite bind_run by reflexivity.
    rewrite files_with_kern. assert (Hs := free_file_spec (sy_file s) 0).
    destruct (free_file (sy_file s) 0) as [g|].
    + destruct Hs as (gf&_&Hg&Hz). rewrite Nat.sub_0_r in Hg.
      erewrite bind_run by by apply upd_file_run. rewrite files_with_kern, ftable_section by done.
      exists gf. split_and!; try done. intros ->. simplify_eq. lia.
    + rewrite <- (set_file_self (with_kern _ s)), files_with_kern, ftable_section by done.
      rewrite set_file_self. done.
  - mrun (filedup_run s f ff Hok Hf Hl Hr).
    rewrite (fileclose_run _ f (set_f_ref (f_ref ff + 1) ff)); cbn; try done; [|by apply list_lookup_insert_eq|lia].
    rewrite set_file_set, list_insert_insert_eq. f_equal.
    replace (set_f_ref (f_ref ff + 1 - 1) (set_f_ref (f_ref ff + 1) ff)) with ff.
    + rewrite list_insert_id by done. apply set_file_self.
    + destruct ff; unfold set_f_ref; cbn. f_equal. lia.
  - destruct (Z.ltb_spec 1 (f_ref ff)); [apply fileclose_run|apply fileclose_last]; (done || lia).
Qed.
End Sys.

(** The example file system with one open file. *)
Definition ex_sys : sys (log Memide.memide) :=
  Sys ex_fs true 0 (λ _, 0) ∅
    [File FD_INODE 1 true false 0 0 0; File FD_NONE 0 false false 0 0 0] 0 1 None false.

Lemma ex_sys_kern : kst_ok (kern ex_sys) ∧ is_free LFtable (kern ex_sys).
Proof. split; [by split_and!|done]. Qed.

Lemma file_refcounts_witness : (filedup 0 ≫= fileclose kend_ex) ex_sys = Ok tt ex_sys.
Proof.
  destruct ex_sys_kern as [Hok Hf].
  exact (proj1 (proj2 (file_refcounts kend_ex ex_sys 0 (File FD_INODE 1 true false 0 0 0)
    Hok Hf eq_refl ltac:(simpl; lia)))).
Defined.
