(* ===== verification/Proc.v ===== *)
(** Processes (proc.c): creation, exit, wait, the scheduler, kill and signals.
    [sched], [sleep] and [wakeup] are in Sleep.v. *)
From S2P Require Import Prelude Kmonad Wp Kstate Spinlock Sleep Str Kalloc Disk Log Blocks FsEx Balloc Inode Icache FileData Dir Pipe Vm File.

(** mmu.h, x86.h: segments and flags of a new user process. *)
Definition SEG_UCODE : Z := 4.
Definition SEG_UDATA : Z := 5.
Definition DPL_USER : Z := 3.
Definition FL_IF : Z := 0x200.
(** [sizeof(struct trapframe)], [sizeof(struct context)]. *)
Definition TFSIZE : Z := 76.
Definition CXSIZE : Z := 20.

(** A sleep channel given by a process pointer. *)
Definition proc_chan (p : option nat) : chan :=
  match p with Some i => CProc i | None => CNone end.

Definition find_proc (f : proc → bool) (ps : list proc) : option nat :=
  fst <$> list_find (λ p, f p = true) ps.

(** ** Under ptable.lock *)

Definition myproc : M kst proc :=
  i ← curproc;
  deref (λ s, k_procs s !! i).

(** The scheduler on the way to process [i]: [proc = p], [switchuvm(p)],
    [p->state = RUNNING]; the switch itself follows. *)
Definition scheduler_pick (i : nat) : M kst unit :=
  p ← deref (λ s, k_procs s !! i);
  modify (upd_cpu (set_cpu_proc (Some i)));;
  when (p_pgdir p =? 0) (panic "switchuvm: no pgdir");;
  modify (upd_proc i (set_p_state RUNNING)).

(** The scan from entry [i] on: the index of the process switched to, or none
    at the end of the table. *)
Fixpoint scheduler_scan (i n : nat) : M kst (option nat) :=
  match n with
  | O => mret None
  | S n =>
      p ← deref (λ s, k_procs s !! i);
      if bool_decide (p_state p = RUNNABLE) then scheduler_pick i;; mret (Some i)
      else scheduler_scan (S i) n
  end.

(** Per-CPU process scheduler, from its start to its first switch; [None]:
    no process was runnable, the lock is released and the loop starts over. *)
Definition scheduler_start : M kst (option nat) :=
  sti;;
  acquire LPtable;;
  n ← gets (λ s, length (k_procs s));
  r ← scheduler_scan 0 n;
  match r with
  | Some i => mret (Some i)
  | None => release LPtable;; mret None
  end.
(** ... and after process [i] has switched back. *)
Definition scheduler_resume (i : nat) : M kst (option nat) :=
  modify (upd_cpu (set_cpu_proc None));;
  n ← gets (λ s, length (k_procs s));
  r ← scheduler_scan (S i) (n - S i);
  match r with
  | Some j => mret (Some j)
  | None => release LPtable;; mret None
  end.

(** Give up the CPU for one scheduling round. *)
Definition yield : M kst unit :=
  acquire LPtable;;
  i ← curproc;
  modify (upd_proc i (set_p_state RUNNABLE));;
  sched.
Definition yield_tail (intena : bool) : M kst unit :=
  resume_sched intena;;
  release LPtable.

(** Kill the process with the given pid. *)
Definition kill_proc (p : proc) : proc :=
  let p := set_p_killed true p in
  if bool_decide (p_state p = SLEEPING) then set_p_state RUNNABLE p else p.
Definition kill (pid : Z) : M kst Z :=
  acquire LPtable;;
  ps ← gets k_procs;
  match find_proc (λ p, p_pid p =? pid) ps with
  | Some i => modify (upd_proc i kill_proc);; release LPtable;; mret 0
  | None => release LPtable;; mret (-1)
  end.

(** [signal]: the handler goes into the table of the process.  (The source
    assigns to a bare name [sigArr], which no file declares.) *)
Definition signal (signum handler : Z) : M kst Z :=
  if (0 <=? signum) && (signum <? 32) then
    i ← curproc;
    modify (upd_proc i (λ p, set_p_sigArr (<[Z.to_nat signum := handler]> (p_sigArr p)) p));;
    mret 0
  else mret (-1).

Definition pinit : M kst unit := initlock LPtable.

Section Proc.
Context {B : Type} {BB : Blocks B} {BL : BlockLaws B} {BT : Trans B} {DV : Devsw B}.
(** Addresses set by the linker, and the code of initcode.S. *)
Context (kend kdata forkret_addr trapret_addr : Z) (initcode : list Z).

Definition uproc (i : nat) (f : proc → proc) : M (sys B) unit := sk (modify (upd_proc i f)).
Definition getproc (i : nat) : M (sys B) proc := sk (deref (λ s, k_procs s !! i)).

(** Look in the process table for an UNUSED proc and initialise what it needs
    to run in the kernel. *)
Definition allocproc : M (sys B) (option nat) :=
  sk (acquire LPtable);;
  ps ← sk (gets k_procs);
  match find_proc (λ p, bool_decide (p_state p = UNUSED)) ps with
  | None => sk (release LPtable);; mret None
  | Some i =>
      pid ← gets sy_nextpid;
      modify (set_sy_nextpid (i32 (pid + 1)));;
      uproc i (λ p, set_p_pid pid (set_p_state EMBRYO p));;
      sk (release LPtable);;
      kstack ← kmz kalloc;
      uproc i (set_p_kstack kstack);;
      if kstack =? 0 then uproc i (set_p_state UNUSED);; mret None else
      let sp := kstack + KSTACKSIZE - TFSIZE in
      (* the trap frame is at sp *)
      kmz (write32 (sp - 4) trapret_addr);;
      (* the context is below; it is cleared *)
      kmz (kmemset (sp - 4 - CXSIZE) 0 CXSIZE);;
      uproc i (set_p_context (Context_ 0 0 0 0 forkret_addr));;
      mret (Some i)
  end.

(** [safestrcpy(dst, src, 16)] on the name array of a process. *)
Definition copy_name (dst src : list Z) : list Z :=
  let m := safestrcpy (two dst src) 0 4096 16 in (λ j, m (Z.of_nat j)) <$> seq 0 16.

(** Set up first user process. *)
Definition userinit : M (sys B) unit :=
  r ← allocproc;
  match r with
  | None => fault
  | Some i =>
      modify (set_sy_initproc (Some i));;
      pgdir ← kmz (setupkvm kdata);
      uproc i (set_p_pgdir pgdir);;
      if pgdir =? 0 then panic "userinit: out of memory?" else
      kmz (inituvm pgdir initcode);;
      let ds := Z.lor (Z.shiftl SEG_UDATA 3) DPL_USER in
      let tf := set_tf_cs (Z.lor (Z.shiftl SEG_UCODE 3) DPL_USER) (set_tf_ds ds (set_tf_es ds
        (set_tf_ss ds (set_tf_eflags FL_IF (set_tf_esp PGSIZE (set_tf_eip 0 tf_zero)))))) in
      uproc i (λ p, set_p_tf tf (set_p_sz PGSIZE p));;
      (* "initcode" *)
      uproc i (λ p, set_p_name (copy_name (p_name p) [105; 110; 105; 116; 99; 111; 100; 101]) p);;
      cwd ← fsz (namei [SLASH]);
      uproc i (λ p, set_p_state RUNNABLE (set_p_cwd cwd p))
  end.

(** Grow current process's memory by [n] bytes. *)
Definition growproc (n : Z) : M (sys B) Z :=
  i ← sk curproc;
  p ← getproc i;
  sz ← (if 0 <? n then kmz (allocuvm kend (p_pgdir p) (p_sz p) (u32 (p_sz p + n)))
        else if n <? 0 then kmz (deallocuvm kend (p_pgdir p) (p_sz p) (u32 (p_sz p + n)))
        else mret (p_sz p));
  if nz n && (sz =? 0) then mret (-1) else
  uproc i (set_p_sz sz);;
  when (p_pgdir p =? 0) (panic "switchuvm: no pgdir");;
  mret 0.

(** The loop of [fork] over the open files. *)
Fixpoint dup_files (np : nat) (l : list (option nat)) (fd : nat) : M (sys B) unit :=
  match l with
  | [] => mret tt
  | None :: l => dup_files np l (S fd)
  | Some f :: l =>
      f ← filedup f;
      uproc np (λ p, set_p_ofile (<[fd := Some f]> (p_ofile p)) p);;
      dup_files np l (S fd)
  end.

(** Create a new process copying the current one as the parent. *)
Definition fork : M (sys B) Z :=
  i ← sk curproc;
  r ← allocproc;
  match r with
  | None => mret (-1)
  | Some np =>
      p ← getproc i;
      pgdir ← kmz (copyuvm kend kdata (p_pgdir p) (p_sz p));
      uproc np (set_p_pgdir pgdir);;
      if pgdir =? 0 then
        q ← getproc np;
        kmz (kfree kend (p_kstack q));;
        uproc np (λ q, set_p_state UNUSED (set_p_kstack 0 q));;
        mret (-1)
      else
        uproc np (λ q, set_p_tf (set_tf_eax 0 (p_tf p)) (set_p_parent (Some i) (set_p_sz (p_sz p) q)));;
        dup_files np (p_ofile p) 0;;
        match p_cwd p with
        | None => fault
        | Some d =>
            d ← fsz (idup d);
            uproc np (set_p_cwd (Some d));;
            q ← getproc np;
            uproc np (set_p_state RUNNABLE);;
            uproc np (λ q, set_p_name (copy_name (p_name q) (p_name p)) q);;
            mret (p_pid q)
        end
  end.

(** The loop of [exit] over the open files. *)
Fixpoint close_files (i : nat) (n fd : nat) : M (sys B) unit :=
  match n with
  | O => mret tt
  | S n =>
      p ← getproc i;
      match nth fd (p_ofile p) None with
      | Some f => fileclose kend f;; uproc i (λ p, set_p_ofile (<[fd := None]> (p_ofile p)) p)
      | None => mret tt
      end;;
      close_files i n (S fd)
  end.

(** Pass abandoned children to init; one entry of the table.  [wakeup1]
    changes the whole table, so the loop goes over the entries in order. *)
Definition reparent (i : nat) (initproc : option nat) (j : nat) : M kst unit :=
  p ← deref (λ s, k_procs s !! j);
  when (bool_decide (p_parent p = Some i))
    (modify (upd_proc j (set_p_parent initproc));;
     when (bool_decide (p_state p = ZOMBIE)) (wakeup1 (proc_chan initproc))).

(** [exit] from the acquisition of ptable.lock on. *)
Definition exit_locked (i : nat) (initproc : option nat) : M kst unit :=
  acquire LPtable;;
  p ← deref (λ s, k_procs s !! i);
  wakeup1 (proc_chan (p_parent p));;
  n ← gets (λ s, length (k_procs s));
  for_each (seq 0 n) (reparent i initproc);;
  modify (upd_proc i (set_p_state ZOMBIE));;
  sched;;
  panic "zombie exit".

(** Exit the current process.  Does not return. *)
Definition exit : M (sys B) unit :=
  i ← sk curproc;
  ini ← gets sy_initproc;
  if bool_decide (ini = Some i) then panic "init exiting" else
  close_files i NOFILE 0;;
  p ← getproc i;
  match p_cwd p with
  | None => fault
  | Some d =>
      fsz (iput d);;
      uproc i (set_p_cwd None);;
      sk (exit_locked i ini)
  end.

(** The scan of [wait]: a zombie child, else whether there are children. *)
Definition wait_scan (i : nat) (ps : list proc) : option nat * bool :=
  (find_proc (λ p, bool_decide (p_parent p = Some i) && bool_decide (p_state p = ZOMBIE)) ps,
   existsb (λ p, bool_decide (p_parent p = Some i)) ps).

(** The table entry of a child that has been waited for. *)
Definition reaped (p : proc) : proc :=
  set_p_killed false (set_p_name (<[0%nat := 0]> (p_name p)) (set_p_parent None (set_p_pid 0
    (set_p_state UNUSED p)))).

(** Wait for a child process to exit and return its pid.  Woken up, the
    process scans again. *)
Definition wait : M (sys B) Z :=
  i ← sk curproc;
  sk (acquire LPtable);;
  ps ← sk (gets k_procs);
  let '(z, havekids) := wait_scan i ps in
  match z with
  | Some j =>
      p ← getproc j;
      kmz (kfree kend (p_kstack p));;
      uproc j (set_p_kstack 0);;
      kmz (freevm kend (p_pgdir p));;
      uproc j reaped;;
      sk (release LPtable);;
      mret (p_pid p)
  | None =>
      me ← getproc i;
      if negb havekids || p_killed me then sk (release LPtable);; mret (-1) else
      sk (sleep (CProc i) LPtable);;
      nofuel
  end.

(** Open a new frame on the user stack for a signal handler. *)
Definition register_handler (sighandler : Z) : M (sys B) unit :=
  i ← sk curproc;
  p ← getproc i;
  let esp := tf_esp (p_tf p) in
  addr ← kmz (uva2ka (p_pgdir p) esp);
  if Z.land esp 0xFFF =? 0 then panic "esp_offset == 0" else
  kmz (write32 (addr + Z.land (u32 (esp - 4)) 0xFFF) (tf_eip (p_tf p)));;
  uproc i (λ p, set_p_tf (set_tf_eip sighandler (set_tf_esp (u32 (esp - 4)) (p_tf p))) p).

(** A fork child's very first scheduling: [initlog] runs once. *)
Definition forkret (initlog : M B unit) : M (sys B) unit :=
  sk (release LPtable);;
  first ← gets sy_first;
  when first (modify (set_sy_first false);; fsz (bl initlog)).
End Proc.
