(* ===== verification/Fork.v ===== *)
(** Creating a process: [allocproc] and [fork] (proc.c) over page tables,
    open files and the inode cache. *)
From S2P Require Import Prelude Kmonad Wp Kstate Spinlock Sleep Str Kalloc Disk Log Blocks FsEx Balloc Inode Icache FileData Dir Pipe Vm VmLaws VmFree VmCopy Quiet File Proc.

(** ** Tables *)

(** How often file [f] is open in a descriptor table. *)
Fixpoint opens (f : nat) (ol : list (option nat)) : Z :=
  match ol with
  | [] => 0
  | o :: ol => (if bool_decide (o = Some f) then 1 else 0) + opens f ol
  end.

(** The file table after the references of [ol] have been duplicated. *)
Definition dupped (ol : list (option nat)) (fl : list file) : list file :=
  imap (λ f ff, set_f_ref (f_ref ff + opens f ol) ff) fl.

Lemma opens_nonneg f ol : 0 ≤ opens f ol.
Proof. induction ol as [|o ol IH]; cbn [opens]; [lia|]. destruct (bool_decide _); lia. Qed.

Lemma dupped_nil fl : dupped [] fl = fl.
Proof.
  apply list_eq. intros f. unfold dupped. rewrite list_lookup_imap. cbn [opens].
  destruct (fl !! f) as [ff|]; [|done]. cbn. f_equal. rewrite Z.add_0_r. by destruct ff.
Qed.
Lemma dupped_none ol fl : dupped (None :: ol) fl = dupped ol fl.
Proof. done. Qed.
Lemma dupped_some g gf ol fl : fl !! g = Some gf →
  dupped ol (<[g := set_f_ref (f_ref gf + 1) gf]> fl) = dupped (Some g :: ol) fl.
Proof.
  intros Hg. apply list_eq. intros f. unfold dupped. rewrite !list_lookup_imap. cbn [opens].
  destruct (decide (g = f)) as [<-|Hne].
  - rewrite list_lookup_insert_eq by by eapply lookup_lt_Some. rewrite Hg, bool_decide_true by done. cbn.
    unfold set_f_ref; cbn. do 2 f_equal. lia.
  - rewrite list_lookup_insert_ne, bool_decide_false by congruence. done.
Qed.

(** The descriptors of [ol] put into a table from [fd] on. *)
Fixpoint put_fds (ol : list (option nat)) (fd : nat) (base : list (option nat)) : list (option nat) :=
  match ol with
  | [] => base
  | None :: ol => put_fds ol (S fd) base
  | Some f :: ol => put_fds ol (S fd) (<[fd := Some f]> base)
  end.
Lemma put_fds_app ol : ∀ pre, put_fds ol (length pre) (pre ++ replicate (length ol) None) = pre ++ ol.
Proof.
  induction ol as [|o ol IH]; intros pre; cbn [put_fds length replicate]; [done|].
  assert (E : ∀ o', S (length pre) = length (pre ++ [o' : option nat])) by (intros; rewrite length_app; cbn; lia).
  destruct o as [f|].
  - rewrite insert_app_r_alt, Nat.sub_diag by lia. cbn [insert list_insert]. rewrite (E (Some f)).
    change (Some f :: replicate (length ol) None) with ([Some f] ++ replicate (length ol) None).
    rewrite app_assoc, IH, <- app_assoc. done.
  - rewrite (E None). change (None :: replicate (length ol) None) with ([None] ++ replicate (length ol) (@None nat)).
    rewrite app_assoc, IH, <- app_assoc. done.
Qed.

Section Fork.
Context {B : Type} {BB : Blocks B} {BL : BlockLaws B} {BT : Trans B} {DV : Devsw B}.
Context (kend kdata forkret_addr trapret_addr : Z).
Notation free_pages := (free_pages kend).
Notation uspace := (uspace kend).
Notation page := (page kend).
Implicit Types (s : sys B) (m : kmem) (l : list Z) (q : proc).

(** ** States reached from [s]

    [fork] changes the memory and the process table ([m]), the inode cache,
    the open files and the next process id, and nothing else. *)
Definition after s m (ino : list inode) (fl : list file) (pid : Z) : sys B :=
  Sys (Fs (lset bl_k (km_k m) (fs_bl (sy_fs s))) ino) (km_use_lock m) (km_freelist m) (km_mem m)
    (sy_pipes s) fl (sy_ticks s) pid (sy_initproc s) (sy_first s).

Lemma after_self s : after s (lget sys_km s) (fs_inode (sy_fs s)) (sy_file s) (sy_nextpid s) = s.
Proof. unfold after. destruct s as [[b i] ? ? ? ? ? ? ? ? ?]. cbn. by rewrite lset_lget. Qed.

Lemma after_start {A} (c : M (sys B) A) Q s :
  wp c Q (after s (lget sys_km s) (fs_inode (sy_fs s)) (sy_file s) (sy_nextpid s)) → wp c Q s.
Proof. by rewrite after_self. Qed.

Lemma after_kern s m ino fl pid : kern (after s m ino fl pid) = km_k m.
Proof. unfold kern. cbn. apply lget_lset. Qed.

Lemma after_sk {A} (c : M kst A) Q s m ino fl pid :
  wp c (λ a k, Q a (after s (set_km_k k m) ino fl pid)) (km_k m) → wp (sk c) Q (after s m ino fl pid).
Proof.
  intros Hw. apply wp_zoom. cbn. rewrite lget_lset. eapply wp_mono; [exact Hw|]. intros a k HQ.
  by rewrite lset_lset.
Qed.
Lemma after_km {A} (c : M kmem A) Q s m ino fl pid :
  wp c (λ a m', Q a (after s m' ino fl pid)) m → wp (kmz c) Q (after s m ino fl pid).
Proof.
  intros Hw. apply wp_zoom. cbn. rewrite lget_lset. destruct m as [k ul fr me]; cbn in *.
  eapply wp_mono; [exact Hw|]. intros a m' HQ. unfold after in HQ. by rewrite lset_lset.
Qed.

(** The entry of a process is changed. *)
Definition on_proc (i : nat) (f : proc → proc) m : kmem := set_km_k (upd_proc i f (km_k m)) m.
Lemma after_uproc {A} i f (c : M (sys B) A) Q s m ino fl pid :
  wp c Q (after s (on_proc i f m) ino fl pid) → wp (uproc i f;; c) Q (after s m ino fl pid).
Proof. intros Hw. apply wp_bind. by apply after_sk, wp_modify. Qed.
Lemma after_uproc_end i f (Q : unit → sys B → Prop) s m ino fl pid :
  Q tt (after s (on_proc i f m) ino fl pid) → wp (uproc i f) Q (after s m ino fl pid).
Proof. intros HQ. by apply after_sk, wp_modify. Qed.
Lemma after_getproc {A} i q (c : proc → M (sys B) A) Q s m ino fl pid : k_procs (km_k m) !! i = Some q →
  wp (c q) Q (after s m ino fl pid) → wp (getproc i ≫= c) Q (after s m ino fl pid).
Proof.
  intros Hq Hw. apply wp_bind, after_sk. eapply wp_deref; [exact Hq|]. by destruct m.
Qed.

(** ** [allocproc] *)

(** Only the contents of unused entries may differ. *)
Definition slots_same (ps ps' : list proc) : Prop := length ps' = length ps ∧
  ∀ j q, ps !! j = Some q → ∃ q', ps' !! j = Some q' ∧ (q' = q ∨ (p_state q = UNUSED ∧ p_state q' = UNUSED)).

Lemma slots_same_refl ps : slots_same ps ps.
Proof. split; [done|]. intros j q Hq. exists q. auto. Qed.
Lemma slots_same_alter ps np q f : ps !! np = Some q → p_state q = UNUSED → p_state (f q) = UNUSED →
  slots_same ps (alter f np ps).
Proof.
  intros Hq Hu Hf. split; [by rewrite length_alter|]. intros j r Hr. rewrite list_lookup_alter.
  destruct (decide (np = j)) as [<-|Hne]; [|exists r; auto]. rewrite Hq in Hr |- *. injection Hr as <-. exists (f q). auto.
Qed.

(** The entry of a new process, and what is on its kernel stack. *)
Definition embryo (pid v : Z) q : proc :=
  set_p_context (Context_ 0 0 0 0 forkret_addr) (set_p_kstack v (set_p_pid pid (set_p_state EMBRYO q))).
Definition stack_ok (v : Z) (me : mem) : Prop := load32 me (v + KSTACKSIZE - TFSIZE - 4) = u32 trapret_addr.

Lemma new_stack v me : let me' := memset (store32 me (v + KSTACKSIZE - TFSIZE - 4) trapret_addr)
    (v + KSTACKSIZE - TFSIZE - 4 - CXSIZE) 0 CXSIZE in
  stack_ok v me' ∧ ∀ a, ¬ in_page v a → me' a = me a.
Proof.
  cbn zeta. unfold stack_ok, KSTACKSIZE, TFSIZE, CXSIZE, in_page, PGSIZE. split.
  - erewrite load32_ext; [apply load32_store32|]. intros i Hi. rewrite memset_filled by lia. unfold filled.
    bdestr; cbn; bdestr; (done || lia).
  - intros a Ha. rewrite memset_filled by lia. unfold filled, store32. rewrite !upd_ne by lia.
    bdestr; cbn; bdestr; (done || lia).
Qed.

Lemma find_proc_some f ps i : find_proc f ps = Some i → ∃ q, ps !! i = Some q ∧ f q = true.
Proof.
  unfold find_proc. intros Hf. apply fmap_Some in Hf as ([j q]&E&->). apply list_find_Some in E as (H1&H2&_). by exists q.
Qed.

Lemma allocproc_wp s m ino fl pid l (Q : option nat → sys B → Prop) :
  km_ready m → is_free LPtable (km_k m) → free_pages m l →
  (∀ ps' pid' m', m' = set_km_k (set_k_procs ps' (km_k m)) m → slots_same (k_procs (km_k m)) ps' →
     l = [] ∨ Forall (λ q, p_state q ≠ UNUSED) (k_procs (km_k m)) → Q None (after s m' ino fl pid')) →
  (∀ np q v l' m', k_procs (km_k m) !! np = Some q → p_state q = UNUSED → l = v :: l' →
     km_ready m' → km_k m' = upd_proc np (embryo pid v) (km_k m) → free_pages m' l' →
     (∀ a, ¬ in_page v a → km_mem m' a = km_mem m a) → stack_ok v (km_mem m') →
     Q (Some np) (after s m' ino fl (i32 (pid + 1)))) →
  wp (allocproc forkret_addr trapret_addr) Q (after s m ino fl pid).
Proof.
  intros [Hok Hkm] Hpt Hf HN HS. unfold allocproc. apply wp_bind, after_sk. eapply wp_run; [by apply acquire_run|].
  apply wp_bind, after_sk, wp_gets. cbn [km_k set_km_k k_procs acq].
  destruct (find_proc _ _) as [np|] eqn:Hfu.
  2:{ apply wp_bind, after_sk. cbn [km_k set_km_k]. eapply wp_run; [by apply release_acq'|]. apply wp_ret.
      eapply (HN (k_procs (km_k m))); [by destruct m as [[] ? ? ?]|apply slots_same_refl|]. right.
      apply fmap_None, list_find_None in Hfu. eapply Forall_impl; [exact Hfu|]. intros q Hq Hu. apply Hq. by apply bool_decide_eq_true. }
  apply find_proc_some in Hfu as (q&Hq&Hu%bool_decide_eq_true). apply wp_bind, wp_gets, wp_bind, wp_modify. cbn [sy_nextpid after].
  match goal with |- wp _ _ ?x => change x with (after s (set_km_k (acq LPtable (km_k m)) m) ino fl (i32 (pid + 1))) end.
  apply after_uproc, wp_bind, after_sk. cbn [km_k on_proc set_km_k].
  set (ps := alter (λ p, set_p_pid pid (set_p_state EMBRYO p)) np (k_procs (km_k m))).
  change (upd_proc np _ (acq LPtable (km_k m))) with (set_k_procs ps (acq LPtable (km_k m))).
  eapply wp_run; [by apply release_acq|].
  match goal with |- wp _ _ ?x => change x with (after s (set_km_k (set_k_procs ps (km_k m)) m) ino fl (i32 (pid + 1))) end.
  set (m1 := set_km_k (set_k_procs ps (km_k m)) m). assert (Hr1 : km_ready m1) by done. assert (Hf1 : free_pages m1 l) by done.
  apply wp_bind, after_km. destruct l as [|v l].
  - eapply wp_run; [exact (kalloc_free_pages kend m1 [] Hr1 Hf1)|]. apply after_uproc. cbn [Z.eqb]. apply after_uproc, wp_ret.
    eapply HN; [reflexivity| |by left]. cbn. unfold ps. rewrite !list_alter_alter_eq. by eapply slots_same_alter.
  - destruct (take_page kend m1 l v Hr1 Hf1) as (m2&E&R1&R2&R3&Hv&Hvl&Hz&_&_&Hfm). eapply wp_run; [exact E|].
    apply after_uproc. rewrite (proj2 (Z.eqb_neq v 0)) by done.
    apply wp_bind, after_km, wp_modify, wp_bind, after_km, wp_modify. apply after_uproc, wp_ret.
    destruct (new_stack v (km_mem m2)) as [Hst Hout]. rewrite R3 in Hst, Hout. cbn [km_mem set_km_mem on_proc set_km_k] in *. rewrite R3.
    eapply (HS np q v l); try done.
    + cbn. rewrite R2. cbn. unfold upd_proc, ps. cbn. rewrite !list_alter_alter_eq. done.
    + apply (Hfm _ Hout).
Qed.

(** ** Open files *)

Lemma on_proc_twice i f g m : on_proc i f (on_proc i g m) = on_proc i (f ∘ g) m.
Proof. unfold on_proc, upd_proc. cbn. by rewrite list_alter_alter_eq. Qed.
Lemma on_proc_ext i f g m : (∀ q, f q = g q) → on_proc i f m = on_proc i g m.
Proof.
  intros H. unfold on_proc, upd_proc. do 2 f_equal. apply list_eq. intros j. rewrite !list_lookup_alter.
  destruct (decide (i = j)); [|done]. destruct (k_procs (km_k m) !! i) as [q|]; [|done]. cbn. by rewrite H.
Qed.

Lemma dup_files_wp s ino pid np ol : ∀ m fl fd (Q : unit → sys B → Prop),
  kst_ok (km_k m) → is_free LFtable (km_k m) →
  (∀ f, Some f ∈ ol → ∃ ff, fl !! f = Some ff ∧ 1 ≤ f_ref ff) →
  Q tt (after s (on_proc np (λ q, set_p_ofile (put_fds ol fd (p_ofile q)) q) m) ino (dupped ol fl) pid) →
  wp (dup_files np ol fd) Q (after s m ino fl pid).
Proof.
  induction ol as [|[g|] ol IH]; intros m fl fd Q Hok Hf Hol HQ; cbn [dup_files].
  - apply wp_ret. revert HQ. rewrite dupped_nil. replace (on_proc np _ m) with m; [done|].
    unfold on_proc, upd_proc. cbn [put_fds]. destruct m as [[c lk ps] ul fr me]. unfold set_km_k, set_k_procs. cbn. do 2 f_equal.
    apply list_eq. intros j. rewrite list_lookup_alter. destruct (decide (np = j)) as [<-|]; [|done].
    destruct (ps !! np) as [[]|]; done.
  - destruct (Hol g ltac:(by left)) as (gf&Hg&Hr). apply wp_bind. eapply wp_run.
    { apply (filedup_run (after s m ino fl pid) g gf); [by rewrite after_kern|by rewrite after_kern|done|done]. }
    match goal with |- wp _ _ ?x =>
      change x with (after s m ino (<[g := set_f_ref (f_ref gf + 1) gf]> fl) pid) end.
    apply after_uproc, IH; [done|done| |].
    + intros f Hin. destruct (Hol f ltac:(by right)) as (ff&Hff&Hfr). destruct (decide (g = f)) as [<-|Hne].
      * eexists. split; [by apply list_lookup_insert_eq; eapply lookup_lt_Some|]. cbn. lia.
      * exists ff. by rewrite list_lookup_insert_ne.
    + rewrite on_proc_twice, dupped_some by done. erewrite on_proc_ext; [exact HQ|done].
  - apply IH; [done|done| |exact HQ]. intros f Hin. apply Hol. by right.
Qed.

(** ** Memory that the new kernel stack does not touch *)

Section Kept.
Variables (me me' : mem) (p v : Z) (l : list Z).
Hypothesis Hu : uspace me p (v :: l).
Hypothesis Hv : page v.
Hypothesis Hout : ∀ a, ¬ in_page v a → me' a = me a.

Lemma kept_page w a : page w → w ≠ v → in_page w a → me' a = me a.
Proof.
  intros Hw Hne Ha. apply Hout. destruct (page_apart kend v w a Hv Hw (not_eq_sym Hne) Ha); unfold in_page; lia.
Qed.
Lemma kept_pt w a : pt_page me p w → in_page w a → me' a = me a.
Proof.
  intros Hw. destruct (pt_page_page kend _ _ _ _ (us_pt _ _ _ _ Hu) Hw) as [Hp Hn]. apply kept_page; [done|].
  intros ->. apply Hn. by left.
Qed.
Lemma kept_space : uspace me' p l.
Proof. eapply uspace_same; [exact kept_pt| |exact Hu]. intros w ?. by right. Qed.
Lemma kept_mmu x : mmu_pte me' p x = mmu_pte me p x.
Proof. apply same_mmu. exact kept_pt. Qed.
Lemma kept_copy (m2 : mem) d n : copy_of kend me' p m2 d n → copy_of kend me p m2 d n.
Proof.
  intros Hc x Hx. specialize (Hc x Hx). destruct (x <? n); [|done]. destruct Hc as (e&w&E1&E2&E3&E4).
  rewrite kept_mmu in E1. exists e, w. split_and!; try done. intros k Hk. rewrite E4 by done.
  destruct (us_page _ _ _ _ Hu x e Hx E1) as (_&Hp&Hn&_). eapply kept_page; [exact Hp| |by apply page_off].
  intros He. apply Hn. rewrite He. by left.
Qed.
End Kept.

(** ** [fork] *)

Hypothesis Hkdata : KERNLINK < kdata < p2v PHYSTOP ∧ kdata mod PGSIZE = 0.
Hypothesis Hkend : KERNBASE < kend.

(** The kernel when process [i], with entry [p], calls [fork]: [l] are the
    free pages. *)
Record fork_ready s (i : nat) (p : proc) l : Prop := {
  fr_km : km_ready (lget sys_km s);
  fr_ptable : is_free LPtable (kern s);
  fr_ftable : is_free LFtable (kern s);
  fr_icache : is_free LIcache (kern s);
  fr_cur : cpu_proc (k_cpu (kern s)) = Some i;
  fr_proc : k_procs (kern s) !! i = Some p;
  fr_run : p_state p = RUNNING;
  fr_unused : ∀ j q, k_procs (kern s) !! j = Some q → p_state q = UNUSED →
    p_ofile q = replicate (length (p_ofile p)) None;
  fr_files : ∀ f, Some f ∈ p_ofile p → ∃ ff, sy_file s !! f = Some ff ∧ 1 ≤ f_ref ff;
  fr_cwd : is_Some (p_cwd p);
  fr_free : free_pages (lget sys_km s) l;
  fr_space : uspace (sy_mem s) (p_pgdir p) l;
  fr_sz : 0 ≤ p_sz p ≤ KERNBASE;
  fr_mapped : ∀ x, 0 ≤ x < p_sz p → ∃ e, mmu_pte (sy_mem s) (p_pgdir p) x = Some e
}.

(** The entry of the child: kernel stack [v], page table [d], in the place
    of [q]. *)
Definition child_proc (i : nat) (p : proc) (pid v d : Z) q : proc :=
  Proc (p_sz p) d v RUNNABLE pid (Some i) (set_tf_eax 0 (p_tf p)) (Context_ 0 0 0 0 forkret_addr)
    (p_chan q) (p_killed q) (p_ofile p) (p_cwd p) (copy_name (p_name q) (p_name p)) (p_signal q) (p_sigArr q).

(** Memory after a call that had the pages [l]. *)
Definition mem_from l s m l' : Prop := free_pages m l' ∧ (∀ v, v ∈ l' → v ∈ l) ∧
  ∀ a, (∀ v, v ∈ l → ¬ in_page v a) → km_mem m a = sy_mem s a.

(** Why [fork] may fail, and the free pages [l'] then, [l] before: no entry of
    the process table is free; or too few pages are, for a kernel stack, a
    page directory, 1024 page tables and the pages of the caller.  The page of
    the kernel stack is free again, and all others but one at most, unless
    they were so few that [setupkvm] failed. *)
Definition fork_reason s (p : proc) l l' : Prop :=
  (Forall (λ q, p_state q ≠ UNUSED) (k_procs (kern s)) ∧ l' = l) ∨
  (l = [] ∧ l' = []) ∨
  ∃ v l1 l2, l = v :: l1 ∧ l' = v :: l2 ∧ Z.of_nat (length l1) ≤ 1025 + PGROUNDUP (p_sz p) / PGSIZE ∧
    ((length l1 ≤ 65)%nat ∨ ∃ w, ∀ x, x ∈ l1 → x ∈ l2 ∨ x = w).

Definition fork_failed s (p : proc) l s' : Prop := ∃ m l' ps pid,
  s' = after s m (fs_inode (sy_fs s)) (sy_file s) pid ∧ mem_from l s m l' ∧
  km_k m = set_k_procs ps (kern s) ∧ slots_same (k_procs (kern s)) ps ∧ fork_reason s p l l'.

Definition forked s l (i : nat) (p : proc) (r : Z) s' : Prop := ∃ m l' np q v d,
  r = sy_nextpid s ∧ k_procs (kern s) !! np = Some q ∧ p_state q = UNUSED ∧
  s' = after s m (alter (λ ip, set_i_ref (i_ref ip + 1) ip) (default 0%nat (p_cwd p)) (fs_inode (sy_fs s)))
    (dupped (p_ofile p) (sy_file s)) (i32 (r + 1)) ∧
  km_k m = set_k_procs (<[np := child_proc i p r v d q]> (k_procs (kern s))) (kern s) ∧
  mem_from l s m l' ∧
  (* the kernel stack *)
  v ∈ l ∧ v ∉ l' ∧ ¬ pt_page (km_mem m) d v ∧ ¬ user_page (km_mem m) d v ∧ stack_ok v (km_mem m) ∧
  (* the memory of the child *)
  uspace (km_mem m) d l' ∧ (∀ w, pt_page (km_mem m) d w ∨ user_page (km_mem m) d w → w ∈ l) ∧
  copy_of kend (sy_mem s) (p_pgdir p) (km_mem m) d (PGROUNDUP (p_sz p)).

Lemma alter_at {A} (f : A → A) i (ps : list A) x : ps !! i = Some x → alter f i ps = <[i := f x]> ps.
Proof.
  intros Hq. apply list_eq. intros j. rewrite list_lookup_alter. destruct (decide (i = j)) as [<-|Hne].
  - rewrite Hq. symmetry. by apply list_lookup_insert_eq; eapply lookup_lt_Some.
  - by rewrite list_lookup_insert_ne.
Qed.

(** The process table cannot hold the child, or memory has run out. *)
Lemma fork_tail_wp s i p l m l1 np q v d pid0 (Q : Z → sys B → Prop) : fork_ready s i p l →
  k_procs (kern s) !! np = Some q → p_state q = UNUSED →
  km_k m = upd_proc np (set_p_pgdir d) (upd_proc np (embryo (sy_nextpid s) v) (kern s)) →
  (∀ m', km_mem m' = km_mem m → km_use_lock m' = km_use_lock m → km_freelist m' = km_freelist m →
     km_k m' = set_k_procs (<[np := child_proc i p (sy_nextpid s) v d q]> (k_procs (kern s))) (kern s) →
     Q (sy_nextpid s) (after s m' (alter (λ ip, set_i_ref (i_ref ip + 1) ip) (default 0%nat (p_cwd p)) (fs_inode (sy_fs s)))
       (dupped (p_ofile p) (sy_file s)) pid0)) →
  wp (uproc np (λ q, set_p_tf (set_tf_eax 0 (p_tf p)) (set_p_parent (Some i) (set_p_sz (p_sz p) q)));;
      dup_files np (p_ofile p) 0;;
      match p_cwd p with
      | None => fault
      | Some d =>
          d ← fsz (idup d);
          uproc np (set_p_cwd (Some d));;
          q ← getproc np;
          uproc np (set_p_state RUNNABLE);;
          uproc np (λ q, set_p_name (copy_name (p_name q) (p_name p)) q);;
          mret (p_pid q)
      end) Q (after s m (fs_inode (sy_fs s)) (sy_file s) pid0).
Proof.
  intros Hr Hq Hu Hm HQ. apply after_uproc. apply wp_bind.
  assert (Hok : kst_ok (km_k m)) by (rewrite Hm; apply Hr). assert (Hft : is_free LFtable (km_k m)) by (rewrite Hm; apply Hr).
  assert (Hic : is_free LIcache (km_k m)) by (rewrite Hm; apply Hr).
  apply dup_files_wp; [done|done|by apply Hr|]. destruct (fr_cwd _ _ _ _ Hr) as [c Hc]. rewrite Hc in *. cbn [default] in HQ.
  rewrite on_proc_twice. set (m1 := on_proc np _ m). apply wp_bind. unfold fsz. apply wp_zoom. cbn [sys_fs lget lset sy_fs after].
  eapply wp_run; [apply idup_run; unfold kof; by rewrite lget_lset|].
  match goal with |- wp _ _ ?x => change x with (after s m1
    (alter (λ ip, set_i_ref (i_ref ip + 1) ip) c (fs_inode (sy_fs s))) (dupped (p_ofile p) (sy_file s)) pid0) end.
  apply after_uproc. eapply after_getproc.
  { unfold m1, on_proc, upd_proc. cbn. rewrite Hm. cbn. rewrite !list_alter_alter_eq, (alter_at _ _ _ q) by done.
    by apply list_lookup_insert_eq; eapply lookup_lt_Some. }
  do 2 apply after_uproc. apply wp_ret. cbn. apply HQ; try done.
  unfold m1, on_proc, upd_proc. cbn. rewrite Hm. cbn. rewrite !list_alter_alter_eq, (alter_at _ _ _ q) by done.
  unfold set_k_procs. cbn. f_equal. f_equal. unfold child_proc, compose. cbn.
  rewrite (fr_unused _ _ _ _ Hr np q Hq Hu). pose proof (put_fds_app (p_ofile p) []) as E. cbn [length app] in E.
  by rewrite E, Hc.
Qed.

Lemma mem_from_use s m l' l m' : km_mem m' = km_mem m → km_freelist m' = km_freelist m → mem_from l s m l' → mem_from l s m' l'.
Proof. intros E1 E2 ((H1&H2&H3)&H4&H5). unfold mem_from, Kalloc.free_pages. rewrite E1, E2. by split_and!. Qed.

Lemma fork_wp s i p l : fork_ready s i p l →
  wp (fork kend kdata forkret_addr trapret_addr) (λ r s', (r = -1 ∧ fork_failed s p l s') ∨ forked s l i p r s') s.
Proof.
  intros Hr. apply after_start. set (m0 := lget sys_km s). assert (Hk0 : km_k m0 = kern s) by done.
  unfold fork. apply wp_bind, after_sk. eapply wp_deref; [apply Hr|].
  replace (set_km_k (km_k m0) m0) with m0 by by destruct m0.
  apply wp_bind. eapply (allocproc_wp s m0 _ _ _ l); [apply Hr|apply Hr|apply Hr| |].
  { intros ps pid m -> Hs Hwhy. apply wp_ret. left. split; [done|]. eexists _, l, ps, pid. split_and!; try done.
    - split_and!; [apply Hr|done|done].
    - destruct Hwhy as [->|Hwhy]; [right; by left|by left]. }
  intros np q v l1 m1 Hq Hu -> R1 R2 R3 R4 R5. rewrite Hk0 in Hq, R2.
  assert (Hne : np ≠ i) by (intros ->; rewrite (fr_proc _ _ _ _ Hr) in Hq; injection Hq as <-; by rewrite (fr_run _ _ _ _ Hr) in Hu).
  eapply (after_getproc i p); [rewrite R2; cbn; rewrite list_lookup_alter_ne by done; apply Hr|].
  pose proof (fr_free _ _ _ _ Hr) as (_&Hpg&Hnd). apply Forall_cons in Hpg as [Hv Hpg]. apply NoDup_cons in Hnd as [Hvl Hnd].
  pose proof (fr_space _ _ _ _ Hr) as Hsp. change (sy_mem s) with (km_mem m0) in Hsp.
  assert (Hsp1 : uspace (km_mem m1) (p_pgdir p) l1) by (by eapply kept_space).
  apply wp_bind, after_km. eapply wp_mono; [apply (copyuvm_wp kend kdata Hkdata Hkend m1 l1 (p_pgdir p) (p_sz p) R1 R3 Hsp1)|].
  { apply Hr. }
  { intros x Hx. rewrite (kept_mmu (km_mem m0) _ _ v l1 Hsp Hv R4). by apply (fr_mapped _ _ _ _ Hr). }
  intros d m2 (C1&C2&(l2&C3&C4&C5&C6)&C7). apply after_uproc.
  assert (Hmem : mem_from (v :: l1) s m2 l2).
  { split_and!; [done|intros w Hw; right; by apply C4|]. intros a Ha. rewrite C7, R4; [done|apply Ha; by left|].
    intros w Hw. apply Ha. by right. }
  assert (Hvl2 : v ∉ l2) by (by intros ?%C4).
  destruct (Z.eqb_spec d 0) as [->|Hd].
  - eapply after_getproc.
    { cbn. rewrite C2, R2. cbn. rewrite !list_alter_alter_eq, (alter_at _ _ _ q) by done.
      by apply list_lookup_insert_eq; eapply lookup_lt_Some. }
    apply wp_bind, after_km. cbn [p_kstack compose]. eapply (kfree_wp kend _ l2); [done|done|done|done|].
    intros m3 K1 K2 K3 K4. apply after_uproc, wp_ret. left. split; [done|].
    eexists _, (v :: l2), _, _. split; [reflexivity|]. split; [|split; [|split]].
    + split_and!; [exact K3| |].
      * intros w [->|Hw]%elem_of_cons; [by left|right; by apply C4].
      * intros a Ha. cbn. rewrite K4 by (apply Ha; by left). by apply Hmem.
    + cbn. rewrite K2. cbn. rewrite C2, R2. reflexivity.
    + cbn. rewrite !list_alter_alter_eq. by eapply slots_same_alter.
    + right. right. destruct (C5 eq_refl) as [N1 N2]. by exists v, l1, l2.
  - apply (fork_tail_wp s i p (v :: l1) _ l2 np q v d); [done|done|done|by cbn; rewrite C2, R2|].
    intros m3 E1 E2 E3 E4. right. destruct (C6 Hd) as (U1&U2&U3). cbn in E1, E3.
    exists m3, l2, np, q, v, d. rewrite E1. split_and!; try done.
    + by eapply mem_from_use.
    + by left.
    + intros Hw. apply Hvl, U3. by left.
    + intros Hw. apply Hvl, U3. by right.
    + unfold stack_ok in *. rewrite <- R5. apply load32_ext. intros k Hk. apply C7. intros w Hw.
      rewrite Forall_forall in Hpg. assert (Hwv : w ≠ v) by (intros ->; done).
      assert (Hin : in_page v (v + KSTACKSIZE - TFSIZE - 4 + k)) by (unfold in_page, KSTACKSIZE, TFSIZE, PGSIZE; lia).
      destruct (page_apart kend w v _ (Hpg w Hw) Hv Hwv Hin); unfold in_page; lia.
    + intros w Hw. right. by apply U3.
    + by eapply (kept_copy (km_mem m0)).
Qed.

(** [fork] neither sleeps nor runs into a panic that [wp] allows. *)
Lemma quiet_kfree v : quiet (kfree kend v).
Proof. unfold kfree. quiet_by. Qed.
Hint Resolve quiet_kfree : quiet.
Lemma quiet_deallocuvm d a b : quiet (deallocuvm kend d a b).
Proof. unfold deallocuvm, deallocuvm_step, walkpgdir, read32, write32, kmemset. quiet_by. Qed.
Hint Resolve quiet_deallocuvm : quiet.
Lemma quiet_freevm d : quiet (freevm kend d).
Proof. unfold freevm, read32. quiet_by. Qed.
Hint Resolve quiet_freevm : quiet.
Lemma quiet_copyuvm d sz : quiet (copyuvm kend kdata d sz).
Proof. unfold copyuvm, copyuvm_step, walkpgdir, read32, write32, kmemset, kmemmove. quiet_by. Qed.
Hint Resolve quiet_copyuvm : quiet.
Lemma quiet_allocproc : quiet (allocproc (B := B) forkret_addr trapret_addr).
Proof. unfold allocproc, uproc, sk, kmz, write32, kmemset. quiet_by. Qed.
Lemma quiet_filedup f : quiet (filedup (B := B) f).
Proof. unfold filedup, sk, file_at, upd_file. quiet_by. Qed.
Hint Resolve quiet_allocproc quiet_filedup : quiet.
Lemma quiet_dup_files np ol : ∀ fd, quiet (dup_files (B := B) np ol fd).
Proof. induction ol as [|[f|] ol IH]; intros fd; cbn [dup_files]; unfold uproc, sk; quiet_by; apply IH. Qed.
Lemma quiet_idup i : quiet (idup (B := B) i).
Proof. unfold idup, upd_inode, ik, bl. quiet_by. Qed.
Hint Resolve quiet_dup_files quiet_idup : quiet.
Lemma quiet_fork : quiet (fork (B := B) kend kdata forkret_addr trapret_addr).
Proof. unfold fork, uproc, getproc, sk, kmz, fsz, curproc. quiet_by. Qed.

(** C5: [fork] returns, and when it returns the child's pid it has made a copy
    of the calling process: an unused entry of the process table has become a
    runnable process with that pid, whose parent is the caller: it resumes
    with the caller's registers and result 0, on a kernel stack of its own
    that leads through [forkret] to [trapret]; its memory has exactly the
    caller's pages with the same bytes; it has the same open files and working
    directory, each counted once more.  All pages come from the free list, and
    no other process, memory, file or inode has changed.  It returns -1 only
    when no entry of the table is unused or not enough pages are free
    ([fork_reason]); then no entry in use, no file, no inode and no memory in
    use has changed, the page of the kernel stack is free again, and of the
    other pages at most one is lost (the one [copyuvm] does not give back when
    [mappages] fails), or those that [setupkvm] does not give back. *)
Theorem fork_correct s i p l : fork_ready s i p l →
  ∃ r s', fork kend kdata forkret_addr trapret_addr s = Ok r s' ∧
    ((r = -1 ∧ fork_failed s p l s') ∨ forked s l i p r s').
Proof. intros Hr. eapply calm_total; [apply quiet_fork|exact Logic.I|by apply fork_wp]. Qed.
End Fork.

(** ** An example: a process of one page forks *)

Definition ex_caller : proc :=
  Proc 4096 ex_pgdir 0x80200000 RUNNING 7 None tf_zero cx_zero CNone false (Some 0%nat :: replicate 15 None)
    (Some 0%nat) (replicate 16 0) 0 (replicate 32 0).
Definition ex_fork_k : kst :=
  Kst (Cpu 0 true 0 true (Some 0%nat))
    {[LKmem := lk_free; LPtable := lk_free; LFtable := lk_free; LIcache := lk_free; LBcache := lk_free]}
    [ex_caller; proc_zero].
(** A thousand and more free pages, so that [fork] cannot fail. *)
Definition ex_fork : sys (log Memide.memide) :=
  lset sys_km (Kmem ex_fork_k true 0x8010c000 (ex_mem 1040)) ex_sys.

Lemma ex_fork_free : free_pages kend_ex (lget sys_km ex_fork) (ex_frees 1040).
Proof.
  destruct (ex_frees_pages 1040) as [Hp Hn]; [lia|]. split_and!; [|done..]. apply check_chain_ok. vm_compute. reflexivity.
Qed.

Lemma ex_fork_ready : fork_ready kend_ex ex_fork 0 ex_caller (ex_frees 1040).
Proof.
  destruct (ex_mem_space 1040) as [Hu Hm].
  split; try first [done | exact ex_fork_free | exact Hu].
  - intros [|[|j]] q Hq; [injection Hq as <-; done|injection Hq as <-; done|done].
  - intros f Hin. cbn in Hin. apply elem_of_cons in Hin as [[= ->]|Hin].
    + exists (File FD_INODE 1 true false 0 0 0). split; [done|]. cbn. lia.
    + exfalso. repeat (apply elem_of_cons in Hin as [Hin|Hin]; [done|]). by apply elem_of_nil in Hin.
  - intros x Hx. cbn in Hx. exists 0x10b007. change (sy_mem ex_fork) with (ex_mem 1040).
    change (p_pgdir ex_caller) with ex_pgdir. rewrite Hm by lia. by rewrite Z.div_small by (unfold PGSIZE; lia).
Qed.

Lemma ex_fork_unused np q : k_procs (kern ex_fork) !! np = Some q → p_state q = UNUSED → np = 1%nat.
Proof. destruct np as [|[|np]]; intros Hq Hu; [injection Hq as <-; discriminate Hu|reflexivity|discriminate Hq]. Qed.
Lemma ex_frees_length n : length (ex_frees n) = n.
Proof. unfold ex_frees. by rewrite length_map, length_seq. Qed.

(** The child is process 1. *)
Lemma fork_correct_witness : ∃ s', fork kend_ex 0x80107000 0x80103000 0x80104000 ex_fork = Ok 1 s' ∧
  (p_state <$> k_procs (kern s') !! 1%nat) = Some RUNNABLE ∧ (f_ref <$> sy_file s' !! 0%nat) = Some 2.
Proof.
  destruct (fork_correct kend_ex 0x80107000 0x80103000 0x80104000 ltac:(vm_compute; done) ltac:(vm_compute; done)
    ex_fork 0 ex_caller (ex_frees 1040) ex_fork_ready) as (r&s'&E&H).
  exists s'. destruct H as [[_ (m&l'&ps&pid&_&_&_&_&Hwhy)]|(m&l'&np&q&v&d&->&Hq&Hu&->&Hk&_)].
  - exfalso. destruct Hwhy as [[Hall _]|[[Hnil _]|(v&l1&l2&Hl&_&Hlen&_)]].
    + exact (Forall_lookup_1 _ _ 1%nat proc_zero Hall eq_refl eq_refl).
    + apply (f_equal length) in Hnil. rewrite ex_frees_length in Hnil. discriminate Hnil.
    + apply (f_equal length) in Hl. rewrite ex_frees_length in Hl. cbn [length] in Hl.
      change (PGROUNDUP (p_sz ex_caller) / PGSIZE) with 1 in Hlen. clear -Hl Hlen. lia.
  - split; [exact E|]. assert (np = 1%nat) as -> by exact (ex_fork_unused np q Hq Hu).
    rewrite after_kern, Hk. split; reflexivity.
Defined.
