(* ===== verification/Init.v ===== *)
(** The first user process: [inituvm] (vm.c) and [userinit] (proc.c). *)
From S2P Require Import Prelude Kmonad Wp Kstate Spinlock Sleep Str Kalloc Disk Log Blocks FsEx Balloc Inode Icache FileData Dir Pipe Vm VmLaws VmFree VmCopy VmGrow Image File Proc Fork.

Section Init.
Context {B : Type} {BB : Blocks B} {BL : BlockLaws B} {BT : Trans B} {DV : Devsw B}.
Context (kend kdata forkret_addr trapret_addr : Z) (initcode : list Z).
Hypothesis Hkdata : KERNLINK < kdata < p2v PHYSTOP ∧ kdata mod PGSIZE = 0.
Hypothesis Hkend : KERNBASE < kend.
Notation free_pages := (free_pages kend).
Notation uspace := (uspace kend).
Notation page := (page kend).
Notation child := (child kend).
Notation image := (image kend).
Notation kernel_space := (kernel_space kdata).
Implicit Types (s : sys B) (m : kmem) (l : list Z) (q : proc) (b : B).

(** ** [inituvm] *)

(** With 67 pages at hand for the kernel's tables, one table and the page of
    the user, the initcode is at address 0 and zeros follow it. *)
Lemma inituvm_wp m0 l0 d m l (Q : unit → kmem → Prop) : child m0 l0 [] d m l →
  (∀ x, 0 ≤ x < KERNBASE → mmu_pte (km_mem m) d x = None) → kernel_tables (km_mem m) d → kernel_space (km_mem m) d →
  NoDup l0 → (67 ≤ length l0)%nat → Z.of_nat (length initcode) < PGSIZE →
  (∀ m' l' v, image (km_k m0) (km_mem m0) l0 [v] d PGSIZE (λ _, true) (over 0 initcode (λ _, 0)) m' l' →
     kernel_space (km_mem m') d → Q tt m') →
  wp (inituvm d initcode) Q m.
Proof using Hkend.
  intros C Hno Hkt Hks Hnd Hlen Hi HQ. unfold inituvm. rewrite (proj2 (Z.leb_gt _ _)) by done. apply wp_bind.
  pose proof (image_start kend m0 l0 d m l (λ _, true) (λ _, 0) C Hno) as I.
  destruct l as [|v l]; [pose proof (kernel_count kend _ _ _ _ _ _ Hnd C Hkt) as Hc; cbn in Hc; lia|].
  destruct (image_take kend Hkend _ _ _ _ _ _ _ _ _ _ _ I ltac:(done) ltac:(done)) as (Hz&m1&E&Hw).
  eapply wp_run; [exact E|]. apply wp_bind, wp_modify, wp_bind. eapply wp_mono; [exact Hw|].
  intros r m2 [(_&Hk2&l'&I2)|[C2 Hp]].
  - destruct (im_see _ _ _ _ _ _ _ _ _ _ _ I2 0 ltac:(done)) as (e&E1&_).
    assert (Ev : upage e = v).
    { assert (Hu : user_page (km_mem m2) d (upage e)) by (exists 0, e; split; [done|by split]).
      apply (im_user _ _ _ _ _ _ _ _ _ _ _ I2) in Hu. by apply list_elem_of_singleton in Hu. }
    assert (Hp := image_poke kend _ _ _ _ _ _ _ _ _ _ 0 e 0 initcode I2 ltac:(done) eq_refl E1 ltac:(lia) ltac:(lia)).
    rewrite Z.add_0_r, Ev in Hp. eapply wp_mono; [exact Hp|].
    intros [] m3 [I3 Hm3]. eapply HQ; [exact I3|]. eapply kernel_space_same; [|exact Hks].
    intros x Hx. by rewrite Hm3, Hk2.
  - assert (Hkt2 : kernel_tables (km_mem m2) d) by (intros i Hir Hpi; apply Hkt; auto).
    pose proof (kernel_count kend _ _ _ _ _ _ Hnd C2 Hkt2) as Hc. cbn in Hc. lia.
Qed.

(** ** [namei("/")] *)

Lemma namei_root_wp b (l : list inode) (Q : option nat → fs B → Prop) : kst_ok (kof b) → is_free LIcache (kof b) → icache_ok l →
  (∀ i (l' : list inode), icache_ok l' → got l l' i ROOTDEV ROOTINO → Q (Some i) (Fs b l')) →
  wp (namei [SLASH]) Q (Fs b l).
Proof.
  intros Hok Hf Hc HQ. unfold namei. apply wp_bind. unfold namex. cbn [hd Z.eqb Pos.eqb SLASH]. apply wp_bind.
  apply iget_free_wp; [done|done|done|]. intros i l' Hc' Hg. change (SLASH =? SLASH) with true.
  cbn [length loop namex_step]. apply wp_bind.
  change (skipelem [SLASH] (replicate 14 0)) with (@None (list Z * list Z)). cbn iota. apply wp_ret, wp_ret, wp_ret. by apply HQ.
Qed.

(** ** [userinit] *)

Record boot_ready s l : Prop := {
  br_km : km_ready (lget sys_km s);
  br_ptable : is_free LPtable (kern s);
  br_icache : is_free LIcache (kern s);
  br_inodes : icache_ok (fs_inode (sy_fs s));
  br_free : free_pages (lget sys_km s) l;
  br_room : (68 ≤ length l)%nat;
  br_unused : ∃ i q, k_procs (kern s) !! i = Some q ∧ p_state q = UNUSED
}.

(** The registers the process starts with. *)
Definition first_tf : trapframe :=
  let ds := Z.lor (Z.shiftl SEG_UDATA 3) DPL_USER in
  set_tf_cs (Z.lor (Z.shiftl SEG_UCODE 3) DPL_USER) (set_tf_ds ds (set_tf_es ds
    (set_tf_ss ds (set_tf_eflags FL_IF (set_tf_esp PGSIZE (set_tf_eip 0 tf_zero)))))).

(** Its entry: kernel stack [v], page table [d], in the place of [q]. *)
Definition first_proc (pid v d : Z) (cwd : nat) q : proc :=
  Proc PGSIZE d v RUNNABLE pid (p_parent q) first_tf (Context_ 0 0 0 0 forkret_addr) (p_chan q) (p_killed q)
    (p_ofile q) (Some cwd) (copy_name (p_name q) (zs "initcode")) (p_signal q) (p_sigArr q).

(** The system with process [np] made: its kernel stack, its memory and its
    directory, and where the free pages [l] went. *)
Definition first_made s l (np : nat) s' : Prop := ∃ m l' q v d cwd ino,
  k_procs (kern s) !! np = Some q ∧ p_state q = UNUSED ∧
  s' = after (set_sy_initproc (Some np) s) m ino (sy_file s) (i32 (sy_nextpid s + 1)) ∧
  km_k m = set_k_procs (<[np := first_proc (sy_nextpid s) v d cwd q]> (k_procs (kern s))) (kern s) ∧
  icache_ok ino ∧ got (fs_inode (sy_fs s)) ino cwd ROOTDEV ROOTINO ∧
  mem_from kend l s m l' ∧
  v ∉ l' ∧ ¬ pt_page (km_mem m) d v ∧ ¬ user_page (km_mem m) d v ∧ stack_ok trapret_addr v (km_mem m) ∧
  uspace (km_mem m) d l' ∧ kernel_space (km_mem m) d ∧
  user_mem (km_mem m) d PGSIZE (λ _, true) (over 0 initcode (λ _, 0)) ∧
  ∀ x, x ∈ l ↔ x ∈ l' ∨ x = v ∨ pt_page (km_mem m) d x ∨ user_page (km_mem m) d x.

Lemma first_tail_wp s m np (Q : unit → sys B → Prop) d : kst_ok (km_k m) → is_free LIcache (km_k m) →
  icache_ok (fs_inode (sy_fs s)) →
  (∀ cwd ino, icache_ok ino → got (fs_inode (sy_fs s)) ino cwd ROOTDEV ROOTINO →
     Q tt (after s (on_proc np (λ q, set_p_state RUNNABLE (set_p_cwd (Some cwd) (set_p_name (copy_name (p_name q) (zs "initcode"))
       (set_p_tf first_tf (set_p_sz PGSIZE q))))) m) ino (sy_file s) d)) →
  wp (uproc np (λ p, set_p_tf first_tf (set_p_sz PGSIZE p));;
      uproc np (λ p, set_p_name (copy_name (p_name p) [105; 110; 105; 116; 99; 111; 100; 101]) p);;
      cwd ← fsz (namei [SLASH]);
      uproc np (λ p, set_p_state RUNNABLE (set_p_cwd cwd p))) Q (after s m (fs_inode (sy_fs s)) (sy_file s) d).
Proof.
  intros Hok Hic Hin HQ. do 2 apply after_uproc. apply wp_bind. unfold fsz. apply wp_zoom. cbn [sys_fs lget lset sy_fs after].
  assert (E : kof (lset bl_k (km_k m) (fs_bl (sy_fs s))) = km_k m) by (unfold kof; apply lget_lset).
  apply namei_root_wp; [unfold kof; rewrite lget_lset; exact Hok|unfold kof; rewrite lget_lset; exact Hic|done|]. intros cwd ino Hi Hg.
  set (m2 := on_proc np _ (on_proc np _ m)).
  match goal with |- wp _ _ ?x => change x with (after s m2 ino (sy_file s) d) end.
  apply after_uproc_end. unfold m2. rewrite !on_proc_twice. erewrite on_proc_ext; [by apply HQ|done].
Qed.
(** Memory outside of the pages of an image. *)
Lemma image_outside k0 me l0 u d n acc c m l v a : image k0 me l0 u d n acc c m l → Forall page l0 → page v → v ∉ l0 → in_page v a →
  km_mem m a = me a.
Proof.
  intros I Hl Hv Hn Ha. apply (ch_frame _ _ _ _ _ _ _ (im_child _ _ _ _ _ _ _ _ _ _ _ I)). intros w Hw Hin.
  rewrite Forall_forall in Hl. assert (Hne : w ≠ v) by (intros ->; done).
  destruct (page_apart kend w v a (Hl w Hw) Hv Hne Ha); unfold in_page in Hin; lia.
Qed.

Lemma userinit_wp s l (Q : unit → sys B → Prop) : boot_ready s l → Z.of_nat (length initcode) < PGSIZE →
  (∀ np s', first_made s l np s' → Q tt s') →
  wp (userinit kdata forkret_addr trapret_addr initcode) Q s.
Proof using BL Hkdata Hkend.
  intros [R1 R2 R3 R4 R5 R6 R7] Hi HQ. apply after_start. set (m0 := lget sys_km s) in *. unfold userinit.
  apply wp_bind. eapply (allocproc_wp kend forkret_addr trapret_addr s m0 _ _ _ l); [done|done|done| |].
  { intros ps pid m _ _ [->|Hf]; [cbn in R6; lia|]. destruct R7 as (i&q&Hq&Hu). rewrite Forall_forall in Hf.
    exfalso. by apply (Hf q); [eapply list_elem_of_lookup_2|]. }
  intros np q v l1 m1 Hq Hu -> Hr1 Hk1 Hf1 Hout Hst. apply wp_bind, wp_modify. set (s1 := set_sy_initproc (Some np) s).
  match goal with |- wp _ _ ?x => change x with (after s1 m1 (fs_inode (sy_fs s1)) (sy_file s1) (i32 (sy_nextpid s + 1))) end.
  destruct R5 as (_&Hpg&Hnd). apply Forall_cons in Hpg as [Hv Hpg]. apply NoDup_cons in Hnd as [Hvl Hnd]. cbn [length] in R6.
  apply wp_bind, after_km. eapply (setupkvm_wp kend kdata Hkdata m1 l1); [done|done|intros; lia|].
  intros m2 l2 d Hd Hc Hno Hkt Hks. apply after_uproc. rewrite (proj2 (Z.eqb_neq d 0)) by done. apply wp_bind, after_km.
  assert (Hr2 : km_ready m2) by apply Hc.
  assert (Hc' : child (on_proc np (set_p_pgdir d) m1) l1 [] d (on_proc np (set_p_pgdir d) m2) l2).
  { destruct Hc as [C1 C2 C3 C4 C5 C6 C7]. split; try done. cbn. by rewrite C2. }
  eapply (inituvm_wp _ _ d _ l2 _ Hc'); try done; [lia|]. intros m3 l3 w I3 Hks3. cbn [on_proc km_k set_km_k km_mem] in I3.
  assert (Hk3 : km_k m3 = upd_proc np (set_p_pgdir d) (km_k m1)) by apply (im_child _ _ _ _ _ _ _ _ _ _ _ I3).
  assert (Hok3 : kst_ok (km_k m3)) by (rewrite Hk3; apply Hr1).
  assert (Hic3 : is_free LIcache (km_k m3)) by (rewrite Hk3; cbn; rewrite Hk1; exact R3).
  apply first_tail_wp; [done|done|done|]. intros cwd ino Hio Hg. apply (HQ np). set (m4 := on_proc np _ m3).
  exists m4, l3, q, v, d, cwd, ino. pose proof I3 as [Ic Iu _ _ _ _ _].
  assert (Hst3 : ∀ a, in_page v a → km_mem m3 a = km_mem m1 a) by (intros a; by eapply image_outside).
  assert (Hsub : ∀ x, x ∈ l3 ∨ pt_page (km_mem m3) d x → x ∈ l1) by (intros x Hx; by apply (ch_from _ _ _ _ _ _ _ Ic)).
  assert (Hup := im_user _ _ _ _ _ _ _ _ _ _ _ I3). assert (Hus := im_sub _ _ _ _ _ _ _ _ _ _ _ I3).
  split_and!; try done.
  - unfold m4, on_proc, upd_proc. cbn. rewrite Hk3. cbn. rewrite Hk1. cbn. rewrite !list_alter_alter_eq. unfold set_k_procs. cbn.
    f_equal. rewrite (alter_at _ _ _ q) by done. done.
  - split_and!; [apply Ic|intros x Hx; right; apply Hsub; by left|]. intros a Ha. cbn. transitivity (km_mem m1 a); [|apply Hout; apply Ha; by left].
    apply (ch_frame _ _ _ _ _ _ _ Ic). intros x Hx. apply Ha. by right.
  - intros Hx. apply Hvl, Hsub. by left.
  - intros Hx. apply Hvl, Hsub. by right.
  - intros Hx. apply Hvl, Hus, Hup. exact Hx.
  - unfold stack_ok in *. cbn. rewrite <- Hst. apply load32_ext. intros i Hi'. apply Hst3.
    unfold in_page, KSTACKSIZE, TFSIZE, PGSIZE. lia.
  - cbn. split; [|by apply I3]. intros x Hx. destruct (im_see _ _ _ _ _ _ _ _ _ _ _ I3 x Hx) as (e&E1&_&E2&E3). by exists e.
  - intros x. cbn. rewrite elem_of_cons. split.
    + intros [->|Hx]; [by right; left|]. destruct (ch_all _ _ _ _ _ _ _ Ic x Hx) as [?|[?|?%Hup]]; auto.
    + intros [Hx|[->|[Hx|Hx%Hup]]]; auto.
Qed.
End Init.
