(* ===== verification/Wait.v ===== *)
(** The end of a process: [wait] (proc.c) gives back all it had. *)
From S2P Require Import Prelude Kmonad Wp Kstate Spinlock Sleep Str Kalloc Disk Log Blocks FsEx Balloc Inode Icache FileData Dir Pipe Vm VmLaws VmFree VmCopy File Proc Fork.

Section Wait.
Context {B : Type} {BB : Blocks B} {BL : BlockLaws B} {BT : Trans B} {DV : Devsw B}.
Context (kend : Z).
Notation free_pages := (free_pages kend).
Notation uspace := (uspace kend).
Notation page := (page kend).
#[local] Existing Instance sys_k_laws.
Implicit Types (s : sys B) (m : kmem) (l : list Z) (q : proc).

(** ** A page beside an address space is freed *)

Section Beside.
Variables (me me' : mem) (d v : Z) (l : list Z).
Hypothesis Hu : uspace me d l.
Hypothesis Hv : page v ∧ ¬ pt_page me d v ∧ ¬ user_page me d v.
Hypothesis Hout : ∀ a, ¬ in_page v a → me' a = me a.

Lemma beside_pt w a : pt_page me d w → in_page w a → me' a = me a.
Proof.
  intros Hw Ha. destruct Hv as (Hp&Hn&_). destruct (pt_page_page kend _ _ _ _ (us_pt _ _ _ _ Hu) Hw) as [Hwp _].
  eapply kept_page; [exact Hp|exact Hout|exact Hwp| |exact Ha]. by intros ->.
Qed.
Lemma beside_space : uspace me' d (v :: l).
Proof.
  destruct Hv as (Hp&Hn&Hnu). pose proof Hu as [[[Hd Hdl] Ht Hi] Hpg Hinj].
  assert (Hdv : d ≠ v) by (intros ->; apply Hn; by left).
  assert (Htv : ∀ i, 0 ≤ i < 1024 → present me d i = true → tab me d i ≠ v)
    by (intros i Hir Hpi <-; apply Hn; right; by exists i).
  split.
  - apply (same_pt kend me me' d beside_pt l); [by split|by apply not_elem_of_cons|].
    intros i Hir Hpi. destruct (Ht i Hir Hpi) as (_&?&_). apply not_elem_of_cons. split; [by apply Htv|done].
  - intros x e Hx. rewrite (same_mmu me me' d beside_pt). intros He. destruct (Hpg x e Hx He) as (P1&P2&P3&P4&P5).
    split_and!; try done.
    + apply not_elem_of_cons. split; [|done]. intros Hev. apply Hnu. by exists x, e.
    + intros i Hir. rewrite (same_present me me' d beside_pt), (same_tab me me' d beside_pt) by done. by apply P5.
  - intros x y e e' Hx Hy. rewrite !(same_mmu me me' d beside_pt). by apply Hinj.
Qed.
Lemma beside_pages w : (pt_page me' d w ↔ pt_page me d w) ∧ (user_page me' d w ↔ user_page me d w).
Proof.
  split; [split|].
  - apply same_pde_pt_page. intros i Hi. by apply (same_pde me me' d beside_pt).
  - apply same_pde_pt_page. intros i Hi. symmetry. by apply (same_pde me me' d beside_pt).
  - unfold user_page. by setoid_rewrite (same_mmu me me' d beside_pt).
Qed.
End Beside.

(** ** [wait] *)

(** The kernel when process [i] calls [wait]: a child that has exited still
    owns its kernel stack and its address space. *)
Record wait_ready s (i : nat) (p : proc) l : Prop := {
  wr_km : km_ready (lget sys_km s);
  wr_ptable : is_free LPtable (kern s);
  wr_ncli : cpu_ncli (k_cpu (kern s)) = 0;
  wr_cur : cpu_proc (k_cpu (kern s)) = Some i;
  wr_proc : k_procs (kern s) !! i = Some p;
  wr_free : free_pages (lget sys_km s) l;
  wr_zombie : ∀ j q, k_procs (kern s) !! j = Some q → p_parent q = Some i → p_state q = ZOMBIE →
    uspace (sy_mem s) (p_pgdir q) l ∧ page (p_kstack q) ∧ p_kstack q ∉ l ∧
    ¬ pt_page (sy_mem s) (p_pgdir q) (p_kstack q) ∧ ¬ user_page (sy_mem s) (p_pgdir q) (p_kstack q)
}.

(** Every page of process [q]. *)
Definition proc_page (me : mem) q (v : Z) : Prop :=
  v = p_kstack q ∨ pt_page me (p_pgdir q) v ∨ user_page me (p_pgdir q) v.

Definition reaped_child s l (j : nat) q s' : Prop := ∃ m l',
  s' = after s m (fs_inode (sy_fs s)) (sy_file s) (sy_nextpid s) ∧
  km_k m = set_k_procs (<[j := reaped (set_p_kstack 0 q)]> (k_procs (kern s))) (kern s) ∧
  free_pages m l' ∧ (∀ v, v ∈ l' ↔ v ∈ l ∨ proc_page (sy_mem s) q v) ∧
  ∀ a, (∀ v, proc_page (sy_mem s) q v → ¬ in_page v a) → km_mem m a = sy_mem s a.

(** The zombie [j] is given back, under the lock of the table. *)
Lemma reap_wp s i p l j q (Q : Z → sys B → Prop) : wait_ready s i p l →
  k_procs (kern s) !! j = Some q → p_parent q = Some i → p_state q = ZOMBIE →
  (∀ s', reaped_child s l j q s' → Q (p_pid q) s') →
  wp (p ← getproc j;
      kmz (kfree kend (p_kstack p));;
      uproc j (set_p_kstack 0);;
      kmz (freevm kend (p_pgdir p));;
      uproc j reaped;;
      sk (release LPtable);;
      mret (p_pid p)) Q
    (after s (set_km_k (acq LPtable (kern s)) (lget sys_km s)) (fs_inode (sy_fs s)) (sy_file s) (sy_nextpid s)).
Proof.
  intros Hr Hq Hp Hz HQ. set (m0 := lget sys_km s). destruct (wr_zombie _ _ _ _ Hr j q Hq Hp Hz) as (Hu&Hv&Hvl&Hvp&Hvu).
  assert (Hok : kst_ok (kern s)) by apply Hr. pose proof (wr_ptable _ _ _ _ Hr) as Hpt.
  assert (Hr0 : km_ready (set_km_k (acq LPtable (kern s)) m0)).
  { split; [by apply acq_ok|]. apply acq_free_ne; [done|]. apply (wr_km _ _ _ _ Hr). }
  eapply (after_getproc j q); [done|]. apply wp_bind, after_km.
  eapply (kfree_wp kend _ l); [done|apply Hr|done|done|]. intros m1 K1 K2 K3 K4. cbn in K2, K4. apply after_uproc.
  assert (Hv3 : page (p_kstack q) ∧ ¬ pt_page (sy_mem s) (p_pgdir q) (p_kstack q) ∧
    ¬ user_page (sy_mem s) (p_pgdir q) (p_kstack q)) by done.
  apply wp_bind, after_km. eapply wp_mono; [apply (freevm_wp kend (on_proc j (set_p_kstack 0) m1) (p_kstack q :: l));
    [exact K1|exact K3|by eapply (beside_space (sy_mem s))]|].
  intros [] m2 (F1&F2&(l2&F3&F4)&F5). cbn in F4, F5. apply after_uproc, wp_bind, after_sk. cbn [km_k on_proc set_km_k].
  pose proof (beside_pages (sy_mem s) (km_mem m1) _ _ l Hu Hv3 K4) as Hpg.
  rewrite F2. cbn [on_proc set_km_k km_k]. rewrite K2. cbn.
  match goal with |- wp _ _ (upd_proc j reaped (upd_proc j ?f _)) =>
    change (wp (release LPtable) (λ a k, wp (mret (p_pid q)) Q
        (after s (set_km_k k (set_km_k (upd_proc j reaped (km_k m2)) m2)) (fs_inode (sy_fs s)) (sy_file s) (sy_nextpid s)))
      (set_k_procs (alter reaped j (alter f j (k_procs (kern s)))) (acq LPtable (kern s)))) end.
  eapply wp_run; [by apply release_acq|]. apply wp_ret, HQ. eexists _, l2. split; [reflexivity|]. split_and!.
  - cbn. by rewrite list_alter_alter_eq, (alter_at _ _ _ q).
  - done.
  - intros v. rewrite F4, elem_of_cons. unfold proc_page. destruct (Hpg v) as [-> ->]. naive_solver.
  - intros a Ha. cbn. rewrite F5.
    + apply K4. apply Ha. by left.
    + intros v [Hw|Hw]; apply Ha; right; [left|right]; by apply Hpg.
Qed.

(** [sleep] under the lock of the table. *)
Lemma sleep_held i p c k : kst_ok k → cpu_ncli (k_cpu k) = 0 → cpu_proc (k_cpu k) = Some i → k_procs k !! i = Some p →
  sleep c LPtable (acq LPtable k) =
    Blocked c (upd_proc i (λ p, set_p_state SLEEPING (set_p_chan c p)) (acq LPtable k)).
Proof.
  intros Hok Hn Hc Hp. unfold sleep. erewrite bind_run by reflexivity. cbn [k_cpu acq cpu_push cpu_proc]. rewrite Hc.
  rewrite bool_decide_true by done. cbn [negb when]. erewrite bind_run by reflexivity. erewrite bind_run by reflexivity.
  erewrite (sched_run i (set_p_state SLEEPING (set_p_chan c p))); cbn; try done.
  - by rewrite lookup_insert_eq.
  - lia.
  - rewrite list_lookup_alter, Hp. by case_decide.
Qed.

(** C21: [wait] collects a child that has exited.  If there is one, it returns
    the child's pid; the entry of the table is unused again, and the
    child's kernel stack, page tables and user pages are all on the free
    list, with no other memory changed.  If the caller has no children or has
    been killed, it returns -1 and changes nothing.  Otherwise the caller
    sleeps, as a process that [exit] of a child will wake. *)
Theorem wait_correct s i p l : wait_ready s i p l →
  match wait_scan i (k_procs (kern s)) with
  | (Some j, _) => ∃ q, k_procs (kern s) !! j = Some q ∧ p_parent q = Some i ∧ p_state q = ZOMBIE ∧
      wp (wait kend) (λ r s', r = p_pid q ∧ reaped_child s l j q s') s
  | (None, havekids) =>
      if negb havekids || p_killed p then wait kend s = Ok (-1) s
      else wait kend s = Blocked (CProc i)
        (with_kern (upd_proc i (λ p, set_p_state SLEEPING (set_p_chan (CProc i) p)) (acq LPtable (kern s))) s)
  end.
Proof.
  intros Hr. pose proof (wr_ptable _ _ _ _ Hr) as Hpt. assert (Hok : kst_ok (kern s)) by apply Hr.
  assert (Hcur : sk curproc s = Ok i s).
  { unfold sk, zoom, curproc, deref. change (lget sys_k s) with (kern s). rewrite (wr_cur _ _ _ _ Hr).
    f_equal. apply lset_lget. }
  assert (Hacq : sk (acquire LPtable) s = Ok tt (with_kern (acq LPtable (kern s)) s)) by (apply sk_run; by apply acquire_run).
  set (s1 := with_kern (acq LPtable (kern s)) s) in *.
  assert (Hk1 : kern s1 = acq LPtable (kern s)) by (apply lget_lset).
  assert (Hget : ∀ {A} (f : kst → A), sk (gets f) s1 = Ok (f (acq LPtable (kern s))) s1).
  { intros A f. rewrite <- Hk1. unfold sk, zoom, gets. f_equal. apply lset_lget. }
  unfold wait. destruct (wait_scan i (k_procs (kern s))) as [[j|] kids] eqn:E.
  - pose proof E as E'. injection E' as E' _. apply find_proc_some in E' as (q&Hq&Hb). apply andb_true_iff in Hb as [Hp Hz].
    apply bool_decide_eq_true in Hp, Hz. exists q. split_and!; try done.
    apply after_start, wp_bind, after_sk. eapply wp_deref; [apply Hr|]. apply wp_bind, after_sk.
    eapply wp_run; [by apply acquire_run|]. apply wp_bind, after_sk, wp_gets. cbn [k_procs acq set_km_k km_k].
    change (k_procs (km_k (lget sys_km s))) with (k_procs (kern s)). rewrite E.
    by apply (reap_wp s i p l j q).
  - mrun Hcur. mrun Hacq. mrun (Hget _ k_procs). cbn [k_procs acq]. rewrite E.
    assert (Hme : getproc i s1 = Ok p s1).
    { unfold getproc, sk, zoom, deref. change (lget sys_k s1) with (kern s1). rewrite Hk1. cbn [k_procs acq].
      rewrite (wr_proc _ _ _ _ Hr), <- Hk1. f_equal. apply lset_lget. }
    mrun Hme. destruct (negb kids || p_killed p).
    + erewrite bind_run; [reflexivity|]. unfold sk, zoom. change (lget sys_k s1) with (kern s1).
      rewrite Hk1, release_acq' by done. f_equal. unfold s1, with_kern. rewrite lset_lset. apply lset_lget.
    + unfold mbind at 1, M_bind at 1. unfold sk at 1, zoom at 1. change (lget sys_k s1) with (kern s1).
      rewrite Hk1, (sleep_held i p); [|done|apply Hr|apply Hr|apply Hr]. f_equal. unfold s1, with_kern. by rewrite lset_lset.
Qed.
End Wait.

(** ** An example: a child of one page has exited *)

Definition ex_zombie : proc :=
  Proc 4096 ex_pgdir 0x8010c000 ZOMBIE 7 (Some 0%nat) tf_zero cx_zero CNone false (replicate 16 None)
    None (replicate 16 0) 0 (replicate 32 0).
Definition ex_wait_k : kst :=
  Kst (Cpu 0 true 0 true (Some 0%nat)) {[LKmem := lk_free; LPtable := lk_free]} [set_p_state RUNNING proc_zero; ex_zombie].
Definition ex_wait : sys (log Memide.memide) := lset sys_km (Kmem ex_wait_k true 0 (km_mem ex_hole)) ex_sys.

Lemma ex_wait_ready : wait_ready kend_ex ex_wait 0 (set_p_state RUNNING proc_zero) [].
Proof.
  destruct hole_space as (_&_&Hu). split; try done.
  - split_and!; [done|constructor|constructor].
  - intros [|[|j]] q Hq; [by injection Hq as <-|injection Hq as <-|done]. intros _ _.
    change (sy_mem ex_wait) with (km_mem ex_hole). cbn [p_pgdir p_kstack ex_zombie].
    split; [exact Hu|]. split; [split; [lia|by vm_compute]|]. split; [apply not_elem_of_nil|]. split.
    + intros [Hv|(i&Hi&Hp&Hv)]; [done|].
      revert Hp Hv. unfold present, tab. rewrite hole_pde by done. destruct (i =? 1); by vm_compute.
    + intros (x&e&Hx&He&Hv). revert He. rewrite hole_mmu by (unfold KERNBASE in Hx; lia).
      destruct (x / PGSIZE =? 1 * 1024); [|done]. intros [= <-]. by vm_compute in Hv.
Qed.

Lemma wait_correct_witness : wp (wait kend_ex) (λ r s', r = 7 ∧ ∃ l', free_pages kend_ex (lget sys_km s') l' ∧
  0x8010c000 ∈ l' ∧ 0x8010b000 ∈ l' ∧ ex_pgdir ∈ l') ex_wait.
Proof.
  destruct (wait_correct kend_ex ex_wait 0 (set_p_state RUNNING proc_zero) [] ex_wait_ready) as (q&Hq&_&_&Hw).
  injection Hq as <-. eapply wp_mono; [exact Hw|]. intros r s' [-> (m&l'&->&_&Hf&Hin&_)]. split; [reflexivity|].
  exists l'. split; [|split_and!].
  - unfold after. cbn. destruct m; exact Hf.
  - apply Hin. right. left. reflexivity.
  - apply Hin. right. right. right. exists 0x400000, 0x10b007. split; [unfold KERNBASE; lia|]. split; vm_compute; reflexivity.
  - apply Hin. right. right. left. left. reflexivity.
Defined.
