(* ===== verification/ProcLaws.v ===== *)
(** The process table under concurrency: no process runs on two CPUs; what
    [kill], [exit] and [wait] do to the table. *)
From S2P Require Import Prelude Kmonad Wp Kstate Spinlock Sleep Str Kalloc Disk Log Blocks FsEx Balloc Inode Icache FileData Dir Pipe Vm File Proc.

(** ** Partial correctness with two ends: return or switch to the scheduler *)

Definition tri {S A} (m : M S A) (Q : A → S → Prop) (R : S → Prop) (s : S) : Prop :=
  match m s with
  | Ok a s' => Q a s'
  | Blocked _ s' => R s'
  | _ => True
  end.

Section Tri.
Context {S : Type}.
Lemma tri_bind {A C} (m : M S A) (k : A → M S C) Q R s :
  tri m (λ a, tri (k a) Q R) R s → tri (m ≫= k) Q R s.
Proof. unfold tri, mbind, M_bind. by destruct (m s). Qed.
Lemma tri_ret {A} (a : A) (Q : A → S → Prop) R s : Q a s → tri (mret a) Q R s.
Proof. done. Qed.
Lemma tri_gets {A} (f : S → A) (Q : A → S → Prop) R s : Q (f s) s → tri (gets f) Q R s.
Proof. done. Qed.
Lemma tri_modify (f : S → S) (Q : unit → S → Prop) R s : Q tt (f s) → tri (modify f) Q R s.
Proof. done. Qed.
Lemma tri_deref {A} (f : S → option A) (Q : A → S → Prop) R s :
  (∀ a, f s = Some a → Q a s) → tri (deref f) Q R s.
Proof. unfold tri, deref. intros H. destruct (f s); auto. Qed.
Lemma tri_panic {A} msg (Q : A → S → Prop) R s : tri (panic msg) Q R s.
Proof. done. Qed.
Lemma tri_mono {A} (m : M S A) (Q Q' : A → S → Prop) (R R' : S → Prop) s :
  tri m Q R s → (∀ a s', Q a s' → Q' a s') → (∀ s', R s' → R' s') → tri m Q' R' s.
Proof. unfold tri. intros H HQ HR. destruct (m s); auto. Qed.
Lemma tri_when (c : bool) (m : M S unit) (Q : unit → S → Prop) R s :
  (c = true → tri m Q R s) → (c = false → Q tt s) → tri (when c m) Q R s.
Proof. unfold when. destruct c; intros H1 H2; [auto|apply tri_ret; auto]. Qed.
Lemma tri_for_each {A} (l : list A) (f : A → M S unit) (I : S → Prop) R s :
  I s → (∀ x s, x ∈ l → I s → tri (f x) (λ _, I) R s) → tri (for_each l f) (λ _, I) R s.
Proof.
  revert s. induction l as [|x l IH]; intros s H0 Hs; [by apply tri_ret|].
  apply tri_bind. eapply tri_mono; [by apply Hs; [left|]| |done]. intros [] s1 H1.
  apply IH; [done|]. intros y s2 Hy. apply Hs. by right.
Qed.
End Tri.

Ltac tstep :=
  match goal with
  | |- tri (mbind _ _) _ _ _ => apply tri_bind
  | |- tri (mret _) _ _ _ => apply tri_ret
  | |- tri (gets _) _ _ _ => apply tri_gets
  | |- tri (modify _) _ _ _ => apply tri_modify
  | |- tri (panic _) _ _ _ => apply tri_panic
  | |- tri (deref _) _ _ _ => apply tri_deref; intros ? ?
  | |- tri (if ?c then _ else _) _ _ _ => let E := fresh "E" in destruct c eqn:E
  end.

(** Taking and giving up locks leaves the table and the CPU's process alone. *)
Definition same_run (s s' : kst) : Prop :=
  k_procs s' = k_procs s ∧ cpu_proc (k_cpu s') = cpu_proc (k_cpu s).

Lemma acquire_same l R s : tri (acquire l) (λ _ s', same_run s s') R s.
Proof.
  unfold acquire, pushcli, xchg, set_owner, holding, cli. destruct s as [[id fi n ie p] lks ps].
  repeat (tstep; cbn). unfold when. destruct (n =? 0); repeat (tstep; cbn; try done).
Qed.
Lemma release_same l R s : tri (release l) (λ _ s', same_run s s') R s.
Proof.
  unfold release, popcli, xchg, set_owner, holding, sti. destruct s as [[id fi n ie p] lks ps].
  repeat (tstep; cbn; try done). unfold when. destruct (_ && _); repeat (tstep; cbn; try done).
Qed.

(** ** Process states *)

Definition st (s : kst) (j : nat) : option procstate := p_state <$> k_procs s !! j.

(** A process other than the one acting may only be woken up. *)
Definition nudged (x y : option procstate) : Prop :=
  y = x ∨ (x = Some SLEEPING ∧ y = Some RUNNABLE).
Definition others (i : option nat) (s s' : kst) : Prop :=
  cpu_proc (k_cpu s') = cpu_proc (k_cpu s) ∧ ∀ j, Some j ≠ i → nudged (st s j) (st s' j).

Lemma nudged_trans x y z : nudged x y → nudged y z → nudged x z.
Proof. unfold nudged. naive_solver. Qed.
Lemma others_refl i s : others i s s.
Proof. split; [done|]. by left. Qed.
Lemma others_trans i a b c : others i a b → others i b c → others i a c.
Proof. intros [E1 H1] [E2 H2]. split; [congruence|]. intros j Hj. eapply nudged_trans; eauto. Qed.
Lemma others_same i a b : same_run a b → others i a b.
Proof. intros [H1 H2]. split; [done|]. intros j _. left. unfold st. by rewrite H1. Qed.

Lemma st_upd s i f j : st (upd_proc i f s) j =
  if decide (i = j) then (p_state ∘ f) <$> k_procs s !! j else st s j.
Proof.
  unfold st, upd_proc; cbn. rewrite list_lookup_alter. case_decide as Hij; [subst|done].
  by destruct (k_procs s !! j).
Qed.

Lemma wakeup1_others i c R s : tri (wakeup1 c) (λ _ s', others i s s') R s.
Proof.
  apply tri_modify. split; [done|]. intros j _. unfold st; cbn. rewrite list_lookup_fmap.
  destruct (k_procs s !! j) as [p|]; cbn; [|by left]. unfold wake_proc, nudged.
  destruct (decide (p_state p = SLEEPING)) as [E|E].
  - rewrite bool_decide_true by done. destruct (bool_decide (p_chan p = c)); [right|by left].
    by rewrite E.
  - rewrite (bool_decide_false _ E). by left.
Qed.

(** [sched] switches away only from a process that is not RUNNING. *)
Lemma sched_blocked i s : cpu_proc (k_cpu s) = Some i →
  tri sched (λ _ _, False) (λ s', s' = s ∧ st s i ≠ Some RUNNING) s.
Proof.
  intros Hi. unfold sched, holding, curproc. repeat (tstep; cbn; try done).
  unfold tri, blocked. split; [done|]. simplify_eq. unfold st. rewrite H0. cbn. intros [= E'].
  by rewrite bool_decide_eq_false in E1.
Qed.

(** What leaves the CPU: afterwards the process is not RUNNING, and nobody
    else became RUNNING. *)
Definition leaves (i : nat) (m : M kst unit) : Prop := ∀ s, cpu_proc (k_cpu s) = Some i →
  tri m (λ _ _, False) (λ s', others (Some i) s s' ∧ st s' i ≠ Some RUNNING) s.

Lemma leave_sched i f s s0 : others (Some i) s0 s → cpu_proc (k_cpu s) = Some i →
  tri (modify (upd_proc i f);; sched) (λ _ _, False)
    (λ s', others (Some i) s0 s' ∧ st s' i ≠ Some RUNNING) s.
Proof.
  intros Ho Hc. tstep. tstep. eapply tri_mono; [apply (sched_blocked i); done|done|].
  intros s' [-> Hr]. split; [|done]. eapply others_trans; [exact Ho|]. split; [done|].
  intros j Hj. left. rewrite st_upd, decide_False; [done|congruence].
Qed.

Lemma yield_leaves i : leaves i yield.
Proof.
  intros s Hi. unfold yield. tstep. eapply tri_mono; [apply (acquire_same LPtable (λ _, False))| |done].
  intros [] s1 [H1 H2]. unfold curproc. tstep. tstep. assert (a = i) as -> by congruence.
  apply leave_sched; [by apply others_same|congruence].
Qed.
Lemma sleep_leaves i c lk : leaves i (sleep c lk).
Proof.
  intros s Hi. unfold sleep. tstep. tstep. rewrite Hi. tstep.
  eapply (tri_mono _ (λ _ s', same_run s s') _ (λ _, False)); [|intros [] s1 [H1 H2]|done].
  - apply tri_when; [|by intros]. intros _. tstep. eapply tri_mono; [apply (acquire_same LPtable (λ _, False))| |done].
    intros [] s1 [H1 H2]. eapply tri_mono; [apply (release_same lk (λ _, False))| |done].
    intros [] s2 [H3 H4]. split; congruence.
  - apply leave_sched; [by apply others_same|congruence].
Qed.

Lemma reparent_others i ini j R s : tri (reparent i ini j) (λ _ s', others (Some i) s s') R s.
Proof.
  unfold reparent. tstep. tstep. apply tri_when; [|intros; apply others_refl]. intros _. tstep. tstep.
  assert (Ho : others (Some i) s (upd_proc j (set_p_parent ini) s)).
  { split; [done|]. intros k _. left. rewrite st_upd. case_decide; [subst|done]. unfold st.
    by destruct (k_procs s !! k). }
  apply tri_when; [intros _|by intros].
  eapply tri_mono; [apply (wakeup1_others (Some i))| |done]. intros [] s' H'. by eapply others_trans.
Qed.

Lemma exit_leaves i ini : leaves i (exit_locked i ini).
Proof.
  intros s Hi. unfold exit_locked. tstep. eapply tri_mono; [apply (acquire_same LPtable (λ _, False))| |done].
  intros [] s1 Hs1. assert (H1 : others (Some i) s s1) by by apply others_same. tstep. tstep. tstep.
  eapply tri_mono; [apply (wakeup1_others (Some i) _ (λ _, False))| |done]. intros [] s2 H2. tstep. tstep. tstep.
  eapply tri_mono.
  { apply (tri_for_each _ _ (others (Some i) s) (λ _, False)); [by eapply others_trans|].
    intros j s3 _ H3. eapply tri_mono; [apply (reparent_others i ini j (λ _, False))| |done].
    intros [] s4 H4. by eapply others_trans. }
  2:{ done. }
  intros [] s3 H3. destruct H3 as [H3c H3].
  assert (Ht := leave_sched i (set_p_state ZOMBIE) s3 s (conj H3c H3) ltac:(congruence)).
  unfold tri, mbind, M_bind in *. cbn in *. by destruct (sched _) as [[] ?| | | | |].
Qed.

(** ** The scheduler *)

Definition picked (r : option nat) (s s' : kst) : Prop :=
  match r with
  | None => same_run s s'
  | Some j => st s j = Some RUNNABLE ∧ cpu_proc (k_cpu s') = Some j ∧
      ∀ k, st s' k = if decide (k = j) then Some RUNNING else st s k
  end.

Lemma scan_picked n : ∀ i R s, tri (scheduler_scan i n) (λ r, picked r s) R s.
Proof.
  induction n as [|n IH]; intros i R s; cbn [scheduler_scan]; [by apply tri_ret|].
  tstep. tstep. tstep; [|apply IH]. apply bool_decide_eq_true in E. unfold scheduler_pick.
  repeat tstep.
  eapply (tri_mono _ (λ _ s', s' = upd_cpu (set_cpu_proc (Some i)) s) _ (λ _, False)); [|intros [] s1 ->|done].
  { apply tri_when; intros _; [apply tri_panic|done]. }
  repeat tstep. cbn. split_and!; [unfold st; rewrite H; cbn; congruence|done|]. intros k.
  rewrite st_upd. destruct (decide (i = k)) as [<-|Hne].
  - rewrite decide_True by done. cbn. by rewrite H.
  - by rewrite decide_False by done.
Qed.

Lemma start_picked R s : cpu_proc (k_cpu s) = None →
  tri scheduler_start (λ r s', picked r s s') R s.
Proof.
  intros Hn. unfold scheduler_start, sti. tstep. tstep. tstep.
  eapply tri_mono; [apply (acquire_same LPtable (λ _, False))| |done]. intros [] s1 [H1 H2]. tstep. tstep. tstep.
  eapply tri_mono; [apply (scan_picked _ 0 (λ _, False))| |done]. intros r s2 Hp.
  assert (Hst : ∀ k, st s1 k = st s k) by (intros; unfold st; rewrite H1; done).
  destruct r as [j|].
  - tstep. destruct Hp as (P1&P2&P3). split_and!; [by rewrite <- Hst|done|]. intros k.
    rewrite P3, Hst. done.
  - tstep. eapply tri_mono; [apply (release_same LPtable (λ _, False))| |done]. intros [] s3 [H3 H4]. tstep.
    destruct Hp as [P1 P2]. cbn in *. split; congruence.
Qed.

Lemma resume_picked i R s :
  tri (scheduler_resume i) (λ r s', match r with
    | None => k_procs s' = k_procs s ∧ cpu_proc (k_cpu s') = None
    | Some _ => picked r s s' end) R s.
Proof.
  unfold scheduler_resume. tstep. tstep. tstep. tstep. tstep.
  eapply tri_mono; [apply (scan_picked _ (S i) (λ _, False))| |done]. intros r s2 Hp. destruct r as [j|].
  - by tstep.
  - tstep. eapply tri_mono; [apply (release_same LPtable (λ _, False))| |done]. intros [] s3 [H3 H4]. tstep.
    destruct Hp as [P1 P2]. cbn in *. split; congruence.
Qed.

(** ** All CPUs *)

Record psmp := Psmp { sm_cpus : list cpu; sm_locks : gmap lockid spinlock; sm_procs : list proc }.

(** The kernel as CPU [c] sees it, and the machine after CPU [c] has acted. *)
Definition seen (c : nat) (S : psmp) : option kst :=
  (λ cp, Kst cp (sm_locks S) (sm_procs S)) <$> sm_cpus S !! c.
Definition acted (c : nat) (S : psmp) (s' : kst) : psmp :=
  Psmp (<[c := k_cpu s']> (sm_cpus S)) (k_locks s') (k_procs s').

(** One step of the machine: the scheduler of an idle CPU picks a process or
    finds none; a process leaves its CPU through [yield], [sleep] or [exit]
    and the scheduler there goes on; a CPU wakes or kills processes; or it
    does something that neither changes the state of a process nor switches. *)
Inductive pstep (S : psmp) : psmp → Prop :=
| ps_idle c s r s' : seen c S = Some s → cpu_proc (k_cpu s) = None →
    scheduler_start s = Ok r s' → pstep S (acted c S s')
| ps_leave c s i m ch s1 r s' : seen c S = Some s → cpu_proc (k_cpu s) = Some i →
    (m = yield ∨ (∃ c' lk, m = sleep c' lk) ∨ (∃ ini, m = exit_locked i ini)) →
    m s = Blocked ch s1 → scheduler_resume i s1 = Ok r s' → pstep S (acted c S s')
| ps_wakeup c s ch s' : seen c S = Some s → wakeup ch s = Ok tt s' → pstep S (acted c S s')
| ps_kill c s pid r s' : seen c S = Some s → kill pid s = Ok r s' → pstep S (acted c S s')
| ps_quiet c s s' : seen c S = Some s → cpu_proc (k_cpu s') = cpu_proc (k_cpu s) →
    (∀ j, st s' j = st s j) → pstep S (acted c S s').

(** The running processes are exactly the current processes of the CPUs, and
    no process is current on two CPUs. *)
Record run_inv (S : psmp) : Prop := {
  ri_cur : ∀ c cp i, sm_cpus S !! c = Some cp → cpu_proc cp = Some i →
    p_state <$> sm_procs S !! i = Some RUNNING;
  ri_run : ∀ i, p_state <$> sm_procs S !! i = Some RUNNING →
    ∃ c cp, sm_cpus S !! c = Some cp ∧ cpu_proc cp = Some i;
  ri_one : ∀ c c' cp cp' i, sm_cpus S !! c = Some cp → sm_cpus S !! c' = Some cp' →
    cpu_proc cp = Some i → cpu_proc cp' = Some i → c = c'
}.

Lemma seen_inv c S s : seen c S = Some s → sm_cpus S !! c = Some (k_cpu s) ∧
  ∀ j, st s j = p_state <$> sm_procs S !! j.
Proof. unfold seen. intros (cp&Hc&->)%fmap_Some. done. Qed.

(** A step by CPU [c] that is described by its effect on the states. *)
Lemma inv_update S c s s' : run_inv S → seen c S = Some s →
  (∀ j, cpu_proc (k_cpu s') = Some j → st s' j = Some RUNNING) →
  (∀ j, st s' j = Some RUNNING → cpu_proc (k_cpu s') = Some j ∨
     (st s j = Some RUNNING ∧ cpu_proc (k_cpu s) ≠ Some j)) →
  (∀ j, st s j = Some RUNNING → cpu_proc (k_cpu s) ≠ Some j → st s' j = Some RUNNING) →
  (∀ j, cpu_proc (k_cpu s') = Some j → cpu_proc (k_cpu s) = Some j ∨ st s j ≠ Some RUNNING) →
  run_inv (acted c S s').
Proof.
  intros [I1 I2 I3] Hs H1 H2 H3 H4. destruct (seen_inv _ _ _ Hs) as [Hc Hst].
  assert (Hlt := lookup_lt_Some _ _ _ Hc).
  assert (Hoth : ∀ d cp j, sm_cpus S !! d = Some cp → d ≠ c → cpu_proc cp = Some j →
    st s j = Some RUNNING ∧ cpu_proc (k_cpu s) ≠ Some j).
  { intros d cp j Hd Hne Hj. split; [rewrite Hst; by eapply I1|].
    intros Hcj. apply Hne. by eapply (I3 d c cp (k_cpu s) j). }
  split; cbn [acted sm_cpus sm_procs].
  - intros d cp j Hd Hj. destruct (decide (d = c)) as [->|Hne].
    + rewrite list_lookup_insert_eq in Hd by done. injection Hd as <-. by apply H1.
    + rewrite list_lookup_insert_ne in Hd by done. destruct (Hoth d cp j Hd Hne Hj). by apply H3.
  - intros j Hj. destruct (H2 j Hj) as [Hcj|[Hr Hn]].
    + exists c, (k_cpu s'). by rewrite list_lookup_insert_eq.
    + rewrite Hst in Hr. destruct (I2 j Hr) as (d&cp&Hd&Hdj). exists d, cp. split; [|done].
      rewrite list_lookup_insert_ne; [done|]. intros ->. congruence.
  - intros d d' cp cp' j Hd Hd' Hj Hj'.
    destruct (decide (d = c)) as [->|Hne], (decide (d' = c)) as [->|Hne']; [done|..].
    + rewrite list_lookup_insert_eq in Hd by done. injection Hd as <-.
      rewrite list_lookup_insert_ne in Hd' by done. destruct (Hoth d' cp' j Hd' Hne' Hj').
      destruct (H4 j Hj); done.
    + rewrite list_lookup_insert_eq in Hd' by done. injection Hd' as <-.
      rewrite list_lookup_insert_ne in Hd by done. destruct (Hoth d cp j Hd Hne Hj).
      destruct (H4 j Hj'); done.
    + rewrite list_lookup_insert_ne in Hd, Hd' by done. by eapply I3.
Qed.

(** Steps after which the CPU runs the same process. *)
Lemma inv_stay S c s s' : run_inv S → seen c S = Some s → others None s s' → run_inv (acted c S s').
Proof.
  intros I Hs [Hc Ho]. destruct (seen_inv _ _ _ Hs) as [Hcp Hst].
  assert (Hr : ∀ j, st s' j = Some RUNNING ↔ st s j = Some RUNNING).
  { intros j. destruct (Ho j ltac:(done)) as [-> |[E1 E2]]; [done|]. rewrite E1, E2. done. }
  eapply inv_update; try done; rewrite ?Hc.
  - intros j Hj. apply Hr. rewrite Hst. by eapply (ri_cur _ I).
  - intros j Hj. apply Hr in Hj. destruct (decide (cpu_proc (k_cpu s) = Some j)); auto.
  - intros j Hj _. by apply Hr.
  - auto.
Qed.

Lemma kill_others pid R s : tri (kill pid) (λ _ s', others None s s') R s.
Proof.
  unfold kill. tstep. eapply tri_mono; [apply (acquire_same LPtable (λ _, False))| |done].
  intros [] s1 Hs1. tstep. tstep. destruct (find_proc _ _) as [i|].
  - tstep. tstep. tstep. eapply tri_mono; [apply (release_same LPtable (λ _, False))| |done].
    intros [] s2 Hs2. tstep. eapply others_trans; [by apply others_same|].
    eapply others_trans; [|by apply others_same]. split; [done|]. intros j _. rewrite st_upd.
    case_decide; [subst|by left]. unfold st, nudged. destruct (k_procs s1 !! j) as [p|]; cbn; [|by left].
    unfold kill_proc. case_bool_decide as Hb; [right|by left]. cbn in *. by rewrite Hb.
  - tstep. eapply tri_mono; [apply (release_same LPtable (λ _, False))| |done].
    intros [] s2 Hs2. tstep. eapply others_trans; by apply others_same.
Qed.
Lemma wakeup_others c R s : tri (wakeup c) (λ _ s', others None s s') R s.
Proof.
  unfold wakeup. tstep. eapply tri_mono; [apply (acquire_same LPtable (λ _, False))| |done].
  intros [] s1 Hs1. tstep. eapply tri_mono; [apply (wakeup1_others None c (λ _, False))| |done].
  intros [] s2 Hs2. eapply tri_mono; [apply (release_same LPtable (λ _, False))| |done].
  intros [] s3 Hs3. eapply others_trans; [by apply others_same|]. eapply others_trans; [done|by apply others_same].
Qed.

Lemma pstep_inv S S' : run_inv S → pstep S S' → run_inv S'.
Proof.
  intros I Hstep. destruct Hstep as [c s r s' Hs Hn E|c s i m ch s1 r s' Hs Hi Hm E E2
    |c s ch s' Hs E|c s pid r s' Hs E|c s s' Hs Hc Hst].
  - assert (Ht := start_picked (λ _, False) s Hn). unfold tri in Ht. rewrite E in Ht.
    destruct r as [j|]; [|by eapply inv_stay, others_same]. destruct Ht as (P1&P2&P3).
    eapply inv_update; try done; rewrite ?P2.
    + intros k [= <-]. by rewrite P3, decide_True.
    + intros k. rewrite P3, Hn. case_decide; intros Hk; [subst; by left|by right].
    + intros k Hk _. rewrite P3. by case_decide.
    + intros k [= <-]. right. congruence.
  - assert (Hlv : leaves i m).
    { destruct Hm as [->|[(c'&lk&->)|(ini&->)]];
        [apply yield_leaves|apply sleep_leaves|apply exit_leaves]. }
    assert (Ht := Hlv s Hi). unfold tri in Ht. rewrite E in Ht. destruct Ht as [[Hc1 Ho1] Hnr].
    assert (Ht2 := resume_picked i (λ _, False) s1). unfold tri in Ht2. rewrite E2 in Ht2.
    assert (Hr : ∀ j, j ≠ i → st s1 j = Some RUNNING ↔ st s j = Some RUNNING).
    { intros j Hj. destruct (Ho1 j ltac:(congruence)) as [-> |[F1 F2]]; [done|]. rewrite F1, F2. done. }
    destruct r as [j|].
    + destruct Ht2 as (P1&P2&P3). eapply inv_update; try done; rewrite ?P2, ?Hi.
      * intros k [= <-]. by rewrite P3, decide_True.
      * intros k. rewrite P3. case_decide; intros Hk; [subst; by left|]. right.
        assert (k ≠ i) by (intros ->; done). split; [by apply Hr|congruence].
      * intros k Hk Hki. rewrite P3. case_decide; [done|]. apply Hr; [congruence|done].
      * intros k [= <-]. destruct (decide (j = i)) as [->|]; [by left|]. right.
        intros Hj. apply Hr in Hj; [|done]. congruence.
    + destruct Ht2 as [P1 P2].
      assert (Hs1 : ∀ k, st s' k = st s1 k) by (intros; unfold st; by rewrite P1).
      eapply inv_update; try done; rewrite ?P2, ?Hi; try done.
      * intros k. rewrite Hs1. intros Hk. right. assert (k ≠ i) by (intros ->; done).
        split; [by apply Hr|congruence].
      * intros k Hk Hki. rewrite Hs1. apply Hr; [congruence|done].
  - assert (Ht := wakeup_others ch (λ _, False) s). unfold tri in Ht. rewrite E in Ht. by eapply inv_stay.
  - assert (Ht := kill_others pid (λ _, False) s). unfold tri in Ht. rewrite E in Ht. by eapply inv_stay.
  - eapply inv_stay; [done..|]. split; [done|]. intros j _. left. apply Hst.
Qed.


(** ** [kill] and [exit] *)

(** [kill] marks the process with the pid as killed and wakes it if it
    sleeps, so that it can notice; no other process is touched.  Without such
    a process it returns -1 and changes nothing. *)
Theorem kill_correct pid s : kst_ok s → is_free LPtable s →
  match find_proc (λ p, p_pid p =? pid) (k_procs s) with
  | Some i => ∃ p, k_procs s !! i = Some p ∧ p_pid p = pid ∧
      kill pid s = Ok 0 (set_k_procs (<[i := kill_proc p]> (k_procs s)) s) ∧
      p_killed (kill_proc p) = true ∧ p_state (kill_proc p) ≠ SLEEPING
  | None => kill pid s = Ok (-1) s ∧ ∀ i p, k_procs s !! i = Some p → p_pid p ≠ pid
  end.
Proof.
  intros Hok Hf. unfold kill. rewrite (bind_run _ _ _ _ _ (acquire_run _ _ Hf)).
  erewrite bind_run by reflexivity. cbn [acq k_procs].
  unfold find_proc. destruct (list_find _ (k_procs s)) as [[i p]|] eqn:E; cbn.
  - apply list_find_Some in E as (Hi&Hp&_). apply Z.eqb_eq in Hp. exists p. split_and!; [done|done| | |].
    + erewrite bind_run by reflexivity. unfold upd_proc. cbn.
      change (Kst (cpu_push (k_cpu s)) (<[LPtable:=held_by (k_cpu s)]> (k_locks s)) (k_procs s))
        with (acq LPtable s).
      erewrite bind_run by by apply release_acq. unfold mret, M_ret. do 2 f_equal.
      apply list_eq. intros j. rewrite list_lookup_alter. destruct (decide (i = j)) as [<-|].
      * rewrite Hi, list_lookup_insert_eq; [done|]. by eapply lookup_lt_Some.
      * by rewrite list_lookup_insert_ne.
    + unfold kill_proc. by case_bool_decide.
    + unfold kill_proc. by case_bool_decide.
  - split; [by erewrite bind_run by by apply release_acq'|]. intros i p Hi Hp.
    apply list_find_None in E. rewrite Forall_lookup in E. apply (E i p Hi). by apply Z.eqb_eq.
Qed.

(** An entry while [exit] of process [i] goes over the table: [done] says
    whether its turn was, [zk] whether a zombie child was found so far. *)
Definition orphan (i : nat) (ini : option nat) (seen_it zk : bool) (p : proc) : proc :=
  let p := if zk then wake_proc (proc_chan ini) p else p in
  if seen_it && bool_decide (p_parent p = Some i) then set_p_parent ini p else p.

Definition zombie_child (i : nat) (p : proc) : bool :=
  bool_decide (p_parent p = Some i) && bool_decide (p_state p = ZOMBIE).

Definition swept (i : nat) (ini : option nat) (j : nat) (ps : list proc) : list proc :=
  imap (λ k p, orphan i ini (k <? j)%nat (existsb (zombie_child i) (take j ps)) p) ps.

Lemma wake_facts c p : p_parent (wake_proc c p) = p_parent p ∧
  (p_state (wake_proc c p) = ZOMBIE ↔ p_state p = ZOMBIE) ∧ wake_proc c (wake_proc c p) = wake_proc c p.
Proof.
  unfold wake_proc at 1 2 4 5. destruct (bool_decide (p_state p = SLEEPING) && bool_decide (p_chan p = c)) eqn:E.
  - apply andb_true_iff in E as [E%bool_decide_eq_true _]. cbn. rewrite E. done.
  - split_and!; try done. unfold wake_proc. by rewrite E.
Qed.

Lemma sweep_step i ini j ps p : ps !! j = Some p → ∀ s, k_procs s = swept i ini j ps →
  reparent i ini j s = Ok tt (set_k_procs (swept i ini (S j) ps) s).
Proof.
  intros Hp s Hs. set (zk := existsb (zombie_child i) (take j ps)).
  assert (Hj : k_procs s !! j = Some (orphan i ini false zk p)).
  { rewrite Hs. unfold swept. rewrite list_lookup_imap, Hp. cbn [fmap option_fmap option_map]. by rewrite Nat.ltb_irrefl. }
  assert (Hzk : existsb (zombie_child i) (take (S j) ps) = zk || zombie_child i p).
  { rewrite (take_S_r _ _ _ Hp), existsb_app. cbn. by rewrite orb_false_r. }
  unfold reparent. erewrite bind_run by (unfold deref; by rewrite Hj). set (q := orphan i ini false zk p).
  assert (Hqp : p_parent q = p_parent p ∧ (p_state q = ZOMBIE ↔ p_state p = ZOMBIE)).
  { unfold q, orphan. cbn [andb]. destruct zk; [|done]. destruct (wake_facts (proc_chan ini) p) as (?&?&_). done. }
  destruct Hqp as [Hqp Hqz]. rewrite Hqp, (bool_decide_ext _ _ Hqz).
  assert (Hl : ∀ k x, ps !! k = Some x → swept i ini (S j) ps !! k =
    Some (orphan i ini (k <? S j)%nat (zk || zombie_child i p) x)).
  { intros k x Hk. unfold swept. rewrite list_lookup_imap, Hk. cbn [fmap option_fmap option_map]. by rewrite Hzk. }
  assert (Hl0 : ∀ k x, ps !! k = Some x → k_procs s !! k = Some (orphan i ini (k <? j)%nat zk x)).
  { intros k x Hk. rewrite Hs. unfold swept. rewrite list_lookup_imap, Hk. done. }
  assert (Hlen : length (k_procs s) = length ps) by (rewrite Hs; unfold swept; apply length_imap).
  assert (Hlen' : length (swept i ini (S j) ps) = length ps) by apply length_imap.
  assert (Hgoal : ∀ ps', length ps' = length ps →
    (∀ k x, ps !! k = Some x → ps' !! k = Some (orphan i ini (k <? S j)%nat (zk || zombie_child i p) x)) →
    ps' = swept i ini (S j) ps).
  { intros ps' Hl' He. apply list_eq. intros k. destruct (ps !! k) as [x|] eqn:Hk.
    - by rewrite (He k x Hk), (Hl k x Hk).
    - apply lookup_ge_None in Hk. rewrite !lookup_ge_None_2 by lia. done. }
  destruct (bool_decide (p_parent p = Some i)) eqn:Hpar; cbn [when].
  - erewrite bind_run by reflexivity. unfold zombie_child in Hgoal. rewrite Hpar in Hgoal. cbn [andb] in Hgoal.
    assert (Halt : ∀ k x, ps !! k = Some x →
      alter (set_p_parent ini) j (k_procs s) !! k = Some (orphan i ini (k <? S j)%nat zk x)).
    { intros k x Hk. rewrite list_lookup_alter. destruct (decide (j = k)) as [<-|Hne]; rewrite (Hl0 _ x Hk).
      - simplify_eq. cbn [fmap option_fmap option_map]. rewrite Nat.ltb_irrefl. replace (j <? S j)%nat with true by (symmetry; apply Nat.ltb_lt; lia).
        unfold orphan. cbn [andb]. f_equal. destruct zk.
        + destruct (wake_facts (proc_chan ini) p) as (E1&_). rewrite E1, Hpar. done.
        + by rewrite Hpar.
      - f_equal. f_equal. destruct (Nat.ltb_spec k j), (Nat.ltb_spec k (S j)); try lia; done. }
    destruct (bool_decide (p_state p = ZOMBIE)) eqn:Hz; cbn [when].
    + unfold wakeup1, modify. f_equal. cbn. unfold set_k_procs; cbn. f_equal. rewrite orb_true_r in Hgoal.
      apply Hgoal; [rewrite length_fmap, length_alter; done|].
      intros k x Hk. rewrite list_lookup_fmap, (Halt k x Hk). cbn. f_equal. unfold orphan.
      destruct (wake_facts (proc_chan ini) x) as (E1&_&E3).
      assert (Hws : ∀ y, wake_proc (proc_chan ini) (set_p_parent ini y) =
        set_p_parent ini (wake_proc (proc_chan ini) y)).
      { intros y. unfold wake_proc; cbn. by destruct (_ && _). }
      destruct zk; rewrite ?E1; destruct (_ && _); rewrite ?Hws, ?E3; done.
    + unfold mret, M_ret. f_equal. unfold upd_proc, set_k_procs; cbn. f_equal.
      rewrite orb_false_r in Hgoal. apply Hgoal; [by rewrite length_alter|done].
  - unfold zombie_child in Hgoal. rewrite Hpar in Hgoal. cbn [andb] in Hgoal. rewrite orb_false_r in Hgoal.
    unfold mret, M_ret. f_equal. rewrite <- (set_k_procs_id s) at 1. f_equal. apply Hgoal; [done|].
    intros k x Hk. rewrite (Hl0 k x Hk). f_equal. destruct (decide (k = j)) as [->|Hne].
    + simplify_eq. rewrite Nat.ltb_irrefl. replace (j <? S j)%nat with true by (symmetry; apply Nat.ltb_lt; lia).
      unfold orphan. cbn [andb]. destruct zk; [|by rewrite Hpar].
      destruct (wake_facts (proc_chan ini) p) as (E1&_). by rewrite E1, Hpar.
    + f_equal. destruct (Nat.ltb_spec k j), (Nat.ltb_spec k (S j)); try lia; done.
Qed.

Lemma sweep_run i ini ps m : ∀ j s, (j + m = length ps)%nat → k_procs s = swept i ini j ps →
  for_each (seq j m) (reparent i ini) s = Ok tt (set_k_procs (swept i ini (length ps) ps) s).
Proof.
  induction m as [|m IH]; intros j s Hj Hs.
  - replace (length ps) with j by lia. cbn. rewrite <- Hs. by rewrite set_k_procs_id.
  - destruct (lookup_lt_is_Some_2 ps j) as [p Hp]; [lia|]. cbn [seq for_each].
    mrun (sweep_step i ini j ps p Hp s Hs). rewrite IH; [done|lia|done].
Qed.

Lemma swept_0 i ini ps : swept i ini 0 ps = ps.
Proof.
  unfold swept. cbn [take existsb]. apply list_eq. intros k. rewrite list_lookup_imap. by destruct (ps !! k).
Qed.

(** An entry after [exit] of process [i]. *)
Definition exited (i : nat) (ini parent : option nat) (zk : bool) (j : nat) (p : proc) : proc :=
  let p := orphan i ini true zk (wake_proc (proc_chan parent) p) in
  if bool_decide (i = j) then set_p_state ZOMBIE p else p.

(** C38: [exit], once its files are closed, leaves the process as a zombie with
    its pid and parent, wakes the parent, gives all its children to init and
    wakes init if one of them is a zombie, all in one critical section; then
    it switches to the scheduler for good. *)
Theorem exit_correct i p ini s : kst_ok s → is_free LPtable s → cpu_ncli (k_cpu s) = 0 →
  cpu_proc (k_cpu s) = Some i → k_procs s !! i = Some p →
  ∃ s', exit_locked i ini s = Blocked (p_chan p) s' ∧
    k_locks s' !! LPtable = Some (held_by (k_cpu s')) ∧
    ∀ j q, k_procs s !! j = Some q →
      k_procs s' !! j = Some (exited i ini (p_parent p) (existsb (zombie_child i)
        (wake_proc (proc_chan (p_parent p)) <$> k_procs s)) j q).
Proof.
  intros Hok Hf Hn Hc Hp. unfold exit_locked. mrun (acquire_run LPtable s Hf).
  erewrite bind_run by (unfold deref; cbn; by rewrite Hp). erewrite bind_run by reflexivity.
  erewrite bind_run by reflexivity.
  set (ps := wake_proc (proc_chan (p_parent p)) <$> k_procs s).
  set (s1 := set_k_procs ps (acq LPtable s)).
  assert (Hsw : for_each (seq 0 (length ps)) (reparent i ini) s1 =
    Ok tt (set_k_procs (swept i ini (length ps) ps) s1)) by (apply sweep_run; [done|by rewrite swept_0]).
  mrun Hsw. erewrite bind_run by reflexivity.
  set (s2 := upd_proc i (set_p_state ZOMBIE) (set_k_procs (swept i ini (length ps) ps) s1)).
  assert (Hent : ∀ j q, k_procs s !! j = Some q → swept i ini (length ps) ps !! j =
    Some (orphan i ini true (existsb (zombie_child i) ps) (wake_proc (proc_chan (p_parent p)) q))).
  { intros j q Hj. assert (Hq : ps !! j = Some (wake_proc (proc_chan (p_parent p)) q))
      by (unfold ps; by rewrite list_lookup_fmap, Hj).
    unfold swept. rewrite list_lookup_imap, Hq. cbn [fmap option_fmap option_map]. f_equal. f_equal; [|by rewrite take_ge].
    apply Nat.ltb_lt. unfold ps. rewrite length_fmap. by eapply lookup_lt_Some. }
  assert (Hch : p_chan (orphan i ini true (existsb (zombie_child i) ps) (wake_proc (proc_chan (p_parent p)) p)) = p_chan p).
  { assert (Hw : ∀ c x, p_chan (wake_proc c x) = p_chan x) by (intros; unfold wake_proc; by case_match).
    unfold orphan. destruct (existsb _ _); case_match; cbn; by rewrite ?Hw. }
  exists s2. split; [|split].
  - unfold mbind, M_bind.
    rewrite (sched_run i (set_p_state ZOMBIE (orphan i ini true (existsb (zombie_child i) ps)
      (wake_proc (proc_chan (p_parent p)) p)))); [by rewrite <- Hch| | | | | |]; cbn.
    + by rewrite lookup_insert_eq.
    + lia.
    + done.
    + rewrite list_lookup_alter, decide_True, (Hent i p Hp) by done. reflexivity.
    + done.
    + done.
  - cbn. by rewrite lookup_insert_eq.
  - intros j q Hj. cbn [s2 upd_proc k_procs set_k_procs s1]. rewrite list_lookup_alter. unfold exited.
    destruct (decide (i = j)) as [->|Hne]; rewrite (Hent _ q Hj).
    + by rewrite bool_decide_true.
    + by rewrite bool_decide_false.
Qed.

(** ** Two CPUs and three processes *)

Definition ex_procs : list proc :=
  [set_p_pgdir 0x80109000 (set_p_pid 1 (set_p_state RUNNING proc_zero));
   set_p_pgdir 0x8010a000 (set_p_pid 2 (set_p_state RUNNABLE proc_zero));
   set_p_parent (Some 0%nat) (set_p_pid 3 (set_p_state SLEEPING proc_zero))].
Definition ex_smp : psmp :=
  Psmp [Cpu 0 true 0 true (Some 0%nat); Cpu 1 true 0 true None] {[LPtable := lk_free]} ex_procs.
Definition ex_kst0 : kst := Kst (Cpu 0 true 0 true (Some 0%nat)) {[LPtable := lk_free]} ex_procs.

Lemma ex_smp_inv : run_inv ex_smp.
Proof.
  split.
  - intros [|[|c]] cp i Hc Hi; cbn in Hc; simplify_eq; cbn in Hi; simplify_eq. done.
  - intros [|[|[|i]]] Hi; cbn in Hi; try done. by eexists 0%nat, _.
  - intros [|[|c]] [|[|c']] cp cp' i Hc Hc' Hi Hi'; cbn in *; simplify_eq; done.
Qed.


Lemma kill_correct_witness :
  ∃ p, kill 3 ex_kst0 = Ok 0 (set_k_procs (<[2%nat := kill_proc p]> ex_procs) ex_kst0) ∧
    p_state (kill_proc p) ≠ SLEEPING.
Proof.
  destruct (kill_correct 3 ex_kst0 ltac:(by split_and!) eq_refl) as (p&_&_&E&_&Hs).
  exists p. split; [exact E|exact Hs].
Defined.

Lemma exit_correct_witness :
  ∃ s', exit_locked 0 (Some 1%nat) ex_kst0 = Blocked CNone s' ∧
    (p_state <$> k_procs s' !! 0%nat) = Some ZOMBIE ∧ (p_parent <$> k_procs s' !! 2%nat) = Some (Some 1%nat).
Proof.
  destruct (exit_correct 0 (set_p_pgdir 0x80109000 (set_p_pid 1 (set_p_state RUNNING proc_zero)))
    (Some 1%nat) ex_kst0 ltac:(by split_and!) eq_refl eq_refl eq_refl eq_refl) as (s'&E&_&Ht).
  exists s'. split; [exact E|]. split.
  - rewrite (Ht 0%nat _ eq_refl). reflexivity.
  - rewrite (Ht 2%nat _ eq_refl). reflexivity.
Defined.
