(* ===== verification/Sched.v ===== *)
(** The scheduler starves no process: bounded waiting of round robin over the
    process table (proc.c, [scheduler]). *)
From S2P Require Import Prelude Kmonad Wp Kstate Spinlock Sleep Proc.

(** One turn of the scheduler of a CPU: from the head of its loop, or after
    the process it switched to last has switched back. *)
Definition sched_turn (last : option nat) : M kst (option nat) :=
  match last with None => scheduler_start | Some i => scheduler_resume i end.

(** The turns of one CPU.  [env k] is the kernel as the CPU finds it at turn
    [k], after whatever processes, interrupts and other CPUs did since. *)
Fixpoint turns (env : nat → kst) (last : option nat) (k : nat) : option nat :=
  match k with
  | O => last
  | S k => match sched_turn (turns env last k) (env k) with Ok r _ => r | _ => None end
  end.

Definition has_ptable (s : kst) : Prop := k_locks s !! LPtable = Some (held_by (k_cpu s)).

(** What may happen between two turns, the first of which ended in [s] with
    the result [r].  At the head of the loop: other CPUs take the lock and
    give it back, unless this CPU has kept it.  After a switch to a process:
    the process comes back through [sched], which insists on the lock that it
    was handed. *)
Definition between (r : option nat) (s e : kst) : Prop :=
  match r with
  | None => (is_free LPtable s → is_free LPtable e) ∧ (has_ptable s → has_ptable e)
  | Some _ => has_ptable s → has_ptable e ∧ cpu_if (k_cpu e) = false ∧ 0 < cpu_ncli (k_cpu e)
  end.

Section Sched.
Context (n : nat).

(** A table of [n] processes in which what is runnable has a page table. *)
Definition table_ok (s : kst) : Prop :=
  length (k_procs s) = n ∧
  Forall (λ p, p_state p = RUNNABLE → p_pgdir p ≠ 0) (k_procs s).

Definition runnable (j : nat) (s : kst) : Prop :=
  ∃ p, k_procs s !! j = Some p ∧ p_state p = RUNNABLE.

(** How a turn begins: with the table lock free, or held by this CPU for the
    scheduler when a process switches back ([sched] panics otherwise). *)
Definition turn_ok (last : option nat) (s : kst) : Prop :=
  match last with
  | None => is_free LPtable s
  | Some i => (i < n)%nat ∧ has_ptable s ∧ cpu_if (k_cpu s) = false ∧ 0 < cpu_ncli (k_cpu s)
  end.

(** Process [j] runs on this CPU. *)
Definition dispatched (j : nat) (s : kst) : Prop :=
  cpu_proc (k_cpu s) = Some j ∧ p_state <$> k_procs s !! j = Some RUNNING.
(** How a turn ends: the lock goes to the process, or is given back. *)
Definition turn_end (r : option nat) (s : kst) : Prop :=
  match r with Some f => (f < n)%nat ∧ dispatched f s ∧ has_ptable s | None => is_free LPtable s end.

Lemma pick_run i s p : table_ok s → k_procs s !! i = Some p → p_state p = RUNNABLE →
  ∃ s', scheduler_pick i s = Ok tt s' ∧ dispatched i s' ∧ (has_ptable s → has_ptable s').
Proof.
  intros [_ Hpg] Hp Hr. rewrite Forall_lookup in Hpg. specialize (Hpg _ _ Hp Hr).
  eexists. split.
  - unfold scheduler_pick. erewrite bind_run by (by apply deref_ok).
    erewrite bind_run by reflexivity. rewrite (proj2 (Z.eqb_neq _ _)) by done. reflexivity.
  - split; [|done]. split; [done|]. cbn. by rewrite list_lookup_alter, decide_True, Hp.
Qed.

(** A scan takes the first runnable process, if there is one. *)
Lemma scan_first m : ∀ i s, table_ok s → (i + m = n)%nat →
  ∃ r s', scheduler_scan i m s = Ok r s' ∧
  match r with
  | Some f => (i ≤ f < n)%nat ∧ (dispatched f s' ∧ (has_ptable s → has_ptable s')) ∧ ∀ j, runnable j s → (i ≤ j → f ≤ j)%nat
  | None => s' = s ∧ ∀ j, runnable j s → (j < i)%nat
  end.
Proof.
  induction m as [|m IH]; intros i s Ht Hm.
  - exists None, s. split_and!; [done..|]. intros j (p&Hp&_). apply lookup_lt_Some in Hp.
    destruct Ht. lia.
  - destruct (lookup_lt_is_Some_2 (k_procs s) i) as [p Hp]; [destruct Ht; lia|].
    cbn [scheduler_scan]. erewrite bind_run by (by apply deref_ok). case_bool_decide as Hr.
    + destruct (pick_run i s p Ht Hp Hr) as (s'&E&Hd). exists (Some i), s'.
      erewrite bind_run by exact E. split; [done|]. split_and!; auto with lia; apply Hd.
    + destruct (IH (S i) s Ht) as (r&s'&E&Hc); [lia|]. exists r, s'. split; [done|].
      assert (Hi : ¬ runnable i s) by (intros (q&Hq&?); congruence).
      destruct r as [f|].
      * destruct Hc as (Hf&Hd&Hmin). split; [lia|]. split; [done|]. intros j Hj Hij.
        apply Hmin; [done|]. destruct (decide (i = j)) as [->|]; [done|lia].
      * destruct Hc as [-> Hc]. split; [done|]. intros j Hj. specialize (Hc j Hj).
        destruct (decide (i = j)) as [->|]; [done|lia].
Qed.

(** Every turn ends while process [j] is runnable: with the first runnable
    process behind the last one, or, when the scan was past [j], at the head
    of the loop. *)
Lemma turn_run j last s : table_ok s → runnable j s → turn_ok last s →
  ∃ r s', sched_turn last s = Ok r s' ∧ turn_end r s' ∧
  match r, last with
  | Some f, None => (f ≤ j)%nat
  | Some f, Some i => (i < f)%nat ∧ (i < j → f ≤ j)%nat
  | None, None => False
  | None, Some i => (j ≤ i)%nat
  end.
Proof.
  intros Ht Hj Hk. destruct last as [i|]; cbn in Hk.
  - destruct Hk as (Hi&Hl&Hif&Hn). set (s1 := upd_cpu (set_cpu_proc None) s).
    destruct (scan_first (n - S i) (S i) s1) as (r&s'&E&Hc); [done|lia|].
    cbn. unfold scheduler_resume. erewrite bind_run by reflexivity. erewrite bind_run by reflexivity.
    fold s1. rewrite (proj1 (Ht : table_ok s1)). erewrite bind_run by exact E.
    destruct r as [f|].
    + destruct Hc as (Hf&[Hd Hp]&Hmin). exists (Some f), s'. split; [done|]. split.
      * split; [lia|]. split; [done|by apply Hp].
      * split; [lia|]. intros Hij. apply Hmin; [done|lia].
    + destruct Hc as [-> Hc]. eexists None, _. split; [|split].
      * erewrite bind_run by (by apply release_run). reflexivity.
      * unfold turn_end, is_free. cbn. by rewrite lookup_insert_eq.
      * specialize (Hc j Hj). lia.
  - set (s1 := upd_cpu (set_cpu_if true) s).
    destruct (scan_first n 0 (acq LPtable s1)) as (r&s'&E&Hc); [done|lia|].
    cbn. unfold scheduler_start, sti. erewrite bind_run by reflexivity.
    erewrite bind_run by (by apply acquire_run). erewrite bind_run by reflexivity.
    fold s1. rewrite (proj1 (Ht : table_ok (acq LPtable s1))). erewrite bind_run by exact E. destruct r as [f|].
    + destruct Hc as (Hf&[Hd Hp]&Hmin). exists (Some f), s'. split; [done|]. split; [|apply Hmin; [done|lia]].
      split; [lia|]. split; [done|]. apply Hp. unfold has_ptable. cbn. by rewrite lookup_insert_eq.
    + destruct Hc as [_ Hc]. specialize (Hc j Hj). lia.
Qed.

(** Turns left before [j] is reached. *)
Definition ahead (j : nat) (last : option nat) : nat :=
  match last with
  | None => S j
  | Some i => if decide (i < j)%nat then j - i else n - i + S j
  end.

(** A turn is followed by one that can begin. *)
Lemma next_turn r s e : turn_end r s → between r s e → turn_ok r e.
Proof. destruct r as [f|]; cbn; [intros (H1&_&H2) H3; by destruct (H3 H2)|intros H1 [H2 _]; auto]. Qed.

(** C15: the scheduler is free of starvation and never gets stuck.  Whatever
    the other processes, interrupts and CPUs do to the table between the turns
    of a CPU, a process that stays runnable is switched to by that CPU after
    at most one pass over the table, [n + 1] turns; every turn up to then
    returns, none panics or waits for a lock the CPU has itself, and every
    switch hands the table lock to the process. *)
Theorem scheduler_no_starvation j env last : (j < n)%nat → turn_ok last (env 0%nat) →
  (∀ k, (∀ k', (k' < k)%nat → turns env last (S k') ≠ Some j) → table_ok (env k) ∧ runnable j (env k)) →
  (∀ k r s, (∀ k', (k' ≤ k)%nat → turns env last (S k') ≠ Some j) →
     sched_turn (turns env last k) (env k) = Ok r s → between r s (env (S k))) →
  ∃ k s', (k ≤ n)%nat ∧
    (∀ k', (k' ≤ k)%nat → ∃ r s, sched_turn (turns env last k') (env k') = Ok r s ∧ turn_end r s) ∧
    sched_turn (turns env last k) (env k) = Ok (Some j) s' ∧ dispatched j s' ∧ has_ptable s'.
Proof.
  intros Hj H0 Henv Hbt.
  assert (Hgo : ∀ d k, (ahead j (turns env last k) ≤ d)%nat → turn_ok (turns env last k) (env k) →
    (∀ k', (k' < k)%nat → turns env last (S k') ≠ Some j ∧ ∃ r s, sched_turn (turns env last k') (env k') = Ok r s ∧ turn_end r s) →
    ∃ k1 s', (k1 < k + d)%nat ∧ (∀ k', (k' ≤ k1)%nat → ∃ r s, sched_turn (turns env last k') (env k') = Ok r s ∧ turn_end r s) ∧
      sched_turn (turns env last k1) (env k1) = Ok (Some j) s' ∧ dispatched j s' ∧ has_ptable s').
  { induction d as [|d IH]; intros k Hd Hk Hnot; (destruct (Henv k) as (Ht&Hr); [intros; by apply Hnot|]).
    { exfalso. destruct (turns env last k); cbn in Hd, Hk; [case_decide|]; lia. }
    destruct (turn_run j _ _ Ht Hr Hk) as (r&s'&E&He&Hc).
    assert (Hall : ∀ k', (k' ≤ k)%nat → ∃ r s, sched_turn (turns env last k') (env k') = Ok r s ∧ turn_end r s).
    { intros k' Hk'. destruct (decide (k' = k)) as [->|]; [by exists r, s'|]. apply Hnot. lia. }
    destruct (decide (r = Some j)) as [->|Hne].
    { exists k, s'. destruct He as (_&?&?). split_and!; [lia|done..]. }
    assert (Et : turns env last (S k) = r) by (cbn [turns]; by rewrite E).
    destruct (IH (S k)) as (k1&s1&?&?&?); [| | |exists k1, s1; split; [lia|by split]].
    - rewrite Et. unfold ahead in *. destruct r as [f|], (turns env last k) as [i|]; cbn in Hk, He;
        repeat case_decide; try lia; assert (f ≠ j) by congruence; lia.
    - rewrite Et. eapply next_turn; [done|]. apply Hbt; [|done]. intros k' Hk'.
      destruct (decide (k' = k)) as [->|]; [by rewrite Et|]. apply Hnot. lia.
    - intros k' Hk'. split; [|apply Hall; lia]. destruct (decide (k' = k)) as [->|]; [by rewrite Et|]. apply Hnot. lia. }
  destruct (Hgo (S n) O) as (k&s'&?&?&?); [|done|lia|exists k, s'; split; [lia|by split]].
  cbn [turns] in *. destruct last as [i|]; cbn in *; [case_decide|]; lia.
Qed.
End Sched.

(** ** An example: two runnable processes, the first of which yields *)

Definition ex_rproc : proc := set_p_pgdir 0x80001000 (set_p_state RUNNABLE proc_zero).
Definition ex_cpu : cpu := Cpu 0 true 0 true None.
Definition ex_sched : kst := Kst ex_cpu {[LPtable := lk_free]} [ex_rproc; ex_rproc].
Definition ex_env (k : nat) : kst := match k with O => ex_sched | _ => acq LPtable ex_sched end.

Lemma scheduler_no_starvation_witness :
  ∃ k s', (k ≤ 2)%nat ∧ sched_turn (turns ex_env None k) (ex_env k) = Ok (Some 1%nat) s' ∧ dispatched 1 s'.
Proof.
  destruct (scheduler_no_starvation 2 1 ex_env None) as (k&s'&Hk&_&E&Hd&_); [lia|done| | |by exists k, s'].
  - intros [|k] _; (split; [split; [done|by repeat constructor]|by exists ex_rproc]).
  - intros [|k] r s Hk.
    + intros E. vm_compute in E. injection E as <- <-. by intros _.
    + exfalso. apply (Hk 1%nat); [lia|]. vm_compute. reflexivity.
Defined.
