(* ===== verification/Syscall.v ===== *)
(** System call arguments (syscall.c) and the process system calls
    (sysproc.c).

    The kernel runs on the page table of the current process, so user memory
    is read and written through the hardware's translation [mmu]. *)
From S2P Require Import Prelude Kmonad Wp Kstate Spinlock Sleep Str Kalloc Disk Log Blocks FsEx Balloc Inode Icache FileData Dir Pipe Vm File Proc.

Section Syscall.
Context {B : Type} {BB : Blocks B} {BL : BlockLaws B} {BT : Trans B} {DV : Devsw B}.
Context (kend kdata forkret_addr trapret_addr : Z).

Definition me : M (sys B) proc := i ← sk curproc; getproc i.

(** A byte of user memory, read and written. *)
Definition uload (va : Z) : M (sys B) Z :=
  p ← me;
  m ← gets sy_mem;
  match mmu m (p_pgdir p) va with
  | Some pa => mret (m (p2v pa))
  | None => fault
  end.
Definition ustore1 (va c : Z) : M (sys B) unit :=
  p ← me;
  m ← gets sy_mem;
  match mmu m (p_pgdir p) va with
  | Some pa => kmz (modify (λ s, set_km_mem (upd (km_mem s) (p2v pa) c) s))
  | None => fault
  end.
Fixpoint uloads (va : Z) (n : nat) : M (sys B) (list Z) :=
  match n with
  | O => mret []
  | S n => c ← uload va; l ← uloads (u32 (va + 1)) n; mret (c :: l)
  end.
Fixpoint ustore (va : Z) (l : list Z) : M (sys B) unit :=
  match l with
  | [] => mret tt
  | c :: l => ustore1 va c;; ustore (u32 (va + 1)) l
  end.

(** Fetch the int at [addr] from process [p]; [None] is -1. *)
Definition fetchint (p : proc) (addr : Z) : M (sys B) (option Z) :=
  if (p_sz p <=? addr) || (p_sz p <? u32 (addr + 4)) then mret None else
  l ← uloads addr 4;
  mret (Some (i32 (le_decode l))).

(** The scan of [fetchstr]: the bytes before the NUL. *)
Fixpoint str_scan (s ep : Z) (n : nat) : M (sys B) (option (list Z)) :=
  match n with
  | O => mret None
  | S n =>
      if s <? ep then
        c ← uload s;
        if c =? 0 then mret (Some [])
        else r ← str_scan (s + 1) ep n; mret ((λ l, c :: l) <$> r)
      else mret None
  end.
(** Fetch the nul-terminated string at [addr] from process [p]. *)
Definition fetchstr (p : proc) (addr : Z) : M (sys B) (option (list Z)) :=
  if p_sz p <=? addr then mret None else
  str_scan addr (p_sz p) (S (Z.to_nat (p_sz p - addr))).

(** Fetch the nth 32-bit system call argument. *)
Definition argint (n : Z) : M (sys B) (option Z) :=
  p ← me;
  fetchint p (u32 (tf_esp (p_tf p) + 4 + 4 * n)).

(** ... as a pointer to a block of memory of size [size]. *)
Definition argptr (n size : Z) : M (sys B) (option Z) :=
  r ← argint n;
  match r with
  | None => mret None
  | Some i =>
      p ← me;
      if (p_sz p <=? u32 i) || (p_sz p <? u32 (u32 i + size)) then mret None
      else mret (Some (u32 i))
  end.

(** ... as a string. *)
Definition argstr (n : Z) : M (sys B) (option (list Z)) :=
  r ← argint n;
  match r with
  | None => mret None
  | Some addr => p ← me; fetchstr p (u32 addr)
  end.

(** ** sysproc.c *)

Definition sys_fork : M (sys B) Z := fork kend kdata forkret_addr trapret_addr.
Definition sys_exit : M (sys B) Z := exit kend;; mret 0.
Definition sys_wait : M (sys B) Z := wait kend.
Definition sys_kill : M (sys B) Z :=
  r ← argint 0;
  match r with None => mret (-1) | Some pid => sk (kill pid) end.
Definition sys_getpid : M (sys B) Z := p ← me; mret (p_pid p).
Definition sys_sbrk : M (sys B) Z :=
  r ← argint 0;
  match r with
  | None => mret (-1)
  | Some n =>
      p ← me;
      g ← growproc kend n;
      if g <? 0 then mret (-1) else mret (i32 (p_sz p))
  end.

(** Woken up by a tick, the process tests the clock again; [ticks0] is what it
    read when it started.  The comparison is unsigned. *)
Definition sleep_ticks (n ticks0 : Z) : M (sys B) Z :=
  t ← gets sy_ticks;
  if u32 (t - ticks0) <? u32 n then
    p ← me;
    if p_killed p then sk (release LTicks);; mret (-1) else
    sk (sleep CTicks LTicks);;
    nofuel
  else
    sk (release LTicks);;
    mret 0.
Definition sys_sleep : M (sys B) Z :=
  r ← argint 0;
  match r with
  | None => mret (-1)
  | Some n =>
      sk (acquire LTicks);;
      ticks0 ← gets sy_ticks;
      sleep_ticks n ticks0
  end.
Definition sys_uptime : M (sys B) Z :=
  sk (acquire LTicks);;
  t ← gets sy_ticks;
  sk (release LTicks);;
  mret (i32 t).
Definition sys_signal : M (sys B) Z :=
  r ← argint 0;
  match r with
  | None => mret (-1)
  | Some signum =>
      h ← argint 1;
      match h with
      | None => mret (-1)
      | Some handler => sk (signal signum handler)
      end
  end.
End Syscall.
