(* ===== verification/Exec.v ===== *)
(** Loading a program (exec.c, elf.h, and [loaduvm] of vm.c). *)
From S2P Require Import Prelude Kmonad Wp Kstate Spinlock Sleep Str Kalloc Disk Log Blocks FsEx Balloc Inode Icache FileData Dir Pipe Vm File Proc Syscall.

Definition ELF_MAGIC : Z := 0x464C457F.
Definition ELF_PROG_LOAD : Z := 1.

(** [struct elfhdr] (52 bytes) and [struct proghdr] (32 bytes), the fields
    [exec] reads. *)
Definition ELFSIZE : Z := 52.
Definition elf_magic (e : list Z) : Z := get_u32 0 e.
Definition elf_entry (e : list Z) : Z := get_u32 24 e.
Definition elf_phoff (e : list Z) : Z := get_u32 28 e.
Definition elf_phnum (e : list Z) : Z := get_u16 44 e.
Definition PHSIZE : Z := 32.
Definition ph_type (p : list Z) : Z := get_u32 0 p.
Definition ph_off (p : list Z) : Z := get_u32 4 p.
Definition ph_vaddr (p : list Z) : Z := get_u32 8 p.
Definition ph_filesz (p : list Z) : Z := get_u32 16 p.
Definition ph_memsz (p : list Z) : Z := get_u32 20 p.

(** The program name: the part of the path after its last slash. *)
Fixpoint last_elem (last path : list Z) : list Z :=
  match path with
  | [] => last
  | c :: path => last_elem (if c =? SLASH then path else last) path
  end.

Section Exec.
Context {B : Type} {BB : Blocks B} {BL : BlockLaws B} {BT : Trans B} {DV : Devsw B}.
Context (kend kdata : Z).

(** One turn of the loop of [loaduvm]. *)
Definition loaduvm_step (pgdir addr : Z) (ip : nat) (offset sz i : Z) : M (sys B) (Z + Z) :=
  if i <? sz then
    pte ← kmz (walkpgdir pgdir (u32 (addr + i)) false);
    if pte =? 0 then panic "loaduvm: address should exist" else
    e ← kmz (read32 pte);
    let pa := PTE_ADDR e in
    let n := if sz - i <? PGSIZE then sz - i else PGSIZE in
    '(r, bytes) ← fsz (readi ip (u32 (offset + i)) n);
    kmz (kstore (p2v pa) bytes);;
    if negb (u32 r =? n) then mret (inr (-1)) else mret (inl (u32 (i + PGSIZE)))
  else mret (inr 0).

(** Load a program segment into [pgdir]. *)
Definition loaduvm (pgdir addr : Z) (ip : nat) (offset sz : Z) : M (sys B) Z :=
  if negb (addr mod PGSIZE =? 0) then panic "loaduvm: addr must be page aligned" else
  loop (S (S (Z.to_nat (sz / PGSIZE)))) (loaduvm_step pgdir addr ip offset sz) 0.

(** [bad:] *)
Definition exec_bad (pgdir : Z) (ip : option nat) : M (sys B) Z :=
  when (nz pgdir) (kmz (freevm kend pgdir));;
  match ip with Some i => fsz (iunlockput i) | None => mret tt end;;
  mret (-1).

(** Load the program headers; [None] is [goto bad]. *)
Fixpoint load_segs (ip : nat) (pgdir off sz : Z) (n : nat) : M (sys B) (option Z) :=
  match n with
  | O => mret (Some sz)
  | S n =>
      '(r, ph) ← fsz (readi ip (u32 off) PHSIZE);
      if negb (u32 r =? PHSIZE) then mret None else
      if negb (ph_type ph =? ELF_PROG_LOAD) then load_segs ip pgdir (i32 (off + PHSIZE)) sz n else
      if ph_memsz ph <? ph_filesz ph then mret None else
      sz ← kmz (allocuvm kend pgdir sz (u32 (ph_vaddr ph + ph_memsz ph)));
      if sz =? 0 then mret None else
      r ← loaduvm pgdir (ph_vaddr ph) ip (ph_off ph) (ph_filesz ph);
      if r <? 0 then mret None else
      load_segs ip pgdir (i32 (off + PHSIZE)) sz n
  end.

(** Push argument strings: the stack pointer and the addresses, in order. *)
Fixpoint push_args (pgdir sp : Z) (argv : list (list Z)) (argc : nat) (acc : list Z)
  : M (sys B) (option (Z * list Z)) :=
  match argv with
  | [] => mret (Some (sp, acc))
  | a :: argv =>
      if (MAXARG <=? argc)%nat then mret None else
      let sp := Z.land (u32 (sp - (Z.of_nat (length a) + 1))) (Z.lnot 3) in
      r ← kmz (copyout pgdir sp (a ++ [0]));
      if r <? 0 then mret None else
      push_args pgdir sp argv (S argc) (acc ++ [sp])
  end.

(** [ustack] as it is copied out: fake return PC, argc, argv, the addresses
    and the final 0. *)
Definition ustack (argc : Z) (argvp : Z) (addrs : list Z) : list Z :=
  concat (le_encode 4 <$> [0xffffffff; argc; argvp] ++ addrs ++ [0]).

(** From the stack pages on; the inode is gone. *)
Definition exec_stack (path : list Z) (argv : list (list Z)) (elf : list Z) (pgdir sz : Z) : M (sys B) Z :=
  let sz := PGROUNDUP sz in
  sz ← kmz (allocuvm kend pgdir sz (u32 (sz + 2 * PGSIZE)));
  if sz =? 0 then exec_bad pgdir None else
  kmz (clearpteu pgdir (u32 (sz - 2 * PGSIZE)));;
  args ← push_args pgdir sz argv 0 [];
  match args with
  | None => exec_bad pgdir None
  | Some (sp, addrs) =>
      let argc := Z.of_nat (length addrs) in
      let argvp := u32 (sp - (argc + 1) * 4) in
      let sp := u32 (sp - (3 + argc + 1) * 4) in
      r ← kmz (copyout pgdir sp (ustack argc argvp addrs));
      if r <? 0 then exec_bad pgdir None else
      i ← sk curproc;
      uproc i (λ p, set_p_name (copy_name (p_name p) (last_elem path path)) p);;
      p ← getproc i;
      uproc i (λ p, set_p_tf (set_tf_esp sp (set_tf_eip (elf_entry elf) (p_tf p)))
                      (set_p_sz sz (set_p_pgdir pgdir p)));;
      kmz (freevm kend (p_pgdir p));;
      mret 0
  end.

(** [exec].  [elf0] is what the uninitialised header holds when the read
    fails: the result of [readi] is compared unsigned, so -1 is not seen. *)
Definition exec (elf0 path : list Z) (argv : list (list Z)) : M (sys B) Z :=
  r ← fsz (namei path);
  match r with
  | None => mret (-1)
  | Some ip =>
      fsz (ilock ip);;
      '(r, bytes) ← fsz (readi ip 0 ELFSIZE);
      let elf := splice 0 bytes elf0 in
      if u32 r <? ELFSIZE then exec_bad 0 (Some ip) else
      if negb (elf_magic elf =? ELF_MAGIC) then exec_bad 0 (Some ip) else
      pgdir ← kmz (setupkvm kdata);
      if pgdir =? 0 then exec_bad 0 (Some ip) else
      sz ← load_segs ip pgdir (i32 (elf_phoff elf)) 0 (Z.to_nat (elf_phnum elf));
      match sz with
      | None => exec_bad pgdir (Some ip)
      | Some sz =>
          fsz (iunlockput ip);;
          exec_stack path argv elf pgdir sz
      end
  end.
End Exec.
