(* ===== verification/ExecLaws.v ===== *)
(** [exec] (exec.c): the memory and the stack that a new program finds. *)
From S2P Require Import Prelude Kmonad Wp Kstate Spinlock Sleep Str Kalloc Disk Log Blocks FsEx Balloc Inode Dinode Icache FileData Dir Pipe Vm VmLaws VmFree VmCopy VmGrow Image File Proc Fork Syscall Exec.

(** ** The layout of the arguments *)

Definition down4 (x : Z) : Z := x / 4 * 4.

(** Where the argument strings go, from the stack pointer [sp] down, and the
    stack pointer after the last one. *)
Fixpoint arg_sps (sp : Z) (argv : list (list Z)) : list Z :=
  match argv with
  | [] => []
  | a :: argv => let sp := down4 (sp - Z.of_nat (length a) - 1) in sp :: arg_sps sp argv
  end.
Fixpoint args_sp (sp : Z) (argv : list (list Z)) : Z :=
  match argv with
  | [] => sp
  | a :: argv => args_sp (down4 (sp - Z.of_nat (length a) - 1)) argv
  end.

(** The stack pointer of the new program; the arguments must fit in a page. *)
Definition main_esp (n : Z) (argv : list (list Z)) : Z :=
  args_sp n argv - (3 + Z.of_nat (length argv) + 1) * 4.
Definition args_fit (n : Z) (argv : list (list Z)) : Prop :=
  (length argv ≤ MAXARG)%nat ∧ n - PGSIZE ≤ main_esp n argv.

(** [p] is the address of the string [a]. *)
Definition str_at (c : Z → Z) (p : Z) (a : list Z) : Prop :=
  ∀ j, (j ≤ length a)%nat → c (p + Z.of_nat j) = nth j (a ++ [0]) 0.

(** What [main(argc, argv)] expects on a stack that ends at [n]: a return
    address, the number of arguments, a pointer to an array with a pointer to
    each of them and a 0 at its end. *)
Record main_stack (c : Z → Z) (n esp : Z) (argv : list (list Z)) : Prop := {
  ms_esp : n - PGSIZE ≤ esp ∧ esp mod 4 = 0;
  ms_pc : load32 c esp = 0xffffffff;
  ms_argc : load32 c (esp + 4) = Z.of_nat (length argv);
  ms_argv : load32 c (esp + 8) = esp + 12;
  ms_arg : ∀ i a, argv !! i = Some a → ∃ p, load32 c (esp + 12 + 4 * Z.of_nat i) = p ∧
    esp + 12 + 4 * Z.of_nat (length argv) < p ∧ p + Z.of_nat (length a) < n ∧ str_at c p a;
  ms_end : load32 c (esp + 12 + 4 * Z.of_nat (length argv)) = 0
}.

Lemma down4_facts x : x - 3 ≤ down4 x ≤ x ∧ down4 x mod 4 = 0.
Proof. unfold down4. split; [Z.div_mod_to_equations; lia|by apply Z.mod_mul]. Qed.
Lemma down4_land x : 0 ≤ x < 4294967296 → Z.land (u32 x) (Z.lnot 3) = down4 x.
Proof.
  intros Hx. rewrite u32_small by done. change 3 with (Z.ones 2). rewrite <- Z.ldiff_land, Z.ldiff_ones_r by lia.
  by rewrite Z.shiftl_mul_pow2, Z.shiftr_div_pow2 by lia.
Qed.

Lemma args_sp_le argv : ∀ sp, args_sp sp argv ≤ sp.
Proof.
  induction argv as [|a argv IH]; intros sp; cbn [args_sp]; [lia|].
  pose proof (IH (down4 (sp - Z.of_nat (length a) - 1))). pose proof (down4_facts (sp - Z.of_nat (length a) - 1)). lia.
Qed.
Lemma args_sp_aligned argv : ∀ sp, sp mod 4 = 0 → args_sp sp argv mod 4 = 0.
Proof.
  induction argv as [|a argv IH]; intros sp Hsp; cbn [args_sp]; [done|]. apply IH, down4_facts.
Qed.
Lemma length_arg_sps argv : ∀ sp, length (arg_sps sp argv) = length argv.
Proof. induction argv as [|a argv IH]; intros sp; cbn [arg_sps length]; [done|]. by rewrite IH. Qed.

Lemma over_str p a c : str_at (over p (a ++ [0]) c) p a.
Proof.
  intros j Hj. unfold over. rewrite length_app. cbn [length].
  rewrite (proj2 (Z.leb_le _ _)), (proj2 (Z.ltb_lt _ _)) by lia. cbn [andb]. f_equal. lia.
Qed.

(** Words written by [copyout]. *)
Lemma words_at ws c va i w : ws !! i = Some w → load32 (over va (concat (le_encode 4 <$> ws)) c) (va + 4 * Z.of_nat i) = u32 w.
Proof.
  revert va c i. induction ws as [|x ws IH]; intros va c i Hi; [done|]. cbn [fmap list_fmap concat].
  assert (Hl : length (concat (le_encode 4 <$> ws)) = (4 * length ws)%nat).
  { clear. induction ws as [|y ws IH]; cbn [fmap list_fmap concat length]; [done|]. rewrite length_app, length_le_encode, IH. lia. }
  destruct i as [|i].
  - injection Hi as ->. rewrite Z.mul_0_r, Z.add_0_r. rewrite (load32_ext _ (over va (le_encode 4 w) c)).
    + change (u32 w) with (w mod 256 ^ Z.of_nat 4). rewrite <- le_decode_encode. unfold load32. f_equal. unfold over. rewrite length_le_encode.
      rewrite !(proj2 (Z.leb_le _ _)), !(proj2 (Z.ltb_lt _ _)) by lia. cbn [andb].
      replace (va - va) with 0 by lia. replace (va + 1 - va) with 1 by lia. replace (va + 2 - va) with 2 by lia. by replace (va + 3 - va) with 3 by lia.
    + intros j Hj. rewrite over_app, length_le_encode. unfold over at 1.
      rewrite (proj2 (Z.leb_gt _ _)) by lia. done.
  - change (ws !! i = Some w) in Hi. rewrite <- (IH (va + 4) (over va (le_encode 4 x) c) i Hi).
    replace (va + 4 + 4 * Z.of_nat i) with (va + 4 * Z.of_nat (S i)) by lia. apply load32_ext. intros j Hj.
    rewrite over_app, length_le_encode. done.
Qed.

Section Stack.
Context {B : Type} {BB : Blocks B} {BL : BlockLaws B} {BT : Trans B} {DV : Devsw B}.
Context (kend kdata : Z).
Hypothesis Hkend : KERNBASE < kend.
Notation image := (image kend).
Implicit Types (s : sys B) (m : kmem) (l : list Z) (c : Z → Z) (argv : list (list Z)).

(** User code may touch the page below [n], and not the one below that. *)
Definition guarded (n : Z) (acc : Z → bool) : Prop :=
  (∀ x, n - PGSIZE ≤ x < n → acc x = true) ∧ (∀ x, n - 2 * PGSIZE ≤ x < n - PGSIZE → acc x = false).

(** A block below [sp] in the stack page is copied, one that begins below the
    page is not. *)
Lemma stack_copyout k0 (m0 : mem) l0 u d n acc c m l sp va bs : image k0 m0 l0 u d n acc c m l → guarded n acc → 0 ≤ va →
  n - PGSIZE ≤ sp ≤ n → bs ≠ [] → sp - 4 < va + Z.of_nat (length bs) ≤ sp →
  wp (copyout d va bs) (λ r m', (r = 0 ∧ n - PGSIZE ≤ va ∧ image k0 m0 l0 u d n acc (over va bs c) m' l) ∨
    (r = -1 ∧ va < n - PGSIZE ∧ ∃ c', image k0 m0 l0 u d n acc c' m' l)) m.
Proof.
  intros I [G1 G2] Hva Hsp Hne Hend. eapply wp_mono; [apply (image_copyout kend _ _ _ _ _ _ _ _ _ _ va bs I); lia|].
  assert (Hlen : (0 < length bs)%nat) by (destruct bs; [done|cbn; lia]). unfold PGSIZE in *.
  intros r m' [(->&Ha&I')|(->&(x&Hx&Ha)&I')]; [left|right]; (split; [done|]).
  - split; [|done]. destruct (decide (n - 4096 ≤ va)) as [|Hlt]; [done|exfalso].
    destruct (decide (va + Z.of_nat (length bs) ≤ n - 4096)) as [Hle|Hgt].
    + assert (E := G2 (va + Z.of_nat (length bs) - 1) ltac:(lia)). rewrite Ha in E by lia. done.
    + assert (E := G2 (Z.max va (n - 2 * 4096)) ltac:(lia)). rewrite Ha in E by lia. done.
  - split; [|done]. destruct (decide (n - 4096 ≤ va)) as [Hge|]; [exfalso|lia]. rewrite G1 in Ha by lia. done.
Qed.

Lemma push_args_wp k0 (m0 : mem) l0 u d n acc l argv : ∀ argc addrs sp c m ino fl pid s (Q : option (Z * list Z) → sys B → Prop),
  image k0 m0 l0 u d n acc c m l → guarded n acc → n - PGSIZE ≤ sp ≤ n → n ≤ KERNBASE →
  Forall (λ a, Z.of_nat (length a) + 4 ≤ n - PGSIZE) argv →
  (∀ m' c', ¬ ((argc + length argv ≤ MAXARG)%nat ∧ n - PGSIZE ≤ args_sp sp argv) → image k0 m0 l0 u d n acc c' m' l → Q None (after s m' ino fl pid)) →
  (∀ m' c', (argc + length argv ≤ MAXARG ∨ argv = [])%nat → n - PGSIZE ≤ args_sp sp argv →
     image k0 m0 l0 u d n acc c' m' l → (∀ x, x < args_sp sp argv ∨ sp ≤ x → c' x = c x) →
     (∀ i a p, argv !! i = Some a → arg_sps sp argv !! i = Some p → args_sp sp argv ≤ p ∧ p + Z.of_nat (length a) < sp ∧ str_at c' p a) →
     Q (Some (args_sp sp argv, addrs ++ arg_sps sp argv)) (after s m' ino fl pid)) →
  wp (push_args d sp argv argc addrs) Q (after s m ino fl pid).
Proof.
  induction argv as [|a argv IH]; intros argc addrs sp c m ino fl pid s Q I G Hsp Hn Hlen HN HS; cbn [push_args].
  { apply wp_ret. cbn [args_sp arg_sps] in HS. specialize (HS m c (or_intror eq_refl) (proj1 Hsp) I). rewrite app_nil_r in HS. apply HS; [done|].
    intros i a p Hi. done. }
  apply Forall_cons in Hlen as [Ha Hlen]. destruct (Nat.leb_spec MAXARG argc) as [Hmax|Hmax].
  { apply wp_ret, (HN m c); [|done]. cbn [length]. lia. }
  set (x := sp - Z.of_nat (length a) - 1). destruct (down4_facts x) as [Hd Hd4].
  replace (sp - (Z.of_nat (length a) + 1)) with x by (unfold x; lia).
  rewrite down4_land by (unfold x, KERNBASE, PGSIZE in *; lia). cbn [args_sp arg_sps] in HN, HS. fold x in HN, HS.
  apply wp_bind, after_km. eapply wp_mono.
  { apply (stack_copyout _ _ _ _ _ _ _ _ _ _ sp _ _ I G); [unfold x in *; lia|lia|by destruct a|].
    rewrite length_app. cbn [length]. unfold x in *. lia. }
  intros r m1 [(->&Hge&I1)|(->&Hlt&c'&I1)]; cbn [Z.ltb Z.compare].
  2:{ apply wp_ret, (HN m1 c'); [|done]. pose proof (args_sp_le argv (down4 x)). lia. }
  eapply (IH (S argc) (addrs ++ [down4 x]) (down4 x) _ m1); [exact I1|done|unfold x in *; lia|done|done| |].
  - intros m' c' Hno. apply HN. cbn [length]. replace (argc + S (length argv))%nat with (S argc + length argv)%nat by lia. done.
  - intros m' c' Hmx Hfit I2 Hsame Hstr. rewrite <- app_assoc. cbn [app]. apply (HS m' c'); try done.
    + left. cbn [length]. destruct Hmx as [| ->]; cbn [length]; lia.
    + intros y Hy. pose proof (args_sp_le argv (down4 x)). rewrite Hsame by (unfold x in *; lia). unfold over. rewrite length_app. cbn [length].
      destruct (Z.leb_spec (down4 x) y), (Z.ltb_spec y (down4 x + Z.of_nat (length a + 1))); cbn [andb]; try done. unfold x in *. lia.
    + intros [|i] b p Hb Hp.
      * injection Hb as <-. injection Hp as <-. split; [apply args_sp_le|]. split; [unfold x in *; lia|].
        intros j Hj. rewrite Hsame by lia. by apply over_str.
      * destruct (Hstr i b p Hb Hp) as (H1&H2&H3). split_and!; [done|unfold x in *; lia|done].
Qed.

(** The process that runs the new program. *)
Definition new_image (path elf : list Z) (d n esp : Z) (p : proc) : proc :=
  set_p_tf (set_tf_esp esp (set_tf_eip (elf_entry elf) (p_tf p)))
    (set_p_sz n (set_p_pgdir d (set_p_name (copy_name (p_name p) (last_elem path path)) p))).

(** Only the memory and the process table differ. *)
Definition only_mem s m : sys B := after s m (fs_inode (sy_fs s)) (sy_file s) (sy_nextpid s).

(** The state before, from a memory [m0] with the free pages [l0], in which
    the process has its old memory. *)
Record exec_ready s (i : nat) (p : proc) (m0 : mem) (l0 : list Z) : Prop := {
  er_cur : cpu_proc (k_cpu (kern s)) = Some i;
  er_proc : k_procs (kern s) !! i = Some p;
  er_pages : Forall (page kend) l0 ∧ NoDup l0;
  er_old : uspace kend m0 (p_pgdir p) l0
}.

(** [exec] has given up: the pages it took are free again, the process and its
    memory are as before. *)
Definition exec_undone s (m0 : mem) (l0 : list Z) s' : Prop := ∃ m l', s' = only_mem s m ∧ km_ready m ∧ km_k m = kern s ∧
  free_pages kend m l' ∧ (∀ v, v ∈ l' ↔ v ∈ l0) ∧ (∀ b, (∀ v, v ∈ l0 → ¬ in_page v b) → km_mem m b = m0 b).

(** [exec] has replaced the image of process [i]: below [z] it has the bytes
    [c], above them a page it cannot touch and the stack.  No page is lost. *)
Definition exec_done s (i : nat) (p : proc) (m0 : mem) (l0 : list Z) (path elf : list Z) argv (d z : Z) c s' : Prop :=
  let n := z + 2 * PGSIZE in ∃ m l' c', s' = only_mem s m ∧ km_ready m ∧
  km_k m = upd_proc i (new_image path elf d n (main_esp n argv)) (kern s) ∧
  free_pages kend m l' ∧ uspace kend (km_mem m) d l' ∧
  (∀ v, v ∈ l' ∨ pt_page (km_mem m) d v ∨ user_page (km_mem m) d v ↔
        v ∈ l0 ∨ pt_page m0 (p_pgdir p) v ∨ user_page m0 (p_pgdir p) v) ∧
  user_mem (km_mem m) d n (λ x, negb (x / PGSIZE =? z / PGSIZE)) c' ∧ (∀ x, 0 ≤ x < z → c' x = c x) ∧
  main_stack c' n (main_esp n argv) argv.

Lemma exec_bad_wp (m0 : mem) l0 u d n acc c m l s : image (kern s) m0 l0 u d n acc c m l →
  wp (exec_bad kend d None) (λ r s', r = -1 ∧ exec_undone s m0 l0 s') (only_mem s m).
Proof.
  intros I. assert (Hk : km_k m = kern s) by apply (im_child _ _ _ _ _ _ _ _ _ _ _ I). unfold exec_bad, only_mem.
  assert (Hd : d ≠ 0) by (apply (page_aligned kend); apply (us_pt _ _ _ _ (im_space _ _ _ _ _ _ _ _ _ _ _ I))).
  unfold nz. rewrite (proj2 (Z.eqb_neq _ 0)) by done. cbn [negb when]. apply wp_bind, after_km. eapply image_free; [exact I|].
  intros m' l' R1 R2 R3 R4 R5. apply wp_bind, wp_ret, wp_ret. split; [done|]. exists m', l'. split_and!; try done. congruence.
Qed.

Lemma length_ustack argc argvp addrs : length (ustack argc argvp addrs) = (4 * (4 + length addrs))%nat.
Proof.
  unfold ustack. assert (H : ∀ ws, length (concat (le_encode 4 <$> ws)) = (4 * length ws)%nat).
  { induction ws as [|w ws IH]; cbn [fmap list_fmap concat length]; [done|]. rewrite length_app, length_le_encode, IH. lia. }
  rewrite H, !length_app. cbn [length]. lia.
Qed.

(** The words above the strings make a stack for [main]. *)
Lemma stack_words n argv c : n mod 4 = 0 → PGSIZE ≤ n ≤ KERNBASE → args_fit n argv →
  (∀ i a p, argv !! i = Some a → arg_sps n argv !! i = Some p → args_sp n argv ≤ p ∧ p + Z.of_nat (length a) < n ∧ str_at c p a) →
  main_stack (over (main_esp n argv) (ustack (Z.of_nat (length argv)) (main_esp n argv + 12) (arg_sps n argv)) c) n (main_esp n argv) argv.
Proof.
  intros Hal Hn [Hmax Hfit] Hstr. set (esp := main_esp n argv) in *. set (ws := [0xffffffff; Z.of_nat (length argv); esp + 12] ++ arg_sps n argv ++ [0]).
  assert (Hsp : args_sp n argv = esp + 4 * (4 + Z.of_nat (length argv))) by (unfold esp, main_esp; lia).
  assert (Hle := args_sp_le argv n). unfold MAXARG, KERNBASE, PGSIZE in *.
  assert (Hlen := length_ustack (Z.of_nat (length argv)) (esp + 12) (arg_sps n argv)). rewrite length_arg_sps in Hlen.
  change (ustack _ _ _) with (concat (le_encode 4 <$> ws)) in Hlen |- *.
  assert (Hw : ∀ i w, ws !! i = Some w → 0 ≤ w < 4294967296 → load32 (over esp (concat (le_encode 4 <$> ws)) c) (esp + 4 * Z.of_nat i) = w).
  { intros i w Hi Hr. rewrite (words_at _ _ _ _ _ Hi). by apply u32_small. }
  assert (Hp0 : ∀ i a p, argv !! i = Some a → arg_sps n argv !! i = Some p → 0 ≤ p < 4294967296).
  { intros i a p Ha Hp. destruct (Hstr i a p Ha Hp) as (H1&H2&_). lia. }
  split.
  - split; [done|]. unfold esp, main_esp. rewrite Zminus_mod, args_sp_aligned by done. rewrite Z.mod_mul by lia. done.
  - rewrite <- (Hw 0%nat 0xffffffff eq_refl ltac:(lia)). f_equal. lia.
  - rewrite <- (Hw 1%nat _ eq_refl ltac:(lia)). done.
  - rewrite <- (Hw 2%nat _ eq_refl ltac:(lia)). done.
  - intros i a Ha. destruct (lookup_lt_is_Some_2 (arg_sps n argv) i) as [p Hp]; [rewrite length_arg_sps; by eapply lookup_lt_Some|].
    destruct (Hstr i a p Ha Hp) as (H1&H2&H3). exists p. split_and!; [|lia|done|].
    + rewrite <- (Hw (3 + i)%nat p); [f_equal; lia| |by eapply Hp0]. unfold ws. rewrite lookup_app_r by (cbn; lia). cbn [length].
      rewrite lookup_app_l by (rewrite length_arg_sps; apply lookup_lt_Some in Ha; lia). by replace (3 + i - 3)%nat with i by lia.
    + intros j Hj. rewrite <- H3 by done. unfold over. rewrite Hlen. bdestr; cbn; (done || lia).
  - rewrite <- (Hw (3 + length argv)%nat 0); [f_equal; lia| |lia]. unfold ws. rewrite lookup_app_r by (cbn; lia). cbn [length].
    rewrite lookup_app_r by (rewrite length_arg_sps; lia). rewrite length_arg_sps. by replace (3 + length argv - 3 - length argv)%nat with 0%nat by lia.
Qed.

(** The commit: the process gets the image, its old memory is freed. *)
Lemma exec_commit_wp s i p (m0 : mem) l0 u d z c c' m l path argv elf : exec_ready s i p m0 l0 →
  let n := z + 2 * PGSIZE in
  image (kern s) m0 l0 u d n (λ x, negb (x / PGSIZE =? z / PGSIZE)) c' m l →
  (∀ x, 0 ≤ x < z → c' x = c x) → main_stack c' n (main_esp n argv) argv →
  wp (i ← sk curproc;
      uproc i (λ p, set_p_name (copy_name (p_name p) (last_elem path path)) p);;
      p ← getproc i;
      uproc i (λ p, set_p_tf (set_tf_esp (main_esp n argv) (set_tf_eip (elf_entry elf) (p_tf p))) (set_p_sz n (set_p_pgdir d p)));;
      kmz (freevm kend (p_pgdir p));;
      mret 0)
    (λ r s', r = 0 ∧ exec_done s i p m0 l0 path elf argv d z c s') (only_mem s m).
Proof.
  intros [E1 E2 [E3 E4] E5] n I Hc Hst. assert (Hk : km_k m = kern s) by apply (im_child _ _ _ _ _ _ _ _ _ _ _ I). unfold only_mem. apply wp_bind, after_sk. eapply wp_deref; [rewrite Hk; exact E1|].
  replace (set_km_k (km_k m) m) with m by by destruct m. apply after_uproc. eapply after_getproc.
  { unfold on_proc, upd_proc. cbn. rewrite Hk, list_lookup_alter, decide_True, E2 by done. done. }
  apply after_uproc. rewrite on_proc_twice. set (m1 := on_proc i _ m).
  destruct (image_other kend _ _ _ _ _ _ _ _ _ _ (p_pgdir p) I E5 E3) as (O1&O2&O3&O4).
  destruct (im_child _ _ _ _ _ _ _ _ _ _ _ I) as [C1 _ C3 _ C5 C7 C6].
  assert (R1 : km_ready m1) by (destruct C1; by split).
  apply wp_bind, after_km. eapply wp_mono; [apply (freevm_wp kend m1 l (p_pgdir p) R1 C3 O1)|].
  change (km_mem m1) with (km_mem m). intros [] m2 (F1&F2&(l2&F3&F4)&F5). apply wp_ret. split; [done|].
  assert (Hin : ∀ v, v ∈ l2 ↔ v ∈ l ∨ pt_page m0 (p_pgdir p) v ∨ user_page m0 (p_pgdir p) v) by (intros v; by rewrite F4, O2, O3).
  destruct (image_stays kend _ _ _ _ _ _ _ _ _ _ (km_mem m2) l2 I) as (S1&S2&S3&S4).
  { intros v b Hv Hb. apply F5. intros w Hw Hwb. rewrite O2, O3 in Hw. destruct (O4 w Hw) as [Hw0 Hwp].
    rewrite Forall_forall in E3. assert (Hne : w ≠ v) by (intros ->; done).
    destruct (page_apart kend w v b Hwp (E3 v Hv) Hne Hb); unfold in_page in Hwb; lia. }
  { intros v [Hv|Hv]%Hin; [by left|right]. by apply O4. }
  exists m2, l2, c'. split_and!; try done.
  - rewrite F2. unfold m1, on_proc. cbn. by rewrite Hk.
  - intros v. rewrite Hin, S3, S4. pose proof (image_pages kend _ _ _ _ _ _ _ _ _ _ v I) as Hp. split.
    + intros [[Hv|Hv]|Hv]; [left; apply C5; by left|by right|left; by apply Hp].
    + intros [Hv|Hv]; [|by left; right]. destruct (C7 v Hv) as [?|[?|?]]; [by left; left|by right; left|]. right. right.
      by apply (im_user _ _ _ _ _ _ _ _ _ _ _ I).
Qed.

Lemma PGROUNDUP_aligned x : x mod PGSIZE = 0 → 0 ≤ x < 4294963200 → PGROUNDUP x = x.
Proof. intros Hx Hr. rewrite PGROUNDUP_div by done. unfold PGSIZE in *. Z.div_mod_to_equations. lia. Qed.

(** From the stack on: with room for two pages the arguments decide. *)
Lemma exec_stack_wp s i p (m0 : mem) l0 u d sz c l path argv elf : exec_ready s i p m0 l0 →
  let z := PGROUNDUP sz in let n := z + 2 * PGSIZE in
  image (kern s) m0 l0 u d z (λ _, true) c (lget sys_km s) l → (∀ x, z ≤ x → c x = 0) → 
  n < KERNBASE → 1026 + n / PGSIZE ≤ Z.of_nat (length l0) →
  Forall (λ a, Z.of_nat (length a) + 4 ≤ n - PGSIZE) argv →
  wp (exec_stack kend path argv elf d sz) (λ r s',
    (args_fit n argv ∧ r = 0 ∧ exec_done s i p m0 l0 path elf argv d z c s') ∨
    (¬ args_fit n argv ∧ r = -1 ∧ exec_undone s m0 l0 s')) s.
Proof.
  intros Hr z n I Hc Hn Hroom Hargs. destruct (im_size _ _ _ _ _ _ _ _ _ _ _ I) as [Hz _].
  assert (Hal : z mod PGSIZE = 0) by (rewrite Hz, Z.mul_comm; by apply Z.mod_mul).
  assert (Hz0 : 0 ≤ z) by (unfold PGSIZE in *; lia). unfold KERNBASE in Hn.
  assert (Hn4 : n mod PGSIZE = 0) by (unfold n; rewrite Z.mod_add by done; done).
  unfold exec_stack. fold z. rewrite (u32_small (z + 2 * PGSIZE)) by (unfold n, PGSIZE in *; lia). fold n.
  apply after_start. apply wp_bind, after_km. eapply wp_mono.
  { eapply (image_alloc kend Hkend _ _ _ _ _ _ _ _ _ _ z n I).
    - unfold n, PGSIZE. lia.
    - by rewrite PGROUNDUP_aligned by (done || unfold n, PGSIZE in *; lia).
    - unfold KERNBASE. lia.
    - apply Hr.
    - by rewrite PGROUNDUP_aligned by (done || unfold n, PGSIZE in *; lia).
    - intros x Hx. split; [done|by apply Hc]. }
  intros r m1 (->&u1&l1&I1). rewrite PGROUNDUP_aligned in I1 by (done || unfold n, PGSIZE in *; lia).
  rewrite (proj2 (Z.eqb_neq _ 0)) by (unfold n, PGSIZE; lia).
  replace (n - 2 * PGSIZE) with z by (unfold n; lia). rewrite (u32_small z) by (unfold n, PGSIZE in *; lia).
  apply wp_bind, after_km. eapply wp_mono; [apply (image_guard kend _ _ _ _ _ _ _ _ _ _ z I1); unfold n, PGSIZE; lia|].
  intros [] m2 I2. cbn [andb] in I2. set (acc := λ y, negb (y / PGSIZE =? z / PGSIZE)) in *.
  assert (G : guarded n acc).
  { unfold guarded, acc, n, PGSIZE in *. split; intros x Hx; [apply negb_true_iff, Z.eqb_neq|apply negb_false_iff, Z.eqb_eq];
      clear -Hx Hal; Z.div_mod_to_equations; lia. }
  change (after s m2 _ _ _) with (only_mem s m2). pose proof (args_sp_le argv n) as Hle. apply wp_bind.
  assert (Hn1 : 2 * PGSIZE ≤ n ≤ KERNBASE) by (unfold n, KERNBASE, PGSIZE in *; lia).
  eapply (push_args_wp _ _ _ _ _ n acc l1 argv 0 [] n c m2); [exact I2|exact G|unfold PGSIZE; lia|lia|done| |].
  { intros m3 c3 Hno I3. eapply wp_mono; [apply (exec_bad_wp _ _ _ _ _ _ _ _ _ _ I3)|]. intros r s' [-> Hu]. right. split_and!; try done.
    intros [F1 F2]. apply Hno. split; [exact F1|]. unfold main_esp in F2. lia. }
  intros m3 c3 Hmax Hfit I3 Hsame Hstr. cbn [app]. rewrite length_arg_sps.
  assert (Hmx : (length argv ≤ MAXARG)%nat) by (destruct Hmax as [Hm| ->]; [exact Hm|cbn; lia]). unfold MAXARG in Hmx.
  replace (args_sp n argv - (Z.of_nat (length argv) + 1) * 4) with (main_esp n argv + 12) by (unfold main_esp; lia).
  replace (args_sp n argv - (3 + Z.of_nat (length argv) + 1) * 4) with (main_esp n argv) by done.
  assert (He : 0 ≤ main_esp n argv < 4294967296 - 12) by (unfold main_esp, KERNBASE, PGSIZE in *; lia).
  rewrite !u32_small by lia. set (us := ustack _ _ _). pose proof (length_ustack (Z.of_nat (length argv)) (main_esp n argv + 12) (arg_sps n argv)) as Hlu.
  fold us in Hlu. rewrite length_arg_sps in Hlu.
  apply wp_bind, after_km. eapply wp_mono.
  { apply (stack_copyout _ _ _ _ _ _ _ _ _ _ (args_sp n argv) _ us I3 G); [lia|lia|intros E; rewrite E in Hlu; cbn in Hlu; lia|].
    rewrite Hlu. unfold main_esp. lia. }
  intros r m4 [(->&Hge&I4)|(->&Hlt&c4&I4)]; cbn [Z.ltb Z.compare]; change (after s m4 _ _ _) with (only_mem s m4).
  - assert (Hf : args_fit n argv) by by split. eapply wp_mono; [apply (exec_commit_wp s i p m0 l0 _ d z c _ m4 l1 path argv elf Hr I4)|].
    + intros x Hx. assert (Hx' : x < main_esp n argv) by (unfold n, PGSIZE in *; lia). unfold over. rewrite (proj2 (Z.leb_gt _ _)) by done.
      cbn [andb]. apply Hsame. left. unfold main_esp in Hx'. lia.
    + apply stack_words; try done; [unfold PGSIZE in *; clear -Hn4; Z.div_mod_to_equations; lia|unfold PGSIZE in *; lia].
    + intros r s' [-> Hd]. left. by split_and!.
  - eapply wp_mono; [apply (exec_bad_wp _ _ _ _ _ _ _ _ _ _ I4)|]. intros r s' [-> Hu]. right. split_and!; try done. intros [_ F2]. lia.
Qed.
End Stack.
