(* ===== verification/ExecLoad.v ===== *)
(** Loading the segments of a program (exec.c, [loaduvm] of vm.c) against a
    reference loader on the bytes of the file, and [exec] as a whole. *)
From S2P Require Import Prelude Kmonad Wp Kstate Spinlock Sleep Str Kalloc Disk Log Blocks FsEx Balloc Inode Dinode Icache FileData Dir Namex Pipe Vm VmLaws VmFree VmCopy VmGrow BioRun Image File Proc Fork Syscall Exec ExecLaws.

Section Load.
Context {B : Type} {BB : Blocks B} {BL : BlockLaws B} {BW : BlockWakes B} {BT : Trans B} {DV : Devsw B}.
Context (kend kdata : Z).
Hypothesis Hkend : KERNBASE < kend.
Variables (P : Z → Z → Prop) (dev : Z) (sb : superblock) (V : Z → Z → list Z) (X : gset nat) (Hd : gmap nat (Z * Z)).
Notation image := (image kend).
Notation since k := (bl_inv (BlockLaws := since_laws k) P V X Hd).
Implicit Types (s : sys B) (b : B) (m : kmem) (me : mem) (l : list Z) (c : Z → Z) (ip : inode).

(** ** The reference loader *)

(** [n] bytes of the file at [off], if it has them. *)
Definition file_at_off ip (off n : Z) : option (list Z) :=
  if off + n <=? i_size ip then Some (file_bytes dev V ip off n) else None.

(** The size and the bytes of the image after the program headers at [off]. *)
Fixpoint load_ref ip (off : Z) (n : nat) (sz : Z) c : option (Z * (Z → Z)) :=
  match n with
  | O => Some (sz, c)
  | S n =>
      match file_at_off ip (u32 off) PHSIZE with
      | None => None
      | Some ph =>
          if negb (ph_type ph =? ELF_PROG_LOAD) then load_ref ip (i32 (off + PHSIZE)) n sz c else
          if ph_memsz ph <? ph_filesz ph then None else
          let sz := Z.max sz (ph_vaddr ph + ph_memsz ph) in
          if sz =? 0 then None else
          if (ph_filesz ph =? 0) || (ph_off ph + ph_filesz ph <=? i_size ip)
          then load_ref ip (i32 (off + PHSIZE)) n sz (over (ph_vaddr ph) (file_bytes dev V ip (ph_off ph) (ph_filesz ph)) c)
          else None
      end
  end.

(** Segments begin at page boundaries and end below [top]. *)
Fixpoint headers_ok ip (top off : Z) (n : nat) : Prop :=
  match n with
  | O => True
  | S n =>
      match file_at_off ip (u32 off) PHSIZE with
      | None => True
      | Some ph =>
          (ph_type ph = ELF_PROG_LOAD → ph_vaddr ph mod PGSIZE = 0 ∧ ph_vaddr ph + ph_memsz ph ≤ top) ∧
          headers_ok ip top (i32 (off + PHSIZE)) n
      end
  end.

(** ** States during the load *)

(** [s] with other blocks, inode cache and memory. *)
Definition at_fs s b (ino : list inode) m : sys B :=
  Sys (Fs b ino) (km_use_lock m) (km_freelist m) (km_mem m) (sy_pipes s) (sy_file s) (sy_ticks s)
    (sy_nextpid s) (sy_initproc s) (sy_first s).

Lemma at_fs_self s : at_fs s (fs_bl (sy_fs s)) (fs_inode (sy_fs s)) (lget sys_km s) = s.
Proof. by destruct s as [[b i] ? ? ? ? ? ? ? ? ?]. Qed.
Lemma at_fsz {A} (f : M (fs B) A) Q s b ino m :
  wp f (λ a t, Q a (at_fs s (fs_bl t) (fs_inode t) m)) (Fs b ino) → wp (fsz f) Q (at_fs s b ino m).
Proof. intros Hw. apply wp_zoom. eapply wp_mono; [exact Hw|]. by intros a [b' i']. Qed.
Lemma at_km {A} (f : M kmem A) Q s b ino m :
  wp f (λ a m', km_k m' = kof b ∧ Q a (at_fs s b ino m')) (set_km_k (kof b) m) → wp (kmz f) Q (at_fs s b ino m).
Proof.
  intros Hw. apply wp_zoom. change (lget sys_km (at_fs s b ino m)) with (set_km_k (kof b) m).
  eapply wp_mono; [exact Hw|]. intros a m' [Hk HQ]. cbn. rewrite Hk. unfold kof. rewrite lset_lget. exact HQ.
Qed.
Lemma set_k_same m : set_km_k (km_k m) m = m.
Proof. by destruct m. Qed.

(** The kernel may take the lock of the page allocator. *)
Definition km_free k0 : Prop := kst_ok k0 ∧ is_free LKmem k0.
Lemma km_free_waked k0 k : km_free k0 → waked k0 k → km_free k.
Proof. intros [H1 H2] [cs ->]. split; [by apply wakes_ok|by apply wakes_free]. Qed.

(** Loading: the image is [c] below [n], and the inode is entry [i]. *)
Record loading (k0 : kst) (me : mem) (l0 u : list Z) (d n : Z) c (i : nat) ip b (ino : list inode) m l : Prop := {
  lo_fs : since k0 b;
  lo_k : km_free k0;
  lo_ino : ino !! i = Some ip;
  lo_img : image (kof b) me l0 u d n (λ _, true) c (set_km_k (kof b) m) l
}.

(** The file is one that [readi] can read. *)
Record prog_ok ip : Prop := {
  po_geom : fs_geom P V dev sb;
  po_file : file_ok P dev sb V ip;
  po_mapped : mapped dev V ip;
  po_type : i_type ip ≠ T_DEV;
  po_bytes : ∀ k, 0 ≤ k < i_size ip → is_byte (file_byte dev V ip k)
}.

Lemma prog_bytes ip off n : prog_ok ip → 0 ≤ off → off + n ≤ i_size ip → is_bytes (file_bytes dev V ip off n).
Proof.
  intros Hpo Hoff Hn. apply Forall_forall. intros x Hx. apply list_elem_of_fmap in Hx as (j&->&Hj%elem_of_seq).
  apply (po_bytes _ Hpo). lia.
Qed.
Lemma u32_field (o : nat) (bs : list Z) : is_bytes bs → 0 ≤ get_u32 o bs < 4294967296.
Proof.
  intros Hb. unfold get_u32, slice. assert (Hs : is_bytes (take 4 (drop o bs))) by (by apply Forall_take, Forall_drop).
  pose proof (le_decode_range _ Hs) as Hr. rewrite length_take in Hr.
  assert (256 ^ Z.of_nat (4 `min` length (drop o bs)) ≤ 256 ^ 4) by (apply Z.pow_le_mono_r; lia). lia.
Qed.

Lemma load_readi k0 me l0 u d n c i ip b ino m l s off cnt (Q : Z * list Z → sys B → Prop) :
  loading k0 me l0 u d n c i ip b ino m l → prog_ok ip → 0 ≤ off < 4294967296 → 0 ≤ cnt < 2147483648 →
  (∀ b' r bs, loading k0 me l0 u d n c i ip b' ino m l → u32 r ≠ cnt → (Z.of_nat (length bs) ≤ cnt) →
     file_at_off ip off cnt = None → Q (r, bs) (at_fs s b' ino m)) →
  (∀ b', loading k0 me l0 u d n c i ip b' ino m l → file_at_off ip off cnt = Some (file_bytes dev V ip off cnt) →
     Q (cnt, file_bytes dev V ip off cnt) (at_fs s b' ino m)) →
  wp (fsz (readi i off cnt)) Q (at_fs s b ino m).
Proof.
  intros [L1 L2 L3 L4] [F1 F2 F3 F4 _] Hoff Hcnt HN HS. apply at_fsz.
  pose proof (mp_size _ _ _ F3) as Hsz. change (MAXFILE * BSIZE) with 71680 in Hsz.
  eapply wp_mono; [eapply (readi_wp (BL := since_laws k0) P dev sb V X Hd b ino i ip off cnt); (done || lia)|].
  intros r [b' ino'] (Hi&Hb&->). cbn [fs_inode fs_bl] in *. subst ino'.
  assert (Hk : kof b' = kof b' ∧ km_free (kof b')) by (split; [done|]; eapply km_free_waked; [exact L2|apply Hb]).
  assert (L' : loading k0 me l0 u d n c i ip b' ino m l).
  { split; try done. destruct Hk as [_ [K1 K2]]. exact (image_k kend _ _ _ _ _ _ _ _ _ _ _ K1 K2 L4). }
  unfold file_at_off in *. destruct (Z.ltb_spec (i_size ip) off) as [H1|H1]; cbn [orb].
  { rewrite (proj2 (Z.leb_gt _ _)) in HN by lia. apply HN; [done| |cbn; lia|done]. change (u32 (-1)) with 4294967295. lia. }
  destruct (Z.leb_spec 4294967296 (off + cnt)) as [H2|H2]; [lia|]. cbn zeta.
  destruct (Z.leb_spec (off + cnt) (i_size ip)) as [H3|H3].
  - replace (Z.min cnt (i_size ip - off)) with cnt by lia. by apply HS.
  - apply HN; [done| |rewrite length_file_bytes; lia|done]. rewrite u32_small by lia. lia.
Qed.

(** ** [loaduvm] *)

(** The kernel looks at memory. *)
Lemma at_km_look {A} (f : M kmem A) Q s b ino m a : f (set_km_k (kof b) m) = Ok a (set_km_k (kof b) m) →
  Q a (at_fs s b ino m) → wp (kmz f) Q (at_fs s b ino m).
Proof. intros E HQ. apply at_km. eapply wp_run; [exact E|]. done. Qed.

Lemma load_poke k0 me l0 u d n c i ip b ino m l s a e bs (Q : unit → sys B → Prop) :
  loading k0 me l0 u d n c i ip b ino m l → 0 ≤ a < n → a mod PGSIZE = 0 → mmu_pte (km_mem m) d a = Some e →
  Z.of_nat (length bs) ≤ PGSIZE →
  (∀ m', loading k0 me l0 u d n (over a bs c) i ip b ino m' l → Q tt (at_fs s b ino m')) →
  wp (kmz (kstore (p2v (PTE_ADDR e)) bs)) Q (at_fs s b ino m).
Proof.
  intros [L1 L2 L3 L4] Ha Hal He Hlen HQ. apply at_km.
  assert (Hp := image_poke kend _ _ _ _ _ _ _ _ _ _ a e 0 bs L4 Ha Hal He ltac:(lia) ltac:(lia)).
  unfold upage in Hp. rewrite !Z.add_0_r in Hp. eapply wp_mono; [exact Hp|]. intros [] m' [I _].
  assert (Hk : km_k m' = kof b) by apply (im_child _ _ _ _ _ _ _ _ _ _ _ I). split; [done|]. apply HQ. split; try done.
  by rewrite <- Hk, set_k_same, Hk.
Qed.

Lemma loaduvm_step_wp k0 me l0 u d n c i ip b ino m l s addr off sz k (Q : Z + Z → sys B → Prop) :
  loading k0 me l0 u d n c i ip b ino m l → prog_ok ip → addr mod PGSIZE = 0 → 0 ≤ addr → addr + sz ≤ n → 0 ≤ off < 4294967296 →
  (k = 0 ∨ off + k ≤ i_size ip) → k mod PGSIZE = 0 → 0 ≤ k < sz →
  let cnt := Z.min (sz - k) PGSIZE in
  (∀ b' m' c', loading k0 me l0 u d n c' i ip b' ino m' l → i_size ip < off + k + cnt → Q (inr (-1)) (at_fs s b' ino m')) →
  (∀ b' m', loading k0 me l0 u d n (over (addr + k) (file_bytes dev V ip (off + k) cnt) c) i ip b' ino m' l → off + k + cnt ≤ i_size ip →
     Q (inl (k + PGSIZE)) (at_fs s b' ino m')) →
  wp (loaduvm_step d addr i off sz k) Q (at_fs s b ino m).
Proof.
  intros L Hpo Hal Ha Hn Hoff Hk Hkal Hkr cnt HN HS. unfold loaduvm_step. rewrite (proj2 (Z.ltb_lt k sz)) by lia.
  pose proof (lo_img _ _ _ _ _ _ _ _ _ _ _ _ _ L) as I. destruct (im_size _ _ _ _ _ _ _ _ _ _ _ I) as [_ Hkb]. unfold KERNBASE in Hkb.
  pose proof (mp_size _ _ _ (po_mapped _ Hpo)) as Hsz. change (MAXFILE * BSIZE) with 71680 in Hsz.
  destruct (im_see _ _ _ _ _ _ _ _ _ _ _ I (addr + k) ltac:(lia)) as (e&E1&_&_&_). change (km_mem (set_km_k (kof b) m)) with (km_mem m) in E1.
  destruct (mmu_some _ _ _ _ E1) as (Hp&Hl&_). rewrite (u32_small (addr + k)) by lia.
  apply wp_bind. eapply at_km_look; [apply walk_run|]. change (km_mem (set_km_k (kof b) m)) with (km_mem m). rewrite Hp.
  rewrite (proj2 (Z.eqb_neq _ 0)) by (eapply (tab_slot kend); [apply (im_space _ _ _ _ _ _ _ _ _ _ _ I)|apply PDX_range|done|apply PTX_range]).
  apply wp_bind. eapply at_km_look; [reflexivity|]. change (km_mem (set_km_k (kof b) m)) with (km_mem m). rewrite Hl.
  replace (if sz - k <? PGSIZE then sz - k else PGSIZE) with cnt by (unfold cnt; destruct (Z.ltb_spec (sz - k) PGSIZE); lia).
  assert (Hcnt : 0 < cnt ≤ PGSIZE) by (unfold cnt, PGSIZE; lia).
  assert (Hak : (addr + k) mod PGSIZE = 0) by (rewrite Zplus_mod, Hal, Hkal; done).
  rewrite (u32_small (off + k)) by (unfold PGSIZE in *; lia).
  apply wp_bind. eapply load_readi; [exact L|exact Hpo|lia|unfold PGSIZE in *; lia|..].
  - intros b' r bs L' Hr Hlb Hnone. apply wp_bind.
    eapply (load_poke _ _ _ _ _ _ _ _ _ _ _ _ _ _ (addr + k) e bs); [exact L'|lia|done|exact E1|lia|].
    intros m' L2. rewrite (proj2 (Z.eqb_neq _ _)) by done. cbn [negb]. apply wp_ret. eapply HN; [exact L2|].
    unfold file_at_off in Hnone. destruct (Z.leb_spec (off + k + cnt) (i_size ip)); [done|lia].
  - intros b' L' Hsome. apply wp_bind.
    eapply (load_poke _ _ _ _ _ _ _ _ _ _ _ _ _ _ (addr + k) e); [exact L'|lia|done|exact E1|rewrite length_file_bytes; lia|].
    intros m' L2. rewrite u32_small, Z.eqb_refl by (unfold PGSIZE in *; lia). cbn [negb]. apply wp_ret.
    rewrite u32_small by (unfold PGSIZE in *; lia). apply HS; [done|].
    unfold file_at_off in Hsome. by destruct (Z.leb_spec (off + k + cnt) (i_size ip)).
Qed.

Lemma loading_ext k0 me l0 u d n c c' i ip b ino m l : (∀ x, 0 ≤ x < n → c' x = c x) →
  loading k0 me l0 u d n c i ip b ino m l → loading k0 me l0 u d n c' i ip b ino m l.
Proof. intros He [L1 L2 L3 L4]. split; try done. eapply image_ext; [|exact L4]. intros x Hx. split; [done|by apply He]. Qed.

Lemma loaduvm_wp k0 me l0 u d n c i ip b ino m l s addr off sz (Q : Z → sys B → Prop) :
  loading k0 me l0 u d n c i ip b ino m l → prog_ok ip → addr mod PGSIZE = 0 → 0 ≤ addr → 0 ≤ sz → addr + sz ≤ n → 0 ≤ off < 4294967296 →
  (∀ b' m' c', loading k0 me l0 u d n c' i ip b' ino m' l → sz ≠ 0 → i_size ip < off + sz → Q (-1) (at_fs s b' ino m')) →
  (∀ b' m', loading k0 me l0 u d n (over addr (file_bytes dev V ip off sz) c) i ip b' ino m' l → sz = 0 ∨ off + sz ≤ i_size ip →
     Q 0 (at_fs s b' ino m')) →
  wp (loaduvm d addr i off sz) Q (at_fs s b ino m).
Proof.
  intros L Hpo Hal Ha Hsz Hn Hoff HN HS. unfold loaduvm. rewrite Hal. cbn [Z.eqb negb].
  eapply (wp_loop _ (λ k st, ∃ b' m', st = at_fs s b' ino m' ∧ k mod PGSIZE = 0 ∧ 0 ≤ k < sz + PGSIZE ∧ (k = 0 ∨ off + Z.min k sz ≤ i_size ip) ∧
      loading k0 me l0 u d n (over addr (file_bytes dev V ip off (Z.min k sz)) c) i ip b' ino m' l) _
    (λ k, Z.to_nat ((sz - k + PGSIZE - 1) / PGSIZE))).
  - intros k st (b'&m'&->&Hkal&Hk&Hread&L'). destruct (decide (k < sz)) as [Hlt|Hge].
    + replace (Z.min k sz) with k in * by lia.
      eapply loaduvm_step_wp; [exact L'|exact Hpo|done|done|done|done|done|done|lia|..].
      * intros b2 m2 c2 L2 Hs. eapply HN; [exact L2|lia|unfold PGSIZE in *; lia].
      * intros b2 m2 L2 Hs. split.
        -- exists b2, m2. split; [done|]. split; [rewrite Zplus_mod, Hkal; done|]. split; [unfold PGSIZE in *; lia|].
           split; [right; unfold PGSIZE in *; lia|]. eapply loading_ext; [|exact L2]. intros x Hx.
           replace (Z.min (k + PGSIZE) sz) with (k + Z.min (sz - k) PGSIZE) by lia.
           rewrite file_bytes_app by (unfold PGSIZE in *; lia). rewrite over_app, length_file_bytes, Z2Nat.id by lia. done.
        -- unfold PGSIZE in *. clear -Hlt Hkal. Z.div_mod_to_equations. lia.
    + unfold loaduvm_step. rewrite (proj2 (Z.ltb_ge _ _)) by lia. apply wp_ret. replace (Z.min k sz) with sz in * by lia.
      apply HS; [done|]. destruct Hread; [left; lia|by right].
  - exists b, m. split; [done|]. split; [done|]. split; [unfold PGSIZE; lia|]. split; [by left|]. replace (Z.min 0 sz) with 0 by lia.
    eapply loading_ext; [|exact L]. intros x Hx. unfold over. rewrite length_file_bytes.
    change (Z.of_nat (Z.to_nat 0)) with 0. bdestr; cbn [andb]; (done || lia).
  - unfold PGSIZE. clear -Hsz. Z.div_mod_to_equations. lia.
Qed.

(** ** The segments *)

Definition size_ok (sz : Z) c : Prop := 0 ≤ sz ∧ ∀ x, sz ≤ x → c x = 0.

(** [allocuvm], of which the result is the larger size. *)
Lemma load_alloc k0 me l0 u d c i ip b ino m l s sz new (Q : Z → sys B → Prop) :
  loading k0 me l0 u d (PGROUNDUP sz) c i ip b ino m l → size_ok sz c → 0 ≤ sz < KERNBASE → 0 ≤ new < KERNBASE → NoDup l0 →
  1026 + PGROUNDUP new / PGSIZE ≤ Z.of_nat (length l0) →
  (∀ u' m' l', loading k0 me l0 u' d (PGROUNDUP (Z.max sz new)) c i ip b ino m' l' → Q (Z.max sz new) (at_fs s b ino m')) →
  wp (kmz (allocuvm kend d sz new)) Q (at_fs s b ino m).
Proof using Hkend.
  intros [L1 L2 L3 L4] [Hs0 Hc] Hsz Hnew Hnd Hroom HQ. apply at_km. destruct (decide (new < sz)) as [Hlt|Hge].
  - unfold allocuvm. rewrite (proj2 (Z.leb_gt _ _)), (proj2 (Z.ltb_lt _ _)) by lia. apply wp_ret. split; [done|].
    replace sz with (Z.max sz new) at 1 by lia. apply (HQ u _ l). replace (Z.max sz new) with sz by lia. by split.
  - eapply wp_mono; [eapply (image_alloc kend Hkend _ _ _ _ _ _ _ _ _ _ sz new L4); try done; try lia|].
    + intros x Hx. split; [done|]. apply Hc. rewrite PGROUNDUP_div in Hx by (unfold KERNBASE in *; lia). unfold PGSIZE in *.
      clear -Hx Hs0. Z.div_mod_to_equations. lia.
    + intros r m' (->&u'&l'&I). assert (Hk : km_k m' = kof b) by apply (im_child _ _ _ _ _ _ _ _ _ _ _ I). split; [done|].
      replace new with (Z.max sz new) at 1 by lia. apply (HQ u' _ l'). replace (Z.max sz new) with new by lia. split; try done.
      by rewrite <- Hk, set_k_same, Hk.
Qed.

(** The loop over the program headers does what the reference does. *)
Lemma load_segs_wp k0 me l0 d i ip ino s top nh : ∀ u c b m l off sz (Q : option Z → sys B → Prop),
  loading k0 me l0 u d (PGROUNDUP sz) c i ip b ino m l → size_ok sz c → prog_ok ip → NoDup l0 →
  0 ≤ sz ≤ top → top < KERNBASE → 1026 + PGROUNDUP top / PGSIZE ≤ Z.of_nat (length l0) → headers_ok ip top off nh →
  (∀ b' m' u' l' c' n', load_ref ip off nh sz c = None → loading k0 me l0 u' d n' c' i ip b' ino m' l' → Q None (at_fs s b' ino m')) →
  (∀ b' m' u' l' c' sz', load_ref ip off nh sz c = Some (sz', c') → size_ok sz' c' → sz' ≤ top →
     loading k0 me l0 u' d (PGROUNDUP sz') c' i ip b' ino m' l' → Q (Some sz') (at_fs s b' ino m')) →
  wp (load_segs kend i d off sz nh) Q (at_fs s b ino m).
Proof using Hkend.
  induction nh as [|nh IH]; intros u c b m l off sz Q L Hs Hpo Hnd Hsz Htop Hroom Hh HN HS; cbn [load_segs].
  { apply wp_ret. eapply HS; [done|exact Hs|lia|exact L]. }
  cbn [load_ref] in HN, HS. cbn [headers_ok] in Hh. pose proof (u32_range off) as Hoff.
  apply wp_bind. eapply load_readi; [exact L|exact Hpo|exact Hoff|done|..].
  { intros b1 r bs L1 Hr _ Hnone. rewrite (proj2 (Z.eqb_neq _ _)) by done. cbn [negb]. apply wp_ret. rewrite Hnone in HN. by eapply HN. }
  intros b1 L1 Hsome. rewrite Hsome in HN, HS, Hh. change (negb (u32 PHSIZE =? PHSIZE)) with false. cbn iota.
  set (ph := file_bytes dev V ip (u32 off) PHSIZE) in *. destruct Hh as [Hph Hrest].
  destruct (negb (ph_type ph =? ELF_PROG_LOAD)) eqn:Et.
  { eapply IH; [exact L1|exact Hs|done..]. }
  apply negb_false_iff, Z.eqb_eq in Et. destruct (Hph Et) as [Hal Hend].
  destruct (ph_memsz ph <? ph_filesz ph) eqn:Em; [apply wp_ret; by eapply HN|]. apply Z.ltb_ge in Em.
  assert (Hpb : is_bytes ph).
  { apply prog_bytes; [done|lia|]. unfold file_at_off in Hsome. by destruct (Z.leb_spec (u32 off + PHSIZE) (i_size ip)). }
  assert (Hf1 := u32_field 8 ph Hpb). assert (Hf2 := u32_field 16 ph Hpb). assert (Hf3 := u32_field 20 ph Hpb). assert (Hf4 := u32_field 4 ph Hpb).
  fold (ph_vaddr ph) in Hf1. fold (ph_filesz ph) in Hf2. fold (ph_memsz ph) in Hf3. fold (ph_off ph) in Hf4.
  unfold KERNBASE in Htop. rewrite (u32_small (ph_vaddr ph + ph_memsz ph)) by lia. set (new := ph_vaddr ph + ph_memsz ph) in *.
  apply wp_bind. eapply (load_alloc _ _ _ _ _ _ _ _ _ _ _ _ _ sz new); [exact L1|exact Hs|unfold KERNBASE; lia|unfold KERNBASE; lia|done| |].
  { assert (PGROUNDUP new / PGSIZE ≤ PGROUNDUP top / PGSIZE); [|lia]. rewrite !PGROUNDUP_div by lia. unfold PGSIZE in *.
    rewrite !Z.div_mul by lia. apply Z.div_le_mono; lia. }
  intros u2 m2 l2 L2. destruct (Z.max sz new =? 0) eqn:Ez; [apply wp_ret; by eapply HN|].
  assert (Hmx : Z.max sz new ≤ PGROUNDUP (Z.max sz new)).
  { rewrite PGROUNDUP_div by lia. unfold PGSIZE. clear. Z.div_mod_to_equations. lia. }
  apply wp_bind. eapply (loaduvm_wp _ _ _ _ _ _ _ _ _ _ _ _ _ _ (ph_vaddr ph) (ph_off ph) (ph_filesz ph)); [exact L2|exact Hpo|done|lia|lia|lia|lia|..].
  - intros b3 m3 c3 L3 Hnz Hshort. apply wp_ret. eapply HN; [|exact L3].
    rewrite (proj2 (Z.eqb_neq _ _)), (proj2 (Z.leb_gt _ _)) by lia. done.
  - intros b3 m3 L3 Hlong. cbn [Z.ltb Z.compare].
    assert (Eo : (ph_filesz ph =? 0) || (ph_off ph + ph_filesz ph <=? i_size ip) = true).
    { apply orb_true_iff. rewrite Z.eqb_eq, Z.leb_le. done. }
    rewrite Eo in HN, HS. eapply IH; [exact L3| |done|done|lia|unfold KERNBASE; lia|done|done|done|done].
    split; [lia|]. intros x Hx. unfold over. rewrite length_file_bytes, Z2Nat.id by lia.
    rewrite (proj2 (Z.ltb_ge _ _)) by lia. rewrite andb_false_r. apply Hs. lia.
Qed.
End Load.
