(* ===== verification/ExecCorrect.v ===== *)
(** [exec] (exec.c) as a whole: path, ELF header, segments, arguments and the
    change of the image, against a reference made of the directories and
    files on the disk. *)
From S2P Require Import Prelude Kmonad Wp Kstate Spinlock Sleep Str Kalloc Disk BioRun Log Blocks FsEx Balloc Inode Dinode Icache FileData Dir Namex Pipe Vm VmLaws VmFree VmCopy VmGrow Image File Proc Fork Syscall Exec ExecLaws ExecLoad.

#[global] Instance args_fit_dec n argv : Decision (args_fit n argv).
Proof. unfold args_fit. apply _. Defined.

(** A process that does not sleep is not changed by wakeups. *)
Lemma waked_proc k k' i p : waked k k' → p_state p ≠ SLEEPING → k_procs k !! i = Some p →
  k_procs k' !! i = Some p ∧ k_cpu k' = k_cpu k.
Proof.
  intros [cs ->] Hs. revert k. induction cs as [|c cs IH]; intros k Hp; [done|]. cbn [wakes foldl].
  destruct (IH (woken c k)) as [H1 H2]; [|done]. cbn. rewrite list_lookup_fmap, Hp. cbn. f_equal. unfold wake_proc.
  by rewrite (bool_decide_false (p_state p = SLEEPING)).
Qed.

Section Exec.
Context {B : Type} {BB : Blocks B} {BL : BlockLaws B} {BW : BlockWakes B} {BT : Trans B} {DV : Devsw B}.
Context (kend kdata : Z).
Hypothesis Hkdata : KERNLINK < kdata < p2v PHYSTOP ∧ kdata mod PGSIZE = 0.
Hypothesis Hkend : KERNBASE < kend.
Variables (P : Z → Z → Prop) (dev : Z) (sb : superblock) (V : Z → Z → list Z) (X : gset nat) (Hd : gmap nat (Z * Z)).
Notation wk k l o := (walking (BL := since_laws k) P dev sb V X Hd l o).
Implicit Types (s : sys B) (b : B) (m : kmem) (me : mem) (l : list Z) (c : Z → Z) (ip : inode) (argv : list (list Z)).

(** ** The reference *)

Definition elf_of ip : option (list Z) :=
  e ← file_at_off dev V ip 0 ELFSIZE; if elf_magic e =? ELF_MAGIC then Some e else None.

(** The ELF header, the size and the bytes of the program that a path means
    and that has room for the arguments. *)
Definition exec_ref (start : Z) (path : list Z) argv : option (list Z * Z * (Z → Z)) :=
  n ← walk dev V start (elems path);
  e ← elf_of (dnode dev V n);
  '(sz, c) ← load_ref dev V (dnode dev V n) (i32 (elf_phoff e)) (Z.to_nat (elf_phnum e)) 0 (λ _, 0);
  if decide (args_fit (PGROUNDUP sz + 2 * PGSIZE) argv) then Some (e, sz, c) else None.

Lemma at_start {A} (f : M (sys B) A) Q s :
  wp f Q (at_fs s (fs_bl (sy_fs s)) (fs_inode (sy_fs s)) (lget sys_km s)) → wp f Q s.
Proof. by rewrite at_fs_self. Qed.

(** ** What may change *)

(** Only the file system has moved: blocks have been read, processes woken,
    and all references to inodes that were taken have been dropped. *)
Definition fs_moved s s' : Prop :=
  wk (kern s) (fs_inode (sy_fs s)) None (sy_fs s') ∧ sy_pipes s' = sy_pipes s ∧ sy_file s' = sy_file s ∧
  sy_ticks s' = sy_ticks s ∧ sy_nextpid s' = sy_nextpid s ∧ sy_initproc s' = sy_initproc s ∧ sy_first s' = sy_first s.

Lemma fs_moved_at s b ino m : wk (kern s) (fs_inode (sy_fs s)) None (Fs b ino) → fs_moved s (at_fs s b ino m).
Proof. by intros H. Qed.

(** [exec] returns -1 with all memory as before. *)
Definition exec_failed s l0 s' : Prop := fs_moved s s' ∧ ∃ l', km_ready (lget sys_km s') ∧ free_pages kend (lget sys_km s') l' ∧
  (∀ v, v ∈ l' ↔ v ∈ l0) ∧ ∀ a, (∀ v, v ∈ l0 → ¬ in_page v a) → sy_mem s' a = sy_mem s a.

(** The process may call [exec]. *)
Record may_exec s (i : nat) (p : proc) l0 : Prop := {
  me_cur : cpu_proc (k_cpu (kern s)) = Some i;
  me_proc : k_procs (kern s) !! i = Some p;
  me_state : p_state p ≠ SLEEPING;
  me_lock : is_free LKmem (kern s);
  me_free : free_pages kend (lget sys_km s) l0;
  me_old : uspace kend (sy_mem s) (p_pgdir p) l0
}.

Lemma walk_alive es : ∀ start n, tree P dev sb V → alive P dev sb V start → walk dev V start es = Some n → alive P dev sb V n.
Proof.
  induction es as [|e es IH]; intros start n Ht Ha; cbn [walk]; [by intros [= <-]|].
  destruct (is_dir dev V start) eqn:Hdir; [|done]. unfold entry_of.
  destruct (list_find _ _) as [[j k]|] eqn:Ef; [|done]. cbn. apply list_find_Some in Ef as (Hk&[Hnz _]&_).
  apply IH; [done|]. apply (tr_entry _ _ _ _ Ht); try done. apply lookup_seq in Hk. lia.
Qed.

(** ** The inode of the program *)

(** The locked inode [n] in entry [j], with the reference of [exec]. *)
Record prog_held (k0 : kst) (ino0 : list inode) (j : nat) (n : Z) b (ino : list inode) : Prop := {
  ho_walk : wk k0 ino0 (Some n) (Fs b ino);
  ho_alive : alive P dev sb V n;
  ho_at : ∃ r, 0 < r ∧ ino !! j = Some (Inode dev n r 3 (i_d (dnode dev V n)))
}.

Lemma prog_held_bl k0 ino0 j n b b' ino : prog_held k0 ino0 j n b ino → bl_inv (BlockLaws := since_laws k0) P V X Hd b' → prog_held k0 ino0 j n b' ino.
Proof. intros [[W1 W2 W3 W4] H2 H3] Hb. by split; [split|..]. Qed.

Lemma put_back k0 ino0 j n b ino s m (Q : unit → sys B → Prop) : prog_held k0 ino0 j n b ino →
  (∀ b' ino', wk k0 ino0 None (Fs b' ino') → Q tt (at_fs s b' ino' m)) → wp (fsz (iunlockput j)) Q (at_fs s b ino m).
Proof.
  intros [[W1 W2 W3 W4] Ha (r&Hr&Hj)] HQ. apply at_fsz.
  eapply (walk_iunlockput (BL := since_laws k0) P dev sb V X Hd ino0 None (Fs b ino) j n r); try done.
  - intros x. pose proof (W4 x) as E. cbn [fs_inode] in *. rewrite E. repeat case_decide; first [lia|congruence].
  - intros [b' ino'] Hw _. by apply HQ.
Qed.

(** ** Giving up *)

Lemma since_free k0 b : km_free k0 → bl_inv (BlockLaws := since_laws k0) P V X Hd b → km_free (kof b).
Proof. intros Hk [_ Hw]. by eapply km_free_waked. Qed.

Lemma failed_at s l0 b ino m l' : km_free (kern s) → wk (kern s) (fs_inode (sy_fs s)) None (Fs b ino) →
  free_pages kend m l' → (∀ v, v ∈ l' ↔ v ∈ l0) → (∀ a, (∀ v, v ∈ l0 → ¬ in_page v a) → km_mem m a = sy_mem s a) →
  exec_failed s l0 (at_fs s b ino m).
Proof.
  intros Hk Hw Hf Hl Hm. split; [by apply fs_moved_at|]. exists l'. split_and!; try done.
  destruct (since_free _ _ Hk (wk_inv _ _ _ _ _ _ _ _ _ Hw)). by split.
Qed.

Lemma bad_early s l0 j n b ino m : km_free (kern s) → prog_held (kern s) (fs_inode (sy_fs s)) j n b ino → free_pages kend m l0 →
  km_mem m = sy_mem s → wp (exec_bad kend 0 (Some j)) (λ r s', r = -1 ∧ exec_failed s l0 s') (at_fs s b ino m).
Proof.
  intros Hk Hh Hf Hm. unfold exec_bad. change (nz 0) with false. cbn [when]. apply wp_bind, wp_ret. apply wp_bind.
  eapply put_back; [exact Hh|]. intros b' ino' Hw. apply wp_ret. split; [done|]. eapply (failed_at _ _ _ _ _ l0); try done. by rewrite Hm.
Qed.

Lemma bad_late s l0 j n b ino m u d z c ip l : prog_held (kern s) (fs_inode (sy_fs s)) j n b ino →
  loading kend P V X Hd (kern s) (sy_mem s) l0 u d z c j ip b ino m l →
  wp (exec_bad kend d (Some j)) (λ r s', r = -1 ∧ exec_failed s l0 s') (at_fs s b ino m).
Proof.
  intros Hh [L1 L2 L3 L4]. unfold exec_bad.
  assert (Hdz : d ≠ 0) by (apply (page_aligned kend); apply (us_pt _ _ _ _ (im_space _ _ _ _ _ _ _ _ _ _ _ L4))).
  unfold nz. rewrite (proj2 (Z.eqb_neq _ 0)) by done. cbn [negb when]. apply wp_bind, at_km. eapply image_free; [exact L4|].
  intros m' l' R1 R2 R3 R4 R5. split; [by rewrite R2|]. apply wp_bind. eapply put_back; [exact Hh|]. intros b' ino' Hw.
  apply wp_ret. split; [done|]. by eapply failed_at.
Qed.

(** ** After the load *)

(** What [exec] does when the reference gives the header [e], the size [sz]
    and the bytes [c]. *)
Definition exec_succeeded s (i : nat) (p : proc) l0 path argv (e : list Z) (sz : Z) c s' : Prop :=
  ∃ s1 d, fs_moved s s1 ∧ exec_done kend s1 i p (sy_mem s) l0 path e argv d (PGROUNDUP sz) c s'.

Lemma undone_failed s l0 s1 s' : fs_moved s s1 → exec_undone kend s1 (sy_mem s) l0 s' → exec_failed s l0 s'.
Proof.
  intros Hf (m&l'&->&R1&R2&R3&R4&R5). assert (E : sy_fs (only_mem s1 m) = sy_fs s1).
  { unfold only_mem, after. cbn [sy_fs]. rewrite R2. destruct s1 as [[b1 i1] ? ? ? ? ? ? ? ? ?]. cbn. by rewrite lset_lget. }
  split; [|exists l'; split_and!; try done].
  - destruct Hf as [Hw Hrest]. split; [by rewrite E|done].
  - unfold km_ready. cbn. rewrite lget_lset. exact R1.
Qed.

Lemma exec_tail s i p l0 j n b ino m u d sz c ip l path argv e top : may_exec s i p l0 →
  prog_held (kern s) (fs_inode (sy_fs s)) j n b ino →
  loading kend P V X Hd (kern s) (sy_mem s) l0 u d (PGROUNDUP sz) c j ip b ino m l → size_ok sz c → sz ≤ top →
  top + 4 * PGSIZE ≤ KERNBASE → 1028 + PGROUNDUP top / PGSIZE ≤ Z.of_nat (length l0) →
  Forall (λ a, Z.of_nat (length a) + 4 ≤ PGSIZE) argv →
  wp (fsz (iunlockput j);; exec_stack kend path argv e d sz)
    (λ r s', if decide (args_fit (PGROUNDUP sz + 2 * PGSIZE) argv)
       then r = 0 ∧ exec_succeeded s i p l0 path argv e sz c s' else r = -1 ∧ exec_failed s l0 s') (at_fs s b ino m).
Proof using Hkend.
  intros [M1 M2 M3 M4 M5 M6] Hh [L1 L2 L3 L4] [Hs0 Hsc] Htop Hk Hroom Hargs. apply wp_bind. eapply put_back; [exact Hh|].
  intros b' ino' Hw. set (s1 := at_fs s b' ino' m). pose proof (wk_inv _ _ _ _ _ _ _ _ _ Hw) as [Hb Hwk]. cbn [fs_bl] in Hwk.
  change (lget bl_k b') with (kof b') in Hwk. assert (Hkf : km_free (kof b')) by by eapply km_free_waked.
  destruct (waked_proc _ _ i p Hwk M3 M2) as [Hp Hc].
  assert (Hr : exec_ready kend s1 i p (sy_mem s) l0).
  { split; [|done|split; apply M5|done]. change (kern s1) with (kof b'). by rewrite Hc. }
  assert (Hz : sz ≤ PGROUNDUP sz < sz + PGSIZE ∧ PGROUNDUP sz ≤ PGROUNDUP top ∧ PGROUNDUP top < top + PGSIZE ∧ PGROUNDUP sz mod PGSIZE = 0).
  { unfold KERNBASE, PGSIZE in Hk. rewrite !PGROUNDUP_div by lia. unfold PGSIZE in *. clear -Htop. Z.div_mod_to_equations. lia. }
  eapply wp_mono; [eapply (exec_stack_wp kend Hkend s1 i p (sy_mem s) l0 u d sz c l path argv e Hr)|].
  - destruct Hkf as [K1 K2]. exact (image_k kend _ _ _ _ _ _ _ _ _ _ (kof b') K1 K2 L4).
  - intros x Hx. apply Hsc. lia.
  - unfold PGSIZE in *. lia.
  - rewrite Z.div_add by done. pose proof (Z.div_le_mono (PGROUNDUP sz) (PGROUNDUP top) PGSIZE ltac:(done) ltac:(lia)). lia.
  - eapply Forall_impl; [exact Hargs|]. intros a Ha. cbn in *. unfold PGSIZE in *. lia.
  - intros r s' [(F&->&D)|(F&->&U)]; [rewrite decide_True by done|rewrite decide_False by done]; (split; [done|]).
    + exists s1, d. split; [by apply fs_moved_at|done].
    + eapply undone_failed; [by apply fs_moved_at|done].
Qed.

(** ** The load *)

(** Programs that the kernel can load: the bytes of the file are readable, and
    segments begin at page boundaries and end below [top]. *)
Definition program_ok (ip : inode) (top : Z) : Prop := prog_ok P dev sb V ip ∧
  ∀ e, elf_of ip = Some e → headers_ok dev V ip top (i32 (elf_phoff e)) (Z.to_nat (elf_phnum e)).

Lemma prog_ok_same ip ip' : i_dev ip = i_dev ip' → i_d ip = i_d ip' → prog_ok P dev sb V ip → prog_ok P dev sb V ip'.
Proof.
  destruct ip as [d n r f x], ip' as [d' n' r' f' x']. cbn. intros <- <- [H1 [F1 F2 F3 F4 F5 F6] [M1 M2] H4 H5].
  split; try done; by split.
Qed.

(** Only the disk's part of the inode counts. *)
Lemma load_ref_same ip ip' k : i_d ip = i_d ip' → ∀ off, (∀ top, headers_ok dev V ip top off k ↔ headers_ok dev V ip' top off k) ∧
  ∀ sz c, load_ref dev V ip off k sz c = load_ref dev V ip' off k sz c.
Proof.
  destruct ip as [d n r f x], ip' as [d' n' r' f' x']. cbn [i_d]. intros <-.
  induction k as [|k IH]; intros off; [done|]. cbn [headers_ok load_ref].
  change (file_at_off dev V (Inode d' n' r' f' x) (u32 off) PHSIZE) with (file_at_off dev V (Inode d n r f x) (u32 off) PHSIZE).
  destruct (file_at_off _ _ _ _ _) as [ph|]; [|done]. destruct (IH (i32 (off + PHSIZE))) as [H1 H2]. split.
  - intros top. by rewrite H1.
  - intros sz c. rewrite !H2. done.
Qed.

Definition exec_outcome s (i : nat) (p : proc) l0 path argv (o : option (list Z * Z * (Z → Z))) (r : Z) s' : Prop :=
  match o with
  | Some (e, sz, c) => r = 0 ∧ exec_succeeded s i p l0 path argv e sz c s'
  | None => r = -1 ∧ exec_failed s l0 s'
  end.

(** From the ELF header on, with the inode locked. *)
Lemma exec_body_wp s i p l0 j n b ino path argv elf0 top : may_exec s i p l0 → km_free (kern s) →
  prog_held (kern s) (fs_inode (sy_fs s)) j n b ino → program_ok (dnode dev V n) top → length elf0 = 52%nat →
  0 ≤ top → top + 4 * PGSIZE ≤ KERNBASE → 1028 + PGROUNDUP top / PGSIZE ≤ Z.of_nat (length l0) →
  Forall (λ a, Z.of_nat (length a) + 4 ≤ PGSIZE) argv →
  wp ('(r, bytes) ← fsz (readi j 0 ELFSIZE);
      let elf := splice 0 bytes elf0 in
      if u32 r <? ELFSIZE then exec_bad kend 0 (Some j) else
      if negb (elf_magic elf =? ELF_MAGIC) then exec_bad kend 0 (Some j) else
      pgdir ← kmz (setupkvm kdata);
      if pgdir =? 0 then exec_bad kend 0 (Some j) else
      sz ← load_segs kend j pgdir (i32 (elf_phoff elf)) 0 (Z.to_nat (elf_phnum elf));
      match sz with
      | None => exec_bad kend pgdir (Some j)
      | Some sz => fsz (iunlockput j);; exec_stack kend path argv elf pgdir sz
      end)
    (exec_outcome s i p l0 path argv (e ← elf_of (dnode dev V n);
      '(sz, c) ← load_ref dev V (dnode dev V n) (i32 (elf_phoff e)) (Z.to_nat (elf_phnum e)) 0 (λ _, 0);
      if decide (args_fit (PGROUNDUP sz + 2 * PGSIZE) argv) then Some (e, sz, c) else None))
    (at_fs s b ino (lget sys_km s)).
Proof using Hkdata Hkend.
  intros M Hk Hh [Hpo Hhd] Hl Ht0 Htop Hroom Hargs. pose proof (ho_at _ _ _ _ _ _ Hh) as (r0&Hr0&Hj).
  set (ip := Inode dev n r0 3 (i_d (dnode dev V n))) in *. apply wp_bind, at_fsz.
  assert (Hpo' : prog_ok P dev sb V ip) by (eapply prog_ok_same; [| |exact Hpo]; done). pose proof Hpo' as [F1 F2 F3 F4 F5].
  pose proof (mp_size _ _ _ F3) as Hsz. change (MAXFILE * BSIZE) with 71680 in Hsz.
  eapply wp_mono; [eapply (readi_wp (BL := since_laws (kern s)) P dev sb V X Hd b ino j ip 0 ELFSIZE); try done; apply (wk_inv _ _ _ _ _ _ _ _ _ (ho_walk _ _ _ _ _ _ Hh))|].
  intros r [b1 ino1] (Hi&Hb1&->). cbn [fs_inode fs_bl] in *. subst ino1. pose proof (prog_held_bl _ _ _ _ _ b1 _ Hh Hb1) as Hh1.
  rewrite (proj2 (Z.ltb_ge _ 0)) by lia. change (4294967296 <=? 0 + ELFSIZE) with false. cbn [orb]. cbn zeta. rewrite Z.sub_0_r.
  unfold elf_of, file_at_off in *. change (i_size (dnode dev V n)) with (i_size ip) in *. rewrite Z.add_0_l in *.
  destruct (Z.leb_spec ELFSIZE (i_size ip)) as [Hfull|Hshort].
  2:{ rewrite u32_small by lia. rewrite (proj2 (Z.ltb_lt _ _)) by lia. cbn [mbind option_bind exec_outcome].
      eapply bad_early; [done|exact Hh1|apply M|done]. }
  replace (Z.min ELFSIZE (i_size ip)) with ELFSIZE by lia. change (u32 ELFSIZE <? ELFSIZE) with false. cbn iota.
  change (file_bytes dev V ip 0 ELFSIZE) with (file_bytes dev V (dnode dev V n) 0 ELFSIZE). set (e := file_bytes dev V _ 0 ELFSIZE) in *.
  assert (He : splice 0 e elf0 = e).
  { unfold splice. rewrite take_0. unfold e at 2. rewrite length_file_bytes, drop_ge, app_nil_r by (rewrite Hl; done). done. }
  rewrite He. cbn [mbind option_bind] in *.
  destruct (elf_magic e =? ELF_MAGIC) eqn:Em; cbn [negb].
  2:{ cbn [mbind option_bind exec_outcome]. eapply bad_early; [done|exact Hh1|apply M|done]. }
  specialize (Hhd e eq_refl). apply wp_bind, at_km. cbn [mbind option_bind].
  assert (Hkb : km_free (kof b1)) by by eapply since_free.
  assert (Hp0 : 0 ≤ PGROUNDUP top / PGSIZE).
  { unfold KERNBASE, PGSIZE in Htop. rewrite PGROUNDUP_div by lia. unfold PGSIZE. clear -Ht0. Z.div_mod_to_equations. lia. }
  eapply (setupkvm_wp kend kdata Hkdata _ l0); [exact Hkb|apply M|intros; lia|].
  intros m1 l1 d Hdz Hc Hno _ _. split; [apply Hc|]. rewrite (proj2 (Z.eqb_neq d 0)) by done.
  assert (L : loading kend P V X Hd (kern s) (sy_mem s) l0 [] d (PGROUNDUP 0) (λ _, 0) j ip b1 ino m1 l1).
  { split; [done..|]. change (PGROUNDUP 0) with 0. assert (Ek : km_k m1 = kof b1) by apply Hc. rewrite <- Ek, set_k_same, Ek.
    exact (image_start kend _ _ _ _ _ _ _ Hc Hno). }
  assert (Hnd : NoDup l0) by apply M. assert (Htk : top < KERNBASE) by (unfold PGSIZE in *; lia).
  apply wp_bind. eapply (load_segs_wp kend Hkend P dev sb V X Hd (kern s) (sy_mem s) l0 d j ip ino s top); [exact L|by split|exact Hpo'|done|lia|done|lia| |..].
  - by apply (load_ref_same ip (dnode dev V n)).
  - intros b2 m2 u2 l2 c2 n2 Hnone L2. rewrite (proj2 (load_ref_same ip (dnode dev V n) _ eq_refl _)) in Hnone. rewrite Hnone.
    cbn [mbind option_bind exec_outcome]. eapply bad_late; [by eapply prog_held_bl; [exact Hh1|apply L2]|exact L2].
  - intros b2 m2 u2 l2 c2 sz2 Hsome Hs2 Hle L2. rewrite (proj2 (load_ref_same ip (dnode dev V n) _ eq_refl _)) in Hsome. rewrite Hsome.
    cbn [mbind option_bind]. eapply wp_mono; [eapply exec_tail; [exact M|by eapply prog_held_bl; [exact Hh1|apply L2]|exact L2|exact Hs2|exact Hle|done..]|].
    intros r s'. cbn beta. by destruct (decide (args_fit (PGROUNDUP sz2 + 2 * PGSIZE) argv)).
Qed.

(** C6: [exec] replaces the image of a process with the program that the path
    means.  The inode is the one the directories lead to; its ELF header and
    program headers are read from the file, every loadable segment is copied
    to its address with zeros behind it, and the stack, with an inaccessible
    page below it, holds what [main(argc, argv)] expects.  [exec] returns 0
    exactly when the path leads to a file, the header has the magic number,
    all headers and segments lie in the file and the arguments fit in a page
    and number at most 32.  Then the process has the new memory, entry point,
    stack pointer, size and name, its old memory is free, and no page is lost.
    Else [exec] returns -1: the process and its memory are unchanged and every
    page it took is free again.  In both cases no inode keeps a reference.
    (There are enough free pages, segments begin at page boundaries below
    [top], and each argument is shorter than a page: the code does not check
    these.) *)
Theorem exec_correct s i p l0 path argv elf0 start top : may_exec s i p l0 →
  dev = ROOTDEV → bl_inv P V X Hd (fs_bl (sy_fs s)) → icache_ok (fs_inode (sy_fs s)) → synced P dev sb V (fs_inode (sy_fs s)) →
  tree P dev sb V → starts dev (fs_bl (sy_fs s)) (fs_inode (sy_fs s)) path start → alive P dev sb V start →
  is_str path → is_bytes path → length elf0 = 52%nat →
  (∀ n, walk dev V start (elems path) = Some n → program_ok (dnode dev V n) top) →
  0 ≤ top → top + 4 * PGSIZE ≤ KERNBASE → 1028 + PGROUNDUP top / PGSIZE ≤ Z.of_nat (length l0) →
  Forall (λ a, Z.of_nat (length a) + 4 ≤ PGSIZE) argv →
  wp (exec kend kdata elf0 path argv) (exec_outcome s i p l0 path argv (exec_ref start path argv)) s.
Proof using Hkdata Hkend.
  intros M Hdev Hb Hc Hs Ht Hst Ha Hstr Hpb Hl Hprog Ht0 Htop Hroom Hargs.
  assert (Hk : km_free (kern s)) by (split; [apply (bl_ready _ _ _ _ _ Hb)|apply M]).
  assert (Hb0 : bl_inv (BlockLaws := since_laws (kern s)) P V X Hd (fs_bl (sy_fs s))) by by split.
  apply at_start. unfold exec, namei. apply wp_bind, at_fsz, wp_bind.
  eapply wp_mono; [eapply (namex_correct (BL := since_laws (kern s)) P dev sb V X Hd); try done; by apply check_bytes|].
  intros [r name] [b ino] [Hw Hr]. apply wp_ret. cbn [fs_bl fs_inode fst snd] in *. unfold exec_ref, resolve in *.
  destruct (walk dev V start (elems path)) as [n|] eqn:En; cbn [fmap option_fmap option_map fst mbind option_bind] in *.
  2:{ subst r. apply wp_ret. split; [done|]. eapply (failed_at _ _ _ _ _ l0); try done. apply M. }
  destruct Hr as (j&->&Hat&_). assert (Han : alive P dev sb V n) by by eapply walk_alive.
  apply wp_bind, at_fsz. eapply (walk_ilock (BL := since_laws (kern s)) P dev sb V X Hd); [exact Han|exact Hw|exact Hat|].
  intros [b1 ino1] r0 Hw1 Hr0 Hj. apply (exec_body_wp s i p l0 j n b1 ino1 path argv elf0 top); try done.
  - split; [done|done|by exists r0].
  - by apply Hprog.
Qed.
End Exec.
