(* ===== verification/ExecEx.v ===== *)
(** The theorem about [exec] at work: a process of one page runs the program
    "a" of a file system image. *)
From S2P Require Import Prelude Kmonad Wp Kstate Spinlock Sleep Str Kalloc Disk Cache Bio BioRun Log Blocks FsEx Balloc Inode Dinode Icache FileData Dir Namex Pipe Vm VmLaws VmFree VmCopy VmGrow Image File Proc Fork Syscall Exec ExecLaws ExecLoad ExecCorrect.

(** ** Files of one block *)

Section OneBlock.
Context (P : Z → Z → Prop) (sb : superblock) (V : Z → Z → list Z) (ip : inode) (a : Z).
Hypothesis Hdev : i_dev ip = 1.
Hypothesis Haddr : i_addrs ip = a :: replicate 12 0.
Hypothesis Ha : good P 1 sb V a.
Hypothesis Hsize : 0 ≤ i_size ip ≤ BSIZE.

Lemma one_fblock n : 0 ≤ n → fblock 1 V ip n = if n =? 0 then a else 0.
Proof using Haddr.
  intros Hn. unfold fblock, addr_at. rewrite Haddr. change (nth _ (a :: replicate 12 0) 0 =? 0) with true. cbn iota.
  destruct (Z.ltb_spec n NDIRECT) as [Hlt|Hge]; [|rewrite (proj2 (Z.eqb_neq _ _)); [done|unfold NDIRECT in *; lia]].
  destruct (Z.eqb_spec n 0) as [->|Hne]; [done|]. unfold NDIRECT in Hlt. destruct (Z.to_nat n) as [|j] eqn:Ej; [lia|].
  cbn [nth]. rewrite nth_lookup. destruct (replicate 12 0 !! j) as [x|] eqn:Ex; [|done]. by apply lookup_replicate in Ex as [-> _].
Qed.

Lemma one_block_ok : file_ok P 1 sb V ip.
Proof using Hdev Haddr Ha.
  assert (H12 : addr_at ip NDIRECT = 0) by (unfold addr_at; by rewrite Haddr).
  split; [done|by rewrite Haddr|..].
  - intros n Hn. rewrite one_fblock by lia. case_match; [by intros _|done].
  - by rewrite H12.
  - intros n m Hn Hm. rewrite !one_fblock by lia. destruct (Z.eqb_spec n 0), (Z.eqb_spec m 0); try done; congruence.
  - intros n Hn H. by rewrite H12.
Qed.

Lemma one_block_mapped : a ≠ 0 → mapped 1 V ip.
Proof using Haddr Hsize.
  intros Hz. split; [change (MAXFILE * BSIZE) with 71680; unfold BSIZE in Hsize; lia|]. intros k Hk.
  rewrite Z.div_small by lia. by rewrite one_fblock.
Qed.
End OneBlock.

(** ** The image: "a" is a program of five bytes in a segment of a hundred *)

Definition ex_elf : list Z :=
  le_encode 4 ELF_MAGIC ++ replicate 20 0 ++ le_encode 4 2 ++ le_encode 4 52 ++ replicate 12 0 ++ le_encode 2 1 ++ replicate 6 0 ++
  le_encode 4 ELF_PROG_LOAD ++ le_encode 4 84 ++ le_encode 4 0 ++ le_encode 4 0 ++ le_encode 4 5 ++ le_encode 4 100 ++ replicate 8 0 ++
  [11; 12; 13; 14; 15].
Definition ex_prog_img : list Z :=
  replicate 512 0 ++ ex_super ++ pad 512 (ex_dinode 0 0 0 0 ++ ex_dinode 1 1 48 5 ++ ex_dinode 2 1 89 6) ++
  replicate 512 0 ++ pad 512 [0x7f; 0x0e] ++ ex_root ++ pad 512 ex_elf ++ replicate 2560 0.

Definition ex_exec_k : kst := Kst (k_cpu ex_k) (k_locks ex_k) [ex_caller].
Definition ex_prog_log : log Memide.memide := log_on ex_exec_k ex_prog_img 3.
Definition ex_prog_V : Z → Z → list Z := dview (bc_drv (lg_bc ex_prog_log)).
Notation Vp := ex_prog_V.

Lemma ex_prog_inv : bl_inv ex_P Vp ∅ ∅ ex_prog_log.
Proof.
  apply log_on_inv; [|lia|by vm_compute]. split; [split_and!; done|]. split; [done|]. split; [done|]. split; [|done].
  split; [done|]. by exists 0%nat.
Qed.

Lemma prog_geom : fs_geom ex_P Vp 1 ex_sb12.
Proof.
  split; [vm_compute; reflexivity|by split|done|done| |].
  - intros b Hb. simpl in Hb. revert b Hb. refine (below_12 _ _). intros i Hi.
    repeat (destruct Hi as [<-|Hi]; [vm_compute; intuition congruence|]). done.
  - intros b Hb. simpl in Hb. revert b Hb. refine (below_12 _ _). intros i Hi.
    repeat (destruct Hi as [<-|Hi]; [vm_compute; intuition congruence|]). done.
Qed.

Lemma prog_root_dir : dir_ok ex_P 1 ex_sb12 Vp (dnode 1 Vp 1).
Proof.
  assert (Hg : good ex_P 1 ex_sb12 Vp 5) by (split; [by split|]; split; [split; reflexivity|vm_compute; reflexivity]).
  split; [exact prog_geom| | |vm_compute; reflexivity..|].
  - apply (one_block_ok _ _ _ _ 5); [vm_compute; reflexivity..|exact Hg].
  - apply (one_block_mapped _ _ 5); [vm_compute; reflexivity|vm_compute; split; discriminate|done].
  - intros k Hk. assert (Hs : i_size (dnode 1 Vp 1) / DESIZE = 3) by (vm_compute; reflexivity). rewrite Hs in Hk.
    assert (k = 0 ∨ k = 1 ∨ k = 2) as Hk' by lia.
    destruct Hk' as [->|[->| ->]]; apply check_bytes; vm_compute; reflexivity.
Qed.

Lemma prog_alive inum : alive ex_P 1 ex_sb12 Vp inum → inum = 1 ∨ inum = 2.
Proof.
  intros [H1 _ H3 _]. change (sb_ninodes ex_sb12) with 8 in H1.
  assert (inum = 1 ∨ inum = 2 ∨ inum = 3 ∨ inum = 4 ∨ inum = 5 ∨ inum = 6 ∨ inum = 7) as Hc by lia.
  destruct Hc as [->|[->|[->|[->|[->|[->| ->]]]]]]; auto; destruct H3; vm_compute; reflexivity.
Qed.
Lemma prog_alive_1 : alive ex_P 1 ex_sb12 Vp 1.
Proof. split; [done|done|vm_compute; discriminate|vm_compute; discriminate]. Qed.
Lemma prog_alive_2 : alive ex_P 1 ex_sb12 Vp 2.
Proof. split; [done|done|vm_compute; discriminate|vm_compute; discriminate]. Qed.

Lemma prog_tree : tree ex_P 1 ex_sb12 Vp.
Proof.
  split.
  - intros inum [->| ->]%prog_alive Hd; [exact prog_root_dir|vm_compute in Hd; discriminate Hd].
  - intros inum k [->| ->]%prog_alive Hd; [|vm_compute in Hd; discriminate Hd].
    assert (Hs : i_size (dnode 1 Vp 1) / DESIZE = 3) by (vm_compute; reflexivity). rewrite Hs. intros Hk _.
    assert (k = 0 ∨ k = 1 ∨ k = 2) as Hk' by lia.
    assert (E : de_inum (dirent_at 1 Vp (dnode 1 Vp 1) 0) = 1 ∧ de_inum (dirent_at 1 Vp (dnode 1 Vp 1) 1) = 1 ∧
      de_inum (dirent_at 1 Vp (dnode 1 Vp 1) 2) = 2) by (vm_compute; done). destruct E as (E0&E1&E2).
    destruct Hk' as [->|[->| ->]]; [rewrite E0|rewrite E1|rewrite E2]; [exact prog_alive_1|exact prog_alive_1|exact prog_alive_2].
Qed.

Lemma prog_synced : synced ex_P 1 ex_sb12 Vp ex_icache.
Proof. intros i ip Hi _ _ _ Hv. destruct (ex_icache_at i ip Hi) as [[_ ->]| ->]; discriminate Hv. Qed.

Lemma prog_program : program_ok ex_P 1 ex_sb12 Vp (dnode 1 Vp 2) 100.
Proof.
  assert (Hg : good ex_P 1 ex_sb12 Vp 6) by (split; [by split|]; split; [split; reflexivity|vm_compute; reflexivity]).
  assert (Hs : i_size (dnode 1 Vp 2) = 89) by (vm_compute; reflexivity).
  split; [split|].
  - exact prog_geom.
  - apply (one_block_ok _ _ _ _ 6); [vm_compute; reflexivity..|exact Hg].
  - apply (one_block_mapped _ _ 6); [vm_compute; reflexivity|rewrite Hs; unfold BSIZE; lia|done].
  - vm_compute. discriminate.
  - rewrite Hs. intros k Hk.
    assert (Hb : is_bytes (file_bytes 1 Vp (dnode 1 Vp 2) 0 89)) by (apply check_bytes; vm_compute; reflexivity).
    unfold is_bytes, file_bytes in Hb. rewrite Forall_fmap, Forall_forall in Hb. specialize (Hb (Z.to_nat k)). cbn in Hb.
    rewrite Z2Nat.id in Hb by lia. apply Hb, elem_of_seq. lia.
  - intros e He. assert (Ee : elf_of 1 Vp (dnode 1 Vp 2) = Some (take 52 ex_elf)) by (vm_compute; reflexivity).
    assert (E2 : i32 (elf_phoff (take 52 ex_elf)) = 52 ∧ Z.to_nat (elf_phnum (take 52 ex_elf)) = 1%nat) by (split; vm_compute; reflexivity).
    rewrite Ee in He. apply (inj Some) in He as <-. destruct E2 as [-> ->]. cbn [headers_ok].
    assert (Ep : file_at_off 1 Vp (dnode 1 Vp 2) (u32 52) PHSIZE = Some (take 32 (drop 52 ex_elf))) by (vm_compute; reflexivity).
    rewrite Ep. clear. split; [|exact I]. intros _. split; [vm_compute; reflexivity|vm_compute; discriminate].
Qed.

(** ** The caller: one page of its own, 1040 free pages *)

Definition ex_exec : sys (log Memide.memide) :=
  Sys (Fs ex_prog_log ex_icache) true 0x8010c000 (ex_mem 1040) ∅ [] 0 1 None false.

Lemma ex_may_exec : may_exec kend_ex ex_exec 0 ex_caller (ex_frees 1040).
Proof.
  destruct (ex_frees_pages 1040) as [Hp Hn]; [lia|]. split; [done..| |].
  - unfold free_pages. split_and!; [|done..]. apply check_chain_ok. vm_compute. reflexivity.
  - apply ex_mem_space.
Qed.

Lemma prog_walk n : walk 1 Vp 1 (elems [47; 97]) = Some n → n = 2.
Proof.
  assert (E : walk 1 Vp 1 (elems [47; 97]) = Some 2) by (vm_compute; reflexivity). rewrite E. by intros ?%(inj Some).
Qed.

(** What the reference says of "/a" with the argument "a". *)
Lemma prog_ref : ∃ c, exec_ref 1 Vp 1 [47; 97] [[97]] = Some (take 52 ex_elf, 100, c) ∧ c 0 = 11 ∧ c 4 = 15 ∧ c 5 = 0.
Proof. eexists. split; [vm_compute; reflexivity|]. done. Qed.

(** "/a" runs: its first byte is at address 0, its entry point is 2, and it
    has a page of its own, one that it cannot touch and one for the stack. *)
Lemma exec_correct_witness : wp (exec kend_ex 0x80107000 (replicate 52 0) [47; 97] [[97]])
  (λ r s', r = 0 ∧ ∃ q c, k_procs (kern s') !! 0%nat = Some q ∧ p_sz q = 12288 ∧ tf_eip (p_tf q) = 2 ∧
     user_mem (sy_mem s') (p_pgdir q) 12288 (λ x, negb (x / PGSIZE =? 1)) c ∧ c 0 = 11) ex_exec.
Proof.
  assert (Hroom : 1028 + PGROUNDUP 100 / PGSIZE ≤ Z.of_nat (length (ex_frees 1040))) by (unfold ex_frees; rewrite length_map, length_seq; done).
  eapply wp_mono; [apply (exec_correct kend_ex 0x80107000 ltac:(vm_compute; done) ltac:(vm_compute; done)
    ex_P 1 ex_sb12 Vp ∅ ∅ ex_exec 0 ex_caller (ex_frees 1040) [47; 97] [[97]] (replicate 52 0) 1 100 ex_may_exec eq_refl
    ex_prog_inv ex_icache_ok prog_synced prog_tree eq_refl prog_alive_1)|].
  - repeat constructor; discriminate.
  - by apply check_bytes.
  - reflexivity.
  - intros n Hn. rewrite (prog_walk n Hn). exact prog_program.
  - lia.
  - unfold PGSIZE, KERNBASE. lia.
  - exact Hroom.
  - repeat constructor. discriminate.
  - intros r s'. destruct prog_ref as (c0&Hc0&Hb&_&_). rewrite Hc0. cbn [exec_outcome]. intros [-> (s1&d&[Hw _]&m&l'&c'&->&_&Hk&_&_&_&Hu&Hcc&_)]. split; [reflexivity|].
    destruct (wk_inv _ _ _ _ _ _ _ _ _ Hw) as [_ Hwk].
    destruct (waked_proc _ _ 0 ex_caller Hwk) as [Hp _]; [discriminate|reflexivity|].
    exists (new_image [47; 97] (take 52 ex_elf) d 12288 (main_esp 12288 [[97]]) ex_caller), c'. split_and!; [|reflexivity..|exact Hu|].
    + unfold only_mem. rewrite after_kern, Hk. unfold upd_proc. cbn [k_procs set_k_procs]. rewrite list_lookup_alter, decide_True by reflexivity.
      change (k_procs (kern s1) !! 0%nat) with (k_procs (lget bl_k (fs_bl (sy_fs s1))) !! 0%nat). rewrite Hp. reflexivity.
    + rewrite Hcc; [exact Hb|]. split; [lia|reflexivity].
Defined.
