(* ===== verification/Sysfile.v ===== *)
(** File-system system calls (sysfile.c), the dispatch of system calls
    (syscall.c) and traps (trap.c). *)
From S2P Require Import Prelude Kmonad Wp Kstate Spinlock Sleep Str Kalloc Disk Log Blocks FsEx Balloc Inode Icache FileData Dir Pipe Vm File Proc Syscall Exec.

(** fcntl.h *)
Definition O_RDONLY : Z := 0x000.
Definition O_WRONLY : Z := 0x001.
Definition O_RDWR : Z := 0x002.
Definition O_CREATE : Z := 0x200.

Section Sysfile.
Context {B : Type} {BB : Blocks B} {BL : BlockLaws B} {BT : Trans B} {DV : Devsw B}.
Context (kend kdata forkret_addr trapret_addr : Z) (elf0 : list Z).

(** Fetch the nth word-sized system call argument as a file descriptor: the
    descriptor and the file; [None] is -1. *)
Definition argfd (n : Z) : M (sys B) (option (Z * nat)) :=
  r ← argint n;
  match r with
  | None => mret None
  | Some fd =>
      p ← me;
      if (fd <? 0) || (Z.of_nat NOFILE <=? fd) then mret None else
      mret ((λ f, (fd, f)) <$> nth (Z.to_nat fd) (p_ofile p) None)
  end.

Fixpoint free_fd (l : list (option nat)) (fd : nat) : option nat :=
  match l with
  | [] => None
  | None :: _ => Some fd
  | Some _ :: l => free_fd l (S fd)
  end.

(** Allocate a file descriptor for the given file; [None] is -1. *)
Definition fdalloc (f : nat) : M (sys B) (option Z) :=
  i ← sk curproc;
  p ← getproc i;
  match free_fd (p_ofile p) 0 with
  | Some fd =>
      uproc i (λ p, set_p_ofile (<[fd := Some f]> (p_ofile p)) p);;
      mret (Some (Z.of_nat fd))
  | None => mret None
  end.

Definition clear_fd (fd : Z) : M (sys B) unit :=
  i ← sk curproc;
  uproc i (λ p, set_p_ofile (<[Z.to_nat fd := None]> (p_ofile p)) p).

Definition sys_dup : M (sys B) Z :=
  r ← argfd 0;
  match r with
  | None => mret (-1)
  | Some (_, f) =>
      r ← fdalloc f;
      match r with
      | None => mret (-1)
      | Some fd => filedup f;; mret fd
      end
  end.

(** The arguments of read and write: file, address, count. *)
Definition rw_args : M (sys B) (option (nat * Z * Z)) :=
  r ← argfd 0;
  match r with
  | None => mret None
  | Some (_, f) =>
      r ← argint 2;
      match r with
      | None => mret None
      | Some n =>
          r ← argptr 1 n;
          mret ((λ p, (f, p, n)) <$> r)
      end
  end.

Definition sys_read : M (sys B) Z :=
  a ← rw_args;
  match a with
  | None => mret (-1)
  | Some (f, p, n) =>
      '(r, bytes) ← fileread f n;
      ustore p bytes;;
      mret r
  end.

Definition sys_write : M (sys B) Z :=
  a ← rw_args;
  match a with
  | None => mret (-1)
  | Some (f, p, n) =>
      src ← uloads p (Z.to_nat n);
      filewrite f src n
  end.

Definition sys_close : M (sys B) Z :=
  r ← argfd 0;
  match r with
  | None => mret (-1)
  | Some (fd, f) => clear_fd fd;; fileclose kend f;; mret 0
  end.

(** [struct stat] as it is laid out: type, dev, ino, nlink, size. *)
Definition stat_bytes (st : stat) : list Z :=
  le_encode 2 (st_type st) ++ [0; 0] ++ le_encode 4 (st_dev st) ++ le_encode 4 (st_ino st) ++
  le_encode 2 (st_nlink st) ++ [0; 0] ++ le_encode 4 (st_size st).
Definition STATSIZE : Z := 20.

Definition sys_fstat : M (sys B) Z :=
  r ← argfd 0;
  match r with
  | None => mret (-1)
  | Some (_, f) =>
      r ← argptr 1 STATSIZE;
      match r with
      | None => mret (-1)
      | Some p =>
          '(r, st) ← filestat f;
          match st with Some st => ustore p (stat_bytes st) | None => mret tt end;;
          mret r
      end
  end.

Definition fupd (i : nat) (f : inode → inode) : M (sys B) unit := fsz (upd_inode i f).
Definition finode (i : nat) : M (sys B) inode := fsz (inode_at i).
Definition add_nlink (d : Z) (ip : inode) : inode :=
  upd_i_d (λ x, Dinode (di_type x) (di_major x) (di_minor x) (i16 (di_nlink x + d)) (di_size x) (di_addrs x)) ip.

(** [bad:] of [sys_link]. *)
Definition link_bad (ip : nat) : M (sys B) Z :=
  fsz (ilock ip);;
  fupd ip (add_nlink (-1));;
  fsz (iupdate ip);;
  fsz (iunlockput ip);;
  commit_op;;
  mret (-1).

(** Create the path [new] as a link to the same inode as [old]. *)
Definition sys_link : M (sys B) Z :=
  o ← argstr 0;
  n ← argstr 1;
  match o, n with
  | Some old, Some new =>
      r ← fsz (namei old);
      match r with
      | None => mret (-1)
      | Some ip =>
          begin_op;;
          fsz (ilock ip);;
          d ← finode ip;
          if i_type d =? T_DIR then fsz (iunlockput ip);; commit_op;; mret (-1) else
          fupd ip (add_nlink 1);;
          fsz (iupdate ip);;
          fsz (iunlock ip);;
          '(dp, name) ← fsz (nameiparent new (replicate 14 0));
          match dp with
          | None => link_bad ip
          | Some dp =>
              fsz (ilock dp);;
              dd ← finode dp;
              d ← finode ip;
              r ← (if negb (i_dev dd =? i_dev d) then mret (-1)
                   else fsz (dirlink dp name (i_inum d)));
              if r <? 0 then fsz (iunlockput dp);; link_bad ip else
              fsz (iunlockput dp);;
              fsz (iput ip);;
              commit_op;;
              mret 0
          end
      end
  | _, _ => mret (-1)
  end.

(** One turn of the loop of [isdirempty]. *)
Definition isdirempty_step (dp : nat) (off : Z) : M (fs B) (Z + bool) :=
  d ← inode_at dp;
  if u32 off <? i_size d then
    '(r, de) ← readi dp (u32 off) DESIZE;
    if negb (r =? DESIZE) then panic "isdirempty: readi" else
    if nz (de_inum de) then mret (inr false) else mret (inl (i32 (off + DESIZE)))
  else mret (inr true).

(** Is the directory [dp] empty except for "." and ".." ? *)
Definition isdirempty (dp : nat) : M (fs B) bool :=
  d ← inode_at dp;
  loop (S (S (Z.to_nat (i_size d / DESIZE)))) (isdirempty_step dp) (2 * DESIZE).

(** [bad:] of [sys_unlink]. *)
Definition unlink_bad (dp : nat) : M (sys B) Z :=
  fsz (iunlockput dp);;
  commit_op;;
  mret (-1).

Definition sys_unlink : M (sys B) Z :=
  r ← argstr 0;
  match r with
  | None => mret (-1)
  | Some path =>
      '(dp, name) ← fsz (nameiparent path (replicate 14 0));
      match dp with
      | None => mret (-1)
      | Some dp =>
          begin_op;;
          fsz (ilock dp);;
          (* Cannot unlink "." or "..". *)
          if (namecmp name [46] =? 0) || (namecmp name [46; 46] =? 0) then unlink_bad dp else
          f ← fsz (dirlookup dp name);
          match f with
          | None => unlink_bad dp
          | Some (ip, off) =>
              fsz (ilock ip);;
              d ← finode ip;
              if i_nlink d <? 1 then panic "unlink: nlink < 1" else
              e ← (if i_type d =? T_DIR then fsz (isdirempty ip) else mret true);
              if negb e then fsz (iunlockput ip);; unlink_bad dp else
              r ← fsz (writei dp (replicate 16 0) off DESIZE);
              if negb (r =? DESIZE) then panic "unlink: writei" else
              when (i_type d =? T_DIR) (fupd dp (add_nlink (-1));; fsz (iupdate dp));;
              fsz (iunlockput dp);;
              fupd ip (add_nlink (-1));;
              fsz (iupdate ip);;
              fsz (iunlockput ip);;
              commit_op;;
              mret 0
          end
      end
  end.

(** Create the path with a new inode; it is returned locked. *)
Definition create (path : list Z) (type major minor : Z) : M (sys B) (option nat) :=
  '(dp, name) ← fsz (nameiparent path (replicate 14 0));
  match dp with
  | None => mret None
  | Some dp =>
      fsz (ilock dp);;
      f ← fsz (dirlookup dp name);
      match f with
      | Some (ip, _) =>
          fsz (iunlockput dp);;
          fsz (ilock ip);;
          d ← finode ip;
          if (type =? T_FILE) && (i_type d =? T_FILE) then mret (Some ip) else
          fsz (iunlockput ip);;
          mret None
      | None =>
          dd ← finode dp;
          ip ← fsz (ialloc (i_dev dd) type);
          fsz (ilock ip);;
          fupd ip (upd_i_d (λ x, Dinode (di_type x) (i16 major) (i16 minor) 1 (di_size x) (di_addrs x)));;
          fsz (iupdate ip);;
          d ← finode ip;
          (if type =? T_DIR then
             fupd dp (add_nlink 1);;
             fsz (iupdate dp);;
             r ← fsz (dirlink ip [46] (i_inum d));
             if r <? 0 then panic "create dots" else
             r ← fsz (dirlink ip [46; 46] (i_inum dd));
             when (r <? 0) (panic "create dots")
           else mret tt);;
          r ← fsz (dirlink dp name (i_inum d));
          if r <? 0 then panic "create: dirlink" else
          fsz (iunlockput dp);;
          mret (Some ip)
      end
  end.

Definition sys_open : M (sys B) Z :=
  r ← argstr 0;
  m ← argint 1;
  match r, m with
  | Some path, Some omode =>
      ip ← (if nz (Z.land omode O_CREATE) then
              begin_op;;
              ip ← create path T_FILE 0 0;
              commit_op;;
              mret ip
            else
              r ← fsz (namei path);
              match r with
              | None => mret None
              | Some ip =>
                  fsz (ilock ip);;
                  d ← finode ip;
                  if (i_type d =? T_DIR) && negb (omode =? O_RDONLY) then fsz (iunlockput ip);; mret None
                  else mret (Some ip)
              end);
      match ip with
      | None => mret (-1)
      | Some ip =>
          f ← filealloc;
          match f with
          | None => fsz (iunlockput ip);; mret (-1)
          | Some f =>
              fd ← fdalloc f;
              match fd with
              | None => fileclose kend f;; fsz (iunlockput ip);; mret (-1)
              | Some fd =>
                  fsz (iunlock ip);;
                  upd_file f (λ ff, File FD_INODE (f_ref ff) (negb (nz (Z.land omode O_WRONLY)))
                    (nz (Z.land omode O_WRONLY) || nz (Z.land omode O_RDWR)) (f_pipe ff) ip 0);;
                  mret fd
              end
          end
      end
  | _, _ => mret (-1)
  end.

Definition sys_mkdir : M (sys B) Z :=
  begin_op;;
  r ← argstr 0;
  ip ← match r with Some path => create path T_DIR 0 0 | None => mret None end;
  match ip with
  | None => commit_op;; mret (-1)
  | Some ip => fsz (iunlockput ip);; commit_op;; mret 0
  end.

Definition sys_mknod : M (sys B) Z :=
  begin_op;;
  r ← argstr 0;
  ip ← match r with
       | None => mret None
       | Some path =>
           a ← argint 1;
           match a with
           | None => mret None
           | Some major =>
               i ← argint 2;
               match i with
               | None => mret None
               | Some minor => create path T_DEV (i16 major) (i16 minor)
               end
           end
       end;
  match ip with
  | None => commit_op;; mret (-1)
  | Some ip => fsz (iunlockput ip);; commit_op;; mret 0
  end.

Definition sys_chdir : M (sys B) Z :=
  r ← argstr 0;
  ip ← match r with Some path => fsz (namei path) | None => mret None end;
  match ip with
  | None => mret (-1)
  | Some ip =>
      fsz (ilock ip);;
      d ← finode ip;
      if negb (i_type d =? T_DIR) then fsz (iunlockput ip);; mret (-1) else
      fsz (iunlock ip);;
      i ← sk curproc;
      p ← getproc i;
      match p_cwd p with None => fault | Some c => fsz (iput c) end;;
      uproc i (set_p_cwd (Some ip));;
      mret 0
  end.

(** The argument strings of [sys_exec]; [None] is -1. *)
Fixpoint fetch_args (uargv : Z) (i : nat) (n : nat) : M (sys B) (option (list (list Z))) :=
  match n with
  | O => mret None
  | S n =>
      p ← me;
      r ← fetchint p (u32 (uargv + 4 * Z.of_nat i));
      match r with
      | None => mret None
      | Some uarg =>
          if u32 uarg =? 0 then mret (Some []) else
          a ← fetchstr p (u32 uarg);
          match a with
          | None => mret None
          | Some a => r ← fetch_args uargv (S i) n; mret ((λ l, a :: l) <$> r)
          end
      end
  end.

Definition sys_exec : M (sys B) Z :=
  r ← argstr 0;
  u ← argint 1;
  match r, u with
  | Some path, Some uargv =>
      a ← fetch_args (u32 uargv) 0 MAXARG;
      match a with
      | None => mret (-1)
      | Some argv => exec kend kdata elf0 path argv
      end
  | _, _ => mret (-1)
  end.

Definition sys_pipe : M (sys B) Z :=
  r ← argptr 0 8;
  match r with
  | None => mret (-1)
  | Some fd =>
      r ← pipealloc kend;
      match r with
      | (_, Some rf, Some wf) =>
          if r.1.1 <? 0 then mret (-1) else
          fd0 ← fdalloc rf;
          match fd0 with
          | None => fileclose kend rf;; fileclose kend wf;; mret (-1)
          | Some fd0 =>
              fd1 ← fdalloc wf;
              match fd1 with
              | None => clear_fd fd0;; fileclose kend rf;; fileclose kend wf;; mret (-1)
              | Some fd1 =>
                  ustore fd (le_encode 4 fd0);;
                  ustore (u32 (fd + 4)) (le_encode 4 fd1);;
                  mret 0
              end
          end
      | _ => mret (-1)
      end
  end.

(** ** syscall.c *)

(** The table [syscalls]; number 22, [SYS_signal], has no entry. *)
Definition syscalls (num : Z) : option (M (sys B) Z) :=
  match num with
  | 1 => Some (sys_fork kend kdata forkret_addr trapret_addr)
  | 2 => Some (sys_exit kend)
  | 3 => Some (sys_wait kend)
  | 4 => Some sys_pipe
  | 5 => Some sys_read
  | 6 => Some sys_kill
  | 7 => Some sys_exec
  | 8 => Some sys_fstat
  | 9 => Some sys_chdir
  | 10 => Some sys_dup
  | 11 => Some sys_getpid
  | 12 => Some (sys_sbrk kend)
  | 13 => Some sys_sleep
  | 14 => Some sys_uptime
  | 15 => Some sys_open
  | 16 => Some sys_write
  | 17 => Some sys_mknod
  | 18 => Some sys_unlink
  | 19 => Some sys_link
  | 20 => Some sys_mkdir
  | 21 => Some sys_close
  | _ => None
  end.

(** The result goes to the %eax of the trap frame; an unknown number gives -1
    (and a message on the console). *)
Definition syscall : M (sys B) unit :=
  p ← me;
  r ← match syscalls (i32 (tf_eax (p_tf p))) with
      | Some f => f
      | None => mret (-1)
      end;
  i ← sk curproc;
  uproc i (λ p, set_p_tf (set_tf_eax (u32 r) (p_tf p)) p).

(** ** trap.c *)

Definition T_SYSCALL : Z := 64.
Definition T_IRQ0 : Z := 32.
Definition IRQ_TIMER : Z := 0.
Definition IRQ_KBD : Z := 1.
Definition IRQ_COM1 : Z := 4.
Definition IRQ_IDE : Z := 14.
Definition IRQ_SPURIOUS : Z := 31.

Definition exit_if_killed : M (sys B) unit :=
  p ← me;
  when (p_killed p) (exit kend).

(** The device part of [trap]; the interrupt handlers of the drivers are
    arguments.  [true]: a device interrupt. *)
Definition device_irq (ideintr kbdintr uartintr : M (sys B) unit) (trapno : Z) : M (sys B) bool :=
  if trapno =? T_IRQ0 + IRQ_TIMER then
    id ← sk (gets (λ k, cpu_id (k_cpu k)));
    when (bool_decide (id = 0%nat))
      (sk (acquire LTicks);;
       modify (λ s, set_sy_ticks (u32 (sy_ticks s + 1)) s);;
       sk (wakeup CTicks);;
       sk (release LTicks));;
    mret true
  else if trapno =? T_IRQ0 + IRQ_IDE then ideintr;; mret true
  else if trapno =? T_IRQ0 + IRQ_IDE + 1 then mret true
  else if trapno =? T_IRQ0 + IRQ_KBD then kbdintr;; mret true
  else if trapno =? T_IRQ0 + IRQ_COM1 then uartintr;; mret true
  else if (trapno =? T_IRQ0 + 7) || (trapno =? T_IRQ0 + IRQ_SPURIOUS) then mret true
  else mret false.

(** Force process exit if it has been killed and is in user space. *)
Definition exit_user_killed (cs : Z) : M (sys B) unit :=
  c ← sk (gets (λ k, cpu_proc (k_cpu k)));
  match c with
  | Some i =>
      p ← getproc i;
      when (p_killed p && (Z.land cs 3 =? DPL_USER)) (exit kend)
  | None => mret tt
  end.

(** All traps and interrupts come here, with the frame [tf]. *)
Definition trap (ideintr kbdintr uartintr : M (sys B) unit) (tf : trapframe) : M (sys B) unit :=
  if tf_trapno tf =? T_SYSCALL then
    exit_if_killed;;
    i ← sk curproc;
    uproc i (set_p_tf tf);;
    syscall;;
    exit_if_killed
  else
    d ← device_irq ideintr kbdintr uartintr (tf_trapno tf);
    (if d : bool then mret tt else
       c ← sk (gets (λ k, cpu_proc (k_cpu k)));
       match c with
       | None => panic "trap"
       | Some i =>
           if Z.land (tf_cs tf) 3 =? 0 then panic "trap" else
           uproc i (set_p_killed true)
       end);;
    exit_user_killed (tf_cs tf);;
    c ← sk (gets (λ k, cpu_proc (k_cpu k)));
    match c with
    | Some i =>
        p ← getproc i;
        when (bool_decide (p_state p = RUNNING) && (tf_trapno tf =? T_IRQ0 + IRQ_TIMER)) (sk yield)
    | None => mret tt
    end;;
    exit_user_killed (tf_cs tf).
End Sysfile.
