(* ===== verification/Grep.v ===== *)
(** grep.c: the regular expression matcher and the line filter.

    [matchhere], [matchstar] and [match] read the pattern and the text as C
    strings: a [list Z] is what lies at the pointer, and a read at its end
    gives the NUL.  [grep] runs over a memory with the global [buf] in it. *)
From S2P Require Import Prelude Kmonad Wp Str.

(** The do-while loop of [matchstar], with the test for the rest of the
    pattern as a parameter. *)
Fixpoint star_loop (here : list Z → bool) (c : Z) (text : list Z) : bool :=
  if here text then true
  else match text with
       | [] => false
       | t :: text' =>
           if negb (t =? 0) && ((t =? c) || (c =? zc ".")) then star_loop here c text' else false
       end.

Fixpoint matchhere (re text : list Z) : bool :=
  match re with
  | [] => true
  | r0 :: re1 =>
      if r0 =? 0 then true
      else
        let one :=
          if (r0 =? zc "$") && (hd 0 re1 =? 0) then hd 0 text =? 0
          else match text with
               | [] => false
               | t :: text' =>
                   if negb (t =? 0) && ((r0 =? zc ".") || (r0 =? t)) then matchhere re1 text'
                   else false
               end in
        match re1 with
        | [] => one
        | r1 :: re2 => if r1 =? zc "*" then star_loop (matchhere re2) r0 text else one
        end
  end.

Definition matchstar (c : Z) (re text : list Z) : bool := star_loop (matchhere re) c text.

(** The loop of [match]: the pattern is tried at the terminator too. *)
Fixpoint match_loop (re text : list Z) : bool :=
  if matchhere re text then true
  else match text with
       | [] => false
       | t :: text' => if t =? 0 then false else match_loop re text'
       end.

Definition match_ (re text : list Z) : bool :=
  match re with
  | r0 :: re1 => if r0 =? zc "^" then matchhere re1 text else match_loop re text
  | [] => match_loop re text
  end.

(** ** The line filter *)

(** Memory, what the following calls of [read] deliver, and what was written
    to file descriptor 1. *)
Record gst := Gst { g_mem : mem; g_in : list (list Z); g_out : list Z }.

Section Grep.
(** The address of [char buf[1024]], and the bound of every loop. *)
Variable buf : Z.
Variable fuel : nat.

Definition poke (a : Z) (bs : list Z) (m : mem) : mem :=
  λ x, if (a <=? x) && (x <? a + Z.of_nat (length bs)) then nth (Z.to_nat (x - a)) bs 0 else m x.
Definition peek (a : Z) (n : Z) (m : mem) : list Z :=
  map (λ i, m (a + Z.of_nat i)) (seq 0 (Z.to_nat n)).

(** [read(fd, a, n)]: at most [n] bytes of what is there, 0 at the end. *)
Definition read (a n : Z) : M gst Z := λ s,
  match g_in s with
  | [] => Ok 0 s
  | c :: rest =>
      let got := take (Z.to_nat n) c in
      let rest' := if decide (length c ≤ Z.to_nat n)%nat then rest else drop (Z.to_nat n) c :: rest in
      Ok (Z.of_nat (length got)) (Gst (poke a got (g_mem s)) rest' (g_out s))
  end.

Definition set1 (a v : Z) : M gst unit := modify (λ s, Gst (upd (g_mem s) a v) (g_in s) (g_out s)).
Definition write1 (a n : Z) : M gst unit :=
  modify (λ s, Gst (g_mem s) (g_in s) (g_out s ++ peek a n (g_mem s))).

(** The inner loop: one line from [p], or leave with [p]. *)
Definition grep_line (pattern : list Z) (p : Z) : M gst (Z + Z) :=
  r ← gets (λ s, Ulib.strchr fuel (g_mem s) p 10);
  match r with
  | None => nofuel
  | Some q =>
      if q =? 0 then mret (inr p)
      else
        set1 q 0;;
        line ← gets (λ s, cstr fuel (g_mem s) p);
        (if match_ pattern line then set1 q 10;; write1 p (q + 1 - p) else mret tt);;
        mret (inl (q + 1))
  end.

Definition grep_step (pattern : list Z) (m : Z) : M gst (Z + unit) :=
  n ← read (buf + m) (1024 - m);
  if n <=? 0 then mret (inr tt)
  else
    let m := m + n in
    p ← loop fuel (grep_line pattern) buf;
    let m := if p =? buf then 0 else m in
    if 0 <? m then
      let m := m - (p - buf) in
      modify (λ s, Gst (Ulib.memmove (g_mem s) buf p m) (g_in s) (g_out s));;
      mret (inl m)
    else mret (inl m).

Definition grep (pattern : list Z) : M gst unit := loop fuel (grep_step pattern) 0.
End Grep.

(** ** What a pattern means *)

(** A pattern is a sequence of characters, each single or starred, and
    whether the text must end behind it. *)
Inductive atom := Any | Lit (c : Z).
Definition accepts (a : atom) (t : Z) : bool :=
  match a with Any => true | Lit c => c =? t end.
Definition atom_of (r : Z) : atom := if r =? zc "." then Any else Lit r.

Fixpoint compile (re : list Z) : list (atom * bool) * bool :=
  match re with
  | [] => ([], false)
  | r0 :: re1 =>
      let one := if (r0 =? zc "$") && (length re1 =? 0)%nat then ([], true)
                 else ((atom_of r0, false) :: (compile re1).1, (compile re1).2) in
      match re1 with
      | [] => one
      | r1 :: re2 =>
          if r1 =? zc "*" then ((atom_of r0, true) :: (compile re2).1, (compile re2).2) else one
      end
  end.

(** The words of a sequence of such characters. *)
Inductive lang : list (atom * bool) → list Z → Prop :=
| lang_nil : lang [] []
| lang_one a t p w : accepts a t → lang p w → lang ((a, false) :: p) (t :: w)
| lang_star a u p w : Forall (accepts a) u → lang p w → lang ((a, true) :: p) (u ++ w).

Definition at_front (pe : list (atom * bool) * bool) (text : list Z) : Prop :=
  ∃ w rest, text = w ++ rest ∧ lang pe.1 w ∧ (pe.2 = true → rest = []).

Definition string_ok (l : list Z) : Prop := Forall (λ c, c ≠ 0) l.

Lemma star_loop_spec here c text : string_ok text →
  star_loop here c text = true ↔
  ∃ u rest, text = u ++ rest ∧ Forall (λ t, accepts (atom_of c) t) u ∧ here rest = true.
Proof.
  assert (Ha : ∀ t, (t =? c) || (c =? zc ".") = accepts (atom_of c) t).
  { intros t. unfold atom_of. destruct (c =? zc "."); simpl; [by rewrite orb_true_r|].
    rewrite orb_false_r. apply Z.eqb_sym. }
  induction text as [|t text IH]; intros Ht.
  - cbn [star_loop]. split.
    + destruct (here []) eqn:E; [|done]. intros _. exists [], []. auto.
    + intros (u&rest&E&_&Hh). symmetry in E. apply app_nil in E as [-> ->]. by rewrite Hh.
  - inversion Ht as [|? ? Hz Ht']; subst. cbn [star_loop]. rewrite Ha.
    rewrite (proj2 (Z.eqb_neq t 0) Hz). cbn [negb andb]. split.
    + destruct (here (t :: text)) eqn:E; [intros _; by exists [], (t :: text)|].
      destruct (accepts _ t) eqn:Et; [|done]. intros (u&rest&->&Hu&Hh)%IH; [|done].
      exists (t :: u), rest. split_and!; [done| |done]. constructor; [by rewrite Et|done].
    + intros ([|x u]&rest&E&Hu&Hh); simplify_eq/=; [by rewrite Hh|].
      inversion Hu as [|? ? Hx Hu']; subst. apply Is_true_true in Hx. rewrite Hx.
      destruct (here (x :: u ++ rest)); [done|]. apply IH; eauto.
Qed.

Lemma at_front_star a p e text : at_front ((a, true) :: p, e) text ↔
  ∃ u rest, text = u ++ rest ∧ Forall (λ t, accepts a t) u ∧ at_front (p, e) rest.
Proof.
  split.
  - intros (w&rest&->&Hl&He). inversion Hl; subst. exists u, (w0 ++ rest).
    rewrite app_assoc. split_and!; [done..|]. by exists w0, rest.
  - intros (u&rest&->&Hu&w&rest'&->&Hl&He). exists (u ++ w), rest'. rewrite app_assoc.
    split_and!; [done|by constructor|done].
Qed.

Lemma at_front_one a p e text : at_front ((a, false) :: p, e) text ↔
  ∃ t rest, text = t :: rest ∧ accepts a t ∧ at_front (p, e) rest.
Proof.
  split.
  - intros (w&rest&->&Hl&He). inversion Hl; subst. simpl. eexists _, _. split_and!; [done..|].
    by eexists _, _.
  - intros (t&rest&->&Ht&w&rest'&->&Hl&He). exists (t :: w), rest'.
    split_and!; [done|by constructor|done].
Qed.

Lemma matchhere_spec re text : string_ok re → string_ok text →
  matchhere re text = true ↔ at_front (compile re) text.
Proof.
  remember (length re) as n eqn:Hn. assert (Hle : (length re ≤ n)%nat) by lia. clear Hn.
  revert re text Hle. induction n as [|n IH]; intros [|r0 re1] text Hle Hr Ht;
    [split; [|done]; intros _; exists [], text; repeat constructor; done|simpl in Hle; lia
    |split; [|done]; intros _; exists [], text; repeat constructor; done|].
  inversion Hr as [|? ? Hz Hr1]; subst. simpl in Hle.
  assert (Hone : (if (r0 =? zc "$") && (hd 0 re1 =? 0) then hd 0 text =? 0
     else match text with
          | [] => false
          | t :: text' => if negb (t =? 0) && ((r0 =? zc ".") || (r0 =? t)) then matchhere re1 text'
                          else false
          end) = true ↔
    at_front (if (r0 =? zc "$") && (length re1 =? 0)%nat then ([], true)
              else ((atom_of r0, false) :: (compile re1).1, (compile re1).2)) text).
  { replace (hd 0 re1 =? 0) with (length re1 =? 0)%nat.
    2: { destruct re1 as [|x re1']; [done|]. inversion Hr1; subst. simpl. symmetry. by apply Z.eqb_neq. }
    destruct (_ && _).
    { split.
      - intros Hh. destruct text as [|t text]; [by exists [], []; repeat constructor|].
        inversion Ht; subst. simpl in Hh. apply Z.eqb_eq in Hh. done.
      - intros (w&rest&->&Hl&He). rewrite He by done. inversion Hl. done. }
    rewrite at_front_one. rewrite <- surjective_pairing. destruct text as [|t text].
    { split; [done|]. by intros (?&?&?&_). }
    inversion Ht as [|? ? Htz Ht']; subst. rewrite (proj2 (Z.eqb_neq t 0) Htz). cbn [negb andb].
    replace ((r0 =? zc ".") || (r0 =? t)) with (accepts (atom_of r0) t)
      by (unfold atom_of; by destruct (r0 =? zc ".")).
    destruct (accepts _ t) eqn:Ea.
    - rewrite IH by (done || lia). split; [intros Hf; exists t, text; by rewrite Ea|].
      by intros (?&?&[= -> ->]&_&?).
    - split; [done|]. intros (?&?&[= -> ->]&Hx&_). by rewrite Ea in Hx. }
  destruct re1 as [|r1 re2]; cbn [matchhere compile]; rewrite (proj2 (Z.eqb_neq r0 0) Hz); [exact Hone|].
  destruct (r1 =? zc "*"); [|exact Hone].
  inversion Hr1; subst. rewrite star_loop_spec, at_front_star, <- surjective_pairing by done.
  simpl in Hle. split; intros (u&rest&->&Hu&Hh); exists u, rest; split_and!; try done;
    apply Forall_app in Ht as [_ Ht]; by apply IH; auto with lia.
Qed.

Lemma match_loop_spec re text : string_ok re → string_ok text →
  match_loop re text = true ↔ ∃ pre suf, text = pre ++ suf ∧ at_front (compile re) suf.
Proof.
  intros Hr. induction text as [|t text IH]; intros Ht; cbn [match_loop].
  - split.
    + destruct (matchhere re []) eqn:E; [|done]. intros _. exists [], []. split; [done|].
      by apply matchhere_spec.
    + intros (pre&suf&E&Hf). symmetry in E. apply app_nil in E as [-> ->].
      apply matchhere_spec in Hf; [|done..]. by rewrite Hf.
  - inversion Ht as [|? ? Htz Ht']; subst. rewrite (proj2 (Z.eqb_neq t 0) Htz). split.
    + destruct (matchhere re (t :: text)) eqn:E.
      * intros _. exists [], (t :: text). split; [done|]. by apply matchhere_spec.
      * intros (pre&suf&->&Hf)%IH; [|done]. by exists (t :: pre), suf.
    + intros ([|x pre]&suf&E&Hf); simplify_eq/=.
      * apply matchhere_spec in Hf; [|done..]. by rewrite Hf.
      * destruct (matchhere _ _); [done|]. apply IH; eauto.
Qed.

(** ** The filter on whole lines *)

Definition line_ok (l : list Z) : Prop := Forall (λ c, c ≠ 0 ∧ c ≠ 10) l.
Definition unlines (ls : list (list Z)) : list Z := concat ((λ l, l ++ [10]) <$> ls).

Definition reads_as (m : mem) (p : Z) (l : list Z) : Prop :=
  ∀ i x, l !! i = Some x → m (p + Z.of_nat i) = x.

Lemma reads_as_cons m p x l : reads_as m p (x :: l) ↔ m p = x ∧ reads_as m (p + 1) l.
Proof.
  split.
  - intros H. split; [rewrite <- (Z.add_0_r p); by apply (H 0%nat)|].
    intros i y Hi. rewrite <- (H (S i) y Hi). f_equal. lia.
  - intros [H0 H] [|i] y Hi; simplify_eq/=; [by rewrite Z.add_0_r|].
    rewrite <- (H i y Hi). f_equal. lia.
Qed.
Lemma reads_as_app m p l r :
  reads_as m p (l ++ r) ↔ reads_as m p l ∧ reads_as m (p + Z.of_nat (length l)) r.
Proof.
  revert p. induction l as [|x l IH]; intros p; simpl.
  - rewrite Z.add_0_r. split; [intros; split; [by intros [] ?|done]|tauto].
  - rewrite !reads_as_cons, IH. replace (p + 1 + Z.of_nat (length l)) with (p + Z.of_nat (S (length l))) by lia.
    tauto.
Qed.
Lemma reads_as_upd m p l a v : a < p ∨ p + Z.of_nat (length l) ≤ a →
  reads_as m p l → reads_as (upd m a v) p l.
Proof.
  intros Ha H i x Hi. pose proof (lookup_lt_Some _ _ _ Hi). rewrite upd_ne by lia. by apply H.
Qed.
Lemma reads_as_poke m a l : reads_as (poke a l m) a l.
Proof.
  intros i x Hi. pose proof (lookup_lt_Some _ _ _ Hi). unfold poke.
  rewrite (proj2 (Z.leb_le _ _)), (proj2 (Z.ltb_lt _ _)) by lia. cbn [andb].
  replace (Z.to_nat (a + Z.of_nat i - a)) with i by lia. by apply nth_lookup_Some.
Qed.

Lemma strchr_line fuel m p l : line_ok l → 0 < p → (length l < fuel)%nat →
  reads_as m p (l ++ [10]) → Ulib.strchr fuel m p 10 = Some (p + Z.of_nat (length l)).
Proof.
  revert p fuel. induction l as [|c l IH]; intros p [|fuel] Hl Hp Hf Hr; try (simpl in Hf; lia);
    cbn [app] in Hr; apply reads_as_cons in Hr as [H0 Hr]; cbn [Ulib.strchr]; rewrite H0.
  - simpl. f_equal. lia.
  - inversion Hl as [|? ? [Hc0 Hc1] Hl']; subst. unfold nz. rewrite (proj2 (Z.eqb_neq _ _) Hc0).
    cbn [negb]. rewrite (proj2 (Z.eqb_neq _ _) Hc1). rewrite (IH (p + 1)) by (done || simpl in Hf; lia).
    f_equal. simpl. lia.
Qed.

Lemma cstr_line fuel m p l : line_ok l → (length l < fuel)%nat →
  reads_as m p l → m (p + Z.of_nat (length l)) = 0 → cstr fuel m p = l.
Proof.
  revert p fuel. induction l as [|c l IH]; intros p [|fuel] Hl Hf Hr Hz; try (simpl in Hf; lia);
    cbn [cstr].
  - simpl in Hz. rewrite Z.add_0_r in Hz. by rewrite Hz.
  - apply reads_as_cons in Hr as [H0 Hr]. inversion Hl as [|? ? [Hc0 _] Hl']; subst.
    rewrite (proj2 (Z.eqb_neq _ _) Hc0). f_equal. apply IH; [done|simpl in Hf; lia|done|].
    rewrite <- Hz. f_equal. simpl. lia.
Qed.

Lemma peek_reads m p l : reads_as m p l → peek p (Z.of_nat (length l)) m = l.
Proof.
  intros H. unfold peek. rewrite Nat2Z.id. apply list_eq. intros i.
  change (map ?f ?x) with (f <$> x). rewrite list_lookup_fmap.
  destruct (l !! i) eqn:E.
  - rewrite lookup_seq_lt by (by eapply lookup_lt_Some). simpl. f_equal. by apply H.
  - rewrite lookup_seq_ge; [done|]. by apply lookup_ge_None.
Qed.

Lemma grep_line_spec fuel pat m inp out p l r : line_ok l → 0 < p → (length l < fuel)%nat →
  reads_as m p ((l ++ [10]) ++ r) →
  ∃ m', grep_line fuel pat p (Gst m inp out) = Ok (inl (p + Z.of_nat (length l) + 1))
    (Gst m' inp (out ++ if match_ pat l then l ++ [10] else [])) ∧
    reads_as m' (p + Z.of_nat (length l) + 1) r ∧
    ∀ a, p + Z.of_nat (length l) < a → m' a = m a.
Proof.
  intros Hl Hp Hf [Hll Hrr]%reads_as_app.
  rewrite length_app in Hrr. cbn [length] in Hrr.
  replace (p + Z.of_nat (length l + 1)) with (p + Z.of_nat (length l) + 1) in Hrr by lia.
  pose proof (proj1 (reads_as_app _ _ _ _) Hll) as [Hl' _].
  unfold grep_line, mbind, M_bind, gets. cbn [g_mem].
  rewrite (strchr_line _ _ _ l) by done.
  rewrite (proj2 (Z.eqb_neq _ 0)) by lia. unfold set1, modify. cbn [g_mem g_in g_out].
  set (m1 := upd m _ 0).
  rewrite (cstr_line fuel m1 p l); [|done|lia| |unfold m1; apply upd_eq].
  2: { apply reads_as_upd; [lia|done]. }
  destruct (match_ pat l).
  - unfold write1, modify, mret, M_ret. cbn [g_mem g_in g_out].
    exists (upd m1 (p + Z.of_nat (length l)) 10). split_and!; [|apply reads_as_upd; [lia|]; apply reads_as_upd; [lia|]; done
      |intros a Ha; unfold m1; rewrite !upd_ne by lia; done].
    do 3 f_equal. replace (p + Z.of_nat (length l) + 1 - p) with (Z.of_nat (length (l ++ [10])))
      by (rewrite length_app; simpl; lia).
    apply peek_reads. apply reads_as_app. split.
    + apply reads_as_upd; [lia|]. apply reads_as_upd; [lia|]. done.
    + apply reads_as_cons. split; [apply upd_eq|]. by intros [].
  - unfold mret, M_ret. exists m1. rewrite app_nil_r. split_and!; [done| |].
    + apply reads_as_upd; [lia|done].
    + intros a Ha. unfold m1. rewrite upd_ne by lia. done.
Qed.

Lemma grep_lines_spec fuel pat ls : ∀ n m inp out p,
  Forall line_ok ls → 0 < p → (length (unlines ls) < fuel)%nat → (length ls < n)%nat →
  reads_as m p (unlines ls) → m (p + Z.of_nat (length (unlines ls))) = 0 →
  ∃ m', loop n (grep_line fuel pat) p (Gst m inp out) = Ok (p + Z.of_nat (length (unlines ls)))
    (Gst m' inp (out ++ unlines (filter (λ l, match_ pat l) ls))).
Proof.
  unfold unlines. induction ls as [|l ls IH]; intros [|n] m inp out p Hok Hp Hf Hn Hr Hz;
    try (simpl in Hn; lia); cbn [loop fmap list_fmap concat].
  - exists m. unfold grep_line, mbind, M_bind, gets. cbn [g_mem].
    destruct fuel as [|fuel]; [simpl in Hf; lia|]. cbn [Ulib.strchr].
    simpl in Hz. rewrite Z.add_0_r in Hz. rewrite Hz. simpl. by rewrite Z.add_0_r, app_nil_r.
  - inversion Hok as [|? ? Hl Hok']; subst. cbn [fmap list_fmap concat] in Hf, Hr, Hz.
    rewrite length_app, (length_app l [10]) in Hf, Hz. cbn [length] in Hf, Hz.
    destruct (grep_line_spec fuel pat m inp out p l (concat ((λ l, l ++ [10]) <$> ls)))
      as (m1&E1&Hr1&Hm1); [done|done|lia|done|].
    unfold mbind at 1, M_bind at 1. rewrite E1.
    destruct (IH n m1 inp (out ++ if match_ pat l then l ++ [10] else [])
      (p + Z.of_nat (length l) + 1)) as (m2&E2);
      [done|lia|lia|simpl in Hn; lia|done|..].
    { rewrite Hm1 by lia. rewrite <- Hz. f_equal. lia. }
    exists m2. rewrite E2, length_app, (length_app l [10]). cbn [length].
    match goal with |- Ok ?a _ = Ok ?b _ => replace b with a by lia end.
    do 2 f_equal. rewrite <- app_assoc. f_equal. rewrite filter_cons.
    destruct (match_ pat l); done.
Qed.

(** C30: the matcher decides the meaning of the pattern: [match] answers 1
    exactly when the text has a part that the pattern describes ([.] for any
    character, [*] for repetition of the one before, [^] and [$] for the ends
    of the text); so it also terminates on every pattern and text. *)
Theorem match_correct re text : string_ok re → string_ok text →
  match_ re text = true ↔
  match re with
  | r0 :: re1 => if r0 =? zc "^" then at_front (compile re1) text
                 else ∃ pre suf, text = pre ++ suf ∧ at_front (compile re) suf
  | [] => True
  end.
Proof.
  intros Hr Ht. destruct re as [|r0 re1].
  - split; [done|]. intros _. by destruct text.
  - inversion Hr; subst. cbn [match_]. destruct (r0 =? zc "^").
    + by apply matchhere_spec.
    + by apply match_loop_spec.
Qed.

Lemma match_correct_witness :
  match_ (zs "^ab*.$") (zs "abbc") = true ∧ at_front (compile (zs "ab*.$")) (zs "abbc").
Proof.
  split; [reflexivity|]. apply (match_correct (zs "^ab*.$") (zs "abbc")).
  - repeat (constructor; [discriminate|]). constructor.
  - repeat (constructor; [discriminate|]). constructor.
  - reflexivity.
Defined.

(** [grep] on whole lines that fit in its buffer writes exactly the lines
    that match, in order, and stops at the end of the input. *)
Theorem grep_correct buf fuel pat m ls :
  0 < buf → Forall line_ok ls → (length (unlines ls) < 1024)%nat →
  (length (unlines ls) + 2 ≤ fuel)%nat → (∀ a, buf ≤ a → m a = 0) →
  ∃ m', grep buf fuel pat (Gst m [unlines ls] []) =
    Ok tt (Gst m' [] (unlines (filter (λ l, match_ pat l) ls))).
Proof.
  intros Hb Hok Hlen Hf Hm.
  assert (Hcount : (length ls ≤ length (unlines ls))%nat).
  { clear. unfold unlines. induction ls as [|l ls IH]; [done|].
    cbn [fmap list_fmap concat]. rewrite length_app, (length_app l [10]). simpl in *. lia. }
  destruct fuel as [|[|fuel]]; try lia. unfold grep. cbn [loop].
  set (F := S (S fuel)) in *. unfold mbind at 1, M_bind at 1. unfold grep_step at 1.
  unfold mbind at 1, M_bind at 1, read at 1. cbn [g_in g_mem g_out].
  rewrite take_ge by lia. rewrite decide_True by lia.
  destruct ls as [|l ls].
  { exists (poke (buf + 0) (unlines []) m). done. }
  rewrite (proj2 (Z.leb_gt _ _)).
  2: { simpl in Hcount. lia. }
  set (T := unlines (l :: ls)) in *.
  destruct (grep_lines_spec F pat (l :: ls) F (poke (buf + 0) T m) [] [] buf) as (m1&E1);
    [done|done|fold T; lia|fold T in Hcount; lia|rewrite Z.add_0_r; apply reads_as_poke|..].
  { fold T. unfold poke. rewrite Z.add_0_r, (proj2 (Z.ltb_ge _ _)), andb_false_r by lia.
    apply Hm. lia. }
  fold T in E1. unfold mbind at 1, M_bind at 1. rewrite E1.
  assert (Hpos : 0 < Z.of_nat (length T)) by (simpl in Hcount; lia).
  rewrite (proj2 (Z.eqb_neq _ _)) by lia. rewrite (proj2 (Z.ltb_lt _ _)) by lia.
  unfold mbind at 1, M_bind at 1, modify at 1. cbn [g_in g_mem g_out].
  eexists. done.
Qed.

Lemma grep_correct_witness :
  ∃ m', grep 4096 30 (zs "a.c") (Gst (λ _, 0) [unlines [zs "xabc"; zs "no"; zs "aac"]] []) =
    Ok tt (Gst m' [] (unlines (filter (λ l, match_ (zs "a.c") l) [zs "xabc"; zs "no"; zs "aac"]))) ∧
  filter (λ l, match_ (zs "a.c") l) [zs "xabc"; zs "no"; zs "aac"] = [zs "xabc"; zs "aac"].
Proof.
  destruct (grep_correct 4096 30 (zs "a.c") (λ _, 0) [zs "xabc"; zs "no"; zs "aac"]) as [m' E].
  - lia.
  - repeat constructor; discriminate.
  - vm_compute. lia.
  - vm_compute. lia.
  - reflexivity.
  - exists m'. split; [exact E|reflexivity].
Defined.

(** The bytes behind the ones just read are not cleared: after a matching line [ab],
    a last input [c] without newline is reported as a line [cb] that was
    never in the input. *)
Lemma grep_stale_line :
  match grep 4096 8 (zs "b") (Gst (λ _, 0) [unlines [zs "ab"]; zs "c"] []) with
  | Ok _ s => g_out s
  | _ => []
  end = unlines [zs "ab"; zs "cb"].
Proof. vm_compute. reflexivity. Qed.
