(* ===== verification/Sh.v ===== *)
(** sh.c: the shell's command parser, the way it runs a command, and the
    directory prompt.

    The line is a [list Z] without its NUL; a pointer into it is an index,
    and reading at the end gives the NUL.  The parsing functions share the
    pointer [*ps], which is the state of the monad; [panic] prints and exits,
    so it ends the parse.  The nodes of the tree keep the pairs of pointers
    ([argv]/[eargv], [file]/[efile]) of the source. *)
From S2P Require Import Prelude Kmonad Wp.

Definition MAXARGS : nat := 10.
Definition O_RDONLY : Z := 0x000.
Definition O_WRONLY : Z := 0x001.
Definition O_CREATE : Z := 0x200.

Inductive cmd :=
| EXEC (argv eargv : list nat)
| REDIR (c : cmd) (file efile : nat) (mode fd : Z)
| PIPE (left right : cmd)
| LIST (left right : cmd)
| BACK (c : cmd).

(** Space, tab, CR, LF and VT. *)
Definition whitespace : list Z := [32; 9; 13; 10; 11].
Definition symbols : list Z := zs "<|>&;()".

(** [strchr] as a test. *)
Definition strchr (s : list Z) (c : Z) : bool := existsb (Z.eqb c) s.

Section Parse.
(** The line, and a bound for the recursion and the loops. *)
Variable buf : list Z.

Definition es : nat := length buf.
Definition byte_at (s : nat) : Z := nth s buf 0.

(** [while(s < es && f( *s )) s++]; there are at most [es - s] steps. *)
Fixpoint skip_while (f : Z → bool) (n s : nat) : nat :=
  match n with
  | O => s
  | S n => if f (byte_at s) then skip_while f n (S s) else s
  end.
Definition skip_ws (s : nat) : nat := skip_while (strchr whitespace) (es - s) s.

(** Not a blank and not a symbol: a character of a word. *)
Definition plain (c : Z) : bool := negb (strchr whitespace c) && negb (strchr symbols c).

(** The token's kind, where it starts and where it ends. *)
Definition gettoken : M nat (Z * nat * nat) := λ s,
  let q := skip_ws s in
  let c := byte_at q in
  let '(ret, eq) :=
    if c =? 0 then (c, q)
    else if strchr (zs "|();&<") c then (c, S q)
    else if c =? zc ">" then
      if byte_at (S q) =? zc ">" then (zc "+", S (S q)) else (c, S q)
    else (zc "a", skip_while plain (es - q) q) in
  Ok (ret, q, eq) (skip_ws eq).

Definition peek (toks : list Z) : M nat bool := λ s,
  let s' := skip_ws s in
  Ok (negb (byte_at s' =? 0) && strchr toks (byte_at s')) s'.

(** One round of the loop of [parseredirs]. *)
Definition redir_step (c : cmd) : M nat (cmd + cmd) :=
  more ← peek (zs "<>");
  if negb more then mret (inr c)
  else
    t ← gettoken;
    f ← gettoken;
    let '(tok, _, _) := t in
    let '(tok', q, eq) := f in
    if negb (tok' =? zc "a") then panic "missing file for redirection"
    else if tok =? zc "<" then mret (inl (REDIR c q eq O_RDONLY 0))
    else if tok =? zc ">" then mret (inl (REDIR c q eq (Z.lor O_WRONLY O_CREATE) 1))
    else if tok =? zc "+" then mret (inl (REDIR c q eq (Z.lor O_WRONLY O_CREATE) 1))
    else mret (inl c).
Definition parseredirs (fuel : nat) (c : cmd) : M nat cmd := loop fuel redir_step c.

(** The pointer [cmd] of [parseexec] keeps pointing at the EXEC node while
    redirections are wrapped around it: its arguments are stored through the
    wrappers. *)
Fixpoint set_args (argv eargv : list nat) (c : cmd) : cmd :=
  match c with
  | EXEC _ _ => EXEC argv eargv
  | REDIR c' file efile mode fd => REDIR (set_args argv eargv c') file efile mode fd
  | c => c
  end.

(** One round of the loop of [parseexec]; the loop keeps the arguments so far
    and [ret]. *)
Definition arg_step (fuel : nat) (x : list nat * list nat * cmd) :
    M nat (list nat * list nat * cmd + cmd) :=
  let '(argv, eargv, ret) := x in
  stop ← peek (zs "|)&;");
  if negb stop then
    t ← gettoken;
    let '(tok, q, eq) := t in
    if tok =? 0 then mret (inr (set_args argv eargv ret))
    else if negb (tok =? zc "a") then panic "syntax"
    else
      let argv := argv ++ [q] in
      let eargv := eargv ++ [eq] in
      if decide (MAXARGS ≤ length argv)%nat then panic "too many args"
      else
        ret ← parseredirs fuel ret;
        mret (inl (argv, eargv, ret))
  else mret (inr (set_args argv eargv ret)).

(** One round of [while(peek(ps, es, "&"))]. *)
Definition back_step (c : cmd) : M nat (cmd + cmd) :=
  more ← peek (zs "&");
  if negb more then mret (inr c) else gettoken;; mret (inl (BACK c)).

Fixpoint parseline (fuel : nat) : M nat cmd :=
  match fuel with
  | O => nofuel
  | S fuel =>
      c ← parsepipe fuel;
      c ← loop fuel back_step c;
      more ← peek (zs ";");
      if negb more then mret c
      else
        gettoken;;
        r ← parseline fuel;
        mret (LIST c r)
  end
with parsepipe (fuel : nat) : M nat cmd :=
  match fuel with
  | O => nofuel
  | S fuel =>
      c ← parseexec fuel;
      more ← peek (zs "|");
      if negb more then mret c
      else
        gettoken;;
        r ← parsepipe fuel;
        mret (PIPE c r)
  end
with parseblock (fuel : nat) : M nat cmd :=
  match fuel with
  | O => nofuel
  | S fuel =>
      ok ← peek (zs "(");
      if negb ok then panic "parseblock"
      else
        gettoken;;
        c ← parseline fuel;
        ok ← peek (zs ")");
        if negb ok then panic "syntax - missing )"
        else
          gettoken;;
          parseredirs fuel c
  end
with parseexec (fuel : nat) : M nat cmd :=
  match fuel with
  | O => nofuel
  | S fuel =>
      block ← peek (zs "(");
      if negb block then
        ret ← parseredirs fuel (EXEC [] []);
        loop fuel (arg_step fuel) ([], [], ret)
      else parseblock fuel
  end.

(** [nulterminate] stores NULs into the line. *)
Fixpoint nulterminate (c : cmd) (b : list Z) : list Z :=
  match c with
  | EXEC _ eargv => foldl (λ b e, <[e := 0]> b) b eargv
  | REDIR c' _ efile _ _ => <[efile := 0]> (nulterminate c' b)
  | PIPE l r | LIST l r => nulterminate r (nulterminate l b)
  | BACK c' => nulterminate c' b
  end.

(** The tree and the line, NUL included, after [nulterminate]. *)
Definition parsecmd (fuel : nat) : M nat (cmd * list Z) :=
  c ← parseline fuel;
  peek [];;
  s ← gets id;
  if negb (s =? es)%nat then panic "syntax"
  else mret (c, nulterminate c (buf ++ [0])).

End Parse.

(** ** Running a command

    A process of the shell is the sequence of its system calls, each with
    what follows for every result; [fork] answers 0 in the child.  [exec]
    only comes back when it failed.  [Stray] is a store outside of an array,
    and [Cut] stands for the turns of an endless loop that are left out. *)
Inductive call :=
| Cexec (path : list Z) (argv : list (list Z)) | Copen (path : list Z) (mode : Z)
| Cclose (fd : Z) | Cdup (fd : Z) | Cpipe | Cfork | Cwait | Cchdir (path : list Z)
| Cread (fd : Z)                              (* one byte: the count and the byte *)
| Cprint (fd : Z) (fmt : list Z) (args : list (list Z)).

Inductive script :=
| Exit
| Stray
| Cut
| Call (c : call) (k : Z → Z → script).

Definition do (c : call) (k : script) : script := Call c (λ _ _, k).
Definition sh_panic (msg : list Z) : script := do (Cprint 2 (zs "%s" ++ [10]) [msg]) Exit.
(** [if(fork1() == 0) child; parent] where the child never returns. *)
Definition fork1 (child parent : script) : script :=
  Call Cfork (λ pid _, if pid =? -1 then sh_panic (zs "fork") else if pid =? 0 then child else parent).

(** The string at an index of the line. *)
Fixpoint cstring (l : list Z) : list Z :=
  match l with
  | [] => []
  | c :: l => if c =? 0 then [] else c :: cstring l
  end.
Definition arg_at (b : list Z) (i : nat) : list Z := cstring (drop i b).

(** The command [c] in the line [b], after [nulterminate].  The results of
    [pipe] are the two descriptors, or the first is -1. *)
Fixpoint runcmd (b : list Z) (c : cmd) : script :=
  match c with
  | EXEC argv _ =>
      match argv with
      | [] => Exit
      | a0 :: _ =>
          do (Cexec (arg_at b a0) (arg_at b <$> argv))
            (do (Cprint 2 (zs "exec %s failed" ++ [10]) [arg_at b a0]) Exit)
      end
  | REDIR c' file _ mode fd =>
      do (Cclose fd)
        (Call (Copen (arg_at b file) mode) (λ r _,
           if r <? 0 then do (Cprint 2 (zs "open %s failed" ++ [10]) [arg_at b file]) Exit else runcmd b c'))
  | LIST l r => fork1 (runcmd b l) (do Cwait (runcmd b r))
  | PIPE l r =>
      Call Cpipe (λ p0 p1,
        if p0 <? 0 then sh_panic (zs "pipe")
        else
          fork1 (do (Cclose 1) (do (Cdup p1) (do (Cclose p0) (do (Cclose p1) (runcmd b l)))))
            (fork1 (do (Cclose 0) (do (Cdup p0) (do (Cclose p0) (do (Cclose p1) (runcmd b r)))))
               (do (Cclose p0) (do (Cclose p1) (do Cwait (do Cwait Exit))))))
  | BACK c' => fork1 (runcmd b c') Exit
  end.

(** ** The prompt

    [dirname] is the string in its array of 256 bytes. *)
Definition strcat (dest src : list Z) : list Z := dest ++ src.
Definition DIRNAME : nat := 256.

(** The last index above 0 that holds a slash, else 0 (or -1 of an empty
    string, where the store is outside the array). *)
Fixpoint last_slash (i : nat) (dest : list Z) : nat :=
  match i with
  | O => O
  | S k => if nth i dest 0 =? zc "/" then i else last_slash k dest
  end.
Definition strsplitSlesh (dest : list Z) : option (list Z) :=
  match dest with
  | [] => None
  | _ => Some (take (last_slash (length dest - 1) dest) dest)
  end.

(** The prompt after a [cd] that succeeded. *)
Definition cd_prompt (dirname arg : list Z) : option (list Z) :=
  if decide (arg = zs "..") then
    d ← strsplitSlesh dirname; d ← strsplitSlesh d; Some (strcat d (zs "/>"))
  else
    d ← strsplitSlesh dirname; Some (strcat (strcat (strcat d (zs "/")) arg) (zs "/>")).

(** ** The main loop *)

Definition O_RDWR : Z := 0x002.
Definition BUFSIZE : nat := 100.

(** [gets]: at most [n] bytes, up to the end of the line. *)
Fixpoint sh_gets (n : nat) (acc : list Z) (k : list Z → script) : script :=
  match n with
  | O => k acc
  | S n =>
      Call (Cread 0) (λ cc c,
        if cc <? 1 then k acc
        else if (c =? 10) || (c =? 13) then k (acc ++ [c])
        else sh_gets n (acc ++ [c]) k)
  end.

(** The prompt is the format of [printf].  The string in [buf], which was
    cleared; [None] is -1. *)
Definition getcmd (dirname : list Z) (k : option (list Z) → script) : script :=
  do (Cprint 2 dirname [])
    (sh_gets (BUFSIZE - 1) [] (λ line,
       match cstring line with [] => k None | buf => k (Some buf) end)).

(** [cd]: the string in [buf] without its last byte. *)
Definition sh_cd (buf dirname : list Z) (k : list Z → script) : script :=
  let arg := drop 3 (take (length buf - 1) buf) in
  Call (Cchdir arg) (λ r _,
    if r <? 0 then do (Cprint 2 (zs "cannot cd %s" ++ [10]) [arg]) (k dirname)
    else
      match cd_prompt dirname arg with
      | Some d => if (length d <? DIRNAME)%nat then k d else Stray
      | None => Stray
      end).

(** [runcmd(parsecmd(buf))]; the bound is that of [parsecmd_total]. *)
Definition sh_run (buf : list Z) : script :=
  match parsecmd buf (4 * length buf + 8) 0%nat with
  | Ok (c, b) _ => runcmd b c
  | Panic msg _ => sh_panic (zs msg)
  | _ => Cut
  end.

(** [n] turns of the loop. *)
Fixpoint sh_loop (n : nat) (dirname : list Z) : script :=
  match n with
  | O => Cut
  | S n =>
      getcmd dirname (λ buf,
        match buf with
        | None => Exit
        | Some buf =>
            if decide (take 3 buf = zs "cd ") then sh_cd buf dirname (sh_loop n)
            else fork1 (sh_run buf) (do Cwait (sh_loop n dirname))
        end)
  end.

(** [while((fd = open("console", O_RDWR)) >= 0)] *)
Fixpoint open_console (n : nat) (k : script) : script :=
  match n with
  | O => Cut
  | S n =>
      Call (Copen (zs "console") O_RDWR) (λ fd _,
        if 0 <=? fd then if 3 <=? fd then do (Cclose fd) k else open_console n k else k)
  end.

(** Every [open] takes a descriptor of its own, so four turns are enough. *)
Definition sh_main (n : nat) : script := open_console 4 (sh_loop n (zs "/>")).
