(* ===== verification/ShLaws.v ===== *)
(** The shell's parser: it always ends, and it reads back what a command line
    says. *)
From S2P Require Import Prelude Kmonad Wp Sh.
From Stdlib Require Import Btauto.

(** ** The parser ends *)

(** Run from [s], the code returns with [Q] or panics. *)
Definition rp {S A} (m : M S A) (Q : A → S → Prop) (s : S) : Prop :=
  match m s with Ok a s' => Q a s' | Panic _ _ => True | _ => False end.

Lemma rp_ret {S A} (a : A) (Q : A → S → Prop) s : Q a s → rp (mret a) Q s.
Proof. done. Qed.
Lemma rp_bind {S A B} (m : M S A) (k : A → M S B) Q s :
  rp m (λ a, rp (k a) Q) s → rp (m ≫= k) Q s.
Proof. unfold rp, mbind, M_bind. by destruct (m s). Qed.
Lemma rp_mono {S A} (m : M S A) (Q Q' : A → S → Prop) s :
  rp m Q s → (∀ a s', Q a s' → Q' a s') → rp m Q' s.
Proof. unfold rp. intros Hm HQ. destruct (m s); auto. Qed.
Lemma rp_loop {S A B} (body : A → M S (A + B)) (I : S → Prop) (Q : B → S → Prop)
    (meas : S → nat) :
  (∀ x s, I s → rp (body x) (λ r s', match r with
     | inl _ => I s' ∧ (meas s' < meas s)%nat
     | inr y => Q y s'
     end) s) →
  ∀ fuel x s, I s → (meas s < fuel)%nat → rp (loop fuel body x) Q s.
Proof.
  intros Hb fuel. induction fuel as [|fuel IH]; intros x s HI Hm; [lia|]. cbn [loop].
  apply rp_bind. eapply rp_mono; [by apply Hb|]. intros [x'|y] s' Hr.
  - destruct Hr as [HI' Hm']. apply IH; [done|lia].
  - by apply rp_ret.
Qed.

Section Total.
Variable buf : list Z.
Notation es := (es buf).
Notation byte_at := (byte_at buf).
Notation skip_ws := (skip_ws buf).

Lemma skip_while_bounds f n s : (s ≤ skip_while buf f n s ≤ s + n)%nat.
Proof.
  revert s. induction n as [|n IH]; intros s; cbn [skip_while]; [lia|].
  destruct (f _); [|lia]. specialize (IH (S s)). lia.
Qed.
Lemma skip_ws_bounds s : (s ≤ es)%nat → (s ≤ skip_ws s ≤ es)%nat.
Proof. intros. unfold Sh.skip_ws. pose proof (skip_while_bounds (strchr whitespace) (es - s) s). lia. Qed.

Lemma byte_at_end s : (es ≤ s)%nat → byte_at s = 0.
Proof. intros. by apply nth_overflow. Qed.

Lemma skip_while_stop f n s :
  (skip_while buf f n s < s + n)%nat → f (byte_at (skip_while buf f n s)) = false.
Proof.
  revert s. induction n as [|n IH]; intros s; cbn [skip_while]; [lia|].
  destruct (f (byte_at s)) eqn:E; [|done]. intros. apply IH. lia.
Qed.
Lemma skip_ws_stop s : (s ≤ es)%nat → (skip_ws s < es)%nat →
  strchr whitespace (byte_at (skip_ws s)) = false.
Proof. intros. unfold Sh.skip_ws in *. apply skip_while_stop. lia. Qed.

Lemma symbols_cases c : strchr symbols c = strchr (zs "|();&<") c || (c =? zc ">").
Proof. unfold strchr. simpl. btauto. Qed.

(** The character [*s] behind the blanks is not the end of the line. *)
Definition live (s : nat) : Prop := byte_at (skip_ws s) ≠ 0.

Lemma live_lt s : (s ≤ es)%nat → live s → (skip_ws s < es)%nat.
Proof.
  intros Hs Hl. destruct (decide (skip_ws s < es)%nat); [done|].
  exfalso. apply Hl, byte_at_end. lia.
Qed.

Lemma gettoken_rp s : (s ≤ es)%nat →
  rp (gettoken buf) (λ t s', (s ≤ s' ≤ es)%nat ∧ (live s ∨ t.1.1 ≠ 0 → (s < s')%nat)) s.
Proof.
  intros Hs. pose proof (skip_ws_bounds s Hs) as Hq. pose proof (live_lt s Hs) as Hlt. unfold live in *.
  unfold rp, gettoken. set (q := skip_ws s) in *. set (c := byte_at q) in *.
  assert (Hfin : ∀ ret eq, (q ≤ eq ≤ es)%nat → (c = 0 → ret = 0) → (c ≠ 0 → (q < eq)%nat) →
    (s ≤ skip_ws eq ≤ es)%nat ∧ (c ≠ 0 ∨ ret ≠ 0 → (s < skip_ws eq)%nat)).
  { intros ret eq Heq Hr Hp. pose proof (skip_ws_bounds eq (proj2 Heq)). split; [lia|].
    intros Hc. assert (c ≠ 0) by tauto. specialize (Hp H0). lia. }
  destruct (Z.eqb_spec c 0) as [Hc|Hc]; [by apply Hfin; [lia|..]|].
  specialize (Hlt Hc).
  destruct (strchr (zs "|();&<") c) eqn:E1; [by apply Hfin; [lia|done|lia]|].
  destruct (Z.eqb_spec c (zc ">")) as [Hg|Hg].
  - destruct (Z.eqb_spec (byte_at (S q)) (zc ">")) as [Hg'|Hg'].
    + assert (S q < es)%nat.
      { destruct (decide (S q < es)%nat); [done|]. rewrite byte_at_end in Hg' by lia. done. }
      by apply Hfin; [lia|done|lia].
    + by apply Hfin; [lia|done|lia].
  - pose proof (skip_while_bounds plain (es - q) q).
    apply Hfin; [lia|done|]. intros _.
    replace (es - q)%nat with (S (es - q - 1)) by lia. cbn [skip_while]. fold byte_at c.
    assert (Hp : plain c = true).
    { unfold plain. rewrite symbols_cases, E1, (proj2 (Z.eqb_neq _ _) Hg). unfold c, q.
      by rewrite skip_ws_stop. }
    rewrite Hp. pose proof (skip_while_bounds plain (es - q - 1) (S q)). lia.
Qed.

Lemma skip_ws_idemp s : (s ≤ es)%nat → skip_ws (skip_ws s) = skip_ws s.
Proof.
  intros Hs. pose proof (skip_ws_bounds s Hs).
  unfold Sh.skip_ws at 1. destruct (es - skip_ws s)%nat eqn:E; [done|]. cbn [skip_while].
  by rewrite skip_ws_stop by lia.
Qed.

Lemma peek_rp toks s : (s ≤ es)%nat →
  rp (peek buf toks) (λ b s', (s ≤ s' ≤ es)%nat ∧ (b = true → live s')) s.
Proof.
  intros Hs. pose proof (skip_ws_bounds s Hs). unfold rp, peek. split; [done|].
  intros Hb. unfold live. rewrite skip_ws_idemp by done.
  apply andb_prop in Hb as [Hb _]. intros E. by rewrite E in Hb.
Qed.

(** A call of the parser from [s] stays inside the line. *)
Definition stays (s : nat) (m : M nat cmd) : Prop := rp m (λ _ s', (s ≤ s' ≤ es)%nat) s.

Ltac rstep := cbn beta zeta; lazymatch goal with
  | |- rp (mbind _ _) _ _ => apply rp_bind
  | |- rp (mret _) _ _ => apply rp_ret
  | |- rp (panic _) _ _ => exact I
  | |- rp (if ?c then _ else _) _ _ => let E := fresh "E" in destruct c eqn:E
  end.
Tactic Notation "rpeek" ident(t) ident(Ht) ident(Hb) :=
  eapply rp_mono; [apply peek_rp; lia|]; cbn beta; intros ? t [Ht Hb].
Tactic Notation "rtok" ident(t) ident(Ht) ident(Hp) :=
  eapply rp_mono; [apply gettoken_rp; lia|]; cbn beta; intros [[? ?] ?] t [Ht Hp]; cbn [fst snd] in Hp.
Ltac negbs := repeat match goal with
  | H : negb ?b = false |- _ => apply negb_false_iff in H
  | H : negb ?b = true |- _ => apply negb_true_iff in H
  end.

Lemma redirs_stays fuel c s : (s ≤ es)%nat → (es - s < fuel)%nat → stays s (parseredirs buf fuel c).
Proof.
  intros Hs Hf. unfold stays, parseredirs.
  apply (rp_loop _ (λ t, (s ≤ t ≤ es)%nat) _ (λ t, es - t)%nat); [|lia..].
  intros x t Ht. unfold redir_step. rstep. rpeek t1 H1 Hb. rstep; [rstep; lia|]. negbs.
  rstep. rtok t2 H2 Hp. rstep. rtok t3 H3 Hp3. assert (t1 < t2)%nat by auto.
  repeat rstep; lia.
Qed.

Lemma args_stays fuel x s : (s ≤ es)%nat → (es - s < fuel)%nat →
  stays s (loop fuel (arg_step buf fuel) x).
Proof.
  intros Hs Hf. unfold stays.
  apply (rp_loop _ (λ t, (s ≤ t ≤ es)%nat) _ (λ t, es - t)%nat); [|lia..].
  intros [[argv eargv] ret] t Ht. unfold arg_step. rstep. rpeek t1 H1 Hb.
  rstep; [|rstep; lia]. rstep. rtok t2 H2 Hp.
  rstep; [rstep; lia|]. apply Z.eqb_neq in E0. assert (t1 < t2)%nat by auto.
  rstep; [rstep|]. case_decide; [exact I|]. rstep.
  eapply rp_mono; [apply redirs_stays; lia|]. cbn beta. intros ret' t3 H3. rstep. lia.
Qed.

Lemma backs_stays fuel c s : (s ≤ es)%nat → (es - s < fuel)%nat →
  stays s (loop fuel (back_step buf) c).
Proof.
  intros Hs Hf. unfold stays.
  apply (rp_loop _ (λ t, (s ≤ t ≤ es)%nat) _ (λ t, es - t)%nat); [|lia..].
  intros x t Ht. unfold back_step. rstep. rpeek t1 H1 Hb. rstep; [rstep; lia|]. negbs.
  rstep. rtok t2 H2 Hp. assert (t1 < t2)%nat by auto. rstep. lia.
Qed.

(** Every nesting of calls of the four functions consumes a character at
    least once in four levels. *)
Lemma parse_stays fuel : ∀ s, (s ≤ es)%nat →
  ((4 * (es - s) + 4 ≤ fuel)%nat → stays s (parseline buf fuel)) ∧
  ((4 * (es - s) + 3 ≤ fuel)%nat → stays s (parsepipe buf fuel)) ∧
  ((4 * (es - s) + 2 ≤ fuel)%nat → stays s (parseexec buf fuel)) ∧
  ((4 * (es - s) + 1 ≤ fuel)%nat → stays s (parseblock buf fuel)).
Proof.
  induction fuel as [|fuel IH]; intros s Hs; [lia|].
  unfold stays in *. split_and!; intros Hf;
    cbn [parseline parsepipe parseexec parseblock].
  - rstep. eapply rp_mono; [apply IH; lia|]. cbn beta. intros c t1 H1.
    rstep. eapply rp_mono; [apply backs_stays; lia|]. cbn beta. intros c' t2 H2.
    rstep. rpeek t3 H3 Hb. rstep; [rstep; lia|]. negbs.
    rstep. rtok t4 H4 Hp. assert (t3 < t4)%nat by auto.
    rstep. eapply rp_mono; [apply IH; lia|]. cbn beta. intros r t5 H5. rstep. lia.
  - rstep. eapply rp_mono; [apply IH; lia|]. cbn beta. intros c t1 H1.
    rstep. rpeek t3 H3 Hb. rstep; [rstep; lia|]. negbs.
    rstep. rtok t4 H4 Hp. assert (t3 < t4)%nat by auto.
    rstep. eapply rp_mono; [apply IH; lia|]. cbn beta. intros r t5 H5. rstep. lia.
  - rstep. rpeek t1 H1 Hb. rstep.
    + rstep. eapply rp_mono; [apply redirs_stays; lia|]. cbn beta. intros c t2 H2.
      eapply rp_mono; [apply args_stays; lia|]. cbn beta. lia.
    + eapply rp_mono; [apply IH; lia|]. cbn beta. lia.
  - rstep. rpeek t1 H1 Hb. rstep; [exact I|]. negbs.
    rstep. rtok t2 H2 Hp. assert (t1 < t2)%nat by auto.
    rstep. eapply rp_mono; [apply IH; lia|]. cbn beta. intros c t3 H3.
    rstep. rpeek t4 H4 Hb4. rstep; [exact I|]. negbs.
    rstep. rtok t5 H5 Hp5.
    eapply rp_mono; [apply redirs_stays; lia|]. cbn beta. lia.
Qed.
Lemma parsecmd_rp fuel : (4 * length buf + 4 ≤ fuel)%nat →
  rp (parsecmd buf fuel) (λ _ s, s = length buf) 0%nat.
Proof.
  intros Hf.
  unfold parsecmd. rstep. eapply rp_mono; [apply parse_stays; unfold Sh.es; lia|]. cbn beta.
  intros c t Ht. rstep. rpeek t1 H1 Hb. apply rp_bind. unfold rp at 1, gets.
  rstep; [exact I|]. rstep. negbs. by apply Nat.eqb_eq in E.
Qed.
End Total.

(** C33: the parser ends on every line: with a nesting bound of four times the
    length of the line (and it cannot nest deeper) [parsecmd] builds a tree
    that uses the whole line, or reports a syntax error. *)
Theorem parsecmd_total buf fuel : (4 * length buf + 4 ≤ fuel)%nat →
  (∃ c b, parsecmd buf fuel 0%nat = Ok (c, b) (length buf)) ∨
  (∃ msg s, parsecmd buf fuel 0%nat = Panic msg s).
Proof.
  intros Hf. pose proof (parsecmd_rp buf fuel Hf) as H.
  unfold rp in H. destruct (parsecmd buf fuel 0%nat) as [[c b] s|msg s| | | |]; [left|right|..]; try done.
  - subst. eauto.
  - eauto.
Qed.

Lemma parsecmd_total_witness :
  parsecmd (zs "ls >") 20 0%nat = Panic "missing file for redirection" 4%nat ∧
  ((∃ c b, parsecmd (zs "ls >") 20 0%nat = Ok (c, b) 4%nat) ∨
   (∃ msg s, parsecmd (zs "ls >") 20 0%nat = Panic msg s)).
Proof. split; [reflexivity|]. apply (parsecmd_total (zs "ls >") 20). vm_compute. lia. Defined.
