(* ===== verification/ShRound.v ===== *)
(** The shell's parser reads back the commands of the shell's grammar.

    [sline] is the grammar of the parsing functions, [toks_line] writes a
    command as tokens and [renders] as text, with any blanks around the
    tokens; [sem_line] is the tree that the command stands for, with strings
    where the parser's tree has pointers. *)
From S2P Require Import Prelude Kmonad Wp Sh ShLaws.

Inductive token := TSym (c : Z) | TApp | TWord (w : list Z).

Definition word_ok (w : list Z) : Prop := w ≠ [] ∧ Forall (λ c, plain c = true ∧ c ≠ 0) w.
Definition blanks (ws : list Z) : Prop := Forall (λ c, strchr whitespace c = true) ws.

(** What a line looks like that consists of the given tokens. *)
Inductive renders : list Z → list token → Prop :=
| renders_nil ws : blanks ws → renders ws []
| renders_sym ws c rest ts : blanks ws → strchr (zs "|();&<") c = true → renders rest ts →
    renders (ws ++ c :: rest) (TSym c :: ts)
| renders_out ws rest ts : blanks ws → hd 0 rest ≠ zc ">" → renders rest ts →
    renders (ws ++ zc ">" :: rest) (TSym (zc ">") :: ts)
| renders_app ws rest ts : blanks ws → renders rest ts →
    renders (ws ++ zc ">" :: zc ">" :: rest) (TApp :: ts)
| renders_word ws w rest ts : blanks ws → word_ok w → plain (hd (zc " ") rest) = false → renders rest ts →
    renders (ws ++ w ++ rest) (TWord w :: ts).

(** ** The grammar *)

Inductive rkind := Rin | Rout | Rapp.
Definition redir : Type := rkind * list Z.

Inductive sline :=
| L1 (p : spipe) (n : nat)
| L2 (p : spipe) (n : nat) (l : sline)
with spipe :=
| P1 (e : sexec)
| P2 (e : sexec) (p : spipe)
with sexec :=
| Block (l : sline) (rs : list redir)
| Simple (rs : list redir) (args : list (list Z * list redir)).

Scheme sline_rect' := Induction for sline Sort Prop
with spipe_rect' := Induction for spipe Sort Prop
with sexec_rect' := Induction for sexec Sort Prop.
Combined Scheme syntax_ind from sline_rect', spipe_rect', sexec_rect'.

Definition toks_redir (r : redir) : list token :=
  [match r.1 with Rin => TSym (zc "<") | Rout => TSym (zc ">") | Rapp => TApp end; TWord r.2].
Definition toks_redirs (rs : list redir) : list token := concat (toks_redir <$> rs).
Definition toks_arg (x : list Z * list redir) : list token := TWord x.1 :: toks_redirs x.2.
Definition toks_args (args : list (list Z * list redir)) : list token := concat (toks_arg <$> args).

Fixpoint toks_line (l : sline) : list token :=
  match l with
  | L1 p n => toks_pipe p ++ replicate n (TSym (zc "&"))
  | L2 p n l => toks_pipe p ++ replicate n (TSym (zc "&")) ++ TSym (zc ";") :: toks_line l
  end
with toks_pipe (p : spipe) : list token :=
  match p with
  | P1 e => toks_exec e
  | P2 e p => toks_exec e ++ TSym (zc "|") :: toks_pipe p
  end
with toks_exec (e : sexec) : list token :=
  match e with
  | Block l rs => TSym (zc "(") :: toks_line l ++ TSym (zc ")") :: toks_redirs rs
  | Simple rs args => toks_redirs rs ++ toks_args args
  end.

(** A command has less than [MAXARGS] words. *)
Fixpoint line_ok (l : sline) : Prop :=
  match l with
  | L1 p _ => pipe_ok p
  | L2 p _ l => pipe_ok p ∧ line_ok l
  end
with pipe_ok (p : spipe) : Prop :=
  match p with
  | P1 e => exec_ok e
  | P2 e p => exec_ok e ∧ pipe_ok p
  end
with exec_ok (e : sexec) : Prop :=
  match e with
  | Block l rs => line_ok l
  | Simple rs args => (length args < MAXARGS)%nat
  end.

(** ** Trees with strings *)

Inductive ast :=
| AExec (argv : list (list Z))
| ARedir (a : ast) (file : list Z) (mode fd : Z)
| APipe (left right : ast)
| AList (left right : ast)
| ABack (a : ast).

Definition rmode (k : rkind) : Z := match k with Rin => 0 | _ => 0x201 end.
Definition rfd (k : rkind) : Z := match k with Rin => 0 | _ => 1 end.
Definition wrap (a : ast) (r : redir) : ast := ARedir a r.2 (rmode r.1) (rfd r.1).

Fixpoint sem_line (l : sline) : ast :=
  match l with
  | L1 p n => Nat.iter n ABack (sem_pipe p)
  | L2 p n l => AList (Nat.iter n ABack (sem_pipe p)) (sem_line l)
  end
with sem_pipe (p : spipe) : ast :=
  match p with
  | P1 e => sem_exec e
  | P2 e p => APipe (sem_exec e) (sem_pipe p)
  end
with sem_exec (e : sexec) : ast :=
  match e with
  | Block l rs => foldl wrap (sem_line l) rs
  | Simple rs args => foldl wrap (AExec (args.*1)) (rs ++ concat (args.*2))
  end.

(** The tree with its strings. *)
Fixpoint strings_of (b : list Z) (c : cmd) : ast :=
  match c with
  | EXEC argv _ => AExec (arg_at b <$> argv)
  | REDIR c file _ mode fd => ARedir (strings_of b c) (arg_at b file) mode fd
  | PIPE l r => APipe (strings_of b l) (strings_of b r)
  | LIST l r => AList (strings_of b l) (strings_of b r)
  | BACK c => ABack (strings_of b c)
  end.

Section Round.
Variable buf : list Z.

(** ** Tokens in the text *)

(** A maximal word of the line, between two pointers. *)
Definition word_at (q eq : nat) (w : list Z) : Prop :=
  ∃ rest, drop q buf = w ++ rest ∧ eq = (q + length w)%nat ∧ word_ok w ∧
    plain (hd (zc " ") rest) = false.

Lemma byte_at_drop s : byte_at buf s = hd 0 (drop s buf).
Proof.
  unfold byte_at. revert s. induction buf as [|x l IH]; intros [|s]; try done.
  simpl. apply IH.
Qed.

Lemma drop_next s u rest : drop s buf = u ++ rest → drop (s + length u) buf = rest.
Proof. intros H. rewrite <- drop_drop, H. apply drop_app_length. Qed.

Lemma drop_at n s u rest : drop s buf = u ++ rest → n = (s + length u)%nat → drop n buf = rest.
Proof. intros H ->. by apply drop_next. Qed.

Lemma skip_while_run f s u rest n :
  drop s buf = u ++ rest → Forall (λ c, f c = true) u → (length u ≤ n)%nat →
  (n = length u ∨ f (hd 0 rest) = false) → skip_while buf f n s = (s + length u)%nat.
Proof.
  revert s n. induction u as [|c u IH]; intros s n Hd Hu Hn Hr.
  - rewrite Nat.add_0_r. destruct n as [|n]; [done|]. destruct Hr as [Hr|Hr]; [done|].
    cbn [skip_while]. rewrite byte_at_drop, Hd. cbn [app]. by rewrite Hr.
  - inversion Hu as [|? ? Hc Hu']; subst. destruct n as [|n]; [simpl in Hn; lia|].
    cbn [skip_while]. rewrite byte_at_drop, Hd. cbn [app hd]. rewrite Hc.
    rewrite (IH (S s) n); [simpl; lia| |done|simpl in Hn; lia|simpl in Hr; destruct Hr; [left; lia|by right]].
    rewrite <- Nat.add_1_r. apply (drop_next s [c]). done.
Qed.

Lemma drop_length_es s u rest : drop s buf = u ++ rest → (length u ≤ es buf - s)%nat.
Proof.
  intros H. apply (f_equal length) in H. rewrite length_drop, length_app in H. unfold es. lia.
Qed.

Lemma skip_ws_run s ws rest : drop s buf = ws ++ rest → blanks ws →
  (rest = [] ∨ strchr whitespace (hd 0 rest) = false) →
  skip_ws buf s = (s + length ws)%nat ∧ drop (skip_ws buf s) buf = rest.
Proof.
  intros Hd Hw Hr.
  assert (E : skip_ws buf s = (s + length ws)%nat).
  { apply skip_while_run with rest; [done|done|by eapply drop_length_es|].
    destruct Hr as [->|Hr]; [left|by right].
    apply (f_equal length) in Hd. rewrite length_drop, app_nil_r in Hd. unfold es. lia. }
  split; [done|]. rewrite E. by apply drop_next.
Qed.

Definition head_char (ts : list token) : Z :=
  match ts with
  | [] => 0
  | TSym c :: _ => c
  | TApp :: _ => zc ">"
  | TWord w :: _ => hd 0 w
  end.

Lemma sym_not_blank c : strchr (zs "|();&<") c = true → strchr whitespace c = false.
Proof.
  unfold strchr. simpl. rewrite !orb_true_iff, !orb_false_iff, !Z.eqb_eq, !Z.eqb_neq. unfold zc. simpl. lia.
Qed.
Lemma sym_not_nul c : strchr (zs "|();&<") c = true → c ≠ 0.
Proof. by intros H ->. Qed.
Lemma word_hd w : word_ok w → ∃ c w', w = c :: w' ∧ plain c = true ∧ c ≠ 0.
Proof. intros [Hne Hf]. destruct w as [|c w]; [done|]. inversion Hf. naive_solver. Qed.
Lemma plain_split c : plain c = true → strchr whitespace c = false ∧ strchr symbols c = false.
Proof. unfold plain. rewrite andb_true_iff, !negb_true_iff. done. Qed.

Lemma renders_front text ts : renders text ts → ∃ ws rest, text = ws ++ rest ∧ blanks ws ∧
  (rest = [] ∨ strchr whitespace (hd 0 rest) = false) ∧ renders rest ts ∧ hd 0 rest = head_char ts.
Proof.
  destruct 1 as [ws Hw|ws c rest ts Hw Hc Hr|ws rest ts Hw Hn Hr|ws rest ts Hw Hr|ws w rest ts Hw Hok Hn Hr].
  - exists ws, []. rewrite app_nil_r. split_and!; auto. by repeat constructor.
  - exists ws, (c :: rest). split_and!; auto; [right; by apply sym_not_blank|].
    apply (renders_sym []); [constructor|done..].
  - exists ws, (zc ">" :: rest). split_and!; auto. apply (renders_out []); [constructor|done..].
  - exists ws, (zc ">" :: zc ">" :: rest). split_and!; auto. apply (renders_app []); [constructor|done..].
  - exists ws, (w ++ rest). split_and!; auto.
    + right. destruct (word_hd w Hok) as (c&w'&->&Hp&_). by apply plain_split.
    + apply (renders_word []); [constructor|done..].
    + destruct (word_hd w Hok) as (c&w'&->&_). done.
Qed.

Lemma renders_skip s ts : renders (drop s buf) ts →
  renders (drop (skip_ws buf s) buf) ts ∧ byte_at buf (skip_ws buf s) = head_char ts.
Proof.
  intros (ws&rest&Hd&Hw&Hr&Hren&Hh)%renders_front.
  destruct (skip_ws_run s ws rest) as [_ E]; [done..|]. rewrite byte_at_drop, E. done.
Qed.

Definition kind (t : token) : Z :=
  match t with TSym c => c | TApp => zc "+" | TWord _ => zc "a" end.

Lemma no_blank_front (ws r : list Z) :
  ws ++ r = [] ∨ strchr whitespace (hd 0 (ws ++ r)) = false → blanks ws → ws = [].
Proof. intros H Hw. destruct Hw as [|x ws Hx]; [done|]. cbn [app hd] in H.
  destruct H; [discriminate|congruence].
Qed.

Lemma gettoken_spec s t ts : renders (drop s buf) (t :: ts) →
  ∃ q eq s', gettoken buf s = Ok (kind t, q, eq) s' ∧ renders (drop s' buf) ts ∧
    (∀ w, t = TWord w → word_at q eq w).
Proof.
  intros (ws&rest&Hd&Hw&Hb&Hren&Hh)%renders_front.
  destruct (skip_ws_run s ws rest) as [_ E]; [done..|].
  unfold gettoken. set (q := skip_ws buf s) in *. rewrite byte_at_drop, E.
  clear Hd Hh. remember (t :: ts) as l eqn:El.
  destruct Hren as [|ws' c rest' ts' Hw' Hc Hr|ws' rest' ts' Hw' Hn Hr
    |ws' rest' ts' Hw' Hr|ws' w rest' ts' Hw' Hok Hn Hr]; simplify_eq El; intros; subst;
    (apply no_blank_front in Hb as ->; [|done]); cbn [app hd] in *.
  - rewrite (proj2 (Z.eqb_neq c 0)) by (by apply sym_not_nul). rewrite Hc.
    eexists _, _, _. split_and!; [done| |done]. apply renders_skip.
    by rewrite (drop_at (S q) q [c] rest') by (done || simpl; lia).
  - replace (byte_at buf (S q)) with (hd 0 rest').
    2: { by rewrite byte_at_drop, (drop_at (S q) q [zc ">"] rest') by (done || simpl; lia). }
    rewrite (proj2 (Z.eqb_neq _ _) Hn).
    eexists _, _, _. split_and!; [done| |done]. apply renders_skip.
    by rewrite (drop_at (S q) q [zc ">"] rest') by (done || simpl; lia).
  - replace (byte_at buf (S q)) with (zc ">").
    2: { by rewrite byte_at_drop, (drop_at (S q) q [zc ">"] (zc ">" :: rest')) by (done || simpl; lia). }
    eexists _, _, _. split_and!; [done| |done]. apply renders_skip.
    by rewrite (drop_at (S (S q)) q [zc ">"; zc ">"] rest') by (done || simpl; lia).
  - destruct (word_hd w Hok) as (c&w'&Ew&Hp&Hnz). replace (hd 0 (w ++ rest')) with c by (by rewrite Ew).
    rewrite (proj2 (Z.eqb_neq c 0)) by done. apply plain_split in Hp as [_ Hs].
    rewrite symbols_cases in Hs. apply orb_false_iff in Hs as [-> ->].
    rewrite (skip_while_run plain q w rest'); [|done| |by eapply drop_length_es|].
    + eexists _, _, _. split_and!; [done| |].
      * apply renders_skip. by rewrite (drop_next q w rest').
      * intros ? [= <-]. by exists rest'.
    + eapply Forall_impl; [exact (proj2 Hok)|]. naive_solver.
    + destruct rest' as [|x rest']; [left|by right].
      apply (f_equal length) in E. rewrite length_drop, app_nil_r in E. unfold es. lia.
Qed.

Lemma gettoken_end s : renders (drop s buf) [] →
  ∃ q eq s', gettoken buf s = Ok (0, q, eq) s' ∧ renders (drop s' buf) [].
Proof.
  intros [H E]%renders_skip. unfold gettoken. rewrite E.
  eexists _, _, _. split; [done|]. by apply renders_skip.
Qed.

Lemma peek_spec toks s ts : renders (drop s buf) ts →
  ∃ s', peek buf toks s = Ok (negb (head_char ts =? 0) && strchr toks (head_char ts)) s' ∧
    renders (drop s' buf) ts.
Proof. intros [H E]%renders_skip. unfold peek. rewrite E. eauto. Qed.

(** ** The parsing functions *)

(** What [peek] answers in front of the tokens [ts]. *)
Definition pk (toks : list Z) (ts : list token) : bool :=
  negb (head_char ts =? 0) && strchr toks (head_char ts).
Definition follow (toks : list Z) (ts : list token) : Prop := ts = [] ∨ pk toks ts = true.

Lemma renders_suffix text ts1 ts2 : renders text (ts1 ++ ts2) → ∃ text', renders text' ts2.
Proof.
  revert text. induction ts1 as [|t ts1 IH]; intros text Hr; [by exists text|].
  inversion Hr; eauto.
Qed.

Lemma pk_word toks text w ts : renders text (TWord w :: ts) →
  (∀ c, strchr toks c = true → strchr symbols c = true) → pk toks (TWord w :: ts) = false.
Proof.
  intros Hr Ht. assert (Hw : word_ok w) by (inversion Hr; done).
  destruct (word_hd w Hw) as (c&w'&->&Hp&Hn). unfold pk. cbn [head_char hd].
  apply plain_split in Hp as [_ Hs]. destruct (strchr toks c) eqn:E; [|by rewrite andb_false_r].
  apply Ht in E. congruence.
Qed.

(** Membership in concrete character sets. *)
Ltac chars := unfold follow, pk, strchr, symbols in *; simpl in *;
  rewrite ?andb_true_iff, ?orb_true_iff, ?andb_false_iff, ?orb_false_iff,
    ?negb_true_iff, ?negb_false_iff, ?Z.eqb_eq, ?Z.eqb_neq in *; unfold zc in *; simpl in *;
  try lia; naive_solver lia.

Lemma peek_pk toks s ts : renders (drop s buf) ts →
  ∃ s', peek buf toks s = Ok (pk toks ts) s' ∧ renders (drop s' buf) ts.
Proof. apply peek_spec. Qed.

Definition mk (c : cmd) (d : nat * nat * rkind) : cmd :=
  REDIR c d.1.1 d.1.2 (rmode d.2) (rfd d.2).
Definition points (d : nat * nat * rkind) (r : redir) : Prop :=
  word_at d.1.1 d.1.2 r.2 ∧ d.2 = r.1.

Lemma length_toks_redirs rs : length (toks_redirs rs) = (2 * length rs)%nat.
Proof.
  unfold toks_redirs. induction rs as [|r rs IH]; [done|].
  cbn [fmap list_fmap concat]. rewrite length_app. cbn [length toks_redir].
  change (list_fmap _ _ toks_redir rs) with (toks_redir <$> rs). lia.
Qed.
Lemma length_toks_args args : (length args ≤ length (toks_args args))%nat.
Proof.
  unfold toks_args. induction args as [|r rs IH]; [done|].
  cbn [fmap list_fmap concat]. rewrite length_app. cbn [length toks_arg].
  change (list_fmap _ _ toks_arg rs) with (toks_arg <$> rs). lia.
Qed.

Lemma parseredirs_spec rs : ∀ fuel c s rest,
  renders (drop s buf) (toks_redirs rs ++ rest) → pk (zs "<>") rest = false →
  (length rs < fuel)%nat →
  ∃ ds s', parseredirs buf fuel c s = Ok (foldl mk c ds) s' ∧ renders (drop s' buf) rest ∧
    Forall2 points ds rs.
Proof.
  unfold parseredirs. induction rs as [|[k w] rs IH]; intros [|fuel] c s rest Hr Hp Hf;
    try (simpl in Hf; lia).
  - destruct (peek_pk (zs "<>") s _ Hr) as (s1&E1&Hr1). cbn [toks_redirs fmap list_fmap concat app] in *.
    exists [], s1. split_and!; [|done|constructor].
    apply loop_done. unfold redir_step. erewrite bind_run by exact E1. by rewrite Hp.
  - set (t := match k with Rin => TSym (zc "<") | Rout => TSym (zc ">") | Rapp => TApp end) in *.
    change (toks_redirs ((k, w) :: rs) ++ rest) with (t :: TWord w :: (toks_redirs rs ++ rest)) in Hr.
    destruct (peek_pk (zs "<>") s _ Hr) as (s1&E1&Hr1).
    destruct (gettoken_spec s1 _ _ Hr1) as (q&e&s2&E2&Hr2&_).
    destruct (gettoken_spec s2 _ _ Hr2) as (q'&e'&s3&E3&Hr3&Hw).
    destruct (IH fuel (mk c (q', e', k)) s3 rest) as (ds&s4&E4&Hr4&Hds); [done|done|simpl in Hf; lia|].
    exists ((q', e', k) :: ds), s4. split_and!; [|done|constructor; [|done]; split; [by apply Hw|done]].
    etransitivity; [eapply loop_next|exact E4].
    unfold redir_step. erewrite bind_run by exact E1.
    replace (pk (zs "<>") (t :: _)) with true by (by destruct k).
    cbn [negb]. erewrite bind_run by exact E2. erewrite bind_run by exact E3.
    by destruct k.
Qed.

Lemma set_args_foldl argv eargv ds c :
  set_args argv eargv (foldl mk c ds) = foldl mk (set_args argv eargv c) ds.
Proof. revert c. induction ds as [|d ds IH]; intros c; [done|]. cbn [foldl]. by rewrite IH. Qed.

Lemma args_spec args : ∀ fuel fin argv eargv ret s rest,
  renders (drop s buf) (toks_args args ++ rest) → follow (zs "|)&;") rest →
  (length argv + length args < MAXARGS)%nat → (length args < fuel)%nat →
  (length (toks_args args) < fin)%nat →
  ∃ argv' eargv' ds s', loop fuel (arg_step buf fin) (argv, eargv, ret) s =
      Ok (set_args (argv ++ argv') (eargv ++ eargv') (foldl mk ret ds)) s' ∧
    renders (drop s' buf) rest ∧ Forall3 word_at argv' eargv' (args.*1) ∧
    Forall2 points ds (concat (args.*2)).
Proof.
  induction args as [|[w rs] args IH]; intros [|fuel] fin argv eargv ret s rest Hr Hfo Hn Hf Hfin;
    try (simpl in Hf; lia).
  - destruct (peek_pk (zs "|)&;") s _ Hr) as (s1&E1&Hr1).
    change (toks_args [] ++ rest) with rest in *.
    destruct Hfo as [->|Hfo].
    + destruct (gettoken_end s1 Hr1) as (q&e&s2&E2&Hr2).
      exists [], [], [], s2. rewrite !app_nil_r. split_and!; [|done|constructor..].
      apply loop_done. unfold arg_step. erewrite bind_run by exact E1. cbn [negb pk head_char Z.eqb andb].
      by erewrite bind_run by exact E2.
    + exists [], [], [], s1. rewrite !app_nil_r. split_and!; [|done|constructor..].
      apply loop_done. unfold arg_step. erewrite bind_run by exact E1. by rewrite Hfo.
  - change (toks_args ((w, rs) :: args)) with (TWord w :: (toks_redirs rs ++ toks_args args)) in *.
    cbn [app] in Hr. rewrite <- app_assoc in Hr. cbn [length] in Hfin. rewrite length_app in Hfin.
    rewrite length_toks_redirs in Hfin.
    destruct (peek_pk (zs "|)&;") s _ Hr) as (s1&E1&Hr1).
    destruct (gettoken_spec s1 _ _ Hr1) as (q&e&s2&E2&Hr2&Hw).
    assert (Hstop : pk (zs "<>") (toks_args args ++ rest) = false).
    { destruct args as [|[w' rs'] args]; [by chars|].
      destruct (renders_suffix _ _ _ Hr2) as (text&Hr3).
      eapply pk_word; [exact Hr3|]. intros c. chars. }
    destruct (parseredirs_spec rs fin ret s2 (toks_args args ++ rest)) as (ds1&s3&E3&Hr3&Hd1);
      [done|done|lia|].
    destruct (IH fuel fin (argv ++ [q]) (eargv ++ [e]) (foldl mk ret ds1) s3 rest)
      as (argv'&eargv'&ds&s4&E4&Hr4&Ha&Hd); [done|done|rewrite length_app; simpl in *; lia|simpl in Hf; lia|lia|].
    exists (q :: argv'), (e :: eargv'), (ds1 ++ ds), s4. split_and!; [|done| |].
    + etransitivity; [eapply loop_next|].
      2: { rewrite E4. by rewrite foldl_app, <- !app_assoc. }
      { unfold arg_step. erewrite bind_run by exact E1.
        rewrite (pk_word (zs "|)&;") (drop s1 buf) w) by (done || intros c; chars). cbn [negb].
        erewrite bind_run by exact E2. cbn [kind]. change (zc "a" =? 0) with false.
        change (negb (zc "a" =? zc "a")) with false. cbn beta iota zeta.
        rewrite decide_False by (rewrite length_app; simpl in *; lia).
        by erewrite bind_run by exact E3. }
    + constructor; [by apply Hw|done].
    + cbn [fmap list_fmap concat snd]. by apply Forall2_app.
Qed.

(** A tree of the parser stands for a tree with strings. *)
Inductive denotes : cmd → ast → Prop :=
| den_exec argv eargv ws : Forall3 word_at argv eargv ws → denotes (EXEC argv eargv) (AExec ws)
| den_redir c a q e w mode fd : denotes c a → word_at q e w →
    denotes (REDIR c q e mode fd) (ARedir a w mode fd)
| den_pipe l r a b : denotes l a → denotes r b → denotes (PIPE l r) (APipe a b)
| den_list l r a b : denotes l a → denotes r b → denotes (LIST l r) (AList a b)
| den_back c a : denotes c a → denotes (BACK c) (ABack a).

Lemma denotes_redirs ds rs c a : denotes c a → Forall2 points ds rs →
  denotes (foldl mk c ds) (foldl wrap a rs).
Proof.
  intros Hc Hd. revert c a Hc. induction Hd as [|[[q e] k] [k' w] ds rs [Hw Hk] Hd IH]; intros c a Hc; [done|].
  cbn [foldl]. apply IH. simpl in Hk. subst k'. by constructor.
Qed.

Lemma iter_back n c a : denotes c a → denotes (Nat.iter n BACK c) (Nat.iter n ABack a).
Proof. intros. induction n; [done|]. by constructor. Qed.

(** [peek] sees the symbol it looks for. *)
Ltac pk_yes := match goal with |- context [pk ?a ?b] => change (pk a b) with true; cbn [negb] end.

Lemma backs_spec n : ∀ fuel c s rest,
  renders (drop s buf) (replicate n (TSym (zc "&")) ++ rest) → pk (zs "&") rest = false →
  (n < fuel)%nat →
  ∃ s', loop fuel (back_step buf) c s = Ok (Nat.iter n BACK c) s' ∧ renders (drop s' buf) rest.
Proof.
  induction n as [|n IH]; intros [|fuel] c s rest Hr Hp Hf; try lia; cbn [replicate app] in Hr;
    destruct (peek_pk (zs "&") s _ Hr) as (s1&E1&Hr1).
  - exists s1. split; [|done]. apply loop_done. unfold back_step.
    erewrite bind_run by exact E1. by rewrite Hp.
  - destruct (gettoken_spec s1 _ _ Hr1) as (q&e&s2&E2&Hr2&_).
    destruct (IH fuel (BACK c) s2 rest) as (s3&E3&Hr3); [done|done|lia|].
    exists s3. split; [|done]. etransitivity; [eapply loop_next|].
    + unfold back_step. erewrite bind_run by exact E1. pk_yes.
      by erewrite bind_run by exact E2.
    + rewrite E3. f_equal. by rewrite Nat.iter_swap.
Qed.

(** The result of a parsing function in front of the tokens [ts ++ rest]. *)
Definition parses (m : M nat cmd) (ts rest : list token) (a : ast) : Prop :=
  ∀ s, renders (drop s buf) (ts ++ rest) →
  ∃ c s', m s = Ok c s' ∧ renders (drop s' buf) rest ∧ denotes c a.

Lemma parse_simple rs args fuel rest : (length args < MAXARGS)%nat →
  follow (zs "|)&;") rest → (4 * length (toks_exec (Simple rs args)) + 2 ≤ fuel)%nat →
  parses (parseexec buf fuel) (toks_exec (Simple rs args)) rest (sem_exec (Simple rs args)).
Proof.
  intros Ha Hfo Hf s Hr. destruct fuel as [|fuel]; [lia|].
  cbn [toks_exec parseexec] in *. rewrite <- app_assoc in Hr.
  rewrite length_app, length_toks_redirs in Hf. pose proof (length_toks_args args).
  assert (Hhd : pk (zs "(") (toks_redirs rs ++ toks_args args ++ rest) = false).
  { destruct rs as [|[[] w] rs]; [|done..]. destruct args as [|[w rs] args]; [by chars|].
    eapply pk_word; [exact Hr|]. intros c. chars. }
  assert (Hstop : pk (zs "<>") (toks_args args ++ rest) = false).
  { destruct args as [|[w' rs'] args]; [by chars|].
    destruct (renders_suffix _ _ _ Hr) as (text&Hr3).
    eapply pk_word; [exact Hr3|]. intros c. chars. }
  destruct (peek_pk (zs "(") s _ Hr) as (s1&E1&Hr1).
  destruct (parseredirs_spec rs fuel (EXEC [] []) s1 (toks_args args ++ rest)) as (ds&s2&E2&Hr2&Hd);
    [done|done|lia|].
  destruct (args_spec args fuel fuel [] [] (foldl mk (EXEC [] []) ds) s2 rest)
    as (argv&eargv&ds'&s3&E3&Hr3&Hw&Hd'); [done|done|done|lia|lia|].
  eexists _, s3. split_and!; [|done|].
  - erewrite bind_run by exact E1. rewrite Hhd. cbn [negb].
    erewrite bind_run by exact E2. exact E3.
  - cbn [app sem_exec]. rewrite <- foldl_app, set_args_foldl. cbn [set_args].
    apply denotes_redirs; [by constructor|]. by apply Forall2_app.
Qed.

Lemma parse_block l rs fuel rest :
  (∀ fuel rest, follow (zs ")") rest → (4 * length (toks_line l) + 4 ≤ fuel)%nat →
     parses (parseline buf fuel) (toks_line l) rest (sem_line l)) →
  follow (zs "|)&;") rest → (4 * length (toks_exec (Block l rs)) + 2 ≤ fuel)%nat →
  parses (parseexec buf fuel) (toks_exec (Block l rs)) rest (sem_exec (Block l rs)).
Proof.
  intros IHl Hfo Hf s Hr. cbn [toks_exec length] in Hf. rewrite length_app in Hf.
  cbn [length] in Hf. rewrite length_toks_redirs in Hf.
  destruct fuel as [|[|fuel]]; try lia.
  cbn [toks_exec app] in Hr. rewrite <- app_assoc in Hr. cbn [app] in Hr.
  destruct (peek_pk (zs "(") s _ Hr) as (s1&E1&Hr1).
  destruct (peek_pk (zs "(") s1 _ Hr1) as (s2&E2&Hr2).
  destruct (gettoken_spec s2 _ _ Hr2) as (q&e&s3&E3&Hr3&_).
  destruct (IHl fuel (TSym (zc ")") :: toks_redirs rs ++ rest)) with s3 as (c&s4&E4&Hr4&Hd);
    [by right|lia|done|].
  destruct (peek_pk (zs ")") s4 _ Hr4) as (s5&E5&Hr5).
  destruct (gettoken_spec s5 _ _ Hr5) as (q'&e'&s6&E6&Hr6&_).
  destruct (parseredirs_spec rs fuel c s6 rest) as (ds&s7&E7&Hr7&Hds); [done|chars|lia|].
  exists (foldl mk c ds), s7. split_and!; [|done|by apply denotes_redirs].
  cbn [parseexec]. erewrite bind_run by exact E1. pk_yes.
  cbn [parseblock]. erewrite bind_run by exact E2. pk_yes. erewrite bind_run by exact E3.
  erewrite bind_run by exact E4. erewrite bind_run by exact E5. pk_yes.
  by erewrite bind_run by exact E6.
Qed.

Lemma parse_syntax :
  (∀ l, line_ok l → ∀ fuel rest, follow (zs ")") rest →
     (4 * length (toks_line l) + 4 ≤ fuel)%nat →
     parses (parseline buf fuel) (toks_line l) rest (sem_line l)) ∧
  (∀ p, pipe_ok p → ∀ fuel rest, follow (zs ")&;") rest →
     (4 * length (toks_pipe p) + 3 ≤ fuel)%nat →
     parses (parsepipe buf fuel) (toks_pipe p) rest (sem_pipe p)) ∧
  (∀ e, exec_ok e → ∀ fuel rest, follow (zs "|)&;") rest →
     (4 * length (toks_exec e) + 2 ≤ fuel)%nat →
     parses (parseexec buf fuel) (toks_exec e) rest (sem_exec e)).
Proof.
  apply syntax_ind.
  - intros p IHp n Hok [|fuel] rest Hfo Hf s Hr; [lia|]. cbn [toks_line] in *.
    rewrite <- app_assoc in Hr. rewrite length_app, length_replicate in Hf.
    destruct (IHp Hok fuel (replicate n (TSym (zc "&")) ++ rest)) with s as (c&s1&E1&Hr1&Hd);
      [destruct n; [chars|by right]|lia|done|].
    destruct (backs_spec n fuel c s1 rest) as (s2&E2&Hr2); [done|chars|lia|].
    destruct (peek_pk (zs ";") s2 _ Hr2) as (s3&E3&Hr3).
    eexists _, s3. split_and!; [|done|by apply iter_back].
    cbn [parseline]. erewrite bind_run by exact E1. erewrite bind_run by exact E2.
    erewrite bind_run by exact E3. assert (pk (zs ";") rest = false) as -> by chars. done.
  - intros p IHp n l IHl [Hokp Hokl] [|fuel] rest Hfo Hf s Hr; [lia|]. cbn [toks_line] in *.
    rewrite <- !app_assoc in Hr. cbn [app] in Hr.
    rewrite !length_app, length_replicate in Hf. cbn [length] in Hf.
    destruct (IHp Hokp fuel (replicate n (TSym (zc "&")) ++ TSym (zc ";") :: toks_line l ++ rest))
      with s as (c&s1&E1&Hr1&Hd); [destruct n; by right|lia|done|].
    destruct (backs_spec n fuel c s1 (TSym (zc ";") :: toks_line l ++ rest)) as (s2&E2&Hr2);
      [done|done|lia|].
    destruct (peek_pk (zs ";") s2 _ Hr2) as (s3&E3&Hr3).
    destruct (gettoken_spec s3 _ _ Hr3) as (q&e&s4&E4&Hr4&_).
    destruct (IHl Hokl fuel rest) with s4 as (c'&s5&E5&Hr5&Hd'); [done|lia|done|].
    eexists _, s5. split_and!; [|done|constructor; [by apply iter_back|done]].
    cbn [parseline]. erewrite bind_run by exact E1. erewrite bind_run by exact E2.
    erewrite bind_run by exact E3. pk_yes. erewrite bind_run by exact E4.
    by erewrite bind_run by exact E5.
  - intros e IHe Hok [|fuel] rest Hfo Hf s Hr; [lia|]. cbn [toks_pipe] in *.
    destruct (IHe Hok fuel rest) with s as (c&s1&E1&Hr1&Hd); [chars|lia|done|].
    destruct (peek_pk (zs "|") s1 _ Hr1) as (s2&E2&Hr2).
    exists c, s2. split_and!; [|done|done].
    cbn [parsepipe]. erewrite bind_run by exact E1. erewrite bind_run by exact E2.
    assert (pk (zs "|") rest = false) as -> by chars. done.
  - intros e IHe p IHp [Hoke Hokp] [|fuel] rest Hfo Hf s Hr; [lia|]. cbn [toks_pipe] in *.
    rewrite <- app_assoc in Hr. cbn [app] in Hr. rewrite length_app in Hf. cbn [length] in Hf.
    destruct (IHe Hoke fuel (TSym (zc "|") :: toks_pipe p ++ rest)) with s as (c&s1&E1&Hr1&Hd);
      [by right|lia|done|].
    destruct (peek_pk (zs "|") s1 _ Hr1) as (s2&E2&Hr2).
    destruct (gettoken_spec s2 _ _ Hr2) as (q&e'&s3&E3&Hr3&_).
    destruct (IHp Hokp fuel rest) with s3 as (c'&s4&E4&Hr4&Hd'); [done|lia|done|].
    eexists _, s4. split_and!; [|done|by constructor].
    cbn [parsepipe]. erewrite bind_run by exact E1. erewrite bind_run by exact E2.
    pk_yes. erewrite bind_run by exact E3. by erewrite bind_run by exact E4.
  - intros l IHl rs Hok fuel rest Hfo Hf. apply parse_block; auto.
  - intros rs args Hok fuel rest Hfo Hf. by apply parse_simple.
Qed.

(** ** The strings after [nulterminate] *)

(** All places where a NUL is stored, in order. *)
Fixpoint ends (c : cmd) : list nat :=
  match c with
  | EXEC _ eargv => eargv
  | REDIR c _ e _ _ => ends c ++ [e]
  | PIPE l r | LIST l r => ends l ++ ends r
  | BACK c => ends c
  end.
Definition put0 (b : list Z) (e : nat) : list Z := <[e := 0]> b.

Lemma nulterminate_ends c b : nulterminate c b = foldl put0 b (ends c).
Proof.
  revert b. induction c as [argv eargv|c IH f e m fd|l IHl r IHr|l IHl r IHr|c IH]; intros b;
    cbn [nulterminate ends]; rewrite ?foldl_app, ?IH, ?IHl, ?IHr; done.
Qed.

Lemma put0s_out es b i : i ∉ es → foldl put0 b es !! i = b !! i.
Proof.
  revert b. induction es as [|e es IH]; intros b Hi; [done|]. cbn [foldl].
  rewrite IH by set_solver. unfold put0. rewrite list_lookup_insert_ne; [done|]. set_solver.
Qed.
Lemma put0s_in es b i : i ∈ es → (i < length b)%nat → foldl put0 b es !! i = Some 0.
Proof.
  revert b. induction es as [|e es IH]; intros b Hi Hl; [set_solver|]. cbn [foldl].
  destruct (decide (i ∈ es)); [apply IH; [done|]; unfold put0; by rewrite length_insert|].
  assert (i = e) as -> by set_solver. rewrite put0s_out by done.
  unfold put0. by rewrite list_lookup_insert_eq.
Qed.

(** The ends of words are not inside words. *)
Lemma word_at_inside q e w i : word_at q e w → (q ≤ i < e)%nat → plain (byte_at buf i) = true ∧ (i < length buf)%nat.
Proof.
  intros (rest&Hd&->&[_ Hw]&_) Hi. rewrite byte_at_drop.
  replace i with (q + (i - q))%nat by lia. rewrite <- drop_drop, Hd, drop_app_le by lia.
  assert (Hl : (q + length w ≤ length buf)%nat).
  { apply (f_equal length) in Hd. rewrite length_drop, length_app in Hd. lia. }
  split; [|lia]. destruct (drop (i - q) w) as [|c w'] eqn:E.
  { apply (f_equal length) in E. rewrite length_drop in E. simpl in E. lia. }
  apply (Forall_drop _ (i - q)) in Hw. rewrite E in Hw. inversion Hw. naive_solver.
Qed.
Lemma word_at_end q e w : word_at q e w →
  (e ≤ length buf)%nat ∧ (e < length buf → plain (byte_at buf e) = false)%nat.
Proof.
  intros (rest&Hd&->&[Hne _]&Hp). assert (Hl : length (drop q buf) = (length w + length rest)%nat).
  { by rewrite Hd, length_app. }
  rewrite length_drop in Hl. split.
  - destruct w; [done|]. simpl in *. lia.
  - intros He. rewrite byte_at_drop, (drop_next q w rest) by done.
    destruct rest; [simpl in *; lia|done].
Qed.

Lemma ends_words c a e : denotes c a → e ∈ ends c → ∃ q w, word_at q e w.
Proof.
  induction 1 as [argv eargv ws Hw|c a q e' w m fd _ IH Hw|l r al ar _ IHl _ IHr|l r al ar _ IHl _ IHr|c a _ IH];
    cbn [ends]; rewrite ?elem_of_app, ?list_elem_of_singleton; try naive_solver.
  intros (i&Hi)%list_elem_of_lookup_1.
  destruct (Forall3_lookup_m _ _ _ _ _ _ Hw Hi) as (q&w&_&_&Hq). eauto.
Qed.

Lemma upto0_app w l : Forall (λ c, c ≠ 0) w → cstring (w ++ 0 :: l) = w.
Proof.
  induction 1 as [|c w Hc Hw IH]; [done|]. cbn [app cstring].
  by rewrite (proj2 (Z.eqb_neq _ _) Hc), IH.
Qed.

(** In a line where every end of a word of the tree is a NUL and nothing else
    has changed, each word is a C string. *)
Lemma string_at_word es b q e w :
  (∀ e', e' ∈ es → ∃ q' w', word_at q' e' w') → e ∈ es → word_at q e w →
  b = foldl put0 (buf ++ [0]) es → arg_at b q = w.
Proof.
  intros Hes He Hw ->. destruct (word_at_end q e w Hw) as [Hle _].
  destruct (Hw) as (rest&Hd&He'&[Hne Hf]&_).
  set (b := foldl put0 (buf ++ [0]) es).
  assert (Hz : b !! e = Some 0) by (apply put0s_in; [done|]; rewrite length_app; simpl; lia).
  assert (Hin : ∀ i, (i < length w)%nat → b !! (q + i)%nat = w !! i).
  { intros i Hi. destruct (word_at_inside q e w (q + i)%nat Hw) as [Hp Hlt]; [lia|].
    unfold b. rewrite put0s_out.
    - rewrite lookup_app_l, <- lookup_drop, Hd, lookup_app_l by lia. done.
    - intros (q'&w'&Hw')%Hes. destruct (word_at_end _ _ _ Hw') as [_ Hnp].
      rewrite Hnp in Hp by done. done. }
  assert (Hb : drop q b = w ++ 0 :: drop (S e) b).
  { apply list_eq. intros i. rewrite lookup_drop. destruct (decide (i < length w)%nat).
    - by rewrite lookup_app_l, Hin by done.
    - rewrite lookup_app_r by lia. destruct (decide (i = length w)) as [->|].
      + by rewrite Nat.sub_diag, <- He', Hz.
      + destruct (i - length w)%nat as [|j] eqn:Ej; [lia|].
        rewrite lookup_cons_ne_0 by lia. rewrite lookup_drop. f_equal. lia. }
  unfold arg_at. rewrite Hb. apply upto0_app. eapply Forall_impl; [exact Hf|]. naive_solver.
Qed.

Lemma strings_of_denotes es c a : (∀ e, e ∈ es → ∃ q w, word_at q e w) →
  denotes c a → (∀ e, e ∈ ends c → e ∈ es) →
  strings_of (foldl put0 (buf ++ [0]) es) c = a.
Proof.
  intros Hes. induction 1 as [argv eargv ws Hw|c a q e' w m fd _ IH Hw|l r al ar _ IHl _ IHr
    |l r al ar _ IHl _ IHr|c a _ IH]; cbn [ends strings_of]; intros Hsub.
  - f_equal. clear -Hw Hsub Hes. induction Hw as [|q e w argv eargv ws Hw Hws IH]; [done|].
    cbn [fmap list_fmap]. f_equal; [|apply IH; set_solver].
    eapply string_at_word; [done| |done|done]. set_solver.
  - f_equal; [apply IH; set_solver|]. eapply string_at_word; [done| |done|done]. set_solver.
  - f_equal; [apply IHl|apply IHr]; set_solver.
  - f_equal; [apply IHl|apply IHr]; set_solver.
  - f_equal. apply IH. set_solver.
Qed.

Lemma renders_end s : renders (drop s buf) [] → (s ≤ length buf)%nat → skip_ws buf s = length buf.
Proof.
  intros Hr Hs. inversion Hr as [ws Hw E| | | |]; subst.
  destruct (skip_ws_run s (drop s buf) []) as [-> _]; [by rewrite app_nil_r|done|by left|].
  rewrite length_drop. lia.
Qed.

End Round.

(** C32: what is written is read: any line that spells a command of the shell's
    grammar, with any blanks between its tokens, is parsed without error, and
    the strings that the resulting tree points to, after [nulterminate], are
    those of the command, at their places. *)
Theorem parse_print buf l fuel : renders buf (toks_line l) → line_ok l →
  (4 * length (toks_line l) + 4 ≤ fuel)%nat → (4 * length buf + 4 ≤ fuel)%nat →
  ∃ c b, parsecmd buf fuel 0%nat = Ok (c, b) (length buf) ∧ strings_of b c = sem_line l.
Proof.
  intros Hr Hok Hf Hf'.
  destruct (proj1 (parse_syntax buf) l Hok fuel [] (or_introl eq_refl) Hf 0%nat) as (c&s1&E1&Hr1&Hd).
  { by rewrite app_nil_r. }
  assert (Hs1 : (s1 ≤ length buf)%nat).
  { pose proof (parse_stays buf fuel 0%nat) as [Hl _]; [unfold es; lia|].
    unfold stays, rp, es in Hl. rewrite E1 in Hl. lia. }
  exists c, (nulterminate c (buf ++ [0])). split.
  - unfold parsecmd. erewrite bind_run by exact E1. unfold peek, mbind, M_bind, gets.
    rewrite renders_end by done. unfold es. cbn [id]. by rewrite Nat.eqb_refl.
  - rewrite nulterminate_ends. apply strings_of_denotes; [|done|done].
    intros e He. eapply ends_words; eauto.
Qed.

Lemma parse_print_witness :
  ∃ c b, parsecmd (zs "a<f;(b)&") 40 0%nat = Ok (c, b) 8%nat ∧
    strings_of b c = AList (ARedir (AExec [zs "a"]) (zs "f") 0 0) (ABack (AExec [zs "b"])).
Proof.
  apply (parse_print (zs "a<f;(b)&")
    (L2 (P1 (Simple [] [(zs "a", [(Rin, zs "f")])])) 0
       (L1 (P1 (Block (L1 (P1 (Simple [] [(zs "b", [])])) 0) [])) 1)) 40); [|vm_compute; lia..].
  change (renders (zs "a<f;(b)&") [TWord (zs "a"); TSym (zc "<"); TWord (zs "f"); TSym (zc ";");
    TSym (zc "("); TWord (zs "b"); TSym (zc ")"); TSym (zc "&")]).
  apply (renders_word [] (zs "a") (zs "<f;(b)&")); [constructor|split; [done|repeat constructor; done]|done|].
  apply (renders_sym [] (zc "<") (zs "f;(b)&")); [constructor|done|].
  apply (renders_word [] (zs "f") (zs ";(b)&")); [constructor|split; [done|repeat constructor; done]|done|].
  apply (renders_sym [] (zc ";") (zs "(b)&")); [constructor|done|].
  apply (renders_sym [] (zc "(") (zs "b)&")); [constructor|done|].
  apply (renders_word [] (zs "b") (zs ")&")); [constructor|split; [done|repeat constructor; done]|done|].
  apply (renders_sym [] (zc ")") (zs "&")); [constructor|done|].
  apply (renders_sym [] (zc "&") []); [constructor|done|]. repeat constructor.
Defined.
