(* ===== verification/ShType.v ===== *)
(** The trees of the shell's parser are well formed: every pointer in them is
    to a word of the line, and [nulterminate] makes C strings of the words. *)
From S2P Require Import Prelude Kmonad Wp Sh ShLaws ShRound.

(** If the code returns, [Q] holds. *)
Definition ty {S A} (m : M S A) (Q : A → S → Prop) (s : S) : Prop :=
  match m s with Ok a s' => Q a s' | _ => True end.

Lemma ty_ret {S A} (a : A) (Q : A → S → Prop) s : Q a s → ty (mret a) Q s.
Proof. done. Qed.
Lemma ty_bind {S A B} (m : M S A) (k : A → M S B) Q s : ty m (λ a, ty (k a) Q) s → ty (m ≫= k) Q s.
Proof. unfold ty, mbind, M_bind. by destruct (m s). Qed.
Lemma ty_mono {S A} (m : M S A) (Q Q' : A → S → Prop) s : ty m Q s → (∀ a s', Q a s' → Q' a s') → ty m Q' s.
Proof. unfold ty. intros Hm HQ. destruct (m s); auto. Qed.
Lemma ty_loop {S A B} (body : A → M S (A + B)) (I : A → S → Prop) (Q : B → S → Prop) :
  (∀ x s, I x s → ty (body x) (λ r s', match r with inl x' => I x' s' | inr y => Q y s' end) s) →
  ∀ fuel x s, I x s → ty (loop fuel body x) Q s.
Proof.
  intros Hb fuel. induction fuel as [|fuel IH]; intros x s HI; [done|]. cbn [loop].
  apply ty_bind. eapply ty_mono; [by apply Hb|]. intros [x'|y] s' Hr; [by apply IH|by apply ty_ret].
Qed.

Ltac tstep := cbn beta zeta; lazymatch goal with
  | |- ty (mbind _ _) _ _ => apply ty_bind
  | |- ty (mret _) _ _ => apply ty_ret
  | |- ty (panic _) _ _ => exact I
  | |- ty nofuel _ _ => exact I
  | |- ty (if ?c then _ else _) _ _ => let E := fresh "E" in destruct c eqn:E
  end.

Ltac negbs := repeat match goal with
  | H : negb ?b = false |- _ => apply negb_false_iff in H
  | H : negb ?b = true |- _ => apply negb_true_iff in H
  end.

Section Typing.
Variable buf : list Z.
Notation es := (es buf).
Notation byte_at := (byte_at buf).
Notation skip_ws := (skip_ws buf).

(** A word of the line: not empty, without blanks and symbols, and as long
    as possible. *)
Record word (q eq : nat) : Prop := {
  wd_range : (q < eq ≤ es)%nat;
  wd_plain : ∀ i, (q ≤ i < eq)%nat → plain (byte_at i) = true;
  wd_end : (eq < es)%nat → plain (byte_at eq) = false
}.

(** Every pointer of the tree is to a word, and the arguments of a command
    fit its arrays. *)
(** The mode and the descriptor of [<] and of [>] and [>>]. *)
Definition sign_of (mode fd : Z) : Prop :=
  mode = O_RDONLY ∧ fd = 0 ∨ mode = Z.lor O_WRONLY O_CREATE ∧ fd = 1.

Fixpoint wf_cmd (c : cmd) : Prop :=
  match c with
  | EXEC argv eargv => Forall2 word argv eargv ∧ (length argv < MAXARGS)%nat
  | REDIR c' file efile mode fd => wf_cmd c' ∧ word file efile ∧ sign_of mode fd
  | PIPE l r | LIST l r => wf_cmd l ∧ wf_cmd r
  | BACK c' => wf_cmd c'
  end.

Lemma skip_while_all f n s i : (s ≤ i < skip_while buf f n s)%nat → f (byte_at i) = true.
Proof.
  revert s. induction n as [|n IH]; intros s; cbn [skip_while]; [lia|].
  destruct (f (byte_at s)) eqn:E; [|lia]. intros Hi. destruct (decide (i = s)) as [->|]; [done|]. apply (IH (S s)). lia.
Qed.

Lemma gettoken_ty s : (s ≤ es)%nat →
  ty (gettoken buf) (λ t s', (s' ≤ es)%nat ∧ (t.1.1 = zc "a" → word t.1.2 t.2)) s.
Proof.
  intros Hs. pose proof (gettoken_rp buf s Hs) as Hrp. unfold rp, ty in *.
  destruct (gettoken buf s) as [[[tok q] eq] s'| | | | |] eqn:E; try done. destruct Hrp as [Hs' _]. split; [lia|].
  cbn [fst snd]. intros ->. unfold gettoken in E. pose proof (skip_ws_bounds buf s Hs) as Hq.
  set (p := skip_ws s) in *. destruct (Z.eqb_spec (byte_at p) 0) as [Hz|Hz]; [injection E as E _ _ _; by rewrite Hz in E|].
  destruct (strchr (zs "|();&<") (byte_at p)) eqn:E1.
  { injection E as E _ _ _. by rewrite E in E1. }
  destruct (Z.eqb_spec (byte_at p) (zc ">")) as [Hg|Hg].
  { destruct (byte_at (S p) =? zc ">"); injection E as E _ _ _; [done|]. by rewrite E in Hg. }
  injection E as <- <- _. pose proof (skip_while_bounds buf plain (es - p) p) as Hb.
  assert (Hp : (p < es)%nat) by (by apply (live_lt buf s Hs)).
  assert (Hpl : plain (byte_at p) = true).
  { unfold plain. rewrite symbols_cases, E1, (proj2 (Z.eqb_neq _ _) Hg). unfold p. by rewrite skip_ws_stop. }
  split.
  - replace (es - p)%nat with (S (es - p - 1)) in * by lia. cbn [skip_while] in *. rewrite Hpl in *.
    pose proof (skip_while_bounds buf plain (es - p - 1) (S p)). lia.
  - intros i Hi. by eapply skip_while_all.
  - intros He. apply skip_while_stop. lia.
Qed.

Lemma peek_ty toks s : (s ≤ es)%nat → ty (peek buf toks) (λ _ s', (s' ≤ es)%nat) s.
Proof. intros Hs. pose proof (skip_ws_bounds buf s Hs). unfold ty, peek. lia. Qed.

(** A call of the parser from inside the line makes a well-formed tree. *)
Definition typed (m : M nat cmd) : Prop := ∀ s, (s ≤ es)%nat → ty m (λ c s', (s' ≤ es)%nat ∧ wf_cmd c) s.

Tactic Notation "tpeek" ident(t) ident(Ht) := eapply ty_mono; [apply peek_ty; done|]; cbn beta; intros ? t Ht.
Tactic Notation "ttok" ident(t) ident(Ht) ident(Hw) :=
  eapply ty_mono; [apply gettoken_ty; done|]; cbn beta; intros [[? ?] ?] t [Ht Hw]; cbn [fst snd] in Hw.

Lemma redirs_typed fuel c : wf_cmd c → typed (parseredirs buf fuel c).
Proof.
  intros Hc s Hs. apply (ty_loop _ (λ c t, (t ≤ es)%nat ∧ wf_cmd c)); [|done].
  intros x t [Ht Hx]. unfold redir_step. tstep. tpeek t1 H1. tstep; [by tstep|].
  tstep. ttok t2 H2 W2. tstep. ttok t3 H3 W3. tstep; [tstep|]. negbs. apply Z.eqb_eq in E0. specialize (W3 E0).
  repeat tstep; (split; [done|]); first [done|split; [done|]; split; [done|]; first [by left|by right]].
Qed.

Lemma set_args_wf argv eargv c : Forall2 word argv eargv → (length argv < MAXARGS)%nat → wf_cmd c → wf_cmd (set_args argv eargv c).
Proof. intros Ha Hl. induction c; cbn; naive_solver. Qed.

Lemma args_typed fuel argv eargv ret : Forall2 word argv eargv → (length argv < MAXARGS)%nat → wf_cmd ret →
  typed (loop fuel (arg_step buf fuel) (argv, eargv, ret)).
Proof.
  intros Ha Hl Hr s Hs.
  apply (ty_loop _ (λ x t, (t ≤ es)%nat ∧ Forall2 word x.1.1 x.1.2 ∧ (length x.1.1 < MAXARGS)%nat ∧ wf_cmd x.2)); [|done].
  intros [[av ev] r] t (Ht&H1&H2&H3). cbn [fst snd] in *. unfold arg_step. tstep. tpeek t1 Ht1.
  tstep; [|tstep; split; [done|by apply set_args_wf]]. tstep. ttok t2 Ht2 W2.
  tstep; [tstep; split; [done|by apply set_args_wf]|]. tstep; [tstep|]. negbs. apply Z.eqb_eq in E1.
  case_decide as Hm; [exact I|]. tstep. eapply ty_mono; [by apply redirs_typed|]. cbn beta. intros r' t3 [Ht3 Hr']. tstep.
  cbn [fst snd]. split_and!; [done|apply Forall2_app; [done|]; constructor; [by apply W2|constructor]|lia|done].
Qed.

Lemma backs_typed fuel c : wf_cmd c → typed (loop fuel (back_step buf) c).
Proof.
  intros Hc s Hs. apply (ty_loop _ (λ c t, (t ≤ es)%nat ∧ wf_cmd c)); [|done].
  intros x t [Ht Hx]. unfold back_step. tstep. tpeek t1 H1. tstep; [by tstep|]. tstep. ttok t2 H2 W2. by tstep.
Qed.

Lemma parse_typed fuel : typed (parseline buf fuel) ∧ typed (parsepipe buf fuel) ∧
  typed (parseexec buf fuel) ∧ typed (parseblock buf fuel).
Proof.
  induction fuel as [|fuel (IL&IP&IE&IB)]; [done|].
  split_and!; intros s Hs; cbn [parseline parsepipe parseexec parseblock].
  - tstep. eapply ty_mono; [by apply IP|]. intros c t1 [H1 Hc]. tstep. eapply ty_mono; [by apply backs_typed|].
    intros c' t2 [H2 Hc']. tstep. tpeek t3 H3. tstep; [by tstep|]. tstep. ttok t4 H4 W4. tstep.
    eapply ty_mono; [by apply IL|]. intros r t5 [H5 Hr]. by tstep.
  - tstep. eapply ty_mono; [by apply IE|]. intros c t1 [H1 Hc]. tstep. tpeek t3 H3. tstep; [by tstep|].
    tstep. ttok t4 H4 W4. tstep. eapply ty_mono; [by apply IP|]. intros r t5 [H5 Hr]. by tstep.
  - tstep. tpeek t1 H1. tstep; [|by apply IB]. assert (H0 : (0 < MAXARGS)%nat) by (unfold MAXARGS; lia).
    tstep. eapply ty_mono; [apply redirs_typed; [by repeat constructor|done]|].
    intros c t2 [H2 Hc]. by apply args_typed.
  - tstep. tpeek t1 H1. tstep; [tstep|]. tstep. ttok t2 H2 W2. tstep. eapply ty_mono; [by apply IL|]. intros c t3 [H3 Hc].
    tstep. tpeek t4 H4. tstep; [tstep|]. tstep. ttok t5 H5 W5. by apply redirs_typed.
Qed.

(** ** The strings *)

(** The pairs of pointers of a tree. *)
Fixpoint spans (c : cmd) : list (nat * nat) :=
  match c with
  | EXEC argv eargv => zip argv eargv
  | REDIR c' file efile _ _ => spans c' ++ [(file, efile)]
  | PIPE l r | LIST l r => spans l ++ spans r
  | BACK c' => spans c'
  end.

Lemma spans_words c q e : wf_cmd c → (q, e) ∈ spans c → word q e.
Proof.
  induction c as [argv eargv|c IH f e' m fd|l IHl r IHr|l IHl r IHr|c IH]; cbn; rewrite ?elem_of_app; [| |naive_solver..].
  - intros [Hw _] (i&Hi)%list_elem_of_lookup_1. apply lookup_zip_Some in Hi as [Ha He]. cbn in Ha, He.
    by eapply Forall2_lookup_lr.
  - intros (Hc&Hw&_) [Hin|Hin]; [by apply IH|]. apply list_elem_of_singleton in Hin. by injection Hin as -> ->.
Qed.
Lemma ends_spans c : wf_cmd c → ends c = (spans c).*2.
Proof.
  induction c as [argv eargv|c IH f e m fd|l IHl r IHr|l IHl r IHr|c IH]; cbn; rewrite ?fmap_app; [|naive_solver congruence..].
  intros [Hw _]. rewrite snd_zip; [done|]. apply Forall2_length in Hw. lia.
Qed.

(** The text of a word. *)
Definition text (q e : nat) : list Z := take (e - q) (drop q buf).

Lemma word_word_at q e : 0 ∉ buf → word q e → word_at buf q e (text q e).
Proof.
  intros Hz [Hr Hp He]. unfold Sh.es in *. exists (drop e buf). unfold text. split_and!.
  - rewrite <- (take_drop (e - q) (drop q buf)) at 1. rewrite drop_drop. do 2 f_equal. lia.
  - rewrite length_take, length_drop. lia.
  - split.
    + intros Hn. apply (f_equal length) in Hn. rewrite length_take, length_drop in Hn. cbn in Hn. lia.
    + apply Forall_forall. intros c (i&Hi)%list_elem_of_lookup_1. apply lookup_take_Some in Hi as [Hi Hlt].
      rewrite lookup_drop in Hi. specialize (Hp (q + i)%nat ltac:(lia)). unfold Sh.byte_at in Hp.
      rewrite (nth_lookup_Some _ _ _ _ Hi) in Hp. split; [done|]. intros ->. apply Hz. by eapply list_elem_of_lookup_2.
  - destruct (decide (e < length buf)%nat) as [Hlt|Hge].
    + specialize (He Hlt). rewrite byte_at_drop in He. destruct (drop e buf) eqn:Ed; [|done].
      apply (f_equal length) in Ed. rewrite length_drop in Ed. cbn in Ed. lia.
    + by rewrite drop_ge by lia.
Qed.

Lemma length_put0s l : ∀ b, length (foldl put0 b l) = length b.
Proof. induction l as [|e l IH]; intros b; [done|]. cbn [foldl]. rewrite IH. apply length_insert. Qed.
End Typing.

(** C34: the tree of an accepted line is well formed: every argument and file
    pointer is to a word of the line (not empty, without blanks or symbols, as
    long as possible), with its end pointer behind it; redirections have the
    mode and the descriptor of their sign; no command has more
    arguments than its arrays hold; and when [nulterminate] has stored its
    NULs, all inside the line, the C string at each pointer is that word. *)
Theorem parsecmd_typed buf fuel c b s : 0 ∉ buf → parsecmd buf fuel 0%nat = Ok (c, b) s →
  wf_cmd buf c ∧ length b = S (length buf) ∧
  ∀ q e, (q, e) ∈ spans c → arg_at b q = text buf q e.
Proof.
  intros Hz E. pose proof (proj1 (parse_typed buf fuel) 0%nat ltac:(lia)) as Ht. unfold ty in Ht.
  unfold parsecmd, mbind, M_bind in E. destruct (parseline buf fuel 0%nat) as [c' s1| | | | |]; try discriminate E.
  destruct Ht as [_ Hwf]. unfold peek, gets in E. destruct (negb _); [discriminate E|]. injection E as <- <- _.
  rewrite nulterminate_ends, (ends_spans buf) by done. split; [done|]. split; [rewrite length_put0s, length_app; cbn; lia|].
  intros q e Hin. eapply (string_at_word buf ((spans c').*2)); [| | |reflexivity].
  - intros e' He'. apply list_elem_of_fmap in He' as ([q' e'']&->&Hin'). exists q'. eexists.
    apply word_word_at; [done|]. by eapply spans_words.
  - apply list_elem_of_fmap. by exists (q, e).
  - apply word_word_at; [done|]. by eapply spans_words.
Qed.

Lemma parsecmd_typed_witness :
  let c := REDIR (EXEC [0; 4]%nat [3; 5]%nat) 6 7 0x201 1 in let b := zs "cat" ++ [0] ++ zs "f" ++ [0] ++ zs "g" ++ [0] in
  parsecmd (zs "cat f>g") 40 0%nat = Ok (c, b) 7%nat ∧ wf_cmd (zs "cat f>g") c ∧ arg_at b 4 = zs "f".
Proof.
  intros c b. assert (E : parsecmd (zs "cat f>g") 40 0%nat = Ok (c, b) 7%nat) by (vm_compute; reflexivity).
  assert (Hz : 0 ∉ zs "cat f>g") by (apply (bool_decide_eq_true_1 _); vm_compute; reflexivity).
  split; [exact E|]. destruct (parsecmd_typed (zs "cat f>g") 40 c b 7 Hz E) as (H1&_&H2).
  split; [exact H1|]. rewrite (H2 4%nat 5%nat); [reflexivity|]. right. left.
Defined.
