(* ===== verification/ShRun.v ===== *)
(** What the shell runs: the programs that a command starts, with their file
    descriptors, against the meaning of the command's syntax tree. *)
From S2P Require Import Prelude Kmonad Sh ShLaws ShRound ShType.

(** ** Descriptors *)

(** What a descriptor refers to: something the shell was given, a file opened
    by a redirection, or an end of a pipe. *)
Inductive obj :=
| Given (n : nat)
| Opened (path : list Z) (mode : Z)
| ReadEnd (pipe : list bool)
| WriteEnd (pipe : list bool).
Notation fds := (gmap Z obj).

(** The lowest free descriptor from [i] on. *)
Definition lowest (t : fds) (fd : Z) : Prop := 0 ≤ fd ∧ t !! fd = None ∧ ∀ i, 0 ≤ i < fd → is_Some (t !! i).

(** ** Processes

    A process is what its calls of [read] answer from here on (a byte, or no
    byte: the end of the input or an error), what it has still to do, its
    descriptors, and its place in the tree of processes, which names the pipe
    it makes. *)
Record process := Process { pr_in : list (option Z); pr_script : script; pr_fds : fds; pr_id : list bool }.

(** One system call.  [open], [pipe], [fork] and [exec] may fail; [fork] goes
    on as the child or as the parent. *)
Inductive sys_step : process → process → Prop :=
| step_open i p m k t id fd : lowest t fd →
    sys_step (Process i (Call (Copen p m) k) t id) (Process i (k fd 0) (<[fd := Opened p m]> t) id)
| step_open_fail i p m k t id r : r < 0 → sys_step (Process i (Call (Copen p m) k) t id) (Process i (k r 0) t id)
| step_close i fd k t id r : sys_step (Process i (Call (Cclose fd) k) t id) (Process i (k r 0) (delete fd t) id)
| step_dup i fd k t id o n : t !! fd = Some o → lowest t n →
    sys_step (Process i (Call (Cdup fd) k) t id) (Process i (k n 0) (<[n := o]> t) id)
| step_dup_fail i fd k t id r : t !! fd = None → r < 0 → sys_step (Process i (Call (Cdup fd) k) t id) (Process i (k r 0) t id)
| step_pipe i k t id p0 p1 : lowest t p0 → lowest (<[p0 := ReadEnd id]> t) p1 →
    sys_step (Process i (Call Cpipe k) t id) (Process i (k p0 p1) (<[p1 := WriteEnd id]> (<[p0 := ReadEnd id]> t)) id)
| step_pipe_fail i k t id r : r < 0 → sys_step (Process i (Call Cpipe k) t id) (Process i (k r 0) t id)
| step_child i k t id : sys_step (Process i (Call Cfork k) t id) (Process i (k 0 0) t (false :: id))
| step_parent i k t id pid : 0 < pid → sys_step (Process i (Call Cfork k) t id) (Process i (k pid 0) t (true :: id))
| step_fork_fail i k t id : sys_step (Process i (Call Cfork k) t id) (Process i (k (-1) 0) t id)
| step_exec_fail i p a k t id r : sys_step (Process i (Call (Cexec p a) k) t id) (Process i (k r 0) t id)
| step_wait i k t id r : sys_step (Process i (Call Cwait k) t id) (Process i (k r 0) t id)
| step_chdir i p k t id r : sys_step (Process i (Call (Cchdir p) k) t id) (Process i (k r 0) t id)
| step_read i fd k t id c : sys_step (Process (Some c :: i) (Call (Cread fd) k) t id) (Process i (k 1 c) t id)
| step_read_end i fd k t id r c : r < 1 → sys_step (Process (None :: i) (Call (Cread fd) k) t id) (Process i (k r c) t id)
| step_print i fd f a k t id r : sys_step (Process i (Call (Cprint fd f a) k) t id) (Process i (k r 0) t id).

(** The program, its arguments and its descriptors, when a process has come
    to [exec]. *)
Notation event := (list Z * list (list Z) * fds)%type.

Definition starts (p : process) (e : event) : Prop :=
  ∃ i k id, rtc sys_step p (Process i (Call (Cexec e.1.1 e.1.2) k) e.2 id).

(** The descriptors with which a process waits for its children. *)
Definition waits (p : process) (t : fds) : Prop := ∃ i k id, rtc sys_step p (Process i (Call Cwait k) t id).

(** ** The meaning of a command

    The programs of the command when it is run with the descriptors [t]. *)
Fixpoint programs (a : ast) (t : fds) (id : list bool) : list event :=
  match a with
  | AExec [] => []
  | AExec (w :: ws) => [(w, w :: ws, t)]
  | ARedir a file mode fd => programs a (<[fd := Opened file mode]> t) id
  | APipe l r =>
      programs l (<[1 := WriteEnd id]> t) (false :: id) ++ programs r (<[0 := ReadEnd id]> t) (false :: true :: id)
  | AList l r => programs l t (false :: id) ++ programs r t (true :: id)
  | ABack a => programs a t (false :: id)
  end.

(** Standard input, output and error are open. *)
Definition std (t : fds) : Prop := ∀ i, 0 ≤ i < 3 → is_Some (t !! i).

(** Redirections are of descriptor 0 or 1. *)
Fixpoint ast_ok (a : ast) : Prop :=
  match a with
  | AExec _ => True
  | ARedir a _ _ fd => ast_ok a ∧ (fd = 0 ∨ fd = 1)
  | APipe l r | AList l r => ast_ok l ∧ ast_ok r
  | ABack a => ast_ok a
  end.

(** ** All runs of a process *)

(** Whatever the calls answer, the programs started satisfy [E], and the
    descriptors held while waiting satisfy [W]. *)
Section Always.
Context (E : event → Prop) (W : fds → Prop).

Fixpoint always (i : list (option Z)) (s : script) (t : fds) (id : list bool) {struct s} : Prop :=
  match s with
  | Call c k =>
      match c with
      | Copen p m => (∀ fd, lowest t fd → always i (k fd 0) (<[fd := Opened p m]> t) id) ∧ ∀ r, r < 0 → always i (k r 0) t id
      | Cclose fd => ∀ r, always i (k r 0) (delete fd t) id
      | Cdup fd =>
          match t !! fd with
          | Some o => ∀ n, lowest t n → always i (k n 0) (<[n := o]> t) id
          | None => ∀ r, r < 0 → always i (k r 0) t id
          end
      | Cpipe => (∀ p0 p1, lowest t p0 → lowest (<[p0 := ReadEnd id]> t) p1 →
                   always i (k p0 p1) (<[p1 := WriteEnd id]> (<[p0 := ReadEnd id]> t)) id) ∧
                 ∀ r, r < 0 → always i (k r 0) t id
      | Cfork => always i (k 0 0) t (false :: id) ∧ (∀ pid, 0 < pid → always i (k pid 0) t (true :: id)) ∧ always i (k (-1) 0) t id
      | Cexec p a => E (p, a, t) ∧ ∀ r, always i (k r 0) t id
      | Cwait => W t ∧ ∀ r, always i (k r 0) t id
      | Cread _ =>
          match i with
          | Some c :: i => always i (k 1 c) t id
          | None :: i => ∀ r c, r < 1 → always i (k r c) t id
          | [] => True
          end
      | Cchdir _ | Cprint _ _ _ => ∀ r, always i (k r 0) t id
      end
  | _ => True
  end.

Definition always_proc (p : process) : Prop := always (pr_in p) (pr_script p) (pr_fds p) (pr_id p).

Lemma always_step p q : sys_step p q → always_proc p → always_proc q.
Proof.
  intros []; unfold always_proc; cbn; try naive_solver.
  - rewrite H. auto.
  - rewrite H. auto.
Qed.
Lemma always_rtc p q : rtc sys_step p q → always_proc p → always_proc q.
Proof. induction 1; eauto using always_step. Qed.
End Always.

Lemma always_starts E W i s t id e : always E W i s t id → starts (Process i s t id) e → E e.
Proof. intros Ha (i'&k&id'&Hr). apply (always_rtc E W) in Hr; [|done]. destruct e as [[p a] t']. apply Hr. Qed.
Lemma always_waits E W i s t id t' : always E W i s t id → waits (Process i s t id) t' → W t'.
Proof. intros Ha (i'&k&id'&Hr). apply (always_rtc E W) in Hr; [|done]. apply Hr. Qed.

Lemma starts_step p q e : sys_step p q → starts q e → starts p e.
Proof. intros Hs (i&k&id&Hr). exists i, k, id. by eapply rtc_l. Qed.
Lemma starts_now i p a k t id : starts (Process i (Call (Cexec p a) k) t id) (p, a, t).
Proof. exists i, k, id. done. Qed.

(** ** Descriptors of the standard streams *)

Lemma lowest_unique t x y : lowest t x → lowest t y → x = y.
Proof.
  intros (Hx&Nx&Lx) (Hy&Ny&Ly). destruct (Z.lt_trichotomy x y) as [H|[H|H]]; [|done|].
  - destruct (Ly x ltac:(lia)) as [o Ho]. congruence.
  - destruct (Lx y ltac:(lia)) as [o Ho]. congruence.
Qed.
Lemma std_lowest t fd : std t → lowest t fd → 3 ≤ fd.
Proof.
  intros Hs (H0&Hn&_). destruct (decide (fd < 3)) as [Hlt|]; [|lia]. destruct (Hs fd ltac:(lia)) as [o Ho]. congruence.
Qed.
(** A standard descriptor that was closed is the next to be opened. *)
Lemma closed_lowest t fd : std t → fd = 0 ∨ fd = 1 → lowest (delete fd t) fd.
Proof.
  intros Hs Hf. split; [lia|]. split; [apply lookup_delete_eq|]. intros i Hi. rewrite lookup_delete_ne by lia. apply Hs. lia.
Qed.
Lemma std_insert t fd o : std t → std (<[fd := o]> t).
Proof. intros Hs i Hi. destruct (decide (i = fd)) as [->|]; [by rewrite lookup_insert_eq|]. rewrite lookup_insert_ne by done. by apply Hs. Qed.
Lemma std_dom t fd o : std t → fd = 0 ∨ fd = 1 → dom (<[fd := o]> t) = dom t.
Proof. intros Hs Hf. rewrite dom_insert_L. assert (fd ∈ dom t) by (apply elem_of_dom, Hs; lia). set_solver. Qed.

Lemma lowest_exists (t : fds) : ∃ fd, lowest t fd.
Proof.
  assert (H : ∀ n : nat, (∃ fd, lowest t fd) ∨ ∀ i, 0 ≤ i < Z.of_nat n → is_Some (t !! i)).
  { induction n as [|n [IH|IH]]; [right; lia|by left|]. destruct (t !! Z.of_nat n) as [o|] eqn:En.
    - right. intros i Hi. destruct (decide (i = Z.of_nat n)) as [->|]; [by rewrite En|]. apply IH. lia.
    - left. exists (Z.of_nat n). split; [lia|]. split; [done|]. intros i Hi. apply IH. lia. }
  destruct (H (S (size t))) as [Hl|Hall]; [done|]. exfalso.
  assert (Hsub : list_to_set (Z.of_nat <$> seq 0 (S (size t))) ⊆@{gset Z} dom t).
  { intros i Hi. apply elem_of_list_to_set, list_elem_of_fmap in Hi as (j&->&Hj%elem_of_seq). apply elem_of_dom, Hall. lia. }
  apply subseteq_size in Hsub. rewrite size_dom, size_list_to_set in Hsub by (apply NoDup_fmap; [intros ??; lia|apply NoDup_seq]).
  rewrite length_fmap, length_seq in Hsub. lia.
Qed.

(** The ends of a pipe, put on a standard descriptor. *)
Lemma plumb (t : fds) p0 p1 fd r w o : fd ≠ p0 → fd ≠ p1 → t !! p0 = None → t !! p1 = None →
  delete p1 (delete p0 (<[fd := o]> (delete fd (<[p1 := w]> (<[p0 := r]> t))))) = <[fd := o]> t.
Proof.
  intros H0 H1 T0 T1. apply map_eq. intros i. rewrite !lookup_delete, !lookup_insert, !lookup_delete, !lookup_insert.
  repeat case_decide; subst; congruence.
Qed.
Lemma unplumb (t : fds) p0 p1 (r w : obj) : t !! p0 = None → t !! p1 = None →
  delete p1 (delete p0 (<[p1 := w]> (<[p0 := r]> t))) = t.
Proof.
  intros T0 T1. apply map_eq. intros i. rewrite !lookup_delete, !lookup_insert. repeat case_decide; subst; congruence.
Qed.

(** ** Commands *)

Lemma panic_always E W i msg t id : always E W i (sh_panic msg) t id.
Proof. by intros ?. Qed.
#[local] Hint Resolve panic_always : core.

Lemma fork1_always E W i child parent t id : always E W i child t (false :: id) → always E W i parent t (true :: id) →
  always E W i (fork1 child parent) t id.
Proof.
  intros Hc Hp. cbn. split_and!; [done| |done]. intros pid Hpid. rewrite (proj2 (Z.eqb_neq pid (-1))), (proj2 (Z.eqb_neq pid 0)) by lia.
  done.
Qed.

(** The two ends of a new pipe. *)
Record piped (t : fds) (id : list bool) (p0 p1 : Z) (t' : fds) : Prop := {
  pi_std : std t;
  pi_low : 3 ≤ p0 ∧ 3 ≤ p1;
  pi_new : t !! p0 = None ∧ t !! p1 = None ∧ p0 ≠ p1;
  pi_fds : t' = <[p1 := WriteEnd id]> (<[p0 := ReadEnd id]> t)
}.

Lemma pipe_piped t id p0 p1 : std t → lowest t p0 → lowest (<[p0 := ReadEnd id]> t) p1 →
  piped t id p0 p1 (<[p1 := WriteEnd id]> (<[p0 := ReadEnd id]> t)).
Proof.
  intros Hs H0 H1. pose proof (std_lowest _ _ Hs H0). pose proof (std_lowest _ _ (std_insert t p0 (ReadEnd id) Hs) H1).
  destruct H0 as (_&N0&_), H1 as (_&N1&_). apply lookup_insert_None in N1 as [N1 Hne]. by split.
Qed.

(** A child of a pipeline: its end of the pipe becomes descriptor [fd]. *)
Definition take_end (fd pe p0 p1 : Z) (s : script) : script :=
  do (Cclose fd) (do (Cdup pe) (do (Cclose p0) (do (Cclose p1) s))).

Lemma end_fds t id p0 p1 t' fd pe o : piped t id p0 p1 t' → fd = 0 ∨ fd = 1 → t' !! pe = Some o → pe = p0 ∨ pe = p1 →
  delete fd t' !! pe = Some o ∧ lowest (delete fd t') fd ∧
  delete p1 (delete p0 (<[fd := o]> (delete fd t'))) = <[fd := o]> t.
Proof.
  intros [Hs [H0 H1] (N0&N1&Hne) ->] Hfd Ho Hpe. split_and!.
  - rewrite lookup_delete_ne by lia. done.
  - apply closed_lowest; [by do 2 apply std_insert|done].
  - apply plumb; [lia|lia|done..].
Qed.

Lemma end_always E W i t id p0 p1 t' fd pe o s id' : piped t id p0 p1 t' → fd = 0 ∨ fd = 1 → t' !! pe = Some o →
  pe = p0 ∨ pe = p1 → always E W i s (<[fd := o]> t) id' → always E W i (take_end fd pe p0 p1 s) t' id'.
Proof.
  intros Hp Hfd Ho Hpe HA. destruct (end_fds _ _ _ _ _ _ _ _ Hp Hfd Ho Hpe) as (E1&E2&E3). cbn. intros _. rewrite E1.
  intros n Hn. rewrite (lowest_unique _ _ _ Hn E2). intros _ _. by rewrite E3.
Qed.

Lemma end_starts i t id p0 p1 t' fd pe o s id' e : piped t id p0 p1 t' → fd = 0 ∨ fd = 1 → t' !! pe = Some o →
  pe = p0 ∨ pe = p1 → starts (Process i s (<[fd := o]> t) id') e → starts (Process i (take_end fd pe p0 p1 s) t' id') e.
Proof.
  intros Hp Hfd Ho Hpe HA. destruct (end_fds _ _ _ _ _ _ _ _ Hp Hfd Ho Hpe) as (E1&E2&E3). rewrite <- E3 in HA.
  eapply starts_step; [apply (step_close _ _ _ _ _ 0)|]. eapply starts_step; [by eapply step_dup|].
  eapply starts_step; [apply (step_close _ _ _ _ _ 0)|]. by eapply starts_step; [apply (step_close _ _ _ _ _ 0)|].
Qed.

(** Every run of a command starts only programs of its meaning, and waits
    with no more descriptors than it was given. *)
Lemma runcmd_always E (W : fds → Prop) i b c : ∀ t id, std t → ast_ok (strings_of b c) →
  (∀ e, e ∈ programs (strings_of b c) t id → E e) → (∀ t', dom t' = dom t → W t') → always E W i (runcmd b c) t id.
Proof.
  induction c as [argv eargv|c IH file efile mode fd|l IHl r IHr|l IHl r IHr|c IH]; intros t id Hs Hok HE HW; cbn [runcmd strings_of programs ast_ok] in *.
  - destruct argv as [|a0 argv]; [done|]. cbn. split; [|done]. apply HE. cbn. left.
  - destruct Hok as [Hok Hfd]. cbn. intros _. split; [|intros r Hr; by rewrite (proj2 (Z.ltb_lt _ _)) by lia].
    intros fd' Hf. rewrite (lowest_unique _ _ _ Hf (closed_lowest t fd Hs Hfd)), insert_delete_eq.
    rewrite (proj2 (Z.ltb_ge _ _)) by lia. apply IH; [by apply std_insert|done|done|]. intros t' Ht'. apply HW. rewrite Ht'. by apply std_dom.
  - destruct Hok as [Hl Hr]. cbn [always]. split; [|intros r0 Hr0; by rewrite (proj2 (Z.ltb_lt _ _)) by lia].
    intros p0 p1 H0 H1. pose proof (pipe_piped t id p0 p1 Hs H0 H1) as Hp. pose proof Hp as [_ [L0 L1] (N0&N1&Hne) _].
    rewrite (proj2 (Z.ltb_ge _ _)) by lia. apply fork1_always; [|apply fork1_always].
    + apply (end_always _ _ _ _ _ _ _ _ 1 p1 (WriteEnd id) _ _ Hp); [by right|apply lookup_insert_eq|by right|].
      apply IHl; [by apply std_insert|done|intros e He; apply HE, elem_of_app; by left|].
      intros t' Ht'. apply HW. rewrite Ht'. apply std_dom; [done|by right].
    + apply (end_always _ _ _ _ _ _ _ _ 0 p0 (ReadEnd id) _ _ Hp); [by left|by rewrite lookup_insert_ne, lookup_insert_eq by done|by left|].
      apply IHr; [by apply std_insert|done|intros e He; apply HE, elem_of_app; by right|].
      intros t' Ht'. apply HW. rewrite Ht'. apply std_dom; [done|by left].
    + cbn. intros _ _. rewrite unplumb by done. split; [by apply HW|]. intros _. split; [by apply HW|done].
  - destruct Hok as [Hl Hr]. apply fork1_always.
    + apply IHl; try done. intros e He. apply HE, elem_of_app. by left.
    + cbn. split; [by apply HW|]. intros _. apply IHr; try done. intros e He. apply HE, elem_of_app. by right.
  - apply fork1_always; [|done]. by apply IH.
Qed.

(** All programs of the meaning of a command can be started. *)
Lemma runcmd_starts i b c : ∀ t id e, std t → ast_ok (strings_of b c) → e ∈ programs (strings_of b c) t id →
  starts (Process i (runcmd b c) t id) e.
Proof.
  induction c as [argv eargv|c IH file efile mode fd|l IHl r IHr|l IHl r IHr|c IH]; intros t id e Hs Hok He; cbn [runcmd strings_of programs ast_ok] in *.
  - destruct argv as [|a0 argv]; [by apply elem_of_nil in He|]. apply list_elem_of_singleton in He as ->. apply starts_now.
  - destruct Hok as [Hok Hfd]. eapply starts_step; [apply (step_close _ _ _ _ _ 0)|].
    eapply starts_step; [apply step_open, closed_lowest; done|]. rewrite (proj2 (Z.ltb_ge _ _)) by lia. rewrite insert_delete_eq.
    apply IH; [by apply std_insert|done..].
  - destruct Hok as [Hl Hr]. destruct (lowest_exists t) as [p0 H0]. destruct (lowest_exists (<[p0 := ReadEnd id]> t)) as [p1 H1].
    pose proof (pipe_piped t id p0 p1 Hs H0 H1) as Hp. pose proof Hp as [_ [L0 L1] (N0&N1&Hne) _].
    eapply starts_step; [by apply step_pipe|]. rewrite (proj2 (Z.ltb_ge _ _)) by lia. apply elem_of_app in He as [He|He].
    + eapply starts_step; [apply step_child|]. apply (end_starts _ _ _ _ _ _ 1 p1 (WriteEnd id) _ _ _ Hp); [by right|apply lookup_insert_eq|by right|].
      apply IHl; [by apply std_insert|done..].
    + eapply starts_step; [by apply (step_parent _ _ _ _ 1)|]. eapply starts_step; [apply step_child|].
      apply (end_starts _ _ _ _ _ _ 0 p0 (ReadEnd id) _ _ _ Hp); [by left|by rewrite lookup_insert_ne, lookup_insert_eq by done|by left|].
      apply IHr; [by apply std_insert|done..].
  - destruct Hok as [Hl Hr]. apply elem_of_app in He as [He|He].
    + eapply starts_step; [apply step_child|]. by apply IHl.
    + eapply starts_step; [by apply (step_parent _ _ _ _ 1)|]. eapply starts_step; [apply (step_wait _ _ _ _ 0)|]. by apply IHr.
  - eapply starts_step; [apply step_child|]. by apply IH.
Qed.

Lemma wf_ast_ok buf b c : wf_cmd buf c → ast_ok (strings_of b c).
Proof.
  induction c; cbn; try tauto. intros (Hc&_&[[_ ->]|[_ ->]]); auto.
Qed.
Lemma parsed_ok buf fuel c b s : parsecmd buf fuel 0%nat = Ok (c, b) s → ast_ok (strings_of b c).
Proof.
  intros E. pose proof (proj1 (parse_typed buf fuel) 0%nat ltac:(lia)) as Ht. unfold ty in Ht.
  unfold parsecmd, mbind, M_bind in E. destruct (parseline buf fuel 0%nat) as [c' s1| | | | |]; try discriminate E.
  destruct Ht as [_ Hwf]. unfold peek, gets in E. destruct (negb _); [discriminate E|]. injection E as <- <- _.
  by eapply wf_ast_ok.
Qed.

(** ** The main loop *)

(** The programs of a line that [parsecmd] accepts. *)
Definition line_programs (line : list Z) (t : fds) (id : list bool) (e : event) : Prop :=
  ∃ c b s, parsecmd line (4 * length line + 8) 0%nat = Ok (c, b) s ∧ e ∈ programs (strings_of b c) t id.

Lemma sh_run_always E W i line t id : std t → (∀ e, line_programs line t id e → E e) → (∀ t', dom t' = dom t → W t') →
  always E W i (sh_run line) t id.
Proof.
  intros Hs HE HW. unfold sh_run. destruct (parsecmd line _ 0%nat) as [[c b] s| | | | |] eqn:Ep; try done.
  apply runcmd_always; [done|by eapply parsed_ok| |done]. intros e He. apply HE. by exists c, b, s.
Qed.

(** ** The lines

    The line that [gets] makes of what the calls of [read] answer, for an
    array of [n + 1] bytes, and the answers left: the bytes up to a newline or
    carriage return and with it, at most [n], and at most those before a call
    that delivers no byte.  No line: the answers end before it does. *)
Fixpoint next_line (n : nat) (i : list (option Z)) : option (list Z * list (option Z)) :=
  match n with
  | O => Some ([], i)
  | S n =>
      match i with
      | [] => None
      | None :: i => Some ([], i)
      | Some c :: i =>
          if (c =? 10) || (c =? 13) then Some ([c], i)
          else '(l, i) ← next_line n i; Some (c :: l, i)
      end
  end.

(** The first [n] lines, up to one that is empty. *)
Fixpoint input_lines (n : nat) (i : list (option Z)) : list (list Z) :=
  match n with
  | O => []
  | S n =>
      match next_line (BUFSIZE - 1) i with
      | None => []
      | Some (l, i) => match cstring l with [] => [] | buf => buf :: input_lines n i end
      end
  end.

Lemma gets_always E W n : ∀ acc k i t id, (∀ line i', next_line n i = Some (line, i') → always E W i' (k (acc ++ line)) t id) →
  always E W i (sh_gets n acc k) t id.
Proof.
  induction n as [|n IH]; intros acc k i t id Hk.
  - cbn. rewrite <- (app_nil_r acc). by apply Hk.
  - cbn. destruct i as [|[c|] i]; [done| |].
    + change (1 <? 1) with false. cbn iota. cbn in Hk. destruct ((c =? 10) || (c =? 13)); [by apply Hk|].
      apply IH. intros line i' El. rewrite <- app_assoc. apply Hk. by rewrite El.
    + intros r c Hr. rewrite (proj2 (Z.ltb_lt r 1)) by lia. rewrite <- (app_nil_r acc). by apply Hk.
Qed.

Lemma sh_loop_always E W t : std t → (∀ t', dom t' = dom t → W t') → ∀ n i dirname id,
  (∀ line id e, line ∈ input_lines n i → line_programs line t id e → E e) → always E W i (sh_loop n dirname) t id.
Proof.
  intros Hs HW. induction n as [|n IH]; intros i dirname id HE; [done|]. cbn [sh_loop]. intros _. apply gets_always.
  intros line i' El. cbn [app]. cbn [input_lines] in HE. rewrite El in HE. destruct (cstring line) as [|x buf]; [done|].
  assert (HE' : ∀ line id e, line ∈ input_lines n i' → line_programs line t id e → E e).
  { intros line' id' e Hl. apply HE. by right. }
  case_decide.
  - cbn. intros r. repeat case_match; try done; cbn; auto.
  - apply fork1_always; [apply sh_run_always; [done| |done]|].
    + intros e He. eapply HE; [by left|exact He].
    + split; [by apply HW|]. intros _. by apply IH.
Qed.

Lemma open_console_always E W i n : ∀ k t id, std t → always E W i k t id → always E W i (open_console (S n) k) t id.
Proof.
  intros k t id Hs Hk. cbn. split.
  - intros fd Hf. pose proof (std_lowest _ _ Hs Hf). rewrite (proj2 (Z.leb_le 0 fd)), (proj2 (Z.leb_le 3 fd)) by lia.
    cbn. intros _. destruct Hf as (_&Hn&_). by rewrite delete_insert_id.
  - intros r Hr. by rewrite (proj2 (Z.leb_gt 0 r)) by lia.
Qed.

(** The shell reads a line from its standard input. *)
Lemma gets_starts i' t id e n : ∀ line i acc k, next_line n i = Some (line, i') →
  starts (Process i' (k (acc ++ line)) t id) e → starts (Process i (sh_gets n acc k) t id) e.
Proof.
  induction n as [|n IH]; intros line i acc k El He; cbn in El.
  - simplify_eq. by rewrite app_nil_r in He.
  - cbn [sh_gets]. destruct i as [|[c|] i]; [done| |].
    + eapply starts_step; [apply step_read|]. cbn [Z.ltb Z.compare Pos.compare Pos.compare_cont].
      destruct ((c =? 10) || (c =? 13)); [injection El as <- <-; exact He|]. destruct (next_line n i) as [[l i1]|] eqn:E1; [|done].
      cbn in El. simplify_eq. eapply IH; [exact E1|]. by rewrite <- app_assoc.
    + simplify_eq. eapply starts_step; [by apply (step_read_end _ _ _ _ _ 0 0)|]. by rewrite app_nil_r in He.
Qed.

(** The place of the shell in the tree after some commands. *)
Definition back (m : nat) : list bool := replicate m true.

(** Each line that is not a change of directory is run, after those before it. *)
Lemma loop_starts t e : std t → ∀ n i dirname m j line,
  input_lines n i !! j = Some line → Forall (λ l, take 3 l ≠ zs "cd ") (take (S j) (input_lines n i)) →
  line_programs line t (false :: back (m + j)) e → starts (Process i (sh_loop n dirname) t (back m)) e.
Proof.
  intros Hs. induction n as [|n IH]; intros i dirname m j line Hj Hcd He; [done|]. cbn [sh_loop input_lines] in *.
  destruct (next_line (BUFSIZE - 1) i) as [[l i']|] eqn:El; [|done]. unfold getcmd.
  eapply starts_step; [apply (step_print _ _ _ _ _ _ _ 0)|]. eapply gets_starts; [exact El|]. cbn [app].
  destruct (cstring l) as [|x buf] eqn:Ec; [done|]. rewrite decide_False by (by inversion Hcd).
  destruct j as [|j].
  - injection Hj as <-. rewrite Nat.add_0_r in He. destruct He as (c&b&s&Ep&He). eapply starts_step; [apply step_child|].
    unfold sh_run. cbn [Z.eqb]. rewrite Ep. apply runcmd_starts; [done|by eapply parsed_ok|done].
  - eapply starts_step; [by apply (step_parent _ _ _ _ 1)|]. cbn [Z.eqb]. eapply starts_step; [apply (step_wait _ _ _ _ 0)|].
    apply (IH i' dirname (S m) j line); [exact Hj|by inversion Hcd|]. by rewrite Nat.add_succ_r in He.
Qed.


Definition ex_fds : fds := {[0 := Given 0; 1 := Given 1; 2 := Given 2]}.

(** The second line is "cat f | wc > g": the program wc reads the pipe and
    writes g. *)
Definition ex_typed : list (option Z) := Some <$> (zs "ls" ++ [10] ++ zs "cat f | wc > g" ++ [10]).

