(* ===== verification/Kbd.v ===== *)
(** The keyboard driver (kbd.c, kbd.h): scan codes to characters. *)
From S2P Require Import Prelude.

Definition KBS_DIB : Z := 0x01.
Definition NO : Z := 0.
Definition SHIFT : Z := Z.shiftl 1 0.
Definition CTL : Z := Z.shiftl 1 1.
Definition ALT : Z := Z.shiftl 1 2.
Definition CAPSLOCK : Z := Z.shiftl 1 3.
Definition NUMLOCK : Z := Z.shiftl 1 4.
Definition SCROLLLOCK : Z := Z.shiftl 1 5.
Definition E0ESC : Z := Z.shiftl 1 6.

Definition KEY_HOME : Z := 0xE0.
Definition KEY_END : Z := 0xE1.
Definition KEY_UP : Z := 0xE2.
Definition KEY_DN : Z := 0xE3.
Definition KEY_LF : Z := 0xE4.
Definition KEY_RT : Z := 0xE5.
Definition KEY_PGUP : Z := 0xE6.
Definition KEY_PGDN : Z := 0xE7.
Definition KEY_INS : Z := 0xE8.
Definition KEY_DEL : Z := 0xE9.

(** [C('A')] is Control-A. *)
Definition C (x : Z) : Z := x - zc "@".

(** An initialiser of an array of 256 elements: the elements from 0 on, then
    designated ones; the others are 0. *)
Definition table (front : list Z) (des : list (nat * Z)) : list Z :=
  foldl (λ l d, <[d.1 := d.2]> l) (front ++ replicate (256 - length front) 0) des.

Definition shiftcode : list Z := table []
  [(0x1D%nat, CTL); (0x2A%nat, SHIFT); (0x36%nat, SHIFT); (0x38%nat, ALT); (0x9D%nat, CTL); (0xB8%nat, ALT)].
Definition togglecode : list Z := table []
  [(0x3A%nat, CAPSLOCK); (0x45%nat, NUMLOCK); (0x46%nat, SCROLLLOCK)].

(** The designated elements that the two printing maps share. *)
Definition keypad : list (nat * Z) :=
  [(0x9C%nat, 10); (0xB5%nat, zc "/"); (0xC8%nat, KEY_UP); (0xD0%nat, KEY_DN);
   (0xC9%nat, KEY_PGUP); (0xD1%nat, KEY_PGDN); (0xCB%nat, KEY_LF); (0xCD%nat, KEY_RT);
   (0x97%nat, KEY_HOME); (0xCF%nat, KEY_END); (0xD2%nat, KEY_INS); (0xD3%nat, KEY_DEL)].

Definition normalmap : list Z := table
  ([NO; 0x1B] ++ zs "123456" ++ zs "7890-=" ++ [8; 9] ++
   zs "qwertyui" ++ zs "op[]" ++ [10; NO] ++ zs "as" ++
   zs "dfghjkl;" ++ zs "'`" ++ [NO] ++ zs "\zxcv" ++
   zs "bnm,./" ++ [NO] ++ zs "*" ++ [NO; 32; NO; NO; NO; NO; NO; NO] ++
   [NO; NO; NO; NO; NO; NO; NO] ++ zs "7" ++ zs "89-456+1" ++
   zs "230." ++ [NO; NO; NO; NO]) keypad.

Definition shiftmap : list Z := table
  ([NO; 27] ++ zs "!@#$%^" ++ zs "&*()_+" ++ [8; 9] ++
   zs "QWERTYUI" ++ zs "OP{}" ++ [10; NO] ++ zs "AS" ++
   zs "DFGHJKL:" ++ [34] ++ zs "~" ++ [NO] ++ zs "|ZXCV" ++
   zs "BNM<>?" ++ [NO] ++ zs "*" ++ [NO; 32; NO; NO; NO; NO; NO; NO] ++
   [NO; NO; NO; NO; NO; NO; NO] ++ zs "7" ++ zs "89-456+1" ++
   zs "230." ++ [NO; NO; NO; NO]) keypad.

(** Elements are [uchar]: [C('/')] is below 0 and wraps. *)
Definition ctlmap : list Z := u8 <$> table
  (replicate 16 NO ++
   (C <$> zs "QWERTYUI") ++ (C <$> zs "OP") ++ [NO; NO; 13; NO] ++ (C <$> zs "AS") ++
   (C <$> zs "DFGHJKL") ++ [NO] ++ [NO; NO; NO] ++ (C <$> zs "\ZXCV") ++
   (C <$> zs "BNM") ++ [NO; NO] ++ [C (zc "/")] ++ [NO; NO])
  [(0x9C%nat, 13); (0xB5%nat, C (zc "/")); (0xC8%nat, KEY_UP); (0xD0%nat, KEY_DN);
   (0xC9%nat, KEY_PGUP); (0xD1%nat, KEY_PGDN); (0xCB%nat, KEY_LF); (0xCD%nat, KEY_RT);
   (0x97%nat, KEY_HOME); (0xCF%nat, KEY_END); (0xD2%nat, KEY_INS); (0xD3%nat, KEY_DEL)].

Definition charcode : list (list Z) := [normalmap; shiftmap; ctlmap; ctlmap].

Definition at_ (l : list Z) (i : Z) : Z := nth (Z.to_nat i) l 0.

(** [kbdgetc] with the static [shift] passed through; [st] and [data] are what
    the two ports of the controller deliver. *)
Definition kbdgetc (st data shift : Z) : Z * Z :=
  if Z.land st KBS_DIB =? 0 then (-1, shift)
  else if data =? 0xE0 then (0, Z.lor shift E0ESC)
  else if nz (Z.land data 0x80) then
    (* Key released *)
    let data := if nz (Z.land shift E0ESC) then data else Z.land data 0x7F in
    (0, Z.land shift (u32 (Z.lnot (Z.lor (at_ shiftcode data) E0ESC))))
  else
    let '(data, shift) :=
      if nz (Z.land shift E0ESC) then (Z.lor data 0x80, Z.land shift (u32 (Z.lnot E0ESC)))
      else (data, shift) in
    let shift := Z.lor shift (at_ shiftcode data) in
    let shift := Z.lxor shift (at_ togglecode data) in
    let c := at_ (nth (Z.to_nat (Z.land shift (Z.lor CTL SHIFT))) charcode []) data in
    let c :=
      if nz (Z.land shift CAPSLOCK) then
        if (zc "a" <=? c) && (c <=? zc "z") then u32 (c + (zc "A" - zc "a"))
        else if (zc "A" <=? c) && (c <=? zc "Z") then u32 (c + (zc "a" - zc "A"))
        else c
      else c in
    (c, shift).
