(* ===== verification/Console.v ===== *)
(** The console (console.c): output to the screen and the serial port, the
    formatted print of the kernel, and the input line editor.

    The screen is the CGA text memory, a list of 16-bit cells, with the
    cursor position in the CRT controller.  The serial port is the list of
    bytes sent. *)
From S2P Require Import Prelude Kmonad Wp Kstate Spinlock Sleep Disk Blocks Inode Pipe Kbd.

Definition BACKSPACE : Z := 0x100.
Definition INPUT_BUF : Z := 128.

(** [struct { ... } input] without its lock. *)
Record input := Input {
  in_buf : list Z;
  in_r : Z;                  (* Read index *)
  in_w : Z;                  (* Write index *)
  in_e : Z                   (* Edit index *)
}.

Record con := Con {
  cn_k : kst;
  cn_locking : bool;         (* cons.locking *)
  cn_panicked : bool;
  cn_input : input;
  cn_uart : option (list Z); (* bytes sent, if there is a serial port *)
  cn_crt : list Z;           (* 80x25 cells of CGA memory *)
  cn_pos : Z                 (* cursor position of the CRT controller *)
}.
Definition set_cn_k v (s : con) : con :=
  Con v (cn_locking s) (cn_panicked s) (cn_input s) (cn_uart s) (cn_crt s) (cn_pos s).
Definition set_cn_locking v (s : con) : con :=
  Con (cn_k s) v (cn_panicked s) (cn_input s) (cn_uart s) (cn_crt s) (cn_pos s).
Definition set_cn_input v (s : con) : con :=
  Con (cn_k s) (cn_locking s) (cn_panicked s) v (cn_uart s) (cn_crt s) (cn_pos s).
Definition set_cn_uart v (s : con) : con :=
  Con (cn_k s) (cn_locking s) (cn_panicked s) (cn_input s) v (cn_crt s) (cn_pos s).
Definition set_cn_cga v w (s : con) : con :=
  Con (cn_k s) (cn_locking s) (cn_panicked s) (cn_input s) (cn_uart s) v w.

Definition con_k : lens con kst := Lens cn_k set_cn_k.
Definition ck {A} (m : M kst A) : M con A := zoom con_k m.

(** ** Output *)

(** The bounded wait for the transmitter changes nothing in the end. *)
Definition uartputc (c : Z) : M con unit :=
  modify (λ s, set_cn_uart (l ← cn_uart s; Some (l ++ [u8 c])) s).

(** A store to [crt[i]], outside of the screen undefined. *)
Definition crt_store (i v : Z) (crt : list Z) : option (list Z) :=
  if (0 <=? i) && (i <? Z.of_nat (length crt)) then Some (<[Z.to_nat i := v]> crt) else None.

(** The moves of the cursor and of the cells for one character. *)
Definition cga_put (c pos : Z) (crt : list Z) : option (Z * list Z) :=
  if c =? 10 then Some (pos + (80 - pos mod 80), crt)
  else if c =? BACKSPACE then Some (if 0 <? pos then pos - 1 else pos, crt)
  else crt ← crt_store pos (Z.lor (Z.land c 0xff) 0x0700) crt; Some (pos + 1, crt).

(** Scroll up: the lines from 1 on move to the top, the rest is cleared. *)
Definition cga_scroll (pos : Z) (crt : list Z) : option (Z * list Z) :=
  if pos / 80 <? 24 then Some (pos, crt)
  else
    let crt := slice 80 (23 * 80) crt ++ drop (23 * 80) crt in
    let pos := pos - 80 in
    if (0 <=? pos) && (pos <=? 24 * 80) then
      Some (pos, splice (Z.to_nat pos) (replicate (Z.to_nat (24 * 80 - pos)) 0) crt)
    else None.

Definition cgaputc (c : Z) : M con unit := λ s,
  match ('(pos, crt) ← cga_put c (cn_pos s) (cn_crt s);
         '(pos, crt) ← cga_scroll pos crt;
         crt ← crt_store pos (Z.lor 32 0x0700) crt;
         Some (u16 pos, crt)) with
  | Some (pos, crt) => Ok tt (set_cn_cga crt pos s)
  | None => Fault s
  end.

(** Once another CPU has panicked, this one stops for good. *)
Definition consputc (c : Z) : M con unit :=
  p ← gets cn_panicked;
  if negb p then
    (if c =? BACKSPACE then uartputc 8;; uartputc 32;; uartputc 8 else uartputc c);;
    cgaputc c
  else ck cli;; panic "halted".

Definition digits : list Z := zs "0123456789abcdef".

(** The digits of [x], the last one first: [do ... while((x /= base) != 0)]. *)
Fixpoint digits_rev (fuel : nat) (ds : list Z) (base x : Z) : list Z :=
  match fuel with
  | O => []
  | S fuel =>
      nth (Z.to_nat (x mod base)) ds 0 ::
      (if x / base =? 0 then [] else digits_rev fuel ds base (x / base))
  end.

(** What [printint] prints: 32 digits are enough for a [uint] in any base. *)
Definition int_chars (ds : list Z) (xx base : Z) (sign : bool) : list Z :=
  let neg := sign && (xx <? 0) in
  let x := u32 (if neg then - xx else xx) in
  rev (digits_rev 32 ds base x ++ (if neg then [zc "-"] else [])).

Definition printint (xx base : Z) (sign : bool) : M con unit :=
  for_each (int_chars digits xx base sign) consputc.

(** An argument of [cprintf]: a word, or a pointer to a string (0 or the
    characters). *)
Inductive parg := PInt (x : Z) | PStr (s : option (list Z)).

(** The loop of [cprintf] over the format.  Reading an argument that was not
    passed is undefined. *)
Fixpoint cprintf_loop (fmt : list Z) (args : list parg) : M con unit :=
  match fmt with
  | [] => mret tt
  | c :: fmt1 =>
      if negb (c =? zc "%") then consputc c;; cprintf_loop fmt1 args
      else
        match fmt1 with
        | [] => mret tt
        | c :: fmt2 =>
            if c =? zc "d" then
              match args with
              | PInt x :: args => printint (i32 x) 10 true;; cprintf_loop fmt2 args
              | _ => fault
              end
            else if (c =? zc "x") || (c =? zc "p") then
              match args with
              | PInt x :: args => printint (i32 x) 16 false;; cprintf_loop fmt2 args
              | _ => fault
              end
            else if c =? zc "s" then
              match args with
              | PStr s :: args =>
                  for_each (default (zs "(null)") s) consputc;; cprintf_loop fmt2 args
              | _ => fault
              end
            else if c =? zc "%" then consputc (zc "%");; cprintf_loop fmt2 args
            else consputc (zc "%");; consputc c;; cprintf_loop fmt2 args
        end
  end.

Definition cprintf (fmt : list Z) (args : list parg) : M con unit :=
  locking ← gets cn_locking;
  when locking (ck (acquire LCons));;
  cprintf_loop fmt args;;
  when locking (ck (release LCons)).

(** ** The process listing (proc.c) *)

Definition state_name (st : procstate) : list Z :=
  match st with
  | UNUSED => zs "unused" | EMBRYO => zs "embryo" | SLEEPING => zs "sleep "
  | RUNNABLE => zs "runble" | RUNNING => zs "run   " | ZOMBIE => zs "zombie"
  end.
(** [pc[i]] up to the first zero. *)
Fixpoint nonzero (l : list Z) : list Z :=
  match l with [] => [] | x :: l => if x =? 0 then [] else x :: nonzero l end.

(** Print a process listing to the console.  No lock is taken. *)
Definition dump_proc (rd : Z → Z) (p : proc) : M con unit :=
  if bool_decide (p_state p = UNUSED) then mret tt else
  cprintf (zs "%d %s %s") [PInt (p_pid p); PStr (Some (state_name (p_state p)));
    PStr (Some (nonzero (p_name p)))];;
  when (bool_decide (p_state p = SLEEPING))
    (for_each (nonzero (getcallerpcs rd (u32 (cx_ebp (p_context p) + 8)))) (λ pc, cprintf (zs " %p") [PInt pc]));;
  cprintf [10] [].
Definition procdump (rd : Z → Z) : M con unit :=
  ps ← gets (λ s, k_procs (cn_k s));
  for_each ps (dump_proc rd).

(** ** Input *)

Definition buf_char (i : Z) (n : input) : Z := nth (Z.to_nat (i mod INPUT_BUF)) (in_buf n) 0.
Definition set_in_e v (n : input) : input := Input (in_buf n) (in_r n) (in_w n) v.
Definition set_in_w v (n : input) : input := Input (in_buf n) (in_r n) v (in_e n).
Definition set_in_r v (n : input) : input := Input (in_buf n) v (in_w n) (in_e n).
(** [input.buf[input.e++ % INPUT_BUF] = c] *)
Definition put_char (c : Z) (n : input) : input :=
  Input (<[Z.to_nat (in_e n mod INPUT_BUF) := u8 c]> (in_buf n)) (in_r n) (in_w n) (u32 (in_e n + 1)).

Definition upd_input (f : input → input) : M con unit :=
  modify (λ s, set_cn_input (f (cn_input s)) s).

(** One turn of the loop of Control-U. *)
Definition kill_step (_ : unit) : M con (unit + unit) :=
  n ← gets cn_input;
  if negb (in_e n =? in_w n) && negb (buf_char (u32 (in_e n - 1)) n =? 10) then
    upd_input (set_in_e (u32 (in_e n - 1)));;
    consputc BACKSPACE;;
    mret (inl tt)
  else mret (inr tt).

(** The body of the loop of [consoleintr] for a character; [rd] reads the
    kernel stacks for the process listing. *)
Definition consoleintr_char (rd : Z → Z) (c : Z) : M con unit :=
  if c =? C (zc "P") then procdump rd
  else if c =? C (zc "U") then loop 129 kill_step tt
  else if (c =? C (zc "H")) || (c =? 127) then
    n ← gets cn_input;
    if negb (in_e n =? in_w n) then
      upd_input (set_in_e (u32 (in_e n - 1)));; consputc BACKSPACE
    else mret tt
  else
    n ← gets cn_input;
    if negb (c =? 0) && (u32 (in_e n - in_r n) <? INPUT_BUF) then
      let c := if c =? 13 then 10 else c in
      upd_input (put_char c);;
      consputc c;;
      n ← gets cn_input;
      if (c =? 10) || (c =? C (zc "D")) || (in_e n =? u32 (in_r n + INPUT_BUF)) then
        upd_input (set_in_w (in_e n));; ck (wakeup CInput)
      else mret tt
    else mret tt.

(** [cs] is what [getc] delivers before it answers -1. *)
Definition consoleintr (rd : Z → Z) (cs : list Z) : M con unit :=
  ck (acquire LInput);;
  for_each cs (consoleintr_char rd);;
  ck (release LInput).

(** The characters that [kbdgetc] makes of the scan codes in the controller;
    the result is also the new value of [shift]. *)
Fixpoint kbd_chars (shift : Z) (codes : list Z) : list Z * Z :=
  match codes with
  | [] => ([], shift)
  | d :: codes =>
      let '(c, shift) := kbdgetc KBS_DIB d shift in
      let '(cs, shift) := kbd_chars shift codes in (c :: cs, shift)
  end.
Definition kbdintr (rd : Z → Z) (shift : Z) (codes : list Z) : M con Z :=
  let '(cs, shift) := kbd_chars shift codes in
  consoleintr rd cs;; mret shift.

(** One turn of the loop of [consoleread] with the lock held: [n] is what is
    still wanted, and the bytes so far.  At the end of the loop there is no
    count if the process was killed. *)
Definition read_step (target : Z) (st : Z * list Z) : M con (Z * list Z + (option Z * list Z)) :=
  let '(n, acc) := st in
  if 0 <? n then
    i ← gets cn_input;
    if in_r i =? in_w i then
      k ← ck killed;
      if negb k then ck (sleep CInput LInput);; nofuel
      else mret (inr (None, acc))
    else
      let c := buf_char (in_r i) i in
      upd_input (set_in_r (u32 (in_r i + 1)));;
      if c =? C (zc "D") then
        (* Save ^D for next time, to make sure the caller gets a 0-byte result. *)
        (if n <? target then upd_input (set_in_r (in_r i)) else mret tt);;
        mret (inr (Some n, acc))
      else if c =? 10 then mret (inr (Some (n - 1), acc ++ [c]))
      else mret (inl (n - 1, acc ++ [c]))
  else mret (inr (Some n, acc)).

(** The part of [consoleread] under [input.lock]: the result and the bytes
    stored at [dst]. *)
Definition read_locked (n : Z) : M con (Z * list Z) :=
  ck (acquire LInput);;
  r ← loop (S (Z.to_nat n)) (read_step n) (n, []);
  ck (release LInput);;
  mret (match r with (None, acc) => (-1, acc) | (Some m, acc) => (n - m, acc) end).

Definition write_locked (buf : list Z) (n : Z) : M con unit :=
  ck (acquire LCons);;
  for_each (take (Z.to_nat n) buf) (λ c, consputc (Z.land c 0xff));;
  ck (release LCons).

Definition consoleinit : M con unit :=
  ck (initlock LCons);;
  ck (initlock LInput);;
  modify (set_cn_locking true).

(** ** Reports *)

Definition set_cn_panicked v (s : con) : con :=
  Con (cn_k s) (cn_locking s) v (cn_input s) (cn_uart s) (cn_crt s) (cn_pos s).

(** The function [panic] of the kernel; [rd] reads a word of its stack and
    [argp] is the address of the argument.  The loop at its end is the outcome
    [Panic]. *)
Definition con_panic (rd : Z → Z) (argp : Z) (msg : string) : M con unit :=
  ck cli;;
  modify (set_cn_locking false);;
  id ← gets (λ s, cpu_id (k_cpu (cn_k s)));
  cprintf (zs "cpu%d: panic: ") [PInt (Z.of_nat id)];;
  cprintf (zs msg) [];;
  cprintf [10] [];;
  for_each (getcallerpcs rd argp) (λ pc, cprintf (zs " %p") [PInt pc]);;
  modify (set_cn_panicked true);;
  panic msg.

(** ** The device functions *)
Section Device.
Context {B : Type} {BB : Blocks B}.

(** The file system and the console share the one kernel state. *)
Record cst := Cst { c_fs : fs B; c_con : con }.
Definition cst_fs : lens cst (fs B) := Lens c_fs (λ x s, Cst x (c_con s)).
Definition cst_con : lens cst con :=
  Lens (λ s, set_cn_k (lget (lens_comp cst_fs (lens_comp fs_lens bl_k)) s) (c_con s))
    (λ c s, lset (lens_comp cst_fs (lens_comp fs_lens bl_k)) (cn_k c) (Cst (c_fs s) c)).

Definition consoleread (ip : nat) (n : Z) : M cst (Z * list Z) :=
  zoom cst_fs (iunlock ip);;
  r ← zoom cst_con (read_locked n);
  zoom cst_fs (ilock ip);;
  mret r.

Definition consolewrite (ip : nat) (buf : list Z) (n : Z) : M cst Z :=
  zoom cst_fs (iunlock ip);;
  zoom cst_con (write_locked buf n);;
  zoom cst_fs (ilock ip);;
  mret n.
End Device.
Arguments cst B : clear implicits.
