(* ===== verification/ConsoleLaws.v ===== *)
(** The console: the cursor stays on the screen, numbers are printed
    correctly, and the interrupt handler and the reader implement a line
    editor. *)
From S2P Require Import Prelude Kmonad Wp Kstate Spinlock Sleep Disk Blocks Inode Pipe Kbd Console.

(** ** The input ring *)

(** The characters between the read and the edit index, and how many of them
    the reader may take. *)
Definition held (n : input) : list Z :=
  (λ j, buf_char (in_r n + Z.of_nat j) n) <$> seq 0 (Z.to_nat (u32 (in_e n - in_r n))).
Definition nready (n : input) : Z := u32 (in_w n - in_r n).

Record in_ok (n : input) : Prop := {
  ik_len : length (in_buf n) = 128%nat;
  ik_r : 0 ≤ in_r n < 4294967296;
  ik_w : 0 ≤ in_w n < 4294967296;
  ik_e : 0 ≤ in_e n < 4294967296;
  ik_full : u32 (in_e n - in_r n) ≤ INPUT_BUF;
  ik_ready : nready n ≤ u32 (in_e n - in_r n)
}.

Lemma length_held n : length (held n) = Z.to_nat (u32 (in_e n - in_r n)).
Proof. unfold held. by rewrite length_fmap, length_seq. Qed.

Ltac ring_lia := unfold nready in *; cbn [in_r in_w in_e in_buf put_char set_in_e set_in_w set_in_r] in *;
  unfold u32, INPUT_BUF in *;
  rewrite ?Zminus_mod_idemp_l, ?Zminus_mod_idemp_r in *; Z.div_mod_to_equations; lia.

Lemma held_lookup n j : (j < length (held n))%nat → held n !! j = Some (buf_char (in_r n + Z.of_nat j) n).
Proof.
  intros Hj. rewrite length_held in Hj. unfold held. by rewrite list_lookup_fmap, lookup_seq_lt.
Qed.

Lemma held_put c n : in_ok n → u32 (in_e n - in_r n) < INPUT_BUF →
  in_ok (put_char c n) ∧ held (put_char c n) = held n ++ [u8 c] ∧ nready (put_char c n) = nready n.
Proof.
  intros Hn Hl. pose proof Hn as [Hd Hr Hw He Hf Hk].
  assert (E : u32 (in_e (put_char c n) - in_r (put_char c n)) = u32 (in_e n - in_r n) + 1) by ring_lia.
  split_and!; [|apply list_eq; intros j|done].
  - split; [cbn [put_char in_buf]; by rewrite length_insert|done|done|apply u32_range|ring_lia|ring_lia].
  - destruct (decide (j < length (held (put_char c n)))%nat) as [Hj|Hj].
    2: { rewrite !lookup_ge_None_2; [done| |lia]. rewrite length_held, E in Hj.
         rewrite length_app, length_held. cbn [length].
         pose proof (u32_range (in_e n - in_r n)). lia. }
    rewrite held_lookup by done. rewrite length_held, E in Hj. unfold buf_char.
    cbn [put_char in_buf in_r]. pose proof (u32_range (in_e n - in_r n)) as H0.
    destruct (decide (j = Z.to_nat (u32 (in_e n - in_r n)))) as [->|Hne].
    + rewrite lookup_app_r by (rewrite length_held; lia). rewrite length_held, Nat.sub_diag.
      simpl. f_equal. rewrite nth_lookup.
      replace (Z.to_nat ((in_r n + _) mod INPUT_BUF)) with (Z.to_nat (in_e n mod INPUT_BUF)).
      * rewrite list_lookup_insert_eq; [done|]. rewrite Hd. ring_lia.
      * f_equal. rewrite Z2Nat.id by ring_lia. ring_lia.
    + rewrite lookup_app_l by (rewrite length_held; lia). rewrite held_lookup by (rewrite length_held; lia).
      f_equal. unfold buf_char. rewrite !nth_lookup, list_lookup_insert_ne; [done|].
      intros Heq. apply Z2Nat.inj in Heq; ring_lia.
Qed.

Lemma held_back n : in_ok n → in_e n ≠ in_w n →
  let n' := set_in_e (u32 (in_e n - 1)) n in
  in_ok n' ∧ held n' = removelast (held n) ∧ nready n' = nready n ∧
  last (held n) = Some (buf_char (u32 (in_e n - 1)) n) ∧ nready n < Z.of_nat (length (held n)).
Proof.
  intros Hn Hne n'. pose proof Hn as [Hd Hr Hw He Hf Hk].
  assert (E : u32 (in_e n' - in_r n') = u32 (in_e n - in_r n) - 1) by (unfold n'; ring_lia).
  assert (Hpos : 0 < u32 (in_e n - in_r n)) by ring_lia.
  assert (Hlen : length (held n) = S (length (held n'))) by (rewrite !length_held, E; lia).
  split_and!.
  - split; [done|done|done|apply u32_range|unfold n'; ring_lia|unfold n'; ring_lia].
  - rewrite removelast_firstn_len, Hlen. cbn [pred]. apply list_eq. intros j.
    destruct (decide (j < length (held n'))%nat).
    + rewrite lookup_take_lt, !held_lookup by lia. done.
    + rewrite !lookup_ge_None_2; [done| |lia]. rewrite length_take. lia.
  - done.
  - rewrite last_lookup, Hlen. cbn [pred]. rewrite held_lookup by lia. f_equal.
    unfold buf_char. do 2 f_equal. rewrite length_held, E. ring_lia.
  - rewrite length_held. ring_lia.
Qed.

Lemma held_commit n : in_ok n → let n' := set_in_w (in_e n) n in
  in_ok n' ∧ held n' = held n ∧ nready n' = Z.of_nat (length (held n)).
Proof.
  intros Hn n'. pose proof Hn as [Hd Hr Hw He Hf Hk]. split_and!.
  - split; [done..|]. unfold n'. ring_lia.
  - done.
  - rewrite length_held. unfold n'. ring_lia.
Qed.

Lemma held_next n : in_ok n → in_r n ≠ in_w n →
  let n' := set_in_r (u32 (in_r n + 1)) n in
  in_ok n' ∧ held n = buf_char (in_r n) n :: held n' ∧ nready n = nready n' + 1.
Proof.
  intros Hn Hne n'. pose proof Hn as [Hd Hr Hw He Hf Hk].
  assert (E : u32 (in_e n - in_r n) = u32 (in_e n' - in_r n') + 1) by (unfold n'; ring_lia).
  split_and!.
  - split; [done|apply u32_range|done|done|unfold n'; ring_lia|unfold n'; ring_lia].
  - apply list_eq. intros [|j].
    + rewrite held_lookup by (rewrite length_held; ring_lia). cbn. by rewrite Z.add_0_r.
    + change ((_ :: held n') !! S j) with (held n' !! j). destruct (decide (j < length (held n'))%nat) as [Hj|Hj].
      * rewrite held_lookup by (rewrite length_held in *; lia).
        rewrite held_lookup by done.
        f_equal. unfold buf_char. do 2 f_equal. unfold n'. ring_lia.
      * rewrite !lookup_ge_None_2; [done|lia|rewrite length_held in *; lia].
  - unfold n'. ring_lia.
Qed.

(** ** The screen *)

Definition cga_ok (s : con) : Prop := length (cn_crt s) = 2000%nat ∧ 0 ≤ cn_pos s < 24 * 80.

(** Only the devices differ. *)
Definition shown (s s' : con) : Prop :=
  cn_k s' = cn_k s ∧ cn_locking s' = cn_locking s ∧ cn_panicked s' = cn_panicked s ∧
  cn_input s' = cn_input s ∧ cga_ok s'.

Lemma crt_store_ok i v crt : 0 ≤ i < Z.of_nat (length crt) →
  crt_store i v crt = Some (<[Z.to_nat i := v]> crt).
Proof. intros. unfold crt_store. by rewrite (proj2 (Z.leb_le _ _)), (proj2 (Z.ltb_lt _ _)) by lia. Qed.

Lemma cga_put_ok c pos crt : length crt = 2000%nat → 0 ≤ pos < 24 * 80 →
  ∃ pos' crt', cga_put c pos crt = Some (pos', crt') ∧ length crt' = 2000%nat ∧ 0 ≤ pos' ≤ 24 * 80.
Proof.
  intros Hl Hp. unfold cga_put. destruct (c =? 10); [|destruct (c =? BACKSPACE)].
  - eexists _, _. split_and!; [done|done|..]; Z.div_mod_to_equations; lia.
  - eexists _, _. split_and!; [done|done|..]; destruct (Z.ltb_spec 0 pos); lia.
  - rewrite crt_store_ok by lia. eexists _, _. split_and!; [done| |lia..]. by rewrite length_insert.
Qed.

Lemma cga_scroll_ok pos crt : length crt = 2000%nat → 0 ≤ pos ≤ 24 * 80 →
  ∃ pos' crt', cga_scroll pos crt = Some (pos', crt') ∧ length crt' = 2000%nat ∧ 0 ≤ pos' < 24 * 80.
Proof.
  intros Hl Hp. unfold cga_scroll. destruct (Z.ltb_spec (pos / 80) 24).
  - eexists _, _. split_and!; [done|done|..]; Z.div_mod_to_equations; lia.
  - assert (pos = 1920) as -> by (Z.div_mod_to_equations; lia).
    eexists _, _. split_and!; [reflexivity| |lia..].
    rewrite length_splice; rewrite length_app, length_slice, length_drop, ?length_replicate by lia; lia.
Qed.

(** What the output devices have got: the serial port, the screen and the
    cursor; and what a character sent to the console makes of them. *)
Definition devices : Type := option (list Z) * list Z * Z.
Definition outs (s : con) : devices := (cn_uart s, cn_crt s, cn_pos s).
Definition uart_bytes (c : Z) : list Z := if c =? BACKSPACE then [8; 32; 8] else [u8 c].
Definition show_char (c : Z) (d : devices) : option devices :=
  let '(u, crt, pos) := d in
  '(pos, crt) ← cga_put c pos crt;
  '(pos, crt) ← cga_scroll pos crt;
  Some ((λ l, l ++ uart_bytes c) <$> u, <[Z.to_nat pos := 0x0720]> crt, pos).
Fixpoint show (l : list Z) (d : devices) : option devices :=
  match l with [] => Some d | c :: l => show_char c d ≫= show l end.

(** Exactly the characters of [l] went to the console, nothing else changed. *)
Definition showed (l : list Z) (s s' : con) : Prop := shown s s' ∧ show l (outs s) = Some (outs s').

Lemma show_app l l' d : show (l ++ l') d = show l d ≫= show l'.
Proof. revert d. induction l as [|c l IH]; intros d; cbn; [done|]. destruct (show_char c d); cbn; auto. Qed.
Lemma show_serial l : ∀ d d', show l d = Some d' → d'.1.1 = (λ t, t ++ concat (uart_bytes <$> l)) <$> d.1.1.
Proof.
  induction l as [|c l IH]; intros [[u crt] pos] d' E; cbn [show] in E.
  - injection E as <-. cbn. destruct u as [t|]; cbn; by rewrite ?app_nil_r.
  - apply bind_Some in E as ([[u1 crt1] pos1]&E1&E2). apply IH in E2. rewrite E2. unfold show_char in E1.
    apply bind_Some in E1 as ([p1 c1]&_&E1). apply bind_Some in E1 as ([p2 c2]&_&E1). simplify_eq. cbn.
    destruct u as [t|]; cbn; [|done]. by rewrite <- app_assoc.
Qed.
Lemma shown_trans s1 s2 s3 : shown s1 s2 → shown s2 s3 → shown s1 s3.
Proof. intros (A1&A2&A3&A4&_) (B1&B2&B3&B4&B5). split_and!; congruence || done. Qed.
Lemma showed_nil s : cga_ok s → showed [] s s.
Proof. intros H. by split; [split_and!|]. Qed.
Lemma showed_app l l' s1 s2 s3 : showed l s1 s2 → showed l' s2 s3 → showed (l ++ l') s1 s3.
Proof. intros [H1 E1] [H2 E2]. split; [by eapply shown_trans|]. rewrite show_app, E1. exact E2. Qed.

Lemma consputc_out c s : cn_panicked s = false → cga_ok s →
  ∃ s', consputc c s = Ok tt s' ∧ showed [c] s s'.
Proof.
  intros Hp Hc. unfold consputc, mbind, M_bind, gets. rewrite Hp. cbn [negb].
  assert (Hu : (if c =? BACKSPACE then uartputc 8;; uartputc 32;; uartputc 8 else uartputc c) s =
    Ok tt (set_cn_uart ((λ l, l ++ uart_bytes c) <$> cn_uart s) s)).
  { destruct s as [? ? ? ? [u|] ? ?]; unfold uart_bytes; destruct (c =? BACKSPACE); try reflexivity.
    unfold uartputc, modify, mbind, M_bind, set_cn_uart; cbn. by rewrite <- !app_assoc. }
  unfold mbind, M_bind in Hu. rewrite Hu. unfold cgaputc.
  cbn [set_cn_uart cn_pos cn_crt]. destruct Hc as [Hl Hpos].
  destruct (cga_put_ok c _ _ Hl Hpos) as (p1&c1&E1&Hl1&Hp1). rewrite E1.
  destruct (cga_scroll_ok _ _ Hl1 Hp1) as (p2&c2&E2&Hl2&Hp2). cbn. rewrite E2. cbn.
  rewrite crt_store_ok by lia. eexists. split; [reflexivity|].
  assert (E16 : u16 p2 = p2) by (unfold u16; by rewrite Z.mod_small by lia). rewrite E16. split.
  - split_and!; try done. split; cbn [set_cn_cga cn_crt cn_pos]; [by rewrite length_insert|done].
  - unfold show, show_char, outs. cbn -[cga_put cga_scroll]. rewrite E1. cbn -[cga_scroll]. rewrite E2. done.
Qed.
Lemma consputc_run c s : cn_panicked s = false → cga_ok s →
  ∃ s', consputc c s = Ok tt s' ∧ shown s s'.
Proof. intros Hp Hc. destruct (consputc_out c s Hp Hc) as (s'&E&[H _]). by exists s'. Qed.

(** ** The formatted print *)

Lemma consputs_out l s : cn_panicked s = false → cga_ok s → ∃ s', for_each l consputc s = Ok tt s' ∧ showed l s s'.
Proof.
  revert s. induction l as [|c l IH]; intros s Hp Hc; cbn [for_each]; [exists s; split; [done|by apply showed_nil]|].
  destruct (consputc_out c s Hp Hc) as (s1&E1&H1). mrun E1. pose proof H1 as [(_&_&P1&_&C1) _].
  destruct (IH s1) as (s2&E2&H2); [congruence|done|]. exists s2. split; [done|].
  by apply (showed_app [c] l _ _ _ H1).
Qed.

(** The arguments are those the format asks for. *)
Fixpoint fits (fmt : list Z) (args : list parg) : bool :=
  match fmt with
  | [] => true
  | c :: fmt1 =>
      if negb (c =? zc "%") then fits fmt1 args
      else
        match fmt1 with
        | [] => true
        | c :: fmt2 =>
            if (c =? zc "d") || (c =? zc "x") || (c =? zc "p") then
              match args with PInt _ :: args => fits fmt2 args | _ => false end
            else if c =? zc "s" then match args with PStr _ :: args => fits fmt2 args | _ => false end
            else fits fmt2 args
        end
  end.

(** The characters that a format and its arguments stand for. *)
Fixpoint fmt_chars (fmt : list Z) (args : list parg) : list Z :=
  match fmt with
  | [] => []
  | c :: fmt1 =>
      if negb (c =? zc "%") then c :: fmt_chars fmt1 args
      else
        match fmt1 with
        | [] => []
        | c :: fmt2 =>
            if c =? zc "d" then
              match args with PInt x :: args => int_chars digits (i32 x) 10 true ++ fmt_chars fmt2 args | _ => [] end
            else if (c =? zc "x") || (c =? zc "p") then
              match args with PInt x :: args => int_chars digits (i32 x) 16 false ++ fmt_chars fmt2 args | _ => [] end
            else if c =? zc "s" then
              match args with PStr s :: args => default (zs "(null)") s ++ fmt_chars fmt2 args | _ => [] end
            else if c =? zc "%" then zc "%" :: fmt_chars fmt2 args
            else zc "%" :: c :: fmt_chars fmt2 args
        end
  end.

Lemma cprintf_loop_out n : ∀ fmt args s, (length fmt ≤ n)%nat → fits fmt args = true → cn_panicked s = false → cga_ok s →
  ∃ s', cprintf_loop fmt args s = Ok tt s' ∧ showed (fmt_chars fmt args) s s'.
Proof.
  induction n as [|n IH]; intros [|c fmt] args s Hn Hf Hp Hc; cbn [length] in Hn; try lia;
    try (exists s; split; [done|by apply showed_nil]).
  assert (Hput : ∀ l fmt' args', (length fmt' ≤ n)%nat → fits fmt' args' = true →
    ∃ s', (for_each l consputc;; cprintf_loop fmt' args') s = Ok tt s' ∧ showed (l ++ fmt_chars fmt' args') s s').
  { intros l fmt' args' Hl Hf'. destruct (consputs_out l s Hp Hc) as (s1&E1&H1). mrun E1. pose proof H1 as [(_&_&P1&_&C1) _].
    destruct (IH fmt' args' s1) as (s2&E2&H2); [done|done|congruence|done|]. exists s2. split; [done|by eapply showed_app]. }
  assert (Hone : ∀ x fmt' args', (length fmt' ≤ n)%nat → fits fmt' args' = true →
    ∃ s', (consputc x;; cprintf_loop fmt' args') s = Ok tt s' ∧ showed (x :: fmt_chars fmt' args') s s').
  { intros x fmt' args' Hl Hf'. destruct (Hput [x] fmt' args' Hl Hf') as (s'&E&H). exists s'. split; [|done].
    rewrite <- E. cbn [for_each]. rewrite bind_assoc. unfold mbind, M_bind. by destruct (consputc x s). }
  cbn [cprintf_loop fits fmt_chars] in *. destruct (negb (c =? zc "%")); [apply Hone; [lia|done]|].
  destruct fmt as [|d fmt]; [exists s; split; [done|by apply showed_nil]|]. cbn [length] in Hn.
  destruct (d =? zc "d"); cbn [orb] in Hf; [destruct args as [|[x|] args]; try done; apply Hput; [lia|done]|].
  destruct ((d =? zc "x") || (d =? zc "p")); [destruct args as [|[x|] args]; try done; apply Hput; [lia|done]|].
  destruct (d =? zc "s"); [destruct args as [|[|x] args]; try done; apply Hput; [lia|done]|].
  destruct (d =? zc "%"); [apply Hone; [lia|done]|].
  destruct (Hput [zc "%"; d] fmt args) as (s'&E&H); [lia|done|]. exists s'. split; [|done]. rewrite <- E. cbn [for_each].
  rewrite !bind_assoc. unfold mbind, M_bind. destruct (consputc (zc "%") s) as [? t| | | | |]; try done. by destruct (consputc d t).
Qed.

(** [cprintf] prints and leaves the lock as it was. *)
Definition can_print (s : con) : Prop := cn_panicked s = false ∧ cga_ok s ∧
  (cn_locking s = true → kst_ok (cn_k s) ∧ is_free LCons (cn_k s)).
Lemma can_print_showed l s s' : showed l s s' → can_print s → can_print s'.
Proof. intros [(K&L&P&_&C) _] (H1&_&H3). split_and!; [congruence|done|]. rewrite L, K. done. Qed.

Lemma cprintf_out fmt args s : fits fmt args = true → can_print s →
  ∃ s', cprintf fmt args s = Ok tt s' ∧ showed (fmt_chars fmt args) s s'.
Proof.
  intros Hf (Hp&Hc&Hl). unfold cprintf. erewrite bind_run by reflexivity. destruct (cn_locking s) eqn:El; unfold when.
  - destruct (Hl eq_refl) as [Hok Hfr].
    assert (E : ck (acquire LCons) s = Ok tt (set_cn_k (acq LCons (cn_k s)) s)).
    { unfold ck, zoom. cbn [con_k lget lset]. by rewrite acquire_run. }
    mrun E. destruct (cprintf_loop_out (length fmt) fmt args (set_cn_k (acq LCons (cn_k s)) s)) as (s1&E1&(H1&H2&H3&H4&H5)&Hd); try done.
    mrun E1. cbn in H1. unfold ck, zoom. cbn [con_k lget lset]. rewrite H1, release_acq' by done.
    eexists. split; [reflexivity|]. split; [by split_and!|exact Hd].
  - erewrite bind_run by reflexivity. destruct (cprintf_loop_out (length fmt) fmt args s) as (s1&E1&H1); try done.
    mrun E1. by exists s1.
Qed.
Lemma cprintf_run fmt args s : fits fmt args = true → cn_panicked s = false → cga_ok s →
  (cn_locking s = true → kst_ok (cn_k s) ∧ is_free LCons (cn_k s)) →
  ∃ s', cprintf fmt args s = Ok tt s' ∧ shown s s'.
Proof. intros Hf Hp Hc Hl. destruct (cprintf_out fmt args s Hf) as (s'&E&[H _]); [by split_and!|]. by exists s'. Qed.

(** The text of the process listing. *)
Definition dump_text (rd : Z → Z) (p : proc) : list Z :=
  if bool_decide (p_state p = UNUSED) then [] else
  fmt_chars (zs "%d %s %s") [PInt (p_pid p); PStr (Some (state_name (p_state p))); PStr (Some (nonzero (p_name p)))] ++
  (if bool_decide (p_state p = SLEEPING)
   then concat ((λ pc, fmt_chars (zs " %p") [PInt pc]) <$> nonzero (getcallerpcs rd (u32 (cx_ebp (p_context p) + 8)))) else []) ++
  [10].

Lemma for_each_out {A} (f : A → M con unit) (g : A → list Z) l : ∀ s, can_print s →
  (∀ x s, can_print s → ∃ s', f x s = Ok tt s' ∧ showed (g x) s s') →
  ∃ s', for_each l f s = Ok tt s' ∧ showed (concat (g <$> l)) s s'.
Proof.
  induction l as [|x l IH]; intros s Hs Hf; cbn [for_each].
  - exists s. split; [done|]. apply showed_nil, Hs.
  - destruct (Hf x s Hs) as (s1&E1&H1). mrun E1.
    destruct (IH s1) as (s2&E2&H2); [by eapply can_print_showed|done|]. exists s2. split; [done|]. by eapply showed_app.
Qed.
Lemma dump_proc_out rd p s : can_print s → ∃ s', dump_proc rd p s = Ok tt s' ∧ showed (dump_text rd p) s s'.
Proof.
  intros Hs. unfold dump_proc, dump_text. destruct (bool_decide (p_state p = UNUSED)); [exists s; split; [done|apply showed_nil, Hs]|].
  edestruct (cprintf_out (zs "%d %s %s")) as (s1&E1&H1); [|exact Hs|mrun E1]; [reflexivity|].
  assert (Hs1 := can_print_showed _ _ _ H1 Hs).
  assert (H2 : ∃ s2, when (bool_decide (p_state p = SLEEPING)) (for_each (nonzero (getcallerpcs rd
      (u32 (cx_ebp (p_context p) + 8)))) (λ pc, cprintf (zs " %p") [PInt pc])) s1 = Ok tt s2 ∧
    showed (if bool_decide (p_state p = SLEEPING) then concat ((λ pc, fmt_chars (zs " %p") [PInt pc]) <$>
      nonzero (getcallerpcs rd (u32 (cx_ebp (p_context p) + 8)))) else []) s1 s2).
  { destruct (bool_decide (p_state p = SLEEPING)); cbn [when]; [|exists s1; split; [done|apply showed_nil, Hs1]].
    apply for_each_out; [done|]. intros pc t Ht. by apply cprintf_out. }
  destruct H2 as (s2&E2&H2). mrun E2. assert (Hs2 := can_print_showed _ _ _ H2 Hs1).
  destruct (cprintf_out [10] [] s2) as (s3&E3&H3); [reflexivity|exact Hs2|]. exists s3. split; [exact E3|].
  eapply showed_app; [exact H1|]. by eapply showed_app.
Qed.
Lemma procdump_out rd s : can_print s →
  ∃ s', procdump rd s = Ok tt s' ∧ showed (concat (dump_text rd <$> k_procs (cn_k s))) s s'.
Proof.
  intros Hs. unfold procdump. erewrite bind_run by reflexivity. apply for_each_out; [done|]. intros. by apply dump_proc_out.
Qed.

(** ** The line editor *)

(** What may be read, the line being edited, and whether a reader was woken. *)
Definition editor : Type := list Z * list Z * bool.

Definition type_char (st : editor) (c : Z) : editor :=
  let '(ready, line, woke) := st in
  if c =? C (zc "P") then st
  else if c =? C (zc "U") then (ready, [], woke)
  else if (c =? C (zc "H")) || (c =? 127) then (ready, removelast line, woke)
  else if (c =? 0) || (128 <=? length ready + length line)%nat then st
  else
    let c := if c =? 13 then 10 else c in
    let line := line ++ [c] in
    if (c =? 10) || (c =? C (zc "D")) || (length ready + length line =? 128)%nat
    then (ready ++ line, [], true) else (ready, line, woke).

Definition ready (n : input) : list Z := take (Z.to_nat (nready n)) (held n).
Definition line (n : input) : list Z := drop (Z.to_nat (nready n)) (held n).

Record con_ok (s : con) : Prop := {
  co_live : cn_panicked s = false;
  co_cga : cga_ok s;
  co_in : in_ok (cn_input s);
  co_line : 10 ∉ line (cn_input s)
}.

Lemma nready_range n : in_ok n → 0 ≤ nready n ≤ Z.of_nat (length (held n)).
Proof.
  intros [_ _ _ _ _ Hk]. rewrite length_held. pose proof (u32_range (in_w n - in_r n)).
  unfold nready in *. lia.
Qed.

Lemma at_line_start n : in_ok n → (in_e n =? in_w n) = (length (line n) =? 0)%nat.
Proof.
  intros Hn. pose proof Hn as [Hd Hr Hw He Hf Hk]. unfold line. rewrite length_drop, length_held.
  destruct (Z.eqb_spec (in_e n) (in_w n)) as [E|E]; symmetry.
  - apply Nat.eqb_eq. unfold nready. rewrite E. lia.
  - apply Nat.eqb_neq. ring_lia.
Qed.

Lemma length_ready_line n : in_ok n →
  (length (ready n) + length (line n))%nat = Z.to_nat (u32 (in_e n - in_r n)).
Proof.
  intros Hn. unfold ready, line. rewrite length_take, length_drop, length_held.
  pose proof (nready_range n Hn). rewrite length_held in *. lia.
Qed.

(** The five ways the ring changes, on the abstract state. *)
Lemma ready_line_put c n : in_ok n → u32 (in_e n - in_r n) < INPUT_BUF →
  in_ok (put_char c n) ∧ ready (put_char c n) = ready n ∧ line (put_char c n) = line n ++ [u8 c].
Proof.
  intros Hn Hl. destruct (held_put c n Hn Hl) as (H1&H2&H3). split; [done|].
  pose proof (nready_range n Hn). unfold ready, line. rewrite H3, H2.
  rewrite take_app_le, drop_app_le by lia. done.
Qed.
Lemma ready_line_back n : in_ok n → in_e n ≠ in_w n →
  let n' := set_in_e (u32 (in_e n - 1)) n in
  in_ok n' ∧ ready n' = ready n ∧ line n' = removelast (line n) ∧
  last (line n) = Some (buf_char (u32 (in_e n - 1)) n).
Proof.
  intros Hn Hne n'. destruct (held_back n Hn Hne) as (H1&H2&H3&H4&H5). fold n' in H1, H2, H3.
  pose proof (nready_range n Hn). unfold ready, line. rewrite H3, H2.
  rewrite !removelast_firstn_len, length_drop. split_and!; [done|..].
  - rewrite take_take. f_equal. lia.
  - rewrite take_drop_commute. do 2 f_equal. lia.
  - rewrite last_lookup, lookup_drop, length_drop, <- H4, last_lookup. f_equal. lia.
Qed.
Lemma ready_line_commit n : in_ok n → let n' := set_in_w (in_e n) n in
  in_ok n' ∧ ready n' = ready n ++ line n ∧ line n' = [].
Proof.
  intros Hn n'. destruct (held_commit n Hn) as (H1&H2&H3). fold n' in H1, H2, H3.
  unfold ready, line. rewrite H3, H2, Nat2Z.id, take_drop. split_and!; [done|by rewrite take_ge by lia|].
  by rewrite drop_ge by lia.
Qed.

Lemma upd_input_run f s : upd_input f s = Ok tt (set_cn_input (f (cn_input s)) s).
Proof. done. Qed.

(** Storing a new ring and echoing a character. *)
Lemma edit_run f c s : con_ok s → in_ok (f (cn_input s)) →
  ∃ s', (upd_input f;; consputc c) s = Ok tt s' ∧ cn_k s' = cn_k s ∧ cn_locking s' = cn_locking s ∧
    cn_panicked s' = false ∧ cga_ok s' ∧ cn_input s' = f (cn_input s) ∧ show [c] (outs s) = Some (outs s').
Proof.
  intros [Hp Hc Hi Hl] Hf. mrun (upd_input_run f s).
  destruct (consputc_out c (set_cn_input (f (cn_input s)) s)) as (s'&E&(Hk&Hlk&Hp'&Hi'&Hc')&Hd); [done|done|].
  exists s'. split_and!; [done|done|done|by rewrite Hp'|done|done|exact Hd].
Qed.

Lemma not_in_removelast (l : list Z) x : x ∉ l → x ∉ removelast l.
Proof. rewrite removelast_firstn_len. intros H1 H2. apply H1. by eapply subseteq_take. Qed.

Lemma kill_run m : ∀ fuel s, con_ok s → length (line (cn_input s)) = m → (m < fuel)%nat →
  ∃ s', loop fuel kill_step tt s = Ok tt s' ∧ con_ok s' ∧ cn_k s' = cn_k s ∧ cn_locking s' = cn_locking s ∧
    ready (cn_input s') = ready (cn_input s) ∧ line (cn_input s') = [] ∧
    show (replicate m BACKSPACE) (outs s) = Some (outs s').
Proof.
  induction m as [|m IH]; intros [|fuel] s Hs Hm Hf; try lia; pose proof Hs as [Hp Hc Hi Hl].
  - exists s. apply nil_length_inv in Hm as Hnil. split_and!; try done.
    apply loop_done. unfold kill_step, mbind, M_bind, gets. by rewrite at_line_start, Hm by done.
  - assert (Hne : in_e (cn_input s) ≠ in_w (cn_input s)).
    { apply Z.eqb_neq. by rewrite at_line_start, Hm. }
    destruct (ready_line_back _ Hi Hne) as (H1&H2&H3&H4).
    set (n := cn_input s) in *. set (f := set_in_e (u32 (in_e n - 1))) in *.
    destruct (edit_run f BACKSPACE s) as (s1&E1&Hk1&Hlk1&Hp1&Hc1&Hi1&Hd1); [done|done|].
    fold n in Hi1.
    destruct (IH fuel s1) as (s2&E2&Ho2&Hk2&Hlk2&Hr2&Hl2&Hd2); [|rewrite Hi1, H3|lia|].
    { split; [done|done|by rewrite Hi1|]. rewrite Hi1, H3. by apply not_in_removelast. }
    { rewrite removelast_firstn_len, length_take. fold n in Hm. lia. }
    exists s2. split_and!; [|done|congruence|congruence|rewrite Hr2, Hi1; exact H2|done|].
    2:{ change (replicate (S m) BACKSPACE) with ([BACKSPACE] ++ replicate m BACKSPACE). by rewrite show_app, Hd1. }
    rewrite <- E2. apply loop_next. unfold kill_step. mrun (eq_refl : gets cn_input s = Ok n s).
    rewrite (proj2 (Z.eqb_neq _ _) Hne). cbn [negb andb].
    rewrite (proj2 (Z.eqb_neq (buf_char _ _) 10)).
    2: { intros E. apply Hl. fold n. rewrite E in H4. apply last_Some in H4 as [l' ->]. set_solver. }
    cbn [negb]. fold f. rewrite (bind_run _ _ _ _ _ (upd_input_run f s)) in E1.
    mrun (upd_input_run f s). by mrun E1.
Qed.

Lemma wake_proc_twice c p : wake_proc c (wake_proc c p) = wake_proc c p.
Proof.
  unfold wake_proc at 2 3. destruct (_ && _) eqn:E; [done|]. unfold wake_proc. by rewrite E.
Qed.
Lemma woken_twice c k : woken c (woken c k) = woken c k.
Proof.
  unfold woken. destruct k as [cp lk ps]. cbn. unfold set_k_procs. cbn. f_equal.
  rewrite <- list_fmap_compose. apply list_fmap_ext. intros i p _. apply wake_proc_twice.
Qed.

(** The kernel state with the readers woken, or not. *)
Definition woken_if (b : bool) (k : kst) : kst := if b then woken CInput k else k.

(** What a key sends to the console: the listing of the processes, as many
    backspaces as characters go, or the character stored. *)
Definition echo (rd : Z → Z) (k : kst) (st : editor) (c : Z) : list Z :=
  let '(ready, line, woke) := st in
  if c =? C (zc "P") then concat (dump_text rd <$> k_procs (woken_if woke k))
  else if c =? C (zc "U") then replicate (length line) BACKSPACE
  else if (c =? C (zc "H")) || (c =? 127) then (if (length line =? 0)%nat then [] else [BACKSPACE])
  else if (c =? 0) || (128 <=? length ready + length line)%nat then []
  else [if c =? 13 then 10 else c].
(** The editor with the output so far. *)
Definition type_key (rd : Z → Z) (k : kst) (x : editor * list Z) (c : Z) : editor * list Z :=
  (type_char x.1 c, x.2 ++ echo rd k x.1 c).

Definition abs (woke : bool) (n : input) : editor := (ready n, line n, woke).

Lemma room_iff n : in_ok n →
  (u32 (in_e n - in_r n) <? INPUT_BUF) = negb (128 <=? length (ready n) + length (line n))%nat.
Proof.
  intros Hn. rewrite length_ready_line by done. pose proof (u32_range (in_e n - in_r n)).
  unfold INPUT_BUF. destruct (Z.ltb_spec (u32 (in_e n - in_r n)) 128); symmetry.
  - apply negb_true_iff, Nat.leb_gt. lia.
  - apply negb_false_iff, Nat.leb_le. lia.
Qed.
Lemma full_iff_128 c n : in_ok n → u32 (in_e n - in_r n) < INPUT_BUF →
  (in_e (put_char c n) =? u32 (in_r n + INPUT_BUF)) =
  (length (ready n) + length (line n ++ [c]) =? 128)%nat.
Proof.
  intros Hn Hl. rewrite length_app, Nat.add_assoc, length_ready_line by done.
  pose proof Hn as [Hd Hr Hw He Hf Hkk]. pose proof (u32_range (in_e n - in_r n)) as H0.
  cbn [length].
  destruct (Z.eqb_spec (in_e (put_char c n)) (u32 (in_r n + INPUT_BUF))) as [E|E]; symmetry.
  - apply Nat.eqb_eq. cut (u32 (in_e n - in_r n) = 127); [lia|]. clear H0. ring_lia.
  - apply Nat.eqb_neq. cut (u32 (in_e n - in_r n) ≠ 127); [lia|]. clear H0. ring_lia.
Qed.

Section Editor.
Variables (rd : Z → Z) (k : kst) (d0 : devices) (lck : bool).
Hypotheses (Hk : kst_ok k) (Hin : is_free LInput k) (Hpt : is_free LPtable k).
Hypothesis Hcons : lck = true → is_free LCons k.

(** The state inside the handler: the lock is held, readers may be woken, and
    [out] has been printed. *)
Definition inside (woke : bool) (out : list Z) (s : con) : Prop :=
  con_ok s ∧ cn_k s = acq LInput (woken_if woke k) ∧ cn_locking s = lck ∧ show out d0 = Some (outs s).

Lemma woken_if_ok b : kst_ok (woken_if b k) ∧ is_free LInput (woken_if b k) ∧ is_free LPtable (woken_if b k).
Proof using Hk Hin Hpt. destruct b; simpl; auto. Qed.
Lemma inside_print woke out s : inside woke out s → can_print s.
Proof using Hk Hcons.
  intros ([Hp Hc _ _]&Ek&El&_). split_and!; [done|done|]. intros Hl. rewrite El in Hl. rewrite Ek. split.
  - apply acq_ok. by destruct woke.
  - apply acq_free_ne; [done|]. destruct woke; [by apply woken_free, Hcons|by apply Hcons].
Qed.

Lemma wakeup_in woke s : cn_k s = acq LInput (woken_if woke k) →
  ck (wakeup CInput) s = Ok tt (set_cn_k (acq LInput (woken CInput k)) s).
Proof using Hk Hin Hpt.
  intros E. destruct (woken_if_ok woke) as (H1&H2&H3). unfold ck, zoom. cbn [con_k lget lset].
  rewrite E, wakeup_acq_run by done. destruct woke; [|done].
  change (Ok () (set_cn_k (acq LInput (woken CInput (woken CInput k))) s) =
    Ok () (set_cn_k (acq LInput (woken CInput k)) s)). by rewrite woken_twice.
Qed.

(** The default case: the character is stored and echoed. *)
Lemma store_char c woke out s : inside woke out s → 0 ≤ c < 256 → c ≠ 13 →
  u32 (in_e (cn_input s) - in_r (cn_input s)) < INPUT_BUF →
  let full := (in_e (put_char c (cn_input s)) =? u32 (in_r (cn_input s) + INPUT_BUF)) in
  ∃ s', (upd_input (put_char c);; consputc c;;
     n ← gets cn_input;
     if (c =? 10) || (c =? C (zc "D")) || (in_e n =? u32 (in_r n + INPUT_BUF)) then
       upd_input (set_in_w (in_e n));; ck (wakeup CInput)
     else mret tt) s = Ok tt s' ∧
    if (c =? 10) || (c =? C (zc "D")) || full
    then inside true (out ++ [c]) s' ∧ abs true (cn_input s') = (ready (cn_input s) ++ line (cn_input s) ++ [c], [], true)
    else inside woke (out ++ [c]) s' ∧ abs woke (cn_input s') = (ready (cn_input s), line (cn_input s) ++ [c], woke).
Proof using All.
  intros (Hs&Ek&El&Hd) Hc H13 Hl full. pose proof Hs as [Hp Hcg Hi Hnl].
  destruct (ready_line_put c _ Hi Hl) as (H1&H2&H3). rewrite u8_small in H3 by done.
  set (n := cn_input s) in *.
  mrun (upd_input_run (put_char c) s).
  destruct (consputc_out c (set_cn_input (put_char c n) s)) as (s1&E1&(Hk1&Hl1&Hp1&Hi1&Hc1)&Hd1); [done|done|].
  assert (Hd2 : show (out ++ [c]) d0 = Some (outs s1)) by (rewrite show_app, Hd; exact Hd1).
  mrun E1. mrun (eq_refl : gets cn_input s1 = Ok (cn_input s1) s1). rewrite Hi1.
  cbn [set_cn_input cn_input]. change (in_r (put_char c n)) with (in_r n). fold full.
  destruct (_ || full) eqn:Ew.
  - mrun (upd_input_run (set_in_w (in_e (put_char c n))) s1). rewrite Hi1. cbn [set_cn_input cn_input].
    destruct (ready_line_commit _ H1) as (H4&H5&H6).
    rewrite (wakeup_in woke) by exact (eq_trans Hk1 Ek).
    eexists. split; [reflexivity|]. split.
    + split_and!; [|done|exact (eq_trans Hl1 El)|exact Hd2].
      split; cbn [set_cn_k set_cn_input cn_panicked cn_input]; [by rewrite Hp1|done|done|].
      rewrite H6. set_solver.
    + unfold abs. cbn [set_cn_k set_cn_input cn_input]. by rewrite H6, H5, H2, H3.
  - exists s1. split; [done|]. split.
    + split_and!; [|by rewrite Hk1|exact (eq_trans Hl1 El)|exact Hd2]. split; [by rewrite Hp1|done|by rewrite Hi1|]. rewrite Hi1.
      cbn [set_cn_input cn_input]. rewrite H3. apply orb_false_iff in Ew as [Ew _].
      apply orb_false_iff in Ew as [Ew _]. apply Z.eqb_neq in Ew. set_solver.
    + unfold abs. rewrite Hi1. cbn [set_cn_input cn_input]. by rewrite H2, H3.
Qed.
Lemma inside_out woke out l s : inside woke out s → l = [] → inside woke (out ++ l) s.
Proof using. intros H ->. by rewrite app_nil_r. Qed.

Lemma dump_run woke out s : inside woke out s →
  ∃ s', procdump rd s = Ok tt s' ∧ inside woke (out ++ concat (dump_text rd <$> k_procs (woken_if woke k))) s' ∧
    cn_input s' = cn_input s.
Proof using Hk Hcons.
  intros Hs. destruct (procdump_out rd s (inside_print _ _ _ Hs)) as (s'&E&(K&L&P&I&C)&Hd).
  destruct Hs as ([Hp Hc Hi Hl]&Ek&El&Hd0). exists s'. split_and!; [done| |done].
  split_and!; [split; [congruence|done|by rewrite I|by rewrite I]|congruence|congruence|]. rewrite show_app, Hd0.
  rewrite Ek in Hd. exact Hd.
Qed.

Lemma char_run c woke out s : inside woke out s → 0 ≤ c < 256 →
  ∃ s' woke', consoleintr_char rd c s = Ok tt s' ∧ inside woke' (out ++ echo rd k (abs woke (cn_input s)) c) s' ∧
    abs woke' (cn_input s') = type_char (abs woke (cn_input s)) c.
Proof using All.
  intros Hs Hc. pose proof Hs as (Hok&Ek&El&Hd). pose proof Hok as [Hp Hcg Hi Hnl].
  unfold consoleintr_char, type_char, echo, abs at 1 3.
  destruct (c =? C (zc "P")).
  { destruct (dump_run woke out s Hs) as (s'&E&Hs'&Hi'). exists s', woke. split_and!; [done|done|]. by rewrite Hi'. }
  destruct (c =? C (zc "U")).
  { destruct (kill_run (length (line (cn_input s))) 129 s) as (s'&E&Ho'&Hk'&Hlk'&Hr'&Hl'&Hd'); [done|done| |].
    { pose proof (length_ready_line _ Hi). pose proof (ik_full _ Hi). unfold INPUT_BUF in *. lia. }
    exists s', woke. split_and!; [done|split_and!; [done|congruence|congruence|by rewrite show_app, Hd]|].
    unfold abs. by rewrite Hr', Hl'. }
  destruct ((c =? C (zc "H")) || (c =? 127)).
  { mrun (eq_refl : gets cn_input s = Ok (cn_input s) s).
    rewrite at_line_start by done. destruct (length (line (cn_input s)) =? 0)%nat eqn:E; cbn [negb].
    - exists s, woke. split_and!; [done|by apply inside_out|]. unfold abs.
      apply Nat.eqb_eq, nil_length_inv in E. by rewrite E.
    - assert (E' : in_e (cn_input s) ≠ in_w (cn_input s)) by (apply Z.eqb_neq; by rewrite at_line_start).
      destruct (ready_line_back _ Hi E') as (H1&H2&H3&_).
      destruct (edit_run (set_in_e (u32 (in_e (cn_input s) - 1))) BACKSPACE s)
        as (s'&Er&Hk'&Hlk'&Hp'&Hc'&Hi'&Hd'); [done|done|].
      exists s', woke. split_and!; [done| |by unfold abs; rewrite Hi', H2, H3].
      split_and!; [|congruence|congruence|by rewrite show_app, Hd].
      split; [done|done|by rewrite Hi'|]. rewrite Hi', H3. by apply not_in_removelast. }
  mrun (eq_refl : gets cn_input s = Ok (cn_input s) s).
  rewrite room_iff by done.
  destruct (Z.eqb_spec c 0) as [->|Hc0]; [exists s, woke; split_and!; [done|by apply inside_out|done]|]. cbn [negb andb orb].
  destruct (128 <=? _)%nat eqn:Efull; cbn [negb]; [exists s, woke; split_and!; [done|by apply inside_out|done]|].
  assert (Hl : u32 (in_e (cn_input s) - in_r (cn_input s)) < INPUT_BUF).
  { apply Z.ltb_lt. by rewrite room_iff, Efull. }
  set (c' := if c =? 13 then 10 else c).
  destruct (store_char c' woke out s) as (s'&E&H); [done|unfold c'; destruct (c =? 13); lia
    |unfold c'; destruct (Z.eqb_spec c 13); lia|done|].
  rewrite full_iff_128 in H by done.
  exists s', ((c' =? 10) || (c' =? C (zc "D")) ||
    (length (ready (cn_input s)) + length (line (cn_input s) ++ [c']) =? 128)%nat || woke).
  split; [done|]. destruct (_ || _ || _); cbn [orb]; exact H.
Qed.

Lemma chars_run cs : ∀ woke out s, inside woke out s → Forall is_byte cs →
  ∃ s' woke' out', for_each cs (consoleintr_char rd) s = Ok tt s' ∧ inside woke' out' s' ∧
    (abs woke' (cn_input s'), out') = foldl (type_key rd k) (abs woke (cn_input s), out) cs.
Proof using All.
  induction cs as [|c cs IH]; intros woke out s Hs Hc; [by exists s, woke, out|].
  inversion Hc as [|? ? Hb Hc']; subst. destruct (char_run c woke out s Hs Hb) as (s1&w1&E1&Hs1&Ha1).
  destruct (IH w1 _ s1 Hs1 Hc') as (s2&w2&o2&E2&Hs2&Ha2).
  exists s2, w2, o2. split_and!; [|done|]; cbn [for_each foldl].
  - by mrun E1.
  - rewrite Ha2. unfold type_key at 3. cbn [fst snd]. by rewrite Ha1.
Qed.

End Editor.

(** C35: the keyboard and serial interrupt handler is a line editor.  Whatever
    bytes arrive, what the reader may take and the line being edited become
    what typing them in turn makes of them: Control-U drops the line,
    Control-H its last character, a newline, Control-D or a full buffer hands
    the line to the readers and wakes them.  The console shows exactly the
    echo: each character stored, in order, one backspace for each character
    that Control-H or Control-U removes, and for Control-P the listing of the
    processes; keys that are ignored show nothing.  That output reaches the
    serial port, if there is one, and the screen, where the cursor stays
    inside.  No character is stored outside the buffer, and the locks are free
    again. *)
Theorem consoleintr_edits rd cs s : con_ok s → Forall is_byte cs →
  kst_ok (cn_k s) → is_free LInput (cn_k s) → is_free LPtable (cn_k s) →
  (cn_locking s = true → is_free LCons (cn_k s)) →
  ∃ s' woke out, consoleintr rd cs s = Ok tt s' ∧ con_ok s' ∧
    (ready (cn_input s'), line (cn_input s'), woke, out) =
      foldl (type_key rd (cn_k s)) (ready (cn_input s), line (cn_input s), false, []) cs ∧
    cn_k s' = (if woke : bool then woken CInput (cn_k s) else cn_k s) ∧
    show out (cn_uart s, cn_crt s, cn_pos s) = Some (cn_uart s', cn_crt s', cn_pos s') ∧
    cn_uart s' = (λ sent, sent ++ concat (uart_bytes <$> out)) <$> cn_uart s.
Proof.
  intros Hok Hc Hk Hin Hpt Hcons. unfold consoleintr.
  assert (E0 : ck (acquire LInput) s = Ok tt (set_cn_k (acq LInput (cn_k s)) s)).
  { unfold ck, zoom. cbn [con_k lget lset]. by rewrite acquire_run. }
  mrun E0.
  destruct (chars_run rd (cn_k s) (outs s) (cn_locking s) Hk Hin Hpt Hcons cs false [] (set_cn_k (acq LInput (cn_k s)) s))
    as (s1&w&o&E1&(Ho1&Hk1&Hl1&Hd1)&Ha1); [split; [|done]; by destruct Hok; split|done|].
  mrun E1. exists (set_cn_k (woken_if w (cn_k s)) s1), w, o. split_and!.
  - unfold ck, zoom. cbn [con_k lget lset]. rewrite Hk1.
    destruct (woken_if_ok (cn_k s) Hk Hin Hpt w) as (H1&H2&_). by rewrite release_acq'.
  - by destruct Ho1; split.
  - exact Ha1.
  - done.
  - exact Hd1.
  - exact (show_serial _ _ _ Hd1).
Qed.

(** ** The reader *)

(** The bytes a call of [consoleread] takes for a buffer of [n], and what is
    left; [fresh] says that nothing was taken yet.  No result: more input is
    needed. *)
Fixpoint take_line (n : nat) (fresh : bool) (l : list Z) : option (list Z * list Z) :=
  match n, l with
  | O, _ => Some ([], l)
  | S _, [] => None
  | S n, c :: l' =>
      if c =? C (zc "D") then Some ([], if fresh then l' else l)
      else if c =? 10 then Some ([c], l')
      else '(out, rest) ← take_line n false l'; Some (c :: out, rest)
  end.

Lemma nothing_ready n : in_ok n → (in_r n =? in_w n) = (length (ready n) =? 0)%nat.
Proof.
  intros Hn. pose proof Hn as [Hd Hr Hw He Hf Hk]. unfold ready. rewrite length_take.
  pose proof (nready_range n Hn).
  destruct (Z.eqb_spec (in_r n) (in_w n)) as [E|E]; symmetry.
  - apply Nat.eqb_eq. unfold nready. rewrite E, Z.sub_diag. done.
  - apply Nat.eqb_neq. cut (0 < nready n); [lia|]. ring_lia.
Qed.

Lemma ready_line_next n : in_ok n → in_r n ≠ in_w n →
  let n' := set_in_r (u32 (in_r n + 1)) n in
  in_ok n' ∧ ready n = buf_char (in_r n) n :: ready n' ∧ line n' = line n.
Proof.
  intros Hn Hne n'. destruct (held_next n Hn Hne) as (H1&H2&H3). fold n' in H1, H2, H3.
  pose proof (nready_range n' H1) as H4. unfold ready, line. rewrite H2, H3.
  rewrite Z2Nat.inj_add by lia. change (Z.to_nat 1) with 1%nat. rewrite Nat.add_1_r. done.
Qed.

Section Reader.
Variables (k : kst) (i : nat) (pr : proc) (target : Z).
Hypotheses (Hk : kst_ok k) (Hin : is_free LInput k) (Hpt : is_free LPtable k).
Hypotheses (Hncli : cpu_ncli (k_cpu k) = 0) (Hcur : cpu_proc (k_cpu k) = Some i).
Hypothesis Hpr : k_procs k !! i = Some pr.

Lemma killed_in s : cn_k s = acq LInput k → ck killed s = Ok (p_killed pr) s.
Proof using Hcur Hpr.
  intros E. unfold ck, zoom. cbn [con_k lget lset]. rewrite E.
  unfold killed, curproc, mbind, M_bind, deref. cbn [acq]. simpl. rewrite Hcur. simpl. rewrite Hpr.
  unfold mret, M_ret. f_equal. rewrite <- E. by destruct s.
Qed.
Lemma sleep_in s : cn_k s = acq LInput k →
  ∃ s', ck (sleep CInput LInput) s = Blocked CInput s' ∧ is_free LInput (cn_k s').
Proof using All.
  intros E. unfold ck, zoom. cbn [con_k lget lset]. rewrite E.
  rewrite (sleep_run i pr); [|done|by apply acq_ok|simpl; lia|simpl; by rewrite lookup_insert_eq
    |by apply acq_free_ne|done|done].
  eexists. split; [done|]. cbn [set_cn_k cn_k]. apply upd_proc_free.
  unfold is_free, rel. simpl. by rewrite lookup_insert_eq.
Qed.

Lemma read_loop fuel : ∀ n acc s, con_ok s → cn_k s = acq LInput k → 0 ≤ n ≤ target →
  (Z.to_nat n < fuel)%nat →
  match take_line (Z.to_nat n) (n =? target) (ready (cn_input s)) with
  | Some (out, rest) =>
      ∃ s', loop fuel (read_step target) (n, acc) s =
        Ok (Some (n - Z.of_nat (length out)), acc ++ out) s' ∧
        con_ok s' ∧ cn_k s' = cn_k s ∧ ready (cn_input s') = rest ∧
        line (cn_input s') = line (cn_input s)
  | None =>
      if p_killed pr then ∃ s', loop fuel (read_step target) (n, acc) s = Ok (None, acc ++ ready (cn_input s)) s' ∧ cn_k s' = cn_k s
      else ∃ s', loop fuel (read_step target) (n, acc) s = Blocked CInput s' ∧ is_free LInput (cn_k s')
  end.
Proof using All.
  induction fuel as [|fuel IH]; intros n acc s Hs Hks Hn Hf; [lia|].
  pose proof Hs as [Hp Hc Hi Hl].
  destruct (decide (n = 0)) as [->|Hn0].
  { cbn [Z.to_nat take_line]. exists s. split_and!; [|done..]. apply loop_done.
    unfold read_step. by rewrite app_nil_r. }
  replace (Z.to_nat n) with (S (Z.to_nat (n - 1))) by lia.
  pose proof (nothing_ready _ Hi) as Hnr.
  destruct (ready (cn_input s)) as [|c0 l0] eqn:Er.
  - cbn [take_line]. cbn [length Nat.eqb] in Hnr. destruct (p_killed pr) eqn:Ekl.
    + exists s. split; [|done]. apply loop_done. unfold read_step.
      rewrite (proj2 (Z.ltb_lt _ _)) by lia. mrun (eq_refl : gets cn_input s = Ok (cn_input s) s).
      rewrite Hnr. mrun (killed_in s Hks). rewrite Ekl. by rewrite app_nil_r.
    + destruct (sleep_in s Hks) as (s'&E&Hfree). exists s'. split; [|done]. cbn [loop].
      unfold mbind at 1, M_bind at 1. unfold read_step.
      rewrite (proj2 (Z.ltb_lt _ _)) by lia. mrun (eq_refl : gets cn_input s = Ok (cn_input s) s).
      rewrite Hnr. mrun (killed_in s Hks). rewrite Ekl. cbn [negb].
      unfold mbind, M_bind. by rewrite E.
  - cbn [length Nat.eqb] in Hnr. apply Z.eqb_neq in Hnr as Hne.
    destruct (ready_line_next _ Hi Hne) as (H1&H2&H3). rewrite Er in H2. injection H2 as Hc0 Hl0.
    set (f := set_in_r (u32 (in_r (cn_input s) + 1))) in *.
    assert (Hstep : read_step target (n, acc) s =
      (let c := c0 in
      upd_input f;;
      if c =? C (zc "D") then
        (if n <? target then upd_input (set_in_r (in_r (cn_input s))) else mret tt);;
        mret (inr (Some n, acc))
      else if c =? 10 then mret (inr (Some (n - 1), acc ++ [c]))
      else mret (inl (n - 1, acc ++ [c]))) s).
    { unfold read_step. rewrite (proj2 (Z.ltb_lt _ _)) by lia.
      mrun (eq_refl : gets cn_input s = Ok (cn_input s) s). rewrite Hnr. by rewrite <- Hc0. }
    cbn zeta in Hstep. rewrite (bind_run _ _ _ _ _ (upd_input_run f s)) in Hstep.
    set (s1 := set_cn_input (f (cn_input s)) s) in *.
    assert (Hok1 : con_ok s1).
    { split; [done|done|done|]. cbn [s1 set_cn_input cn_input]. by rewrite H3. }
    cbn [take_line]. destruct (c0 =? C (zc "D")).
    + destruct (Z.eqb_spec n target) as [->|Hnt].
      * rewrite Z.ltb_irrefl in Hstep. exists s1. split_and!; [|done|done|done|done].
        rewrite app_nil_r, Z.sub_0_r. by apply loop_done.
      * rewrite (proj2 (Z.ltb_lt _ _)) in Hstep by lia. exists s. split_and!; [|done|done|done|done].
        rewrite app_nil_r, Z.sub_0_r. apply loop_done. rewrite Hstep.
        mrun (upd_input_run (set_in_r (in_r (cn_input s))) s1). cbn [s1 set_cn_input cn_input].
        unfold mret, M_ret. f_equal. unfold s1, f, set_in_r. destruct s as [? ? ? [] ? ? ?]. done.
    + destruct (c0 =? 10).
      * exists s1. split_and!; [|done|done|done|done]. by apply loop_done.
      * erewrite loop_next by exact Hstep.
        specialize (IH (n - 1) (acc ++ [c0]) s1 Hok1 Hks ltac:(lia) ltac:(lia)).
        rewrite (proj2 (Z.eqb_neq (n - 1) target)) in IH by lia.
        cbn [s1 set_cn_input cn_input] in IH. rewrite <- Hl0 in IH.
        destruct (take_line _ false l0) as [[out rest]|]; cbn.
        -- destruct IH as (s'&E&Ho&Hk'&Hr'&Hl'). exists s'. split_and!; [|done|done|done|by rewrite Hl'].
           rewrite E, <- app_assoc. do 3 f_equal. cbn [length]. lia.
        -- destruct (p_killed pr); destruct IH as (s'&E&?); exists s'; [|done]. by rewrite <- app_assoc in E.
Qed.
End Reader.

(** C36: what a reader of the console gets: the bytes up to and with the first
    newline, at most [n], in the order they were typed; Control-D ends the
    read early, and is kept for the next call if it did not come first.  The
    rest stays for later readers and the line being edited is not touched.
    When the input does not decide the result yet, a killed process returns
    -1 (the bytes that were ready are in its buffer) and another one sleeps,
    without the lock. *)
Theorem consoleread_correct n s i pr : con_ok s → 0 ≤ n →
  kst_ok (cn_k s) → is_free LInput (cn_k s) → is_free LPtable (cn_k s) →
  cpu_ncli (k_cpu (cn_k s)) = 0 → cpu_proc (k_cpu (cn_k s)) = Some i →
  k_procs (cn_k s) !! i = Some pr →
  match take_line (Z.to_nat n) true (ready (cn_input s)) with
  | Some (out, rest) =>
      ∃ s', read_locked n s = Ok (Z.of_nat (length out), out) s' ∧ con_ok s' ∧
        cn_k s' = cn_k s ∧ ready (cn_input s') = rest ∧ line (cn_input s') = line (cn_input s)
  | None =>
      if p_killed pr then ∃ s', read_locked n s = Ok (-1, ready (cn_input s)) s' ∧ cn_k s' = cn_k s
      else ∃ s', read_locked n s = Blocked CInput s' ∧ is_free LInput (cn_k s')
  end.
Proof.
  intros Hok Hn Hk Hin Hpt Hncli Hcur Hpr.
  assert (E0 : ck (acquire LInput) s = Ok tt (set_cn_k (acq LInput (cn_k s)) s)).
  { unfold ck, zoom. cbn [con_k lget lset]. by rewrite acquire_run. }
  pose proof (read_loop (cn_k s) i pr n Hk Hin Hpt Hncli Hcur Hpr (S (Z.to_nat n)) n []
    (set_cn_k (acq LInput (cn_k s)) s)) as H.
  rewrite Z.eqb_refl in H. cbn [set_cn_k cn_input] in H.
  specialize (H ltac:(by destruct Hok; split) eq_refl ltac:(lia) ltac:(lia)).
  assert (Hrel : ∀ s1, cn_k s1 = acq LInput (cn_k s) →
    ck (release LInput) s1 = Ok tt (set_cn_k (cn_k s) s1)).
  { intros s1 E. unfold ck, zoom. cbn [con_k lget lset]. by rewrite E, release_acq'. }
  unfold read_locked. destruct (take_line _ _ _) as [[out rest]|]; [|destruct (p_killed pr)].
  - destruct H as (s1&E1&Ho&Hk1&Hr&Hl). exists (set_cn_k (cn_k s) s1).
    split_and!; [|by destruct Ho; split|done|done|done].
    mrun E0. mrun E1. mrun (Hrel s1 Hk1). unfold mret, M_ret. cbn [app]. f_equal. f_equal. lia.
  - destruct H as (s1&E1&Hk1). exists (set_cn_k (cn_k s) s1). split; [|done].
    mrun E0. mrun E1. by mrun (Hrel s1 Hk1).
  - destruct H as (s1&E1&Hfree). exists s1. split; [|done].
    mrun E0. unfold mbind, M_bind. by rewrite E1.
Qed.

(** ** An example: two lines, the first with a typing error *)

Definition ex_con : con :=
  Con (Kst (Cpu 0 true 0 true (Some 0%nat))
         {[LInput := lk_free; LPtable := lk_free; LCons := lk_free]} [set_p_state RUNNING proc_zero])
    true false (Input (replicate 128 0) 4294967290 4294967290 4294967290) None (replicate 2000 0) 0.

Lemma ex_con_ok : con_ok ex_con.
Proof.
  split; [done|split; [done|simpl; lia]|split; (done || by vm_compute)|].
  apply (bool_decide_unpack _). vm_compute. exact I.
Qed.

(** The same console with a serial port. *)
Definition ex_con_tty : con := set_cn_uart (Some []) ex_con.
Lemma ex_con_tty_ok : con_ok ex_con_tty.
Proof. destruct ex_con_ok. by split. Qed.

Lemma consoleintr_edits_witness :
  ∃ s' woke out, consoleintr (λ _, 0) [97; 98; 8; 99; 10; 100] ex_con_tty = Ok tt s' ∧
    (ready (cn_input s'), line (cn_input s'), woke, out) = ([97; 99; 10], [100], true, [97; 98; BACKSPACE; 99; 10; 100]) ∧
    cn_uart s' = Some [97; 98; 8; 32; 8; 99; 10; 100].
Proof.
  destruct (consoleintr_edits (λ _, 0) [97; 98; 8; 99; 10; 100] ex_con_tty ex_con_tty_ok) as (s'&w&o&E&_&H&_&_&Hu).
  - repeat constructor; discriminate.
  - by split.
  - reflexivity.
  - reflexivity.
  - intros _. reflexivity.
  - exists s', w, o.
    assert (Hf : foldl (type_key (λ _, 0) (cn_k ex_con_tty)) (ready (cn_input ex_con_tty), line (cn_input ex_con_tty), false, [])
      [97; 98; 8; 99; 10; 100] = ([97; 99; 10], [100], true, [97; 98; BACKSPACE; 99; 10; 100])) by (vm_compute; reflexivity).
    rewrite Hf in H. split; [exact E|]. split; [exact H|]. rewrite Hu. injection H as _ _ _ ->. reflexivity.
Defined.

(** The state after typing a line. *)
Definition ex_con_line : con :=
  set_cn_input (Input (<[125%nat := 10]> (<[124%nat := 99]> (<[123%nat := 97]>
    (<[122%nat := 98]> (replicate 128 0))))) 4294967290 4294967294 4294967294) ex_con.
Lemma ex_con_line_ok : con_ok ex_con_line.
Proof.
  split; [done|split; [done|simpl; lia]|split; (done || by vm_compute)|].
  apply (bool_decide_unpack _). vm_compute. exact I.
Qed.

Lemma consoleread_correct_witness :
  ∃ s', read_locked 3 ex_con_line = Ok (3, [98; 97; 99]) s' ∧ ready (cn_input s') = [10].
Proof.
  assert (H := consoleread_correct 3 ex_con_line 0 (set_p_state RUNNING proc_zero) ex_con_line_ok
    ltac:(lia)).
  assert (E : take_line (Z.to_nat 3) true (ready (cn_input ex_con_line)) = Some ([98; 97; 99], [10]))
    by (vm_compute; reflexivity).
  rewrite E in H. destruct H as (s'&E'&_&_&Hr&_).
  - by split.
  - reflexivity.
  - reflexivity.
  - reflexivity.
  - reflexivity.
  - reflexivity.
  - exists s'. split; [exact E'|exact Hr].
Defined.
