(* ===== verification/Devices.v ===== *)
(** The devices that the kernel sets up when it starts: the interrupt
    controllers (picirq.c, ioapic.c, lapic.c), the timer (timer.c) and the
    serial port (uart.c).

    The code writes bytes to I/O ports and words to memory-mapped registers.
    The controllers at the other end are modelled as far as the code relies
    on them: what the two 8259A make of the bytes they get, the registers
    behind the window of the I/O APIC, and the registers of an 8250. *)
From S2P Require Import Prelude Kmonad Wp Kstate Spinlock Str Kalloc Ide Boot Console Sysfile.

Module Dev.

(** ** The 8250 serial port *)

Definition COM1 : Z := 0x3f8.

Record serial := Serial {
  ua_there : bool;
  ua_rx : list Z;           (* bytes received and not yet read *)
  ua_tx : list Z;           (* bytes sent *)
  ua_busy : nat;            (* status reads until the transmitter is free *)
  ua_regs : Z → Z           (* fifo, line, modem, interrupt control *)
}.
Definition ua_divisor (u : serial) : Z := ua_regs u 16 + 256 * ua_regs u 17.
Definition set_reg (r v : Z) (u : serial) : serial :=
  Serial (ua_there u) (ua_rx u) (ua_tx u) (ua_busy u) (upd (ua_regs u) r v).

(** The divisor latch (16, 17) hides the registers 0 and 1 while bit 7 of the
    line control is set.  A byte written while the transmitter is busy is
    lost. *)
Definition serial_out (r v : Z) (u : serial) : serial :=
  if Z.testbit (ua_regs u 3) 7 && (r <? 2) then set_reg (16 + r) v u
  else if r =? 0 then
    match ua_busy u with
    | O => Serial (ua_there u) (ua_rx u) (ua_tx u ++ [v]) (ua_busy u) (ua_regs u)
    | S _ => u
    end
  else set_reg r v u.
Definition serial_in (r : Z) (u : serial) : Z * serial :=
  if negb (ua_there u) then (0xFF, u)
  else if r =? 5 then
    let rx := if bool_decide (ua_rx u = []) then 0 else 1 in
    match ua_busy u with
    | O => (Z.lor 0x20 rx, u)
    | S n => (rx, Serial (ua_there u) (ua_rx u) (ua_tx u) n (ua_regs u))
    end
  else if r =? 0 then
    (nth 0 (ua_rx u) 0, Serial (ua_there u) (tail (ua_rx u)) (ua_tx u) (ua_busy u) (ua_regs u))
  else (ua_regs u r, u).

(** ** The machine *)

Record dev := Dev_ {
  dv_out : list (Z * Z);     (* bytes written to the other ports *)
  dv_serial : serial;
  dv_irqmask : Z;            (* picirq.c: irqmask *)
  dv_ismp : bool;
  dv_ioapicid : Z;
  dv_ioreg : Z;              (* the register window of the I/O APIC *)
  dv_iodata : Z → Z;
  dv_lapic : bool;           (* lapic != 0 *)
  dv_lareg : Z → Z;          (* lapic[] *)
  dv_lalog : list (Z * Z);   (* the writes to it *)
  dv_deliv : nat;            (* reads until the command is delivered *)
  dv_uart : bool;            (* uart.c: uart *)
  dv_mem : mem
}.
Definition set_out v s := Dev_ v (dv_serial s) (dv_irqmask s) (dv_ismp s) (dv_ioapicid s) (dv_ioreg s) (dv_iodata s)
  (dv_lapic s) (dv_lareg s) (dv_lalog s) (dv_deliv s) (dv_uart s) (dv_mem s).
Definition set_serial v s := Dev_ (dv_out s) v (dv_irqmask s) (dv_ismp s) (dv_ioapicid s) (dv_ioreg s) (dv_iodata s)
  (dv_lapic s) (dv_lareg s) (dv_lalog s) (dv_deliv s) (dv_uart s) (dv_mem s).
Definition set_irqmask v s := Dev_ (dv_out s) (dv_serial s) v (dv_ismp s) (dv_ioapicid s) (dv_ioreg s) (dv_iodata s)
  (dv_lapic s) (dv_lareg s) (dv_lalog s) (dv_deliv s) (dv_uart s) (dv_mem s).
Definition set_ioreg v s := Dev_ (dv_out s) (dv_serial s) (dv_irqmask s) (dv_ismp s) (dv_ioapicid s) v (dv_iodata s)
  (dv_lapic s) (dv_lareg s) (dv_lalog s) (dv_deliv s) (dv_uart s) (dv_mem s).
Definition set_iodata v s := Dev_ (dv_out s) (dv_serial s) (dv_irqmask s) (dv_ismp s) (dv_ioapicid s) (dv_ioreg s) v
  (dv_lapic s) (dv_lareg s) (dv_lalog s) (dv_deliv s) (dv_uart s) (dv_mem s).
Definition set_lapic v w s := Dev_ (dv_out s) (dv_serial s) (dv_irqmask s) (dv_ismp s) (dv_ioapicid s) (dv_ioreg s)
  (dv_iodata s) (dv_lapic s) v w (dv_deliv s) (dv_uart s) (dv_mem s).
Definition set_deliv v s := Dev_ (dv_out s) (dv_serial s) (dv_irqmask s) (dv_ismp s) (dv_ioapicid s) (dv_ioreg s)
  (dv_iodata s) (dv_lapic s) (dv_lareg s) (dv_lalog s) v (dv_uart s) (dv_mem s).
Definition set_uart v s := Dev_ (dv_out s) (dv_serial s) (dv_irqmask s) (dv_ismp s) (dv_ioapicid s) (dv_ioreg s)
  (dv_iodata s) (dv_lapic s) (dv_lareg s) (dv_lalog s) (dv_deliv s) v (dv_mem s).
Definition set_dmem v s := Dev_ (dv_out s) (dv_serial s) (dv_irqmask s) (dv_ismp s) (dv_ioapicid s) (dv_ioreg s)
  (dv_iodata s) (dv_lapic s) (dv_lareg s) (dv_lalog s) (dv_deliv s) (dv_uart s) v.

Definition is_com (port : Z) : bool := (COM1 <=? port) && (port <? COM1 + 8).
Definition out (port v : Z) : M dev unit := modify (λ s,
  if is_com port then set_serial (serial_out (port - COM1) (u8 v) (dv_serial s)) s
  else set_out (dv_out s ++ [(port, u8 v)]) s).
Definition com_in (r : Z) : M dev Z := λ s,
  let '(v, u) := serial_in r (dv_serial s) in Ok v (set_serial u s).

(** ** picirq.c *)

Definition IO_PIC1 : Z := 0x20.
Definition IO_PIC2 : Z := 0xA0.
Definition IRQ_SLAVE : Z := 2.
Definition irqmask0 : Z := Z.land 0xFFFF (Z.lnot (Z.shiftl 1 IRQ_SLAVE)).

Definition picsetmask (mask : Z) : M dev unit :=
  let mask := u16 mask in
  modify (set_irqmask mask);;
  out (IO_PIC1 + 1) mask;;
  out (IO_PIC2 + 1) (Z.shiftr mask 8).

Definition picenable (irq : Z) : M dev unit :=
  mask ← gets dv_irqmask;
  picsetmask (Z.land mask (Z.lnot (Z.shiftl 1 irq))).

Definition picinit : M dev unit :=
  (* mask all interrupts *)
  out (IO_PIC1 + 1) 0xFF;;
  out (IO_PIC2 + 1) 0xFF;;
  (* Set up master (8259A-1) *)
  out IO_PIC1 0x11;;
  out (IO_PIC1 + 1) T_IRQ0;;
  out (IO_PIC1 + 1) (Z.shiftl 1 IRQ_SLAVE);;
  out (IO_PIC1 + 1) 0x3;;
  (* Set up slave (8259A-2) *)
  out IO_PIC2 0x11;;
  out (IO_PIC2 + 1) (T_IRQ0 + 8);;
  out (IO_PIC2 + 1) IRQ_SLAVE;;
  out (IO_PIC2 + 1) 0x3;;
  out IO_PIC1 0x68;;
  out IO_PIC1 0x0a;;
  out IO_PIC2 0x68;;
  out IO_PIC2 0x0a;;
  mask ← gets dv_irqmask;
  when (negb (mask =? 0xFFFF)) (picsetmask mask).

(** ** ioapic.c *)

Definition REG_ID : Z := 0x00.
Definition REG_VER : Z := 0x01.
Definition REG_TABLE : Z := 0x10.
Definition INT_DISABLED : Z := 0x00010000.

Definition ioapicread (reg : Z) : M dev Z :=
  modify (set_ioreg reg);;
  gets (λ s, dv_iodata s (dv_ioreg s)).
Definition ioapicwrite (reg data : Z) : M dev unit :=
  modify (set_ioreg reg);;
  modify (λ s, set_iodata (upd (dv_iodata s) (dv_ioreg s) (u32 data)) s).

(** One turn of the loop over the redirection table. *)
Definition ioapic_clear (i : Z) : M dev unit :=
  ioapicwrite (REG_TABLE + 2 * i) (Z.lor INT_DISABLED (T_IRQ0 + i));;
  ioapicwrite (REG_TABLE + 2 * i + 1) 0.

(** [cprintf] of an unexpected id is left out. *)
Definition ioapicinit : M dev unit :=
  mp ← gets dv_ismp;
  if negb mp then mret tt else
  ver ← ioapicread REG_VER;
  let maxintr := Z.land (Z.shiftr ver 16) 0xFF in
  ioapicread REG_ID;;
  for_each (Z.of_nat <$> seq 0 (Z.to_nat (maxintr + 1))) ioapic_clear.

Definition ioapicenable (irq cpunum : Z) : M dev unit :=
  mp ← gets dv_ismp;
  if negb mp then mret tt else
  ioapicwrite (REG_TABLE + 2 * irq) (T_IRQ0 + irq);;
  ioapicwrite (REG_TABLE + 2 * irq + 1) (Z.shiftl cpunum 24).

(** ** timer.c *)

Definition IO_TIMER1 : Z := 0x040.
Definition TIMER_FREQ : Z := 1193182.
Definition TIMER_DIV (x : Z) : Z := (TIMER_FREQ + x / 2) / x.
Definition TIMER_MODE : Z := IO_TIMER1 + 3.
Definition TIMER_SEL0 : Z := 0x00.
Definition TIMER_RATEGEN : Z := 0x04.
Definition TIMER_16BIT : Z := 0x30.

Definition timerinit : M dev unit :=
  out TIMER_MODE (Z.lor (Z.lor TIMER_SEL0 TIMER_RATEGEN) TIMER_16BIT);;
  out IO_TIMER1 (TIMER_DIV 100 mod 256);;
  out IO_TIMER1 (TIMER_DIV 100 / 256);;
  picenable IRQ_TIMER.

(** ** uart.c *)

(** One turn of the wait for the transmitter. *)
Definition wait_step (i : Z) : M dev (Z + unit) :=
  if i <? 128 then
    st ← com_in 5;
    if nz (Z.land st 0x20) then mret (inr tt) else mret (inl (i + 1))
  else mret (inr tt).

Definition uartputc (c : Z) : M dev unit :=
  u ← gets dv_uart;
  if negb u then mret tt else
  loop 129 wait_step 0;;
  out (COM1 + 0) c.

Definition uartinit : M dev unit :=
  (* Turn off the FIFO *)
  out (COM1 + 2) 0;;
  (* 9600 baud, 8 data bits, 1 stop bit, parity off. *)
  out (COM1 + 3) 0x80;;
  out (COM1 + 0) (115200 / 9600);;
  out (COM1 + 1) 0;;
  out (COM1 + 3) 0x03;;
  out (COM1 + 4) 0;;
  out (COM1 + 1) 0x01;;
  (* If status is 0xFF, no serial port. *)
  st ← com_in 5;
  if st =? 0xFF then mret tt else
  modify (set_uart true);;
  com_in 2;;
  com_in 0;;
  picenable IRQ_COM1;;
  ioapicenable IRQ_COM1 0;;
  (* Announce that we're here. *)
  for_each (zs "xv6..." ++ [10]) uartputc.

Definition uartgetc : M dev Z :=
  u ← gets dv_uart;
  if negb u then mret (-1) else
  st ← com_in 5;
  if negb (nz (Z.land st 0x01)) then mret (-1) else
  com_in 0.

(** What [consoleintr] gets from [uartgetc] before the first -1. *)
Definition uart_chars (fuel : nat) : M dev (list Z) :=
  loop fuel (λ cs, c ← uartgetc; if 0 <=? c then mret (inl (cs ++ [c])) else mret (inr cs)) [].

(** ** lapic.c *)

Definition LA_ID : Z := 0x0020 / 4.
Definition VER : Z := 0x0030 / 4.
Definition TPR : Z := 0x0080 / 4.
Definition EOI : Z := 0x00B0 / 4.
Definition SVR : Z := 0x00F0 / 4.
Definition ENABLE : Z := 0x00000100.
Definition ESR : Z := 0x0280 / 4.
Definition ICRLO : Z := 0x0300 / 4.
Definition INIT : Z := 0x00000500.
Definition STARTUP : Z := 0x00000600.
Definition DELIVS : Z := 0x00001000.
Definition ASSERT : Z := 0x00004000.
Definition LEVEL : Z := 0x00008000.
Definition BCAST : Z := 0x00080000.
Definition ICRHI : Z := 0x0310 / 4.
Definition TIMER : Z := 0x0320 / 4.
Definition X1 : Z := 0x0000000B.
Definition PERIODIC : Z := 0x00020000.
Definition PCINT : Z := 0x0340 / 4.
Definition LINT0 : Z := 0x0350 / 4.
Definition LINT1 : Z := 0x0360 / 4.
Definition ERROR : Z := 0x0370 / 4.
Definition MASKED : Z := 0x00010000.
Definition TICR : Z := 0x0380 / 4.
Definition TDCR : Z := 0x03E0 / 4.
Definition IRQ_ERROR : Z := 19.

(** The read that follows the write has no effect. *)
Definition lapicw (index value : Z) : M dev unit :=
  modify (λ s, set_lapic (upd (dv_lareg s) index (u32 value)) (dv_lalog s ++ [(index, u32 value)]) s).
Definition lapicr (index : Z) : M dev Z := λ s,
  let v := dv_lareg s index in
  if index =? ICRLO then
    match dv_deliv s with
    | O => Ok (Z.land v (Z.lnot DELIVS)) s
    | S n => Ok (Z.lor v DELIVS) (set_deliv n s)
    end
  else Ok v s.

Definition lapicinit : M dev unit :=
  la ← gets dv_lapic;
  if negb la then mret tt else
  lapicw SVR (Z.lor ENABLE (T_IRQ0 + IRQ_SPURIOUS));;
  lapicw TDCR X1;;
  lapicw TIMER (Z.lor PERIODIC (T_IRQ0 + IRQ_TIMER));;
  lapicw TICR 10000000;;
  (* Disable logical interrupt lines. *)
  lapicw LINT0 MASKED;;
  lapicw LINT1 MASKED;;
  ver ← lapicr VER;
  when (4 <=? Z.land (Z.shiftr ver 16) 0xFF) (lapicw PCINT MASKED);;
  lapicw ERROR (T_IRQ0 + IRQ_ERROR);;
  lapicw ESR 0;;
  lapicw ESR 0;;
  lapicw EOI 0;;
  lapicw ICRHI 0;;
  lapicw ICRLO (Z.lor (Z.lor BCAST INIT) LEVEL);;
  n ← gets dv_deliv;
  loop (S n) (λ _, r ← lapicr ICRLO; if nz (Z.land r DELIVS) then mret (inl tt) else mret (inr tt)) tt;;
  lapicw TPR 0.

(** The message printed when interrupts are enabled is left out. *)
Definition cpunum : M dev Z :=
  la ← gets dv_lapic;
  if negb la then mret 0 else
  id ← lapicr LA_ID;
  mret (Z.shiftr id 24).

Definition lapiceoi : M dev unit :=
  la ← gets dv_lapic;
  when la (lapicw EOI 0).

Definition microdelay (us : Z) : M dev unit := mret tt.

Definition IO_RTC : Z := 0x70.
Definition store16 (m : mem) (a w : Z) : mem := upd (upd m a (u8 w)) (a + 1) (u8 (Z.shiftr w 8)).

(** One turn of the loop that sends the startup interrupt. *)
Definition send_startup (apicid addr : Z) : M dev unit :=
  lapicw ICRHI (Z.shiftl apicid 24);;
  lapicw ICRLO (Z.lor STARTUP (Z.shiftr addr 12));;
  microdelay 200.

Definition lapicstartap (apicid addr : Z) : M dev unit :=
  out IO_RTC 0xF;;
  out (IO_RTC + 1) 0x0A;;
  let wrv := p2v (Z.lor (Z.shiftl 0x40 4) 0x67) in
  modify (λ s, set_dmem (store16 (dv_mem s) wrv 0) s);;
  modify (λ s, set_dmem (store16 (dv_mem s) (wrv + 2) (Z.shiftr addr 4)) s);;
  lapicw ICRHI (Z.shiftl apicid 24);;
  lapicw ICRLO (Z.lor (Z.lor INIT LEVEL) ASSERT);;
  microdelay 200;;
  lapicw ICRLO (Z.lor INIT LEVEL);;
  microdelay 100;;
  send_startup apicid addr;;
  send_startup apicid addr.

(** ** The interrupts that main.c turns on

    [consoleinit], [uartinit], [ideinit] and [timerinit] in the order of
    [main], with what they do apart from it left to Console.v and Ide.v. *)
Definition console_irq : M dev unit := picenable IRQ_KBD;; ioapicenable IRQ_KBD 0.
Definition ide_irq (ncpu : Z) : M dev unit := picenable IRQ_IDE;; ioapicenable IRQ_IDE (ncpu - 1).

Definition main_irqs (ncpu : Z) : M dev unit :=
  lapicinit;;
  picinit;;
  ioapicinit;;
  console_irq;;
  uartinit;;
  ide_irq ncpu;;
  mp ← gets dv_ismp;
  when (negb mp) timerinit.
End Dev.
