(* ===== verification/DevLaws.v ===== *)
(** The devices after the kernel has set them up: which interrupts are
    enabled and where they arrive, and what the serial port sends. *)
From S2P Require Import Prelude Kmonad Wp Kstate Spinlock Str Kalloc Ide Boot Console Sysfile Devices.
Import Dev.

(** ** The two 8259A

    A write to the even port with bit 4 set (ICW1) starts an initialisation
    and clears the mask; the next writes to the odd port are ICW2 (the base
    of the vectors), ICW3 if there is a second controller and ICW4 if it was
    asked for; otherwise a write to the odd port sets the mask. *)
Record chip := Chip { c_base : Z; c_mask : Z; c_expect : list nat }.

Definition chip_even (v : Z) (c : chip) : chip :=
  if Z.testbit v 4 then
    Chip (c_base c) 0 (2 :: (if Z.testbit v 1 then [] else [3]) ++ (if Z.testbit v 0 then [4] else []))%nat
  else c.
Definition chip_odd (v : Z) (c : chip) : chip :=
  match c_expect c with
  | 2%nat :: r => Chip (Z.land v 0xF8) (c_mask c) r
  | _ :: r => Chip (c_base c) (c_mask c) r
  | [] => Chip (c_base c) v []
  end.

Definition pics : Type := chip * chip.
Definition pic_write (ps : pics) (w : Z * Z) : pics :=
  if w.1 =? IO_PIC1 then (chip_even w.2 ps.1, ps.2)
  else if w.1 =? IO_PIC1 + 1 then (chip_odd w.2 ps.1, ps.2)
  else if w.1 =? IO_PIC2 then (ps.1, chip_even w.2 ps.2)
  else if w.1 =? IO_PIC2 + 1 then (ps.1, chip_odd w.2 ps.2)
  else ps.
Definition pic_run (ps : pics) (l : list (Z * Z)) : pics := foldl pic_write ps l.

(** The line [irq] of the pair: whether it is enabled, and its vector. *)
Definition line_chip (ps : pics) (irq : Z) : chip := if irq <? 8 then ps.1 else ps.2.
Definition pic_enabled (ps : pics) (irq : Z) : bool := negb (Z.testbit (c_mask (line_chip ps irq)) (irq mod 8)).
Definition pic_vector (ps : pics) (irq : Z) : Z := c_base (line_chip ps irq) + irq mod 8.

(** The controllers are set up and their masks are [m]. *)
Definition pics_at (m : Z) : pics := (Chip 32 (u8 m) [], Chip 40 (u8 (Z.shiftr m 8)) []).

(** ** Runs *)

Definition emit (l : list (Z * Z)) (s : dev) : dev := set_out (dv_out s ++ l) s.
Definition mask_writes (m : Z) : list (Z * Z) := [(IO_PIC1 + 1, u8 m); (IO_PIC2 + 1, u8 (Z.shiftr m 8))].
Definition set_mask (m : Z) (s : dev) : dev := emit (mask_writes m) (set_irqmask m s).
Definition pic_on (irq : Z) (s : dev) : dev :=
  set_mask (u16 (Z.land (dv_irqmask s) (Z.lnot (Z.shiftl 1 irq)))) s.
Definition io_set (reg v : Z) (s : dev) : dev := set_iodata (upd (dv_iodata s) reg (u32 v)) (set_ioreg reg s).
Definition io_entry (i lo hi : Z) (s : dev) : dev :=
  io_set (REG_TABLE + 2 * i + 1) hi (io_set (REG_TABLE + 2 * i) lo s).
Definition io_on (irq cpunum : Z) (s : dev) : dev :=
  if dv_ismp s then io_entry irq (T_IRQ0 + irq) (Z.shiftl cpunum 24) s else s.

Lemma out_run p v s : is_com p = false → Dev.out p v s = Ok tt (emit [(p, u8 v)] s).
Proof. intros E. unfold Dev.out, modify. by rewrite E. Qed.
Lemma emit_emit l l' s : emit l' (emit l s) = emit (l ++ l') s.
Proof. unfold emit; cbn. by rewrite app_assoc. Qed.

Lemma picsetmask_run m s : picsetmask m s = Ok tt (set_mask (u16 m) s).
Proof.
  unfold picsetmask. erewrite bind_run by reflexivity. erewrite bind_run by (by apply out_run).
  rewrite out_run by done. by rewrite emit_emit.
Qed.
Lemma picenable_run irq s : picenable irq s = Ok tt (pic_on irq s).
Proof. unfold picenable. erewrite bind_run by reflexivity. apply picsetmask_run. Qed.

Definition init_writes : list (Z * Z) :=
  [(0x21, 255); (0xA1, 255); (0x20, 0x11); (0x21, 32); (0x21, 4); (0x21, 3); (0xA0, 0x11); (0xA1, 40);
   (0xA1, 2); (0xA1, 3); (0x20, 0x68); (0x20, 0x0a); (0xA0, 0x68); (0xA0, 0x0a)].
Lemma picinit_run s : dv_irqmask s ≠ 0xFFFF →
  picinit s = Ok tt (set_mask (u16 (dv_irqmask s)) (emit init_writes s)).
Proof.
  intros Hm. unfold picinit. do 14 (erewrite bind_run by (by apply out_run)). rewrite !emit_emit.
  erewrite bind_run by reflexivity. change (dv_irqmask (emit _ s)) with (dv_irqmask s).
  rewrite (proj2 (Z.eqb_neq _ _) Hm). apply picsetmask_run.
Qed.

Lemma ioapicwrite_run reg v s : ioapicwrite reg v s = Ok tt (io_set reg v s).
Proof. reflexivity. Qed.
Lemma ioapicenable_run irq c s : ioapicenable irq c s = Ok tt (io_on irq c s).
Proof. unfold ioapicenable, io_on. erewrite bind_run by reflexivity. by destruct (dv_ismp s). Qed.

(** ** Port writes and the controllers *)

Lemma pic_run_app ps l l' : pic_run ps (l ++ l') = pic_run (pic_run ps l) l'.
Proof. apply foldl_app. Qed.
Lemma pics_set m m' : pic_run (pics_at m) (mask_writes m') = pics_at m'.
Proof. reflexivity. Qed.

(** Whatever state the controllers were in, they are set up. *)
Lemma pic_init ps m : pic_run ps (init_writes ++ mask_writes m) = pics_at m.
Proof. destruct ps as [[b1 m1 [|e1 x1]] [b2 m2 [|e2 x2]]]; try destruct e1 as [|[|[|e1]]]; try destruct e2 as [|[|[|e2]]]; reflexivity. Qed.

(** ** The I/O APIC *)

(** The redirection entry of line [i]. *)
Definition io_enabled (d : Z → Z) (i : Z) : bool := negb (Z.testbit (d (REG_TABLE + 2 * i)) 16).
Definition io_vector (d : Z → Z) (i : Z) : Z := u8 (d (REG_TABLE + 2 * i)).
Definition io_dest (d : Z → Z) (i : Z) : Z := Z.shiftr (d (REG_TABLE + 2 * i + 1)) 24.

Lemma io_entry_lo i lo hi s : dv_iodata (io_entry i lo hi s) (REG_TABLE + 2 * i) = u32 lo.
Proof. unfold io_entry, io_set; cbn. rewrite upd_ne by lia. apply upd_eq. Qed.
Lemma io_entry_hi i lo hi s : dv_iodata (io_entry i lo hi s) (REG_TABLE + 2 * i + 1) = u32 hi.
Proof. unfold io_entry, io_set; cbn. apply upd_eq. Qed.
Lemma io_entry_other i j lo hi s : i ≠ j →
  dv_iodata (io_entry i lo hi s) (REG_TABLE + 2 * j) = dv_iodata s (REG_TABLE + 2 * j) ∧
  dv_iodata (io_entry i lo hi s) (REG_TABLE + 2 * j + 1) = dv_iodata s (REG_TABLE + 2 * j + 1).
Proof. intros. unfold io_entry, io_set; cbn. by rewrite !upd_ne by (unfold REG_TABLE; lia). Qed.

(** The table after [ioapicinit], and after lines have been enabled. *)
Definition max_line (s : dev) : Z := Z.land (Z.shiftr (dv_iodata s REG_VER) 16) 0xFF.
Fixpoint io_clear (n : nat) (s : dev) : dev :=
  match n with
  | O => s
  | S k => io_entry (Z.of_nat k) (Z.lor INT_DISABLED (T_IRQ0 + Z.of_nat k)) 0 (io_clear k s)
  end.

Lemma clear_loop n k s : for_each (Z.of_nat <$> seq k n) ioapic_clear (io_clear k s) = Ok tt (io_clear (k + n) s).
Proof.
  revert k. induction n as [|n IH]; intros k; [by rewrite Nat.add_0_r|].
  cbn [seq fmap list_fmap for_each]. erewrite bind_run.
  2:{ unfold ioapic_clear. erewrite bind_run by apply ioapicwrite_run. apply ioapicwrite_run. }
  rewrite Nat.add_succ_r. apply (IH (S k)).
Qed.

Lemma ioapicinit_run s : ioapicinit s = Ok tt
  (if dv_ismp s then io_clear (Z.to_nat (max_line s + 1)) (set_ioreg REG_ID s) else s).
Proof.
  unfold ioapicinit. erewrite bind_run by reflexivity. destruct (dv_ismp s); [|done].
  cbn [negb]. erewrite bind_run by reflexivity. cbv zeta. erewrite bind_run by reflexivity. apply (clear_loop _ 0).
Qed.

(** A line that has been cleared. *)
Lemma io_clear_at n i s : 0 ≤ i < Z.of_nat n → i < 224 →
  let d := dv_iodata (io_clear n s) in
  io_enabled d i = false ∧ io_vector d i = T_IRQ0 + i ∧ io_dest d i = 0.
Proof.
  intros Hi Hs. cbv zeta. unfold io_enabled, io_vector, io_dest. induction n as [|n IH]; [lia|]. cbn [io_clear].
  destruct (decide (i = Z.of_nat n)) as [->|Hne].
  - rewrite io_entry_lo, io_entry_hi.
    assert (Hall : forallb (λ k, let w := u32 (Z.lor INT_DISABLED (T_IRQ0 + Z.of_nat k)) in
      Z.testbit w 16 && (u8 w =? T_IRQ0 + Z.of_nat k)) (seq 0 224) = true) by (vm_compute; reflexivity).
    rewrite forallb_forall in Hall. specialize (Hall n). cbv zeta in Hall.
    apply andb_true_iff in Hall as [-> H2]; [|apply in_seq; lia]. apply Z.eqb_eq in H2. done.
  - destruct (io_entry_other (Z.of_nat n) i (Z.lor INT_DISABLED (T_IRQ0 + Z.of_nat n)) 0 (io_clear n s)) as [-> ->]; [lia|].
    apply IH. lia.
Qed.

(** A line that has been enabled. *)
Lemma io_on_at irq cpunum s : dv_ismp s = true → 0 ≤ irq < 224 → 0 ≤ cpunum < 256 →
  let d := dv_iodata (io_on irq cpunum s) in
  io_enabled d irq = true ∧ io_vector d irq = T_IRQ0 + irq ∧ io_dest d irq = cpunum.
Proof.
  intros Em Hi Hc. cbv zeta. unfold io_on. rewrite Em. unfold io_enabled, io_vector, io_dest.
  rewrite io_entry_lo, io_entry_hi, u32_small, u8_small by (unfold T_IRQ0; lia).
  rewrite Z.shiftl_mul_pow2, Z.shiftr_div_pow2 by lia. change (2 ^ 24) with 16777216.
  rewrite u32_small, Z.div_mul by lia. split_and!; try done.
  rewrite Z.testbit_eqb, Z.div_small by (try change (2 ^ 16) with 65536; unfold T_IRQ0; lia). done.
Qed.
Lemma io_on_other irq cpunum s i : irq ≠ i →
  let d := dv_iodata (io_on irq cpunum s) in
  io_enabled d i = io_enabled (dv_iodata s) i ∧ io_vector d i = io_vector (dv_iodata s) i ∧
  io_dest d i = io_dest (dv_iodata s) i.
Proof.
  intros Hne. cbv zeta. unfold io_on. destruct (dv_ismp s); [|done]. unfold io_enabled, io_vector, io_dest.
  by destruct (io_entry_other irq i (T_IRQ0 + irq) (Z.shiftl cpunum 24) s) as [-> ->].
Qed.

(** ** The serial port *)

Definition idle (u : serial) : serial := Serial (ua_there u) (ua_rx u) (ua_tx u) 0 (ua_regs u).
Definition sent (l : list Z) (u : serial) : serial := Serial (ua_there u) (ua_rx u) (ua_tx u ++ l) 0 (ua_regs u).
(** The port answers and its data register is not hidden. *)
Definition open (u : serial) : Prop := ua_there u = true ∧ Z.testbit (ua_regs u 3) 7 = false.

Lemma set_serial_twice u v s : set_serial u (set_serial v s) = set_serial u s.
Proof. reflexivity. Qed.

(** A read of the line status. *)
Definition tick (u : serial) : serial := Serial (ua_there u) (ua_rx u) (ua_tx u) (pred (ua_busy u)) (ua_regs u).
Definition status (u : serial) : Z :=
  Z.lor (match ua_busy u with O => 0x20 | S _ => 0 end) (if bool_decide (ua_rx u = []) then 0 else 1).

Lemma com_status s : ua_there (dv_serial s) = true →
  com_in 5 s = Ok (status (dv_serial s)) (set_serial (tick (dv_serial s)) s).
Proof.
  destruct s as [? [th rx tx bz rg] ? ? ? ? ? ? ? ? ? ? ?]. cbn. intros ->.
  unfold com_in, serial_in, status, tick; cbn. by destruct bz.
Qed.
Lemma status_free u : nz (Z.land (status u) 0x20) = bool_decide (ua_busy u = 0%nat).
Proof. unfold status. by destruct (ua_busy u); case_bool_decide. Qed.
Lemma status_data u : nz (Z.land (status u) 0x01) = negb (bool_decide (ua_rx u = [])).
Proof. unfold status. by destruct (ua_busy u); case_bool_decide. Qed.
Lemma status_there u : (status u =? 0xFF) = false.
Proof. unfold status. by destruct (ua_busy u); case_bool_decide. Qed.

Lemma wait_run n i fuel s : ua_there (dv_serial s) = true → ua_busy (dv_serial s) = n →
  i + Z.of_nat n ≤ 128 → (n < fuel)%nat →
  loop fuel wait_step i s = Ok tt (set_serial (idle (dv_serial s)) s).
Proof.
  revert i fuel s. induction n as [|n IH]; intros i fuel s Ht Hn Hi Hf; (destruct fuel as [|fuel]; [lia|]).
  - apply loop_done. unfold wait_step. destruct (Z.ltb_spec i 128).
    + mrun (com_status s Ht). rewrite status_free, Hn. unfold tick, idle. by rewrite Hn.
    + destruct s as [? [th rx tx bz rg] ? ? ? ? ? ? ? ? ? ? ?]. cbn in *. by subst.
  - rewrite (loop_next _ _ _ _ (i + 1) (set_serial (tick (dv_serial s)) s)).
    + rewrite IH; cbn; rewrite ?Hn; done || lia.
    + unfold wait_step. rewrite (proj2 (Z.ltb_lt _ _)) by lia. mrun (com_status s Ht). by rewrite status_free, Hn.
Qed.

Lemma uartputc_run c s : dv_uart s = true → open (dv_serial s) → (ua_busy (dv_serial s) ≤ 128)%nat →
  Dev.uartputc c s = Ok tt (set_serial (sent [u8 c] (dv_serial s)) s).
Proof.
  intros Hu [Ht Hd] Hb. unfold Dev.uartputc. erewrite bind_run by reflexivity. rewrite Hu. cbn [negb].
  mrun (wait_run _ 0 129 s Ht eq_refl ltac:(lia) ltac:(lia)).
  unfold Dev.out, modify. change (is_com (COM1 + 0)) with true. cbv iota. rewrite set_serial_twice.
  unfold serial_out. cbn -[Z.testbit]. by rewrite Hd.
Qed.

Lemma sent_open l u : open u → open (sent l u).
Proof. done. Qed.

Lemma uart_puts_run l s : dv_uart s = true → open (dv_serial s) → (ua_busy (dv_serial s) ≤ 128)%nat → l ≠ [] →
  for_each l Dev.uartputc s = Ok tt (set_serial (sent (u8 <$> l) (dv_serial s)) s).
Proof.
  revert s. induction l as [|c l IH]; intros s Hu Ho Hb Hl; [done|]. cbn [for_each].
  mrun (uartputc_run c s Hu Ho Hb). destruct l as [|c' l]; [done|].
  rewrite IH; [|done|by apply sent_open|cbn; lia|done].
  rewrite set_serial_twice. unfold sent; cbn. by rewrite <- app_assoc.
Qed.

(** What the port is set to. *)
Record uart_set (u0 u : serial) : Prop := {
  us_open : open u;
  us_free : ua_busy u = 0%nat;
  us_sent : ua_tx u = ua_tx u0 ++ zs "xv6..." ++ [10];
  us_rate : ua_divisor u = 115200 / 9600;
  us_line : ua_regs u 3 = 0x03;          (* 8 data bits, no parity *)
  us_irq : ua_regs u 1 = 0x01
}.

Definition uart_regs (u : serial) : Z → Z :=
  upd (upd (upd (upd (upd (upd (upd (ua_regs u) 2 0) 3 0x80) 16 12) 17 0) 3 3) 4 0) 1 1.

Lemma out_com r v s : 0 ≤ r < 8 →
  Dev.out (COM1 + r) v s = Ok tt (set_serial (serial_out r (u8 v) (dv_serial s)) s).
Proof.
  intros Hr. unfold Dev.out, modify, is_com.
  rewrite (proj2 (Z.leb_le _ _)), (proj2 (Z.ltb_lt _ _)) by lia. cbn [andb].
  by replace (COM1 + r - COM1) with r by lia.
Qed.
Lemma serial_out_reg r v u : 2 ≤ r → serial_out r v u = set_reg r v u.
Proof.
  intros. unfold serial_out. rewrite (proj2 (Z.ltb_ge _ _)), andb_false_r by lia.
  by rewrite (proj2 (Z.eqb_neq _ _)) by lia.
Qed.
Lemma serial_out_latch r v u : Z.testbit (ua_regs u 3) 7 = true → r < 2 → serial_out r v u = set_reg (16 + r) v u.
Proof. intros E Hr. unfold serial_out. by rewrite E, (proj2 (Z.ltb_lt _ _)) by lia. Qed.
Lemma serial_out_irq v u : Z.testbit (ua_regs u 3) 7 = false → serial_out 1 v u = set_reg 1 v u.
Proof. intros E. unfold serial_out. by rewrite E. Qed.

(** The seven writes that set the port up. *)
Definition uart_setup (u : serial) : serial :=
  Serial (ua_there u) (ua_rx u) (ua_tx u) (ua_busy u) (uart_regs u).
Lemma uart_setup_run u :
  serial_out 1 1 (serial_out 4 0 (serial_out 3 3 (serial_out 1 0 (serial_out 0 12
    (serial_out 3 0x80 (serial_out 2 0 u)))))) = uart_setup u.
Proof.
  rewrite (serial_out_reg 2 0), (serial_out_reg 3 0x80) by lia.
  rewrite (serial_out_latch 0 12), (serial_out_latch 1 0) by (done || lia).
  rewrite (serial_out_reg 3 3), (serial_out_reg 4 0) by lia. by rewrite serial_out_irq.
Qed.

Lemma uartinit_run s : (ua_busy (dv_serial s) ≤ 128)%nat → ∃ u,
  (if ua_there (dv_serial s) then
     uart_set (dv_serial s) u ∧
     Dev.uartinit s = Ok tt (set_serial u (io_on IRQ_COM1 0 (pic_on IRQ_COM1 (set_uart true s))))
   else Dev.uartinit s = Ok tt (set_serial u s)).
Proof.
  intros Hb. set (u1 := uart_setup (dv_serial s)).
  assert (E : Dev.uartinit s = (st ← com_in 5; if st =? 0xFF then mret tt else
    modify (set_uart true);; com_in 2;; com_in 0;; picenable IRQ_COM1;; ioapicenable IRQ_COM1 0;;
    for_each (zs "xv6..." ++ [10]) Dev.uartputc) (set_serial u1 s)).
  { unfold Dev.uartinit. do 7 (erewrite bind_run by (apply out_com; lia)). rewrite !set_serial_twice.
    unfold u1. by rewrite <- (uart_setup_run (dv_serial s)). }
  rewrite E. destruct (ua_there (dv_serial s)) eqn:Ht.
  - mrun (com_status (set_serial u1 s) Ht). rewrite status_there, set_serial_twice. cbn [dv_serial set_serial].
    erewrite bind_run by reflexivity.
    set (u2 := Serial true (tail (ua_rx u1)) (ua_tx u1) (pred (ua_busy u1)) (ua_regs u1)).
    set (s2 := set_serial u2 (set_uart true s)).
    do 2 (erewrite bind_run by (unfold com_in, serial_in; cbn; rewrite Ht; reflexivity)).
    change (set_serial _ (set_serial _ _)) with s2.
    mrun (picenable_run IRQ_COM1 s2). mrun (ioapicenable_run IRQ_COM1 0 (pic_on IRQ_COM1 s2)).
    assert (E3 : io_on IRQ_COM1 0 (pic_on IRQ_COM1 s2)
      = set_serial u2 (io_on IRQ_COM1 0 (pic_on IRQ_COM1 (set_uart true s)))).
    { unfold io_on. cbn [dv_ismp pic_on set_mask emit set_out set_irqmask s2 set_serial set_uart].
      by destruct (dv_ismp s). }
    assert (E4 : dv_uart (io_on IRQ_COM1 0 (pic_on IRQ_COM1 (set_uart true s))) = true)
      by (unfold io_on; by destruct (dv_ismp _)).
    rewrite E3, uart_puts_run; [|exact E4|done|cbn; lia|done].
    exists (sent (u8 <$> zs "xv6..." ++ [10]) u2). split; [|done]. by split.
  - exists u1. erewrite bind_run by (unfold com_in, serial_in; cbn; rewrite Ht; reflexivity). by rewrite set_serial_twice.
Qed.

(** ** All interrupts *)

(** Code that returns and changes nothing but the local APIC, and not its
    number. *)
Definition la_only {A} (m : M dev A) : Prop := ∀ s, ∃ a r l n,
  m s = Ok a (set_lapic r l (set_deliv n s)) ∧ r LA_ID = dv_lareg s LA_ID.

Lemma la_bind {A B} (m : M dev A) (k : A → M dev B) : la_only m → (∀ a, la_only (k a)) → la_only (m ≫= k).
Proof.
  intros Hm Hk s. destruct (Hm s) as (a&r&l&n&E&Ei). mrun E.
  destruct (Hk a (set_lapic r l (set_deliv n s))) as (b&r'&l'&n'&E'&Ei'). rewrite E'. eexists b, r', l', n'. split; [done|].
  by rewrite Ei'.
Qed.
Lemma la_same {A} (m : M dev A) : (∀ s, ∃ a, m s = Ok a s) → la_only m.
Proof.
  intros Hm s. destruct (Hm s) as [a E]. exists a, (dv_lareg s), (dv_lalog s), (dv_deliv s). rewrite E. by destruct s.
Qed.
Lemma la_w i v : i ≠ LA_ID → la_only (lapicw i v).
Proof. intros Hi s. eexists tt, _, _, (dv_deliv s). split; [by destruct s|]. by rewrite upd_ne. Qed.
Lemma la_r i : la_only (lapicr i).
Proof.
  intros s. unfold lapicr. destruct (i =? ICRLO); [destruct (dv_deliv s) eqn:Hd|].
  - eexists _, (dv_lareg s), (dv_lalog s), 0%nat. split; [|done]. f_equal. destruct s; cbn in *. by subst.
  - by eexists _, (dv_lareg s), (dv_lalog s), _.
  - eexists _, (dv_lareg s), (dv_lalog s), (dv_deliv s). by destruct s.
Qed.

(** The wait for delivery ends. *)
Definition deliv_wait : M dev unit :=
  n ← gets dv_deliv;
  loop (S n) (λ _, r ← lapicr ICRLO; if nz (Z.land r DELIVS) then mret (inl tt) else mret (inr tt)) tt.

Lemma delivs_bit v : nz (Z.land (Z.lor v DELIVS) DELIVS) = true ∧ nz (Z.land (Z.land v (Z.lnot DELIVS)) DELIVS) = false.
Proof.
  assert (E1 : Z.land (Z.lor v DELIVS) DELIVS = DELIVS) by (rewrite Z.land_lor_distr_l; apply Z.bits_inj'; intros i Hi;
    rewrite Z.lor_spec, !Z.land_spec; by destruct (Z.testbit v i), (Z.testbit DELIVS i)).
  assert (E2 : Z.land (Z.land v (Z.lnot DELIVS)) DELIVS = 0).
  { rewrite <- Z.land_assoc. replace (Z.land (Z.lnot DELIVS) DELIVS) with 0 by reflexivity. apply Z.land_0_r. }
  by rewrite E1, E2.
Qed.

Lemma la_wait : la_only deliv_wait.
Proof.
  intros s. unfold deliv_wait. erewrite bind_run by reflexivity.
  exists tt, (dv_lareg s), (dv_lalog s), 0%nat. split; [|done]. remember (dv_deliv s) as n eqn:Hn. symmetry in Hn.
  revert s Hn. induction n as [|n IH]; intros s Hn.
  - apply loop_done. unfold mbind, M_bind, lapicr. change (ICRLO =? ICRLO) with true. cbv iota. rewrite Hn.
    destruct (delivs_bit (dv_lareg s ICRLO)) as [_ ->]. unfold mret, M_ret. f_equal. destruct s; cbn in *. by subst.
  - rewrite (loop_next _ _ _ _ tt (set_deliv n s)); [by rewrite IH|].
    unfold mbind, M_bind, lapicr. change (ICRLO =? ICRLO) with true. cbv iota. rewrite Hn.
    by destruct (delivs_bit (dv_lareg s ICRLO)) as [-> _].
Qed.

Lemma lapicinit_only : la_only lapicinit.
Proof.
  unfold lapicinit. apply la_bind; [by apply la_same; eexists|]. intros la. destruct la; cbn [negb]; [|by apply la_same; eexists].
  do 6 (apply la_bind; [by apply la_w|intros []]). apply la_bind; [apply la_r|intros ver].
  apply la_bind; [unfold when; destruct (4 <=? _); [by apply la_w|by apply la_same; eexists]|intros []].
  do 6 (apply la_bind; [by apply la_w|intros []]).
  intros s. pose proof (la_bind deliv_wait (λ _, lapicw TPR 0) la_wait (λ _, la_w TPR 0 ltac:(done)) s) as H.
  unfold deliv_wait in H. by rewrite bind_assoc in H.
Qed.

(** The lines that are to be on, at the 8259A and at the I/O APIC. *)
Definition pic_lines (there mp : bool) : list Z :=
  [IRQ_KBD; IRQ_IDE; IRQ_SLAVE] ++ (if there then [IRQ_COM1] else []) ++ (if mp then [] else [IRQ_TIMER]).
Definition apic_lines (there : bool) : list Z := [IRQ_KBD; IRQ_IDE] ++ (if there then [IRQ_COM1] else []).

(** The 8259A have been set up and their mask is [m]. *)
Definition pic_ok (ps : pics) (m : Z) (s : dev) : Prop :=
  dv_irqmask s = m ∧ pic_run ps (dv_out s) = pics_at m.
Definition without (irq m : Z) : Z := u16 (Z.land m (Z.lnot (Z.shiftl 1 irq))).

Lemma pic_ok_on ps m irq s : pic_ok ps m s → pic_ok ps (without irq m) (pic_on irq s).
Proof. intros [<- H]. split; [done|]. cbn [pic_on set_mask emit set_out set_irqmask dv_out]. rewrite pic_run_app, H. apply pics_set. Qed.
Lemma pic_ok_io ps m irq c s : pic_ok ps m s → pic_ok ps m (io_on irq c s).
Proof. intros H. unfold io_on. destruct (dv_ismp s); exact H. Qed.
Lemma pic_ok_emit ps m l s : (∀ p : pics, pic_run p l = p) → pic_ok ps m s → pic_ok ps m (emit l s).
Proof. intros Hl [H1 H2]. split; [done|]. cbn. by rewrite pic_run_app, H2, Hl. Qed.

(** The interrupt controllers are neither memory nor local APIC. *)
Definition kept (s s' : dev) : Prop := dv_mem s' = dv_mem s ∧ dv_lareg s' = dv_lareg s.
Lemma io_clear_frame n s : dv_out (io_clear n s) = dv_out s ∧ dv_irqmask (io_clear n s) = dv_irqmask s ∧
  dv_ismp (io_clear n s) = dv_ismp s ∧ dv_serial (io_clear n s) = dv_serial s ∧ dv_uart (io_clear n s) = dv_uart s ∧ kept s (io_clear n s).
Proof. induction n as [|n IH]; [done|]. exact IH. Qed.
Lemma kept_on irq c s : kept s (io_on irq c (pic_on irq s)).
Proof. unfold io_on. by destruct (dv_ismp _). Qed.
Lemma io_on_ismp irq c s : dv_ismp (io_on irq c s) = dv_ismp s.
Proof. unfold io_on. destruct (dv_ismp s) eqn:E; exact E. Qed.
Lemma io_on_serial irq c s : dv_serial (io_on irq c s) = dv_serial s.
Proof. unfold io_on. by destruct (dv_ismp s). Qed.

(** The masks that result. *)
Lemma pic_lines_ok (there mp : bool) irq : 0 ≤ irq < 16 →
  let m1 := without IRQ_KBD irqmask0 in
  let m2 := if there then without IRQ_COM1 m1 else m1 in
  let m3 := without IRQ_IDE m2 in
  let m := if mp then m3 else without IRQ_TIMER m3 in
  pic_vector (pics_at m) irq = T_IRQ0 + irq ∧ pic_enabled (pics_at m) irq = bool_decide (irq ∈ pic_lines there mp).
Proof.
  intros Hi. cbv zeta. set (m := if mp then _ else _).
  assert (Hall : forallb (λ k, let i := Z.of_nat k in (pic_vector (pics_at m) i =? T_IRQ0 + i) &&
    Bool.eqb (pic_enabled (pics_at m) i) (bool_decide (i ∈ pic_lines there mp))) (seq 0 16) = true)
    by (unfold m; destruct there, mp; vm_compute; reflexivity).
  rewrite forallb_forall in Hall. specialize (Hall (Z.to_nat irq)). rewrite Z2Nat.id in Hall by lia.
  cbv zeta in Hall. apply andb_true_iff in Hall as [H1 H2]; [|apply in_seq; lia].
  split; [by apply Z.eqb_eq|by apply Bool.eqb_prop].
Qed.

(** The redirection table of line [i]: as cleared, or enabled. *)
Definition entry_ok (d : Z → Z) (i : Z) (dest : option Z) : Prop :=
  io_vector d i = T_IRQ0 + i ∧
  match dest with Some c => io_enabled d i = true ∧ io_dest d i = c | None => io_enabled d i = false end.

Lemma entry_ok_on d irq c i dest s : dv_iodata s = d → dv_ismp s = true → 0 ≤ irq < 224 → 0 ≤ c < 256 →
  entry_ok d i dest → entry_ok (dv_iodata (io_on irq c s)) i (if decide (irq = i) then Some c else dest).
Proof.
  intros <- Hm Hi Hc [H1 H2]. unfold entry_ok. destruct (decide (irq = i)) as [->|Hne].
  - destruct (io_on_at i c s Hm Hi Hc) as (E1&E2&E3). done.
  - destruct (io_on_other irq c s i Hne) as (E1&E2&E3). rewrite E1, E2, E3. done.
Qed.

(** What is on after the first [k] steps of [main_irqs]. *)
Lemma console_irq_run s : console_irq s = Ok tt (io_on IRQ_KBD 0 (pic_on IRQ_KBD s)).
Proof. unfold console_irq. mrun (picenable_run IRQ_KBD s). apply ioapicenable_run. Qed.
Lemma ide_irq_run ncpu s : ide_irq ncpu s = Ok tt (io_on IRQ_IDE (ncpu - 1) (pic_on IRQ_IDE s)).
Proof. unfold ide_irq. mrun (picenable_run IRQ_IDE s). apply ioapicenable_run. Qed.

Definition timer_writes : list (Z * Z) := [(TIMER_MODE, 0x34); (IO_TIMER1, 156); (IO_TIMER1, 46)].
Lemma timerinit_run s : timerinit s = Ok tt (pic_on IRQ_TIMER (emit timer_writes s)).
Proof.
  unfold timerinit. do 3 (erewrite bind_run by (by apply out_run)). rewrite !emit_emit. apply picenable_run.
Qed.

(** The controllers, the I/O APIC and the serial port at a step of [main_irqs]. *)
Record irqs_at (s0 : dev) (ps : pics) (m : Z) (dest : Z → option Z) (s : dev) : Prop := {
  iq_pic : pic_ok ps m s;
  iq_mp : dv_ismp s = dv_ismp s0;
  iq_io : dv_ismp s0 = true → ∀ i, 0 ≤ i ≤ max_line s0 → i < 224 → entry_ok (dv_iodata s) i (dest i)
}.
Definition put (i c : Z) (f : Z → option Z) : Z → option Z := λ j, if decide (i = j) then Some c else f j.

Lemma irqs_on s0 ps m f s irq c : irqs_at s0 ps m f s → 0 ≤ irq < 224 →
  (dv_ismp s0 = true → 0 ≤ c < 256) → irqs_at s0 ps (without irq m) (put irq c f) (io_on irq c (pic_on irq s)).
Proof.
  intros [H1 H2 H3] Hi Hc. split.
  - by apply pic_ok_io, pic_ok_on.
  - by rewrite io_on_ismp.
  - intros Hm i Hr Hs. apply (entry_ok_on (dv_iodata s)); try done; [change (dv_ismp s = true); congruence|auto|auto].
Qed.

(** [picinit] and [ioapicinit]. *)
Lemma pic_start s ps : dv_out s = [] → dv_irqmask s = irqmask0 → ∃ s1,
  picinit s = Ok tt s1 ∧ pic_ok ps irqmask0 s1 ∧ s1 = set_out (dv_out s1) (set_irqmask (dv_irqmask s1) s).
Proof.
  intros Ho Hm. rewrite picinit_run by by rewrite Hm. rewrite Hm. change (u16 irqmask0) with irqmask0.
  eexists. split; [reflexivity|]. split; [|by destruct s]. split; [done|].
  cbn [set_mask emit set_out set_irqmask dv_out]. rewrite Ho. apply pic_init.
Qed.
Lemma io_start s ps : pic_ok ps irqmask0 s → ∃ s1,
  ioapicinit s = Ok tt s1 ∧ irqs_at s ps irqmask0 (λ _, None) s1 ∧ dv_serial s1 = dv_serial s ∧ dv_uart s1 = dv_uart s ∧ kept s s1.
Proof.
  intros Hp. rewrite ioapicinit_run. destruct (dv_ismp s) eqn:Hmp; (eexists; split; [reflexivity|]).
  - destruct (io_clear_frame (Z.to_nat (max_line s + 1)) (set_ioreg REG_ID s)) as (F1&F2&F3&F4&F5&F6).
    split; [|by rewrite F4, F5]. split.
    + destruct Hp as [P1 P2]. split; [by rewrite F2|]. rewrite F1. exact P2.
    + rewrite F3, Hmp. exact Hmp.
    + intros _ i Hi Hs. destruct (io_clear_at (Z.to_nat (max_line s + 1)) i (set_ioreg REG_ID s)) as (A&B&_); [lia|lia|].
      by split.
  - split; [|done]. split; [done|by rewrite Hmp|by rewrite Hmp].
Qed.

Lemma irqs_init s ps : dv_out s = [] → dv_irqmask s = irqmask0 → ∃ s1,
  (lapicinit;; picinit;; ioapicinit) s = Ok tt s1 ∧ irqs_at s ps irqmask0 (λ _, None) s1 ∧
  dv_serial s1 = dv_serial s.
Proof.
  intros Ho Hm. destruct (lapicinit_only s) as ([]&r&l&n&E&_). mrun E. set (s1 := set_lapic r l (set_deliv n s)).
  destruct (pic_start s1 ps Ho Hm) as (s2&E2&P2&F2). mrun E2. destruct (io_start s2 ps P2) as (s3&E3&[I1 I2 I3]&Es&_).
  exists s3. split; [done|]. rewrite F2 in I2, I3, Es. by split; [split|].
Qed.

Lemma irqs_uart s0 ps m f s : irqs_at s0 ps m f s → (ua_busy (dv_serial s) ≤ 128)%nat → ∃ s',
  Dev.uartinit s = Ok tt s' ∧
  irqs_at s0 ps (if ua_there (dv_serial s) then without IRQ_COM1 m else m)
    (if ua_there (dv_serial s) then put IRQ_COM1 0 f else f) s' ∧ kept s s'.
Proof.
  intros H Hb. destruct (uartinit_run s Hb) as [u Hu]. destruct (ua_there (dv_serial s)).
  - destruct Hu as [_ E]. rewrite E. eexists; split; [reflexivity|]. split; [|unfold io_on; by destruct (dv_ismp _)].
    assert (H' : irqs_at s0 ps m f (set_uart true s)) by by destruct H.
    destruct (irqs_on s0 ps m f _ IRQ_COM1 0 H') as [A B C]; [vm_compute; done|lia|]. by split.
  - rewrite Hu. eexists; split; [reflexivity|]. split; [|done]. by destruct H.
Qed.

Lemma irqs_timer s0 ps m f s : irqs_at s0 ps m f s → ∃ s',
  (mp ← gets dv_ismp; when (negb mp) timerinit) s = Ok tt s' ∧
  irqs_at s0 ps (if dv_ismp s0 then m else without IRQ_TIMER m) f s'.
Proof.
  intros H. erewrite bind_run by reflexivity. rewrite (iq_mp _ _ _ _ _ H). unfold when.
  destruct (dv_ismp s0) eqn:Hmp; cbn [negb].
  - by exists s.
  - rewrite timerinit_run. eexists; split; [reflexivity|]. destruct H as [A B C]. split; [|exact B|by rewrite Hmp].
    apply pic_ok_on, pic_ok_emit; [|done]. by intros [c1 c2].
Qed.

(** Where a line of the I/O APIC goes. *)
Definition route (there : bool) (ncpu i : Z) : option Z :=
  if bool_decide (i ∈ apic_lines there) then Some (if i =? IRQ_IDE then ncpu - 1 else 0) else None.

Lemma route_put (there : bool) ncpu i :
  put IRQ_IDE (ncpu - 1) (if there then put IRQ_COM1 0 (put IRQ_KBD 0 (λ _, None)) else put IRQ_KBD 0 (λ _, None)) i
  = route there ncpu i.
Proof.
  unfold put, route. destruct (decide (IRQ_IDE = i)) as [<-|H1]; [by destruct there|].
  rewrite (proj2 (Z.eqb_neq i IRQ_IDE)) by congruence.
  assert (Hin : i ∈ apic_lines there ↔ IRQ_KBD = i ∨ there = true ∧ IRQ_COM1 = i).
  { unfold apic_lines. destruct there; rewrite !elem_of_app, !elem_of_cons, !elem_of_nil; naive_solver. }
  rewrite (bool_decide_ext _ _ Hin). destruct there; repeat case_decide; case_bool_decide; naive_solver.
Qed.

(** The interrupts the kernel turns on: after the start of the devices as
    [main] does it, whatever state the interrupt controllers were in, every
    line [irq] arrives at vector [T_IRQ0 + irq]; the 8259A have exactly the
    keyboard, the disk, the cascade, the serial port if there is one, and on a
    uniprocessor the timer enabled; on a multiprocessor the I/O APIC has
    exactly the first, the second and the fourth of these enabled, the disk
    for the last processor and the others for processor 0. *)
Theorem main_irqs_correct ncpu s ps :
  dv_out s = [] → dv_irqmask s = irqmask0 → (ua_busy (dv_serial s) ≤ 128)%nat → 1 ≤ ncpu ≤ Z.of_nat Mp.NCPU →
  ∃ s', main_irqs ncpu s = Ok tt s' ∧
    (∀ irq, 0 ≤ irq < 16 →
      pic_vector (pic_run ps (dv_out s')) irq = T_IRQ0 + irq ∧
      pic_enabled (pic_run ps (dv_out s')) irq
      = bool_decide (irq ∈ pic_lines (ua_there (dv_serial s)) (dv_ismp s))) ∧
    (dv_ismp s = true → ∀ i, 0 ≤ i ≤ max_line s → i < 224 →
      entry_ok (dv_iodata s') i (route (ua_there (dv_serial s)) ncpu i)).
Proof.
  intros Ho Hm Hb Hn. change (Z.of_nat Mp.NCPU) with 8 in Hn.
  destruct (irqs_init s ps Ho Hm) as (s1&E1&I1&Es).
  assert (E0 : main_irqs ncpu s = ((lapicinit;; picinit;; ioapicinit) ≫= λ _, console_irq;; Dev.uartinit;; ide_irq ncpu;;
    mp ← gets dv_ismp; when (negb mp) timerinit) s).
  { unfold main_irqs. unfold mbind, M_bind. destruct (lapicinit s) as [? t| | | | |]; try done. by destruct (picinit t). }
  rewrite E0. mrun E1. mrun (console_irq_run s1).
  pose proof (irqs_on _ _ _ _ s1 IRQ_KBD 0 I1 ltac:(vm_compute; done) ltac:(lia)) as I2.
  destruct (irqs_uart _ _ _ _ _ I2) as (s3&E3&I3&_); [by rewrite io_on_serial; cbn; rewrite Es|].
  rewrite io_on_serial in I3. cbn [dv_serial pic_on set_mask emit set_out set_irqmask] in I3. rewrite Es in I3.
  mrun E3. mrun (ide_irq_run ncpu s3).
  pose proof (irqs_on _ _ _ _ s3 IRQ_IDE (ncpu - 1) I3 ltac:(vm_compute; done) ltac:(lia)) as I4.
  destruct (irqs_timer _ _ _ _ _ I4) as (s5&E5&[[_ Hp] _ Hio]). exists s5. split; [exact E5|]. split.
  - intros irq Hi. rewrite Hp. by apply pic_lines_ok.
  - intros Hmp i Hi Hs. rewrite <- route_put. by apply Hio.
Qed.

(** A multiprocessor with 24 lines and a serial port. *)
Definition demo_dev : dev :=
  Dev_ [] (Serial true [65] [] 3 (λ _, 0)) irqmask0 true 2 0 (λ r, if r =? REG_VER then 0x170011 else 0)
    true (λ _, 0) [] 2 false (λ _, 0).

Lemma main_irqs_correct_witness : ∃ s', main_irqs 2 demo_dev = Ok tt s' ∧
  entry_ok (dv_iodata s') IRQ_IDE (Some 1) ∧ entry_ok (dv_iodata s') 5 None.
Proof.
  destruct (main_irqs_correct 2 demo_dev (Chip 0 0 [], Chip 0 0 []) eq_refl eq_refl) as (s'&E&_&H).
  - cbn. lia.
  - vm_compute. split; discriminate.
  - exists s'. split; [exact E|]. split.
    + apply (H eq_refl IRQ_IDE); vm_compute; [split; discriminate|reflexivity].
    + apply (H eq_refl 5); vm_compute; [split; discriminate|reflexivity].
Defined.

(** ** The serial port as the console sees it *)

(** The port can be used: the invariant of uart.c once it is set up. *)
Definition uart_ok (d : dev) : Prop :=
  dv_uart d = true → open (dv_serial d) ∧ (ua_busy (dv_serial d) ≤ 128)%nat.
(** The console's view: the bytes sent, if there is a port. *)
Definition uart_rep (d : dev) (c : con) : Prop :=
  cn_uart c = if dv_uart d then Some (ua_tx (dv_serial d)) else None.

Definition received (rx : list Z) (u : serial) : serial :=
  Serial (ua_there u) rx (ua_tx u) (pred (ua_busy u)) (ua_regs u).

Lemma uartgetc_some s c rx : dv_uart s = true → open (dv_serial s) → ua_rx (dv_serial s) = c :: rx →
  uartgetc s = Ok c (set_serial (received rx (dv_serial s)) s).
Proof.
  intros Hu [Ht Hd] Hr. unfold uartgetc. erewrite bind_run by reflexivity. rewrite Hu. cbn [negb].
  mrun (com_status s Ht). rewrite status_data, Hr, bool_decide_false by done. cbn [negb].
  unfold com_in, serial_in, received. cbn. rewrite Ht, Hr. reflexivity.
Qed.
Lemma uartgetc_none s : (dv_uart s = true → open (dv_serial s) ∧ ua_rx (dv_serial s) = []) →
  ∃ u, uartgetc s = Ok (-1) (set_serial u s) ∧ ua_tx u = ua_tx (dv_serial s).
Proof.
  intros H. unfold uartgetc. erewrite bind_run by reflexivity. destruct (dv_uart s).
  - destruct (H eq_refl) as [[Ht Hd] Hr]. cbn [negb]. mrun (com_status s Ht).
    rewrite status_data, Hr, bool_decide_true by done. cbn [negb]. by eexists.
  - exists (dv_serial s). split; [by destruct s|done].
Qed.

Lemma uart_drain rx fuel acc s : dv_uart s = true → open (dv_serial s) → ua_rx (dv_serial s) = rx →
  Forall is_byte rx → (length rx < fuel)%nat →
  ∃ u, loop fuel (λ cs, c ← uartgetc; if 0 <=? c then mret (inl (cs ++ [c])) else mret (inr cs)) acc s
    = Ok (acc ++ rx) (set_serial u s) ∧ ua_tx u = ua_tx (dv_serial s).
Proof.
  revert fuel acc s. induction rx as [|c rx IH]; intros fuel acc s Hu Ho Hr Hb Hf; (destruct fuel as [|fuel]; [cbn in Hf; lia|]).
  - destruct (uartgetc_none s) as (u&E&Et); [done|]. exists u. split; [|done]. apply loop_done. mrun E. by rewrite app_nil_r.
  - inversion Hb as [|? ? [Hc _] Hb']; subst.
    rewrite (loop_next _ _ _ _ (acc ++ [c]) (set_serial (received rx (dv_serial s)) s)).
    2:{ mrun (uartgetc_some s c rx Hu Ho Hr). by rewrite (proj2 (Z.leb_le _ _)). }
    destruct (IH fuel (acc ++ [c]) (set_serial (received rx (dv_serial s)) s)) as (u&E&Et); try done; [cbn in Hf; lia|].
    exists u. rewrite E, set_serial_twice, <- app_assoc. done.
Qed.

(** The serial driver does what the console takes it to do: [uartputc]
    sends one byte on a port that was found and nothing otherwise, within the
    bound of its wait, as the console's view of the port has it; the loop of
    [uartintr] delivers exactly the bytes received; and the set-up puts the
    port in the state both need, at 9600 baud. *)
Theorem uart_refines_console :
  (∀ d c ch, uart_ok d → uart_rep d c → ∃ d' c', Dev.uartputc ch d = Ok tt d' ∧
    Console.uartputc ch c = Ok tt c' ∧ uart_ok d' ∧ uart_rep d' c') ∧
  (∀ d fuel, uart_ok d → Forall is_byte (ua_rx (dv_serial d)) → (length (ua_rx (dv_serial d)) < fuel)%nat →
    ∃ u, uart_chars fuel d = Ok (if dv_uart d then ua_rx (dv_serial d) else []) (set_serial u d) ∧
      ua_tx u = ua_tx (dv_serial d)) ∧
  (∀ d, dv_uart d = false → (ua_busy (dv_serial d) ≤ 128)%nat → ∃ d', Dev.uartinit d = Ok tt d' ∧ uart_ok d' ∧
    dv_uart d' = ua_there (dv_serial d) ∧
    (ua_there (dv_serial d) = true → ua_divisor (dv_serial d') = 115200 / 9600)).
Proof.
  split_and!.
  - intros d c ch Hok Hr. unfold uart_rep in *. destruct (dv_uart d) eqn:Hu.
    + destruct (Hok Hu) as [Ho Hb]. exists (set_serial (sent [u8 ch] (dv_serial d)) d). eexists.
      split; [by apply uartputc_run|]. split; [reflexivity|]. split; [intros _; split; [by apply sent_open|cbn; lia]|].
      cbn. by rewrite Hr, Hu.
    + exists d. eexists. split; [unfold Dev.uartputc; erewrite bind_run by reflexivity; by rewrite Hu|].
      split; [reflexivity|]. split; [done|]. cbn. by rewrite Hr, Hu.
  - intros d fuel Hok Hb Hf. unfold uart_chars. destruct (dv_uart d) eqn:Hu.
    + by destruct (uart_drain _ fuel [] d Hu (proj1 (Hok Hu)) eq_refl Hb Hf) as (u&E&Et); eauto.
    + destruct fuel as [|fuel]; [lia|]. destruct (uartgetc_none d) as (u&E&Et); [congruence|].
      exists u. split; [|done]. apply loop_done. by mrun E.
  - intros d Hu Hb. destruct (uartinit_run d Hb) as [u Hi]. destruct (ua_there (dv_serial d)).
    + destruct Hi as [[] E]. eexists. split; [exact E|]. split; [|split; [|done]].
      * intros _. cbn [dv_serial set_serial]. split; [done|lia].
      * cbn. unfold io_on. by destruct (dv_ismp _).
    + eexists. split; [exact Hi|]. split; [|done]. intros Hu'. cbn in Hu'. congruence.
Qed.

(** The three parts on a port with one byte waiting. *)
Lemma uart_refines_console_witness : ∃ d', Dev.uartinit demo_dev = Ok tt d' ∧ dv_uart d' = true ∧
  ua_divisor (dv_serial d') = 12.
Proof.
  destruct (proj2 (proj2 uart_refines_console) demo_dev eq_refl) as (d'&E&_&Hu&Hd); [cbn; lia|].
  exists d'. split; [exact E|]. split; [exact Hu|exact (Hd eq_refl)].
Defined.

(** ** Starting another processor *)

(** The processor begins where its startup interrupt and, for an older one,
    the warm reset vector say: both name the address given. *)
Lemma lapicstartap_target apicid addr s : 0 ≤ apicid < 256 → 0 ≤ addr < 2 ^ 20 → addr mod 4096 = 0 →
  ∃ s', lapicstartap apicid addr s = Ok tt s' ∧
    4096 * Z.land (dv_lareg s' ICRLO) 0xFF = addr ∧ Z.land (dv_lareg s' ICRLO) 0x700 = STARTUP ∧
    Z.shiftr (dv_lareg s' ICRHI) 24 = apicid ∧
    16 * (dv_mem s' (p2v 0x469) + 256 * dv_mem s' (p2v 0x46a)) + dv_mem s' (p2v 0x467) + 256 * dv_mem s' (p2v 0x468) = addr.
Proof.
  intros Ha Hb Hm. change (2 ^ 20) with 1048576 in Hb.
  set (wrv := p2v 0x467). set (seg := Z.shiftr addr 4). set (hi := u32 (Z.shiftl apicid 24)).
  set (lo := u32 (Z.lor STARTUP (Z.shiftr addr 12))).
  assert (E : ∃ s', lapicstartap apicid addr s = Ok tt s' ∧ dv_lareg s' ICRLO = lo ∧ dv_lareg s' ICRHI = hi ∧
    dv_mem s' = store16 (store16 (dv_mem s) wrv 0) (wrv + 2) seg).
  { unfold lapicstartap. do 2 (erewrite bind_run by (by apply out_run)). rewrite emit_emit.
    eexists. split; [reflexivity|]. split_and!; reflexivity. }
  destruct E as (s'&E&E1&E2&E3). exists s'. split; [exact E|]. rewrite E1, E2, E3.
  assert (Hk : ∃ k, (k < 256)%nat ∧ addr = 4096 * Z.of_nat k).
  { exists (Z.to_nat (addr / 4096)). Z.div_mod_to_equations. lia. }
  destruct Hk as (k&Hk&Ek). subst addr.
  assert (Hall : forallb (λ k, let w := u32 (Z.lor STARTUP (Z.shiftr (4096 * Z.of_nat k) 12)) in
    let v := Z.shiftr (4096 * Z.of_nat k) 4 in
    (4096 * Z.land w 0xFF =? 4096 * Z.of_nat k) && (Z.land w 0x700 =? STARTUP) &&
    (16 * (u8 v + 256 * u8 (Z.shiftr v 8)) =? 4096 * Z.of_nat k)) (seq 0 256) = true) by (vm_compute; reflexivity).
  rewrite forallb_forall in Hall. specialize (Hall k). cbv zeta in Hall.
  apply andb_true_iff in Hall as [[H1 H2]%andb_true_iff H3]; [|apply in_seq; lia]. apply Z.eqb_eq in H1, H2, H3.
  assert (Hs : Z.shiftr (u32 (Z.shiftl apicid 24)) 24 = apicid).
  { rewrite Z.shiftl_mul_pow2, Z.shiftr_div_pow2 by lia. change (2 ^ 24) with 16777216.
    rewrite u32_small, Z.div_mul by lia. done. }
  split; [exact H1|]. split; [exact H2|]. split; [exact Hs|].
  transitivity (16 * (u8 seg + 256 * u8 (Z.shiftr seg 8)) + 0 + 256 * 0); [reflexivity|].
  rewrite Z.mul_0_r, !Z.add_0_r. exact H3.
Qed.
