(* ===== verification/Segments.v ===== *)
(** Segments, gates and the switch of address spaces: the descriptors of
    mmu.h, [seginit], [switchuvm], [switchkvm] and [kvmalloc] of vm.c,
    [tvinit] and [idtinit] of trap.c.

    The processor's registers are part of the state.  What the processor
    makes of a descriptor is [seg_base], [seg_limit] and [gate_offset]. *)
From S2P Require Import Prelude Kmonad Wp Kstate Spinlock Sleep Str Kalloc Vm Proc Sysfile.

(** ** mmu.h *)

Definition SEG_KCODE : Z := 1.
Definition SEG_KDATA : Z := 2.
Definition SEG_KCPU : Z := 3.
Definition SEG_TSS : Z := 6.
Definition NSEGS : nat := 7.
Definition STA_X : Z := 0x8.
Definition STA_W : Z := 0x2.
Definition STA_R : Z := 0x2.
Definition STS_T32A : Z := 0x9.
Definition STS_IG32 : Z := 0xE.
Definition STS_TG32 : Z := 0xF.

Record segdesc := Segdesc {
  sd_lim_15_0 : Z; sd_base_15_0 : Z; sd_base_23_16 : Z; sd_type : Z; sd_s : Z; sd_dpl : Z; sd_p : Z;
  sd_lim_19_16 : Z; sd_avl : Z; sd_rsv1 : Z; sd_db : Z; sd_g : Z; sd_base_31_24 : Z
}.
Definition segdesc_zero : segdesc := Segdesc 0 0 0 0 0 0 0 0 0 0 0 0 0.

Definition SEG (type base lim dpl : Z) : segdesc :=
  Segdesc (Z.land (Z.shiftr lim 12) 0xffff) (Z.land base 0xffff) (Z.land (Z.shiftr base 16) 0xff)
    type 1 dpl 1 (Z.shiftr lim 28) 0 0 1 1 (Z.shiftr base 24).
Definition SEG16 (type base lim dpl : Z) : segdesc :=
  Segdesc (Z.land lim 0xffff) (Z.land base 0xffff) (Z.land (Z.shiftr base 16) 0xff)
    type 1 dpl 1 (Z.shiftr lim 16) 0 0 1 0 (Z.shiftr base 24).

Record gatedesc := Gatedesc {
  gd_off_15_0 : Z; gd_cs : Z; gd_args : Z; gd_rsv1 : Z; gd_type : Z; gd_s : Z; gd_dpl : Z; gd_p : Z; gd_off_31_16 : Z
}.
Definition gatedesc_zero : gatedesc := Gatedesc 0 0 0 0 0 0 0 0 0.

Definition SETGATE (istrap : bool) (sel off d : Z) : gatedesc :=
  Gatedesc (Z.land off 0xffff) sel 0 0 (if istrap then STS_TG32 else STS_IG32) 0 d 1 (Z.shiftr off 16).

(** What the processor reads from a descriptor. *)
Definition seg_base (d : segdesc) : Z := sd_base_15_0 d + 65536 * sd_base_23_16 d + 16777216 * sd_base_31_24 d.
Definition seg_limit (d : segdesc) : Z :=
  let l := sd_lim_15_0 d + 65536 * sd_lim_19_16 d in
  if sd_g d =? 1 then 4096 * l + 4095 else l.
Definition gate_offset (g : gatedesc) : Z := gd_off_15_0 g + 65536 * gd_off_31_16 g.

(** ** The processor *)

(** [struct cpu] of proc.h: the offsets of [ts], [gdt] and [cpu], its size. *)
Definition TS_OFF : Z := 8.
Definition TS_SIZE : Z := 104.
Definition GDT_OFF : Z := 112.
Definition CPU_OFF : Z := 180.
Definition CPU_SIZE : Z := 188.

Record mach := Mach {
  mc_k : kst;
  mc_gdt : list segdesc;        (* cpu->gdt *)
  mc_esp0 : Z;                  (* cpu->ts.esp0 *)
  mc_ss0 : Z;                   (* cpu->ts.ss0 *)
  mc_idt : list gatedesc;
  mc_gdtr : Z * Z;              (* base, limit *)
  mc_idtr : Z * Z;
  mc_gs : Z;
  mc_tr : Z;
  mc_cr3 : Z
}.
Definition with_k (k : kst) (s : mach) : mach :=
  Mach k (mc_gdt s) (mc_esp0 s) (mc_ss0 s) (mc_idt s) (mc_gdtr s) (mc_idtr s) (mc_gs s) (mc_tr s) (mc_cr3 s).
Definition mc_lens : lens mach kst := Lens mc_k with_k.
Definition mk {A} (m : M kst A) : M mach A := zoom mc_lens m.

Definition with_gdt (i : Z) (d : segdesc) (s : mach) : mach :=
  Mach (mc_k s) (<[Z.to_nat i := d]> (mc_gdt s)) (mc_esp0 s) (mc_ss0 s) (mc_idt s) (mc_gdtr s) (mc_idtr s)
    (mc_gs s) (mc_tr s) (mc_cr3 s).
Definition with_ts (esp0 ss0 : Z) (s : mach) : mach :=
  Mach (mc_k s) (mc_gdt s) esp0 ss0 (mc_idt s) (mc_gdtr s) (mc_idtr s) (mc_gs s) (mc_tr s) (mc_cr3 s).
Definition with_gdtr (v : Z * Z) (s : mach) : mach :=
  Mach (mc_k s) (mc_gdt s) (mc_esp0 s) (mc_ss0 s) (mc_idt s) v (mc_idtr s) (mc_gs s) (mc_tr s) (mc_cr3 s).
Definition with_idtr (v : Z * Z) (s : mach) : mach :=
  Mach (mc_k s) (mc_gdt s) (mc_esp0 s) (mc_ss0 s) (mc_idt s) (mc_gdtr s) v (mc_gs s) (mc_tr s) (mc_cr3 s).
Definition with_gs (v : Z) (s : mach) : mach :=
  Mach (mc_k s) (mc_gdt s) (mc_esp0 s) (mc_ss0 s) (mc_idt s) (mc_gdtr s) (mc_idtr s) v (mc_tr s) (mc_cr3 s).
Definition with_tr (v : Z) (s : mach) : mach :=
  Mach (mc_k s) (mc_gdt s) (mc_esp0 s) (mc_ss0 s) (mc_idt s) (mc_gdtr s) (mc_idtr s) (mc_gs s) v (mc_cr3 s).
Definition with_cr3 (v : Z) (s : mach) : mach :=
  Mach (mc_k s) (mc_gdt s) (mc_esp0 s) (mc_ss0 s) (mc_idt s) (mc_gdtr s) (mc_idtr s) (mc_gs s) (mc_tr s) v.
Definition with_idt (l : list gatedesc) (s : mach) : mach :=
  Mach (mc_k s) (mc_gdt s) (mc_esp0 s) (mc_ss0 s) l (mc_gdtr s) (mc_idtr s) (mc_gs s) (mc_tr s) (mc_cr3 s).

Definition set_gdt (i : Z) (d : segdesc) : M mach unit := modify (with_gdt i d).
Definition set_ts (esp0 ss0 : Z) : M mach unit := modify (with_ts esp0 ss0).
Definition lgdt (p size : Z) : M mach unit := modify (with_gdtr (p, size - 1)).
Definition lidt (p size : Z) : M mach unit := modify (with_idtr (p, size - 1)).
Definition loadgs (v : Z) : M mach unit := modify (with_gs v).
Definition ltr (sel : Z) : M mach unit := modify (with_tr sel).
Definition lcr3 (v : Z) : M mach unit := modify (with_cr3 v).
Definition set_idt (i : Z) (g : gatedesc) : M mach unit :=
  modify (λ s, with_idt (<[Z.to_nat i := g]> (mc_idt s)) s).

(** ** Descriptors *)

Lemma seg_base_SEG type base lim dpl : 0 ≤ base < 4294967296 →
  seg_base (SEG type base lim dpl) = base ∧ seg_base (SEG16 type base lim dpl) = base.
Proof.
  intros Hb. unfold seg_base, SEG, SEG16; cbn [sd_base_15_0 sd_base_23_16 sd_base_31_24].
  change 0xffff with (Z.ones 16). change 0xff with (Z.ones 8). rewrite !Z.land_ones, !Z.shiftr_div_pow2 by lia.
  change (2 ^ 16) with 65536. change (2 ^ 8) with 256. change (2 ^ 24) with 16777216.
  Z.div_mod_to_equations. lia.
Qed.

(** The limit counts pages: it is rounded up to the end of a page. *)
Lemma seg_limit_SEG type base lim dpl : 0 ≤ lim < 4294967296 →
  seg_limit (SEG type base lim dpl) = lim - lim mod 4096 + 4095.
Proof.
  intros Hl. unfold seg_limit, SEG; cbn [sd_g sd_lim_15_0 sd_lim_19_16]. change (1 =? 1) with true. cbv iota.
  change 0xffff with (Z.ones 16). rewrite Z.land_ones, !Z.shiftr_div_pow2 by lia.
  change (2 ^ 12) with 4096. change (2 ^ 28) with 268435456. change (2 ^ 16) with 65536.
  Z.div_mod_to_equations. lia.
Qed.

Lemma gate_offset_SETGATE istrap sel off d : gate_offset (SETGATE istrap sel off d) = off.
Proof.
  unfold gate_offset, SETGATE; cbn [gd_off_15_0 gd_off_31_16].
  change 0xffff with (Z.ones 16). rewrite Z.land_ones, Z.shiftr_div_pow2 by lia. change (2 ^ 16) with 65536.
  Z.div_mod_to_equations. lia.
Qed.

Lemma seg_limit_SEG16 type base lim dpl : 0 ≤ lim < 65536 → seg_limit (SEG16 type base lim dpl) = lim.
Proof.
  intros Hl. unfold seg_limit, SEG16; cbn [sd_g sd_lim_15_0 sd_lim_19_16]. change (0 =? 1) with false. cbv iota.
  change 0xffff with (Z.ones 16). rewrite Z.land_ones, Z.shiftr_div_pow2 by lia. change (2 ^ 16) with 65536.
  rewrite Z.mod_small, Z.div_small by lia. lia.
Qed.

Lemma flat_seg ty dpl : seg_base (SEG ty 0 0xffffffff dpl) = 0 ∧ seg_limit (SEG ty 0 0xffffffff dpl) = 4294967295.
Proof. split; [apply seg_base_SEG; lia|by rewrite seg_limit_SEG by lia]. Qed.

Section Segments.
(** The addresses of [cpus] and [idt], the entry points of vectors.S. *)
Context (cpus idt : Z) (vectors : Z → Z).

Definition cpu_addr (n : Z) : Z := cpus + CPU_SIZE * n.

(** Set up CPU [n]'s kernel segment descriptors; [n] is [cpunum()]. *)
Definition seginit (n : Z) : M mach unit :=
  let c := cpu_addr n in
  set_gdt SEG_KCODE (SEG (Z.lor STA_X STA_R) 0 0xffffffff 0);;
  set_gdt SEG_KDATA (SEG STA_W 0 0xffffffff 0);;
  set_gdt SEG_UCODE (SEG (Z.lor STA_X STA_R) 0 0xffffffff DPL_USER);;
  set_gdt SEG_UDATA (SEG STA_W 0 0xffffffff DPL_USER);;
  set_gdt SEG_KCPU (SEG STA_W (c + CPU_OFF) 8 0);;
  lgdt (c + GDT_OFF) (8 * Z.of_nat NSEGS);;
  loadgs (Z.shiftl SEG_KCPU 3);;
  mk (modify (upd_cpu (set_cpu_proc None))).

(** Switch TSS and h/w page table to correspond to process [p]; [n] is the
    number of this processor. *)
Definition switchuvm (n : Z) (p : nat) : M mach unit :=
  mk pushcli;;
  set_gdt SEG_TSS (
    let d := SEG16 STS_T32A (cpu_addr n + TS_OFF) (TS_SIZE - 1) 0 in
    Segdesc (sd_lim_15_0 d) (sd_base_15_0 d) (sd_base_23_16 d) (sd_type d) 0 (sd_dpl d) (sd_p d)
      (sd_lim_19_16 d) (sd_avl d) (sd_rsv1 d) (sd_db d) (sd_g d) (sd_base_31_24 d));;
  cur ← mk curproc;
  cp ← mk (deref (λ k, k_procs k !! cur));
  set_ts (u32 (p_kstack cp + KSTACKSIZE)) (Z.shiftl SEG_KDATA 3);;
  ltr (Z.shiftl SEG_TSS 3);;
  pp ← mk (deref (λ k, k_procs k !! p));
  if p_pgdir pp =? 0 then panic "switchuvm: no pgdir" else
  lcr3 (v2p (p_pgdir pp));;
  mk popcli.

(** Switch h/w page table register to the kernel-only page table. *)
Definition switchkvm (kpgdir : Z) : M mach unit := lcr3 (v2p kpgdir).

Definition tvinit : M mach unit :=
  for_each (Z.of_nat <$> seq 0 256) (λ i, set_idt i (SETGATE false (Z.shiftl SEG_KCODE 3) (vectors i) 0));;
  set_idt T_SYSCALL (SETGATE true (Z.shiftl SEG_KCODE 3) (vectors T_SYSCALL) DPL_USER);;
  mk (initlock LTicks).

Definition idtinit : M mach unit := lidt idt (8 * 256).

(** ** The gates *)

Lemma gates_loop n k s : length (mc_idt s) = 256%nat → (k + n ≤ 256)%nat →
  ∃ l, length l = 256%nat ∧
    for_each (Z.of_nat <$> seq k n) (λ i, set_idt i (SETGATE false (Z.shiftl SEG_KCODE 3) (vectors i) 0)) s
    = Ok tt (with_idt l s) ∧
    ∀ i, l !! i = if decide (k ≤ i < k + n)%nat then Some (SETGATE false (Z.shiftl SEG_KCODE 3) (vectors (Z.of_nat i)) 0)
                  else mc_idt s !! i.
Proof using Type.
  revert k s. induction n as [|n IH]; intros k s Hl Hk.
  - exists (mc_idt s). split_and!; [done|by destruct s|]. intros i. by rewrite decide_False by lia.
  - cbn [seq fmap list_fmap for_each]. erewrite bind_run by reflexivity. rewrite Nat2Z.id.
    destruct (IH (S k) (with_idt (<[k := SETGATE false (Z.shiftl SEG_KCODE 3) (vectors (Z.of_nat k)) 0]> (mc_idt s)) s))
      as (l&H1&H2&H3); [cbn; by rewrite length_insert|lia|].
    exists l. split; [done|]. split; [exact H2|]. intros i. rewrite H3. cbn [mc_idt with_idt].
    destruct (decide (i = k)) as [->|Hne].
    + rewrite decide_False, decide_True by lia. by rewrite list_lookup_insert_eq by lia.
    + rewrite list_lookup_insert_ne by done. repeat case_decide; try lia; done.
Qed.

(** Gate [i] goes to entry point [i] of vectors.S in the kernel's code
    segment, a user program can call none of them but the one for system
    calls, and that is also the only one that leaves interrupts enabled. *)
Definition gates_ok (l : list gatedesc) : Prop := ∀ i, (i < 256)%nat → ∃ g, l !! i = Some g ∧
  gate_offset g = vectors (Z.of_nat i) ∧ gd_cs g = Z.shiftl SEG_KCODE 3 ∧ gd_p g = 1 ∧
  (DPL_USER ≤ gd_dpl g ↔ Z.of_nat i = T_SYSCALL) ∧ (gd_type g = STS_TG32 ↔ Z.of_nat i = T_SYSCALL).

Lemma tvinit_run s : length (mc_idt s) = 256%nat →
  ∃ l, tvinit s = Ok tt (with_k (set_lock LTicks lk_free (mc_k s)) (with_idt l s)) ∧ gates_ok l.
Proof using Type.
  intros Hl. destruct (gates_loop 256 0 s Hl) as (l&H1&H2&H3); [lia|]. eexists. split.
  - unfold tvinit. mrun H2. erewrite bind_run by reflexivity. reflexivity.
  - intros i Hi. cbn [mc_idt with_idt]. change (Z.to_nat T_SYSCALL) with 64%nat. destruct (decide (i = 64%nat)) as [->|Hne].
    + eexists. split; [by apply list_lookup_insert_eq; rewrite H1|]. rewrite gate_offset_SETGATE. done.
    + eexists. split; [rewrite list_lookup_insert_ne by done; rewrite H3, decide_True by lia; reflexivity|].
      rewrite gate_offset_SETGATE. split_and!; try done; unfold T_SYSCALL, DPL_USER; cbn; (split; [done|lia]).
Qed.

(** The ways into the kernel: after [tvinit] and [idtinit] the processor
    uses the 256 gates. *)
Theorem tvinit_correct s : length (mc_idt s) = 256%nat →
  ∃ s', (tvinit;; idtinit) s = Ok tt s' ∧ mc_idtr s' = (idt, 8 * 256 - 1) ∧ mc_gdt s' = mc_gdt s ∧ gates_ok (mc_idt s').
Proof using Type. intros Hl. destruct (tvinit_run s Hl) as (l&E&Hg). mrun E. by eexists. Qed.

(** ** Segments and address spaces *)

(** The descriptors of [seginit] are in place. *)
Definition segs_ok (n : Z) (s : mach) : Prop :=
  mc_gdtr s = (cpu_addr n + GDT_OFF, 55) ∧ mc_gs s = Z.shiftl SEG_KCPU 3 ∧ length (mc_gdt s) = NSEGS ∧
  (∀ i ty dpl, (i, ty, dpl) ∈ [(1%nat, 10, 0); (2%nat, 2, 0); (4%nat, 10, 3); (5%nat, 2, 3)] →
    ∃ d, mc_gdt s !! i = Some d ∧ seg_base d = 0 ∧ seg_limit d = 4294967295 ∧ sd_type d = ty ∧ sd_dpl d = dpl) ∧
  ∃ d, mc_gdt s !! 3%nat = Some d ∧ seg_base d = cpu_addr n + CPU_OFF ∧ 7 ≤ seg_limit d ∧ sd_dpl d = 0.

(** The task register and its descriptor: where a trap from user space gets
    its stack. *)
Definition tss_ok (n kstack : Z) (s : mach) : Prop :=
  mc_tr s = Z.shiftl SEG_TSS 3 ∧ mc_ss0 s = Z.shiftl SEG_KDATA 3 ∧ mc_esp0 s = u32 (kstack + KSTACKSIZE) ∧
  ∃ d, mc_gdt s !! 6%nat = Some d ∧ seg_base d = cpu_addr n + TS_OFF ∧ seg_limit d = TS_SIZE - 1 ∧
    sd_type d = STS_T32A ∧ sd_s d = 0 ∧ sd_p d = 1.

Lemma seginit_run n s : length (mc_gdt s) = NSEGS → 0 ≤ cpu_addr n → cpu_addr n + CPU_SIZE ≤ 4294967296 →
  ∃ s', seginit n s = Ok tt s' ∧ segs_ok n s' ∧ cpu_proc (k_cpu (mc_k s')) = None.
Proof using Type.
  intros Hl Ha Hb. eexists. split.
  { unfold seginit. do 7 erewrite bind_run by reflexivity. reflexivity. }
  split; [|reflexivity]. split; [reflexivity|]. split; [reflexivity|]. cbn [mc_gdt lset lget mc_lens with_k with_gdt with_gdtr with_gs].
  destruct (mc_gdt s) as [|g0 [|g1 [|g2 [|g3 [|g4 [|g5 [|g6 [|]]]]]]]]; try discriminate Hl.
  split; [reflexivity|]. split.
  - intros i ty dpl Hin.
    repeat (rewrite elem_of_cons in Hin; destruct Hin as [[= -> -> ->]|Hin]); [..|by apply elem_of_nil in Hin];
      (eexists; split; [reflexivity|]); rewrite (proj1 (flat_seg _ _)), (proj2 (flat_seg _ _)); done.
  - eexists. split; [reflexivity|]. rewrite (proj1 (seg_base_SEG STA_W (cpu_addr n + CPU_OFF) 8 0 ltac:(unfold CPU_SIZE, CPU_OFF in *; lia))).
    rewrite seg_limit_SEG by lia. done.
Qed.

Lemma mk_run {A} (m : M kst A) s a k : m (mc_k s) = Ok a k → mk m s = Ok a (with_k k s).
Proof using Type. unfold mk, zoom. cbn. by intros ->. Qed.
Lemma deref_run {S A} (f : S → option A) a s : f s = Some a → deref f s = Ok a s.
Proof using Type. unfold deref. by intros ->. Qed.

Lemma switchuvm_start n p s cur cp pp :
  cpu_proc (k_cpu (mc_k s)) = Some cur → k_procs (mc_k s) !! cur = Some cp → k_procs (mc_k s) !! p = Some pp →
  0 ≤ cpu_ncli (k_cpu (mc_k s)) → length (mc_gdt s) = NSEGS →
  0 ≤ cpu_addr n → cpu_addr n + CPU_SIZE ≤ 4294967296 →
  ∃ s1, tss_ok n (p_kstack cp) s1 ∧ mc_k s1 = upd_cpu cpu_push (mc_k s) ∧ mc_gdtr s1 = mc_gdtr s ∧ mc_gs s1 = mc_gs s ∧
    length (mc_gdt s1) = NSEGS ∧ (∀ i, i ≠ 6%nat → mc_gdt s1 !! i = mc_gdt s !! i) ∧
    switchuvm n p s = (if p_pgdir pp =? 0 then panic "switchuvm: no pgdir" else lcr3 (v2p (p_pgdir pp));; mk popcli) s1.
Proof using Type.
  intros Hc Hcp Hpp Hn Hl Ha Hb. unfold CPU_SIZE in Hb.
  eexists. split; [|split; [|split; [|split; [|split; [|split]]]]].
  7:{ unfold switchuvm. erewrite bind_run by (apply mk_run, pushcli_run). erewrite bind_run by reflexivity.
      erewrite bind_run by (apply mk_run, (deref_run _ cur); exact Hc).
      erewrite bind_run by (apply mk_run, (deref_run _ cp); exact Hcp).
      do 2 erewrite bind_run by reflexivity.
      erewrite bind_run by (apply mk_run, (deref_run _ pp); exact Hpp). reflexivity. }
  - split; [reflexivity|]. split; [reflexivity|]. split; [reflexivity|]. cbn [mc_gdt lset mc_lens with_k with_gdt with_ts with_tr].
    eexists. split; [apply list_lookup_insert_eq; rewrite Hl; by apply Nat.ltb_lt|].
    split; [apply (seg_base_SEG STS_T32A); unfold TS_OFF; lia|].
    split; [apply (seg_limit_SEG16 STS_T32A (cpu_addr n + TS_OFF) (TS_SIZE - 1) 0); unfold TS_SIZE; lia|done].
  - reflexivity.
  - reflexivity.
  - reflexivity.
  - cbn [mc_gdt lset mc_lens with_k with_gdt with_ts with_tr]. by rewrite length_insert.
  - intros i Hi. cbn [mc_gdt lset mc_lens with_k with_gdt with_ts with_tr]. apply list_lookup_insert_ne. change (Z.to_nat SEG_TSS) with 6%nat. done.
Qed.

(** C25: the protection that user processes run under: after [seginit] the code
    and data segments of the kernel and of user programs span the whole address
    space with their own privilege levels and the per-processor segment holds
    [cpu] and [proc]; [switchuvm] keeps that, makes a trap from user space land
    on the kernel stack of the current process, loads the page table of the
    process, leaves the interrupt flag and the nesting count as they were, and
    panics if there is no page table. *)
Theorem switchuvm_correct n p s0 cur cp pp :
  length (mc_gdt s0) = NSEGS → 0 ≤ cpu_addr n → cpu_addr n + CPU_SIZE ≤ 4294967296 →
  (∃ s', seginit n s0 = Ok tt s' ∧ segs_ok n s' ∧ cpu_proc (k_cpu (mc_k s')) = None) ∧
  ∀ s, segs_ok n s → cpu_proc (k_cpu (mc_k s)) = Some cur → k_procs (mc_k s) !! cur = Some cp →
    k_procs (mc_k s) !! p = Some pp → 0 ≤ cpu_ncli (k_cpu (mc_k s)) →
    (0 < cpu_ncli (k_cpu (mc_k s)) → cpu_if (k_cpu (mc_k s)) = false) →
    if p_pgdir pp =? 0 then ∃ s', switchuvm n p s = Panic "switchuvm: no pgdir" s'
    else ∃ s', switchuvm n p s = Ok tt s' ∧ segs_ok n s' ∧ tss_ok n (p_kstack cp) s' ∧
      mc_cr3 s' = v2p (p_pgdir pp) ∧ k_procs (mc_k s') = k_procs (mc_k s) ∧
      cpu_if (k_cpu (mc_k s')) = cpu_if (k_cpu (mc_k s)) ∧ cpu_ncli (k_cpu (mc_k s')) = cpu_ncli (k_cpu (mc_k s)).
Proof using Type.
  intros Hl Ha Hb. split; [by apply seginit_run|]. clear s0 Hl. intros s Hs Hc Hcp Hpp Hn Hif.
  destruct Hs as (G1&G2&Hl&G3&G4).
  destruct (switchuvm_start n p s cur cp pp) as (s1&T&K&R1&R2&Hl1&Hg&E); try done. rewrite E.
  destruct (p_pgdir pp =? 0); [by eexists|].
  set (s2 := with_cr3 (v2p (p_pgdir pp)) s1).
  assert (E2 : (lcr3 (v2p (p_pgdir pp));; mk popcli) s1 = Ok tt (with_k (upd_cpu cpu_pop (mc_k s1)) s2)).
  { erewrite bind_run by reflexivity. apply mk_run.
    change (popcli (mc_k s1) = Ok tt (upd_cpu cpu_pop (mc_k s1))). rewrite K.
    apply popcli_run; cbn; [done|lia]. }
  exists (with_k (upd_cpu cpu_pop (mc_k s1)) s2). split; [exact E2|].
  rewrite K. split.
  { split_and!; cbn [with_k with_cr3 s2 mc_gdtr mc_gs mc_gdt]; [congruence|congruence|done| |].
    - intros i ty dpl Hi. destruct (G3 i ty dpl Hi) as (d&Hd&?). exists d. split; [|done]. rewrite Hg; [done|].
      intros ->. repeat (rewrite elem_of_cons in Hi; destruct Hi as [[=]|Hi]). by apply elem_of_nil in Hi.
    - destruct G4 as (d&Hd&?). exists d. split; [|done]. by rewrite Hg. }
  split; [exact T|]. split; [reflexivity|]. split; [reflexivity|]. cbn. split; [|lia].
  destruct (Z.eqb_spec (cpu_ncli (k_cpu (mc_k s))) 0) as [->|Hne]; [done|].
  rewrite (proj2 (Z.eqb_neq _ _)) by lia. symmetry. apply Hif. lia.
Qed.
End Segments.

(** A processor that runs process 0. *)
Definition demo_mach : mach :=
  Mach (Kst (Cpu 0 true 0 false (Some 0%nat)) ∅ [set_p_kstack 0x80300000 (set_p_pgdir 0x80200000 proc_zero)])
    (replicate 7 segdesc_zero) 0 0 (replicate 256 gatedesc_zero) (0, 0) (0, 0) 0 0 0.

Lemma tvinit_correct_witness : ∃ s', (tvinit (λ i, 0x80105000 + 8 * i);; idtinit 0x80110000) demo_mach = Ok tt s' ∧
  ∃ g, mc_idt s' !! 14%nat = Some g ∧ gate_offset g = 0x80105070 ∧ gd_p g = 1.
Proof.
  destruct (tvinit_correct 0x80110000 (λ i, 0x80105000 + 8 * i) demo_mach eq_refl) as (s'&E&_&_&H).
  exists s'. split; [exact E|]. destruct (H 14%nat ltac:(lia)) as (g&Hg&Ho&_&Hp&_). by exists g.
Defined.

Lemma switchuvm_correct_witness : ∃ s s', seginit 0x80112000 0 demo_mach = Ok tt s ∧
  switchuvm 0x80112000 0 0 (with_k (mc_k demo_mach) s) = Ok tt s' ∧ mc_cr3 s' = 0x200000 ∧ mc_esp0 s' = 0x80301000.
Proof.
  set (p0 := set_p_kstack 0x80300000 (set_p_pgdir 0x80200000 proc_zero)).
  destruct (switchuvm_correct 0x80112000 0 0 demo_mach 0 p0 p0 eq_refl) as [(s&E&Hs&_) H];
    [vm_compute; discriminate|vm_compute; discriminate|].
  destruct (H (with_k (mc_k demo_mach) s)) as (s'&E'&_&(_&_&Hsp&_)&Hc&_);
    [exact Hs|reflexivity|reflexivity|reflexivity|vm_compute; discriminate|intros H0; vm_compute in H0; discriminate|].
  exists s, s'. split; [exact E|]. split; [exact E'|]. by rewrite Hc, Hsp.
Defined.
