(* ===== verification/Start.v ===== *)
(** The start of the kernel (main.c): [main], [startothers] and the entry of
    the other processors, over all the components they set up.

    There is one memory, one state of locks and processes and one set of
    globals of mp.c; the components see them through lenses.  A processor that
    does not run at the moment keeps its own state ([percpu]) in a list. *)
From S2P Require Import Prelude Kmonad Wp Kstate Spinlock Sleep Str Kalloc Disk Cache Bio Log Blocks Inode Dir Pipe Vm File Proc Boot Console Sysfile Devices Segments.
Import Dev Mp.

Definition PTE_PS : Z := 0x080.
(** The boot page table: the first 4 Mbyte of memory at 0 and at [KERNBASE]. *)
Definition entrypgdir : list Z :=
  let e := Z.lor (Z.lor (Z.lor 0 PTE_P) PTE_W) PTE_PS in
  <[Z.to_nat (Z.shiftr KERNBASE PDXSHIFT) := e]> (<[0%nat := e]> (replicate (Z.to_nat NPDENTRIES) 0)).

(** What belongs to one processor: [struct cpu], its registers (of [mach],
    without what is shared) and its local APIC. *)
Record percpu := Percpu {
  pc_cpu : cpu;
  pc_mach : mach;
  pc_lareg : Z → Z;
  pc_lalog : list (Z * Z);
  pc_deliv : nat
}.

Section Start.
Context {D : Type} {DD : Driver D} {DL : DriverLaws D} {DV : Devsw (log D)}.
(** Addresses set by the linker: [end], [data], entry points and tables. *)
Context (kend kdata forkret_addr trapret_addr mpenter_addr entrypgdir_addr cpus idt : Z) (vectors : Z → Z).
(** The programs of initcode.S and entryother.S. *)
Context (initcode entryother : list Z).
(** Whether the kernel has ide.c (or memide.c), and the rest of its
    [ideinit]. *)
Context (is_ide : bool) (disk_init : M D unit).

Record start := Start_ {
  st_sys : sys (log D);
  st_con : con;
  st_dev : dev;
  st_mp : mpst;
  st_mach : mach;
  st_kpgdir : Z;
  st_started : list bool;      (* cpus[i].started *)
  st_cpus : list percpu        (* the processors that do not run *)
}.
Definition set_st_sys v s := Start_ v (st_con s) (st_dev s) (st_mp s) (st_mach s) (st_kpgdir s) (st_started s) (st_cpus s).
Definition set_st_con v s := Start_ (st_sys s) v (st_dev s) (st_mp s) (st_mach s) (st_kpgdir s) (st_started s) (st_cpus s).
Definition set_st_dev v s := Start_ (st_sys s) (st_con s) v (st_mp s) (st_mach s) (st_kpgdir s) (st_started s) (st_cpus s).
Definition set_st_mp v s := Start_ (st_sys s) (st_con s) (st_dev s) v (st_mach s) (st_kpgdir s) (st_started s) (st_cpus s).
Definition set_st_mach v s := Start_ (st_sys s) (st_con s) (st_dev s) (st_mp s) v (st_kpgdir s) (st_started s) (st_cpus s).
Definition set_st_kpgdir v s := Start_ (st_sys s) (st_con s) (st_dev s) (st_mp s) (st_mach s) v (st_started s) (st_cpus s).
Definition set_st_started v s := Start_ (st_sys s) (st_con s) (st_dev s) (st_mp s) (st_mach s) (st_kpgdir s) v (st_cpus s).
Definition set_st_cpus v s := Start_ (st_sys s) (st_con s) (st_dev s) (st_mp s) (st_mach s) (st_kpgdir s) (st_started s) v.

(** ** The components inside *)

Definition sys_l : lens start (sys (log D)) := Lens st_sys set_st_sys.
Definition kst_l : lens start kst := lens_comp sys_l sys_k.
Definition set_sy_mem (m : mem) (s : sys (log D)) : sys (log D) :=
  Sys (sy_fs s) (sy_use_lock s) (sy_freelist s) m (sy_pipes s) (sy_file s) (sy_ticks s)
    (sy_nextpid s) (sy_initproc s) (sy_first s).
Definition mem_l : lens start mem := Lens (λ s, sy_mem (st_sys s)) (λ m s, set_st_sys (set_sy_mem m (st_sys s)) s).

(** mp.c *)
Definition mp_at (m : mem) (p : mpst) : mpst :=
  Mpst m (mp_ismp p) (mp_ncpu p) (mp_bcpu p) (mp_ids p) (mp_ioapicid p) (mp_lapic p) (mp_ports p).
Definition mp_l : lens start mpst :=
  Lens (λ s, mp_at (lget mem_l s) (st_mp s)) (λ p s, lset mem_l (mp_mem p) (set_st_mp p s)).

(** The devices see memory and the globals of mp.c. *)
Definition dev_at (m : mem) (p : mpst) (d : dev) : dev :=
  Dev_ (dv_out d) (dv_serial d) (dv_irqmask d) (mp_ismp p) (mp_ioapicid p) (dv_ioreg d) (dv_iodata d)
    (nz (mp_lapic p)) (dv_lareg d) (dv_lalog d) (dv_deliv d) (dv_uart d) m.
Definition dev_l : lens start dev :=
  Lens (λ s, dev_at (lget mem_l s) (st_mp s) (st_dev s)) (λ d s, lset mem_l (dv_mem d) (set_st_dev d s)).

Definition mach_l : lens start mach :=
  Lens (λ s, Segments.with_k (lget kst_l s) (st_mach s)) (λ m s, lset kst_l (mc_k m) (set_st_mach m s)).

(** The console sees the serial port as the bytes sent, if there is one. *)
Definition sent_by (d : dev) : option (list Z) := if dv_uart d then Some (ua_tx (dv_serial d)) else None.
Definition set_sent (o : option (list Z)) (d : dev) : dev :=
  match o with
  | Some l => let u := dv_serial d in set_serial (Serial (ua_there u) (ua_rx u) l (ua_busy u) (ua_regs u)) d
  | None => d
  end.
Definition con_l : lens start con :=
  Lens (λ s, set_cn_uart (sent_by (st_dev s)) (set_cn_k (lget kst_l s) (st_con s)))
    (λ c s, lset kst_l (cn_k c) (set_st_con c (set_st_dev (set_sent (cn_uart c) (st_dev s)) s))).

Definition bc_l : lens start (bcache D) := lens_comp sys_l (lens_comp sys_fs (lens_comp fs_lens lg_bc_lens)).

Definition sz {A} (m : M (sys (log D)) A) : M start A := zoom sys_l m.
Definition kz {A} (m : M kmem A) : M start A := sz (kmz m).
Definition kk {A} (m : M kst A) : M start A := zoom kst_l m.
Definition dz {A} (m : M dev A) : M start A := zoom dev_l m.
Definition mz {A} (m : M mach A) : M start A := zoom mach_l m.
Definition cz {A} (m : M con A) : M start A := zoom con_l m.

(** ** vm.c and ide.c *)

Definition kvmalloc : M start unit :=
  d ← kz (setupkvm kdata);
  modify (set_st_kpgdir d);;
  mz (switchkvm d).

Definition ideinit : M start unit :=
  ncpu ← gets (λ s, mp_ncpu (st_mp s));
  when is_ide (kk (initlock LIde);; dz (ide_irq ncpu));;
  zoom (lens_comp bc_l bc_drv_lens) disk_init.

(** ** Every processor *)

(** Common CPU setup code, up to the call of [scheduler]. *)
Definition mpmain : M start unit :=
  id ← kk (gets (λ k, cpu_id (k_cpu k)));
  cz (cprintf (zs "cpu%d: starting" ++ [10]) [PInt (Z.of_nat id)]);;
  mz (idtinit idt);;
  modify (λ s, set_st_started (<[id := true]> (st_started s)) s).

(** Other CPUs jump here from entryother.S. *)
Definition mpenter : M start unit :=
  kpgdir ← gets st_kpgdir;
  mz (switchkvm kpgdir);;
  n ← dz cpunum;
  mz (seginit cpus n);;
  dz cpunum;;
  dz lapicinit;;
  mpmain.

(** ** The other processors *)

Definition this_cpu (s : start) : percpu :=
  Percpu (k_cpu (lget kst_l s)) (st_mach s) (dv_lareg (st_dev s)) (dv_lalog (st_dev s)) (dv_deliv (st_dev s)).
(** [p] runs; the table of gates is shared. *)
Definition set_this_cpu (p : percpu) (s : start) : start :=
  let s1 := lset kst_l (set_k_cpu (pc_cpu p) (lget kst_l s)) s in
  set_st_mach (with_idt (mc_idt (st_mach s)) (pc_mach p))
    (set_st_dev (Dev.set_lapic (pc_lareg p) (pc_lalog p) (set_deliv (pc_deliv p) (st_dev s))) s1).

(** Processor [i] runs [m] while this one waits. *)
Definition on_cpu (i : nat) (m : M start unit) : M start unit :=
  me ← gets this_cpu;
  p ← deref (λ s, st_cpus s !! i);
  modify (set_this_cpu p);;
  m;;
  modify (λ s, set_this_cpu me (set_st_cpus (<[i := this_cpu s]> (st_cpus s)) s)).

Definition code : Z := p2v 0x7000.

(** What entryother.S does with the three words below its code. *)
Definition entryother_run : M start unit :=
  pd ← kz (read32 (code - 12));
  mz (lcr3 pd);;
  f ← kz (read32 (code - 8));
  if f =? mpenter_addr then mpenter else fault.

(** One turn of the loop of [startothers]. *)
Definition start_one (i : nat) : M start unit :=
  n ← dz cpunum;
  if Z.of_nat i =? n then mret tt else
  stack ← kz kalloc;
  kz (write32 (code - 4) (u32 (stack + KSTACKSIZE)));;
  kz (write32 (code - 8) mpenter_addr);;
  kz (write32 (code - 12) (v2p entrypgdir_addr));;
  id ← deref (λ s, mp_ids (st_mp s) !! i);
  dz (lapicstartap id (v2p code));;
  on_cpu i entryother_run;;
  (* wait for cpu to finish mpmain() *)
  loop 1 (λ _, b ← gets (λ s, nth i (st_started s) false); mret (if b : bool then inr tt else inl tt)) tt.

Definition startothers : M start unit :=
  kz (kstore code entryother);;
  ncpu ← gets (λ s, mp_ncpu (st_mp s));
  for_each (seq 0 (Z.to_nat ncpu)) start_one.

(** ** [main]

    [fuel] bounds the loop of [mpinit] and [imcr] is what it reads from port
    0x23.  The result is the process that [scheduler] switches to. *)
Definition main (fuel : nat) (imcr : Z) : M start (option nat) :=
  kz (kinit1 kend kend (p2v (4 * 1024 * 1024)));;
  kvmalloc;;
  zoom mp_l (mpinit fuel imcr);;
  zoom mp_l mpbcpu;;
  dz lapicinit;;
  n ← dz cpunum;
  mz (seginit cpus n);;
  id ← kk (gets (λ k, cpu_id (k_cpu k)));
  cz (cprintf ([10] ++ zs "cpu%d: starting xv6" ++ [10; 10]) [PInt (Z.of_nat id)]);;
  dz picinit;;
  dz ioapicinit;;
  cz consoleinit;;
  dz console_irq;;
  dz uartinit;;
  kk pinit;;
  mz (tvinit vectors);;
  zoom bc_l binit;;
  sz fileinit;;
  sz (fsz iinit);;
  ideinit;;
  ismp ← gets (λ s, mp_ismp (st_mp s));
  when (negb ismp) (dz timerinit);;
  startothers;;
  kz (kinit2 kend (p2v (4 * 1024 * 1024)) (p2v PHYSTOP));;
  sz (userinit kdata forkret_addr trapret_addr initcode);;
  mpmain;;
  kk scheduler_start.
End Start.
Arguments start : clear implicits.
