(* ===== verification/StartLaws.v ===== *)
(** What [main] leaves (main.c): the free pages, the kernel's address space,
    the interrupts, the other processors and the first process. *)
From S2P Require Import Prelude Kmonad Wp Kstate Spinlock Sleep Str Kalloc Disk Cache Bio BioRun Log Blocks FsEx Balloc Inode Icache FileData Dir Pipe Vm VmLaws VmFree VmCopy VmGrow Image File Proc Fork Init Boot Console ConsoleLaws Sysfile Devices DevLaws Segments MpLaws Start.
Import Dev Mp.

Section Lenses.
Context {D : Type} {DD : Driver D} {DL : DriverLaws D}.
Implicit Types (s : start D).

(** The memory, the locks and the processes. *)
Definition km s : kmem := lget sys_km (st_sys s).
Definition upd_km (m : kmem) s : start D :=
  set_st_sys (after (st_sys s) m (fs_inode (sy_fs (st_sys s))) (sy_file (st_sys s)) (sy_nextpid (st_sys s))) s.

Lemma km_upd m s : km (upd_km m s) = m.
Proof. unfold km. cbn. by destruct m. Qed.
Lemma upd_upd m m' s : upd_km m (upd_km m' s) = upd_km m s.
Proof. by destruct s. Qed.
Lemma upd_self s : upd_km (km s) s = s.
Proof. unfold upd_km, km. rewrite after_self. by destruct s. Qed.

Lemma kz_wp {A} (c : M kmem A) Q s : wp c (λ a m, Q a (upd_km m s)) (km s) → wp (kz c) Q s.
Proof.
  intros Hw. unfold kz, sz. apply wp_zoom. cbn [sys_l lget lset]. apply after_start, after_km. exact Hw.
Qed.
Lemma kk_wp {A} (c : M kst A) Q s : wp c (λ a k, Q a (upd_km (set_km_k k (km s)) s)) (km_k (km s)) → wp (kk c) Q s.
Proof.
  intros Hw. unfold kk. apply wp_zoom. eapply wp_mono; [exact Hw|]. intros a k HQ.
  replace (lset kst_l k s) with (upd_km (set_km_k k (km s)) s); [exact HQ|]. by destruct s as [[[] ? ? ? ? ? ? ? ? ?] ? ? ? ? ? ? ?].
Qed.
Lemma mz_wp {A} (c : M mach A) Q s :
  wp c (λ a m, Q a (upd_km (set_km_k (mc_k m) (km s)) (set_st_mach m s))) (Segments.with_k (km_k (km s)) (st_mach s)) → wp (mz c) Q s.
Proof.
  intros Hw. unfold mz. apply wp_zoom. eapply wp_mono; [exact Hw|]. intros a m HQ.
  replace (lset mach_l m s) with (upd_km (set_km_k (mc_k m) (km s)) (set_st_mach m s)); [exact HQ|].
  by destruct s as [[[] ? ? ? ? ? ? ? ? ?] ? ? ? ? ? ? ?].
Qed.
(** Device code writes memory through [dv_mem]. *)
Lemma dz_wp {A} (c : M dev A) Q s :
  wp c (λ a d, Q a (upd_km (set_km_mem (dv_mem d) (km s)) (set_st_dev d s))) (dev_at (km_mem (km s)) (st_mp s) (st_dev s)) → wp (dz c) Q s.
Proof.
  intros Hw. unfold dz. apply wp_zoom. eapply wp_mono; [exact Hw|]. intros a d HQ.
  replace (lset dev_l d s) with (upd_km (set_km_mem (dv_mem d) (km s)) (set_st_dev d s)); [exact HQ|].
  by destruct s as [[[[[] ? ? ? ? ? ?] ?] ? ? ? ? ? ? ? ? ?] ? ? ? ? ? ? ?].
Qed.
Lemma cz_wp {A} (c : M con A) Q s :
  wp c (λ a c', Q a (upd_km (set_km_k (cn_k c') (km s)) (set_st_con c' (set_st_dev (set_sent (cn_uart c') (st_dev s)) s))))
    (set_cn_uart (sent_by (st_dev s)) (set_cn_k (km_k (km s)) (st_con s))) → wp (cz c) Q s.
Proof.
  intros Hw. unfold cz. apply wp_zoom. eapply wp_mono; [exact Hw|]. intros a c' HQ.
  match goal with |- Q a ?x => replace x with
    (upd_km (set_km_k (cn_k c') (km s)) (set_st_con c' (set_st_dev (set_sent (cn_uart c') (st_dev s)) s))); [exact HQ|] end.
  by destruct s as [[[] ? ? ? ? ? ? ? ? ?] ? ? ? ? ? ? ?].
Qed.
Lemma mp_wp {A} (c : M mpst A) Q s :
  wp c (λ a p, Q a (upd_km (set_km_mem (mp_mem p) (km s)) (set_st_mp p s))) (mp_at (km_mem (km s)) (st_mp s)) → wp (zoom mp_l c) Q s.
Proof.
  intros Hw. apply wp_zoom. eapply wp_mono; [exact Hw|]. intros a p HQ.
  replace (lset mp_l p s) with (upd_km (set_km_mem (mp_mem p) (km s)) (set_st_mp p s)); [exact HQ|].
  by destruct s as [[[[[] ? ? ? ? ? ?] ?] ? ? ? ? ? ? ? ? ?] ? ? ? ? ? ? ?].
Qed.

(** The same, when memory and kernel state stay. *)
Lemma upd_k_self s : upd_km (set_km_k (km_k (km s)) (km s)) s = s.
Proof. replace (set_km_k (km_k (km s)) (km s)) with (km s); [apply upd_self|by destruct (km s)]. Qed.
Lemma upd_mem_self s : upd_km (set_km_mem (km_mem (km s)) (km s)) s = s.
Proof. replace (set_km_mem (km_mem (km s)) (km s)) with (km s); [apply upd_self|by destruct (km s)]. Qed.

Lemma dz_run {A} (c : M dev A) Q s a d : c (dev_at (km_mem (km s)) (st_mp s) (st_dev s)) = Ok a d → dv_mem d = km_mem (km s) →
  Q a (set_st_dev d s) → wp (dz c) Q s.
Proof.
  intros E Em HQ. apply dz_wp. eapply wp_run; [exact E|]. rewrite Em. by rewrite <- (upd_mem_self (set_st_dev d s)) in HQ.
Qed.
Lemma mz_run {A} (c : M mach A) Q s a m : c (Segments.with_k (km_k (km s)) (st_mach s)) = Ok a m → mc_k m = km_k (km s) →
  Q a (set_st_mach m s) → wp (mz c) Q s.
Proof.
  intros E Em HQ. apply mz_wp. eapply wp_run; [exact E|]. rewrite Em. by rewrite <- (upd_k_self (set_st_mach m s)) in HQ.
Qed.
Lemma kk_gets {A} (f : kst → A) Q s : Q (f (km_k (km s))) s → wp (kk (gets f)) Q s.
Proof. intros HQ. apply kk_wp, wp_gets. by rewrite upd_k_self. Qed.
End Lenses.

(** ** The state while [main] runs *)

Section Booted.
Context {D : Type} {DD : Driver D} {DL : DriverLaws D}.
Context (kend kdata : Z).
Hypothesis Hkend : KERNLINK ≤ kend.
Notation free_pages := (free_pages kend).
Notation page := (page kend).
Notation pt_ok := (pt_ok kend).
Notation kernel_space := (kernel_space kdata).
(** What does not change: the processes, the inodes, the next process id, and
    the pages the allocator was given. *)
Context (ps : list proc) (ino : list inode) (pid : Z).
Implicit Types (s : start D) (c : cpu) (L : list lockid) (l st All : list Z).

(** CPU [c] runs, the locks [L] are free, and of the pages [All] those of [l]
    are free, those of [st] are kernel stacks and the others are the kernel's
    page tables. *)
Record booted (mp : mpst) c L All l st s : Prop := {
  b_cpu : k_cpu (km_k (km s)) = c;
  b_ok : cpu_ok c;
  b_procs : k_procs (km_k (km s)) = ps;
  b_locks : ∀ x, x ∈ L → is_free x (km_k (km s));
  b_free : free_pages (km s) l;
  b_pt : pt_ok (km_mem (km s)) (st_kpgdir s) l;
  b_kern : kernel_space (km_mem (km s)) (st_kpgdir s);
  b_all : ∀ x, x ∈ All ↔ x ∈ l ∨ x ∈ st ∨ pt_page (km_mem (km s)) (st_kpgdir s) x;
  b_live : cn_panicked (st_con s) = false;
  b_cga : cga_ok (st_con s);
  b_conlock : cn_locking (st_con s) = true → LCons ∈ L;
  b_ino : fs_inode (sy_fs (st_sys s)) = ino;
  b_pid : sy_nextpid (st_sys s) = pid;
  b_mp : mp_at (λ _, 0) (st_mp s) = mp
}.

Lemma booted_k mp c L All l st s : booted mp c L All l st s → kst_ok (km_k (km s)).
Proof. intros []. unfold kst_ok. congruence. Qed.
Lemma booted_ready mp c L All l st s : booted mp c L All l st s → LKmem ∈ L → km_ready (km s).
Proof. intros Hb Hl. split; [by eapply booted_k|]. by apply (b_locks _ _ _ _ _ _ _ Hb). Qed.

(** Devices, registers and other processors are not part of it. *)
Lemma booted_dev mp c L All l st s d : booted mp c L All l st s → booted mp c L All l st (set_st_dev d s).
Proof. by intros []. Qed.
Lemma booted_mach mp c L All l st s m : booted mp c L All l st s → booted mp c L All l st (set_st_mach m s).
Proof. by intros []. Qed.
Lemma booted_started mp c L All l st s x : booted mp c L All l st s → booted mp c L All l st (set_st_started x s).
Proof. by intros []. Qed.
Lemma booted_cpus mp c L All l st s x : booted mp c L All l st s → booted mp c L All l st (set_st_cpus x s).
Proof. by intros []. Qed.

(** Another kernel state: the processes stay and the locks are free. *)
Lemma booted_kst mp c L c' L' All l st s k : booted mp c L All l st s → k_cpu k = c' → cpu_ok c' → k_procs k = ps →
  (∀ x, x ∈ L' → is_free x k) → (LCons ∈ L → LCons ∈ L') →
  booted mp c' L' All l st (upd_km (set_km_k k (km s)) s).
Proof.
  intros [B1 B2 B3 B4 B5 B6 B7 B8 B9 B10 B11 B12 B13 B14] K1 K2 K3 K4 K5.
  split; rewrite ?km_upd; try done. intros H. by apply K5, B11.
Qed.

(** Memory below the kernel's end may change. *)
Lemma page_above v a : page v → in_page v a → kend ≤ a.
Proof.
  intros [_ Hb] Ha. unfold bad_page in Hb. apply orb_false_iff in Hb as [Hb _]. apply orb_false_iff in Hb as [_ Hb].
  apply Z.ltb_ge in Hb. unfold in_page in Ha. lia.
Qed.
Lemma low_chain (me me' : mem) l : ∀ r, Forall page l → (∀ a, kend ≤ a → me' a = me a) → chain me r l → chain me' r l.
Proof.
  induction l as [|v l IH]; intros r Hp Hm; [done|]. cbn [chain]. apply Forall_cons in Hp as [Hv Hp]. intros [-> Hc]. split; [done|].
  assert (E : load32 me' v = load32 me v).
  { apply load32_ext. intros i Hi. apply Hm. eapply page_above; [exact Hv|]. unfold in_page, PGSIZE. lia. }
  rewrite E. by apply IH.
Qed.
Lemma booted_mem mp c L All l st s me : booted mp c L All l st s → (∀ a, kend ≤ a → me a = km_mem (km s) a) →
  booted mp c L All l st (upd_km (set_km_mem me (km s)) s).
Proof.
  intros [B1 B2 B3 B4 B5 B6 B7 B8 B9 B10 B11 B12 B13 B14] Hm.
  assert (Hpt : ∀ v a, pt_page (km_mem (km s)) (st_kpgdir s) v → in_page v a → me a = km_mem (km s) a).
  { intros v a Hv Ha. apply Hm. eapply page_above; [|exact Ha]. by apply (pt_page_page kend _ _ _ _ B6 Hv). }
  split; rewrite ?km_upd; try done.
  - destruct B5 as (F1&F2&F3). split_and!; try done. by eapply low_chain.
  - cbn. apply (same_pt kend _ _ _ Hpt l l B6); [apply B6|]. intros i Hi Hp. by destruct (pt_tab _ _ _ _ B6 i Hi Hp) as (_&?&_).
  - cbn. eapply kernel_space_same; [|exact B7]. intros x _. by apply same_mmu.
  - intros x. rewrite B8. cbn.
    assert (Hx : pt_page me (st_kpgdir s) x ↔ pt_page (km_mem (km s)) (st_kpgdir s) x); [|naive_solver].
    split; apply same_pde_pt_page; intros j Hj; [|symmetry]; by apply same_pde.
Qed.

(** ** Steps of [main] *)

Lemma p2v_4M : p2v (4 * 1024 * 1024) = 0x80400000. Proof. done. Qed.

Lemma kinit1_wp s (Q : unit → start D → Prop) : cpu_ok (k_cpu (km_k (km s))) → km_freelist (km s) = 0 →
  PGROUNDUP kend ≤ 0x80400000 → kend < 4294963200 →
  (∀ m, km_ready m → km_k m = set_lock LKmem lk_free (km_k (km s)) → free_pages m (rev (range_pages kend 0x80400000)) →
     (∀ a, a < kend → km_mem m a = km_mem (km s) a) → Q tt (upd_km m s)) →
  wp (kz (kinit1 kend kend (p2v (4 * 1024 * 1024)))) Q s.
Proof using DL Hkend.
  intros Hc Hf Hu Hk HQ. rewrite p2v_4M. change KERNLINK with 0x80100000 in Hkend. apply kz_wp. unfold kinit1.
  apply wp_bind, wp_zoom, wp_modify, wp_bind, wp_modify. cbn [km_lens lget lset].
  set (m1 := set_km_use_lock _ _).
  destruct (range_pages_ok kend kend 0x80400000) as [Hp Hn]; [lia|lia|done|unfold KERNBASE; lia|by vm_compute|].
  destruct (freerange_run kend kend 0x80400000 m1 []) as (m2&E&F1&F2&F3&_&F5); try done; [lia|by rewrite app_nil_r| | |].
  - split; [done|]. unfold is_free. cbn. by rewrite lookup_insert_eq.
  - split_and!; [|constructor|constructor]. exact Hf.
  - eapply wp_run; [exact E|]. apply HQ; [done|done|by rewrite app_nil_r in F1|]. intros a Ha. rewrite F5; [done|].
    intros v Hv. apply range_pages_in in Hv as (Hv&_); [|done]. rewrite PGROUNDUP_div in Hv by lia.
    unfold PGSIZE in *. clear -Hv Ha. Z.div_mod_to_equations. lia.
Qed.

Lemma kvmalloc_wp (Hkdata : KERNLINK < kdata < p2v PHYSTOP ∧ kdata mod PGSIZE = 0) s l (Q : unit → start D → Prop) :
  km_ready (km s) → free_pages (km s) l → (65 < length l)%nat →
  (∀ m l' d, child kend (km s) l [] d m l' → kernel_space (km_mem m) d → (length l ≤ 65 + length l')%nat →
     Q tt (set_st_mach (with_cr3 (v2p d) (Segments.with_k (km_k m) (st_mach s))) (set_st_kpgdir d (upd_km m s)))) →
  wp (kvmalloc kdata) Q s.
Proof using DL Hkend.
  intros Hr Hf Hl HQ. unfold kvmalloc. apply wp_bind, kz_wp. eapply (setupkvm_wp kend kdata Hkdata _ l); [done|done|intros; lia|].
  intros m l' d Hd Hc _ Hkt Hks. apply wp_bind, wp_modify. eapply mz_run; [reflexivity|reflexivity|].
  change (km (set_st_kpgdir d (upd_km m s))) with (km (upd_km m s)). rewrite km_upd.
  apply (HQ m l'); [done|done|]. replace (65 + length l')%nat with (65 + length (@nil Z) + length l')%nat by (cbn; lia).
  eapply kernel_count; [apply Hf|exact Hc|exact Hkt].
Qed.

(** The number of the processor. *)
Definition num (d : dev) : Z := if dv_lapic d then Z.shiftr (dv_lareg d LA_ID) 24 else 0.
Lemma cpunum_run d : cpunum d = Ok (num d) d.
Proof. unfold cpunum, num. erewrite bind_run by reflexivity. by destruct (dv_lapic d). Qed.

(** The device state as device code sees it. *)
Definition devs s : dev := dev_at (km_mem (km s)) (st_mp s) (st_dev s).
Lemma devs_set s d : dv_mem d = km_mem (km s) → dv_ismp d = mp_ismp (st_mp s) → dv_ioapicid d = mp_ioapicid (st_mp s) →
  dv_lapic d = nz (mp_lapic (st_mp s)) → devs (set_st_dev d s) = d.
Proof. unfold devs, dev_at. cbn. intros <- <- <- <-. by destruct d. Qed.

Lemma cpunum_wp {A} s (k : Z → M (start D) A) (Q : A → start D → Prop) : wp (k (num (devs s))) Q (set_st_dev (devs s) s) →
  wp (dz cpunum ≫= k) Q s.
Proof. intros HQ. apply wp_bind. by eapply dz_run; [apply cpunum_run| |]. Qed.
Lemma lapicinit_wp {A} s (k : unit → M (start D) A) (Q : A → start D → Prop) :
  (∀ r w n, r LA_ID = dv_lareg (devs s) LA_ID → wp (k tt) Q (set_st_dev (Dev.set_lapic r w (set_deliv n (devs s))) s)) →
  wp (dz lapicinit ≫= k) Q s.
Proof.
  intros HQ. apply wp_bind. destruct (lapicinit_only (devs s)) as ([]&r&w&n&E&Ei). eapply dz_run; [exact E|done|]. by apply HQ.
Qed.

Lemma seginit_more cpus n m : length (mc_gdt m) = NSEGS → 0 ≤ cpu_addr cpus n → cpu_addr cpus n + CPU_SIZE ≤ 4294967296 →
  ∃ m', seginit cpus n m = Ok tt m' ∧ segs_ok cpus n m' ∧ mc_k m' = upd_cpu (set_cpu_proc None) (mc_k m) ∧
    mc_idt m' = mc_idt m ∧ mc_cr3 m' = mc_cr3 m.
Proof.
  intros H1 H2 H3. destruct (seginit_run cpus n m H1 H2 H3) as (m'&E&Hs&_). exists m'. split; [done|]. split; [done|].
  unfold seginit in E. do 7 erewrite bind_run in E by reflexivity. injection E as <-. done.
Qed.

Lemma cpu_ok_proc c o : cpu_ok c → cpu_ok (set_cpu_proc o c).
Proof. done. Qed.

(** [seginit] forgets the current process. *)
Lemma seginit_wp {A} cpus n mp c L All l st s (k : unit → M (start D) A) (Q : A → start D → Prop) :
  booted mp c L All l st s →
  length (mc_gdt (st_mach s)) = NSEGS → 0 ≤ cpu_addr cpus n → cpu_addr cpus n + CPU_SIZE ≤ 4294967296 →
  (∀ m s', booted mp (set_cpu_proc None c) L All l st s' → s' = upd_km (km s') (set_st_mach m s) → segs_ok cpus n m →
     mc_idt m = mc_idt (st_mach s) → mc_cr3 m = mc_cr3 (st_mach s) → wp (k tt) Q s') →
  wp (mz (seginit cpus n) ≫= k) Q s.
Proof.
  intros Hb H1 H2 H3 HQ. apply wp_bind, mz_wp.
  destruct (seginit_more cpus n (Segments.with_k (km_k (km s)) (st_mach s)) H1 H2 H3) as (m&E&Hs&Ek&Ei&Ec).
  eapply wp_run; [exact E|]. eapply (HQ m); try done.
  apply booted_mach with (m := m) in Hb. pose proof (b_cpu _ _ _ _ _ _ _ Hb) as Hc.
  change (km s) with (km (set_st_mach m s)). eapply booted_kst; [exact Hb| | | | |done].
  - rewrite Ek. cbn. f_equal. exact Hc.
  - apply cpu_ok_proc, Hb.
  - rewrite Ek. apply Hb.
  - intros x Hx. rewrite Ek. by apply (b_locks _ _ _ _ _ _ _ Hb).
Qed.

(** Steps that only change memory, locks or processes. *)
Definition cache s : list buf * D * list (Z * Z * list Z) :=
  let b := lg_bc (fs_bl (sy_fs (st_sys s))) in (bc_buf b, bc_drv b, bc_hist b).
Record same_hw s s' : Prop := {
  sh_con : st_con s' = st_con s;
  sh_dev : st_dev s' = st_dev s;
  sh_mach : st_mach s' = st_mach s;
  sh_kpgdir : st_kpgdir s' = st_kpgdir s;
  sh_started : st_started s' = st_started s;
  sh_cpus : st_cpus s' = st_cpus s;
  sh_cache : cache s' = cache s
}.
Lemma same_hw_upd m s : same_hw s (upd_km m s).
Proof. by split. Qed.

Lemma booted_lock mp c L All l st s x : booted mp c L All l st s →
  booted mp c (x :: L) All l st (upd_km (set_km_k (set_lock x lk_free (km_k (km s))) (km s)) s).
Proof.
  intros Hb. eapply booted_kst; [exact Hb|apply Hb|apply Hb|apply Hb| |by right].
  intros y Hy. unfold is_free. cbn. destruct (decide (x = y)) as [<-|Hne]; [by rewrite lookup_insert_eq|].
  rewrite lookup_insert_ne by done. apply elem_of_cons in Hy as [->|Hy]; [done|]. by apply (b_locks _ _ _ _ _ _ _ Hb).
Qed.
Lemma initlock_wp mp c L All l st s x (Q : unit → start D → Prop) : booted mp c L All l st s →
  (∀ s', booted mp c (x :: L) All l st s' → same_hw s s' → Q tt s') → wp (kk (initlock x)) Q s.
Proof. intros Hb HQ. apply kk_wp, wp_modify, HQ; [by apply booted_lock|apply same_hw_upd]. Qed.
Lemma sz_sk {A} (m : M kst A) (Q : A → start D → Prop) s : wp (kk m) Q s → wp (sz (sk m)) Q s.
Proof. unfold wp, kk, sz, sk, zoom. cbn. by destruct (m _). Qed.
Lemma sz_ik {A} (m : M kst A) (Q : A → start D → Prop) s : wp (kk m) Q s → wp (sz (fsz (ik m))) Q s.
Proof. unfold wp, kk, sz, fsz, ik, bl, zoom. cbn. by destruct (m _). Qed.

(** [cprintf] changes the screen and the serial port. *)
Lemma cprintf_wp mp c L All l st s fmt args (Q : unit → start D → Prop) : booted mp c L All l st s → fits fmt args = true →
  (∀ cn o, booted mp c L All l st (set_st_con cn (set_st_dev (set_sent o (st_dev s)) s)) →
     cn_locking cn = cn_locking (st_con s) →
     Q tt (set_st_con cn (set_st_dev (set_sent o (st_dev s)) s))) →
  wp (cz (cprintf fmt args)) Q s.
Proof.
  intros Hb Hf HQ. apply cz_wp. pose proof Hb as [B1 B2 B3 B4 B5 B6 B7 B8 B9 B10 B11 B12 B13 B14].
  destruct (cprintf_run fmt args (set_cn_uart (sent_by (st_dev s)) (set_cn_k (km_k (km s)) (st_con s)))) as (cn&E&H1&H2&H3&H4&H5); try done.
  { intros Hl. split; [by eapply booted_k|]. by apply B4, B11. }
  eapply wp_run; [exact E|]. rewrite H1. cbn [cn_k set_cn_uart set_cn_k].
  match goal with |- Q tt (upd_km (set_km_k _ _) ?x) =>
    change (upd_km (set_km_k (km_k (km s)) (km s)) x) with (upd_km (set_km_k (km_k (km x)) (km x)) x) end.
  rewrite upd_k_self. apply HQ; [|exact H2]. cbn in H2, H3. split; try done; cbn; [by rewrite H3|by rewrite H2].
Qed.

(** [consoleinit], apart from the interrupt. *)
Lemma consoleinit_wp mp c L All l st s (Q : unit → start D → Prop) : booted mp c L All l st s → dv_uart (st_dev s) = false →
  (∀ s' cn, booted mp c (LInput :: LCons :: L) All l st s' → same_hw (set_st_con cn s) s' → Q tt s') →
  wp (cz consoleinit) Q s.
Proof.
  intros Hb Hu HQ. apply cz_wp. unfold sent_by. rewrite Hu. unfold consoleinit. apply wp_bind. unfold ck. apply wp_zoom, wp_modify, wp_bind, wp_zoom, wp_modify, wp_modify.
  cbn [con_k lget lset set_cn_k set_cn_locking set_cn_uart cn_k cn_uart set_sent cn_locking cn_panicked cn_input cn_crt cn_pos].
  eapply HQ; [|by split]. apply booted_lock with (x := LCons) in Hb. apply booted_lock with (x := LInput) in Hb.
  rewrite km_upd in Hb. pose proof Hb as [B1 B2 B3 B4 B5 B6 B7 B8 B9 B10 B11 B12 B13 B14]. rewrite !km_upd in *.
  split; rewrite ?km_upd; try done. intros _. right. by left.
Qed.

Lemma tvinit_wp vectors mp c L All l st s (Q : unit → start D → Prop) : booted mp c L All l st s →
  length (mc_idt (st_mach s)) = 256%nat →
  (∀ s' m, booted mp c (LTicks :: L) All l st s' → same_hw (set_st_mach m s) s' → gates_ok vectors (mc_idt m) →
     m = Segments.with_k (mc_k m) (with_idt (mc_idt m) (st_mach s)) → Q tt s') →
  wp (mz (tvinit vectors)) Q s.
Proof.
  intros Hb Hl HQ. apply mz_wp. destruct (tvinit_run vectors (Segments.with_k (km_k (km s)) (st_mach s)) Hl) as (g&E&Hg).
  eapply wp_run; [exact E|]. cbn [mc_k Segments.with_k with_idt]. set (m := Segments.with_k _ _).
  apply (HQ _ m); [|by split|done|done]. apply booted_mach with (m := m) in Hb. by apply booted_lock with (x := LTicks) in Hb.
Qed.

(** [binit] on a cleared cache, and the driver's part of [ideinit]. *)
Lemma booted_log mp c L All l st s b : booted mp c L All l st s → lget bl_k b = km_k (km s) →
  booted mp c L All l st (set_st_sys (set_sy_fs (Fs b (fs_inode (sy_fs (st_sys s)))) (st_sys s)) s).
Proof.
  intros [B1 B2 B3 B4 B5 B6 B7 B8 B9 B10 B11 B12 B13 B14] Eb.
  assert (E : km (set_st_sys (set_sy_fs (Fs b (fs_inode (sy_fs (st_sys s)))) (st_sys s)) s) = km s).
  { unfold km. cbn in *. unfold sys_k. cbn. by rewrite Eb. }
  by split; rewrite ?E.
Qed.

(** Everything but memory, locks, processes and the buffer cache. *)
Record same_but_cache s s' (x : list buf * D * list (Z * Z * list Z)) : Prop := {
  sc_con : st_con s' = st_con s;
  sc_dev : st_dev s' = st_dev s;
  sc_mach : st_mach s' = st_mach s;
  sc_kpgdir : st_kpgdir s' = st_kpgdir s;
  sc_started : st_started s' = st_started s;
  sc_cpus : st_cpus s' = st_cpus s;
  sc_cache : cache s' = x
}.

Lemma binit_wp mp c L All l st s d (Q : unit → start D → Prop) : booted mp c L All l st s →
  cache s = (replicate (S NBUF) buf_zero, d, []) →
  (∀ s', booted mp c (LBcache :: L) All l st s' → same_but_cache s s' (binit_nodes, d, []) → Q tt s') →
  wp (zoom bc_l binit) Q s.
Proof.
  intros Hb Hc HQ. apply wp_zoom. set (b := lget bc_l s).
  assert (Eb : b = bc_zero (km_k (km s)) d).
  { unfold cache in Hc. change (lg_bc (fs_bl (sy_fs (st_sys s)))) with b in Hc. injection Hc as H1 H2 H3.
    change (km_k (km s)) with (bc_k b). clearbody b. destruct b; cbn in *. by subst. }
  rewrite Eb. eapply wp_run; [apply binit_run|]. set (b' := Bcache _ _ _ _). apply HQ.
  - apply booted_lock with (x := LBcache) in Hb. set (s1 := upd_km _ s) in Hb.
    apply (booted_log _ _ _ _ _ _ _ (set_lg_bc b' (fs_bl (sy_fs (st_sys s))))) in Hb; [|done].
    replace (lset bc_l b' s) with (set_st_sys (set_sy_fs (Fs (set_lg_bc b' (fs_bl (sy_fs (st_sys s)))) (fs_inode (sy_fs (st_sys s1)))) (st_sys s1)) s1);
      [exact Hb|]. unfold s1. by destruct s as [[[[[] ? ? ? ? ? ?] ?] ? ? ? ? ? ? ? ? ?] ? ? ? ? ? ? ?].
  - by split.
Qed.

Lemma disk_wp (disk_init : M D unit) mp c L All l st s b d d' h (Q : unit → start D → Prop) : booted mp c L All l st s →
  cache s = (b, d, h) → disk_init d = Ok tt d' →
  (∀ s', booted mp c L All l st s' → same_but_cache s s' (b, d', h) → Q tt s') →
  wp (zoom (lens_comp bc_l bc_drv_lens) disk_init) Q s.
Proof.
  intros Hb Hc E HQ. apply wp_zoom. change (lget (lens_comp bc_l bc_drv_lens) s) with (snd (fst (cache s))). rewrite Hc. cbn [fst snd].
  eapply wp_run; [exact E|]. apply HQ.
  - apply (booted_log _ _ _ _ _ _ _ (set_lg_bc (set_bc_drv d' (lg_bc (fs_bl (sy_fs (st_sys s))))) (fs_bl (sy_fs (st_sys s))))) in Hb; [|done].
    exact Hb.
  - split; try done. unfold cache in *. cbn. by injection Hc as -> _ ->.
Qed.

(** ** Interrupts *)
Context (d0 : dev) (pcs : pics).
Notation irqs := (irqs_at d0 pcs).

Lemma irqs_put m f d s : irqs m f d → mp_ismp (st_mp s) = dv_ismp d0 → irqs m f (devs (set_st_dev d s)).
Proof. intros [H1 H2 H3] Hm. by split. Qed.
Lemma irqs_hw m f s s' mp c L All l st c' L' All' l' st' : irqs m f (devs s) →
  booted mp c L All l st s → booted mp c' L' All' l' st' s' →
  dv_irqmask (st_dev s') = dv_irqmask (st_dev s) → dv_out (st_dev s') = dv_out (st_dev s) →
  dv_iodata (st_dev s') = dv_iodata (st_dev s) → irqs m f (devs s').
Proof.
  intros [[H1 H1'] H2 H3] Hb Hb' E1 E2 E3. unfold devs, dev_at in *. cbn in *.
  assert (Em : mp_ismp (st_mp s') = mp_ismp (st_mp s)).
  { pose proof (b_mp _ _ _ _ _ _ _ Hb) as G1. pose proof (b_mp _ _ _ _ _ _ _ Hb') as G2. rewrite <- G1 in G2. by injection G2. }
  split; cbn; [split; cbn; congruence|congruence|by rewrite E3].
Qed.

(** ** The other processors *)

Context (cpus idt mpenter_addr entrypgdir_addr : Z) (entryother : list Z).
Hypothesis Hcpus : 0 ≤ cpus ∧ cpus + 8 * CPU_SIZE ≤ 4294967296.
Hypothesis Hmpenter : 0 ≤ mpenter_addr < 4294967296.
Hypothesis Hother : Z.of_nat (length entryother) ≤ 0xF9000.

(** A processor that waits to be started, and one that has been. *)
Record ap_ready (i : nat) (p : percpu) : Prop := {
  ar_cpu : cpu_ok (pc_cpu p);
  ar_id : cpu_id (pc_cpu p) = i;
  ar_gdt : length (mc_gdt (pc_mach p)) = NSEGS;
  ar_num : Z.shiftr (pc_lareg p LA_ID) 24 = Z.of_nat i
}.
Record ap_up (kpgdir : Z) (i : nat) (m : mach) : Prop := {
  au_segs : segs_ok cpus (Z.of_nat i) m;
  au_idtr : mc_idtr m = (idt, 8 * 256 - 1);
  au_cr3 : mc_cr3 m = v2p kpgdir
}.
(** The controllers see nothing of it. *)
Definition dev_same (d d' : dev) : Prop :=
  dv_irqmask d' = dv_irqmask d ∧ dv_out d' = dv_out d ∧ dv_iodata d' = dv_iodata d ∧ dv_uart d' = dv_uart d.

Lemma set_sent_same o d : dev_same d (set_sent o d).
Proof. by destruct o. Qed.

Lemma mpmain_wp mp c L All l st s (Q : unit → start D → Prop) : booted mp c L All l st s →
  (∀ s', booted mp c L All l st s' → st_sys s' = st_sys s → st_started s' = <[cpu_id c := true]> (st_started s) → st_cpus s' = st_cpus s →
     st_kpgdir s' = st_kpgdir s → dev_same (st_dev s) (st_dev s') →
     st_mach s' = with_idtr (idt, 8 * 256 - 1) (Segments.with_k (mc_k (st_mach s')) (st_mach s)) → dv_lareg (st_dev s') = dv_lareg (st_dev s) → Q tt s') →
  wp (mpmain idt) Q s.
Proof.
  intros Hb HQ. unfold mpmain. apply wp_bind, kk_gets. pose proof (b_cpu _ _ _ _ _ _ _ Hb) as Hc. rewrite Hc.
  apply wp_bind. eapply cprintf_wp; [exact Hb|done|]. intros cn o Hb1 _. apply wp_bind.
  eapply mz_run; [reflexivity|reflexivity|]. apply wp_modify, HQ; try done.
  - by apply booted_started, booted_mach.
  - apply set_sent_same.
  - by destruct o.
Qed.

Lemma cpu_addr_ok (i : Z) : 0 ≤ i < 8 → 0 ≤ cpu_addr cpus i ∧ cpu_addr cpus i + CPU_SIZE ≤ 4294967296.
Proof using Hcpus. intros Hi. clear -Hcpus Hi. unfold cpu_addr, CPU_SIZE in *. lia. Qed.

(** [mpenter] on a processor whose number is [i]. *)
Lemma mpenter_wp mp c L All l st s (i : nat) (Q : unit → start D → Prop) : booted mp c L All l st s → (i < 8)%nat →
  length (mc_gdt (st_mach s)) = NSEGS → num (devs s) = Z.of_nat i →
  (∀ s', booted mp (set_cpu_proc None c) L All l st s' → st_started s' = <[cpu_id c := true]> (st_started s) →
     st_cpus s' = st_cpus s → st_kpgdir s' = st_kpgdir s → cache s' = cache s → dev_same (st_dev s) (st_dev s') →
     ap_up (st_kpgdir s) i (st_mach s') → mc_idt (st_mach s') = mc_idt (st_mach s) → Q tt s') →
  wp (mpenter cpus idt) Q s.
Proof using DL Hcpus.
  intros Hb Hi Hl Hn HQ. unfold mpenter. apply wp_bind, wp_gets, wp_bind. eapply mz_run; [reflexivity|reflexivity|].
  apply booted_mach with (m := with_cr3 (v2p (st_kpgdir s)) (Segments.with_k (km_k (km s)) (st_mach s))) in Hb. set (s1 := set_st_mach _ s) in *.
  apply cpunum_wp. change (devs s1) with (devs s). rewrite Hn. apply booted_dev with (d := devs s) in Hb. set (s2 := set_st_dev _ s1) in *.
  destruct (cpu_addr_ok (Z.of_nat i) ltac:(clear -Hi; lia)) as [A1 A2].
  eapply (seginit_wp cpus (Z.of_nat i)); [exact Hb|done|done|done|]. intros m s3 Hb3 E3 Hsg Hid Hcr.
  apply cpunum_wp. apply booted_dev with (d := devs s3) in Hb3. apply lapicinit_wp. intros r w n _.
  match goal with |- wp _ _ ?x => set (s4 := x) end.
  assert (Hb4 : booted mp (set_cpu_proc None c) L All l st s4) by by apply booted_dev.
  eapply mpmain_wp; [exact Hb4|]. intros s5 Hb5 F4 F1 F2 F3 F5 F6 F7. change (cpu_id (set_cpu_proc None c)) with (cpu_id c) in F1.
  assert (Hst : st_started s4 = st_started s) by (unfold s4; cbn; rewrite E3; done).
  assert (Hcp : st_cpus s4 = st_cpus s) by (unfold s4; cbn; rewrite E3; done).
  assert (Hkp : st_kpgdir s4 = st_kpgdir s) by (unfold s4; cbn; rewrite E3; done).
  assert (Hca : cache s4 = cache s) by (unfold s4; change (cache s3 = cache s); rewrite E3; done).
  assert (Hma : st_mach s4 = m) by (unfold s4; cbn; rewrite E3; done).
  assert (Hdv : st_dev s3 = devs s) by (rewrite E3; done).
  assert (Hc5 : cache s5 = cache s) by (rewrite <- Hca; unfold cache; by rewrite F4).
  apply HQ; try congruence.
  - destruct F5 as (G1&G2&G3&G4). unfold dev_same, s4 in *. cbn in *. rewrite Hdv in G1, G2, G3, G4. done.
  - rewrite F6, Hma. destruct Hsg as (S1&S2&S3&S4&S5). split; [by split_and!|done|]. cbn. rewrite Hcr. done.
  - rewrite F6, Hma. cbn. rewrite Hid. done.
Qed.

Lemma booted_this mp c L All l st s p : booted mp c L All l st s → cpu_ok (pc_cpu p) →
  booted mp (pc_cpu p) L All l st (set_this_cpu p s).
Proof.
  intros Hb Hp. apply (booted_kst _ _ _ (pc_cpu p) L _ _ _ _ (set_k_cpu (pc_cpu p) (km_k (km s)))) in Hb; try done; [|apply Hb|apply Hb].
  unfold set_this_cpu. by apply booted_mach, booted_dev.
Qed.

(** While processor [i] runs this one waits, and has its state back. *)
Lemma on_cpu_wp mp c L All l st s i p (m : M (start D) unit) (Q : unit → start D → Prop) : booted mp c L All l st s →
  st_cpus s !! i = Some p →
  wp m (λ _ s', Q tt (set_this_cpu (this_cpu s) (set_st_cpus (<[i := this_cpu s']> (st_cpus s')) s'))) (set_this_cpu p s) →
  wp (on_cpu i m) Q s.
Proof.
  intros Hb Hp Hw. unfold on_cpu. apply wp_bind, wp_gets, wp_bind. eapply wp_deref; [exact Hp|]. apply wp_bind, wp_modify, wp_bind.
  eapply wp_mono; [exact Hw|]. intros [] s' HQ. by apply wp_modify.
Qed.

Lemma lapicstartap_run apicid addr d : ∃ d',
  lapicstartap apicid addr d = Ok tt d' ∧
  dv_mem d' = store16 (store16 (dv_mem d) (p2v 0x467) 0) (p2v 0x467 + 2) (Z.shiftr addr 4) ∧
  dv_out d' = dv_out d ++ [(0x70, 0xF); (0x71, 0x0A)] ∧ dv_lareg d' LA_ID = dv_lareg d LA_ID ∧
  dv_irqmask d' = dv_irqmask d ∧ dv_iodata d' = dv_iodata d ∧ dv_uart d' = dv_uart d.
Proof.
  unfold lapicstartap. do 2 (erewrite bind_run by (by apply out_run)). rewrite emit_emit.
  change (p2v (Z.lor _ _)) with (p2v 0x467). do 2 (erewrite bind_run by reflexivity).
  set (tail := lapicw ICRHI _;; _). set (d2 := set_dmem _ _).
  assert (Ht : la_only tail).
  { unfold tail, microdelay, send_startup. repeat (apply la_bind; [|intros []]); try (by apply la_w); try (by apply la_same; eexists).
    all: repeat (apply la_bind; [|intros []]); try (by apply la_w); try (by apply la_same; eexists). }
  clearbody tail. destruct (Ht d2) as ([]&r&w&n&E&Er). rewrite E. exists (Dev.set_lapic r w (set_deliv n d2)). by split_and!.
Qed.

(** What a turn of the loop of [startothers] keeps: [n] processors have had
    their turn. *)
Record starting mp c L All l st mk f m0 kp ca (n : nat) s : Prop := {
  sg_boot : booted mp c L All l st s;
  sg_irq : irqs_at d0 pcs mk f (devs s);
  sg_num : num (devs s) = Z.of_nat (cpu_id c);
  sg_mach : st_mach s = m0;
  sg_kpgdir : st_kpgdir s = kp;
  sg_cache : cache s = ca;
  sg_len : length (st_started s) = 8%nat;
  sg_wait : ∀ i, (n ≤ i)%nat → Z.of_nat i < mp_ncpu mp → i ≠ cpu_id c → ∃ p, st_cpus s !! i = Some p ∧ ap_ready i p;
  sg_up : ∀ i, (i < n)%nat → i ≠ cpu_id c → st_started s !! i = Some true ∧ ∃ p, st_cpus s !! i = Some p ∧ ap_up kp i (pc_mach p)
}.

(** Memory below the end of the kernel is written. *)
Lemma starting_low mp c L All l st mk f m0 kp ca n s me : starting mp c L All l st mk f m0 kp ca n s →
  (∀ a, kend ≤ a → me a = km_mem (km s) a) → starting mp c L All l st mk f m0 kp ca n (upd_km (set_km_mem me (km s)) s).
Proof using All.
  intros [G1 G2 G3 G4 G5 G6 G7 G8 G9] Hm. assert (Hb := booted_mem _ _ _ _ _ _ _ me G1 Hm).
  split; try done. eapply irqs_hw; [exact G2|exact G1|exact Hb|done..].
Qed.
Lemma starting_write mp c L All l st mk f m0 kp ca n s a v (Q : unit → start D → Prop) : starting mp c L All l st mk f m0 kp ca n s →
  a + 4 ≤ kend → (∀ s', starting mp c L All l st mk f m0 kp ca n s' → km_mem (km s') = store32 (km_mem (km s)) a v → Q tt s') →
  wp (kz (write32 a v)) Q s.
Proof using All.
  intros Hs Ha HQ. apply kz_wp, wp_modify. apply HQ; [|by rewrite km_upd]. apply starting_low; [done|].
  intros x Hx. unfold store32. by rewrite !upd_ne by lia.
Qed.

(** A page becomes a kernel stack. *)
Lemma starting_stack mp c L All l st mk f m0 kp ca n s (Q : Z → start D → Prop) : starting mp c L All l st mk f m0 kp ca n s →
  LKmem ∈ L → (0 < length l)%nat →
  (∀ s' v l', starting mp c L All l' (v :: st) mk f m0 kp ca n s' → l = v :: l' → Q v s') → wp (kz kalloc) Q s.
Proof using All.
  intros [G1 G2 G3 G4 G5 G6 G7 G8 G9] HL Hl HQ. apply kz_wp. destruct l as [|v l]; [cbn in Hl; lia|].
  destruct (take_page kend (km s) l v (booted_ready _ _ _ _ _ _ _ G1 HL) (b_free _ _ _ _ _ _ _ G1)) as (m&E&R1&R2&R3&Hv&Hvl&Hz&_&Hf&_).
  eapply wp_run; [exact E|]. apply (HQ _ v l); [|done].
  assert (Hb : booted mp c L All l (v :: st) (upd_km m s)).
  { destruct G1 as [B1 B2 B3 B4 B5 B6 B7 B8 B9 B10 B11 B12 B13 B14]. split; rewrite ?km_upd, ?R2, ?R3; try done.
    - destruct B6 as [[D1 D2] T1 T2]. apply not_elem_of_cons in D2 as [_ D2]. split; [done| |done].
      intros i Hi Hp. destruct (T1 i Hi Hp) as (P1&P2&P3). apply not_elem_of_cons in P2 as [_ P2]. done.
    - intros x. rewrite B8, !elem_of_cons. cbn. naive_solver. }
  split; try done. eapply irqs_hw; [exact G2|exact G1|exact Hb|done..].
Qed.

Lemma irqs_rtc mk f d d' : irqs_at d0 pcs mk f d → dv_irqmask d' = dv_irqmask d → dv_iodata d' = dv_iodata d → dv_ismp d' = dv_ismp d →
  dv_out d' = dv_out d ++ [(0x70, 0xF); (0x71, 0x0A)] → irqs_at d0 pcs mk f d'.
Proof.
  intros [[H1 H1'] H2 H3] E1 E2 E3 E4. split; [split|congruence|by rewrite E2]; [congruence|].
  rewrite E4, pic_run_app, H1'. by destruct (pics_at mk).
Qed.

Lemma mp_same mp c L All l st s : booted mp c L All l st s →
  mp_ncpu (st_mp s) = mp_ncpu mp ∧ mp_ids (st_mp s) = mp_ids mp ∧ mp_lapic (st_mp s) = mp_lapic mp ∧ mp_ismp (st_mp s) = mp_ismp mp.
Proof. intros Hb. by destruct (b_mp _ _ _ _ _ _ _ Hb). Qed.

(** Processor [n] is told where to start. *)
Lemma starting_ipi mp c L All l st mk f m0 kp ca n s id addr (Q : unit → start D → Prop) :
  starting mp c L All l st mk f m0 kp ca n s →
  (∀ s', starting mp c L All l st mk f m0 kp ca n s' →
     km_mem (km s') = store16 (store16 (km_mem (km s)) (p2v 0x467) 0) (p2v 0x467 + 2) (Z.shiftr addr 4) → Q tt s') →
  wp (dz (lapicstartap id addr)) Q s.
Proof using All.
  intros [G1 G2 G3 G4 G5 G6 G7 G8 G9] HQ. apply dz_wp. change (dev_at _ _ _) with (devs s).
  destruct (lapicstartap_run id addr (devs s)) as (d&E&Em&Eo&El&Ei&Ed&_). eapply wp_run; [exact E|]. rewrite Em. change (dv_mem (devs s)) with (km_mem (km s)).
  set (me := store16 _ _ _). apply HQ; [|by rewrite km_upd].
  assert (Hlow : ∀ a, kend ≤ a → me a = km_mem (km s) a).
  { intros a Ha. change KERNLINK with 0x80100000 in Hkend. unfold me, store16. change (p2v 0x467) with 0x80000467. by rewrite !upd_ne by lia. }
  apply booted_dev with (d := d) in G1 as Hb. change (km s) with (km (set_st_dev d s)).
  assert (Hb' := booted_mem _ _ _ _ _ _ _ me Hb Hlow). split; try done.
  - eapply irqs_rtc; [exact G2|exact Ei|exact Ed|done|exact Eo].
  - rewrite <- G3. unfold num. cbn. destruct (nz _); [|done]. by rewrite El.
Qed.

(** Processor [n] runs until it is up. *)
Lemma starting_ap mp c L All l st mk f m0 kp ca n s (Q : unit → start D → Prop) : starting mp c L All l st mk f m0 kp ca n s →
  Z.of_nat n < mp_ncpu mp ≤ 8 → n ≠ cpu_id c → nz (mp_lapic mp) = true → load32 (km_mem (km s)) (code - 8) = mpenter_addr →
  (∀ s', starting mp c L All l st mk f m0 kp ca (S n) s' → Q tt s') →
  wp (on_cpu n (entryother_run mpenter_addr cpus idt)) Q s.
Proof using All.
  intros [G1 G2 G3 G4 G5 G6 G7 G8 G9] Hn Hne Hla Hme HQ. destruct (G8 n (le_n n) (proj1 Hn) Hne) as (p&Hp&[R1 R2 R3 R4]).
  eapply on_cpu_wp; [exact G1|exact Hp|]. assert (Hb := booted_this _ _ _ _ _ _ _ p G1 R1). set (s1 := set_this_cpu p s) in *.
  destruct (mp_same _ _ _ _ _ _ _ Hb) as (_&_&El&_).
  unfold entryother_run. apply wp_bind, kz_wp, wp_gets. rewrite upd_self. apply wp_bind. eapply mz_run; [reflexivity|reflexivity|].
  apply wp_bind, kz_wp, wp_gets. change (km (set_st_mach _ s1)) with (km s1). change (km_mem (km s1)) with (km_mem (km s)).
  cbv beta. rewrite Hme, Z.eqb_refl. match goal with |- wp _ _ (upd_km ?m ?x) => change (upd_km m x) with (upd_km (km x) x) end. rewrite upd_self.
  eapply (mpenter_wp _ _ _ _ _ _ _ n); [apply booted_mach; exact Hb|lia|exact R3| |].
  { unfold num. cbn. cbn in El. rewrite El, Hla. exact R4. }
  cbn [st_kpgdir set_st_mach st_started st_cpus st_mach]. change (st_kpgdir s1) with (st_kpgdir s). change (st_started s1) with (st_started s).
  change (st_cpus s1) with (st_cpus s). change (cache (set_st_mach _ s1)) with (cache s). rewrite R2, G5, G6.
  intros s2 Hb2 F1 F2 F3 F4 F5 F6 F7. set (s3 := set_this_cpu _ _).
  assert (Hb3 : booted mp c L All l st s3).
  { apply booted_cpus with (x := <[n := this_cpu s2]> (st_cpus s2)) in Hb2. apply (booted_this _ _ _ _ _ _ _ (this_cpu s)) in Hb2.
    - change (pc_cpu (this_cpu s)) with (k_cpu (km_k (km s))) in Hb2. by rewrite (b_cpu _ _ _ _ _ _ _ G1) in Hb2.
    - change (pc_cpu (this_cpu s)) with (k_cpu (km_k (km s))). rewrite (b_cpu _ _ _ _ _ _ _ G1). apply G1. }
  assert (Hlen : (n < length (st_cpus s2))%nat) by (rewrite F2; by eapply lookup_lt_Some).
  destruct F5 as (D1&D2&D3&D4). apply HQ. split; try done.
  - eapply irqs_hw; [exact G2|exact G1|exact Hb3|exact D1|exact D2|exact D3].
  - destruct (mp_same _ _ _ _ _ _ _ Hb3) as (_&_&El3&_). destruct (mp_same _ _ _ _ _ _ _ G1) as (_&_&El0&_).
    rewrite <- G3. unfold num. cbn. cbn in El3. rewrite El3, El0. done.
  - change (st_mach s3) with (with_idt (mc_idt (st_mach s2)) (st_mach s)). assert (F8 : mc_idt (st_mach s2) = mc_idt (st_mach s)) by exact F7. rewrite F8. subst m0. by destruct (st_mach s).
  - change (st_started s3) with (st_started s2). rewrite F1. by rewrite length_insert.
  - intros i Hi Hic Hne'. change (st_cpus s3) with (<[n := this_cpu s2]> (st_cpus s2)). rewrite list_lookup_insert_ne, F2 by lia. apply G8; [lia|done|done].
  - intros i Hi Hne'. change (st_cpus s3) with (<[n := this_cpu s2]> (st_cpus s2)). change (st_started s3) with (st_started s2). rewrite F1.
    destruct (decide (i = n)) as [->|Hin].
    + rewrite !list_lookup_insert_eq by lia. split; [done|]. exists (this_cpu s2). split; [done|]. exact F6.
    + rewrite !list_lookup_insert_ne, F2 by done. apply G9; [lia|done].
Qed.

(** What [main] knows of the processors when it starts them. *)
Record cpus_found mp (c : cpu) : Prop := {
  cf_ncpu : 0 ≤ mp_ncpu mp ≤ 8;
  cf_some : mp_ismp mp = true → 1 ≤ mp_ncpu mp;
  cf_ids : ∀ i, Z.of_nat i < mp_ncpu mp → is_Some (mp_ids mp !! i);
  cf_lapic : ∀ i, Z.of_nat i < mp_ncpu mp → i ≠ cpu_id c → nz (mp_lapic mp) = true
}.

Lemma starting_skip mp c L All l st mk f m0 kp ca n s : starting mp c L All l st mk f m0 kp ca n s → n = cpu_id c →
  starting mp c L All l st mk f m0 kp ca (S n) s.
Proof using All.
  intros [G1 G2 G3 G4 G5 G6 G7 G8 G9] Hn. split; try done; intros i Hi; [apply G8; lia|]. intros Hne. apply G9; [lia|done].
Qed.
Lemma starting_devs mp c L All l st mk f m0 kp ca n s : starting mp c L All l st mk f m0 kp ca n s →
  starting mp c L All l st mk f m0 kp ca n (set_st_dev (devs s) s).
Proof using All. intros [G1 G2 G3 G4 G5 G6 G7 G8 G9]. apply booted_dev with (d := devs s) in G1. by split. Qed.

Lemma start_one_wp mp c L All l st mk f m0 kp ca n s (Q : unit → start D → Prop) : starting mp c L All l st mk f m0 kp ca n s →
  cpus_found mp c → LKmem ∈ L → (0 < length l)%nat → Z.of_nat n < mp_ncpu mp →
  (∀ s' l' st', starting mp c L All l' st' mk f m0 kp ca (S n) s' → (length l ≤ S (length l'))%nat → Q tt s') →
  wp (start_one mpenter_addr entrypgdir_addr cpus idt n) Q s.
Proof using All.
  intros Hs [Hn _ Hid Hla] HL Hl Hlt HQ. unfold start_one. apply cpunum_wp. rewrite (sg_num _ _ _ _ _ _ _ _ _ _ _ _ _ Hs).
  apply starting_devs in Hs. set (s1 := set_st_dev _ s) in *.
  destruct (Z.eqb_spec (Z.of_nat n) (Z.of_nat (cpu_id c))) as [He|Hne].
  { apply wp_ret. apply (HQ _ l st); [apply starting_skip; [done|lia]|lia]. }
  apply wp_bind. eapply starting_stack; [exact Hs|done|done|]. intros s2 v l2 Hs2 ->.
  change KERNLINK with 0x80100000 in Hkend. assert (Hcode : code = 0x80007000) by done.
  apply wp_bind. eapply starting_write; [exact Hs2|lia|]. intros s3 Hs3 _.
  apply wp_bind. eapply starting_write; [exact Hs3|lia|]. intros s4 Hs4 M4.
  apply wp_bind. eapply starting_write; [exact Hs4|lia|]. intros s5 Hs5 M5.
  destruct (mp_same _ _ _ _ _ _ _ (sg_boot _ _ _ _ _ _ _ _ _ _ _ _ _ Hs5)) as (_&Ei&_).
  destruct (Hid n Hlt) as [id Ed]. apply wp_bind. eapply wp_deref; [by rewrite Ei|].
  apply wp_bind. eapply starting_ipi; [exact Hs5|]. intros s6 Hs6 M6.
  apply wp_bind. eapply starting_ap; [exact Hs6|lia|lia|apply (Hla n); [done|lia]| |].
  { rewrite M6. transitivity (load32 (store32 (km_mem (km s3)) (code - 8) mpenter_addr) (code - 8)).
    - apply load32_ext. intros i Hi. unfold store16. change (p2v 0x467) with 0x80000467. rewrite !upd_ne by lia.
      rewrite M5. unfold store32 at 1. rewrite !upd_ne by lia. by rewrite M4.
    - rewrite load32_store32. by apply u32_small. }
  intros s7 Hs7. pose proof (sg_up _ _ _ _ _ _ _ _ _ _ _ _ _ Hs7 n ltac:(lia) ltac:(lia)) as [Hup _].
  cbn [loop]. apply wp_bind, wp_bind, wp_gets. rewrite (nth_lookup_Some _ _ false true Hup). apply wp_ret, wp_ret.
  apply (HQ _ l2 (v :: st)); [done|cbn; lia].
Qed.

Lemma startothers_wp mp c L All l st mk f m0 kp ca s (Q : unit → start D → Prop) : starting mp c L All l st mk f m0 kp ca 0 s →
  cpus_found mp c → LKmem ∈ L → (8 ≤ length l)%nat →
  (∀ s' l' st', starting mp c L All l' st' mk f m0 kp ca (Z.to_nat (mp_ncpu mp)) s' → (length l ≤ 8 + length l')%nat → Q tt s') →
  wp (startothers mpenter_addr entrypgdir_addr cpus idt entryother) Q s.
Proof using All.
  intros Hs Hf HL Hl HQ. pose proof Hf as [Hn _ _ _]. unfold startothers. apply wp_bind, kz_wp, wp_modify.
  change KERNLINK with 0x80100000 in Hkend. assert (Hcode : code = 0x80007000) by done.
  match goal with |- wp _ _ (upd_km (set_km_mem ?me _) _) => apply (starting_low _ _ _ _ _ _ _ _ _ _ _ _ _ me) in Hs end.
  2:{ intros a Ha. rewrite Hcode. bdestr; cbn; (reflexivity || lia). }
  match goal with |- wp _ _ ?x => set (s1 := x) in * end.
  apply wp_bind, wp_gets. destruct (mp_same _ _ _ _ _ _ _ (sg_boot _ _ _ _ _ _ _ _ _ _ _ _ _ Hs)) as (En&_). rewrite En.
  eapply wp_mono; [eapply (wp_for_each _ _ (λ i s, ∃ l' st', starting mp c L All l' st' mk f m0 kp ca i s ∧ (length l ≤ i + length l')%nat))|].
  - exists l, st. done.
  - intros i x s2 Hx (l'&st'&Hs2&Hlen). apply lookup_seq in Hx as [-> Hi]. eapply start_one_wp; [exact Hs2|done|done|lia|lia|].
    intros s3 l3 st3 Hs3 Hl3. exists l3, st3. split; [done|lia].
  - intros [] s2. rewrite length_seq. intros (l'&st'&Hs2&Hlen). apply (HQ _ l' st' Hs2). lia.
Qed.

(** ** The rest of memory *)

Lemma p2v_top : p2v PHYSTOP = 0x8E000000.
Proof. reflexivity. Qed.
Definition high : list Z := range_pages 0x80400000 (p2v PHYSTOP).
Lemma high_in v : v ∈ high → 0x80400000 ≤ v.
Proof. unfold high. rewrite range_pages_in by (rewrite p2v_top; change (PGROUNDUP 0x80400000) with 0x80400000; lia). change (PGROUNDUP 0x80400000) with 0x80400000. lia. Qed.
Lemma high_length : (68 ≤ length high)%nat.
Proof using Type.
  clear. unfold high, range_pages. rewrite pages_from_length, p2v_top.
  change (PGROUNDUP 0x80400000) with 0x80400000. unfold PGSIZE. apply Nat2Z.inj_le. rewrite Z2Nat.id by (apply Z.div_pos; lia).
  vm_compute. discriminate.
Qed.
Lemma high_pages : kend ≤ 0x80400000 → Forall (Kalloc.page kend) high ∧ NoDup high.
Proof using Type.
  clear -kend. intros Hk. apply range_pages_ok; [lia|done| | |]; rewrite ?p2v_top; unfold PHYSTOP, KERNBASE; change (PGROUNDUP 0x80400000) with 0x80400000; lia.
Qed.
Lemma high_run (s : kmem) l : kend ≤ 0x80400000 → NoDup (high ++ l) → km_ready s → free_pages s l →
  ∃ s' : kmem, freerange kend 0x80400000 (p2v PHYSTOP) s = Ok tt s' ∧ free_pages s' (rev high ++ l) ∧ km_ready s' ∧
    km_k s' = km_k s ∧ km_use_lock s' = km_use_lock s ∧
    ∀ a, (∀ v, v ∈ high → ¬ v ≤ a < v + PGSIZE) → km_mem s' a = km_mem s a.
Proof using Type.
  clear -kend. intros Hk Hn Hr Hf. apply freerange_run; [lia| |by apply high_pages|exact Hn|exact Hr|exact Hf].
  rewrite p2v_top. change (PGROUNDUP 0x80400000) with 0x80400000. lia.
Qed.
#[local] Opaque high.
Lemma range_low v : PGROUNDUP kend ≤ 0x80400000 → v ∈ range_pages kend 0x80400000 → v + PGSIZE ≤ 0x80400000.
Proof. intros Hk. rewrite range_pages_in by done. lia. Qed.

Lemma kinit2_wp mp c L All l st s (Q : unit → start D → Prop) : booted mp c L All l st s → LKmem ∈ L →
  (∀ x, x ∈ All → x + PGSIZE ≤ 0x80400000) → kend ≤ 0x80400000 →
  (∀ s', booted mp c L (high ++ All) (rev high ++ l) st s' → same_hw s s' → Q tt s') →
  wp (kz (kinit2 kend (p2v (4 * 1024 * 1024)) (p2v PHYSTOP))) Q s.
Proof using All.
  intros Hb HL Hlow Hk HQ. rewrite p2v_4M. apply kz_wp. unfold kinit2. apply wp_bind.
  pose proof Hb as [B1 B2 B3 B4 B5 B6 B7 B8 B9 B10 B11 B12 B13 B14].
  destruct (high_pages Hk) as [_ Hn].
  assert (Hdj : ∀ x, x ∈ All → x ∉ high) by (intros x Hx%Hlow Hh%high_in; unfold PGSIZE in *; lia).
  assert (Hkp : ∀ v a, pt_page (km_mem (km s)) (st_kpgdir s) v → in_page v a → ∀ w, w ∈ high → ¬ w ≤ a < w + PGSIZE).
  { intros v a Hv Ha w Hw%high_in. assert (HvA : v ∈ All) by (apply B8; auto). specialize (Hlow v HvA). unfold in_page in Ha. lia. }
  destruct (high_run (km s) l Hk) as (m&E&F1&F2&F3&_&F5); [|by eapply booted_ready|exact B5|].
  { apply NoDup_app. split; [exact Hn|]. split; [|apply B5]. intros x Hx Hl'. eapply Hdj; [|exact Hx]. apply B8; auto. }
  eapply wp_run; [exact E|]. apply wp_modify. apply HQ; [|apply same_hw_upd].
  assert (Hsame : ∀ v a, pt_page (km_mem (km s)) (st_kpgdir s) v → in_page v a → km_mem m a = km_mem (km s) a).
  { intros v a Hv Ha. apply F5. by eapply Hkp. }
  assert (Hnot : ∀ v, pt_page (km_mem (km s)) (st_kpgdir s) v → v ∉ rev high ++ l).
  { intros v Hv [Hx|Hx]%elem_of_app.
    - apply (Hdj v); [apply B8; auto|]. by rewrite <- (Permutation_rev high) in Hx.
    - by destruct (pt_page_page kend _ _ _ _ B6 Hv) as [_ ?]. }
  assert (Hpp : ∀ x, pt_page (km_mem m) (st_kpgdir s) x ↔ pt_page (km_mem (km s)) (st_kpgdir s) x).
  { intros x. split; apply same_pde_pt_page; intros j Hj; [|symmetry]; by apply same_pde. }
  split; rewrite ?km_upd; cbn [km_k km_mem set_km_use_lock km_freelist]; rewrite ?F3; try done.
  - apply (same_pt kend _ _ _ Hsame l (rev high ++ l) B6); [apply Hnot; by left|]. intros i Hi Hp'. apply Hnot. right. by exists i.
  - eapply kernel_space_same; [|exact B7]. intros x _. by apply same_mmu.
  - intros x. change (st_kpgdir (upd_km _ s)) with (st_kpgdir s). rewrite Hpp, !elem_of_app, B8.
    rewrite <- (elem_of_Permutation_proper x _ _ (Permutation_rev high)). tauto.
Qed.

(** ** From power on to the segments *)

(** A serial port that has not been set up. *)
Definition com_ok (there : bool) (d : dev) : Prop :=
  ua_there (dv_serial d) = there ∧ (ua_busy (dv_serial d) ≤ 128)%nat ∧ dv_uart d = false.
Lemma com_ok_sent there d o : com_ok there d → com_ok there (set_sent o d).
Proof. by destruct o. Qed.

(** The machine as the boot loader leaves it, with the globals of the kernel
    cleared: [mp] is what the tables of the firmware say of it. *)
Record at_boot fuel imcr mp c dd there s : Prop := {
  ab_cpu : k_cpu (km_k (km s)) = c;
  ab_ok : cpu_ok c;
  ab_procs : k_procs (km_k (km s)) = ps;
  ab_freelist : km_freelist (km s) = 0;
  ab_live : cn_panicked (st_con s) = false;
  ab_cga : cga_ok (st_con s);
  ab_unlocked : cn_locking (st_con s) = false;
  ab_ino : fs_inode (sy_fs (st_sys s)) = ino;
  ab_pid : sy_nextpid (st_sys s) = pid;
  ab_rom : firmware_low kend (km_mem (km s));
  ab_mp : ∃ p, mpinit fuel imcr (mp_at (km_mem (km s)) (st_mp s)) = Ok tt p ∧ mp_at (λ _, 0) p = mp;
  ab_gdt : length (mc_gdt (st_mach s)) = NSEGS;
  ab_idt : length (mc_idt (st_mach s)) = 256%nat;
  ab_dev : d0 = dev_at (λ _, 0) mp (st_dev s);
  ab_out : dv_out d0 = [] ∧ dv_irqmask d0 = irqmask0;
  ab_com : com_ok there d0;
  ab_num : num d0 = Z.of_nat (cpu_id c);
  ab_cache : cache s = (replicate (S NBUF) buf_zero, dd, []);
  ab_started : length (st_started s) = 8%nat;
  ab_aps : ∀ i, Z.of_nat i < mp_ncpu mp → i ≠ cpu_id c → ∃ p, st_cpus s !! i = Some p ∧ ap_ready i p
}.

(** After [seginit]: memory is managed, and the devices are as they were. *)
Record early mp c dd there All l s : Prop := {
  ea_boot : booted mp c [LKmem] All l [] s;
  ea_unlocked : cn_locking (st_con s) = false;
  ea_segs : segs_ok cpus (Z.of_nat (cpu_id c)) (st_mach s);
  ea_cr3 : mc_cr3 (st_mach s) = v2p (st_kpgdir s);
  ea_idt : length (mc_idt (st_mach s)) = 256%nat;
  ea_dev : max_line (st_dev s) = max_line d0 ∧ dv_out (st_dev s) = [] ∧ dv_irqmask (st_dev s) = irqmask0;
  ea_com : com_ok there (st_dev s);
  ea_num : num (devs s) = Z.of_nat (cpu_id c);
  ea_ismp : dv_ismp d0 = mp_ismp mp;
  ea_cache : cache s = (replicate (S NBUF) buf_zero, dd, []);
  ea_started : length (st_started s) = 8%nat;
  ea_aps : ∀ i, Z.of_nat i < mp_ncpu mp → i ≠ cpu_id c → ∃ p, st_cpus s !! i = Some p ∧ ap_ready i p
}.

Definition low : list Z := range_pages kend 0x80400000.

Lemma booted_set_mp mp mp' c L All l st s p : booted mp c L All l st s → mp_at (λ _, 0) p = mp' → booted mp' c L All l st (set_st_mp p s).
Proof. intros [] Hp. by split. Qed.

(** [kinit1] and [kvmalloc]. *)
Lemma memory_wp fuel imcr mp c dd there s {A} (k : unit → M (start D) A) (Q : A → start D → Prop)
  (Hkdata : KERNLINK < kdata < p2v PHYSTOP ∧ kdata mod PGSIZE = 0) :
  at_boot fuel imcr mp c dd there s → PGROUNDUP kend ≤ 0x80400000 → kend < 4294963200 → (74 ≤ length low)%nat →
  (∀ m l d, let s' := set_st_mach (with_cr3 (v2p d) (Segments.with_k (km_k m) (st_mach s))) (set_st_kpgdir d (upd_km m s)) in
     booted (mp_at (λ _, 0) (st_mp s)) c [LKmem] low l [] s' →
     (8 ≤ length l)%nat → (∀ a, a < kend → km_mem m a = km_mem (km s) a) → wp (k tt) Q s') →
  wp (kz (kinit1 kend kend (p2v (4 * 1024 * 1024)));; kvmalloc kdata ≫= k) Q s.
Proof using All.
  intros [A1 A2 A3 A4 A5 A6 A7 A8 A9 _ _ _ _ _ _ _ _ _ _ _] Hu Hk Hl HQ. apply wp_bind, kinit1_wp; [by rewrite A1|done|done|done|].
  intros m1 R1 K1 F1 M1. fold low in F1. apply wp_bind. eapply (kvmalloc_wp Hkdata _ (rev low)); rewrite ?km_upd; [done|done|rewrite length_rev; lia|].
  rewrite length_rev. intros m2 l d Hc Hks Hlen.
  assert (Hin : ∀ x, x ∈ rev low ↔ x ∈ low) by (intros x; by rewrite <- (elem_of_Permutation_proper x _ _ (Permutation_rev low))).
  rewrite upd_upd. apply (HQ m2 l d); [|lia|].
  - destruct Hc as [C1 C2 C3 C4 C5 C6 _]. set (s' := set_st_mach _ _).
    assert (Ekm : km s' = m2) by (change (km s') with (km (upd_km m2 s)); apply km_upd).
    split; rewrite ?Ekm, ?C2, ?K1; try done.
    + intros x ->%list_elem_of_singleton. rewrite <- K1, <- C2. apply C1.
    + intros x. rewrite <- Hin. change (st_kpgdir s') with d.
      split; [intros Hx; destruct (C6 x Hx) as [?|[?|?]]; auto|]. intros [?|[?%not_elem_of_nil|?]]; [apply C5; auto|done|apply C5; auto].
    + change (cn_locking (st_con s')) with (cn_locking (st_con s)). by rewrite A7.
  - intros a Ha. rewrite (ch_frame _ _ _ _ _ _ _ Hc); [by apply M1|]. intros v Hv Hin'.
    destruct F1 as (_&Hp&_). rewrite Forall_forall in Hp. pose proof (page_above v a (Hp v Hv) Hin'). lia.
Qed.

(** ... then the tables of the firmware, the local APIC and the segments. *)
Lemma early_wp fuel imcr mp c dd there s {A} (k : unit → M (start D) A) (Q : A → start D → Prop)
  (Hkdata : KERNLINK < kdata < p2v PHYSTOP ∧ kdata mod PGSIZE = 0) :
  at_boot fuel imcr mp c dd there s → PGROUNDUP kend ≤ 0x80400000 → kend < 4294963200 → (74 ≤ length low)%nat →
  (cpu_id c < 8)%nat →
  (∀ s' l, early mp (set_cpu_proc None c) dd there low l s' → (8 ≤ length l)%nat → wp (k tt) Q s') →
  wp (kz (kinit1 kend kend (p2v (4 * 1024 * 1024)));; kvmalloc kdata;; zoom mp_l (mpinit fuel imcr);; zoom mp_l mpbcpu;;
      dz lapicinit;; n ← dz cpunum; mz (seginit cpus n) ≫= k) Q s.
Proof using All.
  intros Hab Hu Hk Hl Hid HQ. eapply memory_wp; [done|exact Hab|done|done|done|]. intros m l d s1 Hb1 Hll Hlow.
  destruct Hab as [A1 A2 A3 A4 A5 A6 A7 A8 A9 A10 (p&Ep&Hp) A12 A13 A14 A15 A16 A17 A18 A19 A20].
  assert (Ekm : km s1 = m) by (change (km s1) with (km (upd_km m s)); apply km_upd).
  apply wp_bind, mp_wp. rewrite Ekm. change (st_mp s1) with (st_mp s).
  destruct (mpinit_low kend (km_mem (km s)) (km_mem m) Hlow fuel imcr (mp_at (km_mem (km s)) (st_mp s)) p A10 eq_refl Ep) as [_ E].
  eapply wp_run; [exact E|]. cbn [mp_mem over_mem]. rewrite <- Ekm.
  match goal with |- wp _ _ (upd_km _ ?x) => change (km s1) with (km x); rewrite upd_mem_self end.
  set (p1 := over_mem _ p). apply (booted_set_mp _ mp _ _ _ _ _ _ p1) in Hb1; [|exact Hp]. set (s2 := set_st_mp p1 s1) in *.
  apply wp_bind, mp_wp, wp_gets. cbn [mp_mem mp_at]. change (km s2) with (km (set_st_mp (mp_at (km_mem (km s2)) (st_mp s2)) s2)). rewrite upd_mem_self.
  apply (booted_set_mp _ mp _ _ _ _ _ _ (mp_at (km_mem (km s2)) (st_mp s2))) in Hb1; [|exact Hp]. set (s3 := set_st_mp _ s2) in *.
  apply lapicinit_wp. intros r w n Hr. set (dv := Dev.set_lapic _ _ _). apply booted_dev with (d := dv) in Hb1. set (s4 := set_st_dev dv s3) in *.
  assert (Hn : num (devs s4) = Z.of_nat (cpu_id c)).
  { rewrite <- A17. rewrite A14. unfold num. cbn. cbn in Hr. rewrite Hr. rewrite <- Hp. done. }
  apply cpunum_wp. rewrite Hn. apply booted_dev with (d := devs s4) in Hb1. set (s5 := set_st_dev (devs s4) s4) in *.
  destruct (cpu_addr_ok (Z.of_nat (cpu_id c)) ltac:(clear -Hid; lia)) as [P1 P2].
  eapply (seginit_wp cpus (Z.of_nat (cpu_id c))); [exact Hb1|exact A12|done|done|].
  intros mm s6 Hb6 E6 Hsg Hidt Hcr. apply (HQ s6 l); [|done]. rewrite A14 in A15, A16.
  assert (Em : st_mach s6 = mm) by (rewrite E6; done). assert (Ed : st_dev s6 = devs s4) by (rewrite E6; done).
  assert (Ek : st_kpgdir s6 = d) by (rewrite E6; done). assert (Ep6 : st_mp s6 = st_mp s3) by (rewrite E6; done).
  split; rewrite ?Em, ?Ed, ?Ek; try done.
  - rewrite E6. exact A7.
  - by rewrite Hidt.
  - rewrite A14. done.
  - unfold devs. rewrite Ed, Ep6. exact Hn.
  - by rewrite A14.
  - rewrite E6. exact A18.
  - rewrite E6. exact A19.
  - rewrite E6. exact A20.
Qed.

(** ** Interrupts and tables *)

(** A step that touches none of the hardware but registers. *)
Lemma starting_next mp c L All l st mk f m0 kp ca n s L' All' l' st' m1 ca' s' : starting mp c L All l st mk f m0 kp ca n s →
  booted mp c L' All' l' st' s' → st_dev s' = st_dev s → st_mach s' = m1 → st_kpgdir s' = st_kpgdir s → st_started s' = st_started s →
  st_cpus s' = st_cpus s → cache s' = ca' → starting mp c L' All' l' st' mk f m1 kp ca' n s'.
Proof using All.
  intros [G1 G2 G3 G4 G5 G6 G7 G8 G9] Hb E1 E2 E3 E4 E5 E6. split; try done.
  - eapply irqs_hw; [exact G2|exact G1|exact Hb|by rewrite E1..].
  - destruct (mp_same _ _ _ _ _ _ _ Hb) as (_&_&L1&_). destruct (mp_same _ _ _ _ _ _ _ G1) as (_&_&L0&_).
    rewrite <- G3. unfold num. cbn. by rewrite E1, L0, L1.
  - by rewrite E3.
  - by rewrite E4.
  - by rewrite E5.
  - by rewrite E4, E5.
Qed.
Lemma starting_hw mp c L All l st mk f m0 kp ca n s L' All' l' st' s' : starting mp c L All l st mk f m0 kp ca n s →
  booted mp c L' All' l' st' s' → same_hw s s' → starting mp c L' All' l' st' mk f m0 kp ca n s'.
Proof using All.
  intros Hs Hb [H1 H2 H3 H4 H5 H6 H7]. eapply starting_next; [exact Hs|exact Hb|done|by rewrite H3; apply Hs|done|done|done|by rewrite H7; apply Hs].
Qed.
Lemma starting_lock mp c L All l st mk f m0 kp ca n s x (Q : unit → start D → Prop) : starting mp c L All l st mk f m0 kp ca n s →
  (∀ s', starting mp c (x :: L) All l st mk f m0 kp ca n s' → st_dev s' = st_dev s → Q tt s') → wp (kk (initlock x)) Q s.
Proof using All.
  intros Hs HQ. eapply initlock_wp; [apply Hs|]. intros s' Hb Hh. apply HQ; [by eapply starting_hw|apply Hh].
Qed.

(** The controllers are written. *)
Lemma starting_dev mp c L All l st mk f m0 kp ca n s mk' f' (p : M dev unit) d (Q : unit → start D → Prop) :
  starting mp c L All l st mk f m0 kp ca n s → p (devs s) = Ok tt d → irqs_at d0 pcs mk' f' d → kept (devs s) d →
  (starting mp c L All l st mk' f' m0 kp ca n (set_st_dev d s) → Q tt (set_st_dev d s)) → wp (dz p) Q s.
Proof using All.
  intros [G1 G2 G3 G4 G5 G6 G7 G8 G9] E Hi [K1 K2] HQ. eapply dz_run; [exact E|exact K1|]. apply HQ.
  pose proof (booted_dev _ _ _ _ _ _ _ d G1) as Hb. split; try done.
  - apply irqs_put; [done|]. apply (iq_mp _ _ _ _ _ G2).
  - rewrite <- G3. unfold num. cbn. rewrite K2. done.
Qed.

(** The greeting, [picinit] and [ioapicinit]. *)
Lemma controllers_wp fmt args mp c dd there All l s {A} (k : unit → M (start D) A) (Q : A → start D → Prop) :
  early mp c dd there All l s → fits fmt args = true →
  (∀ s', starting mp c [LKmem] All l [] irqmask0 (λ _, None) (st_mach s) (st_kpgdir s) (replicate (S NBUF) buf_zero, dd, []) 0 s' →
     com_ok there (st_dev s') → wp (k tt) Q s') →
  wp (cz (cprintf fmt args);; dz picinit;; dz ioapicinit ≫= k) Q s.
Proof using All.
  intros [E1 E2 E3 E4 E5 (E6&E7&E8) E9 E10 E11 E12 E13 E14] Hf HQ. apply wp_bind. eapply cprintf_wp; [exact E1|done|]. intros cn o Hb1 _.
  apply (com_ok_sent _ _ o) in E9. set (s1 := set_st_con _ _) in *. destruct (set_sent_same o (st_dev s)) as (S1&S2&S3&_).
  destruct (mp_same _ _ _ _ _ _ _ Hb1) as (_&_&_&Hmp).
  destruct (pic_start (devs s1) pcs) as (d1&R1&P1&F1); [cbn; by rewrite S2|cbn; by rewrite S1|].
  apply wp_bind. eapply dz_run; [exact R1|by rewrite F1|]. apply booted_dev with (d := d1) in Hb1. set (s2 := set_st_dev d1 s1) in *.
  assert (Ed : devs s2 = d1) by (apply devs_set; rewrite F1; done).
  destruct (io_start d1 pcs P1) as (d2&R2&I2&Es&Eu&K2). rewrite <- Ed in R2 at 1. apply wp_bind.
  eapply dz_run; [exact R2|destruct K2 as [-> _]; by rewrite F1|]. apply HQ.
  - destruct I2 as [I1 I2 I3].
    assert (Hmx : max_line d1 = max_line d0) by (rewrite F1; unfold max_line in *; cbn; cbn in E6; rewrite <- E6; by rewrite S3).
    assert (Hm1 : dv_ismp d1 = dv_ismp d0) by (rewrite F1, E11; exact Hmp).
    split; [by apply booted_dev| | |done|done|done|done|intros i _; apply E14|intros i Hi; lia].
    + split; [exact I1|cbn; rewrite E11; exact Hmp|]. rewrite <- Hmx, <- Hm1. exact I3.
    + rewrite <- E10. unfold num. cbn. destruct K2 as [_ ->]. rewrite F1. cbn. by destruct o.
  - destruct E9 as (U1&U2&U3). unfold com_ok. cbn. rewrite Es, Eu, F1. done.
Qed.

(** [consoleinit] and [uartinit]. *)
Definition uart_mask (there : bool) : Z := let m := without IRQ_KBD irqmask0 in if there then without IRQ_COM1 m else m.
Definition uart_dest (there : bool) : Z → option Z := let f := put IRQ_KBD 0 (λ _, None) in if there then put IRQ_COM1 0 f else f.

Lemma terminal_wp mp c there L All l st m0 kp ca s {A} (k : unit → M (start D) A) (Q : A → start D → Prop) :
  starting mp c L All l st irqmask0 (λ _, None) m0 kp ca 0 s → com_ok there (st_dev s) →
  (∀ s', starting mp c (LInput :: LCons :: L) All l st (uart_mask there) (uart_dest there) m0 kp ca 0 s' → wp (k tt) Q s') →
  wp (cz consoleinit;; dz console_irq;; dz Dev.uartinit ≫= k) Q s.
Proof using All.
  intros Hs (U1&U2&U3) HQ. apply wp_bind. eapply consoleinit_wp; [apply Hs|done|]. intros s1 cn Hb1 [C1 C2 C3 C4 C5 C6 C7].
  assert (Hs1 : starting mp c (LInput :: LCons :: L) All l st irqmask0 (λ _, None) m0 kp ca 0 s1).
  { eapply starting_next; [exact Hs|exact Hb1|done|rewrite C3; apply Hs|done|done|done|]. rewrite C7. apply Hs. }
  apply wp_bind. pose proof (irqs_on _ _ _ _ _ IRQ_KBD 0 (sg_irq _ _ _ _ _ _ _ _ _ _ _ _ _ Hs1)) as I1.
  eapply starting_dev; [exact Hs1|apply console_irq_run|apply I1; [vm_compute; done|lia]|apply kept_on|]. intros Hs2.
  set (d2 := io_on _ _ _) in *. set (s2 := set_st_dev d2 s1) in *.
  assert (Es : dv_serial (devs s2) = dv_serial (st_dev s)).
  { change (dv_serial d2 = dv_serial (st_dev s)). unfold d2. rewrite io_on_serial. cbn. by rewrite C2. }
  destruct (irqs_uart _ _ _ _ _ (sg_irq _ _ _ _ _ _ _ _ _ _ _ _ _ Hs2)) as (d3&E3&I3&K3); [by rewrite Es|]. rewrite Es, U1 in I3.
  apply wp_bind. eapply starting_dev; [exact Hs2|exact E3|exact I3|exact K3|]. apply HQ.
Qed.

(** The locks, the gates and the buffer cache. *)
Definition boot_locks : list lockid := [LIcache; LFtable; LBcache; LTicks; LPtable; LInput; LCons; LKmem].
Lemma tables_wp vectors mp c All l st mk f m0 kp dd s {A} (k : unit → M (start D) A) (Q : A → start D → Prop) :
  starting mp c [LInput; LCons; LKmem] All l st mk f m0 kp (replicate (S NBUF) buf_zero, dd, []) 0 s → length (mc_idt m0) = 256%nat →
  (∀ s' m1, starting mp c boot_locks All l st mk f m1 kp (binit_nodes, dd, []) 0 s' → gates_ok vectors (mc_idt m1) →
     m1 = Segments.with_k (mc_k m1) (with_idt (mc_idt m1) m0) → wp (k tt) Q s') →
  wp (kk pinit;; mz (tvinit vectors);; zoom bc_l binit;; sz fileinit;; sz (fsz iinit) ≫= k) Q s.
Proof using All.
  intros Hs Hl HQ. apply wp_bind. eapply starting_lock; [exact Hs|]. intros s1 Hs1 _. pose proof (sg_mach _ _ _ _ _ _ _ _ _ _ _ _ _ Hs1) as Hm.
  apply wp_bind. eapply tvinit_wp; [apply Hs1|by rewrite Hm|]. rewrite Hm. intros s2 m1 Hb2 [C1 C2 C3 C4 C5 C6 C7] Hg Em.
  assert (Hs2 : starting mp c [LTicks; LPtable; LInput; LCons; LKmem] All l st mk f m1 kp (replicate (S NBUF) buf_zero, dd, []) 0 s2).
  { eapply starting_next; [exact Hs1|exact Hb2|done|done|done|done|done|]. rewrite C7. apply Hs1. }
  apply wp_bind. eapply binit_wp; [apply Hs2|apply Hs2|]. intros s3 Hb3 [D1 D2 D3 D4 D5 D6 D7].
  assert (Hs3 : starting mp c [LBcache; LTicks; LPtable; LInput; LCons; LKmem] All l st mk f m1 kp (binit_nodes, dd, []) 0 s3).
  { eapply starting_next; [exact Hs2|exact Hb3|done|rewrite D3; apply Hs2|done|done|done|done]. }
  apply wp_bind. apply sz_sk. eapply starting_lock; [exact Hs3|]. intros s4 Hs4 _.
  apply wp_bind. apply sz_ik. eapply starting_lock; [exact Hs4|]. intros s5 Hs5 _. by eapply HQ.
Qed.

(** [ideinit] and, on a uniprocessor, [timerinit]. *)
Definition disk_locks (is_ide : bool) : list lockid := if is_ide then LIde :: boot_locks else boot_locks.
Definition boot_mask (is_ide there ismp : bool) : Z :=
  let m := if is_ide then without IRQ_IDE (uart_mask there) else uart_mask there in if ismp then m else without IRQ_TIMER m.
Definition boot_dest (is_ide there : bool) (ncpu : Z) : Z → option Z :=
  if is_ide then put IRQ_IDE (ncpu - 1) (uart_dest there) else uart_dest there.

Lemma timer_wp mp c L All l st mk f m0 kp ca s {A} (k : unit → M (start D) A) (Q : A → start D → Prop) :
  starting mp c L All l st mk f m0 kp ca 0 s → dv_ismp d0 = mp_ismp mp →
  (∀ s', starting mp c L All l st (if mp_ismp mp then mk else without IRQ_TIMER mk) f m0 kp ca 0 s' → wp (k tt) Q s') →
  wp (ismp ← gets (λ s, mp_ismp (st_mp s)); when (negb ismp) (dz timerinit) ≫= k) Q s.
Proof using All.
  intros Hs Hd HQ. apply wp_bind, wp_gets. destruct (mp_same _ _ _ _ _ _ _ (sg_boot _ _ _ _ _ _ _ _ _ _ _ _ _ Hs)) as (_&_&_&->).
  apply wp_bind. destruct (mp_ismp mp) eqn:Hmp; cbn [negb when]; [apply wp_ret; by apply HQ|].
  pose proof (sg_irq _ _ _ _ _ _ _ _ _ _ _ _ _ Hs) as I0.
  eapply (starting_dev _ _ _ _ _ _ _ _ _ _ _ _ _ (without IRQ_TIMER mk) f); [exact Hs|apply timerinit_run| |done|apply HQ].
  destruct I0 as [I1 I2 I3]. split; [|done|by rewrite Hd].
  apply pic_ok_on, pic_ok_emit; [|done]. by intros [c1 c2].
Qed.

Lemma disk_start_wp is_ide disk_init mp c there All l st m0 kp b dd dd' s {A} (k : unit → M (start D) A) (Q : A → start D → Prop) :
  starting mp c boot_locks All l st (uart_mask there) (uart_dest there) m0 kp (b, dd, []) 0 s → disk_init dd = Ok tt dd' →
  dv_ismp d0 = mp_ismp mp → cpus_found mp c →
  (∀ s', starting mp c (disk_locks is_ide) All l st (boot_mask is_ide there (mp_ismp mp)) (boot_dest is_ide there (mp_ncpu mp)) m0 kp (b, dd', []) 0 s' →
     wp (k tt) Q s') →
  wp (ideinit is_ide disk_init;; ismp ← gets (λ s, mp_ismp (st_mp s)); when (negb ismp) (dz timerinit) ≫= k) Q s.
Proof using All.
  intros Hs Hdd Hd Hf HQ. apply wp_bind. unfold ideinit. apply wp_bind, wp_gets.
  destruct (mp_same _ _ _ _ _ _ _ (sg_boot _ _ _ _ _ _ _ _ _ _ _ _ _ Hs)) as (->&_).
  set (mk := if is_ide then without IRQ_IDE (uart_mask there) else uart_mask there).
  apply wp_bind. eapply wp_mono with (Q := λ _ s1, starting mp c (disk_locks is_ide) All l st mk (boot_dest is_ide there (mp_ncpu mp)) m0 kp (b, dd, []) 0 s1).
  - unfold mk, disk_locks, boot_dest. destruct is_ide; cbn [when]; [|by apply wp_ret].
    apply wp_bind. eapply starting_lock; [exact Hs|]. intros s1 Hs1 _.
    pose proof (irqs_on _ _ _ _ _ IRQ_IDE (mp_ncpu mp - 1) (sg_irq _ _ _ _ _ _ _ _ _ _ _ _ _ Hs1)) as I1.
    eapply starting_dev; [exact Hs1|apply ide_irq_run|apply I1; [vm_compute; done|]|apply kept_on|done].
    rewrite Hd. intros Hmp. destruct Hf as [F1 F2 _ _]. specialize (F2 Hmp). clear -F1 F2. lia.
  - intros [] s1 Hs1. eapply disk_wp; [apply Hs1|apply Hs1|exact Hdd|]. intros s2 Hb2 [D1 D2 D3 D4 D5 D6 D7].
    assert (Hs2 : starting mp c (disk_locks is_ide) All l st mk (boot_dest is_ide there (mp_ncpu mp)) m0 kp (b, dd', []) 0 s2).
    { eapply starting_next; [exact Hs1|exact Hb2|done|rewrite D3; apply Hs1|done|done|done|done]. }
    eapply timer_wp; [exact Hs2|done|]. exact HQ.
Qed.

(** ** All of it up to the first process *)

(** How [main] finds the machine, for the boot processor [c]. *)
Record machine_ok (disk_init : M D unit) mp c dd dd' : Prop := {
  mk_found : cpus_found mp c;
  mk_id : (cpu_id c < 8)%nat;
  mk_disk : disk_init dd = Ok tt dd';
  mk_room : PGROUNDUP kend ≤ 0x80400000 ∧ kend < 0x80400000 ∧ (74 ≤ length low)%nat;
  mk_data : KERNLINK < kdata < p2v PHYSTOP ∧ kdata mod PGSIZE = 0
}.
(** Registers of the boot processor. *)
Record bsp_ok vectors c kp (m : mach) : Prop := {
  bs_segs : segs_ok cpus (Z.of_nat (cpu_id c)) m;
  bs_cr3 : mc_cr3 m = v2p kp;
  bs_gates : gates_ok vectors (mc_idt m)
}.

Lemma before_user_wp vectors is_ide (disk_init : M D unit) fuel imcr mp c dd dd' there s {A} (k : unit → M (start D) A) (Q : A → start D → Prop) :
  at_boot fuel imcr mp c dd there s → machine_ok disk_init mp c dd dd' →
  (∀ s' l st m1 kp, starting mp (set_cpu_proc None c) (disk_locks is_ide) (high ++ low) l st (boot_mask is_ide there (mp_ismp mp))
       (boot_dest is_ide there (mp_ncpu mp)) m1 kp (binit_nodes, dd', []) (Z.to_nat (mp_ncpu mp)) s' →
     bsp_ok vectors c kp m1 → (68 ≤ length l)%nat → wp (k tt) Q s') →
  wp (kz (kinit1 kend kend (p2v (4 * 1024 * 1024)));; kvmalloc kdata;; zoom mp_l (mpinit fuel imcr);; zoom mp_l mpbcpu;;
      dz lapicinit;; n ← dz cpunum; mz (seginit cpus n);;
      id ← kk (gets (λ k, cpu_id (k_cpu k)));
      cz (cprintf ([10] ++ zs "cpu%d: starting xv6" ++ [10; 10]) [PInt (Z.of_nat id)]);; dz picinit;; dz ioapicinit;;
      cz consoleinit;; dz console_irq;; dz Dev.uartinit;;
      kk pinit;; mz (tvinit vectors);; zoom bc_l binit;; sz fileinit;; sz (fsz iinit);;
      ideinit is_ide disk_init;; ismp ← gets (λ s, mp_ismp (st_mp s)); when (negb ismp) (dz timerinit);;
      startothers mpenter_addr entrypgdir_addr cpus idt entryother;;
      kz (kinit2 kend (p2v (4 * 1024 * 1024)) (p2v PHYSTOP)) ≫= k) Q s.
Proof using All.
  intros Hab [M1 M2 M3 (M4&M4'&M5) M6] HQ.
  assert (M1' : cpus_found mp (set_cpu_proc None c)) by by destruct M1.
  eapply early_wp; [done|exact Hab|done|lia|done|done|]. intros s1 l Hs1 Hl1.
  apply wp_bind, kk_gets. eapply controllers_wp; [exact Hs1|done|]. intros s2 Hs2 Hcom.
  eapply terminal_wp; [exact Hs2|exact Hcom|]. intros s3 Hs3.
  eapply tables_wp; [exact Hs3|apply Hs1|]. intros s4 m1 Hs4 Hg Em.
  eapply disk_start_wp; [exact Hs4|exact M3|apply Hs1|exact M1'|]. intros s5 Hs5.
  assert (HL : LKmem ∈ disk_locks is_ide) by (destruct is_ide; vm_compute; repeat constructor).
  apply wp_bind. eapply startothers_wp; [exact Hs5|exact M1'|exact HL|done|]. intros s6 l6 st6 Hs6 Hl6.
  apply wp_bind. eapply kinit2_wp; [apply Hs6|exact HL|intros x Hx; by apply range_low|lia|]. intros s7 Hb7 Hh7.
  assert (Hs7 := starting_hw _ _ _ _ _ _ _ _ _ _ _ _ _ _ _ _ _ _ Hs6 Hb7 Hh7).
  eapply (HQ _ _ _ m1); [exact Hs7| |].
  - destruct Hs1 as [_ _ (S1&S2&S3&S4&S5) S6 _ _ _ _ _ _ _ _]. split; [by rewrite Em|by rewrite Em|done].
  - rewrite length_app, length_rev. pose proof high_length. lia.
Qed.
End Booted.
