(* ===== verification/Calm.v ===== *)
(** The code that [main] runs never gives up (Quiet.v), so that with a [wp]
    it returns. *)
From S2P Require Import Prelude Kmonad Wp Kstate Spinlock Sleep Str Kalloc Disk Cache Bio Log Blocks Inode Icache Dir Pipe Vm Quiet File Proc Boot Console Sysfile Devices Segments Start.
Import Dev Mp.

(** ** The console, the devices and the registers *)

Lemma quiet_cgaputc c : quiet (cgaputc c).
Proof. intros s _. unfold cgaputc. by destruct (_ ≫= _) as [[]|]. Qed.
#[export] Hint Resolve quiet_cgaputc : quiet.
Lemma quiet_consputc c : quiet (consputc c).
Proof. unfold consputc, Console.uartputc, ck, cli. quiet_by. Qed.
#[export] Hint Resolve quiet_consputc : quiet.
Lemma quiet_cprintf_loop fmt : ∀ args, quiet (cprintf_loop fmt args).
Proof.
  induction (well_founded_ltof _ (@length Z) fmt) as [fmt _ IH]. unfold ltof in IH. intros args.
  destruct fmt as [|c [|d fmt]]; cbn [cprintf_loop]; [apply calm_ret|unfold printint; quiet_by|].
  assert (H1 : ∀ a, quiet (cprintf_loop (d :: fmt) a)) by (intros a; apply IH; cbn; lia).
  assert (H2 : ∀ a, quiet (cprintf_loop fmt a)) by (intros a; apply IH; cbn; lia).
  unfold printint. destruct (negb (c =? zc "%")); [eapply calm_bind; [apply quiet_consputc|intros []; apply H1]|].
  clear H1 IH. quiet_by.
Qed.
#[export] Hint Resolve quiet_cprintf_loop : quiet.
Lemma quiet_cprintf fmt args : quiet (cprintf fmt args).
Proof. unfold cprintf, ck. quiet_by. Qed.
Lemma quiet_consoleinit : quiet consoleinit.
Proof. unfold consoleinit, ck. quiet_by. Qed.
#[export] Hint Resolve quiet_cprintf quiet_consoleinit : quiet.

Lemma quiet_mpinit fuel imcr : quiet (mpinit fuel imcr).
Proof. unfold mpinit, mpinit_step. quiet_by. Qed.
Lemma quiet_mpbcpu : quiet mpbcpu.
Proof. unfold mpbcpu. quiet_by. Qed.
#[export] Hint Resolve quiet_mpinit quiet_mpbcpu : quiet.

Lemma quiet_out p v : quiet (Dev.out p v).
Proof. unfold Dev.out. quiet_by. Qed.
Lemma quiet_com_in r : quiet (com_in r).
Proof. intros s _. unfold com_in. by destruct (serial_in _ _). Qed.
Lemma quiet_lapicw i v : quiet (lapicw i v).
Proof. unfold lapicw. quiet_by. Qed.
Lemma quiet_lapicr i : quiet (lapicr i).
Proof. intros s _. unfold lapicr. destruct (_ =? _); [by destruct (dv_deliv s)|done]. Qed.
#[export] Hint Resolve quiet_out quiet_com_in quiet_lapicw quiet_lapicr : quiet.
Lemma quiet_picenable i : quiet (picenable i).
Proof. unfold picenable, picsetmask. quiet_by. Qed.
Lemma quiet_ioapicenable i c : quiet (ioapicenable i c).
Proof. unfold ioapicenable, ioapicwrite. quiet_by. Qed.
#[export] Hint Resolve quiet_picenable quiet_ioapicenable : quiet.
Lemma quiet_picinit : quiet picinit.
Proof. unfold picinit, picsetmask. quiet_by. Qed.
Lemma quiet_ioapicinit : quiet ioapicinit.
Proof. unfold ioapicinit, ioapicread, ioapic_clear, ioapicwrite. quiet_by. Qed.
Lemma quiet_lapicinit : quiet lapicinit.
Proof. unfold lapicinit. quiet_by. Qed.
Lemma quiet_cpunum : quiet cpunum.
Proof. unfold cpunum. quiet_by. Qed.
Lemma quiet_lapicstartap id a : quiet (lapicstartap id a).
Proof. unfold lapicstartap, send_startup, microdelay. quiet_by. Qed.
Lemma quiet_console_irq : quiet console_irq.
Proof. unfold console_irq. quiet_by. Qed.
Lemma quiet_ide_irq n : quiet (ide_irq n).
Proof. unfold ide_irq. quiet_by. Qed.
Lemma quiet_timerinit : quiet timerinit.
Proof. unfold timerinit. quiet_by. Qed.
Lemma quiet_uartinit : quiet Dev.uartinit.
Proof. unfold Dev.uartinit, Dev.uartputc, wait_step. quiet_by. Qed.
#[export] Hint Resolve quiet_picinit quiet_ioapicinit quiet_lapicinit quiet_cpunum quiet_lapicstartap quiet_console_irq
  quiet_ide_irq quiet_timerinit quiet_uartinit : quiet.

Lemma quiet_seginit cpus n : quiet (seginit cpus n).
Proof. unfold seginit, set_gdt, lgdt, loadgs, Segments.mk. quiet_by. Qed.
Lemma quiet_tvinit vectors : quiet (tvinit vectors).
Proof. unfold tvinit, set_idt, Segments.mk. quiet_by. Qed.
Lemma quiet_switchkvm d : quiet (switchkvm d).
Proof. unfold switchkvm, lcr3. quiet_by. Qed.
Lemma quiet_idtinit idt : quiet (idtinit idt).
Proof. unfold idtinit, lidt. quiet_by. Qed.
Lemma quiet_binit {D} : quiet (binit (D := D)).
Proof. unfold binit, binit_buf, upd_node, node, Bio.kz. quiet_by. Qed.
#[export] Hint Resolve quiet_seginit quiet_tvinit quiet_switchkvm quiet_idtinit quiet_binit : quiet.

(** ** The start of the kernel *)

Section Main.
Context {D : Type} {DD : Driver D} {DL : DriverLaws D} {DV : Devsw (log D)}.
Context (kend kdata forkret_addr trapret_addr mpenter_addr entrypgdir_addr cpus idt : Z) (vectors : Z → Z).
Context (initcode entryother : list Z) (is_ide : bool) (disk_init : M D unit).
(** Nothing touches the inode cache before the first process is made; there
    is room in it. *)
Context (ino : list inode).
Definition inodes_are (s : sys (log D)) : Prop := fs_inode (sy_fs s) = ino.
Definition cached (s : start D) : Prop := inodes_are (st_sys s).

Lemma calm_in {S T A} I J I' J' (L : lens S T) (m : M T A) : calm I' J' m → (∀ s, I s → I' (lget L s)) →
  (∀ t s, J' t → J (lset L t s)) → calm I J (zoom L m).
Proof. intros Hm H1 H2 s Hs. specialize (Hm (lget L s) (H1 s Hs)). unfold zoom. destruct (m _); try done. by apply H2. Qed.

Lemma calm_sz {A} (m : M (sys (log D)) A) : calm inodes_are inodes_are m → calm cached cached (sz m).
Proof. intros Hm. by eapply calm_in. Qed.
Lemma calm_sk {A} (m : M kst A) : quiet m → calm inodes_are inodes_are (sk m).
Proof. intros Hm. by apply calm_zoom. Qed.
Lemma calm_kmz {A} (m : M kmem A) : quiet m → calm inodes_are inodes_are (kmz m).
Proof. intros Hm. by apply calm_zoom. Qed.
Lemma calm_kz {A} (m : M kmem A) : quiet m → calm cached cached (kz m).
Proof. intros Hm. by apply calm_sz, calm_kmz. Qed.
Lemma calm_kk {A} (m : M kst A) : quiet m → calm cached cached (kk m).
Proof. intros Hm. by apply calm_zoom. Qed.
Lemma calm_dz {A} (m : M dev A) : quiet m → calm cached cached (dz m).
Proof. intros Hm. by apply calm_zoom. Qed.
Lemma calm_mz {A} (m : M mach A) : quiet m → calm cached cached (mz m).
Proof. intros Hm. by apply calm_zoom. Qed.
Lemma calm_cz {A} (m : M con A) : quiet m → calm cached cached (cz m).
Proof. intros Hm. by apply calm_zoom. Qed.
Hint Resolve calm_sz calm_sk calm_kmz calm_kz calm_kk calm_dz calm_mz calm_cz : quiet.

Lemma calm_mpmain : calm cached cached (mpmain idt).
Proof. unfold mpmain. repeat calm_step. Qed.
Hint Resolve calm_mpmain : quiet.
Lemma calm_mpenter : calm cached cached (mpenter cpus idt).
Proof. unfold mpenter. repeat calm_step. Qed.
Hint Resolve calm_mpenter : quiet.
Lemma calm_startothers : calm cached cached (startothers mpenter_addr entrypgdir_addr cpus idt entryother).
Proof.
  unfold startothers, start_one, on_cpu, entryother_run, kstore, read32, write32, lcr3. repeat calm_step.
Qed.
Hint Resolve calm_startothers : quiet.
Lemma calm_allocproc : calm inodes_are inodes_are (allocproc forkret_addr trapret_addr).
Proof. unfold allocproc, uproc, write32, kmemset. repeat calm_step. Qed.
Hint Resolve calm_allocproc : quiet.

(** A free entry of the inode cache. *)
Definition room : Prop := ∃ i ip, ino !! i = Some ip ∧ i_ref ip = 0.
Hypothesis Hroom : room.

Lemma calm_bind_gets {S A B} I K (f : S → A) (k : A → M S B) x : (∀ s, I s → f s = x) → calm I K (k x) → calm I K (gets f ≫= k).
Proof. intros Hf Hk s Hs. unfold mbind, M_bind, gets. rewrite (Hf s Hs). by apply Hk. Qed.
Lemma calm_weaken {S A} I J (m : M S A) : quiet m → (∀ s, J s) → calm I J m.
Proof. intros Hm HJ s _. specialize (Hm s Logic.I). destruct (m s); try done. Qed.

Lemma calm_ik {A} (m : M kst A) (I : fs (log D) → Prop) : quiet m → (∀ b b' l, I (Fs b l) → I (Fs b' l)) → calm I I (ik m).
Proof. intros Hm HI. unfold ik, bl. intros s Hs. specialize (Hm (lget bl_k (fs_bl s)) Logic.I). unfold zoom. cbn. destruct (m _); try done. by destruct s; eapply HI. Qed.
Lemma calm_iget : calm (λ s : fs (log D), fs_inode s = ino) (λ _, True) (iget ROOTDEV ROOTINO).
Proof using Hroom.
  unfold iget. eapply calm_bind; [apply calm_ik; [apply quiet_acquire|done]|]. intros []. eapply calm_bind_gets; [done|].
  assert (Hs := iget_scan_spec ino 0 ROOTDEV ROOTINO None).
  destruct (iget_scan ino 0 ROOTDEV ROOTINO None) as [i|[i|]].
  3:{ exfalso. destruct Hs as [_ Hs]. destruct Hroom as (i&ip&Hi&Hr). by apply (Hs i ip Hi). }
  all: apply calm_weaken; [|done]; unfold upd_inode; repeat calm_step; apply calm_ik; [apply quiet_release|done].
Qed.
Lemma calm_namei : calm (λ s : fs (log D), fs_inode s = ino) (λ _, True) (namei [SLASH]).
Proof using Hroom.
  unfold namei. eapply calm_bind; [|intros r; repeat calm_step]. unfold namex. cbn [hd Z.eqb Pos.eqb SLASH].
  eapply calm_bind; [apply calm_iget|]. intros i s _. exact Logic.I.
Qed.
Lemma calm_userinit : calm cached (λ _, True) (sz (userinit kdata forkret_addr trapret_addr initcode)).
Proof using Hroom.
  eapply calm_in with (I' := inodes_are) (J' := λ _, True); [|done|done]. unfold userinit, uproc.
  eapply calm_bind; [apply calm_allocproc|]. intros [i|]; [|apply calm_weaken; [apply calm_fault|done]].
  eapply calm_bind; [by apply calm_modify|]. intros []. eapply calm_bind; [apply calm_kmz, quiet_setupkvm|]. intros d.
  eapply calm_bind; [apply calm_sk, quiet_modify|]. intros []. destruct (d =? 0); [apply calm_weaken; [by apply calm_panic|done]|].
  eapply calm_bind; [apply calm_kmz, quiet_inituvm|]. intros []. do 2 (eapply calm_bind; [apply calm_sk, quiet_modify|]; intros []).
  eapply calm_bind; [apply (calm_in inodes_are (λ _, True) (λ s, fs_inode s = ino) (λ _, True)); [apply calm_namei|done|done]|]. intros c. apply calm_zoom; [apply quiet_modify|done].
Qed.
Lemma quiet_mpmain : quiet (mpmain (D := D) idt).
Proof. unfold mpmain, kk, cz, mz. quiet_by. Qed.
Lemma quiet_scan n : ∀ i, quiet (scheduler_scan i n).
Proof. induction n as [|n IH]; intros i; cbn [scheduler_scan]; unfold scheduler_pick; quiet_by. Qed.
Hint Resolve calm_userinit quiet_mpmain quiet_scan : quiet.
Lemma quiet_scheduler : quiet (kk (D := D) scheduler_start).
Proof. unfold kk, scheduler_start, sti. quiet_by. Qed.
Hint Resolve quiet_scheduler : quiet.

Lemma calm_ideinit : quiet disk_init → calm cached cached (ideinit is_ide disk_init).
Proof. intros Hd. unfold ideinit. repeat calm_step; done. Qed.

(** [main] returns whenever it keeps to what [wp] asks. *)
Lemma calm_main fuel imcr : quiet disk_init → calm cached (λ _, True)
  (main kend kdata forkret_addr trapret_addr mpenter_addr entrypgdir_addr cpus idt vectors initcode entryother is_ide disk_init fuel imcr).
Proof using Hroom.
  intros Hd. pose proof (calm_ideinit Hd). unfold main, kvmalloc, pinit, fileinit. repeat calm_step.
  apply calm_sz, (calm_in inodes_are inodes_are (λ s, fs_inode s = ino) (λ s, fs_inode s = ino)); [|done|done].
  apply calm_ik; [apply quiet_initlock|done].
Qed.
End Main.
