(* ===== verification/StartMain.v ===== *)
(** [main] starts the kernel (main.c): the first process and the state in
    which the scheduler switches to it. *)
From S2P Require Import Prelude Kmonad Wp Kstate Spinlock Sleep Str Kalloc Disk Cache Bio BioRun Log Blocks FsEx Balloc Inode Icache FileData Dir Pipe Ide Vm VmLaws VmFree VmCopy VmGrow Quiet Image File Proc Fork Init Boot Console ConsoleLaws Sysfile Devices DevLaws Segments MpLaws Start StartLaws Calm.
Import Dev Mp.

(** ** Interrupt lines *)

Definition irq_lines (is_ide there ismp : bool) : list Z :=
  [IRQ_KBD; IRQ_SLAVE] ++ (if is_ide then [IRQ_IDE] else []) ++ (if there then [IRQ_COM1] else []) ++ (if ismp then [] else [IRQ_TIMER]).
(** The processor that gets line [i] from the I/O APIC. *)
Definition irq_route (is_ide there : bool) (ncpu i : Z) : option Z :=
  if is_ide && (i =? IRQ_IDE) then Some (ncpu - 1)
  else if (i =? IRQ_KBD) || there && (i =? IRQ_COM1) then Some 0 else None.

Lemma irq_lines_ok is_ide there ismp irq : 0 ≤ irq < 16 →
  pic_vector (pics_at (boot_mask is_ide there ismp)) irq = T_IRQ0 + irq ∧
  pic_enabled (pics_at (boot_mask is_ide there ismp)) irq = bool_decide (irq ∈ irq_lines is_ide there ismp).
Proof.
  intros Hi. set (m := boot_mask _ _ _).
  assert (Hall : forallb (λ k, let i := Z.of_nat k in (pic_vector (pics_at m) i =? T_IRQ0 + i) &&
    Bool.eqb (pic_enabled (pics_at m) i) (bool_decide (i ∈ irq_lines is_ide there ismp))) (seq 0 16) = true)
    by (unfold m; destruct is_ide, there, ismp; vm_compute; reflexivity).
  rewrite forallb_forall in Hall. specialize (Hall (Z.to_nat irq)). rewrite Z2Nat.id in Hall by lia.
  cbv zeta in Hall. apply andb_true_iff in Hall as [H1 H2]; [|apply in_seq; lia].
  split; [by apply Z.eqb_eq|by apply Bool.eqb_prop].
Qed.
Lemma irq_route_ok is_ide there ncpu i : boot_dest is_ide there ncpu i = irq_route is_ide there ncpu i.
Proof.
  unfold boot_dest, uart_dest, irq_route, put.
  destruct is_ide, there; cbn [andb]; repeat case_decide; subst; try done;
    rewrite ?(proj2 (Z.eqb_neq _ _)) by congruence; try done.
Qed.

(** ** The scheduler's first choice *)

Lemma scan_to np p n k : ∀ i, k_procs k !! np = Some p → p_state p = RUNNABLE → p_pgdir p ≠ 0 →
  (∀ j q, j ≠ np → k_procs k !! j = Some q → p_state q = UNUSED) → (i ≤ np < i + n)%nat →
  scheduler_scan i n k = Ok (Some np) (upd_proc np (set_p_state RUNNING) (upd_cpu (set_cpu_proc (Some np)) k)).
Proof.
  induction n as [|n IH]; intros i Hp Hr Hd Ho Hi; [lia|]. cbn [scheduler_scan].
  destruct (decide (i = np)) as [->|Hne].
  - erewrite bind_run by (unfold deref; by rewrite Hp). rewrite bool_decide_true by done.
    unfold scheduler_pick. erewrite bind_run; [reflexivity|]. erewrite bind_run by (unfold deref; by rewrite Hp).
    erewrite bind_run by reflexivity. rewrite (proj2 (Z.eqb_neq _ _) Hd). by erewrite bind_run by reflexivity.
  - assert (Hlt : (np < length (k_procs k))%nat) by by eapply lookup_lt_Some.
    destruct (lookup_lt_is_Some_2 (k_procs k) i) as [q Hq]; [lia|].
    erewrite bind_run by (unfold deref; by rewrite Hq). rewrite bool_decide_false by by rewrite (Ho i q Hne Hq). apply IH; try done. lia.
Qed.
(** The kernel state when process [np] is switched to. *)
Definition chosen (np : nat) (k : kst) : kst :=
  upd_proc np (set_p_state RUNNING) (upd_cpu (set_cpu_proc (Some np)) (acq LPtable (upd_cpu (set_cpu_if true) k))).
Lemma scheduler_first np p k : is_free LPtable k → k_procs k !! np = Some p → p_state p = RUNNABLE → p_pgdir p ≠ 0 →
  (∀ j q, j ≠ np → k_procs k !! j = Some q → p_state q = UNUSED) → scheduler_start k = Ok (Some np) (chosen np k).
Proof.
  intros Hf Hp Hr Hd Ho. unfold scheduler_start, sti. erewrite bind_run by reflexivity.
  erewrite bind_run by (by apply acquire_run). erewrite bind_run by reflexivity.
  erewrite bind_run by (apply (scan_to np p); try done; apply lookup_lt_Some in Hp; cbn; lia). done.
Qed.

(** ** The first process *)

Section Main.
Context {D : Type} {DD : Driver D} {DL : DriverLaws D} {DV : Devsw (log D)}.
Context (kend kdata forkret_addr trapret_addr mpenter_addr entrypgdir_addr cpus idt : Z) (vectors : Z → Z).
Context (initcode entryother : list Z) (is_ide : bool) (disk_init : M D unit).
(** The linker puts the kernel above [KERNLINK] and its tables into the
    address space; the programs fit where they are copied to. *)
Hypothesis Hkend : KERNLINK ≤ kend.
Hypothesis Hkdata : KERNLINK < kdata < p2v PHYSTOP ∧ kdata mod PGSIZE = 0.
Hypothesis Hcpus : 0 ≤ cpus ∧ cpus + 8 * CPU_SIZE ≤ 4294967296.
Hypothesis Hmpenter : 0 ≤ mpenter_addr < 4294967296.
Hypothesis Hother : Z.of_nat (length entryother) ≤ 0xF9000.
Hypothesis Hinit : Z.of_nat (length initcode) < PGSIZE.
(** The tables at boot, the controllers, and the device state as found. *)
Context (ps : list proc) (ino : list inode) (pid : Z) (d0 : dev) (pcs : pics).
Implicit Types (s : start D) (l st : list Z).
Notation booted := (booted kend kdata).
Notation first_made := (first_made kend kdata forkret_addr trapret_addr initcode).
Notation mem_from := (mem_from kend).

(** What process [np] has in the memory [m]: kernel stack [v] and page table
    [d], which took the pages of [l] that are not in [l']. *)
Record first_ok (m : mem) (ino' : list inode) (v d : Z) (cwd : nat) l l' : Prop := {
  fo_cwd : got ino ino' cwd ROOTDEV ROOTINO;
  fo_d : d ≠ 0;
  fo_stack : stack_ok trapret_addr v m;
  fo_space : uspace kend m d l';
  fo_kernel : kernel_space kdata m d;
  fo_code : user_mem m d PGSIZE (λ _, true) (over 0 initcode (λ _, 0));
  fo_own : v ∉ l' ∧ ¬ pt_page m d v ∧ ¬ user_page m d v;
  fo_pages : ∀ x, x ∈ l ↔ x ∈ l' ∨ x = v ∨ pt_page m d x ∨ user_page m d x
}.

(** Making the process keeps the rest of the kernel as it is. *)
Lemma after_userinit mp c L All l st s np (s' : sys (log D)) : booted ps ino pid mp c L All l st s → first_made (st_sys s) l np s' →
  ∃ q v d cwd l', ps !! np = Some q ∧ p_state q = UNUSED ∧ sy_initproc s' = Some np ∧
    booted (<[np := first_proc forkret_addr pid v d cwd q]> ps) (fs_inode (sy_fs s')) (i32 (pid + 1)) mp c L All l'
      (st ++ filter (λ x, x ∉ l') l) (set_st_sys s' s) ∧
    cache (set_st_sys s' s) = cache s ∧
    first_ok (km_mem (km (set_st_sys s' s))) (fs_inode (sy_fs s')) v d cwd l l'.
Proof using All.
  intros [B1 B2 B3 B4 B5 B6 B7 B8 B9 B10 B11 B12 B13 B14]
    (m&l'&q&v&d&cwd&ino'&Hq&Hu&->&Hk&Hio&Hg&(F1&F2&F3)&P1&P2&P3&P4&P5&P6&P7&P8).
  exists q, v, d, cwd, l'. change (kern (st_sys s)) with (km_k (km s)) in *. rewrite B3 in Hq, Hk. rewrite B13 in *. rewrite B12 in Hg.
  set (s' := after _ _ _ _ _). assert (Ekm : km (set_st_sys s' s) = m) by (unfold km; cbn; by destruct m). rewrite Ekm.
  split; [done|]. split; [done|]. split; [done|]. split; [|split; [done|]].
  2:{ split; try done. intros ->. by destruct (page_aligned kend 0) as [_ []]; [apply P5|]. }
  change (sy_mem (st_sys s)) with (km_mem (km s)) in F3.
  assert (Hsame : ∀ x a, pt_page (km_mem (km s)) (st_kpgdir s) x → in_page x a → km_mem m a = km_mem (km s) a).
  { intros x a Hx Ha. destruct (pt_page_page kend _ _ _ _ B6 Hx) as [Hpx Hxl]. apply F3. intros w Hw Hin.
    destruct B5 as (_&Hp&_). rewrite Forall_forall in Hp. assert (Hne : w ≠ x) by (intros ->; done).
    destruct (page_apart kend w x a (Hp w Hw) Hpx Hne Ha); unfold in_page in Hin; lia. }
  assert (Hpp : ∀ x, pt_page (km_mem m) (st_kpgdir s) x ↔ pt_page (km_mem (km s)) (st_kpgdir s) x).
  { intros x. split; apply same_pde_pt_page; intros j Hj; [|symmetry]; by apply same_pde. }
  split; rewrite ?Ekm, ?Hk; try done.
  - apply (same_pt kend _ _ _ Hsame l l' B6); [intros ?%F2; by apply B6|].
    intros i Hi Hp ?%F2. by destruct (pt_tab _ _ _ _ B6 i Hi Hp) as (_&?&_).
  - eapply kernel_space_same; [|exact B7]. intros x _. by apply same_mmu.
  - intros x. change (st_kpgdir (set_st_sys s' s)) with (st_kpgdir s). rewrite Hpp, B8, elem_of_app, list_elem_of_filter.
    destruct (decide (x ∈ l')) as [Hx|Hx]; [pose proof (F2 x Hx)|]; tauto.
Qed.

(** ** The kernel when the scheduler switches to the first process *)

(** Process [np] in the place of [q], with kernel stack [v] and page table
    [d]; the pages are free ([l']), its own, stacks of processors ([st]) or the
    kernel's page tables. *)
Definition first_up (np : nat) s' : Prop := ∃ q v d cwd l l' st,
  ps !! np = Some q ∧ k_procs (km_k (km s')) = <[np := set_p_state RUNNING (first_proc forkret_addr pid v d cwd q)]> ps ∧
  first_ok (km_mem (km s')) (fs_inode (sy_fs (st_sys s'))) v d cwd l l' ∧ free_pages kend (km s') l' ∧
  ∀ x, x ∈ high ++ low kend ↔ x ∈ l ∨ x ∈ st ∨ pt_page (km_mem (km s')) (st_kpgdir s') x.

Record kernel_up mp c there dd' (np : nat) s' : Prop := {
  ku_first : first_up np s';
  ku_init : sy_initproc (st_sys s') = Some np;
  ku_kernel : kernel_space kdata (km_mem (km s')) (st_kpgdir s');
  ku_cpu : cpu_proc (k_cpu (km_k (km s'))) = Some np ∧ k_locks (km_k (km s')) !! LPtable = Some (Spinlock 1 (Some (cpu_id c)));
  ku_locks : ∀ x, x ∈ disk_locks is_ide → x ≠ LPtable → is_free x (km_k (km s'));
  ku_pic : ∀ irq, 0 ≤ irq < 16 → pic_vector (pic_run pcs (dv_out (st_dev s'))) irq = T_IRQ0 + irq ∧
    pic_enabled (pic_run pcs (dv_out (st_dev s'))) irq = bool_decide (irq ∈ irq_lines is_ide there (mp_ismp mp));
  ku_apic : mp_ismp mp = true → ∀ i, 0 ≤ i ≤ max_line d0 → i < 224 →
    entry_ok (dv_iodata (st_dev s')) i (irq_route is_ide there (mp_ncpu mp) i);
  ku_bsp : bsp_ok cpus vectors c (st_kpgdir s') (st_mach s') ∧ mc_idtr (st_mach s') = (idt, 8 * 256 - 1);
  ku_others : ∀ i, Z.of_nat i < mp_ncpu mp → i ≠ cpu_id c → st_started s' !! i = Some true ∧
    ∃ p, st_cpus s' !! i = Some p ∧ ap_up cpus idt (st_kpgdir s') i (pc_mach p);
  ku_cache : cache s' = (binit_nodes, dd', [])
}.

Notation starting := (starting kend kdata ps ino pid d0 pcs cpus idt).

Lemma boot_lock x : x ∈ boot_locks → x ∈ disk_locks is_ide.
Proof. unfold disk_locks. destruct is_ide; [by right|done]. Qed.

Lemma scheduler_wp np p s (Q : option nat → start D → Prop) : is_free LPtable (km_k (km s)) → k_procs (km_k (km s)) !! np = Some p →
  p_state p = RUNNABLE → p_pgdir p ≠ 0 → (∀ j q, j ≠ np → k_procs (km_k (km s)) !! j = Some q → p_state q = UNUSED) →
  Q (Some np) (upd_km (set_km_k (chosen np (km_k (km s))) (km s)) s) → wp (kk scheduler_start) Q s.
Proof. intros. apply kk_wp. eapply wp_run; [by eapply scheduler_first|done]. Qed.

Lemma user_wp mp c there dd' l st m1 kp s : starting mp (set_cpu_proc None c) (disk_locks is_ide) (high ++ low kend) l st
    (boot_mask is_ide there (mp_ismp mp)) (boot_dest is_ide there (mp_ncpu mp)) m1 kp (binit_nodes, dd', []) (Z.to_nat (mp_ncpu mp)) s →
  bsp_ok cpus vectors c kp m1 → (68 ≤ length l)%nat → icache_ok ino → ps ≠ [] → Forall (λ q, p_state q = UNUSED) ps → dv_ismp d0 = mp_ismp mp →
  wp (sz (userinit kdata forkret_addr trapret_addr initcode);; mpmain idt;; kk scheduler_start)
    (λ r s', ∃ np, r = Some np ∧ kernel_up mp c there dd' np s') s.
Proof using All.
  intros [G1 G2 _ G4 G5 G6 G7 _ G9] Hm1 Hl Hic Hps Hun Hd0.
  assert (Hfree : ∀ x, x ∈ boot_locks → is_free x (km_k (km s))) by (intros x Hx; by apply (b_locks _ _ _ _ _ _ _ _ _ _ _ _ G1), boot_lock).
  apply wp_bind. unfold sz. apply wp_zoom. assert (Hkb : KERNBASE < kend) by (clear -Hkend; change KERNLINK with 0x80100000 in Hkend; unfold KERNBASE; lia).
  eapply (userinit_wp kend kdata forkret_addr trapret_addr initcode Hkdata Hkb _ l); [|done|].
  { change (lget sys_l s) with (st_sys s). split; try done.
    - split; [exact (booted_k _ _ _ _ _ _ _ _ _ _ _ _ G1)|]. apply Hfree. by vm_compute; repeat constructor.
    - apply Hfree. by vm_compute; repeat constructor.
    - apply Hfree. by vm_compute; repeat constructor.
    - by rewrite (b_ino _ _ _ _ _ _ _ _ _ _ _ _ G1).
    - apply G1.
    - change (kern (st_sys s)) with (km_k (km s)). rewrite (b_procs _ _ _ _ _ _ _ _ _ _ _ _ G1).
      destruct ps as [|q r]; [done|]. exists 0%nat, q. split; [done|]. by apply Forall_cons in Hun as [? _]. }
  intros np s1 Hf1. destruct (after_userinit _ _ _ _ _ _ _ _ _ G1 Hf1) as (q&v&d&cwd&l'&Hq&_&Hi1&Hb1&Hca&Hfo).
  cbn [sys_l lset]. set (s2 := set_st_sys s1 s) in *. apply wp_bind.
  eapply mpmain_wp; [exact Hb1|]. intros s3 Hb3 E1 E2 E3 E4 (E5&E6&E7&_) E8 _.
  assert (Ekm : km s3 = km s2) by (unfold km; by rewrite E1).
  assert (Hpr := b_procs _ _ _ _ _ _ _ _ _ _ _ _ Hb3). assert (Hnp : (np < length ps)%nat) by by eapply lookup_lt_Some.
  eapply (scheduler_wp np (first_proc forkret_addr pid v d cwd q)).
  { apply (b_locks _ _ _ _ _ _ _ _ _ _ _ _ Hb3), boot_lock. by vm_compute; repeat constructor. }
  { rewrite Hpr. by apply list_lookup_insert_eq. }
  { done. }
  { apply Hfo. }
  { intros j q' Hj. rewrite Hpr, list_lookup_insert_ne by done. intros Hq'. rewrite Forall_forall in Hun. apply Hun. by eapply list_elem_of_lookup_2. }
  exists np. split; [done|]. set (s4 := upd_km _ s3). rewrite <- Ekm in Hfo. destruct Hb3 as [B1 B2 B3 B4 B5 B6 B7 B8 B9 B10 B11 B12 B13 B14].
  assert (Ek4 : km s4 = set_km_k (chosen np (km_k (km s3))) (km s3)) by apply km_upd.
  assert (Hmk : st_mach s4 = with_idtr (idt, 8 * 256 - 1) (Segments.with_k (mc_k (st_mach s3)) m1)).
  { change (st_mach s4) with (st_mach s3). rewrite E8 at 1. by rewrite <- G4. }
  assert (Hkp : st_kpgdir s4 = kp) by (change (st_kpgdir s4) with (st_kpgdir s3); rewrite E4; exact G5).
  assert (Hkp' : st_kpgdir s3 = kp) by exact Hkp. rewrite Hkp' in B6, B7, B8.
  split; rewrite ?Ek4, ?Hkp, ?Hmk; try done.
  - exists q, v, d, cwd, l, l', st. rewrite Ek4, Hkp.
    split; [done|]. split; [|split; [|split; [done|]]].
    + change (alter (set_p_state RUNNING) np (k_procs (km_k (km s3))) = <[np := set_p_state RUNNING (first_proc forkret_addr pid v d cwd q)]> ps).
      rewrite B3, (alter_at _ _ _ (first_proc forkret_addr pid v d cwd q)) by (by apply list_lookup_insert_eq). by rewrite list_insert_insert_eq.
    + change (fs_inode (sy_fs (st_sys s4))) with (fs_inode (sy_fs (st_sys s3))). rewrite B12. exact Hfo.
    + intros x. rewrite B8, elem_of_app, list_elem_of_filter.
      assert (Hsub : x ∈ l' → x ∈ l) by (intros Hx; apply (fo_pages _ _ _ _ _ _ _ Hfo); auto). destruct (decide (x ∈ l')); tauto.
  - change (sy_initproc (st_sys s4)) with (sy_initproc (st_sys s3)). rewrite E1. exact Hi1.
  - unfold chosen, acq. cbn [km_k set_km_k]. cbn -[km]. rewrite lookup_insert_eq, B1. done.
  - intros x Hx Hne. unfold is_free. cbn -[km]. rewrite lookup_insert_ne by done. by apply B4.
  - intros irq Hirq. destruct G2 as [[_ Hp] _ _]. change (st_dev s4) with (st_dev s3). rewrite E6.
    change (dv_out (st_dev s2)) with (dv_out (devs s)). rewrite Hp. by apply irq_lines_ok.
  - intros Hmp i Hi Hs. destruct G2 as [_ _ Hio]. change (st_dev s4) with (st_dev s3). rewrite E7, <- irq_route_ok. apply Hio; [congruence|done|done].
  - split; [|done]. destruct Hm1 as [(S1&S2&S3&S4&S5) H2 H3]. by split.
  - intros i Hi Hne. change (st_started s4) with (st_started s3). change (st_cpus s4) with (st_cpus s3). rewrite E2, E3.
    rewrite list_lookup_insert_ne by done. apply G9; [lia|done].
  - change (cache s4) with (cache s3). assert (E : cache s3 = cache s2) by (unfold cache; by rewrite E1). rewrite E, Hca. exact G6.
Qed.

Notation at_boot := (at_boot kend ps ino pid d0).
Notation machine_ok := (machine_ok kend kdata).

(** C8: [main] starts the kernel.  Whatever processors the firmware's tables
    list, from the state after the boot loader [main] returns from every
    step: all pages up to [PHYSTOP] that are not in use are free, the kernel's
    page table maps its memory and the devices, the controllers deliver
    exactly the lines in use to their vectors, all gates are set, every
    processor of the table runs on the kernel's page table with its own
    segments, the buffer cache holds no block yet, and the scheduler switches
    to the one runnable process, with the initcode at address 0 and nothing
    else, a kernel stack that returns to user space and the root directory. *)
Theorem main_correct fuel imcr mp c dd dd' there s :
  at_boot fuel imcr mp c dd there s → machine_ok disk_init mp c dd dd' → quiet disk_init →
  icache_ok ino → room ino → ps ≠ [] → Forall (λ q, p_state q = UNUSED) ps →
  ∃ np s', main kend kdata forkret_addr trapret_addr mpenter_addr entrypgdir_addr cpus idt vectors initcode entryother is_ide disk_init
      fuel imcr s = Ok (Some np) s' ∧ kernel_up mp c there dd' np s'.
Proof using All.
  intros Hab Hm Hq Hic Hr Hps Hun.
  assert (Hw : wp (main kend kdata forkret_addr trapret_addr mpenter_addr entrypgdir_addr cpus idt vectors initcode entryother is_ide disk_init
    fuel imcr) (λ r s', ∃ np, r = Some np ∧ kernel_up mp c there dd' np s') s).
  { unfold main. eapply before_user_wp; [done..|exact Hab|exact Hm|]. intros s1 l st m1 kp Hs1 Hb Hl.
    eapply user_wp; try done. destruct Hab as [_ _ _ _ _ _ _ _ _ _ _ _ _ -> _ _ _ _ _ _]. done. }
  assert (Hc : cached ino s) by apply Hab.
  destruct (calm_total _ _ _ _ _ (calm_main kend kdata forkret_addr trapret_addr mpenter_addr entrypgdir_addr cpus idt vectors initcode entryother is_ide disk_init
    ino Hr fuel imcr Hq) Hc Hw) as (r&s'&E&np&->&Hk). by exists np, s'.
Qed.
End Main.

(** ** A machine with two processors and a serial port *)

Definition demo_kend : Z := 0x80110000.
Definition boot_cpu0 (i : nat) : cpu := Cpu i false 0 false None.
Definition boot_k : kst := Kst (boot_cpu0 0) ∅ [proc_zero; proc_zero].
Definition boot_inodes : list inode := replicate 50 (Inode 0 0 0 0 di_zero).
Definition boot_mach : mach := Mach boot_k (replicate NSEGS segdesc_zero) 0 0 (replicate 256 gatedesc_zero) (0, 0) (0, 0) 0 0 0.
Definition boot_dev : dev :=
  Dev_ [] (Serial true [65] [] 3 (λ _, 0)) irqmask0 false 0 0 (λ r, if r =? REG_VER then 0x170011 else 0) false (λ _, 0) [] 2 false (λ _, 0).
Definition boot_sys : sys (log Memide.memide) :=
  Sys (Fs (Log (bc_zero boot_k (Memide.Mk 0 [])) 0 0 false 0 0 (replicate 10 0)) boot_inodes) false 0 demo_rom ∅ [] 0 1 None true.
Definition boot_ap (i : nat) : percpu :=
  Percpu (boot_cpu0 i) boot_mach (λ r, if r =? LA_ID then Z.shiftl (Z.of_nat i) 24 else 0) [] 0.
Definition boot_start : start Memide.memide :=
  Start_ boot_sys (Con boot_k false false (Input (replicate 128 0) 0 0 0) None (replicate 2000 0) 0) boot_dev demo_mpst boot_mach 0
    (replicate 8 false) [boot_ap 0; boot_ap 1].
(** What the tables of the firmware say. *)
Definition demo_found : mpst :=
  Mpst (λ _, 0) true 2 0 [0; 1; 0; 0; 0; 0; 0; 0] 2 0xFEE00000 [(0x22, 0x70); (0x23, 1)].
Definition demo_d0 : dev := dev_at (λ _, 0) demo_found boot_dev.
Definition demo_disk : M Memide.memide unit := modify (λ _, Memide.ideinit []).

Lemma boot_inodes_ok : icache_ok boot_inodes.
Proof.
  assert (H : ∀ i ip, boot_inodes !! i = Some ip → ip = Inode 0 0 0 0 di_zero) by (intros i ip Hi; by apply lookup_replicate in Hi as [-> _]).
  split; [done| | |]; [intros i ip ->%H; done|intros i ip ->%H; done|]. intros i j ip jp ->%H _ Hr. cbn in Hr. lia.
Qed.
Lemma demo_firmware : firmware_low demo_kend demo_rom.
Proof.
  assert (E : mpsearch demo_rom = Some (p2v 0xF0000)) by (vm_compute; reflexivity).
  split; [by vm_compute|by vm_compute|]. intros mp. rewrite E. intros [= <-] _. vm_compute. split; discriminate.
Qed.
Lemma demo_mpinit : ∃ p, mpinit 5 0 (mp_at demo_rom demo_mpst) = Ok tt p ∧ mp_at (λ _, 0) p = demo_found.
Proof.
  assert (E : mpconfig demo_rom = Some (p2v 0xF0000, p2v 0xF1000)) by (vm_compute; reflexivity).
  eexists. split; [apply (mpinit_run 5 0 (mp_at demo_rom demo_mpst) (p2v 0xF0000) (p2v 0xF1000) demo_entries E)|].
  - clear E. vm_compute. repeat split; first [left; reflexivity|discriminate].
  - reflexivity.
  - vm_compute. lia.
  - vm_compute. lia.
  - clear E. reflexivity.
Qed.
Lemma demo_low : (74 ≤ length (low demo_kend))%nat.
Proof.
  unfold low, range_pages. rewrite pages_from_length. change (PGROUNDUP demo_kend) with demo_kend. unfold demo_kend, PGSIZE.
  apply Nat2Z.inj_le. rewrite Z2Nat.id by (apply Z.div_pos; lia). vm_compute. discriminate.
Qed.
Lemma demo_at_boot : StartLaws.at_boot demo_kend [proc_zero; proc_zero] boot_inodes 1 demo_d0
  5 0 demo_found (boot_cpu0 0) (Memide.Mk 0 []) true boot_start.
Proof.
  split; [reflexivity|by split_and!|reflexivity|reflexivity|reflexivity| |reflexivity|reflexivity|reflexivity|exact demo_firmware| |
    reflexivity|reflexivity|reflexivity|split; reflexivity| |reflexivity|reflexivity|reflexivity|].
  - split; [reflexivity|cbn; lia].
  - exact demo_mpinit.
  - split; [reflexivity|]. split; [cbn; lia|reflexivity].
  - intros i Hi Hne. assert (i = 1%nat) as -> by (cbn in *; lia). exists (boot_ap 1).
    split; [reflexivity|]. split; [by split_and!|reflexivity|reflexivity|reflexivity].
Qed.

Lemma main_correct_witness : ∃ np s',
  main demo_kend 0x80108000 0x80103000 0x80103100 0x80103200 0x80109000 0x8010A000 0x8010B000 (λ i, 0x80104000 + 16 * i) [0xEB; 0xFE] [0xFA]
    false demo_disk 5 0 boot_start = Ok (Some np) s' ∧
  st_started s' !! 1%nat = Some true ∧ cpu_proc (k_cpu (km_k (km s'))) = Some np.
Proof.
  destruct (main_correct demo_kend 0x80108000 0x80103000 0x80103100 0x80103200 0x80109000 0x8010A000 0x8010B000 (λ i, 0x80104000 + 16 * i)
    [0xEB; 0xFE] [0xFA] false demo_disk ltac:(by vm_compute) ltac:(by vm_compute) ltac:(by vm_compute) ltac:(done) ltac:(by vm_compute) ltac:(by vm_compute)
    [proc_zero; proc_zero] boot_inodes 1 demo_d0 (Chip 0 0 [], Chip 0 0 []) 5 0 demo_found (boot_cpu0 0)
    (Memide.Mk 0 []) (Memide.ideinit []) true boot_start demo_at_boot) as (np&s'&E&Hk).
  - split; [|cbn; lia|done|split; [by vm_compute|split; [done|exact demo_low]]|by vm_compute].
    split; [cbn; lia|done| |done]. intros i Hi. cbn in Hi. destruct i as [|[|i]]; [by eexists|by eexists|lia].
  - apply quiet_modify.
  - exact boot_inodes_ok.
  - exists 0%nat, (Inode 0 0 0 0 di_zero). done.
  - done.
  - by repeat constructor.
  - exists np, s'. split; [exact E|]. split; [|apply Hk]. apply Hk; [cbn; lia|done].
Defined.
