(* ===== verification/Printf.v ===== *)
(** The user library's formatted print (printf.c), and numbers printed by it
    read back by [atoi] (ulib.c). *)
From S2P Require Import Prelude Kmonad Str Grep Console.

Module Printf.

Definition digits : list Z := zs "0123456789ABCDEF".

(** The characters that [printint] writes to the descriptor, by [putc]. *)
Definition printint (xx base : Z) (sgn : bool) : list Z := int_chars digits xx base sgn.

(** The loop of [printf] with its variable [state]: 0, or ['%'] behind a
    percent sign.  No result: an argument that was not passed is read. *)
Fixpoint printf_loop (state : Z) (fmt : list Z) (args : list parg) : option (list Z) :=
  match fmt with
  | [] => Some []
  | c :: fmt =>
      if state =? 0 then
        if c =? zc "%" then printf_loop (zc "%") fmt args
        else out ← printf_loop state fmt args; Some (c :: out)
      else
        if c =? zc "d" then
          match args with
          | PInt x :: args => out ← printf_loop 0 fmt args; Some (printint (i32 x) 10 true ++ out)
          | _ => None
          end
        else if (c =? zc "x") || (c =? zc "p") then
          match args with
          | PInt x :: args => out ← printf_loop 0 fmt args; Some (printint (i32 x) 16 false ++ out)
          | _ => None
          end
        else if c =? zc "s" then
          match args with
          | PStr s :: args => out ← printf_loop 0 fmt args; Some (default (zs "(null)") s ++ out)
          | _ => None
          end
        else if c =? zc "c" then
          match args with
          | PInt x :: args => out ← printf_loop 0 fmt args; Some (u8 x :: out)
          | _ => None
          end
        else if c =? zc "%" then out ← printf_loop 0 fmt args; Some (c :: out)
        else out ← printf_loop 0 fmt args; Some (zc "%" :: c :: out)
  end.

(** What a call writes to the descriptor. *)
Definition printf (fmt : list Z) (args : list parg) : option (list Z) := printf_loop 0 fmt args.

End Printf.

(** ** Numerals *)

(** The value of digits given as numbers, the last one first. *)
Fixpoint value (base : Z) (l : list Z) : Z :=
  match l with
  | [] => 0
  | d :: l => d + base * value base l
  end.

(** The digits as numbers. *)
Fixpoint nums (fuel : nat) (base x : Z) : list Z :=
  match fuel with
  | O => []
  | S fuel => x mod base :: (if x / base =? 0 then [] else nums fuel base (x / base))
  end.

Lemma digits_rev_nums fuel ds base x : 
  digits_rev fuel ds base x = (λ d, nth (Z.to_nat d) ds 0) <$> nums fuel base x.
Proof.
  revert x. induction fuel as [|fuel IH]; intros x; [done|]. cbn [digits_rev nums fmap list_fmap].
  f_equal. destruct (x / base =? 0); [done|]. apply IH.
Qed.

Lemma nums_spec fuel base x : 2 ≤ base → 0 ≤ x < base ^ Z.of_nat fuel → (0 < fuel)%nat →
  value base (nums fuel base x) = x ∧ Forall (λ d, 0 ≤ d < base) (nums fuel base x) ∧
  (last (nums fuel base x) = Some 0 → x = 0) ∧ nums fuel base x ≠ [].
Proof.
  intros Hb. revert x. induction fuel as [|fuel IH]; intros x Hx Hf; [lia|].
  cbn [nums]. pose proof (Z.mod_pos_bound x base). pose proof (Z.div_mod x base).
  destruct (Z.eqb_spec (x / base) 0) as [E|E].
  - cbn [value last]. split_and!; [lia|repeat constructor; lia|intros [=]; lia|done].
  - assert (Hq : 0 ≤ x / base < base ^ Z.of_nat fuel).
    { rewrite Nat2Z.inj_succ, Z.pow_succ_r in Hx by lia. split; [apply Z.div_pos; lia|].
      apply Z.div_lt_upper_bound; lia. }
    destruct fuel as [|fuel]; [simpl in Hq; lia|].
    destruct (IH (x / base) Hq) as (H1&H2&H3&H4); [lia|].
    cbn [value]. rewrite H1. split_and!; [lia|constructor; [lia|done]| |done].
    intros Hl. destruct (nums (S fuel) base (x / base)) eqn:En; [done|].
    rewrite last_cons_cons in Hl. apply H3 in Hl. done.
Qed.

Lemma nums_length fuel base x k : 2 ≤ base → 0 ≤ x < base ^ Z.of_nat k → (1 ≤ k)%nat →
  (length (nums fuel base x) ≤ k)%nat.
Proof.
  intros Hb. revert x k. induction fuel as [|fuel IH]; intros x k Hx Hk; [simpl; lia|].
  cbn [nums length]. destruct (Z.eqb_spec (x / base) 0) as [E|E]; [simpl; lia|].
  destruct k as [|k]; [lia|]. rewrite Nat2Z.inj_succ, Z.pow_succ_r in Hx by lia.
  assert (Hq : 0 ≤ x / base < base ^ Z.of_nat k).
  { split; [apply Z.div_pos; lia|]. apply Z.div_lt_upper_bound; lia. }
  destruct k as [|k]; [simpl in Hq; lia|]. specialize (IH (x / base) (S k) Hq ltac:(lia)). lia.
Qed.

(** [atoi] over the digits of a number, the first one first. *)
Lemma atoi_loop_digits ds : ∀ fuel m p acc, Forall (λ d, 0 ≤ d < 10) ds →
  reads_as m p ((λ d, 48 + d) <$> rev ds) → m (p + Z.of_nat (length ds)) = 0 →
  (length ds < fuel)%nat → 0 ≤ acc →
  acc * 10 ^ Z.of_nat (length ds) + value 10 ds < 2147483648 →
  Ulib.atoi_loop fuel m p acc = Some (acc * 10 ^ Z.of_nat (length ds) + value 10 ds).
Proof.
  induction ds as [|d ds IH] using rev_ind; intros [|fuel] m p acc Hd Hr Hz Hf Ha Hv; try (simpl in Hf; lia).
  - simpl in Hz. rewrite Z.add_0_r in Hz. cbn [Ulib.atoi_loop]. rewrite Hz. simpl. f_equal. lia.
  - apply Forall_app in Hd as [Hd Hd1]. inversion Hd1 as [|? ? Hd0 _]; subst.
    rewrite rev_app_distr in Hr. cbn [rev app fmap list_fmap] in Hr.
    apply reads_as_cons in Hr as [H0 Hr].
    rewrite length_app in *. cbn [length] in *. rewrite Nat.add_1_r in *.
    rewrite Nat2Z.inj_succ, Z.pow_succ_r in * by lia.
    assert (Hval : value 10 (ds ++ [d]) = value 10 ds + 10 ^ Z.of_nat (length ds) * d).
    { clear. induction ds as [|x ds IH]; cbn [app value length]; [simpl; lia|].
      rewrite IH, Nat2Z.inj_succ, Z.pow_succ_r by lia. lia. }
    assert (Hpos : 0 < 10 ^ Z.of_nat (length ds)) by (apply Z.pow_pos_nonneg; lia).
    assert (Hvd : 0 ≤ value 10 ds).
    { clear -Hd. induction Hd; cbn [value]; lia. }
    rewrite Hval in *. cbn [Ulib.atoi_loop]. rewrite H0.
    rewrite (proj2 (Z.leb_le 48 _)), (proj2 (Z.leb_le _ 57)) by lia. cbn [andb].
    assert (Hsmall : acc * 10 + d < 2147483648) by nia.
    rewrite i32_small by lia. replace (acc * 10 + (48 + d) - 48) with (acc * 10 + d) by lia.
    rewrite (IH fuel m (p + 1)); [f_equal; nia|done|exact Hr| |lia|lia|nia].
    rewrite <- Hz. f_equal. lia.
Qed.

Lemma udigits_dec d : 0 ≤ d < 10 → nth (Z.to_nat d) Printf.digits 0 = 48 + d.
Proof.
  intros Hd. assert (d = 0 ∨ d = 1 ∨ d = 2 ∨ d = 3 ∨ d = 4 ∨ d = 5 ∨ d = 6 ∨ d = 7 ∨ d = 8 ∨ d = 9) as H by lia.
  by repeat (destruct H as [->|H]; [done|]); subst.
Qed.

(** Numbers survive the trip through text: what [printf] writes for [%d]
    is a sign for a negative number only, then the decimal digits without
    leading zeros, at most ten of them (so they fit in the buffer of
    [printint]); and [atoi] of the text of a number that is not negative
    gives the number back, also for the largest [int]. *)
Theorem printf_atoi x : -2147483648 ≤ x < 2147483648 →
  ∃ ds, Printf.printf (zs "%d") [PInt (u32 x)] =
    Some ((if x <? 0 then [zc "-"] else []) ++ ((λ d, 48 + d) <$> rev ds)) ∧
  value 10 ds = Z.abs x ∧ Forall (λ d, 0 ≤ d < 10) ds ∧ (1 ≤ length ds ≤ 10)%nat ∧
  (last ds = Some 0 → x = 0) ∧
  ∀ fuel m p, (10 < fuel)%nat → 0 ≤ x → reads_as m p ((λ d, 48 + d) <$> rev ds) →
    m (p + Z.of_nat (length ds)) = 0 → Ulib.atoi fuel m p = Some x.
Proof.
  intros Hx. set (ds := nums 32 10 (Z.abs x)). exists ds.
  assert (Hb : 0 ≤ Z.abs x < 10 ^ Z.of_nat 32) by (simpl; lia).
  destruct (nums_spec 32 10 (Z.abs x)) as (Hv&Hd&Hl&Hne); [lia|done|lia|]. fold ds in Hv, Hd, Hl, Hne.
  assert (Hlen : (length ds ≤ 10)%nat).
  { unfold ds. apply (nums_length 32 10 (Z.abs x) 10); [lia|simpl; lia|lia]. }
  assert (Ht : rev (digits_rev 32 Printf.digits 10 (Z.abs x)) = (λ d, 48 + d) <$> rev ds).
  { rewrite digits_rev_nums. fold ds. change (?f <$> rev ds) with (map f (rev ds)).
    rewrite map_rev. f_equal.
    apply list_fmap_ext. intros j d Hj. apply udigits_dec.
    exact (Forall_lookup_1 _ _ _ _ Hd Hj). }
  split_and!; [|done|done|destruct ds; [done|simpl; lia]|done|intros Hlast; apply Hl in Hlast; lia|].
  - change (Printf.printf _ _) with (Some (Printf.printint (i32 (u32 x)) 10 true ++ [])).
    unfold Printf.printint, int_chars. rewrite app_nil_r.
    assert (Ei : i32 (u32 x) = x) by (unfold i32 at 1; rewrite u32_idemp; by apply i32_small).
    rewrite Ei. cbn [andb]. destruct (Z.ltb_spec x 0).
    + rewrite rev_app_distr, (u32_small (- x)) by lia. replace (- x) with (Z.abs x) by lia. by rewrite Ht.
    + rewrite app_nil_r, (u32_small x) by lia. replace x with (Z.abs x) at 1 by lia. by rewrite Ht.
  - intros fuel m p Hf Hx0 Hr Hz. unfold Ulib.atoi.
    rewrite (atoi_loop_digits ds); [f_equal; lia|done|done|done|lia|lia|lia].
Qed.

Lemma printf_atoi_witness :
  ∃ ds, Printf.printf (zs "%d") [PInt (u32 (-70))] = Some (zs "-70") ∧ value 10 ds = 70.
Proof.
  destruct (printf_atoi (-70)) as (ds&_&Hv&_).
  - lia.
  - exists ds. split; [reflexivity|exact Hv].
Defined.
