(* ===== verification/Labs.v ===== *)
(** Programs of the labs that are not part of the operating system: the list
    of names (lab2/namelist.c), the reader of names (lab3/fgetname.c), the
    comparison of two files byte by byte (lab3/bcmp.c), the program that
    applies such a comparison to a file (lab3/bfix.c, lab3/diff.c) and the
    reader of numbers (lab4/calc/atod.c).

    They run on the C library of the host: a [FILE] is its bytes, the position
    and the end-of-file flag. *)
From S2P Require Import Prelude Str Console Printf.

(** ** The C library *)

Record FILE := File_ { f_data : list Z; f_pos : nat; f_eof : bool }.
Definition fopen (data : list Z) : FILE := File_ data 0 false.
Definition EOF : Z := -1.

Definition fgetc (f : FILE) : Z * FILE :=
  match f_data f !! f_pos f with
  | Some c => (c, File_ (f_data f) (S (f_pos f)) (f_eof f))
  | None => (EOF, File_ (f_data f) (f_pos f) true)
  end.
Definition ungetc (f : FILE) : FILE := File_ (f_data f) (pred (f_pos f)) false.
(** [fread(&b, 1, 1, f)]: [b] keeps its value at the end of the file. *)
Definition fread1 (b : Z) (f : FILE) : Z * FILE :=
  let '(c, f') := fgetc f in (if c =? EOF then b else c, f').
Definition fseek (off : Z) (f : FILE) : FILE := File_ (f_data f) (Z.to_nat off) false.
(** A write behind the end fills the gap with zeros. *)
Definition fputc (c : Z) (f : FILE) : FILE :=
  let l := f_data f ++ replicate (S (f_pos f) - length (f_data f)) 0 in
  File_ (<[f_pos f := u8 c]> l) (S (f_pos f)) (f_eof f).
(** At most [n] bytes, up to the end of the line. *)
Fixpoint take_line (n : nat) (l : list Z) : list Z :=
  match n, l with
  | S n, c :: l => c :: (if c =? 10 then [] else take_line n l)
  | _, _ => []
  end.
Definition fgets (size : nat) (f : FILE) : option (list Z) * FILE :=
  match take_line (size - 1) (drop (f_pos f) (f_data f)) with
  | [] => (None, File_ (f_data f) (f_pos f) true)
  | l => (Some l, File_ (f_data f) (f_pos f + length l) (f_eof f))
  end.

(** A [char] is signed. *)
Definition i8 (x : Z) : Z := if u8 x <? 128 then u8 x else u8 x - 256.

Definition isdigit (c : Z) : bool := (48 <=? c) && (c <=? 57).
Definition isspace (c : Z) : bool := (c =? 32) || ((9 <=? c) && (c <=? 13)).
Definition isalpha (c : Z) : bool := ((65 <=? c) && (c <=? 90)) || ((97 <=? c) && (c <=? 122)).
Definition isalnum (c : Z) : bool := isalpha c || isdigit c.

Definition clamp (x : Z) : Z := Z.max (-2147483648) (Z.min 2147483647 x).
Fixpoint skip_space (l : list Z) : list Z :=
  match l with c :: l' => if isspace c then skip_space l' else l | [] => [] end.
Fixpoint digits_of (acc : Z) (l : list Z) : Z * list Z :=
  match l with
  | c :: l' => if isdigit c then digits_of (10 * acc + (c - 48)) l' else (acc, l)
  | [] => (acc, [])
  end.
(** [strtol(s, &rest, 10)]: without a digit the value is 0 and the rest [s]. *)
Definition strtol (s : list Z) : Z * list Z :=
  let l := skip_space s in
  let '(neg, l) := match l with
    | c :: l' => if c =? zc "-" then (true, l') else if c =? zc "+" then (false, l') else (false, l)
    | [] => (false, [])
    end in
  match l with
  | c :: _ => if isdigit c then let '(v, rest) := digits_of 0 l in (clamp (if neg : bool then - v else v), rest) else (0, s)
  | [] => (0, s)
  end.
Fixpoint strchr (s : list Z) (c : Z) : option (list Z) :=
  match s with
  | [] => None
  | x :: s' => if x =? c then Some s else strchr s' c
  end.
(** [%d], and [%u] or [%lu]. *)
Definition dec (x : Z) : list Z := int_chars (zs "0123456789") x 10 true.
Definition udec (x : Z) : list Z := int_chars (zs "0123456789") x 10 false.

(** ** lab2/namelist.c *)

Module Namelist.

Definition NAMELEN : nat := 64.
Definition INITIAL_CAPACITY : Z := 16.

Record namestat := Namestat { ns_name : list Z; ns_count : Z }.
(** [names] is the first [size] cells of the array of [capacity] cells. *)
Record namelist := Namelist_ { nl_capacity : Z; nl_size : Z; nl_names : list namestat }.

Definition make_namelist : namelist := Namelist_ INITIAL_CAPACITY 0 [].
Definition expand_namelist (nl : namelist) : namelist :=
  Namelist_ (i32 (nl_capacity nl * 2)) (nl_size nl) (nl_names nl).

(** The search: the index of the name, or [size]. *)
Fixpoint find_name (name : list Z) (l : list namestat) (i : nat) : nat :=
  match l with
  | [] => i
  | x :: l => if bool_decide (name = ns_name x) then i else find_name name l (S i)
  end.

(** No result: the name does not fit into its array. *)
Definition add_name (nl : namelist) (name : list Z) : option namelist :=
  let i := find_name name (nl_names nl) 0 in
  match nl_names nl !! i with
  | Some x =>
      Some (Namelist_ (nl_capacity nl) (nl_size nl)
        (<[i := Namestat (ns_name x) (i32 (ns_count x + 1))]> (nl_names nl)))
  | None =>
      let nl := if nl_size nl =? nl_capacity nl then expand_namelist nl else nl in
      if (NAMELEN <=? length name)%nat then None
      else Some (Namelist_ (nl_capacity nl) (nl_size nl + 1) (nl_names nl ++ [Namestat name 1]))
  end.
Fixpoint add_names (nl : namelist) (l : list (list Z)) : option namelist :=
  match l with
  | [] => Some nl
  | n :: l => nl ← add_name nl n; add_names nl l
  end.
End Namelist.

(** ** lab3/fgetname.c *)

Definition starts_name (c : Z) : bool := isalpha c || (c =? 95).
Definition in_name (c : Z) : bool := isalnum c || (c =? 95).

(** Before a name: the first character of it. *)
Fixpoint find_start (fuel : nat) (f : FILE) : option Z * FILE :=
  match fuel with
  | O => (None, f)
  | S fuel =>
      let '(ch, f) := fgetc f in
      if ch =? EOF then (None, f)
      else if starts_name ch then (Some ch, f) else find_start fuel f
  end.
(** Reading the name: [ich] is the length of [name]. *)
Fixpoint read_name (fuel : nat) (size : nat) (name : list Z) (ch : Z) (f : FILE) : list Z * FILE :=
  match fuel with
  | O => (name, f)
  | S fuel =>
      let name := if (length name =? size - 1)%nat then name else name ++ [ch] in
      let '(ch, f) := fgetc f in
      if ch =? EOF then (name, f)
      else if negb (in_name ch) then (name, ungetc f)
      else read_name fuel size name ch f
  end.
(** The bytes that are left bound both loops. *)
Definition fgetname (size : nat) (f : FILE) : option (list Z) * FILE :=
  let fuel := S (length (f_data f) - f_pos f) in
  match find_start fuel f with
  | (None, f) => (None, f)
  | (Some ch, f) => let '(name, f) := read_name fuel size [] ch f in (Some name, f)
  end.

(** ** lab3/diff.c *)

Record diff := Diff { d_offset : Z; d_old : Z; d_new : Z }.
Definition fputdiff (d : diff) : list Z :=
  zs "byte " ++ udec (d_offset d) ++ zs " -" ++ udec (d_old d) ++ zs " +" ++ udec (d_new d) ++ [10].
(** No result: there is no space in the line. *)
Definition parsediff (s : list Z) : option diff :=
  s ← strchr s (zc " ");
  let '(offset, s) := strtol s in
  let '(old, s) := strtol s in
  let '(new, s) := strtol s in
  Some (Diff offset (- old) new).

(** ** lab3/bcmp.c *)

Record bcmp_st := Bcmp { b_f1 : FILE; b_f2 : FILE; b_a : Z; b_b : Z; b_count : Z; b_out : list Z }.

Definition bcmp_line (count a b : Z) : list Z :=
  zs "byte " ++ dec count ++ zs " -" ++ dec a ++ zs " +" ++ dec b ++ [10].

Definition bcmp_turn (st : bcmp_st) : bcmp_st :=
  let '(a, f1) := fread1 (b_a st) (b_f1 st) in
  let '(b, f2) := fread1 (b_b st) (b_f2 st) in
  Bcmp f1 f2 a b (b_count st + 1)
    (b_out st ++ if negb (a =? b) then bcmp_line (b_count st) (i8 a) (i8 b) else []).
Fixpoint bcmp_loop (fuel : nat) (st : bcmp_st) : option bcmp_st :=
  match fuel with
  | O => None
  | S fuel =>
      if negb (f_eof (b_f1 st)) || negb (f_eof (b_f2 st)) then bcmp_loop fuel (bcmp_turn st) else Some st
  end.
(** What is printed for two files. *)
Definition bcmp (l1 l2 : list Z) : option (list Z) :=
  st ← bcmp_loop (S (S (length l1 `max` length l2))) (Bcmp (fopen l1) (fopen l2) (zc "a") (zc "b") 0 []);
  Some (b_out st).

(** ** lab3/bfix.c *)

Inductive message := Replaced (old new offset : Z) | NotReplaced (found expected offset : Z).

(** One line of the comparison, with [b] as the last line left it.  Of the
    messages, [Replaced] is printed with the option -m only; writing the line
    to the standard input has no effect. *)
Definition fix_line (rflag : bool) (line : list Z) (st : FILE * Z * list message) : option (FILE * Z * list message) :=
  let '(file, b, out) := st in
  d ← parsediff line;
  let '(b, file) := fread1 b (fseek (d_offset d) file) in
  let file := fseek (d_offset d) file in
  let '(old, new) := if rflag then (d_new d, d_old d) else (d_old d, d_new d) in
  Some (if i8 b =? old then (fputc new file, b, out ++ [Replaced old new (d_offset d)])
        else (file, b, out ++ [NotReplaced (i8 b) old (d_offset d)])).
Fixpoint fix_loop (fuel : nat) (rflag : bool) (diffs : FILE) (st : FILE * Z * list message) :
    option (FILE * Z * list message) :=
  match fuel with
  | O => None
  | S fuel =>
      match fgets 129 diffs with
      | (None, _) => Some st
      | (Some line, diffs) => st ← fix_line rflag line st; fix_loop fuel rflag diffs st
      end
  end.
(** The file after the changes of [text], undone if [rflag] is set. *)
Definition bfix (rflag : bool) (text l : list Z) : option (list Z) :=
  '(file, _, _) ← fix_loop (S (length text)) rflag (fopen text) (fopen l, zc "b", []);
  Some (f_data file).

(** ** lab4/calc/atod.c *)

Definition atod (a : list Z) : Z := foldl (λ ans c, i32 (i32 (i32 (ans * 10) + i8 c) - 48)) 0 a.
