(* ===== verification/LabsLaws.v ===== *)
(** The labs' programs: a comparison of two files, applied to the first one,
    gives the second one (lab3/bcmp.c, lab3/bfix.c), and the list of names
    counts (lab2/namelist.c). *)
From S2P Require Import Prelude Str Console Printf Labs.

(** ** Numbers *)

Lemma dec_digits x : 0 ≤ x < 2147483648 → ∃ ds, dec x = (λ d, 48 + d) <$> rev ds ∧ value 10 ds = x ∧
  Forall (λ d, 0 ≤ d < 10) ds ∧ (1 ≤ length ds ≤ 10)%nat.
Proof.
  intros Hx. exists (nums 32 10 x).
  destruct (nums_spec 32 10 x) as (Hv&Hd&_&Hne); [lia|cbn; lia|lia|].
  split_and!; [|done|done|destruct (nums 32 10 x); [done|cbn; lia]|apply (nums_length 32 10 x 10); [lia|cbn; lia|lia]].
  unfold dec, int_chars. cbn [andb]. rewrite (proj2 (Z.ltb_ge _ _)) by lia. rewrite u32_small, app_nil_r by lia.
  rewrite digits_rev_nums. change (?f <$> rev ?l) with (map f (rev l)). rewrite map_rev. f_equal.
  apply list_fmap_ext. intros j d Hj. pose proof (Forall_lookup_1 _ _ _ _ Hd Hj) as Hr. cbn beta in Hr.
  assert (d = 0 ∨ d = 1 ∨ d = 2 ∨ d = 3 ∨ d = 4 ∨ d = 5 ∨ d = 6 ∨ d = 7 ∨ d = 8 ∨ d = 9) as H by lia.
  by repeat (destruct H as [->|H]; [done|]); subst.
Qed.

Lemma digits_of_app ds : ∀ acc rest, Forall (λ d, 0 ≤ d < 10) ds → (∀ c, head rest = Some c → isdigit c = false) →
  digits_of acc (((λ d, 48 + d) <$> rev ds) ++ rest) = (acc * 10 ^ Z.of_nat (length ds) + value 10 ds, rest).
Proof.
  induction ds as [|d ds IH] using rev_ind; intros acc rest Hd Hr.
  - cbn [rev fmap list_fmap app length value]. destruct rest as [|c rest]; cbn; [f_equal; lia|].
    rewrite (Hr c eq_refl). f_equal. lia.
  - apply Forall_app in Hd as [Hd Hd1]. inversion Hd1 as [|? ? Hd0 _]; subst.
    rewrite rev_app_distr. cbn [rev app fmap list_fmap digits_of].
    unfold isdigit at 1. rewrite (proj2 (Z.leb_le 48 _)), (proj2 (Z.leb_le _ 57)) by lia. cbn [andb].
    change ((λ d, 48 + d) <$> rev ds) with (map (λ d, 48 + d) (rev ds)) in *. rewrite IH by done.
    rewrite length_app. cbn [length]. rewrite Nat.add_1_r, Nat2Z.inj_succ, Z.pow_succ_r by lia.
    assert (Hval : value 10 (ds ++ [d]) = value 10 ds + 10 ^ Z.of_nat (length ds) * d).
    { clear. induction ds as [|x ds IH]; cbn [app value length]; [simpl; lia|].
      rewrite IH, Nat2Z.inj_succ, Z.pow_succ_r by lia. lia. }
    rewrite Hval. f_equal. lia.
Qed.

(** The sign of a number in the text of a difference. *)
Definition signed (neg plus : bool) : list Z := if neg then [zc "-"] else if plus then [zc "+"] else [].

Lemma strtol_dec neg plus x rest : 0 ≤ x < 2147483648 → (∀ c, head rest = Some c → isdigit c = false) →
  strtol (32 :: signed neg plus ++ dec x ++ rest) = (if neg then - x else x, rest).
Proof.
  intros Hx Hr. destruct (dec_digits x Hx) as (ds&Ed&Hv&Hd&Hl&_). rewrite Ed.
  assert (Hfst : ∃ d t, ((λ d, 48 + d) <$> rev ds) ++ rest = 48 + d :: t ∧ 0 ≤ d < 10).
  { destruct ds as [|d ds _] using rev_ind; [cbn in Hl; lia|]. rewrite rev_app_distr. cbn.
    apply Forall_app in Hd as [_ Hd]. inversion Hd; subst. eauto. }
  pose proof (digits_of_app ds 0 rest Hd Hr) as Hdg. cbn [Z.mul Z.add] in Hdg. rewrite Hv in Hdg.
  destruct Hfst as (d&t&Et&Hd0). rewrite Et in *.
  assert (E : isdigit (48 + d) = true) by (unfold isdigit; apply andb_true_iff; split; apply Z.leb_le; lia).
  assert (Hs : isspace (48 + d) = false) by (unfold isspace; bdestr; simpl; lia || done).
  unfold strtol. cbn [skip_space]. change (isspace 32) with true. cbv iota.
  assert (Hc : clamp (if neg then - x else x) = if neg then - x else x) by (unfold clamp; destruct neg; lia).
  destruct neg; [|destruct plus]; cbn [signed app skip_space].
  - change (isspace (zc "-")) with false. cbv iota. change (zc "-" =? zc "-") with true. cbv iota. rewrite E, Hdg. cbv iota beta. f_equal. exact Hc.
  - change (isspace (zc "+")) with false. cbv iota. change (zc "+" =? zc "-") with false.
    change (zc "+" =? zc "+") with true. cbv iota. rewrite E, Hdg. cbv iota beta. f_equal. exact Hc.
  - assert (E1 : zc "-" = 45) by done. assert (E2 : zc "+" = 43) by done.
    rewrite Hs. cbv iota. rewrite (proj2 (Z.eqb_neq (48 + d) (zc "-"))), (proj2 (Z.eqb_neq (48 + d) (zc "+")))
      by lia. rewrite E, Hdg. cbv iota beta. f_equal. exact Hc.
Qed.

(** ** The text of a difference *)

(** A difference that [bcmp] can write so that it can be read back. *)
Definition plain_diff (d : diff) : Prop := 0 ≤ d_offset d < 2147483648 ∧ 0 ≤ d_old d < 128 ∧ 0 ≤ d_new d < 128.
Definition text (d : diff) : list Z := bcmp_line (d_offset d) (d_old d) (d_new d).
Definition texts (ds : list diff) : list Z := concat (text <$> ds).

Lemma parse_text d : plain_diff d → parsediff (text d) = Some d.
Proof.
  destruct d as [o a b]. intros (Ho&Ha&Hb). cbn [d_offset d_old d_new] in *. unfold text, bcmp_line, parsediff; cbn [d_offset d_old d_new].
  change (strchr _ _) with (Some (32 :: signed false false ++ dec o ++ (32 :: signed true false ++ dec a ++
    (32 :: signed false true ++ dec b ++ [10])))). cbn [mbind option_bind].
  rewrite strtol_dec by (lia || by intros c [= <-]). cbv iota beta.
  rewrite strtol_dec by (lia || by intros c [= <-]). cbv iota beta.
  rewrite strtol_dec by (lia || by intros c [= <-]). by rewrite Z.opp_involutive.
Qed.

Lemma take_line_app n l rest : Forall (λ c, c ≠ 10) l → (length l < n)%nat →
  take_line n (l ++ 10 :: rest) = l ++ [10].
Proof.
  revert n. induction l as [|c l IH]; intros [|n] Hc Hn; cbn in *; try lia; [done|].
  inversion Hc as [|? ? H1 H2]; subst. rewrite (proj2 (Z.eqb_neq _ _) H1). f_equal. apply IH; [done|lia].
Qed.

Lemma dec_chars x : 0 ≤ x < 2147483648 → Forall (λ c, c ≠ 10) (dec x) ∧ (length (dec x) ≤ 10)%nat.
Proof.
  intros Hx. destruct (dec_digits x Hx) as (ds&->&_&Hd&Hl). rewrite length_fmap, length_rev. split; [|lia].
  apply Forall_fmap, Forall_rev. eapply Forall_impl; [exact Hd|]. cbn. lia.
Qed.

(** A line of text without its end. *)
Lemma text_line d : plain_diff d → ∃ l, text d = l ++ [10] ∧ Forall (λ c, c ≠ 10) l ∧ (length l < 128)%nat.
Proof.
  intros (Ho&Ha&Hb). unfold text, bcmp_line.
  destruct (dec_chars (d_offset d)) as [O1 O2]; [lia|]. destruct (dec_chars (d_old d)) as [A1 A2]; [lia|].
  destruct (dec_chars (d_new d)) as [B1 B2]; [lia|].
  exists (zs "byte " ++ dec (d_offset d) ++ zs " -" ++ dec (d_old d) ++ zs " +" ++ dec (d_new d)).
  rewrite <- !app_assoc. split; [done|]. split.
  - rewrite !Forall_app. split_and!; try done; by apply (bool_decide_eq_true_1 _).
  - rewrite !length_app. change (length (zs "byte ")) with 5%nat. change (length (zs " -")) with 2%nat.
    change (length (zs " +")) with 2%nat. lia.
Qed.

Lemma fgets_text d pre rest e : plain_diff d →
  fgets 129 (File_ (pre ++ text d ++ rest) (length pre) e) =
    (Some (text d), File_ (pre ++ text d ++ rest) (length (pre ++ text d)) e).
Proof.
  intros Hd. destruct (text_line d Hd) as (l&E&Hl&Hn). unfold fgets. cbn [f_pos f_data f_eof].
  rewrite drop_app_length. rewrite E, <- app_assoc. change (129 - 1)%nat with 128%nat. cbn [app].
  rewrite take_line_app by done. destruct (l ++ [10]) eqn:El; [by destruct l|]. rewrite <- El.
  by rewrite !length_app.
Qed.

(** ** What [bcmp] writes *)

Fixpoint diffs_from (k : Z) (l1 l2 : list Z) : list diff :=
  match l1, l2 with
  | a :: l1, b :: l2 => (if a =? b then [] else [Diff k a b]) ++ diffs_from (k + 1) l1 l2
  | _, _ => []
  end.
(** The last turn of the loop reads nothing and compares the last bytes
    again. *)
Definition again (k a b : Z) : list diff := if a =? b then [] else [Diff k a b].

Lemma i8_small a : 0 ≤ a < 128 → i8 a = a.
Proof. intros. unfold i8. rewrite u8_small by lia. by rewrite (proj2 (Z.ltb_lt _ _)) by lia. Qed.

Definition ascii7 (c : Z) : Prop := 0 ≤ c < 128.

Lemma again_text k a b : ascii7 a → ascii7 b →
  (if negb (a =? b) then bcmp_line k (i8 a) (i8 b) else []) = texts (again k a b).
Proof.
  intros Ha Hb. unfold again. rewrite !i8_small by done. destruct (a =? b); [done|].
  unfold texts. cbn [fmap list_fmap concat negb]. by rewrite app_nil_r.
Qed.
Lemma texts_app d1 d2 : texts (d1 ++ d2) = texts d1 ++ texts d2.
Proof. unfold texts. by rewrite fmap_app, concat_app. Qed.

Lemma last_shift {A} (l : list A) x d : List.last (x :: l) d = List.last l x.
Proof.
  revert x d. induction l as [|y l IH]; intros x d; [done|].
  change (List.last (x :: y :: l) d) with (List.last (y :: l) d). by rewrite (IH y d), (IH y x).
Qed.

Lemma bcmp_loop_run l1 : ∀ l2 p1 p2 a b fuel out, length l1 = length l2 → length p1 = length p2 →
  Forall ascii7 l1 → Forall ascii7 l2 → ascii7 a → ascii7 b → (length l1 + 1 < fuel)%nat →
  ∃ st, bcmp_loop fuel (Bcmp (File_ (p1 ++ l1) (length p1) false) (File_ (p2 ++ l2) (length p2) false)
      a b (Z.of_nat (length p1)) out) = Some st ∧
    b_out st = out ++ texts (diffs_from (Z.of_nat (length p1)) l1 l2 ++
      again (Z.of_nat (length p1 + length l1)) (List.last l1 a) (List.last l2 b)).
Proof.
  induction l1 as [|x l1 IH]; intros [|y l2] p1 p2 a b fuel out El Ep H1 H2 Ha Hb Hf; try discriminate El;
    (destruct fuel as [|fuel]; [lia|]); cbn [bcmp_loop b_f1 b_f2 f_eof negb orb].
  - destruct fuel as [|fuel]; [cbn in Hf; lia|].
    assert (E : bcmp_turn (Bcmp (File_ (p1 ++ []) (length p1) false) (File_ (p2 ++ []) (length p2) false) a b
      (Z.of_nat (length p1)) out) = Bcmp (File_ (p1 ++ []) (length p1) true) (File_ (p2 ++ []) (length p2) true) a b
      (Z.of_nat (length p1) + 1) (out ++ texts (again (Z.of_nat (length p1)) a b))).
    { unfold bcmp_turn, fread1, fgetc. cbn [b_a b_b b_f1 b_f2 f_data f_pos f_eof b_count b_out]. rewrite !app_nil_r.
      rewrite !lookup_ge_None_2 by lia. change (EOF =? EOF) with true. cbv iota beta. by rewrite again_text. }
    rewrite E. eexists. split; [reflexivity|]. cbn. by rewrite Nat.add_0_r.
  - inversion H1; inversion H2; subst.
    assert (E : bcmp_turn (Bcmp (File_ (p1 ++ x :: l1) (length p1) false) (File_ (p2 ++ y :: l2) (length p2) false) a b
      (Z.of_nat (length p1)) out) = Bcmp (File_ ((p1 ++ [x]) ++ l1) (length (p1 ++ [x])) false)
      (File_ ((p2 ++ [y]) ++ l2) (length (p2 ++ [y])) false) x y
      (Z.of_nat (length (p1 ++ [x]))) (out ++ texts (again (Z.of_nat (length p1)) x y))).
    { unfold bcmp_turn, fread1, fgetc. cbn [b_a b_b b_f1 b_f2 f_data f_pos f_eof b_count b_out].
      rewrite !list_lookup_middle by done. unfold ascii7 in *.
      rewrite (proj2 (Z.eqb_neq x EOF)), (proj2 (Z.eqb_neq y EOF)) by (unfold EOF; lia).
      rewrite again_text by done. rewrite !length_app, <- !app_assoc. cbn [length app].
      f_equal; [f_equal; lia|f_equal; lia|lia]. }
    rewrite E. destruct (IH l2 (p1 ++ [x]) (p2 ++ [y]) x y fuel (out ++ texts (again (Z.of_nat (length p1)) x y)))
      as (st&E1&E2); try done; [by injection El|rewrite !length_app; cbn; lia|cbn in Hf; lia|].
    exists st. split; [exact E1|]. rewrite E2, <- app_assoc, <- texts_app. do 2 f_equal.
    cbn [diffs_from]. rewrite <- app_assoc. f_equal. rewrite length_app. cbn [length].
    replace (Z.of_nat (length p1 + 1)) with (Z.of_nat (length p1) + 1) by lia.
    replace (length p1 + 1 + length l1)%nat with (length p1 + S (length l1))%nat by lia.
    by rewrite !last_shift.
Qed.

Lemma bcmp_run l1 l2 : length l1 = length l2 → Forall ascii7 l1 → Forall ascii7 l2 →
  bcmp l1 l2 = Some (texts (diffs_from 0 l1 l2 ++
    again (Z.of_nat (length l1)) (List.last l1 (zc "a")) (List.last l2 (zc "b")))).
Proof.
  intros El H1 H2. unfold bcmp. rewrite <- El, Nat.max_id.
  destruct (bcmp_loop_run l1 l2 [] [] (zc "a") (zc "b") (S (S (length l1))) []) as (st&E&Eo); try done; [by split..|lia|].
  unfold fopen. cbn [app length] in *. change (Z.of_nat 0) with 0 in *. rewrite E. cbn. by rewrite Eo.
Qed.

(** ** What [bfix] does with it *)

Definition fix_st : Type := FILE * Z * list message.
(** [fix_line] behind the parser. *)
Definition fix_diff (rflag : bool) (d : diff) (st : fix_st) : fix_st :=
  let '(file, b, out) := st in
  let '(b, file) := fread1 b (fseek (d_offset d) file) in
  let file := fseek (d_offset d) file in
  let '(old, new) := if rflag then (d_new d, d_old d) else (d_old d, d_new d) in
  if i8 b =? old then (fputc new file, b, out ++ [Replaced old new (d_offset d)])
  else (file, b, out ++ [NotReplaced (i8 b) old (d_offset d)]).
Definition fix_all (rflag : bool) (ds : list diff) (st : fix_st) : fix_st := foldl (λ st d, fix_diff rflag d st) st ds.

Lemma fix_loop_run rflag ds : ∀ pre st fuel, Forall plain_diff ds → (length ds < fuel)%nat →
  fix_loop fuel rflag (File_ (pre ++ texts ds) (length pre) false) st = Some (fix_all rflag ds st).
Proof.
  induction ds as [|d ds IH]; intros pre st fuel Hd Hf; (destruct fuel as [|fuel]; [lia|]); cbn [fix_loop].
  - unfold texts. cbn [fmap list_fmap concat]. unfold fgets. cbn [f_pos f_data]. by rewrite app_nil_r, drop_all.
  - inversion Hd; subst. change (texts (d :: ds)) with (text d ++ texts ds). rewrite fgets_text by done.
    assert (E : fix_line rflag (text d) st = Some (fix_diff rflag d st)).
    { destruct st as [[file b] out]. unfold fix_line, fix_diff. rewrite parse_text by done. cbn [mbind option_bind].
      destruct (fread1 _ _). by destruct rflag. }
    rewrite E. cbn [mbind option_bind]. rewrite app_assoc. apply IH; [done|cbn in Hf; lia].
Qed.

(** Undoing is applying the other way round. *)
Definition swap (d : diff) : diff := Diff (d_offset d) (d_new d) (d_old d).
Lemma fix_all_undo ds st : fix_all true ds st = fix_all false (swap <$> ds) st.
Proof.
  revert st. induction ds as [|d ds IH]; intros st; [done|].
  change (fix_all true (d :: ds) st) with (fix_all true ds (fix_diff true d st)).
  change (fix_all false (swap <$> d :: ds) st) with (fix_all false (swap <$> ds) (fix_diff false (swap d) st)).
  rewrite IH. by destruct st as [[? ?] ?].
Qed.
Lemma swap_diffs k l1 l2 : swap <$> diffs_from k l1 l2 = diffs_from k l2 l1.
Proof.
  revert k l2. induction l1 as [|a l1 IH]; intros k [|b l2]; try done. cbn [diffs_from].
  rewrite fmap_app, IH, (Z.eqb_sym b a). by destruct (a =? b).
Qed.
Lemma swap_again k a b : swap <$> again k a b = again k b a.
Proof. unfold again. rewrite (Z.eqb_sym b a). by destruct (a =? b). Qed.

(** One replacement inside of the file, and one behind its end. *)
Lemma fix_inside p a b rest pos e c out : ascii7 a → ascii7 b →
  ∃ pos' e' out', fix_diff false (Diff (Z.of_nat (length p)) a b) (File_ (p ++ a :: rest) pos e, c, out)
    = (File_ (p ++ b :: rest) pos' e', a, out').
Proof.
  intros Ha Hb. unfold ascii7 in *. unfold fix_diff, fread1, fgetc, fseek. cbn [d_offset d_old d_new f_data f_pos f_eof].
  rewrite Nat2Z.id, list_lookup_middle by done. rewrite (proj2 (Z.eqb_neq a EOF)) by (unfold EOF; lia). cbv iota beta.
  rewrite i8_small, Z.eqb_refl by done. unfold fputc. cbn [f_data f_pos f_eof].
  rewrite length_app. cbn [length].
  replace (S (length p) - (length p + S (length rest)))%nat with 0%nat by lia. cbn [replicate]. rewrite app_nil_r.
  rewrite u8_small by lia. rewrite insert_app_r_alt, Nat.sub_diag by lia. eexists _, _, _. reflexivity.
Qed.
Lemma fix_behind l a b pos e out : ascii7 a → ascii7 b →
  ∃ pos' e' out', fix_diff false (Diff (Z.of_nat (length l)) a b) (File_ l pos e, a, out)
    = (File_ (l ++ [b]) pos' e', a, out').
Proof.
  intros Ha Hb. unfold ascii7 in *. unfold fix_diff, fread1, fgetc, fseek. cbn [d_offset d_old d_new f_data f_pos f_eof].
  rewrite Nat2Z.id, lookup_ge_None_2 by lia. change (EOF =? EOF) with true. cbv iota beta.
  rewrite i8_small, Z.eqb_refl by done. unfold fputc. cbn [f_data f_pos f_eof].
  replace (S (length l) - length l)%nat with 1%nat by lia. cbn [replicate].
  rewrite u8_small by lia. rewrite insert_app_r_alt, Nat.sub_diag by lia. eexists _, _, _. reflexivity.
Qed.

Lemma fix_all_app r d1 d2 st : fix_all r (d1 ++ d2) st = fix_all r d2 (fix_all r d1 st).
Proof. apply foldl_app. Qed.

(** The differences turn the rest of the first file into that of the second;
    the last byte read is the last one that differed. *)
Lemma fix_all_run l1 : ∀ l2 p pos e c out, length l1 = length l2 → Forall ascii7 l1 → Forall ascii7 l2 →
  ∃ pos' e' c' out', fix_all false (diffs_from (Z.of_nat (length p)) l1 l2) (File_ (p ++ l1) pos e, c, out)
    = (File_ (p ++ l2) pos' e', c', out') ∧
    (∀ x y, last l1 = Some x → last l2 = Some y → x ≠ y → c' = x).
Proof.
  induction l1 as [|a l1 IH]; intros [|b l2] p pos e c out El H1 H2; try discriminate El.
  - by eexists _, _, _, _.
  - inversion H1; inversion H2; subst. injection El as El. cbn [diffs_from]. rewrite fix_all_app.
    assert (Hstep : ∃ pos1 e1 c1 out1, fix_all false (if a =? b then [] else [Diff (Z.of_nat (length p)) a b])
      (File_ (p ++ a :: l1) pos e, c, out) = (File_ (p ++ b :: l1) pos1 e1, c1, out1) ∧ (a ≠ b → c1 = a)).
    { destruct (Z.eqb_spec a b) as [->|Hne]; [by eexists _, _, _, _|].
      destruct (fix_inside p a b l1 pos e c out) as (pos1&e1&out1&E); [done..|]. exists pos1, e1, a, out1. split; [exact E|done]. }
    destruct Hstep as (pos1&e1&c1&out1&E1&Hc1). rewrite E1.
    destruct (IH l2 (p ++ [b]) pos1 e1 c1 out1) as (pos2&e2&c2&out2&E2&Hc2); [done..|].
    rewrite length_app in E2. cbn [length] in E2. replace (Z.of_nat (length p + 1)) with (Z.of_nat (length p) + 1) in E2 by lia.
    rewrite <- !app_assoc in E2. cbn [app] in E2. rewrite E2. eexists _, _, _, _. split; [reflexivity|].
    intros x y Hx Hy Hne. destruct l1 as [|a' l1], l2 as [|b' l2]; try discriminate El.
    + injection Hx as <-. injection Hy as <-. cbn in E2. injection E2 as _ _ Ec _. rewrite <- Ec. by apply Hc1.
    + rewrite last_cons_cons in Hx, Hy. by apply (Hc2 x y).
Qed.

Lemma diffs_plain k l1 l2 : 0 ≤ k → k + Z.of_nat (length l1) < 2147483648 → Forall ascii7 l1 → Forall ascii7 l2 →
  Forall plain_diff (diffs_from k l1 l2).
Proof.
  revert k l2. induction l1 as [|a l1 IH]; intros k [|b l2] H0 Hk H1 H2; try constructor. cbn [diffs_from].
  inversion H1; inversion H2; subst. cbn [length] in Hk. apply Forall_app. split; [|apply IH; try done; lia].
  destruct (a =? b); constructor; [|done]. unfold plain_diff, ascii7 in *. cbn [d_offset d_old d_new]. lia.
Qed.

(** The byte that is appended by mistake when the last bytes differ. *)
Definition stray (l1 l2 : list Z) : list Z :=
  match last l1, last l2 with
  | Some a, Some b => if a =? b then [] else [b]
  | _, _ => []
  end.

Lemma last_list {A} (l : list A) d : l ≠ [] → last l = Some (List.last l d).
Proof.
  intros Hne. destruct l as [|x l]; [done|]. rewrite last_shift. revert x Hne.
  induction l as [|y l IH]; intros x _; [done|]. rewrite last_cons_cons, last_shift. by apply IH.
Qed.

Lemma last_ascii l d : l ≠ [] → Forall ascii7 l → ascii7 (List.last l d).
Proof. intros Hn Hl. rewrite Forall_forall in Hl. apply Hl, last_Some_elem_of, last_list, Hn. Qed.

Lemma apply_diffs l1 l2 da db : l1 ≠ [] → length l1 = length l2 → Forall ascii7 l1 → Forall ascii7 l2 →
  ∃ pos e c out, fix_all false (diffs_from 0 l1 l2 ++
      again (Z.of_nat (length l1)) (List.last l1 da) (List.last l2 db)) (fopen l1, zc "b", [])
    = (File_ (l2 ++ stray l1 l2) pos e, c, out).
Proof.
  intros Hne El H1 H2. assert (Hne2 : l2 ≠ []) by (intros ->; by destruct l1).
  rewrite fix_all_app. destruct (fix_all_run l1 l2 [] 0 false (zc "b") []) as (pos&e&c&out&E&Hc); [done..|].
  cbn [app length] in E. change (Z.of_nat 0) with 0 in E. unfold fopen. rewrite E.
  unfold stray. rewrite (last_list l1 da), (last_list l2 db) by done. unfold again.
  destruct (Z.eqb_spec (List.last l1 da) (List.last l2 db)) as [_|Hd].
  - rewrite app_nil_r. by eexists _, _, _, _.
  - rewrite (Hc _ _ (last_list _ _ Hne) (last_list _ _ Hne2) Hd), El.
    destruct (fix_behind l2 (List.last l1 da) (List.last l2 db) pos e out) as (pos'&e'&out'&E'); [by apply last_ascii..|].
    eexists _, _, _, _. exact E'.
Qed.

Lemma bfix_run rflag ds l st : Forall plain_diff ds → fix_all rflag ds (fopen l, zc "b", []) = st →
  bfix rflag (texts ds) l = Some (f_data st.1.1).
Proof.
  intros Hd E. unfold bfix. assert (Hlen : ∀ ds, (length ds ≤ length (texts ds))%nat).
  { clear. induction ds as [|d ds IH]; [done|]. change (texts (d :: ds)) with (text d ++ texts ds).
    rewrite length_app. assert (1 ≤ length (text d))%nat by (unfold text, bcmp_line; rewrite length_app; cbn; lia). cbn [length]. lia. }
  pose proof (fix_loop_run rflag ds [] (fopen l, zc "b", []) (S (length (texts ds))) Hd) as H.
  cbn [app length] in H. unfold fopen at 1. rewrite H, E by (specialize (Hlen ds); lia). by destruct st as [[? ?] ?].
Qed.

(** C40: a comparison can be applied and undone: for two ASCII files of the same
    length, not empty, applying the output of [bcmp] to the first gives the
    second and undoing it on the second gives the first, except that a file
    whose last byte was changed gets that byte once more at its end: [bcmp]
    finds the end of the files one turn too late and reports the last
    difference twice, the second time behind the end. *)
Theorem bcmp_bfix l1 l2 : l1 ≠ [] → length l1 = length l2 → Z.of_nat (length l1) < 2147483647 →
  Forall ascii7 l1 → Forall ascii7 l2 →
  ∃ t, bcmp l1 l2 = Some t ∧
    bfix false t l1 = Some (l2 ++ stray l1 l2) ∧ bfix true t l2 = Some (l1 ++ stray l2 l1).
Proof.
  intros Hne El Hn H1 H2. eexists. split; [by apply bcmp_run|].
  assert (Hne2 : l2 ≠ []) by (intros ->; by destruct l1).
  set (ds := diffs_from 0 l1 l2 ++ _).
  assert (Hp : Forall plain_diff ds).
  { apply Forall_app. split; [apply diffs_plain; [lia|lia|done..]|]. unfold again.
    destruct (Z.eqb_spec (List.last l1 (zc "a")) (List.last l2 (zc "b"))) as [_|_]; constructor; [|done].
    unfold plain_diff. cbn [d_offset d_old d_new]. split; [lia|]. split; by apply last_ascii. }
  split.
  - destruct (apply_diffs l1 l2 (zc "a") (zc "b")) as (pos&e&c&out&E); [done..|]. by rewrite (bfix_run _ _ _ _ Hp E).
  - destruct (apply_diffs l2 l1 (zc "b") (zc "a")) as (pos&e&c&out&E); [done..|].
    assert (E' : fix_all true ds (fopen l2, zc "b", []) = (File_ (l1 ++ stray l2 l1) pos e, c, out)).
    { rewrite fix_all_undo. unfold ds. rewrite fmap_app, swap_diffs, swap_again, El. exact E. }
    by rewrite (bfix_run _ _ _ _ Hp E').
Qed.

(** A change inside of a file comes out right; one of the last byte adds it
    once more. *)
Lemma bcmp_bfix_witness :
  (∃ t, bcmp (zs "hello") (zs "jello") = Some t ∧ bfix false t (zs "hello") = Some (zs "jello")) ∧
  (∃ t, bcmp (zs "cat") (zs "cab") = Some t ∧ bfix false t (zs "cat") = Some (zs "cabb")).
Proof.
  split.
  - destruct (bcmp_bfix (zs "hello") (zs "jello")) as (t&E&F&_); [done|done|done|
      by apply (bool_decide_eq_true_1 _)|by apply (bool_decide_eq_true_1 _)|]. by exists t.
  - destruct (bcmp_bfix (zs "cat") (zs "cab")) as (t&E&F&_); [done|done|done|
      by apply (bool_decide_eq_true_1 _)|by apply (bool_decide_eq_true_1 _)|]. by exists t.
Defined.

(** Two empty files are reported to differ, and the sign of a byte above 127
    makes a line that cannot be read back. *)
Lemma bcmp_empty : bcmp [] [] = Some (zs "byte 0 -97 +98" ++ [10]).
Proof. vm_compute. reflexivity. Qed.
Lemma bcmp_sign : bcmp [200; 1] [5; 1] = Some (zs "byte 0 --56 +5" ++ [10]) ∧
  parsediff (zs "byte 0 --56 +5") = Some (Diff 0 0 0).
Proof. vm_compute. split; reflexivity. Qed.

(** ** The list of names *)

Section Names.
Import Namelist.

Definition count (n : list Z) (l : list (list Z)) : nat := length (filter (λ x, x = n) l).
(** The names of [l], each at its first place. *)
Definition firsts (l : list (list Z)) : list (list Z) :=
  foldl (λ acc n, if decide (n ∈ acc) then acc else acc ++ [n]) [] l.
Definition name_stat (l : list (list Z)) (n : list Z) : namestat := Namestat n (Z.of_nat (count n l)).

Lemma firsts_snoc l n : firsts (l ++ [n]) = if decide (n ∈ firsts l) then firsts l else firsts l ++ [n].
Proof. unfold firsts. by rewrite foldl_app. Qed.
Lemma count_snoc n l x : count n (l ++ [x]) = (count n l + if decide (x = n) then 1 else 0)%nat.
Proof. unfold count. rewrite filter_app, length_app, filter_cons. by destruct (decide (x = n)). Qed.
Lemma firsts_in l n : n ∈ firsts l ↔ n ∈ l.
Proof.
  induction l as [|x l IH] using rev_ind; [done|]. rewrite firsts_snoc, elem_of_app, list_elem_of_singleton, <- IH.
  destruct (decide (x ∈ firsts l)); [naive_solver|]. by rewrite elem_of_app, list_elem_of_singleton.
Qed.
Lemma firsts_nodup l : NoDup (firsts l).
Proof.
  induction l as [|x l IH] using rev_ind; [constructor|]. rewrite firsts_snoc.
  destruct (decide (x ∈ firsts l)); [done|]. apply NoDup_app. split_and!; [done| |apply NoDup_singleton].
  intros y Hy ->%list_elem_of_singleton. done.
Qed.

Lemma find_name_spec n l : ∀ F k, NoDup F →
  match find_name n (name_stat l <$> F) k with
  | i => if decide (n ∈ F) then (k ≤ i)%nat ∧ F !! (i - k)%nat = Some n else i = (k + length F)%nat
  end.
Proof.
  induction F as [|x F IH]; intros k Hnd; cbn [fmap list_fmap find_name]; [rewrite decide_False by apply not_elem_of_nil; cbn; lia|].
  inversion Hnd as [|? ? Hx Hnd']; subst. cbn [name_stat ns_name].
  case_bool_decide as Hn.
  - subst. rewrite decide_True by (by left). by rewrite Nat.sub_diag.
  - specialize (IH (S k) Hnd'). destruct (decide (n ∈ F)).
    + rewrite decide_True by (by right). destruct IH as [H1 H2]. split; [lia|].
      replace (find_name n (name_stat l <$> F) (S k) - k)%nat with (S (find_name n (name_stat l <$> F) (S k) - S k)) by lia. done.
    + rewrite decide_False by (rewrite elem_of_cons; naive_solver). cbn [length]. lia.
Qed.

(** The list after the names [l]. *)
Record counted (l : list (list Z)) (nl : namelist) : Prop := {
  ct_names : nl_names nl = name_stat l <$> firsts l;
  ct_size : nl_size nl = Z.of_nat (length (firsts l));
  ct_fits : nl_size nl ≤ nl_capacity nl;
  ct_cap : 16 ≤ nl_capacity nl ≤ Z.max 16 (2 * nl_size nl)
}.

Lemma name_stat_other l n x : x ≠ n → name_stat (l ++ [n]) x = name_stat l x.
Proof. intros Hne. unfold name_stat. rewrite count_snoc, decide_False by done. by rewrite Nat.add_0_r. Qed.

Lemma add_name_known l nl n : counted l nl → n ∈ firsts l → Z.of_nat (length l) < 2147483647 →
  ∃ nl', add_name nl n = Some nl' ∧ counted (l ++ [n]) nl'.
Proof.
  intros [C1 C2 C3 C4] Hin Hlen. unfold add_name. rewrite C1.
  pose proof (find_name_spec n l (firsts l) 0 (firsts_nodup l)) as Hf. rewrite decide_True in Hf by done.
  set (i := find_name n (name_stat l <$> firsts l) 0) in *. destruct Hf as [_ Hi]. rewrite Nat.sub_0_r in Hi.
  rewrite list_lookup_fmap, Hi. cbn [fmap option_fmap option_map]. eexists. split; [reflexivity|].
  assert (Ef : firsts (l ++ [n]) = firsts l) by by rewrite firsts_snoc, decide_True.
  assert (Hc : (count n l ≤ length l)%nat) by apply length_filter.
  split; cbn [nl_names nl_size nl_capacity]; rewrite ?Ef; try done.
  apply list_eq. intros j. destruct (decide (i = j)) as [<-|Hne].
  - rewrite list_lookup_insert_eq by (rewrite length_fmap; by eapply lookup_lt_Some).
    rewrite list_lookup_fmap, Hi. cbn. f_equal. unfold name_stat. rewrite count_snoc, decide_True by done.
    f_equal. rewrite i32_small by (cbn [name_stat ns_count]; lia). lia.
  - rewrite list_lookup_insert_ne by done. rewrite !list_lookup_fmap.
    destruct (firsts l !! j) as [x|] eqn:Hj; [|done]. cbn. f_equal. symmetry. apply name_stat_other. intros ->.
    apply Hne. eapply NoDup_lookup; [apply firsts_nodup|done|done].
Qed.

Lemma add_name_new l nl n : counted l nl → n ∉ firsts l → Z.of_nat (length (firsts l)) < 1073741824 →
  (length n < NAMELEN)%nat → ∃ nl', add_name nl n = Some nl' ∧ counted (l ++ [n]) nl'.
Proof.
  intros [C1 C2 C3 C4] Hin Hlen Hn. unfold add_name. rewrite C1.
  pose proof (find_name_spec n l (firsts l) 0 (firsts_nodup l)) as Hf. rewrite decide_False in Hf by done.
  rewrite Hf, lookup_ge_None_2 by (rewrite length_fmap; lia).
  rewrite (proj2 (Nat.leb_gt _ _)) by exact Hn. eexists. split; [reflexivity|].
  assert (Ef : firsts (l ++ [n]) = firsts l ++ [n]) by by rewrite firsts_snoc, decide_False.
  assert (E0 : count n l = 0%nat).
  { unfold count. destruct (filter _ l) as [|x f] eqn:Ex; [done|]. assert (Hx : x ∈ filter (λ x, x = n) l) by (rewrite Ex; left).
    apply list_elem_of_filter in Hx as [-> Hx]. by apply firsts_in in Hx. }
  assert (En : (name_stat l <$> firsts l) ++ [Namestat n 1] = name_stat (l ++ [n]) <$> firsts (l ++ [n])).
  { rewrite Ef, fmap_app. f_equal.
    - apply list_fmap_ext. intros j x Hj. symmetry. apply name_stat_other. intros ->. apply Hin. by eapply list_elem_of_lookup_2.
    - cbn. unfold name_stat. by rewrite count_snoc, E0, decide_True. }
  destruct (Z.eqb_spec (nl_size nl) (nl_capacity nl)) as [He|He]; split;
    cbn [nl_names nl_size nl_capacity expand_namelist]; rewrite ?C1; try done; rewrite ?Ef, ?length_app; cbn [length];
    rewrite ?(i32_small (nl_capacity nl * 2)) by lia; lia.
Qed.

(** The list counts: after the names [l] have been added one by one, it has
    every name once, in the order in which they came first, with the number of
    times it came, and it never holds more than its capacity. *)
Theorem add_names_counts l : Forall (λ n, (length n < NAMELEN)%nat) l → Z.of_nat (length l) < 1073741824 →
  ∃ nl, add_names make_namelist l = Some nl ∧ counted l nl.
Proof.
  intros Hn Hl. assert (G : ∀ k, (k ≤ length l)%nat → ∃ nl, add_names make_namelist (take k l) = Some nl ∧ counted (take k l) nl).
  { assert (Happ : ∀ l1 n nl, add_names nl (l1 ++ [n]) = (nl1 ← add_names nl l1; add_name nl1 n)).
    { clear. induction l1 as [|x l1 IH]; intros n nl; cbn; [by destruct (add_name nl n)|].
      destruct (add_name nl x); [apply IH|done]. }
    induction k as [|k IH]; intros Hk; [exists make_namelist; split; [done|by split]|].
    destruct IH as (nl&E&C); [lia|]. destruct (lookup_lt_is_Some_2 l k) as [n Hkn]; [lia|].
    rewrite (take_S_r _ _ _ Hkn), Happ, E. cbn [mbind option_bind].
    assert (Hf : (length (firsts (take k l)) ≤ length (take k l))%nat).
    { generalize (take k l). clear. intros l. induction l as [|x l IH] using rev_ind; [done|].
      rewrite firsts_snoc, length_app. destruct (decide _); rewrite ?length_app; cbn; lia. }
    rewrite length_take in Hf. destruct (decide (n ∈ firsts (take k l))).
    - apply add_name_known; [done|done|rewrite length_take; lia].
    - apply add_name_new; [done|done|lia|]. rewrite Forall_lookup in Hn. by eapply Hn. }
  destruct (G (length l) ltac:(lia)) as (nl&H). rewrite firstn_all in H. by exists nl.
Qed.
End Names.
