(* ===== verification/Utils.v ===== *)
(** The small user programs: wc.c, cat.c, ls.c, echo.c, mkdir.c, rm.c, ln.c,
    kill.c, init.c, zombie.c, and [stat] of ulib.c.

    A program runs against system calls that it only knows by their
    interface ([Usys]); strings are lists of bytes without their NUL.
    [exit] ends the run. *)
From S2P Require Import Prelude Kmonad Str Balloc Inode Dir Exec Grep Console Printf.

(** ** System calls, as a program sees them *)

Class Usys (W : Type) := {
  u_open : list Z → Z → M W Z;
  u_read : Z → Z → M W (Z * list Z);        (* the result, and the bytes stored *)
  u_write : Z → list Z → M W Z;
  u_close : Z → M W Z;
  u_fstat : Z → M W (Z * stat);
  u_mkdir : list Z → M W Z;
  u_unlink : list Z → M W Z;
  u_link : list Z → list Z → M W Z;
  u_mknod : list Z → Z → Z → M W Z;
  u_dup : Z → M W Z;
  u_kill : Z → M W Z;
  u_fork : M W Z;
  u_wait : M W Z;
  u_exec : list Z → list (list Z) → M W Z;
  u_sleep : Z → M W Z
}.

Section Utils.
Context {W : Type} {US : Usys W}.
(** A bound on the turns of loops that run until a file ends. *)
Context (fuel : nat).

Definition u_exit {A} : M W A := panic "exit".

(** [printf] writes its characters one at a time. *)
Definition uprintf (fd : Z) (fmt : string) (args : list parg) : M W unit :=
  match Printf.printf (zs fmt) args with
  | Some out => for_each out (λ c, u_write fd [c];; mret tt)
  | None => fault
  end.

(** ulib.c *)
Definition ustat (n : list Z) : M W (Z * stat) :=
  fd ← u_open n 0;
  if fd <? 0 then mret (-1, Stat 0 0 0 0 0) else
  r ← u_fstat fd;
  u_close fd;;
  mret r.

(** ** wc.c *)

(** [strchr(" \r\t\n\v", c)] *)
Definition blank (c : Z) : bool := existsb (Z.eqb c) [32; 13; 9; 10; 11].

(** [l], [w], [c] and [inword]. *)
Record wcst := Wcst { wc_l : Z; wc_w : Z; wc_c : Z; wc_in : bool }.

(** The body of the inner loop. *)
Definition wc_char (st : wcst) (ch : Z) : wcst :=
  let c := i32 (wc_c st + 1) in
  let l := if ch =? 10 then i32 (wc_l st + 1) else wc_l st in
  if blank ch then Wcst l (wc_w st) c false
  else if negb (wc_in st) then Wcst l (i32 (wc_w st + 1)) c true
  else Wcst l (wc_w st) c true.

Definition wc_step (fd : Z) (st : wcst) : M W (wcst + wcst * Z) :=
  '(n, buf) ← u_read fd 512;
  if 0 <? n then mret (inl (foldl wc_char st (take (Z.to_nat n) buf)))
  else mret (inr (st, n)).

Definition wc (fd : Z) (name : list Z) : M W unit :=
  '(st, n) ← loop fuel (wc_step fd) (Wcst 0 0 0 false);
  if n <? 0 then uprintf 1 "wc: read error
" [];; u_exit else
  uprintf 1 "%d %d %d %s
" [PInt (wc_l st); PInt (wc_w st); PInt (wc_c st); PStr (Some name)].

(** The loop of [main] of wc.c and cat.c over the file names. *)
Fixpoint each_file (f : Z → list Z → M W unit) (argv : list (list Z)) : M W unit :=
  match argv with
  | [] => u_exit
  | a :: argv =>
      fd ← u_open a 0;
      if fd <? 0 then uprintf 1 "cat: cannot open %s
" [PStr (Some a)];; u_exit else
      f fd a;;
      u_close fd;;
      each_file f argv
  end.

(** [argv] without the program's name. *)
Definition wc_main (argv : list (list Z)) : M W unit :=
  match argv with [] => wc 0 [];; u_exit | _ => each_file wc argv end.

(** ** cat.c *)

Definition cat_step (fd : Z) (_ : unit) : M W (unit + Z) :=
  '(n, buf) ← u_read fd 512;
  if 0 <? n then u_write 1 (take (Z.to_nat n) buf);; mret (inl tt) else mret (inr n).

Definition cat (fd : Z) : M W unit :=
  n ← loop fuel (cat_step fd) tt;
  if n <? 0 then uprintf 1 "cat: read error
" [];; u_exit else mret tt.

Definition cat_main (argv : list (list Z)) : M W unit :=
  match argv with [] => cat 0;; u_exit | _ => each_file (λ fd _, cat fd) argv end.

(** ** ls.c *)

(** The name behind the last slash, padded with blanks. *)
Definition fmtname (path : list Z) : list Z :=
  let p := last_elem path path in
  if DIRSIZ <=? Z.of_nat (length p) then p
  else p ++ replicate (Z.to_nat (DIRSIZ - Z.of_nat (length p))) 32.

Definition ls_line (path : list Z) (st : stat) : M W unit :=
  uprintf 1 "%s %d %d %d
" [PStr (Some (fmtname path)); PInt (st_type st); PInt (st_ino st); PInt (st_size st)].

(** A directory entry: the number, and the name up to its NUL. *)
Definition ls_step (fd : Z) (path : list Z) (_ : unit) : M W (unit + unit) :=
  '(n, de) ← u_read fd 16;
  if negb (n =? 16) then mret (inr tt) else
  if get_u16 0 de =? 0 then mret (inl tt) else
  let buf := path ++ [SLASH] ++ cstr 14 (λ a, nth (Z.to_nat a) de 0) 2 in
  '(r, st) ← ustat buf;
  if r <? 0 then uprintf 1 "ls: cannot stat %s
" [PStr (Some buf)];; mret (inl tt) else
  ls_line buf st;;
  mret (inl tt).

Definition ls (path : list Z) : M W unit :=
  fd ← u_open path 0;
  if fd <? 0 then uprintf 2 "ls: cannot open %s
" [PStr (Some path)] else
  '(r, st) ← u_fstat fd;
  if r <? 0 then uprintf 2 "ls: cannot stat %s
" [PStr (Some path)];; u_close fd;; mret tt else
  (if st_type st =? T_FILE then ls_line path st
   else if st_type st =? T_DIR then
     if 512 <? Z.of_nat (length path) + 1 + DIRSIZ + 1 then uprintf 1 "ls: path too long
" []
     else loop fuel (ls_step fd path) tt
   else mret tt);;
  u_close fd;;
  mret tt.

Definition ls_main (argv : list (list Z)) : M W unit :=
  match argv with [] => ls (zs ".");; u_exit | _ => for_each argv ls;; u_exit end.

(** ** echo.c, mkdir.c, rm.c, ln.c, kill.c, zombie.c *)

Fixpoint echo_loop (argv : list (list Z)) : M W unit :=
  match argv with
  | [] => u_exit
  | a :: argv =>
      uprintf 1 "%s%s" [PStr (Some a); PStr (Some (match argv with [] => [10] | _ => [32] end))];;
      echo_loop argv
  end.
Definition echo_main (argv : list (list Z)) : M W unit := echo_loop argv.

(** The loop of mkdir.c and rm.c: stop at the first failure. *)
Fixpoint until_fail (f : list Z → M W Z) (msg : string) (argv : list (list Z)) : M W unit :=
  match argv with
  | [] => u_exit
  | a :: argv =>
      r ← f a;
      if r <? 0 then uprintf 2 msg [PStr (Some a)];; u_exit
      else until_fail f msg argv
  end.
Definition mkdir_main (argv : list (list Z)) : M W unit :=
  match argv with
  | [] => uprintf 2 "Usage: mkdir files...
" [];; u_exit
  | _ => until_fail u_mkdir "mkdir: %s failed to create
" argv
  end.
Definition rm_main (argv : list (list Z)) : M W unit :=
  match argv with
  | [] => uprintf 2 "Usage: rm files...
" [];; u_exit
  | _ => until_fail u_unlink "rm: %s failed to delete
" argv
  end.

Definition ln_main (argv : list (list Z)) : M W unit :=
  match argv with
  | [old; new] =>
      r ← u_link old new;
      (if r <? 0 then uprintf 2 "link %s %s: failed
" [PStr (Some old); PStr (Some new)] else mret tt);;
      u_exit
  | _ => uprintf 2 "Usage: ln old new
" [];; u_exit
  end.

(** The argument as [atoi] finds it in memory. *)
Definition kill_main (argv : list (list Z)) : M W unit :=
  for_each argv (λ a,
    match Ulib.atoi (S (length a)) (λ i, nth (Z.to_nat i) a 0) 0 with
    | Some pid => u_kill pid;; mret tt
    | None => nofuel
    end);;
  u_exit.

Definition zombie_main : M W unit :=
  pid ← u_fork;
  (if 0 <? pid then u_sleep 5;; mret tt else mret tt);;
  u_exit.

(** ** init.c *)

(** [while((wpid = wait()) >= 0 && wpid != pid)] *)
Definition init_wait (pid : Z) (_ : unit) : M W (unit + unit) :=
  wpid ← u_wait;
  if (0 <=? wpid) && negb (wpid =? pid) then uprintf 1 "zombie!
" [];; mret (inl tt)
  else mret (inr tt).

(** One turn of the endless loop, as the parent or as the child sees it. *)
Definition init_turn (_ : unit) : M W (unit + unit) :=
  uprintf 1 "init: starting sh
" [];;
  pid ← u_fork;
  if pid <? 0 then uprintf 1 "init: fork failed
" [];; u_exit else
  if pid =? 0 then
    u_exec (zs "sh") [zs "sh"];;
    uprintf 1 "init: exec sh failed
" [];;
    u_exit
  else
    loop fuel (init_wait pid) tt;;
    mret (inl tt).

Definition init_main : M W unit :=
  r ← u_open (zs "console") 2;
  (if r <? 0 then u_mknod (zs "console") 1 1;; u_open (zs "console") 2;; mret tt else mret tt);;
  u_dup 0;;
  u_dup 0;;
  loop fuel init_turn tt.

(** ** grep.c

    [grep] itself, which filters one descriptor, is the argument: Grep.v has
    it with its buffer. *)
Fixpoint grep_files (grep : list Z → Z → M W unit) (pattern : list Z) (argv : list (list Z)) : M W unit :=
  match argv with
  | [] => u_exit
  | a :: argv =>
      fd ← u_open a 0;
      if fd <? 0 then uprintf 1 "grep: cannot open %s
" [PStr (Some a)];; u_exit else
      grep pattern fd;;
      u_close fd;;
      grep_files grep pattern argv
  end.
Definition grep_main (grep : list Z → Z → M W unit) (argv : list (list Z)) : M W unit :=
  match argv with
  | [] => uprintf 2 "usage: grep pattern [file ...]
" [];; u_exit
  | [pattern] => grep pattern 0;; u_exit
  | pattern :: argv => grep_files grep pattern argv
  end.
End Utils.
