(* ===== verification/UtilsLaws.v ===== *)
(** wc and cat compute the same whatever pieces their input arrives in. *)
From S2P Require Import Prelude Kmonad Str Inode Grep Console Printf Utils.

(** Descriptor [fd] reads [inp] and descriptor 1 writes [out]: a read gives
    some of the bytes that are left, at least one unless there are none. *)
Class Stream (W : Type) `{US : Usys W} (fd : Z) (inp out : W → list Z) : Prop := {
  stream_read w n : 0 < n → ∃ k w', u_read fd n w = Ok (Z.of_nat k, take k (inp w)) w' ∧
    Z.of_nat k ≤ n ∧ (k ≤ length (inp w))%nat ∧ (k = 0%nat → inp w = []) ∧ inp w' = drop k (inp w) ∧ out w' = out w;
  stream_write w bytes : ∃ w', u_write 1 bytes w = Ok (Z.of_nat (length bytes)) w' ∧
    inp w' = inp w ∧ out w' = out w ++ bytes
}.

(** ** What wc counts *)

(** The text split at blanks, and its words. *)
Fixpoint fields (D : list Z) : list (list Z) :=
  match D with
  | [] => [[]]
  | c :: D =>
      match fields D with
      | [] => []
      | f :: fs => if blank c then [] :: f :: fs else (c :: f) :: fs
      end
  end.
Definition words (D : list Z) : list (list Z) := filter (λ f, f ≠ []) (fields D).
Definition lines (D : list Z) : Z := Z.of_nat (length (filter (λ c, c = 10) D)).

Definition starts_word (D : list Z) : bool := match D with [] => false | c :: _ => negb (blank c) end.

Lemma fields_cons D : ∃ f fs, fields D = f :: fs ∧ bool_decide (f ≠ []) = starts_word D.
Proof.
  induction D as [|c D (f&fs&E&_)]; [by exists [], []|]. cbn [fields starts_word]. rewrite E.
  destruct (blank c); [by exists [], (f :: fs)|by exists (c :: f), fs].
Qed.

Lemma words_cons c D : Z.of_nat (length (words (c :: D))) =
  Z.of_nat (length (words D)) + (if blank c then 0 else if starts_word D then 0 else 1).
Proof.
  unfold words. cbn [fields]. destruct (fields_cons D) as (f&fs&E&Hs). rewrite E.
  destruct (blank c).
  - rewrite filter_cons_False by (intros H; by apply H). lia.
  - rewrite filter_cons_True by done. destruct (starts_word D).
    + apply bool_decide_eq_true in Hs. rewrite filter_cons_True by done. cbn [length]. lia.
    + apply bool_decide_eq_false, dec_stable in Hs. subst f. rewrite filter_cons_False by (intros H; by apply H).
      cbn [length]. lia.
Qed.
Lemma lines_cons c D : lines (c :: D) = lines D + (if c =? 10 then 1 else 0).
Proof.
  unfold lines. destruct (Z.eqb_spec c 10); [rewrite filter_cons_True by done|rewrite filter_cons_False by done]; cbn [length]; lia.
Qed.

Definition bsum (b : bool) : Z := if b then 1 else 0.

Lemma wc_counts D : ∀ st, 0 ≤ wc_l st ≤ wc_c st → 0 ≤ wc_w st ≤ wc_c st → wc_c st + Z.of_nat (length D) < 2147483648 →
  let st' := foldl wc_char st D in
  wc_l st' = wc_l st + lines D ∧ wc_c st' = wc_c st + Z.of_nat (length D) ∧
  wc_w st' = wc_w st + Z.of_nat (length (words D)) - bsum (wc_in st && starts_word D).
Proof.
  induction D as [|c D IH]; intros st Hl Hw Hc; cbn zeta.
  - change (lines []) with 0. change (words []) with (@nil (list Z)). cbn. rewrite andb_false_r. cbn. lia.
  - cbn [foldl length] in *. rewrite words_cons, lines_cons. cbn [starts_word].
    assert (Hi : ∀ x, 0 ≤ x ≤ wc_c st → i32 (x + 1) = x + 1) by (intros x Hx; apply i32_small; lia).
    set (st1 := wc_char st c).
    assert (H1 : wc_l st1 = wc_l st + (if c =? 10 then 1 else 0) ∧ wc_c st1 = wc_c st + 1 ∧
      wc_w st1 = wc_w st + bsum (negb (blank c) && negb (wc_in st)) ∧ wc_in st1 = negb (blank c)).
    { unfold st1, wc_char. rewrite !Hi by lia. unfold bsum. destruct (c =? 10), (blank c), (wc_in st); cbn; lia. }
    destruct H1 as (E1&E2&E3&E4). assert (Hb : ∀ b, 0 ≤ bsum b ≤ 1) by (intros []; cbn; lia).
    pose proof (Hb (negb (blank c) && negb (wc_in st))).
    destruct (IH st1) as (I1&I2&I3); [destruct (c =? 10); lia|lia|lia|].
    rewrite I1, I2, I3, E1, E2, E3, E4. unfold bsum. split_and!; [lia|lia|].
    destruct (blank c), (wc_in st), (starts_word D); cbn; lia.
Qed.

(** ** Runs *)

Section Run.
Context {W : Type} {US : Usys W} {fd : Z} {inp out : W → list Z} {ST : Stream W fd inp out}.

Lemma put_chars_run chars : ∀ w, ∃ w', for_each chars (λ c, u_write 1 [c];; mret tt) w = Ok tt w' ∧
  inp w' = inp w ∧ out w' = out w ++ chars.
Proof.
  induction chars as [|c chars IH]; intros w; cbn [for_each]; [exists w; by rewrite app_nil_r|].
  destruct (stream_write (fd := fd) w [c]) as (w1&E&I1&O1). destruct (IH w1) as (w2&E2&I2&O2). exists w2. split_and!.
  - erewrite bind_run; [exact E2|]. by mrun E.
  - congruence.
  - by rewrite O2, O1, <- app_assoc.
Qed.
Lemma uprintf_run fmt args text w : Printf.printf (zs fmt) args = Some text →
  ∃ w', uprintf 1 fmt args w = Ok tt w' ∧ inp w' = inp w ∧ out w' = out w ++ text.
Proof. intros E. unfold uprintf. rewrite E. apply put_chars_run. Qed.

Lemma wc_loop_run fuel : ∀ w st, (length (inp w) < fuel)%nat →
  ∃ w', loop fuel (wc_step fd) st w = Ok (foldl wc_char st (inp w), 0) w' ∧ out w' = out w.
Proof.
  induction fuel as [|fuel IH]; intros w st Hf; [lia|].
  destruct (stream_read (fd := fd) w 512 ltac:(lia)) as (k&w1&E&_&Hk&Hz&I1&O1).
  assert (Es : wc_step fd st w = Ok (if 0 <? Z.of_nat k then inl (foldl wc_char st (take k (inp w))) else inr (st, Z.of_nat k)) w1).
  { unfold wc_step. mrun E. rewrite Nat2Z.id, take_take, Nat.min_id. by destruct (0 <? Z.of_nat k). }
  destruct (Z.ltb_spec 0 (Z.of_nat k)) as [Hp|Hp].
  - destruct (IH w1 (foldl wc_char st (take k (inp w)))) as (w2&E2&O2); [rewrite I1, length_drop; lia|].
    exists w2. split; [|congruence]. rewrite (loop_next _ _ _ _ _ _ Es), E2, I1, <- foldl_app, take_drop. done.
  - assert (k = 0%nat) as -> by lia. rewrite (Hz eq_refl). exists w1. split; [|done]. cbn [loop foldl]. by mrun Es.
Qed.

Lemma cat_loop_run fuel : ∀ w, (length (inp w) < fuel)%nat →
  ∃ w', loop fuel (cat_step fd) tt w = Ok 0 w' ∧ out w' = out w ++ inp w.
Proof.
  induction fuel as [|fuel IH]; intros w Hf; [lia|].
  destruct (stream_read (fd := fd) w 512 ltac:(lia)) as (k&w1&E&_&Hk&Hz&I1&O1).
  destruct (decide (k = 0%nat)) as [->|Hp].
  - rewrite (Hz eq_refl), app_nil_r. exists w1. split; [|done]. cbn [loop]. unfold cat_step. erewrite bind_run; [|by mrun E]. done.
  - destruct (stream_write (fd := fd) w1 (take k (inp w))) as (w2&E2&I2&O2).
    destruct (IH w2) as (w3&E3&O3); [rewrite I2, I1, length_drop; lia|]. exists w3. split.
    + rewrite <- E3. apply loop_next. unfold cat_step. mrun E. rewrite Nat2Z.id, take_take, Nat.min_id.
      rewrite (proj2 (Z.ltb_lt _ _)) by lia. by mrun E2.
    + by rewrite O3, O2, O1, I2, I1, <- app_assoc, take_drop.
Qed.

(** The line that wc prints. *)
Definition wc_text (l w c : Z) (name : list Z) : list Z :=
  Printf.printint (i32 l) 10 true ++ [32] ++ Printf.printint (i32 w) 10 true ++ [32] ++
  Printf.printint (i32 c) 10 true ++ [32] ++ name ++ [10].
Lemma wc_printf l w c name : Printf.printf (zs "%d %d %d %s
") [PInt l; PInt w; PInt c; PStr (Some name)] = Some (wc_text l w c name).
Proof. reflexivity. Qed.

(** [wc] prints the counts of its input, in whatever pieces the system
    delivers it: the newlines, the words, which are what is left between
    blanks, and the bytes of the whole text.  It ends, with any bound above the
    length of the input. *)
Theorem wc_correct fuel w name : (length (inp w) < fuel)%nat → Z.of_nat (length (inp w)) < 2147483648 →
  ∃ w', wc fuel fd name w = Ok tt w' ∧
    out w' = out w ++ wc_text (lines (inp w)) (Z.of_nat (length (words (inp w)))) (Z.of_nat (length (inp w))) name.
Proof.
  intros Hf Hl. destruct (wc_loop_run fuel w (Wcst 0 0 0 false) Hf) as (w1&E&O1).
  destruct (wc_counts (inp w) (Wcst 0 0 0 false)) as (C1&C2&C3); cbn [wc_l wc_w wc_c wc_in]; [lia|lia|lia|].
  set (st := foldl _ _ _) in *. cbn [wc_l wc_w wc_c wc_in andb bsum] in C1, C2, C3.
  rewrite Z.add_0_l in C1, C2, C3. rewrite Z.sub_0_r in C3.
  destruct (uprintf_run _ _ _ w1 (wc_printf (wc_l st) (wc_w st) (wc_c st) name)) as (w2&E2&_&O2).
  exists w2. split; [|by rewrite O2, O1, C1, C2, C3].
  unfold wc. mrun E. exact E2.
Qed.

(** cat copies its input to its output. *)
Theorem cat_correct fuel w : (length (inp w) < fuel)%nat →
  ∃ w', cat fuel fd w = Ok tt w' ∧ out w' = out w ++ inp w.
Proof.
  intros Hf. destruct (cat_loop_run fuel w Hf) as (w1&E&O1). exists w1. split; [|done]. unfold cat. by mrun E.
Qed.
End Run.

(** ** An example: descriptor 0 gives three bytes at a time *)

Record pipes3 := Pipes3 { p3_in : list Z; p3_out : list Z }.
#[export] Instance pipes3_sys : Usys pipes3 := {|
  u_open _ _ := mret (-1);
  u_read _ n := λ s, let k := Nat.min (Z.to_nat n) (Nat.min 3 (length (p3_in s))) in
    Ok (Z.of_nat k, take k (p3_in s)) (Pipes3 (drop k (p3_in s)) (p3_out s));
  u_write _ b := λ s, Ok (Z.of_nat (length b)) (Pipes3 (p3_in s) (p3_out s ++ b));
  u_close _ := mret 0; u_fstat _ := mret (-1, Inode.Stat 0 0 0 0 0); u_mkdir _ := mret (-1);
  u_unlink _ := mret (-1); u_link _ _ := mret (-1); u_mknod _ _ _ := mret (-1); u_dup _ := mret (-1);
  u_kill _ := mret (-1); u_fork := mret (-1); u_wait := mret (-1); u_exec _ _ := mret (-1); u_sleep _ := mret 0
|}.
#[export] Instance pipes3_stream : Stream pipes3 0 p3_in p3_out.
Proof.
  split.
  - intros w n Hn. eexists _, _. split; [reflexivity|]. cbn [p3_in p3_out]. split_and!; try done; [lia|lia|].
    intros Hz. destruct (p3_in w); [done|]. cbn [length] in Hz. lia.
  - intros w bytes. by eexists.
Qed.

Lemma wc_correct_witness : ∃ w', wc 20 0 [] (Pipes3 (zs "ab  cd") []) = Ok tt w' ∧
  p3_out w' = zs "0 2 6 " ++ [10].
Proof.
  destruct (wc_correct (fd := 0) (inp := p3_in) (out := p3_out) 20 (Pipes3 (zs "ab  cd") []) [])
    as (w'&E&O); [cbn; lia|cbn; lia|].
  exists w'. split; [exact E|]. rewrite O. vm_compute. reflexivity.
Defined.
