(* ===== verification/SyscallLaws.v ===== *)
(** System call arguments: what the kernel accepts from a process. *)
From S2P Require Import Prelude Kmonad Wp Kstate Spinlock Sleep Str Kalloc Disk Bio Log Blocks FsEx Balloc Inode Icache FileData Dir Pipe Vm VmLaws File Proc Syscall Exec Sysfile.

Section Args.
Context {B : Type} {BB : Blocks B} {BL : BlockLaws B} {BT : Trans B} {DV : Devsw B}.

#[local] Existing Instance sys_k_laws.

(** The byte that the process sees at an address of its memory. *)
Definition ubyte (s : sys B) (p : proc) (va : Z) : Z :=
  match mmu (sy_mem s) (p_pgdir p) va with Some pa => sy_mem s (p2v pa) | None => 0 end.
Definition ubytes (s : sys B) (p : proc) (va : Z) (n : nat) : list Z :=
  (λ j, ubyte s p (va + Z.of_nat j)) <$> seq 0 n.

(** Process [p] runs, below the kernel, with all of its memory mapped. *)
Record running (s : sys B) (i : nat) (p : proc) : Prop := {
  rn_cur : cpu_proc (k_cpu (kern s)) = Some i;
  rn_proc : k_procs (kern s) !! i = Some p;
  rn_sz : 0 ≤ p_sz p ≤ KERNBASE;
  rn_esp : 0 ≤ tf_esp (p_tf p) < 4294967296;
  rn_map : ∀ va, 0 ≤ va < p_sz p → ∃ pa, mmu (sy_mem s) (p_pgdir p) va = Some pa
}.

Lemma sk_same {A} (m : M kst A) s a : m (kern s) = Ok a (kern s) → sk m s = Ok a s.
Proof.
  intros E. erewrite sk_run by exact E. f_equal. unfold with_kern, kern. apply lset_lget.
Qed.

Section Run.
Variables (s : sys B) (i : nat) (p : proc).
Hypothesis Hr : running s i p.

Lemma me_run : me s = Ok p s.
Proof.
  unfold me. erewrite bind_run.
  2: { apply sk_same. unfold curproc, deref. by rewrite (rn_cur _ _ _ Hr). }
  unfold getproc. apply sk_same. unfold deref. by rewrite (rn_proc _ _ _ Hr).
Qed.

Lemma uload_run va : 0 ≤ va < p_sz p → uload va s = Ok (ubyte s p va) s.
Proof.
  intros Hva. unfold uload, ubyte. mrun me_run. mrun (eq_refl : gets sy_mem s = Ok (sy_mem s) s).
  destruct (rn_map _ _ _ Hr va Hva) as [pa ->]. done.
Qed.

Lemma uloads_run n : ∀ va, 0 ≤ va → va + Z.of_nat n ≤ p_sz p → uloads va n s = Ok (ubytes s p va n) s.
Proof.
  pose proof (rn_sz _ _ _ Hr) as Hsz. unfold KERNBASE in Hsz.
  induction n as [|n IH]; intros va Hva Hn; [done|].
  cbn [uloads]. mrun (uload_run va ltac:(lia)). rewrite u32_small by lia.
  mrun (IH (va + 1) ltac:(lia) ltac:(lia)). unfold mret, M_ret. f_equal. unfold ubytes.
  cbn [seq fmap list_fmap]. rewrite Z.add_0_r. f_equal. rewrite <- seq_shift, <- list_fmap_compose.
  apply list_fmap_ext. intros j x _. unfold compose. f_equal. lia.
Qed.

Definition arg_addr (n : Z) : Z := u32 (tf_esp (p_tf p) + 4 + 4 * n).
(** The word of argument [n], if it lies in the memory of the process. *)
Definition arg_word (n : Z) : option Z :=
  if decide (arg_addr n + 4 ≤ p_sz p) then Some (i32 (le_decode (ubytes s p (arg_addr n) 4))) else None.

Lemma argint_run n : argint n s = Ok (arg_word n) s.
Proof.
  pose proof (rn_sz _ _ _ Hr) as Hsz. unfold KERNBASE in Hsz.
  unfold argint. mrun me_run. fold (arg_addr n). unfold fetchint, arg_word.
  pose proof (u32_range (tf_esp (p_tf p) + 4 + 4 * n)) as Ha. fold (arg_addr n) in Ha.
  destruct (Z.leb_spec (p_sz p) (arg_addr n)) as [H1|H1]; cbn [orb].
  { rewrite decide_False by lia. done. }
  rewrite u32_small by lia. destruct (Z.ltb_spec (p_sz p) (arg_addr n + 4)) as [H2|H2].
  { rewrite decide_False by lia. done. }
  rewrite decide_True by lia. by mrun (uloads_run 4 (arg_addr n) ltac:(lia) ltac:(lia)).
Qed.

(** A block of [size] bytes at argument [n]: accepted exactly when it lies in
    the memory of the process. *)
Lemma argptr_run n size : 0 ≤ size < 2147483648 →
  argptr n size s = Ok (w ← arg_word n; if decide (u32 w < p_sz p ∧ u32 w + size ≤ p_sz p)
    then Some (u32 w) else None) s.
Proof.
  pose proof (rn_sz _ _ _ Hr) as Hsz. unfold KERNBASE in Hsz. intros Hs.
  unfold argptr. mrun (argint_run n). destruct (arg_word n) as [w|]; [|done]. mrun me_run. cbn.
  pose proof (u32_range w). destruct (Z.leb_spec (p_sz p) (u32 w)) as [H1|H1]; cbn [orb].
  { rewrite decide_False by lia. done. }
  rewrite (u32_small (u32 w + size)) by lia.
  destruct (Z.ltb_spec (p_sz p) (u32 w + size)); [rewrite decide_False by lia|rewrite decide_True by lia]; done.
Qed.

(** The scan for the NUL never leaves the memory of the process. *)
Lemma str_scan_run n : ∀ a, 0 ≤ a → (Z.to_nat (p_sz p - a) < n)%nat →
  ∃ r, str_scan a (p_sz p) n s = Ok r s ∧
  match r with
  | Some l => a + Z.of_nat (length l) < p_sz p ∧ ubytes s p a (length l) = l ∧
      ubyte s p (a + Z.of_nat (length l)) = 0 ∧ Forall (λ c, c ≠ 0) l
  | None => ∀ va, a ≤ va < p_sz p → ubyte s p va ≠ 0
  end.
Proof.
  induction n as [|n IH]; intros a Ha Hn; [lia|]. cbn [str_scan].
  destruct (Z.ltb_spec a (p_sz p)) as [Hlt|Hge].
  2: { exists None. split; [done|]. lia. }
  mrun (uload_run a ltac:(lia)). destruct (Z.eqb_spec (ubyte s p a) 0) as [E|E].
  { exists (Some []). split; [done|]. cbn [length]. rewrite Z.add_0_r. split_and!; done. }
  destruct (IH (a + 1) ltac:(lia) ltac:(lia)) as (r&Er&Hr'). mrun Er.
  exists ((λ l, ubyte s p a :: l) <$> r). split; [done|].
  destruct r as [l|]; cbn.
  - destruct Hr' as (H1&H2&H3&H4). rewrite Nat2Z.inj_succ.
    replace (a + Z.succ (Z.of_nat (length l))) with (a + 1 + Z.of_nat (length l)) by lia.
    split_and!; [lia| |done|by constructor].
    rewrite <- H2 at 2. unfold ubytes. cbn [seq fmap list_fmap]. rewrite Z.add_0_r. f_equal.
    rewrite <- seq_shift, <- list_fmap_compose. apply list_fmap_ext. intros j x _. unfold compose. f_equal. lia.
  - intros va Hva. destruct (decide (va = a)) as [->|]; [done|]. apply Hr'. lia.
Qed.

Lemma argfd_run n : argfd n s = Ok (fd ← arg_word n;
  if decide (0 ≤ fd < 16) then (λ f, (fd, f)) <$> nth (Z.to_nat fd) (p_ofile p) None else None) s.
Proof.
  unfold argfd. mrun (argint_run n). destruct (arg_word n) as [fd|]; [|done]. mrun me_run. cbn.
  change (Z.of_nat NOFILE) with 16.
  destruct (Z.ltb_spec fd 0); cbn [orb]; [by rewrite decide_False by lia|].
  destruct (Z.leb_spec 16 fd); [by rewrite decide_False by lia|by rewrite decide_True by lia].
Qed.
End Run.

(** C24: the kernel reads system call arguments of a process safely, whatever
    its stack pointer and arguments are.  No access leaves the memory of the
    process and nothing changes; a word is delivered exactly when all of it
    lies inside, a block of a size that is not negative exactly when all of it
    lies inside, a string exactly when its NUL does, and a file descriptor
    only when it is one of the sixteen and open. *)
Theorem sysargs_safe s i p n size : running s i p → 0 ≤ size < 2147483648 →
  argint n s = Ok (arg_word s p n) s ∧
  argptr n size s = Ok (w ← arg_word s p n; if decide (u32 w < p_sz p ∧ u32 w + size ≤ p_sz p)
    then Some (u32 w) else None) s ∧
  argfd n s = Ok (fd ← arg_word s p n;
    if decide (0 ≤ fd < 16) then (λ f, (fd, f)) <$> nth (Z.to_nat fd) (p_ofile p) None else None) s ∧
  ∃ r, argstr n s = Ok r s ∧
  match r with
  | Some l => ∃ w, arg_word s p n = Some w ∧ u32 w + Z.of_nat (length l) < p_sz p ∧
      ubytes s p (u32 w) (length l) = l ∧ ubyte s p (u32 w + Z.of_nat (length l)) = 0 ∧
      Forall (λ c, c ≠ 0) l
  | None => ∀ w, arg_word s p n = Some w → ∀ va, u32 w ≤ va < p_sz p → ubyte s p va ≠ 0
  end.
Proof.
  intros Hr Hs. split_and!.
  - by apply argint_run with i.
  - by apply argptr_run with i.
  - by apply argfd_run with i.
  - unfold argstr. mrun (argint_run s i p Hr n). destruct (arg_word s p n) as [w|].
    2: { exists None. by split. }
    mrun (me_run s i p Hr). unfold fetchstr. pose proof (u32_range w).
    destruct (Z.leb_spec (p_sz p) (u32 w)).
    { exists None. split; [done|]. intros w' [= <-] va Hva. lia. }
    destruct (str_scan_run s i p Hr (S (Z.to_nat (p_sz p - u32 w))) (u32 w)) as (r&Er&Hrr); [lia|lia|].
    exists r. split; [done|]. destruct r as [l|]; [by exists w|]. by intros w' [= <-].
Qed.
End Args.

(** ** An example: a process of 16 bytes that passes the string at 8 *)

Definition ex_uproc : proc :=
  set_p_sz 16 (set_p_pgdir 0x80001000 (set_p_state RUNNING proc_zero)).
Definition ex_umem : mem :=
  store32 (store32 (store32 (store32 (λ _, 0) 0x80001000 0x2007) 0x80002000 0x3007)
    0x80003004 8) 0x80003008 0x6968.
Definition ex_usys : sys (log Memide.memide) :=
  with_kern (set_k_procs [ex_uproc] ex_k)
    (Sys ex_fs true 0 ex_umem ∅ [] 0 1 None false).

Lemma ex_running : running ex_usys 0 ex_uproc.
Proof.
  split; [done|done|vm_compute; split; discriminate|vm_compute; split; [discriminate|done]|].
  intros va Hva. change (0 ≤ va < 16) in Hva.
  assert (H : forallb (λ j, match mmu ex_umem 0x80001000 (Z.of_nat j) with Some _ => true | None => false end)
    (seq 0 16) = true) by (vm_compute; reflexivity).
  rewrite forallb_forall in H. specialize (H (Z.to_nat va)).
  rewrite Z2Nat.id in H by lia. change (sy_mem ex_usys) with ex_umem.
  change (p_pgdir ex_uproc) with 0x80001000.
  destruct (mmu ex_umem 0x80001000 va) as [pa|]; [by exists pa|].
  exfalso. assert (false = true) by (apply H; apply in_seq; lia). done.
Qed.

Lemma sysargs_safe_witness :
  argint 0 ex_usys = Ok (Some 8) ex_usys ∧ ∃ l, argstr 0 ex_usys = Ok (Some l) ex_usys.
Proof.
  destruct (sysargs_safe ex_usys 0 ex_uproc 0 4 ex_running ltac:(lia)) as (H1&_&_&r&H2&H3).
  assert (E : arg_word ex_usys ex_uproc 0 = Some 8) by (vm_compute; reflexivity).
  rewrite E in H1, H3. split; [exact H1|]. destruct r as [l|]; [exists l; exact H2|].
  exfalso. apply (H3 8 eq_refl 10 ltac:(vm_compute; split; [discriminate|reflexivity])).
  vm_compute. reflexivity.
Defined.
