(* ===== verification/Umalloc.v ===== *)
(** The user memory allocator (umalloc.c): a circular list of free blocks,
    sorted by address, with the first-fit search of Kernighan and Ritchie.

    A header is at a byte address and has the fields [ptr] and [size], the
    size in units of 8 bytes; [hdr] is what the memory of the process holds
    at header addresses.  A block is its header and the data behind it. *)
From S2P Require Import Prelude Kmonad Wp.

(** sizeof(Header) *)
Definition HSIZE : Z := 8.

Record um := Um {
  u_hdr : Z → Z * Z;         (* ptr and size of the header at an address *)
  u_freep : Z;               (* start of the search, 0 before the first call *)
  u_brk : Z                  (* end of the process memory *)
}.
Definition set_hdr (a : Z) (v : Z * Z) (s : um) : um :=
  Um (λ x, if x =? a then v else u_hdr s x) (u_freep s) (u_brk s).
Definition set_freep (v : Z) (s : um) : um := Um (u_hdr s) v (u_brk s).
Definition ptr (a : Z) : M um Z := gets (λ s, (u_hdr s a).1).
Definition size (a : Z) : M um Z := gets (λ s, (u_hdr s a).2).
Definition put_ptr (a v : Z) : M um unit := modify (λ s, set_hdr a (v, (u_hdr s a).2) s).
Definition put_size (a v : Z) : M um unit := modify (λ s, set_hdr a ((u_hdr s a).1, v) s).

Section Malloc.
(** The address of [static Header base], the most memory the kernel gives to
    the process, and a bound for the loops. *)
Variables (base limit : Z) (fuel : nat).

(** The system call [sbrk]: the old end of memory, or -1. *)
Definition sbrk (n : Z) : M um Z := λ s,
  if (0 <=? u_brk s + n) && (u_brk s + n <=? limit)
  then Ok (u_brk s) (Um (u_hdr s) (u_freep s) (u_brk s + n)) else Ok (-1) s.

(** One turn of the search of [free]. *)
Definition free_step (bp p : Z) : M um (Z + Z) :=
  nx ← ptr p;
  if (p <? bp) && (bp <? nx) then mret (inr p)
  else if (nx <=? p) && ((p <? bp) || (bp <? nx)) then mret (inr p)
  else mret (inl nx).

Definition free (ap : Z) : M um unit :=
  let bp := ap - HSIZE in
  p0 ← gets u_freep;
  p ← loop fuel (free_step bp) p0;
  n ← size bp;
  nx ← ptr p;
  (if bp + HSIZE * n =? nx then
     n' ← size nx;
     nx' ← ptr nx;
     put_size bp (u32 (n + n'));;
     put_ptr bp nx'
   else put_ptr bp nx);;
  ps ← size p;
  (if p + HSIZE * ps =? bp then
     n ← size bp;
     nx ← ptr bp;
     put_size p (u32 (ps + n));;
     put_ptr p nx
   else put_ptr p bp);;
  modify (set_freep p).

(** The list is entered at [freep]; 0 when there is no memory. *)
Definition morecore (nu : Z) : M um Z :=
  let nu := if nu <? 4096 then 4096 else nu in
  p ← sbrk (i32 (nu * HSIZE));
  if p =? -1 then mret 0
  else
    put_size p nu;;
    free (p + HSIZE);;
    gets u_freep.

(** One turn of the search of [malloc]: the loop variable is [prevp], and
    [p] is the block behind it. *)
Definition malloc_step (nunits prevp : Z) : M um (Z + Z) :=
  p ← ptr prevp;
  n ← size p;
  if nunits <=? n then
    (if n =? nunits then
       nx ← ptr p;
       put_ptr prevp nx;;
       modify (set_freep prevp);;
       mret (inr (p + HSIZE))
     else
       put_size p (u32 (n - nunits));;
       let p' := p + HSIZE * u32 (n - nunits) in
       put_size p' nunits;;
       modify (set_freep prevp);;
       mret (inr (p' + HSIZE)))
  else
    f ← gets u_freep;
    if p =? f then
      p ← morecore nunits;
      if p =? 0 then mret (inr 0) else mret (inl p)
    else mret (inl p).

Definition malloc (nbytes : Z) : M um Z :=
  let nunits := u32 (nbytes + HSIZE - 1) / HSIZE + 1 in
  f ← gets u_freep;
  (if f =? 0 then
     put_ptr base base;;
     modify (set_freep base);;
     put_size base 0
   else mret tt);;
  prevp ← gets u_freep;
  loop fuel (malloc_step nunits) prevp.
End Malloc.
