(* ===== verification/UmallocLaws.v ===== *)
(** The user memory allocator never gives out memory twice: free and
    allocated blocks stay disjoint, in every sequence of calls. *)
From S2P Require Import Prelude Kmonad Wp Umalloc.

Notation block := (Z * Z)%type.

(** How many of the blocks contain the byte [x]. *)
Definition covers (b : block) (x : Z) : Z := if decide (b.1 ≤ x < b.1 + 8 * b.2) then 1 else 0.
Fixpoint cov (l : list block) (x : Z) : Z :=
  match l with
  | [] => 0
  | b :: l => covers b x + cov l x
  end.

(** The headers of [l] are linked, and the last one leads to [stop]. *)
Definition first (l : list block) (stop : Z) : Z := match l with [] => stop | b :: _ => b.1 end.
Fixpoint chain (h : Z → Z * Z) (l : list block) (stop : Z) : Prop :=
  match l with
  | [] => True
  | b :: l => h b.1 = (first l stop, b.2) ∧ chain h l stop
  end.

(** In the order of their addresses, without overlap. *)
Fixpoint sorted (l : list block) : Prop :=
  match l with
  | [] => True
  | b :: l => Forall (λ c, b.1 < c.1 ∧ b.1 + 8 * b.2 ≤ c.1) l ∧ sorted l
  end.

Lemma cov_app l l' x : cov (l ++ l') x = cov l x + cov l' x.
Proof. induction l as [|b l IH]; cbn [app cov]; lia. Qed.
Lemma covers_nonneg b x : 0 ≤ covers b x.
Proof. unfold covers. case_decide; lia. Qed.
Lemma cov_nonneg l x : 0 ≤ cov l x.
Proof. induction l as [|b l IH]; cbn [cov]; [lia|]. pose proof (covers_nonneg b x). lia. Qed.
Lemma cov_elem b l x : b ∈ l → covers b x ≤ cov l x.
Proof.
  induction 1 as [b l|b c l _ IH]; cbn [cov]; [pose proof (cov_nonneg l x)|pose proof (covers_nonneg c x)]; lia.
Qed.
Lemma covers_in b x : b.1 ≤ x < b.1 + 8 * b.2 → covers b x = 1.
Proof. intros. unfold covers. by rewrite decide_True. Qed.

Lemma chain_app h l l' stop : chain h (l ++ l') stop ↔ chain h l (first l' stop) ∧ chain h l' stop.
Proof.
  induction l as [|b l IH]; cbn [app chain]; [tauto|]. rewrite IH.
  assert (E : first (l ++ l') stop = first l (first l' stop)) by (by destruct l). rewrite E. tauto.
Qed.
Lemma chain_upd h l stop a v : a ∉ l.*1 → chain h l stop →
  chain (λ x, if x =? a then v else h x) l stop.
Proof.
  induction l as [|b l IH]; cbn [chain fmap list_fmap]; [done|]. intros Ha [H1 H2]. split.
  - rewrite (proj2 (Z.eqb_neq _ _)) by set_solver. done.
  - apply IH; [set_solver|done].
Qed.

Lemma sorted_app l l' : sorted (l ++ l') ↔
  sorted l ∧ sorted l' ∧ Forall (λ b, Forall (λ c, b.1 < c.1 ∧ b.1 + 8 * b.2 ≤ c.1) l') l.
Proof.
  induction l as [|b l IH]; cbn [app sorted]; [split; [intros; split_and!; auto|tauto]|].
  rewrite IH, Forall_app, Forall_cons. tauto.
Qed.
Lemma sorted_addrs l : sorted l → NoDup (l.*1).
Proof.
  induction l as [|b l IH]; cbn [sorted fmap list_fmap]; [constructor|]. intros [H1 H2].
  constructor; [|auto]. intros (c&E&Hc)%list_elem_of_fmap.
  rewrite Forall_forall in H1. specialize (H1 c Hc). lia.
Qed.

(** The place of an address in a sorted list. *)
Lemma sorted_split b l bp : sorted (b :: l) → b.1 < bp → bp ∉ l.*1 →
  ∃ A p B, b :: l = A ++ p :: B ∧ p.1 < bp ∧ Forall (λ c, bp < c.1) B.
Proof.
  revert b. induction l as [|c l IH]; intros b Hs Hb Hn; [by exists [], b, []|].
  destruct (decide (c.1 < bp)) as [Hc|Hc].
  - destruct (IH c) as (A&p&B&E&Hp&HB); [by destruct Hs|done|set_solver|].
    exists (b :: A), p, B. by rewrite E.
  - exists [], b, (c :: l). split_and!; [done|done|]. destruct Hs as [_ [Hs _]]. constructor.
    + cut (bp ≠ c.1); [lia|]. set_solver.
    + eapply Forall_impl; [exact Hs|]. cbn. lia.
Qed.

Section Laws.
(** [heap0] is where the heap of the process starts. *)
Variables (base limit heap0 : Z).
Hypotheses (Hbase : 0 < base) (Hheap : base + 8 ≤ heap0) (Hlimit : limit < 2147483648).

Definition in_heap (s : um) (b : block) : Prop := heap0 ≤ b.1 ∧ b.1 + 8 * b.2 ≤ u_brk s ∧ 1 ≤ b.2.

(** [l] are the free blocks and [O] the allocated ones. *)
Record heap_ok (s : um) (l O : list block) : Prop := {
  hp_chain : chain (u_hdr s) ((base, 0) :: l) base;
  hp_sorted : sorted ((base, 0) :: l);
  hp_freep : u_freep s ∈ ((base, 0) :: l).*1;
  hp_in : Forall (in_heap s) (l ++ O);
  hp_cov : ∀ x, cov (l ++ O) x ≤ 1;
  hp_own : Forall (λ b, (u_hdr s b.1).2 = b.2) O;
  hp_brk : heap0 ≤ u_brk s ≤ limit
}.

(** ** The search of [free] *)

Notation next s a := (u_hdr s a).1.

Lemma free_step_run bp p s : free_step bp p s =
  Ok (if (p <? bp) && (bp <? next s p) || (next s p <=? p) && ((p <? bp) || (bp <? next s p))
      then inr p else inl (next s p)) s.
Proof.
  unfold free_step, ptr, gets, mbind, M_bind. destruct (_ && _); [done|]. cbn [orb].
  by destruct (_ && _).
Qed.

(** From a block below [bp] the search ends at the last one below it. *)
Lemma free_forward bp s p B : ∀ A fuel, chain (u_hdr s) (A ++ p :: B) base →
  sorted (A ++ p :: B) → p.1 < bp → Forall (λ c, bp < c.1) B →
  base ≤ p.1 → (length A < fuel)%nat →
  loop fuel (free_step bp) (first (A ++ [p]) 0) s = Ok p.1 s.
Proof.
  induction A as [|a A IH]; intros [|fuel] Hc Hs Hlt HB Hb Hf; try (simpl in Hf; lia).
  - apply loop_done. rewrite free_step_run. cbn [app chain first] in *.
    destruct Hc as [-> _]. cbn [fst]. rewrite (proj2 (Z.ltb_lt _ _) Hlt). cbn [andb orb].
    destruct B as [|c B]; cbn [first].
    + rewrite (proj2 (Z.leb_le base p.1)) by done. by rewrite orb_true_r.
    + inversion HB; subst. by rewrite (proj2 (Z.ltb_lt bp c.1)).
  - cbn [app first chain sorted] in *. destruct Hc as [Hh Hc], Hs as [Hs1 Hs2].
    assert (E : first (A ++ p :: B) base = first (A ++ [p]) 0) by (by destruct A).
    assert (Hle : a.1 < first (A ++ [p]) 0 ≤ p.1).
    { rewrite Forall_app in Hs1. destruct Hs1 as [Ha Hb']. inversion Hb' as [|? ? Hap _]; subst.
      destruct A as [|c A]; cbn [app first] in *; [lia|]. inversion Ha; subst.
      cbn [sorted] in Hs2. destruct Hs2 as [Hs2 _]. rewrite Forall_app in Hs2.
      destruct Hs2 as [_ Hs2]. inversion Hs2; subst. lia. }
    erewrite loop_next; [by apply IH; [..|simpl in Hf; lia]|].
    rewrite free_step_run, Hh. cbn [fst]. rewrite E.
    rewrite (proj2 (Z.ltb_ge bp _)) by lia. rewrite andb_false_r. cbn [orb].
    by rewrite (proj2 (Z.leb_gt _ a.1)) by lia.
Qed.

(** From a block above [bp] it first goes on to the end and to the base. *)
Lemma free_wrap bp s : ∀ B a fuel, chain (u_hdr s) (a :: B) base → sorted (a :: B) →
  Forall (λ c, bp < c.1) (a :: B) → base < bp →
  loop (length (a :: B) + fuel) (free_step bp) a.1 s = loop fuel (free_step bp) base s.
Proof.
  induction B as [|c B IH]; intros a fuel Hc Hs HB Hb; cbn [length Nat.add];
    cbn [chain sorted first] in *; destruct Hc as [Hh Hc], Hs as [Hs1 Hs2];
    inversion HB as [|? ? Ha HB']; subst.
  - apply loop_next. rewrite free_step_run, Hh. cbn [fst].
    rewrite (proj2 (Z.ltb_ge a.1 bp)), (proj2 (Z.ltb_ge bp base)) by lia.
    cbn [andb orb]. by rewrite andb_false_r.
  - erewrite loop_next; [by apply IH|]. rewrite free_step_run, Hh. cbn [fst].
    inversion Hs1; subst. rewrite (proj2 (Z.ltb_ge a.1 bp)) by lia. cbn [andb orb].
    by rewrite (proj2 (Z.leb_gt c.1 a.1)) by lia.
Qed.

(** The search finds the block in front of [bp], from anywhere. *)
Lemma free_search bp s A p B fuel f : chain (u_hdr s) (A ++ p :: B) base →
  sorted (A ++ p :: B) → first (A ++ [p]) 0 = base → p.1 < bp → Forall (λ c, bp < c.1) B →
  base < bp → f ∈ (A ++ p :: B).*1 → (2 * length (A ++ p :: B) < fuel)%nat →
  loop fuel (free_step bp) f s = Ok p.1 s.
Proof.
  intros Hc Hs Hf0 Hp HB Hb Hf Hl. rewrite length_app in Hl. cbn [length] in Hl.
  assert (Hbp : base ≤ p.1).
  { rewrite <- Hf0. destruct A as [|c A]; cbn [app first]; [lia|]. cbn [app sorted] in Hs.
    destruct Hs as [Hs _]. rewrite Forall_app in Hs. destruct Hs as [_ Hs]. inversion Hs; subst. lia. }
  apply list_elem_of_fmap in Hf as (b&->&Hbin). apply elem_of_app in Hbin as [Hin|Hin].
  - apply list_elem_of_split in Hin as (A1&A2&->). rewrite <- app_assoc in *. cbn [app] in *.
    apply chain_app in Hc as [_ Hc]. apply sorted_app in Hs as (_&Hs&_).
    apply (free_forward bp s p B (b :: A2) fuel Hc Hs Hp HB Hbp).
    rewrite length_app in Hl. cbn [length] in *. lia.
  - apply elem_of_cons in Hin as [->|Hin].
    + apply chain_app in Hc as [_ Hc]. apply sorted_app in Hs as (_&Hs&_).
      apply (free_forward bp s p B [] fuel Hc Hs Hp HB Hbp). cbn [length]. lia.
    + apply list_elem_of_split in Hin as (B1&B2&->).
      rewrite length_app in Hl. cbn [length] in Hl.
      replace fuel with (length (b :: B2) + (fuel - length (b :: B2)))%nat by (cbn [length]; lia).
      rewrite free_wrap.
      * rewrite <- Hf0. apply (free_forward bp s p (B1 ++ b :: B2) A); try done. cbn [length]. lia.
      * change (A ++ p :: B1 ++ b :: B2) with (A ++ (p :: B1) ++ b :: B2) in Hc.
        rewrite app_assoc in Hc. by apply chain_app in Hc as [_ Hc].
      * change (A ++ p :: B1 ++ b :: B2) with (A ++ (p :: B1) ++ b :: B2) in Hs.
        rewrite app_assoc in Hs. by apply sorted_app in Hs as (_&Hs&_).
      * by apply Forall_app in HB as [_ HB].
      * done.
Qed.

(** ** The effect of [free] on the headers *)

Lemma free_effect fuel bp p s : loop fuel (free_step bp) (u_freep s) s = Ok p s → p ≠ bp →
  let h := u_hdr s in
  let v1 := if bp + 8 * (h bp).2 =? (h p).1
            then ((h (h p).1).1, u32 ((h bp).2 + (h (h p).1).2)) else ((h p).1, (h bp).2) in
  let v2 := if p + 8 * (h p).2 =? bp then (v1.1, u32 ((h p).2 + v1.2)) else (bp, (h p).2) in
  ∃ s', free fuel (bp + 8) s = Ok tt s' ∧ u_freep s' = p ∧ u_brk s' = u_brk s ∧
    ∀ x, u_hdr s' x = if x =? p then v2 else if x =? bp then v1 else h x.
Proof.
  intros Hl Hne h v1 v2. unfold free. replace (bp + 8 - HSIZE) with bp by (unfold HSIZE; lia).
  mrun (eq_refl : gets u_freep s = Ok (u_freep s) s). mrun Hl. clear Hl.
  unfold HSIZE, size, ptr, put_size, put_ptr, modify, gets, mbind, M_bind, mret, M_ret, set_hdr, set_freep.
  apply Z.eqb_neq in Hne as E1. rewrite Z.eqb_sym in E1.
  assert (E2 : (p =? bp) = false) by (by rewrite Z.eqb_sym).
  subst v1 v2 h. destruct (bp + 8 * (u_hdr s bp).2 =? (u_hdr s p).1); cbn [u_hdr fst snd];
    rewrite ?Z.eqb_refl, ?E1, ?E2; cbn [u_hdr fst snd];
    (destruct (p + 8 * (u_hdr s p).2 =? bp); cbn [u_hdr fst snd]);
    rewrite ?Z.eqb_refl, ?E1, ?E2; cbn [u_hdr fst snd];
    (eexists; split; [reflexivity|]; split_and!; [done|done|]; intros x; cbn [u_hdr];
     destruct (Z.eqb_spec x p) as [->|]; rewrite ?Z.eqb_refl, ?E1, ?E2; cbn [fst snd];
       rewrite ?Z.eqb_refl, ?E1, ?E2; [done|];
     destruct (Z.eqb_spec x bp) as [->|]; rewrite ?Z.eqb_refl; done).
Qed.

Lemma hdr_chain_ext h h' l stop : (∀ a, a ∈ l.*1 → h' a = h a) → chain h l stop → chain h' l stop.
Proof.
  induction l as [|b l IH]; cbn [chain fmap list_fmap]; [done|]. intros He [H1 H2]. split.
  - rewrite He; [done|]. set_solver.
  - apply IH; [|done]. set_solver.
Qed.

(** ** [free] *)

(** Blocks that no byte is in both of. *)
Lemma cov_disjoint l O b c : (∀ x, cov (l ++ O) x ≤ 1) → b ∈ l → c ∈ O → 1 ≤ b.2 → 1 ≤ c.2 →
  b.1 + 8 * b.2 ≤ c.1 ∨ c.1 + 8 * c.2 ≤ b.1.
Proof.
  intros Hcov Hb Hc Hb1 Hc1.
  destruct (decide (b.1 + 8 * b.2 ≤ c.1)); [by left|]. right.
  destruct (decide (c.1 + 8 * c.2 ≤ b.1)); [done|]. exfalso.
  specialize (Hcov (Z.max b.1 c.1)). rewrite cov_app in Hcov.
  pose proof (cov_elem b l (Z.max b.1 c.1) Hb). pose proof (cov_elem c O (Z.max b.1 c.1) Hc).
  pose proof (covers_in b (Z.max b.1 c.1)). pose proof (covers_in c (Z.max b.1 c.1)). lia.
Qed.

Lemma cov_adjacent a n m x : 0 ≤ n → 0 ≤ m →
  covers (a, n + m) x = covers (a, n) x + covers (a + 8 * n, m) x.
Proof. intros. unfold covers. cbn [fst snd]. repeat case_decide; lia. Qed.

(** Joining the block [bp] with the one behind it. *)
Lemma join_up h bp n B : chain h B base → sorted B → base < bp → 1 ≤ n →
  Forall (λ c, bp + 8 * n ≤ c.1 ∧ 1 ≤ c.2 ∧ c.1 + 8 * c.2 < 2147483648) B →
  0 ≤ bp → bp + 8 * n < 2147483648 →
  ∃ R m, (if bp + 8 * n =? first B base
     then ((h (first B base)).1, u32 (n + (h (first B base)).2)) else (first B base, n)) = (first R base, m) ∧
    chain h R base ∧ sorted ((bp, m) :: R) ∧ (∀ x, cov ((bp, m) :: R) x = covers (bp, n) x + cov B x) ∧
    n ≤ m ∧ (∀ c, c ∈ R → c ∈ B) ∧ (length R ≤ length B)%nat ∧
    (m = n ∨ ∃ c, c ∈ B ∧ bp + 8 * m = c.1 + 8 * c.2).
Proof.
  intros Hc Hs Hb Hn HB H0 Hlim. destruct (Z.eqb_spec (bp + 8 * n) (first B base)) as [E|E].
  - destruct B as [|c B]; cbn [first] in *; [lia|]. destruct Hc as [Hh Hc]. rewrite Hh.
    inversion HB as [|? ? (Hc1&Hc2&Hc3) HB']; subst. cbn [fst snd].
    exists B, (n + c.2). rewrite u32_small by lia. split_and!; [done|done| | |lia|set_solver|cbn [length]; lia|].
    + destruct Hs as [Hs1 Hs2]. split; [|done]. eapply Forall_impl; [exact Hs1|]. cbn [fst snd]. lia.
    + intros x. cbn [cov]. rewrite cov_adjacent, E by lia. destruct c as [c1 c2]. cbn [fst snd] in *. lia.
    + right. exists c. split; [set_solver|lia].
  - exists B, n. split_and!; [done|done| |done|lia|done|done|by left]. split; [|done].
    eapply Forall_impl; [exact HB|]. cbn [fst snd]. lia.
Qed.

(** Joining the block with the one in front of it. *)
Lemma join_down A p bp m R : sorted (A ++ [p]) → sorted ((bp, m) :: R) → 1 ≤ m → 0 ≤ p.2 →
  p.1 < bp → p.1 + 8 * p.2 ≤ bp → 0 ≤ p.1 → bp + 8 * m < 2147483648 →
  Forall (λ c, bp + 8 * m ≤ c.1) R →
  ∃ p' N, (if p.1 + 8 * p.2 =? bp then (first R base, u32 (p.2 + m)) else (bp, p.2)) = (first N base, p'.2) ∧
    p'.1 = p.1 ∧ p.2 ≤ p'.2 ∧ sorted (A ++ p' :: N) ∧
    (∀ x, cov (p' :: N) x = covers p x + cov ((bp, m) :: R) x) ∧
    ((N = R ∧ p'.1 + 8 * p'.2 = bp + 8 * m) ∨ (N = (bp, m) :: R ∧ p' = p)).
Proof.
  intros HA HR Hm Hp2 Hlt Hle H0 Hlim HR'. apply sorted_app in HA as (HA1&_&HA2).
  assert (HAp : Forall (λ b, b.1 < p.1 ∧ b.1 + 8 * b.2 ≤ p.1) A).
  { eapply Forall_impl; [exact HA2|]. intros b Hb. by inversion Hb. }
  destruct (Z.eqb_spec (p.1 + 8 * p.2) bp) as [E|E].
  - exists (p.1, p.2 + m), R. cbn [fst snd]. rewrite u32_small by lia.
    split_and!; [done|done|lia| | |left; split; [done|lia]].
    + apply sorted_app. destruct HR as [_ HR]. split_and!; [done|split; [|done]|].
      * eapply Forall_impl; [exact HR'|]. cbn [fst snd]. lia.
      * eapply Forall_impl; [exact HAp|]. intros b [Hb1 Hb2]. constructor; [done|].
        eapply Forall_impl; [exact HR'|]. cbn [fst snd]. lia.
    + intros x. cbn [cov]. rewrite cov_adjacent, E by lia. destruct p. cbn [fst snd]. lia.
  - exists p, ((bp, m) :: R). cbn [first fst snd]. split_and!; [done|done|lia| |done|by right].
    apply sorted_app. split_and!; [done|split; [|done]|].
    + constructor; [cbn [fst snd]; lia|]. eapply Forall_impl; [exact HR'|]. cbn [fst snd]. lia.
    + eapply Forall_impl; [exact HAp|]. intros b [Hb1 Hb2]. constructor; [done|]. constructor; [cbn [fst snd]; lia|].
      eapply Forall_impl; [exact HR'|]. cbn [fst snd]. lia.
Qed.

Lemma heap_pieces s l O A p B : heap_ok s l O → (base, 0) :: l = A ++ p :: B →
  chain (u_hdr s) A p.1 ∧ u_hdr s p.1 = (first B base, p.2) ∧ chain (u_hdr s) B base ∧
  sorted (A ++ [p]) ∧ sorted B ∧ first (A ++ [p]) 0 = base ∧ 0 ≤ p.2 ∧ base ≤ p.1 ∧
  p.1 ∉ A.*1 ∧ p.1 ∉ B.*1.
Proof.
  intros Hok E. pose proof (hp_chain _ _ _ Hok) as Hc. pose proof (hp_sorted _ _ _ Hok) as Hs.
  rewrite E in Hc, Hs. apply chain_app in Hc as [Hc1 [Hc2 Hc3]]. cbn [first] in Hc1.
  pose proof (sorted_addrs _ Hs) as Hnd. rewrite fmap_app, fmap_cons in Hnd.
  apply NoDup_app in Hnd as (_&Hnd1&Hnd2). apply NoDup_cons in Hnd2 as [Hnd2 _].
  assert (Hp : p = (base, 0) ∨ p ∈ l).
  { assert (Hin : p ∈ (base, 0) :: l) by (rewrite E; set_solver). set_solver. }
  pose proof (hp_in _ _ _ Hok) as Hin. rewrite Forall_app, Forall_forall in Hin. destruct Hin as [Hin _].
  change (A ++ p :: B) with (A ++ [p] ++ B) in Hs. rewrite app_assoc in Hs.
  apply sorted_app in Hs as (Hs1&Hs2&_).
  split_and!; try done.
  - destruct A; cbn [app] in E; injection E as <-; done.
  - destruct Hp as [->|Hp]; [done|]. specialize (Hin p Hp) as (?&?&?). lia.
  - destruct Hp as [->|Hp]; [done|]. specialize (Hin p Hp) as (?&?&?). lia.
  - intros Hx. apply (Hnd1 p.1 Hx). set_solver.
Qed.

Lemma free_ok fuel s l O bp n : heap_ok s l ((bp, n) :: O) → (2 * S (length l) < fuel)%nat →
  ∃ s' l', free fuel (bp + 8) s = Ok tt s' ∧ heap_ok s' l' O ∧ u_brk s' = u_brk s ∧
    (∀ x, cov l' x = cov l x + covers (bp, n) x) ∧ (length l' ≤ S (length l))%nat ∧
    ∃ b, b ∈ l' ∧ n ≤ b.2.
Proof.
  intros Hok Hf. pose proof Hok as [Hc Hs Hfp Hin Hcov Hown Hbrk].
  rewrite Forall_app, Forall_cons in Hin. destruct Hin as (Hinl&[Hbp1 [Hbp2 Hbp3]]&HinO).
  rewrite Forall_cons in Hown. destruct Hown as [Hown Hown']. cbn [fst snd] in *.
  assert (Hdis : ∀ b, b ∈ l → b.1 + 8 * b.2 ≤ bp ∨ bp + 8 * n ≤ b.1).
  { intros b Hb. rewrite Forall_forall in Hinl. destruct (Hinl b Hb) as (?&?&?).
    apply (cov_disjoint l ((bp, n) :: O) b (bp, n)); [done|done|set_solver|done|done]. }
  destruct (sorted_split (base, 0) l bp) as (A&p&B&E&Hp&HB); [done|cbn; lia| |].
  { intros (b&->&Hb)%list_elem_of_fmap. rewrite Forall_forall in Hinl.
    destruct (Hinl b Hb) as (?&?&?). destruct (Hdis b Hb); lia. }
  destruct (heap_pieces _ _ _ _ _ _ Hok E) as (HcA&Hhp&HcB&HsA&HsB&Hfirst&Hp2&Hpb&HpA&HpB).
  assert (HinB : ∀ c, c ∈ B → c ∈ l).
  { intros c Hcb. assert (Hx : c ∈ (base, 0) :: l) by (rewrite E; set_solver).
    apply elem_of_cons in Hx as [->|]; [|done]. rewrite Forall_forall in HB. specialize (HB _ Hcb). cbn in HB. lia. }
  assert (Hsearch : loop fuel (free_step bp) (u_freep s) s = Ok p.1 s).
  { apply (free_search bp s A p B fuel); try done; rewrite <- ?E; [done|done|lia|done|cbn [length]; lia]. }
  destruct (free_effect fuel bp p.1 s Hsearch) as (s'&Efree&Hfp'&Hbrk'&Hhdr); [lia|].
  rewrite Hhp, Hown in Hhdr. cbn [fst snd] in Hhdr.
  assert (HB' : Forall (λ c, bp + 8 * n ≤ c.1 ∧ 1 ≤ c.2 ∧ c.1 + 8 * c.2 < 2147483648) B).
  { rewrite Forall_forall in HB, Hinl |- *. intros c Hcb. specialize (HB c Hcb). cbn in HB.
    destruct (Hinl c (HinB c Hcb)) as (?&?&?). destruct (Hdis c (HinB c Hcb)); lia. }
  destruct (join_up (u_hdr s) bp n B) as (R&m&E1&HcR&HsR&HcovR&Hnm&HRB&HlenR&Hend); [done|done|lia|done|done|lia|lia|].
  rewrite E1 in Hhdr. cbn [fst snd] in Hhdr.
  assert (Hend' : bp + 8 * m ≤ u_brk s).
  { destruct Hend as [->|(c&Hcb&->)]; [lia|]. rewrite Forall_forall in Hinl.
    by destruct (Hinl c (HinB c Hcb)) as (?&?&?). }
  assert (Hple : p.1 + 8 * p.2 ≤ bp).
  { assert (Hx : p ∈ (base, 0) :: l) by (rewrite E; set_solver).
    apply elem_of_cons in Hx as [->|Hx]; [cbn; lia|]. rewrite Forall_forall in Hinl.
    destruct (Hinl p Hx) as (?&?&?). destruct (Hdis p Hx); lia. }
  destruct (join_down A p bp m R) as (p'&N&E2&Hp'1&Hp'2&HsN&HcovN&HN); [done|done|lia|done|done|done|lia|lia| |].
  { destruct HsR as [HsR _]. eapply Forall_impl; [exact HsR|]. cbn. lia. }
  rewrite E2 in Hhdr.
  assert (HinA : ∀ c, c ∈ A → c.1 < p.1).
  { intros c Hca. apply sorted_app in HsA as (_&_&HsA). rewrite Forall_forall in HsA.
    specialize (HsA c Hca). inversion HsA; subst. lia. }
  assert (Hother : ∀ x, x ≠ p.1 → x ≠ bp → u_hdr s' x = u_hdr s x).
  { intros x H1 H2. by rewrite Hhdr, (proj2 (Z.eqb_neq _ _) H1), (proj2 (Z.eqb_neq _ _) H2). }
  assert (HRout : ∀ a, a ∈ R.*1 → a ≠ p.1 ∧ a ≠ bp).
  { intros a (c&->&Hcr)%list_elem_of_fmap. apply HRB in Hcr. split.
    - intros Heq. apply HpB. rewrite <- Heq. apply list_elem_of_fmap. eauto.
    - rewrite Forall_forall in HB. specialize (HB c Hcr). cbn in HB. lia. }
  assert (Hl' : ∃ l', (base, 0) :: l' = A ++ p' :: N ∧ (length l' ≤ S (length l))%nat ∧
    Forall (in_heap s) l').
  { assert (HinN : Forall (in_heap s) N).
    { assert (Forall (in_heap s) R) by (rewrite Forall_forall in Hinl |- *; auto).
      destruct HN as [[-> _]|[-> _]]; [done|]. constructor; [|done]. split_and!; cbn [fst snd]; lia. }
    apply (f_equal length) in E as El. rewrite length_app in El. cbn [length] in El.
    assert (HlenN : (length N ≤ S (length R))%nat) by (destruct HN as [[-> _]|[-> _]]; cbn [length]; lia).
    destruct A as [|a A]; cbn [app] in E |- *; injection E as Ea El'.
    - exists N. split_and!; [|cbn [length] in *; lia|done]. f_equal. subst p. cbn [fst snd] in *.
      rewrite (proj2 (Z.eqb_neq (base + 8 * 0) bp)) in E2 by lia. injection E2 as _ E2.
      destruct p'. cbn [fst snd] in *. by subst.
    - exists (A ++ p' :: N). split_and!; [by subst a|rewrite length_app; cbn [length] in *; lia|].
      rewrite El', Forall_app, Forall_cons in Hinl. destruct Hinl as (HA'&(Hpa&Hpb'&Hpc)&_).
      apply Forall_app. split; [done|]. constructor; [|done]. split_and!; [lia| |lia].
      destruct HN as [[_ ->]|[_ ->]]; lia. }
  destruct Hl' as (l'&El'&Hlen'&Hin').
  assert (Hcov' : ∀ x, cov l' x = cov l x + covers (bp, n) x).
  { intros x. assert (H1 : cov ((base, 0) :: l') x = cov l' x) by (cbn [cov]; unfold covers; cbn; case_decide; lia).
    assert (H2 : cov ((base, 0) :: l) x = cov l x) by (cbn [cov]; unfold covers; cbn; case_decide; lia).
    rewrite <- H1, <- H2, El', E, !cov_app, HcovN, HcovR. cbn [cov]. lia. }
  assert (Hbig : ∃ b, b ∈ l' ∧ n ≤ b.2).
  { assert (Hb : ∃ b, b ∈ A ++ p' :: N ∧ n ≤ b.2).
    { destruct HN as [[-> HN]|[-> _]]; [exists p'|exists (bp, m)]; (split; [set_solver|cbn; lia]). }
    rewrite <- El' in Hb. destruct Hb as (b&Hb&Hn). apply elem_of_cons in Hb as [->|Hb]; [cbn in Hn; lia|eauto]. }
  exists s', l'. split_and!; [done| |done|done|done|done]. split.
  - rewrite El'. apply chain_app. cbn [first chain]. rewrite Hp'1. split_and!.
    + apply (hdr_chain_ext (u_hdr s)); [|done]. intros a (c&->&Hca)%list_elem_of_fmap.
      specialize (HinA c Hca). apply Hother; lia.
    + by rewrite Hhdr, Z.eqb_refl.
    + assert (HcR' : chain (u_hdr s') R base).
      { apply (hdr_chain_ext (u_hdr s)); [|done]. intros a [H1 H2]%HRout. by apply Hother. }
      destruct HN as [[-> _]|[-> _]]; [done|]. split; [|done]. cbn [fst snd].
      by rewrite Hhdr, (proj2 (Z.eqb_neq bp p.1)), Z.eqb_refl by lia.
  - by rewrite El'.
  - rewrite Hfp', El', fmap_app, fmap_cons, Hp'1. set_solver.
  - assert (Hsame : ∀ b, in_heap s b → in_heap s' b) by (intros b; unfold in_heap; rewrite Hbrk'; auto).
    apply Forall_app. split; [exact (Forall_impl _ _ _ Hin' Hsame)|exact (Forall_impl _ _ _ HinO Hsame)].
  - intros x. specialize (Hcov x). rewrite cov_app, Hcov'. rewrite cov_app in Hcov. cbn [cov] in Hcov. lia.
  - rewrite Forall_forall in Hown', HinO, Hinl |- *. intros b Hb. destruct (HinO b Hb) as (?&?&?).
    rewrite Hother; [by apply Hown'| |].
    + assert (Hx : p ∈ (base, 0) :: l) by (rewrite E; set_solver).
      apply elem_of_cons in Hx as [->|Hx]; [cbn; lia|]. destruct (Hinl p Hx) as (?&?&?).
      destruct (cov_disjoint l ((bp, n) :: O) p b); [done|done|set_solver|done|done|lia|lia].
    + destruct (cov_disjoint (l ++ [(bp, n)]) O (bp, n) b); [by rewrite <- app_assoc|set_solver|done|done|done| |];
        cbn in *; lia.
  - lia.
Qed.

(** ** [malloc] *)

Lemma cov_outside s l x : Forall (in_heap s) l → u_brk s ≤ x → cov l x = 0.
Proof.
  induction 1 as [|b l (?&?&?) _ IH]; intros Hx; [done|]. cbn [cov]. rewrite IH by done.
  unfold covers. rewrite decide_False by lia. done.
Qed.

Lemma morecore_ok fuel s l O nunits : heap_ok s l O → (2 * S (length l) < fuel)%nat →
  1 ≤ nunits → nunits * 8 < 2147483648 →
  (morecore limit fuel nunits s = Ok 0 s) ∨
  ∃ s' l' nu, morecore limit fuel nunits s = Ok (u_freep s') s' ∧ heap_ok s' l' O ∧
    u_brk s' = u_brk s + 8 * nu ∧ (∀ x, cov l' x = cov l x + covers (u_brk s, nu) x) ∧
    (length l' ≤ S (length l))%nat ∧ 1 ≤ nu ∧ ∃ b, b ∈ l' ∧ nunits ≤ b.2.
Proof.
  intros Hok Hf Hn Hsmall. pose proof Hok as [Hc Hs Hfp Hin Hcov Hown Hbrk].
  unfold morecore. set (nu := if nunits <? 4096 then 4096 else nunits).
  assert (Hnu : nunits ≤ nu ∧ nu * 8 < 2147483648 ∧ 1 ≤ nu).
  { unfold nu. destruct (Z.ltb_spec nunits 4096); lia. }
  unfold HSIZE. rewrite i32_small by lia.
  set (s1 := Um (u_hdr s) (u_freep s) (u_brk s + nu * 8)).
  assert (Esb : sbrk limit (nu * 8) s =
    if (0 <=? u_brk s + nu * 8) && (u_brk s + nu * 8 <=? limit) then Ok (u_brk s) s1 else Ok (-1) s) by done.
  destruct ((0 <=? u_brk s + nu * 8) && (u_brk s + nu * 8 <=? limit)) eqn:Eb; [right|left; by mrun Esb].
  apply andb_prop in Eb as [_ Eb]. apply Z.leb_le in Eb. mrun Esb.
  rewrite (proj2 (Z.eqb_neq (u_brk s) (-1))) by lia.
  set (s2 := set_hdr (u_brk s) ((u_hdr s1 (u_brk s)).1, nu) s1).
  assert (Hin2 : ∀ b, in_heap s b → in_heap s2 b ∧ b.1 ≠ u_brk s).
  { intros b (?&?&?). split; [split_and!; cbn; lia|lia]. }
  assert (Hok2 : heap_ok s2 l ((u_brk s, nu) :: O)).
  { assert (Hin' : Forall (in_heap s2) (l ++ O)) by (eapply Forall_impl; [exact Hin|]; intros b Hb; by apply Hin2).
    rewrite Forall_app in Hin'. destruct Hin' as [Hin1 Hin3]. split; [|done|done| | | |cbn; lia].
    - apply chain_upd; [|done]. cbn [fmap list_fmap]. apply not_elem_of_cons. split; [cbn; lia|].
      intros (b&Eb'&Hb)%list_elem_of_fmap. rewrite Forall_forall in Hin.
      destruct (Hin2 b); [apply Hin; set_solver|done].
    - apply Forall_app. split; [done|]. constructor; [|done]. split_and!; cbn; lia.
    - intros x. rewrite cov_app. cbn [cov]. specialize (Hcov x). rewrite cov_app in Hcov.
      unfold covers. cbn [fst snd]. case_decide; [|lia].
      pose proof (cov_outside s (l ++ O) x Hin ltac:(lia)) as H0. rewrite cov_app in H0. lia.
    - constructor; [cbn; by rewrite Z.eqb_refl|]. rewrite Forall_forall in Hown, Hin |- *. intros b Hb.
      destruct (Hin2 b) as [_ Hne]; [apply Hin; set_solver|]. cbn.
      rewrite (proj2 (Z.eqb_neq _ _) Hne). by apply Hown. }
  destruct (free_ok fuel s2 l O (u_brk s) nu Hok2 Hf) as (s'&l'&Ef&Hok'&Hbrk'&Hcov'&Hlen&b&Hb&Hbn).
  exists s', l', nu. split_and!; [|done|rewrite Hbrk'; cbn; lia|done|done|lia|exists b; split; [done|lia]].
  mrun (eq_refl : put_size (u_brk s) nu s1 = Ok tt s2). by mrun Ef.
Qed.

(** A list that starts with the base, under any change behind a block. *)
Lemma rebase A pb X Y (l : list block) : (base, 0) :: l = A ++ pb :: X →
  ∃ l', (base, 0) :: l' = A ++ pb :: Y ∧ (length l' + length X = length l + length Y)%nat ∧
    (∀ c, c ∈ X → c ∈ l) ∧ (∀ c, c ∈ l' → c ∈ l ∨ c ∈ Y).
Proof.
  destruct A as [|a A]; cbn [app]; intros [= -> ->].
  - exists Y. split_and!; [done|lia|done|auto].
  - exists (A ++ pb :: Y). rewrite !length_app. cbn [length]. split_and!; [done|lia|set_solver|].
    intros c. set_solver.
Qed.

Lemma cov_base l x : cov ((base, 0) :: l) x = cov l x.
Proof. cbn [cov]. unfold covers. cbn. case_decide; lia. Qed.

(** The block [(p, n)] behind [pb], and its neighbours. *)
Lemma around s l O A pb p n B : heap_ok s l O → (base, 0) :: l = A ++ pb :: (p, n) :: B →
  in_heap s (p, n) ∧ (∀ c, c ∈ A ++ [pb] → c.1 < p ∧ c.1 + 8 * c.2 ≤ p) ∧
  (∀ c, c ∈ B → p + 8 * n ≤ c.1) ∧ (∀ c, c ∈ O → c.1 + 8 * c.2 ≤ p ∨ p + 8 * n ≤ c.1) ∧
  sorted (A ++ [pb]) ∧ sorted B.
Proof.
  intros Hok E. pose proof Hok as [Hc Hs Hfp Hin Hcov Hown Hbrk].
  destruct (rebase A pb ((p, n) :: B) [] l E) as (_&_&_&Hsub&_).
  assert (Hp : (p, n) ∈ l) by (apply Hsub; set_solver).
  rewrite Forall_app, !Forall_forall in Hin. destruct Hin as [Hinl HinO].
  rewrite E in Hs. change (A ++ pb :: (p, n) :: B) with (A ++ [pb] ++ (p, n) :: B) in Hs.
  rewrite app_assoc in Hs. apply sorted_app in Hs as (Hs1&[Hs2 Hs3]&Hs4).
  rewrite Forall_forall in Hs2, Hs4. split_and!; [by apply Hinl| | | |done|done].
  - intros c Hc'. specialize (Hs4 c Hc'). inversion Hs4; subst. done.
  - intros c Hc'. specialize (Hs2 c Hc'). cbn in Hs2. lia.
  - intros c Hc'. destruct (HinO c Hc') as (?&?&?). destruct (Hinl _ Hp) as (?&?&?).
    destruct (cov_disjoint l O (p, n) c); [done|done|done|done|done|cbn in *; lia|cbn in *; lia].
Qed.

(** The whole block behind [pb] leaves the list. *)
Lemma take_whole s s' l O A pb p n B : heap_ok s l O → (base, 0) :: l = A ++ pb :: (p, n) :: B →
  u_freep s' = pb.1 → u_brk s' = u_brk s →
  (∀ x, u_hdr s' x = if x =? pb.1 then (first B base, pb.2) else u_hdr s x) →
  ∃ l', heap_ok s' l' ((p, n) :: O) ∧ (∀ x, cov l' x + covers (p, n) x = cov l x) ∧
    (length l' ≤ length l)%nat.
Proof.
  intros Hok E Hf' Hb' Hh'. pose proof Hok as [Hc Hs Hfp Hin Hcov Hown Hbrk].
  destruct (heap_pieces _ _ _ _ _ _ Hok E) as (HcA&Hhp&[Hhd HcB]&_&_&_&_&_&HpA&HpR).
  destruct (around _ _ _ _ _ _ _ _ Hok E) as (Hpin&HA&HB&HO&HsA&HsB).
  destruct (rebase A pb ((p, n) :: B) B l E) as (l'&El'&Hlen&Hsub&Hsub').
  assert (Hother : ∀ x, x ≠ pb.1 → u_hdr s' x = u_hdr s x).
  { intros x Hx. by rewrite Hh', (proj2 (Z.eqb_neq _ _) Hx). }
  assert (Hpb : pb.1 < p) by (apply HA; set_solver).
  assert (Hcov' : ∀ x, cov l' x + covers (p, n) x = cov l x).
  { intros x. rewrite <- (cov_base l), <- (cov_base l'), El', E, !cov_app. cbn [cov]. lia. }
  rewrite Forall_app, !Forall_forall in Hin. destruct Hin as [Hinl HinO].
  assert (Hinh : ∀ b, in_heap s b → in_heap s' b) by (intros b; unfold in_heap; rewrite Hb'; auto).
  exists l'. split_and!; [|done|cbn [length] in Hlen; lia]. split.
  - rewrite El'. apply chain_app. cbn [first chain]. split_and!.
    + apply (hdr_chain_ext (u_hdr s)); [|done]. intros a Ha. apply Hother. intros ->. done.
    + by rewrite Hh', Z.eqb_refl.
    + apply (hdr_chain_ext (u_hdr s)); [|done]. intros a Ha. apply Hother. intros ->. apply HpR. set_solver.
  - rewrite El'. change (A ++ pb :: B) with (A ++ [pb] ++ B). rewrite app_assoc. apply sorted_app.
    split_and!; [done|done|]. rewrite Forall_forall. intros c Hca. rewrite Forall_forall. intros d Hd.
    specialize (HA c Hca). specialize (HB d Hd). destruct Hpin as (?&?&?). cbn in *. lia.
  - rewrite Hf', El', fmap_app, fmap_cons. set_solver.
  - apply Forall_app. split; [|constructor; [by apply Hinh|]]; rewrite Forall_forall; intros b Hb; apply Hinh.
    + destruct (Hsub' b Hb) as [?|?]; apply Hinl; [done|]. apply Hsub. set_solver.
    + by apply HinO.
  - intros x. specialize (Hcov x). rewrite cov_app in *. cbn [cov]. specialize (Hcov' x). lia.
  - constructor; [rewrite Hother by (cbn; lia); by rewrite Hhd|].
    rewrite Forall_forall in Hown |- *. intros b Hb. rewrite Hother; [by apply Hown|].
    destruct (HinO b Hb) as (Hb0&_&?). intros Heq.
    assert (Hx : pb ∈ (base, 0) :: l) by (rewrite E; set_solver).
    apply elem_of_cons in Hx as [->|Hx]; [cbn in Heq; lia|]. destruct (Hinl pb Hx) as (?&?&?).
    destruct (cov_disjoint l O pb b); [done|done|done|done|done|lia|lia].
  - lia.
Qed.

(** The end of the block [p] leaves the list. *)
Lemma take_tail s s' l O A pb p n k B : heap_ok s l O → (base, 0) :: l = A ++ pb :: (p, n) :: B →
  1 ≤ k < n → u_freep s' = pb.1 → u_brk s' = u_brk s →
  let q := p + 8 * (n - k) in
  (∀ x, x ≠ q → u_hdr s' x = if x =? p then (first B base, n - k) else u_hdr s x) →
  (u_hdr s' q).2 = k →
  ∃ l', heap_ok s' l' ((q, k) :: O) ∧ (∀ x, cov l' x + covers (q, k) x = cov l x) ∧
    (length l' ≤ length l)%nat.
Proof.
  intros Hok E Hk Hf' Hb' q Hh' Hq. pose proof Hok as [Hc Hs Hfp Hin Hcov Hown Hbrk].
  destruct (heap_pieces _ _ _ _ _ _ Hok E) as (HcA&Hhp&[Hhd HcB]&_&_&_&_&_&HpA&HpR).
  destruct (around _ _ _ _ _ _ _ _ Hok E) as (Hpin&HA&HB&HO&HsA&HsB).
  destruct (rebase A pb ((p, n) :: B) ((p, n - k) :: B) l E) as (l'&El'&Hlen&Hsub&Hsub').
  assert (Hother : ∀ x, x < p ∨ p + 8 * n ≤ x → u_hdr s' x = u_hdr s x).
  { intros x Hx. rewrite Hh' by lia. by rewrite (proj2 (Z.eqb_neq x p)) by lia. }
  assert (Hcov' : ∀ x, cov l' x + covers (q, k) x = cov l x).
  { intros x. rewrite <- (cov_base l), <- (cov_base l'), El', E, !cov_app. cbn [cov].
    replace n with ((n - k) + k) at 2 by lia. rewrite cov_adjacent by lia. fold q. lia. }
  rewrite Forall_app, !Forall_forall in Hin. destruct Hin as [Hinl HinO].
  assert (Hinh : ∀ b, in_heap s b → in_heap s' b) by (intros b; unfold in_heap; rewrite Hb'; auto).
  destruct Hpin as (Hp1&Hp2&Hp3). cbn [fst snd] in *.
  exists l'. split_and!; [|done|cbn [length] in Hlen; lia]. split.
  - rewrite El'. apply chain_app. cbn [first chain fst snd]. split_and!.
    + apply (hdr_chain_ext (u_hdr s)); [|done]. intros a (c&->&Hca)%list_elem_of_fmap. apply Hother.
      left. apply HA. set_solver.
    + rewrite Hother; [done|]. left. apply HA. set_solver.
    + rewrite Hh' by lia. by rewrite Z.eqb_refl.
    + apply (hdr_chain_ext (u_hdr s)); [|done]. intros a (c&->&Hca)%list_elem_of_fmap. apply Hother. right. by apply HB.
  - rewrite El'. change (A ++ pb :: (p, n - k) :: B) with (A ++ [pb] ++ (p, n - k) :: B).
    rewrite app_assoc. apply sorted_app. split_and!; [done|split; [|done]|].
    + rewrite Forall_forall. intros d Hd. specialize (HB d Hd). cbn. lia.
    + rewrite Forall_forall. intros c Hca. specialize (HA c Hca). constructor; [done|].
      rewrite Forall_forall. intros d Hd. specialize (HB d Hd). lia.
  - rewrite Hf', El', fmap_app, fmap_cons. set_solver.
  - apply Forall_app. split; [|constructor; [apply Hinh; split_and!; cbn; lia|]];
      rewrite Forall_forall; intros b Hb; apply Hinh; [|by apply HinO].
    destruct (Hsub' b Hb) as [?|Hb2]; [by apply Hinl|].
    apply elem_of_cons in Hb2 as [->|Hb2]; [split_and!; cbn; lia|]. apply Hinl, Hsub. set_solver.
  - intros x. specialize (Hcov x). rewrite cov_app in *. cbn [cov]. specialize (Hcov' x). lia.
  - constructor; [done|]. rewrite Forall_forall in Hown |- *. intros b Hb.
    destruct (HinO b Hb) as (?&?&?). rewrite Hother; [by apply Hown|]. destruct (HO b Hb); lia.
  - lia.
Qed.

(** Taking a block that is large enough. *)
Lemma take_ok s l O nunits prev fuel : heap_ok s l O → prev ∈ ((base, 0) :: l).*1 → 1 ≤ nunits →
  nunits ≤ (u_hdr s (next s prev)).2 →
  ∃ s' l' q, malloc_step limit fuel nunits prev s = Ok (inr (q + 8)) s' ∧
    heap_ok s' l' ((q, nunits) :: O) ∧ u_brk s' = u_brk s ∧
    (∀ x, cov l' x + covers (q, nunits) x = cov l x) ∧ (length l' ≤ length l)%nat.
Proof.
  intros Hok Hprev Hn Hsz.
  apply list_elem_of_fmap in Hprev as (pb&->&Hpb). apply list_elem_of_split in Hpb as (A&R&E).
  destruct (heap_pieces _ _ _ _ _ _ Hok E) as (HcA&Hhp&HcR&_).
  rewrite Hhp in Hsz. cbn [fst] in Hsz.
  destruct R as [|[p n] B]; cbn [first fst] in Hsz.
  { destruct (hp_chain _ _ _ Hok) as [Hcb _]. cbn [fst] in Hcb. rewrite Hcb in Hsz. cbn in Hsz. lia. }
  cbn [chain first fst snd] in HcR, Hhp. destruct HcR as [Hhd HcB]. rewrite Hhd in Hsz. cbn [snd] in Hsz.
  destruct (around _ _ _ _ _ _ _ _ Hok E) as ((Hp1&Hp2&Hp3)&HA&_). cbn [fst snd] in *.
  assert (Hpp : pb.1 < p) by (apply HA; set_solver). pose proof (hp_brk _ _ _ Hok).
  unfold malloc_step, ptr, size, mbind, M_bind, gets. rewrite Hhp. cbn [fst]. rewrite Hhd. cbn [snd].
  rewrite (proj2 (Z.leb_le _ _) Hsz). destruct (Z.eqb_spec n nunits) as [->|Hne].
  - destruct (take_whole s (set_freep pb.1 (set_hdr pb.1 (first B base, (u_hdr s pb.1).2) s)) l O A pb p nunits B)
      as (l'&Hok'&Hcov'&Hlen'); [done|done|done|done| |].
    { intros x. cbn. by rewrite Hhp. }
    eexists _, l', p. split_and!; [|exact Hok'|done|done|done].
    unfold put_ptr, modify, mret, M_ret. rewrite Hhd. done.
  - rewrite u32_small by lia. set (q := p + 8 * (n - nunits)).
    unfold put_size, modify, mret, M_ret. unfold HSIZE. fold q. rewrite Hhd. cbn [fst].
    lazymatch goal with |- ∃ _ _ _, Ok _ ?S = _ ∧ _ => set (s2 := S) end.
    destruct (take_tail s s2 l O A pb p n nunits B) as (l'&Hok'&Hcov'&Hlen'); [done|done|lia|done|done| | |].
    { fold q. intros x Hx. cbn. by rewrite (proj2 (Z.eqb_neq x q) Hx). }
    { fold q. cbn. by rewrite Z.eqb_refl. }
    exists s2, l', q. split_and!; [done|exact Hok'|done|exact Hcov'|exact Hlen'].
Qed.

(** The walk along the blocks [V] to the start [f] of the list: it stops in
    front of a block that fits, or in front of [f] with no block that does. *)
Lemma malloc_walk s nunits fuel0 f V : ∀ prev fuel, u_freep s = f.1 →
  chain (u_hdr s) (prev :: V) f.1 → (u_hdr s f.1).2 = f.2 → f.1 ∉ V.*1 → (length V < fuel)%nat →
  ∃ pr fuel', (fuel ≤ fuel' + length V)%nat ∧ (0 < fuel')%nat ∧ pr ∈ prev :: V ∧
    loop fuel (malloc_step limit fuel0 nunits) prev.1 s = loop fuel' (malloc_step limit fuel0 nunits) pr.1 s ∧
    (nunits ≤ (u_hdr s (next s pr.1)).2 ∨
     next s pr.1 = f.1 ∧ Forall (λ b, b.2 < nunits) (f :: V)).
Proof.
  induction V as [|x V IH]; intros prev fuel Hf Hc Hfs Hnin Hfuel; cbn [chain first] in Hc.
  - destruct Hc as [Hp _]. exists prev, fuel. split_and!; [lia|simpl in Hfuel; lia|set_solver|done|].
    rewrite Hp. cbn [fst]. rewrite Hfs. destruct (decide (nunits ≤ f.2)); [by left|right].
    split; [done|]. repeat constructor. lia.
  - destruct Hc as [Hp [Hx Hc]]. destruct (decide (nunits ≤ x.2)) as [Hle|Hgt].
    { exists prev, fuel. split_and!; [lia|simpl in Hfuel; lia|set_solver|done|]. left.
      rewrite Hp. cbn [fst]. by rewrite Hx. }
    destruct fuel as [|fuel]; [simpl in Hfuel; lia|].
    destruct (IH x fuel) as (pr&fuel'&H1&H2&H3&H4&H5);
      [done|by split|done|set_solver|simpl in Hfuel; lia|].
    exists pr, fuel'. split_and!; [cbn [length]; lia|done|set_solver| |].
    + rewrite <- H4. apply loop_next. unfold malloc_step, ptr, size, mbind, M_bind, gets.
      rewrite Hp. cbn [fst]. rewrite Hx. cbn [snd]. rewrite (proj2 (Z.leb_gt _ _)) by lia.
      rewrite Hf, (proj2 (Z.eqb_neq x.1 f.1)); [done|]. set_solver.
    + destruct H5 as [?|[? H5]]; [by left|right]. split; [done|].
      inversion H5; subst. repeat constructor; [done|lia|done].
Qed.

(** The whole walk around the list. *)
Lemma malloc_search s l O nunits fuel0 fuel : heap_ok s l O → (length l < fuel)%nat →
  ∃ pr fuel', (fuel ≤ fuel' + length l)%nat ∧ (0 < fuel')%nat ∧ pr ∈ ((base, 0) :: l).*1 ∧
    loop fuel (malloc_step limit fuel0 nunits) (u_freep s) s = loop fuel' (malloc_step limit fuel0 nunits) pr s ∧
    (nunits ≤ (u_hdr s (next s pr)).2 ∨ next s pr = u_freep s ∧ Forall (λ b, b.2 < nunits) l).
Proof.
  intros Hok Hf. pose proof (hp_freep _ _ _ Hok) as Hfp.
  apply list_elem_of_fmap in Hfp as (f&Ef&Hfin). apply list_elem_of_split in Hfin as (A&B&E).
  destruct (heap_pieces _ _ _ _ _ _ Hok E) as (HcA&Hhf&HcB&_&_&Hfirst&_&_&HfA&HfB).
  assert (Hlen : length (B ++ A) = length l).
  { apply (f_equal length) in E. rewrite length_app in *. cbn [length] in E. lia. }
  assert (Hrot : chain (u_hdr s) (f :: B ++ A) f.1).
  { assert (Hfa : first A f.1 = base) by (by destruct A). cbn [chain]. split.
    - rewrite Hhf. f_equal. rewrite <- Hfa. by destruct B.
    - apply chain_app. by rewrite Hfa. }
  destruct (malloc_walk s nunits fuel0 f (B ++ A) f fuel) as (pr&fuel'&H1&H2&H3&H4&H5);
    [done|done|by rewrite Hhf|rewrite fmap_app; set_solver|lia|].
  exists pr.1, fuel'. split_and!; [lia|done| |by rewrite Ef|].
  - apply list_elem_of_fmap. exists pr. split; [done|]. rewrite E. set_solver.
  - destruct H5 as [?|[? H5]]; [by left|right]. split; [by rewrite Ef|].
    rewrite Forall_forall in H5 |- *. intros b Hb. apply H5.
    assert (Hx : b ∈ (base, 0) :: l) by set_solver. rewrite E in Hx. set_solver.
Qed.

Definition malloc_result (s : um) (l O : list block) (nunits r : Z) (s' : um) : Prop :=
  (r = 0 ∧ heap_ok s' l O ∧ u_brk s' = u_brk s) ∨
  ∃ q l', r = q + 8 ∧ heap_ok s' l' ((q, nunits) :: O) ∧ u_brk s ≤ u_brk s' ∧
    (length l' ≤ S (length l))%nat ∧
    ∀ x, cov (l' ++ (q, nunits) :: O) x =
      cov (l ++ O) x + if decide (u_brk s ≤ x < u_brk s') then 1 else 0.

Lemma malloc_loop_ok s l O nunits fuel : heap_ok s l O → (2 * length l + 4 ≤ fuel)%nat →
  1 ≤ nunits → nunits * 8 < 2147483648 →
  ∃ r s', loop fuel (malloc_step limit fuel nunits) (u_freep s) s = Ok r s' ∧
    malloc_result s l O nunits r s'.
Proof.
  intros Hok Hf Hn Hsmall.
  destruct (malloc_search s l O nunits fuel fuel) as (pr&fuel'&H1&H2&H3&H4&H5); [done|lia|].
  destruct fuel' as [|fuel']; [lia|]. rewrite H4. destruct H5 as [Hfit|[Hnext Hall]].
  { destruct (take_ok s l O nunits pr fuel) as (s'&l'&q&E&Hok'&Hb&Hcov&Hlen); [done..|].
    exists (q + 8), s'. split; [by apply loop_done|]. right. exists q, l'.
    split_and!; [done|done|lia|lia|]. intros x. specialize (Hcov x). rewrite !cov_app. cbn [cov].
    rewrite decide_False by lia. lia. }
  assert (Hstep : malloc_step limit fuel nunits pr s =
    (p ← morecore limit fuel nunits; if p =? 0 then mret (inr 0) else mret (inl p)) s).
  { unfold malloc_step, ptr, size, mbind, M_bind, gets. rewrite Hnext.
    pose proof (hp_freep _ _ _ Hok) as Hfp. apply list_elem_of_fmap in Hfp as (f&Ef&Hfin).
    rewrite (proj2 (Z.leb_gt _ _)); [by rewrite Z.eqb_refl|]. rewrite Ef.
    apply list_elem_of_split in Hfin as (A&B&E).
    destruct (heap_pieces _ _ _ _ _ _ Hok E) as (_&Hhf&_). rewrite Hhf. cbn [snd].
    assert (Hx : f ∈ (base, 0) :: l) by (rewrite E; set_solver).
    apply elem_of_cons in Hx as [->|Hx]; [cbn; lia|]. rewrite Forall_forall in Hall. by apply Hall. }
  destruct (morecore_ok fuel s l O nunits) as [E|(s1&l1&nu&E&Hok1&Hb1&Hcov1&Hlen1&Hnu&b&Hb&Hbn)]; [done|lia|done|done|..].
  { exists 0, s. split; [|by left]. apply loop_done. rewrite Hstep. by mrun E. }
  assert (Hfp1 : u_freep s1 ≠ 0).
  { pose proof (hp_freep _ _ _ Hok1) as Hfp. apply list_elem_of_fmap in Hfp as (f&->&Hfin).
    apply elem_of_cons in Hfin as [->|Hfin]; [cbn; lia|].
    pose proof (hp_in _ _ _ Hok1) as Hin. rewrite Forall_app, Forall_forall in Hin.
    destruct Hin as [Hin _]. destruct (Hin f Hfin) as (?&?&?). lia. }
  erewrite loop_next.
  2: { rewrite Hstep. mrun E. by rewrite (proj2 (Z.eqb_neq _ _) Hfp1). }
  destruct (malloc_search s1 l1 O nunits fuel fuel') as (pr'&fuel2&G1&G2&G3&G4&G5); [done|lia|].
  destruct fuel2 as [|fuel2]; [lia|]. rewrite G4. destruct G5 as [Hfit|[_ Hall']].
  2: { rewrite Forall_forall in Hall'. specialize (Hall' b Hb). cbn in Hall'. lia. }
  destruct (take_ok s1 l1 O nunits pr' fuel) as (s'&l'&q&E'&Hok'&Hb'&Hcov'&Hlen'); [done..|].
  exists (q + 8), s'. split; [by apply loop_done|]. right. exists q, l'.
  pose proof (hp_brk _ _ _ Hok).
  split_and!; [done|done|lia|lia|]. intros x. specialize (Hcov' x). specialize (Hcov1 x).
  rewrite !cov_app. cbn [cov]. rewrite Hb', Hb1. unfold covers in Hcov1. cbn [fst snd] in Hcov1.
  repeat case_decide; lia.
Qed.

(** Before the first call, or with the list set up. *)
Definition valid (s : um) (l O : list block) : Prop :=
  heap_ok s l O ∨ (u_freep s = 0 ∧ l = [] ∧ O = [] ∧ heap0 ≤ u_brk s ≤ limit).

Lemma cov_perm O O' x : O ≡ₚ O' → cov O x = cov O' x.
Proof. induction 1; cbn [cov]; lia. Qed.

Lemma heap_ok_perm s l O O' : O ≡ₚ O' → heap_ok s l O → heap_ok s l O'.
Proof.
  intros HO [Hc Hs Hfp Hin Hcov Hown Hbrk]. split; try done.
  - by rewrite <- HO.
  - intros x. specialize (Hcov x). rewrite cov_app in *. by rewrite <- (cov_perm O O').
  - by rewrite <- HO.
Qed.

(** C18: [malloc] and [free] keep the memory of the process partitioned.  From
    any state in which free and allocated blocks are disjoint (no byte is in
    two of them), [malloc] ends, and either returns 0 because the kernel gave
    no memory, with everything as it was, or a block that is large enough,
    disjoint from all allocated and all free ones; free and allocated blocks
    then cover what they covered before and the memory got from the kernel.
    [free] ends and returns exactly the block to the free list, joined with
    its neighbours. *)
Theorem malloc_free_partition s l O fuel : valid s l O → (2 * length l + 8 ≤ fuel)%nat →
  (∀ nbytes, 0 ≤ nbytes < 2147483600 →
     ∃ r s', malloc base limit fuel nbytes s = Ok r s' ∧
     ((r = 0 ∧ valid s' l O ∧ u_brk s' = u_brk s) ∨
      ∃ q n l', r = q + 8 ∧ nbytes ≤ 8 * (n - 1) ∧ valid s' l' ((q, n) :: O) ∧
        (∀ x, cov (l' ++ (q, n) :: O) x ≤ 1) ∧
        ∀ x, cov (l' ++ (q, n) :: O) x =
          cov (l ++ O) x + if decide (u_brk s ≤ x < u_brk s') then 1 else 0)) ∧
  (∀ q n O', O ≡ₚ (q, n) :: O' →
     ∃ s' l', free fuel (q + 8) s = Ok tt s' ∧ valid s' l' O' ∧ u_brk s' = u_brk s ∧
       ∀ x, cov (l' ++ O') x = cov (l ++ O) x).
Proof.
  intros Hv Hf. split.
  - intros nbytes Hnb. unfold malloc, HSIZE.
    set (nunits := u32 (nbytes + 8 - 1) / 8 + 1).
    assert (Hu : 1 ≤ nunits ∧ nunits * 8 < 2147483648 ∧ nbytes ≤ 8 * (nunits - 1)).
    { unfold nunits. rewrite u32_small by lia. Z.div_mod_to_equations. lia. }
    assert (Hstart : ∃ s1, (if u_freep s =? 0 then put_ptr base base;; modify (set_freep base);; put_size base 0
        else mret tt) s = Ok tt s1 ∧ heap_ok s1 l O ∧ u_brk s1 = u_brk s).
    { destruct Hv as [Hok|(Hf0&->&->&Hbrk)].
      - exists s. split_and!; [|done|done]. rewrite (proj2 (Z.eqb_neq _ 0)); [done|].
        pose proof (hp_freep _ _ _ Hok) as Hfp. apply list_elem_of_fmap in Hfp as (f&->&Hfin).
        apply elem_of_cons in Hfin as [->|Hfin]; [cbn; lia|].
        pose proof (hp_in _ _ _ Hok) as Hin. rewrite Forall_app, Forall_forall in Hin.
        destruct Hin as [Hin _]. destruct (Hin f Hfin) as (?&?&?). lia.
      - rewrite Hf0. eexists. split; [reflexivity|]. split; [|done].
        split; cbn; [|repeat constructor|set_solver|constructor|lia|constructor|lia].
        by rewrite !Z.eqb_refl. }
    destruct Hstart as (s1&E1&Hok1&Hb1).
    mrun (eq_refl : gets u_freep s = Ok (u_freep s) s). mrun E1.
    mrun (eq_refl : gets u_freep s1 = Ok (u_freep s1) s1).
    destruct (malloc_loop_ok s1 l O nunits fuel) as (r&s'&E&[(->&Hok'&Hb')|(q&l'&->&Hok'&Hb'&Hlen&Hcov)]);
      [done|lia|lia|lia|..]; rewrite Hb1 in *.
    + exists 0, s'. split; [done|]. left. split_and!; [done|by left|done].
    + exists (q + 8), s'. split; [done|]. right. exists q, nunits, l'.
      split_and!; [done|lia|by left|exact (hp_cov _ _ _ Hok')|done].
  - intros q n O' HO. destruct Hv as [Hok|(_&_&->&_)].
    2: { by apply Permutation_nil_cons in HO. }
    apply (heap_ok_perm _ _ _ _ HO) in Hok.
    destruct (free_ok fuel s l O' q n Hok) as (s'&l'&E&Hok'&Hb'&Hcov&_); [lia|].
    exists s', l'. split_and!; [done|by left|done|]. intros x. rewrite !cov_app, Hcov, (cov_perm _ _ x HO).
    cbn [cov]. lia.
Qed.
End Laws.

Lemma malloc_free_partition_witness :
  ∃ s', malloc 64 65536 20 100 (Um (λ _, (0, 0)) 0 4096) = Ok 36760 s' ∧ ∃ l', valid 64 65536 4096 s' l' [(36752, 14)].
Proof.
  destruct (malloc_free_partition 64 65536 4096 ltac:(lia) ltac:(lia) ltac:(lia)
    (Um (λ _, (0, 0)) 0 4096) [] [] 20) as [Hm _].
  - right. split_and!; [reflexivity..|cbn; lia|cbn; lia].
  - cbn. lia.
  - destruct (Hm 100 ltac:(lia)) as (r&s'&E&Hr).
    assert (Er : match malloc 64 65536 20 100 (Um (λ _, (0, 0)) 0 4096) with Ok r _ => r | _ => 0 end = 36760)
      by (vm_compute; reflexivity).
    rewrite E in Er. subst r. exists s'. split; [exact E|].
    destruct Hr as [[Hr _]|(q&n&l'&Hq&Hn&Hv&_)]; [discriminate Hr|].
    exists l'. assert (Hn' : match malloc 64 65536 20 100 (Um (λ _, (0, 0)) 0 4096) with
      | Ok _ s => (u_hdr s 36752).2 | _ => 0 end = 14) by (vm_compute; reflexivity).
    rewrite E in Hn'. assert (q = 36752) by lia. subst q. destruct Hv as [Hok|(_&_&H&_)]; [|discriminate H].
    pose proof (hp_own _ _ _ _ _ _ Hok) as Ho. inversion Ho as [|? ? Hn0 _]; subst. cbn in Hn0.
    left. rewrite <- Hn', Hn0. exact Hok.
Defined.
