(* ===== verification/Mkfs.v ===== *)
(** The tool that makes the disk image (mkfs.c).

    The image is a file of 512-byte sectors.  A failed assertion, and an
    error of the host that makes the tool exit, is a [panic]. *)
From S2P Require Import Prelude Kmonad Wp Kstate Disk Log Balloc Inode Str Dir.

Definition nblocks : Z := 985.
Definition nlog : Z := 10.
Definition ninodes : Z := 200.
Definition size : Z := 1024.

Record mk := Mk {
  mk_img : Z → list Z;       (* the sectors of the file fsfd *)
  mk_len : Z;                (* its length in sectors *)
  mk_freeblock : Z;
  mk_usedblocks : Z;
  mk_freeinode : Z
}.
Definition set_img (f : Z → list Z) (n : Z) (s : mk) : mk :=
  Mk f n (mk_freeblock s) (mk_usedblocks s) (mk_freeinode s).
Definition set_used (f u : Z) (s : mk) : mk :=
  Mk (mk_img s) (mk_len s) f u (mk_freeinode s).
Definition set_freeinode (i : Z) (s : mk) : mk :=
  Mk (mk_img s) (mk_len s) (mk_freeblock s) (mk_usedblocks s) i.

Definition assert_ (b : bool) : M mk unit := if b then mret tt else panic "assert".

(** convert to intel byte order: the bytes are stored one by one and read as
    one number of the (little-endian) host. *)
Definition xshort (x : Z) : Z := le_decode [u8 x; u8 (Z.shiftr x 8)].
Definition xint (x : Z) : Z :=
  le_decode [u8 x; u8 (Z.shiftr x 8); u8 (Z.shiftr x 16); u8 (Z.shiftr x 24)].

(** A write behind the end makes the file longer; a read there is short. *)
Definition wsect (sec : Z) (buf : list Z) : M mk unit :=
  modify (λ s, set_img (λ x, if x =? sec then buf else mk_img s x) (Z.max (mk_len s) (sec + 1)) s).
Definition rsect (sec : Z) : M mk (list Z) :=
  n ← gets mk_len;
  if sec <? n then gets (λ s, mk_img s sec) else panic "read".

Definition i2b (inum : Z) : Z := inum / IPB + 2.

Definition winode (inum : Z) (ip : dinode) : M mk unit :=
  let bn := i2b inum in
  buf ← rsect bn;
  wsect bn (dinode_put inum ip buf).

Definition rinode (inum : Z) : M mk dinode :=
  buf ← rsect (i2b inum);
  mret (dinode_get inum buf).

Definition ialloc (type : Z) : M mk Z :=
  inum ← gets mk_freeinode;
  modify (set_freeinode (u32 (inum + 1)));;
  winode inum (Dinode (i16 (xshort type)) 0 0 (i16 (xshort 1)) (xint 0) (replicate 13 0));;
  mret inum.

(** The bitmap with the first [used] bits set. *)
Definition balloc_bits (used : Z) : list Z :=
  fold_left (λ buf i, set_byte buf (i / 8) (Z.lor (byte_at buf (i / 8)) (bit_mask i)))
    (seqZ 0 used) (replicate 512 0).

Definition balloc (used : Z) : M mk unit :=
  assert_ (used <? 512 * 8);;
  wsect (ninodes / IPB + 3) (balloc_bits used).

(** [freeblock++; usedblocks++] *)
Definition take_block : M mk Z :=
  f ← gets mk_freeblock;
  u ← gets mk_usedblocks;
  modify (set_used (u32 (f + 1)) (u32 (u + 1)));;
  mret f.

Definition din_addr (d : dinode) (n : Z) : Z := nth (Z.to_nat n) (di_addrs d) 0.
Definition set_din_addr (n a : Z) (d : dinode) : dinode :=
  set_di_addrs (<[Z.to_nat n := a]> (di_addrs d)) d.

(** [x]: the sector of block [fbn] of the file, taken now if it has none. *)
Definition iappend_block (fbn : Z) (din : dinode) : M mk (dinode * Z) :=
  if fbn <? NDIRECT then
    din ← (if xint (din_addr din fbn) =? 0 then
             b ← take_block;
             mret (set_din_addr fbn (xint b) din)
           else mret din);
    mret (din, xint (din_addr din fbn))
  else
    din ← (if xint (din_addr din NDIRECT) =? 0 then
             b ← take_block;
             mret (set_din_addr NDIRECT (xint b) din)
           else mret din);
    indirect ← rsect (xint (din_addr din NDIRECT));
    let o := (4 * Z.to_nat (fbn - NDIRECT))%nat in
    indirect ← (if get_u32 o indirect =? 0 then
                  b ← take_block;
                  let indirect := put_u32 o (xint b) indirect in
                  wsect (xint (din_addr din NDIRECT)) indirect;;
                  mret indirect
                else mret indirect);
    mret (din, xint (get_u32 o indirect)).

(** One turn of the loop of [iappend]: the inode, the offset, the bytes left
    in the buffer and their number. *)
Definition iappend_step (st : dinode * Z * list Z * Z) :
    M mk (dinode * Z * list Z * Z + dinode * Z) :=
  let '(din, off, p, n) := st in
  if 0 <? n then
    let fbn := off / 512 in
    assert_ (fbn <? MAXFILE);;
    '(din, x) ← iappend_block fbn din;
    let n1 := Z.min n (u32 ((fbn + 1) * 512 - off)) in
    buf ← rsect x;
    wsect x (splice (Z.to_nat (off - fbn * 512)) (take (Z.to_nat n1) p) buf);;
    mret (inl (din, u32 (off + n1), drop (Z.to_nat n1) p, n - n1))
  else mret (inr (din, off)).

Definition iappend (inum : Z) (p : list Z) (n : Z) : M mk unit :=
  din ← rinode inum;
  '(din, off) ← loop (S (Z.to_nat n)) iappend_step (din, xint (di_size din), p, n);
  winode inum (set_di_size (xint off) din).

(** An entry made by [bzero], [de.inum = xshort(inum)] and [strcpy]. *)
Definition dot_dirent (name : list Z) (inum : Z) : list Z :=
  splice 2 (name ++ [0]) (put_u16 0 (xshort inum) (replicate 16 0)).

(** Skip leading _ in name when writing to file system. *)
Definition base_name (arg : list Z) : list Z :=
  match arg with c :: rest => if c =? 95 then rest else arg | [] => [] end.

Section Main.
(** The host: what successive reads of the file with a name return before
    the one that returns 0, if it can be opened. *)
Variable open : list Z → option (list (list Z)).

(** One turn of the loop over the arguments. *)
Definition add_file (rootino : Z) (arg : list Z) : M mk unit :=
  assert_ (negb (existsb (Z.eqb SLASH) arg));;
  match open arg with
  | None => panic "open"
  | Some reads =>
      inum ← ialloc T_FILE;
      iappend rootino (new_dirent (base_name arg) (xshort inum) (replicate 16 0)) 16;;
      for_each reads (λ buf, iappend inum buf (Z.of_nat (length buf)))
  end.

Definition superblock_sector : list Z :=
  put_u32 12 (xint nlog) (put_u32 8 (xint ninodes)
    (put_u32 4 (xint nblocks) (put_u32 0 (xint size) (replicate 512 0)))).

(** [main] after the image file was opened, with the arguments behind its
    name. *)
Definition mkfs (args : list (list Z)) : M mk unit :=
  assert_ (512 mod 64 =? 0);;
  assert_ (512 mod 16 =? 0);;
  let bitblocks := size / (512 * 8) + 1 in
  let used := ninodes / IPB + 3 + bitblocks in
  modify (set_used used used);;
  assert_ (nblocks + used + nlog =? size);;
  for_each (seqZ 0 (nblocks + used + nlog)) (λ i, wsect i (replicate 512 0));;
  wsect 1 superblock_sector;;
  rootino ← ialloc T_DIR;
  assert_ (rootino =? ROOTINO);;
  iappend rootino (dot_dirent [46] rootino) 16;;
  iappend rootino (dot_dirent [46; 46] rootino) 16;;
  for_each args (add_file rootino);;
  din ← rinode rootino;
  let off := xint (di_size din) in
  let off := u32 ((off / BSIZE + 1) * BSIZE) in
  winode rootino (set_di_size (xint off) din);;
  used ← gets mk_usedblocks;
  balloc (i32 used).

(** The tool on an image file that was just truncated. *)
Definition mk_empty : mk := Mk (λ _, replicate 512 0) 0 0 0 1.
End Main.
