(* ===== verification/MkfsLaws.v ===== *)
(** The image that mkfs.c makes is a file system of the kernel: what its
    inodes, directory and bitmap say, in the terms of fs.c. *)
From S2P Require Import Prelude Kmonad Wp Kstate Disk Log Balloc Inode Dinode FileData Str Dir Mkfs.

(** ** Files under construction *)

(** A file: its type, its blocks in order, its indirect block (0: none) and
    its contents. *)
Record gfile := Gfile { g_ty : Z; g_bs : list Z; g_ind : Z; g_c : list Z }.
Implicit Types (g : gfile) (G : list gfile) (img : Z → list Z).

Definition gaddrs (bs : list Z) (ind : Z) : list Z := ((λ n, nth n bs 0) <$> seq 0 12) ++ [ind].
Definition gdin g (sz : Z) : dinode := Dinode (g_ty g) 0 0 1 sz (gaddrs (g_bs g) (g_ind g)).

Definition own g : list Z := g_bs g ++ if g_ind g =? 0 then [] else [g_ind g].
Definition owned G : list Z := concat (own <$> G).

(** The blocks hold the contents, with zeros behind, and the indirect block
    lists the blocks from the twelfth on. *)
Record rep img g : Prop := {
  rp_max : (length (g_bs g) ≤ 140)%nat;
  rp_ind : (12 < length (g_bs g))%nat ↔ g_ind g ≠ 0;
  rp_tab : g_ind g ≠ 0 → ∀ n, (12 ≤ n < 140)%nat →
    get_u32 (4 * (n - 12)) (img (g_ind g)) = nth n (g_bs g) 0;
  rp_c : ∃ k, concat (img <$> g_bs g) = g_c g ++ replicate k 0
}.

(** Data blocks are handed out in order from 29 on: below [F] each one is in
    one place of one file, from [F] on they are zero. *)
Record minv img (F : Z) G : Prop := {
  mi_len : ∀ x, length (img x) = 512%nat;
  mi_own : owned G ≡ₚ seqZ 29 (F - 29);
  mi_F : 29 ≤ F ≤ 1024;
  mi_rep : Forall (rep img) G;
  mi_zero : ∀ x, F ≤ x < 1024 → img x = replicate 512 0
}.

(** No more blocks than the contents need. *)
Definition tight g : Prop := Z.of_nat (length (g_bs g)) = (Z.of_nat (length (g_c g)) + 511) / 512.

Lemma owned_app G1 G2 : owned (G1 ++ G2) = owned G1 ++ owned G2.
Proof. unfold owned. by rewrite fmap_app, concat_app. Qed.
Lemma owned_cons g G : owned (g :: G) = own g ++ owned G.
Proof. done. Qed.
Lemma elem_owned g G x : g ∈ G → x ∈ own g → x ∈ owned G.
Proof.
  intros Hg Hx. apply list_elem_of_split in Hg as (G1&G2&->). rewrite owned_app, owned_cons.
  set_solver.
Qed.
Lemma own_range img F G x : minv img F G → x ∈ owned G → 29 ≤ x < F.
Proof. intros Hi Hx. rewrite (mi_own _ _ _ Hi) in Hx. apply elem_of_seqZ in Hx. lia. Qed.
Lemma owned_nodup img F G : minv img F G → NoDup (owned G).
Proof. intros Hi. rewrite (mi_own _ _ _ Hi). apply NoDup_seqZ. Qed.

Lemma rep_ext img img' g : (∀ x, x ∈ own g → img' x = img x) → rep img g → rep img' g.
Proof.
  intros He [R1 R2 R3 [k R4]]. unfold own in He. split; try done.
  - intros Hn n Hr. rewrite He by (rewrite (proj2 (Z.eqb_neq _ 0)) by done; set_solver). by apply R3.
  - exists k. rewrite <- R4. f_equal. apply list_fmap_ext. intros i x Hx. apply He.
    apply list_elem_of_lookup_2 in Hx. set_solver.
Qed.

(** A change of one file and of blocks that are its own or not in use keeps
    all the others. *)
Lemma minv_change img F G1 g G2 img' F' g' : minv img F (G1 ++ g :: G2) →
  (∀ x, x ∉ own g → x < F → img' x = img x) → rep img' g' →
  own g' ≡ₚ own g ++ seqZ F (F' - F) → F ≤ F' ≤ 1024 →
  (∀ x, length (img' x) = 512%nat) → (∀ x, F' ≤ x < 1024 → img' x = replicate 512 0) →
  minv img' F' (G1 ++ g' :: G2).
Proof.
  intros Hi Hfr Hg' Hown HF Hlen Hz. assert (Hnd := owned_nodup _ _ _ Hi).
  assert (Hothers : ∀ h, h ∈ G1 ∨ h ∈ G2 → rep img h → rep img' h).
  { intros h Hh. apply rep_ext. intros x Hx. apply Hfr.
    - rewrite owned_app, owned_cons in Hnd. intros Hx'. destruct Hh as [Hh|Hh].
      + apply NoDup_app in Hnd as (_&Hd&_). apply (Hd x); [by eapply elem_owned|set_solver].
      + apply NoDup_app in Hnd as (_&_&Hnd). apply NoDup_app in Hnd as (_&Hd&_).
        by apply (Hd x); [|eapply elem_owned].
    - eapply own_range; [done|]. eapply elem_owned; [|done]. set_solver. }
  pose proof Hi as [H1 H2 H3 H4 H5]. split; try done; [|lia|].
  - rewrite owned_app, owned_cons, Hown in *.
    replace (F' - 29) with ((F - 29) + (F' - F)) by lia. rewrite seqZ_app by lia.
    replace (29 + (F - 29)) with F by lia. rewrite <- H2. solve_Permutation.
  - rewrite Forall_app, Forall_cons in *. destruct H4 as (K1&K2&K3). split_and!; [|done|].
    + rewrite Forall_forall in *. auto.
    + rewrite Forall_forall in *. auto.
Qed.

(** ** The fields of the inode *)

Lemma xint_small x : 0 ≤ x < 4294967296 → xint x = x.
Proof.
  intros Hx. unfold xint, u8. cbn [le_decode]. rewrite !Z.shiftr_div_pow2 by lia.
  change (2 ^ 8) with 256. change (2 ^ 16) with 65536. change (2 ^ 24) with 16777216.
  Z.div_mod_to_equations. lia.
Qed.
Lemma xshort_small x : 0 ≤ x < 65536 → xshort x = x.
Proof.
  intros Hx. unfold xshort, u8. cbn [le_decode]. rewrite !Z.shiftr_div_pow2 by lia.
  change (2 ^ 8) with 256. Z.div_mod_to_equations. lia.
Qed.

Lemma length_gaddrs bs ind : length (gaddrs bs ind) = 13%nat.
Proof. done. Qed.
Lemma gaddrs_blk bs ind n : (n < 12)%nat → nth n (gaddrs bs ind) 0 = nth n bs 0.
Proof.
  intros Hn. unfold gaddrs. rewrite app_nth1 by (rewrite length_fmap, length_seq; lia).
  rewrite nth_lookup, list_lookup_fmap, lookup_seq_lt by done. done.
Qed.
Lemma gaddrs_ind bs ind : nth 12 (gaddrs bs ind) 0 = ind.
Proof. done. Qed.
Lemma gaddrs_ext bs bs' ind : (∀ n, (n < 12)%nat → nth n bs 0 = nth n bs' 0) → gaddrs bs ind = gaddrs bs' ind.
Proof.
  intros H. unfold gaddrs. f_equal. apply list_fmap_ext. intros i x Hx.
  apply lookup_seq in Hx as [-> Hx]. by apply H.
Qed.
Lemma nth_snoc (bs : list Z) a n : nth n (bs ++ [a]) 0 = if decide (n = length bs) then a else nth n bs 0.
Proof.
  case_decide as Hn; [subst; by rewrite app_nth2, Nat.sub_diag by lia|].
  destruct (decide (n < length bs)%nat); [by apply app_nth1|].
  rewrite !nth_overflow; [done|lia|rewrite length_app; cbn; lia].
Qed.
Lemma gaddrs_more bs ind a : (12 ≤ length bs)%nat → gaddrs (bs ++ [a]) ind = gaddrs bs ind.
Proof. intros H. apply gaddrs_ext. intros n Hn. rewrite nth_snoc, decide_False by lia. done. Qed.
Lemma gaddrs_push bs ind a : (length bs < 12)%nat → <[length bs := a]> (gaddrs bs ind) = gaddrs (bs ++ [a]) ind.
Proof.
  intros H. apply (nth_ext _ _ 0 0); [by rewrite length_insert|]. intros n Hn.
  rewrite length_insert, length_gaddrs in Hn. rewrite nth_lookup.
  destruct (decide (n = length bs)) as [->|Hne].
  - rewrite list_lookup_insert_eq by (rewrite length_gaddrs; lia). rewrite gaddrs_blk by lia.
    by rewrite nth_snoc, decide_True.
  - rewrite list_lookup_insert_ne by done. rewrite <- nth_lookup.
    destruct (decide (n = 12%nat)) as [->|]; [done|].
    rewrite !gaddrs_blk by lia. by rewrite nth_snoc, decide_False.
Qed.
Lemma gaddrs_set_ind bs a : <[12%nat := a]> (gaddrs bs 0) = gaddrs bs a.
Proof. done. Qed.

(** ** Getting the block to write to *)

Definition with_bs g bs ind : gfile := Gfile (g_ty g) bs ind (g_c g).

(** The bytes in the blocks. *)
Lemma length_blocks img F G bs : minv img F G → length (concat (img <$> bs)) = (512 * length bs)%nat.
Proof.
  intros Hi. induction bs as [|x bs IH]; [done|]. cbn. rewrite length_app, IH, (mi_len _ _ _ Hi). lia.
Qed.

Lemma concat_snoc img (bs : list Z) x : concat (img <$> bs ++ [x]) = concat (img <$> bs) ++ img x.
Proof. rewrite fmap_app, concat_app. cbn. by rewrite app_nil_r. Qed.

Lemma get_zero n o : get_u32 o (replicate n 0) = 0.
Proof.
  unfold get_u32, slice. rewrite drop_replicate, take_replicate. generalize (4 `min` (n - o))%nat.
  induction n0 as [|m IH]; simpl; [done|]. by rewrite IH.
Qed.

(** Writing one sector leaves the others. *)
Definition upd_sec img (a : Z) (d : list Z) : Z → list Z := λ x, if x =? a then d else img x.
Lemma upd_sec_eq img a d : upd_sec img a d a = d.
Proof. unfold upd_sec. by rewrite Z.eqb_refl. Qed.
Lemma upd_sec_ne img a d x : x ≠ a → upd_sec img a d x = img x.
Proof. intros Hx. unfold upd_sec. by rewrite (proj2 (Z.eqb_neq _ _)). Qed.
Lemma upd_sec_blocks img a d (bs : list Z) : a ∉ bs → upd_sec img a d <$> bs = img <$> bs.
Proof.
  intros Ha. apply list_fmap_ext. intros i x Hx. apply upd_sec_ne. intros ->.
  by apply Ha, (list_elem_of_lookup_2 _ i).
Qed.
Lemma upd_sec_len img F G a d : minv img F G → length d = 512%nat → ∀ x, length (upd_sec img a d x) = 512%nat.
Proof. intros Hi Hd x. unfold upd_sec. destruct (x =? a); [done|apply Hi]. Qed.

Section Block.
Variables (img : Z → list Z) (F : Z) (G1 : list gfile) (g : gfile) (G2 : list gfile).
Hypothesis Hi : minv img F (G1 ++ g :: G2).

Lemma g_rep : rep img g.
Proof. pose proof (mi_rep _ _ _ Hi) as H. rewrite Forall_app, Forall_cons in H. tauto. Qed.
Lemma g_own x : x ∈ own g → 29 ≤ x < F.
Proof. intros Hx. eapply own_range; [done|]. eapply elem_owned; [|done]. set_solver. Qed.
Lemma g_ind_range : g_ind g ≠ 0 → 29 ≤ g_ind g < F.
Proof. intros Hn. apply g_own. unfold own. rewrite (proj2 (Z.eqb_neq _ 0)) by done. set_solver. Qed.
Lemma fresh_zero : F < 1024 → img F = replicate 512 0.
Proof. intros HF. pose proof (mi_F _ _ _ Hi). apply (mi_zero _ _ _ Hi). lia. Qed.

(** A direct block. *)
Lemma push_direct : (length (g_bs g) < 12)%nat → F < 1024 →
  minv img (F + 1) (G1 ++ with_bs g (g_bs g ++ [F]) 0 :: G2) ∧ g_ind g = 0.
Proof.
  intros Hl HF. destruct g_rep as [R1 R2 R3 [k R4]].
  assert (Hz : g_ind g = 0) by (destruct (decide (g_ind g = 0)) as [|Hn]; [done|apply R2 in Hn; lia]).
  split; [|done]. eapply minv_change; [exact Hi|done| | |pose proof (mi_F _ _ _ Hi); lia|apply Hi|].
  - split; cbn [with_bs g_bs g_ind g_c]; [rewrite length_app; cbn; lia|rewrite length_app; cbn; lia|done|].
    exists (k + 512)%nat. rewrite concat_snoc, R4, fresh_zero by done.
    by rewrite <- app_assoc, replicate_add.
  - unfold own. cbn. rewrite Hz. cbn. rewrite !app_nil_r. replace (F + 1 - F) with 1 by lia. done.
  - intros x Hx. apply (mi_zero _ _ _ Hi). lia.
Qed.

(** The indirect block, and the first block in it. *)
Lemma push_indirect : length (g_bs g) = 12%nat → F + 1 < 1024 →
  minv (upd_sec img F (put_u32 0 (F + 1) (img F))) (F + 2)
    (G1 ++ with_bs g (g_bs g ++ [F + 1]) F :: G2) ∧ g_ind g = 0.
Proof.
  intros Hl HF. destruct g_rep as [R1 R2 R3 [k R4]]. pose proof (mi_F _ _ _ Hi) as HFr.
  assert (Hz : g_ind g = 0) by (destruct (decide (g_ind g = 0)) as [|Hn]; [done|apply R2 in Hn; lia]).
  assert (Hbs : F ∉ g_bs g) by (intros Hx; pose proof (g_own F ltac:(unfold own; set_solver)); lia).
  split; [|done]. eapply minv_change; [exact Hi| | | |lia| |].
  - intros x _ Hx. apply upd_sec_ne. lia.
  - split; cbn [with_bs g_bs g_ind g_c]; [rewrite length_app; cbn; lia|rewrite length_app; cbn; lia| |].
    + intros _ n Hn. rewrite upd_sec_eq, nth_snoc. rewrite fresh_zero by lia. case_decide as E.
      * replace (4 * (n - 12))%nat with 0%nat by lia. rewrite get_put_u32 by (rewrite length_replicate; lia).
        apply u32_small. lia.
      * rewrite get_put_u32_ne by (rewrite ?length_replicate; lia). rewrite get_zero, nth_overflow by lia. done.
    + exists (k + 512)%nat. rewrite concat_snoc, upd_sec_blocks, upd_sec_ne by (done || lia).
      rewrite (mi_zero _ _ _ Hi) by lia. by rewrite replicate_add, app_assoc, <- R4.
  - unfold own. cbn. rewrite Hz, (proj2 (Z.eqb_neq F 0)) by lia. cbn. rewrite app_nil_r.
    replace (F + 2 - F) with 2 by lia. rewrite !seqZ_cons, seqZ_nil by lia.
    change (Z.succ F) with (F + 1). solve_Permutation.
  - eapply upd_sec_len; [exact Hi|]. rewrite length_put_u32; rewrite (mi_len _ _ _ Hi); lia.
  - intros x Hx. rewrite upd_sec_ne by lia. apply (mi_zero _ _ _ Hi). lia.
Qed.

(** A further block in the indirect block. *)
Lemma own_ind : g_ind g ≠ 0 → own g = g_bs g ++ [g_ind g].
Proof. intros Hn. unfold own. by rewrite (proj2 (Z.eqb_neq _ 0)). Qed.
Lemma own_nodup : NoDup (own g).
Proof.
  assert (Hnd := owned_nodup _ _ _ Hi). rewrite owned_app, owned_cons in Hnd.
  apply NoDup_app in Hnd as (_&_&Hnd). by apply NoDup_app in Hnd as (Hnd&_).
Qed.

Lemma push_entry : (12 < length (g_bs g) < 140)%nat → F < 1024 →
  minv (upd_sec img (g_ind g) (put_u32 (4 * (length (g_bs g) - 12)) F (img (g_ind g)))) (F + 1)
    (G1 ++ with_bs g (g_bs g ++ [F]) (g_ind g) :: G2) ∧ g_ind g ≠ 0.
Proof.
  intros Hl HF. destruct g_rep as [R1 R2 R3 [k R4]]. pose proof (mi_F _ _ _ Hi) as HFr.
  assert (Hz : g_ind g ≠ 0) by (apply R2; lia). assert (Hr := g_ind_range Hz).
  assert (Hlen := mi_len _ _ _ Hi (g_ind g)).
  assert (Hbs : g_ind g ∉ g_bs g).
  { assert (Hnd := own_nodup). rewrite own_ind in Hnd by done. apply NoDup_app in Hnd as (_&Hd&_).
    intros Hx. apply (Hd _ Hx). set_solver. }
  split; [|done]. eapply minv_change; [exact Hi| | | |lia| |].
  - intros x Hx _. apply upd_sec_ne. intros ->. apply Hx. rewrite own_ind by done. set_solver.
  - split; cbn [with_bs g_bs g_ind g_c]; [rewrite length_app; cbn; lia|rewrite length_app; cbn; split; [done|lia]| |].
    + intros _ n Hn. rewrite upd_sec_eq, nth_snoc. case_decide as E.
      * subst n. rewrite get_put_u32 by lia. apply u32_small. lia.
      * rewrite get_put_u32_ne by lia. by apply R3.
    + exists (k + 512)%nat. rewrite concat_snoc, upd_sec_blocks, upd_sec_ne by (done || lia).
      rewrite fresh_zero by done. by rewrite replicate_add, app_assoc, <- R4.
  - rewrite own_ind by done. unfold own. cbn. rewrite (proj2 (Z.eqb_neq _ 0)) by done.
    replace (F + 1 - F) with 1 by lia. rewrite seqZ_cons, seqZ_nil by lia. solve_Permutation.
  - eapply upd_sec_len; [exact Hi|]. rewrite length_put_u32; lia.
  - intros x Hx. rewrite upd_sec_ne by lia. apply (mi_zero _ _ _ Hi). lia.
Qed.
End Block.

(** The state of the tool after the image was cleared. *)
Definition mks img (F fi : Z) : mk := Mk img 1024 F F fi.

Lemma rsect_run x img F fi : x < 1024 → rsect x (mks img F fi) = Ok (img x) (mks img F fi).
Proof. intros Hx. unfold rsect. mrun (eq_refl : gets mk_len (mks img F fi) = Ok 1024 _). by rewrite (proj2 (Z.ltb_lt _ _)). Qed.
Lemma wsect_run x d img F fi : x < 1024 → wsect x d (mks img F fi) = Ok tt (mks (upd_sec img x d) F fi).
Proof. intros Hx. unfold wsect, modify, set_img, mks. cbn -[Z.max]. by rewrite Z.max_l by lia. Qed.
Lemma take_block_run img F fi : 0 ≤ F < 4294967295 → take_block (mks img F fi) = Ok F (mks img (F + 1) fi).
Proof. intros HF. unfold take_block, mks, mbind, M_bind, gets, modify, set_used. cbn -[u32]. by rewrite !u32_small by lia. Qed.

(** The blocks that [iappend] takes at offset [off]. *)
Definition need (off : Z) : Z :=
  if off mod 512 =? 0 then if off / 512 =? 12 then 2 else 1 else 0.

Lemma din_addr_blk g sz n : 0 ≤ n < 12 → din_addr (gdin g sz) n = nth (Z.to_nat n) (g_bs g) 0.
Proof. intros Hn. unfold din_addr. cbn [gdin di_addrs]. apply gaddrs_blk. lia. Qed.
Lemma din_addr_ind g sz : din_addr (gdin g sz) NDIRECT = g_ind g.
Proof. done. Qed.

Section Append.
Variables (img : Z → list Z) (F : Z) (G1 : list gfile) (g : gfile) (G2 : list gfile) (fi : Z).
Hypothesis Hi : minv img F (G1 ++ g :: G2).

Lemma bs_nonzero n : (n < length (g_bs g))%nat →
  ∃ x, g_bs g !! n = Some x ∧ nth n (g_bs g) 0 = x ∧ 29 ≤ x < F ∧ F ≤ 1024.
Proof.
  intros Hn. destruct (lookup_lt_is_Some_2 _ _ Hn) as [x Hx]. exists x. split; [done|].
  rewrite nth_lookup, Hx. split; [done|]. split; [|apply Hi]. eapply (g_own img F G1 g G2 Hi).
  unfold own. apply list_elem_of_lookup_2 in Hx. set_solver.
Qed.

(** What [iappend_block] gives: the file with the block, and its sector. *)
Definition block_post (off sz : Z) (o : outcome mk (dinode * Z)) : Prop :=
  ∃ img' bs ind x, o = Ok (gdin (with_bs g bs ind) sz, x) (mks img' (F + need off) fi) ∧
    minv img' (F + need off) (G1 ++ with_bs g bs ind :: G2) ∧
    bs !! Z.to_nat (off / 512) = Some x ∧ length bs = S (Z.to_nat (off / 512)) ∧
    29 ≤ x < 1024 ∧ ∀ y, y < 29 → img' y = img y.

Lemma with_bs_same : with_bs g (g_bs g) (g_ind g) = g.
Proof. by destruct g. Qed.

Lemma block_old off sz : length (g_bs g) = S (Z.to_nat (off / 512)) → off mod 512 ≠ 0 →
  0 ≤ off / 512 < 140 → block_post off sz (iappend_block (off / 512) (gdin g sz) (mks img F fi)).
Proof.
  intros Hl Hm Hr. destruct (bs_nonzero (Z.to_nat (off / 512))) as (x&Hx&Hn&Hxr&HF); [lia|].
  exists img, (g_bs g), (g_ind g), x. unfold need. rewrite with_bs_same, (proj2 (Z.eqb_neq _ 0)), Z.add_0_r by done.
  split_and!; [|done..|lia|lia|done]. unfold iappend_block, NDIRECT.
  destruct (Z.ltb_spec (off / 512) 12).
  - rewrite din_addr_blk, Hn by lia. rewrite xint_small by lia. rewrite (proj2 (Z.eqb_neq x 0)) by lia.
    erewrite bind_run by reflexivity. rewrite din_addr_blk, Hn by lia. by rewrite xint_small by lia.
  - destruct (g_rep img F G1 g G2 Hi) as [R1 R2 R3 _]. assert (Hz : g_ind g ≠ 0) by (apply R2; lia).
    pose proof (g_ind_range img F G1 g G2 Hi Hz). change 12 with NDIRECT. rewrite din_addr_ind.
    rewrite xint_small by lia. rewrite (proj2 (Z.eqb_neq _ 0)) by done.
    erewrite bind_run by reflexivity. rewrite din_addr_ind, xint_small by lia. mrun (rsect_run (g_ind g) img F fi ltac:(lia)).
    assert (Hg : get_u32 (4 * Z.to_nat (off / 512 - NDIRECT)) (img (g_ind g)) = x).
    { rewrite <- Hn, <- R3 by (done || lia). do 2 f_equal. unfold NDIRECT. lia. }
    rewrite Hg, (proj2 (Z.eqb_neq x 0)) by lia. erewrite bind_run by reflexivity.
    by rewrite Hg, xint_small by lia.
Qed.

Lemma block_direct off sz : length (g_bs g) = Z.to_nat (off / 512) → off mod 512 = 0 →
  0 ≤ off / 512 < 12 → F < 1024 → block_post off sz (iappend_block (off / 512) (gdin g sz) (mks img F fi)).
Proof.
  intros Hl Hm Hr HF. pose proof (mi_F _ _ _ Hi) as HFr.
  destruct (push_direct img F G1 g G2 Hi ltac:(lia) HF) as [Hi' Hz].
  exists img, (g_bs g ++ [F]), 0, F. unfold need. rewrite Hm, (proj2 (Z.eqb_neq _ 12)) by lia. cbn [Z.eqb].
  split_and!; [|done| |rewrite length_app; cbn; lia|lia|lia|done].
  2: { rewrite <- Hl. by apply list_lookup_middle. }
  unfold iappend_block, NDIRECT. rewrite (proj2 (Z.ltb_lt _ _)) by lia.
  rewrite din_addr_blk, nth_overflow by lia. change (xint 0 =? 0) with true. cbn iota.
  rewrite bind_assoc. mrun (take_block_run img F fi ltac:(lia)). erewrite bind_run by reflexivity.
  assert (Ed : set_din_addr (off / 512) (xint F) (gdin g sz) = gdin (with_bs g (g_bs g ++ [F]) 0) sz).
  { rewrite xint_small by lia. unfold set_din_addr, gdin, set_di_addrs. cbn. f_equal.
    rewrite <- Hl, Hz. by apply gaddrs_push; lia. }
  rewrite Ed, din_addr_blk by lia. cbn [with_bs g_bs]. rewrite <- Hl, nth_snoc, decide_True, xint_small by (done || lia). done.
Qed.

(** The tail of the indirect path, with an indirect block [ia] that has no
    entry for the block yet. *)
Lemma block_entry din ia img0 F0 fbn : 12 ≤ fbn < 140 → din_addr din NDIRECT = ia →
  29 ≤ ia < 1024 → 0 ≤ F0 < 1024 → length (img0 ia) = 512%nat →
  get_u32 (4 * Z.to_nat (fbn - NDIRECT)) (img0 ia) = 0 →
  (indirect ← rsect (xint (din_addr din NDIRECT));
   let o := (4 * Z.to_nat (fbn - NDIRECT))%nat in
   indirect ← (if get_u32 o indirect =? 0 then
                 b ← take_block;
                 let indirect := put_u32 o (xint b) indirect in
                 wsect (xint (din_addr din NDIRECT)) indirect;;
                 mret indirect
               else mret indirect);
   mret (din, xint (get_u32 o indirect))) (mks img0 F0 fi) =
  Ok (din, F0) (mks (upd_sec img0 ia (put_u32 (4 * Z.to_nat (fbn - NDIRECT)) F0 (img0 ia))) (F0 + 1) fi).
Proof.
  intros Hf Hia Hr HF Hlen Hz. rewrite Hia, xint_small by lia. mrun (rsect_run ia img0 F0 fi ltac:(lia)).
  cbv zeta. rewrite Hz. cbn [Z.eqb]. rewrite !bind_assoc. mrun (take_block_run img0 F0 fi ltac:(lia)).
  cbv zeta. rewrite !bind_assoc. rewrite (xint_small F0) by lia. mrun (wsect_run ia (put_u32 (4 * Z.to_nat (fbn - NDIRECT)) F0 (img0 ia)) img0 (F0 + 1) fi ltac:(lia)).
  erewrite bind_run by reflexivity. unfold NDIRECT in *. rewrite get_put_u32 by lia.
  by rewrite u32_small, xint_small by lia.
Qed.

Lemma block_indirect off sz : length (g_bs g) = Z.to_nat (off / 512) → off mod 512 = 0 →
  off / 512 = 12 → F + 1 < 1024 → block_post off sz (iappend_block (off / 512) (gdin g sz) (mks img F fi)).
Proof.
  intros Hl Hm Hr HF. pose proof (mi_F _ _ _ Hi) as HFr. rewrite Hr in Hl.
  destruct (push_indirect img F G1 g G2 Hi Hl HF) as [Hi' Hz].
  eexists _, (g_bs g ++ [F + 1]), F, (F + 1). unfold need. rewrite Hm, Hr. cbn [Z.eqb].
  split_and!; [|exact Hi'| |rewrite length_app; cbn; lia|lia|lia|intros; apply upd_sec_ne; lia].
  2: { replace (Z.to_nat 12) with (length (g_bs g)) by lia. by apply list_lookup_middle. }
  unfold iappend_block. change (12 <? NDIRECT) with false. cbn iota. rewrite din_addr_ind, Hz.
  change (xint 0 =? 0) with true. cbn iota. rewrite bind_assoc. mrun (take_block_run img F fi ltac:(lia)).
  erewrite bind_run by reflexivity.
  assert (Ed : set_din_addr NDIRECT (xint F) (gdin g sz) = gdin (with_bs g (g_bs g ++ [F + 1]) F) sz).
  { rewrite xint_small by lia. unfold set_din_addr, gdin, set_di_addrs. cbn -[gaddrs]. f_equal.
    rewrite gaddrs_more by lia. by rewrite Hz. }
  rewrite Ed. rewrite (block_entry _ F); [|lia|done|lia|lia|apply Hi|].
  - change (4 * Z.to_nat (12 - NDIRECT))%nat with 0%nat. by rewrite <- Z.add_assoc.
  - rewrite (mi_zero _ _ _ Hi) by lia. apply get_zero.
Qed.

Lemma block_more off sz : length (g_bs g) = Z.to_nat (off / 512) → off mod 512 = 0 →
  12 < off / 512 < 140 → F < 1024 → block_post off sz (iappend_block (off / 512) (gdin g sz) (mks img F fi)).
Proof.
  intros Hl Hm Hr HF. pose proof (mi_F _ _ _ Hi) as HFr.
  destruct (push_entry img F G1 g G2 Hi ltac:(lia) HF) as [Hi' Hz].
  pose proof (g_ind_range img F G1 g G2 Hi Hz) as Hir.
  eexists _, (g_bs g ++ [F]), (g_ind g), F. unfold need. rewrite Hm, (proj2 (Z.eqb_neq _ 12)) by lia. cbn [Z.eqb].
  split_and!; [|exact Hi'| |rewrite length_app; cbn; lia|lia|lia|intros; apply upd_sec_ne; lia].
  2: { rewrite <- Hl. by apply list_lookup_middle. }
  unfold iappend_block. unfold NDIRECT at 1. rewrite (proj2 (Z.ltb_ge _ _)) by lia. rewrite din_addr_ind.
  rewrite xint_small by lia. rewrite (proj2 (Z.eqb_neq (g_ind g) 0)) by done. erewrite bind_run by reflexivity.
  rewrite (block_entry _ (g_ind g)); [|lia|done|lia|lia|apply Hi|].
  - assert (Ed : gdin g sz = gdin (with_bs g (g_bs g ++ [F]) (g_ind g)) sz).
    { unfold gdin. cbn -[gaddrs]. by rewrite gaddrs_more by lia. }
    rewrite <- Ed. unfold NDIRECT. replace (Z.to_nat (off / 512 - 12)) with (length (g_bs g) - 12)%nat by lia. done.
  - destruct (g_rep img F G1 g G2 Hi) as [_ _ R3 _]. unfold NDIRECT.
    replace (Z.to_nat (off / 512 - 12)) with (Z.to_nat (off / 512) - 12)%nat by lia.
    rewrite R3 by (done || lia). apply nth_overflow. lia.
Qed.

Lemma block_ok sz : let off := Z.of_nat (length (g_c g)) in tight g → off < 71680 → F + need off ≤ 1024 →
  block_post off sz (iappend_block (off / 512) (gdin g sz) (mks img F fi)).
Proof.
  intros off Ht Ho HF. unfold tight in Ht. fold off in Ht. unfold need in HF.
  assert (Hr : 0 ≤ off / 512 < 140) by (Z.div_mod_to_equations; lia).
  destruct (Z.eqb_spec (off mod 512) 0) as [Hm|Hm].
  - assert (Hl : length (g_bs g) = Z.to_nat (off / 512)) by (Z.div_mod_to_equations; lia).
    destruct (Z.eqb_spec (off / 512) 12); [by apply block_indirect; (done || lia)|].
    destruct (decide (off / 512 < 12)); [by apply block_direct; (done || lia)|by apply block_more; (done || lia)].
  - apply block_old; [|done|done]. Z.div_mod_to_equations. lia.
Qed.
End Append.

(** ** Writing the bytes *)

Definition with_c g (c : list Z) : gfile := Gfile (g_ty g) (g_bs g) (g_ind g) c.

Lemma splice_zeros (a data : list Z) k : (length data ≤ k)%nat →
  splice (length a) data (a ++ replicate k 0) = a ++ data ++ replicate (k - length data) 0.
Proof.
  intros Hk. unfold splice. rewrite take_app_length. rewrite drop_app_ge by lia.
  replace (length a + length data - length a)%nat with (length data) by lia.
  by rewrite drop_replicate.
Qed.

Lemma write_ok img F G1 g G2 x bs0 r data : minv img F (G1 ++ g :: G2) →
  g_bs g = bs0 ++ [x] → (512 * length bs0 + r = length (g_c g))%nat → (r + length data ≤ 512)%nat →
  minv (upd_sec img x (splice r data (img x))) F (G1 ++ with_c g (g_c g ++ data) :: G2).
Proof.
  intros Hi Hbs Hr Hd. destruct (g_rep img F G1 g G2 Hi) as [R1 R2 R3 [k R4]].
  assert (Hnd := own_nodup img F G1 g G2 Hi). unfold own in Hnd. rewrite Hbs in Hnd.
  apply NoDup_app in Hnd as (Hnd&Hdis&_). apply NoDup_app in Hnd as (_&Hx0&_).
  assert (Hx : x ∉ bs0) by (intros Hx; by apply (Hx0 x Hx); set_solver).
  rewrite Hbs, concat_snoc in R4. assert (L0 := length_blocks _ _ _ bs0 Hi). assert (Lx := mi_len _ _ _ Hi x).
  assert (Ex : img x = drop (512 * length bs0) (g_c g) ++ replicate k 0).
  { rewrite <- L0, <- drop_app_le, <- R4 by lia. by rewrite drop_app_length. }
  assert (E0 : concat (img <$> bs0) = take (512 * length bs0) (g_c g)).
  { rewrite <- L0. rewrite <- (take_app_le (g_c g) (replicate k 0)), <- R4 by lia. by rewrite take_app_length. }
  assert (Lk : (r + k = 512)%nat) by (rewrite Ex, length_app, length_drop, length_replicate in Lx; lia).
  eapply minv_change; [exact Hi| | | |pose proof (mi_F _ _ _ Hi); lia| |].
  - intros y Hy _. apply upd_sec_ne. intros ->. apply Hy. unfold own. rewrite Hbs. set_solver.
  - split; cbn [with_c g_bs g_ind g_c]; [done|done| |].
    + intros Hn n Hnr. rewrite upd_sec_ne; [by apply R3|]. intros Hix. apply (Hdis x); [set_solver|].
      rewrite (proj2 (Z.eqb_neq (g_ind g) 0)) by done. set_solver.
    + exists (k - length data)%nat. rewrite Hbs, concat_snoc, upd_sec_blocks, upd_sec_eq, E0, Ex by done.
      replace r with (length (drop (512 * length bs0) (g_c g))) by (rewrite length_drop; lia).
      rewrite splice_zeros by lia. rewrite <- app_assoc, (app_assoc (take _ _)), take_drop. done.
  - replace (F - F) with 0 by lia. cbn. by rewrite app_nil_r.
  - eapply upd_sec_len; [exact Hi|]. rewrite length_splice; lia.
  - intros y Hy. rewrite upd_sec_ne; [by apply (mi_zero _ _ _ Hi)|].
    pose proof (g_own img F G1 g G2 Hi x ltac:(unfold own; rewrite Hbs; set_solver)). lia.
Qed.

(** ** One call of [iappend] *)

(** The blocks of a file of [m] bytes, its indirect block included. *)
Definition blocks_for (m : Z) : Z :=
  let nb := (m + 511) / 512 in if 12 <? nb then nb + 1 else nb.

Lemma need_blocks off n : 0 ≤ off → 0 < n → off mod 512 + n ≤ 512 →
  blocks_for (off + n) = blocks_for off + need off.
Proof.
  intros Ho Hn Hm. unfold blocks_for, need.
  assert (E1 : (off + n + 511) / 512 = off / 512 + 1) by (Z.div_mod_to_equations; lia). rewrite E1.
  destruct (Z.eqb_spec (off mod 512) 0) as [H0|H0].
  - assert (E2 : (off + 511) / 512 = off / 512) by (Z.div_mod_to_equations; lia). rewrite E2.
    repeat (bdestr; try lia).
  - assert (E2 : (off + 511) / 512 = off / 512 + 1) by (Z.div_mod_to_equations; lia). rewrite E2. lia.
Qed.
Lemma blocks_for_mono a b : a ≤ b → blocks_for a ≤ blocks_for b.
Proof.
  intros H. unfold blocks_for. pose proof (Z.div_le_mono (a + 511) (b + 511) 512).
  repeat (bdestr; try lia).
Qed.

Lemma step_ok img F G1 g G2 fi sz p : minv img F (G1 ++ g :: G2) → tight g → p ≠ [] →
  let off := Z.of_nat (length (g_c g)) in let n := Z.of_nat (length p) in
  off + n ≤ 71680 → F + blocks_for (off + n) - blocks_for off ≤ 1024 →
  ∃ img' g' m, (0 < m ≤ length p)%nat ∧ g_c g' = g_c g ++ take m p ∧ g_ty g' = g_ty g ∧ tight g' ∧
    let off' := off + Z.of_nat m in let F' := F + blocks_for off' - blocks_for off in
    iappend_step (gdin g sz, off, p, n) (mks img F fi) =
      Ok (inl (gdin g' sz, off', drop m p, n - Z.of_nat m)) (mks img' F' fi) ∧
    minv img' F' (G1 ++ g' :: G2) ∧ ∀ y, y < 29 → img' y = img y.
Proof.
  intros Hi Ht Hp off n Hoff HF. destruct p as [|p0 p']; [done|]. set (p := p0 :: p') in *.
  assert (Hn : 0 < n) by (unfold n, p; cbn; lia).
  pose proof (Z.mod_pos_bound off 512 ltac:(lia)) as Hmod. assert (Ho : 0 ≤ off) by (unfold off; lia).
  set (n1 := Z.min n (512 - off mod 512)). assert (Hn1 : 0 < n1 ≤ n ∧ off mod 512 + n1 ≤ 512) by lia.
  assert (Hneed := need_blocks off n1 Ho ltac:(lia) ltac:(lia)).
  pose proof (blocks_for_mono (off + n1) (off + n) ltac:(lia)).
  destruct (block_ok img F G1 g G2 fi Hi sz) as (img1&bs&ind&x&E&Hi1&Hx&Hl&Hxr&Hlow); [done|lia|fold off; lia|].
  fold off in E, Hi1, Hx, Hl. set (q := Z.to_nat (off / 512)) in *.
  assert (Hq : (512 * q + Z.to_nat (off mod 512) = length (g_c g))%nat) by (unfold q, off; Z.div_mod_to_equations; lia).
  assert (Hbs : bs = take q bs ++ [x]).
  { rewrite <- (take_drop q bs) at 1. f_equal. erewrite drop_S by exact Hx. rewrite drop_ge by lia. done. }
  assert (Hw := write_ok img1 _ G1 _ G2 x (take q bs) (Z.to_nat (off mod 512)) (take (Z.to_nat n1) p) Hi1 Hbs).
  cbn [with_bs g_c] in Hw. rewrite length_take, length_take in Hw.
  eexists (upd_sec img1 x _), (with_c (with_bs g bs ind) (g_c g ++ take (Z.to_nat n1) p)), (Z.to_nat n1).
  cbv zeta. rewrite !Z2Nat.id by lia. rewrite Hneed. replace (F + (blocks_for off + need off) - blocks_for off) with (F + need off) by lia.
  split_and!; [lia|lia|done|done| | |apply Hw; lia|].
  - unfold tight. cbn [with_c with_bs g_bs g_c]. rewrite Hl, length_app, length_take. fold n.
    replace (Z.of_nat (length (g_c g) + Z.to_nat n1 `min` length p)) with (off + n1) by (unfold off, n in *; lia).
    unfold q. Z.div_mod_to_equations. lia.
  - unfold iappend_step. rewrite (proj2 (Z.ltb_lt _ _)) by lia. cbv zeta.
    rewrite (proj2 (Z.ltb_lt _ _)) by (change MAXFILE with 140; Z.div_mod_to_equations; lia).
    erewrite bind_run by reflexivity. mrun E. rewrite (u32_small ((off / 512 + 1) * 512 - off)) by (Z.div_mod_to_equations; lia).
    replace (Z.min n ((off / 512 + 1) * 512 - off)) with n1 by (unfold n1; Z.div_mod_to_equations; lia).
    mrun (rsect_run x img1 (F + need off) fi ltac:(lia)).
    replace (off - off / 512 * 512) with (off mod 512) by (Z.div_mod_to_equations; lia).
    mrun (wsect_run x (splice (Z.to_nat (off mod 512)) (take (Z.to_nat n1) p) (img1 x)) img1 (F + need off) fi ltac:(lia)).
    by rewrite u32_small by lia.
  - intros y Hy. rewrite upd_sec_ne by lia. by apply Hlow.
Qed.

(** ** The inode table *)

(** Inode [i + 1] on the disk is the [i]th file. *)
Definition table img G : Prop := ∀ i g, G !! i = Some g →
  dinode_get (Z.of_nat i + 1) (img (i2b (Z.of_nat i + 1))) = gdin g (Z.of_nat (length (g_c g))).

Lemma i2b_div inum : i2b inum = inum / 8 + 2.
Proof. done. Qed.

Lemma winode_run inum d img F fi : 0 ≤ inum < 200 → dinode_ok d → (∀ x, length (img x) = 512%nat) →
  ∃ img', winode inum d (mks img F fi) = Ok tt (mks img' F fi) ∧ (∀ x, length (img' x) = 512%nat) ∧
  (∀ x, x < 2 ∨ 27 ≤ x → img' x = img x) ∧ dinode_get inum (img' (i2b inum)) = d ∧
  ∀ j, 0 ≤ j → j ≠ inum → dinode_get j (img' (i2b j)) = dinode_get j (img (i2b j)).
Proof.
  intros Hn Hd Hlen. assert (Hb : 2 ≤ i2b inum < 27) by (rewrite i2b_div; Z.div_mod_to_equations; lia).
  exists (upd_sec img (i2b inum) (dinode_put inum d (img (i2b inum)))). split_and!.
  - unfold winode. mrun (rsect_run (i2b inum) img F fi ltac:(lia)). apply wsect_run. lia.
  - intros x. unfold upd_sec. destruct (x =? i2b inum); [by apply length_dinode_put|done].
  - intros x Hx. apply upd_sec_ne. lia.
  - rewrite upd_sec_eq. by apply dinode_put_same.
  - intros j Hj Hne. destruct (decide (i2b j = i2b inum)) as [E|E]; [|by rewrite upd_sec_ne].
    rewrite E, upd_sec_eq. apply dinode_put_other; [done|done|]. change IPB with 8. rewrite !i2b_div in E.
    Z.div_mod_to_equations. lia.
Qed.

Lemma minv_low img img' F G : minv img F G → (∀ x, length (img' x) = 512%nat) →
  (∀ x, 29 ≤ x → img' x = img x) → minv img' F G.
Proof.
  intros Hi Hlen Hx. pose proof Hi as [H1 H2 H3 H4 H5]. split; try done.
  - rewrite Forall_forall in *. intros g Hg. eapply rep_ext; [|by apply H4].
    intros x Hox. apply Hx. pose proof (own_range _ _ _ x Hi ltac:(by eapply elem_owned)). lia.
  - intros x Hxr. rewrite Hx by lia. by apply H5.
Qed.

Definition ty_ok g : Prop := -32768 ≤ g_ty g < 32768.

Lemma gdin_ok img F G1 g G2 sz : minv img F (G1 ++ g :: G2) → ty_ok g → 0 ≤ sz < 4294967296 → dinode_ok (gdin g sz).
Proof.
  intros Hi Ht Hsz. pose proof (mi_F _ _ _ Hi) as HF. split; cbn -[gaddrs]; try done; try lia. split; [done|].
  assert (Hown : ∀ x, x = 0 ∨ x ∈ own g → 0 ≤ x < 4294967296).
  { intros x [->|Hx]; [lia|]. pose proof (g_own img F G1 g G2 Hi x Hx). lia. }
  apply Forall_app. split.
  - apply Forall_forall. intros x Hx. apply list_elem_of_fmap in Hx as (n&->&_). apply Hown.
    rewrite nth_lookup. destruct (g_bs g !! n) as [y|] eqn:E; [|by left]. right. unfold own. cbn.
    apply list_elem_of_lookup_2 in E. set_solver.
  - constructor; [|done]. apply Hown. unfold own. destruct (Z.eqb_spec (g_ind g) 0); [by left|right; set_solver].
Qed.

(** ** [iappend] *)

Lemma loop_ok G1 G2 fi sz p : ∀ img F g fuel, minv img F (G1 ++ g :: G2) → tight g →
  let off := Z.of_nat (length (g_c g)) in let n := Z.of_nat (length p) in
  off + n ≤ 71680 → F + blocks_for (off + n) - blocks_for off ≤ 1024 → (length p < fuel)%nat →
  ∃ img' g', g_c g' = g_c g ++ p ∧ g_ty g' = g_ty g ∧ tight g' ∧
    let F' := F + blocks_for (off + n) - blocks_for off in
    loop fuel iappend_step (gdin g sz, off, p, n) (mks img F fi) =
      Ok (gdin g' sz, off + n) (mks img' F' fi) ∧
    minv img' F' (G1 ++ g' :: G2) ∧ ∀ y, y < 29 → img' y = img y.
Proof.
  induction p as [p IH] using (induction_ltof1 _ length). unfold ltof in IH.
  intros img F g fuel Hi Ht off n Hoff HF Hfuel. destruct fuel as [|fuel]; [lia|].
  destruct (decide (p = [])) as [->|Hp].
  - exists img, g. cbv zeta. unfold n. cbn [length Z.of_nat]. rewrite !Z.add_0_r, app_nil_r.
    replace (F + blocks_for off - blocks_for off) with F by lia. split_and!; [done..| |done|done].
    by apply loop_done.
  - destruct (step_ok img F G1 g G2 fi sz p Hi Ht Hp Hoff HF) as (img1&g1&m&Hm&Hc&Hty&Ht1&E&Hi1&Hlow).
    fold off n in E, Hi1. assert (Hl : length (drop m p) = (length p - m)%nat) by apply length_drop.
    assert (Hlc : Z.of_nat (length (g_c g1)) = off + Z.of_nat m)
      by (rewrite Hc, length_app, length_take; unfold off; lia).
    destruct (IH (drop m p) ltac:(lia) img1 _ g1 fuel Hi1 Ht1) as (img2&g2&Hc2&Hty2&Ht2&E2&Hi2&Hlow2);
      rewrite ?Hlc, ?Hl; try (unfold off, n in *; lia).
    { replace (off + Z.of_nat m + Z.of_nat (length p - m)) with (off + n) by (unfold n; lia). lia. }
    rewrite Hlc, Hl in *. replace (off + Z.of_nat m + Z.of_nat (length p - m)) with (off + n) in * by (unfold n; lia).
    set (o1 := off + Z.of_nat m) in *.
    replace (F + blocks_for o1 - blocks_for off + blocks_for (off + n) - blocks_for o1)
      with (F + blocks_for (off + n) - blocks_for off) in * by lia.
    exists img2, g2. cbv zeta. split_and!; [|congruence|done| |done|].
    + rewrite Hc2, Hc, <- app_assoc. by rewrite take_drop.
    + rewrite (loop_next _ _ _ _ _ _ E). rewrite <- E2. unfold n. by replace (Z.of_nat (length p) - Z.of_nat m)
        with (Z.of_nat (length p - m)) by lia.
    + intros y Hy. by rewrite Hlow2, Hlow.
Qed.

Lemma table_low img img' G : (∀ y, y < 29 → img' y = img y) → (length G ≤ 199)%nat → table img G → table img' G.
Proof.
  intros He Hl Ht i g Hg. rewrite He; [by apply Ht|]. apply lookup_lt_Some in Hg. rewrite i2b_div.
  Z.div_mod_to_equations. lia.
Qed.

Lemma iappend_ok img F G1 g G2 fi p : minv img F (G1 ++ g :: G2) → table img (G1 ++ g :: G2) →
  (length (G1 ++ g :: G2) ≤ 199)%nat → tight g → ty_ok g →
  let off := Z.of_nat (length (g_c g)) in let n := Z.of_nat (length p) in
  let F' := F + blocks_for (off + n) - blocks_for off in
  off + n ≤ 71680 → F' ≤ 1024 →
  ∃ img' g', iappend (Z.of_nat (length G1) + 1) p n (mks img F fi) = Ok tt (mks img' F' fi) ∧
    g_c g' = g_c g ++ p ∧ g_ty g' = g_ty g ∧ tight g' ∧
    minv img' F' (G1 ++ g' :: G2) ∧ table img' (G1 ++ g' :: G2) ∧ img' 1 = img 1.
Proof.
  intros Hi Htab Hlen Ht Hty off n F' Hoff HF.
  rewrite length_app in Hlen. cbn [length] in Hlen. set (inum := Z.of_nat (length G1) + 1).
  destruct (loop_ok G1 G2 fi off p img F g (S (Z.to_nat n)) Hi Ht Hoff HF) as (img1&g1&Hc&Hty1&Ht1&E&Hi1&Hlow);
    [unfold n; lia|]. fold off n F' in E, Hi1.
  assert (Hlc : Z.of_nat (length (g_c g1)) = off + n) by (rewrite Hc, length_app; unfold off, n; lia).
  destruct (winode_run inum (gdin g1 (off + n)) img1 F' fi) as (img2&E2&Hl2&Hf2&Hg2&Ho2).
  { unfold inum. lia. }
  { eapply gdin_ok; [exact Hi1|unfold ty_ok in *; congruence|unfold off, n in *; lia]. }
  { apply Hi1. }
  assert (Hd : dinode_get inum (img (i2b inum)) = gdin g off) by (apply Htab, list_lookup_middle; done).
  exists img2, g1. split_and!; [|done|done|done| | |].
  - unfold iappend, rinode. rewrite bind_assoc. mrun (rsect_run (i2b inum) img F fi
      ltac:(rewrite i2b_div; unfold inum; Z.div_mod_to_equations; lia)).
    erewrite bind_run by reflexivity. rewrite Hd. cbn [gdin di_size]. fold (gdin g off).
    rewrite (xint_small off) by (unfold off in *; lia). mrun E. rewrite xint_small by (unfold off, n in *; lia). exact E2.
  - eapply minv_low; [exact Hi1|done|]. intros x Hx. apply Hf2. lia.
  - intros i h Hh. destruct (decide (i = length G1)) as [->|Hne].
    + rewrite list_lookup_middle in Hh by done. injection Hh as <-. fold inum. by rewrite Hg2, Hlc.
    + rewrite Ho2 by (unfold inum; lia).
      assert (Hh' : (G1 ++ g :: G2) !! i = Some h).
      { destruct (decide (i < length G1)%nat); [by rewrite lookup_app_l in * by lia|].
        rewrite lookup_app_r in * by lia. by destruct (i - length G1)%nat eqn:Ei; [lia|]. }
      rewrite Hlow; [by apply Htab|]. apply lookup_lt_Some in Hh'. rewrite length_app in Hh'. cbn [length] in Hh'.
      rewrite i2b_div. Z.div_mod_to_equations. lia.
  - rewrite Hf2, Hlow; [done|lia|lia].
Qed.
