(* ===== verification/MkfsImage.v ===== *)
(** The whole run of mkfs.c: for every list of files that fits, the image
    holds them, and the kernel's view of it is a sound file system. *)
From S2P Require Import Prelude Kmonad Wp Kstate Disk Log Blocks Balloc Inode Dinode FileData Str Dir Mkfs MkfsLaws.

(** ** The run up to the last file *)

(** Type and contents of files, and the blocks they need. *)
Notation content := (Z * list Z)%type.
Implicit Types (W : list content).
Definition total W : Z := foldr (λ f n, blocks_for (Z.of_nat (length f.2)) + n) 0 W.
Definition view (G : list gfile) : list content := (λ g, (g_ty g, g_c g)) <$> G.

Lemma total_app W1 W2 : total (W1 ++ W2) = total W1 + total W2.
Proof. induction W1 as [|f W1 IH]; cbn; [done|]. unfold total in *. rewrite IH. lia. Qed.
Lemma total_cons f W : total (f :: W) = blocks_for (Z.of_nat (length f.2)) + total W.
Proof. done. Qed.
Lemma blocks_for_nonneg m : 0 ≤ m → 0 ≤ blocks_for m.
Proof. intros Hm. apply (blocks_for_mono 0 m Hm). Qed.
Lemma total_nonneg W : 0 ≤ total W.
Proof.
  induction W as [|f W IH]; [done|]. rewrite total_cons.
  pose proof (blocks_for_nonneg (Z.of_nat (length f.2))). lia.
Qed.

(** The inodes 1, 2, ... hold [W], in exactly the blocks they need. *)
Record built_as (s : mk) (G : list gfile) : Prop := {
  bt_state : s = mks (mk_img s) (29 + total (view G)) (1 + Z.of_nat (length G));
  bt_inv : minv (mk_img s) (29 + total (view G)) G;
  bt_table : table (mk_img s) G;
  bt_tight : Forall tight G;
  bt_ty : Forall ty_ok G;
  bt_len : (length G ≤ 199)%nat;
  bt_sb : mk_img s 1 = superblock_sector
}.
Definition built (s : mk) W : Prop := ∃ G, view G = W ∧ built_as s G.

Lemma view_split G W1 f W2 : view G = W1 ++ f :: W2 →
  ∃ G1 g G2, G = G1 ++ g :: G2 ∧ view G1 = W1 ∧ (g_ty g, g_c g) = f ∧ view G2 = W2 ∧ length G1 = length W1.
Proof.
  intros HG. apply fmap_app_inv in HG as (G1&G2'&H1&H2&->). symmetry in H2.
  destruct G2' as [|g G2]; [done|]. injection H2 as Hg H2. exists G1, g, G2.
  split_and!; try done. rewrite H1. unfold view. by rewrite length_fmap.
Qed.

Lemma iappend_built s W1 ty c W2 p : built s (W1 ++ (ty, c) :: W2) →
  Z.of_nat (length c) + Z.of_nat (length p) ≤ 71680 →
  29 + total (W1 ++ (ty, c ++ p) :: W2) ≤ 1024 →
  ∃ s', iappend (Z.of_nat (length W1) + 1) p (Z.of_nat (length p)) s = Ok tt s' ∧
    built s' (W1 ++ (ty, c ++ p) :: W2).
Proof.
  intros (G&HW&[B1 B2 B3 B4 B5 B6 B7]) Hsz Hroom.
  destruct (view_split _ _ _ _ HW) as (G1&g&G2&->&<-&[= <- <-]&<-&HL).
  rewrite HW, total_app, total_cons in *. cbn [snd] in *. rewrite length_app, Nat2Z.inj_add in Hroom.
  pose proof B4 as B4'. pose proof B5 as B5'. rewrite Forall_app, Forall_cons in B4', B5'.
  destruct B4' as (T1&T2&T3), B5' as (Y1&Y2&Y3).
  destruct (iappend_ok (mk_img s) _ G1 g G2 (1 + Z.of_nat (length (G1 ++ g :: G2))) p B2 B3 B6 T2 Y2 Hsz)
    as (img'&g'&E&Hc&Hty&Ht&Hi&Htab&H1); [lia|].
  rewrite <- B1, HL in E. eexists. split; [exact E|]. exists (G1 ++ g' :: G2).
  assert (Hv : view (G1 ++ g' :: G2) = view G1 ++ (g_ty g, g_c g ++ p) :: view G2)
    by (unfold view; rewrite fmap_app, fmap_cons, Hc, Hty; done).
  split; [done|].
  assert (HF : 29 + total (view (G1 ++ g' :: G2)) = 29 + (total (view G1) + (blocks_for (Z.of_nat (length (g_c g))) + total (view G2))) +
    blocks_for (Z.of_nat (length (g_c g)) + Z.of_nat (length p)) - blocks_for (Z.of_nat (length (g_c g)))).
  { rewrite Hv, total_app, total_cons. cbn [snd]. rewrite length_app, Nat2Z.inj_add. lia. }
  split; rewrite ?HF; cbn [mks mk_img]; [|done|done| | | |congruence].
  - rewrite !length_app. done.
  - rewrite Forall_app, Forall_cons. done.
  - rewrite Forall_app, Forall_cons. split_and!; [done| |done]. unfold ty_ok in *. congruence.
  - rewrite length_app in *. done.
Qed.

Lemma ialloc_built s W ty : built s W → (length W < 199)%nat → 0 ≤ ty < 32768 →
  ∃ s', Mkfs.ialloc ty s = Ok (Z.of_nat (length W) + 1) s' ∧ built s' (W ++ [(ty, [])]).
Proof.
  intros (G&<-&[B1 B2 B3 B4 B5 B6 B7]) Hl Hty. unfold view in Hl. rewrite length_fmap in Hl.
  set (img := mk_img s) in *. clearbody img. subst s. set (g := Gfile ty [] 0 []). set (F := 29 + total (view G)) in *.
  assert (HF : 29 + total (view (G ++ [g])) = F).
  { unfold view. rewrite fmap_app, total_app. fold (view G). unfold F.
    replace (total ((λ g, (g_ty g, g_c g)) <$> [g])) with 0 by reflexivity. lia. }
  destruct (winode_run (Z.of_nat (length G) + 1) (gdin g 0) img F (Z.of_nat (length G) + 2))
    as (img'&E&Hlen&Hf&Hg&Ho); [lia|split; cbn; try lia; split; [done|repeat constructor; lia]|apply B2|].
  assert (Hi : minv img F (G ++ [g])).
  { pose proof B2 as [H1 H2 H3 H4 H5]. split; try done; [by rewrite owned_app, app_nil_r|].
    apply Forall_app. split; [done|]. constructor; [|done]. split; cbn; [lia|lia|done|by exists 0%nat]. }
  exists (mks img' F (Z.of_nat (length G) + 2)). split.
  - unfold Mkfs.ialloc. erewrite bind_run by reflexivity. cbn [mks mk_freeinode].
    rewrite u32_small by lia. erewrite bind_run by reflexivity. rewrite !xshort_small, xint_small, !i16_small by lia.
    unfold view. rewrite length_fmap. replace (1 + Z.of_nat (length G) + 1) with (Z.of_nat (length G) + 2) by lia.
    rewrite (Z.add_comm 1). by mrun E.
  - exists (G ++ [g]). split; [unfold view; by rewrite fmap_app|].
    split; rewrite ?HF; cbn [mks mk_img].
    + rewrite length_app. cbn [length]. unfold mks. f_equal. lia.
    + eapply minv_low; [exact Hi|done|]. intros x Hx. apply Hf. lia.
    + intros i h Hh. apply lookup_app_Some in Hh as [Hh|[Hle Hh]].
      * assert (Hlt := lookup_lt_Some _ _ _ Hh). rewrite Ho by lia. by apply B3.
      * destruct (i - length G)%nat eqn:Ei; [|done]. injection Hh as <-.
        replace i with (length G) by lia. by rewrite Hg.
    + apply Forall_app. split; [done|]. by constructor.
    + apply Forall_app. split; [done|]. constructor; [|done]. unfold ty_ok. cbn. lia.
    + rewrite length_app. cbn. lia.
    + rewrite Hf; [done|lia].
Qed.

(** ** The files of the command line *)

(** The directory entry of an argument, and those of a list. *)
Definition entry (arg : list Z) (inum : Z) : list Z := new_dirent (base_name arg) inum (replicate 16 0).
Fixpoint entries (inum : Z) (args : list (list Z)) : list Z :=
  match args with
  | [] => []
  | a :: args => entry a inum ++ entries (inum + 1) args
  end.

Lemma length_entry a inum : length (entry a inum) = 16%nat.
Proof. by apply length_new_dirent. Qed.
Lemma length_entries inum args : length (entries inum args) = (16 * length args)%nat.
Proof.
  revert inum. induction args as [|a args IH]; intros inum; cbn [entries length]; [done|].
  rewrite length_app, length_entry, IH. lia.
Qed.

Section Files.
Variable open : list Z → option (list (list Z)).

Definition file_of (arg : list Z) : list Z := match open arg with Some reads => concat reads | None => [] end.

(** A name without a slash, of a file that can be read and that fits. *)
Definition arg_ok (arg : list Z) : Prop :=
  existsb (Z.eqb SLASH) arg = false ∧ is_Some (open arg) ∧ Z.of_nat (length (file_of arg)) ≤ 71680.

Lemma reads_built reads : ∀ s W1 ty c W2, built s (W1 ++ (ty, c) :: W2) →
  Z.of_nat (length c) + Z.of_nat (length (concat reads)) ≤ 71680 →
  29 + total (W1 ++ (ty, c ++ concat reads) :: W2) ≤ 1024 →
  ∃ s', for_each reads (λ buf, iappend (Z.of_nat (length W1) + 1) buf (Z.of_nat (length buf))) s = Ok tt s' ∧
    built s' (W1 ++ (ty, c ++ concat reads) :: W2).
Proof.
  induction reads as [|b reads IH]; intros s W1 ty c W2 Hb Hsz Hroom; cbn [concat for_each] in *.
  - exists s. by rewrite app_nil_r.
  - rewrite length_app in Hsz. rewrite app_assoc in Hroom |- *.
    destruct (iappend_built s W1 ty c W2 b Hb) as (s1&E&Hb1); [lia| |].
    { rewrite total_app, total_cons in *. cbn [snd] in *. rewrite !length_app in *.
      pose proof (blocks_for_mono (Z.of_nat (length c + length b)) (Z.of_nat (length c + length b + length (concat reads)))). lia. }
    destruct (IH s1 W1 ty (c ++ b) W2 Hb1) as (s2&E2&Hb2); [rewrite length_app; lia|done|].
    exists s2. split; [|done]. by mrun E.
Qed.

Lemma add_file_built s rc W arg : built s ((T_DIR, rc) :: W) → arg_ok arg →
  let inum := Z.of_nat (length W) + 2 in
  let W' := (T_DIR, rc ++ entry arg inum) :: W ++ [(T_FILE, file_of arg)] in
  (length W < 198)%nat → Z.of_nat (length rc) ≤ 71664 → 29 + total W' ≤ 1024 →
  ∃ s', add_file open 1 arg s = Ok tt s' ∧ built s' W'.
Proof.
  intros Hb (Hs&[reads Ho]&Hsz) inum W' Hl Hrc Hroom. unfold file_of in *. unfold W', inum in *. rewrite Ho in *.
  rewrite total_cons, total_app, total_cons in Hroom. cbn [snd] in Hroom. rewrite length_app, length_entry in Hroom.
  destruct (ialloc_built s _ T_FILE Hb) as (s1&E1&Hb1); [cbn; lia|unfold T_FILE; lia|].
  replace (Z.of_nat (length ((T_DIR, rc) :: W)) + 1) with (Z.of_nat (length W) + 2) in E1 by (cbn; lia).
  pose proof (total_nonneg W). pose proof (blocks_for_nonneg (Z.of_nat (length (concat reads))) ltac:(lia)) as Hbf.
  destruct (iappend_built s1 [] T_DIR rc (W ++ [(T_FILE, [])]) (entry arg (Z.of_nat (length W) + 2))) as (s2&E2&Hb2);
    [done|rewrite length_entry; lia| |].
  { cbn [app]. rewrite total_cons, total_app. cbn [snd]. rewrite length_app, length_entry.
    change (total [(T_FILE, [])]) with 0. cbn in Hroom |- *. lia. }
  rewrite length_entry in E2. cbn [app length] in E2, Hb2.
  set (r := (T_DIR, rc ++ entry arg (Z.of_nat (length W) + 2)) : content) in *.
  destruct (reads_built reads s2 (r :: W) T_FILE [] []) as (s3&E3&Hb3); [exact Hb2|cbn; lia| |].
  { cbn [app]. rewrite total_cons, total_app, total_cons. unfold r. cbn [snd]. rewrite length_app, length_entry. done. }
  exists s3. split; [|exact Hb3]. unfold add_file. rewrite Hs. erewrite bind_run by reflexivity. rewrite Ho.
  mrun E1. rewrite xshort_small by lia. change 16 with (Z.of_nat 16). change (Z.of_nat 0 + 1) with 1 in E2. mrun E2.
  replace (Z.of_nat (length (r :: W)) + 1) with (Z.of_nat (length W) + 2) in E3 by (cbn; lia). exact E3.
Qed.

Lemma files_built args : ∀ s rc W, built s ((T_DIR, rc) :: W) → Forall arg_ok args →
  let W' := (T_DIR, rc ++ entries (Z.of_nat (length W) + 2) args) :: W ++ ((λ a, (T_FILE, file_of a)) <$> args) in
  (length W + length args ≤ 198)%nat → Z.of_nat (length rc + 16 * length args) ≤ 71680 → 29 + total W' ≤ 1024 →
  ∃ s', for_each args (add_file open 1) s = Ok tt s' ∧ built s' W'.
Proof.
  induction args as [|a args IH]; intros s rc W Hb Hargs W' Hl Hrc Hroom.
  - exists s. split; [done|]. unfold W'. cbn. by rewrite !app_nil_r.
  - inversion_clear Hargs as [|? ? Ha Hrest]. cbn [length] in *.
    set (W1 := W ++ [(T_FILE, file_of a)]). set (rc1 := rc ++ entry a (Z.of_nat (length W) + 2)).
    assert (HW' : W' = (T_DIR, rc1 ++ entries (Z.of_nat (length W1) + 2) args) :: W1 ++ ((λ a, (T_FILE, file_of a)) <$> args)).
    { unfold W', W1, rc1. cbn [entries]. rewrite length_app, <- !app_assoc. cbn [length app].
      replace (Z.of_nat (length W + 1) + 2) with (Z.of_nat (length W) + 2 + 1) by lia. done. }
    assert (Lr : length rc1 = (length rc + 16)%nat) by (unfold rc1; rewrite length_app, length_entry; lia).
    assert (LW : length W1 = S (length W)) by (unfold W1; rewrite length_app; cbn; lia).
    destruct (add_file_built s rc W a Hb Ha) as (s1&E&Hb1); [lia|lia| |].
    { fold W1 rc1. rewrite HW' in Hroom. rewrite total_cons, total_app in *. cbn [snd] in *. rewrite length_app in Hroom.
      pose proof (blocks_for_mono (Z.of_nat (length rc1)) (Z.of_nat (length rc1 + length (entries (Z.of_nat (length W1) + 2) args)))).
      pose proof (total_nonneg ((λ a, (T_FILE, file_of a)) <$> args)). lia. }
    fold W1 rc1 in Hb1. rewrite HW' in *. destruct (IH s1 rc1 W1 Hb1 Hrest) as (s2&E2&Hb2); [lia|lia|done|].
    exists s2. split; [|done]. cbn [for_each]. by mrun E.
Qed.
End Files.

(** ** From the empty image to the root directory *)

Definition zeros : list Z := replicate 512 0.

Lemma clear_run n : ∀ s, (∀ x, mk_img s x = zeros) → 0 ≤ mk_len s →
  ∃ img, for_each (seqZ (mk_len s) (Z.of_nat n)) (λ i, wsect i zeros) s =
    Ok tt (Mk img (mk_len s + Z.of_nat n) (mk_freeblock s) (mk_usedblocks s) (mk_freeinode s)) ∧
    ∀ x, img x = zeros.
Proof.
  induction n as [|n IH]; intros s Hz Hl.
  - exists (mk_img s). cbn. rewrite Z.add_0_r. by destruct s.
  - rewrite seqZ_cons by lia. replace (Z.pred (Z.of_nat (S n))) with (Z.of_nat n) by lia. cbn [for_each].
    erewrite bind_run by reflexivity. cbv beta. set (s1 := set_img _ _ s).
    assert (Hl1 : mk_len s1 = Z.succ (mk_len s)) by (cbn; lia).
    destruct (IH s1) as (img&E&Hi); [|lia|].
    { intros x. cbn. destruct (x =? mk_len s); [done|apply Hz]. }
    rewrite Hl1 in E. exists img. rewrite E. split; [|done]. do 2 f_equal. lia.
Qed.

Lemma built_empty img : (∀ x, img x = zeros) → built (mks (upd_sec img 1 superblock_sector) 29 1) [].
Proof.
  intros Hz. exists []. split; [done|].
  assert (Hlen : ∀ x, length (upd_sec img 1 superblock_sector x) = 512%nat)
    by (intros x; unfold upd_sec; destruct (x =? 1); [vm_compute; reflexivity|by rewrite Hz]).
  split; cbn [mks mk_img view fmap list_fmap total foldr length]; try done.
  - split; [done|done|lia|done|]. intros x Hx. rewrite upd_sec_ne by lia. apply Hz.
  - cbn. lia.
Qed.

(** The entries "." and "..". *)
Definition dots : list Z := dot_dirent [46] 1 ++ dot_dirent [46; 46] 1.

Definition files_of (open : list Z → option (list (list Z))) (args : list (list Z)) : list content :=
  (T_DIR, dots ++ entries 2 args) :: ((λ a, (T_FILE, file_of open a)) <$> args).

(** The tool up to the last file leads to an image with the root directory
    and the files; what is left is to round the size of the directory and to
    write the bitmap. *)
Definition mkfs_end : M mk unit :=
  din ← rinode 1;
  let off := xint (di_size din) in
  let off := u32 ((off / BSIZE + 1) * BSIZE) in
  winode 1 (set_di_size (xint off) din);;
  used ← gets mk_usedblocks;
  Mkfs.balloc (i32 used).

Lemma mkfs_files open args : Forall (arg_ok open) args → (length args ≤ 198)%nat →
  29 + total (files_of open args) ≤ 1024 →
  ∃ s, built s (files_of open args) ∧ mkfs open args mk_empty = mkfs_end s.
Proof.
  intros Hargs Hn Hroom. unfold files_of in *.
  destruct (clear_run (Z.to_nat 1024) (set_used 29 29 mk_empty)) as (img&E0&Hz); [done|done|].
  assert (Hb0 := built_empty img Hz). destruct (ialloc_built _ [] T_DIR Hb0) as (s1&E1&Hb1); [cbn; lia|unfold T_DIR; lia|].
  assert (Hd : length (dot_dirent [46] 1) = 16%nat ∧ length (dot_dirent [46; 46] 1) = 16%nat) by done.
  assert (Hsm : ∀ l, (length l ≤ 32)%nat → 29 + total [(T_DIR, l)] ≤ 1024).
  { intros l Hl. rewrite total_cons. cbn [snd]. pose proof (blocks_for_mono (Z.of_nat (length l)) 32 ltac:(lia)).
    change (blocks_for 32) with 1 in *. change (total []) with 0. lia. }
  destruct (iappend_built s1 [] T_DIR [] [] (dot_dirent [46] 1)) as (s2&E2&Hb2); [done|done|apply Hsm; cbn; lia|].
  destruct (iappend_built s2 [] T_DIR (dot_dirent [46] 1) [] (dot_dirent [46; 46] 1)) as (s3&E3&Hb3);
    [done|done|apply Hsm; cbn; lia|].
  destruct (files_built open args s3 dots [] Hb3 Hargs) as (s4&E4&Hb4); [cbn; lia|change (length dots) with 32%nat; lia|done|].
  exists s4. split; [exact Hb4|]. unfold mkfs, assert_.
  erewrite bind_run by reflexivity. erewrite bind_run by reflexivity. cbv zeta.
  erewrite bind_run by reflexivity. erewrite bind_run by reflexivity.
  change (nblocks + (ninodes / IPB + 3 + (size / (512 * 8) + 1)) + nlog) with (Z.of_nat (Z.to_nat 1024)).
  change (ninodes / IPB + 3 + (size / (512 * 8) + 1)) with 29.
  mrun E0. erewrite bind_run by (apply (wsect_run 1 superblock_sector img 29 1); lia). mrun E1.
  erewrite bind_run by reflexivity. mrun E2. mrun E3. mrun E4. done.
Qed.

(** ** The bitmap *)

Lemma bits_upto n : Z.of_nat n ≤ 4096 → length (balloc_bits (Z.of_nat n)) = 512%nat ∧
  ∀ b, 0 ≤ b < 4096 → bit (balloc_bits (Z.of_nat n)) b = (b <? Z.of_nat n).
Proof.
  induction n as [|n IH]; intros Hn.
  - split; [done|]. intros b Hb. change (balloc_bits (Z.of_nat 0)) with zeros. unfold bit, byte_at.
    rewrite nth_lookup. assert (E : zeros !! Z.to_nat (b / 8) = Some 0)
      by (apply lookup_replicate_2; Z.div_mod_to_equations; lia).
    rewrite E. cbn [default from_option]. rewrite Z.testbit_0_l. bdestr; [lia|done].
  - destruct IH as [Hl Hb]; [lia|]. unfold balloc_bits in *. rewrite seqZ_S, fold_left_app. cbn [fold_left].
    set (d := fold_left _ _ _) in *. split; [by rewrite length_set_byte|]. intros b Hr. rewrite Z.add_0_l.
    rewrite bit_set by (done || change BPB with 4096; lia). rewrite Hb by done. bdestr; cbn; lia.
Qed.

(** ** The image seen by the kernel *)

Definition disk_inode (dev : Z) (img : Z → list Z) (inum : Z) : inode :=
  Inode dev inum 1 0 (dinode_get inum (img (IBLOCK inum))).
Definition mk_sb : superblock := Superblock 1024 985 200 10.

(** The image at the end: files, the rounded size of the root directory, and
    the bitmap. *)
Record finished (s : mk) (root : gfile) (G : list gfile) : Prop := {
  fn_used : mk_usedblocks s = 29 + total (view (root :: G));
  fn_inv : minv (mk_img s) (29 + total (view (root :: G))) (root :: G);
  fn_tight : Forall tight (root :: G);
  fn_root : dinode_get 1 (mk_img s (IBLOCK 1)) =
    gdin root ((Z.of_nat (length (g_c root)) / 512 + 1) * 512);
  fn_file : ∀ j g, G !! j = Some g → dinode_get (Z.of_nat j + 2) (mk_img s (IBLOCK (Z.of_nat j + 2))) =
    gdin g (Z.of_nat (length (g_c g)));
  fn_bits : ∀ b, 0 ≤ b < 1024 → bit (mk_img s 28) b = (b <? mk_usedblocks s);
  fn_sb : mk_img s 1 = superblock_sector
}.

Lemma mkfs_end_run s root G : built_as s (root :: G) → Z.of_nat (length (g_c root)) ≤ 71680 →
  ∃ s', mkfs_end s = Ok tt s' ∧ finished s' root G.
Proof.
  intros [B1 B2 B3 B4 B5 B6 B7] Hsz. set (img := mk_img s) in *. clearbody img. subst s.
  set (F := 29 + total (view (root :: G))) in *. set (fi := 1 + _).
  pose proof (mi_F _ _ _ B2) as HF. set (off := (Z.of_nat (length (g_c root)) / 512 + 1) * 512).
  assert (Hoff : 0 ≤ off ≤ 72192) by (unfold off; Z.div_mod_to_equations; lia).
  assert (Hroot := B3 0%nat root eq_refl). change (Z.of_nat 0 + 1) with 1 in Hroot.
  destruct (winode_run 1 (gdin root off) img F fi) as (img1&E&Hl&Hf&Hg&Ho);
    [lia|eapply (gdin_ok img F [] root G); [done|by inversion B5|lia]|apply B2|].
  destruct (bits_upto (Z.to_nat F)) as [Hbl Hb]; [lia|]. rewrite Z2Nat.id in Hb, Hbl by lia.
  exists (mks (upd_sec img1 28 (balloc_bits F)) F fi). split.
  - unfold mkfs_end, rinode. rewrite bind_assoc. mrun (rsect_run (i2b 1) img F fi ltac:(vm_compute; reflexivity)).
    erewrite bind_run by reflexivity. rewrite Hroot. cbn [gdin di_size]. rewrite (xint_small (Z.of_nat _)) by lia.
    change BSIZE with 512. fold off. rewrite u32_small, xint_small by lia. mrun E. erewrite bind_run by reflexivity.
    cbn [mks mk_usedblocks]. rewrite i32_small by lia. unfold Mkfs.balloc, assert_.
    rewrite (proj2 (Z.ltb_lt _ _)) by lia. erewrite bind_run by reflexivity.
    change (ninodes / IPB + 3) with 28. apply wsect_run. lia.
  - split; cbn [mks mk_img mk_usedblocks]; fold F; try done.
    + eapply (minv_low img); [done|by eapply upd_sec_len; [eapply (minv_low img)|]; [done|done|intros; apply Hf; lia|]|].
      intros x Hx. rewrite upd_sec_ne by lia. apply Hf. lia.
    + intros j g Hj. assert (Hlt := lookup_lt_Some _ _ _ Hj). cbn [length] in B6.
      change (IBLOCK (Z.of_nat j + 2)) with (i2b (Z.of_nat j + 2)).
      rewrite upd_sec_ne by (rewrite i2b_div; Z.div_mod_to_equations; lia). rewrite Ho by lia.
      replace (Z.of_nat j + 2) with (Z.of_nat (S j) + 1) by lia. by apply B3.
    + intros b Hr. rewrite upd_sec_eq. apply Hb. lia.
    + rewrite upd_sec_ne, Hf by lia. done.
Qed.

Lemma nth_zeros n j : nth j (replicate n 0) 0 = 0.
Proof. revert j. induction n as [|n IH]; intros [|j]; cbn; auto. Qed.

Lemma concat_nth (img : Z → list Z) (Hlen : ∀ x, length (img x) = 512%nat) bs : ∀ k, (k < 512 * length bs)%nat →
  nth k (concat (img <$> bs)) 0 = nth (k mod 512) (img (nth (k / 512) bs 0)) 0.
Proof.
  induction bs as [|x bs IH]; intros k Hk; cbn [length fmap list_fmap concat] in *; [lia|].
  destruct (decide (k < 512)%nat).
  - rewrite app_nth1, Nat.mod_small, Nat.div_small by (rewrite ?Hlen; lia). done.
  - rewrite app_nth2 by (rewrite Hlen; lia). rewrite Hlen, IH by lia.
    replace k with ((k - 512) + 1 * 512)%nat at 3 4 by lia.
    rewrite Nat.Div0.mod_add, Nat.div_add, Nat.add_1_r by lia. done.
Qed.

Lemma blk_own g n : nth n (g_bs g) 0 ≠ 0 → g_bs g !! n = Some (nth n (g_bs g) 0) ∧ nth n (g_bs g) 0 ∈ own g.
Proof.
  intros Hz. rewrite nth_lookup in *. destruct (g_bs g !! n) as [x|] eqn:E; [|done]. split; [done|].
  unfold own. cbn. apply list_elem_of_lookup_2 in E. set_solver.
Qed.

(** What the kernel reads from the image: the image itself, or the image with
    other bits of the bitmap set.  [P] are the blocks that are not the log's. *)
Section Kernel.
Variables (s : mk) (root : gfile) (G : list gfile) (P : Z → Z → Prop) (dev : Z) (V : Z → Z → list Z).
Hypotheses (Hfin : finished s root G) (Hroom : total (view (root :: G)) ≤ nblocks).
Hypotheses (HP : ∀ b, 0 ≤ b < 1014 → P dev b) (HV : ∀ b, b ≠ 28 → V dev b = mk_img s b).
Hypothesis HU : ∀ b, 0 ≤ b < mk_usedblocks s → in_use V dev mk_sb b = true.

Section File.
Variables (g : gfile) (ip : inode) (sz : Z).
Hypotheses (Hg : g ∈ root :: G) (Hdev : i_dev ip = dev) (Hd : i_d ip = gdin g sz).

Lemma file_rep : rep (mk_img s) g.
Proof using Hfin Hg. pose proof (mi_rep _ _ _ (fn_inv _ _ _ Hfin)) as H. rewrite Forall_forall in H. by apply H. Qed.

Lemma own_block x : x ∈ own g → 29 ≤ x < mk_usedblocks s ∧ mk_usedblocks s ≤ 1014.
Proof using Hfin Hroom Hg.
  clear HP HU HV P V Hdev Hd.
  intros Hx. assert (Hr := own_range _ _ _ x (fn_inv _ _ _ Hfin) ltac:(by eapply elem_owned)).
  rewrite (fn_used _ _ _ Hfin). unfold nblocks in Hroom. lia.
Qed.

Lemma kernel_addr n : addr_at ip n = nth (Z.to_nat n) (gaddrs (g_bs g) (g_ind g)) 0.
Proof. unfold addr_at, i_addrs. by rewrite Hd. Qed.
Lemma kernel_ind : addr_at ip NDIRECT = g_ind g.
Proof. by rewrite kernel_addr. Qed.

Lemma kernel_fblock n : 0 ≤ n < 140 → fblock dev V ip n = nth (Z.to_nat n) (g_bs g) 0.
Proof using Hfin Hroom HV Hg Hd.
  clear HP HU P Hdev.
  intros Hn. destruct file_rep as [R1 R2 R3 _]. unfold fblock. rewrite kernel_ind. unfold NDIRECT in *.
  destruct (Z.ltb_spec n 12); [rewrite kernel_addr; apply gaddrs_blk; lia|].
  destruct (Z.eqb_spec (g_ind g) 0) as [Hz|Hz].
  - rewrite nth_overflow; [done|]. destruct (decide (12 < length (g_bs g))%nat) as [H12|]; [|lia].
    by apply R2 in H12.
  - rewrite HV by (intros E; assert (g_ind g ∈ own g) as Ho
      by (unfold own; rewrite (proj2 (Z.eqb_neq _ 0)) by done; set_solver);
      apply own_block in Ho; lia).
    rewrite <- R3 by (done || lia). do 2 f_equal. lia.
Qed.

Lemma own_good x : x ∈ own g → good P dev mk_sb V x.
Proof using Hfin Hroom HP HU Hg.
  clear HV Hd Hdev.
  intros Hx. apply own_block in Hx. split_and!; [apply HP; lia| |cbn; lia|apply HU; lia].
  change (bend mk_sb) with 28. lia.
Qed.

Lemma file_nodup : NoDup (own g).
Proof using Hfin Hg.
  apply list_elem_of_split in Hg as (G1&G2&HG). pose proof (fn_inv _ _ _ Hfin) as Hi. rewrite HG in Hi at 2.
  by eapply own_nodup.
Qed.

Lemma kernel_file_ok : file_ok P dev mk_sb V ip.
Proof.
  pose proof file_nodup as Hnd. unfold own in Hnd. apply NoDup_app in Hnd as (Hnd&Hdis&_).
  change MAXFILE with 140. split; try done.
  - unfold i_addrs. by rewrite Hd.
  - change MAXFILE with 140. intros n Hn. rewrite kernel_fblock by done. intros Hz. by apply own_good, blk_own.
  - rewrite kernel_ind. intros Hz. apply own_good. unfold own. rewrite (proj2 (Z.eqb_neq _ 0)) by done. set_solver.
  - change MAXFILE with 140. intros n m Hn Hm. rewrite !kernel_fblock by done. intros Hz Heq.
    destruct (blk_own _ _ Hz) as [H1 _]. rewrite Heq in Hz. destruct (blk_own _ _ Hz) as [H2 _]. rewrite Heq in H1.
    pose proof (NoDup_lookup _ _ _ _ Hnd H1 H2). lia.
  - change MAXFILE with 140. intros n Hn. rewrite kernel_fblock, kernel_ind by done. intros Hz Heq.
    destruct (blk_own _ _ Hz) as [H1 _]. apply (Hdis _ (list_elem_of_lookup_2 _ _ _ H1)). rewrite Heq in *.
    rewrite (proj2 (Z.eqb_neq _ 0)) by done. set_solver.
Qed.

Lemma kernel_byte k : 0 ≤ k < 512 * Z.of_nat (length (g_bs g)) → file_byte dev V ip k = nth (Z.to_nat k) (g_c g) 0.
Proof using Hfin Hroom HV Hg Hd.
  clear HP HU P Hdev.
  intros Hk. destruct file_rep as [R1 _ _ [z R4]]. unfold file_byte. change BSIZE with 512.
  rewrite kernel_fblock by (Z.div_mod_to_equations; lia).
  destruct (lookup_lt_is_Some_2 (g_bs g) (Z.to_nat (k / 512))) as [x Hx]; [Z.div_mod_to_equations; lia|].
  rewrite HV by (rewrite nth_lookup, Hx; cbn; apply list_elem_of_lookup_2 in Hx;
    assert (x ∈ own g) as Ho by (unfold own; set_solver); apply own_block in Ho; lia).
  assert (E : nth (Z.to_nat k) (concat (mk_img s <$> g_bs g)) 0 = nth (Z.to_nat k) (g_c g) 0).
  { rewrite R4. destruct (decide (Z.to_nat k < length (g_c g))%nat); [by apply app_nth1|].
    rewrite app_nth2, (nth_overflow (g_c g)) by lia. apply nth_zeros. }
  rewrite <- E, concat_nth by (apply (fn_inv _ _ _ Hfin) || lia).
  rewrite Z2Nat.inj_mod, Z2Nat.inj_div by lia. done.
Qed.

Lemma kernel_bytes n : 0 ≤ n ≤ 512 * Z.of_nat (length (g_bs g)) → Z.of_nat (length (g_c g)) ≤ n →
  file_bytes dev V ip 0 n = g_c g ++ replicate (Z.to_nat n - length (g_c g)) 0.
Proof using Hfin Hroom HV Hg Hd.
  clear HP HU P Hdev.
  intros Hn Hc. apply (nth_ext _ _ 0 0); rewrite length_file_bytes.
  { rewrite length_app, length_replicate. lia. }
  intros j Hj. unfold file_bytes. rewrite nth_lookup, list_lookup_fmap, lookup_seq_lt by done.
  cbn [fmap option_fmap option_map default from_option]. rewrite Z.add_0_l, Nat.add_0_l, kernel_byte, Nat2Z.id by lia. destruct (decide (j < length (g_c g))%nat); [by rewrite app_nth1|].
  rewrite app_nth2, nth_overflow by lia. symmetry. apply nth_zeros.
Qed.

Lemma kernel_mapped : 0 ≤ sz ≤ 512 * Z.of_nat (length (g_bs g)) → mapped dev V ip.
Proof using Hfin Hroom HV Hg Hd.
  clear HP HU P Hdev.
  intros Hsz. destruct file_rep as [R1 _ _ _]. assert (Hs : i_size ip = sz) by (unfold i_size; by rewrite Hd).
  split; rewrite Hs; change (MAXFILE * BSIZE) with 71680; [lia|]. intros k Hk. change BSIZE with 512.
  rewrite kernel_fblock by (Z.div_mod_to_equations; lia).
  destruct (lookup_lt_is_Some_2 (g_bs g) (Z.to_nat (k / 512))) as [x Hx]; [Z.div_mod_to_equations; lia|].
  rewrite nth_lookup, Hx. cbn. assert (x ∈ own g) by (unfold own; apply list_elem_of_lookup_2 in Hx; set_solver).
  assert (x ∈ own g) as Ho by done. apply own_block in Ho. lia.
Qed.
End File.

(** The inodes, and that no two of them share a block. *)
Lemma kernel_root : i_d (disk_inode dev (mk_img s) 1) = gdin root ((Z.of_nat (length (g_c root)) / 512 + 1) * 512).
Proof using Hfin. clear HP HU HV P V Hroom. apply Hfin. Qed.
Lemma kernel_inode j g : G !! j = Some g →
  i_d (disk_inode dev (mk_img s) (Z.of_nat j + 2)) = gdin g (Z.of_nat (length (g_c g))).
Proof using Hfin. clear HP HU HV P V Hroom. apply Hfin. Qed.

Lemma kernel_file j g : G !! j = Some g →
  let ip := disk_inode dev (mk_img s) (Z.of_nat j + 2) in
  file_ok P dev mk_sb V ip ∧ mapped dev V ip ∧ i_type ip = g_ty g ∧ i_nlink ip = 1 ∧
  file_bytes dev V ip 0 (i_size ip) = g_c g.
Proof using Hfin Hroom HP HV HU.
  intros Hg ip. assert (Hin : g ∈ root :: G) by (apply elem_of_cons; right; by eapply list_elem_of_lookup_2).
  assert (Hd : i_d ip = gdin g (Z.of_nat (length (g_c g)))) by (eapply kernel_inode; done).
  pose proof (fn_tight _ _ _ Hfin) as Ht. rewrite Forall_forall in Ht. specialize (Ht g Hin). unfold tight in Ht.
  assert (Hsz : i_size ip = Z.of_nat (length (g_c g))) by (unfold i_size; by rewrite Hd).
  assert (Hle : 0 ≤ Z.of_nat (length (g_c g)) ≤ 512 * Z.of_nat (length (g_bs g)))
    by (rewrite Ht; Z.div_mod_to_equations; lia).
  split_and!; [eapply kernel_file_ok; done|by eapply kernel_mapped|unfold i_type; by rewrite Hd|unfold i_nlink; by rewrite Hd|].
  rewrite Hsz. rewrite (kernel_bytes g ip _ Hin Hd) by lia.
  rewrite Nat2Z.id, Nat.sub_diag. cbn. by rewrite app_nil_r.
Qed.

Lemma kernel_table i : (i ≤ length G)%nat → ∃ g sz, (root :: G) !! i = Some g ∧
  i_d (disk_inode dev (mk_img s) (Z.of_nat i + 1)) = gdin g sz.
Proof using Hfin.
  clear HP HU HV P V Hroom.
  intros Hi. destruct i as [|i]; [exists root; eexists; split; [done|apply kernel_root]|].
  destruct (lookup_lt_is_Some_2 G i) as [g Hg]; [lia|]. exists g. eexists. split; [done|].
  replace (Z.of_nat (S i) + 1) with (Z.of_nat i + 2) by lia. by apply kernel_inode.
Qed.

Lemma own_disjoint i j g h x : (root :: G) !! i = Some g → (root :: G) !! j = Some h → i ≠ j →
  x ∈ own g → x ∈ own h → False.
Proof using Hfin.
  clear HP HU HV P V Hroom.
  intros Hi Hj Hne Hx Hy. assert (Hnd := owned_nodup _ _ _ (fn_inv _ _ _ Hfin)).
  rewrite <- (take_drop_middle _ _ _ Hi), owned_app, owned_cons in Hnd.
  apply NoDup_app in Hnd as (_&Hd1&Hnd). apply NoDup_app in Hnd as (_&Hd2&_).
  destruct (decide (j < i)%nat).
  - apply (Hd1 x); [eapply elem_owned; [|exact Hy]|set_solver].
    apply (list_elem_of_lookup_2 _ j). by rewrite lookup_take_lt.
  - apply (Hd2 x); [done|]. eapply elem_owned; [|exact Hy].
    apply (list_elem_of_lookup_2 _ (j - S i)). rewrite lookup_drop. by replace (S i + (j - S i))%nat with j by lia.
Qed.

Lemma kernel_unshared i j n m : (i ≤ length G)%nat → (j ≤ length G)%nat → i ≠ j → 0 ≤ n < MAXFILE → 0 ≤ m < MAXFILE →
  fblock dev V (disk_inode dev (mk_img s) (Z.of_nat i + 1)) n ≠ 0 →
  fblock dev V (disk_inode dev (mk_img s) (Z.of_nat i + 1)) n ≠ fblock dev V (disk_inode dev (mk_img s) (Z.of_nat j + 1)) m.
Proof using Hfin Hroom HV.
  clear HP HU P.
  change MAXFILE with 140. intros Hi Hj Hne Hn Hm. destruct (kernel_table i Hi) as (g&sz&Hg&Hd), (kernel_table j Hj) as (h&sz'&Hh&Hd').
  rewrite (kernel_fblock g _ sz) by (done || by eapply list_elem_of_lookup_2).
  rewrite (kernel_fblock h _ sz') by (done || by eapply list_elem_of_lookup_2).
  intros Hz Heq. destruct (blk_own _ _ Hz) as [_ H1]. rewrite Heq in H1, Hz. destruct (blk_own _ _ Hz) as [_ H2].
  exact (own_disjoint i j g h _ Hg Hh Hne H1 H2).
Qed.
End Kernel.

(** ** The root directory *)

Lemma entries_nth args : ∀ i j a t, args !! j = Some a → (t < 16)%nat →
  nth (16 * j + t) (entries i args) 0 = nth t (entry a (i + Z.of_nat j)) 0.
Proof.
  induction args as [|b args IH]; intros i j a t Hj Ht; [done|]. cbn [entries]. destruct j as [|j].
  - injection Hj as ->. rewrite app_nth1 by (rewrite length_entry; lia). by rewrite Z.add_0_r.
  - rewrite app_nth2 by (rewrite length_entry; lia). rewrite length_entry.
    replace (16 * S j + t - 16)%nat with (16 * j + t)%nat by lia. rewrite (IH _ _ a) by done.
    do 2 f_equal. lia.
Qed.

Lemma entries_bytes args : ∀ i, Forall is_bytes args → is_bytes (entries i args).
Proof.
  induction args as [|a args IH]; intros i Ha; [constructor|]. inversion_clear Ha. cbn [entries].
  apply Forall_app. split; [|by apply IH]. apply new_dirent_bytes; [done|]. unfold base_name.
  destruct a as [|c rest]; [constructor|]. destruct (c =? 95); [by inversion H|done].
Qed.

Lemma nth_bytes l j : is_bytes l → is_byte (nth j l 0).
Proof.
  intros Hl. rewrite nth_lookup. destruct (l !! j) as [x|] eqn:E; [by eapply Forall_lookup_1|].
  cbn. unfold is_byte. lia.
Qed.

Section Root.
Variables (s : mk) (root : gfile) (G : list gfile) (P : Z → Z → Prop) (dev : Z) (V : Z → Z → list Z).
Variable args : list (list Z).
Hypotheses (Hfin : finished s root G) (Hroom : total (view (root :: G)) ≤ nblocks).
Hypotheses (HP : ∀ b, 0 ≤ b < 1014 → P dev b) (HV : ∀ b, b ≠ 28 → V dev b = mk_img s b).
Hypothesis HU : ∀ b, 0 ≤ b < mk_usedblocks s → in_use V dev mk_sb b = true.
Hypotheses (Hty : g_ty root = T_DIR) (Hc : g_c root = dots ++ entries 2 args).
Hypotheses (Hargs : Forall is_bytes args) (Hn : (length args ≤ 198)%nat).
Let ip := disk_inode dev (mk_img s) 1.
Let n := Z.of_nat (length args) + 2.

Lemma root_in : root ∈ root :: G.
Proof. apply elem_of_cons. by left. Qed.

Lemma root_len : length (g_c root) = (16 * (length args + 2))%nat.
Proof using Hc.
  clear Hn Hfin Hroom HP HV HU. rewrite Hc, length_app, length_entries. change (length dots) with 32%nat. lia.
Qed.

(** The blocks of the directory hold its entries; its size is one more block
    when they are full. *)
Lemma root_size : i_size ip = 512 * (n / 32 + 1) ∧ i_type ip = T_DIR ∧
  Z.of_nat (length (g_bs root)) = (n + 31) / 32.
Proof using Hc Hty Hfin.
  clear Hn HP HV HU Hroom P V.
  assert (Hd := kernel_root s root G dev Hfin). fold ip in Hd. unfold i_size, i_type. rewrite Hd. cbn [gdin di_size di_type].
  pose proof (fn_tight _ _ _ Hfin) as Ht. rewrite Forall_cons in Ht. destruct Ht as [Ht _]. unfold tight in Ht.
  rewrite root_len in *. unfold n. split_and!; [|done|rewrite Ht]; Z.div_mod_to_equations; lia.
Qed.

Lemma root_byte k : 0 ≤ k < 512 * ((n + 31) / 32) → file_byte dev V ip k = nth (Z.to_nat k) (g_c root) 0.
Proof using Hc Hty Hfin HV Hroom.
  clear Hn HP HU P.
  intros Hk. destruct root_size as (_&_&Hs). eapply kernel_byte; [exact Hfin|exact Hroom|exact HV|apply root_in|apply (kernel_root s root G dev Hfin)|].
  lia.
Qed.

Lemma root_file : file_ok P dev mk_sb V ip.
Proof using Hfin Hroom HP HV HU.
  exact (kernel_file_ok s root G P dev V Hfin Hroom HP HV HU root ip _ root_in eq_refl (kernel_root s root G dev Hfin)).
Qed.

Lemma root_mapped : mapped dev V ip ↔ n mod 32 ≠ 0.
Proof using Hc Hty Hfin HV Hroom Hn.
  destruct root_size as (Hs&_&Hb). assert (Hd := kernel_root s root G dev Hfin). fold ip in Hd. split.
  - intros [_ Hm] Hz. rewrite Hs in Hm. apply (Hm (512 * (n / 32))); [unfold n in *; Z.div_mod_to_equations; lia|].
    change BSIZE with 512. rewrite Z.mul_comm, Z.div_mul by lia.
    rewrite (kernel_fblock s root G dev V Hfin Hroom HV root ip _ root_in Hd) by (unfold n; Z.div_mod_to_equations; lia).
    apply nth_overflow. unfold n in *. Z.div_mod_to_equations. lia.
  - intros Hz. eapply kernel_mapped; [exact Hfin|exact Hroom|exact HV|apply root_in|exact Hd|].
    assert (Hsz : i_size ip = (Z.of_nat (length (g_c root)) / 512 + 1) * 512) by (unfold i_size; by rewrite Hd).
    rewrite <- Hsz, Hs, Hb. unfold n in *. Z.div_mod_to_equations. lia.
Qed.

Lemma root_dir_ok : n mod 32 ≠ 0 → fs_geom P V dev mk_sb → dir_ok P dev mk_sb V ip.
Proof using All.
  intros Hfull Hgeom. destruct root_size as (Hs&Ht&Hb).
  split; [done|apply root_file|by apply root_mapped|exact Ht| |].
  - rewrite Hs. unfold DESIZE. replace (512 * (n / 32 + 1)) with (32 * (n / 32 + 1) * 16) by lia. apply Z.mod_mul. lia.
  - intros k Hk. unfold DESIZE in *. apply Forall_forall. intros x Hx. apply list_elem_of_fmap in Hx as (t&->&Ht').
    apply elem_of_seq in Ht'. rewrite root_byte.
    + apply nth_bytes. rewrite Hc. apply Forall_app. split; [|by apply entries_bytes].
      apply check_bytes. vm_compute. reflexivity.
    + unfold DESIZE in *. assert (Hdm : 16 * (i_size ip / 16) ≤ i_size ip) by (apply Z.mul_div_le; lia).
      change (Z.to_nat 16) with 16%nat in Ht'. rewrite Hs in *. unfold n in *. clear - Hk Ht' Hdm Hfull. Z.div_mod_to_equations. lia.
Qed.

Lemma root_named j a : args !! j = Some a → named dev V ip (base_name a) (Z.of_nat j + 2) ∧
  dirent_at dev V ip (Z.of_nat j + 2) = entry a (Z.of_nat j + 2) ∧ 0 ≤ Z.of_nat j + 2 < i_size ip / DESIZE.
Proof using Hc Hty Hfin HV Hroom Hn.
  intros Hj. destruct root_size as (Hs'&Ht&_). assert (Hlt := lookup_lt_Some _ _ _ Hj).
  assert (Hk : 16 * (Z.of_nat j + 2) + 16 ≤ 512 * ((n + 31) / 32)) by (unfold n; Z.div_mod_to_equations; lia).
  assert (E : dirent_at dev V ip (Z.of_nat j + 2) = entry a (Z.of_nat j + 2)).
  { apply (nth_ext _ _ 0 0); unfold dirent_at, DESIZE; rewrite length_file_bytes; [by rewrite length_entry|].
    intros t Htt. change (Z.to_nat 16) with 16%nat in Htt. unfold file_bytes.
    rewrite nth_lookup, list_lookup_fmap, lookup_seq_lt by done. cbn [fmap option_fmap option_map default from_option].
    rewrite root_byte, Hc by lia.
    replace (Z.to_nat (16 * (Z.of_nat j + 2) + Z.of_nat (0 + t))) with (length dots + (16 * j + t))%nat
      by (change (length dots) with 32%nat; lia).
    rewrite app_nth2 by lia. replace (length dots + (16 * j + t) - length dots)%nat with (16 * j + t)%nat by lia.
    rewrite (entries_nth args 2 j a t Hj Htt). by rewrite Z.add_comm. }
  split; [|split; [done|rewrite Hs'; unfold DESIZE, n in *; Z.div_mod_to_equations; lia]].
  unfold named. rewrite E. split.
  - unfold entry. rewrite new_dirent_inum by done. unfold u16. rewrite Z.mod_small by lia. lia.
  - by apply new_dirent_name.
Qed.
End Root.

(** ** The bitmap and the log *)

(** The bits of some blocks set, one at a time, the way [balloc] sets one. *)
Definition mark (d : list Z) (bs : list Z) : list Z :=
  foldr (λ b d, set_byte d (b / 8) (Z.lor (byte_at d (b / 8)) (bit_mask b))) d bs.

Lemma mark_len d bs : length (mark d bs) = length d.
Proof. induction bs as [|b bs IH]; [done|]. cbn. by rewrite length_set_byte. Qed.
Lemma mark_bit d bs x : length d = 512%nat → Forall (λ b, 0 ≤ b < BPB) bs → 0 ≤ x < BPB →
  bit (mark d bs) x = bit d x || bool_decide (x ∈ bs).
Proof.
  intros Hd Hbs Hx. induction bs as [|b bs IH]; cbn [mark foldr]; [by rewrite orb_false_r|].
  inversion_clear Hbs. fold (mark d bs). rewrite bit_set by (rewrite ?mark_len; done).
  rewrite IH by done. rewrite <- orb_assoc. f_equal.
  destruct (Z.eqb_spec x b) as [->|Hne]; rewrite ?orb_true_r, ?orb_false_r.
  - symmetry. apply bool_decide_eq_true. set_solver.
  - apply bool_decide_ext. set_solver.
Qed.

(** The blocks of the log, at the end of the disk, and the image with their
    bits set. *)
Definition log_blocks : list Z := seqZ (sb_size mk_sb - sb_nlog mk_sb) (sb_nlog mk_sb).
Definition log_marked (img : Z → list Z) (dev : Z) : Z → Z → list Z :=
  vupd (λ _, img) dev 28 (mark (img 28) log_blocks).

Section Bitmap.
Variables (s : mk) (root : gfile) (G : list gfile) (P : Z → Z → Prop) (dev : Z).
Hypotheses (Hfin : finished s root G) (Hroom : total (view (root :: G)) ≤ nblocks).
Hypothesis HP : ∀ b, P dev b ↔ 0 ≤ b < sb_size mk_sb - sb_nlog mk_sb.

Lemma map_block b : 0 ≤ b < 1024 → BBLOCK b 200 = 28 ∧ b mod BPB = b.
Proof.
  intros Hb. unfold BBLOCK. change BPB with 4096. change (200 / IPB) with 25.
  rewrite Z.div_small, Z.mod_small by lia. done.
Qed.

Lemma kernel_in_use b : 0 ≤ b < 1024 → in_use (λ _, mk_img s) dev mk_sb b = (b <? mk_usedblocks s).
Proof using Hfin.
  clear HP P Hroom.
  intros Hb. unfold in_use. cbn [mk_sb sb_ninodes]. destruct (map_block b Hb) as [-> ->]. by apply Hfin.
Qed.

Lemma marked_in_use b : 0 ≤ b < 1024 →
  in_use (log_marked (mk_img s) dev) dev mk_sb b = (b <? mk_usedblocks s) || (1014 <=? b).
Proof using Hfin.
  clear HP P Hroom.
  intros Hb. unfold in_use, log_marked. cbn [mk_sb sb_ninodes]. destruct (map_block b Hb) as [-> ->].
  rewrite vupd_same, mark_bit.
  - rewrite (fn_bits _ _ _ Hfin b Hb). f_equal. unfold log_blocks. cbn [mk_sb sb_size sb_nlog].
    destruct (Z.leb_spec 1014 b); case_bool_decide as Hin; rewrite ?elem_of_seqZ in Hin; (done || lia).
  - apply (fn_inv _ _ _ Hfin).
  - apply Forall_forall. intros x Hx. apply elem_of_seqZ in Hx. cbn in Hx. change BPB with 4096. lia.
  - change BPB with 4096. lia.
Qed.

(** A free block of the bitmap that is the log's: not a bitmap for [balloc]. *)
Lemma image_not_geom : ¬ fs_geom P (λ _, mk_img s) dev mk_sb.
Proof using Hfin Hroom HP.
  intros [_ _ _ _ _ Hf]. cbn [mk_sb sb_size sb_ninodes] in Hf. destruct (Hf 1014) as [H _]; [lia| |].
  - rewrite kernel_in_use, (fn_used _ _ _ Hfin) by lia. apply Z.ltb_ge. unfold nblocks in Hroom. lia.
  - apply HP in H. cbn in H. lia.
Qed.

Lemma marked_geom : fs_geom P (log_marked (mk_img s) dev) dev mk_sb.
Proof using Hfin HP.
  clear Hroom.
  split; cbn [mk_sb sb_size sb_ninodes]; [|apply HP; cbn; lia|lia|lia| |].
  - unfold log_marked. rewrite vupd_ne by (intros [= ?]; lia). rewrite (fn_sb _ _ _ Hfin). vm_compute. reflexivity.
  - intros b Hb. destruct (map_block b Hb) as [-> _]. apply HP. cbn. lia.
  - intros b Hb Hu. rewrite marked_in_use in Hu by done. apply orb_false_iff in Hu as [Hu Hl].
    apply Z.ltb_ge in Hu. apply Z.leb_gt in Hl. destruct (map_block (1024 - 1)) as [-> _]; [lia|].
    rewrite (fn_used _ _ _ Hfin) in Hu. pose proof (mi_F _ _ _ (fn_inv _ _ _ Hfin)).
    split; [apply HP; cbn|]; lia.
Qed.

Lemma marked_other b : b ≠ 28 → log_marked (mk_img s) dev dev b = mk_img s b.
Proof. intros Hb. unfold log_marked. by rewrite vupd_ne by (intros [= ?]; lia). Qed.

Lemma marked_used b : 0 ≤ b < mk_usedblocks s → in_use (log_marked (mk_img s) dev) dev mk_sb b = true.
Proof using Hfin Hroom.
  clear HP P.
  intros Hb. rewrite (fn_used _ _ _ Hfin) in Hb. unfold nblocks in Hroom. rewrite marked_in_use by lia.
  rewrite (fn_used _ _ _ Hfin). by rewrite (proj2 (Z.ltb_lt _ _)) by lia.
Qed.
Lemma image_used b : 0 ≤ b < mk_usedblocks s → in_use (λ _, mk_img s) dev mk_sb b = true.
Proof using Hfin Hroom.
  clear HP P.
  intros Hb. pose proof Hb as Hb'. rewrite (fn_used _ _ _ Hfin) in Hb'. unfold nblocks in Hroom.
  rewrite kernel_in_use by lia. apply Z.ltb_lt. lia.
Qed.

Lemma image_zero b : mk_usedblocks s ≤ b < 1024 → mk_img s b = replicate 512 0.
Proof using Hfin. clear HP P Hroom. rewrite (fn_used _ _ _ Hfin). apply (mi_zero _ _ _ (fn_inv _ _ _ Hfin)). Qed.
End Bitmap.


(** Two small files, one of them with the leading underscore of the build. *)
Definition ex_open (name : list Z) : option (list (list Z)) :=
  if decide (name = zs "_cat") then Some [zs "first "; zs "second"] else Some [].
Definition ex_args : list (list Z) := [zs "_cat"; zs "empty"].

